(* ===== verification/_CoqProject ===== *)
-Q . S2P
Prelude.v
RustStr.v
RustText.v
Paths.v
IpAddr.v
VpnConfig.v
SessionTime.v
CloudTime.v
Utf8.v
Base64.v
ClientHello.v
CertAuthority.v
Proto.v
Transport.v
HostState.v
DomainPolicy.v
HttpPolicy.v
NetPolicy.v
Sse.v
Events.v
Trace.v
AnthropicStream.v
OpenAiStream.v
GoogleStream.v
AiBody.v
RequestParser.v
Pricing.v
MitmParts.v
VpnTunnel.v
EventLog.v
ProxyConn.v
LogReader.v
LogReadback.v
McpTypes.v
BuiltinTools.v
McpManager.v
McpGateway.v
McpDetect.v
GuestRelay.v
Provider.v
ProxyRequest.v
ModelTelemetry.v
Settings.v
SettingsPolicy.v
SettingsLint.v
SettingsTree.v
SettingsRegistry.v
GuestConfig.v
SettingsStore.v
Boot.v
Sentinel.v
AgentControl.v
PortWatch.v
PortForward.v
FsWatch.v
SysWatch.v
Vm.v
SessionIndex.v
SessionCleanup.v
VenvStore.v
Storage.v
Archives.v
Snapshots.v
Cloud.v
CloudSync.v
RemoteMode.v
Assets.v
HostTerminal.v
Bridge.v
HostApp.v
VenvLife.v
HostCli.v
HostControl.v
HostWatch.v
ProxyConfig.v
Desktop.v
VmMachine.v
AgentStart.v
Queries.v
