(* ===== verification/Prelude.v ===== *)
(** * Clawcage: a verification library

    Clawcage runs AI coding agents inside a virtual machine and mediates what leaves it.
    The host application boots the VM, sends it a configuration over a framed vsock
    protocol, and proxies its network traffic: a MITM proxy decides each request by
    policies derived from layered settings files, records the model calls it sees in the
    providers' event streams, and an MCP gateway exposes built-in tools and the host's
    own MCP servers. A guest agent inside the VM applies the configuration, runs shells
    and commands, and reports files, ports and metrics.

    ** Parts, files and sources

    Every path is under src/crates/. A definition has the name of the Rust item it
    translates; a method [T::m] is [T_m] where the bare name is taken.

    Foundations
    - Prelude: results, machine integers (a value of width w is a Z, [as_uN] its wrap),
      big-endian bytes, list lemmas, shared tactics and hints.
    - RustStr, RustText, Utf8: the methods of str and the UTF-8 decoders the sources call,
      and the lines and fields of printable text. Unicode case mapping is the class
      [UnicodeCase].
    - IpAddr: the parsers and printers of std::net, which are inverse to each other.
    - Paths: joining and splitting of paths. Base64: the encoder and the decoder of the
      venvs' icons (clawcage-app/src/venvs.rs).

    Host/guest protocol
    - Proto: clawcage-proto/src/lib.rs and the receivers of clawcage-agent/src/main.rs:
      frames, messages, boot validation, terminal frames. MessagePack is the class [Rmp].
    - HostState: clawcage-core/src/host_state.rs, the lifecycle [StateMachine] and the
      message filters of both directions.
    - Boot: the boot handshake, both ends: send_boot_config_for_venv of
      clawcage-app/src/main.rs and steps 3a and 3b of the agent's main.
    - Sentinel, AgentControl: the agent's terminal scanner and control loop, over a
      class [Kernel] for the system calls. Bridge: the output bridge over all shells, and
      the threads that run a command in one. AgentStart: main, from the connections to the
      bridge, with the template's setup script over any sequence of boots and shells.
    - PortWatch, FsWatch, SysWatch: the agent's watchers (port_watch.rs, fs_watch.rs,
      sys_watch.rs). PortForward: a forwarded port, from the host's client (commands.rs) to
      the service in the guest (relay_worker of port_watch.rs), a step relation.
    - Transport: transport.rs of the agent, connecting and whole reads and writes.
      GuestRelay: the relays of connections (net_proxy.rs) and of MCP clients
      (mcp_server.rs).
    - Vm: clawcage-core/src/vm/config.rs and the output buffer of vm/vsock.rs. VmMachine:
      machine.rs, boot.rs, serial.rs and the listener of vsock.rs, over a class
      [Virtualization] for Apple's framework, with the console's way to the terminal.

    Settings and policies (clawcage-core/src/net/)
    - Settings, SettingsPolicy, GuestConfig: policy_config.rs. A settings file is a
      finite map; [resolve_settings_with_venv] merges the three files over the
      registered definitions; the translations to the policies, the VM settings and the
      guest's boot configuration take the resolved list.
    - SettingsLint: policy_config.rs, [config_lint] and [validate_setting_value]; the
      lint reports an error exactly on the settings whose value is invalid.
    - SettingsTree: policy_config.rs, [collect_settings] and [build_settings_tree] over a
      TOML table. SettingsRegistry: the shipped config/defaults.toml as such a table.
      SettingsStore: the files on a disk, and the settings commands of
      clawcage-app/src/commands.rs with the reload of the running policies.
    - DomainPolicy, HttpPolicy, NetPolicy: domain_policy.rs, http_policy.rs, policy.rs.

    Model traffic (clawcage-core/src/gateway/)
    - Sse: sse.rs, the incremental event-stream parser.
    - Events: events.rs, the provider-neutral events and [collect_summary]. Its classes
      [SerdeJson], [FromJson], [Gzip] and [ProviderStreamParser] are what the provider
      parsers and their clients are written against.
    - AnthropicStream, OpenAiStream, GoogleStream, Provider: the provider parsers and
      provider.rs; the wire records are the serde types, decoding is an interface.
    - AiBody: ai_body.rs, the body that forwards frames and feeds the parsers.
    - Trace, RequestParser, Pricing: mod.rs, request_parser.rs, pricing.rs.

    The MITM proxy (clawcage-core/src/net/mitm_proxy.rs)
    - CertAuthority: cert_authority.rs of the same directory, the cache of minted
      certificates shared by concurrent handshakes, over a class [Pki].
    - ClientHello: the first bytes of a connection, the relay's metadata line and the
      server name of the TLS hello.
    - MitmParts: rate limiter, credentials, headers in the log, tracked and decompressed
      bodies, the telemetry wrapper. ProxyConn: [handle_connection] down to the tunnel.
      ProxyRequest: [handle_request], the telemetry record and the session of requests.
      ModelTelemetry composes them with the stream parsers. ProxyConfig: the proxy's
      configuration from the settings (build_mitm_config of clawcage-app/src/main.rs).

    The VPN (clawcage-core/src/net/vpn/)
    - VpnConfig: config.rs, the WireGuard configuration parser. VpnTunnel: tunnel.rs and
      mod.rs, over the classes [Noise] (boringtun) and [NetStack] (smoltcp); the tunnels
      and the tasks that poll them are a store, since a connection and the manager hold
      the same tunnel.

    The event log (clawcage-logger/src/)
    - EventLog: events.rs, schema.rs, writer.rs: records, rows, batches, transactions.
    - LogReader, LogReadback: reader.rs, and what a reader sees of what was written.

    Sessions (clawcage-core/src/session.rs, clawcage-app/src/main.rs)
    - SessionTime: session ids and the dates of the index. SessionIndex: the statements of
      the index and the application's startup and shutdown of sessions, over the
      directory of sessions as data. SessionCleanup: what the startup guarantees.

    The application (clawcage-app/src/)
    - HostTerminal: state.rs and the terminal threads of main.rs, from the output queues
      the UI polls to the input thread; a poll that blocks is a step relation.
    - HostApp: the application's state, booting and stopping a venv, and the sorting of
      the guest's connections. HostControl: the control channel of the host and the
      commands that use it. HostWatch: the readers of the watchers' channels.
    - Assets: clawcage-core/src/asset_manager.rs and where main.rs looks for the root file
      system; names and inodes are separate, since two downloads share a temporary file.
      HostCli: run_cli of main.rs, from the arguments to the exit code.
    - VenvStore: the table of venvs and their files (venvs.rs), with the list it
      implements. VenvLife: starting, stopping and deleting a venv, and its scratch disk.
    - Desktop: the tray menu, the end of the application and the updates (main.rs).
    - Queries: get_vm_state, get_session_info and query_db of commands.rs.
    - Storage: list_storage, delete_storage and host_disk_free of commands.rs over a tree
      of files.
    - Archives, Snapshots: snapshots.rs, the sparse copy, the archive, and cloning,
      exporting and importing venvs over the laws of tar, zstd, cp and dd.
    - Cloud, CloudTime, CloudSync: cloud.rs, the configuration and the keys, the clock of
      the automatic synchronisation, and the transfers. RemoteMode: remote_mode.rs and the
      session calls of cloud.rs, over a class [Remote] for ssh and the shell's pipelines.

    MCP (clawcage-core/src/mcp/)
    - McpTypes (types.rs, policy.rs), McpManager (server_manager.rs, stdio_bridge.rs, over
      a class [ServerProcess]), BuiltinTools (builtin_tools.rs, over [WebDeps]),
      McpGateway (gateway.rs), McpDetect (mod.rs).

    ** How state and effects are modelled

    Mutable state is threaded: a method taking [&mut self] returns the new value. A lock
    held for the length of a call disappears; where the order of calls matters it is an
    explicit list of steps (Boot, AgentControl, McpGateway, AiBody, FsWatch). Sockets are
    data: the outcome of each read, handshake or connection attempt, where one that never
    completes has a value of its own, and a body is the list of its polls. The proxy's
    connections share a [ProxyState], threaded through them; the telemetry tasks they
    spawn run in any given order. A SQL table is the list of its rows. Errors are
    [result]; a panic (a slice inside a character, an index out of range) is [None] or a
    constructor of its own, so a theorem that a call returns says there is none. Code
    outside the repository is a class or a section variable; what the code relies on of
    it is a named law (the MessagePack round trip in [RmpRoundtrip], case mapping in
    [UnicodeCase]), and each has an instance the examples and witnesses run on. HashMap
    iteration order is a list argument or the order of the finite map.

    ** What the theorems show

    - Access: a locked-off service stays denied whatever the user or a venv writes
      ([corp_block_enforced]); the precedence of the files ([settings_precedence]); an
      update is what the next load sees ([updated_setting_effective]), the corporate block
      survives every sequence of them in the running VMs ([updates_keep_corp_block]), and
      a reload goes to the focused VM ([hot_reload_installs]); the UI's tree holds every
      setting once, at its place ([settings_tree_complete], checked on the shipped registry
      by [shipped_document_ok]); the decisions of the engines ([domain_decision],
      [fully_blocked_iff_all_denied]); where
      the engines disagree or do not restrict ([custom_block_engines],
      [http_permissions_never_deny]); no connection of the guest makes the proxy dial a
      host the policy does not allow ([only_allowed_hosts_dialed],
      [write_denied_not_tunnelled]), a refused request is answered and reported by the
      proxy alone ([refused_request_reported]), what the guest sends as authorization or
      x-api-key is not forwarded ([guest_keys_replaced]; every other header is, and so is the
      query) and the host's go where their pattern says
      ([credential_selection]), each key to its own provider ([host_keys_go_home]), or
      nowhere without isolation ([no_isolation_no_keys]); no tool reaches a denied host
      ([denied_domain_not_fetched]); no blocked tool is called ([blocked_tool_denied]), though logging the call may panic.
    - Boot and control: no guest message is accepted before its phase
      ([guest_message_accepted_after_boot]), the lifecycle ends ([lifecycle_terminates]);
      what the settings say is what the guest boots with, template setup included
      ([boot_config_applied]), unless the preview of a variable panics; it is checked
      at both ends ([guest_config_boot_safe], [accepted_env_key_safe],
      [accepted_path_never_escapes]) and without API keys ([api_keys_isolated]); the
      handshake ends ([boot_handshake_ends]) but an oversized message cuts it short
      ([oversized_boot_message_cuts]); frames round-trip ([host_stream_roundtrip],
      [terminal_frames_routed]).
    - Agent: command quoting ([exec_command_quoted]); detection of the exit sentinel
      across reads, with no loss of output ([sentinel_reported],
      [output_without_sentinel_kept]) and its failure mode ([malformed_sentinel_stalls]);
      the bridge forwards what it reads of a command's output before its end
      ([exec_bridged]), closes the
      shells that end ([ended_shells_reaped]) and stalls when the shell of a command ends
      ([lost_shell_stalls_exec]); it is ready once its shell runs ([ready_means_started]),
      and a template's setup reaches the first shell and is not run again after it succeeded
      ([setup_delivered], [setup_not_repeated]); partial reads and writes make whole ones
      ([read_exact_fd_exact], [write_all_fd_whole]); the proxy and the gateway get the name
      and the bytes of the guest's process ([connection_attributed], [mcp_session_relayed]);
      a forwarded port delivers both directions ([bridge_prefix], [bridge_delivery]) up to the
      end of an answer ([answer_complete]);
      downloads ([large_file_download]); the watchers' reports ([host_view_exact],
      [last_action_reported]); the VM configuration ([config_built_iff_valid]) and the
      machine it makes ([created_configuration]), whose console output reaches the terminal
      ([console_sublist], [console_delivered]) but whose descriptors leak when its creation
      fails late ([create_descriptors]).
    - Streams: the incremental parser equals a line-splitting reference for every
      chunking ([chunked_feed_reference]) and inverts rendering
      ([rendered_events_parsed]); the forwarding body neither changes the stream nor
      misses an event ([body_forwarded_and_parsed]); the summaries of whole messages
      ([summary_tool_calls], [anthropic_message_summary], [openai_chat_summary],
      [google_tool_calls]); trace ownership ([trace_lookup_owner]); price selection
      ([price_selection]).
    - Proxy and log: one certificate per domain ([one_certificate_per_domain],
      [minted_certificate]), never renewed ([certificate_never_renewed]); the server name of a connection ([sni_parser_total],
      [sni_roundtrip], [metadata_read]); bounds of bodies and of logged text
      ([tracked_body_bounds], [cap_field_bounds]); no secret header value in the log
      ([headers_redacted]); a streamed message is logged as it was sent
      ([streamed_message_logged]) in the trace of its conversation ([trace_continues]);
      the writer stores the batches it drains, each whole or not at all
      ([writer_atomic_batches]) and the reader returns
      what was written ([events_readback], [trace_readback]).
    - VPN: what the parser accepts is well-formed ([accepted_config_wellformed]) and a
      printed configuration is read back ([vpn_config_roundtrip]); the offered tunnel is
      polled, and the status shows the endpoint of the last configuration that parsed, which
      need not be its own ([offered_tunnel_is_polled]); a disconnect that overlaps a connect
      leaves no tunnel ([disconnect_while_connecting]); without one traffic goes out directly
      ([vpn_failure_goes_direct]).
    - Sessions: dates are the civil dates of their seconds ([epoch_date_roundtrip]) and
      sort as text like the seconds ([iso_order]); ids are valid ([generated_id_valid]);
      the startup keeps the lifecycle, the bounds and the directories of the sessions
      ([cleanup_postcondition]) unless the index fails ([index_error_removes_sessions]).
    - Application: the setup of a VM ends when its two channels are there
      ([setup_runs_iff_ready]) and a boot is undone by a stop ([boot_then_stop]); output,
      input and downloads arrive unchanged, these in the file of the host the user named
      ([terminal_output_delivered], [input_reaches_shell], [download_delivered]), and their failure modes
      ([binary_chunk_ends_control], [other_session_input_lost]); no wake-up is lost by one
      poller ([single_poller_woken]) but one is by two ([second_poller_stuck]); the ports
      (those of the listening sockets), processes, forwards and file events of the guest are
      those the host shows and logs
      ([host_ports_exact], [forwards_consistent], [file_activity_logged]).
    - Assets, command line, venvs: what a download that runs alone installs has the hash
      of the manifest, and a server that stalls hangs it ([downloaded_asset_verified],
      [hung_download]), manifests are read back ([manifest_roundtrip]); a
      command's exit code is the guest's ([cli_exit_code]) and its session is recorded
      ([cli_session_recorded]); the table of venvs is a list ([venv_commands_refine]),
      listed with its live status ([listed_status_live]); a persistent scratch disk
      outlives a boot ([scratch_lifetime]), a stop keeps the usage ([stop_saves_usage]);
      images are sent and read back ([base64_roundtrip], [icon_shown]);
      the tray's entries start and stop venvs ([tray_entry_acts]), the application exits
      with none running ([exit_stops_all]), updates ([update_check]); what the frontend is
      shown of a session is its history, its log and its record ([shown_history],
      [session_info_shown]), and its queries write nothing ([queries_read_only]); what the storage
      page lists can be deleted ([listed_entry_deleted]), and nothing outside the
      directory by a path without dots ([delete_confined]).
    - Copies of venvs: a sparse copy equals its source ([sparsify_exact]); an exported venv
      is imported as it was ([exported_venv_imported]) and stays in its directory when the
      names of the archive are plain ([import_confined]); each request of an upload is pinned, and the content
      of the venv is in it only encrypted with the account's key ([uploads_encrypted]), what was synchronised is restored with the same key
      ([synced_venv_restored]), which never changes while the keychain works
      ([key_kept]); how often venvs are synchronised ([auto_sync_interval]); a detach
      leaves the venv remote, with its disk mounted on the server, or local
      ([detach_outcome]), a reattach brings the server's
      disk back or can be repeated ([reattach_outcome]).
    - MCP: routing of names and calls ([namespace_roundtrip], [catalog_routable],
      [tool_call_routed]); paging ([pages_reassemble]).

    ** Fuel

    Five loops run on fuel. A directory is created after its parents, which are shorter
    ([create_dir_all_fuel]). The terminal reader consumes at least eight bytes a step and
    the boot loop at least four, so one unit per remaining byte is enough
    ([terminal_frames_routed], [boot_handshake_ends]). The wait for an MCP server's answer
    ends only when the server answers: [OutOfFuel] is a wait for ever, and
    [tool_call_routed] states how much fuel an answering server needs. The end of the
    application asks for the exit again until no venv runs; two rounds are enough
    ([exit_stops_all]).

    ** Not modelled

    TLS, HTTP framing and the encodings of certificates, cryptography and compression,
    which are libraries; the binding to the virtualisation framework below the interface
    of VmMachine; the window system with its icons, dialogs and web view, and the commands
    that only pass a call on to another module; logging and tracing, the agent's boot log
    with them; the definition tables of the built-in tools, which are data;
    clawcage-core/src/net/telemetry.rs, which no module declares. *)

From Stdlib Require Import ZArith Lia Strings.Byte Ascii.
From stdpp Require Import base numbers list gmap strings sorting pretty.

#[global] Open Scope Z_scope.
#[global] Open Scope list_scope.

(** ** Results: Rust's [Result<T, E>] and the [?] operator *)

Inductive result (A E : Type) : Type :=
| Ok (a : A)
| Err (e : E).
Arguments Ok {A E} a.
Arguments Err {A E} e.

Declare Scope rust_scope.
Delimit Scope rust_scope with rust.

Notation "'let?' x := e 'in' k" :=
  (match e with Ok x => k | Err err => Err err end)
  (at level 10, x pattern, e at level 200, k at level 200) : rust_scope.
#[global] Open Scope rust_scope.

Definition is_ok {A E} (r : result A E) : bool :=
  match r with Ok _ => true | Err _ => false end.

Definition result_ok {A E} (r : result A E) : option A :=
  match r with Ok a => Some a | Err _ => None end.

#[global] Instance result_eq_dec {A E} `{EqDecision A, EqDecision E} :
  EqDecision (result A E).
Proof. solve_decision. Defined.

(** ** Tactics shared by the development *)

(** Case analysis on every [match]/[if] of the goal, closing what is easy. *)
Ltac crush_match := repeat (case_match; simplify_eq/=; try done).

(** Same for a hypothesis. *)
Ltac crush_match_in H :=
  repeat (let E := fresh "E" in
          match type of H with
          | context [match ?x with _ => _ end] => destruct x eqn:E; simplify_eq/=; try done
          end).

Create HintDb rust.
Create Rewrite HintDb rust.
#[export] Hint Rewrite andb_true_iff orb_true_iff andb_false_iff orb_false_iff
  negb_true_iff negb_false_iff : rust.

(** ** Machine integers

    A Rust unsigned integer of width [w] is a [Z] in [[0, 2^w)]; [as] casts and
    wrapping arithmetic reduce modulo [2^w]. *)

Definition uN_max (w : Z) : Z := 2 ^ w - 1.
Definition as_uN (w : Z) (z : Z) : Z := z mod 2 ^ w.
Definition in_uN (w : Z) (z : Z) : Prop := 0 <= z < 2 ^ w.

Definition saturating_sub (a b : Z) : Z := Z.max 0 (a - b).

Lemma as_uN_range w z : 0 <= w -> in_uN w (as_uN w z).
Proof. intros. unfold in_uN, as_uN. apply Z.mod_pos_bound. lia. Qed.

Lemma as_uN_small w z : in_uN w z -> as_uN w z = z.
Proof. intros. apply Z.mod_small. done. Qed.

Lemma saturating_sub_0 a b : a <= b -> saturating_sub a b = 0.
Proof. unfold saturating_sub. lia. Qed.

(** ** Bytes and big-endian integers *)

Abbreviation byte := Byte.byte.

#[global] Instance byte_eq_dec : EqDecision byte := Byte.byte_eq_dec.

Definition byte_of_Z (z : Z) : byte :=
  match Byte.of_N (Z.to_N (z mod 256)) with Some b => b | None => Byte.x00 end.

Definition byte_to_Z (b : byte) : Z := Z.of_N (Byte.to_N b).

Lemma byte_to_Z_range b : 0 <= byte_to_Z b < 256.
Proof. unfold byte_to_Z. pose proof (Byte.to_N_bounded b). lia. Qed.

Lemma byte_of_to_Z b : byte_of_Z (byte_to_Z b) = b.
Proof.
  unfold byte_of_Z. rewrite Z.mod_small by apply byte_to_Z_range.
  unfold byte_to_Z. rewrite N2Z.id, Byte.of_to_N. done.
Qed.

Lemma byte_to_of_Z z : byte_to_Z (byte_of_Z z) = z mod 256.
Proof.
  unfold byte_of_Z. pose proof (Z.mod_pos_bound z 256 ltac:(lia)).
  destruct (Byte.of_N _) as [b|] eqn:E.
  - apply Byte.to_of_N in E. unfold byte_to_Z. rewrite E. lia.
  - apply Byte.of_N_None_iff in E. lia.
Qed.

(** [n.to_be_bytes()] for an integer of [n] bytes, and [from_be_bytes]. *)
Fixpoint to_be_bytes (n : nat) (z : Z) : list byte :=
  match n with
  | O => []
  | S n => byte_of_Z (Z.shiftr z (8 * Z.of_nat n)) :: to_be_bytes n z
  end.

Definition from_be_bytes (bs : list byte) : Z :=
  fold_left (fun acc b => acc * 256 + byte_to_Z b) bs 0.

Lemma to_be_bytes_length n z : length (to_be_bytes n z) = n.
Proof. induction n; simpl; congruence. Qed.

Lemma from_be_bytes_go bs acc :
  fold_left (fun acc b => acc * 256 + byte_to_Z b) bs acc
  = acc * 256 ^ Z.of_nat (length bs) + from_be_bytes bs.
Proof.
  unfold from_be_bytes. revert acc.
  induction bs as [|b bs IH]; intros acc; cbn [fold_left length].
  - rewrite Z.pow_0_r. lia.
  - rewrite IH, (IH (0 * 256 + byte_to_Z b)).
    rewrite Nat2Z.inj_succ, Z.pow_succ_r by lia. lia.
Qed.

Lemma from_be_bytes_cons b bs :
  from_be_bytes (b :: bs) = byte_to_Z b * 256 ^ Z.of_nat (length bs) + from_be_bytes bs.
Proof.
  unfold from_be_bytes at 1. cbn [fold_left]. rewrite from_be_bytes_go.
  rewrite Z.mul_0_l, Z.add_0_l. done.
Qed.

Lemma from_to_be_bytes n z :
  from_be_bytes (to_be_bytes n z) = z mod 256 ^ Z.of_nat n.
Proof.
  induction n as [|n IH].
  - change (256 ^ Z.of_nat 0) with 1. rewrite Z.mod_1_r. done.
  - cbn [to_be_bytes]. rewrite from_be_bytes_cons, to_be_bytes_length, IH, byte_to_of_Z.
    rewrite Nat2Z.inj_succ, Z.pow_succ_r by lia.
    rewrite Z.shiftr_div_pow2 by lia.
    replace (2 ^ (8 * Z.of_nat n)) with (256 ^ Z.of_nat n)
      by (rewrite Z.pow_mul_r by lia; done).
    rewrite (Z.mul_comm 256), Z.rem_mul_r by lia. lia.
Qed.

Lemma byte_of_Z_mod z : byte_of_Z (z mod 256) = byte_of_Z z.
Proof. unfold byte_of_Z. by rewrite Z.mod_mod. Qed.

Lemma to_be_bytes_mod n z : to_be_bytes n (z mod 256 ^ Z.of_nat n) = to_be_bytes n z.
Proof.
  revert z. induction n as [|n IH]; intros z; [done|]. cbn [to_be_bytes].
  rewrite Nat2Z.inj_succ, Z.pow_succ_r by lia. rewrite <- (IH (z mod _)), <- (IH z), !Z.shiftr_div_pow2 by lia.
  replace (2 ^ (8 * Z.of_nat n)) with (256 ^ Z.of_nat n) by (rewrite Z.pow_mul_r by lia; done).
  rewrite (Z.mul_comm 256), Z.rem_mul_r by lia. f_equal.
  - rewrite (Z.mul_comm (256 ^ _)), Z.div_add, (Z.div_small (z mod _)) by (try apply Z.mod_pos_bound; lia).
    apply byte_of_Z_mod.
  - f_equal. rewrite Z.add_mod, (Z.mul_comm (256 ^ _)), Z.mod_mul, Z.add_0_r, !Z.mod_mod by lia. done.
Qed.

Lemma to_from_be_bytes l : to_be_bytes (length l) (from_be_bytes l) = l.
Proof.
  induction l as [|b l IH]; [done|]. cbn [length to_be_bytes]. rewrite from_be_bytes_cons.
  rewrite Z.shiftr_div_pow2 by lia.
  replace (2 ^ (8 * Z.of_nat (length l))) with (256 ^ Z.of_nat (length l)) by (rewrite Z.pow_mul_r by lia; done).
  assert (0 <= from_be_bytes l < 256 ^ Z.of_nat (length l)) as Hr.
  { rewrite <- IH at 1 2. rewrite from_to_be_bytes. apply Z.mod_pos_bound. lia. }
  rewrite Z.add_comm, Z.div_add, Z.div_small by lia. rewrite Z.add_0_l, byte_of_to_Z. f_equal.
  rewrite <- (to_be_bytes_mod _ (_ + _)), Z.add_comm, Z.add_mod, Z.mul_mod, Z.mod_same, Z.mul_0_r, Z.mod_0_l by lia.
  rewrite Z.add_0_l, Z.mod_mod, to_be_bytes_mod by lia. done.
Qed.

(** ** Lists *)

(** [iter().find(p)] *)
Fixpoint list_find_first {A} (p : A -> bool) (l : list A) : option A :=
  match l with
  | [] => None
  | x :: l => if p x then Some x else list_find_first p l
  end.

Lemma list_find_first_Some {A} (p : A -> bool) l x :
  list_find_first p l = Some x -> x ∈ l /\ p x = true.
Proof.
  induction l as [|y l IH]; simpl; [done|].
  destruct (p y) eqn:E; intros H.
  - injection H as ->. split; [left|done].
  - destruct (IH H). split; [by right|done].
Qed.

Lemma list_find_first_None {A} (p : A -> bool) l :
  list_find_first p l = None <-> forall x, x ∈ l -> p x = false.
Proof.
  induction l as [|y l IH]; simpl.
  - split; [|done]. intros _ x Hx. by apply not_elem_of_nil in Hx.
  - setoid_rewrite elem_of_cons. destruct (p y) eqn:E.
    + split; [done|]. intros H. rewrite H in E by auto. done.
    + rewrite IH. split; [intros H x [->|?]; auto | auto].
Qed.

Lemma list_find_first_app {A} (p : A -> bool) l1 l2 :
  list_find_first p (l1 ++ l2) =
  match list_find_first p l1 with Some x => Some x | None => list_find_first p l2 end.
Proof. induction l1 as [|y l IH]; simpl; [done|]. by destruct (p y). Qed.

Lemma existsb_elem {A} (p : A -> bool) l :
  existsb p l = true <-> exists x, x ∈ l /\ p x = true.
Proof.
  rewrite existsb_exists. setoid_rewrite list_elem_of_In. done.
Qed.

Lemma existsb_elem_false {A} (p : A -> bool) l :
  existsb p l = false <-> forall x, x ∈ l -> p x = false.
Proof.
  rewrite <- not_true_iff_false, existsb_elem. split.
  - intros H x Hx. apply not_true_is_false. eauto.
  - intros H (x & Hx & Hp). rewrite H in Hp; done.
Qed.

(** [last()] of the running value: fold with later occurrences overriding. *)
Lemma fold_left_app_assoc {A B} (f : B -> list A) (l : list B) acc :
  fold_left (fun acc x => acc ++ f x) l acc = acc ++ flat_map f l.
Proof.
  revert acc. induction l as [|x l IH]; intros acc; simpl; [by rewrite app_nil_r|].
  by rewrite IH, <- app_assoc.
Qed.

(** ** [sort_by_key]: a stable sort *)

Fixpoint insert_by_key {A} (key : A -> Z) (x : A) (l : list A) : list A :=
  match l with
  | [] => [x]
  | y :: l' => if key x <=? key y then x :: l else y :: insert_by_key key x l'
  end.

Definition sort_by_key {A} (key : A -> Z) (l : list A) : list A :=
  foldr (insert_by_key key) [] l.

Lemma insert_by_key_Permutation {A} (key : A -> Z) x l : insert_by_key key x l ≡ₚ x :: l.
Proof.
  induction l as [|y l IH]; simpl; [done|]. destruct (_ <=? _); [done|].
  rewrite IH. apply Permutation_swap.
Qed.

Lemma sort_by_key_Permutation {A} (key : A -> Z) l : sort_by_key key l ≡ₚ l.
Proof.
  induction l as [|x l IH]; simpl; [done|]. by rewrite insert_by_key_Permutation, IH.
Qed.

Lemma insert_by_key_Sorted {A} (key : A -> Z) x l :
  StronglySorted (fun a b => key a <= key b) l ->
  StronglySorted (fun a b => key a <= key b) (insert_by_key key x l).
Proof.
  induction 1 as [|y l Hs IH Hy]; simpl; [by repeat constructor|].
  destruct (Z.leb_spec (key x) (key y)).
  - repeat constructor; try done. eapply Forall_impl; [exact Hy|]. simpl. lia.
  - constructor; [done|]. rewrite insert_by_key_Permutation. constructor; [lia|done].
Qed.

Lemma sort_by_key_Sorted {A} (key : A -> Z) l :
  StronglySorted (fun a b => key a <= key b) (sort_by_key key l).
Proof.
  induction l as [|x l IH]; simpl; [constructor|]. by apply insert_by_key_Sorted.
Qed.

(** The last [Some] of a list. *)
Fixpoint last_some {A} (l : list (option A)) : option A :=
  match l with
  | [] => None
  | x :: l => match last_some l with Some y => Some y | None => x end
  end.

(** A list already sorted by distinct keys is what sorting any rearrangement of it gives. *)
Lemma sort_by_key_unique {A} (key : A -> Z) l l' :
  l ≡ₚ l' -> StronglySorted (fun a b => key a < key b) l' -> sort_by_key key l = l'.
Proof.
  intros Hp Hs. apply (StronglySorted_unique_strong (fun a b => key a <= key b)).
  - intros x y Hx Hy Hxy Hyx. rewrite sort_by_key_Permutation, Hp in Hx.
    assert (forall l, StronglySorted (fun a b => key a < key b) l ->
              forall a b, a ∈ l -> b ∈ l -> key a = key b -> a = b) as Hinj.
    { clear. induction 1 as [|z l Hs IH Hz]; [by intros a b ?%not_elem_of_nil|].
      rewrite Forall_forall in Hz. intros a b [->|Ha]%elem_of_cons [->|Hb]%elem_of_cons Hk;
        [done| | |by apply IH]; [apply Hz in Hb|apply Hz in Ha]; lia. }
    apply (Hinj l'); [done|done|done|lia].
  - apply sort_by_key_Sorted.
  - clear Hp. induction Hs as [|z l0 Hs IH Hz]; constructor; [done|].
    eapply Forall_impl; [exact Hz|]. simpl. lia.
  - by rewrite sort_by_key_Permutation.
Qed.

Lemma last_some_app {A} (l1 l2 : list (option A)) :
  last_some (l1 ++ l2) = match last_some l2 with Some y => Some y | None => last_some l1 end.
Proof.
  induction l1 as [|x l1 IH]; simpl; [by destruct (last_some l2)|]. rewrite IH.
  by destruct (last_some l2).
Qed.

Lemma last_some_None {A} (l : list (option A)) :
  Forall (fun x => x = None) l -> last_some l = None.
Proof. induction 1 as [|x l -> _ IH]; simpl; [done|]. by rewrite IH. Qed.
