(* ===== verification/RustStr.v ===== *)
(** Rust strings.

    A [&str] or [String] is the list of its UTF-8 bytes, a [String.string].
    This file models the methods of [str] the program uses, with the lemmas
    the components share: prefixes and suffixes, searching, splitting,
    characters and Unicode white space, integer parsing and printing, slicing
    at character boundaries, and the case mappings as an interface. *)

From Stdlib Require Import ZArith Lia Ascii.
From stdpp Require Import base numbers list strings pretty.
From S2P Require Import Prelude.

(** ** Append *)

Lemma sapp_nil_l (s : string) : "" +:+ s = s.
Proof. done. Qed.

Lemma sapp_cons c (s t : string) : String c s +:+ t = String c (s +:+ t).
Proof. done. Qed.

Lemma sapp_nil_r (s : string) : s +:+ "" = s.
Proof. induction s as [|c s IH]; [done|]. by rewrite sapp_cons, IH. Qed.

Lemma sapp_assoc (a b c : string) : a +:+ (b +:+ c) = (a +:+ b) +:+ c.
Proof. induction a as [|x a IH]; [done|]. by rewrite !sapp_cons, IH. Qed.

Lemma slength_app (a b : string) :
  String.length (a +:+ b) = (String.length a + String.length b)%nat.
Proof. induction a as [|x a IH]; [done|]. rewrite sapp_cons. simpl. by rewrite IH. Qed.

Lemma sapp_inv_l (p a b : string) : p +:+ a = p +:+ b -> a = b.
Proof. induction p as [|c p IH]; [done|]. rewrite !sapp_cons. intros H. injection H. auto. Qed.

Lemma sapp_inv_r (a b q : string) : a +:+ q = b +:+ q -> a = b.
Proof.
  revert b. induction a as [|c a IH]; intros [|d b]; [done| | |].
  - intros H. apply (f_equal String.length) in H.
    rewrite sapp_cons, sapp_nil_l in H. simpl in H. rewrite slength_app in H. lia.
  - intros H. apply (f_equal String.length) in H.
    rewrite sapp_cons, sapp_nil_l in H. simpl in H. rewrite slength_app in H. lia.
  - rewrite !sapp_cons. intros H. injection H as -> H. by rewrite (IH _ H).
Qed.

Lemma slength_0 (s : string) : String.length s = 0%nat -> s = "".
Proof. by destruct s. Qed.

(** A split of one string at two places. *)
Lemma sapp_eq_app (a b c d : string) :
  a +:+ b = c +:+ d ->
  exists k, (a = c +:+ k /\ d = k +:+ b) \/ (c = a +:+ k /\ b = k +:+ d).
Proof.
  revert c. induction a as [|x a IH]; intros c; simpl.
  - rewrite sapp_nil_l. intros ->. exists c. right. done.
  - destruct c as [|y c].
    + rewrite sapp_nil_l. intros <-. exists (String x a). left. done.
    + rewrite !sapp_cons. intros H. injection H as -> H.
      destruct (IH _ H) as (k & [[-> ->]|[-> ->]]); exists k; [left|right]; done.
Qed.

Definition slen (s : string) : Z := Z.of_nat (String.length s).

Definition is_empty (s : string) : bool := match s with EmptyString => true | _ => false end.

Lemma is_empty_true s : is_empty s = true <-> s = "".
Proof. by destruct s. Qed.

(** ** Prefixes and suffixes *)

(** [s.strip_prefix(p)] *)
Fixpoint strip_prefix (p s : string) : option string :=
  match p, s with
  | EmptyString, _ => Some s
  | String c p, String d s => if bool_decide (c = d) then strip_prefix p s else None
  | String _ _, EmptyString => None
  end.

(** [s.starts_with(p)] *)
Definition starts_with (s p : string) : bool :=
  match strip_prefix p s with Some _ => true | None => false end.

(** [s.strip_suffix(q)] *)
Fixpoint strip_suffix (q s : string) : option string :=
  if bool_decide (s = q) then Some ""
  else match s with
       | EmptyString => None
       | String c s => option_map (String c) (strip_suffix q s)
       end.

(** [s.ends_with(q)] *)
Definition ends_with (s q : string) : bool :=
  match strip_suffix q s with Some _ => true | None => false end.

Lemma strip_prefix_Some p s r : strip_prefix p s = Some r <-> s = p +:+ r.
Proof.
  revert s. induction p as [|c p IH]; intros s; simpl.
  - rewrite sapp_nil_l. split; [by intros [= ->]|by intros ->].
  - destruct s as [|d s]; [split; [done|by rewrite sapp_cons]|].
    rewrite sapp_cons. case_bool_decide.
    + subst. rewrite IH. split; [by intros ->|by intros [= ->]].
    + split; [done|]. intros [= -> ?]. done.
Qed.

Lemma starts_with_spec s p : starts_with s p = true <-> exists r, s = p +:+ r.
Proof.
  unfold starts_with. destruct (strip_prefix p s) as [r|] eqn:E.
  - apply strip_prefix_Some in E. split; eauto.
  - split; [done|]. intros [r Hr]. apply strip_prefix_Some in Hr. congruence.
Qed.

Lemma strip_prefix_app p r : strip_prefix p (p +:+ r) = Some r.
Proof. by apply strip_prefix_Some. Qed.

Lemma strip_suffix_Some q s r : strip_suffix q s = Some r <-> s = r +:+ q.
Proof.
  revert r. induction s as [|c s IH]; intros r; cbn [strip_suffix]; case_bool_decide as E.
  - subst. split; [by intros [= <-]|].
    intros H. symmetry in H. destruct r; [done|]. by rewrite sapp_cons in H.
  - split; [done|]. destruct r; [done|by rewrite sapp_cons].
  - subst. split; [intros [= <-]; done|]. intros H.
    apply (sapp_inv_r "") in H. by subst.
  - destruct r as [|d r].
    + rewrite sapp_nil_l. split; [|done].
      by destruct (strip_suffix q s).
    + rewrite sapp_cons. specialize (IH r). destruct (strip_suffix q s) as [r'|] eqn:Es; simpl.
      * split; [intros [= -> ->]; f_equal; by apply IH|].
        intros [= -> H]. apply IH in H. by simplify_eq.
      * split; [done|]. intros [= -> H]. apply IH in H. done.
Qed.

Lemma ends_with_spec s q : ends_with s q = true <-> exists r, s = r +:+ q.
Proof.
  unfold ends_with. destruct (strip_suffix q s) as [r|] eqn:E.
  - apply strip_suffix_Some in E. split; eauto.
  - split; [done|]. intros [r Hr]. apply strip_suffix_Some in Hr. congruence.
Qed.

Lemma ends_with_app r q : ends_with (r +:+ q) q = true.
Proof. apply ends_with_spec. eauto. Qed.

Lemma strip_prefix_length p s r :
  strip_prefix p s = Some r ->
  String.length s = (String.length p + String.length r)%nat.
Proof. intros ->%strip_prefix_Some. apply slength_app. Qed.

(** ** Searching *)

(** [s.find(p)]: the byte offset of the first occurrence. *)
Fixpoint find_str (p s : string) : option nat :=
  if starts_with s p then Some 0%nat
  else match s with
       | EmptyString => None
       | String _ s => option_map S (find_str p s)
       end.

(** [s.contains(p)] *)
Definition str_contains (s p : string) : bool :=
  match find_str p s with Some _ => true | None => false end.

(** [s.find(c)] for a character, and [s.contains(c)]. *)
Fixpoint find_char (c : ascii) (s : string) : option nat :=
  match s with
  | EmptyString => None
  | String d s => if bool_decide (d = c) then Some 0%nat else option_map S (find_char c s)
  end.

Definition contains_char (s : string) (c : ascii) : bool :=
  match find_char c s with Some _ => true | None => false end.

(** [s.rfind(c)]: the offset of the last occurrence. *)
Fixpoint rfind_char (c : ascii) (s : string) : option nat :=
  match s with
  | EmptyString => None
  | String d s =>
      match rfind_char c s with
      | Some n => Some (S n)
      | None => if bool_decide (d = c) then Some 0%nat else None
      end
  end.

(** [&s[..n]] and [&s[n..]] as byte operations (no boundary check). *)
Fixpoint stake (n : nat) (s : string) : string :=
  match n, s with
  | S n, String c s => String c (stake n s)
  | _, _ => ""
  end.

Fixpoint sdrop (n : nat) (s : string) : string :=
  match n, s with
  | S n, String _ s => sdrop n s
  | O, _ => s
  | S _, EmptyString => ""
  end.

Lemma stake_sdrop n s : stake n s +:+ sdrop n s = s.
Proof. revert s. induction n as [|n IH]; intros [|c s]; simpl; try done. by rewrite sapp_cons, IH. Qed.

Lemma stake_app (a b : string) : stake (String.length a) (a +:+ b) = a.
Proof. induction a as [|c a IH]; simpl; [by destruct b|]. by rewrite IH. Qed.

Lemma sdrop_app (a b : string) : sdrop (String.length a) (a +:+ b) = b.
Proof. induction a as [|c a IH]; simpl; [by destruct b|]. done. Qed.

Lemma stake_length n s : (n <= String.length s)%nat -> String.length (stake n s) = n.
Proof.
  revert s. induction n as [|n IH]; intros [|c s]; simpl; try lia. intros. rewrite IH; lia.
Qed.

Lemma find_str_Some p s n :
  find_str p s = Some n ->
  exists a b, s = a +:+ p +:+ b /\ String.length a = n.
Proof.
  revert n. induction s as [|c s IH]; intros n; cbn [find_str];
    destruct (starts_with _ p) eqn:E; try done.
  - intros [= <-]. apply starts_with_spec in E as [r ->]. by exists "", r.
  - intros [= <-]. apply starts_with_spec in E as [r ->]. by exists "", r.
  - destruct (find_str p s) as [m|]; [|done]. intros [= <-].
    destruct (IH _ eq_refl) as (a & b & -> & <-). by exists (String c a), b.
Qed.

(** The match found is the leftmost one. *)
Lemma find_str_first p s n a b :
  find_str p s = Some n -> s = a +:+ p +:+ b -> (n <= String.length a)%nat.
Proof.
  revert n a. induction s as [|c s IH]; intros n a; cbn [find_str];
    destruct (starts_with _ p) eqn:E; try done; intros H Hs.
  - injection H as <-. lia.
  - injection H as <-. lia.
  - destruct (find_str p s) as [m|]; [|done]. injection H as <-.
    destruct a as [|d a].
    + rewrite sapp_nil_l in Hs. exfalso. apply not_true_iff_false in E. apply E.
      apply starts_with_spec. eauto.
    + rewrite sapp_cons in Hs. injection Hs as -> Hs. specialize (IH _ _ eq_refl Hs). simpl. lia.
Qed.

Lemma find_str_None p s :
  find_str p s = None <-> forall a b, s <> a +:+ p +:+ b.
Proof.
  split.
  - induction s as [|c s IH]; cbn [find_str]; destruct (starts_with _ p) eqn:E; try done.
    + intros _ a b H. symmetry in H. destruct a as [|d a]; [|by rewrite sapp_cons in H].
      rewrite sapp_nil_l in H. apply not_true_iff_false in E. apply E, starts_with_spec. eauto.
    + intros H [|d a] b Hs.
      * rewrite sapp_nil_l in Hs. apply not_true_iff_false in E. apply E, starts_with_spec. eauto.
      * rewrite sapp_cons in Hs. injection Hs as -> Hs.
        destruct (find_str p s); [done|]. by eapply IH.
  - intros H. destruct (find_str p s) as [n|] eqn:E; [|done].
    apply find_str_Some in E as (a & b & Hs & _). by apply H in Hs.
Qed.

Lemma str_contains_spec s p : str_contains s p = true <-> exists a b, s = a +:+ p +:+ b.
Proof.
  unfold str_contains. destruct (find_str p s) as [n|] eqn:E.
  - apply find_str_Some in E as (a & b & Hs & _). split; eauto.
  - split; [done|]. intros (a & b & Hs). eapply find_str_None in E. done.
Qed.

Lemma find_char_Some c s n :
  find_char c s = Some n ->
  exists a b, s = a +:+ String c b /\ String.length a = n /\ contains_char a c = false.
Proof.
  revert n. induction s as [|d s IH]; intros n; simpl; [done|]. case_bool_decide.
  - intros [= <-]. subst. by exists "", s.
  - destruct (find_char c s) as [m|]; [|done]. intros [= <-].
    destruct (IH _ eq_refl) as (a & b & -> & <- & Ha).
    exists (String d a), b. split; [done|]. split; [done|].
    unfold contains_char in *. simpl. rewrite bool_decide_false by done.
    by destruct (find_char c a).
Qed.

Lemma contains_char_app a b c :
  contains_char (a +:+ b) c = contains_char a c || contains_char b c.
Proof.
  unfold contains_char. induction a as [|d a IH]; [done|].
  rewrite sapp_cons. simpl. case_bool_decide; [done|].
  destruct (find_char c (a +:+ b)), (find_char c a); done.
Qed.

Lemma contains_char_cons d s c :
  contains_char (String d s) c = bool_decide (d = c) || contains_char s c.
Proof. unfold contains_char. simpl. case_bool_decide; [done|]. by destruct (find_char c s). Qed.

(** ** Splitting and joining *)

(** [s.split(c)]: never empty. *)
Fixpoint split_char (c : ascii) (s : string) : list string :=
  match s with
  | EmptyString => [""]
  | String d s =>
      if bool_decide (d = c) then "" :: split_char c s
      else match split_char c s with
           | w :: ws => String d w :: ws
           | [] => [String d ""]
           end
  end.

(** [l.join(sep)] *)
Fixpoint join (sep : string) (l : list string) : string :=
  match l with
  | [] => ""
  | [w] => w
  | w :: ws => w +:+ sep +:+ join sep ws
  end.

Lemma split_char_nonempty c s : split_char c s <> [].
Proof. destruct s as [|d s]; simpl; [done|]. case_bool_decide; [done|]. by destruct (split_char c s). Qed.

Lemma join_split_char c s : join (String c "") (split_char c s) = s.
Proof.
  induction s as [|d s IH]; simpl; [done|]. pose proof (split_char_nonempty c s) as Hne.
  case_bool_decide.
  - subst. destruct (split_char c s) eqn:E; [done|]. cbn [join] in *. rewrite sapp_nil_l, IH. done.
  - destruct (split_char c s) as [|w ws] eqn:E; [done|].
    destruct ws; cbn [join] in *; rewrite <- IH; [done|]. by rewrite sapp_cons.
Qed.

Lemma split_char_no_sep c s w : w ∈ split_char c s -> contains_char w c = false.
Proof.
  revert w. induction s as [|d s IH]; intros w; simpl.
  - intros ->%list_elem_of_singleton. done.
  - pose proof (split_char_nonempty c s) as Hne. case_bool_decide.
    + intros [->|Hw]%elem_of_cons; [done|]. by apply IH.
    + destruct (split_char c s) as [|v vs]; [done|].
      intros [->|Hw]%elem_of_cons; [|apply IH; by right].
      rewrite contains_char_cons, bool_decide_false by done. apply IH. left.
Qed.

(** [s.replace(p, r)] for a non-empty [p]: all matches, left to right. *)
Fixpoint replace_go (p r s : string) (skip : nat) : string :=
  match s with
  | EmptyString => ""
  | String c s' =>
      match skip with
      | S k => replace_go p r s' k
      | O => if starts_with s p
             then r +:+ replace_go p r s' (pred (String.length p))
             else String c (replace_go p r s' 0)
      end
  end.
Definition replace (p r s : string) : string := replace_go p r s 0.

(** [s.lines()]: split at LF, dropping one CR before it and a final empty line. *)
Definition strip_cr (l : string) : string :=
  match strip_suffix (String "013" "") l with Some r => r | None => l end.

Fixpoint lines_go (ls : list string) : list string :=
  match ls with
  | [] => []
  | [l] => if is_empty l then [] else [l]
  | l :: ls => strip_cr l :: lines_go ls
  end.
Definition lines (s : string) : list string := lines_go (split_char "010" s).

(** ** Characters *)

(** A UTF-8 continuation byte, [0b10xxxxxx]. *)
Definition is_cont (c : ascii) : bool :=
  let n := Z.of_N (N_of_ascii c) in (128 <=? n) && (n <? 192).

(** [s.chars()], each character given by its bytes: a continuation byte belongs
    to the character before it. *)
Fixpoint chars (s : string) : list string :=
  match s with
  | EmptyString => []
  | String c s =>
      match chars s with
      | String d r :: cs => if is_cont d then String c (String d r) :: cs
                            else String c "" :: String d r :: cs
      | cs => String c "" :: cs
      end
  end.

Fixpoint sconcat (l : list string) : string :=
  match l with [] => "" | w :: ws => w +:+ sconcat ws end.

Lemma sconcat_app l1 l2 : sconcat (l1 ++ l2) = sconcat l1 +:+ sconcat l2.
Proof. induction l1 as [|w l IH]; simpl; [done|]. by rewrite IH, sapp_assoc. Qed.

Lemma sconcat_chars s : sconcat (chars s) = s.
Proof.
  induction s as [|c s IH]; simpl; [done|].
  destruct (chars s) as [|[|d r] cs] eqn:E; simpl in *.
  - by rewrite <- IH.
  - rewrite <- IH. done.
  - destruct (is_cont d); simpl; rewrite <- IH, ?sapp_cons; done.
Qed.

(** [s.is_char_boundary(i)] *)
Definition is_char_boundary (s : string) (i : nat) : bool :=
  if (i =? 0)%nat then true
  else match String.get i s with
       | Some c => negb (is_cont c)
       | None => (i =? String.length s)%nat
       end.

(** [&s[a..b]]: [None] is the panic on a bad range or a split character. *)
Definition str_slice (s : string) (a b : nat) : option string :=
  if (a <=? b)%nat && (b <=? String.length s)%nat
     && is_char_boundary s a && is_char_boundary s b
  then Some (stake (b - a) (sdrop a s)) else None.

(** ** Texts of given characters *)

(** [s.chars().all(p)] on a text of ASCII characters. *)
Definition all_chars (p : ascii -> bool) (s : string) : bool := forallb p (String.list_ascii_of_string s).

Lemma list_ascii_app a b :
  String.list_ascii_of_string (a +:+ b) = String.list_ascii_of_string a ++ String.list_ascii_of_string b.
Proof. induction a as [|c a IH]; [by rewrite sapp_nil_l|]. rewrite sapp_cons. cbn. by rewrite IH. Qed.

Lemma all_chars_app p a b : all_chars p (a +:+ b) = all_chars p a && all_chars p b.
Proof. unfold all_chars. by rewrite list_ascii_app, forallb_app. Qed.

(** ** White space *)

(** The characters of the Unicode property White_Space, in UTF-8. *)
Definition bs (l : list Z) : string :=
  String.string_of_list_ascii (map (fun z => ascii_of_N (Z.to_N z)) l).

Definition whitespace_chars : list string :=
  Eval vm_compute in
  map bs ([[9]; [10]; [11]; [12]; [13]; [32]; [194; 133]; [194; 160];
           [225; 154; 128]; [226; 128; 168]; [226; 128; 169]; [226; 128; 175];
           [226; 129; 159]; [227; 128; 128]]
          ++ map (fun k => [226; 128; k]) [128; 129; 130; 131; 132; 133; 134; 135; 136; 137; 138]).

Definition is_whitespace (c : string) : bool := bool_decide (c ∈ whitespace_chars).

Fixpoint drop_ws (cs : list string) : list string :=
  match cs with
  | [] => []
  | c :: cs' => if is_whitespace c then drop_ws cs' else cs
  end.

(** [s.trim()] *)
Definition trim (s : string) : string :=
  sconcat (reverse (drop_ws (reverse (drop_ws (chars s))))).

(** [s.split_whitespace()] *)
Fixpoint split_ws (cs : list string) (cur : string) : list string :=
  match cs with
  | [] => if is_empty cur then [] else [cur]
  | c :: cs =>
      if is_whitespace c
      then (if is_empty cur then split_ws cs "" else cur :: split_ws cs "")
      else split_ws cs (cur +:+ c)
  end.
Definition split_whitespace (s : string) : list string := split_ws (chars s) "".

(** ** Integers *)

Definition digit_val (radix : Z) (c : ascii) : option Z :=
  let n := Z.of_N (N_of_ascii c) in
  let v := if (48 <=? n) && (n <=? 57) then Some (n - 48)
           else if (65 <=? n) && (n <=? 90) then Some (n - 55)
           else if (97 <=? n) && (n <=? 122) then Some (n - 87) else None in
  match v with Some v => if v <? radix then Some v else None | None => None end.

Fixpoint parse_digits (radix w acc : Z) (s : string) : option Z :=
  match s with
  | EmptyString => Some acc
  | String c s =>
      match digit_val radix c with
      | Some d => let acc' := acc * radix + d in
                  if acc' <? 2 ^ w then parse_digits radix w acc' s else None
      | None => None
      end
  end.

(** [uN::from_str_radix(s, radix)]; [s.parse::<uN>()] is radix 10. *)
Definition parse_uint_radix (radix w : Z) (s : string) : option Z :=
  let digits := match strip_prefix "+" s with Some r => r | None => s end in
  if is_empty digits then None else parse_digits radix w 0 digits.
Definition parse_uint (w : Z) (s : string) : option Z := parse_uint_radix 10 w s.

(** [format!("{n}")] for an integer. *)
Definition show_Z (z : Z) : string := pretty z.

Lemma digit_val_nonneg radix c d : digit_val radix c = Some d -> 0 <= d.
Proof.
  unfold digit_val. intros H.
  destruct ((48 <=? Z.of_N (N_of_ascii c)) && _) eqn:E1;
    [|destruct ((65 <=? Z.of_N (N_of_ascii c)) && _) eqn:E2;
      [|destruct ((97 <=? Z.of_N (N_of_ascii c)) && _) eqn:E3]]; [..|done];
    destruct (_ <? radix); [injection H as <-; lia|done|injection H as <-; lia|done|
                            injection H as <-; lia|done].
Qed.

Lemma parse_digits_range radix w acc s n :
  0 <= radix -> in_uN w acc -> parse_digits radix w acc s = Some n -> in_uN w n.
Proof.
  intros Hr. revert acc. induction s as [|c s IH]; intros acc Hacc; simpl.
  - by intros [= <-].
  - destruct (digit_val radix c) as [d|] eqn:E; [|done].
    destruct (acc * radix + d <? 2 ^ w) eqn:El; [|done]. apply IH.
    apply Z.ltb_lt in El. split; [|done]. unfold in_uN in Hacc.
    apply digit_val_nonneg in E. nia.
Qed.

Lemma parse_uint_radix_range radix w s n :
  0 <= radix -> 0 <= w -> parse_uint_radix radix w s = Some n -> in_uN w n.
Proof.
  intros Hr Hw. assert (in_uN w 0) as H0 by (split; [done|]; apply Z.pow_pos_nonneg; lia).
  unfold parse_uint_radix. destruct (is_empty _); [done|]. by apply parse_digits_range.
Qed.

(** ** Case mapping

    [str::to_lowercase] and [str::to_uppercase] are the Unicode mappings.  The
    model keeps them abstract behind the facts about them the code relies on;
    every theorem holds for each instance, and [ascii_case] is the instance the
    examples run on. *)

Definition ascii_lower_char (c : ascii) : ascii :=
  let n := N_of_ascii c in
  if ((65 <=? n) && (n <=? 90))%N then ascii_of_N (n + 32) else c.
Definition ascii_upper_char (c : ascii) : ascii :=
  let n := N_of_ascii c in
  if ((97 <=? n) && (n <=? 122))%N then ascii_of_N (n - 32) else c.

Fixpoint smap (f : ascii -> ascii) (s : string) : string :=
  match s with EmptyString => "" | String c s => String (f c) (smap f s) end.

Fixpoint is_ascii_str (s : string) : bool :=
  match s with EmptyString => true | String c s => (N_of_ascii c <? 128)%N && is_ascii_str s end.

Class UnicodeCase := {
  to_lowercase : string -> string;
  to_uppercase : string -> string;
  to_lowercase_idemp s : to_lowercase (to_lowercase s) = to_lowercase s;
  to_lowercase_ascii s : is_ascii_str s = true -> to_lowercase s = smap ascii_lower_char s;
  to_uppercase_ascii s : is_ascii_str s = true -> to_uppercase s = smap ascii_upper_char s;
}.

Lemma smap_lower_idemp s : smap ascii_lower_char (smap ascii_lower_char s) = smap ascii_lower_char s.
Proof.
  induction s as [|c s IH]; simpl; [done|]. rewrite IH. f_equal.
  by destruct c as [[] [] [] [] [] [] [] []].
Qed.

#[export] Instance ascii_case : UnicodeCase := {|
  to_lowercase := smap ascii_lower_char;
  to_uppercase := smap ascii_upper_char;
  to_lowercase_idemp := smap_lower_idemp;
  to_lowercase_ascii s _ := eq_refl;
  to_uppercase_ascii s _ := eq_refl;
|}.
