(* ===== verification/RustText.v ===== *)
(** Lines and fields of plain text.

    Lemmas about [trim], [split], [split_once] and [lines] on texts of printable ASCII
    characters, for the parsers of line-based formats. *)

From Stdlib Require Import ZArith Lia Ascii.
From stdpp Require Import base numbers list strings pretty.
From S2P Require Import Prelude RustStr.

(** ** Characters *)

Definition code (c : ascii) : Z := Z.of_N (N_of_ascii c).

Definition printable (c : ascii) : bool := (32 <=? code c) && (code c <=? 126).
Definition graphic (c : ascii) : bool := (33 <=? code c) && (code c <=? 126).

Lemma graphic_printable c : graphic c = true -> printable c = true.
Proof. unfold graphic, printable. rewrite !andb_true_iff, !Z.leb_le. lia. Qed.

(** A text of ASCII characters is its characters. *)
Lemma chars_printable s : all_chars printable s = true ->
  chars s = map (fun c => String c "") (String.list_ascii_of_string s).
Proof.
  unfold all_chars. induction s as [|c s IH]; [done|]. cbn [String.list_ascii_of_string forallb map chars].
  rewrite andb_true_iff. intros [Hc Hs]. rewrite IH by done. destruct s as [|d s]; [done|].
  cbn in Hs. apply andb_true_iff in Hs as [Hd _]. cbn.
  assert (is_cont d = false) as ->; [|done]. unfold is_cont, printable, code in *. lia.
Qed.

Lemma whitespace_graphic c : graphic c = true -> is_whitespace (String c "") = false.
Proof. destruct c as [[] [] [] [] [] [] [] []]; vm_compute; done. Qed.

(** ** Trimming *)

(** A text whose ends are not blank. *)
Definition tidy (s : string) : Prop :=
  all_chars printable s = true /\ negb (is_empty s) = true /\ starts_with s " " = false /\ ends_with s " " = false.

Lemma printable_graphic c : printable c = true -> c <> " "%char -> graphic c = true.
Proof. by destruct c as [[] [] [] [] [] [] [] []]. Qed.

Lemma drop_ws_graphic c cs : graphic c = true -> drop_ws (String c "" :: cs) = String c "" :: cs.
Proof. intros Hc. cbn. by rewrite whitespace_graphic. Qed.

Lemma chars_reverse s : all_chars printable s = true ->
  reverse (chars s) = map (fun c => String c "") (reverse (String.list_ascii_of_string s)).
Proof. intros Hs. rewrite chars_printable by done. symmetry. apply fmap_reverse. Qed.

Definition blank (s : string) : Prop := s = "" \/ s = " ".

Lemma snoc_ascii s : s <> "" -> exists r c, s = r +:+ String c "".
Proof.
  induction s as [|c s IH]; [done|]. intros _. destruct (decide (s = "")) as [->|Hs]; [by exists "", c|].
  destruct (IH Hs) as (r & d & ->). by exists (String c r), d.
Qed.

Lemma trim_padded a s b : blank a -> blank b -> tidy s -> trim (a +:+ s +:+ b) = s.
Proof.
  intros Ha Hb (Hp & Hne & Hs & He). unfold trim.
  assert (all_chars printable a = true /\ all_chars printable b = true) as [Hpa Hpb] by (by destruct Ha as [->| ->], Hb as [->| ->]).
  assert (s <> "") as Hs0 by (by destruct s). destruct (snoc_ascii s Hs0) as (r & l & Hr).
  assert (graphic l = true) as Hl.
  { rewrite Hr, all_chars_app in Hp. apply andb_true_iff in Hp as [_ Hp]. cbn in Hp. rewrite andb_true_r in Hp.
    apply printable_graphic; [done|]. intros ->. by rewrite Hr, ends_with_app in He. }
  assert (drop_ws (chars (a +:+ s +:+ b)) = chars (s +:+ b)) as ->.
  { destruct s as [|c s]; [done|]. assert (graphic c = true) as Hc.
    { cbn in Hp. apply andb_true_iff in Hp as [Hp _]. apply printable_graphic; [done|]. by intros ->. }
    assert (all_chars printable (String c s +:+ b) = true) as Hpc by (by rewrite all_chars_app, Hp).
    rewrite (chars_printable (a +:+ _)), (chars_printable (String c s +:+ b)) by (by rewrite ?all_chars_app, ?Hpa, ?Hp, ?Hpb).
    destruct Ha as [->| ->]; rewrite ?sapp_nil_l, ?sapp_cons;
      cbn [String.list_ascii_of_string map]; [by rewrite drop_ws_graphic|].
    cbn [drop_ws]. rewrite sapp_nil_l. cbn [String.list_ascii_of_string map].
    change (is_whitespace " ") with true. cbn iota. by rewrite drop_ws_graphic. }
  assert (drop_ws (reverse (chars (s +:+ b))) = reverse (chars s)) as ->.
  { rewrite !chars_reverse by (by rewrite ?all_chars_app, ?Hp, ?Hpb). rewrite list_ascii_app, reverse_app.
    assert (drop_ws (map (fun c => String c "") (reverse (String.list_ascii_of_string s))) =
            map (fun c => String c "") (reverse (String.list_ascii_of_string s))) as Hd.
    { rewrite Hr, list_ascii_app, reverse_app. cbn. by rewrite whitespace_graphic. }
    destruct Hb as [->| ->]; cbn; [done|]. exact Hd. }
  by rewrite reverse_involutive, sconcat_chars.
Qed.

Lemma trim_tidy s : tidy s -> trim s = s.
Proof.
  intros Hs. pose proof (trim_padded "" s "" ltac:(by left) ltac:(by left) Hs) as H.
  by rewrite sapp_nil_l, sapp_nil_r in H.
Qed.

(** ** Splitting *)

Lemma split_char_none c s : contains_char s c = false -> split_char c s = [s].
Proof.
  induction s as [|d s IH]; [done|]. rewrite contains_char_cons. intros [Hd Hs]%orb_false_iff. cbn [split_char].
  rewrite bool_decide_eq_false in Hd. rewrite bool_decide_false by done. by rewrite IH.
Qed.

Lemma split_char_app c a b : contains_char a c = false -> split_char c (a +:+ String c b) = a :: split_char c b.
Proof.
  induction a as [|d a IH]; [intros _; rewrite sapp_nil_l; cbn [split_char]; by rewrite bool_decide_true|].
  rewrite contains_char_cons. intros [Hd Ha]%orb_false_iff. rewrite bool_decide_eq_false in Hd.
  rewrite sapp_cons. cbn [split_char]. rewrite bool_decide_false by done. by rewrite IH.
Qed.

Lemma split_char_join c l : l <> [] -> Forall (fun w => contains_char w c = false) l ->
  split_char c (join (String c "") l) = l.
Proof.
  intros Hne. induction 1 as [|w l Hw Hl IH]; [done|]. destruct l as [|v l]; [by apply split_char_none|].
  change (join (String c "") (w :: v :: l)) with (w +:+ String c "" +:+ join (String c "") (v :: l)).
  rewrite sapp_cons, sapp_nil_l, split_char_app by done. by rewrite IH.
Qed.

(** The lines of a text that ends in a line break. *)
Definition line_text (l : string) : Prop := contains_char l "010" = false /\ contains_char l "013" = false.

Lemma strip_cr_line l : line_text l -> strip_cr l = l.
Proof.
  intros [_ Hl]. unfold strip_cr. destruct (strip_suffix (String "013" "") l) as [r|] eqn:E; [|done].
  apply strip_suffix_Some in E. subst. rewrite contains_char_app in Hl. apply orb_false_iff in Hl as [_ Hl]. done.
Qed.

Definition unlines (ls : list string) : string := sconcat (map (fun l => l +:+ String "010" "") ls).

Lemma lines_unlines ls : Forall line_text ls -> lines (unlines ls) = ls.
Proof.
  unfold lines, unlines. induction 1 as [|l ls Hl Hls IH]; [done|]. cbn [map sconcat].
  rewrite <- sapp_assoc, sapp_cons, sapp_nil_l, split_char_app by apply Hl.
  assert (forall w ws, ws <> [] -> lines_go (w :: ws) = strip_cr w :: lines_go ws) as Hgo by (by intros w [|]).
  rewrite Hgo by apply split_char_nonempty. by rewrite IH, strip_cr_line.
Qed.

Lemma contains_char_all p c s : all_chars p s = true -> p c = false -> contains_char s c = false.
Proof.
  intros Hs Hc. induction s as [|d s IH]; [done|]. cbn in Hs. apply andb_true_iff in Hs as [Hd Hs].
  rewrite contains_char_cons, IH by done. rewrite bool_decide_false; [done|]. intros ->. congruence.
Qed.

Lemma line_text_printable l : all_chars printable l = true -> line_text l.
Proof. intros Hl. split; by eapply contains_char_all. Qed.

(** *** Tidy texts *)

Lemma all_chars_impl p q s : (forall c, p c = true -> q c = true) -> all_chars p s = true -> all_chars q s = true.
Proof. unfold all_chars. rewrite !forallb_forall. auto. Qed.

Lemma ends_with_char (a s : string) c : s <> "" -> ends_with (a +:+ s) (String c "") = ends_with s (String c "").
Proof.
  intros Hs. destruct (snoc_ascii s Hs) as (r & d & ->). rewrite sapp_assoc.
  assert (forall x, ends_with (x +:+ String d "") (String c "") = bool_decide (c = d)) as H; [|by rewrite !H].
  intros x. apply eq_true_iff_eq. rewrite ends_with_spec, bool_decide_eq_true. split; [|intros ->; eauto].
  intros [y Hy]. apply (f_equal String.list_ascii_of_string) in Hy. rewrite !list_ascii_app in Hy. cbn in Hy.
  by apply app_inj_2 in Hy as [_ [= ->]].
Qed.

Lemma tidy_graphic s : all_chars graphic s = true -> s <> "" -> tidy s.
Proof.
  intros Hs Hne. split; [by eapply all_chars_impl; [apply graphic_printable|]|]. split; [by destruct s|]. split.
  - destruct s as [|c s]; [done|]. cbn in Hs. apply andb_true_iff in Hs as [Hc _]. unfold starts_with. cbn.
    by rewrite bool_decide_false by (by intros <-).
  - destruct (snoc_ascii s Hne) as (r & d & ->). rewrite ends_with_char by done.
    rewrite all_chars_app in Hs. apply andb_true_iff in Hs as [_ Hd]. cbn in Hd. rewrite andb_true_r in Hd.
    unfold ends_with. cbn. case_bool_decide; [by simplify_eq|done].
Qed.

Lemma tidy_around a m b : tidy a -> tidy b -> all_chars printable m = true -> tidy (a +:+ m +:+ b).
Proof.
  intros (Ha & Hna & Hsa & _) (Hb & Hnb & _ & Heb) Hm. destruct a as [|c a]; [done|]. split; [|split; [done|split]].
  - by rewrite !all_chars_app, Ha, Hm, Hb.
  - unfold starts_with in *. rewrite sapp_cons. cbn in *. by case_bool_decide.
  - rewrite sapp_assoc, ends_with_char; [done|by destruct b].
Qed.

Lemma tidy_join ws : ws <> [] -> Forall tidy ws -> tidy (join ", " ws).
Proof.
  intros Hne. induction 1 as [|w ws Hw Hws IH]; [done|]. destruct ws as [|v ws]; [done|]. by apply tidy_around; [|apply IH|].
Qed.

Lemma contains_char_join c sep ws : contains_char sep c = false -> Forall (fun w => contains_char w c = false) ws ->
  contains_char (join sep ws) c = false.
Proof.
  intros Hsep. induction 1 as [|w ws Hw Hws IH]; [done|]. destruct ws as [|v ws]; [done|].
  change (join sep (w :: v :: ws)) with (w +:+ sep +:+ join sep (v :: ws)). by rewrite !contains_char_app, Hw, Hsep, IH.
Qed.

(** The parts of a list written with ", ". *)
Lemma split_comma w ws : Forall (fun w => contains_char w "," = false) (w :: ws) ->
  split_char "," (join ", " (w :: ws)) = w :: map (fun w => " " +:+ w) ws.
Proof.
  revert w. induction ws as [|v ws IH]; intros w [Hw Hws]%Forall_cons; [by apply split_char_none|].
  change (join ", " (w :: v :: ws)) with (w +:+ String "," (String " " (join ", " (v :: ws)))).
  rewrite split_char_app by done. cbn [split_char]. rewrite bool_decide_false by done. by rewrite (IH v Hws).
Qed.

(** [s.split_once(c)] *)
Definition split_once (c : ascii) (s : string) : option (string * string) :=
  match find_char c s with
  | Some n => Some (stake n s, sdrop (S n) s)
  | None => None
  end.

Lemma split_once_app c a b : contains_char a c = false -> split_once c (a +:+ String c b) = Some (a, b).
Proof.
  intros Ha. unfold split_once.
  assert (find_char c (a +:+ String c b) = Some (String.length a)) as ->.
  { induction a as [|d a IH]; [rewrite sapp_nil_l; cbn; by rewrite bool_decide_true|].
    rewrite contains_char_cons in Ha. apply orb_false_iff in Ha as [Hd Ha]. rewrite bool_decide_eq_false in Hd.
    rewrite sapp_cons. cbn [find_char]. rewrite bool_decide_false, IH by done. done. }
  rewrite stake_app. do 2 f_equal. clear Ha. induction a as [|d a IH]; [by rewrite sapp_nil_l|]. rewrite sapp_cons. exact IH.
Qed.
