(* ===== verification/Paths.v ===== *)
(** Paths: the methods of std::path the sources call, on paths without repeated or
    trailing separators. *)

From Stdlib Require Import ZArith Lia Ascii.
From stdpp Require Import base numbers list strings.
From S2P Require Import Prelude RustStr.

(** [Path::join]: an absolute second path replaces the first. *)
Definition path_join (a b : string) : string :=
  if starts_with b "/" then b
  else if is_empty a || ends_with a "/" then a +:+ b
  else a +:+ "/" +:+ b.

(** [Path::parent]. *)
Definition path_parent (p : string) : option string :=
  match rfind_char "/" p with
  | None => if is_empty p then None else Some ""
  | Some O => if bool_decide (p = "/") then None else Some "/"
  | Some n => Some (stake n p)
  end.

Lemma path_join_ends a b : starts_with b "/" = false -> ends_with (path_join a b) b = true.
Proof.
  unfold path_join. intros ->. destruct (_ || _); [apply ends_with_app|]. rewrite sapp_assoc. apply ends_with_app.
Qed.

Lemma path_join_app a b s : starts_with s "/" = false -> path_join a (b +:+ s) = path_join a b +:+ s.
Proof.
  intros Hs. unfold path_join. assert (starts_with (b +:+ s) "/" = starts_with b "/") as ->.
  { destruct b as [|c b]; [by rewrite sapp_nil_l, Hs|]. rewrite sapp_cons. unfold starts_with. cbn. by repeat case_match. }
  destruct (starts_with b "/"); [done|]. destruct (_ || _); by rewrite ?sapp_assoc.
Qed.

Lemma sapp_ne (p s : string) : s <> "" -> p +:+ s <> p.
Proof.
  intros Hs E. apply Hs. apply (sapp_inv_l p). by rewrite E, sapp_nil_r.
Qed.

Lemma rfind_char_bound c s n : rfind_char c s = Some n -> (n < String.length s)%nat.
Proof.
  revert n. induction s as [|d s IH]; intros n; cbn [rfind_char]; [done|].
  destruct (rfind_char c s) as [m|]; [intros [= <-]; specialize (IH m eq_refl); cbn; lia|].
  case_match; [|done]. intros [= <-]. cbn. lia.
Qed.

(** A parent is shorter, so every chain of parents ends. *)
Lemma path_parent_shorter p q : path_parent p = Some q -> (String.length q < String.length p)%nat.
Proof.
  unfold path_parent. destruct (rfind_char "/" p) as [[|n]|] eqn:E.
  - case_bool_decide as Hp; [done|]. intros [= <-]. destruct p as [|c [|d p]]; [done| |cbn; lia].
    cbn in E. case_bool_decide; [by subst|done].
  - apply rfind_char_bound in E. intros H. assert (q = stake (S n) p) as -> by congruence. rewrite stake_length; lia.
  - destruct p; [done|]. intros [= <-]. cbn. lia.
Qed.

(** The part of a text after the last occurrence of a character. *)
Fixpoint after_last (c : ascii) (s : string) : string :=
  match s with
  | EmptyString => ""
  | String d r => if contains_char r c then after_last c r else if bool_decide (d = c) then r else s
  end.

(** [Path::file_name] and [Path::file_stem]. *)
Definition path_file_name (p : string) : option string :=
  let n := after_last "/" p in if is_empty n || bool_decide (n = "..") then None else Some n.

Definition file_stem (n : string) : string :=
  match rfind_char "." n with None | Some O => n | Some i => stake i n end.

(** [Path::with_extension], for an extension that is not empty. *)
Definition with_extension (p ext : string) : string :=
  match path_file_name p with
  | None => p
  | Some n => stake (String.length p - String.length n) p +:+ file_stem n +:+ "." +:+ ext
  end.

(** A name of an entry of a directory. *)
Definition plain_name (n : string) : bool := negb (contains_char n "/").

Lemma plain_not_absolute n : plain_name n = true -> starts_with n "/" = false.
Proof.
  unfold plain_name. destruct n as [|c n]; [done|]. rewrite contains_char_cons. intros Hc. destruct (starts_with _ _) eqn:E; [|done].
  apply starts_with_spec in E as [r E]. injection E as -> _. by rewrite bool_decide_true in Hc.
Qed.

Lemma path_join_inj dir a b : plain_name a = true -> plain_name b = true -> path_join dir a = path_join dir b -> a = b.
Proof.
  intros Ha%plain_not_absolute Hb%plain_not_absolute. unfold path_join. rewrite Ha, Hb.
  destruct (_ || _); intros E%sapp_inv_l; [done|]. by apply sapp_inv_l in E.
Qed.

(** A name that is a file's: plain, and not the parent directory. *)
Definition file_name_ok (n : string) : bool := plain_name n && negb (is_empty n) && negb (bool_decide (n = "..")).

Lemma after_last_name c pre n : contains_char n c = false -> pre = "" \/ ends_with pre (String c "") = true -> after_last c (pre +:+ n) = n.
Proof.
  intros Hn. induction pre as [|d pre IH]; intros Hpre.
  - rewrite sapp_nil_l. destruct n as [|d n]; [done|]. rewrite contains_char_cons in Hn. apply orb_false_iff in Hn as [Hd Hn].
    cbn [after_last]. by rewrite Hn, Hd.
  - destruct Hpre as [|Hpre]; [done|]. rewrite sapp_cons. cbn [after_last]. rewrite contains_char_app, Hn, orb_false_r.
    apply ends_with_spec in Hpre as [r Hr]. destruct r as [|x r].
    + rewrite sapp_nil_l in Hr. injection Hr as -> ->. cbn. by rewrite bool_decide_true.
    + rewrite sapp_cons in Hr. injection Hr as -> ->. rewrite contains_char_app, contains_char_cons, bool_decide_true by done.
      cbn [orb]. rewrite orb_true_r. apply IH. right. apply ends_with_app.
Qed.

Lemma path_join_split dir : exists pre, (pre = "" \/ ends_with pre "/" = true) /\
  forall n, starts_with n "/" = false -> path_join dir n = pre +:+ n.
Proof.
  unfold path_join. destruct (is_empty dir || ends_with dir "/") eqn:E.
  - exists dir. split; [|by intros n ->]. apply orb_true_iff in E as [E|E]; [left; by apply is_empty_true|by right].
  - exists (dir +:+ "/"). split; [right; apply ends_with_app|]. intros n ->. by rewrite sapp_assoc.
Qed.

Lemma with_extension_join dir n ext : file_name_ok n = true ->
  with_extension (path_join dir n) ext = path_join dir (file_stem n +:+ "." +:+ ext).
Proof.
  unfold file_name_ok. intros [[Hp He]%andb_true_iff Hd]%andb_true_iff. destruct (path_join_split dir) as (pre & Hpre & Hj).
  pose proof (plain_not_absolute n Hp) as Ha. unfold plain_name in Hp. apply negb_true_iff in Hp, He, Hd.
  rewrite !Hj; [| |done].
  - unfold with_extension, path_file_name. rewrite after_last_name by done. rewrite He, Hd. cbn [orb].
    replace (String.length (pre +:+ n) - String.length n)%nat with (String.length pre) by (rewrite slength_app; lia).
    by rewrite stake_app.
  - destruct n as [|c n]; [done|]. rewrite <- Ha. unfold file_stem.
    assert (exists r, (match rfind_char "." (String c n) with None | Some O => String c n | Some i => stake i (String c n) end) = String c r) as [r ->].
    { destruct (rfind_char "." (String c n)) as [[|i]|]; by eexists. }
    by destruct c as [[] [] [] [] [] [] [] []].
Qed.

Lemma path_file_name_join dir n : file_name_ok n = true -> path_file_name (path_join dir n) = Some n.
Proof.
  unfold file_name_ok. intros [[Hp He]%andb_true_iff Hd]%andb_true_iff. destruct (path_join_split dir) as (pre & Hpre & Hj).
  rewrite Hj by (by apply plain_not_absolute). unfold plain_name in Hp. apply negb_true_iff in Hp, He, Hd.
  unfold path_file_name. by rewrite after_last_name, He, Hd.
Qed.
