(* ===== verification/IpAddr.v ===== *)
(** Internet addresses: the parsers and printers of std::net the sources call.

    An [Ipv4Addr] is its four octets, an [Ipv6Addr] its eight 16-bit segments. A parser
    takes the text left and gives the value with the text after it; a parser that fails
    leaves its caller at the text it started from. What is printed parses back:
    [socket_addr_roundtrip] for socket addresses and [ip_addr_roundtrip] for addresses. *)

From Stdlib Require Import ZArith Lia Ascii.
From stdpp Require Import base numbers list strings pretty.
From S2P Require Import Prelude RustStr RustText.


(** ** Addresses *)

Abbreviation Ipv4Addr := (list Z).
Abbreviation Ipv6Addr := (list Z).

Inductive IpAddr :=
| V4 (octets : Ipv4Addr)
| V6 (segments : Ipv6Addr).

Inductive SocketAddr :=
| SocketV4 (ip : Ipv4Addr) (port : Z)
| SocketV6 (ip : Ipv6Addr) (port scope_id : Z).

#[export] Instance IpAddr_eq_dec : EqDecision IpAddr.
Proof. solve_decision. Defined.
#[export] Instance SocketAddr_eq_dec : EqDecision SocketAddr.
Proof. solve_decision. Defined.

Definition ipv4_ok (ip : Ipv4Addr) : bool := (length ip =? 4)%nat && forallb (fun o => (0 <=? o) && (o <? 256)) ip.
Definition ipv6_ok (ip : Ipv6Addr) : bool := (length ip =? 8)%nat && forallb (fun g => (0 <=? g) && (g <? 65536)) ip.

Definition ip_ok (a : IpAddr) : bool := match a with V4 ip => ipv4_ok ip | V6 ip => ipv6_ok ip end.
Definition socket_ok (a : SocketAddr) : bool :=
  match a with
  | SocketV4 ip port => ipv4_ok ip && (0 <=? port) && (port <? 65536)
  | SocketV6 ip port scope => ipv6_ok ip && (0 <=? port) && (port <? 65536) && (0 <=? scope) && (scope <? 2 ^ 32)
  end.

(** ** The parser of core::net *)

(** The digits at the front: their value, their number and the rest. [bound] is the most
    digits allowed; without it the arithmetic is checked at the width of the result. *)
Fixpoint number_loop (radix : Z) (bound : option nat) (w acc : Z) (count : nat) (s : string) : option (Z * nat * string) :=
  match s with
  | String c s' =>
      match digit_val radix c with
      | Some d =>
          let acc := acc * radix + d in
          if match bound with Some m => (S count <=? m)%nat | None => acc <? 2 ^ w end
          then number_loop radix bound w acc (S count) s'
          else None
      | None => Some (acc, count, s)
      end
  | EmptyString => Some (acc, count, s)
  end.

Definition read_number (radix : Z) (bound : option nat) (allow_zero_prefix : bool) (w : Z) (s : string) : option (Z * string) :=
  match number_loop radix bound w 0 0 s with
  | None => None
  | Some (n, count, rest) =>
      if (count =? 0)%nat then None
      else if negb allow_zero_prefix && starts_with s "0" && (1 <? count)%nat then None
      else if n <? 2 ^ w then Some (n, rest) else None
  end.

(** The separator stands before every item but the first. *)
Definition read_separator {A} (sep : string) (index : nat) (inner : string -> option (A * string)) (s : string)
  : option (A * string) :=
  if (index =? 0)%nat then inner s
  else match strip_prefix sep s with Some s => inner s | None => None end.

Definition read_octet (i : nat) (s : string) : option (Z * string) :=
  read_separator "." i (read_number 10 (Some 3%nat) false 8) s.

Definition read_ipv4_addr (s : string) : option (Ipv4Addr * string) :=
  match read_octet 0 s with
  | None => None
  | Some (a, s) =>
      match read_octet 1 s with
      | None => None
      | Some (b, s) =>
          match read_octet 2 s with
          | None => None
          | Some (c, s) =>
              match read_octet 3 s with
              | None => None
              | Some (d, s) => Some ([a; b; c; d], s)
              end
          end
      end
  end.

(** [n] groups are wanted, the first being number [i]; an IPv4 address may stand for the
    last two. *)
Fixpoint read_groups (n i : nat) (s : string) : list Z * bool * string :=
  match n with
  | O => ([], false, s)
  | S n =>
      match (if (0 <? n)%nat then read_separator ":" i read_ipv4_addr s else None) with
      | Some ([a; b; c; d], rest) => ([a * 256 + b; c * 256 + d], true, rest)
      | _ =>
          match read_separator ":" i (read_number 16 (Some 4%nat) true 16) s with
          | Some (g, rest) => let '(gs, v4, rest) := read_groups n (S i) rest in (g :: gs, v4, rest)
          | None => ([], false, s)
          end
      end
  end.

Definition read_ipv6_addr (s : string) : option (Ipv6Addr * string) :=
  let '(head, head_ipv4, rest) := read_groups 8 0 s in
  if (length head =? 8)%nat then Some (head, rest)
  else if head_ipv4 then None
  else match strip_prefix "::" rest with
       | None => None
       | Some rest =>
           let '(tail, _, rest) := read_groups (7 - length head) 0 rest in
           Some (head ++ replicate (8 - length head - length tail) 0 ++ tail, rest)
       end.

Definition read_port (s : string) : option (Z * string) :=
  match strip_prefix ":" s with Some s => read_number 10 None true 16 s | None => None end.

Definition read_scope_id (s : string) : option (Z * string) :=
  match strip_prefix "%" s with Some s => read_number 10 None true 32 s | None => None end.

Definition read_ip_addr (s : string) : option (IpAddr * string) :=
  match read_ipv4_addr s with
  | Some (ip, rest) => Some (V4 ip, rest)
  | None => match read_ipv6_addr s with Some (ip, rest) => Some (V6 ip, rest) | None => None end
  end.

Definition read_socket_addr_v4 (s : string) : option (SocketAddr * string) :=
  match read_ipv4_addr s with
  | Some (ip, s) => match read_port s with Some (port, s) => Some (SocketV4 ip port, s) | None => None end
  | None => None
  end.

Definition read_socket_addr_v6 (s : string) : option (SocketAddr * string) :=
  match strip_prefix "[" s with
  | None => None
  | Some s =>
      match read_ipv6_addr s with
      | None => None
      | Some (ip, s) =>
          let '(scope_id, s) := match read_scope_id s with Some (n, s) => (n, s) | None => (0, s) end in
          match strip_prefix "]" s with
          | None => None
          | Some s => match read_port s with Some (port, s) => Some (SocketV6 ip port scope_id, s) | None => None end
          end
      end
  end.

Definition read_socket_addr (s : string) : option (SocketAddr * string) :=
  match read_socket_addr_v4 s with Some r => Some r | None => read_socket_addr_v6 s end.

(** [parse_with]: the whole text must be read. *)
Definition parse_with {A} (inner : string -> option (A * string)) (error : string) (s : string) : result A string :=
  match inner s with
  | Some (a, "") => Ok a
  | _ => Err error
  end.

Definition parse_ipv4_addr (s : string) : result Ipv4Addr string :=
  let error := "invalid IPv4 address syntax" in
  if 15 <? slen s then Err error else parse_with read_ipv4_addr error s.
Definition parse_ip_addr : string -> result IpAddr string := parse_with read_ip_addr "invalid IP address syntax".
Definition parse_socket_addr : string -> result SocketAddr string :=
  parse_with read_socket_addr "invalid socket address syntax".

(** ** Display *)

Definition show_ipv4 (ip : Ipv4Addr) : string := join "." (map show_Z ip).

Definition hex_char (n : Z) : ascii := ascii_of_N (Z.to_N (if n <? 10 then 48 + n else 87 + n)).

(** [{:x}] of a 16-bit number. *)
Definition show_hex16 (n : Z) : string :=
  let low k := String (hex_char (n / 16 ^ k mod 16)) in
  if n <? 16 then low 0 ""
  else if n <? 256 then low 1 (low 0 "")
  else if n <? 4096 then low 2 (low 1 (low 0 ""))
  else low 3 (low 2 (low 1 (low 0 ""))).

Record Span := { sp_start : nat; sp_len : nat }.

(** The longest run of zeroes, the first of that length. *)
Fixpoint zero_span (i : nat) (segments : list Z) (longest current : Span) : Span :=
  match segments with
  | [] => longest
  | g :: segments =>
      if g =? 0 then
        let current := {| sp_start := if (sp_len current =? 0)%nat then i else sp_start current; sp_len := S (sp_len current) |} in
        zero_span (S i) segments (if (sp_len longest <? sp_len current)%nat then current else longest) current
      else zero_span (S i) segments longest {| sp_start := 0; sp_len := 0 |}
  end.

Definition show_groups (l : list Z) : string := join ":" (map show_hex16 l).

Definition show_ipv6 (ip : Ipv6Addr) : string :=
  match ip with
  | [0; 0; 0; 0; 0; 65535; ab; cd] => "::ffff:" +:+ show_ipv4 [ab / 256; ab mod 256; cd / 256; cd mod 256]
  | _ =>
      let z := zero_span 0 ip {| sp_start := 0; sp_len := 0 |} {| sp_start := 0; sp_len := 0 |} in
      if (1 <? sp_len z)%nat
      then show_groups (take (sp_start z) ip) +:+ "::" +:+ show_groups (drop (sp_start z + sp_len z) ip)
      else show_groups ip
  end.

Definition show_ip (a : IpAddr) : string := match a with V4 ip => show_ipv4 ip | V6 ip => show_ipv6 ip end.

Definition show_socket (a : SocketAddr) : string :=
  match a with
  | SocketV4 ip port => show_ipv4 ip +:+ ":" +:+ show_Z port
  | SocketV6 ip port scope =>
      "[" +:+ show_ipv6 ip +:+ (if scope =? 0 then "" else "%" +:+ show_Z scope) +:+ "]:" +:+ show_Z port
  end.

Example ip_examples :
  parse_ip_addr "10.0.0.2" = Ok (V4 [10; 0; 0; 2]) /\
  parse_ip_addr "10.0.0.02" = Err "invalid IP address syntax" /\
  parse_ip_addr "fd00::1" = Ok (V6 [64768; 0; 0; 0; 0; 0; 0; 1]) /\
  parse_ip_addr "::ffff:1.2.3.4" = Ok (V6 [0; 0; 0; 0; 0; 65535; 258; 772]) /\
  parse_socket_addr "[fe80::1%3]:51820" = Ok (SocketV6 [65152; 0; 0; 0; 0; 0; 0; 1] 51820 3) /\
  parse_socket_addr "1.2.3.4:65536" = Err "invalid socket address syntax" /\
  show_ip (V6 [8193; 3512; 0; 0; 1; 0; 0; 1]) = "2001:db8::1:0:0:1".
Proof. vm_compute. repeat split. Qed.

(** ** What is printed parses back *)

(** The value of a text of digits. *)
Fixpoint digits_value (radix acc : Z) (s : string) : option Z :=
  match s with
  | EmptyString => Some acc
  | String c s => match digit_val radix c with Some d => digits_value radix (acc * radix + d) s | None => None end
  end.

(** The text after a number does not go on with a digit. *)
Definition no_digit (radix : Z) (rest : string) : Prop :=
  match rest with String c _ => digit_val radix c = None | EmptyString => True end.

Lemma digits_value_grows radix acc s n : 1 <= radix -> 0 <= acc -> digits_value radix acc s = Some n -> acc <= n.
Proof.
  intros Hr. revert acc. induction s as [|c s IH]; intros acc Ha; cbn; [intros [= <-]; lia|].
  destruct (digit_val radix c) as [d|] eqn:Ed; [|done]. apply digit_val_nonneg in Ed.
  intros H. apply IH in H; nia.
Qed.

Lemma number_loop_digits radix bound w s rest acc count n :
  1 <= radix -> 0 <= acc -> digits_value radix acc s = Some n -> no_digit radix rest ->
  match bound with Some m => (count + String.length s <= m)%nat | None => n < 2 ^ w end ->
  number_loop radix bound w acc count (s +:+ rest) = Some (n, (count + String.length s)%nat, rest).
Proof.
  intros Hr. revert acc count. induction s as [|c s IH]; intros acc count Ha Hv Hrest Hb.
  - rewrite sapp_nil_l. cbn in *. injection Hv as <-. rewrite Nat.add_0_r.
    destruct rest as [|c rest]; cbn in *; [done|]. by rewrite Hrest.
  - rewrite sapp_cons. cbn [number_loop digits_value String.length] in *.
    destruct (digit_val radix c) as [d|] eqn:Ed; [|done]. pose proof (digit_val_nonneg _ _ _ Ed).
    assert (0 <= acc * radix + d) by (apply Z.add_nonneg_nonneg; [apply Z.mul_nonneg_nonneg; lia|done]).
    pose proof (digits_value_grows _ (acc * radix + d) _ _ Hr ltac:(done) Hv).
    assert (match bound with Some m => (S count <=? m)%nat | None => acc * radix + d <? 2 ^ w end = true) as ->
      by (destruct bound; [apply Nat.leb_le; lia|apply Z.ltb_lt; lia]).
    rewrite IH by (done || nia || (destruct bound; [lia|done])). by rewrite Nat.add_succ_comm.
Qed.

(** A text that [read_number] accepts whole. *)
Definition number_text (radix : Z) (bound : option nat) (zeros : bool) (n : Z) (s : string) : bool :=
  bool_decide (digits_value radix 0 s = Some n) && negb (is_empty s)
  && match bound with Some m => (String.length s <=? m)%nat | None => true end
  && (zeros || (String.length s =? 1)%nat || negb (starts_with s "0")).

Lemma starts_with_app_char c s r : s <> "" -> starts_with (s +:+ r) (String c "") = starts_with s (String c "").
Proof. destruct s as [|d s]; [done|]. intros _. rewrite sapp_cons. unfold starts_with. cbn. by case_bool_decide. Qed.

Lemma read_number_text radix bound zeros w n s rest :
  1 <= radix -> number_text radix bound zeros n s = true -> n < 2 ^ w -> no_digit radix rest ->
  read_number radix bound zeros w (s +:+ rest) = Some (n, rest).
Proof.
  unfold number_text, read_number. rewrite !andb_true_iff. intros Hr [[[Hv%bool_decide_eq_true Hne] Hb] Hz] Hn Hrest.
  rewrite (number_loop_digits _ _ _ _ _ _ _ n) by (done || (destruct bound; [apply Nat.leb_le in Hb; lia|done])).
  destruct s as [|c s]; [done|]. cbn [Nat.add]. rewrite (proj2 (Nat.eqb_neq _ _)) by (cbn; lia).
  rewrite (proj2 (Z.ltb_lt _ _)) by done.
  rewrite starts_with_app_char by done.
  destruct zeros; [done|]. cbn [negb orb andb] in *. apply orb_true_iff in Hz as [Hz|Hz].
  - apply Nat.eqb_eq in Hz. rewrite Hz. by rewrite andb_false_r.
  - apply negb_true_iff in Hz. by rewrite Hz.
Qed.

(** The numbers printed are accepted; checked on every value. *)
Fixpoint all_from (P : Z -> bool) (m : nat) (n : Z) : bool :=
  match m with O => true | S m => P n && all_from P m (n + 1) end.

Lemma all_from_spec P m a n : all_from P m a = true -> a <= n < a + Z.of_nat m -> P n = true.
Proof.
  revert a. induction m as [|m IH]; intros a; cbn [all_from]; [lia|]. rewrite andb_true_iff. intros [Ha H] Hn.
  destruct (decide (n = a)) as [->|]; [done|]. apply (IH (a + 1)); [done|lia].
Qed.

Lemma show_octet n : 0 <= n < 256 -> number_text 10 (Some 3%nat) false n (show_Z n) = true.
Proof. apply (all_from_spec (fun n => number_text 10 (Some 3%nat) false n (show_Z n)) 256 0). by vm_compute. Qed.

Lemma show_group n : 0 <= n < 65536 -> number_text 16 (Some 4%nat) true n (show_hex16 n) = true.
Proof.
  apply (all_from_spec (fun n => number_text 16 (Some 4%nat) true n (show_hex16 n)) (Z.to_nat 65536) 0). by vm_compute.
Qed.

Lemma digits_value_pretty n s : digits_value 10 0 (pretty_N_go n s) = digits_value 10 (Z.of_N n) s.
Proof.
  revert s. induction (N.lt_wf_0 n) as [n _ IH]. intros s. destruct (decide (0 < n)%N) as [Hn|Hn].
  - rewrite pretty_N_go_step by done. rewrite IH by (apply N.div_lt; lia). cbn [digits_value].
    assert (n `mod` 10 < 10)%N as Hm by (apply N.mod_lt; lia).
    assert (digit_val 10 (pretty_N_char (n `mod` 10)) = Some (Z.of_N (n `mod` 10))) as ->.
    { revert Hm. generalize (n `mod` 10)%N. intros k Hk.
      assert (k = 0 \/ k = 1 \/ k = 2 \/ k = 3 \/ k = 4 \/ k = 5 \/ k = 6 \/ k = 7 \/ k = 8 \/ k = 9)%N as Hk' by lia.
      by repeat (destruct Hk' as [-> | Hk']; [done|]); subst. }
    f_equal. rewrite N2Z.inj_div, N2Z.inj_mod. pose proof (Z.div_mod (Z.of_N n) 10). lia.
  - assert (n = 0%N) as -> by lia. by rewrite pretty_N_go_0.
Qed.

Lemma show_decimal n : 0 <= n -> number_text 10 None true n (show_Z n) = true.
Proof.
  intros Hn. unfold number_text. rewrite !andb_true_iff, bool_decide_eq_true.
  assert (digits_value 10 0 (show_Z n) = Some n /\ show_Z n <> "") as [-> Hne]; [|by destruct (show_Z n)].
  destruct n as [|p|p]; [done| |lia]. change (show_Z (Z.pos p)) with (pretty_N_go (N.pos p) "").
  split; [by rewrite digits_value_pretty|].
  intros E. pose proof (digits_value_pretty (N.pos p) "") as H. rewrite E in H. done.
Qed.

Lemma strip_prefix_head c s : strip_prefix (String c "") (String c s) = Some s.
Proof. cbn. by rewrite bool_decide_true. Qed.

Lemma read_port_shown n : 0 <= n < 65536 -> read_port (":" +:+ show_Z n) = Some (n, "").
Proof.
  intros Hn. change (":" +:+ show_Z n) with (String ":" (show_Z n)). unfold read_port. rewrite strip_prefix_head.
  rewrite <- (sapp_nil_r (show_Z n)). apply read_number_text; [lia|apply show_decimal; lia|lia|done].
Qed.

(** *** IPv4 *)

Lemma read_octet_shown i n rest : 0 <= n < 256 -> no_digit 10 rest ->
  read_octet i ((if (i =? 0)%nat then "" else ".") +:+ show_Z n +:+ rest) = Some (n, rest).
Proof.
  intros Hn Hr. unfold read_octet, read_separator.
  destruct (i =? 0)%nat; rewrite ?sapp_cons, sapp_nil_l, ?strip_prefix_head;
    (apply read_number_text; [lia|by apply show_octet|lia|done]).
Qed.

Lemma show_ipv4_app ip rest : ipv4_ok ip = true -> exists a b c d, ip = [a; b; c; d] /\
  0 <= a < 256 /\ 0 <= b < 256 /\ 0 <= c < 256 /\ 0 <= d < 256 /\
  show_ipv4 ip +:+ rest = show_Z a +:+ "." +:+ show_Z b +:+ "." +:+ show_Z c +:+ "." +:+ show_Z d +:+ rest.
Proof.
  unfold ipv4_ok. rewrite andb_true_iff. intros [Hl Hf]. apply Nat.eqb_eq in Hl.
  destruct ip as [|a [|b [|c [|d [|]]]]]; try done. exists a, b, c, d. cbn [forallb] in Hf.
  rewrite !andb_true_iff, !Z.leb_le, !Z.ltb_lt in Hf. repeat (split; [done || lia|]).
  unfold show_ipv4. cbn [map join]. by rewrite <- !sapp_assoc.
Qed.

Lemma read_ipv4_shown ip rest : ipv4_ok ip = true -> no_digit 10 rest ->
  read_ipv4_addr (show_ipv4 ip +:+ rest) = Some (ip, rest).
Proof.
  intros Hok Hr. destruct (show_ipv4_app ip rest Hok) as (a & b & c & d & -> & Ha & Hb & Hc & Hd & ->).
  unfold read_ipv4_addr.
  pose proof (read_octet_shown 0 a ("." +:+ show_Z b +:+ "." +:+ show_Z c +:+ "." +:+ show_Z d +:+ rest) Ha eq_refl) as H.
  cbn [Nat.eqb] in H. rewrite sapp_nil_l in H. rewrite H. clear H.
  pose proof (read_octet_shown 1 b ("." +:+ show_Z c +:+ "." +:+ show_Z d +:+ rest) Hb eq_refl) as H.
  cbn [Nat.eqb] in H. rewrite H. clear H.
  pose proof (read_octet_shown 2 c ("." +:+ show_Z d +:+ rest) Hc eq_refl) as H. cbn [Nat.eqb] in H. rewrite H. clear H.
  pose proof (read_octet_shown 3 d rest Hd Hr) as H. cbn [Nat.eqb] in H. by rewrite H.
Qed.

(** Without a dot there is no IPv4 address. *)
Lemma number_loop_sublist radix bound w acc count s n k rest c :
  number_loop radix bound w acc count s = Some (n, k, rest) -> contains_char s c = false -> contains_char rest c = false.
Proof.
  revert acc count. induction s as [|d s IH]; intros acc count; cbn; [by intros [= _ _ <-]|].
  destruct (digit_val radix d) as [v|]; [|by intros [= _ _ <-]].
  destruct (match bound with Some m => _ | None => _ end); [|done].
  rewrite contains_char_cons. intros H [_ Hs]%orb_false_iff. by eapply IH.
Qed.

Lemma read_ipv4_no_dot s : contains_char s "." = false -> read_ipv4_addr s = None.
Proof.
  intros Hs. unfold read_ipv4_addr. destruct (read_octet 0 s) as [[a r]|] eqn:E; [|done].
  assert (contains_char r "." = false) as Hr.
  { unfold read_octet, read_separator, read_number in E. cbn [Nat.eqb] in E.
    destruct (number_loop _ _ _ _ _ _) as [[[n k] r']|] eqn:El; [|done].
    eapply number_loop_sublist in El; [|exact Hs]. crush_match_in E. }
  unfold read_octet at 1. cbn [read_separator Nat.eqb]. destruct (strip_prefix "." r) as [r'|] eqn:Ep; [|done].
  apply strip_prefix_Some in Ep. subst r. by rewrite sapp_cons, contains_char_cons in Hr.
Qed.

(** *** IPv6 *)

(** The groups from number [i] on, as they are printed. *)
Fixpoint groups_text (i : nat) (gs : list Z) : string :=
  match gs with
  | [] => ""
  | g :: gs => (if (i =? 0)%nat then "" else ":") +:+ show_hex16 g +:+ groups_text (S i) gs
  end.

Lemma show_groups_text gs : show_groups gs = groups_text 0 gs.
Proof.
  unfold show_groups. destruct gs as [|g gs]; [done|]. cbn [map groups_text Nat.eqb]. rewrite sapp_nil_l.
  revert g. generalize 0%nat. induction gs as [|h gs IH]; intros i g; cbn [map join groups_text Nat.eqb].
  - by rewrite sapp_nil_r.
  - f_equal. f_equal. apply (IH (S i)).
Qed.

Lemma digits_value_no_char radix acc s n c : digit_val radix c = None -> digits_value radix acc s = Some n ->
  contains_char s c = false.
Proof.
  intros Hc. revert acc. induction s as [|d s IH]; intros acc; cbn [digits_value]; [done|].
  destruct (digit_val radix d) as [v|] eqn:Ed; [|done]. intros H. rewrite contains_char_cons.
  rewrite bool_decide_false by congruence. by eapply IH.
Qed.

Lemma show_hex16_no_dot g : 0 <= g < 65536 -> contains_char (show_hex16 g) "." = false.
Proof.
  intros Hg%show_group. unfold number_text in Hg. rewrite !andb_true_iff in Hg.
  destruct Hg as [[[Hv%bool_decide_eq_true _] _] _]. by eapply digits_value_no_char.
Qed.

Definition group (g : Z) : bool := (0 <=? g) && (g <? 65536).

Lemma groups_text_no_dot i gs : forallb group gs = true -> contains_char (groups_text i gs) "." = false.
Proof.
  revert i. induction gs as [|g gs IH]; intros i; [done|]. cbn [forallb groups_text]. unfold group at 1.
  rewrite !andb_true_iff, Z.leb_le, Z.ltb_lt. intros [Hg Hgs]. rewrite !contains_char_app, show_hex16_no_dot, IH by done.
  by destruct (i =? 0)%nat.
Qed.

Abbreviation read_group := (read_number 16 (Some 4%nat) true 16).

(** The reader of groups stops at [rest] when it has read [k] of them. *)
Definition stops (k : nat) (rest : string) : Prop := read_separator ":" k read_group rest = None.

Lemma read_groups_stop n k rest : contains_char rest "." = false -> stops k rest -> read_groups n k rest = ([], false, rest).
Proof.
  intros Hd Hs. destruct n as [|n]; [done|]. cbn [read_groups]. rewrite Hs.
  assert ((if (0 <? n)%nat then read_separator ":" k read_ipv4_addr rest else None) = None) as ->; [|done].
  destruct (0 <? n)%nat; [|done]. unfold read_separator. destruct (k =? 0)%nat; [by apply read_ipv4_no_dot|].
  destruct (strip_prefix ":" rest) as [r|] eqn:E; [|done]. apply strip_prefix_Some in E. subst.
  rewrite sapp_cons, contains_char_cons in Hd. apply orb_false_iff in Hd as [_ Hd]. by apply read_ipv4_no_dot.
Qed.

Lemma no_digit_groups i gs rest : no_digit 16 rest -> no_digit 16 (groups_text (S i) gs +:+ rest).
Proof. by destruct gs. Qed.

Lemma read_groups_shown gs n i rest :
  forallb group gs = true -> (length gs <= n)%nat -> contains_char rest "." = false -> no_digit 16 rest ->
  length gs = n \/ stops (i + length gs) rest ->
  read_groups n i (groups_text i gs +:+ rest) = (gs, false, rest).
Proof.
  revert n i. induction gs as [|g gs IH]; intros n i Hgs Hn Hd Hr Hs.
  - cbn [groups_text]. rewrite sapp_nil_l. destruct Hs as [<-|Hs]; [done|]. cbn in Hs. rewrite Nat.add_0_r in Hs.
    by apply read_groups_stop.
  - destruct n as [|n]; [cbn in Hn; lia|]. pose proof Hgs as Hg. cbn [forallb] in Hg.
    unfold group at 1 in Hg. rewrite !andb_true_iff, Z.leb_le, Z.ltb_lt in Hg. destruct Hg as [Hg Hgs'].
    assert (contains_char (groups_text i (g :: gs) +:+ rest) "." = false) as Hdot.
    { by rewrite contains_char_app, groups_text_no_dot, Hd by done. }
    cbn [read_groups]. cbn [groups_text] in *. rewrite <- !sapp_assoc in *.
    set (after := groups_text (S i) gs +:+ rest) in *.
    assert (read_separator ":" i read_group ((if (i =? 0)%nat then "" else ":") +:+ show_hex16 g +:+ after) = Some (g, after)) as ->.
    { unfold read_separator. destruct (i =? 0)%nat; rewrite ?sapp_cons, sapp_nil_l, ?strip_prefix_head;
        (apply read_number_text; [lia|by apply show_group|lia|by apply no_digit_groups]). }
    assert ((if (0 <? n)%nat then read_separator ":" i read_ipv4_addr
               ((if (i =? 0)%nat then "" else ":") +:+ show_hex16 g +:+ after) else None) = None) as ->.
    { destruct (0 <? n)%nat; [|done]. unfold read_separator.
      rewrite contains_char_app in Hdot. apply orb_false_iff in Hdot as [_ Hdot].
      destruct (i =? 0)%nat; rewrite ?sapp_cons, sapp_nil_l, ?strip_prefix_head; by apply read_ipv4_no_dot. }
    unfold after. cbn in Hn. rewrite IH; [done|done|lia|done|done|].
    destruct Hs as [Hs|Hs]; [left; cbn in Hs; lia|right]. cbn in Hs. by rewrite Nat.add_succ_comm.
Qed.

(** The run of zeroes found is one. *)
Definition zero_run (ip : list Z) (z : Span) : Prop :=
  (sp_start z + sp_len z <= length ip)%nat /\
  forall k, (sp_start z <= k < sp_start z + sp_len z)%nat -> ip !! k = Some 0.

Lemma zero_span_run ip i segs longest current :
  drop i ip = segs -> (i <= length ip)%nat -> zero_run ip longest -> zero_run ip current ->
  sp_len current = 0%nat \/ (sp_start current + sp_len current)%nat = i ->
  zero_run ip (zero_span i segs longest current).
Proof.
  revert i longest current. induction segs as [|g segs IH]; intros i longest current Hd Hi Hl Hc Hcur; [done|].
  assert (ip !! i = Some g) as Hg by (rewrite <- (Nat.add_0_r i), <- lookup_drop, Hd; done).
  assert (drop (S i) ip = segs) as Hd' by (rewrite <- Nat.add_1_r, <- drop_drop, Hd; done).
  assert (S i <= length ip)%nat as Hi' by (apply lookup_lt_Some in Hg; lia).
  cbn [zero_span]. destruct (Z.eqb_spec g 0) as [->|]; [|apply IH; try done; [split; cbn; [lia|intros; lia]|by left]].
  set (current' := {| sp_start := _; sp_len := S (sp_len current) |}).
  assert (zero_run ip current' /\ (sp_start current' + sp_len current')%nat = S i) as [Hc' He].
  { subst current'. unfold zero_run in *. cbn. destruct Hc as [Hb Hc]. destruct (Nat.eqb_spec (sp_len current) 0).
    - split; [|lia]. split; [lia|]. intros k Hk. by replace k with i by lia.
    - destruct Hcur as [?|Hcur]; [done|]. split; [|lia]. split; [lia|]. intros k Hk.
      destruct (decide (k = i)) as [->|]; [done|]. apply Hc. lia. }
  apply IH; try done; [by destruct (_ <? _)%nat|by right].
Qed.

Lemma zero_run_split ip z : zero_run ip z ->
  ip = take (sp_start z) ip ++ replicate (sp_len z) 0 ++ drop (sp_start z + sp_len z) ip.
Proof.
  intros [Hb Hz]. rewrite <- (take_drop (sp_start z) ip) at 1. f_equal.
  rewrite <- (take_drop (sp_len z) (drop (sp_start z) ip)), drop_drop. f_equal.
  apply list_eq. intros k. destruct (decide (k < sp_len z)%nat) as [Hk|Hk].
  - rewrite lookup_take_lt, lookup_drop, lookup_replicate_2 by done. apply Hz. lia.
  - rewrite lookup_take_ge by lia. symmetry. apply lookup_ge_None. rewrite length_replicate. lia.
Qed.

(** What may follow an address. *)
Definition after_address (rest : string) : Prop :=
  contains_char rest "." = false /\ no_digit 16 rest /\ starts_with rest ":" = false.

Lemma digit_16_10 c : digit_val 16 c = None -> digit_val 10 c = None.
Proof.
  unfold digit_val. destruct (if (48 <=? _) && _ then _ else _) as [v|]; [|done].
  destruct (Z.ltb_spec v 16); [done|]. by rewrite (proj2 (Z.ltb_ge v 10)) by lia.
Qed.

Lemma no_digit_16_10 rest : no_digit 16 rest -> no_digit 10 rest.
Proof. destruct rest; [done|]. apply digit_16_10. Qed.

Lemma read_group_no_digit rest : no_digit 16 rest -> read_group rest = None.
Proof. destruct rest as [|c rest]; [done|]. cbn. intros H. unfold read_number. cbn [number_loop]. by rewrite H. Qed.

Lemma stops_after k rest : after_address rest -> stops k rest.
Proof.
  intros (_ & Hd & Hc). unfold stops, read_separator. destruct (k =? 0)%nat; [by apply read_group_no_digit|].
  unfold starts_with in Hc. by destruct (strip_prefix ":" rest).
Qed.

Lemma stops_double_colon k rest : stops k ("::" +:+ rest).
Proof. unfold stops, read_separator. by destruct (k =? 0)%nat. Qed.

Lemma strip_double_colon rest : strip_prefix "::" ("::" +:+ rest) = Some rest.
Proof. by apply strip_prefix_Some. Qed.

(** A shortened address: [head], at least two zeroes, [tail]. *)
Lemma read_ipv6_short head tail m rest :
  forallb group head = true -> forallb group tail = true -> (length head + m + length tail = 8)%nat -> (1 < m)%nat ->
  after_address rest ->
  read_ipv6_addr (show_groups head +:+ "::" +:+ show_groups tail +:+ rest) = Some (head ++ replicate m 0 ++ tail, rest).
Proof.
  intros Hh Ht Hlen Hm Hrest. pose proof Hrest as (Hd & Hr & _). rewrite !show_groups_text. unfold read_ipv6_addr.
  rewrite read_groups_shown;
    [|done|lia| |done|right; apply stops_double_colon].
  2:{ by rewrite !sapp_cons, !contains_char_cons, sapp_nil_l, contains_char_app, groups_text_no_dot, Hd. }
  rewrite (proj2 (Nat.eqb_neq _ _)) by lia. rewrite strip_double_colon.
  rewrite read_groups_shown by (done || lia || (right; by apply stops_after)).
  by replace (8 - length head - length tail)%nat with m by lia.
Qed.

Lemma read_ipv6_full ip rest : ipv6_ok ip = true -> after_address rest ->
  read_ipv6_addr (show_groups ip +:+ rest) = Some (ip, rest).
Proof.
  unfold ipv6_ok. rewrite andb_true_iff, Nat.eqb_eq. intros [Hl Hg] (Hd & Hr & _). rewrite show_groups_text.
  unfold read_ipv6_addr. rewrite read_groups_shown by (done || lia || (by left)). by rewrite Hl.
Qed.

Lemma read_number_none radix bound zeros w c s : digit_val radix c = None -> read_number radix bound zeros w (String c s) = None.
Proof. intros Hc. unfold read_number. cbn [number_loop]. by rewrite Hc. Qed.

Lemma read_ipv4_none c s : digit_val 10 c = None -> read_ipv4_addr (String c s) = None.
Proof. intros Hc. unfold read_ipv4_addr, read_octet at 1, read_separator. cbn [Nat.eqb]. by rewrite read_number_none. Qed.

Lemma read_groups_none n c s : digit_val 16 c = None -> read_groups n 0 (String c s) = ([], false, String c s).
Proof.
  intros Hc. destruct n as [|n]; [done|]. cbn [read_groups]. unfold read_separator. cbn [Nat.eqb].
  rewrite read_ipv4_none, read_number_none by (done || by apply digit_16_10). by destruct (0 <? n)%nat.
Qed.

Lemma read_groups_group n i s g rest : read_separator ":" i read_ipv4_addr s = None ->
  read_separator ":" i read_group s = Some (g, rest) ->
  read_groups (S n) i s = let '(gs, v4, rest) := read_groups n (S i) rest in (g :: gs, v4, rest).
Proof. intros H4 Hg. cbn [read_groups]. rewrite Hg, H4. by destruct (0 <? n)%nat. Qed.

Lemma read_groups_ipv4 n i s a b c d rest : read_separator ":" i read_ipv4_addr s = Some ([a; b; c; d], rest) ->
  read_groups (S (S n)) i s = ([a * 256 + b; c * 256 + d], true, rest).
Proof. intros H4. cbn [read_groups Nat.ltb Nat.leb]. by rewrite H4. Qed.

Lemma read_ipv6_mapped ip rest : ipv4_ok ip = true -> after_address rest ->
  read_ipv6_addr ("::ffff:" +:+ show_ipv4 ip +:+ rest) =
    Some ([0; 0; 0; 0; 0; 65535; nth 0 ip 0 * 256 + nth 1 ip 0; nth 2 ip 0 * 256 + nth 3 ip 0], rest).
Proof.
  intros Hip (_ & Hr & _). unfold read_ipv6_addr. destruct (show_ipv4_app ip rest Hip) as (a & b & c & d & -> & _).
  set (mapped := show_ipv4 [a; b; c; d] +:+ rest).
  change ("::ffff:" +:+ mapped) with ("::" +:+ ("ffff" +:+ String ":" mapped)).
  assert (read_groups 8 0 ("::" +:+ ("ffff" +:+ String ":" mapped)) = ([], false, "::" +:+ ("ffff" +:+ String ":" mapped)))
    as -> by (by apply (read_groups_none 8 ":")).
  cbn [length Nat.eqb]. rewrite strip_double_colon. change (7 - 0)%nat with 7%nat.
  assert (read_separator ":" 0 read_group ("ffff" +:+ String ":" mapped) = Some (65535, String ":" mapped)) as Hg.
  { unfold read_separator. cbn [Nat.eqb]. by apply read_number_text. }
  assert (read_separator ":" 1 read_ipv4_addr (String ":" mapped) = Some ([a; b; c; d], rest)) as H4.
  { unfold read_separator. cbn [Nat.eqb]. rewrite strip_prefix_head. by apply read_ipv4_shown, no_digit_16_10. }
  assert (read_separator ":" 0 read_ipv4_addr ("ffff" +:+ String ":" mapped) = None) as Hn by (by apply (read_ipv4_none "f")).
  rewrite (read_groups_group _ _ _ _ _ Hn Hg), (read_groups_ipv4 _ _ _ _ _ _ _ _ H4). done.
Qed.

Lemma in_take (n : nat) (l : list Z) g : In g (take n l) -> In g l.
Proof. intros Hin. rewrite <- (take_drop n l). apply in_or_app. by left. Qed.

Lemma in_drop (n : nat) (l : list Z) g : In g (drop n l) -> In g l.
Proof. intros Hin. rewrite <- (take_drop n l). apply in_or_app. by right. Qed.

Lemma show_ipv6_cases ip : ipv6_ok ip = true ->
  (exists ab cd, ip = [0; 0; 0; 0; 0; 65535; ab; cd] /\
     show_ipv6 ip = "::ffff:" +:+ show_ipv4 [ab / 256; ab mod 256; cd / 256; cd mod 256]) \/
  (let z := zero_span 0 ip {| sp_start := 0; sp_len := 0 |} {| sp_start := 0; sp_len := 0 |} in
   show_ipv6 ip = if (1 <? sp_len z)%nat
                  then show_groups (take (sp_start z) ip) +:+ "::" +:+ show_groups (drop (sp_start z + sp_len z) ip)
                  else show_groups ip).
Proof.
  intros _. unfold show_ipv6.
  repeat match goal with
         | |- context [match ?x with _ => _ end] =>
             match type of x with
             | Z => destruct x as [|p|p]; try (right; reflexivity)
             | positive => destruct x as [p|p|]; try (right; reflexivity)
             | list Z => destruct x; try (right; reflexivity)
             end
         end.
  left. eauto.
Qed.

Lemma read_ipv6_shown ip rest : ipv6_ok ip = true -> after_address rest ->
  read_ipv6_addr (show_ipv6 ip +:+ rest) = Some (ip, rest).
Proof.
  intros Hok Hrest. destruct (show_ipv6_cases ip Hok) as [(ab & cd & -> & ->)| ->].
  - unfold ipv6_ok in Hok. cbn [forallb length Nat.eqb andb] in Hok.
    rewrite !andb_true_iff, !Z.leb_le, !Z.ltb_lt in Hok. destruct Hok as (_ & _ & _ & _ & _ & _ & Hab & Hcd & _).
    rewrite <- !sapp_assoc, read_ipv6_mapped; [| |done].
    2:{ unfold ipv4_ok. cbn. pose proof (Z.div_mod ab 256 ltac:(done)). pose proof (Z.mod_pos_bound ab 256 ltac:(done)).
        pose proof (Z.div_mod cd 256 ltac:(done)). pose proof (Z.mod_pos_bound cd 256 ltac:(done)).
        rewrite !andb_true_iff, !Z.leb_le, !Z.ltb_lt. repeat split; lia. }
    assert (forall x, x / 256 * 256 + x mod 256 = x) as Hx by (intros x; pose proof (Z.div_mod x 256 ltac:(done)); lia).
    cbn [nth]. by rewrite !Hx.
  - cbn zeta. set (z := zero_span _ _ _ _). destruct (Nat.ltb_spec 1 (sp_len z)) as [Hz|]; [|by apply read_ipv6_full].
    assert (zero_run ip z) as Hrun.
    { apply zero_span_run; [done|lia|split; cbn; [lia|intros; lia]..|by left]. }
    pose proof (zero_run_split ip z Hrun) as Hsplit. destruct Hrun as [Hb _].
    unfold ipv6_ok in Hok. rewrite andb_true_iff, Nat.eqb_eq in Hok. destruct Hok as [Hl Hg].
    rewrite <- !sapp_assoc, (read_ipv6_short _ _ (sp_len z)); [by rewrite <- Hsplit| | | |done|done].
    + rewrite forallb_forall in Hg |- *. intros g Hin. apply Hg. by eapply in_take.
    + rewrite forallb_forall in Hg |- *. intros g Hin. apply Hg. by eapply in_drop.
    + rewrite length_take, length_drop. lia.
Qed.

(** *** Socket addresses *)

(** What is printed for a socket address parses back. *)
Lemma socket_addr_roundtrip a : socket_ok a = true -> parse_socket_addr (show_socket a) = Ok a.
Proof.
  unfold parse_socket_addr, parse_with. destruct a as [ip port|ip port scope]; cbn [socket_ok show_socket];
    rewrite ?andb_true_iff, ?Z.leb_le, ?Z.ltb_lt; intros H; unfold read_socket_addr.
  - destruct H as [[Hip Hp0] Hp]. unfold read_socket_addr_v4. by rewrite read_ipv4_shown, read_port_shown.
  - destruct H as [[[[Hip Hp0] Hp] Hs0] Hs].
    assert (forall s, read_socket_addr_v4 (String "[" s) = None) as Hv4 by done.
    change ("[" +:+ show_ipv6 ip +:+ ?r) with (String "[" (show_ipv6 ip +:+ r)).
    rewrite Hv4. unfold read_socket_addr_v6. rewrite strip_prefix_head.
    assert (read_port (":" +:+ show_Z port) = Some (port, "")) as Hport by by apply read_port_shown.
    assert (contains_char (show_Z port) "." = false) as Hdot.
    { pose proof (show_decimal port ltac:(lia)) as Hd. unfold number_text in Hd. rewrite !andb_true_iff in Hd.
      destruct Hd as [[[Hv%bool_decide_eq_true _] _] _]. by eapply digits_value_no_char. }
    destruct (Z.eqb_spec scope 0) as [->|Hne].
    + rewrite sapp_nil_l, read_ipv6_shown; [|done|].
      2:{ split; [|done]. change ("]:" +:+ show_Z port) with (String "]" (String ":" (show_Z port))).
          by rewrite !contains_char_cons, Hdot. }
      change ("]:" +:+ show_Z port) with (String "]" (":" +:+ show_Z port)).
      assert (read_scope_id (String "]" (":" +:+ show_Z port)) = None) as -> by done.
      by rewrite strip_prefix_head, Hport.
    + assert (contains_char (show_Z scope) "." = false) as Hsdot.
      { pose proof (show_decimal scope Hs0) as Hd. unfold number_text in Hd. rewrite !andb_true_iff in Hd.
        destruct Hd as [[[Hv%bool_decide_eq_true _] _] _]. by eapply digits_value_no_char. }
      rewrite <- !sapp_assoc, read_ipv6_shown; [|done|].
      2:{ split; [|done]. change ("]:" +:+ show_Z port) with (String "]" (String ":" (show_Z port))).
          by rewrite sapp_cons, contains_char_cons, sapp_nil_l, contains_char_app, !contains_char_cons, Hdot, Hsdot. }
      change ("%" +:+ ?x) with (String "%" x). unfold read_scope_id. rewrite strip_prefix_head.
      change ("]:" +:+ show_Z port) with (String "]" (":" +:+ show_Z port)).
      rewrite (read_number_text 10 None true 32 scope); [|lia|by apply show_decimal|lia|done].
      by rewrite strip_prefix_head, Hport.
Qed.

Lemma show_ipv4_length ip : ipv4_ok ip = true -> slen (show_ipv4 ip) <= 15.
Proof.
  intros Hip. destruct (show_ipv4_app ip "" Hip) as (a & b & c & d & -> & Ha & Hb & Hc & Hd & Hs).
  rewrite sapp_nil_r in Hs. unfold slen. rewrite Hs, !slength_app.
  assert (forall n, 0 <= n < 256 -> (String.length (show_Z n) <= 3)%nat) as Hlen.
  { intros n Hn%show_octet. unfold number_text in Hn. rewrite !andb_true_iff in Hn.
    destruct Hn as [[_ Hn] _]. by apply Nat.leb_le. }
  pose proof (Hlen a Ha). pose proof (Hlen b Hb). pose proof (Hlen c Hc). pose proof (Hlen d Hd). cbn. lia.
Qed.

Lemma ipv4_addr_roundtrip ip : ipv4_ok ip = true -> parse_ipv4_addr (show_ipv4 ip) = Ok ip.
Proof.
  intros Hip. unfold parse_ipv4_addr, parse_with. pose proof (show_ipv4_length ip Hip).
  rewrite (proj2 (Z.ltb_ge _ _)) by lia. rewrite <- (sapp_nil_r (show_ipv4 ip)). by rewrite read_ipv4_shown.
Qed.

(** The text of an IPv6 address is not read as IPv4. *)
Lemma show_ipv6_not_ipv4 ip : ipv6_ok ip = true -> read_ipv4_addr (show_ipv6 ip) = None.
Proof.
  intros Hok. destruct (show_ipv6_cases ip Hok) as [(ab & cd & -> & ->)| ->]; [done|].
  apply read_ipv4_no_dot. unfold ipv6_ok in Hok. rewrite andb_true_iff in Hok. destruct Hok as [_ Hg].
  assert (forall l, (forall g, In g l -> In g ip) -> contains_char (show_groups l) "." = false) as Hl.
  { intros l Hin. rewrite show_groups_text. apply groups_text_no_dot. rewrite forallb_forall in Hg |- *.
    intros g Hg'. apply (Hg g), Hin, Hg'. }
  cbn zeta. destruct (1 <? _)%nat; [|by apply Hl].
  rewrite !contains_char_app, !Hl; try done; intros g Hin.
  - by eapply in_drop.
  - by eapply in_take.
Qed.

Lemma ip_addr_roundtrip a : ip_ok a = true -> parse_ip_addr (show_ip a) = Ok a.
Proof.
  unfold parse_ip_addr, parse_with, read_ip_addr. destruct a as [ip|ip]; cbn [ip_ok show_ip]; intros Hip.
  - rewrite <- (sapp_nil_r (show_ipv4 ip)). by rewrite read_ipv4_shown.
  - rewrite show_ipv6_not_ipv4 by done. rewrite <- (sapp_nil_r (show_ipv6 ip)). by rewrite read_ipv6_shown.
Qed.

(** *** The characters of addresses *)

Definition ip_char (c : ascii) : bool := bool_decide (is_Some (digit_val 16 c)) || bool_decide (c ∈ [ "."; ":"; "["; "]"; "%" ]%char).

Lemma digits_value_chars radix acc s n : radix <= 16 -> digits_value radix acc s = Some n -> all_chars ip_char s = true.
Proof.
  intros Hr. revert acc. induction s as [|c s IH]; intros acc; cbn; [done|].
  destruct (digit_val radix c) as [d|] eqn:Ed; [|done]. intros Hs. apply andb_true_iff. split; [|by eapply IH].
  unfold ip_char. apply orb_true_iff. left. apply bool_decide_eq_true. exists d. unfold digit_val in *.
  destruct (if (48 <=? _) && _ then _ else _) as [v|]; [|done]. destruct (Z.ltb_spec v radix); [|done].
  by rewrite (proj2 (Z.ltb_lt _ _)) by lia.
Qed.

Lemma show_Z_chars n : 0 <= n -> all_chars ip_char (show_Z n) = true /\ show_Z n <> "".
Proof.
  intros Hn%show_decimal. unfold number_text in Hn. rewrite !andb_true_iff in Hn.
  destruct Hn as [[[Hv%bool_decide_eq_true Hne] _] _]. split; [|by destruct (show_Z n)]. by apply (digits_value_chars 10 0 _ n).
Qed.

Lemma show_hex16_chars n : group n = true -> all_chars ip_char (show_hex16 n) = true.
Proof.
  unfold group. rewrite andb_true_iff, Z.leb_le, Z.ltb_lt. intros Hn%show_group. unfold number_text in Hn.
  rewrite !andb_true_iff in Hn. destruct Hn as [[[Hv%bool_decide_eq_true _] _] _]. by apply (digits_value_chars 16 0 _ n).
Qed.

Lemma show_ipv4_chars ip : ipv4_ok ip = true -> all_chars ip_char (show_ipv4 ip) = true /\ show_ipv4 ip <> "".
Proof.
  intros Hip. destruct (show_ipv4_app ip "" Hip) as (a & b & c & d & -> & Ha & Hb & Hc & Hd & Hs).
  rewrite sapp_nil_r in Hs. rewrite Hs.
  destruct (show_Z_chars a ltac:(lia)) as [Ca Na], (show_Z_chars b ltac:(lia)) as [Cb _],
    (show_Z_chars c ltac:(lia)) as [Cc _], (show_Z_chars d ltac:(lia)) as [Cd _].
  rewrite !all_chars_app, Ca, Cb, Cc, Cd. split; [done|]. by destruct (show_Z a).
Qed.

Lemma show_groups_chars gs : (forall g, In g gs -> group g = true) -> all_chars ip_char (show_groups gs) = true.
Proof.
  intros Hg. rewrite show_groups_text. generalize 0%nat. induction gs as [|g gs IH]; intros i; [done|].
  cbn [groups_text]. rewrite !all_chars_app, show_hex16_chars by (apply Hg; by left).
  rewrite IH by (intros h Hh; apply Hg; by right). by destruct (i =? 0)%nat.
Qed.

Lemma show_ipv6_chars ip : ipv6_ok ip = true -> all_chars ip_char (show_ipv6 ip) = true.
Proof.
  intros Hok. destruct (show_ipv6_cases ip Hok) as [(ab & cd & -> & ->)| ->].
  - rewrite all_chars_app. unfold ipv6_ok in Hok. cbn in Hok. rewrite !andb_true_iff, !Z.leb_le, !Z.ltb_lt in Hok.
    destruct (show_ipv4_chars [ab / 256; ab mod 256; cd / 256; cd mod 256]) as [-> _]; [|done].
    unfold ipv4_ok. cbn. pose proof (Z.div_mod ab 256 ltac:(done)). pose proof (Z.mod_pos_bound ab 256 ltac:(done)).
    pose proof (Z.div_mod cd 256 ltac:(done)). pose proof (Z.mod_pos_bound cd 256 ltac:(done)).
    rewrite !andb_true_iff, !Z.leb_le, !Z.ltb_lt. repeat split; lia.
  - unfold ipv6_ok in Hok. rewrite andb_true_iff in Hok. destruct Hok as [_ Hg]. rewrite forallb_forall in Hg.
    cbn zeta. destruct (1 <? _)%nat; [|by apply show_groups_chars].
    rewrite !all_chars_app, !show_groups_chars; try done; intros g Hin; apply (Hg g).
    + by eapply in_drop.
    + by eapply in_take.
Qed.

Lemma show_ip_chars a : ip_ok a = true -> all_chars ip_char (show_ip a) = true /\ show_ip a <> "".
Proof.
  intros Ha. pose proof (ip_addr_roundtrip a Ha) as Hp. split; [|by intros Hs; rewrite Hs in Hp].
  destruct a as [ip|ip]; [by apply show_ipv4_chars|by apply show_ipv6_chars].
Qed.

Lemma show_socket_chars a : socket_ok a = true -> all_chars ip_char (show_socket a) = true /\ show_socket a <> "".
Proof.
  intros Ha. pose proof (socket_addr_roundtrip a Ha) as Hp. split; [|by intros Hs; rewrite Hs in Hp].
  destruct a as [ip port|ip port scope]; cbn [socket_ok show_socket] in *; rewrite ?andb_true_iff, ?Z.leb_le, ?Z.ltb_lt in Ha.
  - destruct (show_ipv4_chars ip ltac:(tauto)) as [H1 _], (show_Z_chars port ltac:(lia)) as [H2 _].
    by rewrite !all_chars_app, H1, H2.
  - destruct (show_Z_chars port ltac:(lia)) as [H2 _], (show_Z_chars scope ltac:(lia)) as [H3 _].
    rewrite !all_chars_app, show_ipv6_chars, H2 by tauto. destruct (scope =? 0); [done|]. by rewrite all_chars_app, H3.
Qed.

Lemma ip_char_graphic c : ip_char c = true -> graphic c = true /\ c <> "#"%char /\ c <> ","%char.
Proof. destruct c as [[] [] [] [] [] [] [] []]; vm_compute; try done; intros _; done. Qed.

(** ** What the parsers return is in range *)

Lemma number_loop_range radix bound w acc count s n k rest :
  0 <= radix -> 0 <= acc -> number_loop radix bound w acc count s = Some (n, k, rest) -> 0 <= n.
Proof.
  intros Hr. revert acc count. induction s as [|c s IH]; intros acc count Ha; cbn; [by intros [= <- _ _]|].
  destruct (digit_val radix c) as [d|] eqn:Ed; [|by intros [= <- _ _]]. apply digit_val_nonneg in Ed.
  destruct (match bound with Some m => _ | None => _ end); [|done]. apply IH. nia.
Qed.

Lemma read_number_range radix bound zeros w s n rest :
  0 <= radix -> read_number radix bound zeros w s = Some (n, rest) -> 0 <= n < 2 ^ w.
Proof.
  intros Hr. unfold read_number. destruct (number_loop _ _ _ _ _ _) as [[[m k] r]|] eqn:E; [|done].
  apply number_loop_range in E; [|done|done]. destruct (k =? 0)%nat; [done|]. destruct (_ && _); [done|].
  destruct (Z.ltb_spec m (2 ^ w)); [|done]. by intros [= <- _].
Qed.

Lemma read_octet_range i s n rest : read_octet i s = Some (n, rest) -> 0 <= n < 256.
Proof.
  unfold read_octet, read_separator. intros H.
  destruct (i =? 0)%nat; [|destruct (strip_prefix "." s); [|done]]; by apply read_number_range in H.
Qed.

Lemma read_ipv4_range s ip rest : read_ipv4_addr s = Some (ip, rest) -> ipv4_ok ip = true.
Proof.
  unfold read_ipv4_addr. intros H.
  repeat match type of H with
         | context [read_octet ?i ?s] => destruct (read_octet i s) as [[? ?]|] eqn:?; [|done]
         end.
  injection H as <- _. unfold ipv4_ok. cbn.
  repeat match goal with Hr : read_octet _ _ = Some _ |- _ => apply read_octet_range in Hr end.
  rewrite !andb_true_iff, !Z.leb_le, !Z.ltb_lt. repeat split; lia.
Qed.

Lemma read_group_range i s g rest : read_separator ":" i read_group s = Some (g, rest) -> group g = true.
Proof.
  unfold read_separator, group. rewrite andb_true_iff, Z.leb_le, Z.ltb_lt. intros H.
  destruct (i =? 0)%nat; [|destruct (strip_prefix ":" s); [|done]]; by apply read_number_range in H.
Qed.

Lemma read_groups_range n i s gs v4 rest : read_groups n i s = (gs, v4, rest) ->
  forallb group gs = true /\ (length gs <= n)%nat.
Proof.
  revert i s gs v4 rest. induction n as [|n IH]; intros i s gs v4 rest; cbn [read_groups]; [by intros [= <- <- <-]|].
  destruct (if (0 <? n)%nat then _ else None) as [[ip r]|] eqn:E.
  - destruct (0 <? n)%nat eqn:En; [|done]. apply Nat.ltb_lt in En.
    assert (ipv4_ok ip = true) as Hip.
    { unfold read_separator in E. destruct (i =? 0)%nat; [|destruct (strip_prefix ":" s); [|done]]; by eapply read_ipv4_range. }
    destruct (show_ipv4_app ip "" Hip) as (a & b & c & d & -> & Ha & Hb & Hc & Hd & _). intros [= <- <- <-].
    cbn [forallb length]. unfold group. rewrite !andb_true_iff, !Z.leb_le, !Z.ltb_lt. repeat split; lia.
  - destruct (read_separator ":" i read_group s) as [[g r]|] eqn:Eg; [|intros [= <- <- <-]; split; [done|cbn; lia]].
    destruct (read_groups n (S i) r) as [[gs' v4'] r'] eqn:Er. intros [= <- <- <-]. apply IH in Er as [Hg Hl].
    cbn [forallb length]. rewrite (read_group_range _ _ _ _ Eg), Hg. split; [done|lia].
Qed.

Lemma read_ipv6_range s ip rest : read_ipv6_addr s = Some (ip, rest) -> ipv6_ok ip = true.
Proof.
  unfold read_ipv6_addr. destruct (read_groups 8 0 s) as [[head v4] r] eqn:Eh.
  apply read_groups_range in Eh as [Hh Hl]. unfold ipv6_ok.
  destruct (Nat.eqb_spec (length head) 8) as [E|E]; [intros [= <- _]; by rewrite E|].
  destruct v4; [done|]. destruct (strip_prefix "::" r) as [r'|]; [|done].
  destruct (read_groups (7 - length head) 0 r') as [[tail v4'] r''] eqn:Et.
  apply read_groups_range in Et as [Ht Hlt]. intros [= <- _].
  rewrite !length_app, length_replicate, !forallb_app. fold group in *. apply andb_true_iff. split; [apply Nat.eqb_eq; lia|].
  change (forallb (fun g => (0 <=? g) && (g <? 65536))) with (forallb group). rewrite Hh, Ht, andb_true_r. cbn [andb].
  apply forallb_forall. intros x Hx%list_elem_of_In. by apply elem_of_replicate in Hx as [-> _].
Qed.

Lemma parse_with_Ok {A} (inner : string -> option (A * string)) e s a : parse_with inner e s = Ok a -> inner s = Some (a, "").
Proof. unfold parse_with. destruct (inner s) as [[b [|]]|]; try done. by intros [= ->]. Qed.

Lemma parse_ipv4_addr_ok s ip : parse_ipv4_addr s = Ok ip -> ipv4_ok ip = true.
Proof. unfold parse_ipv4_addr. destruct (15 <? slen s); [done|]. intros H%parse_with_Ok. by apply read_ipv4_range in H. Qed.

Lemma parse_ip_addr_ok s a : parse_ip_addr s = Ok a -> ip_ok a = true.
Proof.
  intros H%parse_with_Ok. unfold read_ip_addr in H. destruct (read_ipv4_addr s) as [[ip r]|] eqn:E4.
  - injection H as <- _. by apply read_ipv4_range in E4.
  - destruct (read_ipv6_addr s) as [[ip r]|] eqn:E6; [|done]. injection H as <- _. by apply read_ipv6_range in E6.
Qed.

Lemma read_port_range s n rest : read_port s = Some (n, rest) -> 0 <= n < 65536.
Proof. unfold read_port. destruct (strip_prefix ":" s); [|done]. intros H. by apply read_number_range in H. Qed.

Lemma parse_socket_addr_ok s a : parse_socket_addr s = Ok a -> socket_ok a = true.
Proof.
  intros H%parse_with_Ok. unfold read_socket_addr in H. destruct (read_socket_addr_v4 s) as [[a' r]|] eqn:E4.
  - injection H as -> _. unfold read_socket_addr_v4 in E4. destruct (read_ipv4_addr s) as [[ip r1]|] eqn:Ei; [|done].
    destruct (read_port r1) as [[p r2]|] eqn:Ep; [|done]. injection E4 as <- _. cbn.
    rewrite (read_ipv4_range _ _ _ Ei). apply read_port_range in Ep. rewrite !andb_true_iff, Z.leb_le, Z.ltb_lt. lia.
  - unfold read_socket_addr_v6 in H. destruct (strip_prefix "[" s) as [s1|]; [|done].
    destruct (read_ipv6_addr s1) as [[ip s2]|] eqn:Ei; [|done].
    destruct (match read_scope_id s2 with Some (n, s) => (n, s) | None => (0, s2) end) as [scope s3] eqn:Es.
    destruct (strip_prefix "]" s3) as [s4|]; [|done]. destruct (read_port s4) as [[p s5]|] eqn:Ep; [|done].
    injection H as <- _. cbn. rewrite (read_ipv6_range _ _ _ Ei). apply read_port_range in Ep.
    assert (0 <= scope < 2 ^ 32).
    { unfold read_scope_id in Es. destruct (strip_prefix "%" s2) as [s'|]; [|by injection Es as <- _].
      destruct (read_number 10 None true 32 s') as [[n s'']|] eqn:En; [|by injection Es as <- _].
      injection Es as <- _. by apply read_number_range in En. }
    rewrite !andb_true_iff, !Z.leb_le, !Z.ltb_lt. lia.
Qed.
