(* ===== verification/VpnConfig.v ===== *)
(** The WireGuard configuration parser: clawcage-core/src/net/vpn/config.rs.

    [parse] reads the INI-style text line by line into two partial records and builds the
    configuration from them. Errors are the messages of the code; those of std's own
    parsers come from IpAddr and from [parse_number]. What is accepted is well-formed
    ([accepted_config_wellformed]) and every well-formed configuration is read back from
    the usual text of it ([vpn_config_roundtrip]). *)

From Stdlib Require Import ZArith Lia Ascii.
From stdpp Require Import base numbers list strings pretty.
From S2P Require Import Prelude RustStr RustText IpAddr.

(** ** Data *)

Record InterfaceConfig := {
  if_private_key : string;
  if_address : Ipv4Addr;
  if_address_prefix : Z;
  if_dns : list IpAddr;
}.

Record PeerConfig := {
  pc_public_key : string;
  pc_preshared_key : option string;
  pc_endpoint : SocketAddr;
  pc_allowed_ips : list string;
  pc_persistent_keepalive : option Z;
}.

Record WireGuardConfig := { wg_interface : InterfaceConfig; wg_peer : PeerConfig }.

Inductive Section := SecInterface | SecPeer.

Record PartialInterface := {
  pi_private_key : option string;
  pi_address : option (Ipv4Addr * Z);
  pi_dns : list IpAddr;
}.

Record PartialPeer := {
  pp_public_key : option string;
  pp_preshared_key : option string;
  pp_endpoint : option SocketAddr;
  pp_allowed_ips : list string;
  pp_persistent_keepalive : option Z;
}.

Definition interface_default : PartialInterface := {| pi_private_key := None; pi_address := None; pi_dns := [] |}.
Definition peer_default : PartialPeer :=
  {| pp_public_key := None; pp_preshared_key := None; pp_endpoint := None; pp_allowed_ips := [];
     pp_persistent_keepalive := None |}.

(** ** Building *)

Definition ok_or {A} (o : option A) (e : string) : result A string := match o with Some a => Ok a | None => Err e end.

Definition PartialInterface_build (i : PartialInterface) : result InterfaceConfig string :=
  let? private_key := ok_or (pi_private_key i) "[Interface] missing PrivateKey" in
  let? (address, prefix) := ok_or (pi_address i) "[Interface] missing Address" in
  Ok {| if_private_key := private_key; if_address := address; if_address_prefix := prefix; if_dns := pi_dns i |}.

Definition PartialPeer_build (p : PartialPeer) : result PeerConfig string :=
  let? public_key := ok_or (pp_public_key p) "[Peer] missing PublicKey" in
  let? endpoint := ok_or (pp_endpoint p) "[Peer] missing Endpoint" in
  match pp_allowed_ips p with
  | [] => Err "[Peer] missing AllowedIPs"
  | _ => Ok {| pc_public_key := public_key; pc_preshared_key := pp_preshared_key p; pc_endpoint := endpoint;
               pc_allowed_ips := pp_allowed_ips p; pc_persistent_keepalive := pp_persistent_keepalive p |}
  end.

(** ** Fields *)

(** [s.parse::<uN>()] with the text of its error. *)
Fixpoint digits_error (w acc : Z) (s : string) : string :=
  match s with
  | EmptyString => ""
  | String c s =>
      match digit_val 10 c with
      | None => "invalid digit found in string"
      | Some d => if acc * 10 + d <? 2 ^ w then digits_error w (acc * 10 + d) s
                  else "number too large to fit in target type"
      end
  end.

Definition parse_number (w : Z) (s : string) : result Z string :=
  match parse_uint w s with
  | Some n => Ok n
  | None =>
      let digits := match strip_prefix "+" s with Some r => r | None => s end in
      Err (if is_empty s then "cannot parse integer from empty string"
           else if is_empty digits then "invalid digit found in string"
           else digits_error w 0 digits)
  end.

Definition map_err {A} (context : string) (r : result A string) : result A string :=
  match r with Ok a => Ok a | Err e => Err (context +:+ e) end.

Definition line_error (line : nat) (msg : string) : string := "line " +:+ pretty line +:+ ": " +:+ msg.

Definition validate_base64_key (value : string) (line : nat) : result unit string :=
  if negb (slen value =? 44) || negb (ends_with value "=")
  then Err (line_error line "invalid key format (expected 44-char base64)")
  else Ok tt.

Definition parse_cidr_v4 (s : string) : result (Ipv4Addr * Z) string :=
  let? (addr_str, prefix_str) := ok_or (split_once "/" s) "expected CIDR notation (e.g. 10.0.0.2/32)" in
  let? addr := map_err "invalid IPv4: " (parse_ipv4_addr (trim addr_str)) in
  let? prefix := map_err "invalid prefix: " (parse_number 8 (trim prefix_str)) in
  if 32 <? prefix then Err ("prefix " +:+ show_Z prefix +:+ " out of range (0-32)") else Ok (addr, prefix).

(** The loops over the parts of a comma-separated value. *)
Fixpoint dns_loop (line : nat) (parts : list string) (i : PartialInterface) : result PartialInterface string :=
  match parts with
  | [] => Ok i
  | part :: parts =>
      let trimmed := trim part in
      if is_empty trimmed then dns_loop line parts i
      else let? ip := map_err (line_error line "DNS: ") (parse_ip_addr trimmed) in
           dns_loop line parts {| pi_private_key := pi_private_key i; pi_address := pi_address i; pi_dns := pi_dns i ++ [ip] |}
  end.

Fixpoint allowed_loop (line : nat) (parts : list string) (p : PartialPeer) : result PartialPeer string :=
  match parts with
  | [] => Ok p
  | part :: parts =>
      let trimmed := trim part in
      if is_empty trimmed then allowed_loop line parts p
      else if negb (contains_char trimmed "/")
           then Err (line_error line "AllowedIPs: expected CIDR notation (e.g. 0.0.0.0/0)")
           else allowed_loop line parts
                  {| pp_public_key := pp_public_key p; pp_preshared_key := pp_preshared_key p; pp_endpoint := pp_endpoint p;
                     pp_allowed_ips := pp_allowed_ips p ++ [trimmed]; pp_persistent_keepalive := pp_persistent_keepalive p |}
  end.

Definition parse_interface_field (key value : string) (i : PartialInterface) (line : nat) : result PartialInterface string :=
  if bool_decide (key = "PrivateKey") then
    let? _ := validate_base64_key value line in
    Ok {| pi_private_key := Some value; pi_address := pi_address i; pi_dns := pi_dns i |}
  else if bool_decide (key = "Address") then
    let? address := map_err (line_error line "Address: ") (parse_cidr_v4 value) in
    Ok {| pi_private_key := pi_private_key i; pi_address := Some address; pi_dns := pi_dns i |}
  else if bool_decide (key = "DNS") then dns_loop line (split_char "," value) i
  else Ok i.

Definition parse_peer_field (key value : string) (p : PartialPeer) (line : nat) : result PartialPeer string :=
  if bool_decide (key = "PublicKey") then
    let? _ := validate_base64_key value line in
    Ok {| pp_public_key := Some value; pp_preshared_key := pp_preshared_key p; pp_endpoint := pp_endpoint p;
          pp_allowed_ips := pp_allowed_ips p; pp_persistent_keepalive := pp_persistent_keepalive p |}
  else if bool_decide (key = "PresharedKey") then
    let? _ := validate_base64_key value line in
    Ok {| pp_public_key := pp_public_key p; pp_preshared_key := Some value; pp_endpoint := pp_endpoint p;
          pp_allowed_ips := pp_allowed_ips p; pp_persistent_keepalive := pp_persistent_keepalive p |}
  else if bool_decide (key = "Endpoint") then
    let? addr := map_err (line_error line "Endpoint: ") (parse_socket_addr value) in
    Ok {| pp_public_key := pp_public_key p; pp_preshared_key := pp_preshared_key p; pp_endpoint := Some addr;
          pp_allowed_ips := pp_allowed_ips p; pp_persistent_keepalive := pp_persistent_keepalive p |}
  else if bool_decide (key = "AllowedIPs") then allowed_loop line (split_char "," value) p
  else if bool_decide (key = "PersistentKeepalive") then
    let? secs := map_err (line_error line "PersistentKeepalive: ") (parse_number 16 value) in
    Ok {| pp_public_key := pp_public_key p; pp_preshared_key := pp_preshared_key p; pp_endpoint := pp_endpoint p;
          pp_allowed_ips := pp_allowed_ips p; pp_persistent_keepalive := Some secs |}
  else Ok p.

(** ** The parser *)

Record ParseState := { ps_section : option Section; ps_iface : PartialInterface; ps_peer : PartialPeer }.

(** The slice of a section header is between two ASCII brackets, so it is never a panic. *)
Definition section_name (line : string) : string := stake (String.length line - 2) (sdrop 1 line).

Definition parse_line (line_num : nat) (raw_line : string) (st : ParseState) : result ParseState string :=
  let line := trim (default "" (head (split_char "#" raw_line))) in
  if is_empty line then Ok st
  else if starts_with line "[" && ends_with line "]" then
    let name := section_name line in
    if bool_decide (name = "Interface")
    then Ok {| ps_section := Some SecInterface; ps_iface := ps_iface st; ps_peer := ps_peer st |}
    else if bool_decide (name = "Peer")
    then Ok {| ps_section := Some SecPeer; ps_iface := ps_iface st; ps_peer := ps_peer st |}
    else Err (line_error (S line_num) ("unknown section [" +:+ name +:+ "]"))
  else
    let? (k, v) := ok_or (split_once "=" line) (line_error (S line_num) "expected Key = Value") in
    let key := trim k in
    let value := trim v in
    match ps_section st with
    | Some SecInterface =>
        let? i := parse_interface_field key value (ps_iface st) (S line_num) in
        Ok {| ps_section := ps_section st; ps_iface := i; ps_peer := ps_peer st |}
    | Some SecPeer =>
        let? p := parse_peer_field key value (ps_peer st) (S line_num) in
        Ok {| ps_section := ps_section st; ps_iface := ps_iface st; ps_peer := p |}
    | None => Err (line_error (S line_num) "key outside of section")
    end.

Fixpoint parse_lines (n : nat) (ls : list string) (st : ParseState) : result ParseState string :=
  match ls with
  | [] => Ok st
  | l :: ls => let? st := parse_line n l st in parse_lines (S n) ls st
  end.

Definition parse (input : string) : result WireGuardConfig string :=
  let? st := parse_lines 0 (lines input) {| ps_section := None; ps_iface := interface_default; ps_peer := peer_default |} in
  let? interface := PartialInterface_build (ps_iface st) in
  let? peer := PartialPeer_build (ps_peer st) in
  Ok {| wg_interface := interface; wg_peer := peer |}.

(** ** The usual text of a configuration *)

Definition field (k v : string) : string := k +:+ " = " +:+ v.

Definition opt_field {A} (k : string) (show : A -> string) (o : option A) : list string :=
  match o with Some a => [field k (show a)] | None => [] end.

Definition list_field {A} (k : string) (show : A -> string) (l : list A) : list string :=
  match l with [] => [] | _ => [field k (join ", " (map show l))] end.

Definition render_interface (i : InterfaceConfig) : list string :=
  "[Interface]" :: field "PrivateKey" (if_private_key i)
  :: field "Address" (show_ipv4 (if_address i) +:+ "/" +:+ show_Z (if_address_prefix i))
  :: list_field "DNS" show_ip (if_dns i).

Definition render_peer (p : PeerConfig) : list string :=
  "[Peer]" :: field "PublicKey" (pc_public_key p) :: opt_field "PresharedKey" id (pc_preshared_key p)
  ++ field "Endpoint" (show_socket (pc_endpoint p))
  :: list_field "AllowedIPs" id (pc_allowed_ips p)
  ++ opt_field "PersistentKeepalive" show_Z (pc_persistent_keepalive p).

Definition render (cfg : WireGuardConfig) : string :=
  unlines (render_interface (wg_interface cfg) ++ render_peer (wg_peer cfg)).

(** A word of the format: no blank, comment sign or comma. *)
Definition word_char (c : ascii) : bool :=
  graphic c && negb (bool_decide (c = "#"%char)) && negb (bool_decide (c = ","%char)).

Definition key_ok (k : string) : bool := (slen k =? 44) && ends_with k "=" && all_chars word_char k.
Definition range_ok (r : string) : bool := contains_char r "/" && all_chars word_char r.

Definition config_ok (cfg : WireGuardConfig) : bool :=
  let i := wg_interface cfg in
  let p := wg_peer cfg in
  key_ok (if_private_key i) && ipv4_ok (if_address i) && (0 <=? if_address_prefix i) && (if_address_prefix i <=? 32)
  && forallb ip_ok (if_dns i)
  && key_ok (pc_public_key p) && match pc_preshared_key p with Some k => key_ok k | None => true end
  && socket_ok (pc_endpoint p)
  && negb (bool_decide (pc_allowed_ips p = [])) && forallb range_ok (pc_allowed_ips p)
  && match pc_persistent_keepalive p with Some n => (0 <=? n) && (n <? 65536) | None => true end.

(** *** One line *)

Definition letter (c : ascii) : bool :=
  ((65 <=? code c) && (code c <=? 90)) || ((97 <=? code c) && (code c <=? 122)).

Lemma letter_facts c : letter c = true -> graphic c = true /\ c <> "["%char /\ c <> "="%char /\ c <> "#"%char.
Proof. destruct c as [[] [] [] [] [] [] [] []]; vm_compute; try done; intros _; done. Qed.

Lemma letters_tidy k : all_chars letter k = true -> k <> "" -> tidy k.
Proof. intros Hk Hne. apply tidy_graphic; [|done]. eapply all_chars_impl, Hk. intros c Hc. by apply letter_facts. Qed.

Lemma letters_free k c : all_chars letter k = true -> letter c = false -> contains_char k c = false.
Proof. apply contains_char_all. Qed.

Lemma parse_line_field n k v st : all_chars letter k = true -> k <> "" -> tidy v -> contains_char v "#" = false ->
  parse_line n (field k v) st =
    match ps_section st with
    | Some SecInterface =>
        let? i := parse_interface_field k v (ps_iface st) (S n) in
        Ok {| ps_section := ps_section st; ps_iface := i; ps_peer := ps_peer st |}
    | Some SecPeer =>
        let? p := parse_peer_field k v (ps_peer st) (S n) in
        Ok {| ps_section := ps_section st; ps_iface := ps_iface st; ps_peer := p |}
    | None => Err (line_error (S n) "key outside of section")
    end.
Proof.
  intros Hk Hne Hv Hh. unfold parse_line.
  rewrite split_char_none by (unfold field; by rewrite !contains_char_app, (letters_free k), Hh).
  pose proof (letters_tidy k Hk Hne) as Ht. cbn [head default id].
  rewrite trim_tidy by (by apply tidy_around).
  assert (is_empty (field k v) = false) as -> by (by destruct k).
  assert (starts_with (field k v) "[" = false) as ->.
  { destruct k as [|c k]; [done|]. unfold field, starts_with. rewrite sapp_cons. cbn [strip_prefix].
    cbn in Hk. apply andb_true_iff in Hk as [Hc _]. rewrite bool_decide_false; [done|]. intros <-. by vm_compute in Hc. }
  cbn [andb].
  assert (field k v = (k +:+ " ") +:+ String "=" (" " +:+ v)) as Hf by (unfold field; by rewrite <- !sapp_assoc).
  rewrite Hf, split_once_app by (by rewrite contains_char_app, (letters_free k)). cbn [ok_or].
  pose proof (trim_padded "" k " " ltac:(by left) ltac:(by right) Ht) as H1. rewrite sapp_nil_l in H1.
  pose proof (trim_padded " " v "" ltac:(by right) ltac:(by left) Hv) as H2. rewrite sapp_nil_r in H2.
  by rewrite H1, H2.
Qed.

Lemma section_interface n st : parse_line n "[Interface]" st =
  Ok {| ps_section := Some SecInterface; ps_iface := ps_iface st; ps_peer := ps_peer st |}.
Proof. reflexivity. Qed.

Lemma section_peer n st : parse_line n "[Peer]" st =
  Ok {| ps_section := Some SecPeer; ps_iface := ps_iface st; ps_peer := ps_peer st |}.
Proof. reflexivity. Qed.

(** *** Values *)

Lemma word_tidy s : all_chars word_char s = true -> s <> "" -> tidy s.
Proof.
  intros Hs Hne. apply tidy_graphic; [|done]. eapply all_chars_impl, Hs. intros c. unfold word_char.
  rewrite !andb_true_iff. tauto.
Qed.

Lemma word_free s c : all_chars word_char s = true -> word_char c = false -> contains_char s c = false.
Proof. apply contains_char_all. Qed.

Lemma ip_word s : all_chars ip_char s = true -> all_chars word_char s = true.
Proof.
  apply all_chars_impl. intros c Hc. destruct (ip_char_graphic c Hc) as (Hg & H1 & H2). unfold word_char.
  by rewrite Hg, !bool_decide_false.
Qed.

Lemma key_ok_spec k n : key_ok k = true ->
  validate_base64_key k n = Ok tt /\ tidy k /\ contains_char k "#" = false /\ all_chars word_char k = true.
Proof.
  unfold key_ok. rewrite !andb_true_iff. intros [[Hl He] Hw]. unfold validate_base64_key. rewrite Hl, He.
  split; [done|]. split; [|split; [by eapply word_free|done]]. apply word_tidy; [done|]. by intros ->.
Qed.

Lemma digits_parse w acc s n : 0 <= acc -> digits_value 10 acc s = Some n -> n < 2 ^ w -> parse_digits 10 w acc s = Some n.
Proof.
  revert acc. induction s as [|c s IH]; intros acc Ha; cbn; [done|].
  destruct (digit_val 10 c) as [d|] eqn:Ed; [|done]. apply digit_val_nonneg in Ed as Hd. intros H Hn.
  pose proof (digits_value_grows 10 (acc * 10 + d) s n ltac:(lia) ltac:(lia) H). rewrite (proj2 (Z.ltb_lt _ _)) by lia.
  apply IH; [lia|done|done].
Qed.

Lemma parse_number_shown w n : 0 <= n < 2 ^ w -> parse_number w (show_Z n) = Ok n.
Proof.
  intros Hn. unfold parse_number, parse_uint, parse_uint_radix.
  pose proof (show_decimal n ltac:(lia)) as H. unfold number_text in H. rewrite !andb_true_iff in H.
  destruct H as [[[Hv%bool_decide_eq_true Hne] _] _]. destruct (show_Z n) as [|c s] eqn:E; [done|].
  assert (strip_prefix "+" (String c s) = None) as ->.
  { cbn. rewrite bool_decide_false; [done|]. intros <-. done. }
  cbn [is_empty]. rewrite (digits_parse w 0 _ n); [done|lia|done|lia].
Qed.

(** A list field adds its values in order. *)
Definition parts_of {A} (show : A -> string) (parts : list string) (l : list A) : Prop :=
  Forall2 (fun part a => trim part = show a /\ show a <> "") parts l.

Lemma parts_of_list {A} (show : A -> string) (l : list A) :
  Forall (fun a => all_chars word_char (show a) = true /\ show a <> "") l ->
  match l with
  | [] => True
  | _ => parts_of show (split_char "," (join ", " (map show l))) l
         /\ tidy (join ", " (map show l)) /\ contains_char (join ", " (map show l)) "#" = false
  end.
Proof.
  intros Hl. destruct l as [|a l]; [done|].
  assert (forall p, word_char p = false -> Forall (fun w => contains_char w p = false) (map show (a :: l))) as Hfree.
  { intros p Hp. apply Forall_map. eapply Forall_impl; [exact Hl|]. intros x [Hx _]. by eapply word_free. }
  assert (Forall tidy (map show (a :: l))) as Htidy.
  { apply Forall_map. eapply Forall_impl; [exact Hl|]. intros x [Hx Hne]. by apply word_tidy. }
  split; [|split; [by apply tidy_join|apply contains_char_join; [done|by apply Hfree]]].
  cbn [map]. rewrite split_comma by (by apply (Hfree ","%char)). unfold parts_of.
  apply Forall_cons in Hl as [[Ha Hna] Hl]. constructor; [split; [|done]; by apply trim_tidy, word_tidy|].
  clear Hfree Htidy. induction Hl as [|x l [Hx Hnx] Hl IH]; cbn [map]; constructor; [|done].
  split; [|done]. pose proof (trim_padded " " (show x) "" ltac:(by right) ltac:(by left) (word_tidy _ Hx Hnx)) as H.
  by rewrite sapp_nil_r in H.
Qed.

Lemma dns_loop_parts line parts l i : parts_of show_ip parts l -> forallb ip_ok l = true ->
  dns_loop line parts i = Ok {| pi_private_key := pi_private_key i; pi_address := pi_address i; pi_dns := pi_dns i ++ l |}.
Proof.
  intros Hp. revert i. induction Hp as [|part a parts l [Ht Hne] Hp IH]; intros i Hok.
  - cbn. rewrite app_nil_r. by destruct i.
  - cbn [forallb] in Hok. apply andb_true_iff in Hok as [Ha Hok]. cbn [dns_loop]. rewrite Ht.
    assert (is_empty (show_ip a) = false) as -> by (by destruct (show_ip a)).
    rewrite ip_addr_roundtrip by done. cbn [map_err]. rewrite IH by done. cbn. by rewrite <- app_assoc.
Qed.

Lemma allowed_loop_parts line parts l p : parts_of id parts l -> forallb range_ok l = true ->
  allowed_loop line parts p =
    Ok {| pp_public_key := pp_public_key p; pp_preshared_key := pp_preshared_key p; pp_endpoint := pp_endpoint p;
          pp_allowed_ips := pp_allowed_ips p ++ l; pp_persistent_keepalive := pp_persistent_keepalive p |}.
Proof.
  intros Hp. revert p. induction Hp as [|part a parts l [Ht Hne] Hp IH]; intros p Hok.
  - cbn. rewrite app_nil_r. by destruct p.
  - cbn [forallb] in Hok. apply andb_true_iff in Hok as [Ha Hok]. cbn [allowed_loop]. rewrite Ht. unfold id in *.
    assert (is_empty a = false) as -> by (by destruct a).
    unfold range_ok in Ha. apply andb_true_iff in Ha as [-> _]. cbn [negb]. rewrite IH by done. cbn. by rewrite <- app_assoc.
Qed.

Lemma cidr_shown ip prefix : ipv4_ok ip = true -> 0 <= prefix <= 32 ->
  parse_cidr_v4 (show_ipv4 ip +:+ "/" +:+ show_Z prefix) = Ok (ip, prefix) /\
  all_chars graphic (show_ipv4 ip +:+ "/" +:+ show_Z prefix) = true /\
  contains_char (show_ipv4 ip +:+ "/" +:+ show_Z prefix) "#" = false.
Proof.
  intros Hip Hp. destruct (show_ipv4_chars ip Hip) as [Hc Hne], (show_Z_chars prefix ltac:(lia)) as [Hcp Hnp].
  apply ip_word in Hc as Hw, Hcp as Hwp.
  assert (forall s, all_chars word_char s = true -> all_chars graphic s = true) as Hg.
  { intros s. apply all_chars_impl. intros c. unfold word_char. rewrite !andb_true_iff. tauto. }
  split; [|split].
  - unfold parse_cidr_v4. change ("/" +:+ show_Z prefix) with (String "/" (show_Z prefix)).
    rewrite split_once_app by (by apply (contains_char_all ip_char)). cbn [ok_or].
    rewrite !trim_tidy by (by apply word_tidy). rewrite ipv4_addr_roundtrip by done. cbn [map_err].
    rewrite parse_number_shown by lia. cbn [map_err]. by rewrite (proj2 (Z.ltb_ge _ _)) by lia.
  - by rewrite !all_chars_app, !Hg.
  - by rewrite !contains_char_app, !(word_free _ "#"%char).
Qed.

(** *** The round trip *)

Definition partial_interface (i : InterfaceConfig) : PartialInterface :=
  {| pi_private_key := Some (if_private_key i); pi_address := Some (if_address i, if_address_prefix i); pi_dns := if_dns i |}.

Definition partial_peer (p : PeerConfig) : PartialPeer :=
  {| pp_public_key := Some (pc_public_key p); pp_preshared_key := pc_preshared_key p; pp_endpoint := Some (pc_endpoint p);
     pp_allowed_ips := pc_allowed_ips p; pp_persistent_keepalive := pc_persistent_keepalive p |}.

(** The lines from [n] on bring the parser from [st] to [st']. *)
Definition runs (ls : list string) (st st' : ParseState) : Prop := forall n, parse_lines n ls st = Ok st'.

Lemma runs_nil st : runs [] st st.
Proof. by intros n. Qed.

Lemma runs_cons l ls st st1 st2 : (forall n, parse_line n l st = Ok st1) -> runs ls st1 st2 -> runs (l :: ls) st st2.
Proof. intros Hl Hls n. cbn [parse_lines]. by rewrite Hl. Qed.

Lemma parse_lines_app n a b st :
  parse_lines n (a ++ b) st = let? st' := parse_lines n a st in parse_lines (n + length a) b st'.
Proof.
  revert n st. induction a as [|l a IH]; intros n st; cbn [app parse_lines length]; [by rewrite Nat.add_0_r|].
  destruct (parse_line n l st); [|done]. by rewrite IH, Nat.add_succ_comm.
Qed.

Lemma runs_app a b st st1 st2 : runs a st st1 -> runs b st1 st2 -> runs (a ++ b) st st2.
Proof. intros Ha Hb n. by rewrite parse_lines_app, Ha. Qed.

Lemma interface_runs i p :
  key_ok (if_private_key i) = true -> ipv4_ok (if_address i) = true -> 0 <= if_address_prefix i <= 32 ->
  forallb ip_ok (if_dns i) = true ->
  runs (render_interface i) {| ps_section := None; ps_iface := interface_default; ps_peer := p |}
    {| ps_section := Some SecInterface; ps_iface := partial_interface i; ps_peer := p |}.
Proof.
  intros Hk Ha Hp Hd. eapply runs_cons; [intros n; apply section_interface|]. cbn [ps_iface ps_peer].
  eapply runs_cons.
  { intros n. destruct (key_ok_spec _ (S n) Hk) as (Hv & Ht & Hh & _). rewrite parse_line_field by done.
    cbn [ps_section ps_iface ps_peer]. unfold parse_interface_field. rewrite bool_decide_true by done. by rewrite Hv. }
  destruct (cidr_shown _ _ Ha Hp) as (Hc & Hg & Hh).
  eapply runs_cons.
  { intros n. rewrite parse_line_field; [|done|done| |done].
    2:{ apply tidy_graphic; [done|]. destruct (show_ipv4_chars _ Ha) as [_ Hne]. by destruct (show_ipv4 (if_address i)). }
    cbn [ps_section ps_iface ps_peer]. unfold parse_interface_field. rewrite bool_decide_false, bool_decide_true by done.
    by rewrite Hc. }
  cbn [pi_private_key pi_dns interface_default]. unfold list_field.
  pose proof (parts_of_list show_ip (if_dns i)) as Hl. unfold partial_interface.
  destruct (if_dns i) as [|d dns]; [apply runs_nil|].
  destruct Hl as (Hparts & Ht & Hhash).
  { apply Forall_forall. intros x Hx. rewrite forallb_forall in Hd. apply list_elem_of_In, Hd, show_ip_chars in Hx as [Hx Hne].
    split; [by apply ip_word|done]. }
  eapply runs_cons; [|apply runs_nil]. intros n. rewrite parse_line_field by done. cbn [ps_section ps_iface ps_peer].
  unfold parse_interface_field. rewrite !bool_decide_false, bool_decide_true by done. by rewrite (dns_loop_parts _ _ _ _ Hparts Hd).
Qed.

Abbreviation in_peer pi q := {| ps_section := Some SecPeer; ps_iface := pi; ps_peer := q |}.

Lemma peer_field_runs k v pi q q' :
  all_chars letter k = true -> k <> "" -> tidy v -> contains_char v "#" = false ->
  (forall n, parse_peer_field k v q n = Ok q') -> runs [field k v] (in_peer pi q) (in_peer pi q').
Proof.
  intros Hk Hne Hv Hh Hp. eapply runs_cons; [|apply runs_nil]. intros n. rewrite parse_line_field by done.
  cbn [ps_section ps_iface ps_peer]. by rewrite Hp.
Qed.

Lemma psk_runs pi q psk : match psk with Some k => key_ok k | None => true end = true -> pp_preshared_key q = None ->
  runs (opt_field "PresharedKey" id psk) (in_peer pi q)
    (in_peer pi {| pp_public_key := pp_public_key q; pp_preshared_key := psk; pp_endpoint := pp_endpoint q;
                   pp_allowed_ips := pp_allowed_ips q; pp_persistent_keepalive := pp_persistent_keepalive q |}).
Proof.
  intros Hk Hq. destruct psk as [k|]; [|destruct q; cbn in Hq; subst; apply runs_nil].
  destruct (key_ok_spec k 0 Hk) as (_ & Ht & Hh & _). apply peer_field_runs; try done.
  intros n. unfold parse_peer_field, id. rewrite bool_decide_false, bool_decide_true by done.
  by rewrite (proj1 (key_ok_spec _ n Hk)).
Qed.

Lemma allowed_runs pi q ips : forallb range_ok ips = true -> pp_allowed_ips q = [] ->
  runs (list_field "AllowedIPs" id ips) (in_peer pi q)
    (in_peer pi {| pp_public_key := pp_public_key q; pp_preshared_key := pp_preshared_key q; pp_endpoint := pp_endpoint q;
                   pp_allowed_ips := ips; pp_persistent_keepalive := pp_persistent_keepalive q |}).
Proof.
  intros Hips Hq. unfold list_field. pose proof (parts_of_list id ips) as Hl.
  destruct ips as [|r rs]; [destruct q; cbn in Hq; subst; apply runs_nil|].
  destruct Hl as (Hparts & Ht & Hhash).
  { apply Forall_forall. intros x Hx. rewrite forallb_forall in Hips. apply list_elem_of_In, Hips in Hx.
    unfold range_ok in Hx. apply andb_true_iff in Hx as [Hs Hx]. split; [done|]. intros E. unfold id in E. by subst. }
  apply peer_field_runs; try done. intros n.
  unfold parse_peer_field. rewrite !bool_decide_false, bool_decide_true by done.
  by rewrite (allowed_loop_parts _ _ _ _ Hparts Hips), Hq.
Qed.

Lemma keepalive_runs pi q ka : match ka with Some n => (0 <=? n) && (n <? 65536) | None => true end = true ->
  pp_persistent_keepalive q = None ->
  runs (opt_field "PersistentKeepalive" show_Z ka) (in_peer pi q)
    (in_peer pi {| pp_public_key := pp_public_key q; pp_preshared_key := pp_preshared_key q; pp_endpoint := pp_endpoint q;
                   pp_allowed_ips := pp_allowed_ips q; pp_persistent_keepalive := ka |}).
Proof.
  intros Hka Hq. destruct ka as [n|]; [|destruct q; cbn in Hq; subst; apply runs_nil].
  rewrite andb_true_iff, Z.leb_le, Z.ltb_lt in Hka. destruct (show_Z_chars n ltac:(lia)) as [Hc%ip_word Hn].
  apply peer_field_runs; try done; [by apply word_tidy|by apply (word_free _ "#"%char)|].
  intros m. unfold parse_peer_field. rewrite !bool_decide_false, bool_decide_true by done. by rewrite parse_number_shown.
Qed.

Lemma peer_runs p s pi :
  key_ok (pc_public_key p) = true -> match pc_preshared_key p with Some k => key_ok k | None => true end = true ->
  socket_ok (pc_endpoint p) = true -> forallb range_ok (pc_allowed_ips p) = true ->
  match pc_persistent_keepalive p with Some n => (0 <=? n) && (n <? 65536) | None => true end = true ->
  runs (render_peer p) {| ps_section := s; ps_iface := pi; ps_peer := peer_default |} (in_peer pi (partial_peer p)).
Proof.
  intros Hpub Hpsk Hep Hips Hka. eapply runs_cons; [intros n; apply section_peer|]. cbn [ps_iface ps_peer].
  destruct (key_ok_spec _ 0 Hpub) as (_ & Htp & Hhp & _), (show_socket_chars _ Hep) as [Hce%ip_word Hnee].
  apply (runs_app [_] _ _ (in_peer pi {| pp_public_key := Some (pc_public_key p); pp_preshared_key := None;
    pp_endpoint := None; pp_allowed_ips := []; pp_persistent_keepalive := None |})).
  { apply peer_field_runs; try done. intros n. unfold parse_peer_field. rewrite bool_decide_true by done.
    by rewrite (proj1 (key_ok_spec _ n Hpub)). }
  eapply runs_app; [by apply psk_runs|]. cbn [pp_public_key pp_preshared_key pp_endpoint pp_allowed_ips pp_persistent_keepalive].
  apply (runs_app [_] _ _ (in_peer pi {| pp_public_key := Some (pc_public_key p); pp_preshared_key := pc_preshared_key p;
    pp_endpoint := Some (pc_endpoint p); pp_allowed_ips := []; pp_persistent_keepalive := None |})).
  { apply peer_field_runs; try done; [by apply word_tidy|by apply (word_free _ "#"%char)|].
    intros n. unfold parse_peer_field. rewrite !bool_decide_false, bool_decide_true by done. by rewrite socket_addr_roundtrip. }
  eapply runs_app; [by apply allowed_runs|]. by apply keepalive_runs.
Qed.

(** The lines of a configuration are free of line breaks. *)
Lemma field_line k v : all_chars letter k = true -> k <> "" -> tidy v -> line_text (field k v).
Proof. intros Hk Hne Hv. apply line_text_printable. by apply (tidy_around k " = " v (letters_tidy k Hk Hne) Hv). Qed.

Lemma list_field_lines {A} k (show : A -> string) l : all_chars letter k = true -> k <> "" ->
  Forall (fun a => all_chars word_char (show a) = true /\ show a <> "") l -> Forall line_text (list_field k show l).
Proof.
  intros Hk Hne Hl. unfold list_field. pose proof (parts_of_list show l Hl) as H. destruct l; [constructor|].
  destruct H as (_ & Ht & _). constructor; [by apply field_line|constructor].
Qed.

Lemma render_lines cfg : config_ok cfg = true ->
  Forall line_text (render_interface (wg_interface cfg) ++ render_peer (wg_peer cfg)).
Proof.
  unfold config_ok, render_interface, render_peer. rewrite !andb_true_iff, !Z.leb_le.
  intros [[[[[[[[[[Hk Ha] Hp0] Hp] Hd] Hpub] Hpsk] Hep] _] Hips] Hka].
  destruct (key_ok_spec _ 0 Hk) as (_ & Htk & _), (key_ok_spec _ 0 Hpub) as (_ & Htp & _).
  destruct (cidr_shown _ _ Ha (conj Hp0 Hp)) as (_ & Hg & _), (show_socket_chars _ Hep) as [Hce%ip_word Hnee].
  cbn [app]. constructor; [done|]. constructor; [by apply field_line|].
  constructor; [apply field_line; [done|done|apply tidy_graphic; [done|]]|].
  { destruct (show_ipv4_chars _ Ha) as [_ Hne]. by destruct (show_ipv4 (if_address (wg_interface cfg))). }
  apply Forall_app. split.
  { apply list_field_lines; try done. apply Forall_forall. intros x Hx. rewrite forallb_forall in Hd.
    apply list_elem_of_In, Hd, show_ip_chars in Hx as [Hx Hne]. split; [by apply ip_word|done]. }
  constructor; [done|]. constructor; [by apply field_line|]. apply Forall_app. split.
  { destruct (pc_preshared_key (wg_peer cfg)) as [psk|]; [|constructor]. destruct (key_ok_spec _ 0 Hpsk) as (_ & Ht & _).
    constructor; [by apply field_line|constructor]. }
  constructor; [apply field_line; [done|done|by apply word_tidy]|]. apply Forall_app. split.
  { apply list_field_lines; try done. apply Forall_forall. intros x Hx. rewrite forallb_forall in Hips.
    apply list_elem_of_In, Hips in Hx. unfold range_ok in Hx. apply andb_true_iff in Hx as [Hs Hx]. split; [done|]. intros E. unfold id in E. by subst. }
  destruct (pc_persistent_keepalive (wg_peer cfg)) as [n|]; [|constructor]. rewrite andb_true_iff, Z.leb_le in Hka.
  destruct (show_Z_chars n ltac:(lia)) as [Hc%ip_word Hn]. constructor; [apply field_line; [done|done|by apply word_tidy]|constructor].
Qed.

(** a WireGuard configuration printed as a file is parsed back to itself: every value
    the parser can accept, with its optional fields, lists of servers and routes, and both
    address families, for every configuration whose fields are valid ([config_ok]). *)
Theorem vpn_config_roundtrip (cfg : WireGuardConfig) (Hok : config_ok cfg = true) : parse (render cfg) = Ok cfg.
Proof.
  unfold parse, render. rewrite lines_unlines by (by apply render_lines).
  unfold config_ok in Hok. rewrite !andb_true_iff, !Z.leb_le in Hok.
  destruct Hok as [[[[[[[[[[Hk Ha] Hp0] Hp] Hd] Hpub] Hpsk] Hep] Hne] Hips] Hka].
  rewrite (runs_app _ _ _ _ _ (interface_runs _ peer_default Hk Ha (conj Hp0 Hp) Hd) (peer_runs _ _ _ Hpub Hpsk Hep Hips Hka) 0%nat).
  destruct cfg as [[key addr prefix dns] [pub psk ep ips ka]]. cbn in *. destruct ips; [by rewrite bool_decide_true in Hne|done].
Qed.

(** ** What is accepted is well-formed *)

Definition key_wf (k : string) : Prop := slen k = 44 /\ ends_with k "=" = true.

Definition interface_wf (i : PartialInterface) : Prop :=
  (forall k, pi_private_key i = Some k -> key_wf k) /\
  (forall ip prefix, pi_address i = Some (ip, prefix) -> ipv4_ok ip = true /\ 0 <= prefix <= 32) /\
  forallb ip_ok (pi_dns i) = true.

Definition peer_wf (p : PartialPeer) : Prop :=
  (forall k, pp_public_key p = Some k \/ pp_preshared_key p = Some k -> key_wf k) /\
  (forall e, pp_endpoint p = Some e -> socket_ok e = true) /\
  Forall (fun r => contains_char r "/" = true /\ contains_char r "," = false) (pp_allowed_ips p) /\
  (forall n, pp_persistent_keepalive p = Some n -> 0 <= n < 2 ^ 16).

(** Every value of a configuration is in the range of its type and was validated. *)
Definition config_wf (cfg : WireGuardConfig) : Prop :=
  let i := wg_interface cfg in
  let p := wg_peer cfg in
  key_wf (if_private_key i) /\ ipv4_ok (if_address i) = true /\ 0 <= if_address_prefix i <= 32 /\
  forallb ip_ok (if_dns i) = true /\ key_wf (pc_public_key p) /\
  (forall k, pc_preshared_key p = Some k -> key_wf k) /\ socket_ok (pc_endpoint p) = true /\
  pc_allowed_ips p <> [] /\
  Forall (fun r => contains_char r "/" = true /\ contains_char r "," = false) (pc_allowed_ips p) /\
  (forall n, pc_persistent_keepalive p = Some n -> 0 <= n < 2 ^ 16).

Lemma validate_key_wf k n u : validate_base64_key k n = Ok u -> key_wf k.
Proof.
  unfold validate_base64_key, key_wf. destruct (Z.eqb_spec (slen k) 44), (ends_with k "="); try done.
Qed.

Lemma map_err_Ok {A} c (r : result A string) a : map_err c r = Ok a -> r = Ok a.
Proof. by destruct r. Qed.

Lemma parse_number_range w s n : 0 <= w -> parse_number w s = Ok n -> 0 <= n < 2 ^ w.
Proof.
  intros Hw. unfold parse_number. destruct (parse_uint w s) as [m|] eqn:E; [|done]. intros [= <-].
  by eapply parse_uint_radix_range in E.
Qed.

Lemma parse_cidr_wf s ip prefix : parse_cidr_v4 s = Ok (ip, prefix) -> ipv4_ok ip = true /\ 0 <= prefix <= 32.
Proof.
  unfold parse_cidr_v4. destruct (split_once "/" s) as [[a p]|]; [|done]. cbn [ok_or].
  destruct (map_err "invalid IPv4: " _) as [ip'|] eqn:Ei; [|done]. destruct (map_err "invalid prefix: " _) as [q|] eqn:Eq; [|done].
  apply map_err_Ok in Ei, Eq. apply parse_ipv4_addr_ok in Ei. apply parse_number_range in Eq; [|done].
  destruct (Z.ltb_spec 32 q); [done|]. intros [= <- <-]. split; [done|lia].
Qed.

Lemma dns_loop_wf line parts i i' : interface_wf i -> dns_loop line parts i = Ok i' -> interface_wf i'.
Proof.
  revert i. induction parts as [|part parts IH]; intros i Hi; cbn [dns_loop]; [by intros [= <-]|].
  destruct (is_empty (trim part)); [by apply IH|]. destruct (map_err _ _) as [ip|] eqn:E; [|done].
  apply map_err_Ok, parse_ip_addr_ok in E. apply IH. destruct Hi as (Hk & Ha & Hd). split; [done|]. split; [done|].
  cbn. rewrite forallb_app, Hd. cbn. by rewrite E.
Qed.

Lemma drop_ws_subset c cs : (forall w, In w cs -> contains_char w c = false) -> forall w, In w (drop_ws cs) -> contains_char w c = false.
Proof.
  intros H w. induction cs as [|d cs IH]; cbn [drop_ws]; [done|]. destruct (is_whitespace d); [|by apply H].
  intros Hw. apply IH; [|done]. intros v Hv. apply H. by right.
Qed.

Lemma sconcat_free c cs : (forall w, In w cs -> contains_char w c = false) <-> contains_char (sconcat cs) c = false.
Proof.
  induction cs as [|w cs IH]; [done|]. cbn [sconcat]. rewrite contains_char_app, orb_false_iff, <- IH. split.
  - intros H. split; [apply H; by left|intros v Hv; apply H; by right].
  - intros [Hw H] v [->|Hv]; [done|by apply H].
Qed.

Lemma in_reverse (w : string) l : In w (reverse l) -> In w l.
Proof. by rewrite <- !list_elem_of_In, elem_of_reverse. Qed.

(** What [trim] keeps was there. *)
Lemma trim_free c s : contains_char s c = false -> contains_char (trim s) c = false.
Proof.
  intros Hs. unfold trim. apply sconcat_free. intros w Hw%in_reverse. revert w Hw.
  apply drop_ws_subset. intros w Hw%in_reverse. revert w Hw.
  apply drop_ws_subset. apply sconcat_free. by rewrite sconcat_chars.
Qed.

Lemma allowed_loop_wf line parts p p' : Forall (fun w => contains_char w "," = false) parts -> peer_wf p ->
  allowed_loop line parts p = Ok p' -> peer_wf p'.
Proof.
  intros Hf. revert p. induction Hf as [|part parts Hpart Hparts IH]; intros p Hp; cbn [allowed_loop]; [by intros [= <-]|].
  destruct (is_empty (trim part)); [by apply IH|]. destruct (contains_char (trim part) "/") eqn:E; [|done]. cbn [negb].
  apply IH. destruct Hp as (Hk & He & Ha & Hn). split; [done|]. split; [done|]. split; [|done].
  apply Forall_app. split; [done|]. constructor; [|constructor]. split; [done|by apply trim_free].
Qed.

Lemma interface_field_wf k v i n i' : interface_wf i -> parse_interface_field k v i n = Ok i' -> interface_wf i'.
Proof.
  intros Hi. pose proof Hi as (Hk & Ha & Hd). unfold parse_interface_field. case_bool_decide.
  { destruct (validate_base64_key v n) eqn:E; [|done]. apply validate_key_wf in E. intros [= <-].
    split; [by intros ? [= <-]|done]. }
  case_bool_decide.
  { destruct (map_err _ _) as [[ip prefix]|] eqn:E; [|done]. apply map_err_Ok, parse_cidr_wf in E. intros [= <-].
    split; [done|]. split; [by intros ?? [= <- <-]|done]. }
  case_bool_decide; [by apply dns_loop_wf|by intros [= <-]].
Qed.

Lemma peer_field_wf k v p n p' : peer_wf p -> parse_peer_field k v p n = Ok p' -> peer_wf p'.
Proof.
  intros Hp. pose proof Hp as (Hk & He & Ha & Hn). unfold parse_peer_field. case_bool_decide.
  { destruct (validate_base64_key v n) eqn:E; [|done]. apply validate_key_wf in E. intros [= <-].
    split; [intros x [[= <-]|Hx]; [done|apply Hk; by right]|done]. }
  case_bool_decide.
  { destruct (validate_base64_key v n) eqn:E; [|done]. apply validate_key_wf in E. intros [= <-].
    split; [intros x [Hx|[= <-]]; [apply Hk; by left|done]|done]. }
  case_bool_decide.
  { destruct (map_err _ _) as [e|] eqn:E; [|done]. apply map_err_Ok, parse_socket_addr_ok in E. intros [= <-].
    split; [done|]. split; [by intros ? [= <-]|done]. }
  case_bool_decide.
  { apply allowed_loop_wf; [|done]. apply Forall_forall. intros w. apply split_char_no_sep. }
  case_bool_decide; [|by intros [= <-]].
  destruct (map_err _ _) as [secs|] eqn:E; [|done]. apply map_err_Ok, parse_number_range in E; [|done]. intros [= <-].
  split; [done|]. split; [done|]. split; [done|by intros ? [= <-]].
Qed.

Definition state_wf (st : ParseState) : Prop := interface_wf (ps_iface st) /\ peer_wf (ps_peer st).

Lemma parse_line_wf n l st st' : state_wf st -> parse_line n l st = Ok st' -> state_wf st'.
Proof.
  intros [Hi Hp]. unfold parse_line. destruct (is_empty _); [by intros [= <-]|]. destruct (_ && _).
  { case_bool_decide; [by intros [= <-]|]. case_bool_decide; [by intros [= <-]|done]. }
  destruct (ok_or _ _) as [[k v]|]; [|done]. destruct (ps_section st) as [[|]|]; [| |done].
  - destruct (parse_interface_field _ _ _ _) as [i|] eqn:E; [|done]. intros [= <-]. split; [by eapply interface_field_wf|done].
  - destruct (parse_peer_field _ _ _ _) as [p|] eqn:E; [|done]. intros [= <-]. split; [done|by eapply peer_field_wf].
Qed.

Lemma parse_lines_wf n ls st st' : state_wf st -> parse_lines n ls st = Ok st' -> state_wf st'.
Proof.
  revert n st. induction ls as [|l ls IH]; intros n st Hst; cbn [parse_lines]; [by intros [= <-]|].
  destruct (parse_line n l st) as [st1|] eqn:E; [|done]. apply IH. by eapply parse_line_wf.
Qed.

Lemma initial_wf : state_wf {| ps_section := None; ps_iface := interface_default; ps_peer := peer_default |}.
Proof.
  split.
  - split; [done|]. split; [done|reflexivity].
  - split; [by intros k [?|?]|]. split; [done|]. split; [constructor|done].
Qed.

(** C35: every configuration the parser accepts is well typed: keys of 44 characters that end
    in '=', an IPv4 address with a prefix of at most 32 bits, name servers in range, an
    endpoint with a 16-bit port, a non-empty list of routes that each have a prefix part, and
    a keepalive of 16 bits. *)
Theorem accepted_config_wellformed (input : string) (cfg : WireGuardConfig) (Hok : parse input = Ok cfg) : config_wf cfg.
Proof.
  unfold parse in Hok. destruct (parse_lines 0 _ _) as [st|] eqn:E; [|done].
  destruct (parse_lines_wf _ _ _ _ initial_wf E) as [(Hk & Ha & Hd) (Hpk & He & Hips & Hn)].
  unfold PartialInterface_build in Hok. destruct (pi_private_key (ps_iface st)) as [key|]; [|done].
  destruct (pi_address (ps_iface st)) as [[ip prefix]|]; [|done]. cbn [ok_or] in Hok.
  unfold PartialPeer_build in Hok. destruct (pp_public_key (ps_peer st)) as [pub|]; [|done].
  destruct (pp_endpoint (ps_peer st)) as [ep|]; [|done]. cbn [ok_or] in Hok.
  destruct (pp_allowed_ips (ps_peer st)) as [|r rs] eqn:Er; [done|]. injection Hok as <-. unfold config_wf. cbn.
  destruct (Ha ip prefix eq_refl) as [Hip Hpre].
  repeat (split; [by auto|]). exact Hn.
Qed.

(** ** Examples *)

Definition sample_config : WireGuardConfig := {|
  wg_interface := {| if_private_key := "yAnz5TF+lXXJte14tji3zlMNq+hd2rYUIgJBgB3fBmk="; if_address := [10; 0; 0; 2];
                     if_address_prefix := 32; if_dns := [V4 [1; 1; 1; 1]; V6 [64768; 0; 0; 0; 0; 0; 0; 1]] |};
  wg_peer := {| pc_public_key := "xTIBA5rboUvnH4htodjb6e697QjLERt1NAB4mZqp8Dg="; pc_preshared_key := None;
                pc_endpoint := SocketV4 [203; 0; 113; 1] 51820; pc_allowed_ips := ["0.0.0.0/0"; "::/0"];
                pc_persistent_keepalive := Some 25 |} |}.

Lemma vpn_config_roundtrip_witness : parse (render sample_config) = Ok sample_config.
Proof. exact (vpn_config_roundtrip sample_config eq_refl). Defined.

Lemma accepted_config_wellformed_witness : config_wf sample_config.
Proof. apply (accepted_config_wellformed (render sample_config)). vm_compute. reflexivity. Defined.

(** A second [Peer] section is merged into the first: its fields replace, its ranges add. *)
Example peers_merged :
  let two := render sample_config +:+ unlines ["[Peer]"; "AllowedIPs = 10.1.0.0/16"; "Endpoint = 198.51.100.7:1"] in
  match parse two with
  | Ok cfg => pc_endpoint (wg_peer cfg) = SocketV4 [198; 51; 100; 7] 1 /\
              pc_allowed_ips (wg_peer cfg) = ["0.0.0.0/0"; "::/0"; "10.1.0.0/16"]
  | Err _ => False
  end.
Proof. vm_compute. done. Qed.

(** The usual list of two tunnel addresses is refused. *)
Example dual_stack_refused :
  parse (unlines ["[Interface]"; "Address = 10.0.0.2/32, fd00::2/128"]) = Err "line 2: Address: invalid prefix: invalid digit found in string".
Proof. by vm_compute. Qed.
