(* ===== verification/SessionTime.v ===== *)
(** Session ids and timestamps: crates/clawcage-core/src/session.rs.

    The civil date of a day is the one of the closed formula [civil_days]; the texts are
    compared the way SQLite compares them, byte by byte. *)

From Stdlib Require Import ZArith Lia Ascii.
From stdpp Require Import base numbers list strings.
From S2P Require Import Prelude RustStr.

(** ** Formatting *)

Definition digit_char (d : Z) : ascii := ascii_of_nat (Z.to_nat (if d <? 10 then 48 + d else 87 + d)).

Fixpoint fixed_digits (radix : Z) (n : nat) (z : Z) : string :=
  match n with
  | O => ""
  | S n => fixed_digits radix n (z / radix) +:+ String (digit_char (z mod radix)) ""
  end.

(** [{z:0n}] of an unsigned number. *)
Definition show_pad (n : nat) (z : Z) : string :=
  if z <? 10 ^ Z.of_nat n then fixed_digits 10 n z else show_Z z.

(** ** Dates *)

Record Parts := { pt_year : Z; pt_month : Z; pt_day : Z; pt_hours : Z; pt_minutes : Z; pt_seconds : Z }.

Definition is_leap (y : Z) : bool := (y mod 4 =? 0) && (negb (y mod 100 =? 0) || (y mod 400 =? 0)).

Definition year_days (y : Z) : Z := if is_leap y then 366 else 365.

(** The loop over the years; [None] when out of fuel. *)
Fixpoint year_loop (fuel : nat) (y remaining_days : Z) : option (Z * Z) :=
  match fuel with
  | O => None
  | S fuel =>
      if remaining_days <? year_days y then Some (y, remaining_days)
      else year_loop fuel (y + 1) (remaining_days - year_days y)
  end.

Definition month_days (leap : bool) : list Z :=
  [31; if leap then 29 else 28; 31; 30; 31; 30; 31; 31; 30; 31; 30; 31].

Fixpoint month_loop (mds : list Z) (m remaining_days : Z) : Z * Z :=
  match mds with
  | [] => (m, remaining_days)
  | md :: mds => if remaining_days <? md then (m, remaining_days) else month_loop mds (m + 1) (remaining_days - md)
  end.

Definition epoch_to_parts (secs : Z) : option Parts :=
  let days := secs / 86400 in
  let time_of_day := secs mod 86400 in
  '(y, remaining_days) ← year_loop (Z.to_nat (days / 365 + 1)) 1970 days;
  let '(m, remaining_days) := month_loop (month_days (is_leap y)) 0 remaining_days in
  Some {| pt_year := y; pt_month := m + 1; pt_day := remaining_days + 1; pt_hours := time_of_day / 3600;
          pt_minutes := (time_of_day mod 3600) / 60; pt_seconds := time_of_day mod 60 |}.

Definition show_iso (p : Parts) : string :=
  show_pad 4 (pt_year p) +:+ "-" +:+ show_pad 2 (pt_month p) +:+ "-" +:+ show_pad 2 (pt_day p) +:+ "T"
  +:+ show_pad 2 (pt_hours p) +:+ ":" +:+ show_pad 2 (pt_minutes p) +:+ ":" +:+ show_pad 2 (pt_seconds p) +:+ "Z".

Definition epoch_to_iso (secs : Z) : option string := show_iso <$> epoch_to_parts secs.

(** ** Session ids *)

(** [nanos] is below 10^9; the process id multiplies in 32 bits. *)
Definition generate_session_id (secs nanos pid : Z) : option string :=
  p ← epoch_to_parts secs;
  let rand_bits := Z.lxor nanos (as_uN 32 (pid * 2654435761)) in
  let suffix := Z.land rand_bits 65535 in
  Some (show_pad 4 (pt_year p) +:+ show_pad 2 (pt_month p) +:+ show_pad 2 (pt_day p) +:+ "-"
        +:+ show_pad 2 (pt_hours p) +:+ show_pad 2 (pt_minutes p) +:+ show_pad 2 (pt_seconds p) +:+ "-"
        +:+ fixed_digits 16 4 suffix).

Definition is_ascii_digit (c : ascii) : bool := (48 <=? nat_of_ascii c)%nat && (nat_of_ascii c <=? 57)%nat.
Definition is_ascii_hexdigit (c : ascii) : bool :=
  is_ascii_digit c || ((65 <=? nat_of_ascii c)%nat && (nat_of_ascii c <=? 70)%nat)
  || ((97 <=? nat_of_ascii c)%nat && (nat_of_ascii c <=? 102)%nat).

Definition is_valid_session_id (s : string) : bool :=
  if negb (slen s =? 20) then false
  else all_chars is_ascii_digit (stake 8 s) && bool_decide (stake 1 (sdrop 8 s) = "-")
       && all_chars is_ascii_digit (stake 6 (sdrop 9 s)) && bool_decide (stake 1 (sdrop 15 s) = "-")
       && all_chars is_ascii_hexdigit (stake 4 (sdrop 16 s)).

Example iso_sample : epoch_to_iso 1709210096 = Some "2024-02-29T12:34:56Z".
Proof. vm_compute. reflexivity. Qed.

(** ** The civil calendar *)

(** Days from 1970-01-01 to the first day of the year, by the Gregorian rule. *)
Definition days_before_year (y : Z) : Z := 365 * (y - 1970) + (y - 1) / 4 - (y - 1) / 100 + (y - 1) / 400 - 477.

Definition sum_Z (l : list Z) : Z := fold_right Z.add 0 l.

(** The day of a date, counted from the epoch. *)
Definition civil_days (y m d : Z) : Z :=
  days_before_year y + sum_Z (take (Z.to_nat (m - 1)) (month_days (is_leap y))) + (d - 1).

Definition valid_date (y m d : Z) : Prop :=
  1 <= m <= 12 /\ 1 <= d /\ exists md, month_days (is_leap y) !! Z.to_nat (m - 1) = Some md /\ d <= md.

Lemma div_pred n k : 0 < k -> 0 < n -> n / k = (n - 1) / k + (if n mod k =? 0 then 1 else 0).
Proof.
  intros Hk Hn. pose proof (Z.div_mod n k ltac:(lia)). pose proof (Z.mod_pos_bound n k Hk).
  destruct (Z.eqb_spec (n mod k) 0).
  - assert ((n - 1) / k = n / k - 1); [|lia]. symmetry. apply (Z.div_unique_pos (n - 1) k (n / k - 1) (k - 1)); lia.
  - assert ((n - 1) / k = n / k); [|lia]. symmetry. apply (Z.div_unique_pos (n - 1) k (n / k) (n mod k - 1)); lia.
Qed.

Lemma days_before_next y : 0 < y -> days_before_year (y + 1) = days_before_year y + year_days y.
Proof.
  intros Hy. unfold days_before_year, year_days, is_leap. replace (y + 1 - 1) with y by lia.
  rewrite (div_pred y 4), (div_pred y 100), (div_pred y 400) by lia.
  assert (y mod 400 = 0 -> y mod 100 = 0) as H400.
  { intros H. apply Z.mod_divide in H as [q ->]; [|lia]. apply Z.mod_divide; [lia|]. exists (q * 4). lia. }
  assert (y mod 100 = 0 -> y mod 4 = 0) as H100.
  { intros H. apply Z.mod_divide in H as [q ->]; [|lia]. apply Z.mod_divide; [lia|]. exists (q * 25). lia. }
  destruct (Z.eqb_spec (y mod 4) 0), (Z.eqb_spec (y mod 100) 0), (Z.eqb_spec (y mod 400) 0); cbn [andb orb negb]; lia.
Qed.

Lemma year_days_bounds y : 365 <= year_days y <= 366.
Proof. unfold year_days. destruct (is_leap y); lia. Qed.

Lemma year_loop_spec fuel y rem :
  0 < y -> 0 <= rem -> (Z.to_nat (rem / 365 + 1) <= fuel)%nat ->
  exists y' rem', year_loop fuel y rem = Some (y', rem') /\ y <= y' /\ 0 <= rem' < year_days y' /\
    days_before_year y' + rem' = days_before_year y + rem.
Proof.
  revert y rem. induction fuel as [|fuel IH]; intros y rem Hy Hr Hf; cbn [year_loop].
  - assert (0 <= rem / 365) by (apply Z.div_pos; lia). lia.
  - pose proof (year_days_bounds y). destruct (Z.ltb_spec rem (year_days y)).
    + exists y, rem. repeat split; lia.
    + destruct (IH (y + 1) (rem - year_days y)) as (y' & rem' & -> & ? & ? & Heq); [lia|lia| |].
      { assert ((rem - year_days y) / 365 <= rem / 365 - 1).
        { replace (rem / 365 - 1) with ((rem - 365) / 365)
            by (replace (rem - 365) with (rem + (-1) * 365) by lia; rewrite Z.div_add by lia; lia).
          apply Z.div_le_mono; lia. }
        assert (0 <= rem / 365) by (apply Z.div_pos; lia). lia. }
      exists y', rem'. rewrite days_before_next in Heq by lia. repeat split; lia.
Qed.

Lemma month_loop_spec mds m rem m' rem' :
  0 <= rem < sum_Z mds -> month_loop mds m rem = (m', rem') ->
  exists i md, m' = m + Z.of_nat i /\ mds !! i = Some md /\ 0 <= rem' < md /\ sum_Z (take i mds) + rem' = rem.
Proof.
  revert m rem. induction mds as [|md mds IH]; intros m rem Hr; cbn [month_loop sum_Z fold_right] in *; [lia|].
  destruct (Z.ltb_spec rem md).
  - intros [= <- <-]. exists O, md. cbn. repeat split; lia.
  - intros Hm. fold (sum_Z mds) in Hr. destruct (IH (m + 1) (rem - md)) as (i & md' & -> & Hi & Hb & Hs); [lia|done|].
    exists (S i), md'. cbn [take lookup list_lookup fold_right]. split; [lia|]. split; [done|]. split; [done|].
    cbn. fold (sum_Z (take i mds)). lia.
Qed.

Lemma month_days_sum leap : sum_Z (month_days leap) = if leap then 366 else 365.
Proof. by destruct leap. Qed.

(** A day is split into the date of the civil calendar. *)
Lemma epoch_to_parts_spec secs :
  0 <= secs -> exists p, epoch_to_parts secs = Some p /\ 1970 <= pt_year p /\
    valid_date (pt_year p) (pt_month p) (pt_day p) /\
    civil_days (pt_year p) (pt_month p) (pt_day p) = secs / 86400 /\
    0 <= pt_hours p < 24 /\ 0 <= pt_minutes p < 60 /\ 0 <= pt_seconds p < 60 /\
    pt_hours p * 3600 + pt_minutes p * 60 + pt_seconds p = secs mod 86400.
Proof.
  intros Hs. unfold epoch_to_parts. set (days := secs / 86400). set (tod := secs mod 86400).
  assert (0 <= days) by (apply Z.div_pos; lia).
  assert (0 <= tod < 86400) by (apply Z.mod_pos_bound; lia).
  destruct (year_loop_spec (Z.to_nat (days / 365 + 1)) 1970 days) as (y & rem & -> & Hy & Hrem & Hd); [lia|done|lia|].
  cbn [mbind option_bind].
  destruct (month_loop (month_days (is_leap y)) 0 rem) as [m rem'] eqn:Em.
  apply month_loop_spec in Em as (i & md & -> & Hi & Hb & Hsum); [|rewrite month_days_sum; exact Hrem].
  assert (i < 12)%nat as Hi12 by (apply lookup_lt_Some in Hi; destruct (is_leap y); exact Hi).
  eexists. split; [done|]. cbn [pt_year pt_month pt_day pt_hours pt_minutes pt_seconds].
  split; [done|]. replace (Z.to_nat (0 + Z.of_nat i + 1 - 1)) with i by lia.
  split; [|split].
  - split; [lia|]. split; [lia|]. exists md. replace (Z.to_nat (0 + Z.of_nat i + 1 - 1)) with i by lia. split; [done|lia].
  - unfold civil_days. replace (Z.to_nat (0 + Z.of_nat i + 1 - 1)) with i by lia.
    change (days_before_year 1970) with 0 in Hd. lia.
  - pose proof (Z.div_mod tod 3600 ltac:(lia)). pose proof (Z.mod_pos_bound tod 3600 ltac:(lia)).
    pose proof (Z.div_mod (tod mod 3600) 60 ltac:(lia)). pose proof (Z.mod_pos_bound (tod mod 3600) 60 ltac:(lia)).
    assert (tod mod 60 = (tod mod 3600) mod 60) as ->.
    { symmetry. apply Z.mod_mod_divide. exists 60. lia. }
    assert (0 <= tod / 3600 < 24) by (split; [apply Z.div_pos; lia|apply Z.div_lt_upper_bound; lia]).
    assert (0 <= (tod mod 3600) / 60 < 60) by (split; [apply Z.div_pos; lia|apply Z.div_lt_upper_bound; lia]).
    pose proof (Z.mod_pos_bound (tod mod 3600) 60 ltac:(lia)). lia.
Qed.

(** ** The order of dates *)

Lemma days_before_mono y y' : 0 < y -> y <= y' -> days_before_year y <= days_before_year y'.
Proof.
  intros Hy Hle. assert (exists n : nat, y' = y + Z.of_nat n) as [n ->] by (exists (Z.to_nat (y' - y)); lia).
  clear Hle. induction n as [|n IH]; [rewrite Z.add_0_r; lia|].
  replace (y + Z.of_nat (S n)) with (y + Z.of_nat n + 1) by lia. rewrite days_before_next by lia.
  pose proof (year_days_bounds (y + Z.of_nat n)). lia.
Qed.

Lemma month_days_pos leap : Forall (fun md => 0 < md) (month_days leap).
Proof. destruct leap; repeat (apply Forall_cons; split; [lia|]); by apply Forall_nil. Qed.

Lemma sum_take_mono l i j :
  Forall (fun md => 0 < md) l -> (i <= j)%nat -> sum_Z (take i l) <= sum_Z (take j l).
Proof.
  intros Hl. revert i j. induction Hl as [|x l Hx Hl IH]; intros i j Hij; [by rewrite !take_nil|].
  destruct i as [|i]; destruct j as [|j]; cbn [take sum_Z fold_right]; [lia| |lia|].
  - fold (sum_Z (take j l)). specialize (IH O j ltac:(lia)). change (sum_Z (take 0 l)) with 0 in IH. lia.
  - fold (sum_Z (take i l)) (sum_Z (take j l)). specialize (IH i j ltac:(lia)). lia.
Qed.

Lemma sum_take_S l i md : l !! i = Some md -> sum_Z (take (S i) l) = sum_Z (take i l) + md.
Proof.
  revert i. induction l as [|x l IH]; intros i Hi; [done|]. destruct i as [|i].
  - injection Hi as ->. rewrite take_0. unfold sum_Z. simpl. lia.
  - cbn [take sum_Z fold_right]. fold (sum_Z (take (S i) l)) (sum_Z (take i l)). rewrite (IH i Hi). lia.
Qed.

Lemma civil_days_month y m d : valid_date y m d ->
  civil_days y m d < days_before_year y + sum_Z (take (Z.to_nat m) (month_days (is_leap y))).
Proof.
  intros (Hm & Hd & md & Hi & Hle). unfold civil_days.
  replace (Z.to_nat m) with (S (Z.to_nat (m - 1))) by lia. rewrite (sum_take_S _ _ _ Hi). lia.
Qed.

Lemma civil_days_year y m d : valid_date y m d ->
  days_before_year y <= civil_days y m d < days_before_year y + year_days y.
Proof.
  intros Hv. pose proof (civil_days_month _ _ _ Hv). destruct Hv as (Hm & Hd & _).
  pose proof (sum_take_mono (month_days (is_leap y)) O (Z.to_nat (m - 1)) (month_days_pos _) ltac:(lia)) as H0.
  pose proof (sum_take_mono (month_days (is_leap y)) (Z.to_nat m) 12 (month_days_pos _) ltac:(lia)) as H12.
  assert (sum_Z (take 12 (month_days (is_leap y))) = year_days y) as E by (unfold year_days; by destruct (is_leap y)).
  rewrite E in H12. rewrite take_0 in H0. change (sum_Z []) with 0 in H0. unfold civil_days in *. lia.
Qed.

(** ** Comparing texts *)

Lemma string_compare_app a b x y : String.length a = String.length b ->
  String.compare (a +:+ x) (b +:+ y) = match String.compare a b with Eq => String.compare x y | c => c end.
Proof.
  revert b. induction a as [|c a IH]; intros [|d b] Hl; try discriminate; [by rewrite !sapp_nil_l|].
  rewrite !sapp_cons. cbn [String.compare]. destruct (Ascii.compare c d); [|done|done]. apply IH. by injection Hl.
Qed.

Lemma fixed_digits_length r n z : String.length (fixed_digits r n z) = n.
Proof.
  revert z. induction n as [|n IH]; intros z; cbn [fixed_digits]; [done|]. rewrite slength_app, IH. cbn. lia.
Qed.

Lemma digit_char_compare a b : 0 <= a < 16 -> 0 <= b < 16 ->
  String.compare (String (digit_char a) "") (String (digit_char b) "") = Z.compare a b.
Proof.
  intros Ha Hb.
  assert (forall k, 0 <= k < 16 -> k ∈ map Z.of_nat (seq 0 16)) as Hin.
  { intros k Hk. apply list_elem_of_fmap. exists (Z.to_nat k). split; [lia|]. apply elem_of_seq. lia. }
  revert a b Ha Hb. 
  assert (Forall (fun a => Forall (fun b => String.compare (String (digit_char a) "") (String (digit_char b) "") = Z.compare a b)
    (map Z.of_nat (seq 0 16))) (map Z.of_nat (seq 0 16))) as Hall.
  { repeat (apply Forall_cons; split; [repeat (apply Forall_cons; split; [reflexivity|]); by apply Forall_nil|]). by apply Forall_nil. }
  intros a b Ha Hb. rewrite Forall_forall in Hall. specialize (Hall a (Hin a Ha)). rewrite Forall_forall in Hall.
  apply Hall, Hin, Hb.
Qed.

Lemma fixed_digits_compare r n a b : 2 <= r <= 16 -> 0 <= a < r ^ Z.of_nat n -> 0 <= b < r ^ Z.of_nat n ->
  String.compare (fixed_digits r n a) (fixed_digits r n b) = Z.compare a b.
Proof.
  intros Hr. revert a b. induction n as [|n IH]; intros a b Ha Hb.
  - change (r ^ Z.of_nat 0) with 1 in *. replace a with 0 by lia. replace b with 0 by lia. done.
  - cbn [fixed_digits]. rewrite string_compare_app by (by rewrite !fixed_digits_length).
    rewrite Nat2Z.inj_succ, Z.pow_succ_r in Ha, Hb by lia.
    assert (0 <= a / r < r ^ Z.of_nat n) by (split; [apply Z.div_pos; lia|apply Z.div_lt_upper_bound; lia]).
    assert (0 <= b / r < r ^ Z.of_nat n) by (split; [apply Z.div_pos; lia|apply Z.div_lt_upper_bound; lia]).
    rewrite IH by done.
    pose proof (Z.mod_pos_bound a r ltac:(lia)). pose proof (Z.mod_pos_bound b r ltac:(lia)).
    rewrite digit_char_compare by lia.
    pose proof (Z.div_mod a r ltac:(lia)). pose proof (Z.div_mod b r ltac:(lia)).
    destruct (Z.compare_spec (a / r) (b / r)); destruct (Z.compare_spec (a mod r) (b mod r));
      symmetry; rewrite ?Z.compare_eq_iff, ?Z.compare_lt_iff, ?Z.compare_gt_iff; nia.
Qed.

Lemma show_pad_compare n a b : 0 <= a < 10 ^ Z.of_nat n -> 0 <= b < 10 ^ Z.of_nat n ->
  String.compare (show_pad n a) (show_pad n b) = Z.compare a b /\ String.length (show_pad n a) = String.length (show_pad n b).
Proof.
  intros Ha Hb. unfold show_pad. destruct (Z.ltb_spec a (10 ^ Z.of_nat n)); [|lia].
  destruct (Z.ltb_spec b (10 ^ Z.of_nat n)); [|lia]. rewrite !fixed_digits_length.
  split; [|done]. by apply fixed_digits_compare.
Qed.

(** The fields of a date fit their columns until the year 10000. *)
Definition parts_fit (p : Parts) : Prop :=
  0 <= pt_year p < 10000 /\ 0 <= pt_month p < 100 /\ 0 <= pt_day p < 100 /\
  0 <= pt_hours p < 100 /\ 0 <= pt_minutes p < 100 /\ 0 <= pt_seconds p < 100.

Definition then_compare (c d : comparison) : comparison := match c with Eq => d | _ => c end.

Lemma show_iso_compare p q : parts_fit p -> parts_fit q ->
  String.compare (show_iso p) (show_iso q) =
    then_compare (Z.compare (pt_year p) (pt_year q))
      (then_compare (Z.compare (pt_month p) (pt_month q))
        (then_compare (Z.compare (pt_day p) (pt_day q))
          (then_compare (Z.compare (pt_hours p) (pt_hours q))
            (then_compare (Z.compare (pt_minutes p) (pt_minutes q)) (Z.compare (pt_seconds p) (pt_seconds q)))))).
Proof.
  intros (Hy & Hm & Hd & Hh & Hmi & Hs) (Hy' & Hm' & Hd' & Hh' & Hmi' & Hs'). unfold show_iso.
  destruct (show_pad_compare 4 (pt_year p) (pt_year q)) as [Ey Ly]; [done|done|].
  destruct (show_pad_compare 2 (pt_month p) (pt_month q)) as [Em Lm]; [done|done|].
  destruct (show_pad_compare 2 (pt_day p) (pt_day q)) as [Ed Ld]; [done|done|].
  destruct (show_pad_compare 2 (pt_hours p) (pt_hours q)) as [Eh Lh]; [done|done|].
  destruct (show_pad_compare 2 (pt_minutes p) (pt_minutes q)) as [Emi Lmi]; [done|done|].
  destruct (show_pad_compare 2 (pt_seconds p) (pt_seconds q)) as [Es Ls]; [done|done|].
  rewrite string_compare_app by done. rewrite Ey. unfold then_compare at 1. destruct (pt_year p ?= pt_year q); [|done|done].
  rewrite string_compare_app by done. change (String.compare "-" "-") with Eq. cbv iota.
  rewrite string_compare_app by done. rewrite Em. unfold then_compare at 1. destruct (pt_month p ?= pt_month q); [|done|done].
  rewrite string_compare_app by done. change (String.compare "-" "-") with Eq. cbv iota.
  rewrite string_compare_app by done. rewrite Ed. unfold then_compare at 1. destruct (pt_day p ?= pt_day q); [|done|done].
  rewrite string_compare_app by done. change (String.compare "T" "T") with Eq. cbv iota.
  rewrite string_compare_app by done. rewrite Eh. unfold then_compare at 1. destruct (pt_hours p ?= pt_hours q); [|done|done].
  rewrite string_compare_app by done. change (String.compare ":" ":") with Eq. cbv iota.
  rewrite string_compare_app by done. rewrite Emi. unfold then_compare at 1. destruct (pt_minutes p ?= pt_minutes q); [|done|done].
  rewrite string_compare_app by done. change (String.compare ":" ":") with Eq. cbv iota.
  rewrite string_compare_app by done. rewrite Es. by destruct (pt_seconds p ?= pt_seconds q).
Qed.

(** Seconds from the epoch to the end of the year 9999. *)
Definition YEAR_10000 : Z := 253402300800.

Lemma parts_fit_spec secs p : 0 <= secs < YEAR_10000 -> epoch_to_parts secs = Some p -> parts_fit p.
Proof.
  intros Hs Hp. destruct (epoch_to_parts_spec secs) as (p' & Hp' & Hy & Hv & Hc & Hh & Hm & Hse & _); [lia|].
  rewrite Hp in Hp'. injection Hp' as <-. pose proof (civil_days_year _ _ _ Hv) as Hb.
  assert (secs / 86400 < 2932897) by (apply Z.div_lt_upper_bound; unfold YEAR_10000 in Hs; lia).
  assert (pt_year p < 10000).
  { destruct (Z.lt_ge_cases (pt_year p) 10000); [done|].
    pose proof (days_before_mono 10000 (pt_year p) ltac:(lia) ltac:(lia)) as Hmono.
    change (days_before_year 10000) with 2932897 in Hmono. lia. }
  destruct Hv as (Hmo & Hd & md & Hi & Hle).
  assert (md <= 31).
  { assert (Forall (fun md => md <= 31) (month_days (is_leap (pt_year p)))) as Hf.
    { destruct (is_leap _); repeat (apply Forall_cons; split; [lia|]); by apply Forall_nil. }
    rewrite Forall_lookup in Hf. by eapply Hf. }
  unfold parts_fit. repeat split; lia.
Qed.

(** Later times have later dates, field by field. *)
Lemma parts_order a b p q : 0 <= a < b -> epoch_to_parts a = Some p -> epoch_to_parts b = Some q ->
  then_compare (Z.compare (pt_year p) (pt_year q))
      (then_compare (Z.compare (pt_month p) (pt_month q))
        (then_compare (Z.compare (pt_day p) (pt_day q))
          (then_compare (Z.compare (pt_hours p) (pt_hours q))
            (then_compare (Z.compare (pt_minutes p) (pt_minutes q)) (Z.compare (pt_seconds p) (pt_seconds q)))))) = Lt.
Proof.
  intros Hab Hp Hq.
  destruct (epoch_to_parts_spec a) as (p' & Hp' & Hy & Hv & Hc & Hh & Hm & Hs & Ht); [lia|].
  rewrite Hp in Hp'. injection Hp' as <-.
  destruct (epoch_to_parts_spec b) as (q' & Hq' & Hy' & Hv' & Hc' & Hh' & Hm' & Hs' & Ht'); [lia|].
  rewrite Hq in Hq'. injection Hq' as <-.
  pose proof (Z.div_mod a 86400 ltac:(lia)). pose proof (Z.div_mod b 86400 ltac:(lia)).
  assert (a / 86400 <= b / 86400) as Hd by (apply Z.div_le_mono; lia).
  pose proof (civil_days_year _ _ _ Hv) as Hb. pose proof (civil_days_year _ _ _ Hv') as Hb'.
  pose proof (civil_days_month _ _ _ Hv) as Hbm. pose proof (civil_days_month _ _ _ Hv') as Hbm'.
  unfold then_compare.
  destruct (Z.compare_spec (pt_year p) (pt_year q)) as [Ey|Ey|Ey]; [|done|].
  2:{ exfalso. pose proof (days_before_mono (pt_year q + 1) (pt_year p) ltac:(lia) ltac:(lia)) as Hmn.
      rewrite days_before_next in Hmn by lia. lia. }
  destruct (Z.compare_spec (pt_month p) (pt_month q)) as [Em|Em|Em]; [|done|].
  2:{ exfalso. rewrite Ey in *. destruct Hv' as (Hmo' & Hd' & _).
      pose proof (sum_take_mono (month_days (is_leap (pt_year q))) (Z.to_nat (pt_month q)) (Z.to_nat (pt_month p - 1))
        (month_days_pos _) ltac:(lia)). destruct Hv as (Hmo & Hd1 & _). unfold civil_days in Hc. lia. }
  destruct (Z.compare_spec (pt_day p) (pt_day q)) as [Ed|Ed|Ed]; [|done|].
  2:{ exfalso. unfold civil_days in Hc, Hc'. rewrite Ey, Em in *. lia. }
  assert (a / 86400 = b / 86400) by (rewrite <- Hc, <- Hc', Ey, Em, Ed; done).
  destruct (Z.compare_spec (pt_hours p) (pt_hours q)); [|done|lia].
  destruct (Z.compare_spec (pt_minutes p) (pt_minutes q)); [|done|lia].
  destruct (Z.compare_spec (pt_seconds p) (pt_seconds q)); [lia|done|lia].
Qed.

(** ** Session ids *)

Lemma fixed_digits_all r n z (p : ascii -> bool) : 0 < r ->
  (forall d, 0 <= d < r -> p (digit_char d) = true) -> all_chars p (fixed_digits r n z) = true.
Proof.
  intros Hr Hp. unfold all_chars. revert z. induction n as [|n IH]; intros z; cbn [fixed_digits]; [done|].
  rewrite list_ascii_app, forallb_app, IH. cbn. rewrite Hp; [done|]. by apply Z.mod_pos_bound.
Qed.

Lemma digit_char_range (p : ascii -> bool) r :
  forallb (fun d => p (digit_char (Z.of_nat d))) (seq 0 r) = true ->
  forall d, 0 <= d < Z.of_nat r -> p (digit_char d) = true.
Proof.
  rewrite forallb_forall. intros Hall d Hd. rewrite <- (Z2Nat.id d) by lia. apply Hall. apply in_seq. lia.
Qed.

Lemma digits_decimal n z : all_chars is_ascii_digit (fixed_digits 10 n z) = true.
Proof. apply fixed_digits_all; [lia|]. by apply (digit_char_range is_ascii_digit 10). Qed.

Lemma digits_hex n z : all_chars is_ascii_hexdigit (fixed_digits 16 n z) = true.
Proof. apply fixed_digits_all; [lia|]. by apply (digit_char_range is_ascii_hexdigit 16). Qed.

Lemma stake_at n (a b : string) : String.length a = n -> stake n (a +:+ b) = a.
Proof. intros <-. apply stake_app. Qed.
Lemma sdrop_at n (a b : string) : String.length a = n -> sdrop n (a +:+ b) = b.
Proof. intros <-. apply sdrop_app. Qed.

Lemma valid_session_id_shape (d t x : string) :
  String.length d = 8%nat -> String.length t = 6%nat -> String.length x = 4%nat ->
  all_chars is_ascii_digit d = true -> all_chars is_ascii_digit t = true -> all_chars is_ascii_hexdigit x = true ->
  is_valid_session_id (d +:+ "-" +:+ t +:+ "-" +:+ x) = true.
Proof.
  intros Ld Lt Lx Hd Ht Hx. unfold is_valid_session_id.
  assert (slen (d +:+ "-" +:+ t +:+ "-" +:+ x) = 20) as -> by (unfold slen; rewrite !slength_app, Ld, Lt, Lx; done).
  cbn [negb Z.eqb]. change (20 =? 20) with true. cbn [negb].
  rewrite (stake_at 8) by done. rewrite Hd.
  rewrite (sdrop_at 8) by done.
  replace (sdrop 9 (d +:+ "-" +:+ t +:+ "-" +:+ x)) with (t +:+ "-" +:+ x)
    by (rewrite (sapp_assoc d); by rewrite (sdrop_at 9) by (rewrite slength_app, Ld; done)).
  replace (sdrop 15 (d +:+ "-" +:+ t +:+ "-" +:+ x)) with ("-" +:+ x)
    by (rewrite (sapp_assoc "-" t), (sapp_assoc d); by rewrite (sdrop_at 15) by (rewrite !slength_app, Ld, Lt; done)).
  replace (sdrop 16 (d +:+ "-" +:+ t +:+ "-" +:+ x)) with x
    by (rewrite (sapp_assoc t), (sapp_assoc "-"), (sapp_assoc d); by rewrite (sdrop_at 16) by (rewrite !slength_app, Ld, Lt; done)).
  rewrite (stake_at 6) by done. rewrite Ht.
  assert (stake 4 x = x) as -> by (rewrite <- (sapp_nil_r x) at 1; by apply stake_at).
  rewrite Hx. done.
Qed.

(** ** Properties *)

(** Every number of seconds is split into the date and time it stands for: the loops end,
    the date exists in the Gregorian calendar, and its day, counted by the calendar's closed
    formula, with its time of day gives the seconds back. *)
Theorem epoch_date_roundtrip (secs : Z) :
  0 <= secs -> exists p, epoch_to_parts secs = Some p /\ valid_date (pt_year p) (pt_month p) (pt_day p) /\
    0 <= pt_hours p < 24 /\ 0 <= pt_minutes p < 60 /\ 0 <= pt_seconds p < 60 /\
    civil_days (pt_year p) (pt_month p) (pt_day p) * 86400
      + pt_hours p * 3600 + pt_minutes p * 60 + pt_seconds p = secs.
Proof.
  intros Hs. destruct (epoch_to_parts_spec secs Hs) as (p & Hp & _ & Hv & Hc & Hh & Hm & Hse & Ht).
  exists p. do 5 (split; [done|]). rewrite Hc. pose proof (Z.div_mod secs 86400 ltac:(lia)). lia.
Qed.

Lemma epoch_date_roundtrip_witness :
  exists p, epoch_to_parts 951782400 = Some p /\ valid_date (pt_year p) (pt_month p) (pt_day p) /\
    (pt_year p, pt_month p, pt_day p) = (2000, 2, 29).
Proof.
  destruct (epoch_date_roundtrip 951782400) as (p & Hp & Hv & _); [discriminate|].
  exists p. split; [exact Hp|]. split; [exact Hv|]. vm_compute in Hp. injection Hp as <-. reflexivity.
Defined.

Lemma iso_compare a b x y :
  0 <= a < YEAR_10000 -> 0 <= b < YEAR_10000 -> epoch_to_iso a = Some x -> epoch_to_iso b = Some y ->
  String.compare x y = Z.compare a b.
Proof.
  intros Ha Hb Hx Hy. unfold epoch_to_iso in Hx, Hy.
  destruct (epoch_to_parts a) as [p|] eqn:Ep; [|done]. injection Hx as <-.
  destruct (epoch_to_parts b) as [q|] eqn:Eq; [|done]. injection Hy as <-.
  pose proof (parts_fit_spec _ _ Ha Ep) as Fp. pose proof (parts_fit_spec _ _ Hb Eq) as Fq.
  destruct (Z.compare_spec a b) as [->|Hlt|Hgt].
  - rewrite Ep in Eq. injection Eq as ->. rewrite show_iso_compare by done. by rewrite !Z.compare_refl.
  - rewrite show_iso_compare by done. by apply (parts_order a b); [lia| |].
  - rewrite String.compare_antisym, show_iso_compare by done. by rewrite (parts_order b a) by (done || lia).
Qed.

(** Until the year 10000 the timestamps of the session index sort as texts the way the
    times sort, so the retention and ordering queries, which compare the texts, compare the
    times. *)
Theorem iso_order (a b : Z) (x y : string) :
  0 <= a < YEAR_10000 -> 0 <= b < YEAR_10000 -> epoch_to_iso a = Some x -> epoch_to_iso b = Some y ->
  String.compare x y = Z.compare a b.
Proof. apply iso_compare. Qed.

Lemma iso_order_witness : String.compare "2024-02-29T12:34:56Z" "2024-03-01T00:00:00Z" = Lt.
Proof.
  apply (iso_order 1709210096 1709251200); [split; [discriminate|reflexivity]..| |]; vm_compute; reflexivity.
Defined.

(** Every generated session id passes the check that recognises session directories. *)
Theorem generated_id_valid (secs nanos pid : Z) :
  0 <= secs < YEAR_10000 ->
  exists id, generate_session_id secs nanos pid = Some id /\ is_valid_session_id id = true.
Proof.
  intros Hs. destruct (epoch_to_parts_spec secs) as (p & Hp & _); [lia|].
  pose proof (parts_fit_spec _ _ Hs Hp) as (Hy & Hm & Hd & Hh & Hmi & Hse).
  unfold generate_session_id. rewrite Hp. cbn [mbind option_bind]. eexists. split; [done|].
  assert (forall n z, 0 <= z < 10 ^ Z.of_nat n -> show_pad n z = fixed_digits 10 n z) as Hpad.
  { intros n z Hz. unfold show_pad. destruct (Z.ltb_spec z (10 ^ Z.of_nat n)); [done|lia]. }
  rewrite (Hpad 4%nat), !(Hpad 2%nat) by done.
  rewrite (sapp_assoc (fixed_digits 10 2 (pt_month p))), (sapp_assoc (fixed_digits 10 4 (pt_year p))).
  rewrite (sapp_assoc (fixed_digits 10 2 (pt_minutes p))), (sapp_assoc (fixed_digits 10 2 (pt_hours p))).
  apply valid_session_id_shape; rewrite ?slength_app, ?fixed_digits_length, ?all_chars_app, ?digits_decimal, ?digits_hex; done.
Qed.

Lemma generated_id_valid_witness :
  exists id, generate_session_id 1709210096 123456789 4242 = Some id /\ is_valid_session_id id = true.
Proof. apply (generated_id_valid 1709210096 123456789 4242). split; [discriminate|reflexivity]. Defined.
