(* ===== verification/CloudTime.v ===== *)
(** The clock of the automatic synchronisation, crates/clawcage-app/src/cloud.rs:
    [chrono_parse_iso] and the test whether a synchronisation is due.

    The parser leaves out the leap day of the current year: from March of a leap year on a
    date is read as the day before, so a synchronisation is due at once
    ([auto_sync_interval]). *)

From Stdlib Require Import ZArith Lia Ascii.
From stdpp Require Import base numbers list strings.
From S2P Require Import Prelude RustStr RustText SessionTime.

(** [s.replace(c, r)] for a character. *)
Fixpoint replace_char (c : ascii) (r s : string) : string :=
  match s with
  | EmptyString => ""
  | String d s => (if bool_decide (d = c) then r else String d "") +:+ replace_char c r s
  end.

(** [s.split(&[..])]: at each character of a class. *)
Fixpoint split_any (p : ascii -> bool) (s : string) : list string :=
  match s with
  | EmptyString => [""]
  | String d s => if p d then "" :: split_any p s else match split_any p s with w :: ws => String d w :: ws | [] => [String d ""] end
  end.

Definition date_separator (c : ascii) : bool := bool_decide (c ∈ ["-"%char; " "%char; ":"%char; "."%char]).

Definition MONTH_STARTS : list Z := [0; 31; 59; 90; 120; 151; 181; 212; 243; 273; 304; 334].

(** The arithmetic wraps at 64 bits, as in a release build. *)
Definition chrono_parse_iso (ts : string) : Z :=
  let ts := replace_char "Z" "" (replace_char "T" " " (trim ts)) in
  let num (d : Z) (s : string) := default d (parse_uint 64 s) in
  match split_any date_separator ts with
  | year :: month :: day :: hour :: min :: sec :: _ =>
      let '(year, month, day) := (num 2000 year, num 1 month, num 1 day) in
      let '(hour, min, sec) := (num 0 hour, num 0 min, num 0 sec) in
      let days_since_epoch := as_uN 64 (as_uN 64 (year - 1970) * 365 + as_uN 64 (year - 1969) / 4
        + nth (Z.to_nat (Z.min (saturating_sub month 1) 11)) MONTH_STARTS 0 + day - 1) in
      as_uN 64 (days_since_epoch * 86400 + hour * 3600 + min * 60 + sec)
  | _ => 0
  end.

(** Whether a synchronisation is due at [now], in seconds. *)
Definition should_sync (now : Z) (last_auto_sync : option string) : bool :=
  match last_auto_sync with
  | Some ts => 24 * 60 * 60 <? as_uN 64 (now - chrono_parse_iso ts)
  | None => true
  end.

(** ** Reading a date back *)

Lemma split_any_word p a c b : all_chars (fun d => negb (p d)) a = true -> p c = true -> split_any p (a +:+ String c b) = a :: split_any p b.
Proof.
  intros Ha Hc. induction a as [|d a IH]; [rewrite sapp_nil_l; cbn [split_any]; by rewrite Hc|]. unfold all_chars in *. cbn in Ha. apply andb_true_iff in Ha as [Hd Ha].
  rewrite sapp_cons. cbn [split_any]. apply negb_true_iff in Hd. by rewrite Hd, IH.
Qed.

Lemma split_any_last p a : all_chars (fun d => negb (p d)) a = true -> split_any p a = [a].
Proof.
  intros Ha. induction a as [|d a IH]; [done|]. unfold all_chars in *. cbn in Ha. apply andb_true_iff in Ha as [Hd Ha].
  cbn [split_any]. apply negb_true_iff in Hd. by rewrite Hd, IH.
Qed.

Lemma replace_char_app c r a b : replace_char c r (a +:+ b) = replace_char c r a +:+ replace_char c r b.
Proof. induction a as [|d a IH]; [done|]. rewrite sapp_cons. cbn [replace_char]. by rewrite IH, sapp_assoc. Qed.

Lemma replace_char_none c r a : all_chars (fun d => negb (bool_decide (d = c))) a = true -> replace_char c r a = a.
Proof.
  intros Ha. induction a as [|d a IH]; [done|]. unfold all_chars in *. cbn in Ha. apply andb_true_iff in Ha as [Hd Ha].
  cbn [replace_char]. apply negb_true_iff in Hd. rewrite Hd, IH by done. done.
Qed.

Lemma digit_val_digit d : 0 <= d < 10 -> digit_val 10 (digit_char d) = Some d.
Proof.
  intros Hd. assert (d = 0 \/ d = 1 \/ d = 2 \/ d = 3 \/ d = 4 \/ d = 5 \/ d = 6 \/ d = 7 \/ d = 8 \/ d = 9) as H by lia.
  by repeat (destruct H as [->|H]; [done|]); subst.
Qed.

Lemma parse_digits_app radix w acc a b n : parse_digits radix w acc a = Some n -> parse_digits radix w acc (a +:+ b) = parse_digits radix w n b.
Proof.
  revert acc. induction a as [|c a IH]; intros acc; [by intros [= ->]|]. rewrite sapp_cons. cbn [parse_digits]. destruct (digit_val radix c); [|done].
  destruct (_ <? _); [|done]. apply IH.
Qed.

Lemma parse_digits_fixed w n z : 0 <= w -> 0 <= z < 10 ^ Z.of_nat n -> 10 ^ Z.of_nat n <= 2 ^ w -> parse_digits 10 w 0 (fixed_digits 10 n z) = Some z.
Proof.
  intros Hw. revert z. induction n as [|n IH]; intros z Hz Hfit; cbn [fixed_digits].
  - cbn. f_equal. cbn in Hz. lia.
  - rewrite Nat2Z.inj_succ, Z.pow_succ_r in Hz, Hfit by lia.
    rewrite (parse_digits_app _ _ _ _ _ (z / 10)).
    + cbn. rewrite digit_val_digit by (apply Z.mod_pos_bound; lia). pose proof (Z.div_mod z 10 ltac:(lia)).
      replace (z / 10 * 10 + z mod 10) with z by lia. destruct (Z.ltb_spec z (2 ^ w)); [done|lia].
    + apply IH; [|lia]. split; [apply Z.div_pos; lia|]. apply Z.div_lt_upper_bound; lia.
Qed.

Lemma parse_uint_pad n z : (0 < n <= 10)%nat -> 0 <= z < 10 ^ Z.of_nat n -> parse_uint 64 (show_pad n z) = Some z.
Proof.
  intros Hn Hz. unfold show_pad. destruct (Z.ltb_spec z (10 ^ Z.of_nat n)); [|lia]. unfold parse_uint, parse_uint_radix.
  pose proof (digits_decimal n z) as Hd. pose proof (fixed_digits_length 10 n z) as Hl.
  assert (parse_digits 10 64 0 (fixed_digits 10 n z) = Some z) as Hp.
  { apply parse_digits_fixed; [lia|done|]. etransitivity; [apply (Z.pow_le_mono_r 10 _ 10); lia|]. by vm_compute. }
  destruct (fixed_digits 10 n z) as [|c s]; [cbn in Hl; lia|]. unfold all_chars in Hd. cbn in Hd. apply andb_true_iff in Hd as [Hc _].
  assert (strip_prefix "+" (String c s) = None) as -> by (by destruct c as [[] [] [] [] [] [] [] []]). done.
Qed.

Lemma show_pad_chars n z p : 0 <= z < 10 ^ Z.of_nat n -> (forall c, is_ascii_digit c = true -> p c = true) -> all_chars p (show_pad n z) = true.
Proof.
  intros Hz Hp. unfold show_pad. destruct (Z.ltb_spec z (10 ^ Z.of_nat n)); [|lia]. eapply all_chars_impl; [exact Hp|apply digits_decimal].
Qed.

Lemma month_start_range i : 0 <= nth i MONTH_STARTS 0 <= 334.
Proof. do 13 (destruct i as [|i]; [cbn; lia|]). destruct i; cbn; lia. Qed.

Lemma digit_graphic c : is_ascii_digit c = true -> graphic c = true.
Proof. by destruct c as [[] [] [] [] [] [] [] []]. Qed.

Lemma chrono_parse_shown (p : Parts) : parts_fit p -> 1970 <= pt_year p -> 1 <= pt_month p <= 12 -> 1 <= pt_day p ->
  chrono_parse_iso (show_iso p) =
    ((pt_year p - 1970) * 365 + (pt_year p - 1969) / 4 + nth (Z.to_nat (pt_month p - 1)) MONTH_STARTS 0 + pt_day p - 1) * 86400
    + pt_hours p * 3600 + pt_minutes p * 60 + pt_seconds p.
Proof.
  intros (Fy & Fm & Fd & Fh & Fn & Fs) Hy Hm Hd. unfold chrono_parse_iso.
  assert (trim (show_iso p) = show_iso p) as ->.
  { apply trim_tidy, tidy_graphic; [|unfold show_iso; by destruct (show_pad 4 _)]. unfold show_iso.
    rewrite !all_chars_app, !(show_pad_chars _ _ graphic) by (exact digit_graphic || (cbn; lia)). done. }
  assert (forall n z c, 0 <= z < 10 ^ Z.of_nat n -> is_ascii_digit c = false -> all_chars (fun d => negb (bool_decide (d = c))) (show_pad n z) = true) as Hnot.
  { intros n z c Hz Hc. apply show_pad_chars; [done|]. intros d Hdg. apply negb_true_iff, bool_decide_eq_false. intros ->. congruence. }
  assert (forall n z, 0 <= z < 10 ^ Z.of_nat n -> all_chars (fun d => negb (date_separator d)) (show_pad n z) = true) as Hsep.
  { intros n z Hz. apply show_pad_chars; [done|]. intros d. by destruct d as [[] [] [] [] [] [] [] []]. }
  assert (replace_char "Z" "" (replace_char "T" " " (show_iso p)) = show_pad 4 (pt_year p) +:+ String "-" (show_pad 2 (pt_month p) +:+ String "-"
    (show_pad 2 (pt_day p) +:+ String " " (show_pad 2 (pt_hours p) +:+ String ":" (show_pad 2 (pt_minutes p) +:+ String ":" (show_pad 2 (pt_seconds p))))))) as ->.
  { unfold show_iso. rewrite !replace_char_app. rewrite !(replace_char_none "T" _ (show_pad _ _)) by (apply Hnot; [cbn; lia|done]).
    rewrite !(replace_char_none "Z" _ (show_pad _ _)) by (apply Hnot; [cbn; lia|done]).
    change (replace_char "Z" "" (replace_char "T" " " "-")) with "-". change (replace_char "Z" "" (replace_char "T" " " "T")) with " ".
    change (replace_char "Z" "" (replace_char "T" " " ":")) with ":". change (replace_char "Z" "" (replace_char "T" " " "Z")) with "".
    by rewrite sapp_nil_r. }
  rewrite !split_any_word by (done || (apply Hsep; cbn; lia)). rewrite split_any_last by (apply Hsep; cbn; lia).
  rewrite !parse_uint_pad by (cbn; lia). cbn [default from_option id].
  replace (Z.min (saturating_sub (pt_month p) 1) 11) with (pt_month p - 1) by (unfold saturating_sub; lia).
  pose proof (month_start_range (Z.to_nat (pt_month p - 1))). unfold as_uN.
  rewrite (Z.mod_small (pt_year p - 1970)), (Z.mod_small (pt_year p - 1969)) by lia.
  assert (0 <= (pt_year p - 1969) / 4 < 2008) by (split; [apply Z.div_pos; lia|apply Z.div_lt_upper_bound; lia]).
  rewrite (Z.mod_small (_ + _ + _ + _ - 1)), Z.mod_small by lia. done.
Qed.

(** ** When a synchronisation is due *)

(** The seconds by which a date is read too early: a day from March of a leap year on. *)
Definition leap_lag (p : Parts) : Z := if is_leap (pt_year p) && (2 <? pt_month p) then 86400 else 0.

Definition YEAR_2100 : Z := 4102444800.

Lemma month_starts_exact leap m : 1 <= m <= 12 ->
  sum_Z (take (Z.to_nat (m - 1)) (month_days leap)) = nth (Z.to_nat (m - 1)) MONTH_STARTS 0 + (if leap && (2 <? m) then 1 else 0).
Proof.
  intros Hm. assert (m = 1 \/ m = 2 \/ m = 3 \/ m = 4 \/ m = 5 \/ m = 6 \/ m = 7 \/ m = 8 \/ m = 9 \/ m = 10 \/ m = 11 \/ m = 12) as H by lia.
  by destruct leap; repeat (destruct H as [->|H]; [done|]); subst.
Qed.

Lemma chrono_parse_iso_spec t p : 0 <= t < YEAR_2100 -> epoch_to_parts t = Some p -> chrono_parse_iso (show_iso p) = t - leap_lag p.
Proof.
  intros Ht Hp. pose proof (parts_fit_spec t p ltac:(unfold YEAR_2100, YEAR_10000 in *; lia) Hp) as Hfit.
  destruct (epoch_to_parts_spec t) as (p' & Hp' & Hy & Hv & Hc & Hh & Hn & Hs & Hd); [lia|]. rewrite Hp in Hp'. injection Hp' as <-.
  pose proof Hv as (Hm & Hday & _). rewrite chrono_parse_shown by done.
  pose proof (civil_days_year _ _ _ Hv) as Hb. unfold civil_days in Hc, Hb. rewrite month_starts_exact in Hc, Hb by done.
  assert (t / 86400 < 47482) by (apply Z.div_lt_upper_bound; unfold YEAR_2100 in Ht; lia).
  assert (pt_year p < 2100).
  { destruct (Z.ltb_spec (pt_year p) 2100); [done|]. pose proof (days_before_mono 2100 (pt_year p)) as Hmono.
    change (days_before_year 2100) with 47482 in Hmono. lia. }
  assert (days_before_year (pt_year p) = 365 * (pt_year p - 1970) + (pt_year p - 1969) / 4) as Hdb.
  { unfold days_before_year. Z.to_euclidean_division_equations. lia. }
  pose proof (Z.div_mod t 86400 ltac:(lia)). unfold leap_lag. destruct (is_leap _ && _); lia.
Qed.

Theorem auto_sync_interval (t now : Z) (p : Parts) (Ht : 0 <= t < YEAR_2100) (Hp : epoch_to_parts t = Some p) (Hnow : t <= now < 2 ^ 63) :
  should_sync now (Some (show_iso p)) =
    if is_leap (pt_year p) && (2 <? pt_month p) then t <? now else 24 * 60 * 60 <? now - t.
Proof.
  unfold should_sync. rewrite (chrono_parse_iso_spec t p Ht Hp). unfold leap_lag, as_uN.
  destruct (is_leap _ && _); rewrite Z.mod_small by lia; [|f_equal; lia].
  destruct (Z.ltb_spec t now), (Z.ltb_spec (24 * 60 * 60) (now - (t - 86400))); lia.
Qed.

(** Two seconds after a synchronisation on 30 June 2028 the next one is due; on 1 July 2027
    it is not. *)
Lemma auto_sync_interval_witness :
  should_sync 1845936002 (Some "2028-06-30T00:00:00Z") = true /\ should_sync 1814400002 (Some "2027-07-01T00:00:00Z") = false.
Proof.
  split.
  - exact (auto_sync_interval 1845936000 1845936002 {| pt_year := 2028; pt_month := 6; pt_day := 30; pt_hours := 0; pt_minutes := 0; pt_seconds := 0 |}
      ltac:(split; [discriminate|reflexivity]) ltac:(vm_compute; reflexivity) ltac:(split; [discriminate|reflexivity])).
  - exact (auto_sync_interval 1814400000 1814400002 {| pt_year := 2027; pt_month := 7; pt_day := 1; pt_hours := 0; pt_minutes := 0; pt_seconds := 0 |}
      ltac:(split; [discriminate|reflexivity]) ltac:(vm_compute; reflexivity) ltac:(split; [discriminate|reflexivity])).
Defined.

(** A timestamp that lies in the future, as after the clock was set back: due at once. *)
Example future_timestamp_due : should_sync 1814400000 (Some "2027-07-02T00:00:00Z") = true.
Proof. vm_compute. reflexivity. Qed.
