(* ===== verification/Utf8.v ===== *)
(** UTF-8: [String::from_utf8_lossy] and [std::str::from_utf8] on bytes.

    The lossy decoder keeps well-formed sequences and replaces each maximal
    ill-formed prefix by U+FFFD, as the standard library does. *)

From Stdlib Require Import ZArith Lia Strings.Byte Ascii.
From stdpp Require Import base numbers list strings.
From S2P Require Import Prelude RustStr.

Definition byte_char (b : byte) : ascii := ascii_of_byte b.

Fixpoint string_of_bytes (bs : list byte) : string :=
  match bs with [] => "" | b :: bs => String (byte_char b) (string_of_bytes bs) end.

Fixpoint bytes_of_string (s : string) : list byte :=
  match s with EmptyString => [] | String c s => byte_of_ascii c :: bytes_of_string s end.

(** U+FFFD *)
Definition REPLACEMENT : string := Eval vm_compute in bs [239; 191; 189].

Definition in_range (lo hi : Z) (b : byte) : bool := (lo <=? byte_to_Z b) && (byte_to_Z b <=? hi).
Definition cont_byte (b : byte) : bool := in_range 128 191 b.

(** The second byte a three- or four-byte lead allows. *)
Definition second_ok (lead b : byte) : bool :=
  let n := byte_to_Z lead in
  if n =? 224 then in_range 160 191 b
  else if n =? 237 then in_range 128 159 b
  else if n =? 240 then in_range 144 191 b
  else if n =? 244 then in_range 128 143 b
  else cont_byte b.

Fixpoint from_utf8_lossy (l : list byte) : string :=
  match l with
  | [] => ""
  | b0 :: t0 =>
      if in_range 0 127 b0 then String (byte_char b0) (from_utf8_lossy t0)
      else if in_range 194 223 b0 then
        match t0 with
        | b1 :: t1 =>
            if cont_byte b1 then string_of_bytes [b0; b1] +:+ from_utf8_lossy t1
            else REPLACEMENT +:+ from_utf8_lossy t0
        | [] => REPLACEMENT
        end
      else if in_range 224 239 b0 then
        match t0 with
        | b1 :: t1 =>
            if second_ok b0 b1 then
              match t1 with
              | b2 :: t2 =>
                  if cont_byte b2 then string_of_bytes [b0; b1; b2] +:+ from_utf8_lossy t2
                  else REPLACEMENT +:+ from_utf8_lossy t1
              | [] => REPLACEMENT
              end
            else REPLACEMENT +:+ from_utf8_lossy t0
        | [] => REPLACEMENT
        end
      else if in_range 240 244 b0 then
        match t0 with
        | b1 :: t1 =>
            if second_ok b0 b1 then
              match t1 with
              | b2 :: t2 =>
                  if cont_byte b2 then
                    match t2 with
                    | b3 :: t3 =>
                        if cont_byte b3 then string_of_bytes [b0; b1; b2; b3] +:+ from_utf8_lossy t3
                        else REPLACEMENT +:+ from_utf8_lossy t2
                    | [] => REPLACEMENT
                    end
                  else REPLACEMENT +:+ from_utf8_lossy t1
              | [] => REPLACEMENT
              end
            else REPLACEMENT +:+ from_utf8_lossy t0
        | [] => REPLACEMENT
        end
      else REPLACEMENT +:+ from_utf8_lossy t0
  end.

(** [from_utf8] succeeds exactly on the bytes the lossy decoder keeps. *)
Definition from_utf8 (l : list byte) : option string :=
  let s := string_of_bytes l in
  if bool_decide (from_utf8_lossy l = s) then Some s else None.

Lemma string_of_bytes_app a b :
  string_of_bytes (a ++ b) = string_of_bytes a +:+ string_of_bytes b.
Proof. induction a as [|x a IH]; simpl; [done|]. by rewrite IH. Qed.

Lemma string_of_bytes_of_string s : string_of_bytes (bytes_of_string s) = s.
Proof.
  induction s as [|c s IH]; simpl; [done|]. rewrite IH. unfold byte_char.
  by rewrite ascii_of_byte_of_ascii.
Qed.

Lemma bytes_of_string_of_bytes l : bytes_of_string (string_of_bytes l) = l.
Proof.
  induction l as [|b l IH]; simpl; [done|]. rewrite IH. unfold byte_char.
  by rewrite byte_of_ascii_of_byte.
Qed.

Lemma bytes_of_string_app a b :
  bytes_of_string (a +:+ b) = bytes_of_string a ++ bytes_of_string b.
Proof. induction a as [|x a IH]; simpl; [done|]. by rewrite IH. Qed.

(** A string the lossy decoder leaves alone: every Rust [String]. *)
Definition utf8 (s : string) : Prop := from_utf8_lossy (bytes_of_string s) = s.

Lemma from_utf8_string_of_bytes l :
  utf8 (string_of_bytes l) -> from_utf8 l = Some (string_of_bytes l).
Proof.
  unfold utf8, from_utf8. rewrite bytes_of_string_of_bytes. intros ->.
  by rewrite bool_decide_eq_true_2.
Qed.

Lemma from_utf8_Some l s : from_utf8 l = Some s -> s = string_of_bytes l.
Proof. unfold from_utf8. case_bool_decide; [|done]. by intros [= <-]. Qed.

Example lossy_examples :
  map from_utf8_lossy [[x61; xc3; xa9]; [xff; x61]; [xe2; x82]; [xf0; x9f; x92; x61]; [xe0; x80; x80]]
  = [bs [97; 195; 169]; bs [239; 191; 189; 97]; REPLACEMENT; REPLACEMENT +:+ "a";
     REPLACEMENT +:+ REPLACEMENT +:+ REPLACEMENT].
Proof. vm_compute. reflexivity. Qed.
