(* ===== verification/Base64.v ===== *)
(** Base64 as clawcage-app/src/venvs.rs has it: the encoder inlined in list_venvs and
    base64_decode. Decoding inverts encoding ([base64_roundtrip]). *)

From Stdlib Require Import ZArith Lia Strings.Byte Ascii.
From stdpp Require Import base numbers list strings.
From S2P Require Import Prelude RustStr RustText Utf8.

Definition TABLE : string := "ABCDEFGHIJKLMNOPQRSTUVWXYZabcdefghijklmnopqrstuvwxyz0123456789+/".

(** [TABLE[n as usize] as char]; every index the encoder uses is below 64. *)
Definition table_char (n : Z) : string := match String.get (Z.to_nat n) TABLE with Some c => String c "" | None => "" end.

Fixpoint base64_encode (bytes : list byte) : string :=
  match bytes with
  | b0 :: b1 :: b2 :: bytes =>
      let '(b0, b1, b2) := (byte_to_Z b0, byte_to_Z b1, byte_to_Z b2) in
      table_char (Z.shiftr b0 2) +:+ table_char (Z.lor (Z.shiftl (Z.land b0 3) 4) (Z.shiftr b1 4))
      +:+ table_char (Z.lor (Z.shiftl (Z.land b1 15) 2) (Z.shiftr b2 6)) +:+ table_char (Z.land b2 63) +:+ base64_encode bytes
  | [b0; b1] =>
      let '(b0, b1) := (byte_to_Z b0, byte_to_Z b1) in
      table_char (Z.shiftr b0 2) +:+ table_char (Z.lor (Z.shiftl (Z.land b0 3) 4) (Z.shiftr b1 4))
      +:+ table_char (Z.shiftl (Z.land b1 15) 2) +:+ "="
  | [b0] =>
      let b0 := byte_to_Z b0 in
      table_char (Z.shiftr b0 2) +:+ table_char (Z.shiftl (Z.land b0 3) 4) +:+ "=="
  | [] => ""
  end.

Definition skipped (ch : ascii) : bool := bool_decide (ch ∈ ["="%char; "010"%char; "013"%char; " "%char]).

(** The loop: [buf] is a u32 of which the low [bits] bits are pending. *)
Fixpoint decode_loop (b64 : string) (buf bits : Z) (out : list byte) : result (list byte) string :=
  match b64 with
  | EmptyString => Ok out
  | String ch b64 =>
      if skipped ch then decode_loop b64 buf bits out
      else match find_char ch TABLE with
           | None => Err ("invalid base64 char: " +:+ String ch "")
           | Some val =>
               let buf := Z.lor (as_uN 32 (Z.shiftl buf 6)) (Z.of_nat val) in
               let bits := bits + 6 in
               if 8 <=? bits then
                 let bits := bits - 8 in
                 decode_loop b64 (Z.land buf (Z.shiftl 1 bits - 1)) bits (out ++ [byte_of_Z (as_uN 8 (Z.shiftr buf bits))])
               else decode_loop b64 buf bits out
           end
  end.

Definition base64_decode (input : string) : result (list byte) string :=
  let b64 := match strip_prefix "data:" input ≫= split_once "," with
             | Some (_, data) => data
             | None => input
             end in
  decode_loop b64 0 0 [].

(** ** Arithmetic of the bits *)

Lemma lor_shiftl a b k : 0 <= k -> 0 <= b < 2 ^ k -> Z.lor (Z.shiftl a k) b = a * 2 ^ k + b.
Proof.
  intros Hk Hb. assert (Z.land (Z.shiftl a k) b = 0) as Hl.
  { apply Z.bits_inj'. intros n Hn. rewrite Z.land_spec, Z.bits_0. destruct (Z.lt_ge_cases n k).
    - by rewrite Z.shiftl_spec_low.
    - apply andb_false_iff. right. destruct (decide (b = 0)) as [->|]; [apply Z.bits_0|]. apply Z.bits_above_log2; [lia|].
      apply Z.log2_lt_pow2; [lia|]. eapply Z.lt_le_trans; [apply Hb|]. apply Z.pow_le_mono_r; lia. }
  rewrite <- Z.lxor_lor, <- Z.add_nocarry_lxor, Z.shiftl_mul_pow2 by done. done.
Qed.

Lemma table_all n : (n < 64)%nat -> exists c, String.get n TABLE = Some c /\ find_char c TABLE = Some n /\ skipped c = false.
Proof.
  intros Hn. assert (forallb (fun n => match String.get n TABLE with
    | Some c => bool_decide (find_char c TABLE = Some n) && negb (skipped c) | None => false end) (seq 0 64) = true) as Hall by (vm_compute; reflexivity).
  rewrite forallb_forall in Hall. specialize (Hall n). destruct (String.get n TABLE) as [c|]; [|ospecialize (Hall _); [apply in_seq; lia|done]].
  ospecialize (Hall _); [apply in_seq; lia|]. apply andb_true_iff in Hall as [H1%bool_decide_eq_true H2%negb_true_iff]. eauto.
Qed.

(** One digit of the encoding. *)
Lemma decode_digit v rest buf bits out : 0 <= v < 64 -> 0 <= buf < 2 ^ 26 ->
  decode_loop (table_char v +:+ rest) buf bits out =
  let buf := buf * 64 + v in
  let bits := bits + 6 in
  if 8 <=? bits then
    let bits := bits - 8 in
    decode_loop rest (Z.land buf (Z.shiftl 1 bits - 1)) bits (out ++ [byte_of_Z (as_uN 8 (Z.shiftr buf bits))])
  else decode_loop rest buf bits out.
Proof.
  intros Hv Hb. unfold table_char. destruct (table_all (Z.to_nat v)) as (c & -> & Hf & Hs); [lia|].
  change (String c "" +:+ rest) with (String c rest). cbn [decode_loop]. rewrite Hs, Hf, Z2Nat.id by lia.
  assert (as_uN 32 (Z.shiftl buf 6) = Z.shiftl buf 6) as ->.
  { apply as_uN_small. rewrite Z.shiftl_mul_pow2 by lia. unfold in_uN. lia. }
  rewrite lor_shiftl by lia. done.
Qed.

Lemma byte_of_Z_byte b z : z mod 256 = byte_to_Z b -> byte_of_Z (as_uN 8 z) = b.
Proof. intros H. unfold as_uN. change (2 ^ 8) with 256. rewrite byte_of_Z_mod, <- (byte_of_to_Z b), <- H. symmetry. apply byte_of_Z_mod. Qed.

Lemma land_low z k : 0 <= k -> Z.land z (Z.shiftl 1 k - 1) = z mod 2 ^ k.
Proof. intros Hk. rewrite Z.shiftl_1_l, <- Z.land_ones by lia. f_equal. rewrite Z.ones_equiv. lia. Qed.

(** The digits of the encoding as quotients. *)
Lemma digits_arith b0 b1 b2 : 0 <= b0 < 256 -> 0 <= b1 < 256 -> 0 <= b2 < 256 ->
  Z.shiftr b0 2 = b0 / 4 /\ Z.lor (Z.shiftl (Z.land b0 3) 4) (Z.shiftr b1 4) = (b0 mod 4) * 16 + b1 / 16 /\
  Z.lor (Z.shiftl (Z.land b1 15) 2) (Z.shiftr b2 6) = (b1 mod 16) * 4 + b2 / 64 /\ Z.land b2 63 = b2 mod 64 /\
  Z.shiftl (Z.land b0 3) 4 = (b0 mod 4) * 16 /\ Z.shiftl (Z.land b1 15) 2 = (b1 mod 16) * 4.
Proof.
  intros H0 H1 H2. change 3 with (Z.ones 2). change 15 with (Z.ones 4). change 63 with (Z.ones 6).
  rewrite !Z.land_ones, !Z.shiftr_div_pow2 by lia.
  change (2 ^ 2) with 4. change (2 ^ 4) with 16. change (2 ^ 6) with 64.
  rewrite !lor_shiftl, !Z.shiftl_mul_pow2 by (try change (2 ^ 4) with 16; try change (2 ^ 2) with 4; Z.div_mod_to_equations; lia).
  change (2 ^ 4) with 16. change (2 ^ 2) with 4.
  repeat split; lia.
Qed.

Ltac byte_arith := apply byte_of_Z_byte; rewrite ?Z.shiftr_div_pow2 by lia; Z.div_mod_to_equations; lia.

Lemma decode_three b0 b1 b2 rest out :
  decode_loop (base64_encode [b0; b1; b2] +:+ rest) 0 0 out = decode_loop rest 0 0 (out ++ [b0; b1; b2]).
Proof.
  pose proof (byte_to_Z_range b0) as H0. pose proof (byte_to_Z_range b1) as H1. pose proof (byte_to_Z_range b2) as H2.
  cbn [base64_encode]. destruct (digits_arith _ _ _ H0 H1 H2) as (-> & -> & -> & -> & _).
  set (z0 := byte_to_Z b0) in *. set (z1 := byte_to_Z b1) in *. set (z2 := byte_to_Z b2) in *.
  rewrite sapp_nil_r, <- !sapp_assoc.
  rewrite decode_digit by (Z.div_mod_to_equations; lia). cbv zeta. change (8 <=? 0 + 6) with false. cbn iota.
  rewrite decode_digit by (Z.div_mod_to_equations; lia). cbv zeta. change (8 <=? 0 + 6 + 6) with true. cbn iota.
  change (0 + 6 + 6 - 8) with 4. rewrite land_low by lia.
  rewrite decode_digit by (Z.div_mod_to_equations; lia). cbv zeta. change (8 <=? 4 + 6) with true. cbn iota.
  change (4 + 6 - 8) with 2. rewrite land_low by lia.
  rewrite decode_digit by (Z.div_mod_to_equations; lia). cbv zeta. change (8 <=? 2 + 6) with true. cbn iota.
  change (2 + 6 - 8) with 0. rewrite land_low by lia. change (2 ^ 0) with 1. rewrite Z.mod_1_r, <- !app_assoc. cbn [app].
  change (2 ^ 4) with 16. change (2 ^ 2) with 4.
  repeat f_equal; byte_arith.
Qed.

Lemma decode_two b0 b1 out : decode_loop (base64_encode [b0; b1]) 0 0 out = Ok (out ++ [b0; b1]).
Proof.
  pose proof (byte_to_Z_range b0) as H0. pose proof (byte_to_Z_range b1) as H1.
  cbn [base64_encode]. destruct (digits_arith _ _ 0 H0 H1 ltac:(lia)) as (-> & -> & _ & _ & _ & ->).
  set (z0 := byte_to_Z b0) in *. set (z1 := byte_to_Z b1) in *.
  rewrite decode_digit by (Z.div_mod_to_equations; lia). cbv zeta. change (8 <=? 0 + 6) with false. cbn iota.
  rewrite decode_digit by (Z.div_mod_to_equations; lia). cbv zeta. change (8 <=? 0 + 6 + 6) with true. cbn iota.
  change (0 + 6 + 6 - 8) with 4. rewrite land_low by lia.
  rewrite decode_digit by (Z.div_mod_to_equations; lia). cbv zeta. change (8 <=? 4 + 6) with true. cbn iota.
  change (4 + 6 - 8) with 2. rewrite land_low by lia. cbn [decode_loop]. rewrite <- app_assoc. cbn [app].
  change (2 ^ 4) with 16. repeat f_equal; byte_arith.
Qed.

Lemma decode_one b0 out : decode_loop (base64_encode [b0]) 0 0 out = Ok (out ++ [b0]).
Proof.
  pose proof (byte_to_Z_range b0) as H0. cbn [base64_encode].
  destruct (digits_arith _ 0 0 H0 ltac:(lia) ltac:(lia)) as (-> & _ & _ & _ & -> & _). set (z0 := byte_to_Z b0) in *.
  rewrite decode_digit by (Z.div_mod_to_equations; lia). cbv zeta. change (8 <=? 0 + 6) with false. cbn iota.
  rewrite decode_digit by (Z.div_mod_to_equations; lia). cbv zeta. change (8 <=? 0 + 6 + 6) with true. cbn iota.
  cbn [decode_loop]. repeat f_equal. byte_arith.
Qed.

Lemma decode_encoded n bytes out : (length bytes <= n)%nat -> decode_loop (base64_encode bytes) 0 0 out = Ok (out ++ bytes).
Proof.
  revert bytes out. induction n as [|n IH]; intros bytes out Hn.
  - destruct bytes; [by rewrite app_nil_r|cbn in Hn; lia].
  - destruct bytes as [|b0 [|b1 [|b2 bytes]]]; [by rewrite app_nil_r|apply decode_one|apply decode_two|].
    assert (base64_encode (b0 :: b1 :: b2 :: bytes) = base64_encode [b0; b1; b2] +:+ base64_encode bytes) as ->
      by (cbn [base64_encode]; by rewrite <- !sapp_assoc, sapp_nil_l).
    rewrite decode_three, IH by (cbn in Hn; lia). by rewrite <- app_assoc.
Qed.

(** A data URL, as the icons of the UI are sent in both directions. *)
Definition data_url (mime : string) (bytes : list byte) : string := "data:" +:+ mime +:+ ";base64," +:+ base64_encode bytes.

Theorem base64_roundtrip (mime : string) (bytes : list byte) (Hmime : contains_char mime "," = false) :
  base64_decode (data_url mime bytes) = Ok bytes.
Proof.
  unfold base64_decode, data_url. rewrite strip_prefix_app. cbn [mbind option_bind].
  assert (mime +:+ ";base64," +:+ base64_encode bytes = (mime +:+ ";base64") +:+ String "," (base64_encode bytes)) as ->
    by (rewrite <- sapp_assoc; done).
  rewrite split_once_app by (by rewrite contains_char_app, Hmime). by rewrite (decode_encoded (length bytes)).
Qed.

Lemma base64_roundtrip_witness : base64_decode "data:image/png;base64,iVBORw==" = Ok [x89; x50; x4e; x47].
Proof. exact (base64_roundtrip "image/png" [x89; x50; x4e; x47] eq_refl). Defined.
