(* ===== verification/ClientHello.v ===== *)
(** The first bytes of a proxied connection: [extract_sni_from_client_hello] and the
    reading of the process metadata in [handle_inner], both of
    crates/clawcage-core/src/net/mitm_proxy.rs, and what the guest's relay sends
    ([handle_connection] of crates/clawcage-agent/src/net_proxy.rs).

    Positions are [nat] (a usize that never overflows here: every length field has at
    most 24 bits). Indexing out of range is the outcome [SniPanic]. *)

From Stdlib Require Import ZArith Lia Ascii.
From stdpp Require Import base numbers list strings.
From S2P Require Import Prelude RustStr Utf8.

(** ** Slices *)

(** [buf.get(a..b)] *)
Definition get_range {A} (l : list A) (a b : nat) : option (list A) :=
  if (a <=? b)%nat && (b <=? length l)%nat then Some (take (b - a) (drop a l)) else None.

(** [u16::from_be_bytes([l[i], l[i + 1]])]; [None] is a panic. *)
Definition u16_at (l : list byte) (i : nat) : option nat :=
  a ← l !! i; b ← l !! S i; Some (Z.to_nat (from_be_bytes [a; b])).

Definition u8_at (l : list byte) (i : nat) : option nat := Z.to_nat ∘ byte_to_Z <$> l !! i.

Lemma get_range_app {A} (p x q : list A) :
  get_range (p ++ x ++ q) (length p) (length p + length x) = Some x.
Proof.
  unfold get_range. rewrite !length_app, (proj2 (Nat.leb_le _ _)), (proj2 (Nat.leb_le _ _)) by lia.
  cbn [andb]. rewrite drop_app_length. f_equal. rewrite take_app_le by lia.
  apply take_ge. lia.
Qed.

(** ** The parser *)

Inductive SniResult := SniFound (name : string) | SniNone | SniPanic | SniOutOfFuel.

Definition or_panic {A} (x : option A) (k : A -> SniResult) : SniResult :=
  match x with Some a => k a | None => SniPanic end.

Definition or_none {A} (x : option A) (k : A -> SniResult) : SniResult :=
  match x with Some a => k a | None => SniNone end.

(** The server_name extension at [pos]. *)
Definition sni_extension (hello : list byte) (pos ext_len : nat) : SniResult :=
  if (ext_len <? 5)%nat || (length hello <? pos + ext_len)%nat then SniNone
  else or_panic (u8_at hello (pos + 2)) (fun name_type =>
    if negb (name_type =? 0)%nat then SniNone
    else or_panic (u16_at hello (pos + 3)) (fun name_len =>
      or_none (get_range hello (pos + 5) (pos + 5 + name_len)) (fun name_bytes =>
        or_none (from_utf8 name_bytes) SniFound))).

(** The [while] loop over the extensions. *)
Fixpoint sni_extensions (fuel : nat) (hello : list byte) (pos ext_end : nat) : SniResult :=
  match fuel with
  | O => SniOutOfFuel
  | S fuel =>
      if (pos + 4 <=? ext_end)%nat && (pos + 4 <=? length hello)%nat then
        or_panic (u16_at hello pos) (fun ext_type =>
        or_panic (u16_at hello (pos + 2)) (fun ext_len =>
          if (ext_type =? 0)%nat then sni_extension hello (pos + 4) ext_len
          else sni_extensions fuel hello (pos + 4 + ext_len) ext_end))
      else SniNone
  end.

(** From the session id to the extensions, of the body of the ClientHello. *)
Definition sni_of_hello (hello : list byte) : SniResult :=
  let pos := (2 + 32)%nat in
  if (length hello <=? pos)%nat then SniNone
  else or_panic (u8_at hello pos) (fun sid_len =>
    let pos := (pos + 1 + sid_len)%nat in
    if (length hello <? pos + 2)%nat then SniNone
    else or_panic (u16_at hello pos) (fun cs_len =>
      let pos := (pos + 2 + cs_len)%nat in
      if (length hello <=? pos)%nat then SniNone
      else or_panic (u8_at hello pos) (fun comp_len =>
        let pos := (pos + 1 + comp_len)%nat in
        if (length hello <? pos + 2)%nat then SniNone
        else or_panic (u16_at hello pos) (fun ext_total =>
          let pos := (pos + 2)%nat in
          sni_extensions (S (length hello)) hello pos (pos + ext_total))))).

Definition extract_sni_from_client_hello (buf : list byte) : SniResult :=
  if (length buf <? 5)%nat || negb (bool_decide (head buf = Some Byte.x16)) then SniNone
  else or_panic (u16_at buf 3) (fun record_len =>
    or_none (get_range buf 5 (5 + record_len)) (fun record_body =>
      if negb (bool_decide (head record_body = Some Byte.x01)) then SniNone
      else or_panic (u8_at record_body 1) (fun b1 =>
           or_panic (u8_at record_body 2) (fun b2 =>
           or_panic (u8_at record_body 3) (fun b3 =>
             let hello_len := Z.to_nat (Z.lor (Z.lor (Z.shiftl (Z.of_nat b1) 16) (Z.shiftl (Z.of_nat b2) 8))
                                              (Z.of_nat b3)) in
             or_none (get_range record_body 4 (4 + hello_len)) sni_of_hello))))).

(** ** Bounds: the parser stops, and where it panics *)

Lemma u8_at_Some l i : (i < length l)%nat -> is_Some (u8_at l i).
Proof. intros. unfold u8_at. by apply fmap_is_Some, lookup_lt_is_Some_2. Qed.

Lemma u16_at_Some l i : (S i < length l)%nat -> is_Some (u16_at l i).
Proof.
  intros. unfold u16_at. destruct (lookup_lt_is_Some_2 l i) as [a ->]; [lia|].
  destruct (lookup_lt_is_Some_2 l (S i)) as [b ->]; [lia|]. by eexists.
Qed.

(** No index is out of range and the fuel lasts. *)
Definition fine (r : SniResult) : Prop := r <> SniPanic /\ r <> SniOutOfFuel.

Lemma fine_none : fine SniNone.
Proof. done. Qed.

Lemma fine_u8 l i k : (i < length l)%nat -> (forall a, fine (k a)) -> fine (or_panic (u8_at l i) k).
Proof. intros Hi Hk. destruct (u8_at_Some l i Hi) as [a ->]. apply Hk. Qed.

Lemma fine_u16 l i k : (S i < length l)%nat -> (forall a, fine (k a)) -> fine (or_panic (u16_at l i) k).
Proof. intros Hi Hk. destruct (u16_at_Some l i Hi) as [a ->]. apply Hk. Qed.

Lemma fine_or_none {A} (x : option A) k : (forall a, fine (k a)) -> fine (or_none x k).
Proof. intros. destruct x; simpl; [auto|apply fine_none]. Qed.

#[local] Hint Resolve fine_none : core.

Lemma sni_extension_fine hello pos n : fine (sni_extension hello pos n).
Proof.
  unfold sni_extension. destruct (Nat.ltb_spec n 5), (Nat.ltb_spec (length hello) (pos + n)); simpl; auto.
  apply fine_u8; [lia|]. intros t. destruct (negb _); auto.
  apply fine_u16; [lia|]. intros m. do 2 (apply fine_or_none; intros ?). done.
Qed.

Lemma sni_extensions_fine fuel hello pos e :
  (length hello < pos + 4 * fuel)%nat -> (0 < fuel)%nat -> fine (sni_extensions fuel hello pos e).
Proof.
  revert pos. induction fuel as [|fuel IH]; intros pos Hf H0; [lia|]. cbn [sni_extensions].
  destruct (Nat.leb_spec (pos + 4) e), (Nat.leb_spec (pos + 4) (length hello)); cbn [andb]; auto.
  apply fine_u16; [lia|]. intros t. apply fine_u16; [lia|]. intros n.
  destruct (t =? 0)%nat; [apply sni_extension_fine|]. apply IH; lia.
Qed.

Lemma sni_of_hello_fine hello : fine (sni_of_hello hello).
Proof.
  unfold sni_of_hello. generalize (2 + 32)%nat as p0. intros p0. cbv zeta.
  destruct (Nat.leb_spec (length hello) p0); auto. apply fine_u8; [lia|]. intros a.
  generalize (p0 + 1 + a)%nat as p1. intros p1.
  destruct (Nat.ltb_spec (length hello) (p1 + 2)); auto. apply fine_u16; [lia|]. intros b.
  generalize (p1 + 2 + b)%nat as p2. intros p2.
  destruct (Nat.leb_spec (length hello) p2); auto. apply fine_u8; [lia|]. intros c.
  generalize (p2 + 1 + c)%nat as p3. intros p3.
  destruct (Nat.ltb_spec (length hello) (p3 + 2)); auto. apply fine_u16; [lia|]. intros d.
  apply sni_extensions_fine; lia.
Qed.

Lemma get_range_Some {A} (l : list A) a b x :
  get_range l a b = Some x <-> (a <= b <= length l)%nat /\ x = take (b - a) (drop a l).
Proof.
  unfold get_range. destruct (Nat.leb_spec a b), (Nat.leb_spec b (length l)); cbn [andb];
    (split; [intros [= <-]|intros [? ->]]); try lia; done.
Qed.

(** ** Encoding a ClientHello *)

Definition be16 (n : nat) : list byte := to_be_bytes 2 (Z.of_nat n).
Definition be24 (n : nat) : list byte := to_be_bytes 3 (Z.of_nat n).
Definition u8 (n : nat) : byte := byte_of_Z (Z.of_nat n).

Record Hello := {
  h_version_random : list byte;  (* 2 + 32 bytes *)
  h_session_id : list byte;
  h_ciphers : list byte;
  h_compression : list byte;
  h_extensions : list (nat * list byte);
}.

Definition render_extension (e : nat * list byte) : list byte :=
  be16 e.1 ++ be16 (length e.2) ++ e.2.

Definition sni_data (name : list byte) : list byte :=
  be16 (3 + length name) ++ [Byte.x00] ++ be16 (length name) ++ name.

Definition render_extensions (es : list (nat * list byte)) : list byte := flat_map render_extension es.

Definition render_hello (h : Hello) : list byte :=
  h_version_random h ++ u8 (length (h_session_id h)) :: h_session_id h ++
  be16 (length (h_ciphers h)) ++ h_ciphers h ++
  u8 (length (h_compression h)) :: h_compression h ++
  be16 (length (render_extensions (h_extensions h))) ++ render_extensions (h_extensions h).

Definition render_record (version hello : list byte) : list byte :=
  let body := Byte.x01 :: be24 (length hello) ++ hello in
  Byte.x16 :: version ++ be16 (length body) ++ body.

Definition hello_ok (h : Hello) : Prop :=
  length (h_version_random h) = 34%nat /\ (length (h_session_id h) < 256)%nat /\
  (length (h_compression h) < 256)%nat /\
  Forall (fun e => (e.1 < Z.to_nat 65536)%nat) (h_extensions h) /\
  (4 + length (render_hello h) < Z.to_nat 65536)%nat.

Lemma be16_length n : length (be16 n) = 2%nat.
Proof. apply to_be_bytes_length. Qed.

Lemma from_be16 n : (n < Z.to_nat 65536)%nat -> from_be_bytes (be16 n) = Z.of_nat n.
Proof. intros. unfold be16. rewrite from_to_be_bytes. apply Z.mod_small. lia. Qed.

Lemma u16_at_be16 p n q : (n < Z.to_nat 65536)%nat -> u16_at (p ++ be16 n ++ q) (length p) = Some n.
Proof.
  intros Hn. pose proof (from_be16 n Hn) as Hb. unfold u16_at.
  destruct (be16 n) as [|a [|b [|]]] eqn:E; try (pose proof (be16_length n); rewrite E in *; done).
  cbn [app]. rewrite (list_lookup_middle p _ _ (length p)) by done. cbn [mbind option_bind].
  rewrite lookup_app_r, Nat.sub_succ_l, Nat.sub_diag by lia. cbn. cbn in Hb. rewrite Hb. by rewrite Nat2Z.id.
Qed.

Lemma u8_at_u8 p n q : (n < 256)%nat -> u8_at (p ++ u8 n :: q) (length p) = Some n.
Proof.
  intros Hn. unfold u8_at, u8. rewrite list_lookup_middle by done. cbn.
  rewrite byte_to_of_Z, Z.mod_small by lia. by rewrite Nat2Z.id.
Qed.

(** The parser reads what was rendered, at any offset. *)
Lemma sni_extension_found p name q :
  (5 + length name < Z.to_nat 65536)%nat -> utf8 (string_of_bytes name) ->
  sni_extension (p ++ sni_data name ++ q) (length p) (length (sni_data name))
  = SniFound (string_of_bytes name).
Proof.
  intros Hn Hu. unfold sni_extension, sni_data.
  rewrite !length_app, !be16_length. cbn [length].
  rewrite (proj2 (Nat.ltb_ge _ 5)), (proj2 (Nat.ltb_ge _ _)) by lia. cbn [orb].
  set (l3 := be16 (3 + length name)). set (ln := be16 (length name)).
  assert (length l3 = 2%nat) as H3 by apply be16_length.
  assert (length ln = 2%nat) as Hln by apply be16_length.
  replace (p ++ (l3 ++ [Byte.x00] ++ ln ++ name) ++ q)
    with ((p ++ l3) ++ u8 0 :: (ln ++ name ++ q)) by (rewrite <- !app_assoc; done).
  replace (length p + 2)%nat with (length (p ++ l3)) by (rewrite length_app; lia).
  rewrite u8_at_u8 by lia. cbn [or_panic Nat.eqb negb].
  replace ((p ++ l3) ++ u8 0 :: ln ++ name ++ q)
    with ((p ++ l3 ++ [u8 0]) ++ ln ++ (name ++ q)) by (rewrite <- !app_assoc; done).
  replace (length p + 3)%nat with (length (p ++ l3 ++ [u8 0])) by (rewrite !length_app, H3; cbn; lia).
  unfold ln at 1. rewrite u16_at_be16 by lia. cbn [or_panic].
  replace ((p ++ l3 ++ [u8 0]) ++ ln ++ name ++ q)
    with ((p ++ l3 ++ [u8 0] ++ ln) ++ name ++ q) by (rewrite <- !app_assoc; done).
  replace (length p + 5)%nat with (length (p ++ l3 ++ [u8 0] ++ ln))
    by (rewrite !length_app, H3, Hln; cbn; lia).
  rewrite get_range_app. cbn [or_none].
  by rewrite from_utf8_string_of_bytes.
Qed.

Lemma render_extension_length e : length (render_extension e) = (4 + length e.2)%nat.
Proof. unfold render_extension. rewrite !length_app, !be16_length. lia. Qed.

Lemma sni_extensions_step fuel p e q ext_end :
  (e.1 < Z.to_nat 65536)%nat -> (length e.2 < Z.to_nat 65536)%nat ->
  (length p + length (render_extension e) <= ext_end)%nat ->
  let hello := p ++ render_extension e ++ q in
  let pos := length (p ++ be16 e.1 ++ be16 (length e.2)) in
  sni_extensions (S fuel) hello (length p) ext_end =
  if (e.1 =? 0)%nat then sni_extension hello pos (length e.2)
  else sni_extensions fuel hello (length (p ++ render_extension e)) ext_end.
Proof.
  rewrite render_extension_length. intros Ht Hn He. cbv zeta. cbn [sni_extensions].
  rewrite (proj2 (Nat.leb_le _ _)) by lia.
  rewrite (proj2 (Nat.leb_le _ _)) by (rewrite !length_app, render_extension_length; lia). cbn [andb].
  unfold render_extension. rewrite <- !app_assoc.
  rewrite u16_at_be16 by done. cbn [or_panic].
  replace (length p + 2)%nat with (length (p ++ be16 e.1)) by (rewrite length_app, be16_length; lia).
  rewrite (app_assoc p), u16_at_be16 by done. cbn [or_panic].
  rewrite <- app_assoc. destruct (e.1 =? 0)%nat; f_equal; rewrite !length_app, !be16_length; lia.
Qed.

(** Extensions of another type are skipped. *)
Lemma sni_extensions_found fuel p pre name post :
  Forall (fun e => e.1 <> O /\ (e.1 < Z.to_nat 65536)%nat) pre ->
  let es := render_extensions (pre ++ (O, sni_data name) :: post) in
  (length es < Z.to_nat 65536)%nat -> (length pre < fuel)%nat -> utf8 (string_of_bytes name) ->
  sni_extensions fuel (p ++ es) (length p) (length p + length es) = SniFound (string_of_bytes name).
Proof.
  intros Hpre es Hes Hf Hu. subst es. revert p fuel Hes Hf.
  induction Hpre as [|e pre [He0 He] _ IH]; intros p [|fuel] Hes Hf; cbn in Hf; try lia;
    cbn [render_extensions flat_map app] in *; rewrite length_app in Hes.
  - rewrite render_extension_length in Hes. cbn [snd] in Hes.
    rewrite sni_extensions_step by (rewrite ?length_app; cbn [fst snd]; lia). cbn [fst Nat.eqb].
    unfold render_extension at 1. cbn [fst snd].
    replace (p ++ (be16 0 ++ be16 (length (sni_data name)) ++ sni_data name) ++ flat_map render_extension post)
      with ((p ++ be16 0 ++ be16 (length (sni_data name))) ++ sni_data name ++ flat_map render_extension post)
      by (rewrite <- !app_assoc; done).
    apply sni_extension_found; [|done]. revert Hes. unfold sni_data.
    rewrite !length_app, !be16_length. cbn. lia.
  - pose proof (render_extension_length e) as Hl.
    rewrite sni_extensions_step by (rewrite ?length_app; lia).
    rewrite (proj2 (Nat.eqb_neq _ _)) by done.
    rewrite app_assoc. replace (length p + _)%nat
      with (length (p ++ render_extension e) + length (render_extensions (pre ++ (O, sni_data name) :: post)))%nat
      by (rewrite !length_app; unfold render_extensions; lia).
    apply IH; unfold render_extensions; lia.
Qed.

(** Reassociate concatenations to the right. *)
Ltac app_norm := repeat (rewrite <- ?app_assoc; cbn [app]).

Lemma sni_of_hello_found h pre name post :
  hello_ok h -> h_extensions h = pre ++ (O, sni_data name) :: post ->
  Forall (fun e => e.1 <> O) pre -> utf8 (string_of_bytes name) ->
  sni_of_hello (render_hello h) = SniFound (string_of_bytes name).
Proof.
  intros (Hr & Hsid & Hcomp & Hes & Hlen) He Hpre Hu. unfold sni_of_hello.
  assert (length pre <= length (render_extensions (h_extensions h)))%nat as Hfuel.
  { rewrite He. unfold render_extensions. clear.
    induction pre; cbn [app flat_map length]; [lia|]. rewrite length_app, render_extension_length. lia. }
  unfold render_hello in *. set (es := render_extensions _) in *.
  set (r := h_version_random h) in *. set (sid := h_session_id h) in *.
  set (cs := h_ciphers h) in *. set (comp := h_compression h) in *.
  set (p1 := r ++ u8 (length sid) :: sid).
  set (p2 := p1 ++ be16 (length cs) ++ cs).
  set (p3 := p2 ++ u8 (length comp) :: comp).
  set (p4 := p3 ++ be16 (length es)).
  set (b := r ++ _) in *.
  assert (b = p4 ++ es) as Hb4 by (unfold b, p4, p3, p2, p1; app_norm; done).
  assert (b = p3 ++ be16 (length es) ++ es) as Hb3 by (rewrite Hb4; unfold p4; app_norm; done).
  assert (b = p2 ++ u8 (length comp) :: (comp ++ be16 (length es) ++ es)) as Hb2
    by (rewrite Hb3; unfold p3; app_norm; done).
  assert (b = p1 ++ be16 (length cs) ++ (cs ++ u8 (length comp) :: comp ++ be16 (length es) ++ es)) as Hb1
    by (rewrite Hb2; unfold p2; app_norm; done).
  assert (length p1 = 2 + 32 + 1 + length sid)%nat as L1 by (unfold p1; rewrite length_app; cbn; lia).
  assert (length p2 = length p1 + 2 + length cs)%nat as L2
    by (unfold p2; rewrite !length_app, be16_length; lia).
  assert (length p3 = length p2 + 1 + length comp)%nat as L3 by (unfold p3; rewrite length_app; cbn; lia).
  assert (length p4 = length p3 + 2)%nat as L4 by (unfold p4; rewrite length_app, be16_length; lia).
  assert (length b = length p4 + length es)%nat as Lb by (rewrite Hb4; apply length_app).
  replace (2 + 32)%nat with (length r) in * by lia. cbv zeta.
  rewrite (proj2 (Nat.leb_gt _ _)) by lia.
  unfold b at 1. rewrite u8_at_u8 by done. cbn [or_panic]. rewrite <- L1.
  rewrite (proj2 (Nat.ltb_ge _ _)) by lia.
  rewrite Hb1 at 1. rewrite u16_at_be16 by lia. cbn [or_panic]. rewrite <- L2.
  rewrite (proj2 (Nat.leb_gt _ _)) by lia.
  rewrite Hb2 at 1. rewrite u8_at_u8 by done. cbn [or_panic]. rewrite <- L3.
  rewrite (proj2 (Nat.ltb_ge _ _)) by lia.
  rewrite Hb3 at 1. rewrite u16_at_be16 by lia. cbn [or_panic]. rewrite <- L4.
  assert (es = render_extensions (pre ++ (O, sni_data name) :: post)) as E by (unfold es; by rewrite He).
  pose proof (sni_extensions_found (S (length b)) p4 pre name post) as Hfound. cbv zeta in Hfound.
  rewrite <- E, <- Hb4 in Hfound. apply Hfound; [|lia|lia|done].
  rewrite He in Hes. apply Forall_app in Hes as [Hes _].
  rewrite Forall_forall in *. intros e Hin. split; auto.
Qed.

Lemma lor_bytes a b : 0 <= a -> 0 <= b < 256 -> Z.lor (Z.shiftl a 8) b = a * 256 + b.
Proof.
  intros Ha Hb. assert (Z.land (Z.shiftl a 8) b = 0) as H0.
  { apply Z.bits_inj'. intros n Hn. rewrite Z.land_spec, Z.shiftl_spec, Z.bits_0 by lia.
    destruct (Z.ltb_spec n 8); [rewrite (Z.testbit_neg_r a) by lia; done|].
    rewrite <- (Z.mod_small b (2 ^ 8)) by lia. rewrite Z.mod_pow2_bits_high by lia. apply andb_false_r. }
  rewrite <- Z.lxor_lor, <- Z.add_nocarry_lxor, Z.shiftl_mul_pow2 by (done || lia). lia.
Qed.

Lemma length24 (a b c : byte) :
  Z.lor (Z.lor (Z.shiftl (Z.of_nat (Z.to_nat (byte_to_Z a))) 16) (Z.shiftl (Z.of_nat (Z.to_nat (byte_to_Z b))) 8))
        (Z.of_nat (Z.to_nat (byte_to_Z c)))
  = from_be_bytes [a; b; c].
Proof.
  pose proof (byte_to_Z_range a). pose proof (byte_to_Z_range b). pose proof (byte_to_Z_range c).
  rewrite !Z2Nat.id by lia. change 16 with (8 + 8). rewrite <- Z.shiftl_shiftl by lia.
  rewrite <- Z.shiftl_lor, (lor_bytes (byte_to_Z a)), lor_bytes by lia. unfold from_be_bytes. cbn. lia.
Qed.

(** ** The theorems of the parser *)

(** The record the parser panics on: a ClientHello cut before its length field. *)
Definition cut_hello (buf : list byte) : Prop :=
  exists v1 v2 body rest, (length body < 3)%nat /\
    buf = Byte.x16 :: v1 :: v2 :: be16 (S (length body)) ++ (Byte.x01 :: body) ++ rest.


Lemma cut_hello_length buf : cut_hello buf -> (5 <= length buf)%nat.
Proof.
  intros (v1 & v2 & body & rest & _ & ->). cbn [length]. rewrite length_app, be16_length. lia.
Qed.

Lemma cut_hello_inv b0 v1 v2 l1 l2 r :
  cut_hello (b0 :: v1 :: v2 :: l1 :: l2 :: r) <->
  b0 = Byte.x16 /\ exists body rest, (length body < 3)%nat /\
    from_be_bytes [l1; l2] = Z.of_nat (S (length body)) /\ r = Byte.x01 :: body ++ rest.
Proof.
  split.
  - intros (w1 & w2 & body & rest & Hb & [= -> -> -> ? ? ?]). split; [done|]. exists body, rest.
    subst. split; [done|]. split; [|done]. apply (from_be16 (S (length body))). lia.
  - intros (-> & body & rest & Hb & Hz & ->). exists v1, v2, body, rest. split; [done|].
    do 3 f_equal. change (l1 :: l2 :: ?x) with ([l1; l2] ++ x). f_equal.
    unfold be16. rewrite <- Hz. symmetry. apply (to_from_be_bytes [l1; l2]).
Qed.

(** C37: Reading the server name out of the first bytes of a connection always ends, and
    the only bytes it panics on are a handshake record holding a ClientHello of fewer
    than four bytes. *)
Theorem sni_parser_total (buf : list byte) :
  extract_sni_from_client_hello buf <> SniOutOfFuel /\
  (extract_sni_from_client_hello buf = SniPanic <-> cut_hello buf).
Proof.
  unfold extract_sni_from_client_hello.
  destruct (Nat.ltb_spec (length buf) 5) as [Hl|Hl]; cbn [orb].
  { split; [done|]. split; [done|]. intros ?%cut_hello_length. lia. }
  destruct buf as [|b0 [|v1 [|v2 [|l1 [|l2 r]]]]]; cbn in Hl; try lia.
  rewrite cut_hello_inv. cbn [head]. case_bool_decide as H0; cbn [negb].
  2: { split; [done|]. split; [done|]. intros [-> _]. done. }
  change (u16_at _ 3) with (Some (Z.to_nat (from_be_bytes [l1; l2]))). cbn [or_panic].
  set (z := from_be_bytes [l1; l2]).
  destruct (get_range _ 5 _) as [body|] eqn:Er; cbn [or_none].
  2: { split; [done|]. split; [done|]. intros (_ & body & rest & Hb & Hz & ->).
       unfold get_range in Er. fold z in Hz. rewrite Hz, Nat2Z.id in Er. revert Er.
       rewrite (proj2 (Nat.leb_le _ _)), (proj2 (Nat.leb_le _ _)) by (cbn; rewrite ?length_app; lia). done. }
  apply get_range_Some in Er as [Hr ->].
  replace (5 + Z.to_nat z - 5)%nat with (Z.to_nat z) by lia. cbn [drop]. rewrite drop_0. cbn [length] in Hr.
  case_bool_decide as H1; cbn [negb].
  2: { split; [done|]. split; [done|]. intros (_ & body & rest & Hb & Hz & ->). fold z in Hz.
       rewrite Hz, Nat2Z.id in H1. done. }
  destruct (take (Z.to_nat z) r) as [|b1 body] eqn:Et; rewrite ?Et in H1; [done|]. injection H1 as ->.
  assert (length (take (Z.to_nat z) r) = Z.to_nat z) as Hlen by (rewrite length_take; lia).
  rewrite Et in Hlen. cbn [length] in Hlen.
  assert (r = Byte.x01 :: body ++ drop (Z.to_nat z) r) as Hrr.
  { rewrite <- (take_drop (Z.to_nat z) r) at 1. by rewrite Et. }
  destruct (decide (length body < 3)%nat) as [Hb|Hb].
  - assert (forall k, or_panic (u8_at (Byte.x01 :: body) 1) (fun b1 => or_panic (u8_at (Byte.x01 :: body) 2)
        (fun b2 => or_panic (u8_at (Byte.x01 :: body) 3) (k b1 b2))) = SniPanic) as Hp.
    { intros k. destruct body as [|x [|y [|]]]; cbn in Hb; try lia; done. }
    rewrite Hp. split; [done|]. split; [|done]. intros _. split; [by injection H0|].
    exists body, (drop (Z.to_nat z) r). split; [done|]. split; [|done]. fold z. lia.
  - assert (forall k, (forall a b c, fine (k a b c)) -> fine (or_panic (u8_at (Byte.x01 :: body) 1)
        (fun b1 => or_panic (u8_at (Byte.x01 :: body) 2)
        (fun b2 => or_panic (u8_at (Byte.x01 :: body) 3) (k b1 b2))))) as Hp.
    { intros k Hk. do 3 (apply fine_u8; [cbn; lia|intros ?]). apply Hk. }
    match goal with |- ?r <> _ /\ _ => assert (fine r) as [Hp1 Hp2] end.
    { apply Hp. intros. apply fine_or_none. apply sni_of_hello_fine. }
    split; [done|]. split; [done|]. intros (_ & body' & rest & Hb' & Hz & E). fold z in Hz. exfalso. lia.
Qed.

Lemma from_be24 a b c n :
  be24 n = [a; b; c] -> (n < Z.to_nat 65536)%nat -> from_be_bytes [a; b; c] = Z.of_nat n.
Proof. intros <- Hn. unfold be24. rewrite from_to_be_bytes. apply Z.mod_small. lia. Qed.

(** The server name of every well-formed ClientHello is found, whatever its session
    id, cipher suites, compression methods, the other extensions around server_name and
    the bytes after the record. *)
Theorem sni_roundtrip (version : list byte) (h : Hello) pre (name : list byte) post rest :
  length version = 2%nat -> hello_ok h -> h_extensions h = pre ++ (O, sni_data name) :: post ->
  Forall (fun e => e.1 <> O) pre -> utf8 (string_of_bytes name) ->
  extract_sni_from_client_hello (render_record version (render_hello h) ++ rest)
  = SniFound (string_of_bytes name).
Proof.
  intros Hv Hok He Hpre Hu. destruct version as [|v1 [|v2 [|]]]; try done.
  unfold extract_sni_from_client_hello, render_record.
  pose proof Hok as (_ & _ & _ & _ & Hlen).
  set (hello := render_hello h) in *. set (body := Byte.x01 :: be24 (length hello) ++ hello).
  assert (length body = 4 + length hello)%nat as Lb.
  { unfold body, be24. cbn [length]. rewrite length_app, to_be_bytes_length. lia. }
  rewrite (proj2 (Nat.ltb_ge _ _)) by (rewrite !length_app; cbn [length]; rewrite ?length_app, ?be16_length; lia).
  rewrite bool_decide_eq_true_2 by done. cbn [orb negb].
  change ((_ :: [v1; v2] ++ be16 (length body) ++ body) ++ rest)
    with ([Byte.x16; v1; v2] ++ (be16 (length body) ++ body) ++ rest).
  rewrite <- app_assoc. change 3%nat with (length [Byte.x16; v1; v2]) at 1.
  rewrite u16_at_be16 by lia. cbn [or_panic].
  pose proof (get_range_app ([Byte.x16; v1; v2] ++ be16 (length body)) body rest) as Hg.
  rewrite length_app, be16_length, <- app_assoc in Hg. cbn [length] in Hg.
  change (3 + 2)%nat with 5%nat in Hg. rewrite Hg. cbn [or_none].
  rewrite bool_decide_eq_true_2 by done. cbn [negb].
  destruct (be24 (length hello)) as [|a [|b [|c [|]]]] eqn:E24;
    try (pose proof (to_be_bytes_length 3 (Z.of_nat (length hello))) as Hl; unfold be24 in E24; by rewrite E24 in Hl).
  change (u8_at body 1) with (Some (Z.to_nat (byte_to_Z a))). change (u8_at body 2) with (Some (Z.to_nat (byte_to_Z b))).
  change (u8_at body 3) with (Some (Z.to_nat (byte_to_Z c))). cbn [or_panic].
  rewrite length24, (from_be24 _ _ _ _ E24), Nat2Z.id by lia.
  replace body with ([Byte.x01; a; b; c] ++ hello ++ []) by (by rewrite app_nil_r).
  change 4%nat with (length [Byte.x01; a; b; c]). rewrite get_range_app. cbn [or_none].
  by apply sni_of_hello_found with pre post.
Qed.

(** A ClientHello with an ALPN extension before server_name. *)
Definition demo_hello : Hello := {|
  h_version_random := repeat Byte.x03 34; h_session_id := [Byte.x09]; h_ciphers := [Byte.x13; Byte.x01];
  h_compression := [Byte.x00];
  h_extensions := [(16%nat, bytes_of_string "h2"); (O, sni_data (bytes_of_string "api.openai.com"))];
|}.

Lemma sni_roundtrip_witness :
  extract_sni_from_client_hello (render_record [Byte.x03; Byte.x01] (render_hello demo_hello) ++ [Byte.x14])
  = SniFound "api.openai.com".
Proof.
  apply (sni_roundtrip [Byte.x03; Byte.x01] demo_hello [(16%nat, bytes_of_string "h2")]
           (bytes_of_string "api.openai.com") [] [Byte.x14]).
  - reflexivity.
  - unfold hello_ok. split; [reflexivity|]. split; [cbn; lia|]. split; [cbn; lia|].
    split; [|].
    + repeat (apply Forall_cons; split; [cbn [fst]; lia|]). by apply Forall_nil.
    + apply Nat.ltb_lt. vm_compute. reflexivity.
  - reflexivity.
  - apply Forall_cons. split; [done|by apply Forall_nil].
  - vm_compute. reflexivity.
Defined.

(** ** The process metadata before the ClientHello *)

Definition MAX_META_SIZE : nat := Z.to_nat 4096.

Definition META_PREFIX : list byte := bytes_of_string (String "000"%char "CLAWCAGE_META:").

(** What the relay in the guest puts before the connection's own bytes. *)
Definition meta_line (process_name : string) : list byte :=
  META_PREFIX ++ bytes_of_string process_name ++ [Byte.x0a].

(** One [read]: the bytes it returned (none at the end of the stream) or its error. *)
Abbreviation ReadResult := (result (list byte) string).

Inductive Peek :=
| PeekDone (process_name : option string) (initial_buf : list byte) (rest : list ReadResult)
| PeekFail (reason : string)
| PeekPending  (* no more reads: the connection waits *)
| PeekPanic.

Definition bytes_start_with (p l : list byte) : bool := bool_decide (take (length p) l = p).

Definition newline_at (buf : list byte) : option nat := fst <$> list_find (fun b => b = Byte.x0a) buf.

(** A read and what follows it. *)
Definition on_read (what eof : string) (reads : list ReadResult)
    (k : list byte -> list ReadResult -> Peek) : Peek :=
  match reads with
  | [] => PeekPending
  | Err e :: _ => PeekFail (what +:+ ": " +:+ e)
  | Ok [] :: _ => PeekFail eof
  | Ok bytes :: reads => k bytes reads
  end.

Fixpoint meta_loop (initial_buf : list byte) (reads : list ReadResult) : Peek :=
  match newline_at initial_buf with
  | Some nl_idx =>
      match get_range initial_buf 13 nl_idx with
      | Some proc_bytes => PeekDone (from_utf8 proc_bytes) (drop (S nl_idx) initial_buf) reads
      | None => PeekPanic
      end
  | None =>
      if (MAX_META_SIZE <=? length initial_buf)%nat then PeekFail "metadata exceeded 4KB limit"
      else match reads with
           | [] => PeekPending
           | Err e :: _ => PeekFail ("read metadata: " +:+ e)
           | Ok [] :: _ => PeekFail "EOF during metadata read"
           | Ok more :: reads => meta_loop (initial_buf ++ more) reads
           end
  end.

Definition peek_connection (reads : list ReadResult) : Peek :=
  on_read "read ClientHello" "empty connection" reads (fun initial_buf reads =>
    if bytes_start_with META_PREFIX initial_buf then
      match meta_loop initial_buf reads with
      | PeekDone process_name [] reads =>
          on_read "read ClientHello after meta" "empty connection after meta" reads (PeekDone process_name)
      | r => r
      end
    else PeekDone None initial_buf reads).

(** The metadata as the code reads it, over the bytes of the stream. *)
Lemma newline_at_Some (a b : list byte) :
  Byte.x0a ∉ a -> newline_at (a ++ Byte.x0a :: b) = Some (length a).
Proof.
  intros Ha. unfold newline_at.
  rewrite list_find_app_r; [done|].
  apply list_find_None, Forall_forall. by intros x Hx ->.
Qed.

Lemma newline_at_None (a : list byte) : Byte.x0a ∉ a -> newline_at a = None.
Proof.
  intros Ha. unfold newline_at. rewrite (proj2 (list_find_None _ _)); [done|].
  apply Forall_forall. by intros x Hx ->.
Qed.

(** The stream [buf ++ concat chunks] starts with the line of process [p]. *)
Lemma meta_loop_reads p rest chunks buf :
  Byte.x0a ∉ bytes_of_string p -> (length (meta_line p) <= MAX_META_SIZE)%nat ->
  Forall (fun c => c <> []) chunks -> buf ++ concat chunks = meta_line p ++ rest ->
  exists buf' chunks', buf' ++ concat chunks' = rest /\ Forall (fun c => c <> []) chunks' /\
    meta_loop buf (map Ok chunks) = PeekDone (from_utf8 (bytes_of_string ("A:" +:+ p))) buf' (map Ok chunks').
Proof.
  intros Hp Hlen. set (line := META_PREFIX ++ bytes_of_string p).
  assert (meta_line p = line ++ [Byte.x0a]) as Hl by (unfold meta_line, line; by rewrite <- app_assoc).
  assert (Byte.x0a ∉ line) as Hline.
  { unfold line. rewrite elem_of_app. intros [H|H]; [|done]. revert H.
    apply (bool_decide_unpack (Byte.x0a ∉ META_PREFIX)). vm_compute. done. }
  assert (length line = 15 + length (bytes_of_string p))%nat as Hll by (unfold line; by rewrite length_app).
  rewrite Hl, length_app in *. cbn [length] in Hlen. rewrite <- app_assoc. cbn [app].
  intros Hc. revert buf.
  assert (forall buf cs, buf ++ concat cs = line ++ Byte.x0a :: rest -> (length line < length buf)%nat ->
    exists buf', buf' ++ concat cs = rest /\
      meta_loop buf (map Ok cs) = PeekDone (from_utf8 (bytes_of_string ("A:" +:+ p))) buf' (map Ok cs)) as Hfull.
  { intros buf cs E Hb. exists (drop (S (length line)) buf).
    assert (buf = line ++ Byte.x0a :: drop (S (length line)) buf) as Hbuf.
    { rewrite <- (take_drop (length (line ++ [Byte.x0a])) buf) at 1. rewrite length_app. cbn [length].
      rewrite Nat.add_1_r. change (?x ++ Byte.x0a :: ?y) with (x ++ [Byte.x0a] ++ y). rewrite app_assoc. f_equal.
      rewrite <- (take_app_le buf (concat cs)) by lia. rewrite E.
      change (line ++ Byte.x0a :: rest) with (line ++ [Byte.x0a] ++ rest). rewrite app_assoc.
      apply take_app_length'. rewrite length_app. cbn. lia. }
    split.
    - rewrite Hbuf in E. rewrite <- app_assoc in E. apply app_inv_head in E. by injection E.
    - assert (newline_at buf = Some (length line)) as Hn by (rewrite Hbuf; by apply newline_at_Some).
      assert (get_range buf 13 (length line) = Some (bytes_of_string ("A:" +:+ p))) as Hg.
      { rewrite Hbuf at 1. rewrite Hll.
        change (line ++ ?y) with (((take 13 META_PREFIX ++ bytes_of_string "A:") ++ bytes_of_string p) ++ y).
        rewrite <- (app_assoc (take 13 META_PREFIX)), <- bytes_of_string_app, <- app_assoc.
        replace (15 + length (bytes_of_string p))%nat
          with (length (take 13 META_PREFIX) + length (bytes_of_string ("A:" +:+ p)))%nat by (rewrite bytes_of_string_app, length_app;
              change (length (take 13 META_PREFIX)) with 13%nat; cbn [bytes_of_string length]; lia).
        apply (get_range_app (take 13 META_PREFIX)). }
      destruct cs; cbn [meta_loop map]; by rewrite Hn, Hg. }
  induction Hc as [|c chunks Hc Hcs IH]; intros buf E.
  - destruct (Hfull buf [] E) as (buf' & H1 & H2); [|by exists buf', []].
    cbn [concat] in E. rewrite app_nil_r in E. rewrite E, length_app. cbn [length]. lia.
  - destruct (decide (length buf <= length line)%nat) as [Hb|Hb].
    + assert (Byte.x0a ∉ buf) as Hn.
      { intros Hx. apply Hline. assert (buf = take (length buf) line) as Hbl.
        { rewrite <- (take_app_le line (Byte.x0a :: rest) (length buf)) by lia.
          rewrite <- E. by rewrite take_app_length. }
        rewrite Hbl in Hx. apply elem_of_take in Hx as (i & Hi & _). by apply list_elem_of_lookup_2 in Hi. }
      cbn [map]. destruct c as [|b c]; [done|]. cbn [meta_loop]. rewrite newline_at_None by done.
      rewrite (proj2 (Nat.leb_gt _ _)) by lia. apply IH. by rewrite <- E, <- app_assoc.
    + destruct (Hfull buf (c :: chunks) E) as (buf' & H1 & H2); [lia|].
      exists buf', (c :: chunks). split; [done|]. split; [by constructor|done].
Qed.

(** However the guest's bytes are split across reads, once the first read holds the
    whole metadata prefix the connection's own bytes are kept intact, and the process
    name recorded is the guest's name with a stray [A:] before it: the prefix has fifteen
    bytes and thirteen are skipped. *)
Theorem metadata_read (p : string) (c : list byte) chunks (hello : list byte) :
  Byte.x0a ∉ bytes_of_string p -> utf8 p -> (length (meta_line p) <= MAX_META_SIZE)%nat ->
  Forall (fun c => c <> []) (c :: chunks) -> bytes_start_with META_PREFIX c = true -> hello <> [] ->
  c ++ concat chunks = meta_line p ++ hello ->
  exists buf chunks', peek_connection (map Ok (c :: chunks)) = PeekDone (Some ("A:" +:+ p)) buf (map Ok chunks') /\
    buf <> [] /\ buf ++ concat chunks' = hello.
Proof.
  intros Hp Hu Hlen Hcs Hpre Hh E. apply Forall_cons in Hcs as [Hc Hcs].
  destruct (meta_loop_reads p hello chunks c Hp Hlen Hcs E) as (buf & cs & Hb & Hne & Hm).
  assert (from_utf8 (bytes_of_string ("A:" +:+ p)) = Some ("A:" +:+ p)) as Hn.
  { rewrite from_utf8_string_of_bytes; rewrite string_of_bytes_of_string; [done|].
    unfold utf8 in *. rewrite bytes_of_string_app. cbn. by rewrite Hu. }
  unfold peek_connection. cbn [map on_read]. destruct c as [|b c]; [done|].
  rewrite Hpre, Hm, Hn. destruct buf as [|b0 buf]; [|by exists (b0 :: buf), cs].
  cbn [app] in Hb. destruct Hne as [|c' cs Hc' Hne]; [done|]. cbn [map on_read concat] in *.
  destruct c' as [|b' c']; [done|]. by exists (b' :: c'), cs.
Qed.

Lemma metadata_read_witness :
  exists buf chunks',
    peek_connection (map Ok [META_PREFIX ++ bytes_of_string "cu"; bytes_of_string "rl" ++ [Byte.x0a]; [Byte.x16; Byte.x03]])
    = PeekDone (Some "A:curl") buf (map Ok chunks') /\ buf <> [] /\ buf ++ concat chunks' = [Byte.x16; Byte.x03].
Proof.
  apply (metadata_read "curl" (META_PREFIX ++ bytes_of_string "cu")
           [bytes_of_string "rl" ++ [Byte.x0a]; [Byte.x16; Byte.x03]] [Byte.x16; Byte.x03]).
  - apply (bool_decide_unpack (Byte.x0a ∉ bytes_of_string "curl")). vm_compute. done.
  - vm_compute. reflexivity.
  - apply Nat.leb_le. vm_compute. reflexivity.
  - repeat constructor; done.
  - vm_compute. reflexivity.
  - done.
  - vm_compute. reflexivity.
Defined.

(** A read that ends inside the prefix: the metadata is taken for the connection's bytes. *)
Example prefix_split_missed :
  peek_connection (map Ok [take 5 META_PREFIX; drop 5 (meta_line "curl"); [Byte.x16]])
  = PeekDone None (take 5 META_PREFIX) (map Ok [drop 5 (meta_line "curl"); [Byte.x16]]).
Proof. vm_compute. reflexivity. Qed.
