(* ===== verification/CertAuthority.v ===== *)
(** The certificates of the proxy: crates/clawcage-core/src/net/cert_authority.rs.

    [CertAuthority] holds the key pair of the CA and the leaf certificates it has minted;
    [MitmCertResolver] is what TLS asks for the certificate of a connection. The
    connections are threads that share the cache: a call is the section under the read
    lock and, when that misses, the section under the write lock, and calls interleave
    between the two ([cert_step]). A certificate is minted at most once per domain
    ([one_certificate_per_domain]) for that domain and 25 hours ([minted_certificate]), and
    served for as long as the process lives, expired or not ([certificate_never_renewed]).

    Keys, certificates and their encodings are the class [Pki] (rcgen, rustls); the key
    pair generated and the clock are inputs of the call. *)

From Stdlib Require Import ZArith Lia Strings.Byte Ascii.
From stdpp Require Import base numbers list gmap strings relations.
From S2P Require Import Prelude RustStr Utf8.

(** What the code sets of a certificate's parameters, in seconds, and the rest. *)
Record Params (Rest : Type) := {
  common_name : string;
  subject_alt_names : list string;
  not_before : Z;
  not_after : Z;
  is_ca : bool;
  server_auth_only : bool;
  rest : Rest;
}.
Arguments common_name {_} _. Arguments subject_alt_names {_} _. Arguments not_before {_} _. Arguments not_after {_} _.
Arguments is_ca {_} _. Arguments server_auth_only {_} _. Arguments rest {_} _.

Class Pki := {
  KeyPair : Type;
  Certificate : Type;
  SigningKey : Type;
  Rest : Type;
  key_from_pem : string -> result KeyPair string;
  params_from_ca_pem : string -> result (Params Rest) string;
  new_params : list string -> result (Params Rest) string;
  dns_name : string -> result string string;
  self_signed : Params Rest -> KeyPair -> result Certificate string;
  signed_by : Params Rest -> KeyPair -> Certificate -> KeyPair -> result Certificate string;
  der : Certificate -> list byte;
  serialize_der : KeyPair -> list byte;
  any_supported_type : list byte -> result SigningKey string;
}.

Section Authority.
Context `{Pki}.

Record CertifiedKey := { cert : list (list byte); key : SigningKey }.

Record CertAuthority := {
  ca_cert : Certificate;
  ca_key : KeyPair;
  ca_cert_der : list byte;
  cache : gmap string CertifiedKey;
}.

Definition set_cache (ca : CertAuthority) (c : gmap string CertifiedKey) : CertAuthority :=
  {| ca_cert := ca_cert ca; ca_key := ca_key ca; ca_cert_der := ca_cert_der ca; cache := c |}.

Definition load (key_pem cert_pem : string) : result CertAuthority string :=
  let? ca_key := key_from_pem key_pem in
  let? ca_params := params_from_ca_pem cert_pem in
  let? ca_cert := self_signed ca_params ca_key in
  Ok {| ca_cert := ca_cert; ca_key := ca_key; ca_cert_der := der ca_cert; cache := ∅ |}.

(** The key pair generated for a certificate, and the two readings of the clock. *)
Record Inputs := { leaf_key : result KeyPair string; now_before : Z; now_after : Z }.

Definition leaf_params (p : Params Rest) (domain name : string) (i : Inputs) : Params Rest :=
  {| common_name := domain; subject_alt_names := [name]; not_before := now_before i - 1 * 3600; not_after := now_after i + 24 * 3600;
     is_ca := false; server_auth_only := true; rest := rest p |}.

Definition mint_leaf (ca : CertAuthority) (i : Inputs) (domain : string) : result CertifiedKey string :=
  let? leaf_key := leaf_key i in
  let? params := new_params [domain] in
  let? name := dns_name domain in
  let? leaf_cert := signed_by (leaf_params params domain name i) leaf_key (ca_cert ca) (ca_key ca) in
  let? signing_key := any_supported_type (serialize_der leaf_key) in
  Ok {| cert := [der leaf_cert; ca_cert_der ca]; key := signing_key |}.

(** The section under the read lock, and the one under the write lock. *)
Definition read_section (ca : CertAuthority) (domain : string) : option CertifiedKey := cache ca !! domain.

Definition write_section (ca : CertAuthority) (i : Inputs) (domain : string) : CertAuthority * result CertifiedKey string :=
  match cache ca !! domain with
  | Some k => (ca, Ok k)
  | None =>
      match mint_leaf ca i domain with
      | Ok k => (set_cache ca (<[domain := k]> (cache ca)), Ok k)
      | Err e => (ca, Err e)
      end
  end.

(** A call without another one between its sections. *)
Definition certified_key_for_domain (ca : CertAuthority) (i : Inputs) (domain : string) : CertAuthority * result CertifiedKey string :=
  match read_section ca domain with
  | Some k => (ca, Ok k)
  | None => write_section ca i domain
  end.

Definition cache_size (ca : CertAuthority) : nat := size (cache ca).

(** ** The resolver of a connection *)

Record MitmCertResolver := { resolver_ca : CertAuthority; resolved_domain : option string }.

Definition MitmCertResolver_new (ca : CertAuthority) : MitmCertResolver := {| resolver_ca := ca; resolved_domain := None |}.

(** The policy is not used: a certificate is minted for a blocked domain, too. *)
Definition with_policy {P} (ca : CertAuthority) (_policy : P) : MitmCertResolver := {| resolver_ca := ca; resolved_domain := None |}.

Definition domain (r : MitmCertResolver) : option string := resolved_domain r.

(** [server_name] is the one of the ClientHello. *)
Definition resolve (r : MitmCertResolver) (i : Inputs) (server_name : option string) : MitmCertResolver * option CertifiedKey :=
  match server_name with
  | None => (r, None)
  | Some domain =>
      let '(ca, k) := certified_key_for_domain (resolver_ca r) i domain in
      ({| resolver_ca := ca; resolved_domain := Some domain |}, match k with Ok k => Some k | Err _ => None end)
  end.

(** ** Concurrent calls *)

(** A call before its first section, between the two, and answered. *)
Inductive Call :=
| Asked (domain : string)
| Missed (domain : string)
| Answered (domain : string) (r : result CertifiedKey string).

Definition call_step (ca : CertAuthority) (i : Inputs) (c : Call) : CertAuthority * Call :=
  match c with
  | Asked domain => match read_section ca domain with Some k => (ca, Answered domain (Ok k)) | None => (ca, Missed domain) end
  | Missed domain => let '(ca, r) := write_section ca i domain in (ca, Answered domain r)
  | Answered _ _ => (ca, c)
  end.

(** A connection asks for a certificate, or one of the calls runs a section. *)
Inductive cert_step : CertAuthority * list Call -> CertAuthority * list Call -> Prop :=
| step_ask ca calls domain : cert_step (ca, calls) (ca, calls ++ [Asked domain])
| step_call ca calls n c i ca' c' : calls !! n = Some c -> call_step ca i c = (ca', c') -> cert_step (ca, calls) (ca', <[n := c']> calls).

(** The sections of a call one after the other are the call. *)
Lemma call_alone ca i j domain : (let '(ca, c) := call_step ca i (Asked domain) in call_step ca j c) =
  let '(ca, r) := certified_key_for_domain ca j domain in (ca, Answered domain r).
Proof. unfold certified_key_for_domain. cbn [call_step]. by destruct (read_section ca domain). Qed.

(** ** The certificates *)

(** [k] is a chain of a leaf for [domain] and the CA, minted at [i]. *)
Definition minted_for (ca : CertAuthority) (domain : string) (k : CertifiedKey) : Prop := exists i, mint_leaf ca i domain = Ok k.

Lemma minted_for_cache ca c domain k : minted_for (set_cache ca c) domain k <-> minted_for ca domain k.
Proof. done. Qed.

(** Nothing of the authority but the cache changes, and that only grows. *)
Definition extends (ca ca' : CertAuthority) : Prop := exists c, ca' = set_cache ca c /\ cache ca ⊆ c.

#[export] Instance extends_preorder : PreOrder extends.
Proof.
  split; [intros ca; exists (cache ca); by destruct ca|]. intros ca _ _ (c & -> & Hc) (d & -> & Hd). exists d. split; [done|]. by etrans.
Qed.

Lemma extends_lookup ca ca' domain k : extends ca ca' -> cache ca !! domain = Some k -> cache ca' !! domain = Some k.
Proof. intros (c & -> & Hc) Hk. by apply (lookup_weaken _ _ _ _ Hk Hc). Qed.

Lemma extends_minted ca ca' domain k : extends ca ca' -> minted_for ca domain k <-> minted_for ca' domain k.
Proof. by intros (c & -> & _). Qed.

Lemma write_extends ca i domain ca' r : write_section ca i domain = (ca', r) -> extends ca ca'.
Proof.
  unfold write_section. destruct (cache ca !! domain) as [k|] eqn:Hc; [by intros [= <- <-]|]. destruct (mint_leaf ca i domain) as [k|e]; intros [= <- <-]; [|done].
  exists (<[domain:=k]> (cache ca)). split; [done|]. by apply insert_subseteq.
Qed.

(** What holds between calls: the cache is of minted keys, and every answer is in it. *)
Definition wf (s : CertAuthority * list Call) : Prop :=
  map_Forall (minted_for s.1) (cache s.1) /\ Forall (fun c => match c with Answered d (Ok k) => cache s.1 !! d = Some k | _ => True end) s.2.

Lemma write_wf ca i domain ca' r : map_Forall (minted_for ca) (cache ca) -> write_section ca i domain = (ca', r) ->
  map_Forall (minted_for ca') (cache ca') /\ (forall k, r = Ok k -> cache ca' !! domain = Some k).
Proof.
  intros Hm. unfold write_section. destruct (cache ca !! domain) as [k|] eqn:Hc; [intros [= <- <-]; split; [done|congruence]|].
  destruct (mint_leaf ca i domain) as [k|e] eqn:Hk; intros [= <- <-]; [|by split]. split.
  - apply map_Forall_insert_2; [by exists i|exact Hm].
  - intros k' [= <-]. apply lookup_insert_eq.
Qed.

Lemma call_step_spec ca i c ca' c' : map_Forall (minted_for ca) (cache ca) -> call_step ca i c = (ca', c') ->
  extends ca ca' /\ map_Forall (minted_for ca') (cache ca') /\ (match c with Answered _ _ => c' = c | _ => forall d k, c' = Answered d (Ok k) -> cache ca' !! d = Some k end).
Proof.
  intros Hm. destruct c as [d|d|d r]; cbn [call_step].
  - unfold read_section. destruct (cache ca !! d) as [k|] eqn:Hc; intros [= <- <-]; (split; [done|split; [done|]]); [by intros ? ? [= <- <-]|done].
  - destruct (write_section ca i d) as [ca1 r] eqn:Hw; intros [= <- <-]. split; [by eapply write_extends|]. destruct (write_wf ca i d ca1 r Hm Hw) as [Hm' Hr]. split; [done|].
    intros d' k [= <- ->]. by apply Hr.
  - by intros [= <- <-].
Qed.

Lemma answers_extend ca ca' (calls : list Call) : extends ca ca' ->
  Forall (fun c => match c with Answered d (Ok k) => cache ca !! d = Some k | _ => True end) calls ->
  Forall (fun c => match c with Answered d (Ok k) => cache ca' !! d = Some k | _ => True end) calls.
Proof. intros He Ha. eapply Forall_impl; [exact Ha|]. intros [| |d [k|]]; try done. by apply extends_lookup. Qed.

Lemma cache_step s s' : wf s -> cert_step s s' -> wf s' /\ extends s.1 s'.1.
Proof.
  intros [Hm Ha] Hs. destruct Hs as [ca calls d|ca calls n c i ca' c' Hn Hc]; cbn [fst snd] in *.
  - split; [|done]. split; [done|]. apply Forall_app. by repeat constructor.
  - destruct (call_step_spec ca i c ca' c' Hm Hc) as (He & Hm' & Hr). split; [|done]. split; [done|]. cbn [snd].
    apply Forall_insert; [by eapply answers_extend|]. destruct c as [d|d|d r]; [destruct c' as [| |d' [k|]]; try done; by apply Hr..|].
    subst c'. rewrite Forall_forall in Ha. specialize (Ha _ (list_elem_of_lookup_2 _ _ _ Hn)). cbn in Ha. destruct r as [k|]; [|done]. by eapply extends_lookup.
Qed.

Lemma cache_steps s s' : wf s -> rtc cert_step s s' -> wf s' /\ extends s.1 s'.1.
Proof.
  intros Hw Hs. revert Hw. induction Hs as [s|s s1 s2 H1 _ IH]; intros Hw; [done|]. destruct (cache_step _ _ Hw H1) as [Hw1 He1].
  destruct (IH Hw1) as [Hw2 He2]. split; [done|]. by etrans.
Qed.

Lemma wf_start ca : cache ca = ∅ -> wf (ca, []).
Proof. intros Hc. split; [|constructor]. cbn [fst]. rewrite Hc. apply map_Forall_empty. Qed.

Lemma load_empty key_pem cert_pem ca : load key_pem cert_pem = Ok ca -> cache ca = ∅.
Proof.
  unfold load. destruct (key_from_pem key_pem); [|done]. destruct (params_from_ca_pem cert_pem) as [p|]; [|done]. destruct (self_signed p _); [|done]. by intros [= <-].
Qed.

(** However the calls of a loaded authority interleave, all the answers for one domain are
    the same certificate, which was minted for it, and is the one in the cache. *)
Theorem one_certificate_per_domain (key_pem cert_pem : string) (ca ca' : CertAuthority) (calls : list Call) (d : string) (k k' : CertifiedKey)
    (Hload : load key_pem cert_pem = Ok ca) (Hrun : rtc cert_step (ca, []) (ca', calls))
    (Hk : Answered d (Ok k) ∈ calls) (Hk' : Answered d (Ok k') ∈ calls) :
  k = k' /\ cache ca' !! d = Some k /\ minted_for ca d k.
Proof.
  pose proof (load_empty _ _ _ Hload) as Hc.
  destruct (cache_steps _ _ (wf_start ca Hc) Hrun) as [[Hm Ha] He]. cbn [fst snd] in *. rewrite Forall_forall in Ha.
  pose proof (Ha _ Hk) as H1. pose proof (Ha _ Hk') as H2. cbn in H1, H2. split; [congruence|]. split; [done|].
  apply (extends_minted _ _ d k He). exact (Hm _ _ H1).
Qed.

(** A minted certificate: the leaf, signed by the CA for the domain alone, valid from an hour
    before the minting to a day after; then the CA. *)
Theorem minted_certificate (ca : CertAuthority) (i : Inputs) (d : string) (k : CertifiedKey) (Hmint : mint_leaf ca i d = Ok k) :
  exists p pair leaf name, signed_by p pair (ca_cert ca) (ca_key ca) = Ok leaf /\ cert k = [der leaf; ca_cert_der ca] /\
    dns_name d = Ok name /\ common_name p = d /\ subject_alt_names p = [name] /\ is_ca p = false /\ server_auth_only p = true /\
    not_before p = now_before i - 3600 /\ not_after p = now_after i + 86400 /\
    leaf_key i = Ok pair /\ any_supported_type (serialize_der pair) = Ok (key k).
Proof.
  unfold mint_leaf in Hmint. destruct (leaf_key i) as [pair|] eqn:Hpair; [|done]. destruct (new_params [d]) as [p|]; [|done]. destruct (dns_name d) as [name|]; [|done].
  destruct (signed_by _ _ _ _) as [leaf|] eqn:Hs; [|done]. destruct (any_supported_type _) as [sk|] eqn:Hk; [|done]. injection Hmint as <-.
  by exists (leaf_params p d name i), pair, leaf, name.
Qed.

(** A certificate that was served once is served for ever: whatever happens in between and
    whatever the time is, a call for its domain mints nothing and answers it. *)
Theorem certificate_never_renewed (key_pem cert_pem : string) (ca ca1 ca2 : CertAuthority) (calls1 calls2 : list Call) (d : string) (k : CertifiedKey) (i : Inputs)
    (Hload : load key_pem cert_pem = Ok ca) (Hrun1 : rtc cert_step (ca, []) (ca1, calls1)) (Hk : Answered d (Ok k) ∈ calls1) (Hrun2 : rtc cert_step (ca1, calls1) (ca2, calls2)) :
  certified_key_for_domain ca2 i d = (ca2, Ok k).
Proof.
  pose proof (load_empty _ _ _ Hload) as Hc.
  destruct (cache_steps _ _ (wf_start ca Hc) Hrun1) as [Hw1 _]. destruct (cache_steps _ _ Hw1 Hrun2) as [_ He]. destruct Hw1 as [_ Ha]. rewrite Forall_forall in Ha.
  pose proof (extends_lookup _ _ _ _ He (Ha _ Hk)) as H1. cbn [fst] in H1. unfold certified_key_for_domain, read_section. by rewrite H1.
Qed.

(** What a handshake leaves: the name of the ClientHello, blocked or not, and a certificate
    unless there is none or the minting fails, which is tried again by the next. *)
Theorem resolve_outcome (ca : CertAuthority) (i : Inputs) (server_name : option string) :
  let '(r, k) := resolve (MitmCertResolver_new ca) i server_name in
  domain r = server_name /\ extends ca (resolver_ca r) /\
  match server_name, k with
  | None, _ => k = None /\ resolver_ca r = ca
  | Some d, Some k => cache (resolver_ca r) !! d = Some k
  | Some d, None => resolver_ca r = ca /\ exists e, mint_leaf ca i d = Err e
  end.
Proof.
  unfold resolve, MitmCertResolver_new. cbn [resolver_ca resolved_domain]. destruct server_name as [d|]; [|by repeat split].
  unfold certified_key_for_domain, read_section. destruct (cache ca !! d) as [k|] eqn:Hc; [by repeat split|]. destruct (write_section ca i d) as [ca' r] eqn:Hw.
  cbn [domain resolved_domain resolver_ca]. split; [done|]. split; [by eapply write_extends|]. revert Hw. unfold write_section. rewrite Hc.
  destruct (mint_leaf ca i d) as [k|e]; intros [= <- <-]; [apply lookup_insert_eq|]. by split; [|exists e].
Qed.

End Authority.

(** ** A CA *)

Module Demo.

(** Keys are numbers, a certificate is its parameters and the two keys. *)
#[local] Instance pki : Pki := {|
  KeyPair := Z; Certificate := Params unit * Z * Z; SigningKey := list byte; Rest := unit;
  key_from_pem := fun s => Ok (slen s);
  params_from_ca_pem := fun s => Ok {| common_name := s; subject_alt_names := []; not_before := 0; not_after := 0; is_ca := true; server_auth_only := false; rest := tt |};
  new_params := fun names => Ok {| common_name := "rcgen self signed cert"; subject_alt_names := names; not_before := 0; not_after := 0; is_ca := false; server_auth_only := false; rest := tt |};
  dns_name := fun s => if is_ascii_str s then Ok s else Err "not ASCII";
  self_signed := fun p k => Ok (p, k, k);
  signed_by := fun p k _ cak => Ok (p, k, cak);
  der := fun c => bytes_of_string (common_name c.1.1);
  serialize_der := fun k => [byte_of_Z k];
  any_supported_type := Ok;
|}.

Definition ca0 : CertAuthority := {| ca_cert := ({| common_name := "CA"; subject_alt_names := []; not_before := 0; not_after := 0; is_ca := true; server_auth_only := false; rest := tt |}, 3, 3);
  ca_key := 3; ca_cert_der := bytes_of_string "CA"; cache := ∅ |}.
Definition inputs (k t : Z) : Inputs := {| leaf_key := Ok k; now_before := t; now_after := t |}.
Definition ck (k : Z) : CertifiedKey := {| cert := [bytes_of_string "api.x"; bytes_of_string "CA"]; key := [byte_of_Z k] |}.

Example loaded : load "key" "CA" = Ok ca0.
Proof. reflexivity. Qed.

(** Two connections miss at once; the second finds what the first has minted. *)
Definition race : CertAuthority * list Call := (set_cache ca0 {["api.x" := ck 7]}, [Answered "api.x" (Ok (ck 7)); Answered "api.x" (Ok (ck 7))]).

Lemma race_run : rtc cert_step (ca0, []) race.
Proof.
  eapply rtc_l; [apply (step_ask _ _ "api.x")|]. eapply rtc_l; [apply (step_ask _ _ "api.x")|]. cbn [app].
  eapply rtc_l; [apply (step_call _ _ 0 (Asked "api.x") (inputs 0 0) ca0 (Missed "api.x")); reflexivity|].
  eapply rtc_l; [apply (step_call _ _ 1 (Asked "api.x") (inputs 0 0) ca0 (Missed "api.x")); reflexivity|].
  eapply rtc_l; [apply (step_call _ _ 0 (Missed "api.x") (inputs 7 0) race.1 (Answered "api.x" (Ok (ck 7)))); reflexivity|].
  eapply rtc_l; [apply (step_call _ _ 1 (Missed "api.x") (inputs 8 0) race.1 (Answered "api.x" (Ok (ck 7)))); reflexivity|]. apply rtc_refl.
Qed.

(** A day and an hour later the certificate has expired, and is still served. *)
Example expired_served :
  (exists p pair, not_after p < 90000 /\ signed_by p pair (ca_cert ca0) (ca_key ca0) = Ok (p, pair, 3) /\ mint_leaf ca0 (inputs 7 0) "api.x" = Ok {| cert := [der (p, pair, 3); ca_cert_der ca0]; key := key (ck 7) |}) /\
  (certified_key_for_domain race.1 (inputs 9 90000) "api.x").2 = Ok (ck 7).
Proof. split; [|reflexivity]. exists (leaf_params (H := pki) {| common_name := ""; subject_alt_names := []; not_before := 0; not_after := 0; is_ca := false; server_auth_only := false; rest := tt |} "api.x" "api.x" (inputs 7 0)), 7. by repeat split. Qed.

(** Names are compared as they are written. *)
Example case_variants : cache_size (certified_key_for_domain race.1 (inputs 9 0) "API.x").1 = 2%nat.
Proof. reflexivity. Qed.

End Demo.

Lemma one_certificate_per_domain_witness : Demo.ck 7 = Demo.ck 7 /\ cache Demo.race.1 !! "api.x" = Some (Demo.ck 7) /\ minted_for Demo.ca0 "api.x" (Demo.ck 7).
Proof. apply (one_certificate_per_domain "key" "CA" Demo.ca0 Demo.race.1 Demo.race.2 "api.x" (Demo.ck 7) (Demo.ck 7) Demo.loaded Demo.race_run); [left|left]. Defined.

Lemma minted_certificate_witness : cert (H := Demo.pki) (Demo.ck 7) = [bytes_of_string "api.x"; ca_cert_der Demo.ca0].
Proof.
  destruct (minted_certificate Demo.ca0 (Demo.inputs 7 0) "api.x" (Demo.ck 7) eq_refl) as (p & pair & leaf & name & Hs & Hc & _ & Hn & _).
  rewrite Hc. injection Hs as <-. exact (f_equal (fun n => [bytes_of_string n; bytes_of_string "CA"]) Hn).
Defined.

Lemma certificate_never_renewed_witness : certified_key_for_domain Demo.race.1 (Demo.inputs 9 90000) "api.x" = (Demo.race.1, Ok (Demo.ck 7)).
Proof.
  apply (certificate_never_renewed "key" "CA" Demo.ca0 Demo.race.1 Demo.race.1 Demo.race.2 Demo.race.2 "api.x" (Demo.ck 7) (Demo.inputs 9 90000) Demo.loaded Demo.race_run); [left|apply rtc_refl].
Defined.
