(* ===== verification/Proto.v ===== *)
(** The host/guest protocol: crates/clawcage-proto/src/lib.rs, with the receive
    side of the control channel in crates/clawcage-agent/src/main.rs
    ([recv_host_msg]) and the terminal reader's header arithmetic.

    Messages are the source's enums.  MessagePack (the rmp_serde crate) is an
    interface: [Rmp] gives the two functions the code calls and the one law it
    relies on. *)

From Stdlib Require Import ZArith Lia Strings.Byte Ascii.
From Corelib Require Import SpecFloat.
From stdpp Require Import base numbers list strings.
From S2P Require Import Prelude RustStr.

(** ** Limits *)

Definition MAX_FRAME_SIZE : Z := 262144.
Definition FILE_CHUNK_SIZE : Z := 204800.
Definition MAX_DOWNLOAD_SIZE : Z := 100 * 1024 * 1024.
Definition MAX_BOOT_ENV_VARS : Z := 128.
Definition MAX_BOOT_FILES : Z := 64.
Definition MAX_BOOT_FILE_BYTES : Z := 10485760.
Definition MAX_ENV_KEY_LEN : Z := 256.
Definition MAX_ENV_VALUE_LEN : Z := 131072.

Definition BLOCKED_ENV_VARS : list string :=
  ["LD_PRELOAD"; "LD_LIBRARY_PATH"; "LD_AUDIT"; "LD_BIND_NOT"; "LD_DEBUG";
   "LD_DYNAMIC_WEAK"; "LD_PROFILE"; "LD_SHOW_AUXV"; "LD_USE_LOAD_BIAS";
   "IFS"; "BASH_ENV"; "ENV"; "CDPATH"; "GLOBIGNORE"; "SHELLOPTS"; "BASHOPTS";
   "PROMPT_COMMAND"; "PS4"].

(** ** Shared types *)

Record ProcessEntry := {
  pe_pid : Z;
  pe_ppid : Z;
  pe_name : string;
  pe_cpu_percent : spec_float;
  pe_mem_kb : Z;
  pe_runtime_secs : Z;
  pe_port : option Z;
}.

Record DirEntry := {
  de_name : string;
  de_is_dir : bool;
  de_size : Z;
  de_mode : Z;
  de_modified : Z;
}.

(** ** Messages *)

Inductive HostToGuest :=
| BootConfig (epoch_secs : Z)
| SetEnv (key value : string)
| BootConfigDone
| Resize (cols rows : Z)
| Exec (id : Z) (command : string)
| Ping
| FileWrite (path : string) (data : list byte) (mode : Z)
| FileRead (id : Z) (path : string)
| FileSave (id : Z) (path : string) (data : list byte)
| FileDelete (path : string)
| ListDir (id : Z) (path : string)
| SpawnShell (session_id : Z)
| CloseShell (session_id : Z)
| ShellResize (session_id cols rows : Z)
| KillProcess (pid : Z)
| Shutdown.

Inductive GuestToHost :=
| Ready (version : string)
| BootReady
| ExecDone (id exit_code : Z)
| Pong
| FileCreated (path : string) (size : Z)
| FileModified (path : string) (size : Z)
| FileDeleted (path : string)
| FileContent (id : Z) (path : string) (data : list byte)
| FileError (id : Z) (error : string)
| FileSaved (id : Z)
| FileChunk (id offset : Z) (data : list byte) (total_size : Z)
| DirListing (id : Z) (path : string) (entries : list DirEntry)
| ShellReady (session_id : Z)
| ShellClosed (session_id exit_code : Z)
| PortOpened (port pid : Z) (process : string)
| PortClosed (port : Z)
| ProcessSnapshot (processes : list ProcessEntry)
| ProcessKilled (pid : Z) (success : bool)
| SystemMetrics (cpu_percent : spec_float)
    (mem_total_kb mem_used_kb disk_total_kb disk_used_kb : Z).

(** ** MessagePack *)

(** [rmp_serde::to_vec_named] and [rmp_serde::from_slice] at one message type;
    [None] is their error. *)
Class Rmp (M : Type) := {
  to_vec_named : M -> option (list byte);
  from_slice : list byte -> option M;
}.

(** What the protocol relies on: a serialised message deserialises to itself. *)
Class RmpRoundtrip (M : Type) `{Rmp M} :=
  rmp_roundtrip (m : M) (payload : list byte) :
    to_vec_named m = Some payload -> from_slice payload = Some m.

(** ** Framing *)

Definition frame_of (payload : list byte) : list byte :=
  to_be_bytes 4 (as_uN 32 (Z.of_nat (length payload))) ++ payload.

Definition encode_host_msg `{Rmp HostToGuest} (msg : HostToGuest) : option (list byte) :=
  match to_vec_named msg with
  | Some payload =>
      let len := as_uN 32 (Z.of_nat (length payload)) in
      Some (to_be_bytes 4 len ++ payload)
  | None => None
  end.

Definition decode_host_msg `{Rmp HostToGuest} (payload : list byte) : option HostToGuest :=
  from_slice payload.

Definition encode_guest_msg `{Rmp GuestToHost} (msg : GuestToHost) : option (list byte) :=
  match to_vec_named msg with
  | Some payload =>
      let len := as_uN 32 (Z.of_nat (length payload)) in
      Some (to_be_bytes 4 len ++ payload)
  | None => None
  end.

Definition decode_guest_msg `{Rmp GuestToHost} (payload : list byte) : option GuestToHost :=
  from_slice payload.

Definition max_frame_size : Z := MAX_FRAME_SIZE.

(** *** Receiving *)

Inductive IoError := UnexpectedEof | FrameTooLarge | BadMessage.

(** What a reader gets from [read_exact_fd] on a stream that will deliver
    [stream] and then end: the bytes and the rest, or end of file. *)
Definition read_exact (n : Z) (stream : list byte) : result (list byte * list byte) IoError :=
  if n <=? Z.of_nat (length stream)
  then Ok (take (Z.to_nat n) stream, drop (Z.to_nat n) stream)
  else Err UnexpectedEof.

(** [recv_host_msg]; the second component is what the stream still holds. *)
Definition recv_host_msg `{Rmp HostToGuest} (stream : list byte)
  : result HostToGuest IoError * list byte :=
  match read_exact 4 stream with
  | Err e => (Err e, [])
  | Ok (len_buf, rest) =>
      let len := from_be_bytes len_buf in
      if MAX_FRAME_SIZE <? len then (Err FrameTooLarge, rest)
      else match read_exact len rest with
           | Err e => (Err e, [])
           | Ok (payload, rest) =>
               match decode_host_msg payload with
               | Some m => (Ok m, rest)
               | None => (Err BadMessage, rest)
               end
           end
  end.

(** The messages a receiver gets by calling [recv_host_msg] [n] times. *)
Fixpoint recv_n `{Rmp HostToGuest} (n : nat) (stream : list byte)
  : list (result HostToGuest IoError) * list byte :=
  match n with
  | O => ([], stream)
  | S n => let '(r, rest) := recv_host_msg stream in
           let '(rs, rest') := recv_n n rest in (r :: rs, rest')
  end.

(** *** Terminal frames *)

Definition DEFAULT_SHELL_SESSION_ID : Z := 0.
Definition TERMINAL_FRAME_HEADER_SIZE : Z := 8.

Definition encode_terminal_frame (session_id : Z) (data : list byte) : list byte :=
  let len := as_uN 32 (4 + Z.of_nat (length data)) in
  to_be_bytes 4 len ++ to_be_bytes 4 session_id ++ data.

(** One iteration of the guest's reader [vsock_to_pty_loop]. *)
Inductive TerminalRead :=
| TermEnd                                        (* the loop breaks *)
| TermSkip (rest : list byte)                    (* an empty frame *)
| TermData (session_id : Z) (data rest : list byte).

Definition read_terminal_frame (stream : list byte) : TerminalRead :=
  match read_exact TERMINAL_FRAME_HEADER_SIZE stream with
  | Err _ => TermEnd
  | Ok (header, rest) =>
      let len := from_be_bytes (take 4 header) in
      let session_id := from_be_bytes (drop 4 header) in
      if len <? 4 then TermEnd
      else let data_len := len - 4 in
           if data_len =? 0 then TermSkip rest
           else match read_exact data_len rest with
                | Err _ => TermEnd
                | Ok (data, rest) => TermData session_id data rest
                end
  end.

(** The loop: the data written to each shell's PTY, in order.  [fuel] bounds
    the iterations; every iteration consumes at least the eight header bytes. *)
Fixpoint vsock_to_pty_loop (fuel : nat) (get_master_fd : Z -> option Z) (stream : list byte)
  : list (Z * list byte) :=
  match fuel with
  | O => []
  | S fuel =>
      match read_terminal_frame stream with
      | TermEnd => []
      | TermSkip rest => vsock_to_pty_loop fuel get_master_fd rest
      | TermData sid data rest =>
          match get_master_fd sid with
          | Some fd => (fd, data) :: vsock_to_pty_loop fuel get_master_fd rest
          | None => vsock_to_pty_loop fuel get_master_fd rest
          end
      end
  end.

(** ** Boot handshake validation *)

Inductive ProtoError :=
| EnvKeyEmpty | EnvKeyHasEquals (key : string) | EnvKeyHasNul (key : string)
| EnvKeyTooLong (len : Z) (key : string) | EnvKeyBlocked (key : string)
| EnvValueHasNul | EnvValueTooLong (len : Z)
| PathEmpty | PathHasNul (path : string) | PathHasDotDot (path : string).

Definition NUL : ascii := "000"%char.

Definition is_blocked_env_var (key : string) : bool :=
  if bool_decide (key ∈ BLOCKED_ENV_VARS) then true
  else if starts_with key "LD_" then true
  else if starts_with key "BASH_FUNC_" then true
  else false.

Definition validate_env_key (key : string) : result unit ProtoError :=
  if is_empty key then Err EnvKeyEmpty
  else if contains_char key "="%char then Err (EnvKeyHasEquals key)
  else if contains_char key NUL then Err (EnvKeyHasNul key)
  else if MAX_ENV_KEY_LEN <? slen key then Err (EnvKeyTooLong (slen key) key)
  else if is_blocked_env_var key then Err (EnvKeyBlocked key)
  else Ok tt.

Definition validate_env_value (value : string) : result unit ProtoError :=
  if contains_char value NUL then Err EnvValueHasNul
  else if MAX_ENV_VALUE_LEN <? slen value then Err (EnvValueTooLong (slen value))
  else Ok tt.

Definition validate_file_path (path : string) : result unit ProtoError :=
  if is_empty path then Err PathEmpty
  else if contains_char path NUL then Err (PathHasNul path)
  else if str_contains path ".." then Err (PathHasDotDot path)
  else Ok tt.

(** ** Lemmas *)

Lemma read_exact_app (a b : list byte) :
  read_exact (Z.of_nat (length a)) (a ++ b) = Ok (a, b).
Proof.
  unfold read_exact. rewrite length_app.
  destruct (Z.leb_spec (Z.of_nat (length a)) (Z.of_nat (length a + length b))); [|lia].
  by rewrite Nat2Z.id, take_app_length, drop_app_length.
Qed.

Lemma read_exact_be4 z (b : list byte) :
  read_exact 4 (to_be_bytes 4 z ++ b) = Ok (to_be_bytes 4 z, b).
Proof. apply (read_exact_app (to_be_bytes 4 z)). Qed.

Lemma from_be_bytes_u32 z : in_uN 32 z -> from_be_bytes (to_be_bytes 4 z) = z.
Proof. intros H. rewrite from_to_be_bytes. by apply Z.mod_small. Qed.

Lemma encode_host_msg_frame `{Rmp HostToGuest} m f :
  encode_host_msg m = Some f <-> exists payload, to_vec_named m = Some payload /\ f = frame_of payload.
Proof.
  unfold encode_host_msg, frame_of. destruct (to_vec_named m) as [p|].
  - split; [intros H1; exists p; split; [done|congruence]|].
    intros (? & ? & ->). congruence.
  - split; [done|]. by intros (? & ? & _).
Qed.

Lemma frame_of_length payload : length (frame_of payload) = (4 + length payload)%nat.
Proof. unfold frame_of. by rewrite length_app, to_be_bytes_length. Qed.

Lemma recv_frame_of `{Rmp HostToGuest} payload rest :
  Z.of_nat (length payload) <= MAX_FRAME_SIZE ->
  recv_host_msg (frame_of payload ++ rest) =
  (match decode_host_msg payload with Some m => Ok m | None => Err BadMessage end, rest).
Proof.
  intros Hlen. unfold MAX_FRAME_SIZE in Hlen.
  assert (in_uN 32 (Z.of_nat (length payload))) as Hu by (unfold in_uN; lia).
  unfold recv_host_msg, frame_of. rewrite <- app_assoc, read_exact_be4.
  rewrite as_uN_small, from_be_bytes_u32 by done. unfold MAX_FRAME_SIZE.
  destruct (Z.ltb_spec 262144 (Z.of_nat (length payload))); [lia|].
  rewrite read_exact_app. by destruct (decode_host_msg payload).
Qed.

Lemma recv_frame_too_large `{Rmp HostToGuest} payload rest :
  MAX_FRAME_SIZE < Z.of_nat (length payload) < 2 ^ 32 ->
  recv_host_msg (frame_of payload ++ rest) = (Err FrameTooLarge, payload ++ rest).
Proof.
  intros Hlen. unfold MAX_FRAME_SIZE in Hlen.
  assert (in_uN 32 (Z.of_nat (length payload))) as Hu by (unfold in_uN; lia).
  unfold recv_host_msg, frame_of. rewrite <- app_assoc, read_exact_be4.
  rewrite as_uN_small, from_be_bytes_u32 by done. unfold MAX_FRAME_SIZE.
  destruct (Z.ltb_spec 262144 (Z.of_nat (length payload))); [done|lia].
Qed.

Lemma read_encode_terminal_frame sid data rest :
  in_uN 32 sid -> 4 + Z.of_nat (length data) < 2 ^ 32 ->
  read_terminal_frame (encode_terminal_frame sid data ++ rest) =
  if Z.of_nat (length data) =? 0 then TermSkip rest else TermData sid data rest.
Proof.
  intros Hs Hd. unfold read_terminal_frame, encode_terminal_frame.
  assert (in_uN 32 (4 + Z.of_nat (length data))) as Hu by (unfold in_uN; lia).
  rewrite as_uN_small by done. rewrite app_assoc, <- app_assoc.
  pose proof (read_exact_app (to_be_bytes 4 (4 + Z.of_nat (length data)) ++ to_be_bytes 4 sid)
                (data ++ rest)) as Hr.
  rewrite length_app, !to_be_bytes_length in Hr.
  change (Z.of_nat (4 + 4)) with TERMINAL_FRAME_HEADER_SIZE in Hr. rewrite Hr.
  assert (forall A B : list byte, length A = 4%nat -> take 4 (A ++ B) = A /\ drop 4 (A ++ B) = B)
    as Htd by (intros A B <-; by rewrite take_app_length, drop_app_length).
  destruct (Htd (to_be_bytes 4 (4 + Z.of_nat (length data))) (to_be_bytes 4 sid)
              (to_be_bytes_length _ _)) as [-> ->].
  rewrite !from_be_bytes_u32 by done.
  destruct (Z.ltb_spec (4 + Z.of_nat (length data)) 4); [lia|].
  replace (4 + Z.of_nat (length data) - 4) with (Z.of_nat (length data)) by lia.
  destruct (_ =? 0) eqn:E0.
  - apply Z.eqb_eq in E0. destruct data; [done|simpl in E0; lia].
  - by rewrite read_exact_app.
Qed.

Lemma not_blocked_no_LD key r : is_blocked_env_var key = false -> key <> "LD_" +:+ r.
Proof.
  unfold is_blocked_env_var. case_bool_decide; [done|].
  destruct (starts_with key "LD_") eqn:E; [done|]. intros _ ->.
  apply not_true_iff_false in E. apply E, starts_with_spec. eauto.
Qed.

Lemma validate_env_key_Ok key :
  validate_env_key key = Ok tt <->
  key <> "" /\ contains_char key "="%char = false /\ contains_char key NUL = false /\
  slen key <= MAX_ENV_KEY_LEN /\ is_blocked_env_var key = false.
Proof.
  unfold validate_env_key.
  pose proof (is_empty_true key) as He. destruct (is_empty key).
  { split; [done|]. intros (Hk & _). exfalso. by apply Hk, He. }
  destruct (contains_char key "="%char); [by split; [|intros (_ & ? & _)]|].
  destruct (contains_char key NUL); [by split; [|intros (_ & _ & ? & _)]|].
  destruct (Z.ltb_spec MAX_ENV_KEY_LEN (slen key)); [split; [done|intros; lia]|].
  destruct (is_blocked_env_var key); [by split; [|intros (_ & _ & _ & _ & ?)]|].
  split; [|done]. intros _. repeat split; auto. intros ->. discriminate (proj2 He eq_refl).
Qed.

Lemma validate_env_value_Ok v :
  validate_env_value v = Ok tt <->
  contains_char v NUL = false /\ slen v <= MAX_ENV_VALUE_LEN.
Proof.
  unfold validate_env_value. destruct (contains_char v NUL); [by split; [|intros [? _]]|].
  destruct (Z.ltb_spec MAX_ENV_VALUE_LEN (slen v)); [split; [done|intros; lia]|].
  split; auto.
Qed.

Lemma validate_file_path_Ok p :
  validate_file_path p = Ok tt <->
  p <> "" /\ contains_char p NUL = false /\ str_contains p ".." = false.
Proof.
  unfold validate_file_path.
  pose proof (is_empty_true p) as He. destruct (is_empty p).
  { split; [done|]. intros (Hk & _). exfalso. by apply Hk, He. }
  destruct (contains_char p NUL); [by split; [|intros (_ & ? & _)]|].
  destruct (str_contains p ".."); [by split; [|intros (_ & _ & ?)]|].
  split; [|done]. intros _. repeat split; auto. intros ->. discriminate (proj2 He eq_refl).
Qed.

Lemma vsock_to_pty_loop_S fuel get_fd stream :
  vsock_to_pty_loop (S fuel) get_fd stream =
  match read_terminal_frame stream with
  | TermEnd => []
  | TermSkip rest => vsock_to_pty_loop fuel get_fd rest
  | TermData sid data rest =>
      match get_fd sid with
      | Some fd => (fd, data) :: vsock_to_pty_loop fuel get_fd rest
      | None => vsock_to_pty_loop fuel get_fd rest
      end
  end.
Proof. done. Qed.

(** *** Lexical path resolution

    What opening [path] from the directory [base] reaches when no symbolic
    link is on the way: [..] goes up, [.] and empty components stay. *)
Definition resolve_step (dir : list string) (comp : string) : list string :=
  if bool_decide (comp = "..") then removelast dir
  else if bool_decide (comp = ".") || is_empty comp then dir
  else dir ++ [comp].

Definition resolve_path (base : list string) (path : string) : list string :=
  let start := if starts_with path "/" then [] else base in
  fold_left resolve_step (split_char "/"%char path) start.

Lemma split_char_substring c s w :
  w ∈ split_char c s -> exists a b, s = a +:+ w +:+ b.
Proof.
  revert w. induction s as [|d s IH]; intros w; simpl.
  - intros ->%list_elem_of_singleton. by exists "", "".
  - pose proof (split_char_nonempty c s) as Hne. case_bool_decide.
    + intros [->|Hw]%elem_of_cons; [by exists "", (String d s)|].
      destruct (IH _ Hw) as (a & b & ->). by exists (String d a), b.
    + destruct (split_char c s) as [|v vs] eqn:E; [done|].
      intros [->|Hw]%elem_of_cons.
      * assert (exists b, s = v +:+ b) as [b ->].
        { rewrite <- (join_split_char c s), E. destruct vs; simpl; [exists ""; by rewrite sapp_nil_r|eauto]. }
        by exists "", b.
      * destruct (IH w) as (a & b & ->); [by right|]. by exists (String d a), b.
Qed.

Lemma fold_resolve_no_dotdot comps dir :
  (forall c, c ∈ comps -> c <> "..") ->
  exists tail, fold_left resolve_step comps dir = dir ++ tail.
Proof.
  revert dir. induction comps as [|c cs IH]; intros dir Hno; simpl.
  - exists []. by rewrite app_nil_r.
  - destruct (IH (resolve_step dir c)) as [t Ht]; [intros; apply Hno; by right|].
    rewrite Ht. unfold resolve_step. rewrite (bool_decide_false (c = "..")) by (apply Hno; left).
    destruct (_ || _); [eauto|]. exists (c :: t). by rewrite <- app_assoc.
Qed.

(** ** Properties *)

(** C39: whatever sequence of messages the host encodes, each within the frame
    limit, the guest's receive loop reads back exactly that sequence and leaves
    the rest of the stream untouched. *)
Theorem host_stream_roundtrip `{RmpRoundtrip HostToGuest} (msgs : list HostToGuest)
    (frames : list (list byte)) (rest : list byte) :
  Forall2 (fun m f => encode_host_msg m = Some f /\
                      Z.of_nat (length f) <= 4 + MAX_FRAME_SIZE) msgs frames ->
  recv_n (length msgs) (concat frames ++ rest) = (map Ok msgs, rest).
Proof.
  induction 1 as [|m f ms fs [He Hl] _ IH]; simpl; [done|].
  apply encode_host_msg_frame in He as (payload & Ep & ->).
  rewrite frame_of_length in Hl.
  rewrite <- app_assoc, recv_frame_of by lia.
  unfold decode_host_msg. rewrite (rmp_roundtrip m payload Ep), IH. done.
Qed.

(** The sender never checks the limit: a message whose payload exceeds
    [MAX_FRAME_SIZE] encodes without an error, and the receiver rejects the frame
    after its length prefix, so the payload bytes are left in the stream. *)
Theorem oversized_message_rejected `{Rmp HostToGuest} (m : HostToGuest)
    (payload rest : list byte) :
  to_vec_named m = Some payload ->
  MAX_FRAME_SIZE < Z.of_nat (length payload) < 2 ^ 32 ->
  exists frame, encode_host_msg m = Some frame /\
    recv_host_msg (frame ++ rest) = (Err FrameTooLarge, payload ++ rest).
Proof.
  intros Hm Hlen. exists (frame_of payload). split.
  - unfold encode_host_msg. by rewrite Hm.
  - by apply recv_frame_too_large.
Qed.

(** the terminal channel delivers every frame written for a known session to
    that session's PTY, in order and unchanged, and drops exactly the frames of
    unknown sessions and the empty ones.  One iteration per frame, and one for
    the end of the stream, is enough. *)
Theorem terminal_frames_routed (get_fd : Z -> option Z) (frames : list (Z * list byte))
    (fuel : nat) :
  (length frames < fuel)%nat ->
  Forall (fun '(sid, data) => in_uN 32 sid /\ 4 + Z.of_nat (length data) < 2 ^ 32) frames ->
  vsock_to_pty_loop fuel get_fd
    (concat (map (fun '(sid, data) => encode_terminal_frame sid data) frames)) =
  flat_map (fun '(sid, data) =>
              match get_fd sid with
              | Some fd => if Z.of_nat (length data) =? 0 then [] else [(fd, data)]
              | None => []
              end) frames.
Proof.
  intros Hf H. revert fuel Hf. induction H as [|[sid data] fs [Hs Hd] _ IH]; intros fuel Hf.
  - destruct fuel; done.
  - destruct fuel as [|fuel]; [simpl in Hf; lia|]. simpl in Hf.
    cbn [map concat flat_map]. rewrite vsock_to_pty_loop_S.
    rewrite read_encode_terminal_frame by done.
    destruct (_ =? 0) eqn:E0; [rewrite IH by lia; by destruct (get_fd sid)|].
    destruct (get_fd sid); rewrite IH by lia; done.
Qed.

(** the environment keys the boot handshake accepts are exactly the non-empty
    ones of at most 256 bytes without [=] or NUL that are on no block list, so no
    dynamic-linker variable ([LD_...]), exported bash function or listed shell
    hijack is ever accepted. *)
Theorem accepted_env_key_safe (key : string) :
  validate_env_key key = Ok tt <->
  (1 <= slen key <= MAX_ENV_KEY_LEN /\
   (forall a b, key <> a +:+ "=" +:+ b) /\ (forall a b, key <> a +:+ String NUL b) /\
   key ∉ BLOCKED_ENV_VARS /\
   (forall r, key <> "LD_" +:+ r) /\ (forall r, key <> "BASH_FUNC_" +:+ r)).
Proof.
  rewrite validate_env_key_Ok.
  assert (forall c, contains_char key c = false <-> forall a b, key <> a +:+ String c b) as Hc.
  { intros c. split.
    - intros Hn a b ->. rewrite contains_char_app, contains_char_cons in Hn.
      rewrite bool_decide_true in Hn by done. by destruct (contains_char a c).
    - intros Hn. apply not_true_iff_false. unfold contains_char.
      destruct (find_char c key) eqn:E; [|done].
      apply find_char_Some in E as (a & b & Hk & _). by apply Hn in Hk. }
  rewrite !Hc. unfold is_blocked_env_var.
  assert (forall p, starts_with key p = false <-> forall r, key <> p +:+ r) as Hp.
  { intros p. rewrite <- not_true_iff_false, starts_with_spec. split; [eauto|].
    intros Hn [r Hr]. by apply Hn in Hr. }
  assert (key <> "" <-> 1 <= slen key) as Hne.
  { unfold slen. destruct key; simpl; [split; [done|lia]|split; [lia|done]]. }
  rewrite Hne, <- !Hp.
  change (forall a b, key <> a +:+ "=" +:+ b) with (forall a b, key <> a +:+ String "="%char b).
  destruct (starts_with key "LD_"), (starts_with key "BASH_FUNC_"); case_bool_decide;
    intuition (try done; try lia).
Qed.

(** a path the boot handshake accepts never escapes: resolving it from any
    directory stays at or below that directory (below the root for an absolute
    path), since no component can be [..]. *)
Theorem accepted_path_never_escapes (base : list string) (path : string) :
  validate_file_path path = Ok tt ->
  exists tail, resolve_path base path =
               (if starts_with path "/" then [] else base) ++ tail.
Proof.
  intros (_ & _ & Hdd)%validate_file_path_Ok. unfold resolve_path.
  apply fold_resolve_no_dotdot. intros c Hc ->.
  apply split_char_substring in Hc as (a & b & Hp).
  apply not_true_iff_false in Hdd. apply Hdd, str_contains_spec. eauto.
Qed.

(** ** Witnesses *)

(** Codecs to run the framing on: one for two messages, and one with a given
    payload. *)
Definition demo_payload_rmp (payload : list byte) : Rmp HostToGuest := {|
  to_vec_named m := match m with Ping => Some payload | _ => None end;
  from_slice bs := Some Ping;
|}.

Definition demo_ping_rmp : Rmp HostToGuest := {|
  to_vec_named m := match m with Ping => Some [x01] | Shutdown => Some [x02; x00] | _ => None end;
  from_slice bs := match bs with [x01] => Some Ping | [x02; x00] => Some Shutdown | _ => None end;
|}.

Lemma demo_ping_roundtrip : @RmpRoundtrip HostToGuest demo_ping_rmp.
Proof. intros [] p H; simplify_eq/=; done. Qed.

Lemma host_stream_roundtrip_witness :
  @recv_n demo_ping_rmp 2 (concat [frame_of [x01]; frame_of [x02; x00]] ++ [x07])
  = ([Ok Ping; Ok Shutdown], [x07]).
Proof.
  apply (@host_stream_roundtrip demo_ping_rmp demo_ping_roundtrip [Ping; Shutdown]).
  repeat constructor; done.
Defined.

Lemma oversized_payload_exists :
  exists payload : list byte, MAX_FRAME_SIZE < Z.of_nat (length payload) < 2 ^ 32.
Proof.
  exists (replicate (Z.to_nat 262145) x00). rewrite length_replicate, Z2Nat.id by lia.
  unfold MAX_FRAME_SIZE. lia.
Qed.

Lemma oversized_message_rejected_witness :
  exists payload frame,
    @encode_host_msg (demo_payload_rmp payload) Ping = Some frame /\
    @recv_host_msg (demo_payload_rmp payload) (frame ++ [x09]) =
      (Err FrameTooLarge, payload ++ [x09]).
Proof.
  destruct oversized_payload_exists as [payload Hp]. exists payload.
  exact (@oversized_message_rejected (demo_payload_rmp payload) Ping payload [x09] eq_refl Hp).
Defined.

Lemma terminal_frames_routed_witness :
  vsock_to_pty_loop 4 (fun sid => if sid =? 9 then None else Some (100 + sid))
    (concat (map (fun '(sid, data) => encode_terminal_frame sid data)
               [(0, [x61; x62]); (9, [x63]); (3, [])]))
  = [(100, [x61; x62])].
Proof.
  apply (terminal_frames_routed (fun sid => if sid =? 9 then None else Some (100 + sid))
           [(0, [x61; x62]); (9, [x63]); (3, [])] 4); [simpl; lia|].
  repeat constructor; simpl; unfold in_uN; lia.
Defined.

Lemma accepted_path_never_escapes_witness :
  exists tail, resolve_path ["home"; "ai"] "a/./b" =
               (if starts_with "a/./b" "/" then [] else ["home"; "ai"]) ++ tail.
Proof. apply accepted_path_never_escapes. vm_compute. reflexivity. Defined.

Example env_key_examples :
  map validate_env_key ["OPENAI_API_KEY"; "LD_FOO"; "A=B"; "BASH_FUNC_x"; "IFS"; ""] =
  [Ok tt; Err (EnvKeyBlocked "LD_FOO"); Err (EnvKeyHasEquals "A=B");
   Err (EnvKeyBlocked "BASH_FUNC_x"); Err (EnvKeyBlocked "IFS"); Err EnvKeyEmpty].
Proof. vm_compute. reflexivity. Qed.
