(* ===== verification/Transport.v ===== *)
(** The transport of the guest's programs: crates/clawcage-agent/src/transport.rs.

    The descriptors a process has open are a set; what the kernel answers to the calls of
    one attempt is an [Attempt], and to each read or write an [Io]. The loops over partial
    reads and writes implement the whole reads and writes of Proto ([read_exact_fd_exact],
    [write_all_fd_whole]), a failed attempt leaves no descriptor open ([connect_no_leak]), and
    the waits between attempts double up to two seconds ([connect_retry_waits]). *)

From Stdlib Require Import ZArith Lia Strings.Byte Ascii.
From stdpp Require Import base numbers list gmap sets strings.
From S2P Require Import Prelude RustStr Proto.

Definition VSOCK_HOST_CID : Z := 2.
Definition AF_VSOCK : Z := 40.

Record SockaddrVm := { svm_family : Z; svm_reserved1 : Z; svm_port : Z; svm_cid : Z; svm_flags : Z; svm_zero : list Z }.

Inductive TransportMode := Vsock (host_cid : Z) | Tcp (host : string).

Definition TransportMode_parse (transport host : option string) : TransportMode :=
  if bool_decide (trim <$> transport = Some "tcp") then
    Tcp (default "127.0.0.1" (h ← trim <$> host; if is_empty h then None else Some h))
  else Vsock VSOCK_HOST_CID.

(** [env] is [std::env::var(..).ok()]. *)
Definition from_env (env : string -> option string) : TransportMode := TransportMode_parse (env "CLAWCAGE_TRANSPORT") (env "CLAWCAGE_HOST").

Definition label (m : TransportMode) : string :=
  match m with Vsock host_cid => "vsock(cid=" +:+ show_Z host_cid +:+ ")" | Tcp host => "tcp(" +:+ host +:+ ")" end.

(** ** Connecting *)

(** What the system calls of one attempt answer; a socket is negative when there is none. *)
Record Attempt := {
  at_socket : Z;
  at_connect : SockaddrVm -> option string;
  last_os_error : string;
  at_resolve : string -> Z -> result (list string) string;
  at_connect_timeout : string -> Z -> result Z string;
  at_nodelay : option string;
}.

Definition vsock_connect (a : Attempt) (cid port : Z) (fds : gset Z) : result Z string * gset Z :=
  let fd := at_socket a in
  if fd <? 0 then (Err (last_os_error a), fds)
  else
    let fds := {[fd]} ∪ fds in
    let addr := {| svm_family := AF_VSOCK; svm_reserved1 := 0; svm_port := port; svm_cid := cid; svm_flags := 0; svm_zero := [0; 0; 0] |} in
    match at_connect a addr with
    | Some err => (Err err, fds ∖ {[fd]})
    | None => (Ok fd, fds)
    end.

(** A stream that is not returned is closed. *)
Definition tcp_connect (a : Attempt) (host : string) (port : Z) (fds : gset Z) : result Z string * gset Z :=
  match at_resolve a host port with
  | Err e => (Err e, fds)
  | Ok [] => (Err ("no address resolved for " +:+ host +:+ ":" +:+ show_Z port), fds)
  | Ok (addr :: _) =>
      match at_connect_timeout a addr 5 with
      | Err e => (Err e, fds)
      | Ok fd => match at_nodelay a with Some e => (Err e, ({[fd]} ∪ fds) ∖ {[fd]}) | None => (Ok fd, {[fd]} ∪ fds) end
      end
  end.

Definition connect (a : Attempt) (mode : TransportMode) (port : Z) (fds : gset Z) : result Z string * gset Z :=
  match mode with
  | Vsock host_cid => vsock_connect a host_cid port fds
  | Tcp host => tcp_connect a host (as_uN 16 port) fds
  end.

(** The attempts until one succeeds, and the milliseconds slept; no descriptor while it has
    not. *)
Fixpoint connect_retry_from (delay_ms : Z) (attempts : list Attempt) (mode : TransportMode) (port : Z) (fds : gset Z) : option Z * list Z * gset Z :=
  match attempts with
  | [] => (None, [], fds)
  | a :: attempts =>
      match connect a mode port fds with
      | (Ok fd, fds) => (Some fd, [], fds)
      | (Err _, fds) =>
          let '(r, waits, fds) := connect_retry_from (Z.min (delay_ms * 2) 2000) attempts mode port fds in
          (r, delay_ms :: waits, fds)
      end
  end.

Definition connect_retry (attempts : list Attempt) (mode : TransportMode) (port : Z) (fds : gset Z) : option Z * list Z * gset Z :=
  connect_retry_from 100 attempts mode port fds.

Definition vsock_connect_retry (attempts : list Attempt) (cid port : Z) (fds : gset Z) : option Z * list Z * gset Z :=
  connect_retry attempts (Vsock cid) port fds.

(** ** Reading and writing *)

(** One call: how much it may move at once, interrupted, or failed. *)
Inductive Io := Moved (n : nat) | Interrupted | Failed (e : string).

(** [stream] is what will arrive before its end. A read of a stream that has bytes moves at
    least one; one that is waited for is [None]. *)
Fixpoint read_exact_fd (calls : list Io) (pos : list byte) (len : nat) (stream : list byte) : option (result (list byte) string * list byte) :=
  match len with
  | O => Some (Ok pos, stream)
  | S _ =>
      match calls with
      | [] => None
      | Interrupted :: calls => read_exact_fd calls pos len stream
      | Failed e :: _ => Some (Err e, stream)
      | Moved k :: calls =>
          match stream with
          | [] => Some (Err "unexpected EOF", [])
          | _ => let n := max 1 (min k len) in read_exact_fd calls (pos ++ take n stream) (len - length (take n stream)) (drop n stream)
          end
      end
  end.

(** What is written, and how it ends. *)
Fixpoint write_all_fd (calls : list Io) (data : list byte) : list byte * option (result unit string) :=
  match data with
  | [] => ([], Some (Ok tt))
  | _ =>
      match calls with
      | [] => ([], None)
      | Interrupted :: calls => write_all_fd calls data
      | Failed e :: _ => ([], Some (Err e))
      | Moved n :: calls => let '(written, r) := write_all_fd calls (drop n data) in (take n data ++ written, r)
      end
  end.

(** ** Properties *)

(** A program uses TCP only when it is told so, and never an empty host. *)
Theorem transport_mode (transport host : option string) :
  match TransportMode_parse transport host with
  | Tcp h => trim <$> transport = Some "tcp" /\ h <> "" /\ (h = "127.0.0.1" \/ trim <$> host = Some h)
  | Vsock cid => trim <$> transport <> Some "tcp" /\ cid = VSOCK_HOST_CID
  end.
Proof.
  unfold TransportMode_parse. case_bool_decide as Ht; [|done]. split; [done|]. destruct (trim <$> host) as [h|] eqn:Hh; cbn; [|by split; [|left]].
  destruct (is_empty h) eqn:He; cbn; [by split; [|left]|]. split; [by intros ->|by right].
Qed.

(** A failed attempt leaves the open descriptors as they were; a successful one adds the one
    it returns. *)
Lemma connect_no_leak a mode port fds r fds' : (forall fd, at_socket a = fd \/ (exists addr t, at_connect_timeout a addr t = Ok fd) -> fd ∉ fds) ->
  connect a mode port fds = (r, fds') -> fds' = match r with Ok fd => {[fd]} ∪ fds | Err _ => fds end.
Proof.
  intros Hnew. assert (forall fd, fd ∉ fds -> ({[fd]} ∪ fds) ∖ {[fd]} = fds) as Hback by set_solver. destruct mode as [cid|host]; cbn [connect].
  - unfold vsock_connect. destruct (at_socket a <? 0); [by intros [= <- <-]|]. destruct (at_connect a _); intros [= <- <-]; [|done]. apply Hback, Hnew. by left.
  - unfold tcp_connect. destruct (at_resolve a host _) as [[|addr addrs]|]; [by intros [= <- <-]| |by intros [= <- <-]].
    destruct (at_connect_timeout a addr 5) as [fd|] eqn:Hfd; [|by intros [= <- <-]]. destruct (at_nodelay a); intros [= <- <-]; [|done]. apply Hback, Hnew. right. by exists addr, 5.
Qed.

Definition backoff (n : nat) : Z := Z.min (100 * 2 ^ Z.of_nat n) 2000.

Lemma backoff_S n : Z.min (backoff n * 2) 2000 = backoff (S n).
Proof. unfold backoff. rewrite Nat2Z.inj_succ, Z.pow_succ_r by lia. lia. Qed.

(** While attempts fail the program waits, 100 milliseconds first and twice as long each
    time up to two seconds; at the first that succeeds it has that descriptor, and no other
    that it did not have. *)
Theorem connect_retry_waits (bad rest : list Attempt) (good : Attempt) (mode : TransportMode) (port fd : Z) (fds : gset Z)
    (Hbad : Forall (fun a => exists e, connect a mode port fds = (Err e, fds)) bad) (Hgood : connect good mode port fds = (Ok fd, {[fd]} ∪ fds)) :
  connect_retry (bad ++ good :: rest) mode port fds = (Some fd, map backoff (seq 0 (length bad)), {[fd]} ∪ fds).
Proof.
  unfold connect_retry. change 100 with (backoff 0). generalize 0%nat as n. induction Hbad as [|a bad [e Ha] Hbad IH]; intros n; cbn [app connect_retry_from]; [by rewrite Hgood|].
  rewrite Ha, backoff_S, IH. done.
Qed.

(** Calls that do not fail, of which [n] move something. *)
Definition enough (n : nat) (calls : list Io) : Prop :=
  Forall (fun c => match c with Failed _ => False | Moved k => (0 < k)%nat | Interrupted => True end) calls /\
  (n <= length (List.filter (fun c => match c with Moved _ => true | _ => false end) calls))%nat.

Lemma read_exact_fd_go calls : forall pos len stream, enough (S len) calls ->
  read_exact_fd calls pos len stream =
    Some (if (len <=? length stream)%nat then (Ok (pos ++ take len stream), drop len stream) else (Err "unexpected EOF", [])).
Proof.
  induction calls as [|c calls IH]; intros pos len stream [Hok Hn]; [cbn in Hn; lia|]. apply Forall_cons in Hok as [Hc Hok].
  destruct len as [|len]; [cbn [read_exact_fd]; destruct stream; cbn; by rewrite app_nil_r|]. destruct c as [k| |e]; [| |done]; cbn [read_exact_fd].
  - cbn [List.filter length] in Hn. destruct stream as [|b stream]; [done|]. set (n := max 1 (min k (S len))). set (s := b :: stream).
    assert (1 <= n <= S len)%nat as Hnn by lia. assert (1 <= length (take n s) <= n)%nat as Hl by (rewrite length_take; unfold s; cbn [length]; lia).
    rewrite IH by (split; [done|lia]). f_equal. rewrite length_take in *. rewrite length_drop. unfold s in *. cbn [length] in *.
    destruct (Nat.leb_spec (S len) (S (length stream))) as [Hle|Hle].
    + rewrite (proj2 (Nat.leb_le _ _)) by lia. rewrite <- app_assoc, drop_drop. replace (n `min` S (length stream))%nat with n by lia.
      replace (n + (S len - n))%nat with (S len) by lia. rewrite take_take_drop. by replace (n + (S len - n))%nat with (S len) by lia.
    + by rewrite (proj2 (Nat.leb_gt _ _)) by lia.
  - apply IH. by split.
Qed.

(** Whatever way a read is cut into pieces and interrupted, its outcome is the whole read of
    Proto. *)
Theorem read_exact_fd_exact (calls : list Io) (len : nat) (stream : list byte) (Hcalls : enough (S len) calls) :
  read_exact_fd calls [] len stream =
    Some (match read_exact (Z.of_nat len) stream with Ok (a, rest) => (Ok a, rest) | Err _ => (Err "unexpected EOF", []) end).
Proof.
  rewrite read_exact_fd_go by done. unfold read_exact. rewrite Nat2Z.id.
  destruct (Nat.leb_spec len (length stream)), (Z.leb_spec (Z.of_nat len) (Z.of_nat (length stream))); try lia; done.
Qed.

(** What a write leaves behind is a prefix of the data, all of it when it succeeds, which it
    does once enough calls move something. *)
Theorem write_all_fd_whole (calls : list Io) (data : list byte) :
  let '(written, r) := write_all_fd calls data in
  written `prefix_of` data /\ (r = Some (Ok tt) -> written = data) /\ (enough (length data) calls -> r = Some (Ok tt)).
Proof.
  revert data. induction calls as [|c calls IH]; intros data; (destruct data as [|b data]; [by cbn|]).
  - cbn. split; [apply prefix_nil|]. split; [done|]. intros [_ Hn]. cbn in Hn. lia.
  - destruct c as [n| |e]; cbn [write_all_fd].
    + specialize (IH (drop n (b :: data))). destruct (write_all_fd calls (drop n (b :: data))) as [w r]. destruct IH as (Hp & Hw & He).
      rewrite <- (take_drop n (b :: data)) at 2 4. split; [by apply prefix_app|]. split; [by intros Hr; rewrite Hw|]. intros [Hf Hn]. apply Forall_cons in Hf as [Hk Hf].
      apply He. split; [done|]. rewrite length_drop. cbn [List.filter length] in *. lia.
    + specialize (IH (b :: data)). destruct (write_all_fd calls (b :: data)) as [w r]. destruct IH as (Hp & Hw & He). split; [done|]. split; [done|].
      intros [Hf Hn]. apply Forall_cons in Hf as [_ Hf]. by apply He.
    + split; [apply prefix_nil|]. split; [done|]. intros [Hf _]. apply Forall_cons in Hf as [[] _].
Qed.

(** ** A guest *)

Module Demo.

Definition refused : Attempt := {| at_socket := 4; at_connect := fun _ => Some "refused"; last_os_error := ""; at_resolve := fun _ _ => Err ""; at_connect_timeout := fun _ _ => Err ""; at_nodelay := None |}.
Definition accepted : Attempt := {| at_socket := 4; at_connect := fun _ => None; last_os_error := ""; at_resolve := fun _ _ => Err ""; at_connect_timeout := fun _ _ => Err ""; at_nodelay := None |}.

(** The port of a TCP connection is its low sixteen bits. *)
Example port_truncated : connect {| at_socket := 0; at_connect := fun _ => None; last_os_error := ""; at_resolve := fun h p => Ok [h +:+ ":" +:+ show_Z p];
    at_connect_timeout := fun a _ => if bool_decide (a = "h:80") then Ok 5 else Err a; at_nodelay := None |} (Tcp "h") 65616 ∅ = (Ok 5, {[5]}).
Proof. vm_compute. reflexivity. Qed.

Example parsed : TransportMode_parse (Some " tcp ") (Some " ") = Tcp "127.0.0.1" /\ TransportMode_parse (Some "udp") None = Vsock 2.
Proof. vm_compute. done. Qed.

Example read_in_pieces : read_exact_fd [Moved 1; Interrupted; Moved 9; Moved 9] [] 3 [x01; x02; x03; x04] = Some (Ok [x01; x02; x03], [x04]).
Proof. vm_compute. reflexivity. Qed.

(** A write that moves nothing is repeated, for ever if it never does. *)
Example write_of_nothing n : write_all_fd (repeat (Moved 0) n) [x01] = ([], None).
Proof. induction n as [|n IH]; [done|]. cbn [repeat write_all_fd drop take]. by rewrite IH. Qed.

End Demo.

Lemma connect_retry_waits_witness : connect_retry (repeat Demo.refused 7 ++ [Demo.accepted]) (Vsock 2) 5005 ∅ = (Some 4, [100; 200; 400; 800; 1600; 2000; 2000], {[4]}).
Proof.
  refine (connect_retry_waits (repeat Demo.refused 7) [] Demo.accepted (Vsock 2) 5005 4 ∅ _ eq_refl). cbn. repeat constructor; by exists "refused".
Defined.

Lemma read_exact_fd_exact_witness : read_exact_fd [Moved 1; Interrupted; Moved 1; Moved 1] [] 2 [x01; x02; x03] = Some (Ok [x01; x02], [x03]).
Proof. apply (read_exact_fd_exact [Moved 1; Interrupted; Moved 1; Moved 1] 2 [x01; x02; x03]). split; [repeat constructor; lia|cbn; lia]. Defined.
