(* ===== verification/HostState.v ===== *)
(** The host-side VM lifecycle: crates/clawcage-core/src/host_state.rs.

    The generic [StateMachine] with its recorded history, the lifecycle states
    and their allowed transitions, and the per-state message filters.  Time is
    the argument [now] of each transition (an [Instant] in nanoseconds). *)

From Stdlib Require Import ZArith Lia.
From stdpp Require Import base numbers list strings.
From S2P Require Import Prelude RustStr Proto.

(** ** States *)

Inductive HostState :=
| Created | Booting | VsockConnected | Handshaking | Running | ShuttingDown | Stopped | Error.

#[export] Instance HostState_eq_dec : EqDecision HostState.
Proof. solve_decision. Defined.

Definition valid_transitions (s : HostState) : list HostState :=
  match s with
  | Created => [Booting; Error]
  | Booting => [VsockConnected; Error; Stopped]
  | VsockConnected => [Handshaking; Error; Stopped]
  | Handshaking => [Running; Error; Stopped]
  | Running => [ShuttingDown; Error; Stopped]
  | ShuttingDown => [Stopped; Error]
  | Stopped => []
  | Error => [Stopped]
  end.

(** ** The generic machine *)

Record Transition (S : Type) := {
  tr_from : S;
  tr_to : S;
  tr_trigger : string;
  tr_duration_in_from : Z;
}.
Arguments tr_from {S}. Arguments tr_to {S}. Arguments tr_trigger {S}.
Arguments tr_duration_in_from {S}.

Record StateMachine (S : Type) := {
  current : S;
  entered_at : Z;
  history : list (Transition S);
  validate_fn : S -> list S;
}.
Arguments current {S}. Arguments entered_at {S}. Arguments history {S}. Arguments validate_fn {S}.

Section StateMachine.
Context {S : Type} `{EqDecision S}.

Definition StateMachine_new (initial : S) (validate : S -> list S) (now : Z) : StateMachine S :=
  {| current := initial; entered_at := now; history := []; validate_fn := validate |}.

(** The error carries the refused transition; on an error nothing changes. *)
Inductive TransitionError := InvalidTransition (from to : S) (trigger : string).

Definition transition (m : StateMachine S) (to : S) (trigger : string) (now : Z)
  : result (Transition S) TransitionError * StateMachine S :=
  let valid := validate_fn m (current m) in
  if negb (bool_decide (to ∈ valid))
  then (Err (InvalidTransition (current m) to trigger), m)
  else
    let duration := saturating_sub now (entered_at m) in
    let t := {| tr_from := current m; tr_to := to; tr_trigger := trigger;
                tr_duration_in_from := duration |} in
    (Ok t, {| current := to; entered_at := now; history := history m ++ [t];
              validate_fn := validate_fn m |}).

Definition state (m : StateMachine S) : S := current m.
Definition elapsed (m : StateMachine S) (now : Z) : Z := saturating_sub now (entered_at m).

(** A history that leads from [from] to [to] by allowed transitions. *)
Fixpoint chain (valid : S -> list S) (from : S) (h : list (Transition S)) (to : S) : Prop :=
  match h with
  | [] => from = to
  | t :: h => tr_from t = from /\ tr_to t ∈ valid from /\ 0 <= tr_duration_in_from t /\
              chain valid (tr_to t) h to
  end.

(** The machines a sequence of [transition] calls, failed ones included, can
    produce from [m]. *)
Inductive runs_to (m : StateMachine S) : StateMachine S -> Prop :=
| runs_refl : runs_to m m
| runs_step m' to trigger now :
    runs_to m m' -> runs_to m (transition m' to trigger now).2.

Lemma chain_snoc valid from h mid t :
  chain valid from h mid -> tr_from t = mid -> tr_to t ∈ valid mid -> 0 <= tr_duration_in_from t ->
  chain valid from (h ++ [t]) (tr_to t).
Proof.
  revert from. induction h as [|u h IH]; intros from; simpl.
  - intros -> ? ? ?. done.
  - intros (? & ? & ? & ?) ? ? ?. repeat split; auto.
Qed.

Lemma chain_app valid from h1 h2 to :
  chain valid from (h1 ++ h2) to -> exists mid, chain valid from h1 mid /\ chain valid mid h2 to.
Proof.
  revert from. induction h1 as [|u h IH]; intros from; simpl; [eauto|].
  intros (? & ? & ? & [mid [? ?]]%IH). exists mid. auto.
Qed.

Lemma transition_cases m to trigger now :
  (to ∉ validate_fn m (current m) /\
   transition m to trigger now = (Err (InvalidTransition (current m) to trigger), m)) \/
  (to ∈ validate_fn m (current m) /\
   exists t, tr_from t = current m /\ tr_to t = to /\ tr_trigger t = trigger /\
             0 <= tr_duration_in_from t /\
   transition m to trigger now =
     (Ok t, {| current := to; entered_at := now; history := history m ++ [t];
               validate_fn := validate_fn m |})).
Proof.
  unfold transition. case_bool_decide; simpl; [right|left]; split; auto.
  eexists. repeat split; try done. simpl. unfold saturating_sub. lia.
Qed.

Lemma runs_to_validate_fn m m' : runs_to m m' -> validate_fn m' = validate_fn m.
Proof.
  induction 1 as [|m' to trg now H IH]; [done|].
  destruct (transition_cases m' to trg now) as [[_ ->]|(_ & t & _ & _ & _ & _ & ->)]; done.
Qed.

(** The history of any run is a chain of allowed transitions ending in the
    current state. *)
Lemma runs_to_chain m m' :
  history m = [] -> runs_to m m' ->
  chain (validate_fn m) (current m) (history m') (current m').
Proof.
  intros Hm. induction 1 as [|m' to trg now H IH]; [by rewrite Hm|].
  destruct (transition_cases m' to trg now) as [[_ ->]|(Hin & t & Hf & <- & _ & Hd & ->)];
    [done|]. simpl.
  rewrite (runs_to_validate_fn _ _ H) in Hin. by apply (chain_snoc _ _ _ (current m')).
Qed.

End StateMachine.

Arguments TransitionError : clear implicits.
#[export] Hint Resolve runs_to_chain : rust.

Definition new_host (now : Z) : StateMachine HostState :=
  StateMachine_new Created valid_transitions now.

(** A host machine some execution produces. *)
Definition host_reachable (m : StateMachine HostState) : Prop :=
  exists now, runs_to (new_host now) m.

(** ** Message filters *)

Inductive MsgError :=
| BootConfigNotHandshaking (got : HostState)
| SetEnvNotHandshaking (got : HostState)
| BootConfigDoneNotHandshaking (got : HostState)
| HostMsgNotRunning (msg : HostToGuest) (got : HostState)
| ReadyNotVsockConnected (got : HostState)
| BootReadyNotHandshaking (got : HostState)
| GuestMsgNotRunning (msg : GuestToHost) (got : HostState).

Definition validate_host_msg (msg : HostToGuest) (st : HostState) : result unit MsgError :=
  match msg, st with
  | BootConfig _, Handshaking => Ok tt
  | BootConfig _, _ => Err (BootConfigNotHandshaking st)
  | SetEnv _ _, Handshaking => Ok tt
  | SetEnv _ _, _ => Err (SetEnvNotHandshaking st)
  | BootConfigDone, Handshaking => Ok tt
  | BootConfigDone, _ => Err (BootConfigDoneNotHandshaking st)
  | FileWrite _ _ _, Handshaking => Ok tt
  | Shutdown, _ => Ok tt
  | _, Running => Ok tt
  | _, _ => Err (HostMsgNotRunning msg st)
  end.

Definition validate_guest_msg (msg : GuestToHost) (st : HostState) : result unit MsgError :=
  match msg, st with
  | Ready _, VsockConnected => Ok tt
  | Ready _, _ => Err (ReadyNotVsockConnected st)
  | BootReady, Handshaking => Ok tt
  | BootReady, _ => Err (BootReadyNotHandshaking st)
  | _, Running => Ok tt
  | _, _ => Err (GuestMsgNotRunning msg st)
  end.

(** ** Lemmas on the lifecycle *)

(** How many transitions are still possible. *)
Definition remaining (s : HostState) : nat :=
  match s with
  | Created => 7 | Booting => 6 | VsockConnected => 5 | Handshaking => 4
  | Running => 3 | ShuttingDown => 2 | Error => 1 | Stopped => 0
  end%nat.

Lemma valid_transitions_decrease s s' :
  s' ∈ valid_transitions s -> (remaining s' < remaining s)%nat.
Proof. destruct s, s'; simpl; rewrite ?elem_of_cons, elem_of_nil; intuition (done || lia). Qed.

Lemma chain_remaining from h to :
  chain valid_transitions from h to -> (length h + remaining to <= remaining from)%nat.
Proof.
  revert from. induction h as [|t h IH]; intros from; simpl; [intros ->; lia|].
  intros (_ & Hv%valid_transitions_decrease & _ & Hc%IH). lia.
Qed.

(** The states before [Running], in order: the boot path to each of them. *)
Definition boot_path (s : HostState) : option (list HostState) :=
  match s with
  | Created => Some []
  | Booting => Some [Booting]
  | VsockConnected => Some [Booting; VsockConnected]
  | Handshaking => Some [Booting; VsockConnected; Handshaking]
  | Running => Some [Booting; VsockConnected; Handshaking; Running]
  | ShuttingDown => Some [Booting; VsockConnected; Handshaking; Running; ShuttingDown]
  | Stopped | Error => None
  end.

Lemma boot_path_step s s' p :
  s' ∈ valid_transitions s -> boot_path s' = Some p ->
  exists q, boot_path s = Some q /\ p = q ++ [s'].
Proof.
  destruct s, s'; simpl; rewrite ?elem_of_cons, elem_of_nil; intros Hv Hp; simplify_eq;
    try (exfalso; intuition done); eexists; split; reflexivity.
Qed.

Lemma chain_boot_path h s p :
  chain valid_transitions Created h s -> boot_path s = Some p -> map tr_to h = p.
Proof.
  revert s p. induction h as [|t h IH] using rev_ind; intros s p Hc Hp.
  - simpl in Hc. subst. by injection Hp.
  - apply chain_app in Hc as (mid & Hc & (<- & Hv & _ & <-)).
    destruct (boot_path_step _ _ _ Hv Hp) as (q & Hq & ->).
    rewrite map_app. simpl. f_equal. by eapply IH.
Qed.

Lemma host_reachable_chain m :
  host_reachable m -> chain valid_transitions Created (history m) (current m).
Proof. intros [now H]. apply (runs_to_chain (new_host now)); done. Qed.

(** ** Properties *)

(** C2: zero trust of the guest.  In every machine an execution can produce, a
    guest message other than [Ready] and [BootReady] is accepted only after the
    machine went, in this order and with nothing in between, through Booting,
    VsockConnected, Handshaking and Running; [Ready] and [BootReady] are accepted
    in exactly one state each, before the handshake is complete. *)
Theorem guest_message_accepted_after_boot (m : StateMachine HostState) (msg : GuestToHost) :
  host_reachable m ->
  validate_guest_msg msg (current m) = Ok tt ->
  map tr_to (history m) =
  match msg with
  | Ready _ => [Booting; VsockConnected]
  | BootReady => [Booting; VsockConnected; Handshaking]
  | _ => [Booting; VsockConnected; Handshaking; Running]
  end.
Proof.
  intros Hc%host_reachable_chain Hv.
  destruct msg, (current m) eqn:E; simplify_eq/=; by eapply chain_boot_path.
Qed.

(** The host's own filter is as strict: every message it lets out except
    [Shutdown] is sent in Handshaking or Running, so after the guest's connection
    and [Ready]; configuration and secrets ([BootConfig], [SetEnv],
    [BootConfigDone]) only in Handshaking. *)
Theorem host_message_accepted_states (m : StateMachine HostState) (msg : HostToGuest) :
  host_reachable m ->
  validate_host_msg msg (current m) = Ok tt ->
  msg = Shutdown \/
  (map tr_to (history m) = [Booting; VsockConnected; Handshaking] /\
   match msg with
   | BootConfig _ | SetEnv _ _ | BootConfigDone | FileWrite _ _ _ => True | _ => False
   end) \/
  (map tr_to (history m) = [Booting; VsockConnected; Handshaking; Running] /\
   match msg with BootConfig _ | SetEnv _ _ | BootConfigDone => False | _ => True end).
Proof.
  intros Hc%host_reachable_chain Hv.
  destruct msg, (current m) eqn:E; simplify_eq/=; auto;
    right; first [left; split; [by eapply chain_boot_path|done]
                 |right; split; [by eapply chain_boot_path|done]].
Qed.

(** the lifecycle terminates: a machine records at most seven transitions,
    the recorded history is a chain of allowed transitions from [Created] to the
    current state, and from every state but [Stopped] some allowed transition
    sequence reaches [Stopped], from which no transition succeeds. *)
Theorem lifecycle_terminates (m : StateMachine HostState) :
  host_reachable m ->
  chain valid_transitions Created (history m) (current m) /\
  (length (history m) + remaining (current m) <= 7)%nat /\
  (exists m', runs_to m m' /\ current m' = Stopped) /\
  (forall m' to trigger now, runs_to m m' -> current m' = Stopped ->
     transition m' to trigger now = (Err (InvalidTransition Stopped to trigger), m')).
Proof.
  intros Hr. pose proof (host_reachable_chain m Hr) as Hc.
  assert (validate_fn m = valid_transitions) as Hvf.
  { destruct Hr as [now H]. by rewrite (runs_to_validate_fn _ _ H). }
  split; [done|]. split; [exact (chain_remaining _ _ _ Hc)|]. split.
  - assert (forall s, s <> Stopped -> Error ∈ valid_transitions s \/ Stopped ∈ valid_transitions s)
      as Hex by (intros [] ?; simpl; rewrite ?elem_of_cons; (tauto || done)).
    assert (forall m', validate_fn m' = valid_transitions -> Stopped ∈ valid_transitions (current m') ->
              current (transition m' Stopped "stop" 0).2 = Stopped) as Hstop.
    { intros m' Hm' Hin. destruct (transition_cases m' Stopped "stop" 0)
        as [[Hn _]|(_ & t & _ & _ & _ & _ & ->)]; [by rewrite Hm' in Hn|done]. }
    destruct (decide (current m = Stopped)); [exists m; split; [constructor|done]|].
    destruct (Hex (current m)) as [He|Hs]; [done| |].
    + destruct (transition_cases m Error "fail" 0) as [[Hn _]|(_ & t & _ & _ & _ & _ & Ht)];
        [by rewrite Hvf in Hn|].
      exists (transition (transition m Error "fail" 0).2 Stopped "stop" 0).2.
      split; [do 2 constructor; constructor|]. rewrite Ht. apply Hstop; [done|]. simpl. left.
    + exists (transition m Stopped "stop" 0).2. split; [do 2 constructor|]. by apply Hstop.
  - intros m' to trg now Hm' Hs.
    destruct (transition_cases m' to trg now) as [[_ ->]|(Hin & _)]; [by rewrite Hs|].
    rewrite (runs_to_validate_fn _ _ Hm'), Hvf, Hs in Hin. by apply not_elem_of_nil in Hin.
Qed.

(** ** Witnesses *)

Definition demo_running : StateMachine HostState :=
  fold_left (fun m to => (transition m to "step" 5).2)
    [Booting; Running; VsockConnected; Handshaking; Running] (new_host 0).

Lemma demo_running_reachable : host_reachable demo_running.
Proof. exists 0. unfold demo_running. cbn [fold_left]. do 5 apply runs_step. constructor. Qed.

Lemma guest_message_accepted_after_boot_witness :
  map tr_to (history demo_running) = [Booting; VsockConnected; Handshaking; Running].
Proof.
  apply (guest_message_accepted_after_boot demo_running Pong demo_running_reachable).
  vm_compute. reflexivity.
Defined.

Lemma host_message_accepted_states_witness :
  Ping = Shutdown \/
  (map tr_to (history demo_running) = [Booting; VsockConnected; Handshaking] /\ False) \/
  (map tr_to (history demo_running) = [Booting; VsockConnected; Handshaking; Running] /\ True).
Proof.
  apply (host_message_accepted_states demo_running Ping demo_running_reachable).
  vm_compute. reflexivity.
Defined.

Lemma lifecycle_terminates_witness :
  chain valid_transitions Created (history demo_running) (current demo_running) /\
  (length (history demo_running) + remaining (current demo_running) <= 7)%nat /\
  (exists m', runs_to demo_running m' /\ current m' = Stopped) /\
  (forall m' to trigger now, runs_to demo_running m' -> current m' = Stopped ->
     transition m' to trigger now = (Err (InvalidTransition Stopped to trigger), m')).
Proof. exact (lifecycle_terminates demo_running demo_running_reachable). Defined.
