(* ===== verification/DomainPolicy.v ===== *)
(** The domain policy engine: crates/clawcage-core/src/net/domain_policy.rs.

    Patterns are exact domains or [*.suffix] wildcards; blocking takes priority
    over allowing, and a default action decides the rest. *)

From Stdlib Require Import ZArith Lia.
From stdpp Require Import base numbers list strings.
From S2P Require Import Prelude RustStr.

Inductive Action := Allow | Deny.

#[export] Instance Action_eq_dec : EqDecision Action.
Proof. solve_decision. Defined.

Record DomainPattern := { suffix : string; is_wildcard : bool }.

Record DomainPolicy := {
  allowed : list DomainPattern;
  blocked : list DomainPattern;
  default_action : Action;
}.

Section DomainPolicy.
Context `{UnicodeCase}.

(** ** Patterns *)

Definition DomainPattern_new (pattern : string) : DomainPattern :=
  let pattern := to_lowercase pattern in
  match strip_prefix "*." pattern with
  | Some suffix => {| suffix := suffix; is_wildcard := true |}
  | None => {| suffix := pattern; is_wildcard := false |}
  end.

Definition DomainPattern_matches (p : DomainPattern) (domain : string) : bool :=
  if is_wildcard p then ends_with domain ("." +:+ suffix p)
  else bool_decide (domain = suffix p).

(** ** Policies *)

Definition DomainPolicy_new (allow_patterns block_patterns : list string)
    (default : Action) : DomainPolicy :=
  {| allowed := map DomainPattern_new allow_patterns;
     blocked := map DomainPattern_new block_patterns;
     default_action := default |}.

Definition default_allow_list : list string :=
  ["github.com"; "*.github.com"; "*.githubusercontent.com"; "registry.npmjs.org";
   "*.npmjs.org"; "pypi.org"; "files.pythonhosted.org"; "crates.io"; "static.crates.io";
   "deb.debian.org"; "security.debian.org"; "elie.net"; "*.elie.net"; "*.googleapis.com"].

Definition default_block_list : list string := ["api.anthropic.com"; "api.openai.com"].

Definition DomainPolicy_default_dev : DomainPolicy :=
  DomainPolicy_new default_allow_list default_block_list Deny.

Definition DomainPolicy_evaluate (self : DomainPolicy) (domain : string) : Action * string :=
  let domain := to_lowercase domain in
  if is_empty domain then (Deny, "empty domain")
  else if existsb (fun p => DomainPattern_matches p domain) (blocked self)
  then (Deny, "domain in block-list")
  else if existsb (fun p => DomainPattern_matches p domain) (allowed self)
  then (Allow, "domain in allow-list")
  else match default_action self with
       | Allow => (Allow, "default allow")
       | Deny => (Deny, "domain not in allow-list")
       end.

Definition show_pattern (p : DomainPattern) : string :=
  if is_wildcard p then "*." +:+ suffix p else suffix p.

Definition allowed_patterns (self : DomainPolicy) : list string := map show_pattern (allowed self).
Definition blocked_patterns (self : DomainPolicy) : list string := map show_pattern (blocked self).
Definition allow_count (self : DomainPolicy) : nat := length (allowed self).
Definition block_count (self : DomainPolicy) : nat := length (blocked self).

(** ** Lemmas *)

(** What a pattern string means for a domain that is already lower case. *)
Definition pattern_covers (pattern domain : string) : Prop :=
  (exists sfx label, to_lowercase pattern = "*." +:+ sfx /\ domain = label +:+ "." +:+ sfx) \/
  ((forall sfx, to_lowercase pattern <> "*." +:+ sfx) /\ domain = to_lowercase pattern).

Lemma DomainPattern_new_matches pattern domain :
  DomainPattern_matches (DomainPattern_new pattern) domain = true <->
  pattern_covers pattern domain.
Proof.
  unfold DomainPattern_matches, DomainPattern_new, pattern_covers.
  destruct (strip_prefix "*." (to_lowercase pattern)) as [s|] eqn:E; simpl.
  - apply strip_prefix_Some in E. rewrite ends_with_spec. split.
    + intros [r ->]. left. eauto.
    + intros [(s' & r & Hs & ->)|[Hn _]].
      * rewrite E in Hs. apply sapp_inv_l in Hs as ->. eauto.
      * by apply Hn in E.
  - rewrite bool_decide_eq_true. split.
    + intros ->. right. split; [|done]. intros s Hs. apply strip_prefix_Some in Hs. congruence.
    + intros [(s & r & Hs & _)|[_ ->]]; [|done]. apply strip_prefix_Some in Hs. congruence.
Qed.

Lemma existsb_patterns ps domain :
  existsb (fun p => DomainPattern_matches p domain) (map DomainPattern_new ps) = true <->
  exists p, p ∈ ps /\ pattern_covers p domain.
Proof.
  rewrite existsb_elem. split.
  - intros (q & (p & -> & Hp)%list_elem_of_fmap & Hm). exists p.
    by rewrite <- DomainPattern_new_matches.
  - intros (p & Hp & Hc). exists (DomainPattern_new p). rewrite DomainPattern_new_matches.
    split; [|done]. by apply list_elem_of_fmap_2.
Qed.

Lemma DomainPolicy_block_first self domain :
  existsb (fun p => DomainPattern_matches p (to_lowercase domain)) (blocked self) = true ->
  (DomainPolicy_evaluate self domain).1 = Deny.
Proof. unfold DomainPolicy_evaluate. intros ->. by destruct (is_empty _). Qed.

Lemma show_pattern_new pattern : show_pattern (DomainPattern_new pattern) = to_lowercase pattern.
Proof.
  unfold show_pattern, DomainPattern_new.
  destruct (strip_prefix "*." (to_lowercase pattern)) as [s|] eqn:E; simpl; [|done].
  by apply strip_prefix_Some in E.
Qed.

Lemma show_pattern_new_roundtrip pattern :
  DomainPattern_new (show_pattern (DomainPattern_new pattern)) = DomainPattern_new pattern.
Proof. rewrite show_pattern_new. unfold DomainPattern_new. by rewrite to_lowercase_idemp. Qed.

(** ** Properties *)

(** The policy's decision in full.  The empty domain is denied; a domain a
    block pattern covers is denied whatever the allow list says; otherwise a
    domain an allow pattern covers is allowed, and any other gets the default.
    The decision does not depend on the case of the domain. *)
Theorem domain_decision (allow block : list string) (default : Action) (domain : string) :
  let d := to_lowercase domain in
  (DomainPolicy_evaluate (DomainPolicy_new allow block default) domain).1 = Allow <->
  d <> "" /\ (forall p, p ∈ block -> ~ pattern_covers p d) /\
  ((exists p, p ∈ allow /\ pattern_covers p d) \/ default = Allow).
Proof.
  intros d. unfold DomainPolicy_evaluate. fold d. cbn [blocked allowed default_action DomainPolicy_new].
  assert (forall ps, existsb (fun p => DomainPattern_matches p d) (map DomainPattern_new ps) = false
            -> forall p, p ∈ ps -> ~ pattern_covers p d) as Hno.
  { intros ps Hf p Hp Hc. apply not_true_iff_false in Hf. apply Hf, existsb_patterns. eauto. }
  pose proof (is_empty_true d) as He. destruct (is_empty d).
  { split; [done|]. intros (Hd & _). exfalso. by apply Hd, He. }
  assert (d <> "") as Hd by (intros Hd; discriminate (proj2 He Hd)). clear He.
  destruct (existsb _ (map DomainPattern_new block)) eqn:Eb.
  { apply existsb_patterns in Eb as (p & Hp & Hc). split; [done|].
    intros (_ & Hn & _). by apply Hn in Hc. }
  specialize (Hno block Eb).
  destruct (existsb _ (map DomainPattern_new allow)) eqn:Ea.
  - apply existsb_patterns in Ea. split; [by auto|done].
  - destruct default; [by split; auto|]. split; [done|].
    intros (_ & _ & [Hex|?]); [|done]. apply existsb_patterns in Hex. congruence.
Qed.

(** The pattern lists the policy shows can be fed back to it: rebuilding a
    policy from [allowed_patterns] and [blocked_patterns] gives the same policy. *)
Theorem shown_patterns_roundtrip (allow block : list string) (default : Action) :
  let p := DomainPolicy_new allow block default in
  DomainPolicy_new (allowed_patterns p) (blocked_patterns p) (default_action p) = p.
Proof.
  unfold DomainPolicy_new, allowed_patterns, blocked_patterns. simpl.
  rewrite !map_map. f_equal; apply map_ext; apply show_pattern_new_roundtrip.
Qed.

End DomainPolicy.

(** The hard-coded development policy on a few domains. *)
Example default_dev_examples :
  map (fun d => (DomainPolicy_evaluate DomainPolicy_default_dev d).1)
    ["GitHub.com"; "api.github.com"; "API.OPENAI.com"; "evil.com"; ""; "elie.net.evil.com"]
  = [Allow; Allow; Deny; Deny; Deny; Deny].
Proof. vm_compute. reflexivity. Qed.

(** A wildcard needs no label: [*.github.com] also covers the name
    [.github.com], whose label before the suffix is empty. *)
Lemma wildcard_covers_empty_label `{UnicodeCase} (sfx : string) :
  is_ascii_str ("*." +:+ sfx) = true ->
  DomainPattern_matches (DomainPattern_new ("*." +:+ sfx)) ("." +:+ smap ascii_lower_char sfx) = true.
Proof.
  intros Ha. unfold DomainPattern_new. rewrite to_lowercase_ascii by done.
  change (smap ascii_lower_char ("*." +:+ sfx)) with ("*." +:+ smap ascii_lower_char sfx).
  rewrite strip_prefix_app. unfold DomainPattern_matches. simpl is_wildcard. cbv iota.
  apply (ends_with_app "").
Qed.
