(* ===== verification/HttpPolicy.v ===== *)
(** The HTTP policy engine: crates/clawcage-core/src/net/http_policy.rs.

    A domain policy extended with method and path rules; the first matching
    rule of the domain decides, and no match falls back to the domain's own
    decision. *)

From Stdlib Require Import ZArith Lia.
From stdpp Require Import base numbers list strings.
From S2P Require Import Prelude RustStr DomainPolicy.

Record HttpRule := {
  hr_domain : string;
  hr_method : string;
  hr_path_pattern : string;
  hr_action : Action;
}.

Record HttpPolicyDecision := {
  hd_action : Action;
  hd_reason : string;
  hd_stage : string;
}.

Record HttpPolicy := {
  hp_domain_policy : DomainPolicy;
  hp_rules : list HttpRule;
  hp_log_bodies : bool;
  hp_max_body_capture : Z;
}.

Definition DEFAULT_MAX_BODY_CAPTURE : Z := 4096.

Section HttpPolicy.
Context `{UnicodeCase}.

Definition HttpPolicy_from_domain_policy (dp : DomainPolicy) : HttpPolicy :=
  {| hp_domain_policy := dp; hp_rules := []; hp_log_bodies := false;
     hp_max_body_capture := DEFAULT_MAX_BODY_CAPTURE |}.

Definition HttpPolicy_new (dp : DomainPolicy) (rules : list HttpRule) (log_bodies : bool)
    (max_body_capture : Z) : HttpPolicy :=
  {| hp_domain_policy := dp; hp_rules := rules; hp_log_bodies := log_bodies;
     hp_max_body_capture := max_body_capture |}.

Definition evaluate_domain (self : HttpPolicy) (domain : string) : HttpPolicyDecision :=
  let '(action, reason) := DomainPolicy_evaluate (hp_domain_policy self) domain in
  {| hd_action := action; hd_reason := reason; hd_stage := "domain" |}.

Definition matches_method (rule_method request_method : string) : bool :=
  bool_decide (rule_method = "*") || bool_decide (to_uppercase rule_method = request_method).

Definition matches_path (pattern path : string) : bool :=
  match strip_suffix "/*" pattern with
  | Some prefix => bool_decide (path = prefix) || starts_with path (prefix +:+ "/")
  | None => if bool_decide (pattern = "*") then true else bool_decide (pattern = path)
  end.

Definition show_action (a : Action) : string :=
  match a with Allow => "Allow" | Deny => "Deny" end.

Definition evaluate_request (self : HttpPolicy) (domain method path : string)
  : HttpPolicyDecision :=
  let domain_decision := evaluate_domain self domain in
  if bool_decide (hd_action domain_decision = Deny) then domain_decision
  else
    let domain_lower := to_lowercase domain in
    let domain_rules := List.filter (fun r => bool_decide (hr_domain r = domain_lower)) (hp_rules self) in
    match domain_rules with
    | [] => domain_decision
    | _ =>
        let method_upper := to_uppercase method in
        match list_find_first (fun r => matches_method (hr_method r) method_upper
                                        && matches_path (hr_path_pattern r) path) domain_rules with
        | Some rule =>
            {| hd_action := hr_action rule;
               hd_reason := "http-rule: " +:+ hr_method rule +:+ " " +:+ hr_path_pattern rule
                            +:+ " -> " +:+ show_action (hr_action rule);
               hd_stage := "http-rule" |}
        | None => domain_decision
        end
    end.

(** ** Lemmas *)

(** A rule that applies to a request. *)
Definition rule_applies (r : HttpRule) (domain method path : string) : bool :=
  bool_decide (hr_domain r = to_lowercase domain)
  && (matches_method (hr_method r) (to_uppercase method) && matches_path (hr_path_pattern r) path).

Lemma list_find_first_filter {A} (p q : A -> bool) l :
  list_find_first q (List.filter p l) = list_find_first (fun x => p x && q x) l.
Proof. induction l as [|x l IH]; simpl; [done|]. destruct (p x); simpl; [by rewrite IH|done]. Qed.

Lemma list_find_first_split {A} (p : A -> bool) l x :
  list_find_first p l = Some x ->
  exists l1 l2, l = l1 ++ x :: l2 /\ p x = true /\ Forall (fun y => p y = false) l1.
Proof.
  induction l as [|y l IH]; simpl; [done|]. destruct (p y) eqn:E.
  - intros [= ->]. by exists [], l.
  - intros (l1 & l2 & -> & ? & ?)%IH. exists (y :: l1), l2. auto.
Qed.

Lemma evaluate_request_alt self domain method path :
  evaluate_request self domain method path =
  if bool_decide (hd_action (evaluate_domain self domain) = Deny)
  then evaluate_domain self domain
  else match list_find_first (fun r => rule_applies r domain method path) (hp_rules self) with
       | Some rule =>
            {| hd_action := hr_action rule;
               hd_reason := "http-rule: " +:+ hr_method rule +:+ " " +:+ hr_path_pattern rule
                            +:+ " -> " +:+ show_action (hr_action rule);
               hd_stage := "http-rule" |}
       | None => evaluate_domain self domain
       end.
Proof.
  unfold evaluate_request, rule_applies. case_bool_decide; [done|].
  rewrite <- (list_find_first_filter (fun r => bool_decide (hr_domain r = to_lowercase domain))).
  by destruct (List.filter _ _).
Qed.

(** The paths a pattern covers. *)
Lemma matches_path_spec pattern path :
  matches_path pattern path = true <->
  (exists prefix, pattern = prefix +:+ "/*" /\
     (path = prefix \/ exists rest, path = prefix +:+ "/" +:+ rest)) \/
  ((forall prefix, pattern <> prefix +:+ "/*") /\ (pattern = "*" \/ pattern = path)).
Proof.
  unfold matches_path. destruct (strip_suffix "/*" pattern) as [prefix|] eqn:E.
  - apply strip_suffix_Some in E. rewrite orb_true_iff, bool_decide_eq_true, starts_with_spec.
    setoid_rewrite <- sapp_assoc. split; [eauto|].
    intros [(p & Hp & Hor)|[Hn _]]; [|by apply Hn in E].
    rewrite E in Hp. by apply sapp_inv_r in Hp as ->.
  - assert (forall prefix, pattern <> prefix +:+ "/*") as Hn.
    { intros prefix Hp. apply strip_suffix_Some in Hp. congruence. }
    case_bool_decide as Hs; [split; [intros _; right; split; [done|by left]|done]|].
    rewrite bool_decide_eq_true. split; [auto|].
    intros [(p & Hp & _)|[_ [?|?]]]; [by apply Hn in Hp|done|done].
Qed.

(** ** Properties *)

(** The decision on a request, declaratively.  A domain the domain policy
    denies is denied at stage "domain" whatever the rules say.  For an allowed
    domain, the first rule (in list order) for that domain whose method and path
    apply decides; when no rule applies the request is allowed. *)
Theorem request_decision (self : HttpPolicy) (domain method path : string) :
  let d := evaluate_request self domain method path in
  let applies r := rule_applies r domain method path = true in
  ((DomainPolicy_evaluate (hp_domain_policy self) domain).1 = Deny ->
     hd_action d = Deny /\ hd_stage d = "domain") /\
  ((DomainPolicy_evaluate (hp_domain_policy self) domain).1 = Allow ->
     (exists l1 r l2, hp_rules self = l1 ++ r :: l2 /\ applies r /\
        Forall (fun r' => ~ applies r') l1 /\
        hd_action d = hr_action r /\ hd_stage d = "http-rule") \/
     (Forall (fun r => ~ applies r) (hp_rules self) /\
        hd_action d = Allow /\ hd_stage d = "domain")).
Proof.
  intros d applies. unfold d. rewrite evaluate_request_alt. unfold evaluate_domain.
  destruct (DomainPolicy_evaluate (hp_domain_policy self) domain) as [[] reason]; simpl.
  - split; [done|]. intros _.
    destruct (list_find_first _ _) as [r|] eqn:E; [left|right]; simpl.
    + apply list_find_first_split in E as (l1 & l2 & ? & ? & Hl1). exists l1, r, l2.
      repeat split; auto. eapply Forall_impl; [exact Hl1|]. unfold applies. simpl. congruence.
    + rewrite list_find_first_None in E. repeat split; auto. apply Forall_forall.
      intros r Hr. unfold applies. rewrite E by done. done.
  - by split.
Qed.

End HttpPolicy.

Example evaluate_request_examples :
  let p := HttpPolicy_new (DomainPolicy_new ["api.example.com"; "*.github.com"] [] Deny)
             [{| hr_domain := "api.example.com"; hr_method := "post"; hr_path_pattern := "/admin/*";
                 hr_action := Deny |}] false 4096 in
  map (fun '(d, m, path) => hd_action (evaluate_request p d m path))
    [("API.example.com", "POST", "/admin/x"); ("api.example.com", "POST", "/admin");
     ("api.example.com", "POST", "/administrator"); ("api.example.com", "GET", "/admin/x");
     ("evil.com", "GET", "/")]
  = [Deny; Deny; Allow; Allow; Deny].
Proof. vm_compute. reflexivity. Qed.
