(* ===== verification/NetPolicy.v ===== *)
(** The read/write network policy: crates/clawcage-core/src/net/policy.rs.

    Ordered rules give each domain pattern read and write permission; the first
    match wins and a default applies when none does. *)

From Stdlib Require Import ZArith Lia.
From stdpp Require Import base numbers list strings.
From S2P Require Import Prelude RustStr.

Inductive DomainMatcher :=
| Exact (exact : string)
| Wildcard (suffix : string).

Record PolicyRule := {
  matcher : DomainMatcher;
  allow_read : bool;
  allow_write : bool;
}.

Record PolicyDecision := {
  pd_allowed : bool;
  matched_rule : string;
  pd_reason : string;
}.

Record NetworkPolicy := {
  rules : list PolicyRule;
  default_allow_read : bool;
  default_allow_write : bool;
  log_bodies : bool;
  max_body_capture : Z;
}.

Section NetPolicy.
Context `{UnicodeCase}.

Definition DomainMatcher_parse (pattern : string) : DomainMatcher :=
  let lower := to_lowercase pattern in
  match strip_prefix "*." lower with
  | Some suffix => Wildcard suffix
  | None => Exact lower
  end.

Definition DomainMatcher_matches (self : DomainMatcher) (domain : string) : bool :=
  let domain := to_lowercase domain in
  match self with
  | Exact exact => bool_decide (domain = exact)
  | Wildcard suffix => ends_with domain ("." +:+ suffix)
  end.

Definition pattern_str (self : DomainMatcher) : string :=
  match self with
  | Exact s => s
  | Wildcard s => "*." +:+ s
  end.

Definition NetworkPolicy_new (rules : list PolicyRule) (default_read default_write : bool)
  : NetworkPolicy :=
  {| rules := rules; default_allow_read := default_read; default_allow_write := default_write;
     log_bodies := true; max_body_capture := 4096 |}.

Definition rule (pattern : string) (read write : bool) : PolicyRule :=
  {| matcher := DomainMatcher_parse pattern; allow_read := read; allow_write := write |}.

Definition NetworkPolicy_default_dev : NetworkPolicy :=
  NetworkPolicy_new
    [rule "api.openai.com" false false; rule "api.anthropic.com" false false;
     rule "github.com" true true; rule "*.github.com" true true;
     rule "*.githubusercontent.com" true true;
     rule "registry.npmjs.org" true false; rule "*.npmjs.org" true false;
     rule "pypi.org" true false; rule "files.pythonhosted.org" true false;
     rule "crates.io" true false; rule "static.crates.io" true false;
     rule "deb.debian.org" true false; rule "security.debian.org" true false;
     rule "generativelanguage.googleapis.com" true true;
     rule "elie.net" true true; rule "*.elie.net" true true]
    true false.

Definition is_read_method (method : string) : bool :=
  bool_decide (to_uppercase method ∈ ["GET"; "HEAD"; "OPTIONS"]).

Definition NetworkPolicy_evaluate (self : NetworkPolicy) (domain method : string)
  : PolicyDecision :=
  let is_read := is_read_method method in
  let verb_class := if is_read then "read" else "write" in
  match list_find_first (fun r => DomainMatcher_matches (matcher r) domain) (rules self) with
  | Some rule =>
      let pattern := pattern_str (matcher rule) in
      let allowed := if is_read then allow_read rule else allow_write rule in
      let action := if allowed then "allowed" else "denied" in
      {| pd_allowed := allowed; matched_rule := pattern;
         pd_reason := verb_class +:+ " " +:+ action +:+ " by rule " +:+ pattern |}
  | None =>
      let allowed := if is_read then default_allow_read self else default_allow_write self in
      let action := if allowed then "allowed" else "denied" in
      {| pd_allowed := allowed; matched_rule := "default";
         pd_reason := verb_class +:+ " " +:+ action +:+ " by default policy" |}
  end.

Definition is_fully_blocked (self : NetworkPolicy) (domain : string) : option string :=
  match list_find_first (fun r => DomainMatcher_matches (matcher r) domain) (rules self) with
  | Some rule =>
      if negb (allow_read rule) && negb (allow_write rule)
      then Some (pattern_str (matcher rule)) else None
  | None =>
      if negb (default_allow_read self) && negb (default_allow_write self)
      then Some "default" else None
  end.

(** ** Lemmas *)

Lemma DomainMatcher_matches_lower m d :
  DomainMatcher_matches m (to_lowercase d) = DomainMatcher_matches m d.
Proof. unfold DomainMatcher_matches. by rewrite to_lowercase_idemp. Qed.

Lemma is_read_GET : is_read_method "GET" = true.
Proof. unfold is_read_method. rewrite to_uppercase_ascii by done. done. Qed.

Lemma is_read_POST : is_read_method "POST" = false.
Proof. unfold is_read_method. rewrite to_uppercase_ascii by done. done. Qed.

(** The permission pair in force for a domain: the first matching rule's, or the
    default. *)
Definition permissions (self : NetworkPolicy) (domain : string) : bool * bool * string :=
  match list_find_first (fun r => DomainMatcher_matches (matcher r) domain) (rules self) with
  | Some r => (allow_read r, allow_write r, pattern_str (matcher r))
  | None => (default_allow_read self, default_allow_write self, "default")
  end.

Lemma NetworkPolicy_evaluate_alt self domain method :
  let '(r, w, rule) := permissions self domain in
  pd_allowed (NetworkPolicy_evaluate self domain method) = (if is_read_method method then r else w) /\
  matched_rule (NetworkPolicy_evaluate self domain method) = rule.
Proof.
  unfold permissions, NetworkPolicy_evaluate.
  by destruct (list_find_first _ _); destruct (is_read_method method).
Qed.

(** ** Properties *)

(** the early rejection before the TLS handshake agrees with the per-request
    decision: [is_fully_blocked] names a rule exactly when every method is denied
    for the domain, and then every request is denied by the very rule it named. *)
Theorem fully_blocked_iff_all_denied (self : NetworkPolicy) (domain : string) :
  (forall rule, is_fully_blocked self domain = Some rule ->
     forall method, pd_allowed (NetworkPolicy_evaluate self domain method) = false /\
                    matched_rule (NetworkPolicy_evaluate self domain method) = rule) /\
  (is_fully_blocked self domain = None <->
     exists method, pd_allowed (NetworkPolicy_evaluate self domain method) = true).
Proof.
  pose proof (NetworkPolicy_evaluate_alt self domain) as Ha. unfold permissions in Ha.
  unfold is_fully_blocked.
  destruct (list_find_first _ _) as [r|].
  - split.
    + destruct (allow_read r) eqn:Er, (allow_write r) eqn:Ew; simpl; try done.
      intros ? [= <-] method. destruct (Ha method) as [-> ->]. by destruct (is_read_method method).
    + pose proof (proj1 (Ha "GET")) as Hg. pose proof (proj1 (Ha "POST")) as Hp.
      rewrite is_read_GET in Hg. rewrite is_read_POST in Hp.
      destruct (allow_read r), (allow_write r); simpl; split; try done; try (intros _; eauto; fail).
      intros [m Hm]. destruct (Ha m) as [Hm' _]. rewrite Hm in Hm'. by destruct (is_read_method m).
  - split.
    + destruct (default_allow_read self), (default_allow_write self); simpl; try done.
      intros ? [= <-] method. destruct (Ha method) as [-> ->]. by destruct (is_read_method method).
    + pose proof (proj1 (Ha "GET")) as Hg. pose proof (proj1 (Ha "POST")) as Hp.
      rewrite is_read_GET in Hg. rewrite is_read_POST in Hp.
      destruct (default_allow_read self), (default_allow_write self); simpl; split; try done;
        try (intros _; eauto; fail).
      intros [m Hm]. destruct (Ha m) as [Hm' _]. rewrite Hm in Hm'. by destruct (is_read_method m).
Qed.

End NetPolicy.

Example net_default_dev_examples :
  map (fun '(d, m) => pd_reason (NetworkPolicy_evaluate NetworkPolicy_default_dev d m))
    [("PyPI.org", "get"); ("pypi.org", "POST"); ("api.openai.com", "GET"); ("x.org", "HEAD")]
  = ["read allowed by rule pypi.org"; "write denied by rule pypi.org";
     "read denied by rule api.openai.com"; "read allowed by default policy"].
Proof. vm_compute. reflexivity. Qed.
