(* ===== verification/Sse.v ===== *)
(** The SSE wire-format parser: crates/clawcage-core/src/gateway/sse.rs.

    [feed] is the byte loop of the source, with its carriage-return flag; the
    reference definition splits the whole stream into lines first. *)

From Stdlib Require Import ZArith Lia Strings.Byte Ascii.
From stdpp Require Import base numbers list strings.
From S2P Require Import Prelude RustStr Utf8.

Record SseEvent := { event_type : option string; data : string }.

#[export] Instance SseEvent_eq_dec : EqDecision SseEvent.
Proof. solve_decision. Defined.

Record SseParser := {
  line_buf : list byte;
  current_event_type : option string;
  current_data : list string;
  last_was_cr : bool;
}.

Definition SseParser_new : SseParser :=
  {| line_buf := []; current_event_type := None; current_data := []; last_was_cr := false |}.

Definition LF : byte := x0a.
Definition CR : byte := x0d.
Definition COLON : byte := x3a.
Definition SPACE : byte := x20.

(** ** The parser *)

Definition dispatch_event (self : SseParser) : option SseEvent * SseParser :=
  match current_data self, current_event_type self with
  | [], None => (None, self)
  | _, _ =>
      let data := join (String "010" "") (current_data self) in
      let event_type := current_event_type self in
      let self := {| line_buf := line_buf self; current_event_type := None;
                     current_data := []; last_was_cr := last_was_cr self |} in
      if bool_decide (data = "[DONE]") then (None, self)
      else (Some {| event_type := event_type; data := data |}, self)
  end.

(** [line.iter().position(|&b| b == b':')] and the split around it. *)
Fixpoint split_field (line : list byte) : list byte * option (list byte) :=
  match line with
  | [] => ([], None)
  | b :: line => if bool_decide (b = COLON) then ([], Some line)
                 else let '(f, v) := split_field line in (b :: f, v)
  end.

Definition field_value (after : option (list byte)) : list byte :=
  match after with
  | Some (b :: rest) => if bool_decide (b = SPACE) then rest else b :: rest
  | Some [] | None => []
  end.

Definition process_line (self : SseParser) : option SseEvent * SseParser :=
  let line := line_buf self in
  let self := {| line_buf := []; current_event_type := current_event_type self;
                 current_data := current_data self; last_was_cr := last_was_cr self |} in
  match line with
  | [] => dispatch_event self
  | b :: _ =>
      if bool_decide (b = COLON) then (None, self)
      else
        let '(field, after) := split_field line in
        let value := field_value after in
        let field := string_of_bytes field in
        if bool_decide (field = "event") then
          (None, {| line_buf := line_buf self;
                    current_event_type := Some (from_utf8_lossy value);
                    current_data := current_data self; last_was_cr := last_was_cr self |})
        else if bool_decide (field = "data") then
          (None, {| line_buf := line_buf self; current_event_type := current_event_type self;
                    current_data := current_data self ++ [from_utf8_lossy value];
                    last_was_cr := last_was_cr self |})
        else (None, self)
  end.

Definition set_cr (self : SseParser) (cr : bool) : SseParser :=
  {| line_buf := line_buf self; current_event_type := current_event_type self;
     current_data := current_data self; last_was_cr := cr |}.

Definition push_byte (self : SseParser) (b : byte) : SseParser :=
  {| line_buf := line_buf self ++ [b]; current_event_type := current_event_type self;
     current_data := current_data self; last_was_cr := last_was_cr self |}.

(** One byte of the loop in [feed]. *)
Definition feed_byte (self : SseParser) (b : byte) : option SseEvent * SseParser :=
  let was_cr := last_was_cr self in
  let self := if was_cr then set_cr self false else self in
  if was_cr && bool_decide (b = LF) then (None, self)
  else if bool_decide (b = CR) then process_line (set_cr self true)
  else if bool_decide (b = LF) then process_line self
  else (None, push_byte self b).

Fixpoint feed (self : SseParser) (chunk : list byte) : list SseEvent * SseParser :=
  match chunk with
  | [] => ([], self)
  | b :: chunk =>
      let '(e, self) := feed_byte self b in
      let '(es, self) := feed self chunk in
      (match e with Some e => e :: es | None => es end, self)
  end.

Definition flush (self : SseParser) : option SseEvent * SseParser :=
  let self := match line_buf self with [] => self | _ => (process_line self).2 end in
  dispatch_event self.

(** ** Reference definition *)

(** The complete lines of a stream and the unfinished rest; CR LF, LF and a lone
    CR each end a line. *)
Fixpoint sse_lines (stream : list byte) (cur : list byte) : list (list byte) * list byte :=
  match stream with
  | [] => ([], cur)
  | b :: rest =>
      if bool_decide (b = CR) then
        match rest with
        | b' :: rest' =>
            if bool_decide (b' = LF)
            then let '(ls, tl) := sse_lines rest' [] in (cur :: ls, tl)
            else let '(ls, tl) := sse_lines rest [] in (cur :: ls, tl)
        | [] => ([cur], [])
        end
      else if bool_decide (b = LF)
      then let '(ls, tl) := sse_lines rest [] in (cur :: ls, tl)
      else sse_lines rest (cur ++ [b])
  end.

(** The event under construction: its type and its data lines. *)
Abbreviation pending := (option string * list string)%type.

Definition line_step (p : pending) (line : list byte) : option SseEvent * pending :=
  let '(ty, ds) := p in
  match line with
  | [] =>
      match ds, ty with
      | [], None => (None, p)
      | _, _ => let d := join (String "010" "") ds in
                (if bool_decide (d = "[DONE]") then None
                 else Some {| event_type := ty; data := d |}, (None, []))
      end
  | b :: _ =>
      if bool_decide (b = COLON) then (None, p)
      else let '(field, after) := split_field line in
           let v := from_utf8_lossy (field_value after) in
           if bool_decide (string_of_bytes field = "event") then (None, (Some v, ds))
           else if bool_decide (string_of_bytes field = "data") then (None, (ty, ds ++ [v]))
           else (None, p)
  end.

Fixpoint lines_step (p : pending) (lines : list (list byte)) : list SseEvent * pending :=
  match lines with
  | [] => ([], p)
  | l :: ls => let '(e, p) := line_step p l in
               let '(es, p) := lines_step p ls in
               (match e with Some e => e :: es | None => es end, p)
  end.

(** The reference parser: the events of a stream, the event under construction
    and the unfinished line. *)
Definition reference_feed (p : pending) (cur stream : list byte)
  : list SseEvent * pending * list byte :=
  let '(ls, tl) := sse_lines stream cur in
  let '(es, p) := lines_step p ls in (es, p, tl).

(** ** Lemmas *)

Definition pending_of (self : SseParser) : pending := (current_event_type self, current_data self).

(** What an observer sees of a parser run. *)
Definition observe (r : list SseEvent * SseParser) : list SseEvent * pending * list byte :=
  (r.1, pending_of r.2, line_buf r.2).

Definition cons_event {A B} (e : option SseEvent) (r : list SseEvent * A * B) : list SseEvent * A * B :=
  (match e with Some e => e :: r.1.1 | None => r.1.1 end, r.1.2, r.2).

Lemma process_line_eq self e ty ds :
  line_step (pending_of self) (line_buf self) = (e, (ty, ds)) ->
  process_line self = (e, {| line_buf := []; current_event_type := ty; current_data := ds;
                             last_was_cr := last_was_cr self |}).
Proof.
  destruct self as [buf ty0 ds0 cr]. unfold process_line, line_step, pending_of, dispatch_event.
  cbn [line_buf current_event_type current_data last_was_cr].
  destruct buf as [|b buf].
  - intros H. destruct ds0 as [|d ds0], ty0; simplify_eq/=; try done; by case_match.
  - intros H. crush_match_in H; by simplify_eq/=.
Qed.

Lemma feed_app self a b :
  feed self (a ++ b) =
  let '(es1, self1) := feed self a in
  let '(es2, self2) := feed self1 b in (es1 ++ es2, self2).
Proof.
  revert self. induction a as [|x a IH]; intros self; simpl.
  - by destruct (feed self b).
  - destruct (feed_byte self x) as [e self1]. rewrite IH.
    destruct (feed self1 a) as [es1 self2]. destruct (feed self2 b) as [es2 self3].
    by destruct e.
Qed.

Lemma observe_feed_cons self b rest e self' :
  feed_byte self b = (e, self') ->
  observe (feed self (b :: rest)) = cons_event e (observe (feed self' rest)).
Proof. simpl. intros ->. by destruct (feed self' rest). Qed.

(** After a carriage return, a line feed is swallowed. *)
Lemma feed_after_cr self b rest :
  last_was_cr self = true ->
  observe (feed self (b :: rest)) =
  if bool_decide (b = LF) then observe (feed (set_cr self false) rest)
  else observe (feed (set_cr self false) (b :: rest)).
Proof.
  intros Hcr. simpl. unfold feed_byte. rewrite Hcr. cbn [andb set_cr last_was_cr].
  destruct (bool_decide (b = LF)) eqn:E; [by destruct (feed _ rest)|done].
Qed.

Lemma reference_line p cur rest e p' :
  line_step p cur = (e, p') ->
  (let '(ls, tl) := (let '(ls, tl) := sse_lines rest [] in (cur :: ls, tl)) in
   let '(es, p) := lines_step p ls in (es, p, tl)) = cons_event e (reference_feed p' [] rest).
Proof.
  intros He. unfold reference_feed. destruct (sse_lines rest []) as [ls tl].
  cbn [lines_step]. rewrite He. by destruct (lines_step p' ls).
Qed.

Lemma reference_feed_cons p cur b rest :
  reference_feed p cur (b :: rest) =
  if bool_decide (b = CR) || bool_decide (b = LF) then
    let '(e, p') := line_step p cur in
    cons_event e
      (reference_feed p' []
         (match rest with
          | b' :: rest' => if bool_decide (b = CR) && bool_decide (b' = LF) then rest' else rest
          | [] => []
          end))
  else reference_feed p (cur ++ [b]) rest.
Proof.
  destruct (line_step p cur) as [e p'] eqn:El. unfold reference_feed at 1. cbn [sse_lines].
  destruct (bool_decide (b = CR)); cbn [orb andb].
  - destruct rest as [|b' rest']; [cbn [lines_step]; by rewrite El|].
    destruct (bool_decide (b' = LF)); exact (reference_line p cur _ e p' El).
  - destruct (bool_decide (b = LF)); [|done].
    destruct rest as [|b' rest']; [exact (reference_line p cur [] e p' El)|].
    exact (reference_line p cur (b' :: rest') e p' El).
Qed.

(** Running the byte loop agrees with splitting into lines and processing them. *)
Lemma feed_reference n : forall stream self,
  (length stream <= n)%nat -> last_was_cr self = false ->
  observe (feed self stream) = reference_feed (pending_of self) (line_buf self) stream.
Proof.
  induction n as [|n IH]; intros [|b rest] self Hn Hcr; simpl in Hn; try done; [lia|].
  rewrite reference_feed_cons.
  destruct (line_step (pending_of self) (line_buf self)) as [e [ty ds]] eqn:El.
  destruct (bool_decide (b = CR)) eqn:Ecr; cbn [orb andb].
  - erewrite observe_feed_cons;
      [|unfold feed_byte; rewrite Hcr, Ecr; apply (process_line_eq (set_cr self true)), El].
    f_equal. destruct rest as [|b' rest']; [done|]. simpl in Hn.
    rewrite feed_after_cr by done.
    destruct (bool_decide (b' = LF)); rewrite IH; (done || (simpl; lia)).
  - destruct (bool_decide (b = LF)) eqn:Elf.
    + erewrite observe_feed_cons;
        [|unfold feed_byte; rewrite Hcr, Ecr, Elf; apply process_line_eq, El].
      f_equal. rewrite IH; [by destruct rest|lia|done].
    + erewrite observe_feed_cons; [|unfold feed_byte; rewrite Hcr, Ecr, Elf; reflexivity].
      rewrite IH by (done || lia). by destruct (reference_feed _ _ rest) as [[]].
Qed.

(** ** Chunks *)

(** The response body arrives in chunks; each is fed in turn. *)
Definition feed_chunks (self : SseParser) (chunks : list (list byte)) : list SseEvent * SseParser :=
  fold_left (fun r chunk => let '(es, self) := feed r.2 chunk in (r.1 ++ es, self)) chunks ([], self).

Lemma feed_chunks_concat self chunks : feed_chunks self chunks = feed self (concat chunks).
Proof.
  unfold feed_chunks.
  assert (forall acc s, fold_left (fun r chunk => let '(es, s') := feed r.2 chunk in (r.1 ++ es, s'))
                          chunks (acc, s) = (acc ++ (feed s (concat chunks)).1, (feed s (concat chunks)).2))
    as Hgo.
  { induction chunks as [|c cs IH]; intros acc s; cbn [fold_left concat fst snd].
    - by rewrite app_nil_r.
    - rewrite feed_app. destruct (feed s c) as [es s']. rewrite IH.
      destruct (feed s' (concat cs)) as [es' s'']. by rewrite <- app_assoc. }
  rewrite Hgo. by destruct (feed self (concat chunks)).
Qed.

(** ** Rendered events *)

(** An event as a server writes it: its type and the lines of its data. *)
Record wire_event := { wire_type : option string; wire_lines : list string }.

Definition wire_text (e : wire_event) : list string :=
  (match wire_type e with Some ty => ["event: " +:+ ty] | None => [] end) ++
  (map (fun l => "data: " +:+ l) (wire_lines e) ++ [""]).

Definition on_wire (l : string) : list byte := bytes_of_string l ++ [LF].

Definition render (es : list wire_event) : list byte := concat (map on_wire (flat_map wire_text es)).

Definition no_eol (l : string) : Prop := (LF ∉ bytes_of_string l) /\ (CR ∉ bytes_of_string l).
#[export] Instance utf8_dec s : Decision (utf8 s).
Proof. unfold utf8. apply _. Defined.

#[export] Instance no_eol_dec l : Decision (no_eol l).
Proof. unfold no_eol. apply _. Defined.

Definition line_ok (l : string) : Prop := utf8 l /\ no_eol l.

Definition event_ok (e : wire_event) : Prop :=
  (forall ty, wire_type e = Some ty -> line_ok ty) /\ Forall line_ok (wire_lines e) /\
  wire_lines e <> [] /\ join (String "010" "") (wire_lines e) <> "[DONE]".

Definition event_of (e : wire_event) : SseEvent :=
  {| event_type := wire_type e; data := join (String "010" "") (wire_lines e) |}.

Lemma sse_lines_clean l rest cur :
  LF ∉ l -> CR ∉ l ->
  sse_lines (l ++ (LF :: rest)) cur =
  (let '(ls, tl) := sse_lines rest [] in ((cur ++ l) :: ls, tl)).
Proof.
  revert cur. induction l as [|b l IH]; intros cur Hlf Hcr.
  - cbn. rewrite app_nil_r. by destruct rest.
  - apply not_elem_of_cons in Hlf as [? ?], Hcr as [? ?]. cbn [app sse_lines].
    rewrite !bool_decide_false by done. rewrite IH by done. by rewrite <- app_assoc.
Qed.

Lemma sse_lines_rendered ls :
  Forall no_eol ls ->
  sse_lines (concat (map on_wire ls)) [] = (map bytes_of_string ls, []).
Proof.
  induction 1 as [|l ls [Hlf Hcr] H IH]; [done|]. cbn [map concat]. unfold on_wire at 1.
  rewrite <- app_assoc. cbn [app]. by rewrite sse_lines_clean, IH.
Qed.

Lemma line_step_event ty ds v :
  utf8 v -> line_step (ty, ds) (bytes_of_string ("event: " +:+ v)) = (None, (Some v, ds)).
Proof. intros Hv. unfold utf8 in Hv. rewrite bytes_of_string_app.
  cbn [bytes_of_string app]. lazy -[from_utf8_lossy bytes_of_string]. by rewrite Hv. Qed.

Lemma line_step_data ty ds v :
  utf8 v -> line_step (ty, ds) (bytes_of_string ("data: " +:+ v)) = (None, (ty, ds ++ [v])).
Proof. intros Hv. unfold utf8 in Hv. rewrite bytes_of_string_app.
  cbn [bytes_of_string app]. lazy -[from_utf8_lossy bytes_of_string]. by rewrite Hv. Qed.

Lemma lines_step_app p a b :
  lines_step p (a ++ b) =
  (let '(es1, p1) := lines_step p a in let '(es2, p2) := lines_step p1 b in (es1 ++ es2, p2)).
Proof.
  revert p. induction a as [|l a IH]; intros p; cbn [lines_step app].
  - by destruct (lines_step p b).
  - destruct (line_step p l) as [e p1]. rewrite IH. destruct (lines_step p1 a) as [es1 p2].
    destruct (lines_step p2 b) as [es2 p3]. by destruct e.
Qed.

Lemma lines_step_data ty ds ls :
  Forall line_ok ls ->
  lines_step (ty, ds) (map (fun l => bytes_of_string ("data: " +:+ l)) ls) = ([], (ty, ds ++ ls)).
Proof.
  intros H. revert ds. induction H as [|l ls [Hu _] H IH]; intros ds; cbn [map lines_step].
  - by rewrite app_nil_r.
  - rewrite line_step_data, IH by done. by rewrite <- app_assoc.
Qed.

Lemma lines_step_event e :
  event_ok e -> lines_step (None, []) (map bytes_of_string (wire_text e)) = ([event_of e], (None, [])).
Proof.
  destruct e as [ty ls]. unfold event_ok, wire_text, event_of. cbn [wire_type wire_lines].
  intros (Hty & Hls & Hne & Hdone). rewrite !map_app, map_map, lines_step_app.
  assert (lines_step (None, []) (map bytes_of_string
            (match ty with Some ty => ["event: " +:+ ty] | None => [] end)) = ([], (ty, []))) as ->.
  { destruct ty as [v|]; [|done]. cbn [map lines_step]. rewrite line_step_event; [done|].
    apply (Hty v eq_refl). }
  rewrite lines_step_app, (lines_step_data ty [] ls Hls). cbn [app]. destruct ls as [|l ls]; [done|].
  cbn [map lines_step line_step bytes_of_string]. by rewrite bool_decide_false.
Qed.

Lemma wire_text_clean e :
  event_ok e -> Forall no_eol (wire_text e).
Proof.
  intros (Hty & Hls & _). unfold wire_text. repeat apply Forall_app_2.
  - destruct (wire_type e) as [ty|]; [|done]. apply Forall_singleton.
    destruct (Hty ty eq_refl) as (_ & Hlf & Hcr). unfold no_eol. rewrite bytes_of_string_app.
    rewrite !elem_of_app. split; intros [H|H]; try done; vm_compute in H;
      repeat (apply elem_of_cons in H as [?|H]; [done|]); by apply not_elem_of_nil in H.
  - apply Forall_map. eapply Forall_impl; [exact Hls|]. intros l (_ & Hlf & Hcr).
    cbn beta. unfold no_eol. rewrite bytes_of_string_app, !elem_of_app.
    split; intros [H|H]; try done; vm_compute in H;
      repeat (apply elem_of_cons in H as [?|H]; [done|]); by apply not_elem_of_nil in H.
  - apply Forall_singleton. split; apply not_elem_of_nil.
Qed.

Lemma reference_feed_rendered es :
  Forall event_ok es ->
  reference_feed (None, []) [] (render es) = (map event_of es, (None, []), []).
Proof.
  intros H. unfold reference_feed, render. rewrite sse_lines_rendered.
  - assert (lines_step (None, []) (map bytes_of_string (flat_map wire_text es))
            = (map event_of es, (None, []))) as ->; [|done].
    induction H as [|e es He H IH]; [done|]. cbn [flat_map].
    by rewrite map_app, lines_step_app, lines_step_event, IH.
  - induction H as [|e es He H IH]; [done|]. cbn [flat_map].
    apply Forall_app_2; [by apply wire_text_clean|done].
Qed.

(** [line_ok], decided. *)
Definition line_okb (l : string) : bool :=
  bool_decide (utf8 l) && bool_decide (no_eol l).

Lemma line_okb_spec l : line_okb l = true -> line_ok l.
Proof.
  unfold line_okb, line_ok. intros H. apply andb_true_iff in H as [H1 H2].
  split; by eapply bool_decide_eq_true.
Qed.

(** ** Properties *)

(** C14: However a response body is cut into chunks, even inside a CR LF pair or a
    multi-byte character, a fresh parser fed chunk by chunk emits the events of
    the reference parser on the whole body, and is left with its pending event
    and unfinished line. *)
Theorem chunked_feed_reference (chunks : list (list byte)) :
  observe (feed_chunks SseParser_new chunks) = reference_feed (None, []) [] (concat chunks).
Proof.
  rewrite feed_chunks_concat. by rewrite (feed_reference (length (concat chunks)) _ SseParser_new).
Qed.

(** Events written in the SSE format (an optional type and one or more data
    lines, none of them the [DONE] sentinel) are parsed back exactly, in order,
    from any chunking of the bytes, and the end-of-stream [flush] adds nothing. *)
Theorem rendered_events_parsed (es : list wire_event) (chunks : list (list byte)) :
  Forall event_ok es -> concat chunks = render es ->
  (feed_chunks SseParser_new chunks).1 = map event_of es /\
  (flush (feed_chunks SseParser_new chunks).2).1 = None.
Proof.
  intros Hes Hc. pose proof (feed_reference (length (render es)) (render es) SseParser_new
    ltac:(lia) eq_refl) as H.
  rewrite feed_chunks_concat, Hc. cbn [pending_of current_event_type current_data line_buf
    SseParser_new] in H. rewrite reference_feed_rendered in H by done.
  unfold observe in H. destruct (feed SseParser_new (render es)) as [evs self].
  destruct self as [buf ty ds cr]. unfold pending_of in H. cbn [fst snd] in H.
  injection H as -> Hty Hds Hbuf. cbn in Hty, Hds, Hbuf. by subst.
Qed.

Definition two_events : list wire_event :=
  [ {| wire_type := Some "message_start"; wire_lines := ["{}"] |};
    {| wire_type := None; wire_lines := ["a"; "b"] |} ].

Lemma rendered_events_parsed_witness :
  (feed_chunks SseParser_new [take 9 (render two_events); drop 9 (render two_events)]).1
  = [ {| event_type := Some "message_start"; data := "{}" |};
      {| event_type := None; data := "a" +:+ String "010" "b" |} ].
Proof.
  pose proof (rendered_events_parsed two_events
    [take 9 (render two_events); drop 9 (render two_events)]) as [H _].
  - apply Forall_cons. split; [|apply Forall_cons; split; [|apply Forall_nil; exact I]].
    + split; [intros ty Hty; injection Hty as <-; apply (line_okb_spec "message_start"); reflexivity|].
      split; [|split; [discriminate|discriminate]].
      apply Forall_cons; split; [apply line_okb_spec; reflexivity|apply Forall_nil; exact I].
    + split; [intros ty Hty; discriminate Hty|].
      split; [|split; [discriminate|discriminate]].
      apply Forall_cons; split; [apply line_okb_spec; reflexivity|].
      apply Forall_cons; split; [apply line_okb_spec; reflexivity|apply Forall_nil; exact I].
  - apply (take_drop 9).
  - exact H.
Defined.

(** The [DONE] sentinel is never an event, whatever the parser has seen. *)
Lemma sentinel_filtered self chunk e : e ∈ (feed self chunk).1 -> data e <> "[DONE]".
Proof.
  revert self. induction chunk as [|b chunk IH]; intros self; cbn [feed].
  - intros H. by apply not_elem_of_nil in H.
  - destruct (feed_byte self b) as [e0 self1] eqn:Eb.
    specialize (IH self1). destruct (feed self1 chunk) as [es self2].
    cbn [fst] in *. destruct e0 as [e0|]; [|done].
    intros H. apply elem_of_cons in H as [->|H]; [|auto].
    unfold feed_byte, process_line, dispatch_event in Eb. crush_match_in Eb.
    all: match goal with H : bool_decide (_ = "[DONE]") = false |- _ =>
           by apply bool_decide_eq_false in H end.
Qed.
