(* ===== verification/Events.v ===== *)
(** Provider-agnostic LLM events and their collection into a summary:
    crates/clawcage-core/src/gateway/events.rs, with [ProviderKind] of
    gateway/provider.rs, on which the non-streaming usage parser branches.

    serde_json values, typed deserialisation and gzip are interfaces. *)

From Stdlib Require Import ZArith Lia Strings.Byte Ascii.
From stdpp Require Import base numbers list gmap strings sorting.
From S2P Require Import Prelude RustStr Utf8 Sse.

(** ** Third-party interfaces *)

(** [serde_json::Value] with the accessors the source calls. *)
Class SerdeJson := {
  Value : Type;
  value_from_slice : list byte -> option Value;
  get : Value -> string -> option Value;
  as_str : Value -> option string;
  as_u64 : Value -> option Z;
  as_bool : Value -> option bool;
  as_array : Value -> option (list Value);
  as_object : Value -> option (list (string * Value));
  json_to_string : Value -> string;
  (* the values [json!] builds *)
  json_obj : list (string * Value) -> Value;
  json_arr : list Value -> Value;
  json_str : string -> Value;
  json_num : Z -> Value;
  json_bool : bool -> Value;
  json_null : Value;
}.

(** [serde_json::from_str::<A>], derived for the wire type [A]. *)
Class FromJson (A : Type) := from_str : string -> option A.

(** [GzDecoder::read_to_end] *)
Class Gzip := gz_decode : list byte -> option (list byte).

Inductive ProviderKind := Anthropic | OpenAi | Google.

(** ** Events *)

Inductive StopReason :=
| EndTurn | ToolUse | MaxTokens | ContentFilter
| OtherReason (other : string).

#[export] Instance StopReason_eq_dec : EqDecision StopReason.
Proof. solve_decision. Defined.

Inductive LlmEvent :=
| MessageStart (message_id model : option string)
| TextDelta (index : Z) (text : string)
| ThinkingDelta (index : Z) (text : string)
| ToolCallStart (index : Z) (call_id name : string)
| ToolCallArgumentDelta (index : Z) (delta : string)
| ToolCallEnd (index : Z)
| ContentBlockEnd (index : Z)
| Usage (input_tokens output_tokens : option Z) (details : gmap string Z)
| MessageEnd (stop_reason : option StopReason)
| Unknown (event_type : option string) (raw : string).

#[export] Instance LlmEvent_eq_dec : EqDecision LlmEvent.
Proof. solve_decision. Defined.

Record ToolCall := { tc_index : Z; tc_call_id : string; tc_name : string; tc_arguments : string }.

#[export] Instance ToolCall_eq_dec : EqDecision ToolCall.
Proof. solve_decision. Defined.

Record StreamSummary := {
  ss_message_id : option string;
  ss_model : option string;
  ss_text : string;
  ss_thinking : string;
  tool_calls : list ToolCall;
  ss_input_tokens : option Z;
  ss_output_tokens : option Z;
  usage_details : gmap string Z;
  ss_stop_reason : option StopReason;
}.

(** A provider's stream parser: its state and [parse_event]. *)
Class ProviderStreamParser (P : Type) :=
  parse_event : P -> SseEvent -> list LlmEvent * P.

(** ** Collection *)

(** The local variables of [collect_summary]; a builder is a tool call under
    construction. *)
Record Collect := {
  message_id : option string;
  model : option string;
  text : string;
  thinking : string;
  input_tokens : option Z;
  output_tokens : option Z;
  details_acc : gmap string Z;
  stop_reason : option StopReason;
  builders : list ToolCall;
  completed : list ToolCall;
}.

Definition Collect_new : Collect :=
  {| message_id := None; model := None; text := ""; thinking := ""; input_tokens := None;
     output_tokens := None; details_acc := ∅; stop_reason := None; builders := [];
     completed := [] |}.

Definition push_args (d : string) (tc : ToolCall) : ToolCall :=
  {| tc_index := tc_index tc; tc_call_id := tc_call_id tc; tc_name := tc_name tc;
     tc_arguments := tc_arguments tc +:+ d |}.

(** [for ... in builders.iter_mut().rev()]: appends to the last builder with
    the index; [None] when there is none. *)
Fixpoint append_to_last (i : Z) (d : string) (l : list ToolCall) : option (list ToolCall) :=
  match l with
  | [] => None
  | tc :: l =>
      match append_to_last i d l with
      | Some l => Some (tc :: l)
      | None => if tc_index tc =? i then Some (push_args d tc :: l) else None
      end
  end.

(** [rposition] and [remove]. *)
Fixpoint remove_last (i : Z) (l : list ToolCall) : option (ToolCall * list ToolCall) :=
  match l with
  | [] => None
  | tc :: l =>
      match remove_last i l with
      | Some (x, l) => Some (x, tc :: l)
      | None => if tc_index tc =? i then Some (tc, l) else None
      end
  end.

Definition set_calls (c : Collect) (b k : list ToolCall) : Collect :=
  {| message_id := message_id c; model := model c; text := text c; thinking := thinking c;
     input_tokens := input_tokens c; output_tokens := output_tokens c;
     details_acc := details_acc c; stop_reason := stop_reason c; builders := b;
     completed := k |}.

Definition finish_block (c : Collect) (index : Z) : Collect :=
  match remove_last index (builders c) with
  | Some (tc, rest) => set_calls c rest (completed c ++ [tc])
  | None => c
  end.

Definition or_else {A} (new old : option A) : option A :=
  match new with Some _ => new | None => old end.

(** One iteration of the loop over the events. *)
Definition collect_event (c : Collect) (event : LlmEvent) : Collect :=
  match event with
  | MessageStart mid m =>
      {| message_id := or_else mid (message_id c); model := or_else m (model c);
         text := text c; thinking := thinking c; input_tokens := input_tokens c;
         output_tokens := output_tokens c; details_acc := details_acc c;
         stop_reason := stop_reason c; builders := builders c; completed := completed c |}
  | TextDelta _ t =>
      {| message_id := message_id c; model := model c; text := text c +:+ t;
         thinking := thinking c; input_tokens := input_tokens c;
         output_tokens := output_tokens c; details_acc := details_acc c;
         stop_reason := stop_reason c; builders := builders c; completed := completed c |}
  | ThinkingDelta _ t =>
      {| message_id := message_id c; model := model c; text := text c;
         thinking := thinking c +:+ t; input_tokens := input_tokens c;
         output_tokens := output_tokens c; details_acc := details_acc c;
         stop_reason := stop_reason c; builders := builders c; completed := completed c |}
  | ToolCallStart index call_id name =>
      set_calls c (builders c ++ [{| tc_index := index; tc_call_id := call_id;
                                     tc_name := name; tc_arguments := "" |}]) (completed c)
  | ToolCallArgumentDelta index delta =>
      match append_to_last index delta (builders c) with
      | Some b => set_calls c b (completed c)
      | None => c
      end
  | ToolCallEnd index => finish_block c index
  | ContentBlockEnd index => finish_block c index
  | Usage it ot details =>
      {| message_id := message_id c; model := model c; text := text c; thinking := thinking c;
         input_tokens := or_else it (input_tokens c);
         output_tokens := or_else ot (output_tokens c);
         details_acc := details ∪ details_acc c;
         stop_reason := stop_reason c; builders := builders c; completed := completed c |}
  | MessageEnd sr =>
      {| message_id := message_id c; model := model c; text := text c; thinking := thinking c;
         input_tokens := input_tokens c; output_tokens := output_tokens c;
         details_acc := details_acc c; stop_reason := sr; builders := builders c;
         completed := completed c |}
  | Unknown _ _ => c
  end.

Definition collect_summary (events : list LlmEvent) : StreamSummary :=
  let c := fold_left collect_event events Collect_new in
  {| ss_message_id := message_id c; ss_model := model c; ss_text := text c;
     ss_thinking := thinking c;
     tool_calls := sort_by_key tc_index (completed c ++ builders c);
     ss_input_tokens := input_tokens c; ss_output_tokens := output_tokens c;
     usage_details := details_acc c; ss_stop_reason := stop_reason c |}.

(** ** Usage of a non-streaming body *)

Section NonStreaming.
Context `{SerdeJson, Gzip}.

Definition no_usage : option string * option Z * option Z * gmap string Z :=
  (None, None, None, ∅).

(** [a.and_then(|v| v.get(k))] and [v.as_u64()] *)
Definition get_in (v : option Value) (k : string) : option Value :=
  match v with Some v => get v k | None => None end.
Definition u64_in (v : option Value) (k : string) : option Z :=
  match get_in v k with Some v => as_u64 v | None => None end.
Definition str_in (v : option Value) (k : string) : option string :=
  match get_in v k with Some v => as_str v | None => None end.

Definition detail (k : string) (v : option Z) (m : gmap string Z) : gmap string Z :=
  match v with Some v => <[k := v]> m | None => m end.

Definition body_json (body : list byte) : option Value :=
  match value_from_slice body with
  | Some v => Some v
  | None =>
      match body with
      | b0 :: b1 :: _ =>
          if bool_decide (b0 = x1f) && bool_decide (b1 = x8b) then
            match gz_decode body with
            | Some decompressed => value_from_slice decompressed
            | None => None
            end
          else None
      | _ => None
      end
  end.

Definition parse_non_streaming_usage (kind : ProviderKind) (body : list byte)
  : option string * option Z * option Z * gmap string Z :=
  match body_json body with
  | None => no_usage
  | Some json =>
      match kind with
      | Google =>
          let usage := get json "usageMetadata" in
          (str_in (Some json) "modelVersion",
           u64_in usage "promptTokenCount", u64_in usage "candidatesTokenCount",
           detail "thinking" (u64_in usage "thoughtsTokenCount")
             (detail "cache_read" (u64_in usage "cachedContentTokenCount") ∅))
      | Anthropic =>
          let usage := get json "usage" in
          (str_in (Some json) "model",
           u64_in usage "input_tokens", u64_in usage "output_tokens",
           detail "cache_read" (u64_in usage "cache_read_input_tokens") ∅)
      | OpenAi =>
          let usage := get json "usage" in
          (str_in (Some json) "model",
           u64_in usage "prompt_tokens", u64_in usage "completion_tokens",
           detail "thinking"
             (u64_in (get_in usage "completion_tokens_details") "reasoning_tokens")
             (detail "cache_read"
                (u64_in (get_in usage "prompt_tokens_details") "cached_tokens") ∅))
      end
  end.

End NonStreaming.

(** ** What a stream's tool calls are *)

(** The argument text a call of index [i] receives from the rest of a stream:
    the deltas of index [i] up to its end. Calls of the same index nest, the last
    one started receiving the deltas, so [depth] counts those started since. *)
Fixpoint run_args (i : Z) (depth : nat) (events : list LlmEvent) : string :=
  match events with
  | [] => ""
  | e :: rest =>
      match e with
      | ToolCallStart j _ _ => run_args i (if j =? i then S depth else depth) rest
      | ToolCallArgumentDelta j d =>
          if (j =? i) && (depth =? 0)%nat then d +:+ run_args i depth rest
          else run_args i depth rest
      | ToolCallEnd j | ContentBlockEnd j =>
          if j =? i then match depth with O => "" | S depth => run_args i depth rest end
          else run_args i depth rest
      | _ => run_args i depth rest
      end
  end.

(** One call per [ToolCallStart], with the arguments that follow it. *)
Fixpoint started_calls (events : list LlmEvent) : list ToolCall :=
  match events with
  | [] => []
  | ToolCallStart i id name :: rest =>
      {| tc_index := i; tc_call_id := id; tc_name := name; tc_arguments := run_args i 0 rest |}
      :: started_calls rest
  | _ :: rest => started_calls rest
  end.

(** The open calls of a loop state, with what the rest of the stream adds. *)
Fixpoint finish_open (open : list ToolCall) (events : list LlmEvent) : list ToolCall :=
  match open with
  | [] => []
  | tc :: open =>
      push_args (run_args (tc_index tc) (count_occ Z.eq_dec (map tc_index open) (tc_index tc)) events) tc
      :: finish_open open events
  end.

Lemma push_args_nil tc : push_args "" tc = tc.
Proof. destruct tc. unfold push_args. simpl. by rewrite sapp_nil_r. Qed.

Lemma push_args_app a b tc : push_args (a +:+ b) tc = push_args b (push_args a tc).
Proof. unfold push_args. simpl. by rewrite sapp_assoc. Qed.

Lemma finish_open_nil open : finish_open open [] = open.
Proof. induction open as [|tc open IH]; simpl; [done|]. by rewrite push_args_nil, IH. Qed.

Lemma append_to_last_index i d open open' :
  append_to_last i d open = Some open' -> map tc_index open' = map tc_index open.
Proof.
  revert open'. induction open as [|tc open IH]; simpl; [done|]. intros open'.
  destruct (append_to_last i d open) as [o|].
  - intros [= <-]. simpl. by rewrite (IH o).
  - destruct (tc_index tc =? i); [|done]. by intros [= <-].
Qed.

Lemma append_to_last_None i d open :
  append_to_last i d open = None <-> count_occ Z.eq_dec (map tc_index open) i = O.
Proof.
  induction open as [|tc open IH]; simpl; [done|].
  destruct (append_to_last i d open) as [o|].
  - split; [done|]. destruct (Z.eq_dec _ _); [done|]. intros H. by apply IH in H.
  - destruct IH as [IH _]. rewrite (IH eq_refl). destruct (Z.eqb_spec (tc_index tc) i), (Z.eq_dec (tc_index tc) i); done.
Qed.

Lemma remove_last_None i open :
  remove_last i open = None <-> count_occ Z.eq_dec (map tc_index open) i = O.
Proof.
  induction open as [|tc open IH]; simpl; [done|].
  destruct (remove_last i open) as [[x o]|].
  - split; [done|]. destruct (Z.eq_dec _ _); [done|]. intros H. by apply IH in H.
  - destruct IH as [IH _]. rewrite (IH eq_refl). destruct (Z.eqb_spec (tc_index tc) i), (Z.eq_dec (tc_index tc) i); done.
Qed.

Lemma remove_last_count i open x open' :
  remove_last i open = Some (x, open') ->
  tc_index x = i /\
  forall j, count_occ Z.eq_dec (map tc_index open) j =
            ((if Z.eqb i j then 1 else 0) + count_occ Z.eq_dec (map tc_index open') j)%nat.
Proof.
  revert open'. induction open as [|tc open IH]; [done|]. intros open'. cbn [remove_last].
  destruct (remove_last i open) as [[y o]|].
  - intros [= <- <-]. destruct (IH o eq_refl) as [? Hc]. split; [done|]. intros j. simpl.
    rewrite Hc. destruct (Z.eq_dec _ _); lia.
  - destruct (Z.eqb_spec (tc_index tc) i); [|done]. intros [= <- <-]. split; [done|].
    intros j. simpl. destruct (Z.eq_dec _ _), (Z.eqb_spec i j); try congruence; lia.
Qed.

(** A delta reaches the last open call of its index. *)
Lemma finish_open_delta i d open rest :
  finish_open (match append_to_last i d open with Some o => o | None => open end) rest
  = finish_open open (ToolCallArgumentDelta i d :: rest).
Proof.
  induction open as [|tc open IH]; [done|]. cbn [append_to_last finish_open run_args].
  pose proof (append_to_last_None i d open) as Hn. pose proof (append_to_last_index i d open) as Hi.
  destruct (append_to_last i d open) as [o|].
  - cbn [finish_open]. rewrite IH, (Hi o) by done. f_equal. f_equal.
    destruct (Z.eqb_spec i (tc_index tc)) as [<-|]; [|done]. cbn [andb].
    destruct (count_occ _ _ _); [|done]. by pose proof (proj2 Hn eq_refl).
  - destruct Hn as [Hn _]. specialize (Hn eq_refl). destruct (Z.eqb_spec (tc_index tc) i) as [E|E].
    + cbn [finish_open]. rewrite <- IH. f_equal. change (tc_index (push_args d tc)) with (tc_index tc).
      rewrite E, Z.eqb_refl, Hn. cbn [andb Nat.eqb].
      by rewrite push_args_app.
    + cbn [finish_open]. rewrite IH. destruct (Z.eqb_spec i (tc_index tc)); [congruence|done].
Qed.

Definition is_end (i : Z) (e : LlmEvent) : Prop := e = ToolCallEnd i \/ e = ContentBlockEnd i.

Lemma run_args_end i e j depth rest :
  is_end i e ->
  run_args j depth (e :: rest) =
  if i =? j then match depth with O => "" | S depth => run_args j depth rest end
  else run_args j depth rest.
Proof. by intros [-> | ->]. Qed.

(** An end event closes the last open call of its index. *)
Lemma finish_open_end i e open rest :
  is_end i e ->
  match remove_last i open with
  | Some (tc, open') => tc :: finish_open open' rest
  | None => finish_open open rest
  end ≡ₚ finish_open open (e :: rest).
Proof.
  intros He. induction open as [|tc open IH]; [done|]. cbn [remove_last finish_open].
  rewrite run_args_end with (i := i) by done.
  pose proof (remove_last_None i open) as Hn. pose proof (remove_last_count i open) as Hc.
  destruct (remove_last i open) as [[x o]|].
  - rewrite <- IH. cbn [finish_open]. rewrite Permutation_swap.
    destruct (Hc x o eq_refl) as [_ ->]. by destruct (i =? tc_index tc).
  - destruct Hn as [Hn _]. specialize (Hn eq_refl). rewrite <- IH.
    rewrite (Z.eqb_sym i). destruct (Z.eqb_spec (tc_index tc) i) as [E|E]; [|done].
    by rewrite E, Hn, push_args_nil.
Qed.

(** Opening a call shifts the depth of the open ones of its index. *)
Lemma finish_open_start open i id name rest :
  finish_open (open ++ [{| tc_index := i; tc_call_id := id; tc_name := name; tc_arguments := "" |}]) rest
  = finish_open open (ToolCallStart i id name :: rest) ++
    [{| tc_index := i; tc_call_id := id; tc_name := name; tc_arguments := run_args i 0 rest |}].
Proof.
  induction open as [|tc open IH]; [done|]. cbn [app finish_open run_args]. rewrite IH. f_equal.
  f_equal. rewrite map_app, count_occ_app. cbn [map count_occ tc_index].
  destruct (Z.eq_dec i (tc_index tc)), (Z.eqb_spec i (tc_index tc)); try done;
    f_equal; lia.
Qed.

Lemma run_args_other i depth e rest :
  match e with
  | ToolCallStart _ _ _ | ToolCallArgumentDelta _ _ | ToolCallEnd _ | ContentBlockEnd _ => False
  | _ => True
  end -> run_args i depth (e :: rest) = run_args i depth rest.
Proof. by destruct e. Qed.

Lemma finish_open_other e open rest :
  match e with
  | ToolCallStart _ _ _ | ToolCallArgumentDelta _ _ | ToolCallEnd _ | ContentBlockEnd _ => False
  | _ => True
  end -> finish_open open (e :: rest) = finish_open open rest.
Proof.
  intros He. induction open as [|tc open IH]; [done|]. cbn [finish_open].
  by rewrite IH, run_args_other.
Qed.

(** One iteration preserves the calls the stream will yield. *)
Lemma collect_event_calls c e rest :
  completed (collect_event c e) ++ finish_open (builders (collect_event c e)) rest
    ++ started_calls rest
  ≡ₚ completed c ++ finish_open (builders c) (e :: rest) ++ started_calls (e :: rest).
Proof.
  assert (forall i, is_end i e ->
            completed (finish_block c i) ++ finish_open (builders (finish_block c i)) rest
              ++ started_calls rest
            ≡ₚ completed c ++ finish_open (builders c) (e :: rest) ++ started_calls rest) as Hend.
  { intros i He. rewrite <- (finish_open_end i) by done. unfold finish_block.
    destruct (remove_last i (builders c)) as [[x o]|]; [|done]. simpl. by rewrite <- app_assoc. }
  destruct e; cbn [collect_event builders completed started_calls];
    try by rewrite finish_open_other.
  - simpl builders. simpl completed. rewrite finish_open_start, <- app_assoc. done.
  - rewrite <- finish_open_delta. by destruct (append_to_last _ _ _).
  - apply Hend. by left.
  - apply Hend. by right.
Qed.

Lemma collect_calls events c :
  let c' := fold_left collect_event events c in
  completed c' ++ builders c' ≡ₚ
  completed c ++ finish_open (builders c) events ++ started_calls events.
Proof.
  revert c. induction events as [|e rest IH]; intros c; cbn [fold_left].
  - simpl. by rewrite finish_open_nil, app_nil_r.
  - rewrite IH. apply collect_event_calls.
Qed.

(** ** Properties *)

(** the summary lists one tool call for each start event of the stream, whatever
    the interleaving, unfinished calls and stray events included; each carries the
    concatenation of the argument deltas addressed to its block between its start
    and its end, and the list is sorted by block index. *)
Theorem summary_tool_calls (events : list LlmEvent) :
  tool_calls (collect_summary events) ≡ₚ started_calls events /\
  StronglySorted (fun a b => tc_index a <= tc_index b) (tool_calls (collect_summary events)).
Proof.
  unfold collect_summary. cbn [tool_calls]. split; [|apply sort_by_key_Sorted].
  rewrite sort_by_key_Permutation. apply (collect_calls events Collect_new).
Qed.

Definition text_of (e : LlmEvent) : string := match e with TextDelta _ t => t | _ => "" end.
Definition thinking_of (e : LlmEvent) : string := match e with ThinkingDelta _ t => t | _ => "" end.
Definition input_of (e : LlmEvent) : option Z := match e with Usage it _ _ => it | _ => None end.
Definition output_of (e : LlmEvent) : option Z := match e with Usage _ ot _ => ot | _ => None end.
Definition model_of (e : LlmEvent) : option string := match e with MessageStart _ m => m | _ => None end.
Definition detail_of (k : string) (e : LlmEvent) : option Z :=
  match e with Usage _ _ d => d !! k | _ => None end.
Definition ends_of (e : LlmEvent) : option (option StopReason) :=
  match e with MessageEnd sr => Some sr | _ => None end.

Lemma or_else_assoc {A} (a b c : option A) : or_else (or_else a b) c = or_else a (or_else b c).
Proof. by destruct a. Qed.

Lemma last_some_cons {A} (x : option A) l : last_some (x :: l) = or_else (last_some l) x.
Proof. simpl. by destruct (last_some l). Qed.

Lemma finish_block_calls c i :
  exists b k, finish_block c i = set_calls c b k.
Proof.
  unfold finish_block. destruct (remove_last _ _) as [[tc o]|]; [by do 2 eexists|].
  exists (builders c), (completed c). by destruct c.
Qed.

Lemma union_or_else {A} (a b : option A) : a ∪ b = or_else a b.
Proof. by destruct a, b. Qed.

(** One iteration, field by field. *)
Lemma collect_event_fields c e :
  let c' := collect_event c e in
  text c' = text c +:+ text_of e /\
  thinking c' = thinking c +:+ thinking_of e /\
  model c' = or_else (model_of e) (model c) /\
  input_tokens c' = or_else (input_of e) (input_tokens c) /\
  output_tokens c' = or_else (output_of e) (output_tokens c) /\
  (forall k, details_acc c' !! k = or_else (detail_of k e) (details_acc c !! k)) /\
  stop_reason c' = default (stop_reason c) (ends_of e).
Proof.
  destruct e; cbn [collect_event text_of thinking_of model_of input_of output_of detail_of ends_of];
    try (destruct (finish_block_calls c index) as (b & k & ->));
    try destruct (append_to_last _ _ _);
    cbn [set_calls text thinking model input_tokens output_tokens details_acc stop_reason];
    rewrite ?sapp_nil_r; repeat split;
    lazymatch goal with
    | |- forall k, (_ ∪ _) !! _ = _ => intros k; rewrite lookup_union; apply union_or_else
    | |- forall k, _ => intros k; reflexivity
    | |- _ => reflexivity
    end.
Qed.

(** The folded fields of the loop. *)
Lemma collect_fields events c :
  let c' := fold_left collect_event events c in
  text c' = text c +:+ sconcat (map text_of events) /\
  thinking c' = thinking c +:+ sconcat (map thinking_of events) /\
  model c' = or_else (last_some (map model_of events)) (model c) /\
  input_tokens c' = or_else (last_some (map input_of events)) (input_tokens c) /\
  output_tokens c' = or_else (last_some (map output_of events)) (output_tokens c) /\
  (forall k, details_acc c' !! k = or_else (last_some (map (detail_of k) events)) (details_acc c !! k)) /\
  stop_reason c' = default (stop_reason c) (last_some (map ends_of events)).
Proof.
  revert c. induction events as [|e rest IH]; intros c; cbn [fold_left].
  - cbn [map sconcat last_some or_else]. rewrite !sapp_nil_r. done.
  - destruct (collect_event_fields c e) as (Ht & Hth & Hm & Hi & Ho & Hd & Hs).
    destruct (IH (collect_event c e)) as (-> & -> & -> & -> & -> & Hd' & ->).
    cbn [map sconcat]. rewrite !last_some_cons, !or_else_assoc, Ht, Hth, Hm, Hi, Ho, Hs, !sapp_assoc.
    repeat split; try done.
    + intros k. by rewrite Hd', Hd, last_some_cons, or_else_assoc.
    + by destruct (last_some (map ends_of rest)).
Qed.

(** The rest of the summary: text and thinking are the concatenations of their
    deltas in stream order, model and token counts are the last ones reported,
    each usage detail is its last report, and the stop reason is the one of the
    last message end. *)
Theorem summary_fields (events : list LlmEvent) :
  let s := collect_summary events in
  ss_text s = sconcat (map text_of events) /\
  ss_thinking s = sconcat (map thinking_of events) /\
  ss_model s = last_some (map model_of events) /\
  ss_input_tokens s = last_some (map input_of events) /\
  ss_output_tokens s = last_some (map output_of events) /\
  (forall k, usage_details s !! k = last_some (map (detail_of k) events)) /\
  ss_stop_reason s = default None (last_some (map ends_of events)).
Proof.
  destruct (collect_fields events Collect_new) as (Ht & Hth & Hm & Hi & Ho & Hd & Hs).
  unfold collect_summary.
  cbn [ss_text ss_thinking ss_model ss_input_tokens ss_output_tokens usage_details ss_stop_reason].
  rewrite Ht, Hth, Hm, Hi, Ho, Hs. cbn [Collect_new text thinking model input_tokens output_tokens stop_reason].
  assert (forall A (x : option A), or_else x None = x) as Hor by (by intros A []).
  rewrite !Hor. repeat split. intros k. rewrite Hd. apply Hor.
Qed.

Example interleaved_calls :
  let s := collect_summary
    [ToolCallStart 2 "b" "write"; ToolCallStart 1 "a" "read"; ToolCallArgumentDelta 2 "{";
     ToolCallArgumentDelta 1 "x"; ToolCallArgumentDelta 2 "}"; ContentBlockEnd 2;
     ToolCallArgumentDelta 2 "lost"; TextDelta 0 "hi"; MessageEnd (Some ToolUse)] in
  (map tc_call_id (tool_calls s), map tc_arguments (tool_calls s), ss_text s, ss_stop_reason s)
  = (["a"; "b"], ["x"; "{}"], "hi", Some ToolUse).
Proof. vm_compute. reflexivity. Qed.

(** ** Streams *)

(** The events of a whole stream. *)
Fixpoint parse_events {P} `{ProviderStreamParser P} (self : P) (events : list SseEvent)
  : list LlmEvent * P :=
  match events with
  | [] => ([], self)
  | e :: rest =>
      let '(out, self) := parse_event self e in
      let '(outs, self) := parse_events self rest in (out ++ outs, self)
  end.

Lemma parse_events_app {P} `{ProviderStreamParser P} (self : P) a b :
  parse_events self (a ++ b) =
  let '(o1, s1) := parse_events self a in
  let '(o2, s2) := parse_events s1 b in (o1 ++ o2, s2).
Proof.
  revert self. induction a as [|e a IH]; intros self; cbn [app parse_events].
  - by destruct (parse_events self b).
  - destruct (parse_event self e) as [o s]. rewrite IH.
    destruct (parse_events s a) as [o1 s1]. destruct (parse_events s1 b) as [o2 s2].
    by rewrite app_assoc.
Qed.

(** ** A concrete codec *)

(** Of any countable type: a value's number, in binary. *)
Fixpoint show_bits (p : positive) : string :=
  match p with
  | xH => ""
  | xO p => String "0"%char (show_bits p)
  | xI p => String "1"%char (show_bits p)
  end.

Fixpoint read_bits (s : string) : option positive :=
  match s with
  | EmptyString => Some xH
  | String "0"%char s => xO <$> read_bits s
  | String "1"%char s => xI <$> read_bits s
  | _ => None
  end.

Lemma read_show_bits p : read_bits (show_bits p) = Some p.
Proof. induction p as [p IH|p IH|]; simpl; rewrite ?IH; done. Qed.

Definition countable_json {A} `{Countable A} : FromJson A := fun s => read_bits s ≫= decode.
Definition countable_text {A} `{Countable A} (x : A) : string := show_bits (encode x).

Lemma countable_json_text {A} `{Countable A} (x : A) : countable_json (countable_text x) = Some x.
Proof. unfold countable_json, countable_text. rewrite read_show_bits. apply decode_encode. Qed.

(** A concrete JSON value type for the witnesses of other files. *)
Inductive Json :=
| JNull | JBool (b : bool) | JNum (z : Z) | JStr (s : string)
| JArr (vs : list Json) | JObj (kvs : list (string * Json)).

Definition tree_json : SerdeJson := {|
  Value := Json;
  value_from_slice bytes := None;
  get v k := match v with
             | JObj kvs => snd <$> list_find_first (fun kv => bool_decide (kv.1 = k)) kvs
             | _ => None
             end;
  as_str v := match v with JStr s => Some s | _ => None end;
  as_u64 v := match v with JNum z => if 0 <=? z then Some z else None | _ => None end;
  as_bool v := match v with JBool b => Some b | _ => None end;
  as_array v := match v with JArr vs => Some vs | _ => None end;
  as_object v := match v with JObj kvs => Some kvs | _ => None end;
  json_to_string v := match v with JStr s => s | JNum z => show_Z z | _ => "" end;
  json_obj := JObj;
  json_arr := JArr;
  json_str := JStr;
  json_num := JNum;
  json_bool := JBool;
  json_null := JNull;
|}.
