(* ===== verification/Trace.v ===== *)
(** Trace tracking across requests: [TraceState] of
    crates/clawcage-core/src/gateway/mod.rs. *)

From Stdlib Require Import ZArith Lia.
From stdpp Require Import base numbers list gmap strings.
From S2P Require Import Prelude RustStr.

(** Maps a pending tool call id to its trace id. *)
Record TraceState := { pending_calls : gmap string string }.

Definition TraceState_new : TraceState := {| pending_calls := ∅ |}.

Fixpoint trace_lookup (self : TraceState) (call_ids : list string) : option string :=
  match call_ids with
  | [] => None
  | id :: rest =>
      match pending_calls self !! id with
      | Some trace_id => Some trace_id
      | None => trace_lookup self rest
      end
  end.

Definition register_tool_calls (self : TraceState) (trace_id : string) (call_ids : list string)
  : TraceState :=
  {| pending_calls := fold_left (fun m id => <[id := trace_id]> m) call_ids (pending_calls self) |}.

Definition complete_trace (self : TraceState) (trace_id : string) : TraceState :=
  {| pending_calls := filter (fun kv => kv.2 <> trace_id) (pending_calls self) |}.

(** ** Histories *)

Inductive TraceOp :=
| RegisterOp (trace_id : string) (call_ids : list string)
| CompleteOp (trace_id : string).

Definition trace_step (s : TraceState) (op : TraceOp) : TraceState :=
  match op with
  | RegisterOp t ids => register_tool_calls s t ids
  | CompleteOp t => complete_trace s t
  end.

Definition trace_run (ops : list TraceOp) : TraceState := fold_left trace_step ops TraceState_new.

(** The trace of a call, read off the history from its end: the last
    registration of the id counts, unless its trace was completed since. *)
Fixpoint owner (rev_ops : list TraceOp) (completed : list string) (id : string) : option string :=
  match rev_ops with
  | [] => None
  | CompleteOp t :: rest => owner rest (t :: completed) id
  | RegisterOp t ids :: rest =>
      if bool_decide (id ∈ ids)
      then if bool_decide (t ∈ completed) then None else Some t
      else owner rest completed id
  end.

(** ** Lemmas *)

Lemma register_lookup m t ids id :
  fold_left (fun m id => <[id := t]> m) ids m !! id =
  if bool_decide (id ∈ ids) then Some t else (m : gmap string string) !! id.
Proof.
  revert m. induction ids as [|x ids IH]; intros m; cbn [fold_left].
  - rewrite bool_decide_false; [done|]. apply not_elem_of_nil.
  - rewrite IH. destruct (decide (id ∈ ids)) as [Hin|Hin].
    + rewrite !bool_decide_true; [done|by right|done].
    + rewrite (bool_decide_false (id ∈ ids)) by done.
      destruct (decide (id = x)) as [->|Hne].
      * rewrite bool_decide_true by left. by rewrite lookup_insert_eq.
      * rewrite bool_decide_false by (intros [?|?]%elem_of_cons; done).
        by rewrite lookup_insert_ne.
Qed.

Lemma complete_lookup s t id :
  pending_calls (complete_trace s t) !! id =
  match pending_calls s !! id with
  | Some t' => if bool_decide (t' = t) then None else Some t'
  | None => None
  end.
Proof.
  unfold complete_trace. cbn [pending_calls]. rewrite map_lookup_filter.
  destruct (pending_calls s !! id) as [t'|]; simpl; [|done].
  repeat case_guard; case_bool_decide; simpl in *; done.
Qed.

Lemma owner_completed rev_ops cs id :
  owner rev_ops cs id =
  match owner rev_ops [] id with
  | Some t => if bool_decide (t ∈ cs) then None else Some t
  | None => None
  end.
Proof.
  revert cs. induction rev_ops as [|[t ids|t] rest IH]; intros cs; cbn [owner]; [done| |].
  - destruct (bool_decide (id ∈ ids)); [|apply IH].
    rewrite (bool_decide_false (t ∈ [])); [done|apply not_elem_of_nil].
  - rewrite (IH (t :: cs)), (IH [t]). destruct (owner rest [] id) as [t'|]; [|done].
    destruct (decide (t' = t)) as [->|Hne].
    + rewrite !(bool_decide_true (t ∈ _)); [done|left|left].
    + rewrite (bool_decide_false (t' ∈ [t])) by (by rewrite list_elem_of_singleton).
      destruct (decide (t' ∈ cs)).
      * by rewrite !bool_decide_true by (try right; done).
      * by rewrite !bool_decide_false by (try intros [?|?]%elem_of_cons; done).
Qed.

Lemma trace_run_owner ops id :
  pending_calls (trace_run ops) !! id = owner (rev ops) [] id.
Proof.
  unfold trace_run. induction ops as [|op ops IH] using rev_ind; [done|].
  rewrite fold_left_app, rev_app_distr. cbn [fold_left rev app]. destruct op as [t ids|t]; cbn [trace_step owner].
  - unfold register_tool_calls. cbn [pending_calls]. rewrite register_lookup, IH.
    rewrite (bool_decide_false (t ∈ [])); [done|apply not_elem_of_nil].
  - rewrite complete_lookup, IH, (owner_completed _ [t]). destruct (owner (rev ops) [] id) as [t'|]; [|done].
    destruct (decide (t' = t)) as [->|Hne].
    + by rewrite !bool_decide_true by (done || left).
    + by rewrite !bool_decide_false by (try rewrite list_elem_of_singleton; done).
Qed.

(** ** Properties *)

(** After any history of registrations and completions, looking up the tool
    responses of a request yields the trace of the first id that is still pending,
    where an id belongs to the trace that registered it last, until that trace is
    completed; re-registering an id moves it, and completing a trace forgets only
    that trace's ids. *)
Theorem trace_lookup_owner (ops : list TraceOp) (call_ids : list string) :
  trace_lookup (trace_run ops) call_ids =
  head (omap (owner (rev ops) []) call_ids).
Proof.
  induction call_ids as [|id rest IH]; [done|]. cbn [trace_lookup omap list_omap].
  rewrite trace_run_owner. by destruct (owner (rev ops) [] id).
Qed.

Example trace_chain :
  let h := [RegisterOp "t1" ["a"; "b"]; RegisterOp "t2" ["b"]; CompleteOp "t1"] in
  (trace_lookup (trace_run h) ["a"; "b"], trace_lookup (trace_run h) ["a"]) = (Some "t2", None).
Proof. vm_compute. reflexivity. Qed.
