(* ===== verification/AnthropicStream.v ===== *)
(** The Anthropic stream parser: crates/clawcage-core/src/gateway/anthropic.rs.

    The wire records are the serde types of the source; decoding them from JSON
    text is the interface [AnthropicWire]. *)

From Stdlib Require Import ZArith Lia.
From stdpp Require Import base numbers list gmap strings sorting.
From S2P Require Import Prelude RustStr Utf8 Sse Events.

(** ** Wire types *)

Record AnthropicUsage := {
  au_input_tokens : option Z;
  au_output_tokens : option Z;
  cache_read_input_tokens : option Z;
}.

Record MessageInfo := {
  mi_id : option string;
  mi_model : option string;
  mi_usage : option AnthropicUsage;
}.

Record MessageStartPayload := { msp_message : option MessageInfo }.

Inductive ContentBlock :=
| TextBlock (text : option string)
| ToolUseBlock (id name : option string)
| ThinkingBlock (thinking : option string).

Record ContentBlockStart := { cbs_index : option Z; content_block : option ContentBlock }.

Inductive Delta :=
| DeltaText (text : option string)
| DeltaInputJson (partial_json : option string)
| DeltaThinking (thinking : option string).

Record ContentBlockDelta := { cbd_index : option Z; cbd_delta : option Delta }.

Record ContentBlockStop := { cbp_index : option Z }.

Record MessageDeltaInner := { mdi_stop_reason : option string }.

Record MessageDelta := { md_delta : option MessageDeltaInner; md_usage : option AnthropicUsage }.

Class AnthropicWire := {
  message_start_json :: FromJson MessageStartPayload;
  content_block_start_json :: FromJson ContentBlockStart;
  content_block_delta_json :: FromJson ContentBlockDelta;
  content_block_stop_json :: FromJson ContentBlockStop;
  message_delta_json :: FromJson MessageDelta;
}.

(** ** The parser *)

Inductive BlockKind := TextKind | ToolUseKind | ThinkingKind.

#[export] Instance BlockKind_eq_dec : EqDecision BlockKind.
Proof. solve_decision. Defined.

Record AnthropicStreamParser := { blocks : gmap Z BlockKind }.

Definition AnthropicStreamParser_new : AnthropicStreamParser := {| blocks := ∅ |}.

Definition usage_event (u : AnthropicUsage) : LlmEvent :=
  Usage (au_input_tokens u) (au_output_tokens u)
    (detail "cache_read" (cache_read_input_tokens u) ∅).

Definition unwrap_or_default (s : option string) : string := default "" s.

Section Anthropic.
Context `{AnthropicWire}.

Definition anthropic_message_start (sse : SseEvent) : list LlmEvent :=
  match from_str (A := MessageStartPayload) (data sse) with
  | None => [Unknown (event_type sse) (data sse)]
  | Some payload =>
      let msg := msp_message payload in
      MessageStart (msg ≫= mi_id) (msg ≫= mi_model) ::
      match msg ≫= mi_usage with
      | Some usage => [usage_event usage]
      | None => []
      end
  end.

Definition anthropic_block_start (self : AnthropicStreamParser) (sse : SseEvent)
  : list LlmEvent * AnthropicStreamParser :=
  match from_str (A := ContentBlockStart) (data sse) with
  | None => ([Unknown (event_type sse) (data sse)], self)
  | Some payload =>
      let index := default 0 (cbs_index payload) in
      let insert kind := {| blocks := <[index := kind]> (blocks self) |} in
      match content_block payload with
      | Some (TextBlock _) => ([], insert TextKind)
      | Some (ToolUseBlock id name) =>
          ([ToolCallStart index (unwrap_or_default id) (unwrap_or_default name)], insert ToolUseKind)
      | Some (ThinkingBlock _) => ([], insert ThinkingKind)
      | None => ([], self)
      end
  end.

Definition anthropic_block_delta (sse : SseEvent) : list LlmEvent :=
  match from_str (A := ContentBlockDelta) (data sse) with
  | None => [Unknown (event_type sse) (data sse)]
  | Some payload =>
      let index := default 0 (cbd_index payload) in
      match cbd_delta payload with
      | Some (DeltaText text) => [TextDelta index (unwrap_or_default text)]
      | Some (DeltaInputJson json) => [ToolCallArgumentDelta index (unwrap_or_default json)]
      | Some (DeltaThinking thinking) => [ThinkingDelta index (unwrap_or_default thinking)]
      | None => []
      end
  end.

Definition anthropic_block_stop (self : AnthropicStreamParser) (sse : SseEvent)
  : list LlmEvent * AnthropicStreamParser :=
  match from_str (A := ContentBlockStop) (data sse) with
  | None => ([Unknown (event_type sse) (data sse)], self)
  | Some payload =>
      let index := default 0 (cbp_index payload) in
      let kind := blocks self !! index in
      ((if bool_decide (kind = Some ToolUseKind) then [ToolCallEnd index] else [])
         ++ [ContentBlockEnd index],
       {| blocks := delete index (blocks self) |})
  end.

Definition usage_events (u : option AnthropicUsage) : list LlmEvent :=
  match u with Some usage => [usage_event usage] | None => [] end.

Definition anthropic_message_delta (sse : SseEvent) : list LlmEvent :=
  match from_str (A := MessageDelta) (data sse) with
  | None => [Unknown (event_type sse) (data sse)]
  | Some payload => usage_events (md_usage payload)
  end.

(** [AnthropicStreamParser::parse_event] *)
Definition anthropic_parse_event (self : AnthropicStreamParser) (sse : SseEvent)
  : list LlmEvent * AnthropicStreamParser :=
  match event_type sse with
  | None => ([Unknown None (data sse)], self)
  | Some event_type =>
      if bool_decide (event_type = "message_start") then (anthropic_message_start sse, self)
      else if bool_decide (event_type = "content_block_start") then anthropic_block_start self sse
      else if bool_decide (event_type = "content_block_delta") then (anthropic_block_delta sse, self)
      else if bool_decide (event_type = "content_block_stop") then anthropic_block_stop self sse
      else if bool_decide (event_type = "message_delta") then (anthropic_message_delta sse, self)
      else if bool_decide (event_type = "message_stop") then ([MessageEnd None], self)
      else if bool_decide (event_type = "ping") then ([], self)
      else ([Unknown (Some event_type) (data sse)], self)
  end.

Definition anthropic_stop_reason (s : string) : StopReason :=
  if bool_decide (s = "end_turn") then EndTurn
  else if bool_decide (s = "tool_use") then ToolUse
  else if bool_decide (s = "max_tokens") then MaxTokens
  else if bool_decide (s = "content_filter") then ContentFilter
  else OtherReason s.

(** Tracks the stop reason from [message_delta] to [message_stop]. *)
Record AnthropicStreamParserWithState := {
  inner : AnthropicStreamParser;
  pending_stop_reason : option StopReason;
}.

Definition AnthropicStreamParserWithState_new : AnthropicStreamParserWithState :=
  {| inner := AnthropicStreamParser_new; pending_stop_reason := None |}.

Definition delegate (self : AnthropicStreamParserWithState) (sse : SseEvent)
  : list LlmEvent * AnthropicStreamParserWithState :=
  let '(events, inner) := anthropic_parse_event (inner self) sse in
  (events, {| inner := inner; pending_stop_reason := pending_stop_reason self |}).

#[export] Instance anthropic_stream : ProviderStreamParser AnthropicStreamParserWithState :=
  fun self sse =>
    if bool_decide (event_type sse = Some "message_delta") then
      match from_str (A := MessageDelta) (data sse) with
      | Some payload =>
          (usage_events (md_usage payload),
           match md_delta payload ≫= mdi_stop_reason with
           | Some reason =>
               {| inner := inner self; pending_stop_reason := Some (anthropic_stop_reason reason) |}
           | None => self
           end)
      | None => delegate self sse
      end
    else if bool_decide (event_type sse = Some "message_stop") then
      ([MessageEnd (pending_stop_reason self)],
       {| inner := inner self; pending_stop_reason := None |})
    else delegate self sse.

End Anthropic.

(** ** Messages as the API streams them *)

(** What a delta event carries; [FOther] is one that the wire type does not decode (the
    signature of a thinking block, a citation). *)
Inductive fragment := FText (t : string) | FThinking (t : string) | FJson (t : string) | FOther.

(** The kind of a block; [HOther] is one that the wire type does not decode. *)
Inductive BlockHeader := HText | HThinking | HTool (id name : string) | HOther.

Record block := { bl_header : BlockHeader; bl_fragments : list fragment }.

(** A whole message: what its start says, its blocks, and its message_delta events. *)
Record message := { am_start : MessageInfo; am_blocks : list block; am_deltas : list MessageDelta }.

Definition fragment_text (f : fragment) : string := match f with FText t => t | _ => "" end.
Definition fragment_thinking (f : fragment) : string := match f with FThinking t => t | _ => "" end.
Definition fragment_json (f : fragment) : string := match f with FJson t => t | _ => "" end.

Definition block_text (b : block) : string := sconcat (map fragment_text (bl_fragments b)).
Definition block_thinking (b : block) : string := sconcat (map fragment_thinking (bl_fragments b)).

Definition block_tool (i : Z) (b : block) : list ToolCall :=
  match bl_header b with
  | HTool id name => [{| tc_index := i; tc_call_id := id; tc_name := name; tc_arguments := sconcat (map fragment_json (bl_fragments b)) |}]
  | _ => []
  end.

Fixpoint block_tools (i : Z) (bs : list block) : list ToolCall :=
  match bs with [] => [] | b :: bs => block_tool i b ++ block_tools (i + 1) bs end.

(** The usage reports of a message, in order, and its last stop reason. *)
Definition usages (m : message) : list AnthropicUsage := omap id (mi_usage (am_start m) :: map md_usage (am_deltas m)).
Definition last_usage (f : AnthropicUsage -> option Z) (m : message) : option Z := last_some (map f (usages m)).
Definition last_stop (m : message) : option string := last_some (map (fun d => md_delta d ≫= mdi_stop_reason) (am_deltas m)).

Section Stream.
Context `{AnthropicWire}.

(** An event of a type whose data, whatever else it holds, decodes to [x]. *)
Definition decodes {A} `{FromJson A} (ty : string) (x : A) (e : SseEvent) : Prop := event_type e = Some ty /\ from_str (data e) = Some x.
Definition undecoded {A} `{FromJson A} (ty : string) (e : SseEvent) : Prop := event_type e = Some ty /\ from_str (A := A) (data e) = None.

Definition starts_block (i : Z) (h : BlockHeader) (e : SseEvent) : Prop :=
  let start b := decodes "content_block_start" {| cbs_index := Some i; content_block := Some b |} e in
  match h with
  | HText => exists t, start (TextBlock t)
  | HThinking => exists t, start (ThinkingBlock t)
  | HTool id name => start (ToolUseBlock (Some id) (Some name))
  | HOther => undecoded (A := ContentBlockStart) "content_block_start" e
  end.

Definition delta_of (i : Z) (f : fragment) (e : SseEvent) : Prop :=
  let delta d := decodes "content_block_delta" {| cbd_index := Some i; cbd_delta := Some d |} e in
  match f with
  | FText t => delta (DeltaText (Some t))
  | FThinking t => delta (DeltaThinking (Some t))
  | FJson t => delta (DeltaInputJson (Some t))
  | FOther => undecoded (A := ContentBlockDelta) "content_block_delta" e
  end.

Inductive blocks_streamed : Z -> list block -> list SseEvent -> Prop :=
| no_blocks i : blocks_streamed i [] []
| one_block i b bs start deltas stop es :
    starts_block i (bl_header b) start -> Forall2 (delta_of i) (bl_fragments b) deltas ->
    decodes "content_block_stop" {| cbp_index := Some i |} stop -> blocks_streamed (i + 1) bs es ->
    blocks_streamed i (b :: bs) (start :: deltas ++ stop :: es).

Definition message_streamed (m : message) (es : list SseEvent) : Prop :=
  exists start blocks deltas stop, es = start :: blocks ++ deltas ++ [stop] /\
    decodes "message_start" {| msp_message := Some (am_start m) |} start /\ blocks_streamed 0 (am_blocks m) blocks /\
    Forall2 (decodes "message_delta") (am_deltas m) deltas /\ event_type stop = Some "message_stop".

(** The events that say something of the message; pings and events of other types may come
    between them. *)
Definition message_types : list string :=
  ["message_start"; "content_block_start"; "content_block_delta"; "content_block_stop"; "message_delta"; "message_stop"].
Definition of_message (e : SseEvent) : bool := match event_type e with Some ty => bool_decide (ty ∈ message_types) | None => false end.

(** *** What the parser says *)

Definition fragment_event (i : Z) (raw : string) (f : fragment) : LlmEvent :=
  match f with
  | FText t => TextDelta i t
  | FThinking t => ThinkingDelta i t
  | FJson t => ToolCallArgumentDelta i t
  | FOther => Unknown (Some "content_block_delta") raw
  end.

(** The events of one block, up to the raw text of those that are not decoded. *)
Definition block_events (i : Z) (b : block) (raws : list string) (raw : string) : list LlmEvent :=
  match bl_header b with
  | HTool id name => [ToolCallStart i id name]
  | HOther => [Unknown (Some "content_block_start") raw]
  | _ => []
  end ++ zip_with (fragment_event i) raws (bl_fragments b)
  ++ match bl_header b with HTool _ _ => [ToolCallEnd i] | _ => [] end ++ [ContentBlockEnd i].

Inductive blocks_events : Z -> list block -> list LlmEvent -> Prop :=
| no_blocks_events i : blocks_events i [] []
| one_block_events i b bs raws raw es :
    length raws = length (bl_fragments b) -> blocks_events (i + 1) bs es -> blocks_events i (b :: bs) (block_events i b raws raw ++ es).

Lemma parse_delta p i f e : delta_of i f e -> parse_event p e = ([fragment_event i (data e) f], p).
Proof.
  intros Hd. unfold parse_event, anthropic_stream, delegate, anthropic_parse_event, anthropic_block_delta.
  destruct p as [[bs] pr], f as [t|t|t|]; destruct Hd as [-> Hf]; cbn; by rewrite Hf.
Qed.

Lemma parse_deltas p i fs es rest : Forall2 (delta_of i) fs es ->
  parse_events p (es ++ rest) = let '(out, p') := parse_events p rest in (zip_with (fragment_event i) (map data es) fs ++ out, p').
Proof.
  induction 1 as [|f e fs es Hd _ IH]; cbn [app map zip_with parse_events]; [by destruct (parse_events p rest)|].
  rewrite (parse_delta p i f e Hd), IH. by destruct (parse_events p rest).
Qed.

Lemma parse_block p i b start deltas stop rest :
  starts_block i (bl_header b) start -> Forall2 (delta_of i) (bl_fragments b) deltas -> decodes "content_block_stop" {| cbp_index := Some i |} stop ->
  blocks (inner p) !! i = None ->
  parse_events p (start :: deltas ++ stop :: rest) =
    let '(out, p') := parse_events p rest in (block_events i b (map data deltas) (data start) ++ out, p').
Proof.
  intros Hs Hd [Hty Hst] Hi.
  set (p0 := match bl_header b with
             | HText => {| inner := {| blocks := <[i := TextKind]> (blocks (inner p)) |}; pending_stop_reason := pending_stop_reason p |}
             | HThinking => {| inner := {| blocks := <[i := ThinkingKind]> (blocks (inner p)) |}; pending_stop_reason := pending_stop_reason p |}
             | HTool _ _ => {| inner := {| blocks := <[i := ToolUseKind]> (blocks (inner p)) |}; pending_stop_reason := pending_stop_reason p |}
             | HOther => p
             end).
  assert (parse_event p start = (match bl_header b with HTool id name => [ToolCallStart i id name] | HOther => [Unknown (Some "content_block_start") (data start)] | _ => [] end, p0)) as Hstart.
  { unfold p0, parse_event, anthropic_stream, delegate, anthropic_parse_event, anthropic_block_start. unfold starts_block, decodes, undecoded in Hs.
    destruct p as [[bs] pr], (bl_header b); [destruct Hs as (t & -> & Hf)|destruct Hs as (t & -> & Hf)|destruct Hs as [-> Hf]|destruct Hs as [-> Hf]]; cbn; by rewrite Hf. }
  assert (parse_event p0 stop = (match bl_header b with HTool _ _ => [ToolCallEnd i] | _ => [] end ++ [ContentBlockEnd i], p)) as Hstop.
  { unfold p0, parse_event, anthropic_stream, delegate, anthropic_parse_event, anthropic_block_stop. rewrite Hty.
    destruct p as [[bs] pr], (bl_header b); cbn; rewrite Hst; cbn; cbn in Hi; rewrite ?lookup_insert_eq, ?Hi; cbn; rewrite ?delete_insert_id by done; try done.
    by rewrite delete_id. }
  cbn [parse_events]. rewrite Hstart, (parse_deltas p0 i _ _ _ Hd). cbn [parse_events]. rewrite Hstop.
  destruct (parse_events p rest) as [out p']. unfold block_events. by rewrite <- !app_assoc.
Qed.

Lemma parse_blocks p i bs es rest : blocks_streamed i bs es -> (forall j, blocks (inner p) !! j = None) ->
  exists evs, blocks_events i bs evs /\ parse_events p (es ++ rest) = let '(out, p') := parse_events p rest in (evs ++ out, p').
Proof.
  intros Hb Hp. induction Hb as [i|i b bs start deltas stop es Hs Hd Hst Hb IH].
  - exists []. split; [constructor|]. cbn [app]. by destruct (parse_events p rest).
  - destruct IH as (evs & He & Hpe). exists (block_events i b (map data deltas) (data start) ++ evs). split.
    + constructor; [by rewrite length_map, (Forall2_length _ _ _ Hd)|done].
    + cbn [app]. rewrite <- app_assoc. cbn [app]. rewrite (parse_block p i b start deltas stop (es ++ rest)) by done. rewrite Hpe. destruct (parse_events p rest) as [out p']. by rewrite app_assoc.
Qed.

Lemma parse_message_deltas p ds es rest : Forall2 (decodes "message_delta") ds es ->
  parse_events p (es ++ rest) =
    let '(out, p') := parse_events {| inner := inner p; pending_stop_reason := or_else (anthropic_stop_reason <$> last_some (map (fun d => md_delta d ≫= mdi_stop_reason) ds)) (pending_stop_reason p) |} rest in
    (concat (map (fun d => usage_events (md_usage d)) ds) ++ out, p').
Proof.
  intros Hd. revert p. induction Hd as [|d e ds es [Hty Hf] _ IH]; intros p; cbn [app map concat].
  - destruct p; cbn. by destruct (parse_events _ rest).
  - cbn [parse_events]. assert (parse_event p e = (usage_events (md_usage d), {| inner := inner p; pending_stop_reason := or_else (anthropic_stop_reason <$> (md_delta d ≫= mdi_stop_reason)) (pending_stop_reason p) |})) as ->.
    { unfold parse_event, anthropic_stream. rewrite Hty, Hf, bool_decide_true by done. destruct p. by destruct (md_delta d ≫= mdi_stop_reason). }
    rewrite IH. cbn [inner pending_stop_reason]. rewrite last_some_cons.
    replace (or_else (anthropic_stop_reason <$> or_else (last_some (map (fun d0 => md_delta d0 ≫= mdi_stop_reason) ds)) (md_delta d ≫= mdi_stop_reason)) (pending_stop_reason p))
      with (or_else (anthropic_stop_reason <$> last_some (map (fun d0 => md_delta d0 ≫= mdi_stop_reason) ds)) (or_else (anthropic_stop_reason <$> (md_delta d ≫= mdi_stop_reason)) (pending_stop_reason p)))
      by (destruct (last_some _), (md_delta d ≫= mdi_stop_reason); done).
    destruct (parse_events _ rest) as [out p']. by rewrite app_assoc.
Qed.

(** The events the parser emits for a message. *)
Lemma parse_message m es : message_streamed m es ->
  exists evs, blocks_events 0 (am_blocks m) evs /\ (parse_events AnthropicStreamParserWithState_new es).1 =
    MessageStart (mi_id (am_start m)) (mi_model (am_start m)) :: usage_events (mi_usage (am_start m)) ++ evs ++
    concat (map (fun d => usage_events (md_usage d)) (am_deltas m)) ++ [MessageEnd (anthropic_stop_reason <$> last_stop m)].
Proof.
  intros (start & bs & ds & stop & -> & [Hty Hf] & Hb & Hd & Hstop).
  destruct (parse_blocks AnthropicStreamParserWithState_new 0 _ _ (ds ++ [stop]) Hb (fun j => lookup_empty j)) as (evs & Hev & Hpe). exists evs. split; [done|].
  cbn [parse_events]. assert (parse_event AnthropicStreamParserWithState_new start = (MessageStart (mi_id (am_start m)) (mi_model (am_start m)) :: usage_events (mi_usage (am_start m)), AnthropicStreamParserWithState_new)) as ->.
  { unfold parse_event, anthropic_stream, delegate, anthropic_parse_event, anthropic_message_start. rewrite Hty. cbn. by rewrite Hf. }
  assert (forall p, parse_event p stop = ([MessageEnd (pending_stop_reason p)], {| inner := inner p; pending_stop_reason := None |})) as Hend by (intros p; unfold parse_event, anthropic_stream; by rewrite Hstop).
  rewrite Hpe, (parse_message_deltas _ _ _ [stop] Hd). cbn [parse_events]. rewrite Hend. cbn [inner pending_stop_reason fst app]. 
  change (pending_stop_reason AnthropicStreamParserWithState_new) with (@None StopReason). unfold last_stop. by destruct (last_some _).
Qed.

(** *** What the summary sees *)

(** Events that the parser does not know change nothing of the summary. *)
Lemma parse_others p es c :
  fold_left collect_event (parse_events p es).1 c = fold_left collect_event (parse_events p (List.filter of_message es)).1 c.
Proof.
  revert p c. induction es as [|e es IH]; intros p c; [done|]. cbn [List.filter parse_events]. destruct (of_message e) eqn:E.
  - cbn [parse_events]. destruct (parse_event p e) as [o p1]. specialize (IH p1). destruct (parse_events p1 es), (parse_events p1 (List.filter of_message es)). cbn [fst] in *. by rewrite !fold_left_app.
  - assert (exists o, parse_event p e = (o, p) /\ forall c, fold_left collect_event o c = c) as (o & Hp & Ho).
    { unfold of_message in E. unfold parse_event, anthropic_stream, delegate, anthropic_parse_event. destruct p as [[bs] pr], (event_type e) as [ty|]; [|by eexists].
      apply bool_decide_eq_false in E. unfold message_types in E. rewrite !not_elem_of_cons in E. destruct E as (E1 & E2 & E3 & E4 & E5 & E6 & _).
      do 8 rewrite bool_decide_false by congruence. cbn [inner]. destruct (bool_decide (ty = "ping")); by eexists. }
    rewrite Hp. specialize (IH p). destruct (parse_events p es). cbn [fst] in *. by rewrite fold_left_app, Ho.
Qed.

Lemma sconcat_map_nil {A} (f : A -> string) l : Forall (fun x => f x = "") l -> sconcat (map f l) = "".
Proof. induction 1 as [|x l Hx _ IH]; simpl; [done|]. by rewrite Hx, IH. Qed.

Lemma sconcat_fragments (g : LlmEvent -> string) (h : fragment -> string) i raws fs :
  (forall raw f, g (fragment_event i raw f) = h f) -> length raws = length fs ->
  sconcat (map g (zip_with (fragment_event i) raws fs)) = sconcat (map h fs).
Proof.
  intros Hg. revert fs. induction raws as [|r raws IH]; intros [|f fs] Hl; try done. cbn. rewrite Hg, IH; [done|]. by injection Hl.
Qed.

Lemma sconcat_blocks i bs evs : blocks_events i bs evs ->
  sconcat (map text_of evs) = sconcat (map block_text bs) /\ sconcat (map thinking_of evs) = sconcat (map block_thinking bs).
Proof.
  induction 1 as [|i b bs raws raw es Hl _ [IHt IHth]]; [done|]. rewrite !map_app, !sconcat_app, IHt, IHth. cbn [map sconcat]. unfold block_events, block_text, block_thinking. rewrite !map_app, !sconcat_app.
  rewrite (sconcat_fragments text_of fragment_text), (sconcat_fragments thinking_of fragment_thinking) by (done || by intros ? []).
  destruct (bl_header b); cbn [map sconcat text_of thinking_of]; rewrite ?sapp_nil_l, ?sapp_nil_r; split; done.
Qed.

(** Blocks carry no model, usage or end. *)
Lemma blocks_events_content i bs evs : blocks_events i bs evs ->
  Forall (fun e => model_of e = None /\ input_of e = None /\ output_of e = None /\ ends_of e = None /\ forall k, detail_of k e = None) evs.
Proof.
  induction 1 as [|i b bs raws raw es _ _ IH]; [constructor|]. apply Forall_app_2; [|done]. unfold block_events. repeat apply Forall_app_2.
  - destruct (bl_header b); by repeat constructor.
  - apply Forall_forall. intros e He. apply elem_of_zip_with in He as (r & f & -> & _). by destruct f.
  - destruct (bl_header b); by repeat constructor.
  - by repeat constructor.
Qed.

Lemma last_some_blocks {A} (f : LlmEvent -> option A) i bs evs pre post : blocks_events i bs evs ->
  (forall e, (model_of e = None /\ input_of e = None /\ output_of e = None /\ ends_of e = None /\ forall k, detail_of k e = None) -> f e = None) ->
  last_some (map f (pre ++ evs ++ post)) = last_some (map f (pre ++ post)).
Proof.
  intros Hb Hf. rewrite !map_app, !last_some_app, (last_some_None (map f evs)).
  - by destruct (last_some (map f post)).
  - apply Forall_map. eapply Forall_impl; [by eapply blocks_events_content|]. auto.
Qed.

Lemma run_args_fragments i raws fs rest : length raws = length fs ->
  run_args i 0 (zip_with (fragment_event i) raws fs ++ ToolCallEnd i :: rest) = sconcat (map fragment_json fs).
Proof.
  revert fs. induction raws as [|r raws IH]; intros [|f fs] Hl; try done; cbn [zip_with app map sconcat]; [cbn; by rewrite Z.eqb_refl|].
  injection Hl as Hl. destruct f; cbn [fragment_event run_args fragment_json]; rewrite ?Z.eqb_refl; cbn [andb Nat.eqb]; by rewrite IH.
Qed.

Lemma started_calls_no_start es rest :
  Forall (fun e => match e with ToolCallStart _ _ _ => False | _ => True end) es ->
  started_calls (es ++ rest) = started_calls rest.
Proof. induction 1 as [|e es He _ IH]; [done|]. destruct e; cbn [app started_calls]; done. Qed.

Lemma fragments_no_start i raws fs : Forall (fun e => match e with ToolCallStart _ _ _ => False | _ => True end) (zip_with (fragment_event i) raws fs).
Proof. apply Forall_forall. intros e He. apply elem_of_zip_with in He as (r & f & -> & _). by destruct f. Qed.

Lemma started_calls_blocks i bs evs rest : blocks_events i bs evs ->
  started_calls (evs ++ rest) = block_tools i bs ++ started_calls rest.
Proof.
  induction 1 as [|i b bs raws raw es Hl _ IH]; [done|]. cbn [block_tools]. rewrite <- !app_assoc, <- IH. unfold block_events, block_tool.
  destruct (bl_header b) as [| |id name|]; cbn [app started_calls]; rewrite <- ?app_assoc; cbn [app].
  - rewrite started_calls_no_start by apply fragments_no_start. done.
  - rewrite started_calls_no_start by apply fragments_no_start. done.
  - rewrite run_args_fragments by done. f_equal. rewrite started_calls_no_start by apply fragments_no_start. done.
  - rewrite started_calls_no_start by apply fragments_no_start. done.
Qed.

Lemma block_tools_sorted i bs :
  Forall (fun tc => i <= tc_index tc) (block_tools i bs) /\
  StronglySorted (fun a b => tc_index a < tc_index b) (block_tools i bs).
Proof.
  revert i. induction bs as [|b bs IH]; intros i; cbn [block_tools]; [split; constructor|].
  destruct (IH (i + 1)) as [Hge Hs].
  assert (Forall (fun tc => i < tc_index tc) (block_tools (i + 1) bs)) as Hgt.
  { eapply Forall_impl; [exact Hge|]. simpl. lia. }
  assert (Forall (fun tc => i <= tc_index tc) (block_tools (i + 1) bs)) as Hge'.
  { eapply Forall_impl; [exact Hge|]. simpl. lia. }
  unfold block_tool. destruct (bl_header b); cbn [app]; try done.
  split; by constructor.
Qed.

(** ** Properties *)

(** A usage report of the message. *)
Lemma last_some_usage {A} (f : LlmEvent -> option A) (g : AnthropicUsage -> option A) us :
  (forall u, f (usage_event u) = g u) -> last_some (map f (concat (map usage_events us))) = last_some (map g (omap id us)).
Proof.
  intros Hf. induction us as [|[u|] us IH]; [done| |done]. cbn [map concat usage_events app omap list_omap id]. rewrite !last_some_cons, IH. by rewrite Hf.
Qed.

Lemma usage_Forall (P : LlmEvent -> Prop) o : (forall u, P (usage_event u)) -> Forall P (usage_events o).
Proof. intros HP. destruct o; by repeat constructor. Qed.

Lemma usages_Forall (P : LlmEvent -> Prop) os : (forall u, P (usage_event u)) -> Forall P (concat (map usage_events os)).
Proof. intros HP. induction os as [|o os IH]; [constructor|]. apply Forall_app_2; [by apply usage_Forall|done]. Qed.

(** A message streamed by the Anthropic API is summarised exactly: from its SSE events, pings
    and events of unknown types between them, the parser and the collector recover its
    model, text, thinking, every tool call with its block index, id, name and whole argument
    text, in block order, the last token counts it reports and its last stop reason. *)
Theorem anthropic_message_summary (m : message) (es : list SseEvent) (Hm : message_streamed m (List.filter of_message es)) :
  let s := collect_summary (parse_events AnthropicStreamParserWithState_new es).1 in
  ss_model s = mi_model (am_start m) /\
  ss_text s = sconcat (map block_text (am_blocks m)) /\
  ss_thinking s = sconcat (map block_thinking (am_blocks m)) /\
  tool_calls s = block_tools 0 (am_blocks m) /\
  ss_input_tokens s = last_usage au_input_tokens m /\ ss_output_tokens s = last_usage au_output_tokens m /\
  usage_details s !! "cache_read" = last_usage cache_read_input_tokens m /\
  ss_stop_reason s = anthropic_stop_reason <$> last_stop m.
Proof.
  destruct (parse_message m _ Hm) as (evs & Hev & Hpe).
  assert (collect_summary (parse_events AnthropicStreamParserWithState_new es).1 = collect_summary (parse_events AnthropicStreamParserWithState_new (List.filter of_message es)).1) as ->
    by (unfold collect_summary; by rewrite parse_others). rewrite Hpe. clear Hm Hpe.
  set (evs' := MessageStart _ _ :: _). cbv zeta.
  assert (evs' = (MessageStart (mi_id (am_start m)) (mi_model (am_start m)) :: usage_events (mi_usage (am_start m))) ++ evs ++ concat (map usage_events (map md_usage (am_deltas m))) ++ [MessageEnd (anthropic_stop_reason <$> last_stop m)]) as Heq
    by (unfold evs'; by rewrite map_map).
  assert (forall {A} (f : LlmEvent -> option A) (g : AnthropicUsage -> option A), (forall u, f (usage_event u) = g u) -> f (MessageStart (mi_id (am_start m)) (mi_model (am_start m))) = None ->
    f (MessageEnd (anthropic_stop_reason <$> last_stop m)) = None ->
    (forall e, (model_of e = None /\ input_of e = None /\ output_of e = None /\ ends_of e = None /\ forall k, detail_of k e = None) -> f e = None) -> last_some (map f evs') = last_some (map g (usages m))) as Hus.
  { intros A f g Hu Hs He Hb. rewrite Heq, (last_some_blocks f 0 (am_blocks m)) by done. unfold usages.
    rewrite <- (last_some_usage f g) by done. rewrite !map_app, !last_some_app. cbn [map concat]. rewrite last_some_cons, Hs, He, map_app, last_some_app.
    destruct (last_some (map f (concat (map usage_events (map md_usage (am_deltas m)))))); cbn; [done|]. by destruct (last_some (map f (usage_events (mi_usage (am_start m))))). }
  destruct (summary_fields evs') as (-> & -> & -> & -> & -> & -> & ->).
  split; [|split; [|split; [|split; [|split; [|split; [|split]]]]]].
  - rewrite Heq, (last_some_blocks model_of 0 (am_blocks m)) by (done || by intros e (? & _)). cbn [map app]. rewrite last_some_cons. cbn [model_of].
    rewrite (last_some_None (map model_of _)); [done|]. apply Forall_map, Forall_app_2; [apply usage_Forall; done|]. apply Forall_app_2; [by apply usages_Forall|by repeat constructor].
  - rewrite Heq, !map_app, !sconcat_app. destruct (sconcat_blocks _ _ _ Hev) as [-> _]. cbn [map sconcat text_of]. rewrite !(sconcat_map_nil text_of) by (apply usage_Forall || apply usages_Forall; done). by rewrite !sapp_nil_r, ?sapp_nil_l.
  - rewrite Heq, !map_app, !sconcat_app. destruct (sconcat_blocks _ _ _ Hev) as [_ ->]. cbn [map sconcat thinking_of]. rewrite !(sconcat_map_nil thinking_of) by (apply usage_Forall || apply usages_Forall; done). by rewrite !sapp_nil_r, ?sapp_nil_l.
  - unfold collect_summary. cbn [tool_calls]. apply sort_by_key_unique; [|apply block_tools_sorted].
    rewrite (collect_calls _ Collect_new). cbn [Collect_new completed builders finish_open app]. rewrite Heq. cbn [app started_calls].
    rewrite started_calls_no_start by (apply usage_Forall; done). rewrite (started_calls_blocks _ _ _ _ Hev), started_calls_no_start by (apply usages_Forall; done). cbn [started_calls]. by rewrite app_nil_r.
  - apply Hus; try done. by intros e (_ & ? & _).
  - apply Hus; try done. by intros e (_ & _ & ? & _).
  - apply Hus; try done; [|by intros e (_ & _ & _ & _ & ?)]. intros u. cbn [usage_event detail_of]. unfold detail. destruct (cache_read_input_tokens u); [by rewrite lookup_insert_eq|done].
  - rewrite Heq, (last_some_blocks ends_of 0 (am_blocks m)) by (done || by intros e (_ & _ & _ & ? & _)). rewrite !map_app, !last_some_app. done.
Qed.

End Stream.

(** A stream decoded by a concrete codec. *)
Section Demo.

#[local] Instance AnthropicUsage_eq_dec : EqDecision AnthropicUsage.
Proof. solve_decision. Defined.
#[local] Instance AnthropicUsage_countable : Countable AnthropicUsage.
Proof.
  refine (inj_countable' (fun u => (au_input_tokens u, au_output_tokens u, cache_read_input_tokens u))
    (fun '(a, b, c) => {| au_input_tokens := a; au_output_tokens := b; cache_read_input_tokens := c |}) _).
  by intros [].
Defined.
#[local] Instance MessageInfo_eq_dec : EqDecision MessageInfo.
Proof. solve_decision. Defined.
#[local] Instance MessageInfo_countable : Countable MessageInfo.
Proof.
  refine (inj_countable' (fun m => (mi_id m, mi_model m, mi_usage m))
    (fun '(a, b, c) => {| mi_id := a; mi_model := b; mi_usage := c |}) _).
  by intros [].
Defined.
#[local] Instance MessageStartPayload_eq_dec : EqDecision MessageStartPayload.
Proof. solve_decision. Defined.
#[local] Instance MessageStartPayload_countable : Countable MessageStartPayload.
Proof.
  refine (inj_countable' msp_message (fun a => {| msp_message := a |}) _). by intros [].
Defined.
#[local] Instance ContentBlock_eq_dec : EqDecision ContentBlock.
Proof. solve_decision. Defined.
#[local] Instance ContentBlock_countable : Countable ContentBlock.
Proof.
  refine (inj_countable'
    (fun b => match b with TextBlock t => inl (inl t) | ThinkingBlock t => inl (inr t)
              | ToolUseBlock i n => inr (i, n) end)
    (fun c => match c with inl (inl t) => TextBlock t | inl (inr t) => ThinkingBlock t
              | inr (i, n) => ToolUseBlock i n end) _).
  by intros [].
Defined.
#[local] Instance ContentBlockStart_eq_dec : EqDecision ContentBlockStart.
Proof. solve_decision. Defined.
#[local] Instance ContentBlockStart_countable : Countable ContentBlockStart.
Proof.
  refine (inj_countable' (fun b => (cbs_index b, content_block b))
    (fun '(a, b) => {| cbs_index := a; content_block := b |}) _). by intros [].
Defined.
#[local] Instance Delta_eq_dec : EqDecision Delta.
Proof. solve_decision. Defined.
#[local] Instance Delta_countable : Countable Delta.
Proof.
  refine (inj_countable'
    (fun d => match d with DeltaText t => inl (inl t) | DeltaInputJson t => inl (inr t)
              | DeltaThinking t => inr t end)
    (fun c => match c with inl (inl t) => DeltaText t | inl (inr t) => DeltaInputJson t
              | inr t => DeltaThinking t end) _).
  by intros [].
Defined.
#[local] Instance ContentBlockDelta_eq_dec : EqDecision ContentBlockDelta.
Proof. solve_decision. Defined.
#[local] Instance ContentBlockDelta_countable : Countable ContentBlockDelta.
Proof.
  refine (inj_countable' (fun b => (cbd_index b, cbd_delta b))
    (fun '(a, b) => {| cbd_index := a; cbd_delta := b |}) _). by intros [].
Defined.
#[local] Instance ContentBlockStop_eq_dec : EqDecision ContentBlockStop.
Proof. solve_decision. Defined.
#[local] Instance ContentBlockStop_countable : Countable ContentBlockStop.
Proof. refine (inj_countable' cbp_index (fun a => {| cbp_index := a |}) _). by intros []. Defined.
#[local] Instance MessageDeltaInner_eq_dec : EqDecision MessageDeltaInner.
Proof. solve_decision. Defined.
#[local] Instance MessageDeltaInner_countable : Countable MessageDeltaInner.
Proof. refine (inj_countable' mdi_stop_reason (fun a => {| mdi_stop_reason := a |}) _). by intros []. Defined.
#[local] Instance MessageDelta_eq_dec : EqDecision MessageDelta.
Proof. solve_decision. Defined.
#[local] Instance MessageDelta_countable : Countable MessageDelta.
Proof.
  refine (inj_countable' (fun b => (md_delta b, md_usage b))
    (fun '(a, b) => {| md_delta := a; md_usage := b |}) _). by intros [].
Defined.

#[local] Instance demo_wire : AnthropicWire := {|
  message_start_json := countable_json;
  content_block_start_json := countable_json;
  content_block_delta_json := countable_json;
  content_block_stop_json := countable_json;
  message_delta_json := countable_json;
|}.

Definition demo_message : message :=
  {| am_start := {| mi_id := Some "msg_1"; mi_model := Some "claude"; mi_usage := Some {| au_input_tokens := Some 10; au_output_tokens := Some 1; cache_read_input_tokens := Some 5 |} |};
     am_blocks := [{| bl_header := HThinking; bl_fragments := [FThinking "hm"; FOther] |}; {| bl_header := HText; bl_fragments := [FText "a"; FText "b"] |};
                   {| bl_header := HOther; bl_fragments := [FJson "{"] |}; {| bl_header := HTool "t1" "bash"; bl_fragments := [FJson "{"; FJson "}"] |}];
     am_deltas := [{| md_delta := Some {| mdi_stop_reason := Some "tool_use" |}; md_usage := Some {| au_input_tokens := None; au_output_tokens := Some 20; cache_read_input_tokens := None |} |}] |}.

Definition sse (ty data : string) : SseEvent := {| event_type := Some ty; data := data |}.

Definition demo_block (i : Z) (h : option ContentBlock) (ds : list (option Delta)) : list SseEvent :=
  sse "content_block_start" (match h with Some h => countable_text {| cbs_index := Some i; content_block := Some h |} | None => "redacted" end)
  :: map (fun d => sse "content_block_delta" (match d with Some d => countable_text {| cbd_index := Some i; cbd_delta := Some d |} | None => "signature" end)) ds
  ++ [sse "content_block_stop" (countable_text {| cbp_index := Some i |})].

Definition demo_start : SseEvent := sse "message_start" (countable_text {| msp_message := Some (am_start demo_message) |}).
Definition demo_blocks : list SseEvent :=
  demo_block 0 (Some (ThinkingBlock (Some ""))) [Some (DeltaThinking (Some "hm")); None] ++ demo_block 1 (Some (TextBlock (Some ""))) [Some (DeltaText (Some "a")); Some (DeltaText (Some "b"))]
  ++ demo_block 2 None [Some (DeltaInputJson (Some "{"))] ++ demo_block 3 (Some (ToolUseBlock (Some "t1") (Some "bash"))) [Some (DeltaInputJson (Some "{")); Some (DeltaInputJson (Some "}"))].
Definition demo_end : list SseEvent :=
  [sse "message_delta" (countable_text (List.hd {| md_delta := None; md_usage := None |} (am_deltas demo_message))); sse "message_stop" "{}"].

Definition demo_message_sse : list SseEvent := [demo_start; sse "ping" "{}"] ++ demo_blocks ++ [sse "ping" "{}"] ++ demo_end.

Lemma demo_streamed : message_streamed demo_message (List.filter of_message demo_message_sse).
Proof.
  assert (List.filter of_message demo_message_sse = demo_start :: demo_blocks ++ demo_end) as -> by reflexivity.
  assert (forall A (f : FromJson A) ty (x : A) d, f d = Some x -> @decodes A f ty x (sse ty d)) as Hd by (intros A f ty x d Hf; by split).
  eexists _, demo_blocks, [_], _. split; [reflexivity|]. split; [apply Hd, countable_json_text|]. split.
  - unfold demo_blocks, demo_block. cbn [map app].
    apply (one_block _ _ _ _ [_; _]); [eexists; apply Hd, countable_json_text|constructor; [apply Hd, countable_json_text|by repeat constructor]|apply Hd, countable_json_text|].
    apply (one_block _ _ _ _ [_; _]); [eexists; apply Hd, countable_json_text|repeat constructor; apply countable_json_text|apply Hd, countable_json_text|].
    apply (one_block _ _ _ _ [_]); [by split|repeat constructor; apply countable_json_text|apply Hd, countable_json_text|].
    apply (one_block _ _ _ _ [_; _]); [apply Hd, countable_json_text|repeat constructor; apply countable_json_text|apply Hd, countable_json_text|constructor].
  - split; [|reflexivity]. repeat constructor.
Qed.

Lemma anthropic_message_summary_witness :
  let s := collect_summary (parse_events AnthropicStreamParserWithState_new demo_message_sse).1 in
  ss_text s = "ab" /\
  tool_calls s = [{| tc_index := 3; tc_call_id := "t1"; tc_name := "bash"; tc_arguments := "{}" |}] /\
  ss_stop_reason s = Some ToolUse.
Proof.
  pose proof (anthropic_message_summary demo_message demo_message_sse demo_streamed) as (_ & Ht & _ & Hc & _ & _ & _ & Hs).
  split; [exact Ht|]. split; [exact Hc|exact Hs].
Defined.

End Demo.
