(* ===== verification/OpenAiStream.v ===== *)
(** The OpenAI stream parser: crates/clawcage-core/src/gateway/openai.rs, for both
    the Chat Completions and the Responses wire formats. *)

From Stdlib Require Import ZArith Lia.
From stdpp Require Import base numbers list gmap strings sorting.
From S2P Require Import Prelude RustStr Utf8 Sse Events.

(** ** Wire types *)

Record PromptTokensDetails := { cached_tokens : option Z }.
Record CompletionTokensDetails := { reasoning_tokens : option Z }.

Record ChatUsage := {
  prompt_tokens : option Z;
  completion_tokens : option Z;
  prompt_tokens_details : option PromptTokensDetails;
  completion_tokens_details : option CompletionTokensDetails;
}.

Record FunctionDelta := { fd_name : option string; fd_arguments : option string }.

Record ToolCallDelta := {
  tcd_index : option Z;
  tcd_id : option string;
  tcd_function : option FunctionDelta;
}.

Record ChoiceDelta := { cd_content : option string; cd_tool_calls : option (list ToolCallDelta) }.

Record Choice := {
  ch_index : option Z;
  ch_delta : option ChoiceDelta;
  ch_finish_reason : option string;
}.

Record ChatCompletionChunk := {
  ccc_id : option string;
  ccc_model : option string;
  ccc_choices : option (list Choice);
  ccc_usage : option ChatUsage;
}.

Record ResponseUsage := {
  ru_input_tokens : option Z;
  ru_output_tokens : option Z;
  input_tokens_details : option PromptTokensDetails;
  output_tokens_details : option CompletionTokensDetails;
}.

Record ResponseInfo := {
  ri_id : option string;
  ri_model : option string;
  ri_usage : option ResponseUsage;
}.

Record ResponseCreated := { rcr_response : option ResponseInfo }.
Record ResponseCompleted := { rco_response : option ResponseInfo }.

Record OutputItem := {
  oi_id : option string;
  item_type : option string;
  oi_call_id : option string;
  oi_name : option string;
}.

Record OutputItemAdded := { oia_output_index : option Z; oia_item : option OutputItem }.
Record OutputItemDone := { oid_output_index : option Z; oid_item : option OutputItem }.

Record OutputTextDelta := { otd_output_index : option Z; otd_delta : option string }.
Record ReasoningSummaryTextDelta := { rsd_output_index : option Z; rsd_delta : option string }.
Record FunctionCallArgumentsDelta := { fcd_output_index : option Z; fcd_delta : option string }.

Class OpenAiWire := {
  chat_chunk_json :: FromJson ChatCompletionChunk;
  response_created_json :: FromJson ResponseCreated;
  response_completed_json :: FromJson ResponseCompleted;
  output_item_added_json :: FromJson OutputItemAdded;
  output_item_done_json :: FromJson OutputItemDone;
  output_text_delta_json :: FromJson OutputTextDelta;
  reasoning_delta_json :: FromJson ReasoningSummaryTextDelta;
  arguments_delta_json :: FromJson FunctionCallArgumentsDelta;
}.

(** ** The parser *)

Record OpenAiStreamParser := { oa_started : bool }.

Definition OpenAiStreamParser_new : OpenAiStreamParser := {| oa_started := false |}.

Definition openai_stop_reason (s : string) : StopReason :=
  if bool_decide (s = "stop") then EndTurn
  else if bool_decide (s = "tool_calls") then ToolUse
  else if bool_decide (s = "length") then MaxTokens
  else if bool_decide (s = "content_filter") then ContentFilter
  else OtherReason s.

(** [if let Some(text) = d { if !text.is_empty() { ... } }] *)
Definition nonempty_delta (d : option string) (mk : string -> LlmEvent) : list LlmEvent :=
  match d with
  | Some text => if is_empty text then [] else [mk text]
  | None => []
  end.

Definition token_details (ptd : option PromptTokensDetails) (ctd : option CompletionTokensDetails)
  : gmap string Z :=
  detail "thinking" (ctd ≫= reasoning_tokens) (detail "cache_read" (ptd ≫= cached_tokens) ∅).

Definition response_completed_events (rc : ResponseCompleted) : list LlmEvent :=
  match rco_response rc ≫= ri_usage with
  | Some usage =>
      [Usage (ru_input_tokens usage) (ru_output_tokens usage)
         (token_details (input_tokens_details usage) (output_tokens_details usage))]
  | None => []
  end ++ [MessageEnd (Some EndTurn)].

Definition is_function_call (item : option OutputItem) : bool :=
  bool_decide (item ≫= item_type = Some "function_call").

Section OpenAi.
Context `{OpenAiWire}.

Definition parse_responses_event (self : OpenAiStreamParser) (event_type data : string)
  : list LlmEvent * OpenAiStreamParser :=
  if bool_decide (event_type = "response.created") then
    match from_str (A := ResponseCreated) data with
    | Some rc =>
        let resp := rcr_response rc in
        ([MessageStart (resp ≫= ri_id) (resp ≫= ri_model)], {| oa_started := true |})
    | None => ([], self)
    end
  else if bool_decide (event_type = "response.output_item.added") then
    (match from_str (A := OutputItemAdded) data with
     | Some item =>
         match oia_item item with
         | Some oi =>
             if is_function_call (Some oi)
             then [ToolCallStart (default 0 (oia_output_index item)) (default "" (oi_call_id oi))
                     (default "" (oi_name oi))]
             else []
         | None => []
         end
     | None => []
     end, self)
  else if bool_decide (event_type = "response.output_text.delta") then
    (match from_str (A := OutputTextDelta) data with
     | Some td => nonempty_delta (otd_delta td) (TextDelta (default 0 (otd_output_index td)))
     | None => []
     end, self)
  else if bool_decide (event_type = "response.reasoning_summary_text.delta") then
    (match from_str (A := ReasoningSummaryTextDelta) data with
     | Some td => nonempty_delta (rsd_delta td) (ThinkingDelta (default 0 (rsd_output_index td)))
     | None => []
     end, self)
  else if bool_decide (event_type = "response.function_call_arguments.delta") then
    (match from_str (A := FunctionCallArgumentsDelta) data with
     | Some fd => nonempty_delta (fcd_delta fd) (ToolCallArgumentDelta (default 0 (fcd_output_index fd)))
     | None => []
     end, self)
  else if bool_decide (event_type = "response.output_item.done") then
    (match from_str (A := OutputItemDone) data with
     | Some done =>
         if is_function_call (oid_item done)
         then [ToolCallEnd (default 0 (oid_output_index done))] else []
     | None => []
     end, self)
  else if bool_decide (event_type = "response.completed") then
    (match from_str (A := ResponseCompleted) data with
     | Some rc => response_completed_events rc
     | None => []
     end, self)
  else ([], self).

Definition tool_delta_events (tc : ToolCallDelta) : list LlmEvent :=
  let tc_index := default 0 (tcd_index tc) in
  match tcd_id tc with
  | Some id => [ToolCallStart tc_index id (default "" (tcd_function tc ≫= fd_name))]
  | None => []
  end ++ nonempty_delta (tcd_function tc ≫= fd_arguments) (ToolCallArgumentDelta tc_index).

Definition choice_events (choice : Choice) : list LlmEvent :=
  match ch_delta choice with
  | Some delta =>
      nonempty_delta (cd_content delta) (TextDelta (default 0 (ch_index choice)))
      ++ flat_map tool_delta_events (default [] (cd_tool_calls delta))
  | None => []
  end ++
  match ch_finish_reason choice with
  | Some reason => [MessageEnd (Some (openai_stop_reason reason))]
  | None => []
  end.

Definition chat_chunk_events (self : OpenAiStreamParser) (chunk : ChatCompletionChunk)
  : list LlmEvent * OpenAiStreamParser :=
  ((if oa_started self then [] else [MessageStart (ccc_id chunk) (ccc_model chunk)])
   ++ flat_map choice_events (default [] (ccc_choices chunk))
   ++ match ccc_usage chunk with
      | Some usage =>
          [Usage (prompt_tokens usage) (completion_tokens usage)
             (token_details (prompt_tokens_details usage) (completion_tokens_details usage))]
      | None => []
      end,
   {| oa_started := true |}).

Definition parse_chat_event (self : OpenAiStreamParser) (sse : SseEvent)
  : list LlmEvent * OpenAiStreamParser :=
  match from_str (A := ChatCompletionChunk) (data sse) with
  | None => ([Unknown (event_type sse) (data sse)], self)
  | Some chunk => chat_chunk_events self chunk
  end.

#[export] Instance openai_stream : ProviderStreamParser OpenAiStreamParser :=
  fun self sse =>
    match event_type sse with
    | Some et =>
        if starts_with et "response." then parse_responses_event self et (data sse)
        else parse_chat_event self sse
    | None => parse_chat_event self sse
    end.

(** ** Lemmas *)

Definition chunk_choices (c : ChatCompletionChunk) : list Choice := default [] (ccc_choices c).
Definition choice_text (c : Choice) : string := default "" (ch_delta c ≫= cd_content).

(** An event of the Chat Completions format that carries the chunk. *)
Definition carries (e : SseEvent) (c : ChatCompletionChunk) : Prop :=
  event_type e = None /\ from_str (data e) = Some c.

Lemma parse_chat_started events chunks :
  Forall2 carries events chunks ->
  parse_events {| oa_started := true |} events =
  (flat_map (fun c => (chat_chunk_events {| oa_started := true |} c).1) chunks,
   {| oa_started := true |}).
Proof.
  induction 1 as [|e c es cs [Ht Hd] _ IH]; [done|]. cbn [parse_events flat_map].
  unfold parse_event at 1, openai_stream at 1. rewrite Ht. unfold parse_chat_event at 1. rewrite Hd.
  destruct (chat_chunk_events _ c) as [o s] eqn:E. injection E as <- <-. by rewrite IH.
Qed.

Lemma parse_chat_fresh e c events chunks :
  Forall2 carries (e :: events) (c :: chunks) ->
  (parse_events OpenAiStreamParser_new (e :: events)).1 =
  MessageStart (ccc_id c) (ccc_model c)
  :: flat_map (fun c => (chat_chunk_events {| oa_started := true |} c).1) (c :: chunks).
Proof.
  intros [[Ht Hd] Hrest]%Forall2_cons. cbn [parse_events flat_map].
  unfold parse_event at 1, openai_stream at 1. rewrite Ht. unfold parse_chat_event at 1. rewrite Hd.
  cbn [chat_chunk_events oa_started OpenAiStreamParser_new]. by rewrite (parse_chat_started _ chunks).
Qed.

Lemma sconcat_flat_map {A} (f : LlmEvent -> string) (g : A -> list LlmEvent) l :
  sconcat (map f (flat_map g l)) = sconcat (map (fun x => sconcat (map f (g x))) l).
Proof. induction l as [|x l IH]; cbn [flat_map map sconcat]; [done|]. by rewrite map_app, sconcat_app, IH. Qed.

Lemma nonempty_delta_text d mk f :
  (forall t, f (mk t) = t) -> sconcat (map f (nonempty_delta d mk)) = default "" d.
Proof. intros Hf. destruct d as [[|c t]|]; simpl; rewrite ?Hf, ?sapp_nil_r; done. Qed.

Lemma tool_deltas_no_text l : sconcat (map text_of (flat_map tool_delta_events l)) = "".
Proof.
  induction l as [|tc l IH]; cbn [flat_map]; [done|].
  rewrite map_app, sconcat_app, IH. unfold tool_delta_events.
  destruct (tcd_id tc), (tcd_function tc ≫= fd_arguments) as [[]|]; done.
Qed.

Lemma choice_events_text c : sconcat (map text_of (choice_events c)) = choice_text c.
Proof.
  unfold choice_events, choice_text. rewrite map_app, sconcat_app.
  assert (sconcat (map text_of (match ch_finish_reason c with
            | Some reason => [MessageEnd (Some (openai_stop_reason reason))] | None => [] end)) = "")
    as -> by (by destruct (ch_finish_reason c)).
  rewrite sapp_nil_r. destruct (ch_delta c) as [d|]; [|done].
  rewrite map_app, sconcat_app, tool_deltas_no_text, sapp_nil_r. by apply nonempty_delta_text.
Qed.

Lemma chunk_events_text c :
  sconcat (map text_of (chat_chunk_events {| oa_started := true |} c).1) =
  sconcat (map choice_text (chunk_choices c)).
Proof.
  unfold chat_chunk_events, chunk_choices. cbn [oa_started fst app]. rewrite map_app, sconcat_app.
  assert (sconcat (map text_of (match ccc_usage c with
            | Some u => [Usage (prompt_tokens u) (completion_tokens u)
                           (token_details (prompt_tokens_details u) (completion_tokens_details u))]
            | None => [] end)) = "") as -> by (by destruct (ccc_usage c)).
  rewrite sapp_nil_r, sconcat_flat_map. f_equal. apply map_ext. apply choice_events_text.
Qed.

Lemma last_some_flat_map {A B} (f : LlmEvent -> option B) (g : A -> list LlmEvent) l :
  last_some (map f (flat_map g l)) = last_some (map (fun x => last_some (map f (g x))) l).
Proof.
  induction l as [|x l IH]; cbn [flat_map map last_some]; [done|].
  by rewrite map_app, last_some_app, IH.
Qed.

Lemma tool_deltas_quiet {B} (f : LlmEvent -> option B) l :
  (forall i id n, f (ToolCallStart i id n) = None) -> (forall i d, f (ToolCallArgumentDelta i d) = None) ->
  last_some (map f (flat_map tool_delta_events l)) = None.
Proof.
  intros Hs Hd. rewrite last_some_flat_map. apply last_some_None, Forall_map, Forall_forall.
  intros tc _. unfold tool_delta_events.
  destruct (tcd_id tc), (tcd_function tc ≫= fd_arguments) as [[]|]; simpl; rewrite ?Hs, ?Hd; done.
Qed.

(** The parts of a choice that matter to a field the deltas do not carry. *)
Lemma choice_events_last {B} (f : LlmEvent -> option B) c :
  (forall i id n, f (ToolCallStart i id n) = None) -> (forall i d, f (ToolCallArgumentDelta i d) = None) ->
  (forall i t, f (TextDelta i t) = None) ->
  last_some (map f (choice_events c)) =
  ch_finish_reason c ≫= fun r => f (MessageEnd (Some (openai_stop_reason r))).
Proof.
  intros Hs Hd Ht. unfold choice_events. rewrite map_app, last_some_app.
  assert (last_some (map f (match ch_delta c with
            | Some delta => nonempty_delta (cd_content delta) (TextDelta (default 0 (ch_index c)))
                              ++ flat_map tool_delta_events (default [] (cd_tool_calls delta))
            | None => [] end)) = None) as ->.
  { destruct (ch_delta c) as [d|]; [|done]. rewrite map_app, last_some_app, tool_deltas_quiet by done.
    destruct (cd_content d) as [[]|]; simpl; rewrite ?Ht; done. }
  destruct (ch_finish_reason c); simpl; [|done]. by destruct (f _).
Qed.

Lemma chunk_events_last {B} (f : LlmEvent -> option B) c :
  (forall i id n, f (ToolCallStart i id n) = None) -> (forall i d, f (ToolCallArgumentDelta i d) = None) ->
  (forall i t, f (TextDelta i t) = None) ->
  last_some (map f (chat_chunk_events {| oa_started := true |} c).1) =
  match ccc_usage c ≫= fun u => f (Usage (prompt_tokens u) (completion_tokens u)
          (token_details (prompt_tokens_details u) (completion_tokens_details u))) with
  | Some y => Some y
  | None => last_some (map (fun ch => ch_finish_reason ch ≫=
                         fun r => f (MessageEnd (Some (openai_stop_reason r)))) (chunk_choices c))
  end.
Proof.
  intros Hs Hd Ht. unfold chat_chunk_events, chunk_choices. cbn [oa_started fst app].
  rewrite map_app, last_some_app, last_some_flat_map.
  assert (forall x, last_some (map f (choice_events x)) =
            ch_finish_reason x ≫= fun r => f (MessageEnd (Some (openai_stop_reason r)))) as Hc
    by (intros x; by apply choice_events_last).
  rewrite (map_ext _ _ Hc). by destruct (ccc_usage c).
Qed.

Lemma last_some_pure {A B} (g : A -> option B) l :
  Forall (fun x => g x = None) l -> last_some (map g l) = None.
Proof. intros H0. apply last_some_None, Forall_map, H0. Qed.

Lemma last_some_fmap {A B} (g : A -> B) (l : list (option A)) :
  last_some (map (fun x => g <$> x) l) = g <$> last_some l.
Proof. induction l as [|x l IH]; simpl; [done|]. rewrite IH. by destruct (last_some l). Qed.

Lemma last_some_flat {A B} (g : A -> list (option B)) l :
  last_some (map (fun x => last_some (g x)) l) = last_some (flat_map g l).
Proof. induction l as [|x l IH]; cbn [map flat_map last_some]; [done|]. by rewrite last_some_app, IH. Qed.

(** The last report of a field over the events of all chunks. *)
Lemma chat_last {B} (f : LlmEvent -> option B) (g : ChatCompletionChunk -> option B) m cs :
  f m = None ->
  (forall c, last_some (map f (chat_chunk_events {| oa_started := true |} c).1) = g c) ->
  or_else (last_some (map f (m :: flat_map (fun c => (chat_chunk_events {| oa_started := true |} c).1) cs)))
    None = last_some (map g cs).
Proof.
  intros Hm Hg. cbn [map]. rewrite last_some_cons, Hm, last_some_flat_map, (map_ext _ _ Hg).
  by destruct (last_some (map g cs)).
Qed.

Lemma finish_reasons_quiet {B} (f : LlmEvent -> option B) l :
  (forall r, f (MessageEnd r) = None) ->
  last_some (map (fun ch => ch_finish_reason ch ≫=
    fun r => f (MessageEnd (Some (openai_stop_reason r)))) l) = None.
Proof.
  intros Hf. apply last_some_pure, Forall_forall. intros ch _. by destruct (ch_finish_reason ch); simpl; rewrite ?Hf.
Qed.

(** ** Properties *)

(** A Chat Completions stream is summarised exactly: the model is the one of
    the first chunk (later chunks are ignored), the text is the concatenation of
    every choice's content in stream order, the token counts are those of the last
    chunk that reports them, and the stop reason is that of the last finish
    reason. *)
Theorem openai_chat_summary (e : SseEvent) (events : list SseEvent)
    (c : ChatCompletionChunk) (chunks : list ChatCompletionChunk) :
  Forall2 carries (e :: events) (c :: chunks) ->
  let s := collect_summary (parse_events OpenAiStreamParser_new (e :: events)).1 in
  ss_model s = ccc_model c /\
  ss_text s = sconcat (map (fun c => sconcat (map choice_text (chunk_choices c))) (c :: chunks)) /\
  ss_input_tokens s = last_some (map (fun c => ccc_usage c ≫= prompt_tokens) (c :: chunks)) /\
  ss_output_tokens s = last_some (map (fun c => ccc_usage c ≫= completion_tokens) (c :: chunks)) /\
  ss_stop_reason s =
    openai_stop_reason <$> last_some (flat_map (fun c => map ch_finish_reason (chunk_choices c)) (c :: chunks)).
Proof.
  intros Hc. rewrite (parse_chat_fresh e c events chunks Hc). generalize (c :: chunks) as cs. clear Hc.
  intros cs. set (m := MessageStart (ccc_id c) (ccc_model c)). intros s.
  set (evs := m :: flat_map (fun c => (chat_chunk_events {| oa_started := true |} c).1) cs) in s.
  destruct (collect_fields evs Collect_new) as (Ht & _ & Hm & Hi & Ho & _ & Hs).
  unfold s, collect_summary.
  cbn [ss_text ss_model ss_input_tokens ss_output_tokens ss_stop_reason].
  rewrite Ht, Hm, Hi, Ho, Hs. clear Ht Hm Hi Ho Hs s.
  cbn [Collect_new text model input_tokens output_tokens stop_reason]. subst evs. repeat split.
  - cbn [map]. rewrite last_some_cons, last_some_flat_map, last_some_pure; [by destruct (ccc_model c)|].
    apply Forall_forall. intros x _. rewrite chunk_events_last by done.
    destruct (ccc_usage x); exact (finish_reasons_quiet model_of (chunk_choices x) (fun _ => eq_refl)).
  - cbn [map sconcat]. rewrite sapp_nil_l, sapp_nil_l, sconcat_flat_map.
    by rewrite (map_ext _ _ chunk_events_text).
  - apply chat_last; [done|]. intros x. rewrite chunk_events_last, finish_reasons_quiet by done.
    destruct (ccc_usage x) as [[[]]|]; done.
  - apply chat_last; [done|]. intros x. rewrite chunk_events_last, finish_reasons_quiet by done.
    destruct (ccc_usage x) as [[? []]|]; done.
  - rewrite <- last_some_flat, <- last_some_fmap, map_map.
    assert (forall x : option (option StopReason), or_else x None = x) as Hor by (by intros []).
    rewrite <- (Hor (last_some (map ends_of _))). 
    rewrite (chat_last ends_of (fun c => Some <$> (openai_stop_reason <$> last_some (map ch_finish_reason (chunk_choices c))))).
    + rewrite <- map_map, last_some_fmap. by destruct (last_some _).
    + done.
    + intros x. rewrite chunk_events_last by done.
      assert (ccc_usage x ≫= (fun u => ends_of (Usage (prompt_tokens u) (completion_tokens u)
          (token_details (prompt_tokens_details u) (completion_tokens_details u)))) = None) as ->
        by (by destruct (ccc_usage x)).
      rewrite <- !last_some_fmap, !map_map. f_equal. apply map_ext. intros ch.
      by destruct (ch_finish_reason ch).
Qed.

End OpenAi.

(** ** A stream of two chunks *)

Definition demo_chunk1 : ChatCompletionChunk :=
  {| ccc_id := Some "c1"; ccc_model := Some "gpt";
     ccc_choices := Some [{| ch_index := Some 0;
       ch_delta := Some {| cd_content := Some "he"; cd_tool_calls := None |}; ch_finish_reason := None |}];
     ccc_usage := None |}.

Definition demo_chunk2 : ChatCompletionChunk :=
  {| ccc_id := None; ccc_model := Some "other";
     ccc_choices := Some [{| ch_index := Some 0;
       ch_delta := Some {| cd_content := Some "llo"; cd_tool_calls := None |};
       ch_finish_reason := Some "length" |}];
     ccc_usage := Some {| prompt_tokens := Some 5; completion_tokens := Some 7;
       prompt_tokens_details := None; completion_tokens_details := None |} |}.

Definition demo_openai_wire : OpenAiWire := {|
  chat_chunk_json s := if bool_decide (s = "1") then Some demo_chunk1
                       else if bool_decide (s = "2") then Some demo_chunk2 else None;
  response_created_json s := None;
  response_completed_json s := None;
  output_item_added_json s := None;
  output_item_done_json s := None;
  output_text_delta_json s := None;
  reasoning_delta_json s := None;
  arguments_delta_json s := None;
|}.

Definition chat_event (s : string) : SseEvent := {| event_type := None; data := s |}.

Lemma openai_chat_summary_witness :
  let s := collect_summary (@parse_events _ (@openai_stream demo_openai_wire) OpenAiStreamParser_new
             [chat_event "1"; chat_event "2"]).1 in
  ss_model s = Some "gpt" /\ ss_text s = "hello" /\ ss_stop_reason s = Some MaxTokens.
Proof.
  pose proof (@openai_chat_summary demo_openai_wire (chat_event "1") [chat_event "2"]
    demo_chunk1 [demo_chunk2]) as H.
  destruct H as (Hm & Ht & _ & _ & Hs); [repeat constructor; vm_compute; reflexivity|].
  split; [exact Hm|]. split; [exact Ht|exact Hs].
Defined.
