(* ===== verification/GoogleStream.v ===== *)
(** The Gemini stream parser: crates/clawcage-core/src/gateway/google.rs. *)

From Stdlib Require Import ZArith Lia.
From stdpp Require Import base numbers list gmap strings sorting.
From S2P Require Import Prelude RustStr Utf8 Sse Events.

Section Google.
Context `{SerdeJson}.

(** ** Wire types *)

Record FunctionCall := { fc_name : option string; fc_args : option Value }.

Record Part := {
  part_text : option string;
  function_call : option FunctionCall;
  thought : option bool;
}.

Record Content := { parts : option (list Part) }.

Record Candidate := { content : option Content; ca_finish_reason : option string }.

Record UsageMetadata := {
  prompt_token_count : option Z;
  candidates_token_count : option Z;
  cached_content_token_count : option Z;
  thoughts_token_count : option Z;
}.

Record StreamChunk := {
  candidates : option (list Candidate);
  usage_metadata : option UsageMetadata;
  model_version : option string;
}.

Context `{FromJson StreamChunk}.

(** ** The parser *)

Record GoogleStreamParser := { gg_started : bool; block_index : Z }.

Definition GoogleStreamParser_new : GoogleStreamParser := {| gg_started := false; block_index := 0 |}.

Definition google_stop_reason (s : string) : StopReason :=
  if bool_decide (s = "STOP") then EndTurn
  else if bool_decide (s = "MAX_TOKENS") then MaxTokens
  else if bool_decide (s = "SAFETY") then ContentFilter
  else OtherReason s.

Definition text_part (t : option string) (mk : string -> LlmEvent) : list LlmEvent :=
  match t with
  | Some text => if is_empty text then [] else [mk text]
  | None => []
  end.

Definition call_name (fc : FunctionCall) : string := default "" (fc_name fc).
Definition call_arguments (fc : FunctionCall) : string :=
  match fc_args fc with Some v => json_to_string v | None => "{}" end.

(** The loop body over [parts]; [idx] is [self.block_index]. *)
Definition part_events (idx : Z) (part : Part) : list LlmEvent * Z :=
  if bool_decide (thought part = Some true)
  then (text_part (part_text part) (ThinkingDelta idx), idx)
  else
    let texts := text_part (part_text part) (TextDelta idx) in
    match function_call part with
    | Some fc =>
        (texts ++ [ToolCallStart idx (call_name fc) (call_name fc);
                   ToolCallArgumentDelta idx (call_arguments fc);
                   ToolCallEnd idx],
         as_uN 32 (idx + 1))
    | None => (texts, idx)
    end.

Fixpoint parts_events (idx : Z) (ps : list Part) : list LlmEvent * Z :=
  match ps with
  | [] => ([], idx)
  | p :: ps =>
      let '(es, idx) := part_events idx p in
      let '(rest, idx) := parts_events idx ps in (es ++ rest, idx)
  end.

Definition candidate_parts (c : Candidate) : list Part :=
  match content c with Some ct => default [] (parts ct) | None => [] end.

Fixpoint candidates_events (idx : Z) (cs : list Candidate) : list LlmEvent * Z :=
  match cs with
  | [] => ([], idx)
  | c :: cs =>
      let '(es, idx) := parts_events idx (candidate_parts c) in
      let fin := match ca_finish_reason c with
                 | Some reason => [MessageEnd (Some (google_stop_reason reason))]
                 | None => []
                 end in
      let '(rest, idx) := candidates_events idx cs in (es ++ fin ++ rest, idx)
  end.

Definition metadata_events (u : option UsageMetadata) : list LlmEvent :=
  match u with
  | Some usage =>
      [Usage (prompt_token_count usage) (candidates_token_count usage)
         (detail "thinking" (thoughts_token_count usage)
            (detail "cache_read" (cached_content_token_count usage) ∅))]
  | None => []
  end.

#[export] Instance google_stream : ProviderStreamParser GoogleStreamParser :=
  fun self sse =>
    match from_str (A := StreamChunk) (data sse) with
    | None => ([Unknown (event_type sse) (data sse)], self)
    | Some chunk =>
        let start := if gg_started self then [] else [MessageStart None (model_version chunk)] in
        let '(es, idx) := candidates_events (block_index self) (default [] (candidates chunk)) in
        (start ++ es ++ metadata_events (usage_metadata chunk),
         {| gg_started := true; block_index := idx |})
    end.

(** ** The function calls of a stream *)

Definition part_call (p : Part) : list FunctionCall :=
  if bool_decide (thought p = Some true) then []
  else match function_call p with Some fc => [fc] | None => [] end.

Definition chunk_calls (c : StreamChunk) : list FunctionCall :=
  flat_map (fun ca => flat_map part_call (candidate_parts ca)) (default [] (candidates c)).

Fixpoint numbered (i : Z) (fcs : list FunctionCall) : list ToolCall :=
  match fcs with
  | [] => []
  | fc :: fcs =>
      {| tc_index := i; tc_call_id := call_name fc; tc_name := call_name fc;
         tc_arguments := call_arguments fc |} :: numbered (i + 1) fcs
  end.

Definition len {A} (l : list A) : Z := Z.of_nat (length l).

Definition quiet (e : LlmEvent) : Prop :=
  match e with ToolCallStart _ _ _ => False | _ => True end.

Lemma started_calls_quiet es rest :
  Forall quiet es -> started_calls (es ++ rest) = started_calls rest.
Proof. induction 1 as [|e es He _ IH]; [done|]. destruct e; cbn [app started_calls]; done. Qed.

Lemma text_part_quiet t mk : (forall s, quiet (mk s)) -> Forall quiet (text_part t mk).
Proof. intros Hq. destruct t as [[|c s]|]; simpl; auto. Qed.

Lemma part_events_calls idx p rest :
  0 <= idx -> idx + len (part_call p) < 2 ^ 32 ->
  (part_events idx p).2 = idx + len (part_call p) /\
  started_calls ((part_events idx p).1 ++ rest) = numbered idx (part_call p) ++ started_calls rest.
Proof.
  unfold part_events, part_call.
  intros Hi. destruct (bool_decide (thought p = Some true)); cbn [fst snd]; intros Hlt.
  - split; [unfold len; simpl; lia|]. apply started_calls_quiet, text_part_quiet. done.
  - revert Hlt. destruct (function_call p) as [fc|]; cbn [fst snd]; intros Hlt.
    + split; [apply as_uN_small; unfold in_uN, len in *; cbn [length] in *; lia|].
      rewrite <- app_assoc, started_calls_quiet by (by apply text_part_quiet).
      cbn [app started_calls run_args numbered]. rewrite !Z.eqb_refl. cbn [andb Nat.eqb].
      by rewrite sapp_nil_r.
    + split; [unfold len; simpl; lia|]. apply started_calls_quiet, text_part_quiet. done.
Qed.

Lemma numbered_app i a b : numbered i (a ++ b) = numbered i a ++ numbered (i + len a) b.
Proof.
  revert i. induction a as [|fc a IH]; intros i; cbn [app numbered].
  - f_equal. unfold len. simpl. lia.
  - rewrite IH. do 3 f_equal. unfold len. simpl length. lia.
Qed.

Lemma len_app {A} (a b : list A) : len (a ++ b) = len a + len b.
Proof. unfold len. rewrite length_app. lia. Qed.

Lemma len_nonneg {A} (a : list A) : 0 <= len a.
Proof. unfold len. lia. Qed.

Lemma parts_events_calls idx ps rest :
  0 <= idx -> idx + len (flat_map part_call ps) < 2 ^ 32 ->
  (parts_events idx ps).2 = idx + len (flat_map part_call ps) /\
  started_calls ((parts_events idx ps).1 ++ rest) =
    numbered idx (flat_map part_call ps) ++ started_calls rest.
Proof.
  revert idx rest. induction ps as [|p ps IH]; intros idx rest Hi Hlt; cbn [parts_events flat_map] in *.
  - split; [unfold len; simpl; lia|done].
  - rewrite len_app in *. pose proof (len_nonneg (flat_map part_call ps)).
    pose proof (len_nonneg (part_call p)).
    destruct (part_events_calls idx p
      ((parts_events (part_events idx p).2 ps).1 ++ rest)) as [Hidx Hs]; [lia|lia|].
    destruct (part_events idx p) as [es idx']. cbn [fst snd] in *. subst idx'.
    destruct (IH (idx + len (part_call p)) rest) as [Hidx' Hs']; [lia|lia|].
    destruct (parts_events _ ps) as [es' idx'']. cbn [fst snd] in *.
    split; [lia|]. by rewrite <- app_assoc, Hs, Hs', numbered_app, app_assoc.
Qed.

Definition candidate_calls (ca : Candidate) : list FunctionCall := flat_map part_call (candidate_parts ca).

Lemma candidates_events_calls idx cs rest :
  0 <= idx -> idx + len (flat_map candidate_calls cs) < 2 ^ 32 ->
  (candidates_events idx cs).2 = idx + len (flat_map candidate_calls cs) /\
  started_calls ((candidates_events idx cs).1 ++ rest) =
    numbered idx (flat_map candidate_calls cs) ++ started_calls rest.
Proof.
  revert idx rest. induction cs as [|c cs IH]; intros idx rest Hi Hlt; cbn [candidates_events flat_map] in *.
  - split; [unfold len; simpl; lia|done].
  - rewrite len_app in *. pose proof (len_nonneg (flat_map candidate_calls cs)).
    pose proof (len_nonneg (candidate_calls c)).
    set (fin := match ca_finish_reason c with
                | Some reason => [MessageEnd (Some (google_stop_reason reason))] | None => [] end).
    assert (Forall quiet fin) as Hfin by (subst fin; destruct (ca_finish_reason c); by repeat constructor).
    destruct (parts_events_calls idx (candidate_parts c)
      (fin ++ (candidates_events (parts_events idx (candidate_parts c)).2 cs).1 ++ rest)) as [Hidx Hs];
      [lia|change (flat_map part_call (candidate_parts c)) with (candidate_calls c); lia|].
    change (flat_map part_call (candidate_parts c)) with (candidate_calls c) in *.
    destruct (parts_events idx (candidate_parts c)) as [es idx']. cbn [fst snd] in *. subst idx'.
    destruct (IH (idx + len (candidate_calls c)) rest) as [Hidx' Hs']; [lia|lia|].
    destruct (candidates_events _ cs) as [es' idx'']. cbn [fst snd] in *.
    split; [lia|]. rewrite <- !app_assoc, Hs, started_calls_quiet by done.
    by rewrite Hs', numbered_app, app_assoc.
Qed.

(** A chunk's events, whatever the parser state. *)
Lemma parse_event_calls self e c rest :
  from_str (data e) = Some c ->
  0 <= block_index self -> block_index self + len (chunk_calls c) < 2 ^ 32 ->
  block_index (parse_event self e).2 = block_index self + len (chunk_calls c) /\
  started_calls ((parse_event self e).1 ++ rest) =
    numbered (block_index self) (chunk_calls c) ++ started_calls rest.
Proof.
  intros Hc Hi Hlt. unfold parse_event, google_stream. rewrite Hc.
  destruct (candidates_events_calls (block_index self) (default [] (candidates c))
    (metadata_events (usage_metadata c) ++ rest) Hi Hlt) as [Hidx Hs].
  destruct (candidates_events _ _) as [es idx]. cbn [fst snd block_index] in *. split; [exact Hidx|].
  rewrite <- !app_assoc, started_calls_quiet by (destruct (gg_started self); by repeat constructor).
  rewrite Hs, (started_calls_quiet (metadata_events _)); [done|].
  destruct (usage_metadata c); by repeat constructor.
Qed.

Lemma stream_calls self events chunks :
  Forall2 (fun e c => from_str (data e) = Some c) events chunks ->
  0 <= block_index self -> block_index self + len (flat_map chunk_calls chunks) < 2 ^ 32 ->
  started_calls (parse_events self events).1 = numbered (block_index self) (flat_map chunk_calls chunks).
Proof.
  intros Hec. revert self. induction Hec as [|e c es cs Hc _ IH]; intros self Hi Hlt; [done|].
  cbn [flat_map] in *. rewrite len_app in Hlt. pose proof (len_nonneg (flat_map chunk_calls cs)).
  pose proof (len_nonneg (chunk_calls c)). cbn [parse_events].
  destruct (parse_event_calls self e c (parse_events (parse_event self e).2 es).1 Hc Hi ltac:(lia))
    as [Hidx Hs].
  specialize (IH (parse_event self e).2). destruct (parse_event self e) as [out self']. cbn [fst snd] in *.
  destruct (parse_events self' es) as [outs self'']. cbn [fst] in *.
  rewrite Hs, IH by lia. by rewrite Hidx, numbered_app.
Qed.

Lemma numbered_sorted i fcs :
  Forall (fun tc => i <= tc_index tc) (numbered i fcs) /\
  StronglySorted (fun a b => tc_index a < tc_index b) (numbered i fcs).
Proof.
  revert i. induction fcs as [|fc fcs IH]; intros i; cbn [numbered]; [split; constructor|].
  destruct (IH (i + 1)) as [Hge Hs]. split; constructor; try done; simpl; try lia.
  - eapply Forall_impl; [exact Hge|]. simpl. lia.
  - eapply Forall_impl; [exact Hge|]. simpl. lia.
Qed.

(** ** Properties *)

(** Every function call of a Gemini stream, across all its chunks, candidates
    and parts (thought parts aside), becomes one complete tool call of the summary,
    in stream order, numbered from 0 by the running block index, with the name as
    call id and the printed arguments, as long as the 32-bit index does not
    overflow. *)
Theorem google_tool_calls (events : list SseEvent) (chunks : list StreamChunk) :
  Forall2 (fun e c => from_str (data e) = Some c) events chunks ->
  len (flat_map chunk_calls chunks) < 2 ^ 32 ->
  tool_calls (collect_summary (parse_events GoogleStreamParser_new events).1) =
  numbered 0 (flat_map chunk_calls chunks).
Proof.
  intros Hec Hlt. unfold collect_summary. cbn [tool_calls].
  apply sort_by_key_unique; [|apply numbered_sorted].
  rewrite (collect_calls _ Collect_new). cbn [Collect_new completed builders finish_open app].
  by rewrite (stream_calls _ _ chunks Hec).
Qed.

End Google.

(** ** A stream of two calls *)

Definition demo_json : SerdeJson := {|
  Value := string;
  value_from_slice bs := None;
  get v k := None;
  as_str v := Some v;
  as_u64 v := None;
  as_bool v := None;
  as_array v := None;
  as_object v := None;
  json_to_string v := v;
  json_obj kvs := "{}";
  json_arr vs := "[]";
  json_str s := s;
  json_num z := show_Z z;
  json_bool b := "";
  json_null := "null";
|}.

Definition demo_call (name : string) (args : option string) : @StreamChunk demo_json :=
  @Build_StreamChunk demo_json
    (Some [@Build_Candidate demo_json
       (Some (@Build_Content demo_json
          (Some [@Build_Part demo_json (Some "x") (Some (@Build_FunctionCall demo_json (Some name) args)) None])))
       None]) None None.

Definition demo_google_json : FromJson (@StreamChunk demo_json) :=
  fun s => if bool_decide (s = "a") then Some (demo_call "f" (Some "[1]"))
           else if bool_decide (s = "b") then Some (demo_call "f" None) else None.

Lemma google_tool_calls_witness :
  let ev s := {| event_type := None; data := s |} in
  tool_calls (collect_summary
    (@parse_events _ (@google_stream demo_json demo_google_json) GoogleStreamParser_new [ev "a"; ev "b"]).1)
  = [ {| tc_index := 0; tc_call_id := "f"; tc_name := "f"; tc_arguments := "[1]" |};
      {| tc_index := 1; tc_call_id := "f"; tc_name := "f"; tc_arguments := "{}" |} ].
Proof.
  apply (@google_tool_calls demo_json demo_google_json
    [{| event_type := None; data := "a" |}; {| event_type := None; data := "b" |}]
    [demo_call "f" (Some "[1]"); demo_call "f" None]).
  - repeat constructor; vm_compute; reflexivity.
  - vm_compute. reflexivity.
Defined.
