(* ===== verification/AiBody.v ===== *)
(** The SSE-aware response body: crates/clawcage-core/src/gateway/ai_body.rs.

    [poll_frame] forwards the frames of the upstream body unchanged while feeding
    their bytes to the SSE parser and the provider's stream parser. The two mutexes
    are held only inside a poll, so the state is threaded explicitly. *)

From Stdlib Require Import ZArith Lia Strings.Byte.
From stdpp Require Import base numbers list gmap strings.
From S2P Require Import Prelude RustStr Utf8 Sse Events.

(** A frame of a body: data, or trailers. *)
Inductive Frame := DataFrame (chunk : list byte) | TrailersFrame.

(** What polling the inner body returns. *)
Inductive InnerPoll (E : Type) := InnerFrame (f : Frame) | InnerErr (e : E) | InnerEnd | InnerPending.
Arguments InnerFrame {E} f.
Arguments InnerErr {E} e.
Arguments InnerEnd {E}.
Arguments InnerPending {E}.

Inductive BodyError (E : Type) := Upstream (e : E) | BodyTooLarge.
Arguments Upstream {E} e.
Arguments BodyTooLarge {E}.

Inductive OuterPoll (E : Type) :=
| OuterFrame (f : Frame) | OuterErr (e : BodyError E) | OuterEnd | OuterPending.
Arguments OuterFrame {E} f.
Arguments OuterErr {E} e.
Arguments OuterEnd {E}.
Arguments OuterPending {E}.

Record AiBodyStats := { bytes : Z; preview : list byte; max_preview : nat }.

Section AiBody.
Context {P E : Type} `{ProviderStreamParser P}.

Record AiStreamState := {
  sse_parser : SseParser;
  provider_parser : P;
  events : list LlmEvent;
}.

Record AiResponseBody := {
  stats : AiBodyStats;
  ai_state : AiStreamState;
  max_size : Z;
}.

Definition AiResponseBody_new (provider_parser : P) (max_preview : nat) (max_size : Z) : AiResponseBody :=
  {| stats := {| bytes := 0; preview := []; max_preview := max_preview |};
     ai_state := {| sse_parser := SseParser_new; provider_parser := provider_parser; events := [] |};
     max_size := max_size |}.

(** The parser chain: every SSE event goes through the provider's parser. *)
Definition feed_chain (ai : AiStreamState) (chunk : list byte) : AiStreamState :=
  let '(sse_events, sse) := feed (sse_parser ai) chunk in
  let '(llm_events, p) := parse_events (provider_parser ai) sse_events in
  {| sse_parser := sse; provider_parser := p; events := events ai ++ llm_events |}.

Definition flush_chain (ai : AiStreamState) : AiStreamState :=
  match flush (sse_parser ai) with
  | (Some sse_event, sse) =>
      let '(llm_events, p) := parse_event (provider_parser ai) sse_event in
      {| sse_parser := sse; provider_parser := p; events := events ai ++ llm_events |}
  | (None, sse) =>
      {| sse_parser := sse; provider_parser := provider_parser ai; events := events ai |}
  end.

Definition take_preview (st : AiBodyStats) (bytes : Z) (chunk : list byte) : AiBodyStats :=
  let remaining := (max_preview st - length (preview st))%nat in
  {| bytes := bytes;
     preview := if (0 <? remaining)%nat
                then preview st ++ take (Nat.min remaining (length chunk)) chunk else preview st;
     max_preview := max_preview st |}.

Definition with_stats (self : AiResponseBody) (st : AiBodyStats) : AiResponseBody :=
  {| stats := st; ai_state := ai_state self; max_size := max_size self |}.

Definition with_ai (self : AiResponseBody) (ai : AiStreamState) : AiResponseBody :=
  {| stats := stats self; ai_state := ai; max_size := max_size self |}.

(** [u64] byte count: the addition wraps in a release build. *)
Definition poll_frame (self : AiResponseBody) (inner : InnerPoll E) : OuterPoll E * AiResponseBody :=
  match inner with
  | InnerFrame (DataFrame chunk) =>
      let st := stats self in
      let total := as_uN 64 (bytes st + Z.of_nat (length chunk)) in
      if max_size self <? total
      then (OuterErr BodyTooLarge,
            with_stats self {| bytes := total; preview := preview st; max_preview := max_preview st |})
      else
        let self := with_stats self (take_preview st total chunk) in
        (OuterFrame (DataFrame chunk), with_ai self (feed_chain (ai_state self) chunk))
  | InnerFrame TrailersFrame => (OuterFrame TrailersFrame, self)
  | InnerErr e => (OuterErr (Upstream e), self)
  | InnerEnd => (OuterEnd, with_ai self (flush_chain (ai_state self)))
  | InnerPending => (OuterPending, self)
  end.

Fixpoint poll_all (self : AiResponseBody) (inner : list (InnerPoll E)) : list (OuterPoll E) * AiResponseBody :=
  match inner with
  | [] => ([], self)
  | x :: inner =>
      let '(o, self) := poll_frame self x in
      let '(os, self) := poll_all self inner in (o :: os, self)
  end.

(** ** Lemmas *)

(** The bytes of the data frames polled. *)
Definition chunk_of (x : InnerPoll E) : list byte :=
  match x with InnerFrame (DataFrame c) => c | _ => [] end.

(** What the downstream consumer gets of an inner poll. *)
Definition forward (x : InnerPoll E) : OuterPoll E :=
  match x with
  | InnerFrame f => OuterFrame f
  | InnerErr e => OuterErr (Upstream e)
  | InnerEnd => OuterEnd
  | InnerPending => OuterPending
  end.

Definition body_len (xs : list (InnerPoll E)) : Z := Z.of_nat (length (concat (map chunk_of xs))).

Lemma take_preview_concat st total chunk sofar :
  preview st = take (max_preview st) sofar ->
  preview (take_preview st total chunk) = take (max_preview st) (sofar ++ chunk).
Proof.
  intros Hp. unfold take_preview. cbn [preview]. rewrite Hp, length_take, take_app.
  destruct (Nat.ltb_spec 0 (max_preview st - Nat.min (max_preview st) (length sofar))%nat).
  - f_equal. replace (max_preview st - Nat.min (max_preview st) (length sofar))%nat
      with (max_preview st - length sofar)%nat by lia.
    destruct (Nat.le_ge_cases (length chunk) (max_preview st - length sofar)).
    + rewrite Nat.min_r, firstn_all by done. by rewrite take_ge.
    + by rewrite Nat.min_l.
  - replace (max_preview st - length sofar)%nat with 0%nat by lia. by rewrite take_0, app_nil_r.
Qed.

(** The invariant of the chain: what it has done is what feeding the bytes so far
    does. *)
Definition chain_inv (p0 : P) (sofar : list byte) (ai : AiStreamState) : Prop :=
  exists sse_events,
    feed SseParser_new sofar = (sse_events, sse_parser ai) /\
    parse_events p0 sse_events = (events ai, provider_parser ai).

Lemma feed_chain_inv p0 sofar ai chunk :
  chain_inv p0 sofar ai -> chain_inv p0 (sofar ++ chunk) (feed_chain ai chunk).
Proof.
  intros (es & Hf & Hp). unfold feed_chain.
  destruct (feed (sse_parser ai) chunk) as [es' sse] eqn:Ef.
  destruct (parse_events (provider_parser ai) es') as [out p] eqn:Ep.
  exists (es ++ es'). cbn [sse_parser events provider_parser].
  rewrite feed_app, Hf, Ef, parse_events_app, Hp, Ep. done.
Qed.

Definition not_end (x : InnerPoll E) : Prop := x <> InnerEnd.

(** Polling within the size limit. *)
Lemma poll_all_within p0 xs self sofar :
  Forall not_end xs ->
  chain_inv p0 sofar (ai_state self) ->
  bytes (stats self) = Z.of_nat (length sofar) ->
  preview (stats self) = take (max_preview (stats self)) sofar ->
  Z.of_nat (length sofar) + body_len xs <= max_size self < 2 ^ 64 ->
  let '(out, self') := poll_all self xs in
  out = map forward xs /\
  chain_inv p0 (sofar ++ concat (map chunk_of xs)) (ai_state self') /\
  bytes (stats self') = Z.of_nat (length sofar) + body_len xs /\
  preview (stats self') = take (max_preview (stats self)) (sofar ++ concat (map chunk_of xs)) /\
  max_preview (stats self') = max_preview (stats self) /\ max_size self' = max_size self.
Proof.
  intros Hne. revert self sofar. induction Hne as [|x xs Hx _ IH]; intros self sofar Hi Hb Hp Hlt.
  - cbn [poll_all map concat]. unfold body_len in *. cbn [map concat length] in *.
    rewrite app_nil_r. repeat split; try done; lia.
  - cbn [poll_all]. assert (body_len (x :: xs) = Z.of_nat (length (chunk_of x)) + body_len xs) as Hbl.
    { unfold body_len. cbn [map concat]. rewrite length_app. lia. }
    assert (0 <= body_len xs) as Hnn by (unfold body_len; lia).
    assert (forall o, chunk_of x = [] -> o = forward x ->
      let '(out, self') := let '(os, self') := poll_all self xs in (o :: os, self') in
      out = map forward (x :: xs) /\
      chain_inv p0 (sofar ++ concat (map chunk_of (x :: xs))) (ai_state self') /\
      bytes (stats self') = Z.of_nat (length sofar) + body_len (x :: xs) /\
      preview (stats self') = take (max_preview (stats self)) (sofar ++ concat (map chunk_of (x :: xs))) /\
      max_preview (stats self') = max_preview (stats self) /\ max_size self' = max_size self) as Hskip.
    { intros o Hc ->. rewrite Hbl, Hc in *. cbn [length] in *.
      specialize (IH self sofar Hi Hb Hp ltac:(lia)). destruct (poll_all self xs) as [out self'].
      destruct IH as (-> & ? & ? & ? & ? & ?). cbn [map concat]. rewrite Hc.
      repeat split; try done; lia. }
    destruct x as [[chunk|]| | |];
      [|by apply Hskip|by apply Hskip|by exfalso; apply Hx|by apply Hskip].
    clear Hskip. cbn [poll_frame chunk_of] in *.
    rewrite as_uN_small by (unfold in_uN; lia).
    destruct (Z.ltb_spec (max_size self) (bytes (stats self) + Z.of_nat (length chunk))); [lia|].
    set (st := take_preview _ _ _). cbn [with_stats ai_state].
    specialize (IH (with_ai (with_stats self st) (feed_chain (ai_state self) chunk)) (sofar ++ chunk)).
    destruct (poll_all _ xs) as [out self']. cbn [with_ai with_stats ai_state stats max_size] in IH.
    rewrite length_app in IH. destruct IH as (-> & ? & Hb' & Hp' & Hm' & ?).
    + by apply feed_chain_inv.
    + subst st. cbn. lia.
    + exact (take_preview_concat (stats self) _ chunk sofar Hp).
    + lia.
    + cbn [map concat chunk_of]. rewrite app_assoc. repeat split; try done; lia.
Qed.

(** ** Properties *)

(** An upstream body within the size limit passes through unchanged, frame
    for frame and error for error, while at its end the recorded events are exactly
    those of the provider's parser on the SSE events of the whole body plus the
    flushed tail, the byte count is the body's length, and the preview its first
    [max_preview] bytes; no split of the body into frames changes any of it. *)
Theorem body_forwarded_and_parsed (p : P) (mp : nat) (limit : Z) (xs : list (InnerPoll E)) :
  Forall not_end xs -> body_len xs <= limit < 2 ^ 64 ->
  let body := concat (map chunk_of xs) in
  let '(out, self) := poll_all (AiResponseBody_new p mp limit) (xs ++ [InnerEnd]) in
  let '(sse_events, sse) := feed SseParser_new body in
  out = map forward xs ++ [OuterEnd] /\
  events (ai_state self) =
    (parse_events p (sse_events ++ match (flush sse).1 with Some e => [e] | None => [] end)).1 /\
  bytes (stats self) = body_len xs /\
  preview (stats self) = take mp body.
Proof.
  intros Hne Hlt body.
  assert (forall self a b, poll_all self (a ++ b) =
    let '(o1, s1) := poll_all self a in let '(o2, s2) := poll_all s1 b in (o1 ++ o2, s2)) as Happ.
  { intros self a b. revert self. induction a as [|x a IH]; intros self; cbn [app poll_all].
    - by destruct (poll_all self b).
    - destruct (poll_frame self x) as [o s]. rewrite IH. destruct (poll_all s a) as [o1 s1].
      by destruct (poll_all s1 b). }
  rewrite Happ. clear Happ.
  pose proof (poll_all_within p xs (AiResponseBody_new p mp limit) [] Hne) as Hw.
  destruct (poll_all (AiResponseBody_new p mp limit) xs) as [out self].
  destruct Hw as (-> & Hc & Hb & Hp & _); [|done|by destruct mp|done|].
  { exists []. done. }
  destruct Hc as (es & Hf & Hpe). cbn [app] in Hf. fold body in Hf. rewrite Hf.
  cbn [poll_all poll_frame]. unfold flush_chain. rewrite parse_events_app, Hpe.
  destruct (flush (sse_parser (ai_state self))) as [[e|] sse] eqn:Ef; cbn [fst parse_events].
  - destruct (parse_event (provider_parser (ai_state self)) e) as [o p'].
    split; [done|]. split; [cbn; by rewrite app_nil_r|]. split; [exact Hb|exact Hp].
  - split; [done|]. split; [cbn; by rewrite app_nil_r|]. split; [exact Hb|exact Hp].
Qed.

End AiBody.

(** A parser that reports every event as text, on two frames. *)
Definition echo_stream : ProviderStreamParser unit :=
  fun self sse => ([TextDelta 0 (data sse)], self).

Definition demo_body : list (InnerPoll unit) :=
  [InnerFrame (DataFrame (bytes_of_string "data: a" ++ [LF])); InnerPending;
   InnerFrame (DataFrame ([LF] ++ bytes_of_string "data: b")); InnerFrame TrailersFrame].

Lemma body_forwarded_and_parsed_witness :
  let '(out, self) := @poll_all unit unit echo_stream (AiResponseBody_new tt 4 100) (demo_body ++ [InnerEnd]) in
  out = map forward demo_body ++ [OuterEnd] /\ bytes (stats self) = 16 /\
  events (ai_state self) = [TextDelta 0 "a"; TextDelta 0 "b"].
Proof.
  pose proof (@body_forwarded_and_parsed unit unit echo_stream tt 4 100 demo_body) as H.
  assert (Forall not_end demo_body) as Hne by (repeat constructor; discriminate).
  assert (body_len demo_body <= 100 < 2 ^ 64) as Hlt by (vm_compute; split; [discriminate|reflexivity]).
  specialize (H Hne Hlt). cbv zeta in H. revert H.
  destruct (poll_all _ _) as [out self] eqn:E. destruct (feed SseParser_new (concat (map chunk_of demo_body))) as [es sse] eqn:Ef.
  intros (Ho & He & Hb & _). split; [exact Ho|]. split; [exact Hb|].
  rewrite He. vm_compute in Ef. injection Ef as <- <-. vm_compute. reflexivity.
Defined.
