(* ===== verification/RequestParser.v ===== *)
(** Request metadata extraction: crates/clawcage-core/src/gateway/request_parser.rs.

    The wire records are the serde types; decoding a body is the interface
    [RequestWire]. The regular expression of the truncated-JSON fallback is run by
    a third-party engine, the parameter [model_regex]. *)

From Stdlib Require Import ZArith Lia Strings.Byte Ascii.
From stdpp Require Import base numbers list gmap strings.
From S2P Require Import Prelude RustStr Utf8 Sse Events.

(** [serde_json::from_slice::<A>] *)
Class FromSlice (A : Type) := from_slice : list byte -> option A.

Record ToolResultMeta := { trm_call_id : string; content_preview : string; is_error : bool }.

Record RequestMeta := {
  rm_model : option string;
  rm_stream : bool;
  system_prompt_preview : option string;
  messages_count : Z;
  tools_count : Z;
  tool_results : list ToolResultMeta;
}.

Definition RequestMeta_default : RequestMeta :=
  {| rm_model := None; rm_stream := false; system_prompt_preview := None; messages_count := 0;
     tools_count := 0; tool_results := [] |}.

Definition meta_model (model : option string) : RequestMeta :=
  {| rm_model := model; rm_stream := false; system_prompt_preview := None; messages_count := 0;
     tools_count := 0; tool_results := [] |}.

(** [.len()] *)
Definition count {A} (l : list A) : Z := Z.of_nat (length l).

Definition join_lines (l : list (option string)) : string :=
  join (String "010" "") (omap (fun x => x) l).

(** ** Anthropic *)

Inductive SystemPrompt := SysText (t : string) | SysBlocks (blocks : list (option string)).

Inductive ToolResultContent := ResText (t : string) | ResBlocks (blocks : list (option string)).

Record ContentBlockIn := {
  block_type : option string;
  tool_use_id : option string;
  cb_content : option ToolResultContent;
  cb_is_error : option bool;
}.

Inductive MessageContent := MsgText (t : string) | MsgBlocks (blocks : list ContentBlockIn).

Record AMessageIn := { am_role : option string; am_content : option MessageContent }.

Record AnthropicRequest := {
  ar_model : option string;
  ar_stream : option bool;
  ar_system : option SystemPrompt;
  ar_messages : option (list AMessageIn);
  ar_tools : option (list (option string));
}.

(** ** OpenAI *)

Inductive OpenAiContent := OaText (t : string) | OaParts (parts : list (option string * option string)).

Record OMessageIn := {
  om_role : option string;
  om_content : option OpenAiContent;
  tool_call_id : option string;
}.

Record OpenAiRequest := {
  or_model : option string;
  or_stream : option bool;
  or_messages : option (list OMessageIn);
  or_input : option (list OMessageIn);
  or_instructions : option string;
  or_tools : option (list (option string));
}.

Section RequestParser.
Context `{SerdeJson}.

(** ** Google *)

Record FunctionResponse := { fr_name : option string; fr_response : option Value }.
Record GPartIn := { gp_text : option string; function_response : option FunctionResponse }.
Record GContentIn := { gc_parts : option (list GPartIn); gc_role : option string }.

(** A tool entry is its optional list of function declarations, a system
    instruction its optional list of text parts. *)
Record GoogleRequest := {
  gr_contents : option (list GContentIn);
  gr_tools : option (list (option (list (option string))));
  gr_system_instruction : option (option (list (option string)));
}.

Class RequestWire := {
  anthropic_request_json :: FromSlice AnthropicRequest;
  openai_request_json :: FromSlice OpenAiRequest;
  google_request_json :: FromSlice GoogleRequest;
}.

Context `{RequestWire}.
Variable model_regex : string -> option string.

Definition extract_model_field (body : list byte) : option string :=
  model_regex (from_utf8_lossy body).

Definition anthropic_block_result (block : ContentBlockIn) : list ToolResultMeta :=
  if bool_decide (block_type block = Some "tool_result") then
    match tool_use_id block with
    | Some call_id =>
        [{| trm_call_id := call_id;
            content_preview := match cb_content block with
                               | Some (ResText t) => t
                               | Some (ResBlocks bs) => join_lines bs
                               | None => ""
                               end;
            is_error := default false (cb_is_error block) |}]
    | None => []
    end
  else [].

Definition anthropic_message_results (msg : AMessageIn) : list ToolResultMeta :=
  if bool_decide (am_role msg = Some "user") then
    match am_content msg with
    | Some (MsgBlocks blocks) => flat_map anthropic_block_result blocks
    | _ => []
    end
  else [].

Definition parse_anthropic (body : list byte) : RequestMeta :=
  match from_slice (A := AnthropicRequest) body with
  | None => meta_model (extract_model_field body)
  | Some req =>
      let messages := default [] (ar_messages req) in
      {| rm_model := ar_model req;
         rm_stream := default false (ar_stream req);
         system_prompt_preview :=
           (fun s => match s with SysText t => t | SysBlocks bs => join_lines bs end) <$> ar_system req;
         messages_count := count messages;
         tools_count := match ar_tools req with Some t => count t | None => 0 end;
         tool_results := flat_map anthropic_message_results messages |}
  end.

Definition openai_message_result (msg : OMessageIn) : list ToolResultMeta :=
  if bool_decide (om_role msg = Some "tool") then
    match tool_call_id msg with
    | Some call_id =>
        [{| trm_call_id := call_id;
            content_preview := match om_content msg with Some (OaText t) => t | _ => "" end;
            is_error := false |}]
    | None => []
    end
  else [].

Definition openai_system (messages : list OMessageIn) : option string :=
  match list_find_first (fun m => bool_decide (om_role m = Some "system")) messages with
  | Some m => match om_content m with Some (OaText t) => Some t | _ => None end
  | None => None
  end.

Definition parse_openai (body : list byte) : RequestMeta :=
  match from_slice (A := OpenAiRequest) body with
  | None => meta_model (extract_model_field body)
  | Some req =>
      let messages := match or_messages req with
                      | Some m => m
                      | None => default [] (or_input req)
                      end in
      {| rm_model := or_model req;
         rm_stream := default false (or_stream req);
         system_prompt_preview :=
           match or_instructions req with Some s => Some s | None => openai_system messages end;
         messages_count := count messages;
         tools_count := match or_tools req with Some t => count t | None => 0 end;
         tool_results := flat_map openai_message_result messages |}
  end.

Definition google_part_result (part : GPartIn) : list ToolResultMeta :=
  match function_response part with
  | Some fr =>
      [{| trm_call_id := default "" (fr_name fr);
          content_preview := match fr_response fr with Some v => json_to_string v | None => "" end;
          is_error := false |}]
  | None => []
  end.

Definition google_content_results (c : GContentIn) : list ToolResultMeta :=
  match gc_parts c with Some parts => flat_map google_part_result parts | None => [] end.

Definition google_tools_count (tools : option (list (option (list (option string))))) : Z :=
  match tools with
  | Some ts => fold_right Z.add 0 (map (fun t => match t with Some fd => count fd | None => 0 end) ts)
  | None => 0
  end.

Definition parse_google (body : list byte) : RequestMeta :=
  match from_slice (A := GoogleRequest) body with
  | None => RequestMeta_default
  | Some req =>
      let contents := default [] (gr_contents req) in
      {| rm_model := None;
         rm_stream := false;
         system_prompt_preview :=
           match gr_system_instruction req with
           | Some (Some parts) => Some (join_lines parts)
           | _ => None
           end;
         messages_count := count contents;
         tools_count := google_tools_count (gr_tools req);
         tool_results := flat_map google_content_results contents |}
  end.

Definition parse_request (provider : ProviderKind) (body : list byte) : RequestMeta :=
  match body with
  | [] => RequestMeta_default
  | _ =>
      match provider with
      | Anthropic => parse_anthropic body
      | OpenAi => parse_openai body
      | Google => parse_google body
      end
  end.

(** ** Properties *)

(** The tool results found in an Anthropic request, which link it to the trace
    of an earlier call, are exactly the tool_result blocks with an id in the block
    content of its user messages; text messages and other roles contribute none. *)
Theorem anthropic_result_ids (body : list byte) (req : AnthropicRequest) (id : string) :
  body <> [] -> from_slice body = Some req ->
  (id ∈ map trm_call_id (tool_results (parse_request Anthropic body))) <->
  exists msg blocks block, (msg ∈ default [] (ar_messages req)) /\ am_role msg = Some "user" /\
    am_content msg = Some (MsgBlocks blocks) /\ (block ∈ blocks) /\
    block_type block = Some "tool_result" /\ tool_use_id block = Some id.
Proof.
  intros Hne Hreq. unfold parse_request. destruct body as [|b0 bs0]; [done|].
  unfold parse_anthropic. rewrite Hreq. cbn [tool_results].
  rewrite list_elem_of_fmap. setoid_rewrite list_elem_of_In. setoid_rewrite in_flat_map. split.
  - intros (r & -> & msg & Hmsg & Hr). unfold anthropic_message_results in Hr.
    case_bool_decide as Hrole; [|done]. destruct (am_content msg) as [[|blocks]|] eqn:Ec; try done.
    apply in_flat_map in Hr as (block & Hb & Hr). exists msg, blocks, block.
    unfold anthropic_block_result in Hr. case_bool_decide as Hty; [|done].
    destruct (tool_use_id block); [|done]. destruct Hr as [<-|[]]. done.
  - intros (msg & blocks & block & Hmsg & Hrole & Hc & Hb & Hty & Hid).
    eexists. split; [|exists msg; split; [done|]].
    2: { unfold anthropic_message_results. rewrite bool_decide_true, Hc by done.
         apply in_flat_map. exists block. split; [done|]. unfold anthropic_block_result.
         rewrite bool_decide_true, Hid by done. by left. }
    done.
Qed.

End RequestParser.

Definition demo_request_body : AnthropicRequest :=
  {| ar_model := Some "claude"; ar_stream := Some true; ar_system := None;
     ar_messages := Some
       [{| am_role := Some "assistant"; am_content := Some (MsgBlocks
            [{| block_type := Some "tool_result"; tool_use_id := Some "t0"; cb_content := None;
                cb_is_error := None |}]) |};
        {| am_role := Some "user"; am_content := Some (MsgBlocks
            [{| block_type := Some "tool_result"; tool_use_id := Some "t1";
                cb_content := Some (ResText "ok"); cb_is_error := None |}]) |}];
     ar_tools := None |}.

Definition demo_request_wire : @RequestWire tree_json := {|
  anthropic_request_json := fun bs => Some demo_request_body;
  openai_request_json := fun bs => None;
  google_request_json := fun bs => None;
|}.

Lemma anthropic_result_ids_witness :
  "t1" ∈ map trm_call_id
    (tool_results (@parse_request tree_json demo_request_wire (fun s => None) Anthropic [x7b])).
Proof.
  apply (proj2 (@anthropic_result_ids tree_json demo_request_wire (fun s => None) [x7b]
    demo_request_body "t1" ltac:(discriminate) ltac:(reflexivity))).
  do 3 eexists. split; [right; left|]. split; [reflexivity|]. split; [reflexivity|].
  split; [left|]. split; reflexivity.
Defined.
