(* ===== verification/Pricing.v ===== *)
(** Cost estimation: crates/clawcage-core/src/gateway/pricing.rs.

    Prices are IEEE binary64 numbers ([SpecFloat] with 53 bits of precision and
    exponent bound 1024). The embedded table is data, a parameter of the model. *)

From Corelib Require Import SpecFloat.
From Stdlib Require Import ZArith Lia Ascii.
From stdpp Require Import base numbers list gmap strings.
From S2P Require Import Prelude RustStr.

(** ** f64 *)

Definition f64 := spec_float.
Definition f64_of_u64 (z : Z) : f64 := binary_normalize 53 1024 z 0 false.
Definition f64_mul : f64 -> f64 -> f64 := SFmul 53 1024.
Definition f64_div : f64 -> f64 -> f64 := SFdiv 53 1024.
Definition f64_add : f64 -> f64 -> f64 := SFadd 53 1024.
Definition f64_eqb : f64 -> f64 -> bool := SFeqb.
Definition f64_zero : f64 := S754_zero false.

(** ** The table *)

Inductive MatchClause :=
| Equals (equals : string)
| StartsWith (starts_with : string)
| EndsWith (ends_with : string)
| Contains (contains : string)
| Or (clauses : list MatchClause).

Inductive PriceValue := Flat (v : f64) | Tiered (base : f64) | Missing.

Record ModelPrice := { input_mtok : PriceValue; output_mtok : PriceValue }.

Inductive PriceSpec := Direct (p : ModelPrice) | Conditional (list : list ModelPrice).

Record ModelData := { md_id : string; match_rule : MatchClause; prices : PriceSpec }.

Record ProviderData := { pv_id : string; models : list ModelData }.

Record PricingTable := { providers : list ProviderData }.

Fixpoint MatchClause_matches (self : MatchClause) (model : string) : bool :=
  match self with
  | Equals e => bool_decide (model = e)
  | StartsWith s => starts_with model s
  | EndsWith s => ends_with model s
  | Contains s => str_contains model s
  | Or cs => (fix any (cs : list MatchClause) : bool :=
                match cs with [] => false | c :: cs => MatchClause_matches c model || any cs end) cs
  end.

Definition PriceSpec_price (self : PriceSpec) : option ModelPrice :=
  match self with Direct p => Some p | Conditional l => head l end.

Definition rate (self : PriceValue) : f64 :=
  match self with Flat v => v | Tiered base => base | Missing => f64_zero end.

(** [PricingTable::load] after deserialisation. *)
Definition PricingTable_load (raw : list ProviderData) : PricingTable :=
  {| providers := List.filter (fun p => bool_decide (pv_id p ∈ ["anthropic"; "openai"; "google"])) raw |}.

(** ** Estimation *)

Definition model_cost (m : ModelData) (input output : f64) : option f64 :=
  match PriceSpec_price (prices m) with
  | Some price =>
      Some (f64_add (f64_div (f64_mul input (rate (input_mtok price))) (f64_of_u64 1000000))
                    (f64_div (f64_mul output (rate (output_mtok price))) (f64_of_u64 1000000)))
  | None => None
  end.

Fixpoint strict_match (ms : list ModelData) (model : string) (input output : f64) : option f64 :=
  match ms with
  | [] => None
  | m :: ms =>
      if MatchClause_matches (match_rule m) model then
        match model_cost m input output with
        | Some c => Some c
        | None => strict_match ms model input output
        end
      else strict_match ms model input output
  end.

Definition try_strict_match (prov : ProviderData) (model : string) (input output : f64) : option f64 :=
  strict_match (models prov) model input output.

Fixpoint common_prefix_len (a b : string) : nat :=
  match a, b with
  | String x a, String y b => if bool_decide (x = y) then S (common_prefix_len a b) else O
  | _, _ => O
  end.

(** [id.rsplit('-').next()] is the last segment. *)
Definition extract_trailing_version (id : string) : option Z :=
  parse_uint 64 (default "" (last (split_char "-" id))).

Definition version_closer (candidate_id : string) (current_best : option Z) : bool :=
  match extract_trailing_version candidate_id, current_best with
  | Some v, Some best => best <? v
  | Some _, None => true
  | None, _ => false
  end.

Definition MIN_PREFIX_LEN : nat := 8.

(** The loop: the best length, index and version so far. *)
Fixpoint prefix_loop (model : string) (ms : list ModelData) (best_len : nat)
    (best : option ModelData) (best_version : option Z) : option ModelData :=
  match ms with
  | [] => best
  | m :: ms =>
      let prefix_len := common_prefix_len model (md_id m) in
      if (prefix_len <? MIN_PREFIX_LEN)%nat then prefix_loop model ms best_len best best_version
      else if (best_len <? prefix_len)%nat
              || ((prefix_len =? best_len)%nat && version_closer (md_id m) best_version)
      then prefix_loop model ms prefix_len (Some m) (extract_trailing_version (md_id m))
      else prefix_loop model ms best_len best best_version
  end.

Definition try_prefix_match (prov : ProviderData) (model : string) (input output : f64) : option f64 :=
  match prefix_loop model (models prov) 0 None None with
  | Some m => model_cost m input output
  | None => None
  end.

Definition MAX_MODEL_LEN : Z := 128.
Definition MAX_STRIP_DEPTH : nat := 4.
Definition MIN_STRIP_LEN : nat := 4.

(** Pass 2: drop trailing segments and retry. *)
Fixpoint strip_pass (depth : nat) (prov : ProviderData) (candidate : string) (input output : f64) : option f64 :=
  match depth with
  | O => None
  | S depth =>
      match rfind_char "-" candidate with
      | Some pos =>
          if (MIN_STRIP_LEN <=? pos)%nat then
            let candidate := stake pos candidate in
            match try_strict_match prov candidate input output with
            | Some cost => Some cost
            | None => strip_pass depth prov candidate input output
            end
          else None
      | None => None
      end
  end.

Definition estimate_cost (self : PricingTable) (provider : string) (model : option string)
    (input_tokens output_tokens : option Z) (usage_details : gmap string Z) : f64 :=
  match model with
  | None => f64_zero
  | Some model_str =>
      if is_empty model_str || (MAX_MODEL_LEN <? slen model_str) then f64_zero
      else
        let raw_input := default 0 input_tokens in
        let cache_read := default 0 (usage_details !! "cache_read") in
        let effective_input := f64_of_u64 (saturating_sub raw_input cache_read) in
        let output := f64_of_u64 (default 0 output_tokens) in
        if f64_eqb effective_input f64_zero && f64_eqb output f64_zero then f64_zero
        else
          match list_find_first (fun p => bool_decide (pv_id p = provider)) (providers self) with
          | None => f64_zero
          | Some prov =>
              match try_strict_match prov model_str effective_input output with
              | Some cost => cost
              | None =>
                  match strip_pass MAX_STRIP_DEPTH prov model_str effective_input output with
                  | Some cost => cost
                  | None =>
                      match try_prefix_match prov model_str effective_input output with
                      | Some cost => cost
                      | None => f64_zero
                      end
                  end
              end
          end
  end.

(** ** Lemmas *)

(** The order the tie break uses: no version is below every version. *)
Definition version_lt (a b : option Z) : Prop :=
  match a, b with None, Some _ => True | Some x, Some y => x < y | _, None => False end.

Definition key (model : string) (m : ModelData) : nat * option Z :=
  (common_prefix_len model (md_id m), extract_trailing_version (md_id m)).

(** [b] beats [a]. *)
Definition beats (a b : nat * option Z) : Prop :=
  (a.1 < b.1)%nat \/ (a.1 = b.1 /\ version_lt a.2 b.2).

Lemma version_closer_spec id best :
  version_closer id best = true <-> version_lt best (extract_trailing_version id).
Proof.
  unfold version_closer, version_lt. destruct (extract_trailing_version id), best; try done.
  apply Z.ltb_lt.
Qed.

Lemma beats_trans a b c : beats a b -> beats b c -> beats a c.
Proof.
  unfold beats, version_lt. destruct a as [? [|]], b as [? [|]], c as [? [|]]; simpl; lia.
Qed.

Lemma beats_irrefl a : ~ beats a a.
Proof. unfold beats, version_lt. destruct a as [? [|]]; simpl; lia. Qed.

Lemma beats_total a b : beats a b \/ a = b \/ beats b a.
Proof.
  unfold beats, version_lt. destruct a as [i [x|]], b as [j [y|]]; simpl;
    destruct (Nat.lt_total i j) as [?|[->|?]]; try tauto.
  destruct (Z.lt_total x y) as [?|[->|?]]; tauto.
Qed.

Definition eligible (model : string) (m : ModelData) : Prop :=
  (MIN_PREFIX_LEN <= common_prefix_len model (md_id m))%nat.

(** The first model of a list that no other beats. *)
Definition best_of (model : string) (ms : list ModelData) (m : ModelData) : Prop :=
  exists l1 l2, ms = l1 ++ m :: l2 /\ eligible model m /\
    Forall (fun x => eligible model x -> beats (key model x) (key model m)) l1 /\
    Forall (fun x => eligible model x -> ~ beats (key model m) (key model x)) l2.

Lemma prefix_loop_spec model ms : forall done best,
  match best with
  | Some b => best_of model done b
  | None => Forall (fun x => ~ eligible model x) done
  end ->
  let r := prefix_loop model ms (match best with Some b => (key model b).1 | None => O end) best
             (match best with Some b => (key model b).2 | None => None end) in
  match r with
  | Some m => best_of model (done ++ ms) m
  | None => Forall (fun x => ~ eligible model x) (done ++ ms)
  end.
Proof.
  induction ms as [|m ms IH]; intros seen best Hb; cbn [prefix_loop].
  - rewrite app_nil_r. by destruct best.
  - rewrite cons_middle, app_assoc.
    destruct (Nat.ltb_spec (common_prefix_len model (md_id m)) MIN_PREFIX_LEN) as [Hlt|Hge].
    + apply IH. assert (~ eligible model m) as Hne by (unfold eligible; lia).
      destruct best as [b|].
      * destruct Hb as (l1 & l2 & -> & He & H1 & H2). exists l1, (l2 ++ [m]).
        rewrite <- app_assoc. repeat split; try done. apply Forall_app_2; [done|by apply Forall_singleton].
      * apply Forall_app_2; [done|by apply Forall_singleton].
    + assert (eligible model m) as Hel by done.
      destruct (_ || _) eqn:E.
      * apply (IH (seen ++ [m]) (Some m)). exists seen, []. repeat split; try done.
        destruct best as [b|].
        { assert (beats (key model b) (key model m)) as Hbm.
          { apply orb_true_iff in E as [E|E].
            - left. by apply Nat.ltb_lt.
            - apply andb_true_iff in E as [E1 E2]. right. split; [symmetry; by apply Nat.eqb_eq|].
              by apply version_closer_spec. }
          destruct Hb as (l1 & l2 & -> & He & H1 & H2).
          apply Forall_app_2; [|constructor; [done|]].
          - eapply Forall_impl; [exact H1|]. intros x Hx Hex. eapply beats_trans; [by apply Hx|done].
          - eapply Forall_impl; [exact H2|]. intros x Hx Hex.
            destruct (beats_total (key model b) (key model x)) as [?|[<-|?]]; [by apply Hx in Hex|done|].
            eapply beats_trans; done. }
        { eapply Forall_impl; [exact Hb|]. by intros x ? ?. }
      * apply IH. destruct best as [b|].
        { destruct Hb as (l1 & l2 & -> & He & H1 & H2). exists l1, (l2 ++ [m]).
          rewrite <- app_assoc. repeat split; try done. apply Forall_app_2; [done|].
          apply Forall_singleton. intros _ [Hl|[Hl Hv]]; apply orb_false_iff in E as [E1 E2];
            unfold key in *; cbn [fst snd] in *.
          - apply Nat.ltb_ge in E1. lia.
          - apply version_closer_spec in Hv. rewrite <- Hl, Nat.eqb_refl in E2.
            simpl in E2. congruence. }
        { exfalso. apply orb_false_iff in E as [E _]. apply Nat.ltb_ge in E.
          cbv [eligible MIN_PREFIX_LEN] in Hel. cbn in E. lia. }
Qed.

Lemma strict_match_spec ms model input output :
  strict_match ms model input output =
  match list_find_first (fun m => MatchClause_matches (match_rule m) model
                                  && bool_decide (is_Some (PriceSpec_price (prices m)))) ms with
  | Some m => model_cost m input output
  | None => None
  end.
Proof.
  induction ms as [|m ms IH]; [done|]. cbn [strict_match list_find_first].
  destruct (MatchClause_matches (match_rule m) model); [|done]. unfold model_cost.
  destruct (PriceSpec_price (prices m)) as [p|] eqn:E; cbn [andb].
  - rewrite bool_decide_true by eauto. by rewrite E.
  - rewrite bool_decide_false; [done|]. by intros [? ?].
Qed.

(** The names tried in order: the model itself, then with up to four trailing
    segments dropped, while at least four bytes remain. *)
Fixpoint stripped (depth : nat) (model : string) : list string :=
  match depth with
  | O => []
  | S depth =>
      match rfind_char "-" model with
      | Some pos => if (MIN_STRIP_LEN <=? pos)%nat
                    then stake pos model :: stripped depth (stake pos model) else []
      | None => []
      end
  end.

Fixpoint first_cost (prov : ProviderData) (names : list string) (input output : f64) : option f64 :=
  match names with
  | [] => None
  | n :: ns => match try_strict_match prov n input output with
               | Some c => Some c
               | None => first_cost prov ns input output
               end
  end.

Lemma strip_pass_spec depth prov model input output :
  strip_pass depth prov model input output = first_cost prov (stripped depth model) input output.
Proof.
  revert model. induction depth as [|depth IH]; intros model; [done|]. cbn [strip_pass stripped].
  destruct (rfind_char "-" model) as [pos|]; [|done]. destruct (_ <=? _)%nat; [|done].
  cbn [first_cost]. by rewrite IH.
Qed.

(** ** Properties *)

(** Which price a call is charged. When the model name, or the name with up to
    four trailing segments dropped, strictly matches a priced model of the provider,
    the cost is that of the first such model in table order for the longest such
    name. Otherwise it is the cost of the model whose id shares the longest common
    prefix with the name, at least eight bytes, ties going to the higher trailing
    version and then to the earlier model; with none, or when that model has no
    price, the cost is zero. *)
Theorem price_selection (t : PricingTable) (prov : ProviderData) (provider model : string)
    (input_tokens output_tokens : option Z) (details : gmap string Z) :
  list_find_first (fun p => bool_decide (pv_id p = provider)) (providers t) = Some prov ->
  model <> "" -> slen model <= MAX_MODEL_LEN ->
  let input := f64_of_u64 (saturating_sub (default 0 input_tokens)
                             (default 0 (details !! "cache_read"))) in
  let output := f64_of_u64 (default 0 output_tokens) in
  f64_eqb input f64_zero && f64_eqb output f64_zero = false ->
  let cost := estimate_cost t provider (Some model) input_tokens output_tokens details in
  match first_cost prov (model :: stripped MAX_STRIP_DEPTH model) input output with
  | Some c => cost = c
  | None =>
      (exists m, best_of model (models prov) m /\ cost = default f64_zero (model_cost m input output)) \/
      (Forall (fun m => ~ eligible model m) (models prov) /\ cost = f64_zero)
  end.
Proof.
  intros Hp Hne Hlen input output Hnz cost. unfold cost, estimate_cost.
  assert (is_empty model || (MAX_MODEL_LEN <? slen model) = false) as ->.
  { destruct model; [done|]. apply Z.ltb_ge. done. }
  cbv zeta. fold input output. rewrite Hnz, Hp. cbn [first_cost].
  destruct (try_strict_match prov model input output) as [c|]; [done|].
  rewrite strip_pass_spec. destruct (first_cost prov _ input output) as [c|]; [done|].
  unfold try_prefix_match.
  pose proof (prefix_loop_spec model (models prov) [] None (Forall_nil_2 _)) as Hs. cbn [app] in Hs.
  cbv zeta in Hs. destruct (prefix_loop model (models prov) 0 None None) as [m|].
  - left. exists m. split; [done|]. by destruct (model_cost m input output).
  - right. done.
Qed.

Definition demo_table : PricingTable :=
  let price n := Direct {| input_mtok := Flat (f64_of_u64 n); output_mtok := Missing |} in
  {| providers := [{| pv_id := "anthropic"; models :=
       [{| md_id := "claude-opus-4-0"; match_rule := Equals "claude-opus-4-0"; prices := price 15 |};
        {| md_id := "claude-opus-4-6"; match_rule := Equals "claude-opus-4-6"; prices := price 5 |}] |}] |}.

Lemma price_selection_witness :
  estimate_cost demo_table "anthropic" (Some "claude-opus-4-6-20260101") (Some 1000000) None ∅
  = f64_of_u64 5.
Proof.
  pose proof (price_selection demo_table (hd {| pv_id := ""; models := [] |} (providers demo_table))
    "anthropic" "claude-opus-4-6-20260101" (Some 1000000) None ∅) as H.
  specialize (H ltac:(vm_compute; reflexivity) ltac:(discriminate) ltac:(vm_compute; discriminate)
    ltac:(vm_compute; reflexivity)).
  destruct (first_cost _ _ _ _) as [c|] eqn:E; vm_compute in E; [|discriminate E].
  rewrite H. injection E as <-. vm_compute. reflexivity.
Defined.

(** A fuzzy match: the later model has the higher version. *)
Example fuzzy_price :
  estimate_cost demo_table "anthropic" (Some "claude-opus-5") (Some 1000000) None ∅ = f64_of_u64 5.
Proof. vm_compute. reflexivity. Qed.
