(* ===== verification/MitmParts.v ===== *)
(** The parts of the MITM proxy, crates/clawcage-core/src/net/mitm_proxy.rs: the rate
    limiter, the choice of the upstream route, credential injection, header redaction,
    the body wrappers and the telemetry trigger. *)

From Stdlib Require Import ZArith Lia Ascii Floats.SpecFloat.
From stdpp Require Import base numbers list gmap strings.
From S2P Require Import Prelude RustStr Utf8 Pricing Events AiBody.

(** ** Limits and the rate limiter *)

Record ProxyLimits := {
  max_concurrent_connections : Z;
  per_domain_rate_limit : f64;
  max_response_body_bytes : Z;
  connection_idle_timeout : Z;  (* seconds *)
  connect_timeout : Z;
}.

Definition ProxyLimits_default : ProxyLimits :=
  {| max_concurrent_connections := 100; per_domain_rate_limit := f64_of_u64 50;
     max_response_body_bytes := 100 * 1024 * 1024; connection_idle_timeout := 60; connect_timeout := 10 |}.

Definition f64_leb : f64 -> f64 -> bool := SFleb.
Definition f64_sub : f64 -> f64 -> f64 := SFsub 53 1024.
Definition f64_one : f64 := f64_of_u64 1.
Definition f64_is_nan (f : f64) : bool := match f with S754_nan => true | _ => false end.

(** [a.min(b)]: a NaN loses. *)
Definition f64_min (a b : f64) : f64 :=
  if f64_is_nan a then b else if f64_is_nan b then a else if SFltb b a then b else a.

(** An instant in nanoseconds; [elapsed().as_secs_f64()]. *)
Definition elapsed_secs_f64 (since now : Z) : f64 :=
  let d := saturating_sub now since in
  f64_add (f64_of_u64 (d / 10 ^ 9)) (f64_div (f64_of_u64 (d mod 10 ^ 9)) (f64_of_u64 (10 ^ 9))).

Record TokenBucket := { tokens : f64; last_refill : Z }.
Record RateLimiterMap := { buckets : gmap string TokenBucket; rl_rate : f64 }.

Definition RateLimiterMap_new (rate : f64) : RateLimiterMap := {| buckets := ∅; rl_rate := rate |}.

(** Refilled at [now1], stamped at [now2]; a new bucket is made at [now0]. *)
Definition refill (rate : f64) (now0 now1 : Z) (bucket : option TokenBucket) : f64 :=
  let bucket := default {| tokens := rate; last_refill := now0 |} bucket in
  f64_min (f64_add (tokens bucket) (f64_mul (elapsed_secs_f64 (last_refill bucket) now1) rate))
          (f64_mul rate (f64_of_u64 2)).

Definition RateLimiterMap_check (self : RateLimiterMap) (now0 now1 now2 : Z) (domain : string)
  : bool * RateLimiterMap :=
  let t := refill (rl_rate self) now0 now1 (buckets self !! domain) in
  let allowed := f64_leb f64_one t in
  (allowed, {| buckets := <[domain := {| tokens := if allowed then f64_sub t f64_one else t;
                                         last_refill := now2 |}]> (buckets self);
               rl_rate := rl_rate self |}).

(** ** Providers and paths *)

Definition detect_ai_provider (domain : string) : option ProviderKind :=
  if bool_decide (domain = "api.anthropic.com") then Some Anthropic
  else if bool_decide (domain = "api.openai.com") then Some OpenAi
  else if bool_decide (domain = "generativelanguage.googleapis.com") then Some Google
  else if bool_decide (domain = "openrouter.ai") then Some OpenAi
  else None.

Definition is_llm_api_path (provider : ProviderKind) (path : string) : bool :=
  match provider with
  | Anthropic => starts_with path "/v1/messages" || starts_with path "/v1/complete"
  | OpenAi => starts_with path "/v1/chat/completions" || starts_with path "/v1/responses"
              || starts_with path "/v1/completions" || starts_with path "/v1/embeddings"
              || starts_with path "/v1/audio"
  | Google => str_contains path ":generateContent" || str_contains path ":streamGenerateContent"
              || str_contains path ":embedContent" || str_contains path ":batchEmbedContents"
  end.

(** ** The upstream route *)

Inductive IpAddr := V4 (a b c d : byte) | V6 (bytes : list byte).
Inductive UpstreamStream := Direct | Vpn.

(** The network as [connect_upstream] sees it. [vpn_connect] is there when a VPN manager
    is configured; [connect_timed_out] when the whole attempt takes too long. *)
Record Network := {
  lookup_host : string -> result (list IpAddr) string;
  vpn_connect : option (IpAddr -> Z -> result unit string);
  tcp_connect : string -> result unit string;
  connect_timed_out : string -> bool;
}.

Definition direct_connect (net : Network) (domain : string) : result UpstreamStream string :=
  let? _ := tcp_connect net (domain +:+ ":443") in Ok Direct.

Definition connect_upstream (net : Network) (domain : string) : result UpstreamStream string :=
  if connect_timed_out net domain then Err ("connect to " +:+ domain +:+ ":443 timed out")
  else
    match vpn_connect net with
    | None => direct_connect net domain
    | Some vpn =>
        let? addrs := lookup_host net (domain +:+ ":443") in
        match addrs with
        | V4 a b c d :: _ =>
            match vpn (V4 a b c d) 443 with
            | Ok _ => Ok Vpn
            | Err _ => direct_connect net domain
            end
        | _ => direct_connect net domain
        end
    end.

(** ** Credentials *)

Inductive CredentialKind :=
| CredHeader (name value : string)
| CredQueryParam (key value : string).

(** The HashMap as its entries in iteration order. *)
Abbreviation Credentials := (list (string * CredentialKind)).

Definition exact_credential (credentials : Credentials) (domain : string) : option CredentialKind :=
  snd <$> list_find_first (fun e => bool_decide (e.1 = domain)) credentials.

Definition wildcard_covers (pattern domain : string) : bool :=
  match strip_prefix "*." pattern with
  | Some suffix => ends_with domain suffix && (slen suffix <? slen domain)
  | None => false
  end.

Definition credential_for (domain : string) (credentials : Credentials) : option CredentialKind :=
  match exact_credential credentials domain with
  | Some cred => Some cred
  | None => snd <$> list_find_first (fun e => wildcard_covers e.1 domain) credentials
  end.

(** The request's headers and full path after the injection; header names are stored in
    lower case. *)
Definition inject_credentials (domain : string) (credentials : Credentials)
    (builder : list (string * list byte)) (full_path : string) : list (string * list byte) * string :=
  match credential_for domain credentials with
  | Some (CredHeader name value) => (builder ++ [(smap ascii_lower_char name, bytes_of_string value)], full_path)
  | Some (CredQueryParam key value) =>
      let sep := if contains_char full_path "?" then "&" else "?" in
      (builder, full_path +:+ sep +:+ key +:+ "=" +:+ value)
  | None => (builder, full_path)
  end.

(** ** Headers in the log *)

Definition HEADER_ALLOWLIST : list string :=
  ["accept"; "content-encoding"; "content-length"; "content-type"; "date"; "host"; "server";
   "transfer-encoding"; "user-agent"].

(** [HeaderValue::to_str]: visible ASCII and tabs. *)
Definition header_to_str (value : list byte) : option string :=
  if forallb (fun b => in_range 32 126 b || bool_decide (b = Byte.x09)) value
  then Some (string_of_bytes value) else None.

Section Headers.
(** The hexadecimal BLAKE3 digest of a value. *)
Variable blake3_hex : list byte -> string.

Definition format_header (h : string * list byte) : string :=
  if bool_decide (h.1 ∈ HEADER_ALLOWLIST)
  then h.1 +:+ ": " +:+ default "<binary>" (header_to_str h.2)
  else h.1 +:+ ": hash:" +:+ stake 12 (blake3_hex h.2).

Definition CRLF : string := String "013" (String "010" "").

Definition format_headers (headers : list (string * list byte)) : string :=
  join CRLF (map format_header headers).

(** What the log may show of a header: its name, and its value only when it is
    allowlisted; else the digest prefix. *)
Definition header_view (h : string * list byte) : string * (list byte + string) :=
  (h.1, if bool_decide (h.1 ∈ HEADER_ALLOWLIST) then inl h.2 else inr (stake 12 (blake3_hex h.2))).

Definition show_view (v : string * (list byte + string)) : string :=
  match v.2 with
  | inl value => v.1 +:+ ": " +:+ default "<binary>" (header_to_str value)
  | inr digest => v.1 +:+ ": hash:" +:+ digest
  end.

Lemma format_header_view h : format_header h = show_view (header_view h).
Proof. unfold format_header, header_view, show_view. cbn [fst snd]. by destruct (bool_decide _). Qed.

(** Header values outside the allowlist do not reach the log: requests whose headers
    agree on the names, on the allowlisted values and on the digest prefixes of the others
    are logged alike. *)
Theorem headers_redacted (hs hs' : list (string * list byte)) :
  map header_view hs = map header_view hs' -> format_headers hs = format_headers hs'.
Proof.
  intros Hv. unfold format_headers. f_equal.
  assert (forall l, map format_header l = map show_view (map header_view l)) as Hl
    by (intros l; rewrite map_map; apply map_ext, format_header_view).
  by rewrite (Hl hs), (Hl hs'), Hv.
Qed.
End Headers.

Lemma headers_redacted_witness :
  format_headers (fun _ => "0123456789abcdef") [("host", bytes_of_string "x.com"); ("authorization", bytes_of_string "Bearer a")]
  = format_headers (fun _ => "0123456789abcdef") [("host", bytes_of_string "x.com"); ("authorization", bytes_of_string "Bearer b")].
Proof. apply (headers_redacted (fun _ => "0123456789abcdef")). reflexivity. Defined.

(** ** Which credential a domain gets *)

Definition covers (pattern domain : string) : Prop :=
  pattern = domain \/ exists suffix x, pattern = "*." +:+ suffix /\ domain = x +:+ suffix /\ x <> "".

Lemma wildcard_covers_spec pattern domain :
  wildcard_covers pattern domain = true <->
  exists suffix x, pattern = "*." +:+ suffix /\ domain = x +:+ suffix /\ x <> "".
Proof.
  unfold wildcard_covers. destruct (strip_prefix "*." pattern) as [suffix|] eqn:E.
  - apply strip_prefix_Some in E. subst pattern. rewrite andb_true_iff, ends_with_spec, Z.ltb_lt. split.
    + intros [[x ->] Hl]. exists suffix, x. split; [done|]. split; [done|]. intros ->.
      unfold slen in Hl. rewrite sapp_nil_l in Hl. lia.
    + intros (s & x & Es & -> & Hx). apply sapp_inv_l in Es as <-. split; [by exists x|].
      unfold slen. rewrite slength_app. destruct x; [done|]. cbn. lia.
  - split; [done|]. intros (s & x & -> & _). by rewrite strip_prefix_app in E.
Qed.

Lemma credential_for_Some domain credentials cred :
  credential_for domain credentials = Some cred ->
  exists pattern, ((pattern, cred) ∈ credentials) /\ covers pattern domain.
Proof.
  unfold credential_for, exact_credential.
  destruct (list_find_first (fun e => bool_decide (e.1 = domain)) credentials) as [[p c]|] eqn:E1; cbn.
  - intros [= <-]. apply list_find_first_Some in E1 as [Hin Hp%bool_decide_eq_true]. cbn in Hp. subst p.
    exists domain. split; [done|by left].
  - destruct (list_find_first (fun e => wildcard_covers e.1 domain) credentials) as [[p c]|] eqn:E2; cbn; [|done].
    intros [= <-]. apply list_find_first_Some in E2 as [Hin Hp]. cbn in Hp. apply wildcard_covers_spec in Hp.
    exists p. split; [done|by right].
Qed.

Lemma credential_for_None domain credentials :
  credential_for domain credentials = None ->
  forall pattern cred, (pattern, cred) ∈ credentials -> ~ covers pattern domain.
Proof.
  unfold credential_for, exact_credential.
  destruct (list_find_first (fun e => bool_decide (e.1 = domain)) credentials) as [?|] eqn:E1; cbn; [done|].
  destruct (list_find_first (fun e => wildcard_covers e.1 domain) credentials) as [?|] eqn:E2; cbn; [done|].
  rewrite list_find_first_None in E1, E2. intros _ p c Hin [->|Hw].
  - specialize (E1 _ Hin). cbn in E1. by apply bool_decide_eq_false in E1.
  - apply wildcard_covers_spec in Hw. specialize (E2 _ Hin). cbn in E2. congruence.
Qed.

(** A credential is injected exactly when some entry's pattern is the domain itself or
    [*.] followed by a proper suffix of it. The suffix need not start at a dot, so an entry
    for the subdomains of a host is also sent to any host whose name merely ends with it. *)
Theorem credential_selection (domain : string) (credentials : Credentials) :
  (forall cred, credential_for domain credentials = Some cred ->
     exists pattern, ((pattern, cred) ∈ credentials) /\ covers pattern domain) /\
  (credential_for domain credentials = None <->
     forall pattern cred, (pattern, cred) ∈ credentials -> ~ covers pattern domain).
Proof.
  split; [intros cred; apply credential_for_Some|]. split; [apply credential_for_None|].
  intros Hnone. destruct (credential_for domain credentials) as [cred|] eqn:E; [|done].
  apply credential_for_Some in E as (p & Hin & Hcov). destruct (Hnone _ _ Hin Hcov).
Qed.

Example lookalike_gets_key :
  credential_for "evilopenai.com" [("*.openai.com", CredHeader "authorization" "Bearer sk")]
  = Some (CredHeader "authorization" "Bearer sk").
Proof. reflexivity. Qed.

(** ** Bodies *)

Record BodyStats := { bs_bytes : Z; bs_preview : list byte; bs_max_preview : nat }.

Definition BodyStats_new (max_preview : nat) : BodyStats :=
  {| bs_bytes := 0; bs_preview := []; bs_max_preview := max_preview |}.

Section TrackedBody.
Context {E : Type}.
Variable max_size : Z.

Definition tracked_poll (st : BodyStats) (inner : InnerPoll E) : OuterPoll E * BodyStats :=
  match inner with
  | InnerFrame (DataFrame data) =>
      let total := as_uN 64 (bs_bytes st + Z.of_nat (length data)) in
      if max_size <? total then
        (OuterErr BodyTooLarge,
         {| bs_bytes := total; bs_preview := bs_preview st; bs_max_preview := bs_max_preview st |})
      else
        (OuterFrame (DataFrame data),
         {| bs_bytes := total;
            bs_preview := if (length (bs_preview st) <? bs_max_preview st)%nat
                          then bs_preview st ++ take (Nat.min (bs_max_preview st - length (bs_preview st)) (length data)) data
                          else bs_preview st;
            bs_max_preview := bs_max_preview st |})
  | InnerFrame TrailersFrame => (OuterFrame TrailersFrame, st)
  | InnerErr e => (OuterErr (Upstream e), st)
  | InnerEnd => (OuterEnd, st)
  | InnerPending => (OuterPending, st)
  end.

Fixpoint tracked_poll_all (st : BodyStats) (inner : list (InnerPoll E)) : list (OuterPoll E) * BodyStats :=
  match inner with
  | [] => ([], st)
  | x :: inner =>
      let '(o, st) := tracked_poll st x in
      let '(os, st) := tracked_poll_all st inner in (o :: os, st)
  end.

(** The bytes handed on. *)
Definition out_chunk (o : OuterPoll E) : list byte :=
  match o with OuterFrame (DataFrame c) => c | _ => [] end.

Lemma tracked_preview_take (p data : list byte) (m : nat) (f : list byte) :
  p = take m f ->
  (if (length p <? m)%nat then p ++ take (Nat.min (m - length p) (length data)) data else p) = take m (f ++ data).
Proof.
  intros ->. rewrite length_take, take_app. destruct (Nat.ltb_spec (Nat.min m (length f)) m) as [Hl|Hl].
  - f_equal. rewrite (Nat.min_r m (length f)) by lia.
    destruct (Nat.le_ge_cases (m - length f) (length data)) as [Hd|Hd].
    + by rewrite Nat.min_l.
    + rewrite Nat.min_r, !take_ge by lia. done.
  - replace (m - length f)%nat with 0%nat by lia. by rewrite take_0, app_nil_r.
Qed.

Lemma tracked_go inner st sofar :
  0 <= bs_bytes st -> bs_bytes st + body_len inner < 2 ^ 64 ->
  bs_preview st = take (bs_max_preview st) sofar -> Z.of_nat (length sofar) <= max_size ->
  (bs_bytes st <= max_size -> Z.of_nat (length sofar) = bs_bytes st) ->
  let '(out, st') := tracked_poll_all st inner in
  let sent := sofar ++ concat (map out_chunk out) in
  Z.of_nat (length sent) <= max_size /\ bs_preview st' = take (bs_max_preview st) sent /\
  bs_bytes st' = bs_bytes st + body_len inner /\
  (bs_bytes st + body_len inner <= max_size -> out = map forward inner).
Proof.
  revert st sofar. induction inner as [|x inner IH]; intros st sofar H0 Hlt Hp Hmax Heq; cbn [tracked_poll_all].
  { cbn. rewrite app_nil_r, Z.add_0_r. done. }
  unfold body_len in *. cbn [map concat] in *. rewrite length_app, Nat2Z.inj_add in *.
  destruct x as [[data|]|e| |]; cbn [tracked_poll chunk_of length] in *.
  2-5: specialize (IH st sofar H0 ltac:(lia) Hp Hmax Heq); destruct (tracked_poll_all st inner) as [os st'];
    destruct IH as (I1 & I2 & I3 & I4); cbn [map concat out_chunk app forward]; repeat split; try done; try lia;
    intros; f_equal; apply I4; lia.
  rewrite as_uN_small by (unfold in_uN; lia). destruct (Z.ltb_spec max_size (bs_bytes st + Z.of_nat (length data))) as [Hm|Hm].
  - match goal with |- context [tracked_poll_all ?s inner] => specialize (IH s sofar) end. cbn in IH.
    specialize (IH ltac:(lia) ltac:(lia) Hp Hmax ltac:(lia)).
    destruct (tracked_poll_all _ inner) as [os st']. destruct IH as (I1 & I2 & I3 & I4).
    cbn [map concat out_chunk app]. repeat split; try done; lia.
  - match goal with |- context [tracked_poll_all ?s inner] => specialize (IH s (sofar ++ data)) end. cbn in IH.
    specialize (IH ltac:(lia) ltac:(lia) (tracked_preview_take _ _ _ _ Hp)).
    rewrite length_app, Nat2Z.inj_add in IH. specialize (IH ltac:(lia) ltac:(lia)).
    destruct (tracked_poll_all _ inner) as [os st']. destruct IH as (I1 & I2 & I3 & I4).
    cbn [map concat out_chunk forward]. rewrite app_assoc. repeat split; try done; try lia.
    intros. f_equal. apply I4. lia.
Qed.

(** Whatever the upstream body does, a tracked body hands on at most [max_size]
    bytes, its preview is the first [max_preview] bytes it handed on, and a body within
    the limit is handed on and counted whole. *)
Theorem tracked_body_bounds (max_preview : nat) (inner : list (InnerPoll E)) :
  body_len inner < 2 ^ 64 -> 0 <= max_size ->
  let '(out, st) := tracked_poll_all (BodyStats_new max_preview) inner in
  let sent := concat (map out_chunk out) in
  Z.of_nat (length sent) <= max_size /\ bs_preview st = take max_preview sent /\
  bs_bytes st = body_len inner /\
  (body_len inner <= max_size -> out = map forward inner).
Proof.
  intros Hlt Hm. pose proof (tracked_go inner (BodyStats_new max_preview) []) as Hgo. cbn in Hgo.
  specialize (Hgo ltac:(lia) ltac:(lia)). rewrite take_nil in Hgo. specialize (Hgo eq_refl Hm ltac:(lia)).
  by destruct (tracked_poll_all _ inner) as [out st].
Qed.
End TrackedBody.

Definition demo_polls : list (InnerPoll unit) :=
  [InnerFrame (DataFrame [Byte.x01; Byte.x02; Byte.x03]); InnerFrame (DataFrame [Byte.x04; Byte.x05]); InnerEnd].

Lemma tracked_body_bounds_witness :
  let '(out, st) := tracked_poll_all 4 (BodyStats_new 2) demo_polls in
  let sent := concat (map out_chunk out) in
  Z.of_nat (length sent) <= 4 /\ bs_preview st = take 2 sent /\ bs_bytes st = body_len demo_polls /\
  (body_len demo_polls <= 4 -> out = map forward demo_polls).
Proof. apply (tracked_body_bounds 4 2 demo_polls); [reflexivity|discriminate]. Defined.

(** ** The telemetry wrapper *)

(** The body of a response, its telemetry still pending or already sent. *)
Record TelemetryBody (S : Type) := { tb_inner : S; tb_emitter : bool }.
Arguments tb_inner {S} _. Arguments tb_emitter {S} _. Arguments Build_TelemetryBody {S}.

Section TelemetryBody.
Context {S E : Type}.
Variable poll_inner : S -> InnerPoll E -> OuterPoll E * S.

Definition TelemetryBody_new (inner : S) : TelemetryBody S := {| tb_inner := inner; tb_emitter := true |}.

(** A poll, and the state of the body the telemetry is sent with, if it is. *)
Definition telemetry_poll (self : TelemetryBody S) (x : InnerPoll E)
  : OuterPoll E * TelemetryBody S * option S :=
  let '(o, inner) := poll_inner (tb_inner self) x in
  match o with
  | OuterEnd => (OuterEnd, {| tb_inner := inner; tb_emitter := false |},
                 if tb_emitter self then Some inner else None)
  | o => (o, {| tb_inner := inner; tb_emitter := tb_emitter self |}, None)
  end.

Definition telemetry_drop (self : TelemetryBody S) : option S :=
  if tb_emitter self then Some (tb_inner self) else None.

(** The polls of a body's life, then its drop: what is sent. *)
Fixpoint telemetry_life (self : TelemetryBody S) (xs : list (InnerPoll E)) : list S :=
  match xs with
  | [] => option_list (telemetry_drop self)
  | x :: xs => let '(_, self, sent) := telemetry_poll self x in option_list sent ++ telemetry_life self xs
  end.

(** The state after the polls up to the first end. *)
Fixpoint state_at_end (s : S) (xs : list (InnerPoll E)) : S :=
  match xs with
  | [] => s
  | x :: xs => match poll_inner s x with (OuterEnd, s) => s | (_, s) => state_at_end s xs end
  end.

Lemma telemetry_life_once (inner : S) (xs : list (InnerPoll E)) :
  telemetry_life (TelemetryBody_new inner) xs = [state_at_end inner xs].
Proof.
  assert (forall xs (s : S), telemetry_life {| tb_inner := s; tb_emitter := false |} xs = []) as Hoff.
  { clear. induction xs as [|x xs IH]; intros s; cbn [telemetry_life]; [done|]. unfold telemetry_poll. cbn.
    destruct (poll_inner s x) as [[] s']; cbn; apply IH. }
  unfold TelemetryBody_new. revert inner. induction xs as [|x xs IH]; intros s; cbn [telemetry_life state_at_end]; [done|].
  unfold telemetry_poll. cbn [tb_inner tb_emitter]. destruct (poll_inner s x) as [[] s']; cbn [option_list app]; try apply IH.
  by rewrite Hoff.
Qed.

(** Each response reports its telemetry exactly once: when its body ends, with the
    counts at that point, or when it is dropped unfinished. *)
Theorem telemetry_exactly_once (inner : S) (xs : list (InnerPoll E)) :
  telemetry_life (TelemetryBody_new inner) xs = [state_at_end inner xs].
Proof. apply telemetry_life_once. Qed.
End TelemetryBody.

(** ** Replay and decompression *)

Record ReplayReader := { rr_buffer : list byte; rr_pos : nat }.

Definition ReplayReader_new (buffer : list byte) : ReplayReader := {| rr_buffer := buffer; rr_pos := 0 |}.

(** A read into [room] bytes: from the buffer, or [None] when it goes to the inner stream. *)
Definition replay_read (self : ReplayReader) (room : nat) : option (list byte) * ReplayReader :=
  if (rr_pos self <? length (rr_buffer self))%nat then
    let remaining := drop (rr_pos self) (rr_buffer self) in
    let to_copy := Nat.min (length remaining) room in
    (Some (take to_copy remaining), {| rr_buffer := rr_buffer self; rr_pos := rr_pos self + to_copy |})
  else (None, self).

Fixpoint replay_reads (self : ReplayReader) (rooms : list nat) : list byte * ReplayReader :=
  match rooms with
  | [] => ([], self)
  | room :: rooms =>
      let '(r, self) := replay_read self room in
      let '(rs, self) := replay_reads self rooms in (default [] r ++ rs, self)
  end.

(** However it is read, the buffer comes out once and in order before the inner stream. *)
Lemma replay_in_order rooms self :
  let '(out, self') := replay_reads self rooms in
  out ++ drop (rr_pos self') (rr_buffer self') = drop (rr_pos self) (rr_buffer self).
Proof.
  revert self. induction rooms as [|room rooms IH]; intros self; cbn [replay_reads]; [done|].
  unfold replay_read. destruct (Nat.ltb_spec (rr_pos self) (length (rr_buffer self))) as [Hl|Hl].
  - match goal with |- context [replay_reads ?s rooms] => specialize (IH s) end.
    destruct (replay_reads _ rooms) as [rs self']. cbn [rr_buffer rr_pos default] in *.
    rewrite <- app_assoc, IH, <- drop_drop. apply take_drop.
  - specialize (IH self). by destruct (replay_reads self rooms).
Qed.

(** One read of the gzip decoder. *)
Inductive DecoderPoll := DecRead (bytes : list byte) | DecErr (e : string) | DecPending.

Record DecompressBody := { db_buf : list byte; db_done : bool }.

Definition decompress_poll (self : DecompressBody) (d : DecoderPoll) : OuterPoll string * DecompressBody :=
  if db_done self then (OuterEnd, self)
  else
    match d with
    | DecRead [] =>
        match db_buf self with
        | [] => (OuterEnd, {| db_buf := []; db_done := true |})
        | buf => (OuterFrame (DataFrame buf), {| db_buf := []; db_done := true |})
        end
    | DecRead bytes => (OuterFrame (DataFrame (db_buf self ++ bytes)), {| db_buf := []; db_done := false |})
    | DecErr e => (OuterErr (Upstream e), self)
    | DecPending => (OuterPending, self)
    end.

(** ** The burst of a new domain: its first fifty requests at once, not the hundred the
    bucket may hold. *)
Fixpoint checks (n : nat) (self : RateLimiterMap) (domain : string) : nat :=
  match n with
  | O => O
  | S n => let '(ok, self) := RateLimiterMap_check self 0 0 0 domain in
           ((if ok then 1 else 0) + checks n self domain)%nat
  end.

Example first_burst : checks 60 (RateLimiterMap_new (f64_of_u64 50)) "x.com" = 50%nat.
Proof. vm_compute. reflexivity. Qed.

Lemma RateLimiterMap_check_other self n0 n1 n2 domain other :
  other <> domain -> buckets (RateLimiterMap_check self n0 n1 n2 domain).2 !! other = buckets self !! other.
Proof. intros. cbn. by rewrite lookup_insert_ne. Qed.
