(* ===== verification/VpnTunnel.v ===== *)
(** The VPN of a venv: clawcage-core/src/net/vpn/tunnel.rs and vpn/mod.rs.

    [WgTunnel] joins WireGuard, a UDP socket and a TCP/IP stack. WireGuard (boringtun) is
    the class [Noise] and the stack (smoltcp) the class [NetStack]; the UDP socket is the
    outcomes of its reads and the list of the datagrams sent. [VpnManager] keeps one
    tunnel: its tunnels are shared with the tasks that poll them, so they live in a store
    by number, and a [connect] is two steps, before and after the lock is released for
    the handshake. What is offered is always driven, by the task of the connect that made it,
    but the status shows the endpoint of the last configuration that parsed
    ([offered_tunnel_is_polled], [Demo.foreign_endpoint]); connects one after the other are
    consistent ([vpn_serial_consistent]); a disconnect
    in the middle of a connect is not ([disconnect_while_connecting]), and no failure of
    the VPN stops a connection of the proxy ([vpn_failure_goes_direct]). *)

From Stdlib Require Import ZArith Lia Ascii Strings.Byte.
From stdpp Require Import base numbers list gmap strings pretty.
From S2P Require Import Prelude RustStr RustText IpAddr VpnConfig MitmParts.

(** ** Interfaces *)

Abbreviation packet := (list byte).

Inductive TunnResult :=
| Done
| TunnErr (e : string)
| WriteToNetwork (data : packet)
| WriteToTunnelV4 (p : packet)
| WriteToTunnelV6 (p : packet).

Class Noise := {
  Tunn : Type;
  tunn_new : list byte -> list byte -> option (list byte) -> option Z -> Tunn;
  format_handshake_initiation : Tunn -> TunnResult * Tunn;
  decapsulate : packet -> Tunn -> TunnResult * Tunn;
  encapsulate : packet -> Tunn -> TunnResult * Tunn;
  update_timers : Tunn -> TunnResult * Tunn;
  has_handshake : Tunn -> bool;
}.

(** The queues between the two libraries. *)
Record VpnDevice := { dev_outgoing : list packet; dev_incoming : list packet }.

Inductive RecvError := RecvFinished | RecvInvalidState.

Class NetStack := {
  Stack : Type;
  stack_new : Ipv4Addr -> Z -> result Stack string;
  iface_poll : Stack -> VpnDevice -> Stack * VpnDevice;
  socket_add : Stack -> nat * Stack;
  socket_connect : nat -> Ipv4Addr -> Z -> Z -> Stack -> result unit string * Stack;
  socket_close : nat -> Stack -> Stack;
  may_recv : nat -> Stack -> bool;
  may_send : nat -> Stack -> bool;
  is_active : nat -> Stack -> bool;
  recv_slice : nat -> Z -> Stack -> result (list byte) RecvError * Stack;
  send_slice : nat -> list byte -> Stack -> result Z unit * Stack;
}.

(** ** The device *)

Definition device_new : VpnDevice := {| dev_outgoing := []; dev_incoming := [] |}.

(** The packet of the receive token; both tokens may append to the outgoing queue. *)
Definition receive (d : VpnDevice) : option packet * VpnDevice :=
  match dev_incoming d with
  | [] => (None, d)
  | p :: rest => (Some p, {| dev_outgoing := dev_outgoing d; dev_incoming := rest |})
  end.

Definition tx_consume (buf : packet) (d : VpnDevice) : VpnDevice :=
  {| dev_outgoing := dev_outgoing d ++ [buf]; dev_incoming := dev_incoming d |}.

Section Tunnel.
Context {noise : Noise} {net_stack : NetStack}.

(** [ti_sent]: the datagrams sent; the results of sends after the first are ignored. *)
Record TunnelInner := { tunn : Tunn; stack : Stack; device : VpnDevice; ti_sent : list packet }.

Definition set_tunn x t := {| tunn := x; stack := stack t; device := device t; ti_sent := ti_sent t |}.
Definition set_stack x t := {| tunn := tunn t; stack := x; device := device t; ti_sent := ti_sent t |}.
Definition set_device x t := {| tunn := tunn t; stack := stack t; device := x; ti_sent := ti_sent t |}.
Definition udp_send data t := {| tunn := tunn t; stack := stack t; device := device t; ti_sent := ti_sent t ++ [data] |}.

Definition push_incoming (p : packet) (t : TunnelInner) : TunnelInner :=
  set_device {| dev_outgoing := dev_outgoing (device t); dev_incoming := dev_incoming (device t) ++ [p] |} t.

(** ** Creation *)

(** The base64 decoder of the key, with its error as text. *)
Variable base64_decode : string -> result (list byte) string.

Definition decode_key (b64 name : string) : result (list byte) string :=
  let? bytes := map_err (name +:+ ": base64 decode: ") (base64_decode b64) in
  if (length bytes =? 32)%nat then Ok bytes
  else Err (name +:+ ": expected 32 bytes, got " +:+ pretty (length bytes)).

(** The outcomes of the socket calls of one creation. *)
Record UdpSetup := {
  us_bind : result unit string;
  us_connect : result unit string;
  us_nonblocking : result unit string;
  us_send : result unit string;
}.

Definition initiate_handshake (us : UdpSetup) (t : TunnelInner) : result TunnelInner string :=
  let '(r, x) := format_handshake_initiation (tunn t) in
  let t := set_tunn x t in
  match r with
  | WriteToNetwork data => let? _ := map_err "send handshake init: " (us_send us) in Ok (udp_send data t)
  | TunnErr e => Err ("handshake initiation failed: " +:+ e)
  | _ => Ok t
  end.

Definition WgTunnel_new (us : UdpSetup) (config : WireGuardConfig) : result TunnelInner string :=
  let? private_key := decode_key (if_private_key (wg_interface config)) "PrivateKey" in
  let? public_key := decode_key (pc_public_key (wg_peer config)) "PublicKey" in
  let? preshared_key := match pc_preshared_key (wg_peer config) with
                        | Some k => let? k := decode_key k "PresharedKey" in Ok (Some k)
                        | None => Ok None
                        end in
  let x := tunn_new private_key public_key preshared_key (pc_persistent_keepalive (wg_peer config)) in
  let? _ := map_err "bind UDP: " (us_bind us) in
  let? _ := map_err ("connect to endpoint " +:+ show_socket (pc_endpoint (wg_peer config)) +:+ ": ") (us_connect us) in
  let? _ := map_err "set nonblocking: " (us_nonblocking us) in
  let? s := map_err "add default route: " (stack_new (if_address (wg_interface config)) (if_address_prefix (wg_interface config))) in
  initiate_handshake us {| tunn := x; stack := s; device := device_new; ti_sent := [] |}.

(** ** Polling *)

(** After a response: WireGuard is asked once more. *)
Definition follow_up (t : TunnelInner) : TunnelInner :=
  let '(r, x) := decapsulate [] (tunn t) in
  let t := set_tunn x t in
  match r with
  | WriteToTunnelV4 p => push_incoming p t
  | WriteToNetwork resp => udp_send resp t
  | _ => t
  end.

Definition process_udp_packet (data : packet) (t : TunnelInner) : TunnelInner :=
  let '(r, x) := decapsulate data (tunn t) in
  let t := set_tunn x t in
  match r with
  | Done | WriteToTunnelV6 _ | TunnErr _ => t
  | WriteToNetwork resp => follow_up (udp_send resp t)
  | WriteToTunnelV4 p => push_incoming p t
  end.

Inductive UdpRecv := Datagram (d : packet) | WouldBlock | RecvFailed.

(** A finished list is a socket with nothing to read. *)
Fixpoint recv_loop (ins : list UdpRecv) (t : TunnelInner) : TunnelInner :=
  match ins with
  | Datagram d :: ins => recv_loop ins (process_udp_packet d t)
  | _ => t
  end.

Definition encrypt_and_send (p : packet) (t : TunnelInner) : TunnelInner :=
  let '(r, x) := encapsulate p (tunn t) in
  let t := set_tunn x t in
  match r with WriteToNetwork data => udp_send data t | _ => t end.

Definition run_timers (t : TunnelInner) : TunnelInner :=
  let '(r, x) := update_timers (tunn t) in
  let t := set_tunn x t in
  match r with WriteToNetwork data => udp_send data t | _ => t end.

(** It never fails. *)
Definition poll (ins : list UdpRecv) (t : TunnelInner) : TunnelInner :=
  let t := recv_loop ins t in
  let '(s, d) := iface_poll (stack t) (device t) in
  let t := set_stack s (set_device {| dev_outgoing := []; dev_incoming := dev_incoming d |} t) in
  run_timers (foldl (fun t p => encrypt_and_send p t) t (dev_outgoing d)).

Definition is_established (t : TunnelInner) : bool := has_handshake (tunn t).

(** ** TCP sockets *)

Definition local_port (subsec_nanos : Z) : Z := as_uN 16 (49152 + subsec_nanos mod 16384).

Definition tcp_connect (subsec_nanos : Z) (addr : Ipv4Addr) (port : Z) (t : TunnelInner) : result nat string * TunnelInner :=
  let '(handle, s) := socket_add (stack t) in
  let '(r, s) := socket_connect handle addr port (local_port subsec_nanos) s in
  (match r with Ok _ => Ok handle | Err e => Err ("TCP connect: " +:+ e) end, set_stack s t).

Definition tcp_read (handle : nat) (len : Z) (t : TunnelInner) : result (list byte) string * TunnelInner :=
  if negb (may_recv handle (stack t)) then (Err "socket closed for reading", t)
  else let '(r, s) := recv_slice handle len (stack t) in
       (match r with
        | Ok data => Ok data
        | Err RecvFinished => Err "connection finished"
        | Err RecvInvalidState => Err "invalid socket state"
        end, set_stack s t).

Definition tcp_write (handle : nat) (data : list byte) (t : TunnelInner) : result Z string * TunnelInner :=
  if negb (may_send handle (stack t)) then (Err "socket closed for writing", t)
  else let '(r, s) := send_slice handle data (stack t) in
       (match r with Ok n => Ok n | Err _ => Err "send buffer full" end, set_stack s t).

Definition tcp_close (handle : nat) (t : TunnelInner) : TunnelInner := set_stack (socket_close handle (stack t)) t.

(** The poll methods of a stream; [PollPending] asks to be woken at once. *)
Inductive IoPoll (A : Type) := PollPending | PollReady (a : A) | PollError (e : string).
Arguments PollPending {A}.
Arguments PollReady {A} a.
Arguments PollError {A} e.

(** No data is the end of the stream. *)
Definition poll_read (handle : nat) (ins : list UdpRecv) (remaining : Z) (t : TunnelInner) : IoPoll (list byte) * TunnelInner :=
  let '(r, t) := tcp_read handle remaining (poll ins t) in
  (match r with
   | Ok [] => PollPending
   | Ok data => PollReady data
   | Err e => if str_contains e "closed" || str_contains e "finished" then PollReady [] else PollError e
   end, t).

Definition poll_write (handle : nat) (ins : list UdpRecv) (buf : list byte) (t : TunnelInner) : IoPoll Z * TunnelInner :=
  let '(r, t) := tcp_write handle buf (poll ins t) in
  (match r with Ok n => if n =? 0 then PollPending else PollReady n | Err e => PollError e end, t).

Definition poll_shutdown (handle : nat) (t : TunnelInner) : IoPoll unit * TunnelInner := (PollReady tt, tcp_close handle t).
Definition stream_drop (handle : nat) (t : TunnelInner) : TunnelInner := tcp_close handle t.

(** ** The manager *)

Inductive VpnStatus := Disconnected | Connecting | Connected | VpnError.

Record VpnState := { vs_status : VpnStatus; vs_error : option string; vs_endpoint : option string; vs_tunnel_ip : option string }.

Definition VpnState_default : VpnState :=
  {| vs_status := Disconnected; vs_error := None; vs_endpoint := None; vs_tunnel_ip := None |}.

(** [vm_tunnels]: the tunnels made, by number; [vm_tasks]: the tunnels a task is polling. *)
Record VpnManager := {
  vm_status : VpnStatus;
  vm_error : option string;
  vm_tunnel : option nat;
  vm_config : option WireGuardConfig;
  vm_poll_task : option nat;
  vm_tunnels : gmap nat TunnelInner;
  vm_tasks : gset nat;
  vm_next : nat;
}.

Definition manager_new : VpnManager :=
  {| vm_status := Disconnected; vm_error := None; vm_tunnel := None; vm_config := None; vm_poll_task := None;
     vm_tunnels := ∅; vm_tasks := ∅; vm_next := 0 |}.

(** [connect] until it waits for the handshake: the tunnel it waits for. *)
Definition connect_begin (us : UdpSetup) (config_str : string) (m : VpnManager) : result nat string * VpnManager :=
  match parse config_str with
  | Err e => (Err e, m)
  | Ok config =>
      match WgTunnel_new us config with
      | Err e =>
          (Err e, {| vm_status := VpnError; vm_error := Some e; vm_tunnel := vm_tunnel m; vm_config := Some config;
                     vm_poll_task := vm_poll_task m; vm_tunnels := vm_tunnels m; vm_tasks := vm_tasks m; vm_next := vm_next m |})
      | Ok t =>
          let n := vm_next m in
          (Ok n, {| vm_status := Connecting; vm_error := None; vm_tunnel := Some n; vm_config := Some config;
                    vm_poll_task := Some n; vm_tunnels := <[n := t]> (vm_tunnels m); vm_tasks := {[n]} ∪ vm_tasks m; vm_next := S n |})
      end
  end.

Definition abort_poll_task (m : VpnManager) : gset nat :=
  match vm_poll_task m with Some k => vm_tasks m ∖ {[k]} | None => vm_tasks m end.

(** The end of [connect]: whether the handshake was seen within ten seconds. *)
Definition connect_end (handshake_ok : bool) (m : VpnManager) : result unit string * VpnManager :=
  if handshake_ok
  then (Ok tt, {| vm_status := Connected; vm_error := vm_error m; vm_tunnel := vm_tunnel m; vm_config := vm_config m;
                  vm_poll_task := vm_poll_task m; vm_tunnels := vm_tunnels m; vm_tasks := vm_tasks m; vm_next := vm_next m |})
  else let err := "WireGuard handshake timed out (10s)" in
       (Err err, {| vm_status := VpnError; vm_error := Some err; vm_tunnel := None; vm_config := vm_config m;
                    vm_poll_task := None; vm_tunnels := vm_tunnels m; vm_tasks := abort_poll_task m; vm_next := vm_next m |}).

Definition disconnect (m : VpnManager) : VpnManager :=
  {| vm_status := Disconnected; vm_error := None; vm_tunnel := None; vm_config := None; vm_poll_task := None;
     vm_tunnels := vm_tunnels m; vm_tasks := abort_poll_task m; vm_next := vm_next m |}.

Definition get_state (m : VpnManager) : VpnState :=
  {| vs_status := vm_status m; vs_error := vm_error m;
     vs_endpoint := (fun c => show_socket (pc_endpoint (wg_peer c))) <$> vm_config m;
     vs_tunnel_ip := (fun c => show_ipv4 (if_address (wg_interface c))) <$> vm_config m |}.

Definition get_tunnel (m : VpnManager) : option nat :=
  match vm_status m with Connected => vm_tunnel m | _ => None end.

Definition set_tunnels x m :=
  {| vm_status := vm_status m; vm_error := vm_error m; vm_tunnel := vm_tunnel m; vm_config := vm_config m;
     vm_poll_task := vm_poll_task m; vm_tunnels := x; vm_tasks := vm_tasks m; vm_next := vm_next m |}.

(** One turn of the task of tunnel [n]. *)
Definition poll_task (n : nat) (ins : list UdpRecv) (m : VpnManager) : VpnManager :=
  if bool_decide (n ∈ vm_tasks m) then set_tunnels (alter (poll ins) n (vm_tunnels m)) m else m.

(** The wait for a connection: the polls that fit into thirty seconds. *)
Inductive TcpWait := TcpEstablished | TcpRefused | TcpTimedOut.

Fixpoint tcp_wait (handle : nat) (rounds : list (list UdpRecv)) (t : TunnelInner) : TcpWait * TunnelInner :=
  match rounds with
  | [] => (TcpTimedOut, t)
  | ins :: rounds =>
      let t := poll ins t in
      if may_send handle (stack t) then (TcpEstablished, t)
      else if negb (is_active handle (stack t)) then (TcpRefused, t)
      else tcp_wait handle rounds t
  end.

(** The tunnel and the socket of the stream. *)
Definition connect_tcp (subsec_nanos : Z) (rounds : list (list UdpRecv)) (addr : Ipv4Addr) (port : Z) (m : VpnManager)
  : result (nat * nat) string * VpnManager :=
  match get_tunnel m with
  | None => (Err "VPN not connected", m)
  | Some n =>
      match vm_tunnels m !! n with
      | None => (Err "VPN not connected", m)
      | Some t =>
          let '(r, t) := tcp_connect subsec_nanos addr port t in
          match r with
          | Err e => (Err e, set_tunnels (<[n := t]> (vm_tunnels m)) m)
          | Ok handle =>
              let to := "VPN TCP connect to " +:+ show_ipv4 addr +:+ ":" +:+ show_Z port in
              let '(w, t) := tcp_wait handle rounds t in
              let '(r, t) := match w with
                             | TcpEstablished => (Ok (n, handle), t)
                             | TcpRefused => (Err (to +:+ " refused"), tcp_close handle t)
                             | TcpTimedOut => (Err (to +:+ " timed out"), tcp_close handle t)
                             end in
              (r, set_tunnels (<[n := t]> (vm_tunnels m)) m)
          end
      end
  end.

(** ** Operations in any order *)

Inductive VpnOp :=
| OpConnectBegin (us : UdpSetup) (config_str : string)
| OpConnectEnd (handshake_ok : bool)
| OpDisconnect
| OpPoll (n : nat) (ins : list UdpRecv)
| OpTcp (subsec_nanos : Z) (rounds : list (list UdpRecv)) (addr : Ipv4Addr) (port : Z).

Definition vpn_step (m : VpnManager) (op : VpnOp) : VpnManager :=
  match op with
  | OpConnectBegin us c => (connect_begin us c m).2
  | OpConnectEnd ok => (connect_end ok m).2
  | OpDisconnect => disconnect m
  | OpPoll n ins => poll_task n ins m
  | OpTcp ns rounds addr port => (connect_tcp ns rounds addr port m).2
  end.

Definition vpn_run (ops : list VpnOp) : VpnManager := foldl vpn_step manager_new ops.

(** A whole [connect], its polls, and no other operation in between. *)
Definition connect (us : UdpSetup) (config_str : string) (polls : list (nat * list UdpRecv)) (handshake_ok : bool)
    (m : VpnManager) : result unit string * VpnManager :=
  let '(r, m) := connect_begin us config_str m in
  match r with
  | Err e => (Err e, m)
  | Ok _ => connect_end handshake_ok (foldl (fun m p => poll_task p.1 p.2 m) m polls)
  end.

Inductive SerialOp :=
| SerialConnect (us : UdpSetup) (config_str : string) (polls : list (nat * list UdpRecv)) (handshake_ok : bool)
| SerialDisconnect
| SerialPoll (n : nat) (ins : list UdpRecv)
| SerialTcp (subsec_nanos : Z) (rounds : list (list UdpRecv)) (addr : Ipv4Addr) (port : Z).

Definition serial_step (m : VpnManager) (op : SerialOp) : VpnManager :=
  match op with
  | SerialConnect us c polls ok => (connect us c polls ok m).2
  | SerialDisconnect => disconnect m
  | SerialPoll n ins => poll_task n ins m
  | SerialTcp ns rounds addr port => (connect_tcp ns rounds addr port m).2
  end.

(** The proxy's network with this manager as its VPN. *)
Definition octets (ip : MitmParts.IpAddr) : Ipv4Addr :=
  match ip with MitmParts.V4 a b c d => map byte_to_Z [a; b; c; d] | MitmParts.V6 _ => [] end.

Definition with_vpn (subsec_nanos : Z) (rounds : list (list UdpRecv)) (m : VpnManager) (net : Network) : Network :=
  {| lookup_host := lookup_host net;
     MitmParts.vpn_connect := Some (fun ip port =>
       let? _ := (connect_tcp subsec_nanos rounds (octets ip) port m).1 in Ok tt);
     MitmParts.tcp_connect := MitmParts.tcp_connect net;
     connect_timed_out := connect_timed_out net |}.

(** ** The invariant of every order *)

(** The fields of the manager that the tunnels' own changes leave alone. *)
Definition same_control (m m' : VpnManager) : Prop :=
  vm_status m' = vm_status m /\ vm_error m' = vm_error m /\ vm_tunnel m' = vm_tunnel m /\ vm_config m' = vm_config m /\
  vm_poll_task m' = vm_poll_task m /\ vm_tasks m' = vm_tasks m /\ vm_next m' = vm_next m /\
  dom (vm_tunnels m') = dom (vm_tunnels m).

Lemma poll_task_control n ins m : same_control m (poll_task n ins m).
Proof.
  unfold poll_task. case_bool_decide; [|done]. unfold same_control. cbn.
  do 7 (split; [done|]). apply dom_alter_L.
Qed.

Lemma connect_tcp_control ns rounds addr port m : same_control m (connect_tcp ns rounds addr port m).2.
Proof.
  unfold connect_tcp. destruct (get_tunnel m) as [n|]; [|done]. destruct (vm_tunnels m !! n) as [t|] eqn:E; [|done].
  assert (forall x, dom (<[n := x]> (vm_tunnels m)) = dom (vm_tunnels m)) as Hdom.
  { intros x. apply elem_of_dom_2 in E. set_solver. }
  destruct (tcp_connect ns addr port t) as [[h|e] t']; [|by repeat split; cbn].
  destruct (tcp_wait h rounds t') as [w t'']. by destruct w; repeat split; cbn.
Qed.

Definition manager_ok (m : VpnManager) : Prop :=
  vm_poll_task m = vm_tunnel m /\
  (forall n, vm_tunnel m = Some n -> n ∈ vm_tasks m /\ n ∈ dom (vm_tunnels m) /\ is_Some (vm_config m)) /\
  (forall n, n ∈ vm_tasks m -> (n < vm_next m)%nat).

Lemma manager_ok_control m m' : same_control m m' -> manager_ok m -> manager_ok m'.
Proof. intros (_ & _ & Ht & Hc & Hp & Hk & Hn & Hd) (H1 & H2 & H3). unfold manager_ok. by rewrite Ht, Hc, Hp, Hk, Hn, Hd. Qed.

Lemma abort_subset m : abort_poll_task m ⊆ vm_tasks m.
Proof. unfold abort_poll_task. destruct (vm_poll_task m); set_solver. Qed.

Lemma connect_begin_ok us c m : manager_ok m -> manager_ok (connect_begin us c m).2.
Proof.
  intros (Hp & Ht & Hn). unfold connect_begin. destruct (parse c) as [cfg|]; [|done].
  destruct (WgTunnel_new us cfg) as [t|e]; cbn; unfold manager_ok; cbn; split; [done| |done|].
  - split; [intros n [= <-]; split; [set_solver|]; split; [set_solver|done]|].
    intros n [->%elem_of_singleton|Hin]%elem_of_union; [lia|]. specialize (Hn n Hin). lia.
  - split; [|done]. intros n Hin. by destruct (Ht n Hin) as (? & ? & _).
Qed.

Lemma connect_end_ok ok m : manager_ok m -> manager_ok (connect_end ok m).2.
Proof.
  intros (Hp & Ht & Hn). unfold connect_end. destruct ok; cbn; [done|]. split; [done|]. split; [done|].
  intros n Hin%abort_subset. by apply Hn.
Qed.

Lemma disconnect_ok m : manager_ok m -> manager_ok (disconnect m).
Proof.
  intros (Hp & Ht & Hn). split; [done|]. split; [done|]. intros n Hin%abort_subset. by apply Hn.
Qed.

Lemma vpn_step_ok m op : manager_ok m -> manager_ok (vpn_step m op).
Proof.
  destruct op; cbn; [apply connect_begin_ok|apply connect_end_ok|apply disconnect_ok| |].
  - apply manager_ok_control, poll_task_control.
  - apply manager_ok_control, connect_tcp_control.
Qed.

(** ** Where the offered tunnel comes from *)

(** The configuration that a connect stores, and whether a connect makes a tunnel of it. *)
Definition parsed_config (op : VpnOp) : option WireGuardConfig :=
  match op with OpConnectBegin _ c => (match parse c with Ok config => Some config | Err _ => None end) | _ => None end.

Definition makes_tunnel (op : VpnOp) : bool :=
  match op with
  | OpConnectBegin us c => match parse c with Ok config => is_ok (WgTunnel_new us config) | Err _ => false end
  | _ => false
  end.

(** An operation after which the manager holds the tunnel it held before. *)
Definition keeps_tunnel (op : VpnOp) : Prop := op <> OpDisconnect /\ op <> OpConnectEnd false /\ makes_tunnel op = false.

Definition endpoint_of (config : WireGuardConfig) : string := show_socket (pc_endpoint (wg_peer config)).

(** The tunnel [n] was made by a connect of [ops], which [after] follows. *)
Definition tunnel_origin (ops : list VpnOp) (n : nat) : Prop :=
  exists before us c config after,
    ops = before ++ OpConnectBegin us c :: after /\
    parse c = Ok config /\ is_ok (WgTunnel_new us config) = true /\ vm_next (vpn_run before) = n /\
    Forall keeps_tunnel after /\
    (vm_status (vpn_run ops) = Connected -> OpConnectEnd true ∈ after) /\
    vm_config (vpn_run ops) = Some (List.last (omap parsed_config after) config).

Lemma vpn_run_snoc ops op : vpn_run (ops ++ [op]) = vpn_step (vpn_run ops) op.
Proof. unfold vpn_run. by rewrite foldl_app. Qed.

Lemma vpn_run_ok ops : manager_ok (vpn_run ops).
Proof.
  induction ops as [|op ops IH] using rev_ind; [by split; [done|split; [done|set_solver]]|].
  rewrite vpn_run_snoc. by apply vpn_step_ok.
Qed.

(** The origin stays the same over an operation that keeps the tunnel. *)
Lemma tunnel_origin_snoc ops n op :
  tunnel_origin ops n -> keeps_tunnel op ->
  (vm_status (vpn_step (vpn_run ops) op) = Connected -> vm_status (vpn_run ops) = Connected \/ op = OpConnectEnd true) ->
  vm_config (vpn_step (vpn_run ops) op) = match parsed_config op with Some c => Some c | None => vm_config (vpn_run ops) end ->
  tunnel_origin (ops ++ [op]) n.
Proof.
  intros (before & us & c & config & after & -> & Hp & Hw & Hn & Hk & Hs & Hc) Hop Hst Hcfg.
  exists before, us, c, config, (after ++ [op]). rewrite vpn_run_snoc.
  split; [by rewrite <- app_assoc|]. split; [done|]. split; [done|]. split; [done|].
  split; [by apply Forall_app_2; [|apply Forall_singleton]|]. split.
  - intros [H | ->]%Hst; apply elem_of_app; [left; by apply Hs|right; by apply list_elem_of_singleton].
  - rewrite Hcfg, Hc, omap_app. cbn. destruct (parsed_config op) as [c'|]; [by rewrite last_last|by rewrite app_nil_r].
Qed.

Lemma same_control_origin ops n op :
  tunnel_origin ops n -> same_control (vpn_run ops) (vpn_step (vpn_run ops) op) -> keeps_tunnel op -> parsed_config op = None ->
  tunnel_origin (ops ++ [op]) n.
Proof.
  intros Ho (Hs & _ & _ & Hc & _) Hk Hp. apply tunnel_origin_snoc; [done|done|rewrite Hs; by left|by rewrite Hp].
Qed.

Lemma begin_origin us c ops n :
  (vm_tunnel (vpn_run ops) = Some n -> tunnel_origin ops n) ->
  vm_tunnel (connect_begin us c (vpn_run ops)).2 = Some n -> tunnel_origin (ops ++ [OpConnectBegin us c]) n.
Proof.
  intros IH Ht. unfold connect_begin in Ht. destruct (parse c) as [config|e] eqn:Hp.
  - destruct (WgTunnel_new us config) as [t|e] eqn:Hw.
    + injection Ht as Hn. exists ops, us, c, config, []. rewrite vpn_run_snoc. cbn. unfold connect_begin. rewrite Hp, Hw.
      by repeat split.
    + apply tunnel_origin_snoc; [by apply IH| | |]; unfold keeps_tunnel; cbn; unfold connect_begin; rewrite Hp, ?Hw; cbn; by auto.
  - apply tunnel_origin_snoc; [by apply IH| | |]; unfold keeps_tunnel; cbn; unfold connect_begin; rewrite Hp; cbn; by auto.
Qed.

Lemma vpn_tunnel_origin ops n : vm_tunnel (vpn_run ops) = Some n -> tunnel_origin ops n.
Proof.
  revert n. induction ops as [|op ops IH] using rev_ind; intros n; [done|]. rewrite vpn_run_snoc.
  destruct op as [us c|[]| |k ins|ns rounds addr port]; cbn [vpn_step]; intros Ht.
  - apply begin_origin; [apply IH|done].
  - apply tunnel_origin_snoc; [by apply IH|done|by right|done].
  - done.
  - done.
  - pose proof (poll_task_control k ins (vpn_run ops)) as Hs. apply same_control_origin; [|done..].
    apply IH. by destruct Hs as (_ & _ & <- & _).
  - pose proof (connect_tcp_control ns rounds addr port (vpn_run ops)) as Hs. apply same_control_origin; [|done..].
    apply IH. by destruct Hs as (_ & _ & <- & _).
Qed.

(** C33: after any sequence of connects that succeed, fail or are overlapped, disconnects,
    polls and upstream connections, the tunnel that the manager offers to the proxy exists
    and a task is polling it. It is the tunnel of a connect of the sequence whose
    configuration parsed: none after it made a tunnel, no handshake timed out and nothing
    disconnected since, and a wait for a handshake ended well after it. The endpoint and the
    address that the status shows are those of the last configuration that parsed: they are
    the tunnel's own unless a later connect parsed its configuration and then failed to
    make its tunnel. *)
Theorem offered_tunnel_is_polled (ops : list VpnOp) (n : nat) (Hn : get_tunnel (vpn_run ops) = Some n) :
  n ∈ vm_tasks (vpn_run ops) /\ is_Some (vm_tunnels (vpn_run ops) !! n) /\
  exists before us c config after,
    ops = before ++ OpConnectBegin us c :: after /\
    parse c = Ok config /\ is_ok (WgTunnel_new us config) = true /\ vm_next (vpn_run before) = n /\
    Forall (fun op => op <> OpDisconnect /\ op <> OpConnectEnd false /\ makes_tunnel op = false) after /\
    OpConnectEnd true ∈ after /\
    let shown := List.last (omap parsed_config after) config in
    get_state (vpn_run ops) =
      {| vs_status := Connected; vs_error := vm_error (vpn_run ops); vs_endpoint := Some (endpoint_of shown);
         vs_tunnel_ip := Some (show_ipv4 (if_address (wg_interface shown))) |}.
Proof.
  unfold get_tunnel in Hn. destruct (vm_status (vpn_run ops)) eqn:Hs; [done..| |done].
  destruct (vpn_run_ok ops) as (_ & Ht & _). destruct (Ht n Hn) as (Hin & Hd & _).
  split; [done|]. split; [by apply elem_of_dom|].
  destruct (vpn_tunnel_origin ops n Hn) as (before & us & c & config & after & He & Hp & Hw & Hx & Hk & Hend & Hc).
  exists before, us, c, config, after. repeat (split; [by auto|]). cbn zeta. unfold get_state. by rewrite Hs, Hc.
Qed.

(** ** One connect at a time *)

Definition consistent (m : VpnManager) : Prop :=
  match vm_status m with
  | Connected => is_Some (get_tunnel m) /\ vm_error m = None /\ is_Some (vm_config m)
  | Disconnected => vm_tunnel m = None /\ vm_config m = None /\ vm_error m = None
  | VpnError => is_Some (vm_error m) /\ is_Some (vm_config m)
  | Connecting => False
  end.

Lemma consistent_control m m' : same_control m m' -> consistent m -> consistent m'.
Proof. intros (Hs & He & Ht & Hc & _). unfold consistent, get_tunnel. by rewrite Hs, He, Ht, Hc. Qed.

Lemma polls_control polls m : same_control m (foldl (fun m p => poll_task p.1 p.2 m) m polls).
Proof.
  revert m. induction polls as [|p polls IH]; intros m; [done|]. cbn [foldl].
  destruct (IH (poll_task p.1 p.2 m)) as (E1 & E2 & E3 & E4 & E5 & E6 & E7 & E8).
  destruct (poll_task_control p.1 p.2 m) as (F1 & F2 & F3 & F4 & F5 & F6 & F7 & F8).
  unfold same_control. by rewrite E1, E2, E3, E4, E5, E6, E7, E8.
Qed.

Lemma connect_consistent us c polls ok m : consistent m ->
  consistent (connect us c polls ok m).2 /\
  (is_ok (connect us c polls ok m).1 = true -> vm_status (connect us c polls ok m).2 = Connected).
Proof.
  intros Hm. unfold connect, connect_begin. destruct (parse c) as [cfg|e]; [|done].
  destruct (WgTunnel_new us cfg) as [t|e]; [|by split; [unfold consistent; cbn; eauto|]].
  match goal with |- context [foldl _ ?m0 polls] => destruct (polls_control polls m0) as (Hs & He & Ht & Hc & _) end.
  cbn in Hs, He, Ht, Hc. destruct ok; cbn [connect_end fst snd].
  - split; [|done]. unfold consistent, get_tunnel. cbn. rewrite He, Ht, Hc. eauto.
  - split; [|done]. unfold consistent. cbn. rewrite Hc. eauto.
Qed.

Theorem vpn_serial_consistent (ops : list SerialOp) : consistent (foldl serial_step manager_new ops).
Proof.
  assert (consistent manager_new) as Hinit by done. revert Hinit. generalize manager_new.
  induction ops as [|op ops IH]; intros m Hm; [done|]. cbn [foldl]. apply IH. destruct op; cbn.
  - by apply connect_consistent.
  - done.
  - eapply consistent_control; [apply poll_task_control|done].
  - eapply consistent_control; [apply connect_tcp_control|done].
Qed.

(** ** Two operations that overlap *)

Theorem disconnect_while_connecting (us : UdpSetup) (config_str : string) (m m1 : VpnManager) (n : nat)
    (Hb : connect_begin us config_str m = (Ok n, m1)) :
  let '(r, m2) := connect_end true (disconnect m1) in
  r = Ok tt /\ vs_status (get_state m2) = Connected /\ get_tunnel m2 = None /\ n ∉ vm_tasks m2 /\
  forall ns rounds addr port, connect_tcp ns rounds addr port m2 = (Err "VPN not connected", m2).
Proof.
  cbn. split; [done|]. split; [done|]. split; [done|]. split; [|done].
  unfold connect_begin in Hb. destruct (parse config_str) as [cfg|]; [|done].
  destruct (WgTunnel_new us cfg); [|done]. injection Hb as <- <-. unfold abort_poll_task. cbn. set_solver.
Qed.

(** A second connect leaves the task of the first one running, also after [disconnect]. *)
Lemma reconnect_leaks_task us c us' c' m m1 m2 n n' : manager_ok m ->
  connect_begin us c m = (Ok n, m1) -> connect_begin us' c' (connect_end true m1).2 = (Ok n', m2) ->
  n ∈ vm_tasks (disconnect (connect_end true m2).2).
Proof.
  intros Hm H1 H2. unfold connect_begin in H1, H2.
  destruct (parse c) as [cfg|]; [|done]. destruct (WgTunnel_new us cfg); [|done]. injection H1 as <- <-.
  destruct (parse c') as [cfg'|]; [|done]. destruct (WgTunnel_new us' cfg'); [|done]. injection H2 as <- <-.
  cbn. unfold abort_poll_task. cbn. set_solver by lia.
Qed.

Theorem vpn_failure_goes_direct (ns : Z) (rounds : list (list UdpRecv)) (m : VpnManager) (net : Network) (domain : string)
    (addrs : list MitmParts.IpAddr) (Hdown : get_tunnel m = None)
    (Haddrs : lookup_host net (domain +:+ ":443") = Ok addrs) (Htime : connect_timed_out net domain = false) :
  connect_upstream (with_vpn ns rounds m net) domain = direct_connect net domain.
Proof.
  unfold connect_upstream, with_vpn. cbn. rewrite Htime, Haddrs.
  destruct addrs as [|[a b c d|] addrs]; [done| |done]. unfold connect_tcp. by rewrite Hdown.
Qed.

(** ** Bounds and delivery *)

Lemma local_port_range nanos : 49152 <= local_port nanos <= 65535.
Proof.
  unfold local_port, as_uN. pose proof (Z.mod_pos_bound nanos 16384 ltac:(lia)). rewrite Z.mod_small by lia. lia.
Qed.

End Tunnel.

(** ** A demonstration *)

Module Demo.

(** A WireGuard whose handshake is done by the first datagram, and a stack that
    establishes every connection. *)
#[global] Instance noise : Noise := {|
  Tunn := bool;
  tunn_new _ _ _ _ := false;
  format_handshake_initiation x := (WriteToNetwork [x01], x);
  decapsulate p _ := (match p with [] => Done | _ => WriteToTunnelV4 p end, true);
  encapsulate p x := (WriteToNetwork p, x);
  update_timers x := (Done, x);
  has_handshake x := x;
|}.

#[global] Instance net_stack : NetStack := {|
  Stack := nat;
  stack_new _ _ := Ok O;
  iface_poll s d := (s, device_new);
  socket_add s := (s, S s);
  socket_connect _ _ _ _ s := (Ok tt, s);
  socket_close _ s := s;
  may_recv _ _ := true;
  may_send _ _ := true;
  is_active _ _ := true;
  recv_slice _ _ s := (Ok [x02], s);
  send_slice _ data s := (Ok (Z.of_nat (length data)), s);
|}.

Definition base64 (s : string) : result (list byte) string := Ok (repeat x00 32).
Definition setup : UdpSetup := {| us_bind := Ok tt; us_connect := Ok tt; us_nonblocking := Ok tt; us_send := Ok tt |}.
Definition config : string := render sample_config.

Definition begin : result nat string * VpnManager := connect_begin base64 setup config manager_new.
Definition network : Network := {|
  lookup_host := fun _ => Ok [MitmParts.V4 x01 x01 x01 x01]; MitmParts.vpn_connect := None;
  MitmParts.tcp_connect := fun _ => Ok tt; connect_timed_out := fun _ => false |}.

Definition connected : list VpnOp := [OpConnectBegin setup config; OpPoll 0 [Datagram [x07]]; OpConnectEnd true].

Example connects :
  get_tunnel (vpn_run base64 connected) = Some O /\
  (vpn_run base64 connected).(vm_tunnels) !! O = Some {| tunn := true; stack := O; device := device_new; ti_sent := [[x01]] |} /\
  (connect_upstream (with_vpn 0 [[]] (vpn_run base64 connected) network) "example.com") = Ok Vpn.
Proof. vm_compute. repeat split. Qed.

(** A second connect that parses its configuration and fails to make its tunnel, while the
    first one waits: the first tunnel is offered with the endpoint of the second. *)
Definition other_config : string :=
  render {| wg_interface := wg_interface sample_config;
            wg_peer := {| pc_public_key := pc_public_key (wg_peer sample_config); pc_preshared_key := None;
                          pc_endpoint := SocketV4 [198; 51; 100; 7] 1; pc_allowed_ips := ["0.0.0.0/0"];
                          pc_persistent_keepalive := None |} |}.
Definition no_socket : UdpSetup := {| us_bind := Err "address in use"; us_connect := Ok tt; us_nonblocking := Ok tt; us_send := Ok tt |}.

Example foreign_endpoint :
  let m := vpn_run base64 [OpConnectBegin setup config; OpConnectBegin no_socket other_config; OpConnectEnd true] in
  get_tunnel m = Some O /\ vs_endpoint (get_state m) = Some "198.51.100.7:1" /\
  vs_endpoint (get_state (vpn_run base64 connected)) = Some "203.0.113.1:51820".
Proof. vm_compute. repeat split. Qed.

End Demo.

Lemma offered_tunnel_is_polled_witness :
  let m := vpn_run Demo.base64 Demo.connected in
  O ∈ vm_tasks m /\ is_Some (vm_tunnels m !! O) /\
  exists before us c config after,
    Demo.connected = before ++ OpConnectBegin us c :: after /\
    parse c = Ok config /\ is_ok (WgTunnel_new Demo.base64 us config) = true /\ vm_next (vpn_run Demo.base64 before) = O /\
    Forall (fun op => op <> OpDisconnect /\ op <> OpConnectEnd false /\ makes_tunnel Demo.base64 op = false) after /\
    OpConnectEnd true ∈ after /\
    let shown := List.last (omap parsed_config after) config in
    get_state m =
      {| vs_status := Connected; vs_error := vm_error m; vs_endpoint := Some (endpoint_of shown);
         vs_tunnel_ip := Some (show_ipv4 (if_address (wg_interface shown))) |}.
Proof. apply (offered_tunnel_is_polled Demo.base64 Demo.connected O). vm_compute. reflexivity. Defined.

Lemma disconnect_while_connecting_witness :
  let '(r, m2) := connect_end true (disconnect Demo.begin.2) in
  r = Ok tt /\ vs_status (get_state m2) = Connected /\ get_tunnel m2 = None /\ O ∉ vm_tasks m2 /\
  forall ns rounds addr port, connect_tcp ns rounds addr port m2 = (Err "VPN not connected", m2).
Proof.
  apply (disconnect_while_connecting Demo.base64 Demo.setup Demo.config manager_new Demo.begin.2 O).
  unfold Demo.begin. vm_compute. reflexivity.
Defined.

Lemma vpn_failure_goes_direct_witness :
  connect_upstream (with_vpn 0 [] manager_new Demo.network) "example.com" = direct_connect Demo.network "example.com".
Proof. apply (vpn_failure_goes_direct 0 [] manager_new Demo.network "example.com" _ eq_refl eq_refl eq_refl). Defined.
