(* ===== verification/EventLog.v ===== *)
(** The event log: the events, the tables and the writer thread of
    crates/clawcage-logger (events.rs, schema.rs, writer.rs).

    A table is the list of its rows in the order of insertion. A row has the columns of
    its event: the same record with the time, the decision and such as SQLite stores
    them, an integer column holding the signed 64-bit value that was bound. What SQLite
    itself may refuse is the parameter [fault]. *)

From Stdlib Require Import ZArith Lia Ascii.
From stdpp Require Import base numbers list gmap strings.
From S2P Require Import Prelude RustStr Utf8 Pricing.

(** ** Events *)

Inductive Decision := Allowed | Denied | DecisionError.

#[global] Instance Decision_eq_dec : EqDecision Decision.
Proof. solve_decision. Defined.

Definition Decision_as_str (d : Decision) : string :=
  match d with Allowed => "allowed" | Denied => "denied" | DecisionError => "error" end.

Definition Decision_parse_str (s : string) : Decision :=
  if bool_decide (s = "allowed") then Allowed
  else if bool_decide (s = "denied") then Denied
  else DecisionError.

Inductive FileAction := FileCreated | FileModified | FileDeleted.

Definition FileAction_as_str (a : FileAction) : string :=
  match a with FileCreated => "created" | FileModified => "modified" | FileDeleted => "deleted" end.

Definition FileAction_parse_str (s : string) : FileAction :=
  if bool_decide (s = "created") then FileCreated
  else if bool_decide (s = "modified") then FileModified
  else if bool_decide (s = "deleted") then FileDeleted
  else FileModified.

(** [T] is the type of the time, [D] of the decision. *)
Record NetEventOf (T D : Type) := {
  ne_timestamp : T; ne_domain : string; ne_port : Z; ne_decision : D;
  ne_process_name : option string; ne_pid : option Z; ne_method : option string;
  ne_path : option string; ne_query : option string; ne_status_code : option Z;
  ne_bytes_sent : Z; ne_bytes_received : Z; ne_duration_ms : Z; ne_matched_rule : option string;
  ne_request_headers : option string; ne_response_headers : option string;
  ne_request_body_preview : option string; ne_response_body_preview : option string;
  ne_conn_type : option string;
}.

Record ToolCallEntry := {
  tce_call_index : Z; tce_call_id : string; tce_tool_name : string; tce_arguments : option string;
  tce_origin : string;
}.

Record ToolResponseEntry := {
  tre_call_id : string; tre_content_preview : option string; tre_is_error : bool;
}.

Record McpCallOf (T : Type) := {
  mcp_timestamp : T; mcp_server_name : string; mcp_method : string; mcp_tool_name : option string;
  mcp_request_id : option string; mcp_request_preview : option string;
  mcp_response_preview : option string; mcp_decision : string; mcp_duration_ms : Z;
  mcp_error_message : option string; mcp_process_name : option string;
}.

(** [B] is the type of [stream] and [U] of the usage details. *)
Record ModelCallOf (T B U : Type) := {
  mc_timestamp : T; mc_provider : string; mc_model : option string; mc_process_name : option string;
  mc_pid : option Z; mc_method : string; mc_path : string; mc_stream : B;
  mc_system_prompt_preview : option string; mc_messages_count : Z; mc_tools_count : Z;
  mc_request_bytes : Z; mc_request_body_preview : option string; mc_message_id : option string;
  mc_status_code : option Z; mc_text_content : option string; mc_thinking_content : option string;
  mc_stop_reason : option string; mc_input_tokens : option Z; mc_output_tokens : option Z;
  mc_usage_details : U; mc_duration_ms : Z; mc_response_bytes : Z; mc_estimated_cost_usd : f64;
  mc_trace_id : option string; mc_tool_calls : list ToolCallEntry;
  mc_tool_responses : list ToolResponseEntry;
}.

Record FileEventOf (T A : Type) := {
  fe_timestamp : T; fe_action : A; fe_path : string; fe_size : option Z;
}.

Arguments Build_NetEventOf {T D}.
Arguments Build_McpCallOf {T}.
Arguments Build_ModelCallOf {T B U}.
Arguments Build_FileEventOf {T A}.
Arguments ne_timestamp {T D} _. Arguments ne_domain {T D} _. Arguments ne_port {T D} _.
Arguments ne_decision {T D} _. Arguments ne_process_name {T D} _. Arguments ne_pid {T D} _.
Arguments ne_method {T D} _. Arguments ne_path {T D} _. Arguments ne_query {T D} _.
Arguments ne_status_code {T D} _. Arguments ne_bytes_sent {T D} _. Arguments ne_bytes_received {T D} _.
Arguments ne_duration_ms {T D} _. Arguments ne_matched_rule {T D} _. Arguments ne_request_headers {T D} _.
Arguments ne_response_headers {T D} _. Arguments ne_request_body_preview {T D} _.
Arguments ne_response_body_preview {T D} _. Arguments ne_conn_type {T D} _.
Arguments mcp_timestamp {T} _. Arguments mcp_server_name {T} _. Arguments mcp_method {T} _.
Arguments mcp_tool_name {T} _. Arguments mcp_request_id {T} _. Arguments mcp_request_preview {T} _.
Arguments mcp_response_preview {T} _. Arguments mcp_decision {T} _. Arguments mcp_duration_ms {T} _.
Arguments mcp_error_message {T} _. Arguments mcp_process_name {T} _.
Arguments mc_timestamp {T B U} _. Arguments mc_provider {T B U} _. Arguments mc_model {T B U} _.
Arguments mc_process_name {T B U} _. Arguments mc_pid {T B U} _. Arguments mc_method {T B U} _.
Arguments mc_path {T B U} _. Arguments mc_stream {T B U} _. Arguments mc_system_prompt_preview {T B U} _.
Arguments mc_messages_count {T B U} _. Arguments mc_tools_count {T B U} _. Arguments mc_request_bytes {T B U} _.
Arguments mc_request_body_preview {T B U} _. Arguments mc_message_id {T B U} _. Arguments mc_status_code {T B U} _.
Arguments mc_text_content {T B U} _. Arguments mc_thinking_content {T B U} _. Arguments mc_stop_reason {T B U} _.
Arguments mc_input_tokens {T B U} _. Arguments mc_output_tokens {T B U} _. Arguments mc_usage_details {T B U} _.
Arguments mc_duration_ms {T B U} _. Arguments mc_response_bytes {T B U} _. Arguments mc_estimated_cost_usd {T B U} _.
Arguments mc_trace_id {T B U} _. Arguments mc_tool_calls {T B U} _. Arguments mc_tool_responses {T B U} _.
Arguments fe_timestamp {T A} _. Arguments fe_action {T A} _. Arguments fe_path {T A} _. Arguments fe_size {T A} _.

(** ** Times, and the signed integers SQLite stores *)

(** The crate humantime: a time is an instant the program can hold. *)
Class Humantime := {
  SystemTime : Type;
  UNIX_EPOCH : SystemTime;
  format_rfc3339 : SystemTime -> string;
  parse_rfc3339 : string -> option SystemTime;
}.

Class HumantimeRoundtrip `{Humantime} :=
  rfc3339_roundtrip : forall t, parse_rfc3339 (format_rfc3339 t) = Some t.

Definition read_timestamp `{Humantime} (text : string) : SystemTime :=
  default UNIX_EPOCH (parse_rfc3339 text).

(** [n as i64], and back to an unsigned integer of [w] bits. *)
Definition as_i64 (z : Z) : Z := (z + 2 ^ 63) mod 2 ^ 64 - 2 ^ 63.

Lemma as_i64_roundtrip w z : 0 <= w <= 64 -> in_uN w z -> as_uN w (as_i64 z) = z.
Proof.
  intros Hw Hz. unfold as_uN, as_i64, in_uN in *.
  assert ((2 ^ w | 2 ^ 64)) as [k Hk] by (exists (2 ^ (64 - w)); rewrite <- Z.pow_add_r by lia; f_equal; lia).
  pose proof (Z.pow_pos_nonneg 2 w).
  pose proof (Z.div_mod (z + 2 ^ 63) (2 ^ 64) ltac:(lia)) as Hd.
  replace ((z + 2 ^ 63) mod 2 ^ 64 - 2 ^ 63) with (z + (- ((z + 2 ^ 63) / 2 ^ 64) * k) * 2 ^ w)
    by (rewrite <- Z.mul_assoc, <- Hk; lia).
  rewrite Z.mod_add by lia. by apply Z.mod_small.
Qed.

(** ** Field caps *)

Definition MAX_FIELD_BYTES : nat := Z.to_nat (256 * 1024).

(** The loop that steps back to a character boundary. *)
Fixpoint floor_boundary (v : string) (end_ : nat) : nat :=
  match end_ with
  | O => O
  | S n => if is_char_boundary v end_ then end_ else floor_boundary v n
  end.

(** [None] would be the panic of slicing inside a character. *)
Definition cap_text (v : string) : option string :=
  if (String.length v <=? MAX_FIELD_BYTES)%nat then Some v
  else str_slice v 0 (floor_boundary v MAX_FIELD_BYTES).

Definition cap_field (s : option string) : option (option string) :=
  match s with
  | None => Some None
  | Some v => Some <$> cap_text v
  end.

Lemma floor_boundary_le v n : (floor_boundary v n <= n)%nat.
Proof. induction n as [|n IH]; cbn [floor_boundary]; [done|]. destruct (is_char_boundary _ _); lia. Qed.

Lemma floor_boundary_ok v n : is_char_boundary v (floor_boundary v n) = true.
Proof. induction n as [|n IH]; cbn [floor_boundary]; [done|]. by destruct (is_char_boundary v (S n)) eqn:E. Qed.

Lemma floor_boundary_max v n m :
  (floor_boundary v n < m <= n)%nat -> is_char_boundary v m = false.
Proof.
  induction n as [|n IH]; cbn [floor_boundary]; [lia|].
  destruct (is_char_boundary v (S n)) eqn:E; [lia|].
  intros Hm. destruct (decide (m = S n)) as [->|]; [done|]. apply IH. lia.
Qed.

(** The kept part of a field. *)
Definition capped (v : string) : string :=
  if (String.length v <=? MAX_FIELD_BYTES)%nat then v
  else stake (floor_boundary v MAX_FIELD_BYTES) v.

Lemma cap_text_total v : cap_text v = Some (capped v).
Proof.
  unfold cap_text, capped. destruct (Nat.leb_spec (String.length v) MAX_FIELD_BYTES); [done|].
  unfold str_slice. pose proof (floor_boundary_le v MAX_FIELD_BYTES).
  rewrite floor_boundary_ok, (proj2 (Nat.leb_le _ _)), (proj2 (Nat.leb_le _ _)) by lia.
  cbn [andb is_char_boundary Nat.eqb sdrop]. by rewrite Nat.sub_0_r.
Qed.

Lemma cap_field_total s : cap_field s = Some (capped <$> s).
Proof. destruct s as [v|]; [|done]. cbn. by rewrite cap_text_total. Qed.

(** A stored text field is never longer than 256 KiB, is a prefix of the text cut at a
    character boundary, the last one within the cap, and cutting never panics; a text
    within the cap is stored whole. *)
Theorem cap_field_bounds (v : string) :
  exists w rest, cap_field (Some v) = Some (Some w) /\ v = w +:+ rest /\
    (String.length w <= MAX_FIELD_BYTES)%nat /\ is_char_boundary v (String.length w) = true /\
    ((String.length v <= MAX_FIELD_BYTES)%nat -> rest = "") /\
    ((MAX_FIELD_BYTES < String.length v)%nat ->
       forall m, (String.length w < m <= MAX_FIELD_BYTES)%nat -> is_char_boundary v m = false).
Proof.
  rewrite cap_field_total. unfold capped. cbn [fmap option_fmap option_map].
  destruct (Nat.leb_spec (String.length v) MAX_FIELD_BYTES) as [Hv|Hv].
  - exists v, "". rewrite sapp_nil_r. split; [done|]. split; [done|]. split; [done|].
    split; [|split; [done|lia]]. unfold is_char_boundary. destruct (_ =? 0)%nat; [done|].
    clear. enough (String.get (String.length v) v = None) as -> by apply Nat.eqb_refl.
    induction v; [done|]. simpl. done.
  - set (k := floor_boundary v MAX_FIELD_BYTES). pose proof (floor_boundary_le v MAX_FIELD_BYTES).
    exists (stake k v), (sdrop k v). rewrite stake_sdrop, stake_length by lia.
    split; [done|]. split; [done|]. split; [lia|]. split; [apply floor_boundary_ok|].
    split; [lia|]. intros _ m. apply floor_boundary_max.
Qed.

(** ** Tables *)

(** serde_json on the usage details. *)
Class UsageJson := {
  usage_to_string : gmap string Z -> string;
  usage_from_string : string -> option (gmap string Z);
}.

Class UsageJsonRoundtrip `{UsageJson} :=
  usage_roundtrip : forall m, usage_from_string (usage_to_string m) = Some m.

Section Log.
Context `{Humantime, UsageJson}.

Abbreviation NetEvent := (NetEventOf SystemTime Decision).
Abbreviation McpCall := (McpCallOf SystemTime).
Abbreviation ModelCall := (ModelCallOf SystemTime bool (gmap string Z)).
Abbreviation FileEvent := (FileEventOf SystemTime FileAction).
Abbreviation NetRow := (NetEventOf string string).
Abbreviation McpRow := (McpCallOf string).
Abbreviation ModelRow := (ModelCallOf string Z (option string)).
Abbreviation FileRow := (FileEventOf string string).

Inductive WriteOp :=
| WriteNetEvent (e : NetEvent)
| WriteModelCall (m : ModelCall)
| WriteMcpCall (c : McpCall)
| WriteFileEvent (f : FileEvent).

(** Rows come with their rowid; tool rows with the id of their model call. *)
Record Db := {
  net_events : list (Z * NetRow);
  model_calls : list (Z * ModelRow);
  tool_calls : list (Z * ToolCallEntry);
  tool_responses : list (Z * ToolResponseEntry);
  mcp_calls : list (Z * McpRow);
  fs_events : list (Z * FileRow);
}.

Definition Db_empty : Db := Build_Db [] [] [] [] [] [].

(** AUTOINCREMENT in a table that never loses rows. *)
Definition next_id {A} (rows : list (Z * A)) : Z := 1 + Z.of_nat (length rows).

Definition bind_net_event (e : NetEvent) : option NetRow :=
  req_body ← cap_field (ne_request_body_preview e);
  resp_body ← cap_field (ne_response_body_preview e);
  req_headers ← cap_field (ne_request_headers e);
  resp_headers ← cap_field (ne_response_headers e);
  Some {| ne_timestamp := format_rfc3339 (ne_timestamp e); ne_domain := ne_domain e;
     ne_port := as_i64 (ne_port e); ne_decision := Decision_as_str (ne_decision e);
     ne_process_name := ne_process_name e; ne_pid := as_i64 <$> ne_pid e; ne_method := ne_method e;
     ne_path := ne_path e; ne_query := ne_query e; ne_status_code := as_i64 <$> ne_status_code e;
     ne_bytes_sent := as_i64 (ne_bytes_sent e); ne_bytes_received := as_i64 (ne_bytes_received e);
     ne_duration_ms := as_i64 (ne_duration_ms e); ne_matched_rule := ne_matched_rule e;
     ne_request_headers := req_headers; ne_response_headers := resp_headers;
     ne_request_body_preview := req_body; ne_response_body_preview := resp_body;
     ne_conn_type := ne_conn_type e |}.

Definition bind_model_call (call : ModelCall) : option ModelRow :=
  req_body ← cap_field (mc_request_body_preview call);
  text_content ← cap_field (mc_text_content call);
  thinking_content ← cap_field (mc_thinking_content call);
  sys_prompt ← cap_field (mc_system_prompt_preview call);
  Some {| mc_timestamp := format_rfc3339 (mc_timestamp call); mc_provider := mc_provider call;
     mc_model := mc_model call; mc_process_name := mc_process_name call; mc_pid := as_i64 <$> mc_pid call;
     mc_method := mc_method call; mc_path := mc_path call; mc_stream := if mc_stream call then 1 else 0;
     mc_system_prompt_preview := sys_prompt; mc_messages_count := as_i64 (mc_messages_count call);
     mc_tools_count := as_i64 (mc_tools_count call); mc_request_bytes := as_i64 (mc_request_bytes call);
     mc_request_body_preview := req_body; mc_message_id := mc_message_id call;
     mc_status_code := as_i64 <$> mc_status_code call; mc_text_content := text_content;
     mc_thinking_content := thinking_content; mc_stop_reason := mc_stop_reason call;
     mc_input_tokens := as_i64 <$> mc_input_tokens call; mc_output_tokens := as_i64 <$> mc_output_tokens call;
     mc_usage_details := if decide (mc_usage_details call = ∅) then None
                         else Some (usage_to_string (mc_usage_details call));
     mc_duration_ms := as_i64 (mc_duration_ms call); mc_response_bytes := as_i64 (mc_response_bytes call);
     mc_estimated_cost_usd := mc_estimated_cost_usd call; mc_trace_id := mc_trace_id call;
     mc_tool_calls := []; mc_tool_responses := [] |}.

Definition bind_mcp_call (call : McpCall) : option McpRow :=
  req_preview ← cap_field (mcp_request_preview call);
  resp_preview ← cap_field (mcp_response_preview call);
  Some {| mcp_timestamp := format_rfc3339 (mcp_timestamp call); mcp_server_name := mcp_server_name call;
     mcp_method := mcp_method call; mcp_tool_name := mcp_tool_name call; mcp_request_id := mcp_request_id call;
     mcp_request_preview := req_preview; mcp_response_preview := resp_preview;
     mcp_decision := mcp_decision call; mcp_duration_ms := as_i64 (mcp_duration_ms call);
     mcp_error_message := mcp_error_message call; mcp_process_name := mcp_process_name call |}.

Definition bind_file_event (event : FileEvent) : FileRow :=
  {| fe_timestamp := format_rfc3339 (fe_timestamp event); fe_action := FileAction_as_str (fe_action event);
     fe_path := fe_path event; fe_size := as_i64 <$> fe_size event |}.

Definition bind_tool_call (tc : ToolCallEntry) : ToolCallEntry :=
  {| tce_call_index := as_i64 (tce_call_index tc); tce_call_id := tce_call_id tc;
     tce_tool_name := tce_tool_name tc; tce_arguments := tce_arguments tc; tce_origin := tce_origin tc |}.

(** ** The writer thread *)

(** The [n]-th statement of the connection fails with [fault n]. *)
Variable fault : nat -> option string.

Record Conn := { db : Db; statements : nat }.

Abbreviation Exec := (option (result unit string * Conn)).

(** [conn.execute]: one statement. *)
Definition exec (f : Db -> Db) (c : Conn) : result unit string * Conn :=
  match fault (statements c) with
  | Some e => (Err e, {| db := db c; statements := S (statements c) |})
  | None => (Ok tt, {| db := f (db c); statements := S (statements c) |})
  end.

(** [?] between statements; [None] is a panic of the thread. *)
Definition and_then (r : result unit string * Conn) (k : Conn -> Exec) : Exec :=
  match r with (Ok _, c) => k c | (Err e, c) => Some (Err e, c) end.

Definition add_net_event (row : NetRow) (d : Db) : Db :=
  {| net_events := net_events d ++ [(next_id (net_events d), row)]; model_calls := model_calls d;
     tool_calls := tool_calls d; tool_responses := tool_responses d; mcp_calls := mcp_calls d;
     fs_events := fs_events d |}.
Definition add_model_call (row : ModelRow) (d : Db) : Db :=
  {| net_events := net_events d; model_calls := model_calls d ++ [(next_id (model_calls d), row)];
     tool_calls := tool_calls d; tool_responses := tool_responses d; mcp_calls := mcp_calls d;
     fs_events := fs_events d |}.
Definition add_tool_call (id : Z) (row : ToolCallEntry) (d : Db) : Db :=
  {| net_events := net_events d; model_calls := model_calls d; tool_calls := tool_calls d ++ [(id, row)];
     tool_responses := tool_responses d; mcp_calls := mcp_calls d; fs_events := fs_events d |}.
Definition add_tool_response (id : Z) (row : ToolResponseEntry) (d : Db) : Db :=
  {| net_events := net_events d; model_calls := model_calls d; tool_calls := tool_calls d;
     tool_responses := tool_responses d ++ [(id, row)]; mcp_calls := mcp_calls d; fs_events := fs_events d |}.
Definition add_mcp_call (row : McpRow) (d : Db) : Db :=
  {| net_events := net_events d; model_calls := model_calls d; tool_calls := tool_calls d;
     tool_responses := tool_responses d; mcp_calls := mcp_calls d ++ [(next_id (mcp_calls d), row)];
     fs_events := fs_events d |}.
Definition add_fs_event (row : FileRow) (d : Db) : Db :=
  {| net_events := net_events d; model_calls := model_calls d; tool_calls := tool_calls d;
     tool_responses := tool_responses d; mcp_calls := mcp_calls d;
     fs_events := fs_events d ++ [(next_id (fs_events d), row)] |}.

Definition insert_net_event (e : NetEvent) (c : Conn) : Exec :=
  row ← bind_net_event e; Some (exec (add_net_event row) c).

Fixpoint insert_each {A} (add : A -> Db -> Db) (l : list A) (c : Conn) : Exec :=
  match l with
  | [] => Some (Ok tt, c)
  | x :: l => and_then (exec (add x) c) (insert_each add l)
  end.

Definition insert_model_call (call : ModelCall) (c : Conn) : Exec :=
  row ← bind_model_call call;
  let model_call_id := next_id (model_calls (db c)) in
  and_then (exec (add_model_call row) c) (fun c =>
    r ← insert_each (fun tc => add_tool_call model_call_id (bind_tool_call tc)) (mc_tool_calls call) c;
    and_then r (insert_each (add_tool_response model_call_id) (mc_tool_responses call))).

Definition insert_mcp_call (call : McpCall) (c : Conn) : Exec :=
  row ← bind_mcp_call call; Some (exec (add_mcp_call row) c).

Definition insert_file_event (event : FileEvent) (c : Conn) : Exec :=
  Some (exec (add_fs_event (bind_file_event event)) c).

Definition insert_op (op : WriteOp) (c : Conn) : Exec :=
  match op with
  | WriteNetEvent e => insert_net_event e c
  | WriteModelCall m => insert_model_call m c
  | WriteMcpCall m => insert_mcp_call m c
  | WriteFileEvent f => insert_file_event f c
  end.

Fixpoint insert_ops (batch : list WriteOp) (c : Conn) : Exec :=
  match batch with
  | [] => Some (Ok tt, c)
  | op :: batch => r ← insert_op op c; and_then r (insert_ops batch)
  end.

(** A transaction: dropped without a commit, it is rolled back. *)
Definition execute_batch (batch : list WriteOp) (c : Conn) : Exec :=
  let rollback (c' : Conn) := {| db := db c; statements := statements c' |} in
  r ← and_then (exec (fun d => d) c) (fun c =>
        r ← insert_ops batch c; and_then r (fun c => Some (exec (fun d => d) c)));
  Some match r with
       | (Ok _, c') => (Ok tt, c')
       | (Err e, c') => (Err e, rollback c')
       end.

Definition BATCH : nat := 128.

(** [queue] holds the operations in the order they are sent, until every sender is
    dropped; [ready k] more of them are in the channel when batch [k] is drained. A batch
    that fails is reported and forgotten. *)
Fixpoint writer_loop (fuel : nat) (ready : nat -> nat) (k : nat) (queue : list WriteOp) (c : Conn)
  : option Conn :=
  match fuel, queue with
  | _, [] => Some c
  | O, _ => None
  | S fuel, first_op :: rest =>
      let n := Nat.min (ready k) (BATCH - 1) in
      r ← execute_batch (first_op :: take n rest) c;
      writer_loop fuel ready (S k) (drop n rest) r.2
  end.

(** ** What the writer promises *)

(** The rows the binding gives. *)
Lemma bind_net_event_total e : is_Some (bind_net_event e).
Proof. unfold bind_net_event. rewrite !cap_field_total. by eexists. Qed.
Lemma bind_model_call_total m : is_Some (bind_model_call m).
Proof. unfold bind_model_call. rewrite !cap_field_total. by eexists. Qed.
Lemma bind_mcp_call_total m : is_Some (bind_mcp_call m).
Proof. unfold bind_mcp_call. rewrite !cap_field_total. by eexists. Qed.

(** The effect of an operation on the tables. *)
Definition add_model_op (m : ModelCall) (row : ModelRow) (d : Db) : Db :=
  let id := next_id (model_calls d) in
  foldl (fun d tr => add_tool_response id tr d)
    (foldl (fun d tc => add_tool_call id (bind_tool_call tc) d) (add_model_call row d) (mc_tool_calls m))
    (mc_tool_responses m).

Definition apply_op (op : WriteOp) (d : Db) : Db :=
  match op with
  | WriteNetEvent e => match bind_net_event e with Some row => add_net_event row d | None => d end
  | WriteModelCall m => match bind_model_call m with Some row => add_model_op m row d | None => d end
  | WriteMcpCall m => match bind_mcp_call m with Some row => add_mcp_call row d | None => d end
  | WriteFileEvent f => add_fs_event (bind_file_event f) d
  end.

Definition apply_ops (ops : list WriteOp) (d : Db) : Db := foldl (fun d op => apply_op op d) d ops.

(** The first refused of [n] statements from the [s]-th on. *)
Fixpoint first_fault (s n : nat) : option nat :=
  match n with
  | O => None
  | S n => match fault s with Some _ => Some s | None => first_fault (S s) n end
  end.

Lemma first_fault_app s n m : first_fault s (n + m) = match first_fault s n with Some i => Some i | None => first_fault (s + n) m end.
Proof.
  revert s. induction n as [|n IH]; intros s; cbn [first_fault Nat.add]; [by rewrite Nat.add_0_r|].
  destruct (fault s); [done|]. rewrite IH. by replace (S s + n)%nat with (s + S n)%nat by lia.
Qed.

Lemma first_fault_none s n : (forall i, fault i = None) -> first_fault s n = None.
Proof. intros Hf. revert s. induction n as [|n IH]; intros s; [done|]. cbn. by rewrite Hf. Qed.

(** An execution of [n] statements: all of them, with the effect [f], or up to the first
    that is refused. *)
Definition runs (x : Exec) (c : Conn) (n : nat) (f : Db -> Db) : Prop :=
  exists r c', x = Some (r, c') /\
    match first_fault (statements c) n with
    | None => r = Ok tt /\ db c' = f (db c) /\ statements c' = (statements c + n)%nat
    | Some i => (exists e, r = Err e) /\ statements c' = S i
    end.

Lemma exec_runs f c : runs (Some (exec f c)) c 1 f.
Proof.
  unfold runs, exec. cbn [first_fault]. destruct (fault _) as [e|] eqn:E; do 2 eexists; (split; [done|]); cbn; [by split; [exists e|]|].
  repeat split. lia.
Qed.

Lemma runs_and_then r c n m f g k :
  runs (Some r) c n f -> (forall c', runs (k c') c' m g) -> runs (and_then r k) c (n + m) (fun d => g (f d)).
Proof.
  unfold runs. intros (r' & c' & [= ->] & Hf) Hk. rewrite first_fault_app.
  destruct (first_fault (statements c) n) as [i|].
  - destruct Hf as [[e ->] Hs]. cbn [and_then]. exists (Err e), c'. split; [done|]. split; [by eexists|done].
  - destruct Hf as (-> & Hd & Hs). cbn [and_then]. destruct (Hk c') as (r & c'' & -> & Hg). exists r, c''. split; [done|].
    rewrite Hs in Hg. destruct (first_fault (statements c + n) m); [done|]. destruct Hg as (-> & Hg & Hs').
    split; [done|]. split; [by rewrite Hg, Hd|]. lia.
Qed.

Lemma runs_then x c n m f g k :
  runs x c n f -> (forall c', runs (k c') c' m g) -> runs (r ← x; and_then r k) c (n + m) (fun d => g (f d)).
Proof.
  intros Hx Hk. pose proof Hx as (r & c' & E & _). rewrite E in *.
  exact (runs_and_then (r, c') c n m f g k Hx Hk).
Qed.

Lemma runs_ext x c n f g : f (db c) = g (db c) -> runs x c n f -> runs x c n g.
Proof. intros E (r & c' & -> & Hf). exists r, c'. by rewrite <- E. Qed.

Lemma insert_each_runs {A} (add : A -> Db -> Db) l c :
  runs (insert_each add l c) c (length l) (fun d => foldl (fun d x => add x d) d l).
Proof.
  revert c. induction l as [|x l IH]; intros c; cbn [insert_each foldl length].
  - exists (Ok tt), c. split; [done|]. cbn. repeat split. lia.
  - apply (runs_and_then (exec (add x) c) c 1 (length l) (add x) (fun d => foldl (fun d x => add x d) d l));
      [apply exec_runs|apply IH].
Qed.

(** The statements of an operation. *)
Definition op_statements (op : WriteOp) : nat :=
  match op with WriteModelCall m => 1 + (length (mc_tool_calls m) + length (mc_tool_responses m)) | _ => 1 end.

Lemma insert_op_runs op c : runs (insert_op op c) c (op_statements op) (apply_op op).
Proof.
  destruct op as [e|m|m|f]; cbn [insert_op apply_op op_statements].
  - unfold insert_net_event. destruct (bind_net_event_total e) as [row E]. rewrite E. eapply runs_ext; [|apply exec_runs].
    cbn. by rewrite E.
  - unfold insert_model_call. destruct (bind_model_call_total m) as [row E]. rewrite E. cbn [mbind option_bind].
    set (id := next_id (model_calls (db c))).
    eapply runs_ext; [|apply (runs_and_then _ c _ _ (add_model_call row)
      (fun d => foldl (fun d tr => add_tool_response id tr d)
                  (foldl (fun d tc => add_tool_call id (bind_tool_call tc) d) d (mc_tool_calls m))
                  (mc_tool_responses m))); [apply exec_runs|]].
    + cbn. by rewrite E.
    + intros c'. apply (runs_then _ c' _ _
        (fun d => foldl (fun d tc => add_tool_call id (bind_tool_call tc) d) d (mc_tool_calls m))
        (fun d => foldl (fun d tr => add_tool_response id tr d) d (mc_tool_responses m))).
      * apply (insert_each_runs (fun tc => add_tool_call id (bind_tool_call tc))).
      * intros c''. apply (insert_each_runs (add_tool_response id)).
  - unfold insert_mcp_call. destruct (bind_mcp_call_total m) as [row E]. rewrite E. eapply runs_ext; [|apply exec_runs].
    cbn. by rewrite E.
  - apply exec_runs.
Qed.

Definition ops_statements (ops : list WriteOp) : nat := foldr (fun op n => op_statements op + n)%nat 0%nat ops.

Lemma insert_ops_runs ops c : runs (insert_ops ops c) c (ops_statements ops) (apply_ops ops).
Proof.
  revert c. induction ops as [|op ops IH]; intros c; cbn [insert_ops ops_statements foldr].
  - exists (Ok tt), c. split; [done|]. cbn. repeat split. lia.
  - apply (runs_then _ c _ _ (apply_op op) (apply_ops ops)); [apply insert_op_runs|apply IH].
Qed.

(** One transaction from the [s]-th statement on, BEGIN and COMMIT included: whether it is
    committed, and the next statement. *)
Definition attempt (s : nat) (batch : list WriteOp) : bool * nat :=
  let n := (1 + (ops_statements batch + 1))%nat in
  match first_fault s n with None => (true, (s + n)%nat) | Some i => (false, S i) end.

Fixpoint attempts (s : nat) (batches : list (list WriteOp)) : list (list WriteOp * bool) :=
  match batches with
  | [] => []
  | b :: batches => let '(committed, s) := attempt s b in (b, committed) :: attempts s batches
  end.

(** A batch is stored whole or not at all. *)
Lemma execute_batch_atomic batch c :
  exists r c', execute_batch batch c = Some (r, c') /\
    let '(committed, s) := attempt (statements c) batch in
    statements c' = s /\ db c' = if committed then apply_ops batch (db c) else db c.
Proof.
  assert (runs (and_then (exec (fun d => d) c) (fun c => r ← insert_ops batch c;
            and_then r (fun c => Some (exec (fun d => d) c)))) c (1 + (ops_statements batch + 1)) (apply_ops batch))
    as (r & c' & Hx & Hf).
  { apply (runs_and_then _ c _ _ (fun d => d) (apply_ops batch)); [apply exec_runs|]. intros c1.
    apply (runs_then _ c1 _ _ (apply_ops batch) (fun d => d)); [apply insert_ops_runs|]. intros c2. apply exec_runs. }
  unfold execute_batch, attempt. rewrite Hx. cbn [mbind option_bind]. destruct (first_fault _ _) as [i|].
  - destruct Hf as [[e ->] Hs]. do 2 eexists. split; [done|]. done.
  - destruct Hf as (-> & Hd & Hs). do 2 eexists. split; [done|]. done.
Qed.

(** How the channel falls into batches: batch [k] is what was sent first and the [ready k]
    operations behind it, as far as there are any, but no more than [BATCH]. *)
Definition batch_size (ready : nat -> nat) (k : nat) : nat := Nat.min BATCH (S (ready k)).
Definition batch_start (ready : nat -> nat) (k : nat) : nat := foldr (fun j n => batch_size ready j + n)%nat 0%nat (seq 0 k).
Definition batch_at (ready : nat -> nat) (queue : list WriteOp) (k : nat) : list WriteOp :=
  take (batch_size ready k) (drop (batch_start ready k) queue).

Lemma batch_start_S ready k : batch_start ready (S k) = (batch_start ready k + batch_size ready k)%nat.
Proof.
  unfold batch_start. rewrite seq_S. cbn [Nat.add]. generalize (seq 0 k). intros l.
  induction l as [|j l IH]; cbn [app foldr]; [lia|]. rewrite IH. lia.
Qed.

Definition committed (batches : list (list WriteOp * bool)) : list WriteOp :=
  concat (map fst (filter (fun b => b.2 = true) batches)).

Lemma writer_loop_spec ready queue fuel : forall k c,
  (length queue - batch_start ready k <= fuel)%nat ->
  exists c' n, writer_loop fuel ready k (drop (batch_start ready k) queue) c = Some c' /\
    let batches := map (batch_at ready queue) (seq k n) in
    concat batches = drop (batch_start ready k) queue /\ Forall (fun b => b <> []) batches /\
    db c' = apply_ops (committed (attempts (statements c) batches)) (db c).
Proof.
  induction fuel as [|fuel IH]; intros k c Hf.
  { rewrite drop_ge by lia. by exists c, 0%nat. }
  destruct (drop (batch_start ready k) queue) as [|op rest] eqn:Hq.
  { by exists c, 0%nat. }
  cbn [writer_loop]. set (n := Nat.min (ready k) (BATCH - 1)).
  assert (batch_size ready k = S n) as Hsize by (unfold batch_size, n, BATCH; lia).
  assert (op :: take n rest = batch_at ready queue k) as -> by (unfold batch_at; by rewrite Hq, Hsize).
  destruct (execute_batch_atomic (batch_at ready queue k) c) as (r & c1 & -> & Ha). cbn [mbind option_bind snd].
  assert (drop n rest = drop (batch_start ready (S k)) queue) as ->
    by (by rewrite batch_start_S, <- drop_drop, Hq, Hsize).
  assert (length queue - batch_start ready k = S (length rest))%nat as Hlen by (rewrite <- length_drop, Hq; done).
  destruct (IH (S k) c1) as (c' & m & -> & Hc & Hne & Hd); [rewrite batch_start_S; lia|].
  exists c', (S m). split; [done|]. cbn [seq map concat]. split; [|split].
  - rewrite Hc, batch_start_S, <- drop_drop, Hq. unfold batch_at. rewrite Hq. apply take_drop.
  - constructor; [|done]. unfold batch_at. by rewrite Hq, Hsize.
  - rewrite Hd. cbn [attempts]. destruct (attempt (statements c) _) as [[] s]; destruct Ha as [-> ->]; unfold committed; rewrite filter_cons; cbn [snd].
    + rewrite decide_True by done. cbn [map concat fst]. unfold apply_ops. by rewrite foldl_app.
    + by rewrite decide_False.
Qed.

Lemma attempts_committed s batches : (forall n, fault n = None) -> committed (attempts s batches) = concat batches.
Proof.
  intros Hf. revert s. induction batches as [|b batches IH]; intros s; [done|]. cbn [attempts]. unfold attempt.
  rewrite first_fault_none by done. unfold committed in *. rewrite filter_cons_True by done. cbn [map concat fst]. by rewrite IH.
Qed.

Lemma writer_stores_all ready queue c :
  (forall n, fault n = None) ->
  exists c', writer_loop (length queue) ready 0 queue c = Some c' /\ db c' = apply_ops queue (db c).
Proof.
  intros Hnf. destruct (writer_loop_spec ready queue (length queue) 0 c) as (c' & n & Hw & Hc & _ & Hd); [lia|].
  exists c'. split; [done|]. by rewrite Hd, attempts_committed, Hc.
Qed.

(** C18: However the channel's contents fall into batches and whatever SQLite refuses, the
    writer stops, and its batches are what the channel held: batch [k] is the next
    operation with the [ready k] operations waiting behind it, at most 128 in all. Each is
    one transaction: when one of its statements, BEGIN or COMMIT is refused nothing of it
    is stored and the statements behind the refused one are not tried, otherwise all of it
    is, in the order sent. When nothing is refused the log is exactly the operations sent,
    in order. *)
Theorem writer_atomic_batches (ready : nat -> nat) (queue : list WriteOp) (c : Conn) :
  exists c' n, writer_loop (length queue) ready 0 queue c = Some c' /\
    let batches := map (batch_at ready queue) (seq 0 n) in
    concat batches = queue /\
    Forall (fun b => (0 < length b <= 128)%nat) batches /\
    db c' = apply_ops (committed (attempts (statements c) batches)) (db c) /\
    ((forall n, fault n = None) -> db c' = apply_ops queue (db c)).
Proof.
  destruct (writer_loop_spec ready queue (length queue) 0 c) as (c' & n & Hw & Hc & Hne & Hd); [lia|].
  exists c', n. split; [done|]. split; [done|]. split; [|split; [done|]].
  - apply Forall_forall. intros b Hb. rewrite Forall_forall in Hne. specialize (Hne b Hb).
    apply list_elem_of_fmap in Hb as (k & -> & _). split; [by destruct (batch_at ready queue k); [|cbn; lia]|].
    unfold batch_at. rewrite length_take. unfold batch_size, BATCH. lia.
  - intros Hnf. by rewrite Hd, attempts_committed, Hc.
Qed.

End Log.

(** Times as their texts, for concrete runs. *)
Definition text_time : Humantime :=
  {| SystemTime := string; UNIX_EPOCH := "1970-01-01T00:00:00Z"; format_rfc3339 := fun t => t; parse_rfc3339 := Some |}.

Definition text_time_roundtrip : @HumantimeRoundtrip text_time := fun t => eq_refl.
