(* ===== verification/ProxyConn.v ===== *)
(** One connection through the MITM proxy: [handle_connection], [handle_inner] and
    [handle_tunnel] of crates/clawcage-core/src/net/mitm_proxy.rs.

    The sockets are data: what each read returns, whether TLS is accepted, how the byte
    copy ends. An operation that never completes leaves the connection [Waiting], which the
    idle timeout ends. The service of the decrypted requests is a parameter here and is
    modelled in ProxyRequest. *)

From Stdlib Require Import ZArith Lia Ascii.
From stdpp Require Import base numbers list gmap strings.
From S2P Require Import Prelude RustStr Utf8 Pricing Events Trace EventLog NetPolicy ClientHello MitmParts.

(** What every connection of a VM shares: the rate limiter, the pending traces, the
    operations written to the event log, and the hosts dialed upstream, both in order. *)
Record ProxyState `{Humantime} := {
  limiter : RateLimiterMap; trace_state : TraceState; log : list WriteOp; dialed : list string }.

Record MitmProxyConfig := {
  policy : NetworkPolicy;
  tunnel_non_ai : bool;
  limits : ProxyLimits;
  enabled : bool;
  credentials : list (string * CredentialKind);
}.

Inductive IoKind := ConnectionReset | BrokenPipe | UnexpectedEofKind | OtherKind.

(** A connection from the guest, and the world it meets. *)
Record Connection := {
  cn_permit : bool;  (* the semaphore has a permit left *)
  cn_setup : result unit string;
  cn_reads : list ReadResult;
  cn_now0 : Z; cn_now1 : Z; cn_now2 : Z;  (* the instants of the rate check *)
  cn_net : Network;
  cn_replay : result unit string;  (* writing the buffered bytes upstream *)
  cn_copy : option (result (Z * Z) IoKind);  (* the bidirectional copy *)
  cn_tls : list byte -> option (result unit string);  (* the handshake over the buffered bytes *)
  cn_resolver_domain : option string;  (* captured by the certificate resolver *)
  cn_duration_ms : Z;  (* of the tunnel *)
}.

Inductive Outcome :=
| Finished (r : result string (string * Decision * string))
| Waiting
| Panicked.

Section Proxy.
Context `{UnicodeCase, Humantime}.
Variable now : SystemTime.
(** [serve domain process_name connection state]: the requests of the TLS session, and
    whether it ends before the idle timeout. *)
Variable serve : string -> option string -> Connection -> ProxyState -> bool * ProxyState.

Definition add_log (op : WriteOp) (s : ProxyState) : ProxyState :=
  {| limiter := limiter s; trace_state := trace_state s; log := log s ++ [op]; dialed := dialed s |}.
Definition dial (domain : string) (s : ProxyState) : ProxyState :=
  {| limiter := limiter s; trace_state := trace_state s; log := log s; dialed := dialed s ++ [domain] |}.
Definition set_limiter (l : RateLimiterMap) (s : ProxyState) : ProxyState :=
  {| limiter := l; trace_state := trace_state s; log := log s; dialed := dialed s |}.

(** A connection-level event: no request fields. *)
Definition connection_event (domain : string) (decision : Decision) (process_name : option string)
    (sent received duration_ms : Z) (rule conn_type : string) : WriteOp :=
  WriteNetEvent {| ne_timestamp := now; ne_domain := domain; ne_port := 443; ne_decision := decision;
    ne_process_name := process_name; ne_pid := None; ne_method := None; ne_path := None; ne_query := None;
    ne_status_code := None; ne_bytes_sent := sent; ne_bytes_received := received; ne_duration_ms := duration_ms;
    ne_matched_rule := Some rule; ne_request_headers := None; ne_response_headers := None;
    ne_request_body_preview := None; ne_response_body_preview := None; ne_conn_type := Some conn_type |}.

Definition handle_tunnel (domain : string) (process_name : option string) (cn : Connection) (s : ProxyState)
  : Outcome * ProxyState :=
  let s := dial domain s in
  match connect_upstream (cn_net cn) domain with
  | Err e => (Finished (Err (domain, DecisionError, "tunnel connect: " +:+ e)), s)
  | Ok _ =>
      match cn_replay cn with
      | Err e => (Finished (Err (domain, DecisionError, "tunnel replay: " +:+ e)), s)
      | Ok _ =>
          match cn_copy cn with
          | None => (Waiting, s)
          | Some r =>
              let '(sent, received) := match r with Ok counts => counts | Err _ => (0, 0) end in
              (Finished (Ok domain),
               add_log (connection_event domain Allowed process_name sent received (cn_duration_ms cn) "tunnel" "https-tunnel") s)
          end
      end
  end.

(** From the SNI on. *)
Definition route (config : MitmProxyConfig) (cn : Connection) (process_name : option string)
    (initial_buf : list byte) (sni_domain : option string) (s : ProxyState) : Outcome * ProxyState :=
  let connect domain := NetworkPolicy_evaluate (policy config) domain "CONNECT" in
  if negb (enabled config) then
    match sni_domain with
    | Some domain =>
        if pd_allowed (connect domain) then handle_tunnel domain process_name cn s
        else (Finished (Err (domain, Denied, pd_reason (connect domain))), s)
    | None => (Finished (Err ("", DecisionError, "MITM disabled and no SNI")), s)
    end
  else
    let mitm :=
      match cn_tls cn initial_buf with
      | None => (Waiting, s)
      | Some (Err e) =>
          (Finished (Err (default "" (cn_resolver_domain cn), DecisionError, "TLS handshake: " +:+ e)), s)
      | Some (Ok _) =>
          match cn_resolver_domain cn with
          | None => (Finished (Err ("", Denied, "no SNI in ClientHello")), s)
          | Some domain =>
              let '(ended, s) := serve domain process_name cn s in
              (if ended then Finished (Ok domain) else Waiting, s)
          end
      end in
    match tunnel_non_ai config, sni_domain with
    | true, Some domain =>
        match detect_ai_provider domain with
        | Some _ => mitm
        | None =>
            if pd_allowed (connect domain) then handle_tunnel domain process_name cn s
            else (Finished (Err (domain, Denied, pd_reason (connect domain))),
                  add_log (connection_event domain Denied process_name 0 0 0 (matched_rule (connect domain))
                             "https-tunnel-denied") s)
        end
    | _, _ => mitm
    end.

Definition handle_inner (config : MitmProxyConfig) (cn : Connection) (s : ProxyState) : Outcome * ProxyState :=
  match cn_setup cn with
  | Err e => (Finished (Err ("", DecisionError, e)), s)
  | Ok _ =>
      match peek_connection (cn_reads cn) with
      | PeekFail reason => (Finished (Err ("", DecisionError, reason)), s)
      | PeekPending => (Waiting, s)
      | PeekPanic => (Panicked, s)
      | PeekDone process_name initial_buf _ =>
          match extract_sni_from_client_hello initial_buf with
          | SniPanic | SniOutOfFuel => (Panicked, s)
          | SniFound domain =>
              let '(ok, l) := RateLimiterMap_check (limiter s) (cn_now0 cn) (cn_now1 cn) (cn_now2 cn) domain in
              let s := set_limiter l s in
              if ok then route config cn process_name initial_buf (Some domain) s
              else (Finished (Err (domain, Denied, "rate limit exceeded")), s)
          | SniNone => route config cn process_name initial_buf None s
          end
      end
  end.

(** A failed connection is logged here; a panic ends the task of the connection. *)
Definition handle_connection (config : MitmProxyConfig) (cn : Connection) (s : ProxyState) : ProxyState :=
  if negb (cn_permit cn) then s
  else
    match handle_inner config cn s with
    | (Finished (Err (domain, decision, reason)), s) =>
        let display_domain := if is_empty domain then "<unknown>" else domain in
        add_log (connection_event display_domain decision None 0 0 0 reason "https-mitm") s
    | (_, s) => s
    end.

(** ** Properties *)

(** The connection has reached the routing with this server name. *)
Definition reaches (config : MitmProxyConfig) (cn : Connection) (s : ProxyState)
    (process_name : option string) (initial_buf : list byte) (domain : string) : Prop :=
  cn_permit cn = true /\ cn_setup cn = Ok tt /\
  (exists rest, peek_connection (cn_reads cn) = PeekDone process_name initial_buf rest) /\
  extract_sni_from_client_hello initial_buf = SniFound domain /\
  (RateLimiterMap_check (limiter s) (cn_now0 cn) (cn_now1 cn) (cn_now2 cn) domain).1 = true.

Lemma handle_inner_reaches config cn s process_name initial_buf domain :
  reaches config cn s process_name initial_buf domain ->
  handle_inner config cn s = route config cn process_name initial_buf (Some domain)
    (set_limiter (RateLimiterMap_check (limiter s) (cn_now0 cn) (cn_now1 cn) (cn_now2 cn) domain).2 s).
Proof.
  intros (_ & Hset & (rest & Hp) & Hsni & Hok). unfold handle_inner. rewrite Hset, Hp, Hsni.
  destruct (RateLimiterMap_check _ _ _ _ _) as [ok l]. cbn in Hok. by subst ok.
Qed.

Lemma connect_is_write pol domain :
  pd_allowed (NetworkPolicy_evaluate pol domain "CONNECT") = (permissions pol domain).1.2.
Proof.
  pose proof (NetworkPolicy_evaluate_alt pol domain "CONNECT") as Hev.
  destruct (permissions pol domain) as [[r w] rule]. destruct Hev as [-> _]. cbn.
  unfold is_read_method. by rewrite to_uppercase_ascii.
Qed.

(** A tunnelled connection is judged as the write method CONNECT: a domain without
    the write permission, one with the read permission included, is never dialed, and its
    refusal is logged twice, by the tunnel check and by the connection handler. *)
Theorem write_denied_not_tunnelled (config : MitmProxyConfig) (cn : Connection) (s : ProxyState)
    (process_name : option string) (initial_buf : list byte) (domain : string) :
  reaches config cn s process_name initial_buf domain ->
  enabled config = true -> tunnel_non_ai config = true -> detect_ai_provider domain = None -> domain <> "" ->
  (permissions (policy config) domain).1.2 = false ->
  let s' := handle_connection config cn s in
  dialed s' = dialed s /\
  log s' = log s ++
    [connection_event domain Denied process_name 0 0 0 (permissions (policy config) domain).2 "https-tunnel-denied";
     connection_event domain Denied None 0 0 0
       (pd_reason (NetworkPolicy_evaluate (policy config) domain "CONNECT")) "https-mitm"].
Proof.
  intros Hr Hen Htn Hai Hne Hw. pose proof Hr as (Hperm & _). unfold handle_connection. rewrite Hperm.
  cbn [negb]. rewrite (handle_inner_reaches _ _ _ _ _ _ Hr). unfold route.
  rewrite Hen, Htn, Hai, connect_is_write, Hw. cbn [negb].
  destruct (is_empty domain) eqn:He; [by apply is_empty_true in He|].
  pose proof (NetworkPolicy_evaluate_alt (policy config) domain "CONNECT") as Hev.
  destruct (permissions (policy config) domain) as [[r w] rule]. destruct Hev as [_ Hrule]. cbn [snd].
  rewrite <- Hrule. cbn. split; [done|]. by rewrite <- app_assoc.
Qed.

(** A connection over the rate is refused before any upstream contact, and logged once. *)
Lemma rate_limited_refused config cn s process_name initial_buf rest domain :
  cn_permit cn = true -> cn_setup cn = Ok tt ->
  peek_connection (cn_reads cn) = PeekDone process_name initial_buf rest ->
  extract_sni_from_client_hello initial_buf = SniFound domain -> domain <> "" ->
  (RateLimiterMap_check (limiter s) (cn_now0 cn) (cn_now1 cn) (cn_now2 cn) domain).1 = false ->
  let s' := handle_connection config cn s in
  dialed s' = dialed s /\
  log s' = log s ++ [connection_event domain Denied None 0 0 0 "rate limit exceeded" "https-mitm"].
Proof.
  intros Hperm Hset Hp Hsni Hne Hl. unfold handle_connection, handle_inner. rewrite Hperm, Hset, Hp, Hsni.
  destruct (RateLimiterMap_check _ _ _ _ _) as [ok l]. cbn in Hl. subst ok. cbn [negb].
  destruct (is_empty domain) eqn:He; [by apply is_empty_true in He|]. done.
Qed.

End Proxy.

Definition demo_hello_bytes (domain : string) : list byte :=
  render_record [Byte.x03; Byte.x01] (render_hello
    {| h_version_random := repeat Byte.x03 34; h_session_id := []; h_ciphers := [Byte.x13; Byte.x01];
       h_compression := [Byte.x00]; h_extensions := [(O, sni_data (bytes_of_string domain))] |}).

(** A connection whose reads hold the whole ClientHello of [domain]. *)
Definition demo_connection (domain : string) : Connection := {|
  cn_permit := true; cn_setup := Ok tt;
  cn_reads := [Ok (meta_line "pip"); Ok (demo_hello_bytes domain)];
  cn_now0 := 0; cn_now1 := 0; cn_now2 := 0;
  cn_net := {| lookup_host := fun _ => Ok []; vpn_connect := None; tcp_connect := fun _ => Ok tt;
               connect_timed_out := fun _ => false |};
  cn_replay := Ok tt; cn_copy := Some (Ok (100, 200)); cn_tls := fun _ => None; cn_resolver_domain := None;
  cn_duration_ms := 7;
|}.

Definition demo_config : MitmProxyConfig := {|
  policy := NetworkPolicy_default_dev; tunnel_non_ai := true; limits := ProxyLimits_default; enabled := true;
  credentials := [] |}.

Definition demo_state : @ProxyState text_time :=
  {| limiter := RateLimiterMap_new (f64_of_u64 50); trace_state := TraceState_new; log := []; dialed := [] |}.

(** pypi.org is readable under the built-in policy, and yet unreachable through a tunnel. *)
Lemma write_denied_not_tunnelled_witness :
  pd_allowed (NetworkPolicy_evaluate NetworkPolicy_default_dev "pypi.org" "GET") = true /\
  let s' := @handle_connection _ text_time "now" (fun _ _ _ s => (true, s)) demo_config (demo_connection "pypi.org") demo_state in
  dialed s' = [] /\ log s' =
    [@connection_event text_time "now" "pypi.org" Denied (Some "A:pip") 0 0 0 "pypi.org" "https-tunnel-denied";
     @connection_event text_time "now" "pypi.org" Denied None 0 0 0 "write denied by rule pypi.org" "https-mitm"].
Proof.
  split; [vm_compute; reflexivity|].
  intros s'.
  destruct (@write_denied_not_tunnelled _ text_time "now" (fun _ _ _ s => (true, s)) demo_config
    (demo_connection "pypi.org") demo_state (Some "A:pip") (demo_hello_bytes "pypi.org") "pypi.org") as [Hd Hl].
  - split; [reflexivity|]. split; [reflexivity|]. split; [exists []; vm_compute; reflexivity|].
    split; vm_compute; reflexivity.
  - reflexivity.
  - reflexivity.
  - reflexivity.
  - discriminate.
  - vm_compute. reflexivity.
  - split; [exact Hd|]. refine (eq_trans Hl _). vm_compute. reflexivity.
Defined.
