(* ===== verification/LogReader.v ===== *)
(** Reading the event log: crates/clawcage-logger/src/reader.rs.

    A SQL query is the list expression it denotes: WHERE is a filter, ORDER BY id DESC a
    reversal, an aggregate a fold. What SQLite leaves open or this model does not look
    into is a parameter: the order of groups with equal counts ([group_order]), the
    floating-point sum of costs ([sum_real]), the row a bare column is read from ([any_row]), the JSON functions over the usage details
    ([usage_totals]), and the evaluation of free-form queries ([run_query]). *)

From Stdlib Require Import ZArith Lia Ascii Floats.SpecFloat.
From stdpp Require Import base numbers list gmap strings.
From S2P Require Import Prelude RustStr Utf8 Pricing Events EventLog.

(** ** SQL *)

(** LIMIT: a negative limit is none. *)
Definition sql_limit {A} (limit : Z) (l : list A) : list A :=
  if as_i64 limit <? 0 then l else take (Z.to_nat (as_i64 limit)) l.

(** ORDER BY id DESC LIMIT, of the rows in the order of their ids. *)
Definition newest {A} (limit : Z) (l : list A) : list A := sql_limit limit (rev l).

(** SUM of integers: an overflow is an error. *)
Fixpoint sql_sum (acc : Z) (l : list Z) : result Z string :=
  match l with
  | [] => Ok acc
  | x :: l => let s := acc + x in
              if (- 2 ^ 63 <=? s) && (s <? 2 ^ 63) then sql_sum s l else Err "integer overflow"
  end.

(** SUM(CASE WHEN p THEN 1 ELSE 0 END) *)
Definition count_if {A} (p : A -> bool) (l : list A) : Z := Z.of_nat (length (List.filter p l)).

(** LIKE: [%] matches any text, [_] any character, letters match in either case. *)
Fixpoint like (pattern text : list string) {struct pattern} : bool :=
  match pattern with
  | [] => match text with [] => true | _ => false end
  | p :: pattern =>
      if bool_decide (p = "%") then
        (fix any (text : list string) : bool :=
           like pattern text || match text with [] => false | _ :: text => any text end) text
      else match text with
           | [] => false
           | c :: text =>
               (bool_decide (p = "_") || bool_decide (smap ascii_lower_char p = smap ascii_lower_char c))
               && like pattern text
           end
  end.

Definition sql_like (text pattern : string) : bool := like (chars pattern) (chars text).

(** A comparison with NULL is not true. *)
Definition opt_like (text : option string) (pattern : string) : bool :=
  match text with Some t => sql_like t pattern | None => false end.

(** GROUP BY a key: the groups in the order of their first rows. *)
Definition group_keys {A K} `{EqDecision K} (key : A -> K) (l : list A) : list K :=
  rev (remove_dups (rev (map key l))).

Definition group_rows {A K} `{EqDecision K} (key : A -> K) (k : K) (l : list A) : list A :=
  List.filter (fun x => bool_decide (key x = k)) l.

(** ** The reader *)

Section Reader.
Context `{Humantime, UsageJson}.
Variable sum_real : list f64 -> f64.
Variable usage_totals : list string -> result (option string) string.

Abbreviation NetEvent := (NetEventOf SystemTime Decision).
Abbreviation McpCall := (McpCallOf SystemTime).
Abbreviation ModelCall := (ModelCallOf SystemTime bool (gmap string Z)).
Abbreviation FileEvent := (FileEventOf SystemTime FileAction).
Abbreviation NetRow := (NetEventOf string string).
Abbreviation McpRow := (McpCallOf string).
Abbreviation ModelRow := (ModelCallOf string Z (option string)).
Abbreviation FileRow := (FileEventOf string string).

Definition read_net_event_row (row : NetRow) : NetEvent :=
  {| ne_timestamp := read_timestamp (ne_timestamp row); ne_domain := ne_domain row;
     ne_port := as_uN 16 (ne_port row); ne_decision := Decision_parse_str (ne_decision row);
     ne_process_name := ne_process_name row; ne_pid := as_uN 32 <$> ne_pid row; ne_method := ne_method row;
     ne_path := ne_path row; ne_query := ne_query row; ne_status_code := as_uN 16 <$> ne_status_code row;
     ne_bytes_sent := as_uN 64 (ne_bytes_sent row); ne_bytes_received := as_uN 64 (ne_bytes_received row);
     ne_duration_ms := as_uN 64 (ne_duration_ms row); ne_matched_rule := ne_matched_rule row;
     ne_request_headers := ne_request_headers row; ne_response_headers := ne_response_headers row;
     ne_request_body_preview := ne_request_body_preview row;
     ne_response_body_preview := ne_response_body_preview row; ne_conn_type := ne_conn_type row |}.

Definition read_model_call_row (row : ModelRow) : ModelCall :=
  {| mc_timestamp := read_timestamp (mc_timestamp row); mc_provider := mc_provider row;
     mc_model := mc_model row; mc_process_name := mc_process_name row; mc_pid := as_uN 32 <$> mc_pid row;
     mc_method := mc_method row; mc_path := mc_path row; mc_stream := negb (mc_stream row =? 0);
     mc_system_prompt_preview := mc_system_prompt_preview row;
     mc_messages_count := as_uN 64 (mc_messages_count row); mc_tools_count := as_uN 64 (mc_tools_count row);
     mc_request_bytes := as_uN 64 (mc_request_bytes row);
     mc_request_body_preview := mc_request_body_preview row; mc_message_id := mc_message_id row;
     mc_status_code := as_uN 16 <$> mc_status_code row; mc_text_content := mc_text_content row;
     mc_thinking_content := mc_thinking_content row; mc_stop_reason := mc_stop_reason row;
     mc_input_tokens := as_uN 64 <$> mc_input_tokens row; mc_output_tokens := as_uN 64 <$> mc_output_tokens row;
     mc_usage_details := default ∅ (mc_usage_details row ≫= usage_from_string);
     mc_duration_ms := as_uN 64 (mc_duration_ms row); mc_response_bytes := as_uN 64 (mc_response_bytes row);
     mc_estimated_cost_usd := mc_estimated_cost_usd row; mc_trace_id := mc_trace_id row;
     mc_tool_calls := []; mc_tool_responses := [] |}.

Definition read_file_event_row (row : FileRow) : FileEvent :=
  {| fe_timestamp := read_timestamp (fe_timestamp row); fe_action := FileAction_parse_str (fe_action row);
     fe_path := fe_path row; fe_size := as_uN 64 <$> fe_size row |}.

Definition read_mcp_call_row (row : McpRow) : McpCall :=
  {| mcp_timestamp := read_timestamp (mcp_timestamp row); mcp_server_name := mcp_server_name row;
     mcp_method := mcp_method row; mcp_tool_name := mcp_tool_name row; mcp_request_id := mcp_request_id row;
     mcp_request_preview := mcp_request_preview row; mcp_response_preview := mcp_response_preview row;
     mcp_decision := mcp_decision row; mcp_duration_ms := as_uN 64 (mcp_duration_ms row);
     mcp_error_message := mcp_error_message row; mcp_process_name := mcp_process_name row |}.

Definition read_tool_call (row : ToolCallEntry) : ToolCallEntry :=
  {| tce_call_index := as_uN 32 (tce_call_index row); tce_call_id := tce_call_id row;
     tce_tool_name := tce_tool_name row; tce_arguments := tce_arguments row; tce_origin := tce_origin row |}.

(** ** Queries of one table *)

Definition recent_net_events (d : Db) (limit : Z) : list NetEvent :=
  map (fun r => read_net_event_row r.2) (newest limit (net_events d)).

Definition recent_model_calls (d : Db) (limit : Z) : list (Z * ModelCall) :=
  map (fun r => (r.1, read_model_call_row r.2)) (newest limit (model_calls d)).

Definition recent_mcp_calls (d : Db) (limit : Z) : list McpCall :=
  map (fun r => read_mcp_call_row r.2) (newest limit (mcp_calls d)).

Definition recent_file_events (d : Db) (limit : Z) : list FileEvent :=
  map (fun r => read_file_event_row r.2) (newest limit (fs_events d)).

Definition like_pattern (query : string) : string := "%" +:+ query +:+ "%".

Definition search_net_events (d : Db) (query : string) (limit : Z) : list NetEvent :=
  let pattern := like_pattern query in
  map (fun r => read_net_event_row r.2) (newest limit (List.filter (fun r =>
    sql_like (ne_domain r.2) pattern || opt_like (ne_path r.2) pattern
    || opt_like (ne_method r.2) pattern || opt_like (ne_matched_rule r.2) pattern) (net_events d))).

Definition search_model_calls (d : Db) (query : string) (limit : Z) : list (Z * ModelCall) :=
  let pattern := like_pattern query in
  map (fun r => (r.1, read_model_call_row r.2)) (newest limit (List.filter (fun r =>
    sql_like (mc_provider r.2) pattern || opt_like (mc_model r.2) pattern
    || opt_like (mc_stop_reason r.2) pattern) (model_calls d))).

Definition search_mcp_calls (d : Db) (query : string) (limit : Z) : list McpCall :=
  let pattern := like_pattern query in
  map (fun r => read_mcp_call_row r.2) (newest limit (List.filter (fun r =>
    sql_like (mcp_server_name r.2) pattern || sql_like (mcp_method r.2) pattern
    || opt_like (mcp_tool_name r.2) pattern) (mcp_calls d))).

Definition search_file_events (d : Db) (query : string) (limit : Z) : list FileEvent :=
  map (fun r => read_file_event_row r.2) (newest limit (List.filter (fun r =>
    sql_like (fe_path r.2) (like_pattern query)) (fs_events d))).

Record ModelCallSummary := {
  ms_id : Z; ms_provider : string; ms_model : string; ms_input_tokens : Z; ms_output_tokens : Z;
  ms_estimated_cost_usd : f64;
}.

Definition model_calls_since (d : Db) (since_id : Z) : list ModelCallSummary :=
  map (fun r => {| ms_id := r.1; ms_provider := mc_provider r.2; ms_model := default "" (mc_model r.2);
                   ms_input_tokens := default 0 (mc_input_tokens r.2);
                   ms_output_tokens := default 0 (mc_output_tokens r.2);
                   ms_estimated_cost_usd := mc_estimated_cost_usd r.2 |})
    (List.filter (fun r => since_id <? r.1) (model_calls d)).

Definition tool_calls_for (d : Db) (model_call_id : Z) : list ToolCallEntry :=
  map read_tool_call (sort_by_key tce_call_index
    (map snd (List.filter (fun r => r.1 =? model_call_id) (tool_calls d)))).

Definition tool_responses_for (d : Db) (model_call_id : Z) : list ToolResponseEntry :=
  map snd (List.filter (fun r => r.1 =? model_call_id) (tool_responses d)).

(** ** Aggregates *)

Definition decision_is (s : string) (r : Z * NetRow) : bool := bool_decide (ne_decision r.2 = s).

(** (total, allowed, denied) *)
Definition net_event_counts (d : Db) : Z * Z * Z :=
  (Z.of_nat (length (net_events d)), count_if (decision_is "allowed") (net_events d),
   count_if (decision_is "denied") (net_events d)).

Definition model_call_count (d : Db) : Z := Z.of_nat (length (model_calls d)).
Definition file_event_count (d : Db) : Z := Z.of_nat (length (fs_events d)).

Record SessionStats := {
  net_total : Z; net_allowed : Z; net_denied : Z; net_error : Z; net_bytes_sent : Z;
  net_bytes_received : Z; st_model_call_count : Z; total_input_tokens : Z; total_output_tokens : Z;
  total_usage_details : gmap string Z; total_model_duration_ms : Z; total_tool_calls : Z;
  total_estimated_cost_usd : f64;
}.

Definition usage_texts (rows : list (Z * ModelRow)) : list string := omap (fun r => mc_usage_details r.2) rows.

Definition session_stats (d : Db) : result SessionStats string :=
  let ne := net_events d in
  let mc := model_calls d in
  let? sent := sql_sum 0 (map (fun r => ne_bytes_sent r.2) ne) in
  let? received := sql_sum 0 (map (fun r => ne_bytes_received r.2) ne) in
  let? input := sql_sum 0 (map (fun r => default 0 (mc_input_tokens r.2)) mc) in
  let? output := sql_sum 0 (map (fun r => default 0 (mc_output_tokens r.2)) mc) in
  let? duration := sql_sum 0 (map (fun r => mc_duration_ms r.2) mc) in
  let? usage := usage_totals (usage_texts mc) in
  Ok {| net_total := Z.of_nat (length ne); net_allowed := count_if (decision_is "allowed") ne;
        net_denied := count_if (decision_is "denied") ne; net_error := count_if (decision_is "error") ne;
        net_bytes_sent := as_uN 64 sent; net_bytes_received := as_uN 64 received;
        st_model_call_count := Z.of_nat (length mc); total_input_tokens := as_uN 64 input;
        total_output_tokens := as_uN 64 output;
        total_usage_details := default ∅ (usage ≫= usage_from_string);
        total_model_duration_ms := as_uN 64 duration; total_tool_calls := Z.of_nat (length (tool_calls d));
        total_estimated_cost_usd := sum_real (map (fun r => mc_estimated_cost_usd r.2) mc) |}.

(** GROUP BY .. ORDER BY cnt DESC: groups with the same count come in [group_order]. *)
Variable group_order : forall {A}, list A -> list A.

Definition by_count {A} (count : A -> Z) (groups : list A) : list A :=
  sort_by_key (fun g => - count g) (group_order groups).

Record DomainCount := { dc_domain : string; dc_count : Z; dc_allowed : Z; dc_denied : Z }.

Definition domain_group (rows : list (Z * NetRow)) (domain : string) : DomainCount :=
  let rows := group_rows (fun r => ne_domain r.2) domain rows in
  {| dc_domain := domain; dc_count := Z.of_nat (length rows);
     dc_allowed := count_if (decision_is "allowed") rows; dc_denied := count_if (decision_is "denied") rows |}.

Definition top_domains (d : Db) (limit : Z) : list DomainCount :=
  sql_limit limit (by_count dc_count
    (map (domain_group (net_events d)) (group_keys (fun r => ne_domain r.2) (net_events d)))).

Record ToolUsageCount := { tu_tool_name : string; tu_count : Z }.

Definition tool_usage_frequency (d : Db) (limit : Z) : list ToolUsageCount :=
  sql_limit limit (by_count tu_count
    (map (fun k => {| tu_tool_name := k;
                      tu_count := Z.of_nat (length (group_rows (fun r => tce_tool_name r.2) k (tool_calls d))) |})
       (group_keys (fun r => tce_tool_name r.2) (tool_calls d)))).

Record ProviderTokenUsage := {
  pu_provider : string; pu_call_count : Z; pu_total_input_tokens : Z; pu_total_output_tokens : Z;
  pu_total_duration_ms : Z; pu_total_estimated_cost_usd : f64;
}.

Definition provider_group (rows : list (Z * ModelRow)) (provider : string) : result ProviderTokenUsage string :=
  let rows := group_rows (fun r => mc_provider r.2) provider rows in
  let? input := sql_sum 0 (map (fun r => default 0 (mc_input_tokens r.2)) rows) in
  let? output := sql_sum 0 (map (fun r => default 0 (mc_output_tokens r.2)) rows) in
  let? duration := sql_sum 0 (map (fun r => mc_duration_ms r.2) rows) in
  Ok {| pu_provider := provider; pu_call_count := Z.of_nat (length rows);
        pu_total_input_tokens := as_uN 64 input; pu_total_output_tokens := as_uN 64 output;
        pu_total_duration_ms := as_uN 64 duration;
        pu_total_estimated_cost_usd := sum_real (map (fun r => mc_estimated_cost_usd r.2) rows) |}.

(** [collect::<Result<Vec<_>>>] *)
Fixpoint collect_results {A E} (l : list (result A E)) : result (list A) E :=
  match l with
  | [] => Ok []
  | r :: l => let? x := r in let? xs := collect_results l in Ok (x :: xs)
  end.

Definition token_usage_by_provider (d : Db) : result (list ProviderTokenUsage) string :=
  let? groups := collect_results (map (provider_group (model_calls d))
                   (group_keys (fun r => mc_provider r.2) (model_calls d))) in
  Ok (by_count pu_call_count groups).

(** tool_calls JOIN model_calls, of the rows of the calls [p] holds of. *)
Definition join_calls {A} (d : Db) (p : ModelRow -> bool) (rows : list (Z * A)) : list ((Z * A) * ModelRow) :=
  flat_map (fun r => map (fun mc => (r, mc.2))
              (List.filter (fun mc => (mc.1 =? r.1) && p mc.2) (model_calls d))) rows.

Record ToolUsageWithStats := {
  ts_tool_name : string; ts_count : Z; ts_total_bytes : Z; ts_total_duration_ms : Z;
}.

Definition tool_usage_with_stats (d : Db) (limit : Z) : result (list ToolUsageWithStats) string :=
  let joined := join_calls d (fun _ => true) (tool_calls d) in
  let name (j : (Z * ToolCallEntry) * ModelRow) := tce_tool_name j.1.2 in
  let? groups := collect_results (map (fun k =>
      let rows := group_rows name k joined in
      let? bytes := sql_sum 0 (map (fun j => mc_response_bytes j.2) rows) in
      let? duration := sql_sum 0 (map (fun j => mc_duration_ms j.2) rows) in
      Ok {| ts_tool_name := k; ts_count := Z.of_nat (length rows); ts_total_bytes := as_uN 64 bytes;
            ts_total_duration_ms := as_uN 64 duration |}) (group_keys name joined)) in
  Ok (sql_limit limit (by_count ts_count groups)).

Record McpToolUsage := {
  mt_tool_name : string; mt_server_name : string; mt_count : Z; mt_total_bytes : Z; mt_total_duration_ms : Z;
}.

(** LENGTH of a text: its characters before the first NUL. *)
Fixpoint sql_length (l : list string) : Z :=
  match l with
  | [] => 0
  | c :: l => if bool_decide (c = String "000" "") then 0 else 1 + sql_length l
  end.

(** A column outside the GROUP BY takes its value from some row of the group. *)
Variable any_row : forall {A}, A -> list A -> A.

Definition mcp_tool_usage (d : Db) (limit : Z) : result (list McpToolUsage) string :=
  let rows := omap (fun r => (fun t => (t, r.2)) <$> mcp_tool_name r.2) (mcp_calls d) in
  let? groups := collect_results (map (fun k =>
      let rows := group_rows fst k rows in
      let? bytes := sql_sum 0 (omap (fun r => sql_length ∘ chars <$> mcp_response_preview r.2) rows) in
      let? duration := sql_sum 0 (map (fun r => mcp_duration_ms r.2) rows) in
      Ok {| mt_tool_name := k;
            mt_server_name := match rows with [] => "" | r :: rows => mcp_server_name (any_row r rows).2 end;
            mt_count := Z.of_nat (length rows); mt_total_bytes := as_uN 64 bytes;
            mt_total_duration_ms := as_uN 64 duration |}) (group_keys fst rows)) in
  Ok (sql_limit limit (by_count mt_count groups)).

Record FileEventStats := { fs_total : Z; fs_created : Z; fs_modified : Z; fs_deleted : Z }.

Definition file_event_stats (d : Db) : FileEventStats :=
  let action_is s (r : Z * FileRow) := bool_decide (fe_action r.2 = s) in
  {| fs_total := Z.of_nat (length (fs_events d)); fs_created := count_if (action_is "created") (fs_events d);
     fs_modified := count_if (action_is "modified") (fs_events d); fs_deleted := count_if (action_is "deleted") (fs_events d) |}.

Record McpServerCallCount := { sc_server_name : string; sc_count : Z; sc_denied : Z; sc_warned : Z }.
Record McpCallStats := {
  cs_total : Z; cs_allowed : Z; cs_warned : Z; cs_denied : Z; cs_errored : Z;
  cs_by_server : list McpServerCallCount;
}.

Definition mcp_is (s : string) (r : Z * McpRow) : bool := bool_decide (mcp_decision r.2 = s).

Definition server_group (rows : list (Z * McpRow)) (server : string) : McpServerCallCount :=
  let rows := group_rows (fun r => mcp_server_name r.2) server rows in
  {| sc_server_name := server; sc_count := Z.of_nat (length rows);
     sc_denied := count_if (mcp_is "denied") rows; sc_warned := count_if (mcp_is "warned") rows |}.

Definition mcp_call_stats (d : Db) : McpCallStats :=
  let rows := mcp_calls d in
  {| cs_total := Z.of_nat (length rows); cs_allowed := count_if (mcp_is "allowed") rows;
     cs_warned := count_if (mcp_is "warned") rows; cs_denied := count_if (mcp_is "denied") rows;
     cs_errored := count_if (mcp_is "error") rows;
     cs_by_server := by_count sc_count
       (map (server_group rows) (group_keys (fun r => mcp_server_name r.2) rows)) |}.

(** ** Traces *)

Record TraceModelCall := { tmc_id : Z; tmc_call : ModelCall }.
Record TraceDetail := { td_trace_id : string; td_calls : list TraceModelCall }.

(** [map.entry(id).or_default().push(entry)] over the rows. *)
Definition group_by_call {A} (rows : list (Z * A)) : gmap Z (list A) :=
  fold_left (fun m r => <[r.1 := default [] (m !! r.1) ++ [r.2]]> m) rows ∅.

Definition with_tools (call : ModelCall) (calls : list ToolCallEntry) (resps : list ToolResponseEntry) : ModelCall :=
  {| mc_timestamp := mc_timestamp call; mc_provider := mc_provider call; mc_model := mc_model call;
     mc_process_name := mc_process_name call; mc_pid := mc_pid call; mc_method := mc_method call;
     mc_path := mc_path call; mc_stream := mc_stream call;
     mc_system_prompt_preview := mc_system_prompt_preview call; mc_messages_count := mc_messages_count call;
     mc_tools_count := mc_tools_count call; mc_request_bytes := mc_request_bytes call;
     mc_request_body_preview := mc_request_body_preview call; mc_message_id := mc_message_id call;
     mc_status_code := mc_status_code call; mc_text_content := mc_text_content call;
     mc_thinking_content := mc_thinking_content call; mc_stop_reason := mc_stop_reason call;
     mc_input_tokens := mc_input_tokens call; mc_output_tokens := mc_output_tokens call;
     mc_usage_details := mc_usage_details call; mc_duration_ms := mc_duration_ms call;
     mc_response_bytes := mc_response_bytes call; mc_estimated_cost_usd := mc_estimated_cost_usd call;
     mc_trace_id := mc_trace_id call; mc_tool_calls := calls; mc_tool_responses := resps |}.

Definition in_trace (trace_id : string) (row : ModelRow) : bool := bool_decide (mc_trace_id row = Some trace_id).

Fixpoint attach_tools (calls : gmap Z (list ToolCallEntry)) (resps : gmap Z (list ToolResponseEntry))
    (rows : list (Z * ModelCall)) : list TraceModelCall :=
  match rows with
  | [] => []
  | (id, call) :: rows =>
      {| tmc_id := id; tmc_call := with_tools call (default [] (calls !! id)) (default [] (resps !! id)) |}
      :: attach_tools (delete id calls) (delete id resps) rows
  end.

Definition trace_detail (d : Db) (trace_id : string) : TraceDetail :=
  let rows := map (fun r => (r.1, read_model_call_row r.2))
                (List.filter (fun r => in_trace trace_id r.2) (model_calls d)) in
  let all_tool_calls := map (fun r => (r.1, read_tool_call r.2))
    (sort_by_key fst (sort_by_key (fun r => tce_call_index r.2)
      (map fst (join_calls d (in_trace trace_id) (tool_calls d))))) in
  let all_tool_resps := map fst (join_calls d (in_trace trace_id) (tool_responses d)) in
  {| td_trace_id := trace_id;
     td_calls := attach_tools (group_by_call all_tool_calls) (group_by_call all_tool_resps) rows |}.

Record TraceSummary := {
  tr_trace_id : string; tr_started_at : f64; tr_ended_at : f64; tr_provider : string;
  tr_model : option string; tr_call_count : Z; tr_total_input_tokens : Z; tr_total_output_tokens : Z;
  tr_total_usage_details : gmap string Z; tr_total_duration_ms : Z; tr_total_estimated_cost_usd : f64;
  tr_total_tool_calls : Z; tr_stop_reason : option string; tr_system_prompt_preview : option string;
}.

(** [t.duration_since(UNIX_EPOCH).unwrap_or_default().as_secs_f64()] *)
Variable epoch_secs_f64 : SystemTime -> f64.

Definition text_min (a b : string) : string := if String.leb a b then a else b.
Definition text_max (a b : string) : string := if String.leb a b then b else a.

(** The row of one trace, given its model calls in the order of their ids. *)
Definition trace_summary (d : Db) (trace_id : string) (first : Z * ModelRow) (rest : list (Z * ModelRow))
  : result TraceSummary string :=
  let rows := first :: rest in
  let last := default first (last rest) in
  let times := map (fun r => mc_timestamp r.2) in
  let? input := sql_sum 0 (map (fun r => default 0 (mc_input_tokens r.2)) rows) in
  let? output := sql_sum 0 (map (fun r => default 0 (mc_output_tokens r.2)) rows) in
  let? usage := usage_totals (usage_texts rows) in
  let? duration := sql_sum 0 (map (fun r => mc_duration_ms r.2) rows) in
  Ok {| tr_trace_id := trace_id;
        tr_started_at := epoch_secs_f64 (read_timestamp (foldr text_min (mc_timestamp first.2) (times rest)));
        tr_ended_at := epoch_secs_f64 (read_timestamp (foldr text_max (mc_timestamp first.2) (times rest)));
        tr_provider := mc_provider first.2; tr_model := mc_model first.2;
        tr_call_count := Z.of_nat (length rows); tr_total_input_tokens := as_uN 64 input;
        tr_total_output_tokens := as_uN 64 output;
        tr_total_usage_details := default ∅ (usage ≫= usage_from_string);
        tr_total_duration_ms := as_uN 64 duration;
        tr_total_estimated_cost_usd := sum_real (map (fun r => mc_estimated_cost_usd r.2) rows);
        tr_total_tool_calls := Z.of_nat (length (join_calls d (in_trace trace_id) (tool_calls d)));
        tr_stop_reason := mc_stop_reason last.2;
        tr_system_prompt_preview := mc_system_prompt_preview first.2 |}.

(** The traces from the one with the newest call on. *)
Definition top_traces (d : Db) (limit : Z) : list string :=
  sql_limit limit (remove_dups (rev (omap (fun r => mc_trace_id r.2) (model_calls d)))).

Definition recent_traces (d : Db) (limit : Z) : result (list TraceSummary) string :=
  collect_results (omap (fun t =>
    match List.filter (fun r => in_trace t r.2) (model_calls d) with
    | [] => None
    | first :: rest => Some (trace_summary d t first rest)
    end) (top_traces d limit)).

(** ** Events over time *)

Record TimeBucket := { bucket_start : string; bk_allowed : Z; bk_denied : Z }.

(** [format_rfc3339_seconds] of a number of seconds, and strftime('%s', text). *)
Variable format_seconds : Z -> string.
Variable epoch_of_text : string -> Z.

Definition bump_bucket (allowed denied : Z) (b : TimeBucket) : TimeBucket :=
  {| bucket_start := bucket_start b; bk_allowed := bk_allowed b + allowed; bk_denied := bk_denied b + denied |}.

(** The loop over the (index, allowed, denied) rows; [None] is a panic. *)
Fixpoint fill_buckets (count : nat) (buckets : list TimeBucket) (rows : list (Z * Z * Z))
  : option (list TimeBucket) :=
  match rows with
  | [] => Some buckets
  | (idx, allowed, denied) :: rows =>
      if Z.of_nat count <=? as_uN 64 idx then
        match count with
        | O => None
        | S last => fill_buckets count (alter (bump_bucket allowed denied) last buckets) rows
        end
      else fill_buckets count (alter (bump_bucket allowed denied) (Z.to_nat (as_uN 64 idx)) buckets) rows
  end.

(** [since] is the text of the start of the window SQLite compares timestamps with. A
    bucket of no minutes divides by zero: the index is NULL, an error. *)
Definition net_events_over_time (d : Db) (now : Z) (since : string) (bucket_min : Z) (count : nat)
  : option (result (list TimeBucket) string) :=
  let bucket_sec := bucket_min * 60 in
  let window_start := saturating_sub now (bucket_sec * Z.of_nat count) in
  let buckets := map (fun i => {| bucket_start := format_seconds (window_start + Z.of_nat i * bucket_sec);
                                  bk_allowed := 0; bk_denied := 0 |}) (seq 0 count) in
  let rows := List.filter (fun r => String.leb since (ne_timestamp r.2)
                                    && (window_start <=? epoch_of_text (ne_timestamp r.2))) (net_events d) in
  let idx (r : Z * NetRow) := (epoch_of_text (ne_timestamp r.2) - window_start) `quot` bucket_sec in
  if bucket_sec =? 0 then
    match rows with [] => Some (Ok buckets) | _ => Some (Err "invalid column type Null") end
  else
    Ok <$> fill_buckets count buckets
      (map (fun k => let g := group_rows idx k rows in
                     (k, count_if (decision_is "allowed") g, count_if (decision_is "denied") g))
         (group_keys idx rows)).

End Reader.

(** ** Free-form queries *)

Definition is_sql_delimiter (c : ascii) : bool :=
  existsb (Ascii.eqb c) [" "; "009"; "010"; "012"; "013"; ";"; "("]%char.

(** [split(..).next()] *)
Fixpoint first_word (s : string) : string :=
  match s with
  | EmptyString => ""
  | String c s => if is_sql_delimiter c then "" else String c (first_word s)
  end.

Definition validate_select_only (sql : string) : result unit string :=
  let trimmed := trim sql in
  if is_empty trimmed then Err "empty query"
  else
    let first := smap ascii_upper_char (first_word trimmed) in
    if bool_decide (first ∈ ["SELECT"; "WITH"; "EXPLAIN"]) then Ok tt
    else if bool_decide (first ∈ ["PRAGMA"; "INSERT"; "UPDATE"; "DELETE"; "DROP"; "ALTER"; "CREATE"; "ATTACH";
              "DETACH"; "REPLACE"; "VACUUM"; "REINDEX"; "BEGIN"; "COMMIT"; "ROLLBACK"; "SAVEPOINT"; "RELEASE"])
    then Err (first +:+ " statements are not allowed")
    else Err ("unsupported statement type: " +:+ first).

Inductive SqlValue :=
| SqlNull | SqlInteger (n : Z) | SqlReal (f : f64) | SqlText (t : list byte) | SqlBlob (b : list byte).

Section Query.
Context `{SerdeJson}.
(** [Number::from_f64] of a finite number, [Value::as_i64] and [as_f64]; the statement run: the columns, then each row
    or the error that ends them. *)
Variable json_f64 : f64 -> Value.
Variable as_i64_num : Value -> option Z.
Variable as_f64_num : Value -> option f64.
Variable run_query : string -> list SqlValue -> result (list string * list (result (list SqlValue) string)) string.

Definition MAX_ROWS : nat := Z.to_nat 10000.

Definition f64_is_finite (f : f64) : bool :=
  match f with S754_zero _ | S754_finite _ _ _ => true | _ => false end.

Definition param_of (v : Value) : SqlValue :=
  match as_bool v, as_i64_num v, as_f64_num v, as_str v with
  | Some b, _, _, _ => SqlInteger (if b then 1 else 0)
  | None, Some i, _, _ => SqlInteger i
  | None, None, Some f, _ => SqlReal f
  | None, None, None, Some s => SqlText (bytes_of_string s)
  | None, None, None, None => SqlNull
  end.

Definition json_of_sql (v : SqlValue) : Value :=
  match v with
  | SqlNull => json_null
  | SqlInteger n => json_num n
  | SqlReal f => if f64_is_finite f then json_f64 f else json_null
  | SqlText t => json_str (default "<invalid utf8>" (from_utf8 t))
  | SqlBlob b => json_str ("<blob " +:+ show_Z (Z.of_nat (length b)) +:+ " bytes>")
  end.

(** The [while] loop over the rows. *)
Fixpoint collect_rows (max_rows : nat) (rows : list (list Value)) (raw_rows : list (result (list SqlValue) string))
  : result (list (list Value)) string :=
  match raw_rows with
  | [] => Ok rows
  | Err e :: _ => Err e
  | Ok row :: raw_rows =>
      if (max_rows <=? length rows)%nat then Ok rows
      else collect_rows max_rows (rows ++ [map json_of_sql row]) raw_rows
  end.

Definition query_raw_params_inner (sql : string) (params : list Value) (max_rows : nat) : result string string :=
  let? q := run_query sql (map param_of params) in
  let? rows := collect_rows max_rows [] q.2 in
  Ok (json_to_string (json_obj [("columns", json_arr (map json_str q.1));
                                ("rows", json_arr (map json_arr rows))])).

Definition query_raw_with_params (sql : string) (params : list Value) : result string string :=
  match query_raw_params_inner sql params MAX_ROWS with
  | Err e => Err (if str_contains e "interrupted" then "query timed out after 5 seconds" else e)
  | Ok r => Ok r
  end.

Definition query_raw (sql : string) : result string string := query_raw_with_params sql [].

(** At most the first [max_rows] rows are returned, in their order. *)
Lemma collect_rows_spec max rows raw :
  (length rows <= max)%nat ->
  match collect_rows max rows (map Ok raw) with
  | Ok out => out = rows ++ map (map json_of_sql) (take (max - length rows) raw)
  | Err _ => False
  end.
Proof.
  revert rows. induction raw as [|row raw IH]; intros rows Hm; cbn [collect_rows map].
  - by rewrite take_nil, app_nil_r.
  - destruct (Nat.leb_spec max (length rows)) as [Hl|Hl].
    + replace (max - length rows)%nat with 0%nat by lia. by rewrite take_0, app_nil_r.
    + specialize (IH (rows ++ [map json_of_sql row])). rewrite length_app in IH. cbn [length] in IH.
      specialize (IH ltac:(lia)). destruct (collect_rows _ _ _) as [out|]; [|done]. rewrite IH.
      replace (max - length rows)%nat with (S (max - (length rows + 1)))%nat by lia. cbn. by rewrite <- app_assoc.
Qed.

End Query.
