(* ===== verification/LogReadback.v ===== *)
(** What the reader gives back of what the writer stored: the round trips of the event
    log, over EventLog and LogReader. *)

From Stdlib Require Import ZArith Lia Ascii.
From stdpp Require Import base numbers list gmap strings sorting.
From S2P Require Import Prelude RustStr Utf8 Pricing Events EventLog LogReader.

(** ** Lists *)

(** Elements with the ids AUTOINCREMENT gives them. *)
Fixpoint number_from {A} (i : Z) (l : list A) : list (Z * A) :=
  match l with [] => [] | x :: l => (i, x) :: number_from (i + 1) l end.

Lemma number_from_app {A} i (l1 l2 : list A) :
  number_from i (l1 ++ l2) = number_from i l1 ++ number_from (i + Z.of_nat (length l1)) l2.
Proof.
  revert i. induction l1 as [|x l IH]; intros i; cbn [app number_from length]; [by rewrite Z.add_0_r|].
  rewrite IH. do 3 f_equal. lia.
Qed.

Lemma number_from_length {A} i (l : list A) : length (number_from i l) = length l.
Proof. revert i. induction l; intros i; cbn; auto. Qed.

Lemma number_from_ids {A} i (l : list A) j x : (j, x) ∈ number_from i l -> i <= j.
Proof.
  revert i. induction l as [|y l IH]; intros i; cbn [number_from]; [by intros ?%not_elem_of_nil|].
  intros [[= -> ->]|H]%elem_of_cons; [done|]. apply IH in H. lia.
Qed.

Lemma number_from_map {A B} (f : A -> B) i l :
  number_from i (map f l) = map (fun r => (r.1, f r.2)) (number_from i l).
Proof. revert i. induction l as [|x l IH]; intros i; cbn; [done|]. by rewrite IH. Qed.

(** The rows of one id among rows grouped by increasing ids. *)
Lemma filter_number_from {A B} (f : A -> list B) i l j x :
  (j, x) ∈ number_from i l ->
  List.filter (fun r => r.1 =? j) (flat_map (fun r => map (pair r.1) (f r.2)) (number_from i l))
  = map (pair j) (f x).
Proof.
  assert (forall k (ys : list B), List.filter (fun r => r.1 =? j) (map (pair k) ys)
            = if k =? j then map (pair k) ys else []) as Hf.
  { intros k ys. induction ys as [|y ys IH]; cbn; [by destruct (k =? j)|]. rewrite IH. by destruct (k =? j). }
  assert (forall i l, j < i -> List.filter (fun r => r.1 =? j)
            (flat_map (fun r => map (pair r.1) (f r.2)) (number_from i l)) = []) as Hnone.
  { clear i l. intros i l. revert i. induction l as [|y l IH]; intros i Hi; cbn [number_from flat_map]; [done|].
    rewrite List.filter_app, Hf, IH by lia. cbn. by rewrite (proj2 (Z.eqb_neq _ _)) by lia. }
  revert i. induction l as [|y l IH]; intros i; cbn [number_from flat_map]; [by intros ?%not_elem_of_nil|].
  rewrite List.filter_app, Hf. cbn [fst snd]. intros [[= -> ->]|Hin]%elem_of_cons.
  - rewrite Z.eqb_refl, Hnone by lia. by rewrite app_nil_r.
  - pose proof (number_from_ids _ _ _ _ Hin). rewrite (proj2 (Z.eqb_neq _ _)) by lia. cbn. auto.
Qed.

Lemma filter_insert_by_key {A} (key : A -> Z) p x l :
  StronglySorted (fun a b => key a <= key b) l ->
  List.filter p (insert_by_key key x l) =
  if p x then insert_by_key key x (List.filter p l) else List.filter p l.
Proof.
  induction 1 as [|y l Hs IH Hy]; cbn [insert_by_key List.filter]; [by destruct (p x)|].
  destruct (Z.leb_spec (key x) (key y)) as [Hk|Hk]; cbn [List.filter].
  - destruct (p x) eqn:Ex, (p y) eqn:Ey; cbn; rewrite ?Ex, ?Ey; try done.
    + by rewrite (proj2 (Z.leb_le _ _)).
    + assert (Forall (fun z => key x <= key z) (List.filter p l)) as Hall.
      { rewrite Forall_forall in *. intros z Hz. apply list_elem_of_In, filter_In in Hz as [Hz _].
        apply list_elem_of_In, Hy in Hz. lia. }
      destruct Hall as [|z l' Hz _]; cbn; [done|]. by rewrite (proj2 (Z.leb_le _ _)).
  - rewrite IH. destruct (p x) eqn:Ex, (p y) eqn:Ey; cbn; try done. by rewrite (proj2 (Z.leb_gt _ _)).
Qed.

(** Filtering commutes with a stable sort. *)
Lemma filter_sort_by_key {A} (key : A -> Z) p l :
  List.filter p (sort_by_key key l) = sort_by_key key (List.filter p l).
Proof.
  induction l as [|x l IH]; [done|]. cbn [sort_by_key foldr List.filter].
  rewrite filter_insert_by_key by apply sort_by_key_Sorted. fold (sort_by_key key l). rewrite IH.
  by destruct (p x).
Qed.

Lemma sort_by_key_const {A} (key : A -> Z) k l : Forall (fun x => key x = k) l -> sort_by_key key l = l.
Proof.
  induction 1 as [|x l Hx Hl IH]; [done|]. cbn [sort_by_key foldr]. fold (sort_by_key key l). rewrite IH.
  destruct Hl as [|y l Hy _]; cbn [insert_by_key]; [done|]. by rewrite (proj2 (Z.leb_le _ _)) by lia.
Qed.

Lemma sort_by_key_map {A B} (key : B -> Z) (f : A -> B) l :
  sort_by_key key (map f l) = map f (sort_by_key (fun x => key (f x)) l).
Proof.
  induction l as [|x l IH]; [done|]. cbn [map sort_by_key foldr]. fold (sort_by_key key (map f l)). rewrite IH.
  fold (sort_by_key (fun x => key (f x)) l). generalize (sort_by_key (fun x => key (f x)) l) as m. clear.
  induction m as [|y m IH]; cbn [map insert_by_key]; [done|]. destruct (_ <=? _); cbn; congruence.
Qed.

Lemma group_by_call_lookup {A} (rows : list (Z * A)) i :
  default [] (group_by_call rows !! i) = map snd (List.filter (fun r => r.1 =? i) rows).
Proof.
  unfold group_by_call.
  assert (forall m : gmap Z (list A),
      default [] (fold_left (fun m r => <[r.1 := default [] (m !! r.1) ++ [r.2]]> m) rows m !! i)
            = default [] (m !! i) ++ map snd (List.filter (fun r => r.1 =? i) rows)) as Hg.
  { induction rows as [|[j x] rows IH]; intros m; cbn [fold_left List.filter fst snd].
    - by rewrite app_nil_r.
    - rewrite IH. destruct (Z.eqb_spec j i) as [->|Hne].
      + rewrite lookup_insert_eq. cbn. by rewrite <- app_assoc.
      + by rewrite lookup_insert_ne. }
  by rewrite Hg, lookup_empty.
Qed.

(** ** Rows *)

Section Readback.
Context `{HumantimeRoundtrip, UsageJsonRoundtrip}.

Abbreviation NetEvent := (NetEventOf SystemTime Decision).
Abbreviation McpCall := (McpCallOf SystemTime).
Abbreviation ModelCall := (ModelCallOf SystemTime bool (gmap string Z)).
Abbreviation FileEvent := (FileEventOf SystemTime FileAction).

Definition opt_uN (w : Z) (o : option Z) : Prop := forall z, o = Some z -> in_uN w z.

(** The ranges of the Rust types of an operation's fields. *)
Definition net_event_ok (e : NetEvent) : Prop :=
  in_uN 16 (ne_port e) /\ opt_uN 32 (ne_pid e) /\ opt_uN 16 (ne_status_code e) /\
  in_uN 64 (ne_bytes_sent e) /\ in_uN 64 (ne_bytes_received e) /\ in_uN 64 (ne_duration_ms e).

Definition model_call_ok (m : ModelCall) : Prop :=
  opt_uN 32 (mc_pid m) /\ in_uN 64 (mc_messages_count m) /\ in_uN 64 (mc_tools_count m) /\
  in_uN 64 (mc_request_bytes m) /\ opt_uN 16 (mc_status_code m) /\ opt_uN 64 (mc_input_tokens m) /\
  opt_uN 64 (mc_output_tokens m) /\ in_uN 64 (mc_duration_ms m) /\ in_uN 64 (mc_response_bytes m) /\
  Forall (fun tc => in_uN 32 (tce_call_index tc)) (mc_tool_calls m).

Definition op_ok (op : WriteOp) : Prop :=
  match op with
  | WriteNetEvent e => net_event_ok e
  | WriteModelCall m => model_call_ok m
  | WriteMcpCall m => in_uN 64 (mcp_duration_ms m)
  | WriteFileEvent f => opt_uN 64 (fe_size f)
  end.

(** What is kept of an event: its capped fields are cut, the rest is intact. *)
Definition kept_net_event (e : NetEvent) : NetEvent :=
  {| ne_timestamp := ne_timestamp e; ne_domain := ne_domain e; ne_port := ne_port e;
     ne_decision := ne_decision e; ne_process_name := ne_process_name e; ne_pid := ne_pid e;
     ne_method := ne_method e; ne_path := ne_path e; ne_query := ne_query e;
     ne_status_code := ne_status_code e; ne_bytes_sent := ne_bytes_sent e;
     ne_bytes_received := ne_bytes_received e; ne_duration_ms := ne_duration_ms e;
     ne_matched_rule := ne_matched_rule e; ne_request_headers := capped <$> ne_request_headers e;
     ne_response_headers := capped <$> ne_response_headers e;
     ne_request_body_preview := capped <$> ne_request_body_preview e;
     ne_response_body_preview := capped <$> ne_response_body_preview e; ne_conn_type := ne_conn_type e |}.

Definition kept_model_call (m : ModelCall) (calls : list ToolCallEntry) (resps : list ToolResponseEntry)
  : ModelCall :=
  {| mc_timestamp := mc_timestamp m; mc_provider := mc_provider m; mc_model := mc_model m;
     mc_process_name := mc_process_name m; mc_pid := mc_pid m; mc_method := mc_method m; mc_path := mc_path m;
     mc_stream := mc_stream m; mc_system_prompt_preview := capped <$> mc_system_prompt_preview m;
     mc_messages_count := mc_messages_count m; mc_tools_count := mc_tools_count m;
     mc_request_bytes := mc_request_bytes m; mc_request_body_preview := capped <$> mc_request_body_preview m;
     mc_message_id := mc_message_id m; mc_status_code := mc_status_code m;
     mc_text_content := capped <$> mc_text_content m; mc_thinking_content := capped <$> mc_thinking_content m;
     mc_stop_reason := mc_stop_reason m; mc_input_tokens := mc_input_tokens m;
     mc_output_tokens := mc_output_tokens m; mc_usage_details := mc_usage_details m;
     mc_duration_ms := mc_duration_ms m; mc_response_bytes := mc_response_bytes m;
     mc_estimated_cost_usd := mc_estimated_cost_usd m; mc_trace_id := mc_trace_id m;
     mc_tool_calls := calls; mc_tool_responses := resps |}.

Definition kept_mcp_call (m : McpCall) : McpCall :=
  {| mcp_timestamp := mcp_timestamp m; mcp_server_name := mcp_server_name m; mcp_method := mcp_method m;
     mcp_tool_name := mcp_tool_name m; mcp_request_id := mcp_request_id m;
     mcp_request_preview := capped <$> mcp_request_preview m;
     mcp_response_preview := capped <$> mcp_response_preview m; mcp_decision := mcp_decision m;
     mcp_duration_ms := mcp_duration_ms m; mcp_error_message := mcp_error_message m;
     mcp_process_name := mcp_process_name m |}.

Lemma opt_uN_roundtrip w o : 0 <= w <= 64 -> opt_uN w o -> as_uN w <$> (as_i64 <$> o) = o.
Proof.
  intros Hw Ho. destruct o as [z|]; [|done]. cbn. f_equal. apply as_i64_roundtrip; [done|]. by apply Ho.
Qed.

Lemma read_timestamp_format t : read_timestamp (format_rfc3339 t) = t.
Proof. unfold read_timestamp. by rewrite rfc3339_roundtrip. Qed.

Lemma Decision_roundtrip d : Decision_parse_str (Decision_as_str d) = d.
Proof. by destruct d. Qed.

Lemma FileAction_roundtrip a : FileAction_parse_str (FileAction_as_str a) = a.
Proof. by destruct a. Qed.

Lemma bind_net_event_read e row :
  net_event_ok e -> bind_net_event e = Some row -> read_net_event_row row = kept_net_event e.
Proof.
  intros (? & ? & ? & ? & ? & ?). unfold bind_net_event. rewrite !cap_field_total. cbn. intros [= <-].
  unfold read_net_event_row, kept_net_event. cbn.
  by rewrite read_timestamp_format, Decision_roundtrip, !opt_uN_roundtrip, !as_i64_roundtrip by (done || lia).
Qed.

Lemma bind_mcp_call_read m row :
  in_uN 64 (mcp_duration_ms m) -> bind_mcp_call m = Some row -> read_mcp_call_row row = kept_mcp_call m.
Proof.
  intros ?. unfold bind_mcp_call. rewrite !cap_field_total. cbn. intros [= <-].
  unfold read_mcp_call_row, kept_mcp_call. cbn.
  by rewrite read_timestamp_format, as_i64_roundtrip by (done || lia).
Qed.

Lemma bind_file_event_read f : opt_uN 64 (fe_size f) -> read_file_event_row (bind_file_event f) = f.
Proof.
  intros. unfold read_file_event_row, bind_file_event. cbn.
  rewrite read_timestamp_format, FileAction_roundtrip, opt_uN_roundtrip by (done || lia). by destruct f.
Qed.

Lemma bind_model_call_read m row :
  model_call_ok m -> bind_model_call m = Some row -> read_model_call_row row = kept_model_call m [] [].
Proof.
  intros (? & ? & ? & ? & ? & ? & ? & ? & ? & _). unfold bind_model_call. rewrite !cap_field_total. cbn.
  intros [= <-]. unfold read_model_call_row, kept_model_call. cbn.
  rewrite read_timestamp_format, !opt_uN_roundtrip, !as_i64_roundtrip by (done || lia). f_equal.
  - by destruct (mc_stream m).
  - case_decide as Hu; [by rewrite Hu|]. cbn. by rewrite usage_roundtrip.
Qed.

Lemma bind_tool_call_read tc : in_uN 32 (tce_call_index tc) -> read_tool_call (bind_tool_call tc) = tc.
Proof.
  intros. unfold read_tool_call, bind_tool_call. cbn. rewrite as_i64_roundtrip by (done || lia). by destruct tc.
Qed.

(** ** The tables after a run of operations *)

Definition net_of (op : WriteOp) : option NetEvent := match op with WriteNetEvent e => Some e | _ => None end.
Definition model_of (op : WriteOp) : option ModelCall := match op with WriteModelCall m => Some m | _ => None end.
Definition mcp_of (op : WriteOp) : option McpCall := match op with WriteMcpCall m => Some m | _ => None end.
Definition file_of (op : WriteOp) : option FileEvent := match op with WriteFileEvent f => Some f | _ => None end.

Lemma fold_tool_calls id calls d :
  foldl (fun d tc => add_tool_call id (bind_tool_call tc) d) d calls =
  Build_Db (net_events d) (model_calls d) (tool_calls d ++ map (pair id) (map bind_tool_call calls))
    (tool_responses d) (mcp_calls d) (fs_events d).
Proof.
  revert d. induction calls as [|tc calls IH]; intros d; cbn [foldl map].
  - rewrite app_nil_r. by destruct d.
  - rewrite IH. cbn. by rewrite <- app_assoc.
Qed.

Lemma fold_tool_responses id resps d :
  foldl (fun d tr => add_tool_response id tr d) d resps =
  Build_Db (net_events d) (model_calls d) (tool_calls d) (tool_responses d ++ map (pair id) resps)
    (mcp_calls d) (fs_events d).
Proof.
  revert d. induction resps as [|tr resps IH]; intros d; cbn [foldl map].
  - rewrite app_nil_r. by destruct d.
  - rewrite IH. cbn. by rewrite <- app_assoc.
Qed.

(** The tables hold the operations, numbered in order. *)
Record holds (ops : list WriteOp) (d : Db) : Prop := {
  holds_net : exists rows, Forall2 (fun e row => bind_net_event e = Some row) (omap net_of ops) rows /\
                           net_events d = number_from 1 rows;
  holds_model : exists rows, Forall2 (fun m row => bind_model_call m = Some row) (omap model_of ops) rows /\
                             model_calls d = number_from 1 rows;
  holds_tools : tool_calls d = flat_map (fun r => map (pair r.1) (map bind_tool_call (mc_tool_calls r.2)))
                                 (number_from 1 (omap model_of ops));
  holds_resps : tool_responses d = flat_map (fun r => map (pair r.1) (mc_tool_responses r.2))
                                     (number_from 1 (omap model_of ops));
  holds_mcp : exists rows, Forall2 (fun m row => bind_mcp_call m = Some row) (omap mcp_of ops) rows /\
                           mcp_calls d = number_from 1 rows;
  holds_fs : fs_events d = number_from 1 (map bind_file_event (omap file_of ops));
}.

Lemma next_id_number {A} (rows : list A) : next_id (number_from 1 rows) = 1 + Z.of_nat (length rows).
Proof. unfold next_id. by rewrite number_from_length. Qed.

Lemma number_snoc {A} (rows : list A) x :
  number_from 1 rows ++ [(next_id (number_from 1 rows), x)] = number_from 1 (rows ++ [x]).
Proof. by rewrite number_from_app, next_id_number. Qed.

Lemma Forall2_snoc {A B} (P : A -> B -> Prop) l k x y :
  Forall2 P l k -> P x y -> Forall2 P (l ++ [x]) (k ++ [y]).
Proof. intros. apply Forall2_app; [done|]. by constructor. Qed.

Lemma holds_step ops d op : holds ops d -> holds (ops ++ [op]) (apply_op op d).
Proof.
  intros [(nr & Hn & En) (mr & Hm & Em) Et Er (cr & Hc & Ec) Ef].
  destruct op as [e|m|m|f]; cbn [apply_op].
  - destruct (bind_net_event_total e) as [row E]. rewrite E.
    constructor; rewrite ?omap_app; cbn; rewrite ?app_nil_r; eauto.
    exists (nr ++ [row]). split; [by apply Forall2_snoc|]. rewrite En. apply number_snoc.
  - destruct (bind_model_call_total m) as [row E]. rewrite E. unfold add_model_op.
    rewrite fold_tool_calls, fold_tool_responses.
    assert (next_id (model_calls d) = 1 + Z.of_nat (length (omap model_of ops))) as Hid.
    { rewrite Em, next_id_number. by rewrite (Forall2_length _ _ _ Hm). }
    constructor; rewrite ?omap_app; cbn; rewrite ?app_nil_r; eauto.
    + exists (mr ++ [row]). split; [by apply Forall2_snoc|]. rewrite Em. apply number_snoc.
    + rewrite number_from_app, flat_map_app, <- Et, Hid. cbn. by rewrite app_nil_r.
    + rewrite number_from_app, flat_map_app, <- Er, Hid. cbn. by rewrite app_nil_r.
  - destruct (bind_mcp_call_total m) as [row E]. rewrite E.
    constructor; rewrite ?omap_app; cbn; rewrite ?app_nil_r; eauto.
    exists (cr ++ [row]). split; [by apply Forall2_snoc|]. rewrite Ec. apply number_snoc.
  - constructor; rewrite ?omap_app; cbn; rewrite ?app_nil_r; eauto.
    rewrite map_app, Ef. apply number_snoc.
Qed.

Lemma holds_ops ops : holds ops (apply_ops ops Db_empty).
Proof.
  induction ops as [|op ops IH] using rev_ind.
  - constructor; try done; by exists [].
  - unfold apply_ops. rewrite foldl_app. by apply holds_step.
Qed.

Lemma map_newest {A B} (f : A -> B) limit l : map f (newest limit l) = newest limit (map f l).
Proof.
  unfold newest, sql_limit. rewrite <- map_rev. destruct (_ <? 0); [done|]. by rewrite firstn_map.
Qed.

Lemma read_rows {A B C} (bind : A -> option B) (read : B -> C) (kept : A -> C) l rows :
  Forall (fun x => forall row, bind x = Some row -> read row = kept x) l ->
  Forall2 (fun x row => bind x = Some row) l rows ->
  map (fun r => read r.2) (number_from 1 rows) = map kept l.
Proof.
  intros Hl Hrows. generalize 1 as i. induction Hrows as [|x row l rows Hx _ IH]; intros i; [done|].
  apply Forall_cons in Hl as [Hb Hl]. cbn [number_from map]. rewrite IH by done. f_equal. by apply Hb.
Qed.

Lemma Forall_omap_of {A} (pick : WriteOp -> option A) (P : A -> Prop) ops :
  Forall op_ok ops -> (forall op x, pick op = Some x -> op_ok op -> P x) -> Forall P (omap pick ops).
Proof.
  intros Hops HP. apply Forall_forall. intros x (op & Hin & Hx)%list_elem_of_omap.
  eapply HP; [done|]. exact (proj1 (Forall_forall _ _) Hops _ Hin).
Qed.

(** The database a writer with no faults leaves, from an empty one. *)
Definition written (ready : nat -> nat) (queue : list WriteOp) : option Db :=
  db <$> writer_loop (fun _ => None) (length queue) ready 0 queue {| db := Db_empty; statements := 0 |}.

Lemma written_apply ready queue : written ready queue = Some (apply_ops queue Db_empty).
Proof.
  unfold written. destruct (writer_stores_all (fun _ => None) ready queue
    {| db := Db_empty; statements := 0 |}) as (c' & -> & Hd); [done|]. cbn. by rewrite Hd.
Qed.

Lemma file_events_readback (queue : list WriteOp) (limit : Z) :
  Forall op_ok queue -> recent_file_events (apply_ops queue Db_empty) limit = newest limit (omap file_of queue).
Proof.
  intros Hok. destruct (holds_ops queue) as [_ _ _ _ _ Ef]. unfold recent_file_events. rewrite map_newest, Ef. f_equal.
  pose proof (Forall_omap_of file_of (fun f => opt_uN 64 (fe_size f)) queue Hok) as Hf.
  assert (Forall (fun f => opt_uN 64 (fe_size f)) (omap file_of queue)) as Hall
    by (apply Hf; by intros [] f' [= <-]).
  clear Ef Hf. generalize 1 as i. induction Hall as [|f l Hfo _ IH]; intros i; cbn; [done|].
  rewrite IH. f_equal. by apply bind_file_event_read.
Qed.

(** C31: What the writer thread stored is what the reader returns: the most recent network
    events, tool calls and file events are the last ones sent, newest first, every field
    intact but for the cap on long texts. *)
Theorem events_readback (ready : nat -> nat) (queue : list WriteOp) (limit : Z) (d : Db) :
  Forall op_ok queue -> written ready queue = Some d ->
  recent_net_events d limit = newest limit (map kept_net_event (omap net_of queue)) /\
  recent_mcp_calls d limit = newest limit (map kept_mcp_call (omap mcp_of queue)) /\
  recent_file_events d limit = newest limit (omap file_of queue).
Proof.
  intros Hok Hd. rewrite written_apply in Hd. injection Hd as <-.
  destruct (holds_ops queue) as [(nr & Hn & En) _ _ _ (cr & Hc & Ec) _].
  split; [|split; [|by apply file_events_readback]]; unfold recent_net_events, recent_mcp_calls;
    rewrite map_newest, ?En, ?Ec; f_equal.
  - eapply read_rows, Hn. apply (Forall_omap_of net_of _ queue Hok). intros [] e' [= <-] He row Hr.
    by apply bind_net_event_read.
  - eapply read_rows, Hc. apply (Forall_omap_of mcp_of _ queue Hok). intros [] e' [= <-] He row Hr.
    by apply bind_mcp_call_read.
Qed.

(** ** Traces *)

Lemma attach_tools_map calls resps rows :
  NoDup (map fst rows) ->
  attach_tools calls resps rows =
  map (fun r => {| tmc_id := r.1; tmc_call := with_tools r.2 (default [] (calls !! r.1)) (default [] (resps !! r.1)) |})
    rows.
Proof.
  revert calls resps. induction rows as [|[id call] rows IH]; intros calls resps; cbn [map attach_tools fst snd]; [done|].
  intros [Hid Hnd]%NoDup_cons. f_equal. rewrite IH by done. apply map_ext_in. intros [j c] Hj.
  assert (id <> j) as Hne by (intros ->; apply Hid, list_elem_of_In, in_map_iff; by exists (j, c)).
  cbn. by rewrite !lookup_delete_ne.
Qed.

(** The rows of one call of the trace, out of the join. *)
Lemma join_calls_of {A} d p (rows : list (Z * A)) i row :
  List.filter (fun mc => (mc.1 =? i) && p mc.2) (model_calls d) = [(i, row)] ->
  List.filter (fun r => r.1 =? i) (map fst (join_calls d p rows)) = List.filter (fun r => r.1 =? i) rows.
Proof.
  intros Hi. unfold join_calls. induction rows as [|[j x] rows IH]; cbn [flat_map map List.filter fst]; [done|].
  rewrite map_app, List.filter_app, IH, map_map. cbn [fst].
  destruct (Z.eqb_spec j i) as [->|Hne].
  - rewrite Hi. cbn. by rewrite Z.eqb_refl.
  - match goal with |- List.filter _ (map _ ?l) ++ _ = _ => generalize l as l0 end. intros l0.
    induction l0 as [|y l0 IHl]; cbn [map List.filter fst app]; [done|].
    rewrite (proj2 (Z.eqb_neq _ _)) by done. exact IHl.
Qed.

Lemma number_from_fst {A B} i (l : list A) (k : list B) :
  length l = length k -> map fst (number_from i l) = map fst (number_from i k).
Proof.
  revert i k. induction l as [|x l IH]; intros i [|y k]; cbn; try done. intros [= H3]. by rewrite (IH (i + 1) k).
Qed.

Lemma number_from_NoDup {A} i (l : list A) : NoDup (map fst (number_from i l)).
Proof.
  revert i. induction l as [|x l IH]; intros i; cbn; constructor; [|apply IH].
  intros ([j y] & -> & Hj)%list_elem_of_fmap. apply number_from_ids in Hj. cbn in Hj. lia.
Qed.

Lemma filter_unique {A} (l : list (Z * A)) i x p :
  NoDup (map fst l) -> (i, x) ∈ l -> p x = true ->
  List.filter (fun mc => (mc.1 =? i) && p mc.2) l = [(i, x)].
Proof.
  induction l as [|[j y] l IH]; cbn [map List.filter fst snd]; [by intros _ ?%not_elem_of_nil|].
  intros [Hj Hnd]%NoDup_cons Hin Hp. apply elem_of_cons in Hin as [[= -> ->]|Hin].
  - rewrite Z.eqb_refl, Hp. cbn. f_equal. clear -Hj. induction l as [|[k z] l IH]; cbn [map List.filter fst] in *; [done|]. apply not_elem_of_cons in Hj as [Hne Hj]. rewrite (proj2 (Z.eqb_neq _ _)) by done. auto.
  - rewrite (proj2 (Z.eqb_neq _ _)); [auto|]. intros ->. apply Hj, list_elem_of_fmap. by exists (i, x).
Qed.

(** The calls of a trace as [trace_detail] should give them, from the calls sent. *)
Definition trace_calls (trace_id : string) (ms : list ModelCall) : list TraceModelCall :=
  map (fun r => {| tmc_id := r.1;
                   tmc_call := kept_model_call r.2 (sort_by_key tce_call_index (mc_tool_calls r.2))
                                 (mc_tool_responses r.2) |})
    (List.filter (fun r => bool_decide (mc_trace_id r.2 = Some trace_id)) (number_from 1 ms)).

Lemma bind_model_call_trace m row : bind_model_call m = Some row -> mc_trace_id row = mc_trace_id m.
Proof. unfold bind_model_call. rewrite !cap_field_total. cbn. by intros [= <-]. Qed.

Lemma read_filtered_rows trace_id (f : Z * ModelCall -> TraceModelCall) (g : Z * ModelCall -> TraceModelCall) i ms rows :
  Forall2 (fun m row => bind_model_call m = Some row) ms rows ->
  (forall j m row, (j, m) ∈ number_from i ms -> (j, row) ∈ number_from i rows -> bind_model_call m = Some row ->
     mc_trace_id m = Some trace_id -> f (j, read_model_call_row row) = g (j, m)) ->
  map f (map (fun r => (r.1, read_model_call_row r.2)) (List.filter (fun r => in_trace trace_id r.2) (number_from i rows)))
  = map g (List.filter (fun r => bool_decide (mc_trace_id r.2 = Some trace_id)) (number_from i ms)).
Proof.
  intros Hrows. revert i. induction Hrows as [|m row ms rows Hm _ IH]; intros i Hfg; [done|].
  cbn [number_from List.filter fst snd]. unfold in_trace at 1. rewrite (bind_model_call_trace _ _ Hm).
  case_bool_decide as Ht; cbn [map fst snd]; [rewrite (Hfg i m row) by (done || left)|].
  all: rewrite IH; [done|]; intros j m' row' Hj1 Hj2; apply Hfg; by right.
Qed.

Lemma filter_map_snd {A B} (f : A -> B) j (l : list (Z * A)) :
  List.filter (fun r => r.1 =? j) (map (fun r => (r.1, f r.2)) l)
  = map (fun r => (r.1, f r.2)) (List.filter (fun r => r.1 =? j) l).
Proof. induction l as [|[i x] l IH]; cbn [map List.filter fst]; [done|]. rewrite IH. by destruct (i =? j). Qed.

Lemma tool_call_small tc : in_uN 32 (tce_call_index tc) -> bind_tool_call tc = tc /\ read_tool_call tc = tc.
Proof.
  intros Hi. unfold bind_tool_call, read_tool_call, as_i64. rewrite (as_uN_small 32) by done.
  unfold in_uN in Hi. rewrite Z.mod_small by lia. replace (tce_call_index tc + 2 ^ 63 - 2 ^ 63)
    with (tce_call_index tc) by lia. by destruct tc.
Qed.

Lemma sort_tool_calls_read j tcs :
  Forall (fun tc => in_uN 32 (tce_call_index tc)) tcs ->
  map snd (map (fun r => (r.1, read_tool_call r.2))
    (sort_by_key fst (sort_by_key (fun r => tce_call_index r.2) (map (pair j) (map bind_tool_call tcs)))))
  = sort_by_key tce_call_index tcs.
Proof.
  intros Hok. replace (map bind_tool_call tcs) with tcs.
  2: { clear -Hok. induction Hok as [|tc tcs Hi _ IH]; cbn; [done|]. by rewrite (proj1 (tool_call_small tc Hi)), <- IH. }
  rewrite sort_by_key_map. cbn [snd]. change (fun x => tce_call_index x) with tce_call_index.
  rewrite (sort_by_key_const fst j) by (apply Forall_fmap, Forall_true; done).
  rewrite !map_map. cbn [fst snd]. rewrite <- (map_id (sort_by_key _ _)) at 2. apply map_ext_in.
  intros tc Hin%list_elem_of_In. rewrite sort_by_key_Permutation in Hin. rewrite Forall_forall in Hok.
  by apply tool_call_small, Hok.
Qed.

(** The detail of a trace is exactly the model calls sent with its id, in order, each
    with the tool calls it made, by index, and the tool results it carried, however the
    rows of several traces interleave in the log. *)
Theorem trace_readback (ready : nat -> nat) (queue : list WriteOp) (trace_id : string) (d : Db) :
  Forall op_ok queue -> written ready queue = Some d ->
  trace_detail d trace_id = {| td_trace_id := trace_id; td_calls := trace_calls trace_id (omap model_of queue) |}.
Proof.
  intros Hok Hd. rewrite written_apply in Hd. injection Hd as <-.
  pose proof (holds_ops queue) as [_ (mr & Hm & Em) Et Er _ _]. set (d := apply_ops queue Db_empty) in *.
  set (ms := omap model_of queue) in *.
  assert (Forall model_call_ok ms) as Hms by (apply (Forall_omap_of model_of _ queue Hok); by intros [] m' [= <-]).
  unfold trace_detail. f_equal.
  assert (NoDup (map fst (model_calls d))) as Hnd by (rewrite Em; apply number_from_NoDup).
  rewrite attach_tools_map.
  2: { rewrite map_map. cbn [fst]. clear -Hnd. induction (model_calls d) as [|[i r] l IH]; cbn in *; [constructor|].
       apply NoDup_cons in Hnd as [Hi Hnd]. destruct (in_trace trace_id r); cbn; [constructor|]; auto.
       intros Hin. apply Hi. clear -Hin. induction l as [|[j x] l IH]; cbn in *; [done|].
       destruct (in_trace trace_id x); cbn in Hin; [|right; auto].
       apply elem_of_cons in Hin as [->|]; [left|right; auto]. }
  rewrite Em. apply read_filtered_rows; [done|]. intros j m row Hj Hjr Hrow Ht. cbn [fst snd].
  rewrite <- Em in Hjr.
  assert (List.filter (fun mc => (mc.1 =? j) && in_trace trace_id mc.2) (model_calls d) = [(j, row)]) as Hu.
  { apply filter_unique; [done|done|]. unfold in_trace. rewrite (bind_model_call_trace _ _ Hrow).
    by apply bool_decide_eq_true. }
  assert (model_call_ok m) as Hmok.
  { rewrite Forall_forall in Hms. apply Hms. clear -Hj. revert Hj. generalize 1 as i.
    induction ms as [|x l IH]; intros i; cbn; [by intros ?%not_elem_of_nil|].
    intros [[= -> ->]|Hj]%elem_of_cons; [left|right; by apply (IH (i + 1))]. }
  rewrite !group_by_call_lookup.
  rewrite (join_calls_of _ _ _ _ _ Hu), Er, filter_number_from with (x := m) by done.
  f_equal. rewrite (bind_model_call_read m row Hmok Hrow).
  unfold with_tools, kept_model_call. cbn. f_equal.
  - rewrite filter_map_snd, !filter_sort_by_key, (join_calls_of _ _ _ _ _ Hu), Et.
    rewrite (filter_number_from (fun m => map bind_tool_call (mc_tool_calls m))) with (x := m) by done.
    destruct Hmok as (_ & _ & _ & _ & _ & _ & _ & _ & _ & Htc). apply sort_tool_calls_read, Htc.
  - rewrite map_map. apply map_id.
Qed.

End Readback.

(** ** Concrete runs *)

(** Usage details by their countable encoding. *)
Definition countable_usage : UsageJson :=
  {| usage_to_string := fun m => show_bits (encode m); usage_from_string := fun s => read_bits s ≫= decode |}.

Lemma countable_usage_roundtrip : @UsageJsonRoundtrip countable_usage.
Proof. intros m. cbn. rewrite read_show_bits. cbn. apply decode_encode. Qed.

#[local] Existing Instances text_time text_time_roundtrip countable_usage countable_usage_roundtrip.

Definition demo_net (domain : string) (d : Decision) : NetEventOf SystemTime Decision :=
  {| ne_timestamp := "2026-01-01T00:00:00Z"; ne_domain := domain; ne_port := 443; ne_decision := d;
     ne_process_name := Some "curl"; ne_pid := None; ne_method := Some "GET"; ne_path := Some "/";
     ne_query := None; ne_status_code := Some 200; ne_bytes_sent := 10; ne_bytes_received := 2 ^ 63;
     ne_duration_ms := 5; ne_matched_rule := None; ne_request_headers := None; ne_response_headers := None;
     ne_request_body_preview := None; ne_response_body_preview := None; ne_conn_type := Some "https-mitm" |}.

Definition demo_tool (index : Z) (id : string) : ToolCallEntry :=
  {| tce_call_index := index; tce_call_id := id; tce_tool_name := "bash"; tce_arguments := None;
     tce_origin := "native" |}.

Definition demo_call (trace : string) (tools : list ToolCallEntry) : ModelCallOf SystemTime bool (gmap string Z) :=
  {| mc_timestamp := "2026-01-01T00:00:01Z"; mc_provider := "anthropic"; mc_model := Some "m";
     mc_process_name := None; mc_pid := Some 7; mc_method := "POST"; mc_path := "/v1/messages"; mc_stream := true;
     mc_system_prompt_preview := None; mc_messages_count := 1; mc_tools_count := 2; mc_request_bytes := 100;
     mc_request_body_preview := None; mc_message_id := None; mc_status_code := Some 200;
     mc_text_content := Some "hi"; mc_thinking_content := None; mc_stop_reason := None;
     mc_input_tokens := Some 3; mc_output_tokens := None; mc_usage_details := {["cache_read" := 9]};
     mc_duration_ms := 12; mc_response_bytes := 50; mc_estimated_cost_usd := f64_zero;
     mc_trace_id := Some trace; mc_tool_calls := tools; mc_tool_responses := [] |}.

(** Two traces whose calls alternate; the first call's tools come out of order. *)
Definition demo_queue : list WriteOp :=
  [WriteModelCall (demo_call "t1" [demo_tool 1 "b"; demo_tool 0 "a"]); WriteNetEvent (demo_net "x.com" Allowed);
   WriteModelCall (demo_call "t2" [demo_tool 0 "c"]); WriteNetEvent (demo_net "y.com" Denied);
   WriteModelCall (demo_call "t1" [])].

Lemma demo_queue_ok : Forall op_ok demo_queue.
Proof.
  assert (forall tools, Forall (fun tc => in_uN 32 (tce_call_index tc)) tools ->
    forall t, model_call_ok (demo_call t tools)) as Hm.
  { intros tools Ht t. unfold model_call_ok, opt_uN, in_uN. cbn. repeat split; try lia; try done.
    all: intros; simplify_eq; lia. }
  assert (forall dom d, net_event_ok (demo_net dom d)) as Hn.
  { intros dom d. unfold net_event_ok, opt_uN, in_uN. cbn. repeat split; try lia.
    all: intros; simplify_eq; lia. }
  repeat (apply Forall_cons; split); try apply Hn; try apply Hm; try by apply Forall_nil.
  all: repeat (apply Forall_cons; split); try (unfold in_uN; cbn; lia); by apply Forall_nil.
Qed.

Lemma events_readback_witness : exists d, written (fun _ => 1%nat) demo_queue = Some d /\
  recent_net_events d 1 = [demo_net "y.com" Denied].
Proof.
  exists (apply_ops demo_queue Db_empty). split; [apply written_apply|].
  destruct (events_readback (fun _ => 1%nat) demo_queue 1 (apply_ops demo_queue Db_empty)
    demo_queue_ok (written_apply _ _)) as [-> _]. reflexivity.
Defined.

Lemma trace_readback_witness : exists d, written (fun _ => 1%nat) demo_queue = Some d /\
  td_calls (trace_detail d "t1") = trace_calls "t1" [demo_call "t1" [demo_tool 1 "b"; demo_tool 0 "a"];
    demo_call "t2" [demo_tool 0 "c"]; demo_call "t1" []].
Proof.
  exists (apply_ops demo_queue Db_empty). split; [apply written_apply|].
  rewrite (trace_readback (fun _ => 1%nat) demo_queue "t1" (apply_ops demo_queue Db_empty)
    demo_queue_ok (written_apply _ _)). reflexivity.
Defined.

Example demo_trace_ids :
  map (fun c => (tmc_id c, map tce_call_id (mc_tool_calls (tmc_call c))))
    (trace_calls "t1" (omap model_of demo_queue)) = [(1, ["a"; "b"]); (3, [])].
Proof. vm_compute. reflexivity. Qed.
