(* ===== verification/McpTypes.v ===== *)
(** MCP data types and name spaces: crates/clawcage-core/src/mcp/types.rs, and the
    per-tool policy: crates/clawcage-core/src/mcp/policy.rs. *)

From Stdlib Require Import ZArith Lia Ascii.
From stdpp Require Import base numbers list gmap strings.
From S2P Require Import Prelude RustStr Events.

Definition NS_SEP : string := "__".

Record McpServerDef := {
  sd_name : string;
  sd_command : string;
  sd_args : list string;
  sd_env : list (string * string);
  sd_enabled : bool;
  sd_source : string;
}.

#[export] Instance McpServerDef_eq_dec : EqDecision McpServerDef.
Proof. solve_decision. Defined.

Section Types.
Context `{SerdeJson}.

Record McpToolDef := {
  td_namespaced_name : string;
  td_original_name : string;
  td_description : option string;
  input_schema : Value;
  td_server_name : string;
}.

Record McpResourceDef := {
  namespaced_uri : string;
  original_uri : string;
  rd_name : option string;
  rd_description : option string;
  mime_type : option string;
  rd_server_name : string;
}.

Record McpPromptDef := {
  pd_namespaced_name : string;
  pd_original_name : string;
  pd_description : option string;
  pd_arguments : list Value;
  pd_server_name : string;
}.

(** ** JSON-RPC 2.0 *)

Record JsonRpcRequest := {
  rq_jsonrpc : string;
  rq_id : option Value;
  rq_method : string;
  rq_params : option Value;
}.

Record JsonRpcError := { code : Z; er_message : string; er_data : option Value }.

Record JsonRpcResponse := {
  rs_jsonrpc : string;
  rs_id : option Value;
  rs_result : option Value;
  rs_error : option JsonRpcError;
}.

Definition JsonRpcResponse_ok (id : option Value) (result : Value) : JsonRpcResponse :=
  {| rs_jsonrpc := "2.0"; rs_id := id; rs_result := Some result; rs_error := None |}.

Definition JsonRpcResponse_err (id : option Value) (c : Z) (message : string) : JsonRpcResponse :=
  {| rs_jsonrpc := "2.0"; rs_id := id; rs_result := None;
     rs_error := Some {| code := c; er_message := message; er_data := None |} |}.

End Types.

(** ** Name spaces *)

Definition namespace_name (server name : string) : string := server +:+ NS_SEP +:+ name.

Definition parse_namespaced (namespaced : string) : option (string * string) :=
  match find_str NS_SEP namespaced with
  | Some pos => Some (stake pos namespaced, sdrop (pos + String.length NS_SEP) namespaced)
  | None => None
  end.

Definition namespace_resource_uri (server uri : string) : string :=
  "clawcage://" +:+ server +:+ "/" +:+ uri.

Definition parse_resource_uri (namespaced : string) : option (string * string) :=
  match strip_prefix "clawcage://" namespaced with
  | Some rest =>
      match find_char "/" rest with
      | Some slash_pos => Some (stake slash_pos rest, sdrop (slash_pos + 1) rest)
      | None => None
      end
  | None => None
  end.

(** ** Policy *)

Inductive ToolDecision := ToolAllow | ToolWarn | ToolBlock.

#[export] Instance ToolDecision_eq_dec : EqDecision ToolDecision.
Proof. solve_decision. Defined.

Definition ToolDecision_as_str (d : ToolDecision) : string :=
  match d with ToolAllow => "allow" | ToolWarn => "warn" | ToolBlock => "block" end.

Definition ToolDecision_parse_str (s : string) : ToolDecision :=
  if bool_decide (s = "allow") then ToolAllow
  else if bool_decide (s = "warn") then ToolWarn
  else if bool_decide (s = "block") then ToolBlock
  else ToolAllow.

Definition to_log_decision (d : ToolDecision) : string :=
  match d with ToolAllow => "allowed" | ToolWarn => "warned" | ToolBlock => "denied" end.

Record McpPolicy := {
  blocked_servers : list string;
  allowed_servers : list string;
  tool_decisions : gmap string ToolDecision;
  default_tool_decision : ToolDecision;
}.

Definition McpPolicy_new : McpPolicy :=
  {| blocked_servers := []; allowed_servers := []; tool_decisions := ∅;
     default_tool_decision := ToolAllow |}.

Definition McpPolicy_evaluate (self : McpPolicy) (server : string) (tool : option string) : ToolDecision :=
  if existsb (fun s => bool_decide (s = server)) (blocked_servers self) then ToolBlock
  else if negb (match allowed_servers self with [] => true | _ => false end)
          && negb (existsb (fun s => bool_decide (s = server)) (allowed_servers self)) then ToolBlock
  else
    match tool ≫= fun t => tool_decisions self !! t with
    | Some decision => decision
    | None => default_tool_decision self
    end.

(** ** Lemmas *)

Lemma stake_full (a b : string) : stake (String.length a) (a +:+ b) = a.
Proof. apply stake_app. Qed.

Lemma find_char_app c a b :
  contains_char a c = false -> find_char c (a +:+ String c b) = Some (String.length a).
Proof.
  unfold contains_char. induction a as [|x a IH]; simpl.
  - intros _. by rewrite bool_decide_true.
  - destruct (bool_decide (x = c)); [done|]. destruct (find_char c a); [done|].
    intros _. by rewrite IH.
Qed.

Lemma parse_namespaced_find s n :
  parse_namespaced (namespace_name s n) = Some (s, n) <->
  find_str NS_SEP (namespace_name s n) = Some (String.length s).
Proof.
  unfold parse_namespaced. split.
  - destruct (find_str NS_SEP (namespace_name s n)) as [pos|] eqn:E; [|done]. intros [= Hs _].
    apply find_str_Some in E as (a & b & Hab & <-). rewrite Hab, stake_app in Hs. by rewrite Hs.
  - intros ->. unfold namespace_name. rewrite stake_app. do 2 f_equal.
    rewrite sapp_assoc. rewrite <- slength_app, sdrop_app. done.
Qed.

(** The separator is found at the end of the server name when it does not start
    earlier. *)
Lemma find_sep s n :
  find_str NS_SEP (namespace_name s n) = Some (String.length s) <->
  str_contains (s +:+ "_") NS_SEP = false.
Proof.
  unfold NS_SEP, namespace_name. split.
  - intros Hf. apply not_true_iff_false. intros (a & b & Hab)%str_contains_spec.
    assert (String.length s <= String.length a)%nat as Hle.
    { eapply (find_str_first _ _ _ a (b +:+ "_" +:+ n)); [exact Hf|].
      unfold NS_SEP. change ("__" +:+ n) with ("_" +:+ "_" +:+ n).
      rewrite (sapp_assoc s), Hab, !sapp_assoc. done. }
    apply (f_equal String.length) in Hab. rewrite !slength_app in Hab. simpl in Hab. lia.
  - intros Hno. destruct (find_str "__" (s +:+ NS_SEP +:+ n)) as [m|] eqn:E.
    + pose proof (find_str_first _ _ _ s n E eq_refl) as Hle.
      apply find_str_Some in E as (a & b & Hab & <-). f_equal.
      symmetry in Hab. destruct (sapp_eq_app _ _ _ _ Hab) as (e & [[-> He]|[-> He]]).
      { rewrite slength_app in Hle. rewrite (slength_0 e) by lia. by rewrite sapp_nil_r. }
      destruct e as [|c e]; [by rewrite sapp_nil_r|]. exfalso. apply not_true_iff_false in Hno.
      apply Hno, str_contains_spec. exists a. rewrite <- sapp_assoc.
      cbn in He. injection He as <- He. destruct e as [|c e].
      * by exists "".
      * cbn in He. injection He as <- He. by exists (e +:+ "_").
    + exfalso. eapply find_str_None in E. by apply E.
Qed.

Lemma parse_resource_uri_slash (server uri : string) :
  parse_resource_uri (namespace_resource_uri server uri) = Some (server, uri) <->
  contains_char server "/" = false.
Proof.
  unfold parse_resource_uri, namespace_resource_uri. rewrite strip_prefix_app. split.
  - destruct (find_char "/" (server +:+ "/" +:+ uri)) as [m|] eqn:E; [|done].
    intros [= Hs _]. apply find_char_Some in E as (a & b & Hab & <- & Ha).
    rewrite Hab, stake_app in Hs. by subst.
  - intros Hs. change ("/" +:+ uri) with (String "/" uri). rewrite find_char_app by done.
    rewrite stake_app. change (String "/" uri) with ("/" +:+ uri). rewrite sapp_assoc.
    replace (String.length server + 1)%nat with (String.length (server +:+ "/"))
      by (rewrite slength_app; done).
    by rewrite sdrop_app.
Qed.

(** ** Properties *)

(** A tool name the manager builds from a server and a tool is routed back to
    exactly that server and tool when, and only when, no separator starts inside
    the server name: the name contains no [__] and does not end in [_]; the tool
    name is unrestricted. *)
Theorem namespace_roundtrip (server name : string) :
  parse_namespaced (namespace_name server name) = Some (server, name) <->
  str_contains (server +:+ "_") NS_SEP = false.
Proof. rewrite parse_namespaced_find. apply find_sep. Qed.

(** Resource URIs are routed back to their server exactly when the server name
    has no slash. *)
Theorem resource_uri_roundtrip (server uri : string) :
  parse_resource_uri (namespace_resource_uri server uri) = Some (server, uri) <->
  contains_char server "/" = false.
Proof. apply parse_resource_uri_slash. Qed.

(** The policy blocks a tool exactly when its server is on the block list, or
    an allow list exists without it, or the tool's own decision (the default when
    it has none) is to block; otherwise that decision stands. *)
Theorem policy_decision (self : McpPolicy) (server tool : string) :
  let own := default (default_tool_decision self) (tool_decisions self !! tool) in
  let server_blocked := server ∈ blocked_servers self \/
                        (allowed_servers self <> [] /\ server ∉ allowed_servers self) in
  (server_blocked -> McpPolicy_evaluate self server (Some tool) = ToolBlock) /\
  (~ server_blocked -> McpPolicy_evaluate self server (Some tool) = own).
Proof.
  intros own server_blocked. unfold McpPolicy_evaluate.
  assert (forall l, existsb (fun s => bool_decide (s = server)) l = true <-> server ∈ l) as Hin.
  { intros l. rewrite existsb_elem. split.
    - intros (x & Hx & ->%bool_decide_eq_true). done.
    - intros Hs. exists server. by rewrite bool_decide_true. }
  assert (forall l, existsb (fun s => bool_decide (s = server)) l = false <-> server ∉ l) as Hout.
  { intros l. by rewrite <- not_true_iff_false, Hin. }
  simpl. split.
  - intros [Hb|[Hne Hna]].
    + by rewrite (proj2 (Hin _) Hb).
    + destruct (existsb _ (blocked_servers self)); [done|].
      destruct (allowed_servers self) as [|x l] eqn:E; [done|]. by rewrite (proj2 (Hout _) Hna).
  - intros Hn. rewrite (proj2 (Hout (blocked_servers self))) by (intros ?; apply Hn; by left).
    destruct (allowed_servers self) as [|x l] eqn:E.
    + by destruct (tool_decisions self !! tool).
    + rewrite (proj2 (Hin (x :: l))).
      * by destruct (tool_decisions self !! tool).
      * destruct (decide (server ∈ x :: l)); [done|]. exfalso. apply Hn. right. done.
Qed.

Example namespace_examples :
  (parse_namespaced (namespace_name "github" "a__b"), parse_namespaced (namespace_name "my__srv" "t"),
   parse_namespaced (namespace_name "srv_" "t"))
  = (Some ("github", "a__b"), Some ("my", "srv__t"), Some ("srv", "_t")).
Proof. vm_compute. reflexivity. Qed.
