(* ===== verification/BuiltinTools.v ===== *)
(** The built-in MCP tools: crates/clawcage-core/src/mcp/builtin_tools.rs.

    The HTTP client, the URL parser, the HTML parser and the regular expression
    engine are third-party: they are the interface [WebDeps]. A handler returns
    [None] where the source panics (a slice inside a character); arithmetic on
    [usize] wraps at 64 bits, as in a release build. *)

From Stdlib Require Import ZArith Lia Ascii.
From stdpp Require Import base numbers list gmap strings.
From S2P Require Import Prelude RustStr DomainPolicy Events McpTypes.

Definition BUILTIN_TOOL_NAMES : list string := ["fetch_http"; "grep_http"; "http_headers"].

Definition is_builtin_tool (name : string) : bool := bool_decide (name ∈ BUILTIN_TOOL_NAMES).

(** [reqwest::Url]: what the source reads of a parsed URL. *)
Record Url := { scheme : string; host_str : option string }.

(** [reqwest::Response]: status line, headers ([None] for a value that is not
    text), and the body as text or the error of reading it. *)
Record Response := {
  status : string;
  headers : list (string * option string);
  body_text : result string string;
}.

(** [tl::Node] *)
Inductive HtmlNode :=
| Raw (text : string)
| Tag (name : string) (children : list HtmlNode)
| Comment.

Class WebDeps := {
  url_parse : string -> result Url string;
  http_get : string -> result Response string;
  http_head : string -> result Response string;
  tl_parse : string -> option (list HtmlNode);
  regex_ci : string -> result (string -> bool) string;
}.

Definition nl : string := String "010" "".

(** ** Text *)

(** The state of the loop: the text so far and the two flags. *)
Definition collapse_step (st : string * bool * bool) (ch : string) : string * bool * bool :=
  let '(result, prev_was_newline, prev_was_space) := st in
  if bool_decide (ch = nl) then
    (if prev_was_newline then result else result +:+ nl, true, false)
  else if is_whitespace ch then
    (if negb prev_was_space && negb prev_was_newline then result +:+ " " else result,
     prev_was_newline, true)
  else (result +:+ ch, false, false).

Definition collapse_whitespace (input : string) : string :=
  trim (fold_left collapse_step (chars input) ("", false, false)).1.1.

Definition SKIP_TAGS : list string := ["script"; "style"; "noscript"; "svg"; "template"].
Definition BLOCK_TAGS : list string :=
  ["p"; "div"; "h1"; "h2"; "h3"; "h4"; "h5"; "h6"; "li"; "tr"; "br"; "hr"; "section";
   "article"; "header"; "footer"; "nav"; "main"; "blockquote"; "pre"; "table"; "ul"; "ol"; "dl";
   "dt"; "dd"; "figcaption"; "figure"; "details"; "summary"].

Section Builtin.
Context `{UnicodeCase, SerdeJson, WebDeps}.

Fixpoint extract_text_recursive (node : HtmlNode) : string :=
  match node with
  | Raw s => s
  | Tag name children =>
      let tag_name := to_lowercase name in
      if bool_decide (tag_name ∈ SKIP_TAGS) then ""
      else
        let is_block := bool_decide (tag_name ∈ BLOCK_TAGS) in
        (if is_block then nl else "")
        +:+ (fix go (cs : list HtmlNode) : string :=
               match cs with [] => "" | c :: cs => extract_text_recursive c +:+ go cs end) children
        +:+ (if is_block then nl else "")
  | Comment => ""
  end.

Definition extract_text_from_html (html : string) : string :=
  match tl_parse html with
  | None => html
  | Some dom => collapse_whitespace (sconcat (map extract_text_recursive dom))
  end.

(** ** Content types *)

Definition BINARY_MIME_PREFIXES : list string :=
  ["image/"; "audio/"; "video/"; "font/"; "application/octet-stream"; "application/pdf";
   "application/zip"; "application/gzip"; "application/x-tar"; "application/wasm";
   "application/x-executable"].

Definition is_binary_content_type (content_type : string) : bool :=
  let ct := to_lowercase (trim (match split_char ";" content_type with w :: _ => w | [] => "" end)) in
  existsb (fun prefix => starts_with ct prefix) BINARY_MIME_PREFIXES.

Definition get_content_type (resp : Response) : string :=
  match list_find_first (fun h => bool_decide (h.1 = "content-type")) (headers resp) with
  | Some (_, Some v) => v
  | _ => ""
  end.

(** ** Paging *)

(** [(chunk, total_length, has_more)] *)
Definition paginate (text : string) (start max : Z) : option (string * Z * bool) :=
  let total := slen text in
  if total <=? start then Some ("", total, false)
  else
    let end_ := Z.min (as_uN 64 (start + max)) total in
    match str_slice text (Z.to_nat start) (Z.to_nat end_) with
    | Some chunk => Some (chunk, total, end_ <? total)
    | None => None
    end.

(** ** Results *)

Definition tool_ok (id : option Value) (text : string) : JsonRpcResponse :=
  JsonRpcResponse_ok id
    (json_obj [("content", json_arr [json_obj [("type", json_str "text"); ("text", json_str text)]])]).

Definition tool_error (id : option Value) (msg : string) : JsonRpcResponse :=
  JsonRpcResponse_ok id
    (json_obj [("content", json_arr [json_obj [("type", json_str "text");
                                               ("text", json_str ("Error: " +:+ msg))]]);
               ("isError", json_bool true)]).

(** ** Domain policy *)

Definition check_domain_policy (url : string) (policy : DomainPolicy) : result string string :=
  match url_parse url with
  | Err e => Err ("invalid URL: " +:+ e)
  | Ok parsed =>
      if bool_decide (scheme parsed = "http") || bool_decide (scheme parsed = "https") then
        match host_str parsed with
        | None => Err "URL has no host"
        | Some domain =>
            let '(action, reason) := DomainPolicy_evaluate policy domain in
            if bool_decide (action = Deny)
            then Err ("domain blocked by policy: " +:+ domain +:+ " (" +:+ reason +:+ ")")
            else Ok domain
        end
      else Err ("only http:// and https:// URLs are supported (got " +:+ scheme parsed +:+ "://)")
  end.

(** ** Handlers *)

Definition str_arg (args : Value) (k : string) : option string := str_in (Some args) k.
Definition u64_arg (args : Value) (k : string) (d : Z) : Z := default d (u64_in (Some args) k).
Definition bool_arg (args : Value) (k : string) (d : bool) : bool :=
  default d (match get args k with Some v => as_bool v | None => None end).

Definition handle_fetch_http (args : Value) (policy : DomainPolicy) (id : option Value)
  : option JsonRpcResponse :=
  match str_arg args "url" with
  | None => Some (tool_error id "missing required parameter: url")
  | Some url =>
      match check_domain_policy url policy with
      | Err e => Some (tool_error id e)
      | Ok domain =>
          let format := default "content" (str_arg args "format") in
          let start_index := u64_arg args "start_index" 0 in
          let max_length := u64_arg args "max_length" 50000 in
          match http_get url with
          | Err e => Some (tool_error id ("HTTP request failed: " +:+ e))
          | Ok resp =>
              let ct := get_content_type resp in
              if negb (bool_decide (format = "raw")) && is_binary_content_type ct
              then Some (tool_error id
                ("cannot extract text from binary content (content-type: " +:+ ct +:+
                 "). Use format='raw' to fetch the raw bytes."))
              else
                match body_text resp with
                | Err e => Some (tool_error id ("failed to read response body: " +:+ e))
                | Ok body =>
                    let text := if bool_decide (format = "raw") then body
                                else extract_text_from_html body in
                    match paginate text start_index max_length with
                    | None => None
                    | Some (chunk, total, has_more) =>
                        let shown_end := show_Z (as_uN 64 (start_index + slen chunk)) in
                        let output :=
                          "URL: " +:+ url +:+ nl +:+ "Domain: " +:+ domain +:+ nl +:+
                          "Content length: " +:+ show_Z total +:+ nl +:+
                          (if (0 <? start_index) || has_more then
                             "Showing: " +:+ show_Z start_index +:+ ".." +:+ shown_end +:+ nl +:+
                             (if has_more then
                                "Remaining: " +:+ show_Z (total - start_index - slen chunk) +:+
                                " characters. Use start_index=" +:+ shown_end +:+ " to continue." +:+ nl
                              else "")
                           else "") +:+ nl +:+ chunk in
                        Some (tool_ok id output)
                    end
                end
          end
      end
  end.

(** The block of one match: the lines from [start] to [end_], the matching one
    marked. *)
Definition match_block (ls : list string) (i context_lines : Z) : string :=
  let start := saturating_sub i context_lines in
  let end_ := Z.min (as_uN 64 (as_uN 64 (i + context_lines) + 1)) (Z.of_nat (length ls)) in
  sconcat (map (fun j =>
      (if j =? i then ">>>" else "   ") +:+ " " +:+ show_Z (j + 1) +:+ ": " +:+
      default "" (ls !! Z.to_nat j) +:+ nl)
    (map (fun k => start + Z.of_nat k) (seq 0 (Z.to_nat (end_ - start))))).

(** The loop over the lines: the blocks and the match count; it stops one past
    [max_matches]. *)
Fixpoint grep_loop (is_match : string -> bool) (all : list string) (context_lines max_matches : Z)
    (i : Z) (ls : list string) (match_count : Z) : list string * Z :=
  match ls with
  | [] => ([], match_count)
  | line :: ls =>
      if is_match line then
        let match_count := match_count + 1 in
        if max_matches <? match_count then ([], match_count)
        else
          let '(blocks, n) := grep_loop is_match all context_lines max_matches (i + 1) ls match_count in
          (match_block all i context_lines :: blocks, n)
      else grep_loop is_match all context_lines max_matches (i + 1) ls match_count
  end.

Fixpoint number_blocks (i : Z) (blocks : list string) : string :=
  match blocks with
  | [] => ""
  | b :: bs => "--- Match " +:+ show_Z i +:+ " ---" +:+ nl +:+ b +:+ nl +:+ number_blocks (i + 1) bs
  end.

Definition grep_output (url pattern text : string) (is_match : string -> bool)
    (context_lines max_matches : Z) : string :=
  let ls := lines text in
  let '(matches, match_count) := grep_loop is_match ls context_lines max_matches 0 ls 0 in
  "URL: " +:+ url +:+ nl +:+ "Pattern: " +:+ pattern +:+ nl +:+
  "Matches found: " +:+ show_Z match_count +:+ nl +:+
  (if max_matches <? match_count then
     "(showing first " +:+ show_Z max_matches +:+ " of " +:+ show_Z match_count +:+ " matches)" +:+ nl
   else "") +:+ nl +:+ number_blocks 1 matches.

Definition handle_grep_http (args : Value) (policy : DomainPolicy) (id : option Value)
  : option JsonRpcResponse :=
  match str_arg args "url" with
  | None => Some (tool_error id "missing required parameter: url")
  | Some url =>
  match str_arg args "pattern" with
  | None => Some (tool_error id "missing required parameter: pattern")
  | Some pattern_str =>
  match check_domain_policy url policy with
  | Err e => Some (tool_error id e)
  | Ok _ =>
      let context_lines := u64_arg args "context_lines" 3 in
      let max_matches := u64_arg args "max_matches" 50 in
      let raw := bool_arg args "raw" false in
      let start_index := u64_arg args "start_index" 0 in
      let max_length := u64_arg args "max_length" 50000 in
      if is_empty pattern_str then Some (tool_error id "pattern must not be empty")
      else
      match regex_ci pattern_str with
      | Err e => Some (tool_error id ("invalid regex: " +:+ e))
      | Ok re =>
      match http_get url with
      | Err e => Some (tool_error id ("HTTP request failed: " +:+ e))
      | Ok resp =>
          let ct := get_content_type resp in
          if negb raw && is_binary_content_type ct
          then Some (tool_error id
            ("cannot search binary content (content-type: " +:+ ct +:+
             "). Binary files like images and PDFs are not searchable."))
          else
          match body_text resp with
          | Err e => Some (tool_error id ("failed to read response body: " +:+ e))
          | Ok body =>
              let text := if raw then body else extract_text_from_html body in
              let output := grep_output url pattern_str text re context_lines max_matches in
              match paginate output start_index max_length with
              | None => None
              | Some (chunk, total, has_more) =>
                  if has_more then
                    let next := show_Z (as_uN 64 (start_index + slen chunk)) in
                    Some (tool_ok id
                      ("Content length: " +:+ show_Z total +:+ nl +:+
                       "Showing: " +:+ show_Z start_index +:+ ".." +:+ next +:+ nl +:+
                       "Use start_index=" +:+ next +:+ " to continue." +:+ nl +:+ nl +:+ chunk))
                  else Some (tool_ok id chunk)
              end
          end
      end
      end
  end
  end
  end.

Definition handle_http_headers (args : Value) (policy : DomainPolicy) (id : option Value)
  : option JsonRpcResponse :=
  match str_arg args "url" with
  | None => Some (tool_error id "missing required parameter: url")
  | Some url =>
      match check_domain_policy url policy with
      | Err e => Some (tool_error id e)
      | Ok _ =>
          let method := default "HEAD" (str_arg args "method") in
          let start_index := u64_arg args "start_index" 0 in
          let max_length := u64_arg args "max_length" 50000 in
          match (if bool_decide (method = "GET") then http_get url else http_head url) with
          | Err e => Some (tool_error id ("HTTP request failed: " +:+ e))
          | Ok resp =>
              let output :=
                "URL: " +:+ url +:+ nl +:+ "Status: " +:+ status resp +:+ nl +:+ nl +:+ "Headers:" +:+ nl +:+
                sconcat (map (fun '(name, value) =>
                  "  " +:+ name +:+ ": " +:+ default "<binary>" value +:+ nl) (headers resp)) in
              match paginate output start_index max_length with
              | None => None
              | Some (chunk, _, _) => Some (tool_ok id chunk)
              end
          end
      end
  end.

Definition call_builtin_tool (local_name : string) (arguments : Value) (policy : DomainPolicy)
    (request_id : option Value) : option JsonRpcResponse :=
  if bool_decide (local_name = "fetch_http") then handle_fetch_http arguments policy request_id
  else if bool_decide (local_name = "grep_http") then handle_grep_http arguments policy request_id
  else if bool_decide (local_name = "http_headers") then handle_http_headers arguments policy request_id
  else Some (JsonRpcResponse_err request_id (-32602) ("unknown builtin tool: " +:+ local_name)).

End Builtin.

(** ** Lemmas *)

Lemma ascii_get s i c : is_ascii_str s = true -> String.get i s = Some c -> is_cont c = false.
Proof.
  revert i. induction s as [|d s IH]; intros i; [done|]. cbn [is_ascii_str String.get].
  intros [Hd Hs]%andb_true_iff. destruct i as [|i]; [|by apply IH].
  intros [= ->]. unfold is_cont. apply N.ltb_lt in Hd. destruct (Z.leb_spec 128 (Z.of_N (N_of_ascii c))); [lia|done].
Qed.

Lemma get_None i s : String.get i s = None -> (String.length s <= i)%nat.
Proof.
  revert i. induction s as [|c s IH]; intros i; simpl; [lia|]. destruct i as [|i]; [done|].
  intros ?%IH. lia.
Qed.

Lemma ascii_boundary s i :
  is_ascii_str s = true -> (i <= String.length s)%nat -> is_char_boundary s i = true.
Proof.
  intros Ha Hi. unfold is_char_boundary. destruct (Nat.eqb_spec i 0); [done|].
  destruct (String.get i s) eqn:E.
  - by rewrite (ascii_get s i a).
  - apply get_None in E. apply Nat.eqb_eq. lia.
Qed.

Lemma str_slice_ascii s a b :
  is_ascii_str s = true -> (a <= b <= String.length s)%nat ->
  str_slice s a b = Some (stake (b - a) (sdrop a s)).
Proof.
  intros Ha [Hab Hb]. unfold str_slice. rewrite !ascii_boundary by (done || lia).
  by rewrite (proj2 (Nat.leb_le _ _) Hab), (proj2 (Nat.leb_le _ _) Hb).
Qed.

Lemma sdrop_length n s : String.length (sdrop n s) = (String.length s - n)%nat.
Proof. revert s. induction n as [|n IH]; intros [|c s]; simpl; rewrite ?IH; lia. Qed.

Lemma sdrop_sdrop a b s : sdrop a (sdrop b s) = sdrop (b + a) s.
Proof. revert s. induction b as [|b IH]; intros [|c s]; simpl; try done. by destruct a. Qed.

(** One page of an ASCII text: from [start], the next [max] bytes. *)
Lemma paginate_ascii text start max :
  is_ascii_str text = true -> 0 <= start < slen text -> 0 <= max -> start + max < 2 ^ 64 ->
  let rest := sdrop (Z.to_nat start) text in
  paginate text start max =
  Some (stake (Z.to_nat max) rest, slen text, start + max <? slen text).
Proof.
  intros Ha Hs Hm Hlt rest. unfold paginate.
  destruct (Z.leb_spec (slen text) start); [lia|]. rewrite as_uN_small by (unfold in_uN; lia).
  unfold slen in *.
  rewrite str_slice_ascii by (try done; lia). f_equal. f_equal; [f_equal|].
  - fold rest. assert (String.length rest = String.length text - Z.to_nat start)%nat as Hl
      by apply sdrop_length.
    destruct (Z.le_gt_cases (start + max) (Z.of_nat (String.length text))).
    + f_equal. lia.
    + rewrite Z.min_r by lia.
      assert (forall n s, (String.length s <= n)%nat -> stake n s = s) as Hst.
      { clear. induction n as [|n IH]; intros [|c s]; simpl; try done; try lia. intros. rewrite IH; [done|lia]. }
      rewrite !Hst by lia. done.
  - destruct (Z.ltb_spec (start + max) (Z.of_nat (String.length text)));
      [apply Z.ltb_lt|apply Z.ltb_ge]; lia.
Qed.

(** A client that follows [start_index] until nothing remains. *)
Fixpoint read_pages (fuel : nat) (text : string) (start max : Z) : option (list string) :=
  match fuel with
  | O => None
  | S fuel =>
      match paginate text start max with
      | Some (chunk, _, true) =>
          match read_pages fuel text (as_uN 64 (start + slen chunk)) max with
          | Some pages => Some (chunk :: pages)
          | None => None
          end
      | Some (chunk, _, false) => Some [chunk]
      | None => None
      end
  end.

Lemma stake_slen n s : slen (stake n s) = Z.min (Z.of_nat n) (slen s).
Proof.
  unfold slen. revert s. induction n as [|n IH]; intros [|c s]; simpl stake; simpl String.length; try lia.
  rewrite !Nat2Z.inj_succ, IH. lia.
Qed.

Lemma read_pages_from fuel : forall text start max,
  is_ascii_str text = true -> 0 <= start <= slen text -> 0 < max -> slen text + max < 2 ^ 64 ->
  slen text - start < Z.of_nat fuel ->
  exists pages, read_pages fuel text start max = Some pages /\
    sconcat pages = sdrop (Z.to_nat start) text /\ Forall (fun p => slen p <= max) pages.
Proof.
  induction fuel as [|fuel IH]; intros text start max Ha Hs Hm Hlt Hf; [lia|]. cbn [read_pages].
  destruct (Z.eq_dec start (slen text)) as [->|Hne].
  { unfold paginate. rewrite Z.leb_refl. exists [""]. split; [done|]. unfold slen. rewrite Nat2Z.id.
    split; [|repeat constructor; simpl; lia].
    pose proof (sdrop_length (String.length text) text) as Hl. rewrite Nat.sub_diag in Hl.
    by rewrite (slength_0 _ Hl). }
  rewrite paginate_ascii by (done || lia).
  set (rest := sdrop (Z.to_nat start) text).
  assert (slen rest = slen text - start) as Hr.
  { unfold slen, rest. rewrite sdrop_length. unfold slen in Hs. lia. }
  pose proof (stake_slen (Z.to_nat max) rest) as Hc.
  destruct (Z.ltb_spec (start + max) (slen text)).
  - rewrite Hc, Z2Nat.id, Z.min_l, as_uN_small by (unfold in_uN; lia).
    destruct (IH text (start + max) max Ha) as (pages & -> & Hcat & Hall); try lia.
    eexists. split; [done|]. split.
    + cbn [sconcat]. rewrite Hcat. rewrite Z2Nat.inj_add by lia. rewrite <- sdrop_sdrop.
      apply stake_sdrop.
    + constructor; [|done]. rewrite Hc. lia.
  - eexists. split; [done|]. split.
    + cbn [sconcat]. rewrite sapp_nil_r. rewrite <- (stake_sdrop (Z.to_nat max) rest) at 2.
      rewrite (slength_0 (sdrop (Z.to_nat max) rest)), sapp_nil_r; [done|].
      rewrite sdrop_length. unfold slen in *. lia.
    + constructor; [|done]. rewrite Hc. lia.
Qed.

(** ** Properties *)

(** Paging an ASCII text with a positive page size delivers it completely and
    in order: following [start_index] from 0 ends, every page is at most [max]
    bytes, and the pages concatenate to the text. *)
Theorem pages_reassemble (text : string) (max : Z) :
  is_ascii_str text = true -> 0 < max -> slen text + max < 2 ^ 64 ->
  exists pages, read_pages (S (String.length text)) text 0 max = Some pages /\
    sconcat pages = text /\ Forall (fun p => slen p <= max) pages.
Proof.
  intros Ha Hm Hlt. destruct (read_pages_from (S (String.length text)) text 0 max Ha) as (pages & ? & Hc & ?);
    try done; unfold slen in *; try lia.
  exists pages. done.
Qed.

Lemma pages_reassemble_witness :
  exists pages, read_pages 6 "hello" 0 2 = Some pages /\ sconcat pages = "hello".
Proof.
  destruct (pages_reassemble "hello" 2) as (pages & H1 & H2 & _);
    [reflexivity|reflexivity|reflexivity|].
  exists pages. split; [exact H1|exact H2].
Defined.

(** A page boundary inside a character panics: the first byte of a two-byte
    character cannot be a page. *)
Lemma paginate_splits_character : paginate (bs [195; 169]) 0 1 = None.
Proof. vm_compute. reflexivity. Qed.

(** A large [max_length] wraps around and panics on the reversed range. *)
Lemma paginate_wraps : paginate "abc" 1 (2 ^ 64 - 1) = None.
Proof. vm_compute. reflexivity. Qed.

(** The dependencies with another HTTP client. *)
Definition with_client (d : WebDeps) (g h : string -> result Response string) : WebDeps := {|
  url_parse := @url_parse d; http_get := g; http_head := h;
  tl_parse := @tl_parse d; regex_ci := @regex_ci d;
|}.

(** A URL that may not be contacted: it does not parse, is not an http(s) URL, has no
    host, or its host is denied. *)
Lemma check_domain_policy_Err `{UnicodeCase} (d : WebDeps) url policy :
  (forall parsed domain, @url_parse d url = Ok parsed -> scheme parsed ∈ ["http"; "https"] ->
     host_str parsed = Some domain -> fst (DomainPolicy_evaluate policy domain) = Deny) ->
  exists e, @check_domain_policy _ d url policy = Err e.
Proof.
  intros Hd. unfold check_domain_policy. destruct (url_parse url) as [parsed|]; [|eauto].
  destruct (bool_decide (scheme parsed = "http") || bool_decide (scheme parsed = "https")) eqn:Es; [|eauto].
  destruct (host_str parsed) as [domain|] eqn:Eh; [|eauto].
  assert (scheme parsed ∈ ["http"; "https"]) as Hs.
  { apply orb_true_iff in Es as [->%bool_decide_eq_true| ->%bool_decide_eq_true]; [left|right; left]. }
  specialize (Hd parsed domain eq_refl Hs Eh).
  destruct (DomainPolicy_evaluate policy domain) as [a r]. cbn in Hd. subst a. eauto.
Qed.

(** only an http(s) URL whose host the policy allows is ever contacted: for every
    built-in tool and any other URL (denied host, other scheme, no host, not a URL) the
    answer is an error, the same whatever the HTTP client would do, so no handler
    reaches its request. *)
Theorem denied_domain_not_fetched `{UnicodeCase, SerdeJson} (d : WebDeps) (name : string)
    (args : Value) (policy : DomainPolicy) (id : option Value) (url : string) :
  str_arg args "url" = Some url ->
  (forall parsed domain, @url_parse d url = Ok parsed -> scheme parsed ∈ ["http"; "https"] ->
     host_str parsed = Some domain -> fst (DomainPolicy_evaluate policy domain) = Deny) ->
  exists msg, forall g h,
    @call_builtin_tool _ _ (with_client d g h) name args policy id =
    Some (if is_builtin_tool name then tool_error id msg
          else JsonRpcResponse_err id (-32602) ("unknown builtin tool: " +:+ name)).
Proof.
  intros Hu [e Hc]%check_domain_policy_Err.
  assert (forall g h, @check_domain_policy _ (with_client d g h) url policy = Err e) as Hc' by done.
  exists (if bool_decide (name = "grep_http")
     then match str_arg args "pattern" with Some _ => e | None => "missing required parameter: pattern" end
     else e).
  intros g h. unfold call_builtin_tool, handle_fetch_http, handle_grep_http, handle_http_headers.
  rewrite Hu, Hc'. unfold is_builtin_tool, BUILTIN_TOOL_NAMES.
  destruct (decide (name = "fetch_http")) as [->|]; [done|].
  destruct (decide (name = "grep_http")) as [->|].
  { by destruct (str_arg args "pattern"). }
  destruct (decide (name = "http_headers")) as [->|]; [done|].
  rewrite !(bool_decide_false (name = _)) by done. rewrite bool_decide_false; [done|].
  rewrite !elem_of_cons. intros [|[|[|Hn]]]; try done. by apply not_elem_of_nil in Hn.
Qed.

Definition demo_web : WebDeps := {|
  url_parse s := if starts_with s "https://" then Ok {| scheme := "https"; host_str := strip_prefix "https://" s |}
                 else Err "relative URL without a base";
  http_get s := Err "unreachable";
  http_head s := Err "unreachable";
  tl_parse s := None;
  regex_ci p := Ok (fun s => str_contains s p);
|}.

Lemma denied_domain_not_fetched_witness :
  @call_builtin_tool ascii_case tree_json
    (with_client demo_web (fun s => Ok {| status := "200 OK"; headers := []; body_text := Ok "secret" |})
       (fun s => Err "")) "fetch_http" (JObj [("url", JStr "https://evil.com")])
    DomainPolicy_default_dev None
  = Some (@tool_error tree_json None "domain blocked by policy: evil.com (domain not in allow-list)").
Proof.
  destruct (@denied_domain_not_fetched ascii_case tree_json demo_web "fetch_http"
    (JObj [("url", JStr "https://evil.com")]) DomainPolicy_default_dev None "https://evil.com")
    as [msg H]; [vm_compute; reflexivity| |].
  - intros parsed domain [= <-] _ [= <-]. vm_compute. reflexivity.
  - rewrite H. pose proof (H (fun s => Err "") (fun s => Err "")) as H'. vm_compute in H'.
    injection H' as <-. vm_compute. reflexivity.
Defined.
