(* ===== verification/McpManager.v ===== *)
(** The MCP server manager: crates/clawcage-core/src/mcp/server_manager.rs, with the
    line framing of mcp/stdio_bridge.rs.

    A server process is external: the interface [ServerProcess] gives its spawn,
    its stdin and its stdout as a state machine. [call] loops until the process
    answers; the loop runs on fuel, and [OutOfFuel] marks a run that did not end. *)

From Stdlib Require Import ZArith Lia Ascii.
From stdpp Require Import base numbers list gmap strings.
From S2P Require Import Prelude RustStr Events McpTypes.

(** An error as [anyhow] displays it: its outermost context. *)
Inductive McpError := Message (m : string) | OutOfFuel.

Section Manager.
Context `{SerdeJson}.

Class ServerProcess := {
  Proc : Type;
  (* [Command::spawn] with piped stdin and stdout *)
  spawn : McpServerDef -> option Proc;
  (* writing and flushing one line on stdin; [false] is an I/O error *)
  write_line : Proc -> JsonRpcRequest -> bool * Proc;
  (* [read_line] on stdout; [None] is an I/O error, the empty line the end *)
  read_line : Proc -> option string * Proc;
  (* [serde_json::from_str::<JsonRpcResponse>] *)
  response_json :: FromJson JsonRpcResponse;
}.

Context `{ServerProcess}.

(** ** stdio_bridge *)

Definition write_request (p : Proc) (req : JsonRpcRequest) : bool * Proc := write_line p req.

(** [None] is the [None] of the source, an end of file or a blank line. *)
Definition read_response (p : Proc) : result (option JsonRpcResponse) unit * Proc :=
  match read_line p with
  | (None, p) => (Err tt, p)
  | (Some line, p) =>
      if is_empty line then (Ok None, p)
      else
        let trimmed := trim line in
        if is_empty trimmed then (Ok None, p)
        else match from_str (A := JsonRpcResponse) trimmed with
             | Some resp => (Ok (Some resp), p)
             | None => (Err tt, p)
             end
  end.

(** ** A running server *)

Record RunningServer := { proc : Proc; next_id : Z }.

(** The loop of [call] that skips notifications. *)
Fixpoint await_response (fuel : nat) (p : Proc) : result JsonRpcResponse McpError * Proc :=
  match fuel with
  | O => (Err OutOfFuel, p)
  | S fuel =>
      match read_response p with
      | (Err _, p) => (Err (Message "failed to read from MCP server stdout"), p)
      | (Ok None, p) => (Err (Message "MCP server closed stdout unexpectedly"), p)
      | (Ok (Some r), p) =>
          match rs_id r with
          | Some _ => (Ok r, p)
          | None => await_response fuel p
          end
      end
  end.

Definition server_request (self : RunningServer) (method : string) (params : option Value) : JsonRpcRequest :=
  {| rq_jsonrpc := "2.0"; rq_id := Some (json_num (next_id self)); rq_method := method;
     rq_params := params |}.

Definition call (fuel : nat) (self : RunningServer) (method : string) (params : option Value)
  : result JsonRpcResponse McpError * RunningServer :=
  let next := as_uN 64 (next_id self + 1) in
  match write_request (proc self) (server_request self method params) with
  | (false, p) => (Err (Message "failed to write to MCP server stdin"), {| proc := p; next_id := next |})
  | (true, p) =>
      let '(r, p) := await_response fuel p in (r, {| proc := p; next_id := next |})
  end.

Definition notify (self : RunningServer) (method : string) (params : option Value)
  : result unit McpError * RunningServer :=
  match write_request (proc self)
          {| rq_jsonrpc := "2.0"; rq_id := None; rq_method := method; rq_params := params |} with
  | (false, p) => (Err (Message "failed to write notification to MCP server"),
                   {| proc := p; next_id := next_id self |})
  | (true, p) => (Ok tt, {| proc := p; next_id := next_id self |})
  end.

(** ** The manager *)

Record McpServerManager := {
  definitions : list McpServerDef;
  running : gmap string RunningServer;
  tool_catalog : list McpToolDef;
  resource_catalog : list McpResourceDef;
  prompt_catalog : list McpPromptDef;
  tool_routing : gmap string string;
  resource_routing : gmap string string;
  prompt_routing : gmap string string;
}.

Definition McpServerManager_new (defs : list McpServerDef) : McpServerManager :=
  {| definitions := defs; running := ∅; tool_catalog := []; resource_catalog := [];
     prompt_catalog := []; tool_routing := ∅; resource_routing := ∅; prompt_routing := ∅ |}.

Definition set_running (self : McpServerManager) (m : gmap string RunningServer) : McpServerManager :=
  {| definitions := definitions self; running := m; tool_catalog := tool_catalog self;
     resource_catalog := resource_catalog self; prompt_catalog := prompt_catalog self;
     tool_routing := tool_routing self; resource_routing := resource_routing self;
     prompt_routing := prompt_routing self |}.

(** [v.get(k).and_then(as_str).unwrap_or("")] and the optional forms. *)
Definition field (v : Value) (k : string) : option string := str_in (Some v) k.

Definition tool_entry (server : string) (tool : Value) : option McpToolDef :=
  let name := default "" (field tool "name") in
  if is_empty name then None
  else Some {| td_namespaced_name := namespace_name server name; td_original_name := name;
               td_description := field tool "description";
               input_schema := default (json_obj []) (get tool "inputSchema");
               td_server_name := server |}.

Definition resource_entry (server : string) (resource : Value) : option McpResourceDef :=
  let uri := default "" (field resource "uri") in
  if is_empty uri then None
  else Some {| namespaced_uri := namespace_resource_uri server uri; original_uri := uri;
               rd_name := field resource "name"; rd_description := field resource "description";
               mime_type := field resource "mimeType"; rd_server_name := server |}.

Definition prompt_entry (server : string) (prompt : Value) : option McpPromptDef :=
  let name := default "" (field prompt "name") in
  if is_empty name then None
  else Some {| pd_namespaced_name := namespace_name server name; pd_original_name := name;
               pd_description := field prompt "description";
               pd_arguments := default [] (get_in (Some prompt) "arguments" ≫= as_array);
               pd_server_name := server |}.

(** The list a response carries under a key. *)
Definition listed (resp : JsonRpcResponse) (k : string) : list Value :=
  default [] (rs_result resp ≫= fun r => get r k ≫= as_array).

Definition add_tools (self : McpServerManager) (server : string) (tools : list Value) : McpServerManager :=
  let entries := omap (tool_entry server) tools in
  {| definitions := definitions self; running := running self;
     tool_catalog := tool_catalog self ++ entries;
     resource_catalog := resource_catalog self; prompt_catalog := prompt_catalog self;
     tool_routing := fold_left (fun m t => <[td_namespaced_name t := server]> m) entries (tool_routing self);
     resource_routing := resource_routing self; prompt_routing := prompt_routing self |}.

Definition add_resources (self : McpServerManager) (server : string) (resources : list Value)
  : McpServerManager :=
  let entries := omap (resource_entry server) resources in
  {| definitions := definitions self; running := running self; tool_catalog := tool_catalog self;
     resource_catalog := resource_catalog self ++ entries; prompt_catalog := prompt_catalog self;
     tool_routing := tool_routing self;
     resource_routing := fold_left (fun m r => <[namespaced_uri r := server]> m) entries (resource_routing self);
     prompt_routing := prompt_routing self |}.

Definition add_prompts (self : McpServerManager) (server : string) (prompts : list Value)
  : McpServerManager :=
  let entries := omap (prompt_entry server) prompts in
  {| definitions := definitions self; running := running self; tool_catalog := tool_catalog self;
     resource_catalog := resource_catalog self; prompt_catalog := prompt_catalog self ++ entries;
     tool_routing := tool_routing self; resource_routing := resource_routing self;
     prompt_routing := fold_left (fun m p => <[pd_namespaced_name p := server]> m) entries (prompt_routing self) |}.

(** The version string the build embeds. *)
Variable version : string.

Definition init_params : Value :=
  json_obj [("protocolVersion", json_str "2024-11-05"); ("capabilities", json_obj []);
            ("clientInfo", json_obj [("name", json_str "clawcage"); ("version", json_str version)])].

(** An optional listing: an error is ignored, a run out of fuel is not an answer. *)
Definition optional_list (fuel : nat) (server : RunningServer) (method key : string)
  : result (list Value) McpError * RunningServer :=
  match call fuel server method None with
  | (Ok resp, server) => (Ok (listed resp key), server)
  | (Err OutOfFuel, server) => (Err OutOfFuel, server)
  | (Err (Message _), server) => (Ok [], server)
  end.

Definition spawn_and_initialize (fuel : nat) (self : McpServerManager) (def : McpServerDef)
  : result unit McpError * McpServerManager :=
  match spawn def with
  | None => (Err (Message "failed to spawn MCP server"), self)
  | Some p =>
      match call fuel {| proc := p; next_id := 1 |} "initialize" (Some init_params) with
      | (Err e, _) => (Err e, self)
      | (Ok init_resp, server) =>
          match rs_error init_resp with
          | Some _ => (Err (Message ("MCP server " +:+ sd_name def +:+ " rejected initialize")), self)
          | None =>
              match notify server "notifications/initialized" None with
              | (Err e, _) => (Err e, self)
              | (Ok _, server) =>
                  match call fuel server "tools/list" None with
                  | (Err e, _) => (Err e, self)
                  | (Ok tools_resp, server) =>
                      let self := add_tools self (sd_name def) (listed tools_resp "tools") in
                      match optional_list fuel server "resources/list" "resources" with
                      | (Err e, _) => (Err e, self)
                      | (Ok resources, server) =>
                          let self := add_resources self (sd_name def) resources in
                          match optional_list fuel server "prompts/list" "prompts" with
                          | (Err e, _) => (Err e, self)
                          | (Ok prompts, server) =>
                              let self := add_prompts self (sd_name def) prompts in
                              (Ok tt, set_running self (<[sd_name def := server]> (running self)))
                          end
                      end
                  end
              end
          end
      end
  end.

(** The loop over the enabled definitions: a failing server is skipped; [None] when
    a handshake ran out of fuel. *)
Fixpoint initialize_defs (fuel : nat) (self : McpServerManager) (defs : list McpServerDef)
  : option McpServerManager :=
  match defs with
  | [] => Some self
  | def :: defs =>
      match spawn_and_initialize fuel self def with
      | (Err OutOfFuel, _) => None
      | (_, self) => initialize_defs fuel self defs
      end
  end.

Definition initialize_all (fuel : nat) (self : McpServerManager) : option McpServerManager :=
  initialize_defs fuel self (List.filter sd_enabled (definitions self)).

Definition is_running (self : McpServerManager) (name : string) : bool :=
  bool_decide (is_Some (running self !! name)).

(** Forwarding to a running server. *)
Definition forward (fuel : nat) (self : McpServerManager) (server_name method : string)
    (params : option Value) : result JsonRpcResponse McpError * McpServerManager :=
  match running self !! server_name with
  | None => (Err (Message ("MCP server not running: " +:+ server_name)), self)
  | Some server =>
      let '(r, server) := call fuel server method params in
      (r, set_running self (<[server_name := server]> (running self)))
  end.

Definition call_tool (fuel : nat) (self : McpServerManager) (namespaced_name : string) (arguments : Value)
  : result JsonRpcResponse McpError * McpServerManager :=
  match parse_namespaced namespaced_name with
  | None => (Err (Message ("invalid namespaced tool name: " +:+ namespaced_name)), self)
  | Some (server_name, original_name) =>
      forward fuel self server_name "tools/call"
        (Some (json_obj [("name", json_str original_name); ("arguments", arguments)]))
  end.

Definition read_resource (fuel : nat) (self : McpServerManager) (uri : string)
  : result JsonRpcResponse McpError * McpServerManager :=
  match parse_resource_uri uri with
  | None => (Err (Message ("invalid namespaced resource URI: " +:+ uri)), self)
  | Some (server_name, original) =>
      forward fuel self server_name "resources/read" (Some (json_obj [("uri", json_str original)]))
  end.

Definition get_prompt (fuel : nat) (self : McpServerManager) (namespaced_name : string) (arguments : Value)
  : result JsonRpcResponse McpError * McpServerManager :=
  match parse_namespaced namespaced_name with
  | None => (Err (Message ("invalid namespaced prompt name: " +:+ namespaced_name)), self)
  | Some (server_name, original_name) =>
      forward fuel self server_name "prompts/get"
        (Some (json_obj [("name", json_str original_name); ("arguments", arguments)]))
  end.

Definition shutdown_all (self : McpServerManager) : McpServerManager := set_running self ∅.

(** ** Lemmas *)

(** Lines a process prints before an answer. *)
Inductive prints : Proc -> list JsonRpcResponse -> JsonRpcResponse -> Proc -> Prop :=
| prints_answer p p' r :
    read_response p = (Ok (Some r), p') -> is_Some (rs_id r) -> prints p [] r p'
| prints_note p p1 p' n ns r :
    read_response p = (Ok (Some n), p1) -> rs_id n = None -> prints p1 ns r p' ->
    prints p (n :: ns) r p'.

Lemma await_prints fuel p ns r p' :
  prints p ns r p' -> (length ns < fuel)%nat -> await_response fuel p = (Ok r, p').
Proof.
  intros Hp. revert fuel. induction Hp as [p p' r Hr [v Hid]|p p1 p' n ns r Hr Hid _ IH];
    intros [|fuel] Hf; cbn [length] in Hf; try lia; cbn [await_response]; rewrite Hr, Hid; [done|].
  apply IH. lia.
Qed.

Definition tool_ok_in (self : McpServerManager) (t : McpToolDef) : Prop :=
  td_namespaced_name t = namespace_name (td_server_name t) (td_original_name t) /\
  td_original_name t <> "" /\ is_Some (running self !! td_server_name t).

Definition resource_ok_in (self : McpServerManager) (r : McpResourceDef) : Prop :=
  namespaced_uri r = namespace_resource_uri (rd_server_name r) (original_uri r) /\
  original_uri r <> "" /\ is_Some (running self !! rd_server_name r).

Definition prompt_ok_in (self : McpServerManager) (p : McpPromptDef) : Prop :=
  pd_namespaced_name p = namespace_name (pd_server_name p) (pd_original_name p) /\
  pd_original_name p <> "" /\ is_Some (running self !! pd_server_name p).

Definition catalog_ok (self : McpServerManager) : Prop :=
  Forall (tool_ok_in self) (tool_catalog self) /\
  Forall (resource_ok_in self) (resource_catalog self) /\
  Forall (prompt_ok_in self) (prompt_catalog self).

Lemma is_Some_insert (m : gmap string RunningServer) n s k :
  is_Some (m !! k) -> is_Some (<[n := s]> m !! k).
Proof. intros Hk. apply lookup_insert_is_Some. destruct (decide (n = k)); auto. Qed.

(** Adding a running server keeps the entries of the others. *)
Lemma entries_grow self n s :
  let self' := set_running self (<[n := s]> (running self)) in
  (forall t, tool_ok_in self t -> tool_ok_in self' t) /\
  (forall r, resource_ok_in self r -> resource_ok_in self' r) /\
  (forall p, prompt_ok_in self p -> prompt_ok_in self' p).
Proof.
  split; [|split]; intros x (? & ? & ?); (split; [done|split; [done|by apply is_Some_insert]]).
Qed.

Lemma Forall_omap {A B} (P : B -> Prop) (f : A -> option B) l :
  (forall x y, f x = Some y -> P y) -> Forall P (omap f l).
Proof.
  intros Hf. induction l as [|x l IH]; cbn; [constructor|].
  destruct (f x) as [y|] eqn:E; [|done]. constructor; eauto.
Qed.

Lemma new_entries self server rs tools resources prompts :
  let self' := set_running self (<[server := rs]> (running self)) in
  Forall (tool_ok_in self') (omap (tool_entry server) tools) /\
  Forall (resource_ok_in self') (omap (resource_entry server) resources) /\
  Forall (prompt_ok_in self') (omap (prompt_entry server) prompts).
Proof.
  assert (forall s, is_empty s = false -> s <> "") as He by (by intros []).
  assert (is_Some (<[server := rs]> (running self) !! server)) as Hs
    by (rewrite lookup_insert_eq; eauto).
  split; [|split]; apply Forall_omap; intros v e; unfold tool_entry, resource_entry, prompt_entry.
  all: destruct (is_empty _) eqn:E; [done|intros [= <-]].
  all: split; [done|split; [by apply He|done]].
Qed.

Lemma spawn_and_initialize_cases fuel self def r self' :
  spawn_and_initialize fuel self def = (r, self') -> r <> Err OutOfFuel ->
  (r <> Ok tt /\ self' = self) \/
  (r = Ok tt /\ exists server tools resources prompts,
     self' = let s := add_prompts (add_resources (add_tools self (sd_name def) tools)
                                     (sd_name def) resources) (sd_name def) prompts in
             set_running s (<[sd_name def := server]> (running s))).
Proof.
  unfold spawn_and_initialize, optional_list. intros Heq Hr.
  repeat (case_match; simplify_eq/=; try (left; by split)).
  all: right; split; [done|]; by do 4 eexists.
Qed.

Lemma spawn_catalog fuel self def r self' :
  catalog_ok self -> spawn_and_initialize fuel self def = (r, self') -> r <> Err OutOfFuel ->
  catalog_ok self'.
Proof.
  intros (Ht & Hre & Hp) Hs Hr.
  destruct (spawn_and_initialize_cases _ _ _ _ _ Hs Hr)
    as [[_ ->]|(_ & server & tools & resources & prompts & ->)]; [done|].
  destruct (entries_grow self (sd_name def) server) as (Gt & Gr & Gp).
  destruct (new_entries self (sd_name def) server tools resources prompts) as (Nt & Nr & Np).
  split; [|split]; cbn; apply Forall_app_2; try done.
  - eapply Forall_impl; [exact Ht|exact Gt].
  - eapply Forall_impl; [exact Hre|exact Gr].
  - eapply Forall_impl; [exact Hp|exact Gp].
Qed.

Lemma initialize_defs_catalog fuel defs self self' :
  catalog_ok self -> initialize_defs fuel self defs = Some self' -> catalog_ok self'.
Proof.
  revert self. induction defs as [|def defs IH]; intros self Hc; cbn [initialize_defs].
  - by intros [= <-].
  - destruct (spawn_and_initialize fuel self def) as [r s] eqn:E. intros Hi.
    assert (r <> Err OutOfFuel /\ initialize_defs fuel s defs = Some self') as [Hr Hi']
      by (destruct r as [[]|[]]; by split).
    eapply IH; [|exact Hi']. eapply spawn_catalog; [exact Hc|exact E|exact Hr].
Qed.

(** ** Properties *)

(** every entry the catalogs of a freshly initialised manager advertise can be
    called: its server is running, its original name is not empty, and its
    advertised name is routed back to that server and original name, provided the
    server's name has no separator (for a resource, no slash). *)
Theorem catalog_routable (fuel : nat) (defs : list McpServerDef) (m : McpServerManager) :
  initialize_all fuel (McpServerManager_new defs) = Some m ->
  (forall t, t ∈ tool_catalog m ->
     is_running m (td_server_name t) = true /\ td_original_name t <> "" /\
     (str_contains (td_server_name t +:+ "_") NS_SEP = false ->
      parse_namespaced (td_namespaced_name t) = Some (td_server_name t, td_original_name t))) /\
  (forall r, r ∈ resource_catalog m ->
     is_running m (rd_server_name r) = true /\ original_uri r <> "" /\
     (contains_char (rd_server_name r) "/"%char = false ->
      parse_resource_uri (namespaced_uri r) = Some (rd_server_name r, original_uri r))) /\
  (forall p, p ∈ prompt_catalog m ->
     is_running m (pd_server_name p) = true /\ pd_original_name p <> "" /\
     (str_contains (pd_server_name p +:+ "_") NS_SEP = false ->
      parse_namespaced (pd_namespaced_name p) = Some (pd_server_name p, pd_original_name p))).
Proof.
  intros Hi. assert (catalog_ok m) as (Ht & Hr & Hp).
  { eapply initialize_defs_catalog; [|exact Hi]. repeat split; constructor. }
  rewrite Forall_forall in Ht. rewrite Forall_forall in Hr. rewrite Forall_forall in Hp.
  unfold is_running.
  split; [|split]; intros x Hx.
  - destruct (Ht x Hx) as (Hn & Ho & Hs). split; [by rewrite bool_decide_true|]. split; [done|].
    intros Hsep. rewrite Hn. by apply parse_namespaced_find, find_sep.
  - destruct (Hr x Hx) as (Hn & Ho & Hs). split; [by rewrite bool_decide_true|]. split; [done|].
    intros Hsep. rewrite Hn. by apply parse_resource_uri_slash.
  - destruct (Hp x Hx) as (Hn & Ho & Hs). split; [by rewrite bool_decide_true|]. split; [done|].
    intros Hsep. rewrite Hn. by apply parse_namespaced_find, find_sep.
Qed.

(** a tool call reaches exactly the server its name is routed to: that server
    is sent one request, with its own next id, the original tool name and the
    arguments; the notifications it prints first are skipped, its first response is
    returned, and no other server is touched. Fuel beyond the number of
    notifications is enough. *)
Theorem tool_call_routed (fuel : nat) (m : McpServerManager) (name server tool : string)
    (arguments : Value) (s : RunningServer) (p p' : Proc) (notes : list JsonRpcResponse)
    (r : JsonRpcResponse) :
  parse_namespaced name = Some (server, tool) ->
  running m !! server = Some s ->
  write_line (proc s) (server_request s "tools/call"
    (Some (json_obj [("name", json_str tool); ("arguments", arguments)]))) = (true, p) ->
  prints p notes r p' -> (length notes < fuel)%nat ->
  let '(res, m') := call_tool fuel m name arguments in
  res = Ok r /\
  running m' !! server = Some {| proc := p'; next_id := as_uN 64 (next_id s + 1) |} /\
  (forall other, other <> server -> running m' !! other = running m !! other) /\
  tool_catalog m' = tool_catalog m.
Proof.
  intros Hn Hs Hw Hp Hf. unfold call_tool, forward. rewrite Hn, Hs. unfold call, write_request.
  rewrite Hw, (await_prints fuel p notes r p' Hp Hf).
  split; [done|]. cbn [set_running running tool_catalog]. split; [by rewrite lookup_insert_eq|].
  split; [|done]. intros other Ho. by rewrite lookup_insert_ne.
Qed.

End Manager.

(** ** A concrete server: it prints a notification, then answers everything with
    one tool list. *)

Definition demo_answer : @JsonRpcResponse tree_json :=
  @JsonRpcResponse_ok tree_json (Some (JNum 1))
    (JObj [("tools", JArr [JObj [("name", JStr "search")]]);
           ("resources", JArr [JObj [("uri", JStr "repo://x")]])]).

Definition demo_note : @JsonRpcResponse tree_json :=
  @Build_JsonRpcResponse tree_json "2.0" None None None.

(** The process state is the list of lines still to print. *)
Definition demo_process : @ServerProcess tree_json := {|
  Proc := list string;
  spawn d := if bool_decide (sd_command d = "run") then Some [] else None;
  write_line p req :=
    match rq_id req with Some _ => (true, p ++ ["note"; "answer"]) | None => (true, p) end;
  read_line p := match p with [] => (Some "", []) | l :: p => (Some l, p) end;
  response_json := fun s =>
    if bool_decide (s = "note") then Some demo_note
    else if bool_decide (s = "answer") then Some demo_answer else None;
|}.

Definition demo_lines (l : list string) : @Proc tree_json demo_process := l.

Definition demo_def : McpServerDef :=
  {| sd_name := "github"; sd_command := "run"; sd_args := []; sd_env := []; sd_enabled := true;
     sd_source := "manual" |}.

Definition demo_manager : @McpServerManager tree_json demo_process :=
  match @initialize_all tree_json demo_process "1" 2 (McpServerManager_new [demo_def]) with
  | Some m => m
  | None => McpServerManager_new []
  end.

Lemma catalog_routable_witness :
  map td_namespaced_name (tool_catalog demo_manager) = ["github__search"] /\
  is_running demo_manager "github" = true.
Proof.
  assert (@initialize_all tree_json demo_process "1" 2 (McpServerManager_new [demo_def])
          = Some demo_manager) as H by (vm_compute; reflexivity).
  split; [vm_compute; reflexivity|].
  destruct (@catalog_routable tree_json demo_process "1" 2 [demo_def] demo_manager H) as [Ht _].
  refine (proj1 (Ht (@Build_McpToolDef tree_json "github__search" "search" None (JObj []) "github") _)).
  vm_compute. left.
Defined.

Lemma tool_call_routed_witness :
  (@call_tool tree_json demo_process 2 demo_manager "github__search" JNull).1 = Ok demo_answer.
Proof.
  pose proof (@tool_call_routed tree_json demo_process 2 demo_manager "github__search" "github" "search"
    JNull (@Build_RunningServer tree_json demo_process ([] : list string) 5)
    (["note"; "answer"] : list string) ([] : list string) [demo_note] demo_answer) as H.
  specialize (H ltac:(vm_compute; reflexivity) ltac:(vm_compute; reflexivity)
    ltac:(vm_compute; reflexivity)).
  assert (@prints tree_json demo_process (demo_lines ["note"; "answer"]) [demo_note] demo_answer (demo_lines [])) as Hp.
  { apply (prints_note _ (demo_lines ["answer"])); [vm_compute; reflexivity|reflexivity|].
    apply prints_answer; [vm_compute; reflexivity|]. exists (JNum 1). reflexivity. }
  specialize (H Hp ltac:(simpl; lia)).
  destruct (call_tool 2 demo_manager "github__search" JNull) as [res m']. exact (proj1 H).
Defined.
