(* ===== verification/McpGateway.v ===== *)
(** The MCP gateway: crates/clawcage-core/src/mcp/gateway.rs.

    A session reads one JSON-RPC request per line and answers each in turn. The
    policy is the snapshot taken at the start of the session; the domain policy is
    read at each call. A step returns [None] where the task panics or waits on a
    server for ever. *)

From Stdlib Require Import ZArith Lia Ascii.
From stdpp Require Import base numbers list gmap strings.
From S2P Require Import Prelude RustStr DomainPolicy Events McpTypes BuiltinTools McpManager.

Definition MAX_LINE_LEN : Z := 1048576.

Section Gateway.
Context `{UnicodeCase, SerdeJson, !WebDeps, !ServerProcess}.

(** Decoding requests and encoding responses. *)
Class GatewayWire := {
  request_json :: FromJson JsonRpcRequest;
  response_to_string : JsonRpcResponse -> string;
}.

Context `{!GatewayWire}.
Variable version : string.
(** [builtin_tools::builtin_tool_defs()] *)
Variable builtin_tool_defs : list McpToolDef.
Variable fuel : nat.

(** The log record of a call; the writer adds the time. *)
Record McpCall := {
  mc_server_name : string;
  mc_method : string;
  mc_tool_name : option string;
  mc_request_id : option string;
  mc_request_preview : option string;
  mc_response_preview : option string;
  mc_decision : string;
  mc_error_message : option string;
  mc_process_name : option string;
}.

Definition param (req : JsonRpcRequest) (k : string) : option Value := get_in (rq_params req) k.
Definition param_str (req : JsonRpcRequest) (k : string) : string := default "" (param req k ≫= as_str).

Definition initialize_result : Value :=
  json_obj [("protocolVersion", json_str "2024-11-05");
            ("capabilities", json_obj [("tools", json_obj []); ("resources", json_obj []);
                                       ("prompts", json_obj [])]);
            ("serverInfo", json_obj [("name", json_str "clawcage-mcp-gateway");
                                     ("version", json_str version)])].

(** [json!] of an optional string. *)
Definition opt_json (s : option string) : Value :=
  match s with Some s => json_str s | None => json_null end.

Definition tool_json (t : McpToolDef) : Value :=
  json_obj [("name", json_str (td_namespaced_name t)); ("description", opt_json (td_description t));
            ("inputSchema", input_schema t)].

Definition resource_json (r : McpResourceDef) : Value :=
  json_obj [("uri", json_str (namespaced_uri r)); ("name", opt_json (rd_name r));
            ("description", opt_json (rd_description r)); ("mimeType", opt_json (mime_type r))].

Definition prompt_json (p : McpPromptDef) : Value :=
  json_obj [("name", json_str (pd_namespaced_name p)); ("description", opt_json (pd_description p));
            ("arguments", json_arr (pd_arguments p))].

(** The reply to a forwarded request: the server's own response, or an error. *)
Definition forwarded (req : JsonRpcRequest) (what : string)
    (r : result JsonRpcResponse McpError * McpServerManager)
  : option (option JsonRpcResponse * McpServerManager) :=
  match r with
  | (Ok resp, mgr) => Some (Some resp, mgr)
  | (Err (Message e), mgr) =>
      Some (Some (JsonRpcResponse_err (rq_id req) (-32603) (what +:+ " failed: " +:+ e)), mgr)
  | (Err OutOfFuel, _) => None
  end.

Definition blocked_response (req : JsonRpcRequest) (tool_name : string) : JsonRpcResponse :=
  JsonRpcResponse_err (rq_id req) (-32600) ("tool blocked by policy: " +:+ tool_name).

Definition handle_tools_call (req : JsonRpcRequest) (policy : McpPolicy) (dp : DomainPolicy)
    (mgr : McpServerManager) : option (option JsonRpcResponse * McpServerManager) :=
  let tool_name := param_str req "name" in
  if is_empty tool_name
  then Some (Some (JsonRpcResponse_err (rq_id req) (-32602) "missing tool name"), mgr)
  else
    let arguments := default (json_obj []) (param req "arguments") in
    if is_builtin_tool tool_name then
      match McpPolicy_evaluate policy "builtin" (Some tool_name) with
      | ToolBlock => Some (Some (blocked_response req tool_name), mgr)
      | ToolWarn | ToolAllow =>
          match call_builtin_tool tool_name arguments dp (rq_id req) with
          | Some resp => Some (Some resp, mgr)
          | None => None
          end
      end
    else
      let server_name := match parse_namespaced tool_name with Some (s, _) => s | None => "" end in
      match McpPolicy_evaluate policy server_name (Some tool_name) with
      | ToolBlock => Some (Some (blocked_response req tool_name), mgr)
      | ToolWarn | ToolAllow => forwarded req "tool call" (call_tool fuel mgr tool_name arguments)
      end.

(** [None] inside is a notification: no response. *)
Definition handle_json_rpc (req : JsonRpcRequest) (policy : McpPolicy) (dp : DomainPolicy)
    (mgr : McpServerManager) : option (option JsonRpcResponse * McpServerManager) :=
  let method := rq_method req in
  let ok v := Some (Some (JsonRpcResponse_ok (rq_id req) v), mgr) in
  let err c m := Some (Some (JsonRpcResponse_err (rq_id req) c m), mgr) in
  if bool_decide (method = "initialize") then ok initialize_result
  else if bool_decide (method = "notifications/initialized") then Some (None, mgr)
  else if bool_decide (method = "tools/list") then
    ok (json_obj [("tools", json_arr (map tool_json (builtin_tool_defs ++ tool_catalog mgr)))])
  else if bool_decide (method = "tools/call") then handle_tools_call req policy dp mgr
  else if bool_decide (method = "resources/list") then
    ok (json_obj [("resources", json_arr (map resource_json (resource_catalog mgr)))])
  else if bool_decide (method = "resources/read") then
    let uri := param_str req "uri" in
    if is_empty uri then err (-32602) "missing resource URI"
    else forwarded req "resource read" (read_resource fuel mgr uri)
  else if bool_decide (method = "prompts/list") then
    ok (json_obj [("prompts", json_arr (map prompt_json (prompt_catalog mgr)))])
  else if bool_decide (method = "prompts/get") then
    let name := param_str req "name" in
    if is_empty name then err (-32602) "missing prompt name"
    else forwarded req "prompt get"
           (get_prompt fuel mgr name (default (json_obj []) (param req "arguments")))
  else err (-32601) ("method not found: " +:+ method).

(** ** Logging *)

(** [if s.len() > 200 { s[..200] } else { s }]: [None] is the panic of a slice
    inside a character. *)
Definition clip_200 (s : string) : option string :=
  if 200 <? slen s then str_slice s 0 200 else Some s.

Definition clip_opt (v : option Value) : option (option string) :=
  match v with
  | None => Some None
  | Some v => match clip_200 (json_to_string v) with Some s => Some (Some s) | None => None end
  end.

Definition log_decision (resp : JsonRpcResponse) : string :=
  match rs_error resp with
  | Some e => if str_contains (er_message e) "blocked by policy" then "denied" else "error"
  | None => "allowed"
  end.

Definition log_server (tool_name : option string) : string :=
  match tool_name with
  | Some t => if is_builtin_tool t then "builtin"
              else match parse_namespaced t with Some (s, _) => s | None => "gateway" end
  | None => "gateway"
  end.

Definition log_mcp_call (req : JsonRpcRequest) (resp : JsonRpcResponse) (process_name : string)
  : option McpCall :=
  let tool_name := param req "name" ≫= as_str in
  match clip_opt (rq_params req), clip_opt (rs_result resp) with
  | Some req_preview, Some resp_preview =>
      Some {| mc_server_name := log_server tool_name; mc_method := rq_method req;
              mc_tool_name := tool_name;
              mc_request_id := show_Z <$> (rq_id req ≫= as_u64);
              mc_request_preview := req_preview; mc_response_preview := resp_preview;
              mc_decision := log_decision resp;
              mc_error_message := er_message <$> rs_error resp;
              mc_process_name := Some process_name |}
  | _, _ => None
  end.

(** ** The session *)

Definition session_process (meta_line : string) : string :=
  match strip_prefix (String "000" "") meta_line with
  | Some s => match strip_prefix "CLAWCAGE_META:" s with Some s => trim s | None => "unknown" end
  | None => "unknown"
  end.

(** One line of the loop: the responses written, the calls logged. *)
Definition session_line (policy : McpPolicy) (dp : DomainPolicy) (process_name : string)
    (mgr : McpServerManager) (line : string)
  : option (list JsonRpcResponse * list McpCall * McpServerManager) :=
  let trimmed := trim line in
  if is_empty trimmed then Some ([], [], mgr)
  else if MAX_LINE_LEN <? slen trimmed
  then Some ([JsonRpcResponse_err None (-32600) "request too large"], [], mgr)
  else
    match from_str (A := JsonRpcRequest) trimmed with
    | None => Some ([JsonRpcResponse_err None (-32700) "parse error"], [], mgr)
    | Some request =>
        match handle_json_rpc request policy dp mgr with
        | None => None
        | Some (None, mgr) => Some ([], [], mgr)
        | Some (Some response, mgr) =>
            match log_mcp_call request response process_name with
            | Some c => Some ([response], [c], mgr)
            | None => None
            end
        end
    end.

Fixpoint session_lines (policy : McpPolicy) (dp : DomainPolicy) (process_name : string)
    (mgr : McpServerManager) (ls : list string)
  : option (list JsonRpcResponse * list McpCall * McpServerManager) :=
  match ls with
  | [] => Some ([], [], mgr)
  | l :: ls =>
      match session_line policy dp process_name mgr l with
      | None => None
      | Some (out, log, mgr) =>
          match session_lines policy dp process_name mgr ls with
          | None => None
          | Some (outs, logs, mgr) => Some (out ++ outs, log ++ logs, mgr)
          end
      end
  end.

(** ** Lemmas *)

(** The server a tool name is judged under. *)
Definition policy_server (tool_name : string) : string :=
  if is_builtin_tool tool_name then "builtin"
  else match parse_namespaced tool_name with Some (s, _) => s | None => "" end.

Lemma blocked_call req policy dp mgr :
  rq_method req = "tools/call" -> param_str req "name" <> "" ->
  McpPolicy_evaluate policy (policy_server (param_str req "name")) (Some (param_str req "name")) = ToolBlock ->
  handle_json_rpc req policy dp mgr = Some (Some (blocked_response req (param_str req "name")), mgr).
Proof.
  intros Hm Hne Hb. unfold handle_json_rpc. rewrite Hm. cbn. unfold handle_tools_call.
  assert (is_empty (param_str req "name") = false) as -> by (by destruct (param_str req "name")).
  revert Hb. unfold policy_server. destruct (is_builtin_tool (param_str req "name")); by intros ->.
Qed.

Lemma blocked_contains tool_name :
  str_contains ("tool blocked by policy: " +:+ tool_name) "blocked by policy" = true.
Proof. apply str_contains_spec. by exists "tool ", (": " +:+ tool_name). Qed.

Lemma blocked_decision req tool_name : log_decision (blocked_response req tool_name) = "denied".
Proof. unfold log_decision. cbn [blocked_response JsonRpcResponse_err rs_error er_message]. by rewrite blocked_contains. Qed.

Lemma param_str_some req k : param_str req k <> "" -> param req k ≫= as_str = Some (param_str req k).
Proof. unfold param_str. by destruct (param req k ≫= as_str). Qed.

(** ** Properties *)

(** C9: a tool the session's policy blocks is never run. Of a line that parses as a call
    of such a tool, three things can become, and in none of them does a server's state
    change or a built-in tool run (the answer does not depend on the network): a line over
    1 MB is refused as too large; otherwise the answer is the policy error under the
    caller's own id, with one record logged that says denied; or the session ends in a
    panic before it answers, exactly when the log's preview cuts the text of the parameters
    inside a character (byte 200). *)
Theorem blocked_tool_denied (req : JsonRpcRequest) (policy : McpPolicy) (dp : DomainPolicy)
    (mgr : McpServerManager) (process line : string) :
  trim line <> "" -> from_str (trim line) = Some req ->
  rq_method req = "tools/call" -> param_str req "name" <> "" ->
  McpPolicy_evaluate policy (policy_server (param_str req "name")) (Some (param_str req "name")) = ToolBlock ->
  let answer := blocked_response req (param_str req "name") in
  handle_json_rpc req policy dp mgr = Some (Some answer, mgr) /\ rs_id answer = rq_id req /\ rs_result answer = None /\
  match session_line policy dp process mgr line with
  | Some (out, logs, mgr') => mgr' = mgr /\
      ((MAX_LINE_LEN < slen (trim line) /\ out = [JsonRpcResponse_err None (-32600) "request too large"] /\ logs = []) \/
       (slen (trim line) <= MAX_LINE_LEN /\ out = [answer] /\
        exists c, logs = [c] /\ mc_decision c = "denied" /\ mc_tool_name c = Some (param_str req "name") /\
          mc_process_name c = Some process))
  | None => slen (trim line) <= MAX_LINE_LEN /\
      exists params, rq_params req = Some params /\ 200 < slen (json_to_string params) /\
        str_slice (json_to_string params) 0 200 = None
  end.
Proof.
  intros Hne Hreq Hm Hn Hb answer. pose proof (blocked_call req policy dp mgr Hm Hn Hb) as Hcall.
  split; [done|]. split; [done|]. split; [done|]. unfold session_line.
  assert (is_empty (trim line) = false) as -> by (by destruct (trim line)).
  destruct (Z.ltb_spec MAX_LINE_LEN (slen (trim line))); [by split; [|left]|].
  rewrite Hreq, Hcall. unfold log_mcp_call. fold answer. change (rs_result answer) with (@None Value).
  cbn [clip_opt]. destruct (clip_opt (rq_params req)) as [preview|] eqn:Hc.
  - split; [done|]. right. split; [done|]. split; [done|]. eexists. split; [reflexivity|].
    split; [apply blocked_decision|]. split; [by apply param_str_some|done].
  - split; [done|]. unfold clip_opt, clip_200 in Hc. destruct (rq_params req) as [params|]; [|done]. exists params.
    destruct (Z.ltb_spec 200 (slen (json_to_string params))); [|done]. split; [done|]. split; [done|].
    by destruct (str_slice _ 0 200).
Qed.

(** The tool policy governs tools only. Reading a resource and getting a prompt
    give the same answer and the same server states under every policy, a policy
    that blocks every server included. *)
Theorem policy_covers_tools_only (req : JsonRpcRequest) (policy policy' : McpPolicy)
    (dp dp' : DomainPolicy) (mgr : McpServerManager) :
  rq_method req <> "tools/call" ->
  handle_json_rpc req policy dp mgr = handle_json_rpc req policy' dp' mgr.
Proof. intros Hm. unfold handle_json_rpc. by rewrite (bool_decide_false (rq_method req = "tools/call")). Qed.

(** The response to a forwarded call is the server's own, with the id the manager
    gave the request on the server's pipe and not the id of the caller. *)
Lemma forwarded_keeps_server_id req resp what mgr :
  forwarded req what (Ok resp, mgr) = Some (Some resp, mgr).
Proof. done. Qed.

End Gateway.

(** ** A session with the concrete server of the manager *)

Definition demo_request (method name : string) : @JsonRpcRequest tree_json :=
  @Build_JsonRpcRequest tree_json "2.0" (Some (JNum 77)) method (Some (JObj [("name", JStr name)])).

Definition demo_gateway : @GatewayWire tree_json := {|
  request_json := fun s =>
    if bool_decide (s = "call") then Some (demo_request "tools/call" "github__search") else None;
  response_to_string r := "";
|}.

Definition block_github : McpPolicy :=
  {| blocked_servers := ["github"]; allowed_servers := []; tool_decisions := ∅;
     default_tool_decision := ToolAllow |}.

Definition demo_step (policy : McpPolicy) (line : string) :=
  @session_line ascii_case tree_json demo_web demo_process demo_gateway "1" [] 2 policy
    DomainPolicy_default_dev "agent" demo_manager line.

Definition demo_blocked_log : @McpCall :=
  {| mc_server_name := "github"; mc_method := "tools/call"; mc_tool_name := Some "github__search";
     mc_request_id := Some "77"; mc_request_preview := Some ""; mc_response_preview := None;
     mc_decision := "denied"; mc_error_message := Some "tool blocked by policy: github__search";
     mc_process_name := Some "agent" |}.

Lemma blocked_tool_denied_witness :
  exists c, demo_step block_github " call " =
    Some ([@blocked_response tree_json (demo_request "tools/call" "github__search") "github__search"], [c], demo_manager) /\
    mc_decision c = "denied" /\ c = demo_blocked_log.
Proof.
  destruct (@blocked_tool_denied ascii_case tree_json demo_web demo_process demo_gateway "1" [] 2
    (demo_request "tools/call" "github__search") block_github DomainPolicy_default_dev demo_manager
    "agent" " call " ltac:(vm_compute; discriminate) ltac:(vm_compute; reflexivity) ltac:(vm_compute; reflexivity)
    ltac:(vm_compute; discriminate) ltac:(vm_compute; reflexivity)) as (_ & _ & _ & H).
  assert (demo_step block_github " call " =
    Some ([@blocked_response tree_json (demo_request "tools/call" "github__search") "github__search"], [demo_blocked_log],
      demo_manager)) as E by (vm_compute; reflexivity).
  unfold demo_step in *. rewrite E in H. destruct H as [_ [(Hbig & _)|(_ & _ & c & Hc & Hd & _)]]; [by vm_compute in Hbig|].
  injection Hc as Hc. exists demo_blocked_log. split; [exact E|]. split; [by rewrite Hc|reflexivity].
Defined.

Lemma policy_covers_tools_only_witness :
  @handle_json_rpc ascii_case tree_json demo_web demo_process "1" [] 2
    (@Build_JsonRpcRequest tree_json "2.0" (Some (JNum 1)) "resources/read"
       (Some (JObj [("uri", JStr "clawcage://github/x")])))
    block_github DomainPolicy_default_dev demo_manager
  = @handle_json_rpc ascii_case tree_json demo_web demo_process "1" [] 2
    (@Build_JsonRpcRequest tree_json "2.0" (Some (JNum 1)) "resources/read"
       (Some (JObj [("uri", JStr "clawcage://github/x")])))
    McpPolicy_new DomainPolicy_default_dev demo_manager.
Proof.
  apply (@policy_covers_tools_only ascii_case tree_json demo_web demo_process "1" [] 2).
  vm_compute. discriminate.
Defined.

(** The caller's id is 77, the answer's is the server's. *)
Example forwarded_id_example :
  match demo_step McpPolicy_new "call" with
  | Some ([resp], _, _) => rs_id resp
  | _ => None
  end = Some (JNum 1).
Proof. vm_compute. reflexivity. Qed.
