(* ===== verification/McpDetect.v ===== *)
(** Detection of the host's MCP servers: crates/clawcage-core/src/mcp/mod.rs. *)

From Stdlib Require Import ZArith Lia.
From stdpp Require Import base numbers list gmap strings.
From S2P Require Import Prelude RustStr Events McpTypes.

Section Detect.
Context `{SerdeJson}.

(** [std::fs::read_to_string] and [serde_json::from_str::<Value>]. *)
Variable read_file : string -> option string.
Variable value_from_str : string -> option Value.

Definition server_entry (source : string) (entry : string * Value) : option McpServerDef :=
  let '(name, config) := entry in
  if bool_decide (name = "clawcage") then None
  else
    match str_in (Some config) "command" with
    | None => None
    | Some command =>
        Some {| sd_name := name; sd_command := command;
                sd_args := match get config "args" ≫= as_array with
                           | Some a => omap as_str a
                           | None => []
                           end;
                sd_env := match get config "env" ≫= as_object with
                          | Some o => omap (fun kv => (fun s => (kv.1, s)) <$> as_str kv.2) o
                          | None => []
                          end;
                sd_enabled := true; sd_source := source |}
    end.

Definition parse_mcp_servers_from_file (path source : string) : option (list McpServerDef) :=
  match read_file path with
  | None => None
  | Some content =>
      match value_from_str content with
      | None => None
      | Some json =>
          match get json "mcpServers" ≫= as_object with
          | None => None
          | Some servers_obj => Some (omap (server_entry source) servers_obj)
          end
      end
  end.

(** [retain(|s| seen.insert(s.name))] *)
Fixpoint retain_first (seen : list string) (servers : list McpServerDef) : list McpServerDef :=
  match servers with
  | [] => []
  | s :: rest =>
      if bool_decide (sd_name s ∈ seen) then retain_first seen rest
      else s :: retain_first (sd_name s :: seen) rest
  end.

Definition detect_host_mcp_servers (home : option string) : list McpServerDef :=
  match home with
  | None => []
  | Some h =>
      let claude := default [] (parse_mcp_servers_from_file (h +:+ "/.claude/settings.json") "claude") in
      let gemini := default [] (parse_mcp_servers_from_file (h +:+ "/.gemini/settings.json") "gemini") in
      retain_first [] (claude ++ gemini)
  end.

(** ** Lemmas *)

Lemma retain_first_elem seen servers s :
  s ∈ retain_first seen servers -> s ∈ servers /\ sd_name s ∉ seen.
Proof.
  revert seen. induction servers as [|x l IH]; intros seen; cbn [retain_first].
  - intros H0. by apply not_elem_of_nil in H0.
  - destruct (decide (sd_name x ∈ seen)) as [Hx|Hx].
    + rewrite bool_decide_true by done. intros [? ?]%IH. split; [by right|done].
    + rewrite bool_decide_false by done. intros [->|H0]%elem_of_cons; [split; [left|done]|].
      apply IH in H0 as [? Hn]. split; [by right|]. intros ?. apply Hn. by right.
Qed.

Lemma retain_first_NoDup seen servers : NoDup (map sd_name (retain_first seen servers)).
Proof.
  revert seen. induction servers as [|x l IH]; intros seen; cbn [retain_first]; [constructor|].
  destruct (bool_decide (sd_name x ∈ seen)); [apply IH|]. cbn [map]. constructor; [|apply IH].
  intros (y & Hy & Hin)%list_elem_of_fmap. apply retain_first_elem in Hin as [_ Hn].
  apply Hn. rewrite <- Hy. left.
Qed.

(** The survivor of a name is its first server. *)
Lemma retain_first_spec seen servers name :
  name ∉ seen ->
  list_find_first (fun s => bool_decide (sd_name s = name)) (retain_first seen servers) =
  list_find_first (fun s => bool_decide (sd_name s = name)) servers.
Proof.
  revert seen. induction servers as [|x l IH]; intros seen Hn; [done|]. cbn [retain_first list_find_first].
  destruct (decide (sd_name x = name)) as [<-|Hx].
  - rewrite (bool_decide_false (sd_name x ∈ seen)) by done. cbn [list_find_first].
    by rewrite !bool_decide_true by done.
  - rewrite (bool_decide_false (sd_name x = name)) by done.
    destruct (bool_decide (sd_name x ∈ seen)); [by apply IH|]. cbn [list_find_first].
    rewrite (bool_decide_false (sd_name x = name)) by done. apply IH.
    by intros [?|?]%elem_of_cons.
Qed.

Lemma entries_not_self source (kvs : list (string * Value)) s :
  s ∈ omap (server_entry source) kvs -> sd_name s <> "clawcage" /\ sd_source s = source.
Proof.
  intros ([name config] & _ & He)%list_elem_of_omap. unfold server_entry in He.
  case_bool_decide as Hn; [done|]. destruct (str_in (Some config) "command"); [|done].
  by injection He as <-.
Qed.

(** ** Properties *)

(** The detected servers have distinct names, none of them the product's own
    server, and for every name the one kept is the first defined, so a server of
    the Claude settings shadows one of the same name in the Gemini settings. *)
Theorem detected_servers_unique (h : string) :
  let claude := default [] (parse_mcp_servers_from_file (h +:+ "/.claude/settings.json") "claude") in
  let gemini := default [] (parse_mcp_servers_from_file (h +:+ "/.gemini/settings.json") "gemini") in
  let found := detect_host_mcp_servers (Some h) in
  let named name := list_find_first (fun s => bool_decide (sd_name s = name)) in
  NoDup (map sd_name found) /\ ("clawcage" ∉ map sd_name found) /\
  forall name, named name found =
    match named name claude with Some s => Some s | None => named name gemini end.
Proof.
  intros claude gemini found named. split; [apply retain_first_NoDup|]. split.
  - intros (s & Hs & Hin)%list_elem_of_fmap. apply retain_first_elem in Hin as [Hin _].
    assert (forall path source, s ∈ default [] (parse_mcp_servers_from_file path source) ->
              sd_name s <> "clawcage") as Hne.
    { intros path source. unfold parse_mcp_servers_from_file.
      destruct (read_file path) as [c|]; [|intros H0; by apply not_elem_of_nil in H0].
      destruct (value_from_str c) as [j|]; [|intros H0; by apply not_elem_of_nil in H0].
      destruct (get j "mcpServers" ≫= as_object); [|intros H0; by apply not_elem_of_nil in H0].
      intros H0. by apply entries_not_self in H0 as [? _]. }
    apply elem_of_app in Hin as [Hin|Hin]; by apply Hne in Hin.
  - intros name. unfold found, named, detect_host_mcp_servers.
    rewrite retain_first_spec by apply not_elem_of_nil. apply list_find_first_app.
Qed.

End Detect.
