(* ===== verification/GuestRelay.v ===== *)
(** The guest's relays to the host's proxy and gateway: crates/clawcage-agent/src/net_proxy.rs
    and mcp_server.rs, and the search for the process of a socket, also of port_watch.rs.

    /proc is an argument: the tables of the TCP sockets and the entries of the directory.
    What a relay sends is the name of the process on a line and then the bytes of its
    client; the host's reader of the connection (ClientHello) and the gateway's session
    (McpGateway) recover both ([connection_attributed], [mcp_session_relayed]). A process
    name with a line break ends the line early (example [newline_in_name]). *)

From Stdlib Require Import ZArith Lia Strings.Byte Ascii.
From stdpp Require Import base numbers list gmap sets strings.
From S2P Require Import Prelude RustStr RustText Utf8 SessionTime ClientHello Proto Transport McpGateway.

Definition VSOCK_PORT_SNI_PROXY : Z := 5002.
Definition VSOCK_PORT_MCP : Z := 5003.
Definition LISTEN_PORT_HTTPS : Z := 10443.

(** ** The process of a socket *)

(** An entry of /proc: whether it is a directory, the targets of its descriptors as far as
    they can be read, and its comm file. *)
Record ProcDir := {
  pd_name : string;
  pd_is_dir : bool;
  pd_fds : option (list (option string));
  pd_comm : option string;
}.

Record Proc := { proc_tcp : option string; proc_tcp6 : option string; proc_dirs : option (list ProcDir) }.

(** The first result of a loop that returns or breaks at its first hit. *)
Definition first_of {A B} (f : A -> option B) (l : list A) : option B := head (omap f l).

(** The inode of a line of a socket table whose local port is [port_hex]. *)
Definition line_inode (port_hex line : string) : option string :=
  let parts := split_whitespace line in
  if (10 <=? length parts)%nat then
    local_addr ← parts !! 1%nat;
    if ends_with local_addr (":" +:+ port_hex) then parts !! 9%nat else None
  else None.

Definition table_inode (port_hex : string) (table : option string) : option string :=
  content ← table; first_of (line_inode port_hex) (drop 1 (lines content)).

(** [format!("{:04X}", port)] *)
Definition port_hex (port : Z) : string := smap ascii_upper_char (fixed_digits 16 4 port).

Definition holds (target : string) (e : ProcDir) : bool :=
  match pd_fds e with Some links => bool_decide (Some target ∈ links) | None => false end.

Definition dir_process (target : string) (e : ProcDir) : option string :=
  if pd_is_dir e && all_chars is_ascii_digit (pd_name e) && holds target e then trim <$> pd_comm e else None.

Definition get_process_name (proc : Proc) (client_port : Z) : option string :=
  let port_hex := port_hex client_port in
  inode ← match table_inode port_hex (proc_tcp proc) with Some i => Some i | None => table_inode port_hex (proc_tcp6 proc) end;
  dirs ← proc_dirs proc;
  first_of (dir_process ("socket:[" +:+ inode +:+ "]")) dirs.

(** The port watcher's search: a comm file that cannot be read gives an empty name. *)
Definition dir_pid (target : string) (e : ProcDir) : option (Z * string) :=
  pid ← parse_uint 32 (pd_name e);
  if holds target e then Some (pid, trim (default "" (pd_comm e))) else None.

Definition resolve_pid_for_inode (proc : Proc) (inode : Z) : option (Z * string) :=
  dirs ← proc_dirs proc; first_of (dir_pid ("socket:[" +:+ show_Z inode +:+ "]")) dirs.

(** ** The relay of a connection *)

(** What is sent to the host, of which the name is written by [calls], and the descriptors that
    stay open: [wrapped] is whether the socket could be registered. *)
Definition handle_connection (peer : option Z) (proc : Proc) (a : Attempt) (mode : TransportMode) (wrapped : bool) (calls : list Io) (client : list byte) (fds : gset Z)
  : list byte * gset Z :=
  match peer with
  | None => ([], fds)
  | Some port =>
      let process_name := default "unknown" (get_process_name proc port) in
      match connect a mode VSOCK_PORT_SNI_PROXY fds with
      | (Err _, fds) => ([], fds)
      | (Ok fd, fds) =>
          if negb wrapped then ([], fds ∖ {[fd]})
          else
            match write_all_fd calls (meta_line process_name) with
            | (written, Some (Ok _)) => (written ++ client, fds ∖ {[fd]})
            | (written, _) => (written, fds ∖ {[fd]})
            end
      end
  end.

(** The directions of copy_bidirectional that go on, and whether the host sees the end of what
    the relay sends. *)
Record Copy := { to_host : bool; to_client : bool; host_sees_end : bool }.

Definition copy_new : Copy := {| to_host := true; to_client := true; host_sees_end := false |}.

Inductive CopyEvent := ClientEnds | HostEnds | CopyFails.

(** [AsyncVsock::poll_shutdown] does nothing. *)
Definition poll_shutdown (c : Copy) : Copy := c.

(** A direction that finds its end shuts the other stream's writing; both streams are dropped
    when both have, or one has failed. *)
Definition copy_event (c : Copy) (e : CopyEvent) : Copy :=
  let c := match e with
           | ClientEnds => poll_shutdown {| to_host := false; to_client := to_client c; host_sees_end := host_sees_end c |}
           | HostEnds => {| to_host := to_host c; to_client := false; host_sees_end := host_sees_end c |}
           | CopyFails => {| to_host := false; to_client := false; host_sees_end := host_sees_end c |}
           end in
  if to_host c || to_client c then c else {| to_host := false; to_client := false; host_sees_end := true |}.

(** ** The relay of a client of the gateway *)

(** [comm] is the parent's comm file. *)
Definition get_parent_process_name (comm : option string) : string := default "unknown" (trim <$> comm).

(** Pieces of a stream between line breaks: the last one is what follows the last. *)
Fixpoint split_lf (l : list byte) : list (list byte) :=
  match l with
  | [] => [[]]
  | b :: l => if bool_decide (b = x0a) then [] :: split_lf l else match split_lf l with w :: ws => (b :: w) :: ws | [] => [[b]] end
  end.

Definition strip_cr_bytes (l : list byte) : list byte :=
  match last l with Some b => if bool_decide (b = x0d) then removelast l else l | None => l end.

(** [BufRead::lines]; a line that is not UTF-8 is an error. *)
Fixpoint lines_of (pieces : list (list byte)) : list (option string) :=
  match pieces with
  | [] => []
  | [l] => match l with [] => [] | _ => [from_utf8 l] end
  | l :: pieces => from_utf8 (strip_cr_bytes l) :: lines_of pieces
  end.

Definition buf_lines (l : list byte) : list (option string) := lines_of (split_lf l).

(** Each line with its line break, until a line cannot be read or sent; [calls] are those of
    the writing of each. *)
Fixpoint stdin_to_vsock (ls : list (option string)) (calls : list (list Io)) : list byte :=
  match ls, calls with
  | Some l :: ls, c :: calls =>
      let '(written, r) := write_all_fd c (bytes_of_string l ++ [x0a]) in
      match r with Some (Ok _) => written ++ stdin_to_vsock ls calls | _ => written end
  | _, _ => []
  end.

(** [writes] tells which lines are written and flushed. *)
Fixpoint vsock_to_stdout (ls : list (option string)) (writes : list bool) : list byte :=
  match ls, writes with
  | Some l :: ls, true :: writes => (bytes_of_string l ++ [x0a]) ++ vsock_to_stdout ls writes
  | _, _ => []
  end.

(** The program: what it sends to the host, once it is connected. *)
Definition mcp_main (comm : option string) (meta_calls : list Io) (stdin : list byte) (calls : list (list Io)) : list byte :=
  let '(written, r) := write_all_fd meta_calls (meta_line (get_parent_process_name comm)) in
  match r with Some (Ok _) => written ++ stdin_to_vsock (buf_lines stdin) calls | _ => written end.

(** ** Names *)

Lemma first_of_Some {A B} (f : A -> option B) l b : first_of f l = Some b -> exists a, a ∈ l /\ f a = Some b.
Proof.
  unfold first_of. induction l as [|x l IH]; [done|]. cbn. destruct (f x) as [y|] eqn:E.
  - intros [= <-]. exists x. split; [left|done].
  - intros H. destruct (IH H) as (a & Ha & Hf). exists a. by split; [right|].
Qed.

(** A name that is found is the name of a process that has a socket open whose local port, in
    one of the tables, is the client's. *)
Theorem found_process_has_socket (proc : Proc) (port : Z) (name : string) (Hname : get_process_name proc port = Some name) :
  exists table line addr inode e comm,
    (proc_tcp proc = Some table \/ proc_tcp6 proc = Some table) /\ line ∈ drop 1 (lines table) /\
    split_whitespace line !! 1%nat = Some addr /\ ends_with addr (":" +:+ port_hex port) = true /\ split_whitespace line !! 9%nat = Some inode /\
    (exists dirs, proc_dirs proc = Some dirs /\ e ∈ dirs) /\ holds ("socket:[" +:+ inode +:+ "]") e = true /\ pd_comm e = Some comm /\ name = trim comm.
Proof.
  unfold get_process_name in Hname. set (inode := match table_inode _ (proc_tcp proc) with Some i => Some i | None => _ end) in Hname.
  destruct inode as [i|] eqn:Hi; [|done]. cbn [mbind option_bind] in Hname. destruct (proc_dirs proc) as [dirs|] eqn:Hd; [|done]. cbn [mbind option_bind] in Hname.
  apply first_of_Some in Hname as (e & He & Hp). unfold dir_process in Hp. destruct (pd_is_dir e && _ && _) eqn:Hc; [|done].
  apply andb_true_iff in Hc as [_ Hh]. destruct (pd_comm e) as [comm|] eqn:Hcomm; [|done]. injection Hp as <-.
  assert (exists table, (proc_tcp proc = Some table \/ proc_tcp6 proc = Some table) /\ first_of (line_inode (port_hex port)) (drop 1 (lines table)) = Some i) as (table & Ht & Hl).
  { subst inode. unfold table_inode in Hi. destruct (proc_tcp proc) as [t|]; cbn [mbind option_bind] in Hi.
    - destruct (first_of _ (drop 1 (lines t))) eqn:E; [exists t; split; [by left|congruence]|]. destruct (proc_tcp6 proc) as [t6|]; [|done]. exists t6. by split; [right|].
    - destruct (proc_tcp6 proc) as [t6|]; [|done]. exists t6. by split; [right|]. }
  apply first_of_Some in Hl as (line & Hin & Hl). unfold line_inode in Hl. destruct (10 <=? length _)%nat; [|done]. destruct (split_whitespace line !! 1%nat) as [addr|] eqn:Ha; [|done].
  cbn [mbind option_bind] in Hl. destruct (ends_with addr _) eqn:Hend; [|done]. exists table, line, addr, i, e, comm. repeat split; try done. by exists dirs.
Qed.

(** ** A connection of the guest at the host's proxy *)

(** Whatever way the bytes of the relay arrive, as long as the first read has the prefix, the
    host's proxy records the name of the process that the guest found, after the stray A: of
    its parser, and goes on with exactly the bytes of the process's connection. *)
Theorem connection_attributed (proc : Proc) (port fd : Z) (a : Attempt) (mode : TransportMode) (calls : list Io) (client : list byte) (fds : gset Z)
    (name : string) (c : list byte) (chunks : list (list byte))
    (Hname : default "unknown" (get_process_name proc port) = name) (Hline : x0a ∉ bytes_of_string name) (Hutf8 : utf8 name)
    (Hlen : (length (meta_line name) <= MAX_META_SIZE)%nat) (Hclient : client <> [])
    (Hconn : connect a mode VSOCK_PORT_SNI_PROXY fds = (Ok fd, {[fd]} ∪ fds)) (Hcalls : enough (length (meta_line name)) calls)
    (Hreads : Forall (fun r => r <> []) (c :: chunks)) (Hfirst : bytes_start_with META_PREFIX c = true)
    (Hsent : c ++ concat chunks = (handle_connection (Some port) proc a mode true calls client fds).1) :
  exists buf chunks', peek_connection (map Ok (c :: chunks)) = PeekDone (Some ("A:" +:+ name)) buf (map Ok chunks') /\ buf ++ concat chunks' = client.
Proof.
  unfold handle_connection in Hsent. rewrite Hname, Hconn in Hsent. cbn [negb] in Hsent. pose proof (write_all_fd_whole calls (meta_line name)) as Hw.
  destruct (write_all_fd calls (meta_line name)) as [w r]. destruct Hw as (_ & Hw & He). specialize (He Hcalls). specialize (Hw He). subst r w. cbn [fst] in Hsent.
  destruct (metadata_read name c chunks client Hline Hutf8 Hlen Hreads Hfirst Hclient Hsent) as (buf & cs & H1 & _ & H2). by exists buf, cs.
Qed.

(** The host does not learn that the client has ended or gone: it sees the end of the
    connection only when it has ended its own direction, or the copying has failed. *)
Theorem client_end_not_relayed (events : list CopyEvent) (Hseen : host_sees_end (fold_left copy_event events copy_new) = true) :
  HostEnds ∈ events \/ CopyFails ∈ events.
Proof.
  assert (forall es c, host_sees_end (fold_left copy_event es c) = true -> host_sees_end c = true \/ to_client c = false \/ HostEnds ∈ es \/ CopyFails ∈ es) as H.
  { induction es as [|e es IH]; intros c Hc; [by left|]. cbn [fold_left] in Hc. destruct (IH _ Hc) as [H|[H|[H|H]]]; [..|by do 2 right; left; right|by do 3 right; right].
    all: destruct e, c as [[] [] []]; try done; cbn in H; try (by left); try (by right; left); try (by do 2 right; left; left); by do 3 right; left. }
  destruct (H _ _ Hseen) as [Hn|[Hn|[Hn|Hn]]]; [done|done|by left|by right].
Qed.

(** ** A client of the gateway *)

(** A line that [BufRead::lines] gives back as it is. *)
Definition plain_line (l : string) : Prop := utf8 l /\ x0a ∉ bytes_of_string l /\ last (bytes_of_string l) <> Some x0d.

Definition text_of (ls : list string) : list byte := concat (map (fun l => bytes_of_string l ++ [x0a]) ls).

Lemma split_lf_app a b : x0a ∉ a -> split_lf (a ++ x0a :: b) = a :: split_lf b.
Proof.
  induction a as [|x a IH]; intros Ha; [cbn [app split_lf]; by rewrite bool_decide_true|]. apply not_elem_of_cons in Ha as [Hx Ha].
  cbn [app split_lf]. rewrite bool_decide_false by done. by rewrite IH.
Qed.

Lemma split_lf_nonempty l : split_lf l <> [].
Proof. destruct l as [|b l]; cbn [split_lf]; [done|]. case_bool_decide; [done|]. by destruct (split_lf l). Qed.

Lemma from_utf8_line l : plain_line l -> from_utf8 (strip_cr_bytes (bytes_of_string l)) = Some l.
Proof.
  intros (Hu & _ & Hr). unfold strip_cr_bytes. assert (from_utf8 (bytes_of_string l) = Some l) as Hl.
  { rewrite from_utf8_string_of_bytes; by rewrite string_of_bytes_of_string. }
  destruct (last (bytes_of_string l)) as [b|]; [|done]. by rewrite bool_decide_false by congruence.
Qed.

Lemma buf_lines_text ls : Forall plain_line ls -> buf_lines (text_of ls) = map Some ls.
Proof.
  unfold buf_lines. induction 1 as [|l ls Hl Hls IH]; [done|]. unfold text_of. cbn [map concat]. fold (text_of ls). rewrite <- app_assoc. cbn [app].
  rewrite split_lf_app by apply Hl. pose proof (split_lf_nonempty (text_of ls)). destruct (split_lf (text_of ls)) as [|p ps] eqn:E; [done|].
  change (lines_of (bytes_of_string l :: p :: ps)) with (from_utf8 (strip_cr_bytes (bytes_of_string l)) :: lines_of (p :: ps)). by rewrite from_utf8_line, IH.
Qed.

Lemma stdin_relayed ls calls : Forall2 (fun l c => enough (S (length (bytes_of_string l))) c) ls calls -> stdin_to_vsock (map Some ls) calls = text_of ls.
Proof.
  induction 1 as [|l c ls calls Hc _ IH]; [done|]. cbn [map stdin_to_vsock]. pose proof (write_all_fd_whole c (bytes_of_string l ++ [x0a])) as Hw.
  destruct (write_all_fd c (bytes_of_string l ++ [x0a])) as [w r]. destruct Hw as (_ & Hw & He). rewrite length_app, Nat.add_1_r in He. rewrite (Hw (He Hc)), (He Hc), IH. done.
Qed.

(** The answers of the gateway reach the client's stdout line by line. *)
Lemma stdout_relayed ls : Forall plain_line ls -> vsock_to_stdout (buf_lines (text_of ls)) (repeat true (length ls)) = text_of ls.
Proof.
  intros Hls. rewrite buf_lines_text by done. clear Hls. induction ls as [|l ls IH]; [done|]. cbn [map length repeat vsock_to_stdout]. by rewrite IH.
Qed.

Definition newline : string := String "010" "".

Lemma chars_newline s : chars (s +:+ newline) = chars s ++ [newline].
Proof.
  induction s as [|c s IH]; [done|]. rewrite sapp_cons. cbn [chars]. rewrite IH. destruct (chars s) as [|[|d r] cs]; cbn [app]; [done|done|]. by destruct (is_cont d).
Qed.

Lemma drop_ws_app l : drop_ws (l ++ [newline]) = match drop_ws l with [] => [] | l => l ++ [newline] end.
Proof. induction l as [|c l IH]; [done|]. cbn [app drop_ws]. destruct (is_whitespace c); [apply IH|done]. Qed.

Lemma trim_newline s : trim (s +:+ newline) = trim s.
Proof.
  unfold trim. rewrite chars_newline, drop_ws_app. destruct (drop_ws (chars s)) as [|c l]; [done|]. rewrite reverse_app. done.
Qed.

Lemma meta_line_string name : meta_line name = bytes_of_string (String "000" "CLAWCAGE_META:" +:+ name +:+ newline).
Proof. unfold meta_line. rewrite !bytes_of_string_app. done. Qed.

(** What a client of the gateway writes, lines of text, reaches the gateway as it was written,
    after a line from which the session takes the name of the client's process. *)
Theorem mcp_session_relayed (name : string) (ls : list string) (meta_calls : list Io) (calls : list (list Io))
    (Hname : tidy name) (Hls : Forall plain_line ls) (Hmeta : enough (length (meta_line name)) meta_calls)
    (Hcalls : Forall2 (fun l c => enough (S (length (bytes_of_string l))) c) ls calls) :
  exists meta, mcp_main (Some (name +:+ newline)) meta_calls (text_of ls) calls = bytes_of_string (meta +:+ newline) ++ text_of ls /\
    session_process (meta +:+ newline) = name.
Proof.
  exists (String "000" "CLAWCAGE_META:" +:+ name). unfold mcp_main, get_parent_process_name. cbn [fmap option_fmap option_map default from_option id].
  rewrite trim_newline, trim_tidy by done. pose proof (write_all_fd_whole meta_calls (meta_line name)) as Hw. destruct (write_all_fd meta_calls (meta_line name)) as [w r].
  destruct Hw as (_ & Hw & He). rewrite (Hw (He Hmeta)), (He Hmeta), buf_lines_text, stdin_relayed by done. rewrite <- sapp_assoc, meta_line_string. split; [done|].
  unfold session_process. change (String "000" "CLAWCAGE_META:") with (String "000" "" +:+ "CLAWCAGE_META:"). rewrite <- !sapp_assoc, !strip_prefix_app. by rewrite trim_newline, trim_tidy.
Qed.

(** ** A guest *)

Module Demo.

Definition row (local inode : string) : string := "   1: " +:+ local +:+ " 0100007F:28CB 01 00000000:00000000 00:00000000 00000000  1000        0 " +:+ inode +:+ " 1".
Definition table (rows : list string) : string := "  sl  local_address" +:+ newline +:+ sconcat (map (fun r => r +:+ newline) rows).
Definition process (pid comm : string) (fds : list (option string)) : ProcDir := {| pd_name := pid; pd_is_dir := true; pd_fds := Some fds; pd_comm := Some comm |}.
Definition proc : Proc := {|
  proc_tcp := Some (table [row "0100007F:1F90" "77"; row "0100007F:C350" "4242"]); proc_tcp6 := None;
  proc_dirs := Some [process "self" ("sh" +:+ newline) []; process "12" ("bash" +:+ newline) [None; Some "/dev/null"]; process "13" ("curl" +:+ newline) [Some "/dev/null"; Some "socket:[4242]"]];
|}.

Example found_name : get_process_name proc 50000 = Some "curl" /\ get_process_name proc 50001 = None /\ resolve_pid_for_inode proc 4242 = Some (13, "curl").
Proof. vm_compute. done. Qed.

(** The address is not compared, and the first line of the table wins: another process's
    socket with the same local port. *)
Example other_address_wins : get_process_name {| proc_tcp := Some (table [row "050011AC:C350" "77"; row "0100007F:C350" "4242"]); proc_tcp6 := None;
    proc_dirs := Some [process "12" ("bash" +:+ newline) [Some "socket:[77]"]; process "13" ("curl" +:+ newline) [Some "socket:[4242]"]] |} 50000 = Some "bash".
Proof. vm_compute. reflexivity. Qed.

Definition attempt : Attempt := {| at_socket := 4; at_connect := fun _ => None; last_os_error := ""; at_resolve := fun _ _ => Err ""; at_connect_timeout := fun _ _ => Err ""; at_nodelay := None |}.
Definition hello : list byte := [x16; x03; x01].

(** A process may set a name with a line break: the rest of it goes before its connection. *)
Definition odd : Proc := {| proc_tcp := proc_tcp proc; proc_tcp6 := None; proc_dirs := Some [process "13" ("a" +:+ newline +:+ "b" +:+ newline) [Some "socket:[4242]"]] |}.
Example newline_in_name : peek_connection [Ok (handle_connection (Some 50000) odd attempt (Vsock 2) true [Moved 100] hello ∅).1] = PeekDone (Some "A:a") (bytes_of_string ("b" +:+ newline) ++ hello) [].
Proof. vm_compute. reflexivity. Qed.

Example sent_closed : (handle_connection (Some 50000) proc attempt (Vsock 2) true [Moved 100] hello ∅).2 = ∅ /\ (handle_connection (Some 50000) proc attempt (Vsock 2) false [] hello ∅) = ([], ∅).
Proof. vm_compute. done. Qed.

(** A CR before a line break, and what follows an invalid line, do not get through. *)
Example cr_dropped : mcp_main None [Moved 100] [x61; x0d; x0a; xff; x0a; x62; x0a] [[Moved 10]; [Moved 10]; [Moved 10]] = meta_line "unknown" ++ [x61; x0a].
Proof. vm_compute. reflexivity. Qed.

End Demo.

Lemma found_process_has_socket_witness : exists table, proc_tcp Demo.proc = Some table /\ exists line, line ∈ drop 1 (lines table).
Proof.
  destruct (found_process_has_socket Demo.proc 50000 "curl" (proj1 Demo.found_name)) as (t & l & _ & _ & _ & _ & [Ht|Ht] & Hl & _); [by exists t; split; [|exists l]|discriminate Ht].
Defined.

Lemma connection_attributed_witness : exists buf chunks', peek_connection (map Ok [meta_line "curl"; Demo.hello]) = PeekDone (Some "A:curl") buf (map Ok chunks') /\ buf ++ concat chunks' = Demo.hello.
Proof.
  apply (connection_attributed Demo.proc 50000 4 Demo.attempt (Vsock 2) ([Moved 7; Interrupted] ++ repeat (Moved 1) 19)
    Demo.hello ∅ "curl" (meta_line "curl") [Demo.hello]); try (vm_compute; reflexivity).
  - apply (bool_decide_unpack (x0a ∉ bytes_of_string "curl")). vm_compute. done.
  - apply Nat.leb_le. vm_compute. reflexivity.
  - done.
  - split; [cbn [app repeat]; repeat apply Forall_cons_2; try apply Forall_nil_2; lia || done|apply Nat.leb_le; vm_compute; reflexivity].
  - by repeat constructor.
Defined.

Lemma mcp_session_relayed_witness : exists meta, session_process (meta +:+ newline) = "claude".
Proof.
  destruct (mcp_session_relayed "claude" ["{}"] (repeat (Moved 1) 30) [repeat (Moved 1) 3]) as (meta & _ & Hm).
  - split; [reflexivity|]. by repeat split.
  - apply Forall_cons_2; [|apply Forall_nil_2]. split; [reflexivity|]. split; [apply (bool_decide_unpack (x0a ∉ bytes_of_string "{}")); vm_compute; done|done].
  - split; [cbn; repeat constructor|apply Nat.leb_le; vm_compute; reflexivity].
  - repeat constructor.
  - by exists meta.
Defined.
