(* ===== verification/Provider.v ===== *)
(** Providers and routing: crates/clawcage-core/src/gateway/provider.rs, with the
    [Provider] implementations of anthropic.rs, openai.rs and google.rs.

    A request builder is third-party; what a provider adds to it is a value. *)

From Stdlib Require Import ZArith Lia Ascii.
From stdpp Require Import base numbers list gmap strings.
From S2P Require Import Prelude RustStr Sse Events AnthropicStream OpenAiStream GoogleStream McpTypes BuiltinTools.

Definition ProviderKind_as_str (k : ProviderKind) : string :=
  match k with Anthropic => "anthropic" | OpenAi => "openai" | Google => "google" end.

(** What [inject_key] adds to a request. *)
Inductive Injection := AddHeader (name value : string) | AddQuery (key value : string).

(** A [Provider] object. *)
Record ProviderImpl := {
  kind : ProviderKind;
  upstream_base_url : string;
  inject_key : string -> Injection;
}.

Definition AnthropicProvider : ProviderImpl :=
  {| kind := Anthropic; upstream_base_url := "https://api.anthropic.com";
     inject_key api_key := AddHeader "x-api-key" api_key |}.

Definition OpenAiProvider : ProviderImpl :=
  {| kind := OpenAi; upstream_base_url := "https://api.openai.com";
     inject_key api_key := AddHeader "authorization" ("Bearer " +:+ api_key) |}.

Definition GoogleProvider : ProviderImpl :=
  {| kind := Google; upstream_base_url := "https://generativelanguage.googleapis.com";
     inject_key api_key := AddQuery "key" api_key |}.

Definition upstream_url (p : ProviderImpl) (path : string) (query : option string) : string :=
  match query with
  | Some q => upstream_base_url p +:+ path +:+ "?" +:+ q
  | None => upstream_base_url p +:+ path
  end.

Definition route_provider (path : string) : option (ProviderKind * ProviderImpl) :=
  if starts_with path "/v1/messages" then Some (Anthropic, AnthropicProvider)
  else if starts_with path "/v1beta/" then Some (Google, GoogleProvider)
  else if starts_with path "/v1/responses" || starts_with path "/v1/chat/completions"
  then Some (OpenAi, OpenAiProvider)
  else None.

Definition extract_model_from_path (path : string) : option string :=
  match find_str "/models/" path with
  | None => None
  | Some models_idx =>
      let after := sdrop (models_idx + 8) path in
      match split_char ":" after with
      | model :: _ => if is_empty model then None else Some model
      | [] => None
      end
  end.

Definition tool_origin (name : string) : string :=
  if is_builtin_tool name || str_contains name "__" then "mcp" else "native".

(** ** Stream parsers *)

Section Parsers.
Context `{SerdeJson, !AnthropicWire, !OpenAiWire, !FromJson StreamChunk}.

(** [Box<dyn ProviderStreamParser>] *)
Inductive AnyParser :=
| PAnthropic (p : AnthropicStreamParserWithState)
| POpenAi (p : OpenAiStreamParser)
| PGoogle (p : GoogleStreamParser).

Definition create_parser (k : ProviderKind) : AnyParser :=
  match k with
  | Anthropic => PAnthropic AnthropicStreamParserWithState_new
  | OpenAi => POpenAi OpenAiStreamParser_new
  | Google => PGoogle GoogleStreamParser_new
  end.

#[export] Instance any_stream : ProviderStreamParser AnyParser :=
  fun self sse =>
    match self with
    | PAnthropic p => let '(out, p) := parse_event p sse in (out, PAnthropic p)
    | POpenAi p => let '(out, p) := parse_event p sse in (out, POpenAi p)
    | PGoogle p => let '(out, p) := parse_event p sse in (out, PGoogle p)
    end.

End Parsers.

(** ** Lemmas *)

Lemma split_char_first c w rest :
  contains_char w c = false -> exists tl, split_char c (w +:+ String c rest) = w :: tl.
Proof.
  induction w as [|d w IH]; intros Hw.
  - exists (split_char c rest). rewrite sapp_nil_l. simpl. by rewrite bool_decide_true.
  - rewrite contains_char_cons in Hw. apply orb_false_iff in Hw as [Hd Hw].
    apply bool_decide_eq_false in Hd. destruct (IH Hw) as [tl Htl]. exists tl.
    rewrite sapp_cons. simpl. rewrite bool_decide_false by done. by rewrite Htl.
Qed.

(** ** Properties *)

(** Routing and naming of Gemini calls: a generate path is sent to Google's
    endpoint with the key as a query parameter, and the model is read back from
    the path, for every non-empty model name without a colon and whatever the
    action. *)
Theorem google_path_routed (model action key : string) :
  model <> "" -> contains_char model ":" = false ->
  let path := "/v1beta/models/" +:+ model +:+ ":" +:+ action in
  extract_model_from_path path = Some model /\
  exists p, route_provider path = Some (Google, p) /\ kind p = Google /\
    inject_key p key = AddQuery "key" key /\
    upstream_url p path None = "https://generativelanguage.googleapis.com" +:+ path.
Proof.
  intros Hne Hc path. split.
  - unfold extract_model_from_path.
    assert (find_str "/models/" path = Some 7%nat) as -> by reflexivity.
    change (sdrop (7 + 8) path) with (model +:+ String ":" action). cbv zeta.
    destruct (split_char_first ":" model action Hc) as [tl Htl]. rewrite Htl. by destruct model.
  - exists GoogleProvider. split; [|done]. done.
Qed.

Lemma google_path_routed_witness :
  extract_model_from_path "/v1beta/models/gemini-2.5-flash:generateContent" = Some "gemini-2.5-flash".
Proof.
  apply (google_path_routed "gemini-2.5-flash" "generateContent" "k"); [discriminate|reflexivity].
Defined.
