(* ===== verification/ProxyRequest.v ===== *)
(** One request through the MITM proxy: [handle_request], the telemetry it leaves
    ([TelemetryEmitter::emit] and [emit_model_call]) and the session of requests of a
    connection, of crates/clawcage-core/src/net/mitm_proxy.rs.

    The upstream is data: whether a cached connection is ready, how each step of a new one
    goes, and the response; [None] is a step that does not end before the connection. A body is the list of its polls, after decompression where the
    proxy decompresses. *)

From Stdlib Require Import ZArith Lia Ascii.
From stdpp Require Import base numbers list gmap strings.
From S2P Require Import Prelude RustStr Utf8 Sse Events Trace AiBody AnthropicStream OpenAiStream GoogleStream.
From S2P Require Import RequestParser Pricing Provider NetPolicy EventLog ClientHello MitmParts ProxyConn.

Abbreviation Headers := (list (string * list byte)).
Abbreviation Polls := (list (InnerPoll string)).

Record Request := {
  rq_method : string; rq_path : string; rq_query : option string; rq_headers : Headers; rq_body : Polls;
}.

Record UpRequest := { ur_method : string; ur_uri : string; ur_headers : Headers }.

(** [rs_body gunzip]: the polls of the body, decompressed or not. *)
Record UpResponse := { rs_status : Z; rs_headers : Headers; rs_body : bool -> Polls }.

Record Upstream := {
  up_cached_ready : bool;
  up_server_name : result unit string;
  up_tls : option (result unit string);
  up_handshake : option (result unit string);
  up_build : UpRequest -> result unit string;  (* [builder.body(..)?] *)
  up_send : UpRequest -> option (result UpResponse string);
}.

(** ** The decision and the forwarded request *)

Definition header (name : string) (hs : Headers) : option (list byte) :=
  snd <$> list_find_first (fun h => bool_decide (h.1 = name)) hs.

Definition header_is (name value : string) (hs : Headers) : bool :=
  match header name hs ≫= header_to_str with
  | Some v => bool_decide (smap ascii_lower_char v = value)
  | None => false
  end.

Definition AI_BODY_PREVIEW : nat := Z.to_nat (64 * 1024).

Definition log_limit (pol : NetworkPolicy) : nat :=
  if log_bodies pol then Z.to_nat (max_body_capture pol) else O.

Definition max_preview_of (pol : NetworkPolicy) (ai : option ProviderKind) : nat :=
  match ai with Some _ => Nat.max AI_BODY_PREVIEW (log_limit pol) | None => log_limit pol end.

Definition forwarded_headers (domain : string) (ai : option ProviderKind) (has_user_creds : bool) (hs : Headers)
  : Headers :=
  List.filter (fun h =>
      negb (bool_decide (h.1 = "host"))
      && negb (bool_decide (h.1 = "accept-encoding") && bool_decide (is_Some ai))
      && negb (has_user_creds && (bool_decide (h.1 = "authorization") || bool_decide (h.1 = "x-api-key")))) hs
  ++ [("host", bytes_of_string domain)]
  ++ match ai with Some _ => [("accept-encoding", bytes_of_string "gzip")] | None => [] end.

Definition upstream_request (config : MitmProxyConfig) (domain : string) (ai : option ProviderKind) (req : Request)
  : UpRequest :=
  let full_path := match rq_query req with Some q => rq_path req +:+ "?" +:+ q | None => rq_path req end in
  let has_user_creds := match credentials config with [] => false | _ => true end in
  let '(hs, uri) := inject_credentials domain (credentials config)
                      (forwarded_headers domain ai has_user_creds (rq_headers req)) full_path in
  {| ur_method := rq_method req; ur_uri := uri; ur_headers := hs |}.

(** ** Replies *)

Section Request.
Context `{UnicodeCase, Humantime, SerdeJson, !Gzip, !AnthropicWire, !OpenAiWire, !FromJson StreamChunk, !RequestWire}.
Variable blake3_hex : list byte -> string.
Variable now : SystemTime.
Variable pricing : PricingTable.

Record Emitter := {
  em_domain : string; em_process_name : option string; em_ai_provider : option ProviderKind;
  em_method : string; em_path : string; em_query : option string; em_status_code : option Z;
  em_decision : Decision; em_matched_rule : option string; em_request_headers : option string;
  em_response_headers : option string;
}.

(** The body of a reply: a fixed text, whose bytes are not counted, or the upstream's. *)
Inductive ReplyBody :=
| FixedBody (text : string)
| PlainBody (st : BodyStats)
| AiBodyReply (body : @AiResponseBody AnyParser).

Definition reply_poll (max_size : Z) (b : ReplyBody) (x : InnerPoll string) : OuterPoll string * ReplyBody :=
  match b with
  | FixedBody text => (forward x, FixedBody text)
  | PlainBody st => let '(o, st) := tracked_poll max_size st x in (o, PlainBody st)
  | AiBodyReply body => let '(o, body) := poll_frame body x in (o, AiBodyReply body)
  end.

(** [rp_polls]: what the client will poll out of the body under the wrapper. *)
Record Reply := {
  rp_status : Z; rp_headers : Headers; rp_body : ReplyBody; rp_polls : Polls; rp_emitter : Emitter;
  rp_req_stats : BodyStats;
}.

(** [hd_reply = None]: the service fails, or is still at work when the connection ends. [hd_sent]: the request
    sent upstream; [hd_dialed]: a connection was made for it; [hd_cached]: the connection
    is kept for the next request. *)
Record Handled := {
  hd_reply : option Reply; hd_sent : option UpRequest; hd_dialed : bool; hd_cached : bool;
}.

Definition text_polls (text : string) : Polls := [InnerFrame (DataFrame (bytes_of_string text)); InnerEnd].

Definition make_emitter (domain : string) (process_name : option string) (ai : option ProviderKind) (req : Request)
    (status : Z) (decision : Decision) (rule : string) (resp_headers : option string) : Emitter :=
  {| em_domain := domain; em_process_name := process_name; em_ai_provider := ai; em_method := rq_method req;
     em_path := rq_path req; em_query := rq_query req; em_status_code := Some status; em_decision := decision;
     em_matched_rule := Some rule; em_request_headers := Some (format_headers blake3_hex (rq_headers req));
     em_response_headers := resp_headers |}.

(** A reply the proxy makes itself. *)
Definition local_reply (domain : string) (process_name : option string) (ai : option ProviderKind) (req : Request)
    (status : Z) (decision : Decision) (rule text : string) : Reply :=
  {| rp_status := status; rp_headers := []; rp_body := FixedBody text; rp_polls := text_polls text;
     rp_emitter := make_emitter domain process_name ai req status decision rule None;
     rp_req_stats := BodyStats_new 0 |}.

Definition NL : string := String "010" "".

Definition make_502 (domain : string) (process_name : option string) (ai : option ProviderKind) (req : Request)
    (error : string) : Reply :=
  local_reply domain process_name ai req 502 DecisionError error ("Clawcage: upstream error (" +:+ error +:+ ")" +:+ NL).

(** A new connection, step by step. *)
Definition open_upstream (net : Network) (domain : string) (up : Upstream) : option (result unit string) :=
  match (let? _ := connect_upstream net domain in up_server_name up) with
  | Err e => Some (Err e)
  | Ok _ =>
      match up_tls up with
      | Some (Ok _) => up_handshake up
      | r => r
      end
  end.

Definition create_body (ai : option ProviderKind) (pol : NetworkPolicy) (max_size : Z) : ReplyBody :=
  match ai with
  | Some provider => AiBodyReply (AiResponseBody_new (create_parser provider) (max_preview_of pol ai) max_size)
  | None => PlainBody (BodyStats_new (log_limit pol))
  end.

Definition strip_encoding (hs : Headers) : Headers :=
  List.filter (fun h => negb (bool_decide (h.1 = "content-encoding") || bool_decide (h.1 = "content-length"))) hs.

Definition handle_request (config : MitmProxyConfig) (net : Network) (domain : string) (process_name : option string)
    (ai : option ProviderKind) (cached : bool) (up : Upstream) (req : Request) : Handled :=
  let pol := policy config in
  let eval := NetworkPolicy_evaluate pol domain (rq_method req) in
  let max_size := max_response_body_bytes (limits config) in
  if negb (pd_allowed eval) then
    {| hd_reply := Some (local_reply domain process_name ai req 403 Denied (matched_rule eval)
         ("Clawcage: request denied (" +:+ pd_reason eval +:+ ": " +:+ rq_method req +:+ " " +:+ rq_path req +:+ ")" +:+ NL));
       hd_sent := None; hd_dialed := false; hd_cached := cached |}
  else if header_is "upgrade" "websocket" (rq_headers req) then
    {| hd_reply := Some (local_reply domain process_name ai req 400 Denied "websocket-not-supported"
         ("Clawcage: WebSocket upgrades are not supported (" +:+ rq_method req +:+ " " +:+ rq_path req +:+ ")" +:+ NL));
       hd_sent := None; hd_dialed := false; hd_cached := cached |}
  else
    let reuse := cached && up_cached_ready up in
    match (if reuse then Some (Ok tt) else open_upstream net domain up) with
    | None => {| hd_reply := None; hd_sent := None; hd_dialed := negb reuse; hd_cached := false |}
    | Some (Err e) => {| hd_reply := Some (make_502 domain process_name ai req e); hd_sent := None;
                  hd_dialed := negb reuse; hd_cached := false |}
    | Some (Ok _) =>
        let ureq := upstream_request config domain ai req in
        match up_build up ureq with
        | Err _ => {| hd_reply := None; hd_sent := None; hd_dialed := negb reuse; hd_cached := false |}
        | Ok _ =>
            match up_send up ureq with
            | None => {| hd_reply := None; hd_sent := Some ureq; hd_dialed := negb reuse; hd_cached := false |}
            | Some (Err e) => {| hd_reply := Some (make_502 domain process_name ai req e); hd_sent := Some ureq;
                          hd_dialed := negb reuse; hd_cached := false |}
            | Some (Ok resp) =>
                let is_gzip := bool_decide (is_Some ai) && header_is "content-encoding" "gzip" (rs_headers resp) in
                {| hd_reply := Some
                     {| rp_status := rs_status resp;
                        rp_headers := if is_gzip then strip_encoding (rs_headers resp) else rs_headers resp;
                        rp_body := create_body ai pol max_size; rp_polls := rs_body resp is_gzip;
                        rp_emitter := make_emitter domain process_name ai req (rs_status resp) Allowed (matched_rule eval)
                                        (Some (format_headers blake3_hex (rs_headers resp)));
                        rp_req_stats := (tracked_poll_all max_size (BodyStats_new (max_preview_of pol ai)) (rq_body req)).2 |};
                   hd_sent := Some ureq; hd_dialed := negb reuse; hd_cached := true |}
            end
        end
    end.

(** ** Telemetry *)

Variable model_regex : string -> option string.

(** When the telemetry of a response is written: the clock at its two records, the
    duration of the request, and the identifier drawn for a new trace. *)
Record Completion := { co_net_time : SystemTime; co_call_time : SystemTime; co_duration_ms : Z; co_uuid : string }.

Definition preview_text (p : list byte) : option string :=
  match p with [] => None | _ => Some (from_utf8_lossy p) end.

Definition reply_stats (b : ReplyBody) : Z * list byte :=
  match b with
  | FixedBody _ => (0, [])
  | PlainBody st => (bs_bytes st, bs_preview st)
  | AiBodyReply body => (bytes (stats body), preview (stats body))
  end.

Definition reply_summary (b : ReplyBody) : option StreamSummary :=
  match b with AiBodyReply body => Some (collect_summary (events (ai_state body))) | _ => None end.

Definition emitted_event (em : Emitter) (req : BodyStats) (b : ReplyBody) (co : Completion) : NetEventOf SystemTime Decision :=
  {| ne_timestamp := co_net_time co; ne_domain := em_domain em; ne_port := 443; ne_decision := em_decision em;
     ne_process_name := em_process_name em; ne_pid := None; ne_method := Some (em_method em);
     ne_path := Some (em_path em); ne_query := em_query em; ne_status_code := em_status_code em;
     ne_bytes_sent := bs_bytes req; ne_bytes_received := (reply_stats b).1; ne_duration_ms := co_duration_ms co;
     ne_matched_rule := em_matched_rule em; ne_request_headers := em_request_headers em;
     ne_response_headers := em_response_headers em; ne_request_body_preview := preview_text (bs_preview req);
     ne_response_body_preview := preview_text (reply_stats b).2; ne_conn_type := Some "https-mitm" |}.

Definition stop_reason_str (sr : StopReason) : string :=
  match sr with
  | EndTurn => "end_turn" | ToolUse => "tool_use" | MaxTokens => "max_tokens"
  | ContentFilter => "content_filter" | OtherReason s => s
  end.

Definition tool_call_entry (tc : ToolCall) : ToolCallEntry :=
  {| tce_call_index := tc_index tc; tce_call_id := tc_call_id tc; tce_tool_name := tc_name tc;
     tce_arguments := if is_empty (tc_arguments tc) then None else Some (tc_arguments tc);
     tce_origin := tool_origin (tc_name tc) |}.

Definition tool_response_entry (tr : ToolResultMeta) : ToolResponseEntry :=
  {| tre_call_id := trm_call_id tr; tre_content_preview := Some (content_preview tr); tre_is_error := is_error tr |}.

(** The trace of a call: that of a tool result it answers, else a new one. *)
Definition assign_trace (s : TraceState) (uuid : string) (response_ids call_ids : list string)
    (stop : option string) : string * TraceState :=
  let tid := default uuid (trace_lookup s response_ids) in
  let has_calls := match call_ids with [] => false | _ => true end in
  let is_tool_use := has_calls || match stop with Some r => str_contains r "tool" || bool_decide (r = "tool_use") | None => false end in
  (tid, if is_tool_use && has_calls then register_tool_calls s tid call_ids
        else if negb is_tool_use then complete_trace s tid else s).

Definition non_empty (s : string) : option string := if is_empty s then None else Some s.

(** The usage read off a body that is no stream. *)
Definition body_usage (provider : ProviderKind) (em : Emitter) (summary : option StreamSummary) (body : list byte)
  : option string * option Z * option Z * gmap string Z :=
  match summary ≫= ss_input_tokens with
  | None =>
      match body with
      | [] => no_usage
      | _ => if bool_decide (em_status_code em = Some 200) then parse_non_streaming_usage provider body else no_usage
      end
  | Some _ => no_usage
  end.

Definition emit_model_call (provider : ProviderKind) (em : Emitter) (req : BodyStats) (b : ReplyBody) (co : Completion)
    (s : TraceState) : ModelCallOf SystemTime bool (gmap string Z) * TraceState :=
  let req_meta := parse_request model_regex provider (bs_preview req) in
  let summary := reply_summary b in
  let stop := stop_reason_str <$> (summary ≫= ss_stop_reason) in
  let calls := match summary with Some sm => map tool_call_entry (Events.tool_calls sm) | None => [] end in
  let '(resp_model, resp_input, resp_output, resp_details) := body_usage provider em summary (reply_stats b).2 in
  let model := or_else (rm_model req_meta) (or_else (summary ≫= ss_model) (or_else resp_model (extract_model_from_path (em_path em)))) in
  let input := or_else (summary ≫= ss_input_tokens) resp_input in
  let output := or_else (summary ≫= ss_output_tokens) resp_output in
  let stream_details := match summary with Some sm => Events.usage_details sm | None => ∅ end in
  let details := if decide (stream_details = ∅) then resp_details else stream_details in
  let '(tid, s) := assign_trace s (co_uuid co) (map trm_call_id (tool_results req_meta)) (map tce_call_id calls) stop in
  ({| mc_timestamp := co_call_time co; mc_provider := ProviderKind_as_str provider; mc_model := model;
      mc_process_name := em_process_name em; mc_pid := None; mc_method := em_method em; mc_path := em_path em;
      mc_stream := rm_stream req_meta || str_contains (em_path em) "stream";
      mc_system_prompt_preview := system_prompt_preview req_meta; mc_messages_count := messages_count req_meta;
      mc_tools_count := tools_count req_meta; mc_request_bytes := bs_bytes req;
      mc_request_body_preview := preview_text (bs_preview req); mc_message_id := summary ≫= ss_message_id;
      mc_status_code := em_status_code em; mc_text_content := (ss_text <$> summary) ≫= non_empty;
      mc_thinking_content := (ss_thinking <$> summary) ≫= non_empty; mc_stop_reason := stop;
      mc_input_tokens := input; mc_output_tokens := output; mc_usage_details := details;
      mc_duration_ms := co_duration_ms co; mc_response_bytes := (reply_stats b).1;
      mc_estimated_cost_usd := estimate_cost pricing (ProviderKind_as_str provider) model input output details;
      mc_trace_id := Some tid; mc_tool_calls := calls;
      mc_tool_responses := map tool_response_entry (tool_results req_meta) |}, s).

Definition emit (em : Emitter) (req : BodyStats) (b : ReplyBody) (co : Completion) (s : TraceState)
  : list WriteOp * TraceState :=
  let event := WriteNetEvent (emitted_event em req b co) in
  match em_ai_provider em with
  | Some provider =>
      if negb (bool_decide (em_method em = "HEAD")) && is_llm_api_path provider (em_path em) then
        let '(call, s) := emit_model_call provider em req b co s in ([event; WriteModelCall call], s)
      else ([event], s)
  | None => ([event], s)
  end.

(** ** The session of a connection *)

(** A request of the guest, the upstream it meets, how many polls the client makes of the
    reply before it drops it, and the completion of its telemetry. *)
Record Exchange := { ex_request : Request; ex_upstream : Upstream; ex_polled : nat; ex_completion : Completion }.

(** The telemetry of a response, spawned as a task. *)
Record Task := { tk_emitter : Emitter; tk_req_stats : BodyStats; tk_body : ReplyBody; tk_completion : Completion }.

(** [sn_ended]: the session ends before the idle timeout, which drops it; [sn_order]: the
    order in which the spawned tasks run. *)
Record Session := { sn_exchanges : list Exchange; sn_ended : bool; sn_order : list Task -> list Task }.

Definition reply_tasks (max_size : Z) (r : Reply) (x : Exchange) : list Task :=
  map (fun body => {| tk_emitter := rp_emitter r; tk_req_stats := rp_req_stats r; tk_body := body;
                      tk_completion := ex_completion x |})
    (telemetry_life (reply_poll max_size) (TelemetryBody_new (rp_body r)) (take (ex_polled x) (rp_polls r))).

(** The requests one after the other: the connections made and the tasks spawned. *)
Fixpoint serve_requests (config : MitmProxyConfig) (net : Network) (domain : string) (process_name : option string)
    (cached : bool) (xs : list Exchange) : list string * list Task :=
  match xs with
  | [] => ([], [])
  | x :: xs =>
      let h := handle_request config net domain process_name (detect_ai_provider domain) cached (ex_upstream x) (ex_request x) in
      let dials := if hd_dialed h then [domain] else [] in
      match hd_reply h with
      | None => (dials, [])
      | Some r =>
          let '(dials', tasks) := serve_requests config net domain process_name (hd_cached h) xs in
          (dials ++ dials', reply_tasks (max_response_body_bytes (limits config)) r x ++ tasks)
      end
  end.

Definition run_task (s : ProxyState) (tk : Task) : ProxyState :=
  let '(ops, traces) := emit (tk_emitter tk) (tk_req_stats tk) (tk_body tk) (tk_completion tk) (trace_state s) in
  {| limiter := limiter s; trace_state := traces; log := log s ++ ops; dialed := dialed s |}.

(** The service of [ProxyConn]. *)
Definition serve_session (config : MitmProxyConfig) (session : Connection -> Session) (domain : string)
    (process_name : option string) (cn : Connection) (s : ProxyState) : bool * ProxyState :=
  let sn := session cn in
  let '(dials, tasks) := serve_requests config (cn_net cn) domain process_name false (sn_exchanges sn) in
  (sn_ended sn,
   foldl run_task {| limiter := limiter s; trace_state := trace_state s; log := log s; dialed := dialed s ++ dials |}
     (sn_order sn tasks)).

(** A connection, the requests of its session included. *)
Definition proxy_connection (config : MitmProxyConfig) (session : Connection -> Session) (cn : Connection)
    (s : ProxyState) : ProxyState :=
  handle_connection now (serve_session config session) config cn s.

(** ** Lemmas *)

Lemma dialed_is_allowed config net domain process_name ai cached up req :
  hd_dialed (handle_request config net domain process_name ai cached up req) = true ->
  pd_allowed (NetworkPolicy_evaluate (policy config) domain (rq_method req)) = true.
Proof.
  unfold handle_request. destruct (pd_allowed _); [done|]. by cbn.
Qed.

Lemma serve_requests_dials config net domain process_name cached xs :
  Forall (fun d => exists m, pd_allowed (NetworkPolicy_evaluate (policy config) d m) = true)
    (serve_requests config net domain process_name cached xs).1.
Proof.
  revert cached. induction xs as [|x xs IH]; intros cached; cbn [serve_requests]; [by apply Forall_nil|].
  destruct (hd_dialed _) eqn:Hd.
  - apply dialed_is_allowed in Hd. destruct (hd_reply _) as [r|].
    + specialize (IH (hd_cached (handle_request config net domain process_name (detect_ai_provider domain) cached
                                  (ex_upstream x) (ex_request x)))).
      destruct (serve_requests _ _ _ _ _ xs) as [ds ts]. cbn in *. apply Forall_cons. split; [by eexists|done].
    + cbn. apply Forall_cons. split; [by eexists|by apply Forall_nil].
  - destruct (hd_reply _) as [r|]; [|by apply Forall_nil].
    specialize (IH (hd_cached (handle_request config net domain process_name (detect_ai_provider domain) cached
                                  (ex_upstream x) (ex_request x)))).
    by destruct (serve_requests _ _ _ _ _ xs) as [ds ts].
Qed.

Lemma run_tasks_dialed s tks : dialed (foldl run_task s tks) = dialed s.
Proof.
  revert s. induction tks as [|tk tks IH]; intros s; cbn [foldl]; [done|]. rewrite IH. unfold run_task.
  by destruct (emit _ _ _ _ _).
Qed.

(** The hosts dialed grow by hosts the policy allows for some method. *)
Definition dials_allowed (pol : NetworkPolicy) (s s' : ProxyState) : Prop :=
  exists l, dialed s' = dialed s ++ l /\
    Forall (fun d => exists m, pd_allowed (NetworkPolicy_evaluate pol d m) = true) l.

Lemma dials_allowed_same pol s s' : dialed s' = dialed s -> dials_allowed pol s s'.
Proof. intros Heq. exists []. rewrite app_nil_r. split; [done|by apply Forall_nil]. Qed.

Lemma serve_session_dials config session domain process_name cn s :
  dials_allowed (policy config) s (serve_session config session domain process_name cn s).2.
Proof.
  unfold serve_session.
  pose proof (serve_requests_dials config (cn_net cn) domain process_name false (sn_exchanges (session cn))) as Hd.
  destruct (serve_requests _ _ _ _ _ _) as [ds ts]. exists ds. cbn [snd]. by rewrite run_tasks_dialed.
Qed.

Lemma handle_tunnel_dials domain process_name cn s :
  dialed (handle_tunnel now domain process_name cn s).2 = dialed s ++ [domain].
Proof.
  unfold handle_tunnel. destruct (connect_upstream _ _); [|done]. destruct (cn_replay cn); [|done].
  destruct (cn_copy cn) as [r|]; [|done]. by destruct (match r with Ok counts => counts | Err _ => (0, 0) end).
Qed.

Lemma tunnel_dials_allowed pol domain process_name cn s :
  pd_allowed (NetworkPolicy_evaluate pol domain "CONNECT") = true ->
  dials_allowed pol s (handle_tunnel now domain process_name cn s).2.
Proof.
  intros Ha. exists [domain]. rewrite handle_tunnel_dials. split; [done|].
  apply Forall_cons. split; [by exists "CONNECT"|by apply Forall_nil].
Qed.

Lemma route_dials config session cn process_name buf sni s :
  dials_allowed (policy config) s (route now (serve_session config session) config cn process_name buf sni s).2.
Proof.
  unfold route. cbv zeta.
  assert (dials_allowed (policy config) s
    (match cn_tls cn buf with
     | None => (Waiting, s)
     | Some (Err e) => (Finished (Err (default "" (cn_resolver_domain cn), DecisionError, "TLS handshake: " +:+ e)), s)
     | Some (Ok _) =>
         match cn_resolver_domain cn with
         | None => (Finished (Err ("", Denied, "no SNI in ClientHello")), s)
         | Some domain =>
             let '(ended, s) := serve_session config session domain process_name cn s in
             (if ended then Finished (Ok domain) else Waiting, s)
         end
     end).2) as Hm.
  { destruct (cn_tls cn buf) as [[]|]; try (by apply dials_allowed_same).
    destruct (cn_resolver_domain cn) as [d|]; [|by apply dials_allowed_same].
    pose proof (serve_session_dials config session d process_name cn s) as Hs. by destruct (serve_session _ _ _ _ _ _). }
  destruct (negb (enabled config)).
  - destruct sni as [d|]; [|by apply dials_allowed_same].
    destruct (pd_allowed _) eqn:Ha; [by apply tunnel_dials_allowed|by apply dials_allowed_same].
  - destruct (tunnel_non_ai config), sni as [d|]; try exact Hm.
    destruct (detect_ai_provider d); [exact Hm|].
    destruct (pd_allowed _) eqn:Ha; [by apply tunnel_dials_allowed|by apply dials_allowed_same].
Qed.

(** ** Properties *)

(** C1: No connection of the guest, whatever bytes and requests it sends and however the
    tunnel, the TLS session and the upstreams behave, makes the host dial a server that the
    network policy does not allow for some method; so a fully blocked host is never dialed. *)
Theorem only_allowed_hosts_dialed (config : MitmProxyConfig) (session : Connection -> Session)
    (cn : Connection) (s : ProxyState) :
  exists l, dialed (proxy_connection config session cn s) = dialed s ++ l /\
    forall d, (d ∈ l) -> exists m, pd_allowed (NetworkPolicy_evaluate (policy config) d m) = true.
Proof.
  enough (dials_allowed (policy config) s (proxy_connection config session cn s)) as (l & Hl & Hf)
    by (exists l; split; [done|]; by apply Forall_forall).
  unfold proxy_connection, handle_connection. destruct (cn_permit cn); [|by apply dials_allowed_same]. cbn [negb].
  assert (dials_allowed (policy config) s (handle_inner now (serve_session config session) config cn s).2) as Hi.
  { unfold handle_inner. destruct (cn_setup cn); [|by apply dials_allowed_same].
    destruct (peek_connection (cn_reads cn)); try (by apply dials_allowed_same).
    destruct (extract_sni_from_client_hello _) as [domain| | |] eqn:?; try (by apply dials_allowed_same); [|apply route_dials].
    destruct (RateLimiterMap_check _ _ _ _ _) as [[] l]; [|by apply dials_allowed_same].
    destruct (route_dials config session cn process_name initial_buf (Some domain) (set_limiter l s)) as (ds & Hd & Hf).
    exists ds. by rewrite Hd. }
  destruct (handle_inner _ _ _ _ _) as [[[d|[[d dec] reason]]| |] s']; exact Hi.
Qed.

Lemma fixed_body_at_end max_size text xs :
  state_at_end (reply_poll max_size) (FixedBody text) xs = FixedBody text.
Proof. induction xs as [|x xs IH]; cbn [state_at_end reply_poll]; [done|]. by destruct x. Qed.

(** The telemetry task of a reply, which there is exactly one of. *)
Definition reply_task (max_size : Z) (r : Reply) (x : Exchange) : Task :=
  {| tk_emitter := rp_emitter r; tk_req_stats := rp_req_stats r;
     tk_body := state_at_end (reply_poll max_size) (rp_body r) (take (ex_polled x) (rp_polls r));
     tk_completion := ex_completion x |}.

Lemma reply_tasks_one max_size r x : reply_tasks max_size r x = [reply_task max_size r x].
Proof. unfold reply_tasks. by rewrite telemetry_life_once. Qed.

Lemma emit_event em req b co s :
  exists calls, (emit em req b co s).1 = WriteNetEvent (emitted_event em req b co) :: calls.
Proof.
  unfold emit. destruct (em_ai_provider em) as [k|]; [|by eexists]. destruct (_ && _); [|by eexists].
  destruct (emit_model_call _ _ _ _ _ _). by eexists.
Qed.

(** C10: A request that the policy denies, or that asks for a WebSocket, is answered by the
    proxy itself with 403 or 400: nothing is sent upstream, no connection is made or
    dropped, and however the client reads the reply its telemetry is written once, with the
    decision Denied, the rule, and no body bytes. *)
Theorem refused_request_reported (config : MitmProxyConfig) (net : Network) (domain : string)
    (process_name : option string) (cached : bool) (x : Exchange) (s : TraceState) :
  let req := ex_request x in
  let eval := NetworkPolicy_evaluate (policy config) domain (rq_method req) in
  let status := if pd_allowed eval then 400 else 403 in
  pd_allowed eval = false \/ header_is "upgrade" "websocket" (rq_headers req) = true ->
  exists r, handle_request config net domain process_name (detect_ai_provider domain) cached (ex_upstream x) req =
      {| hd_reply := Some r; hd_sent := None; hd_dialed := false; hd_cached := cached |} /\ rp_status r = status /\
    exists tk calls, reply_tasks (max_response_body_bytes (limits config)) r x = [tk] /\
      (emit (tk_emitter tk) (tk_req_stats tk) (tk_body tk) (tk_completion tk) s).1 =
        WriteNetEvent {| ne_timestamp := co_net_time (ex_completion x); ne_domain := domain; ne_port := 443;
          ne_decision := Denied; ne_process_name := process_name; ne_pid := None;
          ne_method := Some (rq_method req); ne_path := Some (rq_path req); ne_query := rq_query req;
          ne_status_code := Some status; ne_bytes_sent := 0; ne_bytes_received := 0;
          ne_duration_ms := co_duration_ms (ex_completion x);
          ne_matched_rule := Some (if pd_allowed eval then "websocket-not-supported" else matched_rule eval);
          ne_request_headers := Some (format_headers blake3_hex (rq_headers req)); ne_response_headers := None;
          ne_request_body_preview := None; ne_response_body_preview := None; ne_conn_type := Some "https-mitm" |} :: calls.
Proof.
  intros req eval status Hr. unfold handle_request. fold eval.
  assert (forall (status : Z) (rule text : string),
    let r := local_reply domain process_name (detect_ai_provider domain) req status Denied rule text in
    exists tk calls, reply_tasks (max_response_body_bytes (limits config)) r x = [tk] /\
      (emit (tk_emitter tk) (tk_req_stats tk) (tk_body tk) (tk_completion tk) s).1 =
        WriteNetEvent (emitted_event (rp_emitter r) (BodyStats_new 0) (FixedBody text) (ex_completion x)) :: calls) as Hl.
  { intros st rule text r. rewrite reply_tasks_one. eexists.
    destruct (emit_event (rp_emitter r) (BodyStats_new 0) (FixedBody text) (ex_completion x) s) as [calls Hc].
    exists calls. split; [done|]. unfold reply_task. cbn [tk_emitter tk_req_stats tk_body tk_completion rp_body r local_reply].
    by rewrite fixed_body_at_end. }
  destruct (pd_allowed eval) eqn:Ha; cbn [negb].
  - destruct Hr as [|Hw]; [done|]. fold req. rewrite Hw. eexists. split; [done|]. split; [done|]. apply Hl.
  - eexists. split; [done|]. split; [done|]. apply Hl.
Qed.

(** ** The forwarded request *)

Lemma handle_request_sent config net domain process_name ai cached up req u :
  hd_sent (handle_request config net domain process_name ai cached up req) = Some u ->
  u = upstream_request config domain ai req /\
  pd_allowed (NetworkPolicy_evaluate (policy config) domain (rq_method req)) = true.
Proof.
  unfold handle_request. destruct (pd_allowed _); cbn [negb hd_sent]; [|done].
  destruct (header_is _ _ _); cbn [hd_sent]; [done|]. cbv zeta.
  destruct (cached && up_cached_ready up); [|destruct (open_upstream _ _ _) as [[]|]; cbn [hd_sent]; [|done|done]];
    (destruct (up_build _ _); cbn [hd_sent]; [|done]; by destruct (up_send _ _) as [[]|]; cbn [hd_sent]; intros [= <-]).
Qed.

Definition credential_header (name : string) : Prop := name = "authorization" \/ name = "x-api-key".

Lemma forwarded_no_credential domain ai hs name v :
  credential_header name -> ~ (name, v) ∈ forwarded_headers domain ai true hs.
Proof.
  intros Hn Hin. unfold forwarded_headers in Hin. rewrite !elem_of_app in Hin. destruct Hin as [Hin|[Hin|Hin]].
  - rewrite list_elem_of_In, filter_In in Hin. destruct Hin as [_ Hin]. cbn in Hin.
    destruct Hn as [-> | ->]; cbn in Hin; rewrite ?andb_false_r in Hin; done.
  - apply list_elem_of_singleton in Hin as [= -> ->]. by destruct Hn.
  - destruct ai; [|by apply not_elem_of_nil in Hin]. apply list_elem_of_singleton in Hin as [= -> ->]. by destruct Hn.
Qed.

Lemma forwarded_kept domain ai creds hs name v :
  ~ credential_header name -> name <> "host" -> name <> "accept-encoding" -> (name, v) ∈ hs ->
  (name, v) ∈ forwarded_headers domain ai creds hs.
Proof.
  intros Hn Hh Ha Hin. unfold forwarded_headers. apply elem_of_app. left.
  rewrite list_elem_of_In, filter_In, <- list_elem_of_In. split; [done|]. unfold credential_header in Hn. cbn [fst].
  rewrite !(bool_decide_false (name = _)) by (intros ->; first [by apply Hn; left|by apply Hn; right|done]). by destruct creds.
Qed.

Lemma filter_filter_none {A} (f g : A -> bool) l :
  (forall x, f x = true -> g x = false) -> List.filter f (List.filter g l) = [].
Proof.
  intros Hfg. induction l as [|x l IH]; cbn [List.filter]; [done|]. destruct (g x) eqn:Hg; [|done].
  cbn [List.filter]. destruct (f x) eqn:Hf; [|done]. apply Hfg in Hf. congruence.
Qed.

Lemma forwarded_host domain ai creds hs :
  List.filter (fun h => bool_decide (h.1 = "host")) (forwarded_headers domain ai creds hs) = [("host", bytes_of_string domain)].
Proof.
  unfold forwarded_headers. rewrite !List.filter_app, filter_filter_none.
  - destruct ai; reflexivity.
  - intros h ->. done.
Qed.

(** C5: Once credentials are configured, no [authorization] or [x-api-key] header of the
    guest leaves the host: the forwarded request carries one only when it is the one of a
    configured entry covering the domain. Nothing else of the request is replaced: it keeps
    the method; every header but these two, [host] and [accept-encoding] is forwarded as the
    guest sent it (an [x-goog-api-key], say); and so are the path and the query (a [key=]
    included), to which only a query credential covering the domain is appended. Its only
    [host] header is the domain that the policy has allowed for that method, provided no
    configured credential covering the domain is itself a host header. *)
Theorem guest_keys_replaced (config : MitmProxyConfig) (net : Network) (domain : string)
    (process_name : option string) (ai : option ProviderKind) (cached : bool) (up : Upstream) (req : Request) (u : UpRequest) :
  hd_sent (handle_request config net domain process_name ai cached up req) = Some u ->
  credentials config <> [] ->
  pd_allowed (NetworkPolicy_evaluate (policy config) domain (ur_method u)) = true /\ ur_method u = rq_method req /\
  (forall name v, credential_header name -> ((name, v) ∈ ur_headers u) ->
    exists pattern name' value, ((pattern, CredHeader name' value) ∈ credentials config) /\ covers pattern domain /\
      name = smap ascii_lower_char name' /\ v = bytes_of_string value) /\
  (forall name v, ~ credential_header name -> name <> "host" -> name <> "accept-encoding" ->
    ((name, v) ∈ rq_headers req) -> ((name, v) ∈ ur_headers u)) /\
  (exists added, ur_uri u = match rq_query req with Some q => rq_path req +:+ "?" +:+ q | None => rq_path req end +:+ added /\
    (added = "" \/ exists pattern key value sep, ((pattern, CredQueryParam key value) ∈ credentials config) /\
       covers pattern domain /\ added = sep +:+ key +:+ "=" +:+ value)) /\
  ((forall pattern name value, ((pattern, CredHeader name value) ∈ credentials config) ->
      covers pattern domain -> smap ascii_lower_char name <> "host") ->
    List.filter (fun h => bool_decide (h.1 = "host")) (ur_headers u) = [("host", bytes_of_string domain)]).
Proof.
  intros Hs Hc. apply handle_request_sent in Hs as [-> Ha]. unfold upstream_request.
  assert (match credentials config with [] => false | _ => true end = true) as -> by (by destruct (credentials config)).
  unfold inject_credentials.
  pose proof (forwarded_host domain ai true (rq_headers req)) as Hh.
  pose proof (forwarded_kept domain ai true (rq_headers req)) as Hk.
  destruct (credential_for domain (credentials config)) as [[cn cv|ck cv]|] eqn:Ec; cbn [ur_method ur_headers ur_uri].
  - apply credential_for_Some in Ec as (pattern & Hin & Hcov). split; [done|]. split; [done|]. split; [|split].
    + intros name v Hn [Hf|Hi]%elem_of_app; [by apply forwarded_no_credential in Hf|].
      apply list_elem_of_singleton in Hi as [= -> ->]. by exists pattern, cn, cv.
    + intros name v N1 N2 N3 Hin'. apply elem_of_app. left. by apply Hk.
    + split; [exists ""; split; [by rewrite sapp_nil_r|by left]|]. intros Hnh. rewrite List.filter_app, Hh. cbn [List.filter fst]. rewrite bool_decide_false; [done|]. by eapply Hnh.
  - apply credential_for_Some in Ec as (pattern & Hin & Hcov).
    repeat split; try done; [intros name v Hn Hf; by apply forwarded_no_credential in Hf|].
    eexists. split; [reflexivity|right]. by exists pattern, ck, cv, (if contains_char
      match rq_query req with Some q => rq_path req +:+ "?" +:+ q | None => rq_path req end "?" then "&" else "?").
  - repeat split; try done; [intros name v Hn Hf; by apply forwarded_no_credential in Hf|].
    exists "". split; [by rewrite sapp_nil_r|by left].
Qed.

(** ** Traces *)

Definition task_ops (s : ProxyState) (tk : Task) : list WriteOp :=
  (emit (tk_emitter tk) (tk_req_stats tk) (tk_body tk) (tk_completion tk) (trace_state s)).1.

Definition call_ids (c : ModelCallOf SystemTime bool (gmap string Z)) : list string := map tce_call_id (mc_tool_calls c).

(** What a task does to the traces, in terms of the call it logs. *)
Lemma run_task_traces s tk :
  log (run_task s tk) = log s ++ task_ops s tk /\
  ((exists e, task_ops s tk = [WriteNetEvent e] /\ trace_state (run_task s tk) = trace_state s) \/
   exists e c t, task_ops s tk = [WriteNetEvent e; WriteModelCall c] /\ mc_trace_id c = Some t /\
     t = default (co_uuid (tk_completion tk)) (trace_lookup (trace_state s) (map tre_call_id (mc_tool_responses c))) /\
     trace_state (run_task s tk) =
       (assign_trace (trace_state s) (co_uuid (tk_completion tk)) (map tre_call_id (mc_tool_responses c)) (call_ids c)
          (mc_stop_reason c)).2).
Proof.
  unfold run_task, task_ops, emit.
  destruct (em_ai_provider (tk_emitter tk)) as [k|]; [|split; [done|left; by eexists]].
  destruct (_ && _); [|split; [done|left; by eexists]].
  destruct (emit_model_call k _ _ _ _ (trace_state s)) as [c tr] eqn:Ec. cbn [fst log trace_state]. split; [done|].
  right. exists (emitted_event (tk_emitter tk) (tk_req_stats tk) (tk_body tk) (tk_completion tk)), c.
  unfold emit_model_call in Ec. destruct (body_usage _ _ _ _) as [[[rm ri] ro] rd].
  destruct (assign_trace _ _ _ _ _) as [tid tr'] eqn:Ea. injection Ec as <- <-.
  exists tid. cbn [mc_trace_id mc_tool_responses mc_tool_calls mc_stop_reason call_ids].
  assert (forall l, map tre_call_id (map tool_response_entry l) = map trm_call_id l) as Hr
    by (intros l; by rewrite map_map).
  unfold call_ids. cbn [mc_tool_calls]. rewrite Hr. split; [done|]. split; [done|]. rewrite Ea. split; [|done].
  unfold assign_trace in Ea. by injection Ea as <- _.
Qed.

Lemma assign_trace_keeps s uuid response_ids ids stop id t :
  pending_calls s !! id = Some t -> (assign_trace s uuid response_ids ids stop).1 <> t -> ~ id ∈ ids ->
  pending_calls (assign_trace s uuid response_ids ids stop).2 !! id = Some t.
Proof.
  unfold assign_trace. cbn [fst snd]. intros Hp Ht Hid. destruct (_ && _).
  - unfold register_tool_calls. cbn [pending_calls]. by rewrite register_lookup, bool_decide_false.
  - destruct (negb _); [|done]. by rewrite complete_lookup, Hp, bool_decide_false.
Qed.

Lemma assign_trace_registers s uuid response_ids ids stop id :
  id ∈ ids ->
  pending_calls (assign_trace s uuid response_ids ids stop).2 !! id = Some (assign_trace s uuid response_ids ids stop).1.
Proof.
  intros Hid. unfold assign_trace. cbn [fst snd].
  destruct ids as [|i ids]; [by apply not_elem_of_nil in Hid|]. cbn [orb andb].
  unfold register_tool_calls. cbn [pending_calls]. by rewrite register_lookup, bool_decide_true.
Qed.

(** The logged calls neither belong to the trace nor issue the id again. *)
Definition avoids (t : option string) (id : string) (ops : list WriteOp) : Prop :=
  forall c, (WriteModelCall c ∈ ops) -> mc_trace_id c <> t /\ ~ id ∈ call_ids c.

Lemma run_task_keeps s tk id t :
  pending_calls (trace_state s) !! id = Some t -> avoids (Some t) id (task_ops s tk) ->
  pending_calls (trace_state (run_task s tk)) !! id = Some t.
Proof.
  intros Hp Ha. destruct (run_task_traces s tk) as [_ [(e & _ & ->)|(e & c & t' & Ho & Ht & Ht' & ->)]]; [done|].
  rewrite Ho in Ha. destruct (Ha c ltac:(by right; left)) as [Hne Hid].
  apply assign_trace_keeps; [done| |done]. unfold assign_trace. cbn [fst]. rewrite <- Ht'. congruence.
Qed.

Lemma run_tasks_keep tks s id t :
  pending_calls (trace_state s) !! id = Some t ->
  (exists ops, log (foldl run_task s tks) = log s ++ ops /\ avoids (Some t) id ops) ->
  pending_calls (trace_state (foldl run_task s tks)) !! id = Some t.
Proof.
  revert s. induction tks as [|tk tks IH]; intros s Hp (ops & Hl & Ha); cbn [foldl] in *; [done|].
  assert (exists ops', log (foldl run_task (run_task s tk) tks) = log (run_task s tk) ++ ops') as (ops' & Hl').
  { clear. generalize (run_task s tk) as s0. induction tks as [|tk' tks IH]; intros s0; cbn [foldl].
    - exists []. by rewrite app_nil_r.
    - destruct (IH (run_task s0 tk')) as (o & ->). destruct (run_task_traces s0 tk') as [-> _].
      eexists. by rewrite <- app_assoc. }
  pose proof Hl' as Hl2. destruct (run_task_traces s tk) as [Hlt _]. rewrite Hlt, Hl, <- app_assoc in Hl2.
  apply app_inv_head in Hl2 as ->. apply IH.
  - apply run_task_keeps; [done|]. intros c Hc. apply Ha, elem_of_app. by left.
  - exists ops'. split; [done|]. intros c Hc. apply Ha, elem_of_app. by right.
Qed.

(** C36: A conversation keeps its trace: when a logged model call asked for the tool call
    [id], the later call whose request answers [id] first is logged with the same trace,
    whatever calls of other conversations were logged in between. *)
Theorem trace_continues (s : ProxyState) (tk1 : Task) (mid : list Task) (tk2 : Task) (ops : list WriteOp)
    (c1 c2 : ModelCallOf SystemTime bool (gmap string Z)) (id : string) :
  let s1 := run_task s tk1 in
  let s2 := foldl run_task s1 mid in
  (WriteModelCall c1 ∈ task_ops s tk1) -> (id ∈ call_ids c1) ->
  log s2 = log s1 ++ ops -> avoids (mc_trace_id c1) id ops ->
  (WriteModelCall c2 ∈ task_ops s2 tk2) -> head (map tre_call_id (mc_tool_responses c2)) = Some id ->
  mc_trace_id c2 = mc_trace_id c1.
Proof.
  intros s1 s2 Hc1 Hid Hl Ha Hc2 Hh.
  destruct (run_task_traces s tk1) as [_ [(e & Ho & _)|(e & c & t & Ho & Ht & Htid & Htr)]];
    rewrite Ho in Hc1; [by apply list_elem_of_singleton in Hc1|].
  apply elem_of_cons in Hc1 as [|Hc1]; [done|]. apply list_elem_of_singleton in Hc1 as [= ->].
  assert (pending_calls (trace_state s1) !! id = Some t) as Hp1.
  { subst s1. rewrite Htr. rewrite assign_trace_registers by done. unfold assign_trace. cbn [fst]. by rewrite <- Htid. }
  assert (pending_calls (trace_state s2) !! id = Some t) as Hp2.
  { subst s2. apply run_tasks_keep; [done|]. exists ops. split; [done|]. by rewrite <- Ht. }
  destruct (run_task_traces s2 tk2) as [_ [(e' & Ho' & _)|(e' & c' & t' & Ho' & Ht' & Htid' & _)]];
    rewrite Ho' in Hc2; [by apply list_elem_of_singleton in Hc2|].
  apply elem_of_cons in Hc2 as [|Hc2]; [done|]. apply list_elem_of_singleton in Hc2 as [= ->].
  rewrite Ht', Ht, Htid'. f_equal. destruct (map tre_call_id (mc_tool_responses c')) as [|i ids]; [done|].
  injection Hh as ->. cbn [trace_lookup]. by rewrite Hp2.
Qed.
End Request.
