(* ===== verification/ModelTelemetry.v ===== *)
(** The parts of the proxy composed: from the bytes of a streamed Anthropic response to the
    model call in the event log. *)

From Stdlib Require Import ZArith Lia Ascii.
From stdpp Require Import base numbers list gmap strings.
From S2P Require Import Prelude RustStr Utf8 Sse Events Trace AiBody AnthropicStream OpenAiStream GoogleStream.
From S2P Require Import RequestParser Pricing Provider NetPolicy EventLog ClientHello MitmParts ProxyConn ProxyRequest.

Section ModelTelemetry.
Context `{UnicodeCase, Humantime, SerdeJson, !Gzip, !AnthropicWire, !OpenAiWire, !FromJson StreamChunk, !RequestWire}.
Variable blake3_hex : list byte -> string.
Variable pricing : PricingTable.
Variable model_regex : string -> option string.

Abbreviation handle := (handle_request blake3_hex).

Lemma ai_body_at_end max_size (body : @AiResponseBody AnyParser) (xs : Polls) rest :
  Forall not_end xs ->
  state_at_end (reply_poll max_size) (AiBodyReply body) (xs ++ InnerEnd :: rest) =
    AiBodyReply (poll_all body (xs ++ [InnerEnd])).2.
Proof.
  intros Hne. revert body. induction Hne as [|x xs Hx _ IH]; intros body; cbn [app state_at_end poll_all reply_poll].
  - cbn [poll_frame]. done.
  - destruct (poll_frame body x) as [o body'] eqn:E.
    assert (o <> OuterEnd) as Ho.
    { destruct x as [[chunk|]| | |]; cbn [poll_frame] in E; try (by injection E as <- _).
      destruct (_ <? _); by injection E as <- _. }
    specialize (IH body'). destruct (poll_all body' (xs ++ [InnerEnd])) as [os b2]. cbn [snd] in *. by destruct o.
Qed.

Lemma handle_request_allowed config net domain process_name ai cached up req r :
  hd_reply (handle config net domain process_name ai cached up req) = Some r ->
  em_decision (rp_emitter r) = Allowed ->
  em_ai_provider (rp_emitter r) = ai /\ em_method (rp_emitter r) = rq_method req /\ em_path (rp_emitter r) = rq_path req /\
  rp_body r = create_body ai (policy config) (max_response_body_bytes (limits config)).
Proof.
  unfold handle_request. cbv zeta. destruct (pd_allowed _); cbn [negb hd_reply]; [|intros [= <-]; done].
  destruct (header_is _ _ _); cbn [hd_reply]; [intros [= <-]; done|].
  destruct (cached && up_cached_ready up); [|destruct (open_upstream _ _ _) as [[]|]; cbn [hd_reply]; [|intros [= <-]; done|done]];
    (destruct (up_build _ _); cbn [hd_reply]; [|done];
     destruct (up_send _ _) as [[]|]; cbn [hd_reply]; [intros [= <-]; done|intros [= <-]; done|done]).
Qed.

Lemma any_parser_anthropic p l :
  parse_events (PAnthropic p) l = ((parse_events p l).1, PAnthropic (parse_events p l).2).
Proof.
  revert p. induction l as [|e l IH]; intros p; cbn [parse_events]; [done|].
  unfold parse_event at 1, any_stream at 1. destruct (parse_event p e) as [o p']. rewrite IH.
  by destruct (parse_events p' l).
Qed.

Lemma last_usage_reported m : is_Some (mi_usage (am_start m) ≫= au_input_tokens) -> is_Some (last_usage au_input_tokens m).
Proof.
  unfold last_usage, usages. destruct (mi_usage (am_start m)) as [u|]; [|by intros [? ?]]. cbn [omap list_omap map id]. rewrite last_some_cons. intros [n Hn]. cbn in Hn. rewrite Hn.
  destruct (last_some _); by eexists.
Qed.

(** C3: A whole message that the Anthropic API streams is logged as it was sent. The message
    is what its events decode to: a start that reports input tokens, blocks of text,
    thinking, tool use or a kind the proxy does not know, each with any deltas, decoded or
    not, any message_delta events and the stop; pings and events of other types come anywhere
    between. However the bytes of the events are split into frames, once the client has read
    a reply of at most the size limit to its end, the log gets one network event and one
    model call, with the length of the body, the message's text and thinking, every tool call
    with its whole argument text, the last token counts and stop reason it reports; the
    model is the request's, or else the message's, or else that of the path. *)
Theorem streamed_message_logged (config : MitmProxyConfig) (net : Network) (domain : string)
    (process_name : option string) (cached : bool) (x : Exchange) (s : ProxyState) (r : Reply) (m : message)
    (es : list wire_event) (xs : Polls) :
  let req := ex_request x in
  let max_size := max_response_body_bytes (limits config) in
  hd_reply (handle config net domain process_name (Some Anthropic) cached (ex_upstream x) req) = Some r ->
  em_decision (rp_emitter r) = Allowed -> rq_method req <> "HEAD" -> is_llm_api_path Anthropic (rq_path req) = true ->
  rp_polls r = xs ++ [InnerEnd] -> Forall not_end xs -> (length (rp_polls r) <= ex_polled x)%nat ->
  body_len xs <= max_size < 2 ^ 64 ->
  concat (map chunk_of xs) = render es -> Forall event_ok es ->
  message_streamed m (List.filter of_message (map event_of es)) -> is_Some (mi_usage (am_start m) ≫= au_input_tokens) ->
  exists tk e c,
    reply_tasks max_size r x = [tk] /\
    task_ops pricing model_regex s tk = [WriteNetEvent e; WriteModelCall c] /\
    ne_bytes_received e = body_len xs /\ mc_response_bytes c = body_len xs /\
    mc_model c = or_else (rm_model (parse_request model_regex Anthropic (bs_preview (rp_req_stats r)))) (or_else (mi_model (am_start m)) (extract_model_from_path (rq_path req))) /\
    mc_text_content c = non_empty (sconcat (map block_text (am_blocks m))) /\
    mc_thinking_content c = non_empty (sconcat (map block_thinking (am_blocks m))) /\
    mc_tool_calls c = map tool_call_entry (block_tools 0 (am_blocks m)) /\
    mc_input_tokens c = last_usage au_input_tokens m /\ mc_output_tokens c = last_usage au_output_tokens m /\
    mc_usage_details c !! "cache_read" = last_usage cache_read_input_tokens m /\
    mc_stop_reason c = (fun r => stop_reason_str (anthropic_stop_reason r)) <$> last_stop m.
Proof.
  intros req max_size Hr Hd Hm Hp Hpolls Hne Hlen Hmax Hbytes Hok Hes Htok.
  destruct (handle_request_allowed _ _ _ _ _ _ _ _ _ Hr Hd) as (Hai & Hem & Hpa & Hb).
  rewrite reply_tasks_one. eexists (reply_task max_size r x).
  set (body0 := AiResponseBody_new (create_parser Anthropic) (max_preview_of (policy config) (Some Anthropic)) max_size).
  set (final := (poll_all body0 (xs ++ [InnerEnd])).2).
  assert (tk_body (reply_task max_size r x) = AiBodyReply final) as Htk.
  { unfold reply_task. cbn [tk_body]. rewrite Hb, take_ge by lia. rewrite Hpolls. by apply ai_body_at_end. }
  pose proof (body_forwarded_and_parsed (E := string) (create_parser Anthropic)
    (max_preview_of (policy config) (Some Anthropic)) max_size xs Hne Hmax) as Hbody.
  cbv zeta in Hbody. fold body0 in Hbody.
  assert (final = (poll_all body0 (xs ++ [InnerEnd])).2) as Hfin by done.
  destruct (poll_all body0 (xs ++ [InnerEnd])) as [out self]. cbn [snd] in Hfin. subst final. cbn [snd] in Htk.
  pose proof (rendered_events_parsed es [concat (map chunk_of xs)] Hok ltac:(by rewrite <- Hbytes; cbn [concat]; rewrite app_nil_r))
    as [Hev Hfl].
  rewrite feed_chunks_concat in Hev, Hfl. cbn [concat] in Hev, Hfl. rewrite app_nil_r in Hev, Hfl.
  destruct (feed SseParser_new (concat (map chunk_of xs))) as [sse_events sse]. cbn [fst snd] in Hev, Hfl.
  rewrite Hfl, app_nil_r, Hev in Hbody. destruct Hbody as (_ & Hevents & Hbl & _).
  rewrite (any_parser_anthropic AnthropicStreamParserWithState_new) in Hevents. cbn [fst] in Hevents.
  destruct (anthropic_message_summary m _ Hes) as (Hsm & Hst & Hsth & Hstc & Hsi & Hso & Hsd & Hss).
  rewrite <- Hevents in Hsm, Hst, Hsth, Hstc, Hsi, Hso, Hsd, Hss.
  unfold task_ops, emit. rewrite Htk. cbn [tk_emitter reply_task]. rewrite Hai, Hem, Hpa, Hp, bool_decide_false by done.
  cbn [negb andb]. unfold emit_model_call. cbn [reply_summary tk_req_stats reply_task].
  set (sum := collect_summary (events (ai_state self))) in *.
  assert (Some sum ≫= ss_input_tokens = last_usage au_input_tokens m) as Hin by exact Hsi.
  assert (exists n, last_usage au_input_tokens m = Some n) as [n Hn] by by apply last_usage_reported.
  unfold body_usage. rewrite Hin, Hn. cbn [no_usage].
  destruct (assign_trace _ _ _ _ _) as [tid tr].
  eexists _, _. split; [done|]. split; [reflexivity|].
  cbn [emitted_event ne_bytes_received mc_response_bytes mc_model mc_text_content mc_thinking_content
       mc_tool_calls mc_input_tokens mc_output_tokens mc_usage_details mc_stop_reason reply_stats fst].
  split; [exact Hbl|]. split; [exact Hbl|].
  assert (Some sum ≫= ss_model = mi_model (am_start m)) as -> by exact Hsm.
  assert (Some sum ≫= ss_stop_reason = anthropic_stop_reason <$> last_stop m) as -> by exact Hss.
  assert (Some sum ≫= ss_output_tokens = last_usage au_output_tokens m) as -> by exact Hso.
  rewrite <- Hst, <- Hsth, <- Hstc, <- Hsd. repeat split; try done.
  - by rewrite Hpa.
  - by destruct (last_usage au_output_tokens m).
  - destruct (decide _) as [E|]; [by rewrite E|done].
  - by destruct (last_stop m).
Qed.
End ModelTelemetry.

(** ** Concrete runs *)

Section Demo.
#[local] Existing Instances demo_wire demo_openai_wire tree_json text_time.
#[local] Existing Instances demo_request_wire.
#[local] Instance demo_gzip : Gzip := fun _ => None.
#[local] Instance demo_google : FromJson StreamChunk := fun _ => None.
#[local] Existing Instances MessageStartPayload_eq_dec MessageStartPayload_countable ContentBlockStart_eq_dec ContentBlockStart_countable.
#[local] Existing Instances ContentBlockDelta_eq_dec ContentBlockDelta_countable ContentBlockStop_eq_dec ContentBlockStop_countable.
#[local] Existing Instances MessageDelta_eq_dec MessageDelta_countable.

Definition demo_wire_events : list wire_event :=
  map (fun e => {| wire_type := event_type e; wire_lines := [data e] |}) demo_message_sse.

Definition demo_stream : Polls :=
  [InnerFrame (DataFrame (take 100 (render demo_wire_events))); InnerPending;
   InnerFrame (DataFrame (drop 100 (render demo_wire_events)))].

Definition ai_config (credentials : list (string * CredentialKind)) : MitmProxyConfig := {|
  policy := {| rules := []; default_allow_read := true; default_allow_write := true; log_bodies := false; max_body_capture := 0 |};
  tunnel_non_ai := false; limits := ProxyLimits_default; enabled := true; credentials := credentials |}.

Definition demo_request (method : string) (hs : Headers) : Request :=
  {| rq_method := method; rq_path := "/v1/messages"; rq_query := None; rq_headers := hs; rq_body := [InnerEnd] |}.

Definition demo_upstream (polls : Polls) : Upstream :=
  {| up_cached_ready := true; up_server_name := Ok tt; up_tls := Some (Ok tt); up_handshake := Some (Ok tt); up_build := fun _ => Ok tt;
     up_send := fun _ => Some (Ok {| rs_status := 200; rs_headers := []; rs_body := fun _ => polls |}) |}.

Definition demo_exchange (method : string) (hs : Headers) (polls : Polls) (polled : nat) : Exchange :=
  {| ex_request := demo_request method hs; ex_upstream := demo_upstream polls; ex_polled := polled;
     ex_completion := {| co_net_time := "t0"; co_call_time := "t1"; co_duration_ms := 5; co_uuid := "trace-1" |} |}.

Definition demo_conn_net : Network := cn_net (demo_connection "api.anthropic.com").

Lemma event_okb_spec (e : wire_event) :
  match wire_type e with Some ty => line_okb ty | None => true end
    && forallb line_okb (wire_lines e) && negb (bool_decide (wire_lines e = []))
    && negb (bool_decide (data (event_of e) = "[DONE]")) = true -> event_ok e.
Proof.
  rewrite !andb_true_iff, !negb_true_iff, !bool_decide_eq_false. intros [[[Hty Hls] Hne] Hd].
  split; [intros ty E; rewrite E in Hty; by apply line_okb_spec|]. split; [|done].
  apply Forall_forall. intros l Hl. apply line_okb_spec. rewrite List.forallb_forall in Hls. apply Hls. by apply list_elem_of_In.
Qed.

Definition stream_exchange : Exchange := demo_exchange "POST" [] (demo_stream ++ [InnerEnd]) 9.

Definition stream_reply : Reply :=
  default (local_reply (fun _ => "digest") "" None None (ex_request stream_exchange) 0 Denied "" "")
    (hd_reply (handle_request (fun _ => "digest") (ai_config []) demo_conn_net "api.anthropic.com" None (Some Anthropic) false
                (ex_upstream stream_exchange) (ex_request stream_exchange))).

Lemma streamed_message_logged_witness :
  let x := stream_exchange in
  let config := ai_config [] in
  exists r tk e c,
    hd_reply (handle_request (fun _ => "digest") config demo_conn_net "api.anthropic.com" None (Some Anthropic) false
                (ex_upstream x) (ex_request x)) = Some r /\
    reply_tasks (max_response_body_bytes (limits config)) r x = [tk] /\
    task_ops demo_table (fun _ => None) demo_state tk = [WriteNetEvent e; WriteModelCall c] /\
    mc_model c = Some "claude" /\ mc_text_content c = Some "ab" /\ mc_stop_reason c = Some "tool_use" /\
    map tce_tool_name (mc_tool_calls c) = ["bash"].
Proof.
  intros x config. exists stream_reply.
  destruct (@streamed_message_logged _ text_time tree_json demo_gzip demo_wire demo_openai_wire demo_google demo_request_wire
    (fun _ => "digest") demo_table (fun _ => None) config demo_conn_net "api.anthropic.com" None false x demo_state
    stream_reply demo_message demo_wire_events demo_stream) as (tk & e & c & Ht & Ho & _ & _ & Hm & Htext & _ & Hcalls & _ & _ & _ & Hstop).
  - reflexivity.
  - reflexivity.
  - discriminate.
  - reflexivity.
  - reflexivity.
  - repeat (apply Forall_cons; split; [discriminate|]). by apply Forall_nil.
  - vm_compute. repeat constructor.
  - vm_compute. split; [discriminate|reflexivity].
  - unfold demo_stream. cbn [map chunk_of concat app]. rewrite app_nil_r. apply take_drop.
  - apply Forall_forall. intros ev Hev. apply event_okb_spec. revert ev Hev. apply Forall_forall.
    assert (forall (f : wire_event -> bool) l, forallb f l = true -> Forall (fun e => f e = true) l) as Hfb.
    { intros f l Hl. apply Forall_forall. intros e0 He0. rewrite List.forallb_forall in Hl. apply Hl. by apply list_elem_of_In. }
    apply Hfb. vm_compute. reflexivity.
  - assert (map event_of demo_wire_events = demo_message_sse) as -> by (vm_compute; reflexivity). apply demo_streamed.
  - by eexists.
  - exists tk, e, c. split; [reflexivity|]. split; [exact Ht|]. split; [exact Ho|]. split; [exact Hm|].
    split; [exact Htext|]. split; [exact Hstop|]. rewrite Hcalls. reflexivity.
Defined.

Lemma refused_request_reported_witness :
  let x := demo_exchange "GET" [("upgrade", bytes_of_string "WebSocket")] [] 0 in
  exists r tk calls, reply_tasks (max_response_body_bytes (limits (ai_config []))) r x = [tk] /\ rp_status r = 400 /\
    hd_sent (handle_request (fun _ => "digest") (ai_config []) demo_conn_net "example.com" None None true (ex_upstream x) (ex_request x)) = None /\
    task_ops demo_table (fun _ => None) demo_state tk = WriteNetEvent {| ne_timestamp := "t0"; ne_domain := "example.com";
      ne_port := 443; ne_decision := Denied; ne_process_name := None; ne_pid := None; ne_method := Some "GET";
      ne_path := Some "/v1/messages"; ne_query := None; ne_status_code := Some 400; ne_bytes_sent := 0;
      ne_bytes_received := 0; ne_duration_ms := 5; ne_matched_rule := Some "websocket-not-supported";
      ne_request_headers := Some "upgrade: hash:digest"; ne_response_headers := None; ne_request_body_preview := None;
      ne_response_body_preview := None; ne_conn_type := Some "https-mitm" |} :: calls.
Proof.
  intros x.
  destruct (@refused_request_reported _ text_time tree_json demo_gzip demo_wire demo_openai_wire demo_google demo_request_wire
    (fun _ => "digest") demo_table (fun _ => None) (ai_config []) demo_conn_net "example.com" None true x
    (trace_state demo_state)) as (r & Hh & Hs & tk & calls & Ht & Ho).
  - right. reflexivity.
  - exists r, tk, calls. split; [exact Ht|]. split; [rewrite Hs; reflexivity|].
    split; [change (detect_ai_provider "example.com") with (@None ProviderKind) in Hh; rewrite Hh; reflexivity|].
    refine (eq_trans Ho _). reflexivity.
Defined.

Lemma guest_keys_replaced_witness :
  let config := ai_config [("api.anthropic.com", CredHeader "x-api-key" "real")] in
  let guest := [("host", bytes_of_string "evil.com"); ("x-api-key", bytes_of_string "fake");
                ("x-goog-api-key", bytes_of_string "other")] in
  exists u, hd_sent (handle_request (fun _ => "digest") config demo_conn_net "api.anthropic.com" None (Some Anthropic) false
    (demo_upstream []) (demo_request "POST" guest)) = Some u /\
    List.filter (fun h => bool_decide (h.1 = "host")) (ur_headers u) = [("host", bytes_of_string "api.anthropic.com")] /\
    ~ ("x-api-key", bytes_of_string "fake") ∈ ur_headers u /\ ("x-goog-api-key", bytes_of_string "other") ∈ ur_headers u.
Proof.
  intros config guest. set (req := demo_request "POST" guest).
  exists (upstream_request config "api.anthropic.com" (Some Anthropic) req). split; [reflexivity|].
  destruct (@guest_keys_replaced ascii_case
    (fun _ => "digest") config demo_conn_net "api.anthropic.com" None (Some Anthropic) false (demo_upstream [])
    req (upstream_request config "api.anthropic.com" (Some Anthropic) req) eq_refl) as (_ & _ & Hk & Hf & _ & Hh).
  - discriminate.
  - split; [|split].
    + apply Hh. intros pattern name value Hin. apply list_elem_of_singleton in Hin. injection Hin as -> -> ->. discriminate.
    + intros Hin. destruct (Hk "x-api-key" _ (or_intror eq_refl) Hin) as (p & n & v & Hin' & _ & _ & Hv).
      apply list_elem_of_singleton in Hin'. injection Hin' as -> -> ->. discriminate.
    + apply (Hf "x-goog-api-key"); [intros [E|E]; discriminate|discriminate|discriminate|].
      right. right. left.
Defined.

(** A task of an Anthropic call, its reply asking for the tool calls [ids], its request body
    [req]. *)
Definition demo_task (req : list byte) (ids : list string) (uuid : string) : Task :=
  {| tk_emitter := {| em_domain := "api.anthropic.com"; em_process_name := None; em_ai_provider := Some Anthropic;
       em_method := "POST"; em_path := "/v1/messages"; em_query := None; em_status_code := Some 200; em_decision := Allowed;
       em_matched_rule := None; em_request_headers := None; em_response_headers := None |};
     tk_req_stats := {| bs_bytes := 0; bs_preview := req; bs_max_preview := 0 |};
     tk_body := AiBodyReply {| stats := {| bytes := 0; preview := []; max_preview := 0 |};
       ai_state := {| sse_parser := SseParser_new; provider_parser := create_parser Anthropic;
                      events := map (fun id => ToolCallStart 0 id "bash") ids |}; max_size := 0 |};
     tk_completion := {| co_net_time := "t0"; co_call_time := "t1"; co_duration_ms := 5; co_uuid := uuid |} |}.

Abbreviation demo_ops := (task_ops demo_table (fun _ => None)).

Lemma trace_continues_witness :
  let s1 := run_task demo_table (fun _ => None) demo_state (demo_task [] ["t1"; "t2"] "trace-1") in
  let s2 := run_task demo_table (fun _ => None) s1 (demo_task [] [] "trace-2") in
  exists e c, demo_ops s2 (demo_task [Byte.x7b] [] "trace-3") = [WriteNetEvent e; WriteModelCall c] /\
    mc_trace_id c = Some "trace-1".
Proof.
  intros s1 s2. do 2 eexists. split; [vm_compute; reflexivity|].
  eapply eq_trans.
  - eapply (@trace_continues text_time tree_json demo_gzip demo_request_wire
      demo_table (fun _ => None) demo_state (demo_task [] ["t1"; "t2"] "trace-1") [demo_task [] [] "trace-2"]
      (demo_task [Byte.x7b] [] "trace-3") _ _ _ "t1").
    + vm_compute. right. left.
    + left.
    + vm_compute. reflexivity.
    + intros c Hc. apply elem_of_cons in Hc as [Hc|Hc]; [discriminate|]. apply list_elem_of_singleton in Hc.
      injection Hc as ->. split; [discriminate|]. apply not_elem_of_nil.
    + vm_compute. right. left.
    + reflexivity.
  - reflexivity.
Defined.
End Demo.
