(* ===== verification/Settings.v ===== *)
(** The settings system: crates/clawcage-core/src/net/policy_config.rs, the data
    types and the merge of the user, venv and corporate files.

    The registry of definitions is parsed from an embedded TOML file by third-party
    code: it is the parameter [defs]. A settings file is a finite map. *)

From Stdlib Require Import ZArith Lia.
From stdpp Require Import base numbers list gmap strings sorting.
From S2P Require Import Prelude RustStr.

(** ** Data *)

Inductive SettingType := TText | TNumber | TPassword | TUrl | TEmail | TApiKey | TBool | TFile.

#[export] Instance SettingType_eq_dec : EqDecision SettingType.
Proof. solve_decision. Defined.

Inductive SettingValue :=
| VBool (b : bool)
| VNumber (n : Z)
| VFile (path content : string)
| VText (s : string).

#[export] Instance SettingValue_eq_dec : EqDecision SettingValue.
Proof. solve_decision. Defined.

Definition as_bool (v : SettingValue) : option bool := match v with VBool b => Some b | _ => None end.
Definition as_number (v : SettingValue) : option Z := match v with VNumber n => Some n | _ => None end.
Definition as_text (v : SettingValue) : option string := match v with VText s => Some s | _ => None end.
Definition as_file (v : SettingValue) : option (string * string) :=
  match v with VFile path content => Some (path, content) | _ => None end.

Record HttpMethodPermissions := {
  pm_domains : list string;
  pm_path : option string;
  pm_get : bool;
  pm_post : bool;
  pm_put : bool;
  pm_delete : bool;
  pm_other : bool;
}.

(** [rules] is a HashMap whose iteration order is arbitrary: an association list
    in that order. *)
Record SettingMetadata := {
  domains : list string;
  choices : list string;
  min : option Z;
  max : option Z;
  rules : list (string * HttpMethodPermissions);
  env_vars : list string;
  md_collapsed : bool;
}.

Definition SettingMetadata_default : SettingMetadata :=
  {| domains := []; choices := []; min := None; max := None; rules := []; env_vars := [];
     md_collapsed := false |}.

Record SettingDef := {
  sdef_id : string;
  sdef_category : string;
  sdef_name : string;
  sdef_description : string;
  sdef_type : SettingType;
  sdef_default : SettingValue;
  sdef_enabled_by : option string;
  sdef_metadata : SettingMetadata;
}.

Record SettingEntry := { en_value : SettingValue; en_modified : string }.

Abbreviation SettingsFile := (gmap string SettingEntry).

Inductive PolicySource := SrcDefault | SrcUser | SrcVenv | SrcCorp.

Record ResolvedSetting := {
  id : string;
  category : string;
  name : string;
  description : string;
  setting_type : SettingType;
  default_value : SettingValue;
  effective_value : SettingValue;
  source : PolicySource;
  modified : option string;
  corp_locked : bool;
  enabled_by : option string;
  enabled : bool;
  metadata : SettingMetadata;
  venv_overridden : bool;
  collapsed : bool;
}.

(** ** Merging *)

Definition is_setting_corp_locked (k : string) (corp : SettingsFile) : bool :=
  bool_decide (is_Some (corp !! k)).

Definition resolve_value_with_venv (k : string) (default : SettingValue)
    (user venv corp : SettingsFile) : SettingValue * PolicySource * option string :=
  match corp !! k with
  | Some entry => (en_value entry, SrcCorp, Some (en_modified entry))
  | None =>
      match venv !! k with
      | Some entry => (en_value entry, SrcVenv, Some (en_modified entry))
      | None =>
          match user !! k with
          | Some entry => (en_value entry, SrcUser, Some (en_modified entry))
          | None => (default, SrcDefault, None)
          end
      end
  end.

(** [Vec<String>::sort] (byte order) and [dedup]. *)
Definition sort_strings (l : list string) : list string := merge_sort String.le l.

Fixpoint dedup (l : list string) : list string :=
  match l with
  | x :: ((y :: _) as l') => if bool_decide (x = y) then dedup l' else x :: dedup l'
  | l => l
  end.

Definition file_keys (f : SettingsFile) : list string := map fst (map_to_list f).

Definition collect_dynamic_keys_with_venv (user venv corp : SettingsFile) : list string :=
  dedup (sort_strings (List.filter (fun k => starts_with k "guest.env.")
                         (file_keys user ++ file_keys venv ++ file_keys corp))).

Definition set_enabled (s : ResolvedSetting) (e : bool) : ResolvedSetting :=
  {| id := id s; category := category s; name := name s; description := description s;
     setting_type := setting_type s; default_value := default_value s;
     effective_value := effective_value s; source := source s; modified := modified s;
     corp_locked := corp_locked s; enabled_by := enabled_by s; enabled := e;
     metadata := metadata s; venv_overridden := venv_overridden s; collapsed := collapsed s |}.

(** The map of toggle values; collecting keeps the last of a duplicate id. *)
Definition toggle_values (settings : list ResolvedSetting) : gmap string bool :=
  fold_left (fun m s => match as_bool (effective_value s) with Some b => <[id s := b]> m | None => m end)
    settings ∅.

Definition compute_enabled (settings : list ResolvedSetting) : list ResolvedSetting :=
  let values := toggle_values settings in
  map (fun s => match enabled_by s with
                | Some parent_id => set_enabled s (default false (values !! parent_id))
                | None => s
                end) settings.

Definition resolve_def (user venv corp : SettingsFile) (def : SettingDef) : ResolvedSetting :=
  let '(value, src, modified) := resolve_value_with_venv (sdef_id def) (sdef_default def) user venv corp in
  {| id := sdef_id def; category := sdef_category def; name := sdef_name def;
     description := sdef_description def; setting_type := sdef_type def;
     default_value := sdef_default def; effective_value := value; source := src;
     modified := modified; corp_locked := bool_decide (is_Some (corp !! sdef_id def));
     enabled_by := sdef_enabled_by def; enabled := true; metadata := sdef_metadata def;
     venv_overridden := bool_decide (is_Some (venv !! sdef_id def));
     collapsed := md_collapsed (sdef_metadata def) |}.

Definition resolve_dynamic (user venv corp : SettingsFile) (key : string) : ResolvedSetting :=
  let '(value, src, modified) := resolve_value_with_venv key (VText "") user venv corp in
  let name := default key (strip_prefix "guest.env." key) in
  {| id := key; category := "Guest Environment"; name := name;
     description := "Guest environment variable: " +:+ name; setting_type := TText;
     default_value := VText ""; effective_value := value; source := src; modified := modified;
     corp_locked := bool_decide (is_Some (corp !! key)); enabled_by := None; enabled := true;
     metadata := SettingMetadata_default;
     venv_overridden := bool_decide (is_Some (venv !! key)); collapsed := false |}.

Section Resolve.
Variable defs : list SettingDef.

Definition resolve_settings_with_venv (user venv corp : SettingsFile) : list ResolvedSetting :=
  compute_enabled
    (map (resolve_def user venv corp) defs ++
     map (resolve_dynamic user venv corp) (collect_dynamic_keys_with_venv user venv corp)).

Definition resolve_settings (user corp : SettingsFile) : list ResolvedSetting :=
  resolve_settings_with_venv user ∅ corp.

End Resolve.

(** ** Lemmas *)

Lemma sort_strings_elem y l : (y ∈ sort_strings l) <-> (y ∈ l).
Proof. unfold sort_strings. by rewrite (merge_sort_Permutation String.le l). Qed.

Lemma dedup_cons x y l :
  dedup (x :: y :: l) = if bool_decide (x = y) then dedup (y :: l) else x :: dedup (y :: l).
Proof. done. Qed.

Lemma dedup_elem y l : (y ∈ dedup l) <-> (y ∈ l).
Proof.
  induction l as [|x [|z l] IH]; [done|done|]. rewrite dedup_cons. case_bool_decide as Hx.
  - rewrite IH, (elem_of_cons (z :: l) y x). subst. rewrite elem_of_cons. tauto.
  - rewrite elem_of_cons, IH, (elem_of_cons (z :: l) y x). tauto.
Qed.

Lemma dedup_NoDup l : StronglySorted String.le l -> NoDup (dedup l).
Proof.
  induction 1 as [|x l Hs IH Hx]; [constructor|]. destruct l as [|y l]; [apply NoDup_singleton|].
  rewrite dedup_cons. case_bool_decide as Hxy; [done|]. constructor; [|done].
  rewrite dedup_elem. intros Hin. apply Hxy.
  rewrite Forall_forall in Hx. apply (anti_symm String.le); [apply Hx; left|].
  apply elem_of_cons in Hin as [->|Hin]; [done|].
  apply StronglySorted_cons in Hs as [Hy _]. rewrite Forall_forall in Hy. by apply Hy.
Qed.

(** The dynamic keys: the [guest.env.] keys of any of the files, each once. *)
Lemma dynamic_keys_spec user venv corp :
  NoDup (collect_dynamic_keys_with_venv user venv corp) /\
  forall k, (k ∈ collect_dynamic_keys_with_venv user venv corp) <->
    starts_with k "guest.env." = true /\
    (is_Some (user !! k) \/ is_Some (venv !! k) \/ is_Some (corp !! k)).
Proof.
  unfold collect_dynamic_keys_with_venv. split.
  - apply dedup_NoDup. apply (StronglySorted_merge_sort String.le).
  - intros k. rewrite dedup_elem, sort_strings_elem, list_elem_of_In, filter_In, <- list_elem_of_In.
    rewrite !elem_of_app. unfold file_keys.
    assert (forall f : SettingsFile, (k ∈ map fst (map_to_list f)) <-> is_Some (f !! k)) as Hk.
    { intros f. split.
      - intros ([k' e] & -> & Hin)%list_elem_of_fmap. apply elem_of_map_to_list in Hin. eauto.
      - intros [e He]. apply list_elem_of_fmap. exists (k, e). split; [done|]. by apply elem_of_map_to_list. }
    rewrite !Hk. tauto.
Qed.

Lemma compute_enabled_elem s settings :
  (s ∈ compute_enabled settings) ->
  exists s0, (s0 ∈ settings) /\ id s = id s0 /\ effective_value s = effective_value s0 /\
    source s = source s0 /\ corp_locked s = corp_locked s0 /\ metadata s = metadata s0 /\
    setting_type s = setting_type s0 /\ default_value s = default_value s0.
Proof.
  unfold compute_enabled. intros (s0 & -> & Hin)%list_elem_of_fmap. exists s0.
  split; [done|]. by destruct (enabled_by s0).
Qed.

(** What a resolved setting is, whether registered or dynamic. *)
Definition resolved_as (user venv corp : SettingsFile) (s : ResolvedSetting) : Prop :=
  (effective_value s, source s) =
    (resolve_value_with_venv (id s) (default_value s) user venv corp).1 /\
  (corp_locked s = true <-> is_Some (corp !! id s)).

Lemma resolve_settings_elem defs user venv corp s :
  s ∈ resolve_settings_with_venv defs user venv corp -> resolved_as user venv corp s.
Proof.
  intros (s0 & Hin & Hid & Hv & Hsrc & Hl & _ & _ & Hd)%compute_enabled_elem.
  unfold resolved_as. rewrite Hid, Hv, Hsrc, Hl, Hd. clear Hid Hv Hsrc Hl Hd s.
  apply elem_of_app in Hin as [(d & -> & _)%list_elem_of_fmap|(k & -> & _)%list_elem_of_fmap].
  - unfold resolve_def.
    destruct (resolve_value_with_venv (sdef_id d) (sdef_default d) user venv corp) as [[v src] m] eqn:E.
    cbn [effective_value source corp_locked id default_value]. rewrite E. split; [done|].
    apply bool_decide_eq_true.
  - unfold resolve_dynamic.
    destruct (resolve_value_with_venv k (VText "") user venv corp) as [[v src] m] eqn:E.
    cbn [effective_value source corp_locked id default_value]. rewrite E. split; [done|].
    apply bool_decide_eq_true.
Qed.

Lemma compute_enabled_ids settings : map id (compute_enabled settings) = map id settings.
Proof.
  unfold compute_enabled. rewrite map_map. apply map_ext. intros s. by destruct (enabled_by s).
Qed.

Lemma resolve_settings_ids defs user venv corp :
  map id (resolve_settings_with_venv defs user venv corp) =
  map sdef_id defs ++ collect_dynamic_keys_with_venv user venv corp.
Proof.
  unfold resolve_settings_with_venv. rewrite compute_enabled_ids, map_app, !map_map. f_equal.
  - apply map_ext. intros d. unfold resolve_def.
    by destruct (resolve_value_with_venv (sdef_id d) (sdef_default d) user venv corp) as [[]].
  - rewrite <- map_id. apply map_ext. intros k. unfold resolve_dynamic.
    by destruct (resolve_value_with_venv k (VText "") user venv corp) as [[]].
Qed.

(** ** Properties *)

(** C26: the precedence of the files, for every resolved setting: the corporate
    value if there is one (and then the setting is locked), else the venv's, else
    the user's, else the default, labelled with its source. Besides the registered
    settings the result has exactly the [guest.env.] keys of the three files, each
    once. *)
Theorem settings_precedence (defs : list SettingDef) (user venv corp : SettingsFile) :
  let resolved := resolve_settings_with_venv defs user venv corp in
  (forall s, s ∈ resolved ->
     (corp_locked s = true <-> is_Some (corp !! id s)) /\
     match corp !! id s, venv !! id s, user !! id s with
     | Some e, _, _ => effective_value s = en_value e /\ source s = SrcCorp
     | None, Some e, _ => effective_value s = en_value e /\ source s = SrcVenv
     | None, None, Some e => effective_value s = en_value e /\ source s = SrcUser
     | None, None, None => effective_value s = default_value s /\ source s = SrcDefault
     end) /\
  (exists dynamic, map id resolved = map sdef_id defs ++ dynamic /\ NoDup dynamic /\
     forall k, (k ∈ dynamic) <->
       starts_with k "guest.env." = true /\
       (is_Some (user !! k) \/ is_Some (venv !! k) \/ is_Some (corp !! k))).
Proof.
  intros resolved. split.
  - intros s [Hv Hl]%resolve_settings_elem. split; [done|]. revert Hv. unfold resolve_value_with_venv.
    destruct (corp !! id s), (venv !! id s), (user !! id s); by intros [= -> ->].
  - exists (collect_dynamic_keys_with_venv user venv corp). split; [apply resolve_settings_ids|].
    apply dynamic_keys_spec.
Qed.

(** Nothing the user or a venv writes changes a corporate value: a setting the
    corporate file holds resolves to the same value, source and lock whatever the
    other two files contain. *)
Theorem corp_noninterference (defs : list SettingDef) (user venv user' venv' corp : SettingsFile)
    (s s' : ResolvedSetting) :
  s ∈ resolve_settings_with_venv defs user venv corp ->
  s' ∈ resolve_settings_with_venv defs user' venv' corp ->
  id s' = id s -> is_Some (corp !! id s) ->
  effective_value s' = effective_value s /\ source s' = source s /\
  source s = SrcCorp /\ corp_locked s = true /\ corp_locked s' = true.
Proof.
  intros [Hv Hl]%resolve_settings_elem [Hv' Hl']%resolve_settings_elem Hid Hs.
  rewrite Hid in Hv', Hl'. destruct Hs as [e He].
  assert (corp_locked s = true /\ corp_locked s' = true) as [Hc Hc']
    by (split; [apply Hl|apply Hl']; eauto).
  unfold resolve_value_with_venv in Hv, Hv'. rewrite He in Hv, Hv'.
  injection Hv as Hv Hsrc. injection Hv' as Hv' Hsrc'. rewrite Hv, Hsrc, Hv', Hsrc'. done.
Qed.

Definition demo_defs : list SettingDef :=
  [{| sdef_id := "ai.openai.allow"; sdef_category := "AI"; sdef_name := "OpenAI";
      sdef_description := ""; sdef_type := TBool; sdef_default := VBool true;
      sdef_enabled_by := None; sdef_metadata := SettingMetadata_default |}].

Definition demo_corp : SettingsFile :=
  {["ai.openai.allow" := {| en_value := VBool false; en_modified := "2026" |}]}.

Definition demo_user : SettingsFile :=
  {["ai.openai.allow" := {| en_value := VBool true; en_modified := "2025" |}]}.

Definition demo_resolved (user venv : SettingsFile) : ResolvedSetting :=
  resolve_def user venv demo_corp (hd {| sdef_id := ""; sdef_category := ""; sdef_name := "";
    sdef_description := ""; sdef_type := TText; sdef_default := VText ""; sdef_enabled_by := None;
    sdef_metadata := SettingMetadata_default |} demo_defs).

Definition no_file : SettingsFile := ∅.

Lemma demo_resolve (user venv : SettingsFile) :
  collect_dynamic_keys_with_venv user venv demo_corp = [] ->
  resolve_settings_with_venv demo_defs user venv demo_corp = [demo_resolved user venv].
Proof. intros Hk. unfold resolve_settings_with_venv. rewrite Hk. done. Qed.

Lemma corp_noninterference_witness :
  effective_value (demo_resolved demo_user no_file) = VBool false /\
  effective_value (demo_resolved no_file demo_user) = effective_value (demo_resolved demo_user no_file).
Proof.
  split; [vm_compute; reflexivity|].
  refine (proj1 (corp_noninterference demo_defs demo_user no_file no_file demo_user demo_corp
    (demo_resolved demo_user no_file) (demo_resolved no_file demo_user) _ _ eq_refl _)).
  - rewrite demo_resolve; [left|vm_compute; reflexivity].
  - rewrite demo_resolve; [left|vm_compute; reflexivity].
  - vm_compute. by eexists.
Defined.
