(* ===== verification/SettingsPolicy.v ===== *)
(** From settings to policies: the translation half of
    crates/clawcage-core/src/net/policy_config.rs (settings_to_domain_policy,
    settings_to_http_policy, load_merged_network_policy_for_venv after its load,
    settings_to_vm_settings). *)

From Stdlib Require Import ZArith Lia Ascii.
From stdpp Require Import base numbers list gmap strings.
From S2P Require Import Prelude RustStr DomainPolicy HttpPolicy NetPolicy Settings.

Record VmSettings := {
  vs_cpu_count : option Z;
  vs_scratch_disk_size_gb : option Z;
  vs_ram_gb : option Z;
}.

Section SettingsPolicy.
Context `{UnicodeCase}.

Definition parse_domain_list (text : string) : list string :=
  List.filter (fun d => negb (is_empty d)) (map trim (split_char "," text)).

Definition corp_blocked_matches (candidate : string) (corp_blocked : list string) : bool :=
  let candidate := to_lowercase candidate in
  existsb (fun pattern =>
    let pattern := to_lowercase pattern in
    match strip_prefix "*." pattern with
    | Some suffix => ends_with candidate ("." +:+ suffix) || bool_decide (candidate = suffix)
    | None => bool_decide (candidate = pattern)
    end) corp_blocked.

(** [resolved.iter().find(|s| s.id == k)] *)
Definition find_setting (k : string) (resolved : list ResolvedSetting) : option ResolvedSetting :=
  list_find_first (fun s => bool_decide (id s = k)) resolved.

Definition text_setting (k : string) (resolved : list ResolvedSetting) : string :=
  default "" (find_setting k resolved ≫= fun s => as_text (effective_value s)).

Definition is_on (s : ResolvedSetting) : bool := default false (as_bool (effective_value s)).

Definition has_domains (s : ResolvedSetting) : bool :=
  match domains (metadata s) with [] => false | _ => true end.

(** The registries: Bool toggles with domains, and whether each is on. *)
Definition registries (resolved : list ResolvedSetting) : list ResolvedSetting :=
  List.filter (fun s => has_domains s && bool_decide (setting_type s = TBool)) resolved.

(** The [.domains] settings. *)
Definition domain_settings (resolved : list ResolvedSetting) : list ResolvedSetting :=
  List.filter (fun s => ends_with (id s) ".domains" && bool_decide (setting_type s = TText)) resolved.

Definition toggle_of (resolved : list ResolvedSetting) (s : ResolvedSetting) : option ResolvedSetting :=
  find_setting (replace ".domains" ".allow" (id s)) resolved.

Definition corp_locked_off (resolved : list ResolvedSetting) (s : ResolvedSetting) : bool :=
  match toggle_of resolved s with
  | Some t => corp_locked t && negb (is_on t)
  | None => false
  end.

Definition toggle_on (resolved : list ResolvedSetting) (s : ResolvedSetting) : bool :=
  match toggle_of resolved s with Some t => is_on t | None => false end.

Definition value_domains (v : SettingValue) : list string := parse_domain_list (default "" (as_text v)).

(** The union of the default and the effective list, without repeating a default. *)
Definition union_domains (s : ResolvedSetting) : list string :=
  fold_left (fun all d => if bool_decide (d ∈ all) then all else all ++ [d])
    (value_domains (effective_value s)) (value_domains (default_value s)).

(** Pass 1. *)
Definition corp_blocked_domains (resolved : list ResolvedSetting) : list string :=
  flat_map union_domains (List.filter (corp_locked_off resolved) (domain_settings resolved)).

(** Pass 2: the domains one unlocked [.domains] setting allows and blocks. *)
Definition service_lists (resolved : list ResolvedSetting) (corp_blocked : list string)
    (s : ResolvedSetting) : list string * list string :=
  let ds := value_domains (effective_value s) in
  if toggle_on resolved s then
    (List.filter (fun d => negb (corp_blocked_matches d corp_blocked)) ds,
     List.filter (fun d => corp_blocked_matches d corp_blocked) ds)
  else ([], ds).

Definition allow_all_domains (resolved : list ResolvedSetting) : bool :=
  match find_setting "network.allow_all_domains" resolved with
  | Some s => is_on s
  | None => false
  end.

Definition default_network_action (resolved : list ResolvedSetting) : Action :=
  match find_setting "network.default_action" resolved ≫= fun s => as_text (effective_value s) with
  | Some s => if bool_decide (s = "allow") then Allow else Deny
  | None => Deny
  end.

Definition settings_to_domain_policy (resolved : list ResolvedSetting) : DomainPolicy :=
  let allow1 := flat_map (fun s => domains (metadata s)) (List.filter is_on (registries resolved)) in
  let block1 := flat_map (fun s => domains (metadata s))
                  (List.filter (fun s => negb (is_on s)) (registries resolved)) in
  let corp_blocked := corp_blocked_domains resolved in
  let services := map (service_lists resolved corp_blocked)
    (List.filter (fun s => negb (corp_locked_off resolved s)) (domain_settings resolved)) in
  if allow_all_domains resolved then DomainPolicy_new [] [] Allow
  else
    let custom_allow := parse_domain_list (text_setting "network.custom_allow" resolved) in
    let custom_block := parse_domain_list (text_setting "network.custom_block" resolved) in
    let overridden d := corp_blocked_matches d corp_blocked || corp_blocked_matches d custom_block in
    let allow_list := allow1 ++ flat_map fst services
                        ++ List.filter (fun d => negb (overridden d)) custom_allow in
    let block_list := block1 ++ corp_blocked ++ flat_map snd services
                        ++ List.filter overridden custom_allow ++ custom_block in
    DomainPolicy_new allow_list block_list (default_network_action resolved).

(** ** HTTP rules *)

Definition permission_rules (path_pattern domain : string) (perms : HttpMethodPermissions) : list HttpRule :=
  flat_map (fun '(method, is_allowed) =>
      if is_allowed : bool
      then [{| hr_domain := to_lowercase domain; hr_method := method;
               hr_path_pattern := path_pattern; hr_action := Allow |}]
      else [])
    [("GET", pm_get perms); ("POST", pm_post perms); ("PUT", pm_put perms); ("DELETE", pm_delete perms)].

Definition setting_http_rules (s : ResolvedSetting) : list HttpRule :=
  flat_map (fun '(_, perms) =>
      let domains_for_rule := match pm_domains perms with [] => domains (metadata s) | ds => ds end in
      let path_pattern := default "*" (pm_path perms) in
      flat_map (fun domain => if starts_with domain "*." then []
                              else permission_rules path_pattern domain perms) domains_for_rule)
    (Settings.rules (metadata s)).

Definition log_bodies_setting (d : bool) (resolved : list ResolvedSetting) : bool :=
  default d (find_setting "vm.log_bodies" resolved ≫= fun s => as_bool (effective_value s)).

(** [as usize] of an [i64]. *)
Definition max_body_capture_setting (resolved : list ResolvedSetting) : Z :=
  as_uN 64 (default 4096 (find_setting "vm.max_body_capture" resolved ≫= fun s => as_number (effective_value s))).

Definition settings_to_http_policy (resolved : list ResolvedSetting) : HttpPolicy :=
  let http_rules := flat_map setting_http_rules
    (List.filter (fun s => bool_decide (setting_type s = TBool) && is_on s) resolved) in
  HttpPolicy_new (settings_to_domain_policy resolved) http_rules (log_bodies_setting false resolved)
    (max_body_capture_setting resolved).

(** ** The read/write policy *)

Definition rule_for (domain : string) (ok : bool) : PolicyRule :=
  {| matcher := DomainMatcher_parse domain; allow_read := ok; allow_write := ok |}.

Definition settings_to_network_policy (resolved : list ResolvedSetting) : NetworkPolicy :=
  let corp_blocked := corp_blocked_domains resolved in
  let registry_rules := flat_map (fun s => map (fun d => rule_for d (is_on s)) (domains (metadata s)))
                          (registries resolved) in
  let corp_rules := map (fun d => rule_for d false) corp_blocked in
  let service_rules := flat_map (fun s =>
      map (fun d => rule_for d (toggle_on resolved s && negb (corp_blocked_matches d corp_blocked)))
        (value_domains (effective_value s)))
    (List.filter (fun s => negb (corp_locked_off resolved s)) (domain_settings resolved)) in
  let custom_allow := parse_domain_list (text_setting "network.custom_allow" resolved) in
  let custom_block := parse_domain_list (text_setting "network.custom_block" resolved) in
  let custom_rules := map (fun d => rule_for d
      (negb (corp_blocked_matches d corp_blocked || corp_blocked_matches d custom_block))) custom_allow in
  let block_rules := map (fun d => rule_for d false) custom_block in
  let default_action := bool_decide (default_network_action resolved = Allow) in
  {| NetPolicy.rules := registry_rules ++ corp_rules ++ service_rules ++ custom_rules ++ block_rules;
     default_allow_read := default_action; default_allow_write := default_action;
     NetPolicy.log_bodies := log_bodies_setting true resolved;
     max_body_capture := max_body_capture_setting resolved |}.

(** ** VM settings *)

(** [as u32] of an [i64]. *)
Definition number_setting (k : string) (resolved : list ResolvedSetting) : option Z :=
  (fun n => as_uN 32 n) <$> (find_setting k resolved ≫= fun s => as_number (effective_value s)).

Definition settings_to_vm_settings (resolved : list ResolvedSetting) : VmSettings :=
  {| vs_cpu_count := Some (default 4 (number_setting "vm.cpu_count" resolved));
     vs_scratch_disk_size_gb := Some (default 16 (number_setting "vm.scratch_disk_size_gb" resolved));
     vs_ram_gb := Some (default 4 (number_setting "vm.ram_gb" resolved)) |}.

(** ** The loaders: [defs] are the registered settings, and the three files are what
    load_settings_files_with_venv read. *)

Definition load_merged_domain_policy_for_venv (defs : list SettingDef) (user venv corp : SettingsFile)
  : DomainPolicy :=
  settings_to_domain_policy (resolve_settings_with_venv defs user venv corp).

Definition load_merged_policy_for_venv (defs : list SettingDef) (user venv corp : SettingsFile)
  : HttpPolicy :=
  settings_to_http_policy (resolve_settings_with_venv defs user venv corp).

Definition load_merged_network_policy_for_venv (defs : list SettingDef) (user venv corp : SettingsFile)
  : NetworkPolicy :=
  settings_to_network_policy (resolve_settings_with_venv defs user venv corp).

Definition load_merged_vm_settings_for_venv (defs : list SettingDef) (user venv corp : SettingsFile)
  : VmSettings :=
  settings_to_vm_settings (resolve_settings_with_venv defs user venv corp).

(** ** Lemmas *)

Lemma union_domains_elem s d :
  (d ∈ union_domains s) <->
  (d ∈ value_domains (default_value s)) \/ (d ∈ value_domains (effective_value s)).
Proof.
  unfold union_domains. generalize (value_domains (default_value s)).
  induction (value_domains (effective_value s)) as [|x l IH]; intros acc; cbn [fold_left].
  - split; [by left|]. intros [?|Hd]; [done|]. by apply not_elem_of_nil in Hd.
  - rewrite IH, elem_of_cons. case_bool_decide as Hx.
    + split; [intros [?|?]; auto|]. intros [?|[->|?]]; auto.
    + rewrite elem_of_app, list_elem_of_singleton. tauto.
Qed.

Lemma list_elem_of_filter_true {A} (p : A -> bool) x l :
  (x ∈ List.filter p l) <-> (x ∈ l) /\ p x = true.
Proof. by rewrite list_elem_of_In, filter_In, <- list_elem_of_In. Qed.

Lemma elem_of_flat_map {A B} (f : A -> list B) l y :
  (y ∈ flat_map f l) <-> exists x, (x ∈ l) /\ (y ∈ f x).
Proof.
  rewrite list_elem_of_In, in_flat_map. setoid_rewrite <- list_elem_of_In. done.
Qed.

Lemma corp_blocked_elem resolved s d :
  s ∈ resolved -> ends_with (id s) ".domains" = true -> setting_type s = TText ->
  corp_locked_off resolved s = true ->
  (d ∈ value_domains (default_value s)) \/ (d ∈ value_domains (effective_value s)) ->
  d ∈ corp_blocked_domains resolved.
Proof.
  intros Hs Hid Hty Hoff Hd. apply elem_of_flat_map. exists s. split; [|by apply union_domains_elem].
  apply list_elem_of_filter_true. split; [|done]. apply list_elem_of_filter_true.
  split; [done|]. by rewrite Hid, bool_decide_true.
Qed.

Lemma http_rules_allow resolved r :
  r ∈ hp_rules (settings_to_http_policy resolved) -> hr_action r = Allow.
Proof.
  intros (s & _ & Hr)%elem_of_flat_map. unfold setting_http_rules in Hr.
  apply elem_of_flat_map in Hr as ([k perms] & _ & Hr).
  apply elem_of_flat_map in Hr as (d & _ & Hr). destruct (starts_with d "*."); [by apply not_elem_of_nil in Hr|].
  apply elem_of_flat_map in Hr as ([m b] & _ & Hr). destruct b; [|by apply not_elem_of_nil in Hr].
  by apply list_elem_of_singleton in Hr as ->.
Qed.

Lemma find_setting_Some k resolved s :
  find_setting k resolved = Some s -> (s ∈ resolved) /\ id s = k.
Proof.
  unfold find_setting. intros (l1 & l2 & -> & Hk & _)%list_find_first_split.
  split; [set_solver|]. by apply bool_decide_eq_true in Hk.
Qed.

Lemma find_setting_is_Some k resolved :
  k ∈ map id resolved -> is_Some (find_setting k resolved).
Proof.
  intros (s & -> & Hs)%list_elem_of_fmap. unfold find_setting.
  destruct (list_find_first _ _) eqn:E; [eauto|].
  rewrite list_find_first_None in E. specialize (E s Hs). by apply bool_decide_eq_false in E.
Qed.

(** A corporate value is what any lookup of its key finds. *)
Lemma corp_value_found defs user venv corp k e s :
  corp !! k = Some e ->
  find_setting k (resolve_settings_with_venv defs user venv corp) = Some s ->
  effective_value s = en_value e /\ corp_locked s = true.
Proof.
  intros He [Hs <-]%find_setting_Some. apply resolve_settings_elem in Hs as [Hv Hl].
  split; [|apply Hl; eauto]. unfold resolve_value_with_venv in Hv. rewrite He in Hv. by injection Hv.
Qed.

Lemma resolved_def_elem defs user venv corp d :
  d ∈ defs -> exists s, (s ∈ resolve_settings_with_venv defs user venv corp) /\
    id s = sdef_id d /\ setting_type s = sdef_type d /\ default_value s = sdef_default d.
Proof.
  intros Hd. unfold resolve_settings_with_venv, compute_enabled.
  set (settings := map (resolve_def _ _ _) _ ++ _).
  assert (Hr : resolve_def user venv corp d ∈ settings)
    by (apply elem_of_app; left; by apply list_elem_of_fmap_2).
  eexists. split; [apply (list_elem_of_fmap_2 _ _ _ Hr)|].
  unfold resolve_def. destruct (resolve_value_with_venv _ _ _ _ _) as [[] ?].
  cbn. by destruct (sdef_enabled_by d).
Qed.

(** The corporate lock of a service, as resolved. *)
Lemma locked_off_resolved defs user venv corp d t e s :
  t ∈ defs -> sdef_id t = replace ".domains" ".allow" (sdef_id d) ->
  corp !! sdef_id t = Some e -> as_bool (en_value e) <> Some true ->
  id s = sdef_id d ->
  corp_locked_off (resolve_settings_with_venv defs user venv corp) s = true.
Proof.
  intros Ht Hid He Hoff Hs. unfold corp_locked_off, toggle_of. rewrite Hs, <- Hid.
  destruct (find_setting_is_Some (sdef_id t) (resolve_settings_with_venv defs user venv corp)) as [r Hr].
  { rewrite resolve_settings_ids, elem_of_app. left. by apply list_elem_of_fmap_2. }
  rewrite Hr. destruct (corp_value_found _ _ _ _ _ _ _ He Hr) as [Hv ->].
  unfold is_on. rewrite Hv. by destruct (as_bool (en_value e)) as [[]|].
Qed.

Lemma allow_all_off defs user venv corp e :
  corp !! "network.allow_all_domains" = Some e -> as_bool (en_value e) <> Some true ->
  allow_all_domains (resolve_settings_with_venv defs user venv corp) = false.
Proof.
  intros He Hoff. unfold allow_all_domains.
  destruct (find_setting _ _) as [r|] eqn:Hr; [|done].
  destruct (corp_value_found _ _ _ _ _ _ _ He Hr) as [Hv _].
  unfold is_on. rewrite Hv. by destruct (as_bool (en_value e)) as [[]|].
Qed.

Lemma blocked_pattern_denied allow_list block_list action p domain :
  p ∈ block_list -> pattern_covers p (to_lowercase domain) ->
  fst (DomainPolicy_evaluate (DomainPolicy_new allow_list block_list action) domain) = Deny.
Proof.
  intros Hp Hc. unfold DomainPolicy_evaluate, DomainPolicy_new. cbn [blocked allowed default_action].
  destruct (is_empty _); [done|].
  rewrite (proj2 (existsb_patterns block_list (to_lowercase domain))); [done|]. eauto.
Qed.

Lemma corp_blocked_resolved defs user venv corp d t e dom :
  d ∈ defs -> ends_with (sdef_id d) ".domains" = true -> sdef_type d = TText ->
  t ∈ defs -> sdef_id t = replace ".domains" ".allow" (sdef_id d) ->
  corp !! sdef_id t = Some e -> as_bool (en_value e) <> Some true ->
  dom ∈ value_domains (sdef_default d) ->
  dom ∈ corp_blocked_domains (resolve_settings_with_venv defs user venv corp).
Proof.
  intros Hd Hend Hty Ht Hid He Hoff Hdom.
  destruct (resolved_def_elem defs user venv corp d Hd) as (s & Hs & Hsid & Hsty & Hsdef).
  apply (corp_blocked_elem _ s); rewrite ?Hsid, ?Hsty, ?Hsdef; auto.
  eapply locked_off_resolved; eauto.
Qed.

Lemma domain_policy_blocks_corp resolved p domain :
  allow_all_domains resolved = false -> p ∈ corp_blocked_domains resolved ->
  pattern_covers p (to_lowercase domain) ->
  fst (DomainPolicy_evaluate (settings_to_domain_policy resolved) domain) = Deny.
Proof.
  intros Hall Hp Hc. unfold settings_to_domain_policy. rewrite Hall.
  apply (blocked_pattern_denied _ _ _ p); [|done]. rewrite !elem_of_app. auto.
Qed.

Lemma DomainMatcher_parse_matches p domain :
  DomainMatcher_matches (DomainMatcher_parse p) domain = true <-> pattern_covers p (to_lowercase domain).
Proof.
  rewrite <- DomainPattern_new_matches. unfold DomainMatcher_parse, DomainPattern_new.
  destruct (strip_prefix "*." (to_lowercase p)); cbn; done.
Qed.

Lemma registry_rule_elem q resolved :
  q ∈ flat_map (fun s => map (fun d => rule_for d (is_on s)) (domains (metadata s))) (registries resolved) ->
  exists s d, (s ∈ registries resolved) /\ (d ∈ domains (metadata s)) /\ q = rule_for d (is_on s).
Proof.
  intros (s & Hs & (d & -> & Hd)%list_elem_of_fmap)%elem_of_flat_map. eauto.
Qed.

(** The first rule for a corporate-blocked domain denies it, unless an enabled
    registry comes first. *)
Lemma network_policy_blocks_corp resolved p domain :
  p ∈ corp_blocked_domains resolved -> pattern_covers p (to_lowercase domain) ->
  (forall s q, s ∈ registries resolved -> is_on s = true -> q ∈ domains (metadata s) ->
     ~ pattern_covers q (to_lowercase domain)) ->
  is_Some (is_fully_blocked (settings_to_network_policy resolved) domain).
Proof.
  intros Hp Hc Hreg. unfold is_fully_blocked, settings_to_network_policy. cbn [NetPolicy.rules].
  rewrite list_find_first_app.
  destruct (list_find_first _ (flat_map _ (registries resolved))) as [q|] eqn:E.
  - apply list_find_first_Some in E as [(s & d & Hs & Hd & ->)%registry_rule_elem Hm].
    cbn [rule_for matcher allow_read allow_write] in *. apply DomainMatcher_parse_matches in Hm.
    destruct (is_on s) eqn:Hon; [by destruct (Hreg s d Hs Hon Hd)|]. cbn. eauto.
  - rewrite list_find_first_app. clear E.
    destruct (list_find_first _ (map _ (corp_blocked_domains resolved))) as [q|] eqn:E.
    + apply list_find_first_Some in E as [(d & -> & _)%list_elem_of_fmap _]. cbn. eauto.
    + rewrite list_find_first_None in E.
      specialize (E (rule_for p false) (list_elem_of_fmap_2 _ _ _ Hp)). cbn beta in E.
      cbn [rule_for matcher] in E. apply DomainMatcher_parse_matches in Hc. congruence.
Qed.

Lemma evaluate_http_allow_rules (self : HttpPolicy) domain method path :
  (forall r, r ∈ hp_rules self -> hr_action r = Allow) ->
  hd_action (evaluate_request self domain method path) =
  fst (DomainPolicy_evaluate (hp_domain_policy self) domain).
Proof.
  intros Hr. rewrite evaluate_request_alt. unfold evaluate_domain.
  destruct (DomainPolicy_evaluate (hp_domain_policy self) domain) as [a reason]. cbn [hd_action fst].
  case_bool_decide as Ha; [done|].
  destruct (list_find_first _ _) as [r|] eqn:E; [|done]. cbn [hd_action].
  apply list_find_first_Some in E as [E _]. rewrite (Hr r E). by destruct a.
Qed.

(** ** Properties *)

(** C7: a service the corporate file locks off stays off. For any registered
    [<service>.domains] setting whose [<service>.allow] the corporate file sets to
    anything but true, every domain covered by the setting's default list is denied
    by the resolved domain policy whatever the user's and the venv's files contain,
    as long as the corporate file also settles [network.allow_all_domains]; the
    proxy's read/write policy rejects it outright too, unless an enabled package
    registry lists the domain. *)
Theorem corp_block_enforced (defs : list SettingDef) (user venv corp : SettingsFile)
    (d t : SettingDef) (e all : SettingEntry) (pattern domain : string)
    (resolved := resolve_settings_with_venv defs user venv corp) :
  d ∈ defs -> ends_with (sdef_id d) ".domains" = true -> sdef_type d = TText ->
  t ∈ defs -> sdef_id t = replace ".domains" ".allow" (sdef_id d) ->
  corp !! sdef_id t = Some e -> as_bool (en_value e) <> Some true ->
  corp !! "network.allow_all_domains" = Some all -> as_bool (en_value all) <> Some true ->
  pattern ∈ value_domains (sdef_default d) -> pattern_covers pattern (to_lowercase domain) ->
  fst (DomainPolicy_evaluate (load_merged_domain_policy_for_venv defs user venv corp) domain) = Deny /\
  ((forall s q, s ∈ registries resolved -> is_on s = true -> q ∈ domains (metadata s) ->
      ~ pattern_covers q (to_lowercase domain)) ->
   is_Some (is_fully_blocked (load_merged_network_policy_for_venv defs user venv corp) domain)).
Proof.
  intros Hd Hend Hty Ht Hid He Hoff Hall Halloff Hp Hc.
  pose proof (corp_blocked_resolved defs user venv corp d t e pattern Hd Hend Hty Ht Hid He Hoff Hp) as Hb.
  split.
  - by apply (domain_policy_blocks_corp _ pattern); [eapply allow_all_off| |].
  - by apply network_policy_blocks_corp with pattern.
Qed.

(** The per-method permissions never restrict anything: the rules generated from
    the metadata only allow, so whatever they say a request of any method to any path
    gets the decision of the domain policy; and with [network.allow_all_domains] on,
    that decision is to allow every non-empty domain, whatever is blocked elsewhere. *)
Theorem http_permissions_never_deny (resolved : list ResolvedSetting) (domain method path : string) :
  hd_action (evaluate_request (settings_to_http_policy resolved) domain method path) =
    fst (DomainPolicy_evaluate (settings_to_domain_policy resolved) domain) /\
  (allow_all_domains resolved = true ->
   fst (DomainPolicy_evaluate (settings_to_domain_policy resolved) domain) =
     if is_empty (to_lowercase domain) then Deny else Allow).
Proof.
  split.
  - apply evaluate_http_allow_rules. apply http_rules_allow.
  - intros Hall. unfold settings_to_domain_policy. rewrite Hall.
    unfold DomainPolicy_evaluate. cbn. by destruct (is_empty _).
Qed.

(** the two engines disagree about [network.custom_block]. The domain policy (used
    for the built-in tools) denies every domain it covers, unless all domains are
    allowed. The proxy's read/write policy lists the package registries first, so a
    domain an enabled registry covers, and no disabled one, is allowed for every
    method, custom block list or not. *)
Theorem custom_block_engines (resolved : list ResolvedSetting) (domain : string) :
  (allow_all_domains resolved = false ->
   (exists p, p ∈ parse_domain_list (text_setting "network.custom_block" resolved) /\
              pattern_covers p (to_lowercase domain)) ->
   fst (DomainPolicy_evaluate (settings_to_domain_policy resolved) domain) = Deny) /\
  ((exists s q, s ∈ registries resolved /\ q ∈ domains (metadata s) /\
                pattern_covers q (to_lowercase domain)) ->
   (forall s q, s ∈ registries resolved -> q ∈ domains (metadata s) ->
      pattern_covers q (to_lowercase domain) -> is_on s = true) ->
   forall method,
     pd_allowed (NetworkPolicy_evaluate (settings_to_network_policy resolved) domain method) = true).
Proof.
  split.
  - intros Hall (p & Hp & Hc). unfold settings_to_domain_policy. rewrite Hall.
    apply (blocked_pattern_denied _ _ _ p); [|done]. rewrite !elem_of_app. auto.
  - intros (s & q & Hs & Hq & Hc) Hon method.
    pose proof (NetworkPolicy_evaluate_alt (settings_to_network_policy resolved) domain method) as Ha.
    unfold permissions, settings_to_network_policy in *. cbn [NetPolicy.rules] in *.
    rewrite list_find_first_app in Ha.
    destruct (list_find_first _ (flat_map _ (registries resolved))) as [r|] eqn:E.
    + destruct Ha as [-> _].
      apply list_find_first_Some in E as [(s' & d & Hs' & Hd & ->)%registry_rule_elem Hm].
      cbn [rule_for matcher allow_read allow_write] in *. apply DomainMatcher_parse_matches in Hm.
      rewrite (Hon s' d) by done. by destruct (is_read_method method).
    + rewrite list_find_first_None in E. exfalso.
      specialize (E (rule_for q (is_on s))). cbn beta in E. cbn [rule_for matcher] in E.
      apply DomainMatcher_parse_matches in Hc. rewrite Hc in E. discriminate E.
      apply elem_of_flat_map. exists s. split; [done|].
      by apply (list_elem_of_fmap_2 (fun d => rule_for d (is_on s))).
Qed.

End SettingsPolicy.

(** ** Witnesses *)

Definition text_def (k v : string) : SettingDef :=
  {| sdef_id := k; sdef_category := "AI"; sdef_name := k; sdef_description := ""; sdef_type := TText;
     sdef_default := VText v; sdef_enabled_by := None; sdef_metadata := SettingMetadata_default |}.

Definition bool_def (k : string) (b : bool) : SettingDef :=
  {| sdef_id := k; sdef_category := "AI"; sdef_name := k; sdef_description := ""; sdef_type := TBool;
     sdef_default := VBool b; sdef_enabled_by := None; sdef_metadata := SettingMetadata_default |}.

Definition entry (v : SettingValue) : SettingEntry := {| en_value := v; en_modified := "" |}.

Definition openai_defs : list SettingDef :=
  [bool_def "ai.openai.allow" true; text_def "ai.openai.domains" "api.openai.com, *.openai.com"].

Definition openai_corp : SettingsFile :=
  <["ai.openai.allow" := entry (VBool false)]> {["network.allow_all_domains" := entry (VBool false)]}.

Definition openai_user : SettingsFile :=
  <["ai.openai.allow" := entry (VBool true)]> (<["ai.openai.domains" := entry (VText "")]>
    {["network.custom_allow" := entry (VText "chat.openai.com")]}).

Lemma corp_block_enforced_witness :
  fst (DomainPolicy_evaluate (load_merged_domain_policy_for_venv openai_defs openai_user no_file openai_corp)
         "chat.openai.com") = Deny.
Proof.
  refine (proj1 (corp_block_enforced openai_defs openai_user no_file openai_corp
    (text_def "ai.openai.domains" "api.openai.com, *.openai.com") (bool_def "ai.openai.allow" true)
    (entry (VBool false)) (entry (VBool false)) "*.openai.com" "chat.openai.com" _ _ _ _ _ _ _ _ _ _ _)).
  - right. left.
  - vm_compute. reflexivity.
  - reflexivity.
  - left.
  - vm_compute. reflexivity.
  - vm_compute. reflexivity.
  - discriminate.
  - vm_compute. reflexivity.
  - discriminate.
  - vm_compute. right. left.
  - left. exists "openai.com", "chat". split; vm_compute; reflexivity.
Defined.
