(* ===== verification/SettingsLint.v ===== *)
(** Validation of settings: config_lint, load_merged_lint_for_venv and
    validate_setting_value of crates/clawcage-core/src/net/policy_config.rs.

    [json_error] is the text of serde_json's error on a text that does not parse as a
    value; [ignored_any] is serde_json's syntax check into IgnoredAny, with its error. *)

From Stdlib Require Import ZArith Lia Ascii.
From stdpp Require Import base numbers list gmap strings.
From S2P Require Import Prelude RustStr Utf8 Proto Events Settings.

Record ConfigIssue := { ci_id : string; severity : string; message : string }.

Section Lint.
Context `{SerdeJson} (json_error : string -> string) (ignored_any : string -> result unit string)
  (show_proto_error : ProtoError -> string).

Definition json_parses (text : string) : bool :=
  match value_from_slice (bytes_of_string text) with Some _ => true | None => false end.

Definition validate_setting_value (k : string) (value : SettingValue) : result unit string :=
  match value with
  | VFile path content =>
      match validate_file_path path with
      | Err e => Err ("invalid path for " +:+ k +:+ ": " +:+ show_proto_error e)
      | Ok _ =>
          if ends_with path ".json" && negb (is_empty content) then
            match ignored_any content with
            | Err e => Err ("invalid JSON for " +:+ k +:+ ": " +:+ e)
            | Ok _ => Ok tt
            end
          else Ok tt
      end
  | _ => Ok tt
  end.

(** ** The checks of one setting *)

Definition issue (s : ResolvedSetting) (sev text : string) : ConfigIssue :=
  {| ci_id := id s; severity := sev; message := id s +:+ text |}.

Definition issue_if (c : bool) (i : ConfigIssue) : list ConfigIssue := if c then [i] else [].

Definition text_value (s : ResolvedSetting) : option string := as_text (effective_value s).

Definition text_is (p : string -> bool) (s : ResolvedSetting) : bool :=
  match text_value s with Some t => p t | None => false end.

Definition lint_nul (s : ResolvedSetting) : list ConfigIssue :=
  issue_if (text_is (fun t => contains_char t NUL) s) (issue s "error" ": value contains invalid characters").

Definition lint_number (s : ResolvedSetting) : list ConfigIssue :=
  if bool_decide (setting_type s = TNumber) then
    match as_number (effective_value s) with
    | None => []
    | Some n =>
        match min (metadata s) with
        | Some lo => issue_if (n <? lo) (issue s "error"
            (": value " +:+ show_Z n +:+ " is below minimum " +:+ show_Z lo))
        | None => []
        end ++
        match max (metadata s) with
        | Some hi => issue_if (hi <? n) (issue s "error"
            (": value " +:+ show_Z n +:+ " exceeds maximum " +:+ show_Z hi))
        | None => []
        end
    end
  else [].

Definition lint_choice (s : ResolvedSetting) : list ConfigIssue :=
  match choices (metadata s), text_value s with
  | _ :: _, Some text =>
      issue_if (negb (existsb (fun c => bool_decide (c = text)) (choices (metadata s))))
        (issue s "error" (": '" +:+ text +:+ "' is not a valid choice (" +:+
                          join ", " (choices (metadata s)) +:+ ")"))
  | _, _ => []
  end.

Definition lint_file (s : ResolvedSetting) : list ConfigIssue :=
  match effective_value s with
  | VFile path content =>
      issue_if (negb (starts_with path "/")) (issue s "error" ": file path must be absolute") ++
      issue_if (str_contains path "..") (issue s "error" ": file path must not contain '..'") ++
      issue_if (negb (starts_with path "/root/") && negb (starts_with path "/root/.")
                && negb (starts_with path "/etc/"))
        (issue s "warning" ": unusual file path (expected under /root/ or /etc/)") ++
      (if ends_with path ".json" && negb (is_empty content) then
         match value_from_slice (bytes_of_string content) with
         | Some v =>
             issue_if (match as_object v, as_array v with None, None => true | _, _ => false end)
               (issue s "warning" ": JSON parsed but is not an object")
         | None => [issue s "error" (": invalid JSON -- " +:+ json_error content)]
         end
       else [])
  | _ => []
  end.

Definition lint_key (toggles : gmap string bool) (s : ResolvedSetting) : list ConfigIssue :=
  if bool_decide (setting_type s = TApiKey) then
    issue_if (text_is (fun t => contains_char t " " || contains_char t "010" || contains_char t "013"
                                || contains_char t "009") s)
      (issue s "warning" ": key contains whitespace -- check for copy-paste errors") ++
    issue_if (text_is (fun t => is_empty (trim t)) s &&
              match enabled_by s with Some p => default false (toggles !! p) | None => false end)
      (issue s "warning" ": provider is enabled but API key is empty")
  else [].

Definition lint_url (s : ResolvedSetting) : list ConfigIssue :=
  issue_if (bool_decide (setting_type s = TUrl) &&
            text_is (fun t => negb (is_empty t) && negb (starts_with t "http://")
                              && negb (starts_with t "https://")) s)
    (issue s "warning" ": not a valid URL").

Definition config_lint (resolved : list ResolvedSetting) : list ConfigIssue :=
  let toggles := toggle_values (List.filter (fun s => bool_decide (setting_type s = TBool)) resolved) in
  flat_map (fun s => lint_nul s ++ lint_number s ++ lint_choice s ++ lint_file s ++ lint_key toggles s
                       ++ lint_url s) resolved.

Definition load_merged_lint_for_venv (defs : list SettingDef) (user venv corp : SettingsFile)
  : list ConfigIssue :=
  config_lint (resolve_settings_with_venv defs user venv corp).

(** ** What an error means *)

Definition is_error (i : ConfigIssue) : Prop := severity i = "error".

Definition has_error (l : list ConfigIssue) : Prop := exists i, (i ∈ l) /\ is_error i.

Lemma has_error_app a b : has_error (a ++ b) <-> has_error a \/ has_error b.
Proof. unfold has_error. setoid_rewrite elem_of_app. firstorder. Qed.

Lemma has_error_if c i : has_error (issue_if c i) <-> c = true /\ is_error i.
Proof.
  unfold has_error, issue_if. destruct c; setoid_rewrite elem_of_cons || idtac.
  - setoid_rewrite elem_of_nil. split; [intros (j & [->|[]] & ?); done|intros [_ ?]; eauto].
  - split; [by intros (j & ?%not_elem_of_nil & _)|by intros [? _]].
Qed.

Lemma has_error_nil : ~ has_error [].
Proof. by intros (i & ?%not_elem_of_nil & _). Qed.

(** A setting with an invalid value. *)
Definition invalid (s : ResolvedSetting) : Prop :=
  match effective_value s with
  | VText t => contains_char t NUL = true \/ (choices (metadata s) <> [] /\ (t ∉ choices (metadata s)))
  | VNumber n => setting_type s = TNumber /\
      ((exists lo, min (metadata s) = Some lo /\ n < lo) \/ (exists hi, max (metadata s) = Some hi /\ hi < n))
  | VFile path content =>
      starts_with path "/" = false \/ str_contains path ".." = true \/
      (ends_with path ".json" = true /\ content <> "" /\ json_parses content = false)
  | VBool _ => False
  end.

Lemma lint_nul_error s :
  has_error (lint_nul s) <-> exists t, effective_value s = VText t /\ contains_char t NUL = true.
Proof.
  unfold lint_nul, text_is, text_value. rewrite has_error_if. unfold is_error. cbn.
  destruct (effective_value s); cbn; split; try (by intros [? _]); try (by intros (? & ? & _)).
  - intros [Ht _]. eauto.
  - by intros (? & [= <-] & ?).
Qed.

Lemma lint_number_error s :
  has_error (lint_number s) <-> exists n, effective_value s = VNumber n /\ setting_type s = TNumber /\
    ((exists lo, min (metadata s) = Some lo /\ n < lo) \/ (exists hi, max (metadata s) = Some hi /\ hi < n)).
Proof.
  unfold lint_number. case_bool_decide as Ht.
  2: { split; [intros []%has_error_nil|by intros (? & _ & ? & _)]. }
  destruct (effective_value s) as [|n| |]; cbn [as_number];
    try (split; [intros []%has_error_nil|by intros (? & ? & _)]).
  rewrite has_error_app. split.
  - intros Hor. exists n. split; [done|]. split; [done|]. destruct Hor as [He|He]; [left|right].
    + destruct (min _) as [lo|]; [|by apply has_error_nil in He].
      apply has_error_if in He as [Hlt%Z.ltb_lt _]. eauto.
    + destruct (max _) as [hi|]; [|by apply has_error_nil in He].
      apply has_error_if in He as [Hlt%Z.ltb_lt _]. eauto.
  - intros (? & [= <-] & _ & [(lo & -> & Hlt)|(hi & -> & Hlt)]); [left|right];
      apply has_error_if; (split; [by apply Z.ltb_lt|done]).
Qed.

Lemma lint_choice_error s :
  has_error (lint_choice s) <-> exists t, effective_value s = VText t /\
    choices (metadata s) <> [] /\ (t ∉ choices (metadata s)).
Proof.
  unfold lint_choice, text_value.
  assert (forall t, negb (existsb (fun c => bool_decide (c = t)) (choices (metadata s))) = true <->
                    t ∉ choices (metadata s)) as Hx.
  { intros t. rewrite negb_true_iff, <- not_true_iff_false, existsb_elem. f_equiv. split.
    - by intros (c & Hc & ->%bool_decide_eq_true).
    - intros Hc. exists t. split; [done|]. by apply bool_decide_eq_true. }
  destruct (choices (metadata s)) as [|c cs].
  - split; [by intros []%has_error_nil|by intros (? & _ & ? & _)].
  - destruct (effective_value s); cbn [as_text]; try (split; [intros []%has_error_nil|by intros (? & ? & _)]).
    rewrite has_error_if, Hx. split; [intros [? _]; eauto|by intros (? & [= <-] & _ & ?)].
Qed.

Lemma lint_file_error s :
  has_error (lint_file s) <-> exists path content, effective_value s = VFile path content /\
    (starts_with path "/" = false \/ str_contains path ".." = true \/
     (ends_with path ".json" = true /\ content <> "" /\ json_parses content = false)).
Proof.
  unfold lint_file, json_parses. destruct (effective_value s) as [| |path content|];
    try (split; [intros []%has_error_nil|by intros (? & ? & ? & _)]).
  rewrite !has_error_app, !has_error_if, negb_true_iff. unfold is_error. cbn [issue severity].
  pose proof (is_empty_true content) as He.
  assert (has_error (if ends_with path ".json" && negb (is_empty content) then
       match value_from_slice (bytes_of_string content) with
       | Some v => issue_if (match as_object v, as_array v with None, None => true | _, _ => false end)
                     (issue s "warning" ": JSON parsed but is not an object")
       | None => [issue s "error" (": invalid JSON -- " +:+ json_error content)]
       end else []) <->
     ends_with path ".json" = true /\ content <> "" /\
     match value_from_slice (bytes_of_string content) with Some _ => true | None => false end = false) as ->.
  { destruct (ends_with path ".json"); cbn [andb]; [|split; [intros []%has_error_nil|by intros [? _]]].
    destruct (is_empty content); cbn [negb].
    - split; [intros []%has_error_nil|]. intros (_ & Hn & _). exfalso. by apply Hn, He.
    - destruct (value_from_slice _) as [v|].
      + rewrite has_error_if. unfold is_error. cbn. split; [by intros [_ ?]|by intros (_ & _ & ?)].
      + split; [intros _; split; [done|]; split; [|done]; intros Hc; by apply He in Hc|].
        intros _. eexists. split; [left|done]. }
  split.
  - intros Hor. exists path, content. split; [done|]. destruct Hor as [[? _]|[[? _]|[[_ ?]|?]]]; auto. done.
  - intros (? & ? & [= <- <-] & [?|[?|?]]); auto.
Qed.

(** The lint reports an error exactly when some setting's value is invalid. *)
Theorem lint_error_iff (resolved : list ResolvedSetting) :
  has_error (config_lint resolved) <-> exists s, (s ∈ resolved) /\ invalid s.
Proof.
  unfold config_lint. set (toggles := toggle_values _).
  assert (forall s, has_error (lint_nul s ++ lint_number s ++ lint_choice s ++ lint_file s ++
                               lint_key toggles s ++ lint_url s) <-> invalid s) as Hs.
  { intros s. rewrite !has_error_app, lint_nul_error, lint_number_error, lint_choice_error, lint_file_error.
    assert (~ has_error (lint_key toggles s)) as Hk.
    { unfold lint_key. case_bool_decide; [|apply has_error_nil]. rewrite has_error_app, !has_error_if.
      by intros [[_ ?]|[_ ?]]. }
    assert (~ has_error (lint_url s)) as Hu by (unfold lint_url; rewrite has_error_if; by intros [_ ?]).
    unfold invalid. destruct (effective_value s); split; try naive_solver. }
  clearbody toggles. induction resolved as [|s resolved IH]; cbn [flat_map].
  - split; [intros []%has_error_nil|by intros (? & ?%not_elem_of_nil & _)].
  - rewrite has_error_app, Hs, IH. setoid_rewrite elem_of_cons. naive_solver.
Qed.

(** A value accepted for saving is delivered at boot: its path passes the boot check. *)
Lemma saved_file_path_valid k path content :
  validate_setting_value k (VFile path content) = Ok tt -> validate_file_path path = Ok tt.
Proof. unfold validate_setting_value. by destruct (validate_file_path path) as [[]|]. Qed.

End Lint.
