(* ===== verification/SettingsTree.v ===== *)
(** The registry of settings and the tree shown for it: policy_config.rs,
    [collect_settings], [setting_definitions] and [build_settings_tree].

    The registry is a TOML document; a table is the list of its entries in the order of
    its keys. Parsing the text and decoding a leaf are third-party code (toml, serde),
    the class [Toml]. Both walks of the document are structural recursions on its value.
    The tree and the flat list agree: [tree_leaves_are_definitions] and, for the whole
    tree, [settings_tree_complete]. *)

From Stdlib Require Import ZArith Lia Ascii.
From stdpp Require Import base numbers list gmap strings sorting.
From S2P Require Import Prelude RustStr Settings.

(** ** Documents *)

Inductive TomlValue :=
| TomlString (s : string)
| TomlInteger (n : Z)
| TomlBoolean (b : bool)
| TomlArray (l : list TomlValue)
| TomlTable (entries : list (string * TomlValue))
| TomlOther.

Abbreviation Table := (list (string * TomlValue)).

Section TomlInd.
Variables (P : TomlValue -> Prop) (Q : Table -> Prop).
Hypotheses (Htable : forall entries, Q entries -> P (TomlTable entries))
  (Hother : forall v, (forall entries, v <> TomlTable entries) -> P v)
  (Hnil : Q []) (Hcons : forall k v entries, P v -> Q entries -> Q ((k, v) :: entries)).

Fixpoint toml_ind (v : TomlValue) : P v :=
  match v with
  | TomlTable entries =>
      Htable entries ((fix go (l : Table) : Q l :=
        match l with [] => Hnil | (k, v) :: l => Hcons k v l (toml_ind v) (go l) end) entries)
  | v => Hother v (fun entries => ltac:(done))
  end.
End TomlInd.

Definition lookup_key (k : string) (t : Table) : option TomlValue :=
  snd <$> list_find_first (fun e => bool_decide (e.1 = k)) t.

Definition contains_key (k : string) (t : Table) : bool := bool_decide (is_Some (lookup_key k t)).
Definition as_str (v : TomlValue) : option string := match v with TomlString s => Some s | _ => None end.
Definition as_boolean (v : TomlValue) : option bool := match v with TomlBoolean b => Some b | _ => None end.
Definition get_str (k : string) (t : Table) : option string := lookup_key k t ≫= as_str.
Definition get_bool (k : string) (t : Table) : option bool := lookup_key k t ≫= as_boolean.

(** ** The flat list *)

Record SettingMetaToml := {
  tm_domains : list string;
  tm_choices : list string;
  tm_min : option Z;
  tm_max : option Z;
  tm_rules : list (string * HttpMethodPermissions);
  tm_env_vars : list string;
}.

Record SettingDefToml := {
  td_name : string;
  td_description : string;
  td_type : SettingType;
  td_default : SettingValue;
  td_collapsed : bool;
  td_meta : SettingMetaToml;
}.

Class Toml := {
  toml_from_str : string -> result TomlValue string;
  def_from_table : Table -> result SettingDefToml string;
}.

Record GroupMeta := { gm_category : string; gm_enabled_by : option string; gm_collapsed : bool }.

Definition GroupMeta_default : GroupMeta := {| gm_category := ""; gm_enabled_by := None; gm_collapsed := false |}.

Definition is_group_key (k : string) : bool := bool_decide (k ∈ ["name"; "description"; "enabled_by"; "collapsed"]).

Definition child_path (path key : string) : string := if is_empty path then key else path +:+ "." +:+ key.

Definition option_or {A} (a b : option A) : option A := match a with Some _ => a | None => b end.

Section Registry.
Context {toml : Toml}.

(** A leaf; [None] is the panic on a setting that does not decode. *)
Definition leaf_def (path : string) (t : Table) (parent : GroupMeta) : option SettingDef :=
  match def_from_table t with
  | Err _ => None
  | Ok def =>
      Some {| sdef_id := path; sdef_category := gm_category parent; sdef_name := td_name def;
              sdef_description := td_description def; sdef_type := td_type def; sdef_default := td_default def;
              sdef_enabled_by := if bool_decide (gm_enabled_by parent = Some path) then None else gm_enabled_by parent;
              sdef_metadata := {| domains := tm_domains (td_meta def); choices := tm_choices (td_meta def);
                                  min := tm_min (td_meta def); max := tm_max (td_meta def);
                                  rules := tm_rules (td_meta def); env_vars := tm_env_vars (td_meta def);
                                  md_collapsed := td_collapsed def |} |}
  end.

Definition group_meta (t : Table) (parent : GroupMeta) : GroupMeta :=
  {| gm_category := default (gm_category parent) (get_str "name" t);
     gm_enabled_by := option_or (get_str "enabled_by" t) (gm_enabled_by parent);
     gm_collapsed := default (gm_collapsed parent) (get_bool "collapsed" t) |}.

(** A value that is not a table is skipped by the caller. *)
Fixpoint collect_settings (path : string) (v : TomlValue) (parent : GroupMeta) : option (list SettingDef) :=
  match v with
  | TomlTable t =>
      if contains_key "type" t then (fun d => [d]) <$> leaf_def path t parent
      else
        let group := group_meta t parent in
        (fix children (l : Table) : option (list SettingDef) :=
           match l with
           | [] => Some []
           | (key, val) :: l =>
               if is_group_key key then children l
               else defs ← collect_settings (child_path path key) val group; rest ← children l; Some (defs ++ rest)
           end) t
  | _ => Some []
  end.

Definition setting_definitions (DEFAULTS_TOML : string) : option (list SettingDef) :=
  match toml_from_str DEFAULTS_TOML with
  | Ok (TomlTable root) =>
      match lookup_key "settings" root with
      | Some (TomlTable settings) => collect_settings "" (TomlTable settings) GroupMeta_default
      | _ => None
      end
  | _ => None
  end.

End Registry.

(** ** The tree *)

Inductive SettingsNode :=
| Group (key name : string) (description enabled_by : option string) (collapsed : bool) (children : list SettingsNode)
| Leaf (s : ResolvedSetting).

Section Tree.
Variable resolved_map : gmap string ResolvedSetting.

Fixpoint build_tree_from_table (path : string) (v : TomlValue) (parent_enabled_by : option string) (parent_collapsed : bool)
  : list SettingsNode :=
  match v with
  | TomlTable t =>
      if contains_key "type" t then match resolved_map !! path with Some s => [Leaf s] | None => [] end
      else
        let group_enabled_by := option_or (get_str "enabled_by" t) parent_enabled_by in
        let group_collapsed := default parent_collapsed (get_bool "collapsed" t) in
        let children :=
          (fix go (l : Table) : list SettingsNode :=
             match l with
             | [] => []
             | (key, val) :: l =>
                 if is_group_key key then go l
                 else build_tree_from_table (child_path path key) val group_enabled_by group_collapsed ++ go l
             end) t in
        match get_str "name" t with
        | Some name =>
            if is_empty path then children
            else [Group path name (get_str "description" t)
                    (match parent_enabled_by with Some _ => group_enabled_by | None => get_str "enabled_by" t end)
                    group_collapsed children]
        | None => children
        end
  | _ => []
  end.

End Tree.

(** Collecting keeps the last setting of an id. *)
Definition by_id (resolved : list ResolvedSetting) : gmap string ResolvedSetting :=
  foldl (fun m s => <[id s := s]> m) ∅ resolved.

(** The loop over the groups of the root; a key of its own is not skipped here. *)
Fixpoint top_level (m : gmap string ResolvedSetting) (settings : Table) : list SettingsNode :=
  match settings with
  | [] => []
  | (key, val) :: settings => build_tree_from_table m key val None false ++ top_level m settings
  end.

Definition is_dynamic_env (defs : list SettingDef) (m : gmap string ResolvedSetting) (s : ResolvedSetting) : bool :=
  (starts_with (id s) "guest.env." && negb (bool_decide (is_Some (m !! id s))))
  || (starts_with (id s) "guest.env." && bool_decide (category s = "Guest Environment")
      && forallb (fun d => negb (bool_decide (sdef_id d = id s))) defs).

(** The first group named so among the nodes is extended and ends the walk of its level. *)
Fixpoint append_to_node (envs : list ResolvedSetting) (node : SettingsNode) : SettingsNode * bool :=
  match node with
  | Group key name description enabled_by collapsed children =>
      if bool_decide (name = "Guest Environment")
      then (Group key name description enabled_by collapsed (children ++ map Leaf envs), true)
      else
        let children := (fix go (l : list SettingsNode) : list SettingsNode :=
          match l with
          | [] => []
          | n :: l => let '(n, found) := append_to_node envs n in n :: (if found then l else go l)
          end) children in
        (Group key name description enabled_by collapsed children, false)
  | Leaf s => (Leaf s, false)
  end.

Fixpoint append_dynamic (nodes : list SettingsNode) (envs : list ResolvedSetting) : list SettingsNode :=
  match nodes with
  | [] => []
  | n :: nodes => let '(n, found) := append_to_node envs n in n :: (if found then nodes else append_dynamic nodes envs)
  end.

Definition build_settings_tree `{Toml} (DEFAULTS_TOML : string) (resolved : list ResolvedSetting) : option (list SettingsNode) :=
  match toml_from_str DEFAULTS_TOML with
  | Ok (TomlTable root) =>
      match lookup_key "settings" root with
      | Some (TomlTable settings) =>
          let m := by_id resolved in
          let tree := top_level m settings in
          defs ← setting_definitions DEFAULTS_TOML;
          let envs := List.filter (is_dynamic_env defs m) resolved in
          Some (match envs with [] => tree | _ => append_dynamic tree envs end)
      | _ => None
      end
  | _ => None
  end.

(** ** The tree and the list *)

Fixpoint leaves (n : SettingsNode) : list ResolvedSetting :=
  match n with
  | Group _ _ _ _ _ children =>
      (fix go (l : list SettingsNode) : list ResolvedSetting :=
         match l with [] => [] | n :: l => leaves n ++ go l end) children
  | Leaf s => [s]
  end.

Definition all_leaves (l : list SettingsNode) : list ResolvedSetting := flat_map leaves l.

Lemma leaves_group key name d e c children : leaves (Group key name d e c children) = all_leaves children.
Proof. cbn [leaves]. induction children as [|n l IH]; [done|]. cbn. by rewrite IH. Qed.

Lemma all_leaves_app a b : all_leaves (a ++ b) = all_leaves a ++ all_leaves b.
Proof. apply flat_map_app. Qed.

Definition lookups (m : gmap string ResolvedSetting) (defs : list SettingDef) : list ResolvedSetting :=
  omap (fun d => m !! sdef_id d) defs.

Lemma lookups_app m a b : lookups m (a ++ b) = lookups m a ++ lookups m b.
Proof. apply omap_app. Qed.

Section Agreement.
Context {toml : Toml}.
Variable m : gmap string ResolvedSetting.

(** The loops over the entries of a group. *)
Fixpoint collect_children (path : string) (group : GroupMeta) (l : Table) : option (list SettingDef) :=
  match l with
  | [] => Some []
  | (key, val) :: l =>
      if is_group_key key then collect_children path group l
      else defs ← collect_settings (child_path path key) val group; rest ← collect_children path group l; Some (defs ++ rest)
  end.

Fixpoint tree_children (path : string) (eb : option string) (col : bool) (l : Table) : list SettingsNode :=
  match l with
  | [] => []
  | (key, val) :: l =>
      if is_group_key key then tree_children path eb col l
      else build_tree_from_table m (child_path path key) val eb col ++ tree_children path eb col l
  end.

Lemma collect_table path t parent :
  collect_settings path (TomlTable t) parent =
    if contains_key "type" t then (fun d => [d]) <$> leaf_def path t parent
    else collect_children path (group_meta t parent) t.
Proof.
  cbn [collect_settings]. destruct (contains_key "type" t); [done|]. generalize (group_meta t parent). intros group.
  induction t as [|[k v] l IH]; [done|]. cbn [collect_children]. destruct (is_group_key k); [exact IH|]. by rewrite <- IH.
Qed.

Lemma build_table path t eb col :
  contains_key "type" t = false ->
  let eb' := option_or (get_str "enabled_by" t) eb in
  let col' := default col (get_bool "collapsed" t) in
  build_tree_from_table m path (TomlTable t) eb col =
    match get_str "name" t with
    | Some name =>
        if is_empty path then tree_children path eb' col' t
        else [Group path name (get_str "description" t) (match eb with Some _ => eb' | None => get_str "enabled_by" t end)
                col' (tree_children path eb' col' t)]
    | None => tree_children path eb' col' t
    end.
Proof.
  intros Ht. cbn [build_tree_from_table]. rewrite Ht.
  assert (forall eb' col' l,
    (fix go (l : Table) : list SettingsNode :=
       match l with
       | [] => []
       | (key, val) :: l =>
           if is_group_key key then go l
           else build_tree_from_table m (child_path path key) val eb' col' ++ go l
       end) l = tree_children path eb' col' l) as ->.
  { intros eb' col'. induction l as [|[k v] l IH]; [done|]. cbn [tree_children]. destruct (is_group_key k); [exact IH|]. by rewrite <- IH. }
  done.
Qed.

Lemma tree_table path t eb col :
  contains_key "type" t = false ->
  all_leaves (build_tree_from_table m path (TomlTable t) eb col) =
    all_leaves (tree_children path (option_or (get_str "enabled_by" t) eb) (default col (get_bool "collapsed" t)) t).
Proof.
  intros Ht. rewrite build_table by done.
  destruct (get_str "name" t) as [name|]; [|done]. destruct (is_empty path); [done|].
  cbn [all_leaves flat_map]. by rewrite leaves_group, app_nil_r.
Qed.

(** Every walk of the document meets the same leaves in the same order. *)
Lemma tree_leaves v : forall path parent eb col defs, collect_settings path v parent = Some defs ->
  all_leaves (build_tree_from_table m path v eb col) = lookups m defs.
Proof.
  induction v as [t IH|v Hv| |k v t IHv IHt] using toml_ind with
    (Q := fun t => forall path group eb col defs, collect_children path group t = Some defs ->
            all_leaves (tree_children path eb col t) = lookups m defs).
  - intros path parent eb col defs. rewrite collect_table. destruct (contains_key "type" t) eqn:Et.
    + cbn [build_tree_from_table]. rewrite Et. destruct (leaf_def path t parent) as [d|] eqn:Ed; [|done]. intros [= <-].
      assert (sdef_id d = path) as Hd by (unfold leaf_def in Ed; destruct (def_from_table t); [by injection Ed as <-|done]).
      cbn. rewrite Hd. by destruct (m !! path).
    + intros Hc. rewrite tree_table by done. by eapply IH.
  - intros path parent eb col defs. destruct v; try (by intros [= <-]). by destruct (Hv entries).
  - by intros path group eb col defs [= <-].
  - intros path group eb col defs. cbn [collect_children tree_children]. destruct (is_group_key k); [apply IHt|].
    destruct (collect_settings (child_path path k) v group) as [a|] eqn:Ea; [|done].
    destruct (collect_children path group t) as [b|] eqn:Eb; [|done]. intros [= <-].
    rewrite all_leaves_app, lookups_app. f_equal; [by eapply IHv|by eapply IHt].
Qed.

(** The root: no [type], and no table under a key of groups. *)
Definition root_ok (settings : Table) : bool :=
  negb (contains_key "type" settings)
  && forallb (fun e => negb (is_group_key e.1) || match e.2 with TomlTable _ => false | _ => true end) settings.

Lemma top_level_leaves settings defs : root_ok settings = true ->
  collect_settings "" (TomlTable settings) GroupMeta_default = Some defs ->
  all_leaves (top_level m settings) = lookups m defs.
Proof.
  unfold root_ok. rewrite andb_true_iff, negb_true_iff. intros [Ht Hk]. rewrite collect_table, Ht.
  generalize (group_meta settings GroupMeta_default). intros group. clear Ht. revert defs.
  induction settings as [|[k v] l IH]; intros defs; [by intros [= <-]|].
  cbn [forallb fst snd] in Hk. apply andb_true_iff in Hk as [Hv Hk]. cbn [collect_children top_level].
  rewrite all_leaves_app. destruct (is_group_key k).
  - intros Hd. rewrite (IH Hk _ Hd). by destruct v.
  - change (child_path "" k) with k. destruct (collect_settings k v group) as [a|] eqn:Ea; [|done].
    destruct (collect_children "" group l) as [b|] eqn:Eb; [|done]. intros [= <-].
    rewrite lookups_app. f_equal; [by eapply tree_leaves|by apply IH].
Qed.

End Agreement.

(** The groups that [append_dynamic] extends. *)
Fixpoint guest_groups_node (node : SettingsNode) : nat :=
  match node with
  | Group _ name _ _ _ children =>
      if bool_decide (name = "Guest Environment") then 1%nat
      else (fix go (l : list SettingsNode) : nat :=
        match l with
        | [] => O
        | n :: l => (guest_groups_node n
                     + match n with
                       | Group _ nm _ _ _ _ => if bool_decide (nm = "Guest Environment") then O else go l
                       | Leaf _ => go l
                       end)%nat
        end) children
  | Leaf _ => O
  end.

Definition is_guest_group (n : SettingsNode) : bool :=
  match n with Group _ name _ _ _ _ => bool_decide (name = "Guest Environment") | Leaf _ => false end.

Fixpoint guest_groups (l : list SettingsNode) : nat :=
  match l with
  | [] => O
  | n :: l => (guest_groups_node n + if is_guest_group n then O else guest_groups l)%nat
  end.

Section NodeInd.
Variables (P : SettingsNode -> Prop) (Q : list SettingsNode -> Prop).
Hypotheses (Hgroup : forall k n d e c children, Q children -> P (Group k n d e c children))
  (Hleaf : forall s, P (Leaf s)) (Hnil : Q []) (Hcons : forall n l, P n -> Q l -> Q (n :: l)).

Fixpoint node_ind (n : SettingsNode) : P n :=
  match n with
  | Group k nm d e c children =>
      Hgroup k nm d e c children ((fix go (l : list SettingsNode) : Q l :=
        match l with [] => Hnil | n :: l => Hcons n l (node_ind n) (go l) end) children)
  | Leaf s => Hleaf s
  end.

Fixpoint nodes_ind (l : list SettingsNode) : Q l :=
  match l with [] => Hnil | n :: l => Hcons n l (node_ind n) (nodes_ind l) end.
End NodeInd.

Lemma append_found envs n : (append_to_node envs n).2 = is_guest_group n.
Proof. destruct n as [k nm d e c children|s]; [|done]. cbn. by case_bool_decide. Qed.

Lemma append_group envs k nm d e c children : nm <> "Guest Environment" ->
  append_to_node envs (Group k nm d e c children) = (Group k nm d e c (append_dynamic children envs), false).
Proof.
  intros Hn. cbn [append_to_node]. rewrite bool_decide_false by done. do 2 f_equal.
  induction children as [|n l IH]; [done|]. cbn [append_dynamic]. destruct (append_to_node envs n) as [n' []]; [done|]. by rewrite IH.
Qed.

Lemma guest_groups_group k nm d e c children : nm <> "Guest Environment" ->
  guest_groups_node (Group k nm d e c children) = guest_groups children.
Proof.
  intros Hn. cbn [guest_groups_node]. rewrite bool_decide_false by done.
  induction children as [|n l IH]; [done|]. cbn [guest_groups]. f_equal.
  destruct n as [k' nm' d' e' c' ch'|s]; cbn [is_guest_group]; [|exact IH]. case_bool_decide; [done|exact IH].
Qed.

Lemma append_leaves envs l :
  all_leaves (append_dynamic l envs) ≡ₚ all_leaves l ++ concat (replicate (guest_groups l) envs).
Proof.
  induction l as [k nm d e c children IH|s| |n l IHn IHl] using nodes_ind with
    (P := fun n => leaves (append_to_node envs n).1 ≡ₚ leaves n ++ concat (replicate (guest_groups_node n) envs)).
  - destruct (decide (nm = "Guest Environment")) as [->|Hne].
    + cbn [append_to_node guest_groups_node]. rewrite bool_decide_true by done. cbn [fst replicate concat].
      rewrite !leaves_group, all_leaves_app, app_nil_r. f_equiv.
      assert (forall l, all_leaves (map Leaf l) = l) as -> by (intros x; induction x as [|y x IHx]; [done|cbn; by f_equal]). done.
    + rewrite append_group, guest_groups_group by done. cbn [fst]. by rewrite !leaves_group.
  - reflexivity.
  - done.
  - cbn [append_dynamic guest_groups]. pose proof (append_found envs n) as Hf.
    destruct (append_to_node envs n) as [n' found]. cbn in Hf, IHn. subst found. destruct (is_guest_group n).
    + cbn [all_leaves flat_map]. rewrite IHn, Nat.add_0_r. change (flat_map leaves l) with (all_leaves l).
      rewrite <- !app_assoc. f_equiv. apply Permutation_app_comm.
    + cbn [all_leaves flat_map]. change (flat_map leaves ?x) with (all_leaves x). rewrite IHn, IHl.
      rewrite replicate_add, concat_app, <- !app_assoc. f_equiv. rewrite !app_assoc. f_equiv. apply Permutation_app_comm.
Qed.

(** ** The whole tree *)

Lemma by_id_app_lookup l (m0 : gmap string ResolvedSetting) k : (forall s, s ∈ l -> id s <> k) -> foldl (fun m s => <[id s := s]> m) m0 l !! k = m0 !! k.
Proof.
  revert m0. induction l as [|s l IH]; intros m0 Hl; [done|]. cbn [foldl]. rewrite IH by (intros x Hx; apply Hl; by right).
  apply lookup_insert_ne, Hl. left.
Qed.

Lemma by_id_lookup l s : NoDup (map id l) -> s ∈ l -> by_id l !! id s = Some s.
Proof.
  unfold by_id. generalize (∅ : gmap string ResolvedSetting). induction l as [|x l IH]; intros m0 Hnd Hs; [by apply elem_of_nil in Hs|].
  cbn [map] in Hnd. apply NoDup_cons in Hnd as [Hx Hnd]. cbn [foldl]. apply elem_of_cons in Hs as [->|Hs]; [|by apply IH].
  rewrite by_id_app_lookup; [apply lookup_insert_eq|]. intros y Hy Hid. apply Hx. rewrite <- Hid. by apply list_elem_of_fmap_2.
Qed.

Lemma lookups_ids m defs l : map sdef_id defs = map id l -> (forall s, s ∈ l -> m !! id s = Some s) -> lookups m defs = l.
Proof.
  revert l. induction defs as [|d defs IH]; intros [|s l] Hids Hl; try done. cbn [map] in Hids. injection Hids as Hd Hids.
  change (lookups m (d :: defs)) with (match m !! sdef_id d with Some x => x :: lookups m defs | None => lookups m defs end).
  rewrite Hd, Hl by left. f_equal. apply IH; [done|]. intros x Hx. apply Hl. by right.
Qed.

Lemma filter_all {A} (f : A -> bool) l : (forall x, x ∈ l -> f x = true) -> List.filter f l = l.
Proof. induction l as [|x l IH]; intros H; [done|]. cbn. rewrite H by left. f_equal. apply IH. intros y Hy. apply H. by right. Qed.

Lemma filter_none {A} (f : A -> bool) l : (forall x, x ∈ l -> f x = false) -> List.filter f l = [].
Proof. induction l as [|x l IH]; intros H; [done|]. cbn. rewrite H by left. apply IH. intros y Hy. apply H. by right. Qed.

(** Which of the resolved settings are appended. *)
Lemma dynamic_envs defs stat dyn : map sdef_id defs = map id stat -> NoDup (map id (stat ++ dyn)) ->
  (forall s, s ∈ dyn -> starts_with (id s) "guest.env." = true /\ category s = "Guest Environment") ->
  List.filter (is_dynamic_env defs (by_id (stat ++ dyn))) (stat ++ dyn) = dyn.
Proof.
  intros Hids Hnd Hdyn. rewrite List.filter_app.
  rewrite (filter_none _ stat), (filter_all _ dyn); [done| |].
  - intros s Hs. destruct (Hdyn s Hs) as [Hp Hc]. unfold is_dynamic_env. rewrite Hp, (bool_decide_true (category s = _)) by done.
    apply orb_true_iff. right. cbn [andb]. apply forallb_forall. intros d Hd. rewrite bool_decide_false; [done|].
    intros He. rewrite map_app in Hnd. apply NoDup_app in Hnd as (_ & Hdisj & _). apply (Hdisj (id s)).
    + rewrite <- Hids, <- He. apply list_elem_of_In, in_map, Hd.
    + by apply list_elem_of_fmap_2.
  - intros s Hs. unfold is_dynamic_env. rewrite (by_id_lookup _ s) by (done || (apply elem_of_app; by left)).
    rewrite bool_decide_true by done. cbn [negb]. rewrite andb_false_r. cbn [orb].
    destruct (forallb _ defs) eqn:Ef; [|by rewrite andb_false_r]. exfalso.
    apply (list_elem_of_fmap_2 id) in Hs. change (id <$> stat) with (map id stat) in Hs. rewrite <- Hids in Hs.
    apply list_elem_of_In, in_map_iff in Hs as (d & Hd & Hin). rewrite forallb_forall in Ef. specialize (Ef d Hin).
    by rewrite bool_decide_true in Ef.
Qed.

Lemma compute_enabled_split a b : exists a' b', compute_enabled (a ++ b) = a' ++ b' /\
  map id a' = map id a /\ map id b' = map id b /\ map category b' = map category b.
Proof.
  unfold compute_enabled. rewrite map_app. eexists _, _. split; [done|].
  split; [|split]; rewrite map_map; apply map_ext; intros s; by destruct (enabled_by s).
Qed.

(** *** What the document has to be like *)

(** The ids of the leaves, from the document alone. *)
Fixpoint leaf_ids (path : string) (v : TomlValue) : list string :=
  match v with
  | TomlTable t =>
      if contains_key "type" t then [path]
      else (fix go (l : Table) : list string :=
        match l with [] => [] | (key, val) :: l => if is_group_key key then go l else leaf_ids (child_path path key) val ++ go l end) t
  | _ => []
  end.

(** A root without a type, whose tables have keys that are names; no leaf twice; no leaf
    named like a variable of the user; one group named "Guest Environment". *)
Definition document_ok (settings : Table) : bool :=
  root_ok settings && forallb (fun e => negb (is_empty e.1)) settings
  && bool_decide (NoDup (leaf_ids "" (TomlTable settings)))
  && forallb (fun i => negb (starts_with i "guest.env.")) (leaf_ids "" (TomlTable settings))
  && (guest_groups (top_level ∅ settings) =? 1)%nat.

Fixpoint children_ids (path : string) (l : Table) : list string :=
  match l with [] => [] | (key, val) :: l => if is_group_key key then children_ids path l else leaf_ids (child_path path key) val ++ children_ids path l end.

Lemma leaf_ids_table path t : leaf_ids path (TomlTable t) = if contains_key "type" t then [path] else children_ids path t.
Proof.
  cbn [leaf_ids]. destruct (contains_key "type" t); [done|]. induction t as [|[k v] l IH]; [done|]. cbn [children_ids].
  destruct (is_group_key k); [exact IH|]. by rewrite <- IH.
Qed.

Lemma collect_ids `{Toml} v : forall path parent defs, collect_settings path v parent = Some defs -> map sdef_id defs = leaf_ids path v.
Proof.
  induction v as [t IH|v Hv| |k v t IHv IHt] using toml_ind with
    (Q := fun t => forall path group defs, collect_children path group t = Some defs -> map sdef_id defs = children_ids path t).
  - intros path parent defs. rewrite collect_table, leaf_ids_table. destruct (contains_key "type" t); [|apply IH].
    destruct (leaf_def path t parent) as [d|] eqn:Ed; [|done]. intros [= <-]. unfold leaf_def in Ed.
    destruct (def_from_table t); [by injection Ed as <-|done].
  - intros path parent defs. destruct v; try (by intros [= <-]). by destruct (Hv entries).
  - by intros path group defs [= <-].
  - intros path group defs. cbn [collect_children children_ids]. destruct (is_group_key k); [apply IHt|].
    destruct (collect_settings (child_path path k) v group) as [a|] eqn:Ea; [|done].
    destruct (collect_children path group t) as [b|] eqn:Eb; [|done]. intros [= <-]. rewrite map_app. by erewrite IHv, IHt.
Qed.

(** *** The groups do not depend on the settings *)

Lemma guest_groups_app a b : guest_groups (a ++ b) = (guest_groups a + if existsb is_guest_group a then O else guest_groups b)%nat.
Proof. induction a as [|n a IH]; [done|]. cbn [app guest_groups existsb]. destruct (is_guest_group n); cbn [orb]; [lia|]. rewrite IH. lia. Qed.

Definition same_groups (l l' : list SettingsNode) : Prop :=
  guest_groups l = guest_groups l' /\ existsb is_guest_group l = existsb is_guest_group l'.

Lemma same_groups_app a a' b b' : same_groups a a' -> same_groups b b' -> same_groups (a ++ b) (a' ++ b').
Proof. intros [H1 H2] [H3 H4]. split; [by rewrite !guest_groups_app, H1, H2, H3|by rewrite !existsb_app, H2, H4]. Qed.

Lemma same_groups_group k nm d e c l l' : same_groups l l' -> same_groups [Group k nm d e c l] [Group k nm d e c l'].
Proof.
  intros [Hg _]. split; [|done]. cbn [guest_groups is_guest_group]. destruct (decide (nm = "Guest Environment")) as [->|Hne].
  - cbn [guest_groups_node]. by rewrite bool_decide_true.
  - by rewrite !guest_groups_group, Hg.
Qed.

Lemma build_groups m m' v : forall path eb col, same_groups (build_tree_from_table m path v eb col) (build_tree_from_table m' path v eb col).
Proof.
  induction v as [t IH|v Hv| |k v t IHv IHt] using toml_ind with
    (Q := fun t => forall path eb col, same_groups (tree_children m path eb col t) (tree_children m' path eb col t)).
  - intros path eb col. destruct (contains_key "type" t) eqn:Et.
    + cbn [build_tree_from_table]. rewrite Et. by destruct (m !! path), (m' !! path).
    + rewrite !build_table by done. destruct (get_str "name" t); [destruct (is_empty path)|]; try apply same_groups_group; apply IH.
  - intros path eb col. destruct v; try done. by destruct (Hv entries).
  - done.
  - intros path eb col. cbn [tree_children]. destruct (is_group_key k); [apply IHt|]. apply same_groups_app; [apply IHv|apply IHt].
Qed.

Lemma top_level_groups m m' settings : same_groups (top_level m settings) (top_level m' settings).
Proof. induction settings as [|[k v] l IH]; [done|]. cbn [top_level]. apply same_groups_app; [apply build_groups|exact IH]. Qed.

(** *** Where the leaves are *)

(** A leaf or a group inside a group: the key of the group starts its path. *)
Definition within (key path : string) : Prop := key = "" \/ starts_with path (key +:+ ".") = true.

Inductive placed : string -> SettingsNode -> Prop :=
| PlacedLeaf key s : within key (id s) -> placed key (Leaf s)
| PlacedGroup key k nm d e c children : within key k -> Forall (placed k) children -> placed key (Group k nm d e c children).

Lemma within_child key path k : path <> "" -> within key path -> within key (child_path path k).
Proof.
  intros Hp [->|Hw]; [by left|right]. unfold child_path. destruct (is_empty path) eqn:E; [by apply is_empty_true in E|].
  apply starts_with_spec in Hw as [r ->]. apply starts_with_spec. exists (r +:+ "." +:+ k). by rewrite <- !sapp_assoc.
Qed.

Lemma within_parent path k : path <> "" -> within path (child_path path k).
Proof.
  intros Hp. right. unfold child_path. destruct (is_empty path) eqn:E; [by apply is_empty_true in E|].
  apply starts_with_spec. exists k. by rewrite <- sapp_assoc.
Qed.

Lemma child_path_ne path k : path <> "" -> child_path path k <> "".
Proof. intros Hp. unfold child_path. destruct (is_empty path) eqn:E; [by apply is_empty_true in E|]. by destruct path. Qed.

Lemma build_placed m v : (forall k s, m !! k = Some s -> id s = k) -> forall path key eb col, path <> "" -> within key path ->
  Forall (placed key) (build_tree_from_table m path v eb col).
Proof.
  intros Hm. induction v as [t IH|v Hv| |k v t IHv IHt] using toml_ind with
    (Q := fun t => forall path key eb col, path <> "" -> (forall k, within key (child_path path k)) -> Forall (placed key) (tree_children m path eb col t)).
  - intros path key eb col Hp Hw. destruct (contains_key "type" t) eqn:Et.
    + cbn [build_tree_from_table]. rewrite Et. destruct (m !! path) as [s|] eqn:Es; [|done].
      apply Forall_singleton. constructor. by rewrite (Hm _ _ Es).
    + rewrite build_table by done. assert (forall k, within key (child_path path k)) as Hc by (intros k; by apply within_child).
      destruct (get_str "name" t); [destruct (is_empty path)|]; try by apply IH.
      apply Forall_singleton. constructor; [done|]. apply IH; [done|]. intros k. by apply within_parent.
  - intros path key eb col _ _. destruct v; try done. by destruct (Hv entries).
  - done.
  - intros path key eb col Hp Hw. cbn [tree_children]. destruct (is_group_key k); [by apply IHt|]. apply Forall_app.
    split; [apply IHv; [by apply child_path_ne|done]|by apply IHt].
Qed.

Lemma by_id_id l k s : by_id l !! k = Some s -> id s = k.
Proof.
  unfold by_id. assert (forall k s, (∅ : gmap string ResolvedSetting) !! k = Some s -> id s = k) as H0 by (intros ? ? E; by rewrite lookup_empty in E).
  revert H0. generalize (∅ : gmap string ResolvedSetting). induction l as [|x l IH]; intros m0 H0; [apply H0|]. cbn [foldl]. apply IH.
  intros k' s' [[<- <-]|[_ E]]%lookup_insert_Some; [done|by apply H0].
Qed.

Lemma top_level_placed m settings : (forall k s, m !! k = Some s -> id s = k) -> forallb (fun e => negb (is_empty e.1)) settings = true ->
  Forall (placed "") (top_level m settings).
Proof.
  intros Hm. induction settings as [|[k v] l IH]; [done|]. cbn [forallb fst top_level]. intros [Hk Hl]%andb_true_iff.
  apply Forall_app. split; [|by apply IH]. apply build_placed; [done|by intros ->|by left].
Qed.

(** *** One group grows *)

(** The two forests are the same but for one group "Guest Environment", whose children
    are followed by the new leaves in the second. *)
Inductive grown (envs : list ResolvedSetting) : list SettingsNode -> list SettingsNode -> Prop :=
| GrownHere a b k d e c children :
    grown envs (a ++ Group k "Guest Environment" d e c children :: b)
               (a ++ Group k "Guest Environment" d e c (children ++ map Leaf envs) :: b)
| GrownInside a b k nm d e c children children' : grown envs children children' ->
    grown envs (a ++ Group k nm d e c children :: b) (a ++ Group k nm d e c children' :: b).

Lemma grown_app envs x l l' y : grown envs l l' -> grown envs (x ++ l ++ y) (x ++ l' ++ y).
Proof.
  intros [a b k d e c children|a b k nm d e c children children' Hg]; rewrite <- !app_assoc; cbn [app]; rewrite !(app_assoc x);
    [apply GrownHere|by apply GrownInside].
Qed.

Lemma append_grown envs l :
  (guest_groups l = 1%nat -> grown envs l (append_dynamic l envs)) /\ (guest_groups l = O -> append_dynamic l envs = l).
Proof.
  induction l as [k nm d e c children IH|s| |n l IHn IHl] using nodes_ind with
    (P := fun n => (guest_groups_node n = 1%nat -> grown envs [n] [(append_to_node envs n).1]) /\
                   (guest_groups_node n = O -> (append_to_node envs n).1 = n)).
  - destruct (decide (nm = "Guest Environment")) as [->|Hne].
    + cbn [append_to_node guest_groups_node]. rewrite bool_decide_true by done. split; [|done]. intros _. apply (GrownHere envs [] []).
    + rewrite append_group, guest_groups_group by done. cbn [fst]. destruct IH as [IH1 IH0].
      split; [intros H; by apply (GrownInside envs [] []), IH1|intros H; by rewrite IH0].
  - done.
  - done.
  - cbn [append_dynamic guest_groups]. pose proof (append_found envs n) as Hf. destruct IHn as [N1 N0], IHl as [L1 L0].
    assert (is_guest_group n = true -> guest_groups_node n = 1%nat) as Hn.
    { destruct n as [k nm d e c children|s]; [|done]. cbn. by intros ->. }
    destruct (append_to_node envs n) as [n' found]. cbn in Hf, N1, N0. subst found. destruct (is_guest_group n).
    + rewrite Hn by done. split; [|done]. intros _. apply (grown_app envs [] [n] [n'] l), N1, Hn. done.
    + destruct (guest_groups_node n) as [|[|g]] eqn:Eg; cbn [Nat.add].
      * rewrite (N0 eq_refl). split; [|by intros ->%L0]. intros H. pose proof (grown_app envs [n] l _ [] (L1 H)) as Hg. by rewrite !app_nil_r in Hg.
      * split; [|done]. intros [= H]. rewrite (L0 H). apply (grown_app envs [] [n] [n'] l). by apply N1.
      * done.
Qed.

(** *** The tree of a document *)

Lemma resolved_split defs user venv corp : exists stat dyn, resolve_settings_with_venv defs user venv corp = stat ++ dyn /\
  map id stat = map sdef_id defs /\ map id dyn = collect_dynamic_keys_with_venv user venv corp /\
  forall s, s ∈ dyn -> category s = "Guest Environment".
Proof.
  destruct (compute_enabled_split (map (resolve_def user venv corp) defs)
    (map (resolve_dynamic user venv corp) (collect_dynamic_keys_with_venv user venv corp))) as (stat & dyn & Hr & Hs & Hd & Hc).
  exists stat, dyn. split; [exact Hr|]. split; [|split].
  - rewrite Hs, map_map. apply map_ext. intros d. unfold resolve_def. by destruct (resolve_value_with_venv _ _ _ _ _) as [[]].
  - rewrite Hd, map_map. etransitivity; [|apply map_id]. apply map_ext. intros k. unfold resolve_dynamic. by destruct (resolve_value_with_venv _ _ _ _ _) as [[]].
  - intros s Hin. assert (category s ∈ map category dyn) as Hcat by (by apply list_elem_of_fmap_2).
    rewrite Hc, map_map in Hcat. apply list_elem_of_fmap in Hcat as (k & -> & _). unfold resolve_dynamic. by destruct (resolve_value_with_venv _ _ _ _ _) as [[]].
Qed.

(** C32: take a registry that is well formed (no setting twice, none named like a variable of
    the user, one group "Guest Environment"; the shipped config/defaults.toml is). The tree
    the UI gets holds every resolved setting exactly once: the registered ones, found by a
    second walk of the document, in the registry's order and each inside groups whose keys
    start its id, and the user's guest.env variables, appended in their order to the
    children of the group "Guest Environment" and nowhere else. *)
Theorem settings_tree_complete `{Toml} (DEFAULTS_TOML : string) (root settings : Table) (defs : list SettingDef)
    (user venv corp : SettingsFile) :
  let resolved := resolve_settings_with_venv defs user venv corp in
  toml_from_str DEFAULTS_TOML = Ok (TomlTable root) -> lookup_key "settings" root = Some (TomlTable settings) ->
  document_ok settings = true -> setting_definitions DEFAULTS_TOML = Some defs ->
  exists registered envs base tree,
    build_settings_tree DEFAULTS_TOML resolved = Some tree /\
    resolved = registered ++ envs /\ map id registered = map sdef_id defs /\ map id envs = collect_dynamic_keys_with_venv user venv corp /\
    all_leaves base = registered /\ Forall (placed "") base /\
    match envs with [] => tree = base | _ => grown envs base tree end /\
    all_leaves tree ≡ₚ resolved.
Proof.
  cbv zeta. intros Htoml Hset Hdoc Hdefs. pose proof Hdefs as Hcollect. unfold setting_definitions in Hcollect. rewrite Htoml, Hset in Hcollect.
  pose proof (collect_ids _ _ _ _ Hcollect) as Hleaf. unfold document_ok in Hdoc. rewrite <- Hleaf, !andb_true_iff in Hdoc.
  destruct Hdoc as [[[[Hroot Hkeys] Hnd%bool_decide_eq_true] Hnoenv] Hguest%Nat.eqb_eq].
  destruct (resolved_split defs user venv corp) as (stat & dyn & Hr & Hs & Hd & Hc). rewrite Hr.
  pose proof (dynamic_keys_spec user venv corp) as [Hdn Hdk]. rewrite forallb_forall in Hnoenv.
  assert (NoDup (map id (stat ++ dyn))) as Hnodup.
  { rewrite map_app, Hs, Hd. apply NoDup_app. split; [done|]. split; [|done]. intros i Hi Hk. apply Hdk in Hk as [Hk _].
    apply list_elem_of_In, Hnoenv in Hi. by rewrite Hk in Hi. }
  assert (forall s, s ∈ dyn -> starts_with (id s) "guest.env." = true /\ category s = "Guest Environment") as Hdyn.
  { intros s Hin. split; [|by apply Hc]. apply (list_elem_of_fmap_2 id) in Hin. change (id <$> dyn) with (map id dyn) in Hin. rewrite Hd in Hin. by apply Hdk in Hin as [Hin _]. }
  set (base := top_level (by_id (stat ++ dyn)) settings).
  assert (all_leaves base = stat) as Hstat.
  { unfold base. rewrite (top_level_leaves _ _ defs Hroot Hcollect). apply lookups_ids; [done|].
    intros s Hin. apply by_id_lookup; [done|]. apply elem_of_app. by left. }
  assert (guest_groups base = 1%nat) as Hone by (rewrite <- Hguest; apply top_level_groups).
  exists stat, dyn, base, (match dyn with [] => base | _ => append_dynamic base dyn end).
  split. { unfold build_settings_tree. rewrite Htoml, Hset, Hdefs. cbn [mbind option_bind]. by rewrite (dynamic_envs defs stat dyn) by done. }
  do 4 (split; [done|]). split; [apply top_level_placed; [apply by_id_id|done]|]. destruct dyn as [|s dyn].
  - split; [done|]. by rewrite Hstat, app_nil_r.
  - split; [by apply append_grown|]. rewrite append_leaves, Hstat, Hone. cbn [replicate concat]. by rewrite app_nil_r.
Qed.

(** The own [enabled_by] of a leaf is not read: what counts is its group's. *)
Lemma leaf_enabled_by_group `{Toml} path t parent d : leaf_def path t parent = Some d ->
  sdef_enabled_by d = if bool_decide (gm_enabled_by parent = Some path) then None else gm_enabled_by parent.
Proof. unfold leaf_def. destruct (def_from_table t); [|done]. by intros [= <-]. Qed.

(** ** An excerpt of the shipped registry *)

Module Demo.

Definition leaf_table (name ty : string) (default : TomlValue) : TomlValue :=
  TomlTable [("default", default); ("description", TomlString ""); ("name", TomlString name); ("type", TomlString ty)].

Definition root : Table := [("settings", TomlTable [
  ("ai", TomlTable [
    ("anthropic", TomlTable [
      ("allow", leaf_table "Allow Anthropic" "bool" (TomlBoolean false));
      ("api_key", leaf_table "Anthropic API Key" "apikey" (TomlString ""));
      ("enabled_by", TomlString "ai.anthropic.allow"); ("name", TomlString "Anthropic")]);
    ("collapsed", TomlBoolean false); ("name", TomlString "AI Providers")]);
  ("guest", TomlTable [
    ("name", TomlString "Guest Environment");
    ("shell", TomlTable [("name", TomlString "Shell"); ("term", leaf_table "TERM" "text" (TomlString "xterm-256color"))])])])].

Definition settings : Table := match lookup_key "settings" root with Some (TomlTable t) => t | _ => [] end.

(** The decoder of the leaves above. *)
#[global] Instance toml : Toml := {|
  toml_from_str _ := Ok (TomlTable root);
  def_from_table t :=
    match get_str "name" t, get_str "type" t, lookup_key "default" t with
    | Some name, Some ty, Some default =>
        Ok {| td_name := name; td_description := ""; td_type := if bool_decide (ty = "bool") then TBool else TText;
              td_default := match default with TomlBoolean b => VBool b | TomlString s => VText s | _ => VText "" end;
              td_collapsed := false;
              td_meta := {| tm_domains := []; tm_choices := []; tm_min := None; tm_max := None; tm_rules := []; tm_env_vars := [] |} |}
    | _, _, _ => Err "missing field"
    end |}.

Definition defs : list SettingDef := Eval vm_compute in default [] (setting_definitions "").
Definition user : SettingsFile := {["guest.env.EDITOR" := {| en_value := VText "vi"; en_modified := "" |}]}.
Definition tree : list SettingsNode := default [] (build_settings_tree "" (resolve_settings_with_venv defs user ∅ ∅)).

Example registry :
  map (fun d => (sdef_id d, sdef_category d, sdef_enabled_by d)) defs =
    [("ai.anthropic.allow", "Anthropic", None); ("ai.anthropic.api_key", "Anthropic", Some "ai.anthropic.allow");
     ("guest.shell.term", "Shell", None)].
Proof. by vm_compute. Qed.

End Demo.

