(* ===== verification/SettingsRegistry.v ===== *)
(** The shipped registry: config/defaults.toml as the document [SettingsTree] walks, table
    by table in the order of its keys. It is what [settings_tree_complete] asks of a registry
    ([shipped_document_ok]), for every decoder of its leaves. *)

From Stdlib Require Import ZArith Ascii.
From stdpp Require Import base numbers list gmap strings.
From S2P Require Import Prelude RustStr Settings SettingsTree.

(** A text with apostrophes in the place of its quotation marks. *)
Definition quoted (s : string) : string := smap (fun c => if bool_decide (c = "'"%char) then "034"%char else c) s.

(** The groups of the root, in the order of their keys. *)
Definition settings_ai : Table := [
  ("anthropic", TomlTable [
    ("allow", TomlTable [
      ("default", TomlBoolean false);
      ("description", TomlString "Enable API access to Anthropic (api.anthropic.com).");
      ("meta", TomlTable [("rules", TomlTable [("default", TomlTable [("get", TomlBoolean true); ("post", TomlBoolean true)])])]);
      ("name", TomlString "Allow Anthropic");
      ("type", TomlString "bool")]);
    ("api_key", TomlTable [
      ("default", TomlString "");
      ("description", TomlString "API key for Anthropic. Injected as ANTHROPIC_API_KEY env var.");
      ("meta", TomlTable [("env_vars", TomlArray [TomlString "ANTHROPIC_API_KEY"])]);
      ("name", TomlString "Anthropic API Key");
      ("type", TomlString "apikey")]);
    ("claude", TomlTable [
      ("description", TomlString "Claude Code configuration files");
      ("name", TomlString "Claude Code");
      ("settings_json", TomlTable [
        ("collapsed", TomlBoolean true);
        ("default", TomlTable [
          ("content", TomlString (quoted "{'permissions':{'defaultMode':'bypassPermissions'},'env':{'CLAUDE_CODE_DISABLE_NONESSENTIAL_TRAFFIC':'1'}}"));
          ("path", TomlString "/root/.claude/settings.json")]);
        ("description", TomlString "Content for ~/.claude/settings.json. Bypass permissions, disable telemetry/updates for sandboxed execution.");
        ("name", TomlString "Claude Code settings.json");
        ("type", TomlString "file")]);
      ("state_json", TomlTable [
        ("collapsed", TomlBoolean true);
        ("default", TomlTable [
          ("content", TomlString (quoted "{'hasCompletedOnboarding':true,'hasTrustDialogAccepted':true,'hasTrustDialogHooksAccepted':true,'shiftEnterKeyBindingInstalled':true,'theme':'dark','numStartups':1,'opusProMigrationComplete':true,'sonnet1m45MigrationComplete':true,'projects':{'/root':{'allowedTools':[],'hasTrustDialogAccepted':true,'projectOnboardingSeenCount':1}}}"));
          ("path", TomlString "/root/.claude.json")]);
        ("description", TomlString "Content for ~/.claude.json. Skips onboarding, trust dialogs, and keybinding prompts.");
        ("name", TomlString "Claude Code state (.claude.json)");
        ("type", TomlString "file")])]);
    ("collapsed", TomlBoolean false);
    ("description", TomlString "Claude Code AI agent");
    ("domains", TomlTable [
      ("default", TomlString "*.anthropic.com, *.claude.com");
      ("description", TomlString ("Comma-separated domain patterns. Wildcards (" +:+ "*.example.com) match all subdomains."));
      ("name", TomlString "Anthropic Domains");
      ("type", TomlString "text")]);
    ("enabled_by", TomlString "ai.anthropic.allow");
    ("name", TomlString "Anthropic")]);
  ("collapsed", TomlBoolean false);
  ("description", TomlString "AI model provider configuration");
  ("google", TomlTable [
    ("allow", TomlTable [
      ("default", TomlBoolean true);
      ("description", TomlString ("Enable API access to Google AI (" +:+ "*.googleapis.com)."));
      ("meta", TomlTable [("rules", TomlTable [("default", TomlTable [("get", TomlBoolean true); ("post", TomlBoolean true)])])]);
      ("name", TomlString "Allow Google AI");
      ("type", TomlString "bool")]);
    ("api_key", TomlTable [
      ("default", TomlString "");
      ("description", TomlString "API key for Google AI. Injected as GEMINI_API_KEY env var.");
      ("meta", TomlTable [("env_vars", TomlArray [TomlString "GEMINI_API_KEY"])]);
      ("name", TomlString "Google AI API Key");
      ("type", TomlString "apikey")]);
    ("collapsed", TomlBoolean false);
    ("description", TomlString "Google Gemini AI provider");
    ("domains", TomlTable [
      ("default", TomlString "*.googleapis.com");
      ("description", TomlString ("Comma-separated domain patterns. Wildcards (" +:+ "*.example.com) match all subdomains."));
      ("name", TomlString "Google AI Domains");
      ("type", TomlString "text")]);
    ("enabled_by", TomlString "ai.google.allow");
    ("gemini", TomlTable [
      ("description", TomlString "Gemini CLI configuration files");
      ("installation_id", TomlTable [
        ("collapsed", TomlBoolean true);
        ("default", TomlTable [
          ("content", TomlString "clawcage-sandbox-00000000-0000-0000-0000-000000000000");
          ("path", TomlString "/root/.gemini/installation_id")]);
        ("description", TomlString "Content for ~/.gemini/installation_id. Stable UUID avoids first-run prompts.");
        ("name", TomlString "Gemini installation_id");
        ("type", TomlString "file")]);
      ("name", TomlString "Gemini CLI");
      ("projects_json", TomlTable [
        ("collapsed", TomlBoolean true);
        ("default", TomlTable [
          ("content", TomlString (quoted "{'projects':{'/root':'root'}}"));
          ("path", TomlString "/root/.gemini/projects.json")]);
        ("description", TomlString "Content for ~/.gemini/projects.json. Project directory mappings.");
        ("name", TomlString "Gemini projects.json");
        ("type", TomlString "file")]);
      ("settings_json", TomlTable [
        ("collapsed", TomlBoolean true);
        ("default", TomlTable [
          ("content", TomlString (quoted "{'homeDirectoryWarningDismissed':true,'general':{'disableAutoUpdate':true,'disableUpdateNag':true},'ui':{'hideTips':true,'hideBanner':false},'privacy':{'usageStatisticsEnabled':false,'sessionRetention':'none'},'telemetry':{'enabled':false},'security':{'auth':{'selectedType':'gemini-api-key'},'folderTrust.enabled':false},'ide':{'hasSeenNudge':true},'tools':{'sandbox':false}}"));
          ("path", TomlString "/root/.gemini/settings.json")]);
        ("description", TomlString "Content for ~/.gemini/settings.json. Session retention, auth, MCP servers, etc.");
        ("name", TomlString "Gemini settings.json");
        ("type", TomlString "file")]);
      ("trusted_folders_json", TomlTable [
        ("collapsed", TomlBoolean true);
        ("default", TomlTable [
          ("content", TomlString (quoted "{'/root':'TRUST_FOLDER'}"));
          ("path", TomlString "/root/.gemini/trustedFolders.json")]);
        ("description", TomlString "Content for ~/.gemini/trustedFolders.json. Pre-trusted workspace dirs.");
        ("name", TomlString "Gemini trustedFolders.json");
        ("type", TomlString "file")])]);
    ("name", TomlString "Google AI")]);
  ("name", TomlString "AI Providers");
  ("openai", TomlTable [
    ("allow", TomlTable [
      ("default", TomlBoolean false);
      ("description", TomlString "Enable API access to OpenAI (api.openai.com).");
      ("meta", TomlTable [("rules", TomlTable [("default", TomlTable [("get", TomlBoolean true); ("post", TomlBoolean true)])])]);
      ("name", TomlString "Allow OpenAI");
      ("type", TomlString "bool")]);
    ("api_key", TomlTable [
      ("default", TomlString "");
      ("description", TomlString "API key for OpenAI. Injected as OPENAI_API_KEY env var.");
      ("meta", TomlTable [("env_vars", TomlArray [TomlString "OPENAI_API_KEY"])]);
      ("name", TomlString "OpenAI API Key");
      ("type", TomlString "apikey")]);
    ("collapsed", TomlBoolean false);
    ("description", TomlString "OpenAI API provider");
    ("domains", TomlTable [
      ("default", TomlString "*.openai.com");
      ("description", TomlString ("Comma-separated domain patterns. Wildcards (" +:+ "*.example.com) match all subdomains."));
      ("name", TomlString "OpenAI Domains");
      ("type", TomlString "text")]);
    ("enabled_by", TomlString "ai.openai.allow");
    ("name", TomlString "OpenAI")])].

Definition settings_appearance : Table := [
  ("collapsed", TomlBoolean false);
  ("dark_mode", TomlTable [
    ("default", TomlBoolean true);
    ("description", TomlString "Use dark color scheme in the UI.");
    ("name", TomlString "Dark mode");
    ("type", TomlString "bool")]);
  ("description", TomlString "UI appearance and display settings");
  ("font_size", TomlTable [
    ("default", TomlInteger 14);
    ("description", TomlString "Terminal font size in pixels.");
    ("meta", TomlTable [("max", TomlInteger 32); ("min", TomlInteger 8)]);
    ("name", TomlString "Font size");
    ("type", TomlString "number")]);
  ("name", TomlString "Appearance")].

Definition settings_guest : Table := [
  ("collapsed", TomlBoolean false);
  ("description", TomlString "Guest VM shell and environment configuration");
  ("name", TomlString "Guest Environment");
  ("shell", TomlTable [
    ("description", TomlString "Guest shell settings");
    ("home", TomlTable [
      ("default", TomlString "/root");
      ("description", TomlString "Home directory for the guest shell.");
      ("meta", TomlTable [("env_vars", TomlArray [TomlString "HOME"])]);
      ("name", TomlString "HOME");
      ("type", TomlString "text")]);
    ("lang", TomlTable [
      ("default", TomlString "C");
      ("description", TomlString "Locale for the guest shell.");
      ("meta", TomlTable [("env_vars", TomlArray [TomlString "LANG"])]);
      ("name", TomlString "LANG");
      ("type", TomlString "text")]);
    ("name", TomlString "Shell");
    ("path", TomlTable [
      ("default", TomlString "/usr/local/sbin:/usr/local/bin:/usr/sbin:/usr/bin:/sbin:/bin");
      ("description", TomlString "Executable search path for the guest shell.");
      ("meta", TomlTable [("env_vars", TomlArray [TomlString "PATH"])]);
      ("name", TomlString "PATH");
      ("type", TomlString "text")]);
    ("term", TomlTable [
      ("default", TomlString "xterm-256color");
      ("description", TomlString "Terminal type for the guest shell.");
      ("meta", TomlTable [("env_vars", TomlArray [TomlString "TERM"])]);
      ("name", TomlString "TERM");
      ("type", TomlString "text")])]);
  ("tls", TomlTable [
    ("ca_bundle", TomlTable [
      ("default", TomlString "/etc/ssl/certs/ca-certificates.crt");
      ("description", TomlString "Path to the CA certificate bundle in the guest. Injected as REQUESTS_CA_BUNDLE, NODE_EXTRA_CA_CERTS, and SSL_CERT_FILE.");
      ("meta", TomlTable [
        ("env_vars", TomlArray [TomlString "REQUESTS_CA_BUNDLE"; TomlString "NODE_EXTRA_CA_CERTS"; TomlString "SSL_CERT_FILE"])]);
      ("name", TomlString "CA bundle path");
      ("type", TomlString "text")]);
    ("description", TomlString "TLS certificate configuration");
    ("name", TomlString "TLS")])].

Definition settings_network : Table := [
  ("allow_all_domains", TomlTable [
    ("default", TomlBoolean false);
    ("description", TomlString "When enabled, all outbound traffic is permitted regardless of domain allow/block lists. Use for environments that need unrestricted internet access.");
    ("name", TomlString "Allow all domains");
    ("type", TomlString "bool")]);
  ("collapsed", TomlBoolean false);
  ("credential_isolation", TomlTable [
    ("default", TomlBoolean true);
    ("description", TomlString "Keep API keys on the host. The proxy injects real credentials into upstream requests so keys never enter the guest VM.");
    ("name", TomlString "Credential isolation");
    ("type", TomlString "bool")]);
  ("custom_allow", TomlTable [
    ("default", TomlString "elie.net, *.elie.net, ash-speed.hetzner.com");
    ("description", TomlString ("Comma-separated domain patterns to allow. Wildcards supported (" +:+ "*.example.com)."));
    ("name", TomlString "Custom allowed domains");
    ("type", TomlString "text")]);
  ("custom_block", TomlTable [
    ("default", TomlString "");
    ("description", TomlString "Comma-separated domain patterns to block. Takes priority over custom allow list.");
    ("name", TomlString "Custom blocked domains");
    ("type", TomlString "text")]);
  ("default_action", TomlTable [
    ("default", TomlString "deny");
    ("description", TomlString "Action for domains not in any allow/block list.");
    ("meta", TomlTable [("choices", TomlArray [TomlString "allow"; TomlString "deny"])]);
    ("name", TomlString "Default action");
    ("type", TomlString "text")]);
  ("description", TomlString "Network access control and domain filtering");
  ("name", TomlString "Network");
  ("proxy_enabled", TomlTable [
    ("default", TomlBoolean true);
    ("description", TomlString "When enabled, the proxy terminates TLS and inspects HTTP traffic for telemetry and policy enforcement. When disabled, traffic is tunneled transparently (domain-level allow/deny still applies via SNI).");
    ("name", TomlString "Enable MITM proxy");
    ("type", TomlString "bool")]);
  ("proxy_idle_timeout", TomlTable [
    ("default", TomlInteger 60);
    ("description", TomlString "Seconds before idle proxy connections are terminated.");
    ("meta", TomlTable [("max", TomlInteger 600); ("min", TomlInteger 10)]);
    ("name", TomlString "Connection idle timeout (sec)");
    ("type", TomlString "number")]);
  ("proxy_max_body_mb", TomlTable [
    ("default", TomlInteger 100);
    ("description", TomlString "Maximum response body size in megabytes. Prevents OOM from huge downloads.");
    ("meta", TomlTable [("max", TomlInteger 1024); ("min", TomlInteger 1)]);
    ("name", TomlString "Max response body (MB)");
    ("type", TomlString "number")]);
  ("proxy_max_connections", TomlTable [
    ("default", TomlInteger 100);
    ("description", TomlString "Maximum number of simultaneous proxy connections. Prevents resource exhaustion from runaway agents.");
    ("meta", TomlTable [("max", TomlInteger 1000); ("min", TomlInteger 10)]);
    ("name", TomlString "Max concurrent connections");
    ("type", TomlString "number")]);
  ("proxy_rate_limit", TomlTable [
    ("default", TomlInteger 50);
    ("description", TomlString "Maximum requests per second per domain. Prevents runaway AI agent loops.");
    ("meta", TomlTable [("max", TomlInteger 1000); ("min", TomlInteger 1)]);
    ("name", TomlString "Per-domain rate limit");
    ("type", TomlString "number")])].

Definition settings_registry : Table := [
  ("collapsed", TomlBoolean false);
  ("crates", TomlTable [
    ("allow", TomlTable [
      ("default", TomlBoolean true);
      ("description", TomlString "Enable access to the Rust crate registry.");
      ("meta", TomlTable [
        ("domains", TomlArray [TomlString "crates.io"; TomlString "static.crates.io"]);
        ("rules", TomlTable [("default", TomlTable [("get", TomlBoolean true)])])]);
      ("name", TomlString "Allow crates.io");
      ("type", TomlString "bool")]);
    ("description", TomlString "Rust crate registry");
    ("name", TomlString "crates.io")]);
  ("debian", TomlTable [
    ("allow", TomlTable [
      ("default", TomlBoolean true);
      ("description", TomlString "Enable access to deb.debian.org and security.debian.org for apt package installs.");
      ("meta", TomlTable [
        ("domains", TomlArray [TomlString "deb.debian.org"; TomlString "security.debian.org"]);
        ("rules", TomlTable [("default", TomlTable [("get", TomlBoolean true)])])]);
      ("name", TomlString "Allow Debian");
      ("type", TomlString "bool")]);
    ("description", TomlString "Debian package repositories");
    ("name", TomlString "Debian")]);
  ("description", TomlString "Package manager and code hosting access");
  ("github", TomlTable [
    ("allow", TomlTable [
      ("default", TomlBoolean true);
      ("description", TomlString "Enable access to GitHub and GitHub-hosted content.");
      ("meta", TomlTable [
        ("domains", TomlArray [TomlString "github.com"; TomlString "*.github.com"; TomlString "*.githubusercontent.com"]);
        ("rules", TomlTable [("default", TomlTable [("get", TomlBoolean true); ("post", TomlBoolean true)])])]);
      ("name", TomlString "Allow GitHub");
      ("type", TomlString "bool")]);
    ("description", TomlString "GitHub and GitHub-hosted content");
    ("name", TomlString "GitHub")]);
  ("name", TomlString "Package Registries");
  ("npm", TomlTable [
    ("allow", TomlTable [
      ("default", TomlBoolean true);
      ("description", TomlString "Enable access to the npm package registry.");
      ("meta", TomlTable [
        ("domains", TomlArray [TomlString "registry.npmjs.org"; TomlString "*.npmjs.org"]);
        ("rules", TomlTable [("default", TomlTable [("get", TomlBoolean true)])])]);
      ("name", TomlString "Allow npm");
      ("type", TomlString "bool")]);
    ("description", TomlString "npm package registry");
    ("name", TomlString "npm")]);
  ("pypi", TomlTable [
    ("allow", TomlTable [
      ("default", TomlBoolean true);
      ("description", TomlString "Enable access to the Python Package Index.");
      ("meta", TomlTable [
        ("domains", TomlArray [TomlString "pypi.org"; TomlString "files.pythonhosted.org"]);
        ("rules", TomlTable [("default", TomlTable [("get", TomlBoolean true)])])]);
      ("name", TomlString "Allow PyPI");
      ("type", TomlString "bool")]);
    ("description", TomlString "Python Package Index");
    ("name", TomlString "PyPI")])].

Definition settings_search : Table := [
  ("collapsed", TomlBoolean false);
  ("description", TomlString "Web search engine access");
  ("firecrawl", TomlTable [
    ("allow", TomlTable [
      ("default", TomlBoolean false);
      ("description", TomlString "Enable access to Firecrawl web scraping API.");
      ("meta", TomlTable [
        ("domains", TomlArray [TomlString "firecrawl.dev"; TomlString "api.firecrawl.dev"]);
        ("rules", TomlTable [("default", TomlTable [("get", TomlBoolean true); ("post", TomlBoolean true)])])]);
      ("name", TomlString "Allow Firecrawl");
      ("type", TomlString "bool")]);
    ("description", TomlString "Firecrawl web scraping API");
    ("name", TomlString "Firecrawl")]);
  ("google", TomlTable [
    ("allow", TomlTable [
      ("default", TomlBoolean true);
      ("description", TomlString "Enable access to Google web search.");
      ("meta", TomlTable [
        ("domains", TomlArray [TomlString "www.google.com"; TomlString "google.com"]);
        ("rules", TomlTable [("default", TomlTable [("get", TomlBoolean true)])])]);
      ("name", TomlString "Allow Google Search");
      ("type", TomlString "bool")]);
    ("description", TomlString "Google web search");
    ("name", TomlString "Google Search")]);
  ("name", TomlString "Search");
  ("perplexity", TomlTable [
    ("allow", TomlTable [
      ("default", TomlBoolean false);
      ("description", TomlString "Enable access to Perplexity AI search.");
      ("meta", TomlTable [
        ("domains", TomlArray [TomlString "perplexity.ai"; TomlString "*.perplexity.ai"]);
        ("rules", TomlTable [("default", TomlTable [("get", TomlBoolean true); ("post", TomlBoolean true)])])]);
      ("name", TomlString "Allow Perplexity");
      ("type", TomlString "bool")]);
    ("description", TomlString "Perplexity AI search");
    ("name", TomlString "Perplexity")])].

Definition settings_vm : Table := [
  ("collapsed", TomlBoolean false);
  ("cpu_count", TomlTable [
    ("default", TomlInteger 4);
    ("description", TomlString "Number of CPU cores allocated to the VM.");
    ("meta", TomlTable [("max", TomlInteger 8); ("min", TomlInteger 1)]);
    ("name", TomlString "CPU cores");
    ("type", TomlString "number")]);
  ("description", TomlString "Virtual machine resource configuration");
  ("log_bodies", TomlTable [
    ("default", TomlBoolean false);
    ("description", TomlString "Capture request/response bodies in telemetry.");
    ("name", TomlString "Log request bodies");
    ("type", TomlString "bool")]);
  ("max_body_capture", TomlTable [
    ("default", TomlInteger 4096);
    ("description", TomlString "Maximum bytes of body to capture in telemetry.");
    ("meta", TomlTable [("max", TomlInteger 1048576); ("min", TomlInteger 0)]);
    ("name", TomlString "Max body capture");
    ("type", TomlString "number")]);
  ("max_disk_gb", TomlTable [
    ("default", TomlInteger 100);
    ("description", TomlString "Maximum total disk usage for all sessions in GB.");
    ("meta", TomlTable [("max", TomlInteger 1000); ("min", TomlInteger 1)]);
    ("name", TomlString "Maximum disk usage");
    ("type", TomlString "number")]);
  ("max_sessions", TomlTable [
    ("default", TomlInteger 100);
    ("description", TomlString "Keep at most this many sessions (oldest culled first).");
    ("meta", TomlTable [("max", TomlInteger 10000); ("min", TomlInteger 1)]);
    ("name", TomlString "Maximum sessions");
    ("type", TomlString "number")]);
  ("name", TomlString "VM");
  ("ram_gb", TomlTable [
    ("default", TomlInteger 4);
    ("description", TomlString "Amount of RAM allocated to the VM in GB.");
    ("meta", TomlTable [("max", TomlInteger 16); ("min", TomlInteger 1)]);
    ("name", TomlString "RAM");
    ("type", TomlString "number")]);
  ("retention_days", TomlTable [
    ("default", TomlInteger 30);
    ("description", TomlString "Number of days to retain session data.");
    ("meta", TomlTable [("max", TomlInteger 365); ("min", TomlInteger 1)]);
    ("name", TomlString "Session retention");
    ("type", TomlString "number")]);
  ("scratch_disk_size_gb", TomlTable [
    ("default", TomlInteger 16);
    ("description", TomlString "Size of the ephemeral scratch disk in GB.");
    ("meta", TomlTable [("max", TomlInteger 128); ("min", TomlInteger 1)]);
    ("name", TomlString "Scratch disk size");
    ("type", TomlString "number")]);
  ("terminated_retention_days", TomlTable [
    ("default", TomlInteger 365);
    ("description", TomlString "Days to keep terminated session records in the index. After this, the record is permanently deleted.");
    ("meta", TomlTable [("max", TomlInteger 3650); ("min", TomlInteger 30)]);
    ("name", TomlString "Terminated session retention");
    ("type", TomlString "number")])].

Definition settings_vpn : Table := [
  ("collapsed", TomlBoolean false);
  ("config", TomlTable [
    ("collapsed", TomlBoolean true);
    ("default", TomlTable [("content", TomlString ""); ("path", TomlString "/etc/wireguard/wg0.conf")]);
    ("description", TomlString "WireGuard configuration file (wg0.conf). Paste your full WireGuard config here.");
    ("enabled_by", TomlString "vpn.enabled");
    ("name", TomlString "WireGuard Configuration");
    ("type", TomlString "file")]);
  ("description", TomlString "Per-venv VPN configuration. Routes guest traffic through a VPN tunnel without affecting the host or other venvs.");
  ("dns", TomlTable [
    ("default", TomlString "");
    ("description", TomlString "Comma-separated DNS servers to use when VPN is active. Leave empty to use VPN-provided DNS.");
    ("enabled_by", TomlString "vpn.enabled");
    ("name", TomlString "DNS Servers");
    ("type", TomlString "text")]);
  ("enabled", TomlTable [
    ("default", TomlBoolean false);
    ("description", TomlString "Route this venv's traffic through a VPN tunnel. Requires a valid WireGuard configuration.");
    ("name", TomlString "Enable VPN");
    ("type", TomlString "bool")]);
  ("kill_switch", TomlTable [
    ("default", TomlBoolean true);
    ("description", TomlString "Block all traffic if the VPN tunnel drops. Prevents data leaks outside the tunnel.");
    ("enabled_by", TomlString "vpn.enabled");
    ("name", TomlString "Kill Switch");
    ("type", TomlString "bool")]);
  ("name", TomlString "VPN");
  ("provider", TomlTable [
    ("default", TomlString "wireguard");
    ("description", TomlString "VPN protocol to use.");
    ("meta", TomlTable [("choices", TomlArray [TomlString "wireguard"])]);
    ("name", TomlString "VPN Provider");
    ("type", TomlString "text")])].

Definition settings : Table := [("ai", TomlTable settings_ai); ("appearance", TomlTable settings_appearance); ("guest", TomlTable settings_guest); ("network", TomlTable settings_network); ("registry", TomlTable settings_registry); ("search", TomlTable settings_search); ("vm", TomlTable settings_vm); ("vpn", TomlTable settings_vpn)].

Definition shipped : Table := [("settings", TomlTable settings)].

(** What the tree needs of the document holds of the shipped one. *)
Lemma shipped_document_ok : document_ok settings = true.
Proof. vm_compute. reflexivity. Qed.

(** ** A decoder for it *)

Definition setting_type (ty : string) : option SettingType :=
  match list_find_first (fun p => bool_decide (p.1 = ty))
    [("text", TText); ("number", TNumber); ("password", TPassword); ("url", TUrl); ("email", TEmail); ("apikey", TApiKey);
     ("bool", TBool); ("file", TFile)] with Some p => Some p.2 | None => None end.

Definition setting_value (v : TomlValue) : option SettingValue :=
  match v with
  | TomlBoolean b => Some (VBool b)
  | TomlInteger n => Some (VNumber n)
  | TomlString s => Some (VText s)
  | TomlTable t => path ← get_str "path" t; content ← get_str "content" t; Some (VFile path content)
  | _ => None
  end.

Definition texts (k : string) (t : Table) : list string :=
  match lookup_key k t with Some (TomlArray l) => omap as_str l | _ => [] end.

Definition number (k : string) (t : Table) : option Z :=
  match lookup_key k t with Some (TomlInteger n) => Some n | _ => None end.

(** The rules of a setting are left out. *)
Definition decode (t : Table) : option SettingDefToml :=
  let meta := match lookup_key "meta" t with Some (TomlTable m) => m | _ => [] end in
  name ← get_str "name" t;
  ty ← get_str "type" t ≫= setting_type;
  value ← lookup_key "default" t ≫= setting_value;
  Some {| td_name := name; td_description := default "" (get_str "description" t); td_type := ty; td_default := value;
          td_collapsed := default false (get_bool "collapsed" t);
          td_meta := {| tm_domains := texts "domains" meta; tm_choices := texts "choices" meta; tm_min := number "min" meta;
                        tm_max := number "max" meta; tm_rules := []; tm_env_vars := texts "env_vars" meta |} |}.

#[local] Instance toml : Toml := {|
  toml_from_str _ := Ok (TomlTable shipped);
  def_from_table t := match decode t with Some d => Ok d | None => Err "invalid setting" end |}.

Definition defs : list SettingDef := Eval vm_compute in default [] (setting_definitions "").
Definition user : SettingsFile := {["guest.env.EDITOR" := {| en_value := VText "vi"; en_modified := "" |}]}.

Example shipped_settings : length defs = 54%nat.
Proof. reflexivity. Qed.

(** The ids of the leaves directly inside the group "Guest Environment". *)
Definition guest_leaves (tree : list SettingsNode) : list string :=
  flat_map (fun n => match n with
    | Group _ "Guest Environment" _ _ _ children => omap (fun n => match n with Leaf s => Some (id s) | _ => None end) children
    | _ => [] end) tree.

Lemma settings_tree_complete_witness :
  exists tree, build_settings_tree "" (resolve_settings_with_venv defs user ∅ ∅) = Some tree /\
    guest_leaves tree = ["guest.env.EDITOR"] /\ all_leaves tree ≡ₚ resolve_settings_with_venv defs user ∅ ∅.
Proof.
  destruct (settings_tree_complete "" shipped settings defs user ∅ ∅) as (registered & envs & base & tree & Ht & _ & _ & _ & _ & _ & _ & Hp);
    [reflexivity|vm_compute; reflexivity|exact shipped_document_ok|vm_compute; reflexivity|].
  exists tree. split; [exact Ht|]. split; [|exact Hp].
  assert (option_map guest_leaves (build_settings_tree "" (resolve_settings_with_venv defs user ∅ ∅)) = Some ["guest.env.EDITOR"]) as Hg
    by (vm_compute; reflexivity).
  rewrite Ht in Hg. by injection Hg.
Defined.
