(* ===== verification/GuestConfig.v ===== *)
(** The guest's boot configuration: settings_to_guest_config,
    inject_clawcage_mcp_server and inject_api_key_approval of
    crates/clawcage-core/src/net/policy_config.rs.

    [None] is a panic: the only one is the slice of the last twenty bytes of the API
    key, when it starts inside a character. *)

From Stdlib Require Import ZArith Lia.
From stdpp Require Import base numbers list gmap strings.
From S2P Require Import Prelude RustStr Utf8 Proto Events Settings.

Record GuestFile := { gf_path : string; gf_content : string; gf_mode : Z }.

Record GuestConfig := { gc_env : option (gmap string string); gc_files : option (list GuestFile) }.

Section GuestConfig.
Context `{SerdeJson}.

(** ** Injection into boot files *)

(** [Map::insert]; the object keeps its own order of keys. *)
Fixpoint obj_insert (k : string) (v : Value) (kvs : list (string * Value)) : list (string * Value) :=
  match kvs with
  | [] => [(k, v)]
  | (k', v') :: kvs => if bool_decide (k' = k) then (k, v) :: kvs else (k', v') :: obj_insert k v kvs
  end.

Definition obj_get (k : string) (kvs : list (string * Value)) : option Value :=
  snd <$> list_find_first (fun kv => bool_decide (kv.1 = k)) kvs.

(** [obj.entry(k).or_insert_with(d)], then [f] on the entry. *)
Definition obj_entry (k : string) (d : Value) (f : Value -> Value) (kvs : list (string * Value))
  : list (string * Value) :=
  obj_insert k (f (default d (obj_get k kvs))) kvs.

Definition on_object (f : list (string * Value) -> list (string * Value)) (v : Value) : Value :=
  match as_object v with Some kvs => json_obj (f kvs) | None => v end.

Definition inject_clawcage_mcp_server (text : string) : string :=
  match value_from_slice (bytes_of_string text) ≫= as_object with
  | None => text
  | Some obj =>
      let clawcage := json_obj [("command", json_str "/run/clawcage-mcp-server")] in
      json_to_string (json_obj (obj_entry "mcpServers" (json_obj [])
        (on_object (obj_insert "clawcage" clawcage)) obj))
  end.

Definition key_suffix (api_key : string) : option string :=
  if 20 <? slen api_key
  then str_slice api_key (String.length api_key - 20) (String.length api_key)
  else Some api_key.

Definition approve (suffix : string) (v : Value) : Value :=
  match as_array v with
  | Some arr =>
      if existsb (fun x => bool_decide (as_str x = Some suffix)) arr then v
      else json_arr (arr ++ [json_str suffix])
  | None => v
  end.

Definition inject_api_key_approval (text api_key : string) : option string :=
  match value_from_slice (bytes_of_string text) ≫= as_object with
  | None => Some text
  | Some obj =>
      suffix ← key_suffix api_key;
      let add_keys r := obj_entry "rejected" (json_arr []) (fun v => v)
                          (obj_entry "approved" (json_arr []) (approve suffix) r) in
      Some (json_to_string (json_obj (obj_entry "customApiKeyResponses" (json_obj [])
        (on_object add_keys) obj)))
  end.

(** ** The loop over the settings *)

Definition provider_env (k : string) : option string :=
  if bool_decide (k = "ai.anthropic.allow") then Some "CLAWCAGE_ANTHROPIC_ALLOWED"
  else if bool_decide (k = "ai.openai.allow") then Some "CLAWCAGE_OPENAI_ALLOWED"
  else if bool_decide (k = "ai.google.allow") then Some "CLAWCAGE_GOOGLE_ALLOWED"
  else None.

Definition inject_toggle (env : gmap string string) (s : ResolvedSetting) : gmap string string :=
  if bool_decide (setting_type s = TBool) then
    match provider_env (id s) with
    | Some var_name =>
        <[var_name := if default false (as_bool (effective_value s)) then "1" else "0"]> env
    | None => env
    end
  else env.

Definition env_text (v : SettingValue) : option string :=
  match v with
  | VText t => Some t
  | VFile _ content => Some content
  | _ => None
  end.

Definition insert_valid (ev : string) (env : gmap string string) (var_name : string) : gmap string string :=
  if is_ok (validate_env_key var_name) && is_ok (validate_env_value ev)
  then <[var_name := ev]> env else env.

Definition inject_metadata_env (env : gmap string string) (s : ResolvedSetting) : gmap string string :=
  match env_text (effective_value s) with
  | Some ev => if is_empty ev then env else fold_left (insert_valid ev) (env_vars (metadata s)) env
  | None => env
  end.

Definition inject_dynamic_env (env : gmap string string) (s : ResolvedSetting) : gmap string string :=
  match strip_prefix "guest.env." (id s) with
  | Some var_name =>
      let text_value := default "" (as_text (effective_value s)) in
      if is_empty text_value then env else insert_valid text_value env var_name
  | None => env
  end.

Definition boot_content (env : gmap string string) (path content : string) : option string :=
  if ends_with path "/settings.json" then Some (inject_clawcage_mcp_server content)
  else if bool_decide (path = "/root/.claude.json") then
    match env !! "ANTHROPIC_API_KEY" with
    | Some api_key => inject_api_key_approval content api_key
    | None => Some content
    end
  else Some content.

Definition guest_step (st : gmap string string * list GuestFile) (s : ResolvedSetting)
  : option (gmap string string * list GuestFile) :=
  let '(env, files) := st in
  let env := inject_metadata_env (inject_toggle env s) s in
  match effective_value s with
  | VFile path content =>
      if is_empty content then Some (inject_dynamic_env env s, files)
      else if negb (is_ok (validate_file_path path)) then Some (env, files)
      else content ← boot_content env path content;
           let file := {| gf_path := path; gf_content := content; gf_mode := 384 |} in
           Some (inject_dynamic_env env s, files ++ [file])
  | _ => Some (inject_dynamic_env env s, files)
  end.

Fixpoint guest_loop (st : gmap string string * list GuestFile) (resolved : list ResolvedSetting)
  : option (gmap string string * list GuestFile) :=
  match resolved with
  | [] => Some st
  | s :: resolved => guest_step st s ≫= fun st => guest_loop st resolved
  end.

Definition settings_to_guest_config (resolved : list ResolvedSetting) : option GuestConfig :=
  '(env, files) ← guest_loop (∅, []) resolved;
  Some {| gc_env := if bool_decide (env = ∅) then None else Some env;
          gc_files := match files with [] => None | _ => Some files end |}.

(** ** Invariant *)

Definition env_ok (env : gmap string string) : Prop :=
  map_Forall (fun k v => validate_env_key k = Ok tt /\ validate_env_value v = Ok tt) env.

(** A boot file comes from a file setting with content, and its path is valid. *)
Definition file_from (resolved : list ResolvedSetting) (f : GuestFile) : Prop :=
  validate_file_path (gf_path f) = Ok tt /\ gf_mode f = 384 /\
  exists s content, (s ∈ resolved) /\ effective_value s = VFile (gf_path f) content /\ content <> "".

Lemma is_ok_unit (r : result unit ProtoError) : is_ok r = true -> r = Ok tt.
Proof. by destruct r as [[]|]. Qed.

Lemma insert_valid_ok ev env k : env_ok env -> env_ok (insert_valid ev env k).
Proof.
  intros He. unfold insert_valid. destruct (is_ok (validate_env_key k)) eqn:Ek; [|done].
  destruct (is_ok (validate_env_value ev)) eqn:Ev; [|done]. apply map_Forall_insert_2; [|done].
  by split; apply is_ok_unit.
Qed.

Lemma insert_valid_all_ok ev ks env : env_ok env -> env_ok (fold_left (insert_valid ev) ks env).
Proof. revert env. induction ks as [|k ks IH]; intros env He; [done|]. by apply IH, insert_valid_ok. Qed.

Lemma provider_env_valid k v : provider_env k = Some v -> validate_env_key v = Ok tt.
Proof.
  unfold provider_env. repeat case_bool_decide; intros [= <-]; vm_compute; reflexivity.
Qed.

Lemma inject_toggle_ok env s : env_ok env -> env_ok (inject_toggle env s).
Proof.
  intros He. unfold inject_toggle. case_bool_decide; [|done].
  destruct (provider_env (id s)) as [v|] eqn:E; [|done].
  apply map_Forall_insert_2; [|done]. split; [by eapply provider_env_valid|].
  by destruct (default false _).
Qed.

Lemma inject_metadata_env_ok env s : env_ok env -> env_ok (inject_metadata_env env s).
Proof.
  intros He. unfold inject_metadata_env. destruct (env_text _) as [ev|]; [|done].
  destruct (is_empty ev); [done|]. by apply insert_valid_all_ok.
Qed.

Lemma inject_dynamic_env_ok env s : env_ok env -> env_ok (inject_dynamic_env env s).
Proof.
  intros He. unfold inject_dynamic_env. destruct (strip_prefix _ _) as [k|]; [|done].
  cbv zeta. destruct (is_empty _); [done|]. by apply insert_valid_ok.
Qed.

#[local] Hint Resolve inject_toggle_ok inject_metadata_env_ok inject_dynamic_env_ok : core.

Lemma guest_step_ok (P : GuestFile -> Prop) env files s env' files' :
  env_ok env -> Forall P files ->
  (forall f, file_from [s] f -> P f) ->
  guest_step (env, files) s = Some (env', files') -> env_ok env' /\ Forall P files'.
Proof.
  intros He Hf Hp. unfold guest_step.
  destruct (effective_value s) as [| |path content|] eqn:Ev; try (intros [= <- <-]; auto; fail).
  destruct (is_empty content) eqn:Ec; [intros [= <- <-]; auto|].
  destruct (is_ok (validate_file_path path)) eqn:Ep; [|intros [= <- <-]; auto]. cbn [negb].
  destruct (boot_content _ _ _) as [c|]; [|done]. intros [= <- <-]. split; [auto|].
  apply Forall_app. split; [done|]. apply Forall_singleton, Hp. split; [by apply is_ok_unit|].
  split; [done|]. exists s, content. split; [left|]. split; [done|].
  intros ->. discriminate Ec.
Qed.

Lemma guest_loop_ok resolved all env files env' files' :
  (forall s, s ∈ resolved -> s ∈ all) ->
  env_ok env -> Forall (file_from all) files ->
  guest_loop (env, files) resolved = Some (env', files') ->
  env_ok env' /\ Forall (file_from all) files'.
Proof.
  revert env files. induction resolved as [|s resolved IH]; intros env files Hin He Hf Hloop.
  - by injection Hloop as <- <-.
  - cbn [guest_loop] in Hloop. apply bind_Some in Hloop as ([env1 files1] & Hstep & Hloop).
    apply (guest_step_ok (file_from all)) in Hstep as [He1 Hf1]; [|done|done|].
    + apply (IH env1 files1); auto. intros x Hx. apply Hin. by right.
    + intros f (Hp & Hm & x & c & ->%list_elem_of_singleton & Hx). split; [done|]. split; [done|].
      exists s, c. split; [|done]. apply Hin. left.
Qed.

(** ** No panic *)

(** The texts that can become the API key. *)
Definition key_text_ok (s : ResolvedSetting) : Prop :=
  "ANTHROPIC_API_KEY" ∈ env_vars (metadata s) \/ id s = "guest.env.ANTHROPIC_API_KEY" ->
  forall ev, env_text (effective_value s) = Some ev -> is_Some (key_suffix ev).

Definition key_ok (env : gmap string string) : Prop :=
  forall v, env !! "ANTHROPIC_API_KEY" = Some v -> is_Some (key_suffix v).

Lemma insert_valid_key ev env k :
  key_ok env -> (k = "ANTHROPIC_API_KEY" -> is_Some (key_suffix ev)) -> key_ok (insert_valid ev env k).
Proof.
  intros He Hk. unfold insert_valid. destruct (_ && _); [|done]. intros v.
  destruct (decide (k = "ANTHROPIC_API_KEY")) as [->|Hne].
  - rewrite lookup_insert_eq. intros [= <-]. by apply Hk.
  - rewrite lookup_insert_ne by done. apply He.
Qed.

Lemma insert_valid_all_key ev ks env :
  key_ok env -> ("ANTHROPIC_API_KEY" ∈ ks -> is_Some (key_suffix ev)) ->
  key_ok (fold_left (insert_valid ev) ks env).
Proof.
  revert env. induction ks as [|k ks IH]; intros env He Hk; [done|]. cbn [fold_left]. apply IH.
  - apply insert_valid_key; [done|]. intros ->. apply Hk. left.
  - intros Hin. apply Hk. by right.
Qed.

Lemma inject_toggle_key env s : key_ok env -> key_ok (inject_toggle env s).
Proof.
  intros He. unfold inject_toggle. case_bool_decide; [|done]. unfold provider_env.
  repeat case_bool_decide; try done; intros v; rewrite lookup_insert_ne by done; apply He.
Qed.

Lemma inject_metadata_key env s : key_ok env -> key_text_ok s -> key_ok (inject_metadata_env env s).
Proof.
  intros He Hs. unfold inject_metadata_env. destruct (env_text _) as [ev|] eqn:Ev; [|done].
  destruct (is_empty ev); [done|]. apply insert_valid_all_key; [done|]. intros Hin. apply Hs; auto.
Qed.

Lemma inject_dynamic_key env s : key_ok env -> key_text_ok s -> key_ok (inject_dynamic_env env s).
Proof.
  intros He Hs. unfold inject_dynamic_env.
  destruct (strip_prefix _ _) as [k|] eqn:Ek; [|done]. apply strip_prefix_Some in Ek.
  cbv zeta. destruct (is_empty _) eqn:Et; [done|]. apply insert_valid_key; [done|]. intros ->.
  destruct (effective_value s) as [| | |t] eqn:Ev; try discriminate Et.
  apply Hs; [by right|]. by rewrite Ev.
Qed.

Lemma guest_step_total env files s :
  key_ok env -> key_text_ok s ->
  exists env' files', guest_step (env, files) s = Some (env', files') /\ key_ok env'.
Proof.
  intros He Hs. unfold guest_step.
  set (env1 := inject_metadata_env (inject_toggle env s) s).
  assert (H1 : key_ok env1) by (apply inject_metadata_key; [by apply inject_toggle_key|done]).
  pose proof (inject_dynamic_key env1 s H1 Hs) as H2.
  destruct (effective_value s) as [| |path content|]; try (eexists _, _; split; [done|]; done).
  destruct (is_empty content); [by eexists _, _|].
  destruct (is_ok (validate_file_path path)); [|by eexists _, _]. cbn [negb].
  enough (is_Some (boot_content env1 path content)) as [c ->] by by eexists _, _.
  unfold boot_content. destruct (ends_with _ _); [eauto|]. case_bool_decide; [|eauto].
  destruct (env1 !! "ANTHROPIC_API_KEY") as [key|] eqn:Ek; [|eauto].
  unfold inject_api_key_approval. destruct (_ ≫= as_object); [|eauto].
  destruct (H1 key Ek) as [x ->]. cbn. eauto.
Qed.

Lemma guest_loop_total resolved env files :
  key_ok env -> (forall s, s ∈ resolved -> key_text_ok s) ->
  is_Some (guest_loop (env, files) resolved).
Proof.
  revert env files. induction resolved as [|s resolved IH]; intros env files He Hs; [eauto|].
  cbn [guest_loop]. destruct (guest_step_total env files s) as (env' & files' & -> & He'); [done| |].
  - apply Hs. left.
  - cbn. apply IH; [done|]. intros x Hx. apply Hs. by right.
Qed.

(** What a computed configuration holds passes the checks of the boot handshake. *)
Lemma guest_config_checks resolved cfg :
  settings_to_guest_config resolved = Some cfg ->
  (forall env, gc_env cfg = Some env -> env_ok env) /\
  (forall files, gc_files cfg = Some files -> Forall (file_from resolved) files).
Proof.
  unfold settings_to_guest_config. intros ([env files] & Hloop & [= <-])%bind_Some.
  cbn [gc_env gc_files].
  apply (guest_loop_ok _ resolved) in Hloop as [He Hf]; [|done|apply map_Forall_empty|constructor].
  split.
  - intros env'. case_bool_decide as Hne; [done|]. by intros [= <-].
  - intros files'. destruct files; [done|]. by intros [= <-].
Qed.

(** ** Properties *)

(** C34: the boot configuration is computed whenever the last twenty bytes of each text
    that can become [ANTHROPIC_API_KEY] start a character (the slice panics
    otherwise), and what it holds passes the checks of the boot handshake: every
    variable's name and value validate, and every file has a valid path, mode 0600,
    and comes from a file setting with some content. *)
Theorem guest_config_boot_safe (resolved : list ResolvedSetting) :
  ((forall s, s ∈ resolved -> key_text_ok s) -> is_Some (settings_to_guest_config resolved)) /\
  (forall cfg, settings_to_guest_config resolved = Some cfg ->
     (forall env, gc_env cfg = Some env -> env <> ∅ /\ env_ok env) /\
     (forall files, gc_files cfg = Some files -> Forall (file_from resolved) files)).
Proof.
  unfold settings_to_guest_config. split.
  - intros Hs. destruct (guest_loop_total resolved ∅ []) as [[env files] ->]; [done|done|]. cbn. eauto.
  - intros cfg Hcfg. split; [|apply (guest_config_checks _ _ Hcfg)]. intros env He.
    split; [|by apply (guest_config_checks _ _ Hcfg)]. intros ->. revert Hcfg He.
    intros ([env files] & _ & [= <-])%bind_Some. cbn [gc_env]. case_bool_decide; congruence.
Qed.

End GuestConfig.

(** The slice panics when the key's last twenty bytes start inside a character. *)
Example key_suffix_panics : key_suffix (bs [195; 169] +:+ "0123456789012345678") = None.
Proof. vm_compute. reflexivity. Qed.
