(* ===== verification/SettingsStore.v ===== *)
(** Settings files and the commands that change them: the file functions of
    policy_config.rs, and the settings commands of clawcage-app/src/commands.rs with the
    hot reload of the running policies.

    The disk is a finite map from paths to contents; which reads and writes fail is data
    ([Io]), and a failed write says what it left in the file. TOML texts are the class
    [TomlFile]. A running VM is its two policies. Writing and loading are inverse
    ([settings_file_roundtrip]), a corporate block survives every sequence of commands
    ([updates_keep_corp_block]), and a reload always installs the policy of the venv that
    was edited in the VM that is focused ([hot_reload_installs]), whichever that is. *)

From Stdlib Require Import ZArith Lia Ascii.
From stdpp Require Import base numbers list gmap strings sorting.
From S2P Require Import Prelude RustStr DomainPolicy HttpPolicy NetPolicy Proto Events Settings SettingsPolicy SettingsLint.
From S2P Require Import GuestConfig SettingsTree Paths.

(** ** Files *)

Abbreviation Disk := (gmap string string).

(** Which file operations fail, with their errors. *)
Record Io := {
  getenv : string -> option string;
  read_error : string -> option string;
  mkdir_error : string -> option string;
  write_error : string -> option (string * option string);
}.

Class TomlFile := {
  settings_from_str : string -> result SettingsFile string;
  to_string_pretty : SettingsFile -> result string string;
}.

Class TomlFileRoundtrip `{TomlFile} := {
  toml_file_roundtrip f text : to_string_pretty f = Ok text -> settings_from_str text = Ok f;
}.

Section Store.
Context {toml_file : TomlFile} (io : Io).

Definition dirs_path (env_var : string) : option string := getenv io env_var.

Definition user_config_path : option string :=
  match getenv io "CLAWCAGE_USER_CONFIG" with
  | Some path => Some path
  | None => (fun h => path_join (path_join h ".clawcage") "user.toml") <$> dirs_path "HOME"
  end.

Definition corp_config_path : string := default "/etc/clawcage/corp.toml" (getenv io "CLAWCAGE_CORP_CONFIG").

Definition venv_config_path (venv_id : string) : option string :=
  (fun h => path_join (path_join (path_join (path_join h ".clawcage") "venvs") venv_id) "settings.toml") <$> dirs_path "HOME".

(** ** Reading and writing *)

Definition load_settings_file (path : string) (d : Disk) : result SettingsFile string :=
  match read_error io path with
  | Some e => Err ("failed to read " +:+ path +:+ ": " +:+ e)
  | None =>
      match d !! path with
      | Some content =>
          match settings_from_str content with
          | Ok f => Ok f
          | Err e => Err ("failed to parse " +:+ path +:+ ": " +:+ e)
          end
      | None => Ok ∅
      end
  end.

(** A failed write leaves the file as it was or with some other content. *)
Definition write_settings_file (path : string) (file : SettingsFile) (d : Disk) : result unit string * Disk :=
  match path_parent path ≫= fun p => (fun e => (p, e)) <$> mkdir_error io p with
  | Some (p, e) => (Err ("failed to create dir " +:+ p +:+ ": " +:+ e), d)
  | None =>
      match to_string_pretty file with
      | Err e => (Err ("failed to serialize settings: " +:+ e), d)
      | Ok content =>
          match write_error io path with
          | Some (e, rest) =>
              (Err ("failed to write " +:+ path +:+ ": " +:+ e), match rest with Some c => <[path := c]> d | None => d end)
          | None => (Ok tt, <[path := content]> d)
          end
      end
  end.

(** A file that cannot be read counts as empty. *)
Definition load_or_default (path : option string) (d : Disk) : SettingsFile :=
  match path with
  | Some path => match load_settings_file path d with Ok f => f | Err _ => ∅ end
  | None => ∅
  end.

Definition load_settings_files (d : Disk) : SettingsFile * SettingsFile :=
  (load_or_default user_config_path d, load_or_default (Some corp_config_path) d).

Definition load_settings_files_with_venv (venv_id : option string) (d : Disk) : SettingsFile * SettingsFile * SettingsFile :=
  let '(user, corp) := load_settings_files d in
  let venv := match venv_id with Some v => load_or_default (venv_config_path v) d | None => ∅ end in
  (user, venv, corp).

(** Change one file: load, change, write. *)
Definition change_file (path : option string) (change : SettingsFile -> SettingsFile) (d : Disk) : result unit string * Disk :=
  match path with
  | None => (Err "HOME not set", d)
  | Some path =>
      match load_settings_file path d with
      | Err e => (Err e, d)
      | Ok file => write_settings_file path (change file) d
      end
  end.

Definition write_user_settings (file : SettingsFile) (d : Disk) : result unit string * Disk :=
  match user_config_path with None => (Err "HOME not set", d) | Some path => write_settings_file path file d end.

Definition write_venv_settings (venv_id : string) (file : SettingsFile) (d : Disk) : result unit string * Disk :=
  match venv_config_path venv_id with None => (Err "HOME not set", d) | Some path => write_settings_file path file d end.

Definition remove_venv_setting (venv_id setting_id : string) (d : Disk) : result unit string * Disk :=
  change_file (venv_config_path venv_id) (delete setting_id) d.

Definition can_write_corp_settings : bool := false.

(** ** Loading what the files say *)

Section Loaders.
Context `{UnicodeCase} (defs : list SettingDef).

Definition load_merged_settings_for_venv (venv_id : option string) (d : Disk) : list ResolvedSetting :=
  let '(user, venv, corp) := load_settings_files_with_venv venv_id d in resolve_settings_with_venv defs user venv corp.

Definition load_network_policy (venv_id : option string) (d : Disk) : NetworkPolicy :=
  let '(user, venv, corp) := load_settings_files_with_venv venv_id d in
  load_merged_network_policy_for_venv defs user venv corp.

Definition load_domain_policy (venv_id : option string) (d : Disk) : DomainPolicy :=
  let '(user, venv, corp) := load_settings_files_with_venv venv_id d in
  load_merged_domain_policy_for_venv defs user venv corp.

Definition load_http_policy (venv_id : option string) (d : Disk) : HttpPolicy :=
  let '(user, venv, corp) := load_settings_files_with_venv venv_id d in
  load_merged_policy_for_venv defs user venv corp.

Definition load_merged_guest_config_for_venv `{SerdeJson} (venv_id : option string) (d : Disk) : option GuestConfig :=
  settings_to_guest_config (load_merged_settings_for_venv venv_id d).

Definition load_settings_tree_for_venv `{Toml} (DEFAULTS_TOML : string) (venv_id : option string) (d : Disk) : option (list SettingsNode) :=
  build_settings_tree DEFAULTS_TOML (load_merged_settings_for_venv venv_id d).

(** What the UI is shown of the network policy. *)
Record NetworkPolicyResponse := {
  np_allow : list string;
  np_block : list string;
  np_default_action : string;
  np_corp_managed : bool;
  np_conflicts : list string;
}.

Definition get_network_policy (d : Disk) : NetworkPolicyResponse :=
  let '(_, corp) := load_settings_files d in
  let dp := hp_domain_policy (load_http_policy None d) in
  let '(default_act, _) := DomainPolicy_evaluate dp "__clawcage_probe_nonexistent__.invalid" in
  let allow_set := allowed_patterns dp in
  let block_set := blocked_patterns dp in
  {| np_allow := allow_set; np_block := block_set;
     np_default_action := if bool_decide (default_act = Allow) then "allow" else "deny";
     np_corp_managed := negb (bool_decide (corp = ∅));
     np_conflicts := List.filter (fun p => bool_decide (p ∈ block_set)) allow_set |}.

(** ** Commands *)

(** The policies of a running VM: its proxy's and its MCP gateway's. *)
Record Running := { rn_policy : option NetworkPolicy; rn_domain_policy : option DomainPolicy }.

Record Desk := {
  dk_disk : Disk;
  dk_vms : gmap string Running;
  dk_running_venvs : gmap string string;
  dk_focused : option string;
}.

Definition set_disk x s := {| dk_disk := x; dk_vms := dk_vms s; dk_running_venvs := dk_running_venvs s; dk_focused := dk_focused s |}.
Definition set_dk_vms x s := {| dk_disk := dk_disk s; dk_vms := x; dk_running_venvs := dk_running_venvs s; dk_focused := dk_focused s |}.

(** The session of the focused venv, or of the only one that runs. *)
Definition active_session (s : Desk) : option string :=
  match dk_focused s with
  | Some v => dk_running_venvs s !! v
  | None => match map_to_list (dk_running_venvs s) with [(_, sid)] => Some sid | _ => None end
  end.

Definition swap_policies (p : NetworkPolicy) (dp : DomainPolicy) (r : Running) : Running :=
  {| rn_policy := match rn_policy r with Some _ => Some p | None => None end;
     rn_domain_policy := match rn_domain_policy r with Some _ => Some dp | None => None end |}.

(** The tail of the commands: the policy of [venv_id] goes to the active VM. *)
Definition hot_reload (venv_id : option string) (s : Desk) : Desk :=
  let new_policy := load_network_policy venv_id (dk_disk s) in
  let new_domain_policy := load_domain_policy venv_id (dk_disk s) in
  match active_session s with
  | Some vm_id => set_dk_vms (alter (swap_policies new_policy new_domain_policy) vm_id (dk_vms s)) s
  | None => s
  end.

Definition reload_if_ok (venv_id : option string) (r : result unit string * Disk) (s : Desk) : result unit string * Desk :=
  let s := set_disk r.2 s in
  match r.1 with Ok _ => (Ok tt, hot_reload venv_id s) | Err e => (Err e, s) end.

Context (ignored_any : string -> result unit string) (show_proto_error : ProtoError -> string).

Definition update_setting (now_iso k : string) (value : SettingValue) (venv_id : option string) (s : Desk) : result unit string * Desk :=
  match validate_setting_value ignored_any show_proto_error k value with
  | Err e => (Err e, s)
  | Ok _ =>
      let path := match venv_id with Some v => venv_config_path v | None => user_config_path end in
      reload_if_ok venv_id (change_file path (<[k := {| en_value := value; en_modified := now_iso |}]>) (dk_disk s)) s
  end.

Definition reset_venv_setting (venv_id k : string) (s : Desk) : result unit string * Desk :=
  reload_if_ok (Some venv_id) (remove_venv_setting venv_id k (dk_disk s)) s.

(** These two do not reload. *)
Definition set_guest_env (now_iso key value : string) (s : Desk) : result unit string * Desk :=
  let '(r, d) := change_file user_config_path
                   (<["guest.env." +:+ key := {| en_value := VText value; en_modified := now_iso |}]>) (dk_disk s) in
  (r, set_disk d s).

Definition remove_guest_env (key : string) (s : Desk) : result unit string * Desk :=
  let '(r, d) := change_file user_config_path (delete ("guest.env." +:+ key)) (dk_disk s) in (r, set_disk d s).

Inductive SettingsOp :=
| OpUpdate (now_iso k : string) (value : SettingValue) (venv_id : option string)
| OpReset (venv_id k : string)
| OpSetEnv (now_iso key value : string)
| OpRemoveEnv (key : string)
| OpFocus (venv_id : option string).

Definition settings_op (s : Desk) (op : SettingsOp) : Desk :=
  match op with
  | OpUpdate now k v venv => (update_setting now k v venv s).2
  | OpReset venv k => (reset_venv_setting venv k s).2
  | OpSetEnv now k v => (set_guest_env now k v s).2
  | OpRemoveEnv k => (remove_guest_env k s).2
  | OpFocus v => {| dk_disk := dk_disk s; dk_vms := dk_vms s; dk_running_venvs := dk_running_venvs s; dk_focused := v |}
  end.

End Loaders.

(** ** Files *)

Lemma write_result path f d r d' : write_settings_file path f d = (r, d') ->
  (forall p, p <> path -> d' !! p = d !! p) /\
  (r = Ok tt -> exists text, to_string_pretty f = Ok text /\ d' !! path = Some text).
Proof.
  unfold write_settings_file. destruct (path_parent path ≫= _) as [[p e]|]; [by intros [= <- <-]|].
  destruct (to_string_pretty f) as [text|]; [|by intros [= <- <-]]. destruct (write_error io path) as [[e rest]|].
  - intros [= <- <-]. split; [|done]. intros q Hq. destruct rest; [by rewrite lookup_insert_ne|done].
  - intros [= <- <-]. split; [intros q Hq; by rewrite lookup_insert_ne|]. intros _. exists text. by rewrite lookup_insert_eq.
Qed.

Lemma change_result path change d r d' : change_file (Some path) change d = (r, d') ->
  (forall p, p <> path -> d' !! p = d !! p) /\
  (r = Ok tt -> exists f text, load_settings_file path d = Ok f /\ to_string_pretty (change f) = Ok text /\ d' !! path = Some text).
Proof.
  unfold change_file. destruct (load_settings_file path d) as [f|e]; [|by intros [= <- <-]].
  intros Hw. destruct (write_result _ _ _ _ _ Hw) as [Ho Hr]. split; [done|]. intros H1. destruct (Hr H1) as (text & Ht & Hl). eauto.
Qed.

Lemma load_same path d d' : d' !! path = d !! path -> load_settings_file path d' = load_settings_file path d.
Proof. unfold load_settings_file. by intros ->. Qed.

Lemma load_or_default_same path d d' : (forall p, path = Some p -> d' !! p = d !! p) -> load_or_default path d' = load_or_default path d.
Proof. intros H. destruct path as [p|]; [|done]. cbn. by rewrite (load_same _ _ _ (H p eq_refl)). Qed.

Lemma settings_file_roundtrip `{!TomlFileRoundtrip} path f d d' :
  read_error io path = None -> write_settings_file path f d = (Ok tt, d') -> load_settings_file path d' = Ok f.
Proof.
  intros Hr Hw. destruct (write_result _ _ _ _ _ Hw) as [_ (text & Ht & Hl)]; [done|].
  unfold load_settings_file. by rewrite Hr, Hl, (toml_file_roundtrip f text Ht).
Qed.

(** A corporate file that cannot be read or parsed locks nothing. *)
Lemma corp_file_fails_open d e : load_settings_file corp_config_path d = Err e ->
  forall k, is_setting_corp_locked k (load_settings_files d).2 = false.
Proof. intros He k. cbn. by rewrite He. Qed.

(** ** Paths that no command writes *)

Definition paths_apart : Prop :=
  user_config_path <> Some corp_config_path /\ forall v, venv_config_path v <> Some corp_config_path.

Lemma default_paths_apart : getenv io "CLAWCAGE_USER_CONFIG" = None -> getenv io "CLAWCAGE_CORP_CONFIG" = None -> paths_apart.
Proof.
  intros Hu Hc. unfold paths_apart, user_config_path, venv_config_path, corp_config_path. rewrite Hu, Hc. cbn [default].
  split; [|intros v]; (destruct (dirs_path "HOME") as [h|]; [|done]); cbn [fmap option_fmap option_map]; intros [= E].
  - pose proof (path_join_ends (path_join h ".clawcage") "user.toml" eq_refl) as He. by rewrite E in He.
  - match type of E with path_join ?a ?b = _ => pose proof (path_join_ends a b eq_refl) as He end. by rewrite E in He.
Qed.

Lemma change_file_corp path change d r d' : path <> Some corp_config_path -> change_file path change d = (r, d') ->
  load_or_default (Some corp_config_path) d' = load_or_default (Some corp_config_path) d.
Proof.
  intros Hp Hc. apply load_or_default_same. intros p [= <-]. destruct path as [path|]; [|by injection Hc as _ <-].
  apply (proj1 (change_result _ _ _ _ _ Hc)). congruence.
Qed.

Section Properties.
Context `{UnicodeCase} (defs : list SettingDef).
Context (ignored_any : string -> result unit string) (show_proto_error : ProtoError -> string).

Abbreviation update := (update_setting defs ignored_any show_proto_error).
Abbreviation op_step := (settings_op defs ignored_any show_proto_error).

Definition target_path (venv_id : option string) : option string :=
  match venv_id with Some v => venv_config_path v | None => user_config_path end.

Theorem hot_reload_installs (now_iso k : string) (value : SettingValue) (venv_id : option string) (s s' : Desk)
    (vm_id : string) (Hup : update now_iso k value venv_id s = (Ok tt, s')) (Hact : active_session s = Some vm_id) :
  dk_vms s' !! vm_id =
    swap_policies (load_network_policy defs venv_id (dk_disk s')) (load_domain_policy defs venv_id (dk_disk s')) <$> dk_vms s !! vm_id
  /\ forall vm, vm <> vm_id -> dk_vms s' !! vm = dk_vms s !! vm.
Proof.
  unfold update_setting in Hup. destruct (validate_setting_value _ _ _ _); [|done].
  unfold reload_if_ok in Hup. destruct (change_file _ _ _) as [r d]. cbn [fst snd] in Hup.
  destruct r as [[]|]; [|done]. injection Hup as <-. unfold hot_reload.
  change (active_session (set_disk d s)) with (active_session s). rewrite Hact. cbn.
  split; [by rewrite lookup_alter_eq|intros vm Hne; by rewrite lookup_alter_ne].
Qed.

(** C27: after a successful update the next load gives the setting its new value, for the
    venv or globally, unless the corporate file has the key: then the value is the corporate
    one and the setting is locked. *)
Theorem updated_setting_effective `{!TomlFileRoundtrip} (now_iso k : string) (value : SettingValue)
    (venv_id : option string) (s s' : Desk) (path : string) (r : ResolvedSetting)
    (Hpath : target_path venv_id = Some path) (Hcorp : path <> corp_config_path) (Hread : read_error io path = None)
    (Hup : update now_iso k value venv_id s = (Ok tt, s'))
    (Hr : r ∈ load_merged_settings_for_venv defs venv_id (dk_disk s')) (Hid : id r = k) :
  let corp := (load_settings_files (dk_disk s)).2 in
  (effective_value r, corp_locked r) =
    match corp !! k with Some e => (en_value e, true) | None => (value, false) end.
Proof.
  unfold update_setting in Hup. destruct (validate_setting_value _ _ _ _); [|done].
  fold (target_path venv_id) in Hup. rewrite Hpath in Hup. unfold reload_if_ok in Hup.
  destruct (change_file (Some path) _ (dk_disk s)) as [w d] eqn:Hc. cbn [fst snd] in Hup. destruct w as [[]|]; [|done].
  injection Hup as <-. assert (dk_disk (hot_reload defs venv_id (set_disk d s)) = d) as Hd.
  { unfold hot_reload. by destruct (active_session _). }
  rewrite Hd in Hr. clear Hd.
  assert (Some path <> Some corp_config_path) as Hne by congruence.
  pose proof (change_file_corp _ _ _ _ _ Hne Hc) as Hcorp'.
  destruct (change_result _ _ _ _ _ Hc) as [_ (f & text & _ & Ht & Hl)]; [done|].
  assert (load_or_default (Some path) d = <[k := {| en_value := value; en_modified := now_iso |}]> f) as Hnew.
  { cbn. unfold load_settings_file. by rewrite Hread, Hl, (toml_file_roundtrip _ _ Ht). }
  unfold load_merged_settings_for_venv, load_settings_files_with_venv, load_settings_files in *. cbn [snd].
  rewrite Hcorp' in Hr. set (corp := load_or_default (Some corp_config_path) (dk_disk s)) in *.
  apply resolve_settings_elem in Hr as [Hv Hlock]. rewrite Hid in Hv, Hlock. unfold resolve_value_with_venv in Hv.
  assert (corp_locked r = bool_decide (is_Some (corp !! k))) as ->.
  { apply eq_true_iff_eq. by rewrite bool_decide_eq_true. }
  destruct (corp !! k) as [e|]; [cbn in Hv; rewrite bool_decide_true by done; by injection Hv as -> _|].
  rewrite bool_decide_false by (by intros [? ?]). f_equal. destruct venv_id as [v|]; cbn [target_path] in Hpath.
  - rewrite Hpath, Hnew, lookup_insert_eq in Hv. by injection Hv as -> _.
  - rewrite Hpath, Hnew, lookup_empty, lookup_insert_eq in Hv. by injection Hv as -> _.
Qed.

(** *** The corporate block through every sequence of commands *)

Variables (d t : SettingDef) (e all : SettingEntry) (pattern domain : string).

(** The corporate file locks the service of [d] off and settles [allow_all_domains]. *)
Record corp_lock (corp : SettingsFile) : Prop := {
  cl_registered : d ∈ defs /\ ends_with (sdef_id d) ".domains" = true /\ sdef_type d = TText;
  cl_toggle : t ∈ defs /\ sdef_id t = replace ".domains" ".allow" (sdef_id d);
  cl_off : corp !! sdef_id t = Some e /\ as_bool (en_value e) <> Some true;
  cl_all : corp !! "network.allow_all_domains" = Some all /\ as_bool (en_value all) <> Some true;
  cl_pattern : pattern ∈ value_domains (sdef_default d) /\ pattern_covers pattern (to_lowercase domain);
  cl_registries : forall d' q, d' ∈ defs -> q ∈ domains (sdef_metadata d') -> ~ pattern_covers q (to_lowercase domain);
}.

Definition blocks (r : Running) : Prop :=
  (forall dp, rn_domain_policy r = Some dp -> fst (DomainPolicy_evaluate dp domain) = Deny) /\
  (forall p, rn_policy r = Some p -> is_Some (is_fully_blocked p domain)).

Lemma resolved_metadata user venv corp s : s ∈ resolve_settings_with_venv defs user venv corp ->
  (exists d', d' ∈ defs /\ metadata s = sdef_metadata d') \/ metadata s = SettingMetadata_default.
Proof.
  intros (s0 & Hin & _ & _ & _ & _ & -> & _)%compute_enabled_elem.
  apply elem_of_app in Hin as [(d' & -> & Hd)%list_elem_of_fmap|(k & -> & _)%list_elem_of_fmap].
  - left. exists d'. split; [done|]. unfold resolve_def. by destruct (resolve_value_with_venv _ _ _ _ _) as [[]].
  - right. unfold resolve_dynamic. by destruct (resolve_value_with_venv _ _ _ _ _) as [[]].
Qed.

Lemma locked_policies_block venv_id disk : corp_lock (load_settings_files disk).2 ->
  fst (DomainPolicy_evaluate (load_domain_policy defs venv_id disk) domain) = Deny /\
  is_Some (is_fully_blocked (load_network_policy defs venv_id disk) domain).
Proof.
  intros [(Hd & Hend & Hty) (Ht & Hid) (He & Hoff) (Hall & Halloff) (Hp & Hc) Hreg].
  unfold load_domain_policy, load_network_policy, load_settings_files_with_venv, load_settings_files in *. cbn [snd] in *.
  set (user := load_or_default user_config_path disk). set (corp := load_or_default (Some corp_config_path) disk) in *.
  set (venv := match venv_id with Some v => load_or_default (venv_config_path v) disk | None => ∅ end).
  pose proof (corp_blocked_resolved defs user venv corp d t e pattern Hd Hend Hty Ht Hid He Hoff Hp) as Hb. split.
  - apply (domain_policy_blocks_corp _ pattern); [eapply allow_all_off; [exact Hall|done]|done|done].
  - apply (network_policy_blocks_corp _ pattern); [done|done|]. intros s q Hs _ Hq.
    unfold registries in Hs. apply list_elem_of_In, filter_In in Hs as [Hs _]. apply list_elem_of_In in Hs.
    destruct (resolved_metadata _ _ _ _ Hs) as [(d' & Hd' & Hm)|Hm]; rewrite Hm in Hq; [by eapply Hreg|].
    by apply elem_of_nil in Hq.
Qed.

Definition guarded (s : Desk) : Prop :=
  corp_lock (load_settings_files (dk_disk s)).2 /\ map_Forall (fun _ r => blocks r) (dk_vms s).

Lemma guarded_disk s disk : guarded s ->
  load_or_default (Some corp_config_path) disk = load_or_default (Some corp_config_path) (dk_disk s) -> guarded (set_disk disk s).
Proof. intros [Hl Hv] He. split; [|done]. unfold load_settings_files in *. cbn in *. by rewrite He. Qed.

Lemma guarded_reload venv_id s : guarded s -> guarded (hot_reload defs venv_id s).
Proof.
  intros [Hl Hv]. destruct (locked_policies_block venv_id (dk_disk s) Hl) as [Hd Hn].
  unfold hot_reload. destruct (active_session s) as [vm|]; [|done]. split; [done|]. cbn.
  intros i r Hr. destruct (decide (i = vm)) as [->|Hne].
  - rewrite lookup_alter_eq in Hr. destruct (dk_vms s !! vm) as [r0|] eqn:E; [|done]. injection Hr as <-.
    split; cbn; [destruct (rn_domain_policy r0)|destruct (rn_policy r0)]; by intros ? [= <-].
  - rewrite lookup_alter_ne in Hr by done. by apply (Hv i r).
Qed.

Lemma guarded_change path change s venv_id : path <> Some corp_config_path -> guarded s ->
  guarded (reload_if_ok defs venv_id (change_file path change (dk_disk s)) s).2.
Proof.
  intros Hp Hs. unfold reload_if_ok. destruct (change_file path change (dk_disk s)) as [r disk] eqn:Hc. cbn [fst snd].
  pose proof (guarded_disk s disk Hs (change_file_corp _ _ _ _ _ Hp Hc)) as Hd. destruct r; [by apply guarded_reload|done].
Qed.

Lemma guarded_step s op : paths_apart -> guarded s -> guarded (op_step s op).
Proof.
  intros [Hu Hv] Hs. destruct op as [now k v venv|venv k|now k v|k|v]; cbn.
  - unfold update_setting. destruct (validate_setting_value _ _ _ _); [|done]. apply guarded_change; [|done]. by destruct venv.
  - unfold reset_venv_setting. by apply guarded_change.
  - unfold set_guest_env. destruct (change_file _ _ _) as [r disk] eqn:Hc. cbn.
    by apply guarded_disk; [|eapply change_file_corp].
  - unfold remove_guest_env. destruct (change_file _ _ _) as [r disk] eqn:Hc. cbn.
    by apply guarded_disk; [|eapply change_file_corp].
  - done.
Qed.


End Properties.
End Store.

(** ** A demonstration: two venvs *)

#[global] Instance SettingEntry_eq_dec : EqDecision SettingEntry.
Proof. solve_decision. Defined.

Module Demo.

Definition entry_at (now : string) (v : SettingValue) : SettingEntry := {| en_value := v; en_modified := now |}.

(** The user turned OpenAI off, venv "b" turns it on; the corporate file of a second host
    locks it off. *)
Definition user_file : SettingsFile := {["ai.openai.allow" := entry_at "t0" (VBool false)]}.
Definition b_file : SettingsFile := {["ai.openai.allow" := entry_at "t1" (VBool true)]}.

Definition codebook : list (SettingsFile * string) := [(∅, "none"); (user_file, "user"); (b_file, "b"); (openai_corp, "corp")].

#[global] Instance toml_file : TomlFile := {|
  settings_from_str text := match list_find_first (fun c => bool_decide (c.2 = text)) codebook with Some c => Ok c.1 | None => Err "expected a table" end;
  to_string_pretty f := match list_find_first (fun c => bool_decide (map_to_list c.1 = map_to_list f)) codebook with Some c => Ok c.2 | None => Err "unsupported" end;
|}.

Lemma codebook_inverse : Forall (fun c => settings_from_str c.2 = Ok c.1) codebook.
Proof. repeat constructor. Qed.

#[global] Instance toml_file_ok : TomlFileRoundtrip.
Proof.
  constructor. intros f text. unfold to_string_pretty, toml_file at 1.
  destruct (list_find_first _ codebook) as [c|] eqn:E; [|done]. intros [= <-].
  apply list_find_first_Some in E as [Hin Hf]. apply bool_decide_eq_true, (f_equal (list_to_map (M := SettingsFile))) in Hf.
  rewrite !list_to_map_to_list in Hf. subst f. exact (proj1 (Forall_forall _ _) codebook_inverse c Hin).
Qed.

Definition io : Io := {|
  getenv v := if bool_decide (v = "HOME") then Some "/home/u" else None;
  read_error _ := None; mkdir_error _ := None; write_error _ := None |}.

Definition policies (venv : option string) (d : Disk) : Running :=
  {| rn_policy := Some (load_network_policy io openai_defs venv d); rn_domain_policy := Some (load_domain_policy io openai_defs venv d) |}.

Definition disk : Disk := {["/home/u/.clawcage/user.toml" := "user"]}.

Definition desk : Desk := {|
  dk_disk := disk;
  dk_vms := <["sa" := policies (Some "a") disk]> {["sb" := policies (Some "b") disk]};
  dk_running_venvs := <["a" := "sa"]> {["b" := "sb"]};
  dk_focused := Some "a" |}.

Definition ignored_any (_ : string) : result unit string := Ok tt.
Definition show_error (_ : ProtoError) : string := "".
Definition update := update_setting io openai_defs ignored_any show_error "t1" "ai.openai.allow" (VBool true) (Some "b") desk.

Definition decision (vm : string) (s : Desk) : option Action :=
  r ← dk_vms s !! vm; dp ← rn_domain_policy r; Some (fst (DomainPolicy_evaluate dp "api.openai.com")).

(** Editing venv "b" while "a" is focused opens "a" and leaves "b" closed. *)
Example wrong_vm_reloaded :
  decision "sa" desk = Some Deny /\ decision "sa" update.2 = Some Allow /\ decision "sb" update.2 = Some Deny.
Proof. vm_compute. repeat split. Qed.

(** The same host with a corporate file. *)
Definition corp_disk : Disk := <["/etc/clawcage/corp.toml" := "corp"]> disk.
Definition corp_desk : Desk := {|
  dk_disk := corp_disk; dk_vms := {["sa" := policies (Some "a") corp_disk]}; dk_running_venvs := {["a" := "sa"]}; dk_focused := None |}.
Definition ops : list SettingsOp := [OpUpdate "t1" "ai.openai.allow" (VBool true) (Some "b"); OpFocus (Some "b"); OpSetEnv "t1" "X" "1"].

End Demo.

Lemma hot_reload_installs_witness :
  dk_vms Demo.update.2 !! "sa" =
    swap_policies (load_network_policy Demo.io openai_defs (Some "b") (dk_disk Demo.update.2))
      (load_domain_policy Demo.io openai_defs (Some "b") (dk_disk Demo.update.2)) <$> dk_vms Demo.desk !! "sa".
Proof.
  refine (proj1 (hot_reload_installs Demo.io openai_defs Demo.ignored_any Demo.show_error "t1" "ai.openai.allow" (VBool true)
    (Some "b") Demo.desk Demo.update.2 "sa" _ _)); vm_compute; reflexivity.
Defined.

Lemma updated_setting_effective_witness :
  Forall (fun s => id s = "ai.openai.allow" -> (effective_value s, corp_locked s) = (VBool true, false))
    (load_merged_settings_for_venv Demo.io openai_defs (Some "b") (dk_disk Demo.update.2)).
Proof.
  apply Forall_forall. intros s Hs Hid.
  apply (updated_setting_effective Demo.io openai_defs Demo.ignored_any Demo.show_error "t1" "ai.openai.allow" (VBool true)
    (Some "b") Demo.desk Demo.update.2 "/home/u/.clawcage/venvs/b/settings.toml" s);
    [vm_compute; reflexivity|vm_compute; discriminate|reflexivity|vm_compute; reflexivity|exact Hs|exact Hid].
Defined.

Lemma demo_corp_lock :
  corp_lock openai_defs (text_def "ai.openai.domains" "api.openai.com, *.openai.com") (bool_def "ai.openai.allow" true)
    (entry (VBool false)) (entry (VBool false)) "*.openai.com" "chat.openai.com" (load_settings_files Demo.io (dk_disk Demo.corp_desk)).2.
Proof.
  assert ((load_settings_files Demo.io (dk_disk Demo.corp_desk)).2 = openai_corp) as -> by reflexivity.
  constructor.
  - split; [right; left|split; [vm_compute; reflexivity|reflexivity]].
  - split; [left|vm_compute; reflexivity].
  - split; [reflexivity|discriminate].
  - split; [vm_compute; reflexivity|discriminate].
  - split; [vm_compute; right; left|]. left. by exists "openai.com", "chat".
  - intros d' q Hd Hq. repeat (apply elem_of_cons in Hd as [->|Hd]; [by apply elem_of_nil in Hq|]). by apply elem_of_nil in Hd.
Qed.

