(* ===== verification/Boot.v ===== *)
(** The boot handshake: the host's send_boot_config_for_venv
    (crates/clawcage-app/src/main.rs) and the guest's steps 3a and 3b
    (crates/clawcage-agent/src/main.rs).

    The host's environment is a HashMap sent in its iteration order, here a list. The
    guest's file writes are a list in order; [write_ok] says for which paths creating
    the parent directory and writing succeed. *)

From Stdlib Require Import ZArith Lia Strings.Byte.
From stdpp Require Import base numbers list gmap strings.
From S2P Require Import Prelude RustStr Utf8 Proto Events Settings GuestConfig.

(** ** Host *)

Definition API_KEY_ENV_VARS : list string := ["ANTHROPIC_API_KEY"; "OPENAI_API_KEY"; "GEMINI_API_KEY"].

Definition isolate (credential_isolation : bool) (key value : string) : string :=
  if credential_isolation && bool_decide (key ∈ API_KEY_ENV_VARS) && negb (is_empty value)
  then "clawcage-proxy-managed" else value.

(** Steps 2 and 3: the messages and the running count; [isolation] is off for the CLI. *)
Fixpoint send_env (isolation : bool) (env : list (string * string)) (env_count : Z)
  : list HostToGuest * Z :=
  match env with
  | [] => ([], env_count)
  | (key, value) :: env =>
      if MAX_BOOT_ENV_VARS <=? env_count then ([], env_count)
      else if negb (is_ok (validate_env_key key)) then send_env isolation env env_count
      else
        let value := isolate isolation key value in
        if negb (is_ok (validate_env_value value)) then send_env isolation env env_count
        else let '(msgs, n) := send_env isolation env (env_count + 1) in
             (SetEnv key value :: msgs, n)
  end.

(** Step 4. *)
Fixpoint send_files (files : list GuestFile) (file_count total_file_bytes : Z) : list HostToGuest :=
  match files with
  | [] => []
  | f :: files =>
      if MAX_BOOT_FILES <=? file_count then []
      else
        let data := bytes_of_string (gf_content f) in
        let total := total_file_bytes + Z.of_nat (length data) in
        if MAX_BOOT_FILE_BYTES <? total then send_files files file_count total_file_bytes
        else if negb (is_ok (validate_file_path (gf_path f)))
        then send_files files file_count total_file_bytes
        else FileWrite (gf_path f) data (gf_mode f) :: send_files files (file_count + 1) total
  end.

(** Step 5: [setup.sh] and [setup.env] of the venv, where they exist and are readable. *)
Definition send_setup (script setup_env : option string) : list HostToGuest :=
  match script with
  | Some s => [FileWrite "/tmp/.clawcage-template-setup.sh" (bytes_of_string s) 493]
  | None => []
  end ++
  match setup_env with
  | Some s => [FileWrite "/tmp/.clawcage-template-setup.env" (bytes_of_string s) 384]
  | None => []
  end.

Definition send_boot_config_for_venv (epoch_secs : Z) (isolation : bool)
    (env cli_env : list (string * string)) (files : list GuestFile) (script setup_env : option string)
  : list HostToGuest :=
  let '(m2, n) := send_env isolation env 0 in
  let '(m3, _) := send_env false cli_env n in
  BootConfig epoch_secs :: m2 ++ m3 ++ send_files files 0 0 ++ send_setup script setup_env
    ++ [BootConfigDone].

(** ** Guest *)

Record BootState := {
  boot_env : list (string * string);
  boot_files : list (string * list byte * Z);
  file_count : Z;
  total_file_bytes : Z;
}.

Definition BootState_new : BootState :=
  {| boot_env := []; boot_files := []; file_count := 0; total_file_bytes := 0 |}.

Inductive BootStep := BootContinue (st : BootState) | BootDone (st : BootState) | BootPanic.

Section Guest.
Context `{Rmp HostToGuest} (write_ok : string -> bool).

(** The preview [&value[..40]] of the boot log. *)
Definition env_preview (value : string) : option string :=
  if 40 <? slen value then (fun s => s +:+ "...") <$> str_slice value 0 40 else Some value.

Definition boot_msg (st : BootState) (msg : HostToGuest) : BootStep :=
  match msg with
  | SetEnv key value =>
      if negb (is_ok (validate_env_key key)) then BootContinue st
      else if negb (is_ok (validate_env_value value)) then BootContinue st
      else if MAX_BOOT_ENV_VARS <=? Z.of_nat (length (boot_env st)) then BootContinue st
      else match env_preview value with
           | None => BootPanic
           | Some _ =>
               BootContinue {| boot_env := boot_env st ++ [(key, value)]; boot_files := boot_files st;
                               file_count := file_count st; total_file_bytes := total_file_bytes st |}
           end
  | FileWrite path data mode =>
      if negb (is_ok (validate_file_path path)) then BootContinue st
      else if MAX_BOOT_FILES <=? file_count st then BootContinue st
      else if MAX_BOOT_FILE_BYTES <? total_file_bytes st + Z.of_nat (length data) then BootContinue st
      else if negb (write_ok path) then BootContinue st
      else BootContinue {| boot_env := boot_env st; boot_files := boot_files st ++ [(path, data, mode)];
                           file_count := file_count st + 1;
                           total_file_bytes := total_file_bytes st + Z.of_nat (length data) |}
  | BootConfigDone => BootDone st
  | _ => BootContinue st
  end.

(** How the handshake ends: with a configuration and the unread stream, by a panic, or
    (never with the fuel used) out of fuel. *)
Inductive BootResult := Booted (st : BootState) (rest : list byte) | Panicked | OutOfFuel.

Fixpoint boot_loop (fuel : nat) (st : BootState) (stream : list byte) : BootResult :=
  match fuel with
  | O => OutOfFuel
  | S fuel =>
      match recv_host_msg stream with
      | (Err _, rest) => Booted st rest
      | (Ok msg, rest) =>
          match boot_msg st msg with
          | BootContinue st => boot_loop fuel st rest
          | BootDone st => Booted st rest
          | BootPanic => Panicked
          end
      end
  end.

(** Step 3a sets the clock from the first message and goes on whatever it was; then 3b. *)
Definition boot_handshake (stream : list byte) : option Z * BootResult :=
  let '(first, rest) := recv_host_msg stream in
  (match first with
   | Ok (BootConfig epoch_secs) => if 0 <? epoch_secs then Some epoch_secs else None
   | _ => None
   end, boot_loop (S (length rest)) BootState_new rest).

End Guest.

(** ** What the host sends *)

Definition set_env_msgs (env : list (string * string)) : list HostToGuest :=
  map (fun kv => SetEnv kv.1 kv.2) env.

Definition env_valid (env : list (string * string)) : Prop :=
  Forall (fun kv => validate_env_key kv.1 = Ok tt /\ validate_env_value kv.2 = Ok tt) env.

Definition isolate_all (isolation : bool) (env : list (string * string)) : list (string * string) :=
  map (fun kv => (kv.1, isolate isolation kv.1 kv.2)) env.

Lemma isolate_valid isolation k v :
  validate_env_value v = Ok tt -> validate_env_value (isolate isolation k v) = Ok tt.
Proof. intros Hv. unfold isolate. destruct (_ && _); [vm_compute; reflexivity|done]. Qed.

(** Within the cap every valid variable is sent. *)
Lemma send_env_all isolation env n :
  env_valid env -> n + Z.of_nat (length env) <= MAX_BOOT_ENV_VARS ->
  send_env isolation env n =
  (set_env_msgs (isolate_all isolation env), n + Z.of_nat (length env)).
Proof.
  revert n. induction env as [|[k v] env IH]; intros n Hv Hn; cbn [send_env].
  - simpl. f_equal. lia.
  - inversion_clear Hv as [|? ? [Hk Hval] Hv']. cbn [fst snd length] in *.
    destruct (Z.leb_spec MAX_BOOT_ENV_VARS n); [lia|].
    rewrite Hk, (isolate_valid isolation k v Hval). cbn [is_ok negb].
    rewrite IH by (done || lia). cbn. f_equal. lia.
Qed.

Definition file_write (f : GuestFile) : string * list byte * Z :=
  (gf_path f, bytes_of_string (gf_content f), gf_mode f).

Definition write_msg (w : string * list byte * Z) : HostToGuest :=
  let '(path, data, mode) := w in FileWrite path data mode.

Definition data_bytes (ws : list (string * list byte * Z)) : Z :=
  foldr (fun w n => Z.of_nat (length w.1.2) + n) 0 ws.

Lemma data_bytes_nonneg ws : 0 <= data_bytes ws.
Proof. induction ws; simpl; lia. Qed.

(** Within the caps every file with a valid path is sent. *)
Lemma send_files_all files n total :
  Forall (fun f => validate_file_path (gf_path f) = Ok tt) files ->
  n + Z.of_nat (length files) <= MAX_BOOT_FILES ->
  total + data_bytes (map file_write files) <= MAX_BOOT_FILE_BYTES ->
  send_files files n total = map write_msg (map file_write files).
Proof.
  revert n total. induction files as [|f files IH]; intros n total Hp Hn Ht; [done|].
  inversion_clear Hp as [|? ? Hf Hp']. cbn [send_files map length data_bytes foldr] in *.
  fold (data_bytes (map file_write files)) in Ht.
  pose proof (data_bytes_nonneg (map file_write files)). cbn [file_write fst snd] in Ht.
  destruct (Z.leb_spec MAX_BOOT_FILES n); [lia|].
  destruct (Z.ltb_spec MAX_BOOT_FILE_BYTES
              (total + Z.of_nat (length (bytes_of_string (gf_content f))))); [lia|].
  rewrite Hf. cbn [is_ok negb]. by rewrite IH by (done || lia).
Qed.

(** ** What the guest does with it *)

Section Apply.
Context `{Rmp HostToGuest} (write_ok : string -> bool).

Definition framed (msgs : list HostToGuest) (frames : list (list byte)) : Prop :=
  Forall2 (fun m f => encode_host_msg m = Some f /\
                      Z.of_nat (length f) <= 4 + MAX_FRAME_SIZE) msgs frames.

Lemma recv_framed `{!RmpRoundtrip HostToGuest} m f rest :
  encode_host_msg m = Some f -> Z.of_nat (length f) <= 4 + MAX_FRAME_SIZE ->
  recv_host_msg (f ++ rest) = (Ok m, rest).
Proof.
  intros (payload & Ep & ->)%encode_host_msg_frame Hl. rewrite frame_of_length in Hl.
  rewrite recv_frame_of by lia. unfold decode_host_msg. by rewrite (rmp_roundtrip m payload Ep).
Qed.

Definition apply_msg (st : BootState) (msg : HostToGuest) : BootState :=
  match boot_msg write_ok st msg with BootContinue st | BootDone st => st | BootPanic => st end.

(** Messages that neither end the handshake nor panic. *)
Definition continues (msg : HostToGuest) : Prop :=
  forall st, boot_msg write_ok st msg = BootContinue (apply_msg st msg).

Lemma boot_loop_frames `{!RmpRoundtrip HostToGuest} msgs frames fuel st rest :
  framed msgs frames -> Forall continues msgs ->
  boot_loop write_ok (length msgs + fuel) st (concat frames ++ rest) =
  boot_loop write_ok fuel (fold_left apply_msg msgs st) rest.
Proof.
  intros Hf. revert st. induction Hf as [|m f msgs frames [He Hl] _ IH]; intros st Hc; [done|].
  inversion_clear Hc as [|? ? Hm Hc']. cbn [length Nat.add concat boot_loop fold_left].
  rewrite <- app_assoc, (recv_framed m f) by done. by rewrite Hm, IH.
Qed.

Lemma continues_set_env k v : is_Some (env_preview v) -> continues (SetEnv k v).
Proof.
  intros [p Hp] st. unfold apply_msg, boot_msg. rewrite Hp.
  destruct (negb _); [done|]. destruct (negb _); [done|]. by destruct (_ <=? _).
Qed.

Lemma continues_file_write w : continues (write_msg w).
Proof.
  intros st. destruct w as [[path data] mode]. unfold apply_msg, boot_msg, write_msg.
  destruct (negb _); [done|]. destruct (_ <=? _); [done|]. destruct (_ <? _); [done|].
  by destruct (negb _).
Qed.

Lemma apply_env env st :
  env_valid env -> Forall (fun kv => is_Some (env_preview kv.2)) env ->
  Z.of_nat (length (boot_env st)) + Z.of_nat (length env) <= MAX_BOOT_ENV_VARS ->
  fold_left apply_msg (set_env_msgs env) st =
  {| boot_env := boot_env st ++ env; boot_files := boot_files st; file_count := file_count st;
     total_file_bytes := total_file_bytes st |}.
Proof.
  revert st. induction env as [|[k v] env IH]; intros st Hv Hp Hn; cbn [set_env_msgs map fold_left].
  - rewrite app_nil_r. by destruct st.
  - inversion_clear Hv as [|? ? [Hk Hval] Hv']. inversion_clear Hp as [|? ? [p Hprev] Hp'].
    cbn [fst snd length] in *.
    assert (apply_msg st (SetEnv k v) =
            {| boot_env := boot_env st ++ [(k, v)]; boot_files := boot_files st;
               file_count := file_count st; total_file_bytes := total_file_bytes st |}) as ->.
    { unfold apply_msg, boot_msg. rewrite Hk, Hval, Hprev. cbn [is_ok negb].
      destruct (Z.leb_spec MAX_BOOT_ENV_VARS (Z.of_nat (length (boot_env st)))); [lia|done]. }
    fold (set_env_msgs env). rewrite IH; [|done|done|].
    + cbn [boot_env boot_files file_count total_file_bytes]. by rewrite <- app_assoc.
    + cbn [boot_env]. rewrite length_app. cbn [length]. lia.
Qed.

Lemma apply_files ws st :
  Forall (fun w => validate_file_path w.1.1 = Ok tt /\ write_ok w.1.1 = true) ws ->
  file_count st + Z.of_nat (length ws) <= MAX_BOOT_FILES ->
  total_file_bytes st + data_bytes ws <= MAX_BOOT_FILE_BYTES ->
  fold_left apply_msg (map write_msg ws) st =
  {| boot_env := boot_env st; boot_files := boot_files st ++ ws;
     file_count := file_count st + Z.of_nat (length ws);
     total_file_bytes := total_file_bytes st + data_bytes ws |}.
Proof.
  revert st. induction ws as [|[[path data] mode] ws IH]; intros st Hv Hn Ht; cbn [map fold_left].
  - rewrite app_nil_r, !Z.add_0_r. by destruct st.
  - inversion_clear Hv as [|? ? [Hp Hw] Hv']. cbn [fst snd length data_bytes foldr] in *.
    fold (data_bytes ws) in *. pose proof (data_bytes_nonneg ws).
    assert (apply_msg st (write_msg (path, data, mode)) =
            {| boot_env := boot_env st; boot_files := boot_files st ++ [(path, data, mode)];
               file_count := file_count st + 1;
               total_file_bytes := total_file_bytes st + Z.of_nat (length data) |}) as ->.
    { unfold apply_msg, boot_msg, write_msg. rewrite Hp, Hw. cbn [is_ok negb].
      destruct (Z.leb_spec MAX_BOOT_FILES (file_count st)); [lia|].
      destruct (Z.ltb_spec MAX_BOOT_FILE_BYTES (total_file_bytes st + Z.of_nat (length data))); [lia|done]. }
    rewrite IH; [|done|cbn [file_count]; lia|cbn [total_file_bytes]; lia].
    cbn [boot_env boot_files file_count total_file_bytes]. rewrite <- app_assoc. f_equal; lia.
Qed.

End Apply.

(** ** Termination *)

Lemma read_exact_rest n stream a rest :
  read_exact n stream = Ok (a, rest) -> (length rest <= length stream)%nat /\
  (0 < n -> (length rest < length stream)%nat).
Proof.
  unfold read_exact. destruct (Z.leb_spec n (Z.of_nat (length stream))); [|done].
  intros [= <- <-]. rewrite length_drop. lia.
Qed.

Lemma recv_consumes `{Rmp HostToGuest} stream m rest :
  recv_host_msg stream = (Ok m, rest) -> (length rest < length stream)%nat.
Proof.
  unfold recv_host_msg. destruct (read_exact 4 stream) as [[len rest1]|] eqn:E1; [|done].
  apply read_exact_rest in E1 as [_ E1]. specialize (E1 ltac:(lia)).
  destruct (_ <? _); [done|]. destruct (read_exact _ rest1) as [[p rest2]|] eqn:E2; [|done].
  apply read_exact_rest in E2 as [E2 _]. destruct (decode_host_msg p); [|done].
  intros [= _ <-]. lia.
Qed.

Lemma boot_loop_fuel `{Rmp HostToGuest} write_ok fuel st stream :
  (length stream < fuel)%nat -> boot_loop write_ok fuel st stream <> OutOfFuel.
Proof.
  revert st stream. induction fuel as [|fuel IH]; intros st stream Hl; [lia|]. cbn [boot_loop].
  destruct (recv_host_msg stream) as [[m|] rest] eqn:E; [|done].
  apply recv_consumes in E. destruct (boot_msg write_ok st m); [|done|done]. apply IH. lia.
Qed.

Lemma boot_loop_mono `{Rmp HostToGuest} write_ok f1 f2 st stream :
  (length stream < f1)%nat -> (length stream < f2)%nat ->
  boot_loop write_ok f1 st stream = boot_loop write_ok f2 st stream.
Proof.
  revert f2 st stream. induction f1 as [|f1 IH]; intros [|f2] st stream H1 H2; try lia. cbn [boot_loop].
  destruct (recv_host_msg stream) as [[m|] rest] eqn:E; [|done].
  apply recv_consumes in E. destruct (boot_msg write_ok st m); [|done|done]. apply IH; lia.
Qed.

Lemma framed_length `{Rmp HostToGuest} msgs frames :
  framed msgs frames -> (length msgs <= length (concat frames))%nat.
Proof.
  induction 1 as [|m f msgs frames [He _] _ IH]; [done|]. cbn [length concat]. rewrite length_app.
  apply encode_host_msg_frame in He as (p & _ & ->). rewrite frame_of_length. lia.
Qed.

(** The handshake on well-framed messages, up to the first that ends it or panics. *)
Lemma boot_handshake_frames `{RmpRoundtrip HostToGuest} write_ok epoch_secs msgs m more frames rest :
  framed (BootConfig epoch_secs :: msgs ++ m :: more) frames -> Forall (continues write_ok) msgs ->
  let st := fold_left (apply_msg write_ok) msgs BootState_new in
  (forall st', boot_msg write_ok st m <> BootContinue st') ->
  exists frames', framed more frames' /\ boot_handshake write_ok (concat frames ++ rest) =
    (if 0 <? epoch_secs then Some epoch_secs else None,
     match boot_msg write_ok st m with BootDone st => Booted st (concat frames' ++ rest) | _ => Panicked end).
Proof.
  intros Hf Hc st Hend. inversion Hf as [|? f0 ? frames' [He Hl] Hf']. subst.
  apply Forall2_app_inv_l in Hf' as (fs1 & fs2 & H1 & H2 & ->).
  inversion H2 as [|? fd ? fs3 [Hed Hld] H3]. subst. exists fs3. split; [done|].
  unfold boot_handshake. cbn [concat]. rewrite <- app_assoc, (recv_framed (BootConfig epoch_secs) f0) by done. f_equal.
  rewrite concat_app, <- app_assoc. cbn [concat]. rewrite <- app_assoc.
  rewrite (boot_loop_mono _ _ (length msgs + S (S (length (concat fs1 ++ fd ++ concat fs3 ++ rest))))) by lia.
  rewrite boot_loop_frames by done. cbn [boot_loop]. rewrite (recv_framed m fd) by done. fold st.
  destruct (boot_msg write_ok st m) eqn:E; [by destruct (Hend st0)|done|done].
Qed.

(** ** Properties *)

(** What [send_setup] asks to be written. *)
Definition setup_writes (script setup_env : option string) : list (string * list byte * Z) :=
  match script with Some s => [("/tmp/.clawcage-template-setup.sh", bytes_of_string s, 493)] | None => [] end ++
  match setup_env with Some s => [("/tmp/.clawcage-template-setup.env", bytes_of_string s, 384)] | None => [] end.

Lemma send_setup_writes script setup_env : send_setup script setup_env = map write_msg (setup_writes script setup_env).
Proof. by destruct script, setup_env. Qed.

Lemma setup_writes_valid script setup_env : Forall (fun w => validate_file_path w.1.1 = Ok tt) (setup_writes script setup_env).
Proof. destruct script, setup_env; repeat constructor. Qed.

Lemma data_bytes_app a b : data_bytes (a ++ b) = data_bytes a + data_bytes b.
Proof. induction a as [|w a IH]; [done|]. cbn [data_bytes foldr app]. unfold data_bytes in *. lia. Qed.

Lemma split_failing {A} (P : A -> Prop) `{forall x, Decision (P x)} l : ~ Forall P l -> exists l1 x l2, l = l1 ++ x :: l2 /\ Forall P l1 /\ ~ P x.
Proof.
  induction l as [|x l IH]; intros Hn; [by destruct Hn|]. destruct (decide (P x)) as [Hx|Hx]; [|by exists [], x, l].
  destruct IH as (l1 & y & l2 & -> & H1 & Hy); [intros Hl; apply Hn; by constructor|]. exists (x :: l1), y, l2. by repeat constructor.
Qed.

Lemma isolate_all_valid isolation env cli_env : env_valid env -> env_valid cli_env -> env_valid (isolate_all isolation env ++ cli_env).
Proof.
  intros Hev Hcli. apply Forall_app. split; [|done]. apply Forall_map. eapply Forall_impl; [exact Hev|].
  intros [k v] [Hk Hv]. split; [done|]. by apply isolate_valid.
Qed.

Lemma continues_env write_ok env : Forall (fun kv => is_Some (env_preview kv.2)) env -> Forall (continues write_ok) (set_env_msgs env).
Proof. intros Hp. apply Forall_map. eapply Forall_impl; [exact Hp|]. intros kv. apply continues_set_env. Qed.

(** A guest that is sent valid variables and writes within the caps has them, or panics at
    the first preview that cannot be cut. *)
Lemma boot_writes_applied `{RmpRoundtrip HostToGuest} write_ok epoch_secs env writes frames rest :
  env_valid env -> Z.of_nat (length env) <= MAX_BOOT_ENV_VARS -> Z.of_nat (length writes) <= MAX_BOOT_FILES ->
  data_bytes writes <= MAX_BOOT_FILE_BYTES -> Forall (fun w => validate_file_path w.1.1 = Ok tt /\ write_ok w.1.1 = true) writes ->
  framed (BootConfig epoch_secs :: set_env_msgs env ++ map write_msg writes ++ [BootConfigDone]) frames ->
  boot_handshake write_ok (concat frames ++ rest) =
  (if 0 <? epoch_secs then Some epoch_secs else None,
   if bool_decide (Forall (fun kv => is_Some (env_preview kv.2)) env)
   then Booted {| boot_env := env; boot_files := writes; file_count := Z.of_nat (length writes); total_file_bytes := data_bytes writes |} rest
   else Panicked).
Proof.
  intros Hev Hn Hfiles Hbytes Hw Hframed. case_bool_decide as Hp.
  - rewrite app_assoc in Hframed.
    destruct (boot_handshake_frames write_ok epoch_secs (set_env_msgs env ++ map write_msg writes) BootConfigDone [] frames rest Hframed)
      as (frames' & Hnil & ->); [|done|].
    { apply Forall_app. split; [by apply continues_env|]. apply Forall_map, Forall_forall. intros w _. apply continues_file_write. }
    inversion Hnil. subst. cbn [boot_msg]. rewrite fold_left_app, apply_env by (done || cbn; lia).
    rewrite apply_files by (cbn [boot_env boot_files file_count total_file_bytes BootState_new]; done || lia). done.
  - apply split_failing in Hp as (l1 & [k v] & l2 & -> & Hp1 & Hbad); [|intros x; apply _].
    apply Forall_app in Hev as [Hev1 Hev2]. inversion Hev2 as [|? ? [Hk Hv] Hev3]. subst. cbn [fst snd] in *.
    rewrite length_app in Hn. cbn [length] in Hn.
    assert (boot_msg write_ok (fold_left (apply_msg write_ok) (set_env_msgs l1) BootState_new) (SetEnv k v) = BootPanic) as Hpanic.
    { rewrite apply_env by (done || cbn; lia). cbn [boot_msg boot_env BootState_new app]. rewrite Hk, Hv. cbn [is_ok negb].
      destruct (Z.leb_spec MAX_BOOT_ENV_VARS (Z.of_nat (length l1))); [lia|].
      destruct (env_preview v) as [s|]; [|done]. destruct Hbad. by exists s. }
    unfold set_env_msgs in Hframed. rewrite map_app, <- app_assoc in Hframed. cbn [map app fst snd] in Hframed.
    destruct (boot_handshake_frames write_ok epoch_secs _ _ _ frames rest Hframed) as (frames' & _ & ->).
    + by apply continues_env.
    + unfold set_env_msgs in Hpanic. by rewrite Hpanic.
    + unfold set_env_msgs in Hpanic. by rewrite Hpanic.
Qed.

(** C17: what the settings configure is what the guest boots with. Within the caps (the
    setup script and its variables counted) and when every message fits a frame of 256 KB,
    the guest configuration computed from the settings, the valid command-line variables
    and the template's setup are sent as frames that the guest's handshake accepts one by
    one, its own checks included: its environment is the configured one in the sent order
    (with API keys replaced under credential isolation) followed by the command line's,
    every file and the setup is written with its path, content and mode where writing
    succeeds, the clock is set if the host's time is after 1970, and the bytes after
    BootConfigDone are left for the control loop. All this holds unless a value longer than
    40 bytes has a character across byte 40: the preview in the boot log then panics the
    agent. *)
Theorem boot_config_applied `{RmpRoundtrip HostToGuest, SerdeJson} (write_ok : string -> bool)
    (resolved : list ResolvedSetting) (cfg : GuestConfig) (epoch_secs : Z) (isolation : bool)
    (env cli_env : list (string * string)) (script setup_env : option string) (frames : list (list byte)) (rest : list byte)
    (files := default [] (gc_files cfg)) (writes := map file_write files ++ setup_writes script setup_env) :
  settings_to_guest_config resolved = Some cfg ->
  env ≡ₚ map_to_list (default ∅ (gc_env cfg)) ->
  env_valid cli_env ->
  Z.of_nat (length env + length cli_env) <= MAX_BOOT_ENV_VARS ->
  Z.of_nat (length writes) <= MAX_BOOT_FILES ->
  data_bytes writes <= MAX_BOOT_FILE_BYTES ->
  framed (send_boot_config_for_venv epoch_secs isolation env cli_env files script setup_env) frames ->
  (forall w, w ∈ writes -> write_ok w.1.1 = true) ->
  boot_handshake write_ok (concat frames ++ rest) =
  (if 0 <? epoch_secs then Some epoch_secs else None,
   if bool_decide (Forall (fun kv => is_Some (env_preview kv.2)) (isolate_all isolation env ++ cli_env))
   then Booted {| boot_env := isolate_all isolation env ++ cli_env;
                  boot_files := writes;
                  file_count := Z.of_nat (length writes);
                  total_file_bytes := data_bytes writes |} rest
   else Panicked).
Proof.
  intros Hcfg Henv Hcli Hn Hfiles Hbytes Hframed Hwrite.
  destruct (guest_config_checks resolved cfg Hcfg) as [Hok Hfrom].
  assert (env_valid env) as Hev.
  { apply Forall_forall. intros [k v] Hin. rewrite Henv in Hin. apply elem_of_map_to_list in Hin.
    destruct (gc_env cfg) as [m|] eqn:Em; simpl in Hin; [|by rewrite lookup_empty in Hin].
    apply (Hok m eq_refl k v Hin). }
  assert (Forall (fun f => validate_file_path (gf_path f) = Ok tt) files) as Hpaths.
  { unfold files. destruct (gc_files cfg) as [fs|]; [|constructor].
    specialize (Hfrom fs eq_refl). eapply Forall_impl; [exact Hfrom|]. by intros f [Hp _]. }
  apply boot_writes_applied; try done; [by apply isolate_all_valid|rewrite length_app; unfold isolate_all; rewrite length_map; lia| |].
  - apply Forall_forall. intros w Hw. split; [|by apply Hwrite]. apply elem_of_app in Hw as [Hw|Hw].
    + apply list_elem_of_fmap in Hw as (f & -> & Hf). rewrite Forall_forall in Hpaths. by apply Hpaths.
    + pose proof (setup_writes_valid script setup_env) as Hs. rewrite Forall_forall in Hs. by apply Hs.
  - pose proof (data_bytes_nonneg (setup_writes script setup_env)). unfold writes in *. rewrite length_app in Hfiles.
    rewrite data_bytes_app in Hbytes. unfold send_boot_config_for_venv in Hframed.
    rewrite send_env_all in Hframed by (done || lia). rewrite (send_env_all false cli_env) in Hframed by (done || lia).
    rewrite length_map in Hfiles. rewrite send_files_all in Hframed by (done || lia). rewrite send_setup_writes in Hframed.
    unfold isolate_all at 2 in Hframed. rewrite (map_ext _ (fun kv => kv)), map_id in Hframed by (intros [k v]; done).
    unfold set_env_msgs in *. rewrite !map_app. by rewrite <- !app_assoc in *.
Qed.

(** C40: the handshake ends on every stream: the loop never runs out of the fuel it is
    given, one more than the bytes left, so it boots or panics; and it panics only on a
    value longer than forty bytes whose fortieth byte is inside a character. *)
Theorem boot_handshake_ends `{Rmp HostToGuest} (write_ok : string -> bool) (stream : list byte) :
  (boot_handshake write_ok stream).2 <> OutOfFuel /\
  forall st msg, boot_msg write_ok st msg = BootPanic ->
    exists key value, msg = SetEnv key value /\ 40 < slen value /\ str_slice value 0 40 = None.
Proof.
  split.
  - unfold boot_handshake. destruct (recv_host_msg stream) as [first rest]. apply boot_loop_fuel. lia.
  - intros st msg. unfold boot_msg.
    destruct msg as [| key value | | | | | path data mode | | | | | | | | | ]; try done.
    + destruct (negb _); [done|]. destruct (negb _); [done|]. destruct (_ <=? _); [done|].
      destruct (env_preview value) as [p|] eqn:E; [done|]. intros _. exists key, value.
      split; [done|]. unfold env_preview in E. destruct (Z.ltb_spec 40 (slen value)); [|done].
      split; [done|]. by destruct (str_slice value 0 40).
    + destruct (negb _); [done|]. destruct (_ <=? _); [done|]. destruct (_ <? _); [done|].
      by destruct (negb _).
Qed.

Lemma recv_short_frame `{Rmp HostToGuest} payload rest :
  MAX_FRAME_SIZE < Z.of_nat (length payload) < 2 ^ 32 ->
  forall write_ok fuel st,
    boot_loop write_ok (S fuel) st (frame_of payload ++ rest) = Booted st (payload ++ rest).
Proof. intros Hl write_ok fuel st. cbn [boot_loop]. by rewrite recv_frame_too_large. Qed.

(** A boot message over the frame limit (a boot file may have up to ten megabytes, a
    frame 256 kilobytes) cuts the configuration short: what came before is applied,
    nothing after it is, BootConfigDone included, and the control loop starts reading in
    the middle of its payload. *)
Theorem oversized_boot_message_cuts `{RmpRoundtrip HostToGuest} (write_ok : string -> bool)
    (epoch_secs : Z) (msgs : list HostToGuest) (frames : list (list byte)) (payload rest : list byte) :
  framed (BootConfig epoch_secs :: msgs) frames -> Forall (continues write_ok) msgs ->
  MAX_FRAME_SIZE < Z.of_nat (length payload) < 2 ^ 32 ->
  (boot_handshake write_ok (concat frames ++ frame_of payload ++ rest)).2 =
  Booted (fold_left (apply_msg write_ok) msgs BootState_new) (payload ++ rest).
Proof.
  intros Hf Hc Hl. inversion Hf as [|? f0 ? frames' [He Hl0] Hf']. subst.
  unfold boot_handshake. cbn [concat]. rewrite <- app_assoc.
  rewrite (recv_framed (BootConfig epoch_secs) f0) by done. cbn [snd].
  rewrite (boot_loop_mono _ _ (length msgs + S (S (length (concat frames' ++ frame_of payload ++ rest)))))
    by lia.
  rewrite boot_loop_frames by done. by apply recv_short_frame.
Qed.

Lemma send_env_elem isolation env n m :
  m ∈ (send_env isolation env n).1 ->
  exists k v, (k, v) ∈ env /\ m = SetEnv k (isolate isolation k v).
Proof.
  revert n. induction env as [|[k v] env IH]; intros n; cbn [send_env].
  - by intros ?%not_elem_of_nil.
  - destruct (_ <=? _); [by intros ?%not_elem_of_nil|].
    assert (forall n', m ∈ (send_env isolation env n').1 ->
              exists k0 v0, (k0, v0) ∈ (k, v) :: env /\ m = SetEnv k0 (isolate isolation k0 v0)) as Hrec.
    { intros n' (k0 & v0 & Hin & ->)%IH. exists k0, v0. split; [by right|done]. }
    destruct (negb _); [apply Hrec|]. destruct (negb _); [apply Hrec|].
    destruct (send_env isolation env (n + 1)) as [msgs n'] eqn:E. cbn [fst].
    intros [->|Hin]%elem_of_cons; [exists k, v; split; [left|done]|].
    apply (Hrec (n + 1)). by rewrite E.
Qed.

Lemma send_files_elem files n total m :
  m ∈ send_files files n total -> exists p d o, m = FileWrite p d o.
Proof.
  revert n total. induction files as [|f files IH]; intros n total; cbn [send_files].
  - by intros ?%not_elem_of_nil.
  - destruct (_ <=? _); [by intros ?%not_elem_of_nil|]. cbv zeta.
    destruct (_ <? _); [apply IH|]. destruct (negb _); [apply IH|].
    intros [->|?]%elem_of_cons; eauto.
Qed.

(** C38: under credential isolation no API key of the settings is sent as a variable: the
    value of such a variable is the placeholder, or empty, unless the command line set
    it explicitly. *)
Theorem api_keys_isolated (epoch_secs : Z) (env cli_env : list (string * string))
    (files : list GuestFile) (script setup_env : option string) (key value : string) :
  SetEnv key value ∈ send_boot_config_for_venv epoch_secs true env cli_env files script setup_env ->
  key ∈ API_KEY_ENV_VARS ->
  value = "clawcage-proxy-managed" \/ value = "" \/ (key, value) ∈ cli_env.
Proof.
  unfold send_boot_config_for_venv. intros Hin Hkey.
  destruct (send_env true env 0) as [m2 n] eqn:E2.
  destruct (send_env false cli_env n) as [m3 n'] eqn:E3.
  apply elem_of_cons in Hin as [?|Hin]; [done|].
  rewrite !elem_of_app in Hin. destruct Hin as [Hin|[Hin|[Hin|[Hin|Hin]]]].
  - pose proof (send_env_elem true env 0 (SetEnv key value)) as He. rewrite E2 in He.
    destruct (He Hin) as (k & v & _ & [= <- ->]). unfold isolate.
    rewrite bool_decide_true by done. destruct (is_empty v) eqn:Ev; cbn; [|by left].
    right. left. by apply is_empty_true.
  - pose proof (send_env_elem false cli_env n (SetEnv key value)) as He. rewrite E3 in He.
    destruct (He Hin) as (k & v & Hkv & [= <- ->]). right. right. done.
  - by apply send_files_elem in Hin as (? & ? & ? & ?).
  - unfold send_setup in Hin. apply elem_of_app in Hin. destruct script, setup_env;
      destruct Hin as [Hin|Hin]; rewrite ?list_elem_of_singleton in Hin;
      by apply not_elem_of_nil in Hin || discriminate Hin.
  - by apply list_elem_of_singleton in Hin.
Qed.

(** ** Witnesses *)

#[export] Instance HostToGuest_eq_dec : EqDecision HostToGuest.
Proof. solve_decision. Defined.

Fixpoint split_at_nul (l : list byte) : list byte * list byte :=
  match l with
  | [] => ([], [])
  | b :: l => if bool_decide (b = x00) then ([], l)
              else let '(k, v) := split_at_nul l in (b :: k, v)
  end.

Definition demo_encode (m : HostToGuest) : list byte :=
  match m with
  | BootConfig _ => [x01]
  | SetEnv k v => x02 :: bytes_of_string k ++ x00 :: bytes_of_string v
  | FileWrite p d _ => x03 :: bytes_of_string p ++ x00 :: d
  | _ => [x04]
  end.

Definition demo_decode (l : list byte) : option HostToGuest :=
  match l with
  | x01 :: _ => Some (BootConfig 1700000000)
  | x02 :: l => let '(k, v) := split_at_nul l in Some (SetEnv (string_of_bytes k) (string_of_bytes v))
  | x03 :: l => let '(p, d) := split_at_nul l in Some (FileWrite (string_of_bytes p) d 384)
  | x04 :: _ => Some BootConfigDone
  | _ => None
  end.

(** A serialiser for the boot messages; it fails on what it cannot read back. *)
Definition demo_boot_rmp : Rmp HostToGuest := {|
  to_vec_named m := if bool_decide (demo_decode (demo_encode m) = Some m) then Some (demo_encode m) else None;
  from_slice := demo_decode;
|}.

Lemma demo_boot_roundtrip : @RmpRoundtrip HostToGuest demo_boot_rmp.
Proof.
  intros m p H. unfold to_vec_named, from_slice, demo_boot_rmp in *.
  case_bool_decide as Hd; [|done]. by injection H as <-.
Qed.

Definition demo_setting (k : string) (ty : SettingType) (v : SettingValue) (vars : list string)
  : ResolvedSetting :=
  {| id := k; category := ""; name := ""; description := ""; setting_type := ty; default_value := VText "";
     effective_value := v; source := SrcUser; modified := None; corp_locked := false; enabled_by := None;
     enabled := true;
     metadata := {| domains := []; choices := []; min := None; max := None; rules := [];
                    env_vars := vars; md_collapsed := false |};
     venv_overridden := false; collapsed := false |}.

Definition demo_resolved : list ResolvedSetting :=
  [demo_setting "ai.openai.api_key" TApiKey (VText "sk-secret") ["OPENAI_API_KEY"];
   demo_setting "shell.rc" TFile (VFile "/root/.bashrc" "x=1") [];
   demo_setting "guest.env.LD_PRELOAD" TText (VText "evil.so") []].

Definition demo_sent : list HostToGuest :=
  send_boot_config_for_venv 1700000000 true [("OPENAI_API_KEY", "sk-secret")] [("FOO", "bar")]
    [{| gf_path := "/root/.bashrc"; gf_content := "x=1"; gf_mode := 384 |}] None None.

Definition demo_frames : list (list byte) := Eval vm_compute in omap (@encode_host_msg demo_boot_rmp) demo_sent.

Lemma demo_framed : @framed demo_boot_rmp demo_sent demo_frames.
Proof. repeat (constructor; [split; [vm_compute; reflexivity|vm_compute; discriminate]|]). constructor. Qed.

Lemma boot_config_applied_witness :
  @boot_handshake demo_boot_rmp (fun _ => true) (concat demo_frames ++ [x09]) =
  (Some 1700000000,
   Booted {| boot_env := [("OPENAI_API_KEY", "clawcage-proxy-managed"); ("FOO", "bar")];
             boot_files := [("/root/.bashrc", bytes_of_string "x=1", 384)];
             file_count := 1; total_file_bytes := 3 |} [x09]).
Proof.
  apply (@boot_config_applied demo_boot_rmp demo_boot_roundtrip tree_json (fun _ => true) demo_resolved
    {| gc_env := Some {["OPENAI_API_KEY" := "sk-secret"]};
       gc_files := Some [{| gf_path := "/root/.bashrc"; gf_content := "x=1"; gf_mode := 384 |}] |}
    1700000000 true [("OPENAI_API_KEY", "sk-secret")] [("FOO", "bar")] None None).
  - vm_compute. reflexivity.
  - vm_compute. reflexivity.
  - repeat constructor.
  - vm_compute. discriminate.
  - vm_compute. discriminate.
  - vm_compute. discriminate.
  - exact demo_framed.
  - reflexivity.
Defined.

Lemma oversized_boot_message_cuts_witness :
  exists payload,
    (@boot_handshake demo_boot_rmp (fun _ => true)
       (concat (take 2 demo_frames) ++ frame_of payload ++ concat (drop 2 demo_frames))).2 =
    Booted {| boot_env := [("OPENAI_API_KEY", "clawcage-proxy-managed")]; boot_files := [];
              file_count := 0; total_file_bytes := 0 |} (payload ++ concat (drop 2 demo_frames)).
Proof.
  destruct oversized_payload_exists as [payload Hp]. exists payload.
  apply (@oversized_boot_message_cuts demo_boot_rmp demo_boot_roundtrip (fun _ => true) 1700000000
    [SetEnv "OPENAI_API_KEY" "clawcage-proxy-managed"]); [|repeat constructor|exact Hp].
  - repeat (constructor; [split; [vm_compute; reflexivity|vm_compute; discriminate]|]). constructor.
  - intros st. apply (@continues_set_env (fun _ => true)). vm_compute. eauto.
Defined.

Lemma api_keys_isolated_witness :
  "clawcage-proxy-managed" = "clawcage-proxy-managed" \/ "clawcage-proxy-managed" = "" \/
  ("OPENAI_API_KEY", "clawcage-proxy-managed") ∈ [("FOO", "bar")].
Proof.
  refine (api_keys_isolated 1700000000 [("OPENAI_API_KEY", "sk-secret")] [("FOO", "bar")] [] None None
    "OPENAI_API_KEY" "clawcage-proxy-managed" _ _).
  - vm_compute. right. left.
  - vm_compute. right. left.
Defined.
