(* ===== verification/Sentinel.v ===== *)
(** The exec sentinel of the guest agent: scan_and_strip_sentinel, find_subsequence and
    parse_sentinel_payload of crates/clawcage-agent/src/main.rs.

    The command the agent types into the default shell ends by printing
    [ESC _ CLAWCAGE_EXIT:id:code ESC \]; the scanner strips it from the terminal output
    and reports the exit code. The [&mut Vec] tail is threaded as a value. *)

From Stdlib Require Import ZArith Lia Strings.Byte Ascii.
From stdpp Require Import base numbers list strings.
From S2P Require Import Prelude RustStr Utf8.

Definition SENTINEL_PREFIX : list byte :=
  Eval vm_compute in x1b :: bytes_of_string "_CLAWCAGE_EXIT:".
Definition SENTINEL_TERMINATOR : list byte := Eval vm_compute in x1b :: bytes_of_string "\".

Fixpoint prefixb (needle hay : list byte) : bool :=
  match needle, hay with
  | [], _ => true
  | x :: needle, y :: hay => bool_decide (x = y) && prefixb needle hay
  | _ :: _, [] => false
  end.

(** [haystack.windows(needle.len()).position(|w| w == needle)], for a non-empty needle. *)
Fixpoint find_subsequence (hay needle : list byte) : option nat :=
  if prefixb needle hay then Some O
  else match hay with
       | [] => None
       | _ :: hay => S <$> find_subsequence hay needle
       end.

(** [i32::from_str] *)
Definition parse_i32 (s : string) : option Z :=
  match s with
  | String "-" ((String _ _) as digits) =>
      n ← parse_digits 10 32 0 digits;
      if n <=? 2 ^ 31 then Some (- n) else None
  | _ => parse_uint 31 s
  end.

Definition parse_sentinel_payload (payload : list byte) : option (Z * Z) :=
  s ← from_utf8 payload;
  i ← find_char ":" s;
  sid ← parse_uint 64 (stake i s);
  exit_code ← parse_i32 (sdrop (S i) s);
  Some (sid, exit_code).

Definition ends_with_bytes (l suffix : list byte) : bool :=
  (length suffix <=? length l)%nat && bool_decide (drop (length l - length suffix) l = suffix).

(** The loop [for i in (1..SENTINEL_PREFIX.len()).rev()]. *)
Definition keep_len (tail : list byte) : nat :=
  default O (list_find_first (fun i => ends_with_bytes tail (take i SENTINEL_PREFIX))
               (reverse (seq 1 (length SENTINEL_PREFIX - 1)))).

(** The bytes to forward, the reported exit, and the new tail. *)
Definition scan_and_strip_sentinel (tail new_data : list byte)
  : list byte * option (Z * Z) * list byte :=
  let tail := tail ++ new_data in
  match find_subsequence tail SENTINEL_PREFIX with
  | Some start =>
      let after_prefix := (start + length SENTINEL_PREFIX)%nat in
      let incomplete := (take start tail, None, drop start tail) in
      match find_subsequence (drop after_prefix tail) SENTINEL_TERMINATOR with
      | Some term_offset =>
          let term_pos := (after_prefix + term_offset)%nat in
          match parse_sentinel_payload (take term_offset (drop after_prefix tail)) with
          | Some result =>
              (take start tail, Some result, drop (term_pos + length SENTINEL_TERMINATOR) tail)
          | None => incomplete
          end
      | None => incomplete
      end
  | None =>
      let keep := keep_len tail in
      if (keep <? length tail)%nat
      then (take (length tail - keep) tail, None, drop (length tail - keep) tail)
      else ([], None, tail)
  end.

(** The output arm of multi_bridge_loop for the default shell with an exec active: the
    chunks read are scanned until the exit is reported, then the tail and everything
    later goes out as it is. What was forwarded, the report, and the withheld tail. *)
Fixpoint bridge_exec (tail : list byte) (chunks : list (list byte))
  : list byte * option (Z * Z) * list byte :=
  match chunks with
  | [] => ([], None, tail)
  | c :: chunks =>
      let '(fwd, res, tail) := scan_and_strip_sentinel tail c in
      match res with
      | Some _ => (fwd ++ tail ++ concat chunks, res, [])
      | None => let '(fwd', res, tail) := bridge_exec tail chunks in (fwd ++ fwd', res, tail)
      end
  end.

Example bridge_split_sentinel :
  bridge_exec [] (map bytes_of_string ["hello"; bs [27] +:+ "_CLAW"; "CAGE_EXIT:7:-1" +:+ bs [27]; "\$ "; "x"])
  = (bytes_of_string "hello$ x", Some (7, -1), []).
Proof. vm_compute. reflexivity. Qed.

(** ** Searching *)

Lemma prefixb_spec needle hay : prefixb needle hay = true <-> exists r, hay = needle ++ r.
Proof.
  revert hay. induction needle as [|x needle IH]; intros hay; cbn [prefixb].
  - split; eauto.
  - destruct hay as [|y hay]; [split; [done|by intros [? ?]]|].
    rewrite andb_true_iff, bool_decide_eq_true, IH. split.
    + intros [-> [r ->]]. by exists r.
    + intros [r [= -> ->]]. eauto.
Qed.

Lemma prefixb_app needle hay x : prefixb needle hay = true -> prefixb needle (hay ++ x) = true.
Proof. rewrite !prefixb_spec. intros [r ->]. exists (r ++ x). by rewrite app_assoc. Qed.

(** The result is the first position the needle occurs at. *)
Lemma find_subsequence_Some hay needle i :
  find_subsequence hay needle = Some i <->
  prefixb needle (drop i hay) = true /\ (i <= length hay)%nat /\
  forall j, (j < i)%nat -> prefixb needle (drop j hay) = false.
Proof.
  revert i. induction hay as [|b hay IH]; intros i; cbn [find_subsequence].
  - rewrite drop_nil. destruct (prefixb needle []) eqn:E.
    + split; [intros [= <-]; split; [done|split; [done|lia]]|]. intros (_ & Hi & _). simpl in Hi. f_equal. lia.
    + split; [done|]. by intros [? _].
  - destruct (prefixb needle (b :: hay)) eqn:E.
    + split; [intros [= <-]; split; [done|split; [lia|lia]]|]. intros (_ & _ & Hj). destruct i; [done|].
      specialize (Hj O ltac:(lia)). cbn in Hj. congruence.
    + destruct i as [|i].
      * split; [by destruct (find_subsequence hay needle)|]. intros [H0 _]. cbn [drop] in H0. congruence.
      * transitivity (find_subsequence hay needle = Some i).
        { destruct (find_subsequence hay needle); simpl; split; congruence. }
        rewrite IH. cbn [drop length]. split; intros (H1 & H2 & H3); (split; [done|split; [lia|]]).
        -- intros [|j] Hj; [done|]. apply H3. lia.
        -- intros j Hj. apply (H3 (S j)). lia.
Qed.

Lemma find_subsequence_None hay needle :
  find_subsequence hay needle = None <->
  forall j, (j <= length hay)%nat -> prefixb needle (drop j hay) = false.
Proof.
  split.
  - intros H j Hj. destruct (prefixb needle (drop j hay)) eqn:E; [|done]. exfalso. revert j Hj E.
    induction hay as [|b hay IH]; intros j Hj E; cbn [find_subsequence] in H.
    + rewrite drop_nil in E. by rewrite E in H.
    + destruct (prefixb needle (b :: hay)) eqn:E0; [done|]. destruct j; [cbn in E; congruence|].
      apply (IH ltac:(by destruct (find_subsequence hay needle)) j); [simpl in Hj; lia|done].
  - intros H. destruct (find_subsequence hay needle) as [i|] eqn:E; [|done].
    apply find_subsequence_Some in E as (E & Hi & _). rewrite H in E; [done|lia].
Qed.

Lemma find_subsequence_app hay x needle i :
  (needle <> []) -> find_subsequence hay needle = Some i -> find_subsequence (hay ++ x) needle = Some i.
Proof.
  intros Hne. rewrite !find_subsequence_Some. intros (H1 & H2 & H3).
  rewrite drop_app_le by lia. split; [by apply prefixb_app|]. rewrite length_app. split; [lia|].
  intros j Hj. destruct (prefixb needle (drop j (hay ++ x))) eqn:E; [|done].
  (* an earlier occurrence would end before the first one does *)
  apply prefixb_spec in H1 as [r Hr]. apply prefixb_spec in E as [r' Hr'].
  assert (length (drop i hay) = length needle + length r)%nat as Hl by (rewrite Hr, length_app; done).
  rewrite length_drop in Hl.
  assert (drop j hay = needle ++ take (length hay - j - length needle) r') as Hd.
  { rewrite drop_app_le in Hr' by lia. apply (f_equal (take (length hay - j))) in Hr'.
    rewrite take_app_le in Hr' by (rewrite length_drop; lia).
    rewrite take_ge in Hr' by (rewrite length_drop; lia). rewrite Hr'.
    rewrite take_app_ge by lia. done. }
  specialize (H3 j Hj). rewrite Hd in H3. apply not_true_iff_false in H3. exfalso. apply H3.
  apply prefixb_spec. eauto.
Qed.

Lemma find_subsequence_drop a b needle i :
  find_subsequence (a ++ b) needle = Some i -> (length a <= i)%nat ->
  find_subsequence b needle = Some (i - length a)%nat.
Proof.
  rewrite !find_subsequence_Some, length_app. intros (H1 & H2 & H3) Hi.
  rewrite drop_app_ge in H1 by lia. split; [done|split; [lia|]].
  intros j Hj. specialize (H3 (length a + j)%nat ltac:(lia)).
  rewrite drop_app_ge in H3 by lia. by replace (length a + j - length a)%nat with j in H3 by lia.
Qed.

(** ** The withheld tail *)

Lemma find_first_max (p : nat -> bool) m n :
  (1 <= n <= m)%nat -> p n = true ->
  exists k, list_find_first p (reverse (seq 1 m)) = Some k /\ (n <= k <= m)%nat /\ p k = true.
Proof.
  induction m as [|m IH]; intros Hn Hp; [lia|].
  rewrite seq_S, reverse_snoc. cbn [list_find_first]. simpl (1 + m)%nat.
  destruct (p (S m)) eqn:E; [exists (S m); split; [done|split; [lia|done]]|].
  destruct (decide (n = S m)) as [->|]; [congruence|].
  destruct IH as (k & Hk & Hle & Hpk); [lia|done|]. exists k. split; [done|split; [lia|done]].
Qed.

Lemma keep_len_spec tail :
  (keep_len tail <= length tail)%nat /\ (keep_len tail < length SENTINEL_PREFIX)%nat /\
  drop (length tail - keep_len tail) tail = take (keep_len tail) SENTINEL_PREFIX.
Proof.
  unfold keep_len. destruct (list_find_first _ _) as [k|] eqn:E; cbn [default].
  - apply list_find_first_Some in E as [Hin Hk].
    rewrite elem_of_reverse, elem_of_seq in Hin.
    assert (k < 16)%nat as Hlt by (change (length SENTINEL_PREFIX - 1)%nat with 15%nat in Hin; lia).
    unfold ends_with_bytes in Hk. apply andb_true_iff in Hk as [H1 H2].
    apply Nat.leb_le in H1. apply bool_decide_eq_true in H2.
    rewrite length_take in H1, H2. change (length SENTINEL_PREFIX) with 16%nat in *.
    rewrite Nat.min_l in H1, H2 by lia. split; [done|split; [done|done]].
  - rewrite Nat.sub_0_r, drop_all. split; [lia|split; [simpl; lia|done]].
Qed.

(** An occurrence of the prefix that starts in [tail] and is not complete starts in the
    withheld part. *)
Lemma keep_len_covers tail x p :
  find_subsequence tail SENTINEL_PREFIX = None ->
  prefixb SENTINEL_PREFIX (drop p (tail ++ x)) = true -> (p < length tail)%nat ->
  (length tail - keep_len tail <= p)%nat.
Proof.
  intros Hnone Hp Hlt. rewrite drop_app_le in Hp by lia.
  apply prefixb_spec in Hp as [r Hr].
  set (n := (length tail - p)%nat). assert (Hn : length (drop p tail) = n) by apply length_drop.
  destruct (le_lt_dec (length SENTINEL_PREFIX) n) as [Hge|Hn16].
  - exfalso. rewrite find_subsequence_None in Hnone. specialize (Hnone p ltac:(lia)).
    apply not_true_iff_false in Hnone. apply Hnone, prefixb_spec.
    exists (drop (length SENTINEL_PREFIX) (drop p tail)).
    apply (f_equal (take (length SENTINEL_PREFIX))) in Hr.
    rewrite take_app_le in Hr by lia. rewrite take_app_length in Hr.
    by rewrite <- Hr at 1; rewrite take_drop.
  - assert (drop p tail = take n SENTINEL_PREFIX) as Hd.
    { apply (f_equal (take n)) in Hr. rewrite take_app_le in Hr by lia.
      rewrite take_ge in Hr by lia. by rewrite take_app_le in Hr by lia. }
    destruct (find_first_max (fun i => ends_with_bytes tail (take i SENTINEL_PREFIX))
                (length SENTINEL_PREFIX - 1) n) as (k & Hk & Hle & _).
    + unfold n. lia.
    + unfold ends_with_bytes. rewrite length_take, Nat.min_l by lia.
      apply andb_true_iff. split; [apply Nat.leb_le; unfold n; lia|]. apply bool_decide_eq_true.
      by replace (length tail - n)%nat with p by (unfold n; lia).
    + unfold keep_len. rewrite Hk. simpl. unfold n in *. lia.
Qed.

Lemma scan_no_prefix tail new :
  find_subsequence (tail ++ new) SENTINEL_PREFIX = None ->
  scan_and_strip_sentinel tail new =
  (take (length (tail ++ new) - keep_len (tail ++ new)) (tail ++ new), None,
   drop (length (tail ++ new) - keep_len (tail ++ new)) (tail ++ new)).
Proof.
  intros H. unfold scan_and_strip_sentinel. cbv zeta. rewrite H.
  destruct (Nat.ltb_spec (keep_len (tail ++ new)) (length (tail ++ new))); [done|].
  by replace (length (tail ++ new) - keep_len (tail ++ new))%nat with O by lia.
Qed.

(** ** Detection across chunks *)

Lemma prefix_complete a b needle x n :
  a ++ x = b ++ needle ++ n -> (length b + length needle <= length a)%nat ->
  prefixb needle (drop (length b) a) = true.
Proof.
  intros H Hl. apply (f_equal (drop (length b))) in H. rewrite drop_app_length, drop_app_le in H by lia.
  apply prefixb_spec. exists (drop (length needle) (drop (length b) a)).
  apply (f_equal (take (length needle))) in H.
  rewrite take_app_length, take_app_le in H by (rewrite length_drop; lia).
  by rewrite <- H at 1; rewrite take_drop.
Qed.

Lemma take_of_app {A} (a b x y : list A) :
  a ++ x = b ++ y -> (length b <= length a)%nat -> take (length b) a = b /\ drop (length b) a ++ x = y.
Proof.
  intros H Hl. split.
  - apply (f_equal (take (length b))) in H. by rewrite take_app_length, take_app_le in H by lia.
  - apply (f_equal (drop (length b))) in H. by rewrite drop_app_length, drop_app_le in H by lia.
Qed.

(** One scan of a buffer that is the start of [out ++ PREFIX ++ payload ++ TERM ++ rest],
    where [out] holds no sentinel start: either the report with the whole of [out]
    forwarded, or a part of [out] forwarded and the rest kept, the sentinel included. *)
Lemma scan_step tail new later out payload rest r :
  parse_sentinel_payload payload = Some r ->
  (tail ++ new) ++ later = out ++ SENTINEL_PREFIX ++ payload ++ SENTINEL_TERMINATOR ++ rest ->
  find_subsequence (out ++ SENTINEL_PREFIX ++ payload ++ SENTINEL_TERMINATOR ++ rest) SENTINEL_PREFIX
    = Some (length out) ->
  find_subsequence (payload ++ SENTINEL_TERMINATOR ++ rest) SENTINEL_TERMINATOR = Some (length payload) ->
  (exists tail', scan_and_strip_sentinel tail new = (out, Some r, tail') /\ tail' ++ later = rest) \/
  (exists m, (m <= length out)%nat /\
     scan_and_strip_sentinel tail new = (take m out, None, drop m (tail ++ new)) /\
     (m <= length (tail ++ new))%nat /\
     (length (tail ++ new) < length out + length SENTINEL_PREFIX + length payload
                              + length SENTINEL_TERMINATOR)%nat).
Proof.
  intros Hr Hs Hp Ht. set (T := tail ++ new) in *.
  destruct (find_subsequence T SENTINEL_PREFIX) as [s|] eqn:E.
  - pose proof (find_subsequence_app T later SENTINEL_PREFIX _ ltac:(done) E) as E'. rewrite Hs, Hp in E'.
    injection E' as <-. pose proof (proj1 (find_subsequence_Some _ _ _) E) as (Hpre & Hle & _).
    apply prefixb_spec in Hpre as [q Hq].
    assert (length T = length out + length SENTINEL_PREFIX + length q)%nat as HT.
    { pose proof (f_equal length Hq) as Hlq. rewrite length_drop, (length_app SENTINEL_PREFIX) in Hlq. lia. }
    destruct (take_of_app _ _ _ _ Hs Hle) as [Hout Hrest1].
    destruct (take_of_app (drop (length out) T) SENTINEL_PREFIX later _ Hrest1) as [_ HD];
      [rewrite length_drop; lia|].
    rewrite drop_drop in HD. set (D := drop (length out + length SENTINEL_PREFIX) T) in *.
    unfold scan_and_strip_sentinel. cbv zeta. fold T. rewrite E. fold D.
    destruct (find_subsequence D SENTINEL_TERMINATOR) as [o|] eqn:Eo.
    + pose proof (find_subsequence_app D later SENTINEL_TERMINATOR _ ltac:(done) Eo) as Eo'. rewrite HD, Ht in Eo'.
      injection Eo' as <-. pose proof (proj1 (find_subsequence_Some _ _ _) Eo) as (Hpre & Hleo & _).
      destruct (take_of_app _ _ _ _ HD Hleo) as [-> HD2]. rewrite Hr. left.
      eexists. split; [by rewrite Hout|].
      apply prefixb_spec in Hpre as [q2 Hq2].
      rewrite <- (drop_drop T), <- (drop_drop T). fold D.
      rewrite Hq2, <- app_assoc in HD2. apply app_inv_head in HD2.
      by rewrite Hq2, drop_app_length.
    + right. exists (length out). split; [done|]. rewrite firstn_all. split; [by rewrite Hout|].
      split; [done|]. destruct (le_lt_dec (length payload + length SENTINEL_TERMINATOR) (length D)) as [Hge|Hlt].
      * exfalso. rewrite find_subsequence_None in Eo.
        specialize (Eo (length payload) ltac:(lia)).
        rewrite (prefix_complete _ _ _ _ _ HD) in Eo by lia. done.
      * unfold D in Hlt. rewrite length_drop in Hlt. lia.
  - right. exists (length T - keep_len T)%nat. rewrite (scan_no_prefix tail new E). fold T.
    assert (length T < length out + length SENTINEL_PREFIX)%nat as Hshort.
    { destruct (le_lt_dec (length out + length SENTINEL_PREFIX) (length T)) as [Hge|]; [|done]. exfalso.
      rewrite find_subsequence_None in E. specialize (E (length out) ltac:(lia)).
      by rewrite (prefix_complete _ _ _ _ _ Hs Hge) in E. }
    assert (length T - keep_len T <= length out)%nat as Hm.
    { destruct (le_lt_dec (length T) (length out)); [lia|].
      apply (keep_len_covers T later); [done| |done]. rewrite Hs, drop_app_length.
      apply prefixb_spec. eauto. }
    split; [done|]. split; [|split; lia]. f_equal. f_equal.
    apply (f_equal (take (length T - keep_len T))) in Hs.
    by rewrite !take_app_le in Hs by lia.
Qed.

Lemma find_subsequence_extend hay needle x :
  needle <> [] -> find_subsequence (hay ++ x) needle = None -> find_subsequence hay needle = None.
Proof.
  intros Hne H. destruct (find_subsequence hay needle) as [i|] eqn:E; [|done].
  rewrite (find_subsequence_app _ x _ _ Hne E) in H. done.
Qed.

(** The prefix does not overlap itself. *)
Lemma prefix_no_border n z q (a : list byte) :
  (0 < length a)%nat -> (length a < length SENTINEL_PREFIX)%nat ->
  length a = n -> a ++ SENTINEL_PREFIX ++ z <> SENTINEL_PREFIX ++ q.
Proof.
  intros Hpos Hlt Hn H. apply (f_equal (fun l => l !! n)) in H. subst n.
  rewrite (lookup_app_r a), Nat.sub_diag in H by lia.
  rewrite (lookup_app_l SENTINEL_PREFIX q) in H by lia.
  change ((SENTINEL_PREFIX ++ z) !! 0%nat) with (Some x1b) in H.
  revert H. generalize (length a) Hpos Hlt. clear. intros n Hpos Hlt.
  do 16 (destruct n as [|n]; [first [lia|discriminate]|]). simpl in Hlt. lia.
Qed.

Lemma find_prefix_after out z :
  find_subsequence out SENTINEL_PREFIX = None ->
  find_subsequence (out ++ SENTINEL_PREFIX ++ z) SENTINEL_PREFIX = Some (length out).
Proof.
  intros Hout. apply find_subsequence_Some. rewrite drop_app_length, length_app.
  split; [apply prefixb_spec; eauto|]. split; [lia|]. intros j Hj.
  apply not_true_iff_false. intros [q Hq]%prefixb_spec. rewrite drop_app_le in Hq by lia.
  destruct (le_lt_dec (length SENTINEL_PREFIX) (length (drop j out))) as [Hge|Hlt].
  - rewrite find_subsequence_None in Hout. specialize (Hout j ltac:(lia)).
    apply not_true_iff_false in Hout. apply Hout, prefixb_spec.
    exists (drop (length SENTINEL_PREFIX) (drop j out)).
    destruct (take_of_app _ _ _ _ Hq Hge) as [Ht _]. by rewrite <- Ht at 1; rewrite take_drop.
  - revert Hq. apply (prefix_no_border (length (drop j out))); [rewrite length_drop; lia|done|done].
Qed.

Lemma find_terminator_after payload z :
  x1b ∉ payload ->
  find_subsequence (payload ++ SENTINEL_TERMINATOR ++ z) SENTINEL_TERMINATOR = Some (length payload).
Proof.
  intros Hesc. apply find_subsequence_Some. rewrite drop_app_length, length_app.
  split; [apply prefixb_spec; eauto|]. split; [lia|]. intros j Hj.
  apply not_true_iff_false. intros [q Hq]%prefixb_spec. rewrite drop_app_le in Hq by lia.
  destruct (drop j payload) as [|b l] eqn:E.
  { apply (f_equal length) in E. rewrite length_drop in E. simpl in E. lia. }
  apply Hesc. injection Hq as -> _. rewrite <- (take_drop j payload), E. apply elem_of_app. right. left.
Qed.

Lemma bridge_reports chunks : forall tail out payload rest r,
  parse_sentinel_payload payload = Some r ->
  tail ++ concat chunks = out ++ SENTINEL_PREFIX ++ payload ++ SENTINEL_TERMINATOR ++ rest ->
  find_subsequence (out ++ SENTINEL_PREFIX ++ payload ++ SENTINEL_TERMINATOR ++ rest) SENTINEL_PREFIX
    = Some (length out) ->
  find_subsequence (payload ++ SENTINEL_TERMINATOR ++ rest) SENTINEL_TERMINATOR = Some (length payload) ->
  (length tail < length out + length SENTINEL_PREFIX + length payload + length SENTINEL_TERMINATOR)%nat ->
  bridge_exec tail chunks = (out ++ rest, Some r, []).
Proof.
  induction chunks as [|c chunks IH]; intros tail out payload rest r Hr Hs Hp Ht Hlt.
  - exfalso. apply (f_equal length) in Hs. rewrite !length_app in Hs. cbn [concat length] in Hs. lia.
  - cbn [concat] in Hs. rewrite app_assoc in Hs. cbn [bridge_exec].
    destruct (scan_step tail c (concat chunks) out payload rest r Hr Hs Hp Ht)
      as [(tail' & -> & Hrest)|(m & Hm & -> & HmT & HlT)].
    + by rewrite Hrest.
    + rewrite (IH (drop m (tail ++ c)) (drop m out) payload rest r); try done.
      * by rewrite app_assoc, take_drop.
      * apply (f_equal (drop m)) in Hs.
        by rewrite (drop_app_le (tail ++ c)), (drop_app_le out) in Hs by lia.
      * rewrite <- (take_drop m out), <- app_assoc in Hp. apply find_subsequence_drop in Hp.
        -- rewrite length_take, take_drop, Nat.min_l in Hp by lia. by rewrite length_drop.
        -- rewrite length_take, take_drop. lia.
      * rewrite !length_drop. lia.
Qed.

Lemma bridge_no_prefix chunks : forall tail,
  find_subsequence (tail ++ concat chunks) SENTINEL_PREFIX = None ->
  (exists k, (k < length SENTINEL_PREFIX)%nat /\ tail = take k SENTINEL_PREFIX) ->
  exists fwd k, (k < length SENTINEL_PREFIX)%nat /\
    bridge_exec tail chunks = (fwd, None, take k SENTINEL_PREFIX) /\
    fwd ++ take k SENTINEL_PREFIX = tail ++ concat chunks.
Proof.
  induction chunks as [|c chunks IH]; intros tail Hn (k & Hk & ->).
  - exists [], k. cbn [concat]. by rewrite app_nil_r.
  - cbn [concat] in *. rewrite app_assoc in Hn |- *. set (T := take k SENTINEL_PREFIX ++ c) in *.
    pose proof (find_subsequence_extend _ SENTINEL_PREFIX _ ltac:(done) Hn) as HT.
    cbn [bridge_exec]. rewrite (scan_no_prefix _ _ HT). fold T.
    destruct (keep_len_spec T) as (Hle & Hlt & Hd).
    destruct (IH (drop (length T - keep_len T) T)) as (fwd & k' & Hk' & -> & Hf).
    + rewrite <- (take_drop (length T - keep_len T) T), <- app_assoc in Hn.
      apply find_subsequence_None. rewrite find_subsequence_None in Hn. intros j Hj.
      specialize (Hn (length (take (length T - keep_len T) T) + j)%nat).
      rewrite drop_app_ge, Nat.add_comm, Nat.add_sub in Hn by lia.
      apply Hn. rewrite (length_app (take _ T)). lia.
    + rewrite Hd. eauto.
    + eexists _, k'. split; [done|]. split; [done|]. rewrite <- app_assoc, Hf.
      by rewrite app_assoc, take_drop.
Qed.

(** ** Properties *)

(** However the shell's output is cut into reads, a sentinel in it is found: the
    output before and after it is forwarded byte for byte, the sentinel is not, and its
    id and exit code are reported. *)
Theorem sentinel_reported (out payload rest : list byte) (r : Z * Z) (chunks : list (list byte)) :
  find_subsequence out SENTINEL_PREFIX = None ->
  parse_sentinel_payload payload = Some r -> x1b ∉ payload ->
  concat chunks = out ++ SENTINEL_PREFIX ++ payload ++ SENTINEL_TERMINATOR ++ rest ->
  bridge_exec [] chunks = (out ++ rest, Some r, []).
Proof.
  intros Hout Hr Hesc Hs. apply (bridge_reports _ _ _ payload); try done.
  - by apply find_prefix_after.
  - by apply find_terminator_after.
  - simpl. lia.
Qed.

Lemma sentinel_reported_witness :
  bridge_exec [] (map bytes_of_string ["ok"; bs [27] +:+ "_CLAWCAGE_E"; "XIT:3:0" +:+ bs [27] +:+ "\$"])
  = (bytes_of_string "ok$", Some (3, 0), []).
Proof.
  apply (sentinel_reported (bytes_of_string "ok") (bytes_of_string "3:0") (bytes_of_string "$")).
  - vm_compute. reflexivity.
  - vm_compute. reflexivity.
  - apply (bool_decide_eq_true (x1b ∉ _)). vm_compute. reflexivity.
  - vm_compute. reflexivity.
Defined.

(** Output without a sentinel start is never lost or changed, however it is cut: what
    is forwarded and what is withheld make up the output, nothing is reported, and what
    is withheld is a proper start of the sentinel's prefix, so under sixteen bytes. *)
Theorem output_without_sentinel_kept (chunks : list (list byte)) :
  find_subsequence (concat chunks) SENTINEL_PREFIX = None ->
  exists fwd k, (k < length SENTINEL_PREFIX)%nat /\
    bridge_exec [] chunks = (fwd, None, take k SENTINEL_PREFIX) /\
    fwd ++ take k SENTINEL_PREFIX = concat chunks.
Proof.
  intros H. apply (bridge_no_prefix chunks []); [done|]. exists O. split; [simpl; lia|done].
Qed.

Lemma output_without_sentinel_kept_witness :
  exists fwd k, bridge_exec [] [bytes_of_string "prompt$ "; [x1b]] = (fwd, None, take k SENTINEL_PREFIX) /\
    fwd ++ take k SENTINEL_PREFIX = bytes_of_string "prompt$ " ++ [x1b].
Proof.
  destruct (output_without_sentinel_kept [bytes_of_string "prompt$ "; [x1b]]) as (fwd & k & _ & H1 & H2).
  - vm_compute. reflexivity.
  - exists fwd, k. split; [exact H1|]. rewrite H2. vm_compute. reflexivity.
Defined.

(** A sentinel start whose payload does not parse stops the terminal: once it is in
    the tail nothing is forwarded any more, and no later sentinel, however well formed,
    is reported, so the exec never completes. *)
Theorem malformed_sentinel_stalls (payload : list byte) (chunks : list (list byte)) :
  x1b ∉ payload -> parse_sentinel_payload payload = None ->
  let stuck := SENTINEL_PREFIX ++ payload ++ SENTINEL_TERMINATOR in
  bridge_exec stuck chunks = ([], None, stuck ++ concat chunks).
Proof.
  intros Hesc Hpar stuck.
  enough (forall x, bridge_exec (stuck ++ x) chunks = ([], None, (stuck ++ x) ++ concat chunks)) as H.
  { specialize (H []). by rewrite app_nil_r in H. }
  induction chunks as [|c chunks IH]; intros x; cbn [bridge_exec concat]; [by rewrite app_nil_r|].
  enough (scan_and_strip_sentinel (stuck ++ x) c = ([], None, (stuck ++ x) ++ c)) as ->.
  { rewrite <- app_assoc at 1. rewrite IH. by rewrite <- !app_assoc. }
  unfold scan_and_strip_sentinel, stuck. cbv zeta. rewrite <- !app_assoc.
  rewrite (find_prefix_after [] (payload ++ _) eq_refl : find_subsequence (SENTINEL_PREFIX ++ _) _ = _).
  cbn [length Nat.add]. rewrite drop_app_length. rewrite find_terminator_after by done.
  rewrite take_app_length, Hpar. done.
Qed.

Lemma malformed_sentinel_stalls_witness :
  let stuck := SENTINEL_PREFIX ++ bytes_of_string "x" ++ SENTINEL_TERMINATOR in
  bridge_exec stuck [SENTINEL_PREFIX; bytes_of_string "1:0"; SENTINEL_TERMINATOR]
  = ([], None, stuck ++ SENTINEL_PREFIX ++ bytes_of_string "1:0" ++ SENTINEL_TERMINATOR).
Proof.
  apply (malformed_sentinel_stalls (bytes_of_string "x")
    [SENTINEL_PREFIX; bytes_of_string "1:0"; SENTINEL_TERMINATOR]).
  - apply (bool_decide_eq_true (x1b ∉ _)). vm_compute. reflexivity.
  - vm_compute. reflexivity.
Defined.
