(* ===== verification/AgentControl.v ===== *)
(** The guest agent's control channel: control_loop and ShellManager of
    crates/clawcage-agent/src/main.rs.

    The kernel is a parameter: its state is threaded through every call, in the order
    the code makes them. The messages sent are recorded in order; a failed send is the
    kernel's answer, and what the loop does with it is the code's. *)

From Stdlib Require Import ZArith Lia Strings.Byte Ascii.
From stdpp Require Import base numbers list gmap strings sorting.
From S2P Require Import Prelude RustStr Proto.

Definition MAX_SHELLS : Z := 16.

Record Shell := { session_id : Z; master_fd : Z; child_pid : Z }.

(** ** ShellManager: the map behind its mutex *)

Abbreviation ShellManager := (gmap Z Shell).

Definition count (m : ShellManager) : Z := Z.of_nat (size m).
Definition insert_shell (m : ShellManager) (s : Shell) : ShellManager := <[session_id s := s]> m.
Definition remove_shell (m : ShellManager) (sid : Z) : option Shell * ShellManager := (m !! sid, delete sid m).
Definition get_master_fd (m : ShellManager) (sid : Z) : option Z := master_fd <$> m !! sid.

Record Metadata := { is_file : bool; file_len : Z }.

(** The system calls of the loop, and the text of a rejected path. *)
Class Kernel := {
  os : Type;
  show_proto_error : ProtoError -> string;
  os_send : os -> GuestToHost -> bool * os;
  os_resize : os -> Z -> Z -> Z -> os;
  os_spawn : os -> Z -> (Z * Z + string) * os;
  (* SIGHUP, wait and close: the exit code *)
  os_hangup : os -> Shell -> Z * os;
  os_metadata : os -> string -> (Metadata + string) * os;
  os_read_file : os -> string -> (list byte + string) * os;
  (* open; then the non-empty reads up to the end of file or an error *)
  os_open : os -> string -> (list (list byte) * option string + string) * os;
  os_mkdir_parent : os -> string -> os;
  os_write_file : os -> string -> list byte -> option string * os;
  os_read_dir : os -> string -> (list DirEntry + string) * os;
  os_set_echo : os -> Z -> bool -> os;
  os_write_fd : os -> Z -> string -> bool * os;
  (* the bridge's report of a finished exec *)
  os_exec_done : os -> option (Z * Z) * os;
}.

(** Directories first, then by name. *)
Definition dir_le (a b : DirEntry) : Prop :=
  (de_is_dir b = false /\ de_is_dir a = true) \/
  (de_is_dir a = de_is_dir b /\ String.le (de_name a) (de_name b)).

#[export] Instance dir_le_dec : RelDecision dir_le.
Proof. intros a b. unfold dir_le. apply _. Defined.

Section Control.
Context `{Kernel}.

Record World := { kernel : os; sent : list GuestToHost }.

Definition set_kernel (w : World) (k : os) : World := {| kernel := k; sent := sent w |}.

(** [send_guest_msg] *)
Definition send (w : World) (msg : GuestToHost) : bool * World :=
  let '(ok, k) := os_send (kernel w) msg in (ok, {| kernel := k; sent := sent w ++ [msg] |}).

(** [let _ = send_guest_msg(..)] *)
Definition send_ (w : World) (msg : GuestToHost) : World := (send w msg).2.

Definition resize (w : World) (m : ShellManager) (sid cols rows : Z) : World :=
  match get_master_fd m sid with
  | Some fd => set_kernel w (os_resize (kernel w) fd cols rows)
  | None => w
  end.

Definition spawn_shell (w : World) (m : ShellManager) (sid : Z) : World * ShellManager :=
  if MAX_SHELLS <=? count m then (send_ w (ShellClosed sid (-1)), m)
  else match get_master_fd m sid with
       | Some _ => (w, m)
       | None =>
           match os_spawn (kernel w) sid with
           | (inl (fd, pid), k) =>
               (send_ (set_kernel w k) (ShellReady sid),
                insert_shell m {| session_id := sid; master_fd := fd; child_pid := pid |})
           | (inr _, k) => (send_ (set_kernel w k) (ShellClosed sid (-1)), m)
           end
       end.

Definition close_shell (w : World) (m : ShellManager) (sid : Z) : World * ShellManager :=
  match remove_shell m sid with
  | (Some shell, m) =>
      let '(exit_code, k) := os_hangup (kernel w) shell in
      (send_ (set_kernel w k) (ShellClosed sid exit_code), m)
  | (None, m) => (w, m)
  end.

(** Relative paths are relative to [/root]. *)
Definition resolve_guest_path (path : string) : string :=
  if starts_with path "/" then path else "/root/" +:+ path.

(** The chunks of a large file: the world, the bytes sent, and whether it failed. *)
Fixpoint send_chunks (w : World) (rid : Z) (chunks : list (list byte)) (end_ : option string)
    (offset total_size : Z) : World * Z * bool :=
  match chunks with
  | [] =>
      match end_ with
      | None => (w, offset, false)
      | Some e => (send_ w (FileError rid ("read error at offset " +:+ show_Z offset +:+ ": " +:+ e)),
                   offset, true)
      end
  | data :: chunks =>
      match send w (FileChunk rid offset data total_size) with
      | (true, w) => send_chunks w rid chunks end_ (as_uN 64 (offset + Z.of_nat (length data))) total_size
      | (false, w) => (w, offset, true)
      end
  end.

Definition file_read (w : World) (rid : Z) (path : string) : World :=
  match validate_file_path path with
  | Err e => send_ w (FileError rid ("invalid path: " +:+ show_proto_error e))
  | Ok _ =>
      let path := resolve_guest_path path in
      let '(md, k) := os_metadata (kernel w) path in
      let w := set_kernel w k in
      match md with
      | inr e => send_ w (FileError rid ("file not found: " +:+ e))
      | inl md =>
          if negb (is_file md) then send_ w (FileError rid "not a regular file")
          else if MAX_DOWNLOAD_SIZE <? file_len md then
            send_ w (FileError rid ("file too large (" +:+ show_Z (file_len md) +:+ " bytes, max " +:+
                                    show_Z (MAX_DOWNLOAD_SIZE / (1024 * 1024)) +:+ " MB)"))
          else if file_len md <=? FILE_CHUNK_SIZE then
            let '(r, k) := os_read_file (kernel w) path in
            let w := set_kernel w k in
            match r with
            | inl data => send_ w (FileContent rid path data)
            | inr e => send_ w (FileError rid ("read error: " +:+ e))
            end
          else
            let '(r, k) := os_open (kernel w) path in
            let w := set_kernel w k in
            match r with
            | inr e => send_ w (FileError rid ("open error: " +:+ e))
            | inl (chunks, end_) =>
                let '(w, offset, failed) := send_chunks w rid chunks end_ 0 (file_len md) in
                if negb failed && negb (offset =? file_len md)
                then send_ w (FileError rid ("file truncated: expected " +:+ show_Z (file_len md) +:+
                                             " bytes, read " +:+ show_Z offset))
                else w
            end
      end
  end.

Definition file_save (w : World) (rid : Z) (path : string) (data : list byte) : World :=
  match validate_file_path path with
  | Err e => send_ w (FileError rid ("invalid path: " +:+ show_proto_error e))
  | Ok _ =>
      let path := resolve_guest_path path in
      let '(r, k) := os_write_file (os_mkdir_parent (kernel w) path) path data in
      send_ (set_kernel w k)
        (match r with None => FileSaved rid | Some e => FileError rid ("write error: " +:+ e) end)
  end.

Definition list_dir (w : World) (rid : Z) (path : string) : World :=
  match validate_file_path path with
  | Err e => send_ w (FileError rid ("invalid path: " +:+ show_proto_error e))
  | Ok _ =>
      let '(r, k) := os_read_dir (kernel w) path in
      send_ (set_kernel w k)
        (match r with
         | inl entries => DirListing rid path (merge_sort dir_le entries)
         | inr e => FileError rid ("readdir failed: " +:+ e)
         end)
  end.

(** The line typed into the default shell. *)
Definition exec_injection (rid : Z) (command : string) : string :=
  "bash -c '" +:+ replace "'" "'\''" command +:+ "' ; printf '\033_CLAWCAGE_EXIT:" +:+ show_Z rid +:+
  ":%d\033\\' $?" +:+ String "010" "".

(** The state of an exec shared with the bridge. *)
Record ExecState := { active : bool; current_id : option Z }.

(** The last component: whether the loop goes on. *)
Definition exec (w : World) (m : ShellManager) (x : ExecState) (rid : Z) (command : string)
  : World * ExecState * bool :=
  match get_master_fd m DEFAULT_SHELL_SESSION_ID with
  | None => (send_ w (ExecDone rid 126), x, true)
  | Some fd =>
      let x := {| active := true; current_id := Some rid |} in
      let w := set_kernel w (os_set_echo (kernel w) fd false) in
      let '(ok, k) := os_write_fd (kernel w) fd (exec_injection rid command) in
      let w := set_kernel w k in
      if negb ok
      then (send_ w (ExecDone rid 126), {| active := false; current_id := current_id x |}, true)
      else
        let '(done_, k) := os_exec_done (kernel w) in
        let w := set_kernel w k in
        match done_ with
        | None => (w, x, false)
        | Some (done_id, exit_code) =>
            (* the bridge cleared the flag before it reported *)
            let x := {| active := false; current_id := current_id x |} in
            let w := set_kernel w (os_set_echo (kernel w) fd true) in
            let '(ok, w) := send w (ExecDone done_id exit_code) in (w, x, ok)
        end
  end.

Record Agent := { world : World; shells : ShellManager; exec_state : ExecState }.

(** One message; [false] ends the loop. *)
Definition control_step (a : Agent) (msg : HostToGuest) : Agent * bool :=
  let w := world a in
  let m := shells a in
  let on_world w := ({| world := w; shells := m; exec_state := exec_state a |}, true) in
  let on_shells wm := ({| world := wm.1; shells := wm.2; exec_state := exec_state a |}, true) in
  match msg with
  | Resize cols rows => on_world (resize w m DEFAULT_SHELL_SESSION_ID cols rows)
  | ShellResize sid cols rows => on_world (resize w m sid cols rows)
  | SpawnShell sid => on_shells (spawn_shell w m sid)
  | CloseShell sid => on_shells (close_shell w m sid)
  | Ping => let '(ok, w) := send w Pong in ({| world := w; shells := m; exec_state := exec_state a |}, ok)
  | FileRead rid path => on_world (file_read w rid path)
  | FileSave rid path data => on_world (file_save w rid path data)
  | ListDir rid path => on_world (list_dir w rid path)
  | Exec rid command =>
      let '(w, x, go) := exec w m (exec_state a) rid command in
      ({| world := w; shells := m; exec_state := x |}, go)
  | _ => (a, true)
  end.

(** The loop over the messages received before the channel fails. *)
Fixpoint control_loop (a : Agent) (msgs : list HostToGuest) : Agent :=
  match msgs with
  | [] => a
  | msg :: msgs => let '(a, go) := control_step a msg in if go then control_loop a msgs else a
  end.

(** ** Shells *)

(** At most [MAX_SHELLS] sessions, each stored under its own id. *)
Definition shells_ok (m : ShellManager) : Prop :=
  count m <= MAX_SHELLS /\ map_Forall (fun sid s => session_id s = sid) m.

Lemma insert_shell_ok m s :
  shells_ok m -> count m < MAX_SHELLS -> m !! session_id s = None -> shells_ok (insert_shell m s).
Proof.
  intros [_ Hk] Hc Hn. unfold shells_ok, count, insert_shell in *. split.
  - rewrite map_size_insert_None by done. lia.
  - by apply map_Forall_insert_2.
Qed.

Lemma remove_shell_ok m sid : shells_ok m -> shells_ok (remove_shell m sid).2.
Proof.
  intros [Hc Hk]. unfold shells_ok, count in *. cbn. split; [|by apply map_Forall_delete].
  rewrite map_size_delete. destruct (m !! sid); cbn; lia.
Qed.

Lemma spawn_shell_ok w m sid : shells_ok m -> shells_ok (spawn_shell w m sid).2.
Proof.
  intros Hm. unfold spawn_shell. destruct (Z.leb_spec MAX_SHELLS (count m)); [done|].
  unfold get_master_fd. destruct (m !! sid) eqn:E; [done|]. cbn [fmap option_fmap option_map].
  destruct (os_spawn (kernel w) sid) as [[[fd pid]|] k]; [|done]. by apply insert_shell_ok.
Qed.

Lemma close_shell_ok w m sid : shells_ok m -> shells_ok (close_shell w m sid).2.
Proof.
  intros Hm. unfold close_shell. pose proof (remove_shell_ok m sid Hm) as Hr.
  destruct (remove_shell m sid) as [[s|] m']; [|done]. by destruct (os_hangup (kernel w) s).
Qed.

Lemma control_step_ok a msg : shells_ok (shells a) -> shells_ok (shells (control_step a msg).1).
Proof.
  intros Hm. destruct msg; try done; cbn [control_step].
  - by destruct (exec (world a) (shells a) (exec_state a) id command) as [[w x] go].
  - by destruct (send (world a) Pong).
  - by apply spawn_shell_ok.
  - by apply close_shell_ok.
Qed.

(** ** Downloads *)

(** What a client needs to put the file together: the chunks with their offsets. *)
Fixpoint chunk_msgs (rid offset total_size : Z) (chunks : list (list byte)) : list GuestToHost :=
  match chunks with
  | [] => []
  | data :: chunks =>
      FileChunk rid offset data total_size ::
      chunk_msgs rid (offset + Z.of_nat (length data)) total_size chunks
  end.

Lemma send_sent w msg : sent (send_ w msg) = sent w ++ [msg].
Proof. unfold send_, send. by destruct (os_send (kernel w) msg). Qed.

Lemma send_ok w msg :
  (forall k, (os_send k msg).1 = true) -> exists w', send w msg = (true, w') /\ sent w' = sent w ++ [msg].
Proof.
  intros Hs. unfold send. specialize (Hs (kernel w)). destruct (os_send (kernel w) msg) as [ok k].
  cbn in Hs. subst ok. eauto.
Qed.

Lemma send_chunks_ok chunks : forall w rid end_ offset total_size,
  (forall k msg, (os_send k msg).1 = true) ->
  0 <= offset -> offset + Z.of_nat (length (concat chunks)) < 2 ^ 64 ->
  exists w', send_chunks w rid chunks end_ offset total_size =
             (w', offset + Z.of_nat (length (concat chunks)), bool_decide (is_Some end_)) /\
    sent w' = sent w ++ chunk_msgs rid offset total_size chunks ++
      match end_ with
      | Some e => [FileError rid ("read error at offset " +:+
                     show_Z (offset + Z.of_nat (length (concat chunks))) +:+ ": " +:+ e)]
      | None => []
      end.
Proof.
  induction chunks as [|c chunks IH]; intros w rid end_ offset total_size Hs H0 Hb; cbn [send_chunks].
  - cbn [concat length Z.of_nat chunk_msgs app]. rewrite Z.add_0_r.
    destruct end_ as [e|]; (eexists; split; [reflexivity|]); [apply send_sent|by rewrite app_nil_r].
  - cbn [concat] in *. rewrite length_app in *.
    destruct (send_ok w (FileChunk rid offset c total_size) (fun k => Hs k _)) as (w1 & -> & Hw1).
    rewrite as_uN_small by (unfold in_uN; lia).
    destruct (IH w1 rid end_ (offset + Z.of_nat (length c)) total_size Hs) as (w' & -> & Hw'); [lia|lia|].
    exists w'. rewrite Nat2Z.inj_add, Z.add_assoc. split; [done|].
    rewrite Hw', Hw1. cbn [chunk_msgs]. by rewrite <- !app_assoc.
Qed.

(** ** Properties *)

(** Whatever the host sends and however the kernel answers, the agent never holds
    more than [MAX_SHELLS] shells, each under its own session id. *)
Theorem shells_bounded (a : Agent) (msgs : list HostToGuest) :
  shells_ok (shells a) -> shells_ok (shells (control_loop a msgs)).
Proof.
  revert a. induction msgs as [|msg msgs IH]; intros a Hm; [done|]. cbn [control_loop].
  pose proof (control_step_ok a msg Hm) as Hs. destruct (control_step a msg) as [a' []]; [|done].
  by apply IH.
Qed.

(** The download of a large file over a working channel: exactly one FileChunk is
    sent per read, in order, each at the offset where the previous one ended, so that
    the chunks concatenated are the bytes read; and then a FileError if and only if a
    read failed or the bytes read are not as many as the file had when it was opened. *)
Theorem large_file_download (w : World) (rid : Z) (path : string) (size : Z)
    (k1 k2 : os) (chunks : list (list byte)) (end_ : option string)
    (n := Z.of_nat (length (concat chunks))) :
  (forall k msg, (os_send k msg).1 = true) ->
  validate_file_path path = Ok tt ->
  os_metadata (kernel w) (resolve_guest_path path) = (inl {| is_file := true; file_len := size |}, k1) ->
  FILE_CHUNK_SIZE < size <= MAX_DOWNLOAD_SIZE ->
  os_open k1 (resolve_guest_path path) = (inl (chunks, end_), k2) -> n < 2 ^ 64 ->
  sent (file_read w rid path) = sent w ++ chunk_msgs rid 0 size chunks ++
    match end_ with
    | Some e => [FileError rid ("read error at offset " +:+ show_Z n +:+ ": " +:+ e)]
    | None => if n =? size then []
              else [FileError rid ("file truncated: expected " +:+ show_Z size +:+
                                   " bytes, read " +:+ show_Z n)]
    end.
Proof.
  intros Hs Hp Hm Hsz Ho Hn. unfold file_read. rewrite Hp, Hm. cbn [is_file file_len negb].
  destruct (Z.ltb_spec MAX_DOWNLOAD_SIZE size); [lia|].
  destruct (Z.leb_spec size FILE_CHUNK_SIZE); [lia|].
  cbn [set_kernel kernel sent]. rewrite Ho.
  destruct (send_chunks_ok chunks (set_kernel (set_kernel w k1) k2) rid end_ 0 size Hs)
    as (w' & -> & Hw'); [lia|done|].
  rewrite Z.add_0_l in *. fold n in Hw' |- *. cbn [set_kernel sent] in Hw'.
  destruct end_ as [e|]; cbn [negb andb].
  - rewrite bool_decide_true by eauto. cbn [negb andb]. done.
  - rewrite bool_decide_false by (by intros [? ?]). cbn [negb andb].
    destruct (Z.eqb_spec n size); cbn [negb]; [done|]. rewrite send_sent, Hw'.
    by rewrite app_nil_r, <- app_assoc.
Qed.

End Control.

(** ** Shell words *)

(** How a POSIX shell reads the next word: inside single quotes every character stands
    for itself; outside, a backslash quotes the next character and a space ends it. *)
Fixpoint shell_word (quoted : bool) (s : string) : option (string * string) :=
  match s with
  | EmptyString => if quoted then None else Some ("", "")
  | String c s =>
      if quoted then
        if bool_decide (c = "'"%char) then shell_word false s
        else (fun '(w, r) => (String c w, r)) <$> shell_word true s
      else if bool_decide (c = "'"%char) then shell_word true s
      else if bool_decide (c = "\"%char) then
        match s with
        | String d s => (fun '(w, r) => (String d w, r)) <$> shell_word false s
        | EmptyString => None
        end
      else if bool_decide (c = " "%char) then Some ("", s)
      else (fun '(w, r) => (String c w, r)) <$> shell_word false s
  end.

Lemma replace_quote_cons c s :
  replace "'" "'\''" (String c s) =
  if bool_decide (c = "'"%char) then "'\''" +:+ replace "'" "'\''" s else String c (replace "'" "'\''" s).
Proof.
  unfold replace. cbn [replace_go]. unfold starts_with. cbn [strip_prefix].
  repeat case_bool_decide; try congruence; done.
Qed.

Lemma shell_word_quoted command rest :
  shell_word true (replace "'" "'\''" command +:+ "' " +:+ rest) = Some (command, rest).
Proof.
  induction command as [|c command IH]; [by destruct rest|]. rewrite replace_quote_cons.
  case_bool_decide as Hc.
  - subst c. rewrite <- sapp_assoc.
    change ("'\''" +:+ ?x) with (String "'" (String "\" (String "'" (String "'" x)))).
    cbn [shell_word]. cbn. rewrite IH. done.
  - rewrite sapp_cons. cbn [shell_word]. rewrite bool_decide_false by done. by rewrite IH.
Qed.

(** a command is passed to bash whole, whatever quotes it holds: reading the line the
    agent types as a shell would, the word after [bash -c ] is the command itself, and
    what follows prints the sentinel with the request's id. *)
Theorem exec_command_quoted (rid : Z) (command : string) :
  exists word, exec_injection rid command = "bash -c " +:+ word /\
    shell_word false word =
    Some (command, "; printf '\033_CLAWCAGE_EXIT:" +:+ show_Z rid +:+ ":%d\033\\' $?" +:+ String "010" "").
Proof.
  exists (String "'" (replace "'" "'\''" command +:+ "' " +:+
    "; printf '\033_CLAWCAGE_EXIT:" +:+ show_Z rid +:+ ":%d\033\\' $?" +:+ String "010" "")).
  split; [done|]. cbn [shell_word]. apply shell_word_quoted.
Qed.

(** ** A kernel to run on: every call succeeds; the file read ends early. *)

Definition demo_kernel : Kernel := {|
  os := unit;
  show_proto_error _ := "";
  os_send k _ := (true, k);
  os_resize k _ _ _ := k;
  os_spawn k sid := (inl (100 + sid, 200 + sid), k);
  os_hangup k _ := (0, k);
  os_metadata k _ := (inl {| is_file := true; file_len := 300000 |}, k);
  os_read_file k _ := (inr "", k);
  os_open k _ := (inl ([[x61]; [x62]], None), k);
  os_mkdir_parent k _ := k;
  os_write_file k _ _ := (None, k);
  os_read_dir k _ := (inr "", k);
  os_set_echo k _ _ := k;
  os_write_fd k _ _ := (true, k);
  os_exec_done k := (None, k);
|}.

Definition demo_world : @World demo_kernel := @Build_World demo_kernel tt [].

Lemma large_file_download_witness :
  @sent demo_kernel (@file_read demo_kernel demo_world 7 "big.bin") =
  [FileChunk 7 0 [x61] 300000; FileChunk 7 1 [x62] 300000;
   FileError 7 "file truncated: expected 300000 bytes, read 2"].
Proof.
  refine (@large_file_download demo_kernel demo_world 7 "big.bin" 300000 tt tt
            [[x61]; [x62]] None _ _ _ _ _ _).
  - reflexivity.
  - vm_compute. reflexivity.
  - reflexivity.
  - vm_compute. split; congruence.
  - reflexivity.
  - vm_compute. reflexivity.
Defined.

Example shells_example :
  map_to_list (shells (@control_loop demo_kernel
    {| world := demo_world; shells := ∅; exec_state := {| active := false; current_id := None |} |}
    [SpawnShell 3; SpawnShell 4; SpawnShell 3; CloseShell 3]))
  = [(4, {| session_id := 4; master_fd := 104; child_pid := 204 |})].
Proof. vm_compute. reflexivity. Qed.
