(* ===== verification/PortWatch.v ===== *)
(** The guest's port watcher: crates/clawcage-agent/src/port_watch.rs.

    The files under /proc are arguments. A HashMap's iteration order is arbitrary: the
    lists built from one are in some order, here that of the finite map. [None] of the
    process scan is a slice panic on a malformed stat line, which ends the watcher.

    The socket tables that the kernel writes are described on their own ([Socket],
    [socket_table]), and what the watcher reports is stated on the sockets. *)

From Corelib Require Import SpecFloat.
From Stdlib Require Import ZArith Lia Ascii.
From stdpp Require Import base numbers list gmap sets strings.
From S2P Require Import Prelude RustStr RustText SessionTime CloudTime IpAddr VpnConfig Proto.

Definition HIDDEN_PORTS : list Z := [10443].

Definition HIDDEN_PROCESSES : list string :=
  ["clawcage-pty-a"; "clawcage-net-p"; "clawcage-mcp-s"; "clawcage-fs-wa"; "clawcage-port-";
   "clawcage-sys-w"; "clawcage-docto"; "dnsmasq"; "init"].

Definition MIN_PROCESS_AGE_SECS : Z := 5.

Record ListeningPort := { port : Z; inode : Z }.

(** [s.rsplit(':').next()]: what follows the last colon. *)
Definition after_last_colon (s : string) : string :=
  match rfind_char ":" s with Some i => sdrop (S i) s | None => s end.

Definition parse_proc_net_tcp_line (line : string) : option ListeningPort :=
  let fields := split_whitespace line in
  if (length fields <? 10)%nat then None
  else
    state ← fields !! 3%nat;
    if negb (bool_decide (state = "0A")) then None
    else
      local_addr ← fields !! 1%nat;
      port ← parse_uint_radix 16 16 (after_last_colon local_addr);
      inode_field ← fields !! 9%nat;
      inode ← parse_uint 64 inode_field;
      if bool_decide (port ∈ HIDDEN_PORTS) then None else Some {| port := port; inode := inode |}.

Definition parse_proc_net_tcp (content : string) : list ListeningPort :=
  omap parse_proc_net_tcp_line (drop 1 (lines content)).

(** The first entry of each port. *)
Definition dedup_map (ports : list ListeningPort) : gmap Z ListeningPort :=
  fold_left (fun seen p => match seen !! port p with Some _ => seen | None => <[port p := p]> seen end)
    ports ∅.

Definition dedup_ports (ports : list ListeningPort) : list ListeningPort :=
  map snd (map_to_list (dedup_map ports)).

Definition is_hidden_process (name : string) : bool :=
  existsb (fun h => starts_with name h) HIDDEN_PROCESSES.

(** ** Process scan *)

Definition boot_time_secs (stat : string) : option Z :=
  match list_find_first (fun l => starts_with l "btime ") (lines stat) with
  | Some line => strip_prefix "btime " line ≫= fun rest => parse_uint 64 (trim rest)
  | None => None
  end.

(** A u64 as an f32, and the f32 operations. *)
Definition f32_of_u64 (n : Z) : spec_float := binary_normalize 24 128 n 0 false.
Definition f32_div : spec_float -> spec_float -> spec_float := SFdiv 24 128.
Definition f32_mul : spec_float -> spec_float -> spec_float := SFmul 24 128.
Definition f32_min (a b : spec_float) : spec_float := if SFltb a b then a else b.

Definition process_cpu_percent (cpu_ticks clk_tck runtime_secs : Z) : spec_float :=
  if 0 <? runtime_secs
  then f32_min (f32_mul (f32_div (f32_div (f32_of_u64 cpu_ticks) (f32_of_u64 clk_tck))
                                 (f32_of_u64 runtime_secs)) (f32_of_u64 100)) (f32_of_u64 100)
  else S754_zero false.

Definition vm_rss_kb (status : option string) : Z :=
  default 0 (s ← status;
             l ← list_find_first (fun l => starts_with l "VmRSS:") (lines s);
             v ← split_whitespace l !! 1%nat;
             parse_uint 64 v).

Definition u64_field (fields : list string) (i : nat) : Z :=
  default 0 (fields !! i ≫= parse_uint 64).

(** What one /proc/<pid> contributes: [Ok None] when it is skipped, [Err tt] the panic. *)
Definition process_entry (now_secs btime : Z) (pid_to_port : gmap Z Z) (pid : Z)
    (stat status : option string) : result (option ProcessEntry) unit :=
  let clk_tck := 100 in
  if pid <=? 2 then Ok None
  else
    match stat with
    | None => Ok None
    | Some stat =>
        match rfind_char ")" stat, find_char "(" stat with
        | Some comm_end, Some comm_start =>
            match str_slice stat (S comm_start) comm_end with
            | None => Err tt
            | Some comm =>
                if starts_with comm "[" then Ok None
                else if is_hidden_process comm then Ok None
                else
                  match str_slice stat (comm_end + 2) (String.length stat) with
                  | None => Err tt
                  | Some after =>
                      let fields := split_whitespace after in
                      if (length fields <? 20)%nat then Ok None
                      else
                        let ppid := default 0 (fields !! 1%nat ≫= parse_uint 32) in
                        let cpu_ticks := as_uN 64 (u64_field fields 11 + u64_field fields 12) in
                        let start_secs := as_uN 64 (btime + u64_field fields 19 / clk_tck) in
                        let runtime_secs := saturating_sub now_secs start_secs in
                        if runtime_secs <? MIN_PROCESS_AGE_SECS then Ok None
                        else Ok (Some
                          {| pe_pid := pid; pe_ppid := ppid; pe_name := comm;
                             pe_cpu_percent := process_cpu_percent cpu_ticks clk_tck runtime_secs;
                             pe_mem_kb := vm_rss_kb status; pe_runtime_secs := runtime_secs;
                             pe_port := pid_to_port !! pid |})
                  end
            end
        | _, _ => Ok None
        end
    end.

(** The known ports: port to the pid (0 when unknown) and name of its process. *)
Abbreviation KnownPorts := (gmap Z (Z * string)).

(** Which port a process with several gets is the last of the iteration. *)
Definition pid_ports (known : KnownPorts) : gmap Z Z :=
  fold_left (fun m '(port, (pid, _)) => if 0 <? pid then <[pid := port]> m else m)
    (map_to_list known) ∅.

Fixpoint collect_entries (rs : list (result (option ProcessEntry) unit)) : option (list ProcessEntry) :=
  match rs with
  | [] => Some []
  | Err _ :: _ => None
  | Ok None :: rs => collect_entries rs
  | Ok (Some e) :: rs => (fun es => e :: es) <$> collect_entries rs
  end.

(** [procs]: the numeric entries of /proc, with their stat and status files. *)
Definition scan_processes (now_secs : Z) (proc_stat : option string)
    (procs : list (Z * option string * option string)) (known : KnownPorts) : option (list ProcessEntry) :=
  let btime := default 0 (proc_stat ≫= boot_time_secs) in
  collect_entries (map (fun '(pid, stat, status) =>
    process_entry now_secs btime (pid_ports known) pid stat status) procs).

(** ** One round of the watcher *)

Section Watcher.
Variable resolve_pid_for_inode : Z -> option (Z * string).

Definition open_port (st : list GuestToHost * KnownPorts) (lp : ListeningPort)
  : list GuestToHost * KnownPorts :=
  let '(events, known) := st in
  match known !! port lp with
  | Some _ => (events, known)
  | None =>
      let '(pid, process) := default (0, "unknown") (resolve_pid_for_inode (inode lp)) in
      (events ++ [PortOpened (port lp) pid process], <[port lp := (pid, process)]> known)
  end.

Definition open_ports (known : KnownPorts) (current : list ListeningPort) : list GuestToHost * KnownPorts :=
  fold_left open_port current ([], known).

Definition close_ports (known : KnownPorts) (current : list ListeningPort) : list GuestToHost * KnownPorts :=
  let closed := List.filter (fun p => negb (bool_decide (p ∈ map port current)))
                  (map fst (map_to_list known)) in
  (map PortClosed closed, fold_left (fun known p => delete p known) closed known).

(** What a round of the loop meets: the tables, the clock in milliseconds, and what the
    scan of the processes reads. *)
Record Round := {
  rd_tcp : string; rd_tcp6 : string; rd_now_ms : Z;
  rd_now_secs : Z; rd_proc_stat : option string; rd_procs : list (Z * option string * option string);
}.

Record Watcher := { wt_known : KnownPorts; wt_last_snapshot : Z }.

Definition PROCESS_SNAPSHOT_INTERVAL_MS : Z := 3000.

(** [Instant::checked_sub] fails when the clock has not run that long. *)
Definition Watcher_new (start_ms : Z) : Watcher :=
  {| wt_known := ∅;
     wt_last_snapshot := if PROCESS_SNAPSHOT_INTERVAL_MS <=? start_ms then start_ms - PROCESS_SNAPSHOT_INTERVAL_MS else start_ms |}.

(** The periodic snapshot; [None]: the scan panics. *)
Definition snapshot_round (w : Watcher) (rd : Round) : list GuestToHost * option Watcher :=
  if PROCESS_SNAPSHOT_INTERVAL_MS <=? rd_now_ms rd - wt_last_snapshot w then
    match scan_processes (rd_now_secs rd) (rd_proc_stat rd) (rd_procs rd) (wt_known w) with
    | Some processes => ([ProcessSnapshot processes], Some {| wt_known := wt_known w; wt_last_snapshot := rd_now_ms rd |})
    | None => ([], None)
    end
  else ([], Some w).

(** The loop body: what it sends, and the state, if it has not panicked. *)
Definition watch_round (w : Watcher) (rd : Round) : list GuestToHost * option Watcher :=
  let current := dedup_ports (parse_proc_net_tcp (rd_tcp rd) ++ parse_proc_net_tcp (rd_tcp6 rd)) in
  let '(opened, known) := open_ports (wt_known w) current in
  let '(closed, known) := close_ports known current in
  let '(snapshot, w) := snapshot_round {| wt_known := known; wt_last_snapshot := wt_last_snapshot w |} rd in
  (opened ++ closed ++ snapshot, w).

Fixpoint watch_rounds (w : Watcher) (rounds : list Round) : list GuestToHost * option Watcher :=
  match rounds with
  | [] => ([], Some w)
  | rd :: rounds =>
      match watch_round w rd with
      | (es, None) => (es, None)
      | (es, Some w) => let '(es', w) := watch_rounds w rounds in (es ++ es', w)
      end
  end.

(** ** What the host sees *)

(** The host's view of the open ports; [None] on an event that does not fit it: a port
    opened twice or closed while not open. *)
Fixpoint follow (view : gset Z) (events : list GuestToHost) : option (gset Z) :=
  match events with
  | [] => Some view
  | PortOpened p _ _ :: events => if decide (p ∈ view) then None else follow ({[p]} ∪ view) events
  | PortClosed p :: events => if decide (p ∈ view) then follow (view ∖ {[p]}) events else None
  | ProcessSnapshot _ :: events => follow view events
  | _ :: _ => None
  end.

Lemma follow_app view a b : follow view (a ++ b) = follow view a ≫= fun v => follow v b.
Proof.
  revert view. induction a as [|e a IH]; intros view; [done|]. destruct e; try done; cbn [follow app]; [by destruct (decide _)..|apply IH].
Qed.

Lemma open_ports_follow current : forall (view : gset Z) events (known : KnownPorts),
  follow view events = Some (dom known) ->
  let '(events', known') := fold_left open_port current (events, known) in
  follow view events' = Some (dom known') /\ dom known' = dom known ∪ list_to_set (map port current).
Proof.
  induction current as [|lp current IH]; intros view events known Hf; cbn [fold_left map list_to_set].
  - split; [done|]. cbn. set_solver.
  - unfold open_port at 2. destruct (known !! port lp) as [x|] eqn:E.
    + pose proof (IH view events known Hf) as Hr. destruct (fold_left _ current (events, known)) as [es k].
      destruct Hr as [H1 H2]. split; [done|]. rewrite H2.
      assert (port lp ∈ dom known) by (apply elem_of_dom; eauto). cbn. set_solver.
    + destruct (default _ _) as [pid process].
      assert (follow view (events ++ [PortOpened (port lp) pid process]) =
              Some (dom (<[port lp := (pid, process)]> known))) as Hf'.
      { rewrite follow_app, Hf. cbn [mbind option_bind follow].
        rewrite decide_False by (by apply not_elem_of_dom). by rewrite dom_insert_L. }
      pose proof (IH _ _ _ Hf') as Hr. destruct (fold_left _ current _) as [es k].
      destruct Hr as [H1 H2]. split; [done|]. rewrite H2, dom_insert_L. cbn. set_solver.
Qed.

Lemma close_follow closed : forall view,
  NoDup closed -> (forall p, p ∈ closed -> p ∈ view) ->
  follow view (map PortClosed closed) = Some (view ∖ list_to_set closed).
Proof.
  induction closed as [|p closed IH]; intros view Hn Hin; cbn [map follow list_to_set].
  - f_equal. set_solver.
  - apply NoDup_cons in Hn as [Hp Hn]. rewrite decide_True by (apply Hin; left).
    rewrite IH; [f_equal; set_solver|done|]. intros q Hq.
    assert (q <> p) by (intros ->; done). assert (q ∈ view) by (apply Hin; by right). set_solver.
Qed.

Lemma dom_delete_all closed : forall known : KnownPorts,
  dom (fold_left (fun known p => delete p known) closed known) = (dom known ∖ list_to_set closed : gset Z).
Proof.
  induction closed as [|p closed IH]; intros known; cbn [fold_left list_to_set]; [set_solver|].
  rewrite IH, dom_delete_L. set_solver.
Qed.

Lemma dedup_map_spec ports :
  map_Forall (fun k p => port p = k) (dedup_map ports) /\
  dom (dedup_map ports) = (list_to_set (map port ports) : gset Z).
Proof.
  unfold dedup_map.
  enough (forall seen : gmap Z ListeningPort, map_Forall (fun k p => port p = k) seen ->
    let r := fold_left (fun seen p => match seen !! port p with Some _ => seen | None => <[port p := p]> seen end)
               ports seen in
    map_Forall (fun k p => port p = k) r /\ dom r = (dom seen ∪ list_to_set (map port ports) : gset Z)) as Hg.
  { destruct (Hg ∅) as [H1 H2]; [apply map_Forall_empty|]. split; [done|]. rewrite H2. set_solver. }
  induction ports as [|p ports IH]; intros seen Hs; cbn [fold_left map list_to_set].
  - split; [done|set_solver].
  - destruct (seen !! port p) eqn:E.
    + destruct (IH seen Hs) as [H1 H2]. split; [done|]. rewrite H2.
      assert (port p ∈ dom seen) by (apply elem_of_dom; eauto). set_solver.
    + destruct (IH (<[port p := p]> seen)) as [H1 H2]; [by apply map_Forall_insert_2|].
      split; [done|]. rewrite H2, dom_insert_L. set_solver.
Qed.

Lemma dedup_ports_ports ports p : (p ∈ map port (dedup_ports ports)) <-> (p ∈ map port ports).
Proof.
  destruct (dedup_map_spec ports) as [Hk Hd]. unfold dedup_ports.
  rewrite <- (elem_of_list_to_set (C:=gset Z) p (map port ports)), <- Hd, elem_of_dom.
  rewrite map_map. split.
  - intros ([k lp] & -> & Hin)%list_elem_of_fmap. apply elem_of_map_to_list in Hin.
    cbn [snd]. rewrite (Hk k lp Hin). eauto.
  - intros [lp Hlp]. apply list_elem_of_fmap. exists (p, lp). split; [symmetry; apply (Hk p lp Hlp)|].
    by apply elem_of_map_to_list.
Qed.

Definition scanned_ports (tcp tcp6 : string) : gset Z :=
  list_to_set (map port (parse_proc_net_tcp tcp ++ parse_proc_net_tcp tcp6)).

Lemma ports_follow known tcp tcp6 :
  let current := dedup_ports (parse_proc_net_tcp tcp ++ parse_proc_net_tcp tcp6) in
  let '(opened, known1) := open_ports known current in
  let '(closed, known2) := close_ports known1 current in
  follow (dom known) (opened ++ closed) = Some (dom known2) /\ dom known2 = scanned_ports tcp tcp6.
Proof.
  cbv zeta. set (current := dedup_ports _).
  pose proof (open_ports_follow current (dom known) [] known eq_refl) as Ho. unfold open_ports.
  destruct (fold_left _ current ([], known)) as [opened known1]. destruct Ho as [Ho1 Ho2].
  unfold close_ports. set (closed := List.filter _ _).
  assert (Hin : forall p, p ∈ closed <-> (p ∈ dom known1) /\ (p ∉ map port current)).
  { intros p. unfold closed. rewrite list_elem_of_In, filter_In, <- list_elem_of_In.
    rewrite negb_true_iff, bool_decide_eq_false. rewrite elem_of_dom. split; intros [H1 H2]; (split; [|done]).
    - apply list_elem_of_fmap in H1 as ([k v] & -> & H1). apply elem_of_map_to_list in H1. eauto.
    - destruct H1 as [v Hv]. apply list_elem_of_fmap. exists (p, v). split; [done|].
      by apply elem_of_map_to_list. }
  assert (Hnd : NoDup closed) by (apply NoDup_ListNoDup, List.NoDup_filter, NoDup_ListNoDup, NoDup_fst_map_to_list).
  rewrite follow_app, Ho1. cbn [mbind option_bind].
  rewrite close_follow; [|done|intros p Hp; by apply Hin in Hp as [? _]].
  rewrite dom_delete_all. split; [done|]. apply set_eq. intros p.
  unfold scanned_ports. rewrite elem_of_difference, !elem_of_list_to_set, Hin.
  rewrite <- (dedup_ports_ports (_ ++ _) p). fold current. rewrite Ho2.
  rewrite elem_of_union, elem_of_list_to_set.
  destruct (decide (p ∈ map port current)); tauto.
Qed.

Lemma watch_round_follow w rd :
  let '(events, w') := watch_round w rd in
  follow (dom (wt_known w)) events = Some (scanned_ports (rd_tcp rd) (rd_tcp6 rd)) /\
  match w' with Some w' => dom (wt_known w') = scanned_ports (rd_tcp rd) (rd_tcp6 rd) | None => True end.
Proof.
  unfold watch_round. pose proof (ports_follow (wt_known w) (rd_tcp rd) (rd_tcp6 rd)) as Hp. cbv zeta in Hp.
  destruct (open_ports _ _) as [opened known1]. destruct (close_ports known1 _) as [closed known2]. destruct Hp as [Hf Hd].
  unfold snapshot_round. cbn [wt_known wt_last_snapshot].
  destruct (_ <=? _); [destruct (scan_processes _ _ _ known2)|]; cbn [wt_known]; rewrite ?app_nil_r;
    (split; [|done]); rewrite ?(app_assoc opened), ?follow_app, ?Hf, <- ?Hd; try done; rewrite <- follow_app, Hf; by rewrite Hd.
Qed.

(** ** Properties *)

(** the host's picture of the open ports is exact. Whatever the successive contents
    of the two socket tables, the events sent never open a port twice or close one that
    is not open, and after each round the ports open on the host's side are exactly the
    listening ports of the last scan. *)
Theorem host_view_exact (rounds : list Round) (rd : Round) (w : Watcher) :
  is_Some (watch_rounds w rounds).2 ->
  follow (dom (wt_known w)) (watch_rounds w (rounds ++ [rd])).1 = Some (scanned_ports (rd_tcp rd) (rd_tcp6 rd)).
Proof.
  revert w. induction rounds as [|rd' rounds IH]; intros w Hs; cbn [app watch_rounds] in *.
  - pose proof (watch_round_follow w rd) as Hr. destruct (watch_round w rd) as [es [w'|]]; cbn [fst]; [rewrite app_nil_r|]; apply Hr.
  - pose proof (watch_round_follow w rd') as Hr. destruct (watch_round w rd') as [es [w'|]]; [|by destruct Hs].
    destruct Hr as [Hf Hd]. specialize (IH w'). destruct (watch_rounds w' rounds) as [es1 w1]. specialize (IH Hs).
    destruct (watch_rounds w' (rounds ++ [rd])) as [es2 w2]. cbn [fst] in *. by rewrite follow_app, Hf, <- Hd.
Qed.

End Watcher.

(** A port the product itself listens on is never reported. *)
Lemma hidden_ports_not_scanned tcp tcp6 p : p ∈ HIDDEN_PORTS -> p ∉ scanned_ports tcp tcp6.
Proof.
  intros Hp. unfold scanned_ports. rewrite elem_of_list_to_set.
  intros (lp & -> & Hin)%list_elem_of_fmap. revert Hp. rewrite elem_of_app in Hin.
  assert (forall c, lp ∈ parse_proc_net_tcp c -> port lp ∉ HIDDEN_PORTS) as Hc.
  { intros c (line & _ & Hl)%list_elem_of_omap. unfold parse_proc_net_tcp_line in Hl.
    destruct (_ <? _)%nat; [done|]. apply bind_Some in Hl as (st & _ & Hl).
    destruct (negb _); [done|]. apply bind_Some in Hl as (la & _ & Hl).
    apply bind_Some in Hl as (pt & _ & Hl). apply bind_Some in Hl as (fi & _ & Hl).
    apply bind_Some in Hl as (ino & _ & Hl). case_bool_decide; [done|]. by injection Hl as <-. }
  destruct Hin as [Hin|Hin]; by apply Hc in Hin.
Qed.

(** ** The socket tables of the kernel

    /proc/net/tcp and tcp6 hold a line of titles and a line for each socket: its slot, its
    local and remote address and port in hexadecimal, its state, queues, timer, retransmits,
    user, timeout and inode, then fields that depend on the state. *)

Inductive TcpState :=
| Established | SynSent | SynRecv | FinWait1 | FinWait2 | TimeWait | Closed | CloseWait | LastAck | Listening | Closing | NewSynRecv.

#[global] Instance TcpState_eq_dec : EqDecision TcpState.
Proof. solve_decision. Defined.

Definition state_hex (s : TcpState) : string :=
  match s with
  | Established => "01" | SynSent => "02" | SynRecv => "03" | FinWait1 => "04" | FinWait2 => "05" | TimeWait => "06"
  | Closed => "07" | CloseWait => "08" | LastAck => "09" | Listening => "0A" | Closing => "0B" | NewSynRecv => "0C"
  end.

(** A word of a line with the number of further blanks before it. *)
Abbreviation Padded := (nat * string)%type.

Record Socket := {
  so_lead : nat; so_slot : string;
  so_address : string; so_port : Z;
  so_remote : Padded;
  so_state : TcpState;
  so_queues : Padded; so_timer : Padded; so_retransmits : Padded; so_uid : Padded; so_timeout : Padded;
  so_inode : Z;
  so_more : list Padded; so_trail : nat;
}.

(** ["%04X"] *)
Definition hex4 (n : Z) : string := smap ascii_upper_char (fixed_digits 16 4 n).

Fixpoint spaces (n : nat) : string := match n with O => "" | S n => String " " (spaces n) end.

Definition padded (ws : list Padded) : string := sconcat (map (fun w => spaces (S w.1) +:+ w.2) ws).

Definition socket_words (s : Socket) : list Padded :=
  [(O, so_address s +:+ ":" +:+ hex4 (so_port s)); so_remote s; (O, state_hex (so_state s)); so_queues s; so_timer s;
   so_retransmits s; so_uid s; so_timeout s; (O, show_Z (so_inode s))] ++ so_more s.

Definition socket_line (s : Socket) : string :=
  spaces (so_lead s) +:+ so_slot s +:+ padded (socket_words s) +:+ spaces (so_trail s).

Definition socket_table (titles : string) (ss : list Socket) : string := unlines (titles :: map socket_line ss).

Definition plain_word (w : string) : Prop := all_chars graphic w = true /\ w <> "".

Record socket_ok (s : Socket) : Prop := {
  sk_slot : plain_word (so_slot s);
  sk_address : all_chars graphic (so_address s) = true;
  sk_words : Forall (fun w => plain_word w.2)
    ([so_remote s; so_queues s; so_timer s; so_retransmits s; so_uid s; so_timeout s] ++ so_more s);
  sk_port : 0 <= so_port s < 65536;
  sk_inode : 0 <= so_inode s < 2 ^ 64;
}.

(** *** Words *)

Abbreviation letters s := (map (fun c => String c "") (String.list_ascii_of_string s)).

Lemma split_word w rest cur : all_chars graphic w = true -> split_ws (letters w ++ rest) cur = split_ws rest (cur +:+ w).
Proof.
  revert cur. induction w as [|c w IH]; intros cur Hw; [by rewrite sapp_nil_r|]. unfold all_chars in Hw. cbn in Hw.
  apply andb_true_iff in Hw as [Hc Hw]. cbn [String.list_ascii_of_string map app split_ws]. rewrite whitespace_graphic by done.
  rewrite IH by done. by rewrite <- sapp_assoc.
Qed.

Lemma split_spaces n rest : split_ws (letters (spaces n) ++ rest) "" = split_ws rest "".
Proof. induction n as [|n IH]; [done|]. cbn [spaces String.list_ascii_of_string map app split_ws]. apply IH. Qed.

Lemma split_blank n rest cur : cur <> "" -> split_ws (letters (spaces (S n)) ++ rest) cur = cur :: split_ws rest "".
Proof.
  intros Hc. cbn [spaces String.list_ascii_of_string map app split_ws]. rewrite split_spaces.
  assert (is_whitespace (String " " "") = true) as -> by done. by destruct cur.
Qed.

Lemma split_padded ws n cur : cur <> "" -> Forall (fun w => plain_word w.2) ws ->
  split_ws (letters (padded ws +:+ spaces n)) cur = cur :: map snd ws.
Proof.
  intros Hc Hws. revert cur Hc. induction Hws as [|[k w] ws [Hg Hne] _ IH]; intros cur Hc.
  - cbn [padded map sconcat]. rewrite sapp_nil_l. destruct n as [|n]; [by destruct cur|].
    rewrite <- (app_nil_r (letters _)). by rewrite split_blank.
  - change (padded ((k, w) :: ws)) with ((spaces (S k) +:+ w) +:+ padded ws). cbn [snd] in *.
    rewrite <- !sapp_assoc, (list_ascii_app (spaces (S k))), map_app, split_blank by done.
    rewrite (list_ascii_app w), map_app, split_word, sapp_nil_l by done. by rewrite IH.
Qed.

Lemma spaces_printable n : all_chars printable (spaces n) = true.
Proof. unfold all_chars. by induction n. Qed.

Lemma plain_printable w : all_chars graphic w = true -> all_chars printable w = true.
Proof. apply all_chars_impl, graphic_printable. Qed.

Lemma padded_printable ws : Forall (fun w => plain_word w.2) ws -> all_chars printable (padded ws) = true.
Proof.
  induction 1 as [|[k w] ws [Hg _] _ IH]; [done|].
  change (padded ((k, w) :: ws)) with ((spaces (S k) +:+ w) +:+ padded ws). cbn [snd] in *.
  by rewrite !all_chars_app, IH, spaces_printable, plain_printable.
Qed.

(** *** Numbers *)

Lemma digit_val_hex d : 0 <= d < 16 -> digit_val 16 (ascii_upper_char (digit_char d)) = Some d.
Proof.
  intros Hd. assert (d ∈ map Z.of_nat (seq 0 16)) as Hin.
  { apply list_elem_of_fmap. exists (Z.to_nat d). split; [lia|]. apply elem_of_seq. lia. }
  cbn in Hin. rewrite !elem_of_cons in Hin. by repeat (destruct Hin as [->|Hin]; [done|]); apply elem_of_nil in Hin.
Qed.

Lemma smap_app f a b : smap f (a +:+ b) = smap f a +:+ smap f b.
Proof. induction a as [|c a IH]; [done|]. rewrite sapp_cons. cbn [smap]. by rewrite IH. Qed.

Lemma parse_hex n z : 0 <= z < 16 ^ Z.of_nat n -> 16 ^ Z.of_nat n <= 2 ^ 16 ->
  parse_digits 16 16 0 (smap ascii_upper_char (fixed_digits 16 n z)) = Some z.
Proof.
  revert z. induction n as [|n IH]; intros z Hz Hfit; cbn [fixed_digits].
  - cbn in *. f_equal. lia.
  - rewrite Nat2Z.inj_succ, Z.pow_succ_r in Hz, Hfit by lia. rewrite smap_app, (parse_digits_app _ _ _ _ _ (z / 16)).
    + cbn [smap parse_digits]. rewrite digit_val_hex by (apply Z.mod_pos_bound; lia). pose proof (Z.div_mod z 16 ltac:(lia)).
      replace (z / 16 * 16 + z mod 16) with z by lia. destruct (Z.ltb_spec z (2 ^ 16)); [done|lia].
    + apply IH; [|lia]. split; [apply Z.div_pos; lia|]. apply Z.div_lt_upper_bound; lia.
Qed.

Definition upper_hex (c : ascii) : bool := is_ascii_hexdigit c && graphic c && negb (bool_decide (c = ":"%char)) && negb (bool_decide (c = "+"%char)).

Lemma hex4_chars n : all_chars upper_hex (hex4 n) = true.
Proof.
  unfold hex4. pose proof (digits_hex 4 n) as Hd. revert Hd. generalize (fixed_digits 16 4 n). intros s Hs. unfold all_chars in *.
  induction s as [|c s IH]; [done|]. cbn in Hs |- *. apply andb_true_iff in Hs as [Hc Hs]. rewrite IH by done.
  by destruct c as [[] [] [] [] [] [] [] []].
Qed.

Lemma hex4_length n : String.length (hex4 n) = 4%nat.
Proof.
  unfold hex4. rewrite <- (fixed_digits_length 16 4 n) at 2. generalize (fixed_digits 16 4 n). intros s. induction s; cbn; congruence.
Qed.

Lemma hex4_parsed n : 0 <= n < 65536 -> parse_uint_radix 16 16 (hex4 n) = Some n.
Proof.
  intros Hn. unfold parse_uint_radix. pose proof (hex4_chars n) as Hc. pose proof (hex4_length n) as Hl.
  assert (parse_digits 16 16 0 (hex4 n) = Some n) as Hp by (apply parse_hex; cbn; lia).
  destruct (hex4 n) as [|c s]; [done|]. unfold all_chars in Hc. cbn in Hc. apply andb_true_iff in Hc as [Hc _].
  assert (strip_prefix "+" (String c s) = None) as -> by (by destruct c as [[] [] [] [] [] [] [] []]). done.
Qed.

Lemma inode_parsed n : 0 <= n < 2 ^ 64 -> parse_uint 64 (show_Z n) = Some n.
Proof. intros Hn. pose proof (parse_number_shown 64 n Hn) as H. unfold parse_number in H. destruct (parse_uint 64 _); [congruence|done]. Qed.

Lemma rfind_char_last c a b : contains_char b c = false -> rfind_char c (a +:+ String c b) = Some (String.length a).
Proof.
  intros Hb. assert (rfind_char c b = None) as Hn.
  { clear a. induction b as [|d b IH]; [done|]. rewrite contains_char_cons in Hb. apply orb_false_iff in Hb as [Hd Hb].
    cbn. rewrite IH by done. by apply bool_decide_eq_false in Hd; rewrite bool_decide_false. }
  induction a as [|d a IH]; [rewrite sapp_nil_l; cbn; by rewrite Hn, bool_decide_true|]. rewrite sapp_cons. cbn. by rewrite IH.
Qed.

Lemma after_colon a b : contains_char b ":" = false -> after_last_colon (a +:+ ":" +:+ b) = b.
Proof.
  intros Hb. unfold after_last_colon. rewrite sapp_cons, sapp_nil_l, rfind_char_last by done.
  change (S (String.length a)) with (1 + String.length a)%nat. rewrite Nat.add_comm.
  assert (forall s n, sdrop (String.length s + n) (s +:+ String ":" b) = sdrop n (String ":" b)) as H; [|by rewrite H].
  intros s n. induction s as [|d s IH]; [done|]. rewrite sapp_cons. cbn. apply IH.
Qed.

(** *** Lines *)

Lemma socket_words_plain s : socket_ok s -> Forall (fun w => plain_word w.2) (socket_words s).
Proof.
  intros [_ Ha Hw _ Hi]. rewrite !Forall_app, !Forall_cons in Hw. destruct Hw as ((H1 & H2 & H3 & H4 & H5 & H6 & _) & Hmore).
  unfold socket_words. rewrite Forall_app, !Forall_cons. split; [|done]. cbn [snd].
  assert (plain_word (so_address s +:+ ":" +:+ hex4 (so_port s))) as Haddr.
  { split; [|by destruct (so_address s)]. rewrite !all_chars_app, Ha. cbn [andb].
    eapply all_chars_impl; [|apply hex4_chars]. intros c. unfold upper_hex. rewrite !andb_true_iff. tauto. }
  assert (plain_word (show_Z (so_inode s))) as Hinode.
  { destruct (show_Z_chars (so_inode s)) as [Hc Hne]; [lia|]. split; [|done]. eapply all_chars_impl; [|exact Hc]. intros c Hx.
    by destruct (ip_char_graphic c Hx). }
  assert (plain_word (state_hex (so_state s))) as Hst by (by destruct (so_state s)).
  do 9 (split; [done|]). constructor.
Qed.

Lemma socket_line_printable s : socket_ok s -> all_chars printable (socket_line s) = true.
Proof.
  intros Hok. unfold socket_line. rewrite !all_chars_app, !spaces_printable, padded_printable by (by apply socket_words_plain).
  by rewrite plain_printable by apply (sk_slot _ Hok).
Qed.

Lemma socket_line_words s : socket_ok s -> split_whitespace (socket_line s) = so_slot s :: map snd (socket_words s).
Proof.
  intros Hok. unfold split_whitespace. rewrite chars_printable by (by apply socket_line_printable). unfold socket_line.
  destruct (sk_slot _ Hok) as [Hg Hne]. rewrite list_ascii_app, map_app, split_spaces, list_ascii_app, map_app, split_word by done.
  rewrite sapp_nil_l. by apply split_padded; [|apply socket_words_plain].
Qed.

Lemma socket_line_parsed s : socket_ok s ->
  parse_proc_net_tcp_line (socket_line s) =
    if bool_decide (so_state s = Listening /\ so_port s <> 10443) then Some {| port := so_port s; inode := so_inode s |} else None.
Proof.
  intros Hok. unfold parse_proc_net_tcp_line. rewrite socket_line_words by done. unfold socket_words. cbn [app map length].
  rewrite (proj2 (Nat.ltb_ge _ 10)) by lia.
  cbn [lookup list_lookup mbind option_bind snd]. pose proof (hex4_chars (so_port s)) as Hh.
  assert (contains_char (hex4 (so_port s)) ":" = false) as Hc.
  { eapply (contains_char_all upper_hex); [exact Hh|done]. }
  rewrite after_colon, hex4_parsed by (done || apply Hok). cbn [mbind option_bind]. rewrite inode_parsed by apply Hok. cbn [mbind option_bind].
  destruct (so_state s); cbn [state_hex]; try (rewrite (bool_decide_false (_ /\ so_port s <> 10443)) by (intros [? _]; done); done).
  rewrite (bool_decide_true ("0A" = "0A")) by done. unfold HIDDEN_PORTS. cbn [negb].
  destruct (decide (so_port s = 10443)) as [->|Hp]; [done|].
  rewrite (bool_decide_false (_ ∈ _)) by (by rewrite list_elem_of_singleton). by rewrite bool_decide_true.
Qed.

(** What a scan finds is what listens, except on the product's own port. *)
Lemma scanned_sockets titles titles6 ss ss6 p :
  line_text titles -> line_text titles6 -> Forall socket_ok (ss ++ ss6) ->
  (p ∈ scanned_ports (socket_table titles ss) (socket_table titles6 ss6)) <->
  p <> 10443 /\ exists s, (s ∈ ss ++ ss6) /\ so_state s = Listening /\ so_port s = p.
Proof.
  intros Ht Ht6 [Hs Hs6]%Forall_app.
  assert (forall titles ss lp, line_text titles -> Forall socket_ok ss -> (lp ∈ parse_proc_net_tcp (socket_table titles ss)) <->
    exists s, (s ∈ ss) /\ so_state s = Listening /\ so_port s <> 10443 /\ lp = {| port := so_port s; inode := so_inode s |}) as Htab.
  { clear. intros titles ss lp Ht Hs. unfold parse_proc_net_tcp, socket_table. rewrite lines_unlines.
    2: { constructor; [done|]. apply Forall_map. eapply Forall_impl; [exact Hs|]. intros s Hok. by apply line_text_printable, socket_line_printable. }
    cbn [drop]. rewrite list_elem_of_omap. split.
    - intros (l & Hl & Hp). apply list_elem_of_fmap in Hl as (s & -> & Hin). rewrite Forall_forall in Hs.
      rewrite socket_line_parsed in Hp by (by apply Hs). case_bool_decide as Hc; [|done]. destruct Hc as [Hc1 Hc2]. exists s. by simplify_eq.
    - intros (s & Hin & Hl & Hp & ->). exists (socket_line s). split; [by apply list_elem_of_fmap_2|]. rewrite Forall_forall in Hs.
      rewrite socket_line_parsed by (by apply Hs). by rewrite bool_decide_true. }
  unfold scanned_ports. rewrite elem_of_list_to_set. split.
  - intros (lp & -> & [Hin|Hin]%elem_of_app)%list_elem_of_fmap; apply Htab in Hin as (s & Hin & Hl & Hp & ->); try done;
      (split; [done|]; exists s; rewrite elem_of_app; tauto).
  - intros (Hp & s & Hin & Hl & <-). apply list_elem_of_fmap. exists {| port := so_port s; inode := so_inode s |}. split; [done|].
    apply elem_of_app. apply elem_of_app in Hin as [Hin|Hin]; [left|right]; apply Htab; try done; by exists s.
Qed.

Definition demo_tcp : string :=
  "  sl  local_address rem_address   st tx_queue rx_queue tr tm->when retrnsmt   uid  timeout inode" +:+
  String "010" ("   0: 0100007F:1F90 00000000:0000 0A 00000000:00000000 00:00000000 00000000  1000        0 4242 1") +:+
  String "010" ("   1: 00000000:28CB 00000000:0000 0A 00000000:00000000 00:00000000 00000000  1000        0 4243 1") +:+
  String "010" ("   2: 0100007F:0050 00000000:0000 01 00000000:00000000 00:00000000 00000000  1000        0 4244 1").

(** Three rounds a second apart; a snapshot is sent in the first. *)
Definition demo_round (tcp tcp6 : string) (now_ms : Z) : Round :=
  {| rd_tcp := tcp; rd_tcp6 := tcp6; rd_now_ms := now_ms; rd_now_secs := 0; rd_proc_stat := None; rd_procs := [] |}.

Example port_watch_example :
  (watch_rounds (fun i => if i =? 4242 then Some (77, "node") else None) (Watcher_new 5000)
     [demo_round demo_tcp demo_tcp 5000; demo_round demo_tcp "" 6000; demo_round "" "" 7000]).1
  = [PortOpened 8080 77 "node"; ProcessSnapshot []; PortClosed 8080].
Proof. vm_compute. reflexivity. Qed.

Example process_entry_example :
  process_entry 1000 900 ∅ 42
    (Some "42 (my app) S 7 0 0 0 0 0 0 0 0 0 150 50 0 0 0 0 0 0 1000 0 0") (Some "VmRSS:  1234 kB")
  = Ok (Some {| pe_pid := 42; pe_ppid := 7; pe_name := "my app";
                pe_cpu_percent := f32_mul (f32_div (f32_of_u64 2) (f32_of_u64 90)) (f32_of_u64 100);
                pe_mem_kb := 1234; pe_runtime_secs := 90; pe_port := None |}).
Proof. vm_compute. reflexivity. Qed.
