(* ===== verification/PortForward.v ===== *)
(** A forwarded port, from the host's client to the service in the guest:
    port_forward_accept_loop and port_forward_bridge of crates/clawcage-app/src/commands.rs,
    and relay_worker of crates/clawcage-agent/src/port_watch.rs.

    The three connections of a bridge (client and host, host and worker, worker and service)
    are pairs of pipes that remember all that was written to them. An iteration of one of the
    four copying loops is a step, and so is what the ends do; steps interleave freely
    ([step]). What arrives is always a prefix of what was sent ([bridge_prefix]), all of it
    when nothing is left to do ([bridge_quiescent], [bridge_progress]), and all of an answer
    before its end ([answer_complete]) unless the client ends its own direction first
    (example [half_close_loses_answer]). *)

From Stdlib Require Import ZArith Lia Strings.Byte.
From stdpp Require Import base numbers list strings relations.
From S2P Require Import Prelude.

(** ** The accept loop *)

(** A client that is accepted, and what the wait for a relay connection gives: one, the end of
    the channel, or nothing in ten seconds. *)
Inductive RelayWait := Relay (fd : Z) | ChannelClosed | TimedOut.

(** The clients that are bridged, each with its relay connection; [Err] is a failed accept. *)
Fixpoint port_forward_accept_loop (accepts : list (result Z string)) (waits : list RelayWait) : list (Z * Z) :=
  match accepts, waits with
  | Ok client :: accepts, Relay fd :: waits => (client, fd) :: port_forward_accept_loop accepts waits
  | Ok _ :: accepts, TimedOut :: waits => port_forward_accept_loop accepts waits
  | _, _ => []
  end.

(** ** Pipes *)

(** All that was written, how much of it was read, and whether the writer and the reader have
    shut their ends. *)
Record Pipe := { sent : list byte; taken : nat; fin : bool; rshut : bool }.

Definition empty_pipe : Pipe := {| sent := []; taken := 0; fin := false; rshut := false |}.
Definition avail (p : Pipe) : list byte := drop (taken p) (sent p).
Definition write (p : Pipe) (l : list byte) : Pipe := {| sent := sent p ++ l; taken := taken p; fin := fin p; rshut := rshut p |}.
Definition advance (p : Pipe) (n : nat) : Pipe := {| sent := sent p; taken := taken p + n; fin := fin p; rshut := rshut p |}.
Definition shut_write (p : Pipe) : Pipe := {| sent := sent p; taken := taken p; fin := true; rshut := rshut p |}.
Definition shut_read (p : Pipe) : Pipe := {| sent := sent p; taken := taken p; fin := fin p; rshut := true |}.

(** A read finds the end of a pipe when nothing is left and one of the ends is shut. *)
Definition at_end (p : Pipe) : Prop := avail p = [] /\ (fin p = true \/ rshut p = true).

(** ** A bridge *)

Inductive Worker := ReadingPort | Bridging (port : Z) | WorkerClosed.

Record Bridge := {
  client_out : Pipe; client_in : Pipe;   (* the client's connection to the host *)
  h2g : Pipe; g2h : Pipe;                (* the relay connection *)
  w2s : Pipe; s2w : Pipe;                (* the worker's connection to the service *)
  started : bool;                        (* the host has sent the port *)
  host_out : bool; host_in : bool;       (* the two directions of copy_bidirectional go on *)
  worker : Worker;
  v2t : bool; t2v : bool;                (* the worker's two loops go on *)
  broken : bool;                         (* a write or a connect has failed *)
}.

Definition bridge_new : Bridge := {|
  client_out := empty_pipe; client_in := empty_pipe; h2g := empty_pipe; g2h := empty_pipe; w2s := empty_pipe; s2w := empty_pipe;
  started := false; host_out := true; host_in := true; worker := ReadingPort; v2t := true; t2v := true; broken := false |}.

Definition upd_client (b : Bridge) (out inn : Pipe) : Bridge := {| client_out := out; client_in := inn; h2g := h2g b; g2h := g2h b; w2s := w2s b; s2w := s2w b;
  started := started b; host_out := host_out b; host_in := host_in b; worker := worker b; v2t := v2t b; t2v := t2v b; broken := broken b |}.
Definition upd_relay (b : Bridge) (out inn : Pipe) : Bridge := {| client_out := client_out b; client_in := client_in b; h2g := out; g2h := inn; w2s := w2s b; s2w := s2w b;
  started := started b; host_out := host_out b; host_in := host_in b; worker := worker b; v2t := v2t b; t2v := t2v b; broken := broken b |}.
Definition upd_service (b : Bridge) (out inn : Pipe) : Bridge := {| client_out := client_out b; client_in := client_in b; h2g := h2g b; g2h := g2h b; w2s := out; s2w := inn;
  started := started b; host_out := host_out b; host_in := host_in b; worker := worker b; v2t := v2t b; t2v := t2v b; broken := broken b |}.
Definition upd_host (b : Bridge) (st out inn : bool) : Bridge := {| client_out := client_out b; client_in := client_in b; h2g := h2g b; g2h := g2h b; w2s := w2s b; s2w := s2w b;
  started := st; host_out := out; host_in := inn; worker := worker b; v2t := v2t b; t2v := t2v b; broken := broken b |}.
Definition upd_worker (b : Bridge) (w : Worker) (v t : bool) : Bridge := {| client_out := client_out b; client_in := client_in b; h2g := h2g b; g2h := g2h b; w2s := w2s b; s2w := s2w b;
  started := started b; host_out := host_out b; host_in := host_in b; worker := w; v2t := v; t2v := t; broken := broken b |}.
Definition set_broken (b : Bridge) : Bridge := {| client_out := client_out b; client_in := client_in b; h2g := h2g b; g2h := g2h b; w2s := w2s b; s2w := s2w b;
  started := started b; host_out := host_out b; host_in := host_in b; worker := worker b; v2t := v2t b; t2v := t2v b; broken := true |}.

(** *** The host: port_forward_bridge *)

Definition send_port (guest_port : Z) (b : Bridge) : Bridge := upd_host (upd_relay b (write (h2g b) (to_be_bytes 2 guest_port)) (g2h b)) true (host_out b) (host_in b).

Definition host_copy_out (n : nat) (b : Bridge) : Bridge :=
  let chunk := take n (avail (client_out b)) in
  upd_relay (upd_client b (advance (client_out b) (length chunk)) (client_in b)) (write (h2g b) chunk) (g2h b).
Definition host_end_out (b : Bridge) : Bridge := upd_host (upd_relay b (shut_write (h2g b)) (g2h b)) (started b) false (host_in b).

Definition host_copy_in (n : nat) (b : Bridge) : Bridge :=
  let chunk := take n (avail (g2h b)) in
  upd_client (upd_relay b (h2g b) (advance (g2h b) (length chunk))) (client_out b) (write (client_in b) chunk).
Definition host_end_in (b : Bridge) : Bridge := upd_host (upd_client b (client_out b) (shut_write (client_in b))) (started b) (host_out b) false.

(** Both streams are closed, when both directions have ended or one has failed. *)
Definition host_close (b : Bridge) : Bridge :=
  upd_host (upd_relay (upd_client b (shut_read (client_out b)) (shut_write (client_in b))) (shut_write (h2g b)) (shut_read (g2h b))) (started b) false false.

(** The client has gone: what was read is lost. *)
Definition host_lose_in (n : nat) (b : Bridge) : Bridge :=
  set_broken (host_close (upd_relay b (h2g b) (advance (g2h b) (length (take n (avail (g2h b))))))).

(** *** The guest: relay_worker *)

Definition worker_port (b : Bridge) : Z := from_be_bytes (take 2 (avail (h2g b))).

Definition worker_connect (b : Bridge) : Bridge := upd_worker (upd_relay b (advance (h2g b) 2) (g2h b)) (Bridging (worker_port b)) (v2t b) (t2v b).

(** Nothing listens on the port: the relay connection is closed. *)
Definition worker_refused (b : Bridge) : Bridge := set_broken (upd_worker (upd_relay b (shut_read (advance (h2g b) 2)) (shut_write (g2h b))) WorkerClosed false false).

(** The connection ends before its two bytes. *)
Definition worker_no_port (b : Bridge) : Bridge := set_broken (upd_worker (upd_relay b (shut_read (h2g b)) (shut_write (g2h b))) WorkerClosed false false).

Definition v2t_copy (n : nat) (b : Bridge) : Bridge :=
  let chunk := take n (avail (h2g b)) in
  upd_service (upd_relay b (advance (h2g b) (length chunk)) (g2h b)) (write (w2s b) chunk) (s2w b).

(** Both directions of the connection to the service are shut. *)
Definition v2t_end (b : Bridge) : Bridge := upd_worker (upd_service b (shut_write (w2s b)) (shut_read (s2w b))) (worker b) false (t2v b).

(** The service has gone: what was read is lost. *)
Definition v2t_fail (n : nat) (b : Bridge) : Bridge :=
  v2t_end (set_broken (upd_relay b (advance (h2g b) (length (take n (avail (h2g b))))) (g2h b))).

Definition t2v_copy (n : nat) (b : Bridge) : Bridge :=
  let chunk := take n (avail (s2w b)) in
  upd_relay (upd_service b (w2s b) (advance (s2w b) (length chunk))) (h2g b) (write (g2h b) chunk).

(** The relay connection is shut, so that the other loop ends. *)
Definition t2v_end (b : Bridge) : Bridge := upd_worker (upd_relay b (shut_read (h2g b)) (shut_write (g2h b))) (worker b) (v2t b) false.

Definition t2v_fail (n : nat) (b : Bridge) : Bridge :=
  t2v_end (set_broken (upd_service b (w2s b) (advance (s2w b) (length (take n (avail (s2w b))))))).

Definition worker_close (b : Bridge) : Bridge := upd_worker (upd_service b (shut_write (w2s b)) (shut_read (s2w b))) WorkerClosed (v2t b) (t2v b).

Definition HOST_BUF : nat := Z.to_nat 8192.
Definition WORKER_BUF : nat := Z.to_nat 65536.

(** A buffer of size [buf] takes [n] bytes of a pipe. *)
Definition readable (buf n : nat) (p : Pipe) : Prop := (1 <= n <= buf)%nat /\ avail p <> [].

(** What the copying does. *)
Inductive copying (guest_port : Z) : Bridge -> Bridge -> Prop :=
| do_send_port b : started b = false -> host_out b = true -> copying guest_port b (send_port guest_port b)
| do_host_out b n : started b = true -> host_out b = true -> rshut (h2g b) = false -> readable HOST_BUF n (client_out b) -> copying guest_port b (host_copy_out n b)
| do_host_in b n : started b = true -> host_in b = true -> readable HOST_BUF n (g2h b) -> copying guest_port b (host_copy_in n b)
| do_connect b : worker b = ReadingPort -> (2 <= length (avail (h2g b)))%nat -> copying guest_port b (worker_connect b)
| do_v2t b n port : worker b = Bridging port -> v2t b = true -> readable WORKER_BUF n (h2g b) -> copying guest_port b (v2t_copy n b)
| do_t2v b n port : worker b = Bridging port -> t2v b = true -> readable WORKER_BUF n (s2w b) -> copying guest_port b (t2v_copy n b).

(** The ends of the loops, and failures: of a write to a relay connection the worker has shut,
    to a client or a service that has gone or to a host that has, and of the connect. A read of
    the relay connection that was shut finds its end whatever is left. *)
Inductive closing : Bridge -> Bridge -> Prop :=
| do_host_end_out b : started b = true -> host_out b = true -> at_end (client_out b) -> closing b (host_end_out b)
| do_host_end_in b : started b = true -> host_in b = true -> at_end (g2h b) -> closing b (host_end_in b)
| do_host_close b : host_out b = false -> host_in b = false -> closing b (host_close b)
| do_port_fail b : started b = false -> host_out b = true -> closing b (set_broken (host_close b))
| do_host_fail b : started b = true -> host_out b = true -> rshut (h2g b) = true -> avail (client_out b) <> [] -> closing b (set_broken (host_close b))
| do_client_fail b n : started b = true -> host_in b = true -> rshut (client_in b) = true -> readable HOST_BUF n (g2h b) -> closing b (host_lose_in n b)
| do_port_eof b : worker b = ReadingPort -> (length (avail (h2g b)) < 2)%nat -> fin (h2g b) = true -> closing b (worker_no_port b)
| do_refused b : worker b = ReadingPort -> (2 <= length (avail (h2g b)))%nat -> closing b (worker_refused b)
| do_v2t_end b port : worker b = Bridging port -> v2t b = true -> at_end (h2g b) \/ rshut (h2g b) = true -> closing b (v2t_end b)
| do_v2t_fail b n port : worker b = Bridging port -> v2t b = true -> readable WORKER_BUF n (h2g b) -> closing b (v2t_fail n b)
| do_t2v_end b port : worker b = Bridging port -> t2v b = true -> at_end (s2w b) -> closing b (t2v_end b)
| do_t2v_fail b n port : worker b = Bridging port -> t2v b = true -> rshut (g2h b) = true -> readable WORKER_BUF n (s2w b) -> closing b (t2v_fail n b)
| do_worker_close b port : worker b = Bridging port -> v2t b = false -> t2v b = false -> closing b (worker_close b).

(** The client and the service send, and end their directions. *)
Inductive ends : Bridge -> Bridge -> Prop :=
| client_sends b l : fin (client_out b) = false -> ends b (upd_client b (write (client_out b) l) (client_in b))
| client_ends b : ends b (upd_client b (shut_write (client_out b)) (client_in b))
| client_leaves b : ends b (upd_client b (shut_write (client_out b)) (shut_read (client_in b)))
| service_sends b l port : worker b = Bridging port -> fin (s2w b) = false -> ends b (upd_service b (w2s b) (write (s2w b) l))
| service_ends b port : worker b = Bridging port -> ends b (upd_service b (w2s b) (shut_write (s2w b))).

Definition step (guest_port : Z) (b b' : Bridge) : Prop := copying guest_port b b' \/ closing b b' \/ ends b b'.

(** ** What arrives is a prefix of what was sent *)

Record wf (guest_port : Z) (b : Bridge) : Prop := {
  wf_taken : (taken (client_out b) <= length (sent (client_out b)) /\ taken (h2g b) <= length (sent (h2g b)) /\
              taken (g2h b) <= length (sent (g2h b)) /\ taken (s2w b) <= length (sent (s2w b)))%nat;
  wf_h2g : sent (h2g b) = if started b then to_be_bytes 2 guest_port ++ take (taken (client_out b)) (sent (client_out b)) else [];
  wf_start : started b = false -> taken (client_out b) = 0%nat;
  wf_w2s : sent (w2s b) `prefix_of` drop 2 (sent (h2g b));
  wf_v2t : v2t b = true -> sent (w2s b) = drop 2 (take (taken (h2g b)) (sent (h2g b)));
  wf_worker : match worker b with ReadingPort => taken (h2g b) = 0%nat | Bridging p => p = guest_port mod 65536 /\ (2 <= taken (h2g b))%nat | WorkerClosed => v2t b = false end;
  wf_g2h : sent (g2h b) `prefix_of` sent (s2w b);
  wf_t2v : t2v b = true -> sent (g2h b) = take (taken (s2w b)) (sent (s2w b));
  wf_client_in : sent (client_in b) `prefix_of` sent (g2h b);
  wf_host_in : host_in b = true -> sent (client_in b) = take (taken (g2h b)) (sent (g2h b));
}.

Lemma wf_new guest_port : wf guest_port bridge_new.
Proof. by split; cbn; try lia. Qed.

(** Moving what a buffer takes from one pipe to the next. *)
Lemma take_move n p : (taken p <= length (sent p))%nat -> take (taken p + length (take n (avail p))) (sent p) = take (taken p) (sent p) ++ take n (avail p).
Proof.
  intros Hp. unfold avail. rewrite <- (take_take_drop (sent p) (taken p) (length (take n (drop (taken p) (sent p))))). f_equal.
  rewrite length_take. set (l := drop (taken p) (sent p)). destruct (Nat.le_ge_cases n (length l)).
  - by rewrite Nat.min_l.
  - rewrite Nat.min_r by done. by rewrite !take_ge.
Qed.

Lemma move_le n p : (taken p <= length (sent p))%nat -> (taken p + length (take n (avail p)) <= length (sent p))%nat.
Proof. intros Hp. rewrite length_take. unfold avail. rewrite length_drop. lia. Qed.

Lemma take_grow {A} n (l k : list A) : (n <= length l)%nat -> take n (l ++ k) = take n l.
Proof. apply take_app_le. Qed.

Lemma prefix_take {A} n (l : list A) : take n l `prefix_of` l.
Proof. exists (drop n l). by rewrite take_drop. Qed.

Lemma prefix_drop_grow {A} n (w l k : list A) : w `prefix_of` drop n l -> w `prefix_of` drop n (l ++ k).
Proof. intros H. rewrite drop_app. by apply prefix_app_r. Qed.

Lemma prefix_drop_take {A} n k (l : list A) : drop n (take k l) `prefix_of` drop n l.
Proof. rewrite <- (take_drop k l) at 2. apply prefix_drop_grow. done. Qed.

Lemma wf_copying guest_port b b' : wf guest_port b -> copying guest_port b b' -> wf guest_port b'.
Proof.
  intros [(Hc & Hh & Hg & Hs) H2 H3 H4 H5 H6 H7 H8 H9 H10] Hstep. destruct Hstep as [b Hst Ho|b n Hst Ho _ _|b n Hst Hi _|b Hw Hl|b n port Hw Hv _|b n port Hw Ht _].
  - rewrite Hst in H2. split; cbn; try done.
    + rewrite length_app. lia.
    + rewrite H2. by rewrite (H3 Hst).
    + by apply prefix_drop_grow.
    + intros Hv. by rewrite (H5 Hv), take_grow.
  - rewrite Hst in H2. split; cbn; try done.
    + rewrite length_app. pose proof (move_le n _ Hc). lia.
    + rewrite Hst, take_move, H2 by done. by rewrite <- app_assoc.
    + by rewrite Hst.
    + by apply prefix_drop_grow.
    + intros Hv. by rewrite (H5 Hv), take_grow.
  - split; cbn; try done.
    + pose proof (move_le n _ Hg). lia.
    + rewrite (H10 Hi), <- take_move by done. apply prefix_take.
    + intros _. by rewrite take_move, (H10 Hi).
  - rewrite Hw in H6. split; cbn; try done.
    + unfold avail in Hl. rewrite length_drop in Hl. lia.
    + intros Hv. rewrite (H5 Hv), H6, take_0, drop_nil. symmetry. apply drop_ge. rewrite length_take. lia.
    + split; [|lia]. unfold worker_port, avail in *. rewrite H6 in *. rewrite drop_0 in *.
      destruct (started b); [|by rewrite H2 in Hl; cbn in Hl; lia]. rewrite H2, (take_app_length' (to_be_bytes 2 guest_port)) by done. apply from_to_be_bytes.
  - rewrite Hw in H6. destruct H6 as [H6 H6']. assert (sent (w2s b) ++ take n (avail (h2g b)) = drop 2 (take (taken (h2g b) + length (take n (avail (h2g b)))) (sent (h2g b)))) as Hmove
      by (rewrite (H5 Hv), take_move, drop_app_le by (rewrite ?length_take; lia); done). split; cbn; try done.
    + pose proof (move_le n _ Hh). lia.
    + rewrite Hmove. apply prefix_drop_take.
    + rewrite Hw. split; [done|lia].
  - split; cbn; try done.
    + rewrite length_app. pose proof (move_le n _ Hs). lia.
    + rewrite (H8 Ht), <- take_move by done. apply prefix_take.
    + intros _. by rewrite take_move, (H8 Ht).
    + by apply prefix_app_r.
    + intros Hi. by rewrite (H10 Hi), take_grow.
Qed.

Lemma wf_closing guest_port b b' : wf guest_port b -> closing b b' -> wf guest_port b'.
Proof.
  intros [(Hc & Hh & Hg & Hs) H2 H3 H4 H5 H6 H7 H8 H9 H10] Hstep.
  assert (forall n, taken (h2g b) + length (take n (avail (h2g b))) <= length (sent (h2g b)))%nat as Mh by (intros n; by apply move_le).
  assert (forall n, taken (g2h b) + length (take n (avail (g2h b))) <= length (sent (g2h b)))%nat as Mg by (intros n; by apply move_le).
  assert (forall n, taken (s2w b) + length (take n (avail (s2w b))) <= length (sent (s2w b)))%nat as Ms by (intros n; by apply move_le).
  destruct Hstep; try match goal with H : worker _ = _ |- _ => rewrite H in H6 end.
  all: split; cbn in *; try done; try match goal with H : worker _ = _ |- context [worker _] => rewrite H end; try lia.
  unfold avail in *. rewrite length_drop in *. lia.
Qed.

Lemma wf_ends guest_port b b' : wf guest_port b -> ends b b' -> wf guest_port b'.
Proof.
  intros [(Hc & Hh & Hg & Hs) H2 H3 H4 H5 H6 H7 H8 H9 H10] Hstep. destruct Hstep; split; cbn in *; try done; rewrite ?length_app, ?take_grow by done; try done; try lia; by apply prefix_app_r.
Qed.

Lemma wf_step guest_port b b' : wf guest_port b -> step guest_port b b' -> wf guest_port b'.
Proof. intros Hw [H|[H|H]]; [by eapply wf_copying|by eapply wf_closing|by eapply wf_ends]. Qed.

Lemma wf_steps guest_port b b' : wf guest_port b -> rtc (step guest_port) b b' -> wf guest_port b'.
Proof. intros Hw Hs. induction Hs; [done|]. eauto using wf_step. Qed.

(** However the four loops, the client and the service interleave, and whatever fails: the
    service has received a prefix of what the client has sent, without the bytes of the port,
    the client a prefix of what the service has sent, and the worker is connected to the
    forwarded port. *)
Theorem bridge_prefix (guest_port : Z) (b : Bridge) (Hrun : rtc (step guest_port) bridge_new b) :
  sent (w2s b) `prefix_of` sent (client_out b) /\ sent (client_in b) `prefix_of` sent (s2w b) /\
  (forall p, worker b = Bridging p -> p = guest_port mod 65536).
Proof.
  destruct (wf_steps _ _ _ (wf_new guest_port) Hrun) as [_ H2 _ H4 _ H6 H7 _ H9 _]. split; [|split; [by etrans|]].
  - etrans; [exact H4|]. rewrite H2. destruct (started b); [|apply prefix_nil]. rewrite drop_app_length' by done. apply prefix_take.
  - intros p Hp. rewrite Hp in H6. by destruct H6.
Qed.

(** ** Delivery *)

(** Nothing has been closed. *)
Definition open (b : Bridge) : Prop := host_out b = true /\ host_in b = true /\ v2t b = true /\ t2v b = true /\ worker b <> WorkerClosed /\ rshut (h2g b) = false.

(** The moves that are left: a byte of the client or the service has two to go. *)
Definition backlog (b : Bridge) : nat :=
  (2 * length (avail (client_out b)) + length (avail (h2g b)) + 2 * length (avail (s2w b)) + length (avail (g2h b)) + if started b then 0 else 3)%nat.

Lemma host_one p : avail p <> [] -> readable HOST_BUF 1 p.
Proof. split; [split; [done|]|done]. apply Nat.leb_le. vm_compute. reflexivity. Qed.

Lemma worker_one p : avail p <> [] -> readable WORKER_BUF 1 p.
Proof. split; [split; [done|]|done]. apply Nat.leb_le. vm_compute. reflexivity. Qed.

Lemma avail_nil p : (taken p <= length (sent p))%nat -> avail p = [] -> take (taken p) (sent p) = sent p.
Proof. intros Hp Ha. unfold avail in Ha. rewrite <- (take_drop (taken p) (sent p)) at 2. by rewrite Ha, app_nil_r. Qed.

(** When no copying is possible everything has arrived. *)
Lemma quiescent_delivered guest_port b : wf guest_port b -> open b -> (forall b', ~ copying guest_port b b') ->
  sent (w2s b) = sent (client_out b) /\ sent (client_in b) = sent (s2w b).
Proof.
  intros [(Hc & Hh & Hg & Hs) H2 H3 H4 H5 H6 H7 H8 H9 H10] (Ho & Hi & Hv & Ht & Hw & Hr) Hno.
  destruct (started b) eqn:Hst; [|by destruct (Hno _ (do_send_port _ b Hst Ho))].
  assert (forall p, {avail p = [] } + {avail p <> [] }) as dec by (intros p; destruct (avail p); [by left|by right]).
  destruct (dec (client_out b)) as [Hac|Hac]; [|by destruct (Hno _ (do_host_out _ b 1 Hst Ho Hr (host_one _ Hac)))].
  destruct (dec (g2h b)) as [Hag|Hag]; [|by destruct (Hno _ (do_host_in _ b 1 Hst Hi (host_one _ Hag)))].
  destruct (worker b) as [|port|] eqn:Hwk; [|clear Hw|done].
  - destruct (Hno _ (do_connect _ b Hwk ltac:(unfold avail; rewrite H6, drop_0, H2, length_app, to_be_bytes_length; lia))).
  - destruct (dec (h2g b)) as [Hah|Hah]; [|by destruct (Hno _ (do_v2t _ b 1 port Hwk Hv (worker_one _ Hah)))].
    destruct (dec (s2w b)) as [Has|Has]; [|by destruct (Hno _ (do_t2v _ b 1 port Hwk Ht (worker_one _ Has)))].
    rewrite (H5 Hv), (H10 Hi), !avail_nil by done. rewrite H2, (H8 Ht), !avail_nil by done. done.
Qed.

Lemma copying_open guest_port b b' : open b -> copying guest_port b b' -> open b' /\ sent (client_out b') = sent (client_out b) /\ sent (s2w b') = sent (s2w b).
Proof. intros Hb Hs. unfold open in *. destruct Hs; cbn in *; by naive_solver. Qed.

Lemma avail_write p l : (taken p <= length (sent p))%nat -> avail (write p l) = avail p ++ l.
Proof. intros Hp. unfold avail, write. cbn. by rewrite drop_app_le. Qed.

Lemma avail_advance p n : length (avail (advance p (length (take n (avail p))))) = (length (avail p) - length (take n (avail p)))%nat.
Proof. unfold avail, advance. cbn. rewrite !length_drop. lia. Qed.

Lemma took_one buf n p : readable buf n p -> (1 <= length (take n (avail p)) <= length (avail p))%nat.
Proof. intros [Hn Ha]. rewrite length_take. destruct (avail p); [done|]. cbn [length]. lia. Qed.

Lemma copying_decreases guest_port b b' : wf guest_port b -> copying guest_port b b' -> (backlog b' < backlog b)%nat.
Proof.
  intros [(Hc & Hh & Hg & Hs) _ _ _ _ _ _ _ _ _] Hstep. unfold backlog. destruct Hstep as [b Hst Ho|b n Hst _ _ Hr|b n Hst _ Hr|b _ Hl|b n port _ _ Hr|b n port _ _ Hr];
    try pose proof (took_one _ _ _ Hr); cbn [client_out h2g s2w g2h started send_port host_copy_out host_copy_in worker_connect v2t_copy t2v_copy upd_host upd_relay upd_client upd_worker upd_service];
    rewrite ?Hst, ?avail_write, ?length_app, ?avail_advance, ?to_be_bytes_length by done; try lia.
  unfold avail, advance in *. cbn. rewrite !length_drop in *. lia.
Qed.

(** C28: As long as nothing is closed the copying cannot go on for ever, and whatever way it goes,
    when nothing is left to copy the service has received all that the client has sent and
    the client all that the service has. *)
Theorem bridge_delivery (guest_port : Z) (b : Bridge) (Hrun : rtc (step guest_port) bridge_new b) (Hopen : open b) :
  (forall k b', nsteps (copying guest_port) k b b' -> (k <= backlog b)%nat) /\
  (forall b', rtc (copying guest_port) b b' -> (forall b'', ~ copying guest_port b' b'') -> sent (w2s b') = sent (client_out b) /\ sent (client_in b') = sent (s2w b)).
Proof.
  pose proof (wf_steps _ _ _ (wf_new guest_port) Hrun) as Hwf. clear Hrun. split.
  - intros k. revert b Hwf Hopen. induction k as [|k IH]; intros b Hwf Hopen b' Hk; [lia|]. inversion Hk as [|? ? b1 ? H1 H2]; subst.
    pose proof (copying_decreases _ _ _ Hwf H1). specialize (IH b1 (wf_copying _ _ _ Hwf H1) (proj1 (copying_open _ _ _ Hopen H1)) b' H2). lia.
  - intros b' Hs. induction Hs as [b|b b1 b' H1 _ IH]; intros Hno; [by apply (quiescent_delivered guest_port)|].
    destruct (copying_open _ _ _ Hopen H1) as (Ho & <- & <-). apply IH; [done|by eapply wf_copying|done].
Qed.

(** ** The end of an answer *)

(** As long as the client goes on and nothing fails, each end that is shut on the way back was
    shut after the one before it, with everything handed over. *)
Record orderly (b : Bridge) : Prop := {
  or_host_out : host_out b = true /\ rshut (client_out b) = false;
  or_h2g : fin (h2g b) = false;
  or_h2g_read : rshut (h2g b) = true -> t2v b = false;
  or_v2t : v2t b = false -> t2v b = false;
  or_s2w_read : rshut (s2w b) = true -> t2v b = false;
  or_t2v : t2v b = false -> fin (s2w b) = true /\ sent (g2h b) = sent (s2w b);
  or_g2h : fin (g2h b) = true -> t2v b = false;
  or_g2h_read : rshut (g2h b) = false;
  or_host_in : host_in b = false -> fin (g2h b) = true /\ sent (client_in b) = sent (g2h b);
  or_client_in : fin (client_in b) = true -> host_in b = false;
}.

Definition orderly_or (b : Bridge) : Prop := fin (client_out b) = true \/ broken b = true \/ orderly b.

Lemma orderly_new : orderly_or bridge_new.
Proof. do 2 right. by split. Qed.

Lemma orderly_copying guest_port b b' : wf guest_port b -> orderly_or b -> copying guest_port b b' -> orderly_or b'.
Proof.
  intros Hwf [H|[H|H]] Hs; [left; by destruct Hs|right; left; by destruct Hs|]. do 2 right. destruct H as [[O1 O1'] O2 O3 O4 O5 O6 O7 O8 O9 O10].
  destruct Hs; split; cbn in *; try done; try (intros ?; congruence).
  intros Hi. destruct (O9 Hi) as [Hf _]. specialize (O7 Hf). congruence.
Qed.

Lemma orderly_closing guest_port b b' : wf guest_port b -> orderly_or b -> closing b b' -> orderly_or b'.
Proof.
  intros Hwf [H|[H|H]] Hs; [left; by destruct Hs|right; left; by destruct Hs|]. destruct H as [[O1 O1'] O2 O3 O4 O5 O6 O7 O8 O9 O10]. destruct Hwf as [(Hc & Hh & Hg & Hs') _ _ _ _ _ _ W8 _ W10].
  destruct Hs as [b _ Ho [_ [Ha|Ha]]|b _ Hi [Ha Hf]|b Ho Hi|b|b|b|b|b|b port Hw Hv Ha|b|b port Hw Ht [Ha Hf]|b|b port Hw Hv Ht]; try (right; left; done); [by left|congruence| |congruence| | |].
  all: do 2 right; split; cbn in *; try done.
  - intros _. destruct Hf as [Hf|Hf]; [|congruence]. by rewrite (W10 Hi), avail_nil.
  - intros _. apply O3. by destruct Ha as [[_ [Ha|Ha]]|Ha]; [congruence|..].
  - intros _. apply O3. by destruct Ha as [[_ [Ha|Ha]]|Ha]; [congruence|..].
  - intros _. destruct Hf as [Hf|Hf]; [|specialize (O5 Hf); congruence]. by rewrite (W8 Ht), avail_nil.
  - intros Hi. destruct (O9 Hi). by split.
Qed.

Lemma orderly_ends b b' : orderly_or b -> ends b b' -> orderly_or b'.
Proof.
  intros [H|[H|H]] Hs; [left; by destruct Hs|right; left; by destruct Hs|]. destruct H as [[O1 O1'] O2 O3 O4 O5 O6 O7 O8 O9 O10].
  destruct Hs as [b l _|b|b|b l port _ Hf|b port _]; [|by left|by left|..]; do 2 right; split; cbn in *; try done.
  - intros Ht. destruct (O6 Ht). congruence.
  - intros Ht. by destruct (O6 Ht).
Qed.

Lemma orderly_steps guest_port b b' : wf guest_port b -> orderly_or b -> rtc (step guest_port) b b' -> orderly_or b'.
Proof.
  intros Hw Ho Hs. induction Hs as [|b b1 b' H1 _ IH]; [done|]. apply IH; [by eapply wf_step|].
  destruct H1 as [H1|[H1|H1]]; [by eapply orderly_copying|by eapply orderly_closing|by eapply orderly_ends].
Qed.

(** When the client sees the end of an answer, has not ended its own direction and nothing has
    failed, it has all that the service has sent before it ended its direction. *)
Theorem answer_complete (guest_port : Z) (b : Bridge) (Hrun : rtc (step guest_port) bridge_new b)
    (Hend : fin (client_in b) = true) (Hclient : fin (client_out b) = false) (Hok : broken b = false) :
  fin (s2w b) = true /\ sent (client_in b) = sent (s2w b).
Proof.
  destruct (orderly_steps _ _ _ (wf_new guest_port) orderly_new Hrun) as [H|[H|[_ _ _ _ _ O6 O7 _ O9 O10]]]; [congruence..|].
  destruct (O9 (O10 Hend)) as [Hf ->]. by apply O6, O7.
Qed.

(** ** A browser *)

Module Demo.

Definition query : list byte := [x47; x45; x54].
Definition answer : list byte := [x32; x30; x30].
Definition conn (port : Z) : Bridge := worker_connect (send_port port bridge_new).

Lemma connected port : rtc (step port) bridge_new (conn port).
Proof.
  eapply rtc_l; [left; by apply do_send_port|]. eapply rtc_l; [left; apply do_connect; [done|vm_compute; lia]|]. apply rtc_refl.
Qed.

(** A request that has reached the service, and its answer, with the client's end. *)
Definition asked (b : Bridge) : Bridge := v2t_copy 100 (host_copy_out 100 (upd_client b (write (client_out b) query) (client_in b))).
Definition answered (b : Bridge) : Bridge := upd_service b (w2s b) (shut_write (write (s2w b) answer)).
Definition returned (b : Bridge) : Bridge := host_end_in (host_copy_in 100 (t2v_end (t2v_copy 100 b))).
Definition half_closed (b : Bridge) : Bridge := t2v_end (v2t_end (host_end_out (upd_client b (shut_write (client_out b)) (client_in b)))).

Tactic Notation "copies" uconstr(t) := left; apply t; try (split; [split; apply Nat.leb_le|]); vm_compute; done.

Lemma asked_run : rtc (step 80) bridge_new (asked (conn 80)).
Proof.
  etrans; [apply (connected 80)|]. eapply rtc_l; [right; right; by apply (client_sends _ query)|].
  eapply rtc_l; [copies (do_host_out 80 _ 100)|]. eapply rtc_l; [copies (do_v2t 80 _ 100 80)|]. apply rtc_refl.
Qed.

Lemma answered_run b : worker b = Bridging 80 -> fin (s2w b) = false -> rtc (step 80) b (answered b).
Proof.
  intros Hw Hf. eapply rtc_l; [right; right; by apply (service_sends _ answer 80)|]. eapply rtc_l; [right; right; by apply (service_ends _ 80)|]. apply rtc_refl.
Qed.

Lemma complete_run : rtc (step 80) bridge_new (returned (answered (asked (conn 80)))).
Proof.
  etrans; [apply asked_run|]. etrans; [by apply answered_run|]. eapply rtc_l; [copies (do_t2v 80 _ 100 80)|].
  eapply rtc_l; [right; left; apply (do_t2v_end _ 80); [done|done|vm_compute; by split; [|left]]|].
  eapply rtc_l; [copies (do_host_in 80 _ 100)|]. eapply rtc_l; [right; left; apply do_host_end_in; [done|done|vm_compute; by split; [|left]]|]. apply rtc_refl.
Qed.

Example answer_returned : sent (client_in (returned (answered (asked (conn 80))))) = answer.
Proof. vm_compute. reflexivity. Qed.

(** A client that ends its direction after the request: the worker then shuts both directions
    of the connection to the service, finds the end of what the service has sent so far and
    shuts the relay connection. The service's answer is lost, and the client sees an empty
    answer that has ended. *)
Example half_close_loses_answer : exists b, rtc (step 80) bridge_new b /\ sent (w2s b) = query /\ sent (s2w b) = answer /\
  sent (client_in b) = [] /\ fin (client_in b) = true /\ t2v b = false /\ broken b = false.
Proof.
  exists (host_end_in (answered (half_closed (asked (conn 80))))). split; [|vm_compute; done]. etrans; [apply asked_run|].
  eapply rtc_l; [right; right; apply client_ends|]. eapply rtc_l; [right; left; apply do_host_end_out; [done|done|vm_compute; by split; [|left]]|].
  eapply rtc_l; [right; left; apply (do_v2t_end _ 80); [done|done|vm_compute; left; by split; [|left]]|].
  eapply rtc_l; [right; left; apply (do_t2v_end _ 80); [done|done|vm_compute; by split; [|right]]|].
  etrans; [by apply answered_run|]. eapply rtc_l; [right; left; apply do_host_end_in; [done|done|vm_compute; by split; [|left]]|]. apply rtc_refl.
Qed.

(** A client that finds no relay connection is dropped, and the loop goes on. *)
Example client_dropped : port_forward_accept_loop [Ok 1; Ok 2; Ok 3] [Relay 10; TimedOut; Relay 11] = [(1, 10); (3, 11)].
Proof. reflexivity. Qed.

End Demo.

Lemma bridge_prefix_witness : sent (w2s (Demo.asked (Demo.conn 80))) `prefix_of` Demo.query.
Proof. exact (proj1 (bridge_prefix 80 _ Demo.asked_run)). Defined.

Lemma bridge_delivery_witness : ~ (exists b', copying 80 (Demo.asked (Demo.conn 80)) b') /\ sent (w2s (Demo.asked (Demo.conn 80))) = Demo.query /\
  sent (client_in (Demo.asked (Demo.conn 80))) = [].
Proof.
  destruct (bridge_delivery 80 _ Demo.asked_run ltac:(repeat split; vm_compute; done)) as [H1 H2].
  assert (~ (exists b', copying 80 (Demo.asked (Demo.conn 80)) b')) as Hno by (intros [b' Hb]; specialize (H1 1%nat b' (nsteps_once _ _ Hb)); vm_compute in H1; lia).
  split; [exact Hno|]. destruct (H2 _ (rtc_refl _ _)) as [-> ->]; [intros b' Hb; apply Hno; by exists b'|]. by vm_compute.
Defined.

Lemma answer_complete_witness : sent (client_in (Demo.returned (Demo.answered (Demo.asked (Demo.conn 80))))) = Demo.answer.
Proof. destruct (answer_complete 80 _ Demo.complete_run eq_refl eq_refl eq_refl) as [_ ->]. reflexivity. Defined.
