(* ===== verification/FsWatch.v ===== *)
(** The guest's file watcher: crates/clawcage-agent/src/fs_watch.rs.

    [Instant]s are milliseconds. The directory tree and the sizes the watcher reads are
    arguments; inotify's watch descriptors are the paths of the watched directories. *)

From Stdlib Require Import ZArith Lia Ascii.
From stdpp Require Import base numbers list gmap strings.
From S2P Require Import Prelude RustStr Proto.

Definition EXCLUDED_DIRS : list string :=
  [".git"; "node_modules"; "__pycache__"; ".cache"; "target"; ".venv"; ".npm-global"; ".swapfile"].

Definition DEBOUNCE_MS : Z := 100.
Definition WATCH_ROOT : string := "/root".
Definition ROOT_PREFIX : string := "/root/".

Definition should_exclude_path (path : string) : bool :=
  existsb (fun component => bool_decide (component ∈ EXCLUDED_DIRS)) (split_char "/" path).

Definition strip_root_prefix (path : string) : string :=
  match strip_prefix ROOT_PREFIX path with
  | Some rel => rel
  | None => if bool_decide (path = WATCH_ROOT) then "" else path
  end.

(** ** Debouncing *)

Inductive DebouncedAction := Created | Modified | Deleted.

Record DebouncedEntry := { action : DebouncedAction; size : option Z; deadline : Z }.

Abbreviation Debouncer := (gmap string DebouncedEntry).

Definition record (d : Debouncer) (now : Z) (path : string) (a : DebouncedAction) (sz : option Z) : Debouncer :=
  <[path := {| action := a; size := sz; deadline := now + DEBOUNCE_MS |}]> d.

Abbreviation Flushed := (list (string * DebouncedAction * option Z)).

Definition flushed (d : Debouncer) : Flushed :=
  map (fun '(path, e) => (path, action e, size e)) (map_to_list d).

Definition flush_expired (d : Debouncer) (now : Z) : Flushed * Debouncer :=
  (flushed (filter (fun '(_, e) => deadline e <= now) d), filter (fun '(_, e) => ~ deadline e <= now) d).

Definition flush_all (d : Debouncer) : Flushed * Debouncer := (flushed d, ∅).

Definition next_deadline_ms (d : Debouncer) (now : Z) : option Z :=
  match map snd (map_to_list d) with
  | [] => None
  | e :: es => Some (fold_left (fun m e => Z.min m (Z.max 0 (deadline e - now))) es
                               (Z.max 0 (deadline e - now)))
  end.

Definition event_msg (f : string * DebouncedAction * option Z) : GuestToHost :=
  let '(path, a, sz) := f in
  match a with
  | Created => FileCreated path (default 0 sz)
  | Modified => FileModified path (default 0 sz)
  | Deleted => FileDeleted path
  end.

(** ** Scanning *)

Inductive Node := NFile (bytes : option Z) | NDir (entries : list (string * Node)) | NOther.

Definition child (dir name : string) : string := dir +:+ "/" +:+ name.

(** The initial scan of one entry; [scan_existing dir] scans the entries of [dir]. *)
Fixpoint scan_entry (path name : string) (n : Node) : list GuestToHost :=
  match n with
  | NDir entries =>
      if bool_decide (name = ".git") then [FileCreated (strip_root_prefix path) 0]
      else if should_exclude_path path then []
      else flat_map (fun '(name, n) => scan_entry (child path name) name n) entries
  | NFile bytes =>
      if should_exclude_path path then [] else [FileCreated (strip_root_prefix path) (default 0 bytes)]
  | NOther => []
  end.

Definition scan_existing (dir : string) (entries : list (string * Node)) : list GuestToHost :=
  flat_map (fun '(name, n) => scan_entry (child dir name) name n) entries.

(** The directories watched, where [add_watch] succeeds: a directory it fails on is
    skipped with everything below. *)
Fixpoint add_watches_recursive (add_watch_ok : string -> bool) (root : string) (n : Node) : list string :=
  match n with
  | NDir entries =>
      if should_exclude_path root then []
      else if negb (add_watch_ok root) then []
      else root :: flat_map (fun '(name, n) => add_watches_recursive add_watch_ok (child root name) n) entries
  | _ => []
  end.

(** ** One inotify event *)

Record Mask := {
  in_isdir : bool; in_create : bool; in_close_write : bool; in_delete : bool;
  in_moved_from : bool; in_moved_to : bool;
}.

Section Event.
Variable add_watch_ok : string -> bool.
Variable file_size : string -> option Z.      (* metadata(path).len() *)
Variable node_at : string -> option Node.      (* what read_dir shows at the path *)

Record Watcher := { watched : list string; debouncer : Debouncer }.

Definition with_record (w : Watcher) (now : Z) (path : string) (a : DebouncedAction) (sz : option Z) : Watcher :=
  {| watched := watched w; debouncer := record (debouncer w) now (strip_root_prefix path) a sz |}.

(** The scan of a new directory for what was created before its watch. *)
Definition scan_new_dir (w : Watcher) (now : Z) (dir : string) (entries : list (string * Node)) : Watcher :=
  fold_left (fun w '(name, n) =>
      match n with
      | NFile bytes => with_record w now (child dir name) Created (Some (default 0 bytes))
      | NDir _ => if bool_decide (name = ".git") then with_record w now (child dir name) Created (Some 0) else w
      | NOther => w
      end) entries w.

Definition handle_event (w : Watcher) (now : Z) (parent : string) (name : option string) (mask : Mask) : Watcher :=
  match name with
  | None => w
  | Some name =>
      if negb (bool_decide (parent ∈ watched w)) then w
      else
        let full_path := child parent name in
        let sz := Some (default 0 (file_size full_path)) in
        if in_isdir mask && bool_decide (name = ".git") && in_create mask
        then with_record w now full_path Created (Some 0)
        else if should_exclude_path full_path then w
        else if in_isdir mask && in_create mask then
          match node_at full_path with
          | Some (NDir entries) =>
              let w := {| watched := watched w ++ add_watches_recursive add_watch_ok full_path (NDir entries);
                          debouncer := debouncer w |} in
              scan_new_dir w now full_path entries
          | _ => w
          end
        else if in_isdir mask then w
        else if in_close_write mask then with_record w now full_path Modified sz
        else if in_create mask then with_record w now full_path Created sz
        else if in_delete mask then with_record w now full_path Deleted None
        else if in_moved_from mask then with_record w now full_path Deleted None
        else if in_moved_to mask then with_record w now full_path Created sz
        else w
  end.

End Event.

(** ** What is reported of a path *)

Inductive Op := Rec (now : Z) (path : string) (a : DebouncedAction) (sz : option Z) | Flush (now : Z).

Fixpoint run_ops (d : Debouncer) (ops : list Op) : Flushed * Debouncer :=
  match ops with
  | [] => ([], d)
  | Rec now path a sz :: ops => run_ops (record d now path a sz) ops
  | Flush now :: ops =>
      let '(out, d) := flush_expired d now in
      let '(outs, d) := run_ops d ops in (out ++ outs, d)
  end.

(** The events of [path], in order. *)
Definition of_path (path : string) (l : Flushed) : list (DebouncedAction * option Z) :=
  omap (fun '(p, a, sz) => if bool_decide (p = path) then Some (a, sz) else None) l.

Definition recorded (path : string) (ops : list Op) : list (DebouncedAction * option Z) :=
  omap (fun op => match op with
                  | Rec _ p a sz => if bool_decide (p = path) then Some (a, sz) else None
                  | Flush _ => None
                  end) ops.

Definition pending_of (path : string) (d : Debouncer) : list (DebouncedAction * option Z) :=
  match d !! path with Some e => [(action e, size e)] | None => [] end.

Lemma of_path_app path a b : of_path path (a ++ b) = of_path path a ++ of_path path b.
Proof. apply omap_app. Qed.

Lemma of_path_flushed path (d : Debouncer) : of_path path (flushed d) = pending_of path d.
Proof.
  unfold of_path, flushed, pending_of.
  assert (forall l : list (string * DebouncedEntry), NoDup (map fst l) ->
    omap (fun '(p, a, sz) => if bool_decide (p = path) then Some (a, sz) else None)
         (map (fun '(path, e) => (path, action e, size e)) l) =
    match (list_to_map l : Debouncer) !! path with Some e => [(action e, size e)] | None => [] end) as Hl.
  { induction l as [|[p e] l IH]; intros Hn; [cbn; by rewrite lookup_empty|].
    apply NoDup_cons in Hn as [Hp Hn]. cbn [map omap list_omap list_to_map foldr fst snd] in *.
    change (foldr _ ∅ l) with (list_to_map l : Debouncer).
    destruct (decide (p = path)) as [->|Hne].
    - rewrite bool_decide_true, lookup_insert_eq by done. f_equal.
      change (list_omap _ _ ?f ?x) with (omap f x). rewrite IH by done.
      apply (not_elem_of_list_to_map (M:=gmap string)) in Hp. by rewrite Hp.
    - rewrite bool_decide_false, lookup_insert_ne by done. by apply IH. }
  rewrite (Hl (map_to_list d)) by apply NoDup_fst_map_to_list. by rewrite list_to_map_to_list.
Qed.

Lemma flush_expired_pending d now path :
  pending_of path d = of_path path (flush_expired d now).1 ++ pending_of path (flush_expired d now).2.
Proof.
  unfold flush_expired. cbn [fst snd]. rewrite of_path_flushed. unfold pending_of.
  rewrite !map_lookup_filter. destruct (d !! path) as [e|]; [|done]. cbn.
  destruct (decide (deadline e <= now)) as [Hd|Hd].
  - by rewrite option_guard_True, option_guard_False by tauto.
  - by rewrite option_guard_False, option_guard_True by done.
Qed.

Lemma run_ops_reports ops : forall d path,
  of_path path (run_ops d ops).1 ++ pending_of path (run_ops d ops).2 `sublist_of`
    pending_of path d ++ recorded path ops /\
  last (of_path path (run_ops d ops).1 ++ pending_of path (run_ops d ops).2) =
  last (pending_of path d ++ recorded path ops).
Proof.
  induction ops as [|[now p a sz|now] ops IH]; intros d path; cbn [run_ops].
  - cbn [fst snd recorded omap list_omap of_path app]. by rewrite app_nil_r.
  - destruct (IH (record d now p a sz) path) as [H1 H2]. revert H1 H2.
    assert (recorded path (Rec now p a sz :: ops) =
            (if bool_decide (p = path) then [(a, sz)] else []) ++ recorded path ops) as ->.
    { unfold recorded. cbn. by destruct (bool_decide (p = path)). }
    unfold record, pending_of at 2 4 6. case_bool_decide as Hp.
    + subst p. rewrite lookup_insert_eq. cbn [action size].
      intros H1 H2. split.
      * etrans; [exact H1|]. apply sublist_inserts_l. done.
      * rewrite H2, (last_app (pending_of path d)).
        by destruct (last ([(a, sz)] ++ recorded path ops)) eqn:E; [|apply last_None in E].
    + rewrite lookup_insert_ne by done. fold (pending_of path d). done.
  - pose proof (flush_expired_pending d now path) as Hf.
    destruct (flush_expired d now) as [out d'] eqn:E. cbn [fst snd] in Hf.
    destruct (IH d' path) as [H1 H2]. destruct (run_ops d' ops) as [outs d'']. cbn [fst snd] in *.
    change (recorded path (Flush now :: ops)) with (recorded path ops).
    rewrite of_path_app, <- !app_assoc, Hf, <- !app_assoc. split.
    + by apply sublist_app.
    + rewrite !(last_app (of_path path out)). by rewrite H2.
Qed.

(** ** Properties *)

(** Debouncing loses no final state. Whatever the events recorded and the flushes
    between them, the host is told of a path only what was recorded for it, in that
    order, and once the path's window has passed (or the watcher is told to stop) the
    last thing it was told is the last thing recorded. *)
Theorem last_action_reported (ops : list Op) (path : string)
    (out := (run_ops ∅ ops).1) (d := (run_ops ∅ ops).2) :
  of_path path (out ++ (flush_all d).1) `sublist_of` recorded path ops /\
  last (of_path path (out ++ (flush_all d).1)) = last (recorded path ops) /\
  forall now, (forall e, d !! path = Some e -> deadline e <= now) ->
    of_path path (out ++ (flush_expired d now).1) = of_path path (out ++ (flush_all d).1).
Proof.
  destruct (run_ops_reports ops ∅ path) as [H1 H2]. fold out d in H1, H2.
  unfold pending_of at 2 in H1. unfold pending_of at 2 in H2. rewrite lookup_empty in H1, H2.
  assert (of_path path (out ++ (flush_all d).1) = of_path path out ++ pending_of path d) as ->
    by (rewrite of_path_app; cbn [flush_all fst]; by rewrite of_path_flushed).
  split; [exact H1|]. split; [exact H2|]. intros now Hnow.
  rewrite of_path_app, (flush_expired_pending d now path). f_equal.
  enough (pending_of path (flush_expired d now).2 = []) as -> by by rewrite app_nil_r.
  unfold pending_of, flush_expired. cbn [snd]. rewrite map_lookup_filter.
  destruct (d !! path) as [e|]; [|done]. cbn. specialize (Hnow e eq_refl).
  rewrite option_guard_False by tauto. done.
Qed.

(** Nothing below an excluded directory is scanned, except the marker of a [.git]. *)
Example scan_example :
  scan_existing "/root"
    [("a.txt", NFile (Some 3)); ("node_modules", NDir [("x.js", NFile (Some 1))]);
     ("proj", NDir [(".git", NDir [("HEAD", NFile (Some 9))]); ("main.rs", NFile None)])]
  = [FileCreated "a.txt" 3; FileCreated "proj/.git" 0; FileCreated "proj/main.rs" 0].
Proof. vm_compute. reflexivity. Qed.

(** A directory that appears with files two levels deep: the watches reach them, the
    scan of the new directory does not. *)
Example nested_race_missed :
  let tree := NDir [("a", NFile (Some 1)); ("sub", NDir [("b", NFile (Some 2))])] in
  let w := handle_event (fun _ => true) (fun _ => None) (fun _ => Some tree)
    {| watched := ["/root"]; debouncer := ∅ |} 0 "/root" (Some "new")
    {| in_isdir := true; in_create := true; in_close_write := false; in_delete := false;
       in_moved_from := false; in_moved_to := false |} in
  watched w = ["/root"; "/root/new"; "/root/new/sub"] /\
  flushed (debouncer w) = [("new/a", Created, Some 1)].
Proof. vm_compute. done. Qed.

(** A directory moved into the tree is not watched. *)
Example moved_directory_not_watched :
  let w := handle_event (fun _ => true) (fun _ => None) (fun _ => Some (NDir []))
    {| watched := ["/root"]; debouncer := ∅ |} 0 "/root" (Some "new")
    {| in_isdir := true; in_create := false; in_close_write := false; in_delete := false;
       in_moved_from := false; in_moved_to := true |} in
  watched w = ["/root"] /\ flushed (debouncer w) = [].
Proof. vm_compute. done. Qed.
