(* ===== verification/SysWatch.v ===== *)
(** The guest's metrics daemon: crates/clawcage-agent/src/sys_watch.rs.

    The /proc files and the file-system statistics are arguments. *)

From Corelib Require Import SpecFloat.
From Stdlib Require Import ZArith Lia Ascii.
From stdpp Require Import base numbers list strings.
From S2P Require Import Prelude RustStr Proto PortWatch.

Record CpuTimes := {
  user : Z; nice : Z; system : Z; idle : Z; iowait : Z; irq : Z; softirq : Z; steal : Z;
}.

Definition CpuTimes_default : CpuTimes :=
  {| user := 0; nice := 0; system := 0; idle := 0; iowait := 0; irq := 0; softirq := 0; steal := 0 |}.

Definition total (c : CpuTimes) : Z :=
  as_uN 64 (user c + nice c + system c + idle c + iowait c + irq c + softirq c + steal c).

Definition idle_time (c : CpuTimes) : Z := as_uN 64 (idle c + iowait c).

Definition cpu_line (rest : string) : option CpuTimes :=
  let fields := omap (parse_uint 64) (split_whitespace rest) in
  let opt i := default 0 (fields !! i) in
  match fields with
  | user :: nice :: system :: idle :: _ =>
      Some {| user := user; nice := nice; system := system; idle := idle;
              iowait := opt 4%nat; irq := opt 5%nat; softirq := opt 6%nat; steal := opt 7%nat |}
  | _ => None
  end.

(** The first line that starts with [cpu ] decides. *)
Definition parse_proc_stat_cpu (content : string) : option CpuTimes :=
  match omap (strip_prefix "cpu ") (lines content) with
  | rest :: _ => cpu_line rest
  | [] => None
  end.

(** The subtraction wraps. *)
Definition busy_delta (prev curr : CpuTimes) : Z :=
  as_uN 64 (saturating_sub (total curr) (total prev) - saturating_sub (idle_time curr) (idle_time prev)).

Definition cpu_percent (prev curr : CpuTimes) : spec_float :=
  let total_delta := saturating_sub (total curr) (total prev) in
  if total_delta =? 0 then S754_zero false
  else f32_mul (f32_div (f32_of_u64 (busy_delta prev curr)) (f32_of_u64 total_delta)) (f32_of_u64 100).

Record MemInfo := { total_kb : Z; available_kb : Z }.

Definition parse_kb_value (s : string) : Z :=
  default 0 (head (split_whitespace s) ≫= parse_uint 64).

Definition meminfo_line (info : MemInfo) (line : string) : MemInfo :=
  match strip_prefix "MemTotal:" line with
  | Some rest => {| total_kb := parse_kb_value rest; available_kb := available_kb info |}
  | None =>
      match strip_prefix "MemAvailable:" line with
      | Some rest => {| total_kb := total_kb info; available_kb := parse_kb_value rest |}
      | None => info
      end
  end.

Definition parse_proc_meminfo (content : string) : MemInfo :=
  fold_left meminfo_line (lines content) {| total_kb := 0; available_kb := 0 |}.

Record DiskUsage := { disk_total_kb : Z; disk_used_kb : Z }.

(** [statvfs]: the fragment size, the blocks and the free blocks, or its failure. *)
Definition disk_usage (statvfs : option (Z * Z * Z)) : DiskUsage :=
  match statvfs with
  | None => {| disk_total_kb := 0; disk_used_kb := 0 |}
  | Some (block_size, blocks, bfree) =>
      let total := as_uN 64 (blocks * block_size) / 1024 in
      let free := as_uN 64 (bfree * block_size) / 1024 in
      {| disk_total_kb := total; disk_used_kb := saturating_sub total free |}
  end.

(** One round of the loop: the message and the sample to compare with next time. *)
Definition metrics_round (prev_cpu : CpuTimes) (stat meminfo : string) (statvfs : option (Z * Z * Z))
  : GuestToHost * CpuTimes :=
  let curr_cpu := default CpuTimes_default (parse_proc_stat_cpu stat) in
  let mem := parse_proc_meminfo meminfo in
  let disk := disk_usage statvfs in
  (SystemMetrics (cpu_percent prev_cpu curr_cpu) (total_kb mem)
     (saturating_sub (total_kb mem) (available_kb mem)) (disk_total_kb disk) (disk_used_kb disk),
   curr_cpu).

(** ** Lemmas *)

(** Used memory and disk never exceed the total. *)
Lemma metrics_bounds prev stat meminfo statvfs :
  0 <= total_kb (parse_proc_meminfo meminfo) -> 0 <= available_kb (parse_proc_meminfo meminfo) ->
  match (metrics_round prev stat meminfo statvfs).1 with
  | SystemMetrics _ mt mu dt du => 0 <= mu <= mt /\ 0 <= du <= dt
  | _ => False
  end.
Proof.
  intros H1 H2. unfold metrics_round. cbn [fst]. unfold saturating_sub.
  split; [lia|]. destruct statvfs as [[[bs b] f]|]; cbn [disk_usage disk_total_kb disk_used_kb]; [|lia].
  pose proof (Z.div_pos (as_uN 64 (b * bs)) 1024) as Hb. pose proof (Z.div_pos (as_uN 64 (f * bs)) 1024) as Hf.
  assert (forall x, 0 <= as_uN 64 x) as Hu by (intros x; unfold as_uN; apply Z.mod_pos_bound; lia).
  specialize (Hb (Hu _) ltac:(lia)). specialize (Hf (Hu _) ltac:(lia)).
  unfold saturating_sub. lia.
Qed.

(** Between samples whose counters only grow (and whose sums fit) the busy share is
    between nothing and the whole. *)
Lemma busy_delta_bounds (prev curr : CpuTimes) :
  let fits c := Forall (fun x => 0 <= x)
                  [user c; nice c; system c; idle c; iowait c; irq c; softirq c; steal c] /\
                user c + nice c + system c + idle c + iowait c + irq c + softirq c + steal c < 2 ^ 64 in
  fits prev -> fits curr ->
  user prev <= user curr -> nice prev <= nice curr -> system prev <= system curr ->
  idle prev <= idle curr -> iowait prev <= iowait curr -> irq prev <= irq curr ->
  softirq prev <= softirq curr -> steal prev <= steal curr ->
  0 <= busy_delta prev curr <= saturating_sub (total curr) (total prev).
Proof.
  intros fits [Hp Hps] [Hc Hcs] **.
  repeat match goal with H : Forall _ (_ :: _) |- _ => inversion_clear H end.
  unfold busy_delta, total, idle_time.
  rewrite (as_uN_small 64 (user prev + _ + _ + _ + _ + _ + _ + _)) by (unfold in_uN; lia).
  rewrite (as_uN_small 64 (user curr + _ + _ + _ + _ + _ + _ + _)) by (unfold in_uN; lia).
  rewrite (as_uN_small 64 (idle prev + _)), (as_uN_small 64 (idle curr + _)) by (unfold in_uN; lia).
  unfold saturating_sub. rewrite as_uN_small by (unfold in_uN; lia). lia.
Qed.

(** A counter that goes back (the kernel's iowait may) wraps the busy share around. *)
Example busy_delta_wraps :
  let c u i w := {| user := u; nice := 0; system := 0; idle := i; iowait := w; irq := 0; softirq := 0; steal := 0 |} in
  busy_delta (c 100 100 0) (c 90 120 0) = 2 ^ 64 - 10.
Proof. vm_compute. reflexivity. Qed.

Example sys_watch_example :
  (metrics_round CpuTimes_default ("cpu  100 0 50 200" +:+ String "010" "cpu0 1 1 1 1")
     ("MemTotal:  2048 kB" +:+ String "010" "MemAvailable: 48 kB") (Some (4096, 1000, 250))).1
  = SystemMetrics (f32_mul (f32_div (f32_of_u64 150) (f32_of_u64 350)) (f32_of_u64 100)) 2048 2000 4000 3000.
Proof. vm_compute. reflexivity. Qed.
