(* ===== verification/Vm.v ===== *)
(** The VM's configuration and the terminal's output buffer:
    crates/clawcage-core/src/vm/config.rs and the CoalesceBuffer of
    crates/clawcage-core/src/vm/vsock.rs.

    The file system and BLAKE3 are parameters: whether a path exists, and the hash of
    the file there (or the error of reading it). *)

From Stdlib Require Import ZArith Lia Strings.Byte.
From stdpp Require Import base numbers list strings.
From S2P Require Import Prelude RustStr.

(** ** Configuration *)

Definition MIN_CPU : Z := 1.
Definition MAX_CPU : Z := 8.
Definition MIN_RAM : Z := 256 * 1024 * 1024.
Definition MAX_RAM : Z := 16 * 1024 * 1024 * 1024.

Inductive ConfigError :=
| CpuOutOfRange (count : Z)
| RamOutOfRange (bytes : Z)
| MissingKernel (path : string)
| MissingInitrd (path : string)
| MissingDisk (path : string)
| HashMismatch (path expected actual : string)
| Io (error : string).

Record VmConfig := {
  cpu_count : Z;
  ram_bytes : Z;
  kernel_path : string;
  initrd_path : option string;
  disk_path : option string;
  scratch_disk_path : option string;
  kernel_cmdline : string;
  expected_kernel_hash : option string;
  expected_initrd_hash : option string;
  expected_disk_hash : option string;
}.

Record VmConfigBuilder := {
  b_cpu_count : Z;
  b_ram_bytes : Z;
  b_kernel_path : option string;
  b_initrd_path : option string;
  b_disk_path : option string;
  b_scratch_disk_path : option string;
  b_kernel_cmdline : string;
  b_expected_kernel_hash : option string;
  b_expected_initrd_hash : option string;
  b_expected_disk_hash : option string;
}.

Definition VmConfigBuilder_default : VmConfigBuilder :=
  {| b_cpu_count := 4; b_ram_bytes := 4 * 1024 * 1024 * 1024; b_kernel_path := None;
     b_initrd_path := None; b_disk_path := None; b_scratch_disk_path := None;
     b_kernel_cmdline := "console=hvc0 root=/dev/vda ro"; b_expected_kernel_hash := None;
     b_expected_initrd_hash := None; b_expected_disk_hash := None |}.

Section Config.
Variable path_exists : string -> bool.
Variable blake3_hex : string -> result string string.

Definition verify_hash (path expected_hash : string) : result unit ConfigError :=
  match blake3_hex path with
  | Err e => Err (Io e)
  | Ok hash => if bool_decide (hash = expected_hash) then Ok tt
               else Err (HashMismatch path expected_hash hash)
  end.

(** [if let Some(ref expected) = .. { Self::verify_hash(path, expected)?; }] *)
Definition verify_opt (path : string) (expected : option string) : result unit ConfigError :=
  match expected with Some h => verify_hash path h | None => Ok tt end.

(** An optional file: it exists and its hash, if expected, matches. *)
Definition verify_file (missing : string -> ConfigError) (path : option string) (expected : option string)
  : result unit ConfigError :=
  match path with
  | None => Ok tt
  | Some p => if path_exists p then verify_opt p expected else Err (missing p)
  end.

Definition and_then {A B} (r : result A ConfigError) (f : A -> result B ConfigError) : result B ConfigError :=
  match r with Ok a => f a | Err e => Err e end.

Definition build (self : VmConfigBuilder) : result VmConfig ConfigError :=
  if (b_cpu_count self <? MIN_CPU) || (MAX_CPU <? b_cpu_count self)
  then Err (CpuOutOfRange (b_cpu_count self))
  else if (b_ram_bytes self <? MIN_RAM) || (MAX_RAM <? b_ram_bytes self)
  then Err (RamOutOfRange (b_ram_bytes self))
  else
    match b_kernel_path self with
    | None => Err (MissingKernel "<not set>")
    | Some kernel =>
        if negb (path_exists kernel) then Err (MissingKernel kernel)
        else
          and_then (verify_opt kernel (b_expected_kernel_hash self)) (fun _ =>
          and_then (verify_file MissingInitrd (b_initrd_path self) (b_expected_initrd_hash self)) (fun _ =>
          and_then (verify_file MissingDisk (b_disk_path self) (b_expected_disk_hash self)) (fun _ =>
          and_then (verify_file MissingDisk (b_scratch_disk_path self) None) (fun _ =>
          Ok {| cpu_count := b_cpu_count self; ram_bytes := b_ram_bytes self; kernel_path := kernel;
                initrd_path := b_initrd_path self; disk_path := b_disk_path self;
                scratch_disk_path := b_scratch_disk_path self; kernel_cmdline := b_kernel_cmdline self;
                expected_kernel_hash := b_expected_kernel_hash self;
                expected_initrd_hash := b_expected_initrd_hash self;
                expected_disk_hash := b_expected_disk_hash self |}))))
    end.

(** *** What a built configuration guarantees *)

(** The file is there, and is the expected one where a hash is given. *)
Definition file_verified (path : string) (expected : option string) : Prop :=
  path_exists path = true /\ forall h, expected = Some h -> blake3_hex path = Ok h.

Definition opt_verified (path expected : option string) : Prop :=
  forall p, path = Some p -> file_verified p expected.

Definition valid_request (b : VmConfigBuilder) : Prop :=
  MIN_CPU <= b_cpu_count b <= MAX_CPU /\ MIN_RAM <= b_ram_bytes b <= MAX_RAM /\
  (exists kernel, b_kernel_path b = Some kernel /\ file_verified kernel (b_expected_kernel_hash b)) /\
  opt_verified (b_initrd_path b) (b_expected_initrd_hash b) /\
  opt_verified (b_disk_path b) (b_expected_disk_hash b) /\
  opt_verified (b_scratch_disk_path b) None.

Lemma verify_opt_Ok path expected :
  verify_opt path expected = Ok tt <-> forall h, expected = Some h -> blake3_hex path = Ok h.
Proof.
  unfold verify_opt, verify_hash. destruct expected as [h|]; [|by split].
  destruct (blake3_hex path) as [h'|e].
  - case_bool_decide as Hh; [subst; split; [by intros _ ? [= <-]|done]|].
    split; [done|]. intros Hx. specialize (Hx h eq_refl). congruence.
  - split; [done|]. intros Hx. by specialize (Hx h eq_refl).
Qed.

Lemma verify_file_Ok missing path expected :
  verify_file missing path expected = Ok tt <-> opt_verified path expected.
Proof.
  unfold verify_file, opt_verified, file_verified. destruct path as [p|]; [|by split].
  destruct (path_exists p) eqn:E.
  - rewrite verify_opt_Ok. split; [intros H ? [= <-]; done|]. intros H. by apply (H p).
  - split; [done|]. intros H. destruct (H p eq_refl). congruence.
Qed.

Lemma and_then_Ok {B} (r : result unit ConfigError) (f : unit -> result B ConfigError) b :
  and_then r f = Ok b <-> r = Ok tt /\ f tt = Ok b.
Proof. destruct r as [[]|]; cbn; [tauto|]. split; [done|by intros [? _]]. Qed.

(** A configuration is built exactly when the request is valid: processors and memory
    in range, a kernel given, every file named in place, and every file with an expected
    hash has that hash; and the configuration built is the request. *)
Theorem config_built_iff_valid (b : VmConfigBuilder) :
  (is_ok (build b) = true <-> valid_request b) /\
  forall c, build b = Ok c ->
    cpu_count c = b_cpu_count b /\ ram_bytes c = b_ram_bytes b /\ Some (kernel_path c) = b_kernel_path b /\
    initrd_path c = b_initrd_path b /\ disk_path c = b_disk_path b /\
    scratch_disk_path c = b_scratch_disk_path b /\ kernel_cmdline c = b_kernel_cmdline b /\
    expected_kernel_hash c = b_expected_kernel_hash b /\
    expected_initrd_hash c = b_expected_initrd_hash b /\ expected_disk_hash c = b_expected_disk_hash b.
Proof.
  assert (is_ok (build b) = true <-> exists c, build b = Ok c) as Hok
    by (destruct (build b); cbn; (split; [intros; try discriminate; eauto|intros [? [=]]; done])).
  rewrite Hok. clear Hok. unfold build, valid_request.
  destruct (Z.ltb_spec (b_cpu_count b) MIN_CPU); cbn [orb];
    [split; [split; [by intros [? ?]|lia]|done]|].
  destruct (Z.ltb_spec MAX_CPU (b_cpu_count b)); [split; [split; [by intros [? ?]|lia]|done]|].
  destruct (Z.ltb_spec (b_ram_bytes b) MIN_RAM); cbn [orb];
    [split; [split; [by intros [? ?]|lia]|done]|].
  destruct (Z.ltb_spec MAX_RAM (b_ram_bytes b)); [split; [split; [by intros [? ?]|lia]|done]|].
  destruct (b_kernel_path b) as [kernel|];
    [|split; [split; [by intros [? ?]|by intros (_ & _ & (? & ? & _) & _)]|done]].
  destruct (path_exists kernel) eqn:Ek; cbn [negb].
  2: { split; [split; [by intros [? ?]|]|done]. intros (_ & _ & (k & [= <-] & Hk & _) & _). congruence. }
  setoid_rewrite and_then_Ok. setoid_rewrite and_then_Ok. setoid_rewrite and_then_Ok.
  setoid_rewrite and_then_Ok. setoid_rewrite verify_opt_Ok. setoid_rewrite verify_file_Ok. split.
  - split.
    + intros (c & Hk & Hi & Hd & Hs & _). split; [lia|]. split; [lia|]. split; [|done].
      exists kernel. split; [done|]. split; [exact Ek|exact Hk].
    + intros (_ & _ & (k & [= <-] & _ & Hk) & Hi & Hd & Hs). eexists. split; [exact Hk|]. split; [exact Hi|]. split; [exact Hd|].
      split; [exact Hs|]. reflexivity.
  - intros c (_ & _ & _ & _ & [= <-]). done.
Qed.

End Config.

Example config_examples :
  let build b := build (fun p => bool_decide (p ∈ ["/k"; "/i"])) (fun p => Ok ("hash" +:+ p)) b in
  let b k i h := {| b_cpu_count := 4; b_ram_bytes := MIN_RAM; b_kernel_path := k; b_initrd_path := i;
      b_disk_path := None; b_scratch_disk_path := None; b_kernel_cmdline := ""; b_expected_kernel_hash := h;
      b_expected_initrd_hash := None; b_expected_disk_hash := None |} in
  map (fun b => match build b with Ok _ => None | Err e => Some e end)
    [b (Some "/k") (Some "/i") (Some "hash/k"); b (Some "/k") None (Some "x"); b (Some "/k") (Some "/j") None;
     b None None None]
  = [None; Some (HashMismatch "/k" "x" "hash/k"); Some (MissingInitrd "/j"); Some (MissingKernel "<not set>")].
Proof. vm_compute. reflexivity. Qed.

(** ** Output coalescing *)

Definition COALESCE_WINDOW_MS : Z := 5.
Definition COALESCE_MAX_BYTES : Z := 10485760.

Record CoalesceBuffer := { buf : list byte; max_bytes : Z; window_ms : Z }.

Definition with_limits (max_bytes window_ms : Z) : CoalesceBuffer :=
  {| buf := []; max_bytes := max_bytes; window_ms := window_ms |}.

Definition CoalesceBuffer_new : CoalesceBuffer := with_limits COALESCE_MAX_BYTES COALESCE_WINDOW_MS.

Definition is_full (self : CoalesceBuffer) : bool := max_bytes self <=? Z.of_nat (length (buf self)).

Definition push (self : CoalesceBuffer) (data : list byte) : bool * CoalesceBuffer :=
  let self := {| buf := buf self ++ data; max_bytes := max_bytes self; window_ms := window_ms self |} in
  (is_full self, self).

(** [take]; [flush_to] hands out the same bytes and leaves the same buffer. *)
Definition take_buffer (self : CoalesceBuffer) : list byte * CoalesceBuffer :=
  (buf self, {| buf := []; max_bytes := max_bytes self; window_ms := window_ms self |}).

Definition flush_to {R} (self : CoalesceBuffer) (f : list byte -> R) : R * CoalesceBuffer :=
  (f (buf self), {| buf := []; max_bytes := max_bytes self; window_ms := window_ms self |}).

(** A caller that takes the buffer when a push reports it full, and when the window
    closes ([None]). *)
Fixpoint coalesce (self : CoalesceBuffer) (input : list (option (list byte))) : list (list byte) * CoalesceBuffer :=
  match input with
  | [] => ([], self)
  | Some data :: input =>
      let '(full, self) := push self data in
      if full then
        let '(out, self) := take_buffer self in
        let '(outs, self) := coalesce self input in (out :: outs, self)
      else coalesce self input
  | None :: input =>
      let '(out, self) := take_buffer self in
      let '(outs, self) := coalesce self input in (out :: outs, self)
  end.

(** Batching keeps the bytes and their order, and holds back less than the cap. *)
Lemma coalesce_lossless input : forall self,
  0 < max_bytes self -> is_full self = false ->
  concat (coalesce self input).1 ++ buf (coalesce self input).2 = buf self ++ concat (omap (fun x => x) input) /\
  is_full (coalesce self input).2 = false.
Proof.
  induction input as [|[data|] input IH]; intros self Hm Hf; cbn [coalesce].
  - cbn. by rewrite app_nil_r.
  - destruct (push self data) as [full self'] eqn:E. injection E as <- <-. cbn [omap list_omap].
    change (list_omap _ _ ?f ?x) with (omap f x). cbn [concat].
    destruct (is_full {| buf := buf self ++ data; max_bytes := _; window_ms := _ |}) eqn:Ef.
    + unfold take_buffer. cbn [buf max_bytes window_ms].
      destruct (IH {| buf := []; max_bytes := max_bytes self; window_ms := window_ms self |}) as [H1 H2];
        [done|unfold is_full; cbn; apply Z.leb_gt; lia|].
      destruct (coalesce _ input) as [outs self']. cbn [fst snd concat] in *. split; [|done].
      rewrite <- app_assoc, H1. cbn [buf app]. by rewrite <- app_assoc.
    + destruct (IH {| buf := buf self ++ data; max_bytes := max_bytes self; window_ms := window_ms self |})
        as [H1 H2]; [done|done|].
      destruct (coalesce _ input) as [outs self']. cbn [fst snd] in *. split; [|done].
      rewrite H1. cbn [buf]. by rewrite <- app_assoc.
  - unfold take_buffer. cbn [omap list_omap]. change (list_omap _ _ ?f ?x) with (omap f x).
    destruct (IH {| buf := []; max_bytes := max_bytes self; window_ms := window_ms self |}) as [H1 H2];
      [done|unfold is_full; cbn; apply Z.leb_gt; lia|].
    destruct (coalesce _ input) as [outs self']. cbn [fst snd concat] in *. split; [|done].
    rewrite <- app_assoc, H1. done.
Qed.
