(* ===== verification/SessionIndex.v ===== *)
(** The session index and the cleanup of sessions: crates/clawcage-core/src/session.rs, and
    [cleanup_stale_sessions], [vacuum_session], [cleanup_session] and
    [flush_session_summary] of crates/clawcage-app/src/main.rs.

    A table is the list of its rows, a statement may be refused by SQLite ([fault], indexed
    by the statements executed). The sessions directory is the list of its entries. *)

From Stdlib Require Import ZArith Lia Ascii.
From stdpp Require Import base numbers list gmap strings.
From S2P Require Import Prelude RustStr Pricing Events EventLog LogReader SessionTime Settings.

Record SessionRecord := {
  sr_id : string; sr_mode : string; sr_command : option string; sr_status : string; sr_created_at : string;
  sr_stopped_at : option string; sr_scratch_disk_size_gb : Z; sr_ram_bytes : Z; sr_total_requests : Z;
  sr_allowed_requests : Z; sr_denied_requests : Z; sr_total_input_tokens : Z; sr_total_output_tokens : Z;
  sr_total_estimated_cost : f64; sr_total_tool_calls : Z; sr_total_mcp_calls : Z; sr_total_file_events : Z;
  sr_compressed_size_bytes : option Z; sr_vacuumed_at : option string;
}.

Record GlobalStats := {
  gs_total_sessions : Z; gs_total_input_tokens : Z; gs_total_output_tokens : Z; gs_total_estimated_cost : f64;
  gs_total_tool_calls : Z; gs_total_mcp_calls : Z; gs_total_file_events : Z; gs_total_requests : Z;
  gs_total_allowed : Z; gs_total_denied : Z;
}.

Record ProviderSummary := {
  ps_provider : string; ps_call_count : Z; ps_input_tokens : Z; ps_output_tokens : Z; ps_estimated_cost : f64;
  ps_total_duration_ms : Z;
}.

Record ToolSummary := { tls_tool_name : string; tls_call_count : Z; tls_total_bytes : Z; tls_total_duration_ms : Z }.

Record McpToolSummary := {
  mts_tool_name : string; mts_server_name : string; mts_call_count : Z; mts_total_bytes : Z; mts_total_duration_ms : Z;
}.

(** Integer columns hold the [i64] of the values written. A usage row comes with the id of
    its session. *)
Record Tables := {
  sessions : list SessionRecord;
  ai_usage : list (string * ProviderSummary);
  tool_usage : list (string * ToolSummary);
  mcp_usage : list (string * McpToolSummary);
}.

Definition Tables_empty : Tables := {| sessions := []; ai_usage := []; tool_usage := []; mcp_usage := [] |}.

(** [ix_query_only]: the pragma that refuses writes. *)
Record Index := { ix_tables : Tables; ix_query_only : bool; ix_statements : nat }.

Definition set_sessions (l : list SessionRecord) (t : Tables) : Tables :=
  {| sessions := l; ai_usage := ai_usage t; tool_usage := tool_usage t; mcp_usage := mcp_usage t |}.

Definition SCHEMA_VERSION : Z := 3.

(** The tables an index of the given version opens with. *)
Definition ensure_schema (version : Z) (t : Tables) : Tables :=
  if version =? 2 then
    set_sessions (map (fun r => {|
      sr_id := sr_id r; sr_mode := sr_mode r; sr_command := sr_command r; sr_status := sr_status r;
      sr_created_at := sr_created_at r; sr_stopped_at := sr_stopped_at r;
      sr_scratch_disk_size_gb := sr_scratch_disk_size_gb r; sr_ram_bytes := sr_ram_bytes r;
      sr_total_requests := sr_total_requests r; sr_allowed_requests := sr_allowed_requests r;
      sr_denied_requests := sr_denied_requests r; sr_total_input_tokens := sr_total_input_tokens r;
      sr_total_output_tokens := sr_total_output_tokens r; sr_total_estimated_cost := sr_total_estimated_cost r;
      sr_total_tool_calls := sr_total_tool_calls r; sr_total_mcp_calls := sr_total_mcp_calls r;
      sr_total_file_events := sr_total_file_events r; sr_compressed_size_bytes := None; sr_vacuumed_at := None |})
      (sessions t)) t
  else if version <? 2 then Tables_empty
  else t.

(** The row bound by the INSERT. *)
Definition bind_session (r : SessionRecord) : SessionRecord := {|
  sr_id := sr_id r; sr_mode := sr_mode r; sr_command := sr_command r; sr_status := sr_status r;
  sr_created_at := sr_created_at r; sr_stopped_at := sr_stopped_at r;
  sr_scratch_disk_size_gb := as_i64 (sr_scratch_disk_size_gb r); sr_ram_bytes := as_i64 (sr_ram_bytes r);
  sr_total_requests := as_i64 (sr_total_requests r); sr_allowed_requests := as_i64 (sr_allowed_requests r);
  sr_denied_requests := as_i64 (sr_denied_requests r); sr_total_input_tokens := as_i64 (sr_total_input_tokens r);
  sr_total_output_tokens := as_i64 (sr_total_output_tokens r); sr_total_estimated_cost := sr_total_estimated_cost r;
  sr_total_tool_calls := as_i64 (sr_total_tool_calls r); sr_total_mcp_calls := as_i64 (sr_total_mcp_calls r);
  sr_total_file_events := as_i64 (sr_total_file_events r);
  sr_compressed_size_bytes := as_i64 <$> sr_compressed_size_bytes r; sr_vacuumed_at := sr_vacuumed_at r |}.

Definition read_session_row (r : SessionRecord) : SessionRecord := {|
  sr_id := sr_id r; sr_mode := sr_mode r; sr_command := sr_command r; sr_status := sr_status r;
  sr_created_at := sr_created_at r; sr_stopped_at := sr_stopped_at r;
  sr_scratch_disk_size_gb := as_uN 32 (sr_scratch_disk_size_gb r); sr_ram_bytes := as_uN 64 (sr_ram_bytes r);
  sr_total_requests := as_uN 64 (sr_total_requests r); sr_allowed_requests := as_uN 64 (sr_allowed_requests r);
  sr_denied_requests := as_uN 64 (sr_denied_requests r); sr_total_input_tokens := as_uN 64 (sr_total_input_tokens r);
  sr_total_output_tokens := as_uN 64 (sr_total_output_tokens r); sr_total_estimated_cost := sr_total_estimated_cost r;
  sr_total_tool_calls := as_uN 64 (sr_total_tool_calls r); sr_total_mcp_calls := as_uN 64 (sr_total_mcp_calls r);
  sr_total_file_events := as_uN 64 (sr_total_file_events r);
  sr_compressed_size_bytes := as_uN 64 <$> sr_compressed_size_bytes r; sr_vacuumed_at := sr_vacuumed_at r |}.

(** A copy of a row with other values in the columns an UPDATE sets. *)
Definition set_status (status : string) (r : SessionRecord) : SessionRecord := {|
  sr_id := sr_id r; sr_mode := sr_mode r; sr_command := sr_command r; sr_status := status;
  sr_created_at := sr_created_at r; sr_stopped_at := sr_stopped_at r;
  sr_scratch_disk_size_gb := sr_scratch_disk_size_gb r; sr_ram_bytes := sr_ram_bytes r;
  sr_total_requests := sr_total_requests r; sr_allowed_requests := sr_allowed_requests r;
  sr_denied_requests := sr_denied_requests r; sr_total_input_tokens := sr_total_input_tokens r;
  sr_total_output_tokens := sr_total_output_tokens r; sr_total_estimated_cost := sr_total_estimated_cost r;
  sr_total_tool_calls := sr_total_tool_calls r; sr_total_mcp_calls := sr_total_mcp_calls r;
  sr_total_file_events := sr_total_file_events r; sr_compressed_size_bytes := sr_compressed_size_bytes r;
  sr_vacuumed_at := sr_vacuumed_at r |}.

Definition set_stopped_at (at_ : option string) (r : SessionRecord) : SessionRecord := {|
  sr_id := sr_id r; sr_mode := sr_mode r; sr_command := sr_command r; sr_status := sr_status r;
  sr_created_at := sr_created_at r; sr_stopped_at := at_;
  sr_scratch_disk_size_gb := sr_scratch_disk_size_gb r; sr_ram_bytes := sr_ram_bytes r;
  sr_total_requests := sr_total_requests r; sr_allowed_requests := sr_allowed_requests r;
  sr_denied_requests := sr_denied_requests r; sr_total_input_tokens := sr_total_input_tokens r;
  sr_total_output_tokens := sr_total_output_tokens r; sr_total_estimated_cost := sr_total_estimated_cost r;
  sr_total_tool_calls := sr_total_tool_calls r; sr_total_mcp_calls := sr_total_mcp_calls r;
  sr_total_file_events := sr_total_file_events r; sr_compressed_size_bytes := sr_compressed_size_bytes r;
  sr_vacuumed_at := sr_vacuumed_at r |}.

Definition set_requests (total allowed denied : Z) (r : SessionRecord) : SessionRecord := {|
  sr_id := sr_id r; sr_mode := sr_mode r; sr_command := sr_command r; sr_status := sr_status r;
  sr_created_at := sr_created_at r; sr_stopped_at := sr_stopped_at r;
  sr_scratch_disk_size_gb := sr_scratch_disk_size_gb r; sr_ram_bytes := sr_ram_bytes r;
  sr_total_requests := total; sr_allowed_requests := allowed; sr_denied_requests := denied;
  sr_total_input_tokens := sr_total_input_tokens r;
  sr_total_output_tokens := sr_total_output_tokens r; sr_total_estimated_cost := sr_total_estimated_cost r;
  sr_total_tool_calls := sr_total_tool_calls r; sr_total_mcp_calls := sr_total_mcp_calls r;
  sr_total_file_events := sr_total_file_events r; sr_compressed_size_bytes := sr_compressed_size_bytes r;
  sr_vacuumed_at := sr_vacuumed_at r |}.

Definition set_summary (input output : Z) (cost : f64) (tools mcp files : Z) (r : SessionRecord) : SessionRecord := {|
  sr_id := sr_id r; sr_mode := sr_mode r; sr_command := sr_command r; sr_status := sr_status r;
  sr_created_at := sr_created_at r; sr_stopped_at := sr_stopped_at r;
  sr_scratch_disk_size_gb := sr_scratch_disk_size_gb r; sr_ram_bytes := sr_ram_bytes r;
  sr_total_requests := sr_total_requests r; sr_allowed_requests := sr_allowed_requests r;
  sr_denied_requests := sr_denied_requests r; sr_total_input_tokens := input; sr_total_output_tokens := output;
  sr_total_estimated_cost := cost; sr_total_tool_calls := tools; sr_total_mcp_calls := mcp;
  sr_total_file_events := files; sr_compressed_size_bytes := sr_compressed_size_bytes r;
  sr_vacuumed_at := sr_vacuumed_at r |}.

Definition set_vacuumed (size : Z) (at_ : string) (r : SessionRecord) : SessionRecord := {|
  sr_id := sr_id r; sr_mode := sr_mode r; sr_command := sr_command r; sr_status := "vacuumed";
  sr_created_at := sr_created_at r; sr_stopped_at := sr_stopped_at r;
  sr_scratch_disk_size_gb := sr_scratch_disk_size_gb r; sr_ram_bytes := sr_ram_bytes r;
  sr_total_requests := sr_total_requests r; sr_allowed_requests := sr_allowed_requests r;
  sr_denied_requests := sr_denied_requests r; sr_total_input_tokens := sr_total_input_tokens r;
  sr_total_output_tokens := sr_total_output_tokens r; sr_total_estimated_cost := sr_total_estimated_cost r;
  sr_total_tool_calls := sr_total_tool_calls r; sr_total_mcp_calls := sr_total_mcp_calls r;
  sr_total_file_events := sr_total_file_events r; sr_compressed_size_bytes := Some size;
  sr_vacuumed_at := Some at_ |}.

(** ORDER BY created_at: a stable sort of the rows in the order [leb] finds them. *)
Fixpoint insert_sorted {A} (leb : A -> A -> bool) (x : A) (l : list A) : list A :=
  match l with
  | [] => [x]
  | y :: l => if leb x y then x :: y :: l else y :: insert_sorted leb x l
  end.
Fixpoint sort_rows {A} (leb : A -> A -> bool) (l : list A) : list A :=
  match l with [] => [] | x :: l => insert_sorted leb x (sort_rows leb l) end.

Definition oldest_first (a b : SessionRecord) : bool := String.leb (sr_created_at a) (sr_created_at b).
Definition newest_first (a b : SessionRecord) : bool := String.leb (sr_created_at b) (sr_created_at a).

Definition finished (r : SessionRecord) : bool := bool_decide (sr_status r ∈ ["stopped"; "crashed"; "vacuumed"]).

Section Index.
Variable fault : nat -> option string.
(** Rows with the same key come in an order of SQLite's choice. *)
Variable tie : forall {A}, list A -> list A.
Variable sum_real : list f64 -> f64.
Variable any_row : forall {A}, A -> list A -> A.

(** One statement: refused, or its effect and result on the tables. *)
Definition statement {A} (write : bool) (f : Tables -> result (A * Tables) string) (i : Index)
  : result A string * Index :=
  let next t := {| ix_tables := t; ix_query_only := ix_query_only i; ix_statements := S (ix_statements i) |} in
  match fault (ix_statements i) with
  | Some e => (Err e, next (ix_tables i))
  | None =>
      if write && ix_query_only i then (Err "attempt to write a readonly database", next (ix_tables i))
      else match f (ix_tables i) with
           | Ok (a, t) => (Ok a, next t)
           | Err e => (Err e, next (ix_tables i))
           end
  end.

(** UPDATE sessions SET .. WHERE p, and the number of rows it affects. *)
Definition update_where (p : SessionRecord -> bool) (f : SessionRecord -> SessionRecord) : Index -> result Z string * Index :=
  statement true (fun t => Ok (count_if p (sessions t),
    set_sessions (map (fun r => if p r then f r else r) (sessions t)) t)).

Definition has_id (id : string) (r : SessionRecord) : bool := bool_decide (sr_id r = id).

Definition select {A} (f : Tables -> result A string) : Index -> result A string * Index :=
  statement false (fun t => let? a := f t in Ok (a, t)).

Definition create_session (record : SessionRecord) : Index -> result unit string * Index :=
  statement true (fun t =>
    if existsb (has_id (sr_id record)) (sessions t) then Err "UNIQUE constraint failed: sessions.id"
    else Ok (tt, set_sessions (sessions t ++ [bind_session record]) t)).

Definition update_status (id status : string) (stopped_at : option string) : Index -> result Z string * Index :=
  update_where (has_id id) (fun r => set_stopped_at stopped_at (set_status status r)).

Definition update_request_counts (id : string) (total allowed denied : Z) : Index -> result Z string * Index :=
  update_where (has_id id) (set_requests (as_i64 total) (as_i64 allowed) (as_i64 denied)).

Definition mark_running_as_crashed : Index -> result Z string * Index :=
  update_where (fun r => bool_decide (sr_status r = "running")) (set_status "crashed").

Definition ordered (leb : SessionRecord -> SessionRecord -> bool) (l : list SessionRecord) : list SessionRecord :=
  sort_rows leb (tie l).

Definition recent (limit : Z) : Index -> result (list SessionRecord) string * Index :=
  select (fun t => Ok (map read_session_row (sql_limit limit (ordered newest_first (sessions t))))).

(** [now] in seconds; [days] is a u32. *)
Definition cutoff (now days : Z) : string := default "" (epoch_to_iso (saturating_sub now (days * 86400))).

Definition terminate_older_than_days (now days : Z) : Index -> result Z string * Index :=
  update_where (fun r => String.ltb (sr_created_at r) (cutoff now days) && finished r) (set_status "terminated").

Definition newest_ids (max : Z) (t : Tables) : list string :=
  map sr_id (sql_limit max (ordered newest_first (sessions t))).

Definition terminate_excess_sessions (max : Z) (i : Index) : result Z string * Index :=
  update_where (fun r => finished r && negb (bool_decide (sr_id r ∈ newest_ids max (ix_tables i)))) (set_status "terminated") i.

Definition select_sessions (p : SessionRecord -> bool) : Index -> result (list SessionRecord) string * Index :=
  select (fun t => Ok (map read_session_row (ordered oldest_first (List.filter p (sessions t))))).

Definition stopped_sessions_oldest_first := select_sessions finished.
Definition sessions_by_status (status : string) := select_sessions (fun r => bool_decide (sr_status r = status)).
Definition unvacuumed_sessions := select_sessions (fun r =>
  bool_decide (sr_status r ∈ ["stopped"; "crashed"]) && bool_decide (sr_vacuumed_at r = None)).

Definition mark_vacuumed (id : string) (compressed_size_bytes : Z) (vacuumed_at : string) : Index -> result Z string * Index :=
  update_where (has_id id) (set_vacuumed (as_i64 compressed_size_bytes) vacuumed_at).

Definition mark_terminated (id : string) : Index -> result Z string * Index :=
  update_where (has_id id) (set_status "terminated").

Definition purge_terminated_older_than_days (now days : Z) : Index -> result Z string * Index :=
  let p r := bool_decide (sr_status r = "terminated") && String.ltb (sr_created_at r) (cutoff now days) in
  statement true (fun t => Ok (count_if p (sessions t), set_sessions (List.filter (fun r => negb (p r)) (sessions t)) t)).

Definition sessions_count : Index -> result Z string * Index := select (fun t => Ok (Z.of_nat (length (sessions t)))).

(** ** Aggregates *)

Definition global_stats : Index -> result GlobalStats string * Index :=
  select (fun t =>
    let sum f := sql_sum 0 (map f (sessions t)) in
    let? input := sum sr_total_input_tokens in
    let? output := sum sr_total_output_tokens in
    let? tools := sum sr_total_tool_calls in
    let? mcp := sum sr_total_mcp_calls in
    let? files := sum sr_total_file_events in
    let? requests := sum sr_total_requests in
    let? allowed := sum sr_allowed_requests in
    let? denied := sum sr_denied_requests in
    Ok {| gs_total_sessions := Z.of_nat (length (sessions t)); gs_total_input_tokens := as_uN 64 input;
          gs_total_output_tokens := as_uN 64 output;
          gs_total_estimated_cost := sum_real (map sr_total_estimated_cost (sessions t));
          gs_total_tool_calls := as_uN 64 tools; gs_total_mcp_calls := as_uN 64 mcp;
          gs_total_file_events := as_uN 64 files; gs_total_requests := as_uN 64 requests;
          gs_total_allowed := as_uN 64 allowed; gs_total_denied := as_uN 64 denied |}).

(** ORDER BY SUM(call_count) DESC, on the sums SQLite compares, then LIMIT. *)
Definition top_groups {A} (limit : Z) (groups : list (Z * A)) : list A :=
  map snd (sql_limit limit (sort_rows (fun a b => b.1 <=? a.1) (tie groups))).

Definition top_providers (limit : Z) : Index -> result (list ProviderSummary) string * Index :=
  select (fun t =>
    let rows := map snd (ai_usage t) in
    let? groups := collect_results (map (fun k =>
        let rows := group_rows ps_provider k rows in
        let? calls := sql_sum 0 (map ps_call_count rows) in
        let? input := sql_sum 0 (map ps_input_tokens rows) in
        let? output := sql_sum 0 (map ps_output_tokens rows) in
        let? duration := sql_sum 0 (map ps_total_duration_ms rows) in
        Ok (calls, {| ps_provider := k; ps_call_count := as_uN 64 calls; ps_input_tokens := as_uN 64 input;
                      ps_output_tokens := as_uN 64 output; ps_estimated_cost := sum_real (map ps_estimated_cost rows);
                      ps_total_duration_ms := as_uN 64 duration |})) (group_keys ps_provider rows)) in
    Ok (top_groups limit groups)).

Definition top_tools (limit : Z) : Index -> result (list ToolSummary) string * Index :=
  select (fun t =>
    let rows := map snd (tool_usage t) in
    let? groups := collect_results (map (fun k =>
        let rows := group_rows tls_tool_name k rows in
        let? calls := sql_sum 0 (map tls_call_count rows) in
        let? bytes := sql_sum 0 (map tls_total_bytes rows) in
        let? duration := sql_sum 0 (map tls_total_duration_ms rows) in
        Ok (calls, {| tls_tool_name := k; tls_call_count := as_uN 64 calls; tls_total_bytes := as_uN 64 bytes;
                      tls_total_duration_ms := as_uN 64 duration |})) (group_keys tls_tool_name rows)) in
    Ok (top_groups limit groups)).

Definition top_mcp_tools (limit : Z) : Index -> result (list McpToolSummary) string * Index :=
  select (fun t =>
    let rows := map snd (mcp_usage t) in
    let? groups := collect_results (map (fun k =>
        let rows := group_rows mts_tool_name k rows in
        let? calls := sql_sum 0 (map mts_call_count rows) in
        let? bytes := sql_sum 0 (map mts_total_bytes rows) in
        let? duration := sql_sum 0 (map mts_total_duration_ms rows) in
        Ok (calls, {| mts_tool_name := k;
                      mts_server_name := match rows with [] => "" | r :: rows => mts_server_name (any_row r rows) end;
                      mts_call_count := as_uN 64 calls; mts_total_bytes := as_uN 64 bytes;
                      mts_total_duration_ms := as_uN 64 duration |})) (group_keys mts_tool_name rows)) in
    Ok (top_groups limit groups)).

(** ** Summaries of a session *)

Definition update_session_summary (id : string) (input_tokens output_tokens : Z) (cost : f64) (tool_calls mcp_calls file_events : Z)
  : Index -> result Z string * Index :=
  update_where (has_id id) (set_summary (as_i64 input_tokens) (as_i64 output_tokens) cost (as_i64 tool_calls)
                             (as_i64 mcp_calls) (as_i64 file_events)).

(** DELETE, then one INSERT per row until one is refused. *)
Section Replace.
Context {A : Type}.
Variable get : Tables -> list (string * A).
Variable set : list (string * A) -> Tables -> Tables.
Variable key : A -> string.
Variable bind : A -> A.

Definition insert_usage (session_id : string) (u : A) : Index -> result unit string * Index :=
  statement true (fun t =>
    if existsb (fun r => bool_decide (r.1 = session_id) && bool_decide (key r.2 = key u)) (get t)
    then Err "UNIQUE constraint failed"
    else Ok (tt, set (get t ++ [(session_id, bind u)]) t)).

Fixpoint insert_usages (session_id : string) (usage : list A) (i : Index) : result unit string * Index :=
  match usage with
  | [] => (Ok tt, i)
  | u :: usage =>
      match insert_usage session_id u i with
      | (Ok _, i) => insert_usages session_id usage i
      | r => r
      end
  end.

Definition replace_usage (session_id : string) (usage : list A) (i : Index) : result unit string * Index :=
  match statement true (fun t => Ok (tt, set (List.filter (fun r => negb (bool_decide (r.1 = session_id))) (get t)) t)) i with
  | (Ok _, i) => insert_usages session_id usage i
  | r => r
  end.
End Replace.

Definition replace_ai_usage : string -> list ProviderSummary -> Index -> result unit string * Index :=
  replace_usage ai_usage
    (fun l t => {| sessions := sessions t; ai_usage := l; tool_usage := tool_usage t; mcp_usage := mcp_usage t |})
    ps_provider
    (fun u => {| ps_provider := ps_provider u; ps_call_count := as_i64 (ps_call_count u);
                 ps_input_tokens := as_i64 (ps_input_tokens u); ps_output_tokens := as_i64 (ps_output_tokens u);
                 ps_estimated_cost := ps_estimated_cost u; ps_total_duration_ms := as_i64 (ps_total_duration_ms u) |}).

Definition replace_tool_usage : string -> list ToolSummary -> Index -> result unit string * Index :=
  replace_usage tool_usage
    (fun l t => {| sessions := sessions t; ai_usage := ai_usage t; tool_usage := l; mcp_usage := mcp_usage t |})
    tls_tool_name
    (fun u => {| tls_tool_name := tls_tool_name u; tls_call_count := as_i64 (tls_call_count u);
                 tls_total_bytes := as_i64 (tls_total_bytes u); tls_total_duration_ms := as_i64 (tls_total_duration_ms u) |}).

Definition replace_mcp_usage : string -> list McpToolSummary -> Index -> result unit string * Index :=
  replace_usage mcp_usage
    (fun l t => {| sessions := sessions t; ai_usage := ai_usage t; tool_usage := tool_usage t; mcp_usage := l |})
    mts_tool_name
    (fun u => {| mts_tool_name := mts_tool_name u; mts_server_name := mts_server_name u;
                 mts_call_count := as_i64 (mts_call_count u); mts_total_bytes := as_i64 (mts_total_bytes u);
                 mts_total_duration_ms := as_i64 (mts_total_duration_ms u) |}).

(** An arbitrary statement, as SQLite runs it with writes refused or not. *)
Section RawQuery.
Context {Param : Type}.
Variable run_sql : bool -> string -> list Param -> Tables -> result string string * Tables.

Definition pragma_query_only (on : bool) (i : Index) : result unit string * Index :=
  match fault (ix_statements i) with
  | Some e => (Err e, {| ix_tables := ix_tables i; ix_query_only := ix_query_only i; ix_statements := S (ix_statements i) |})
  | None => (Ok tt, {| ix_tables := ix_tables i; ix_query_only := on; ix_statements := S (ix_statements i) |})
  end.

Definition query_raw (sql : string) (params : list Param) (i : Index) : result string string * Index :=
  match pragma_query_only true i with
  | (Err e, i) => (Err e, i)
  | (Ok _, i) =>
      let '(r, t) := run_sql (ix_query_only i) sql params (ix_tables i) in
      (r, (pragma_query_only false {| ix_tables := t; ix_query_only := ix_query_only i; ix_statements := S (ix_statements i) |}).2)
  end.
End RawQuery.

(** ** The sessions directory *)

(** An entry of the sessions directory. [e_session_db = Some None]: a session.db that does
    not open; [e_vacuum]: the size of the archive and of the directory after compressing
    its session.db, if that succeeds; [e_stuck]: nothing in it can be removed. *)
Record Entry := {
  e_name : option string; e_dir : bool; e_scratch : option Z; e_session_db : option (option Db);
  e_vacuum : option (Z * Z); e_size : Z; e_stuck : bool;
}.

(** [None]: there is no such directory. *)
Definition Fs : Type := option (list Entry).

Definition entries (fs : Fs) : list Entry := default [] fs.

Definition named (id : string) (e : Entry) : bool := bool_decide (e_name e = Some id).

Definition entry_bytes (e : Entry) : Z := e_size e + default 0 (e_scratch e).

Definition disk_usage_bytes (fs : Fs) : Z := sum_Z (map entry_bytes (entries fs)).

(** [remove_dir_all] of the entries [p] holds of. *)
Definition remove_dirs (p : Entry -> bool) (fs : Fs) : Fs := List.filter (fun e => negb (p e && negb (e_stuck e))) <$> fs.

Definition delete_scratch (fs : Fs) : Fs :=
  map (fun e => if e_dir e && negb (e_stuck e)
    then {| e_name := e_name e; e_dir := e_dir e; e_scratch := None; e_session_db := e_session_db e;
            e_vacuum := e_vacuum e; e_size := e_size e; e_stuck := e_stuck e |} else e) <$> fs.

(** [vacuum_and_compress_session_db]: the size of the archive. *)
Definition vacuum_and_compress_session_db (id : string) (fs : Fs) : result Z string * Fs :=
  match list_find_first (named id) (entries fs) with
  | Some e =>
      match e_session_db e, e_vacuum e with
      | Some _, Some (compressed, size) =>
          (Ok compressed, map (fun e' => if named id e' then
             {| e_name := e_name e'; e_dir := e_dir e'; e_scratch := e_scratch e'; e_session_db := None;
                e_vacuum := None; e_size := size; e_stuck := e_stuck e' |} else e') <$> fs)
      | _, _ => (Err "vacuum", fs)
      end
  | None => (Err "session.db not found", fs)
  end.

Section Cleanup.
Context `{UsageJson}.
Variable usage_totals : list string -> result (option string) string.
Variable group_order : forall {A}, list A -> list A.
(** The clock, in seconds, at each call. *)
Variable now : Z.

Definition now_iso : string := default "" (epoch_to_iso now).

Definition vacuum_session (session_id : string) (st : Index * Fs) : Index * Fs :=
  match vacuum_and_compress_session_db session_id st.2 with
  | (Ok compressed_size, fs) => ((mark_vacuumed session_id compressed_size now_iso st.1).2, fs)
  | (Err _, fs) => (st.1, fs)
  end.

Definition provider_summary (p : ProviderTokenUsage) : ProviderSummary :=
  {| ps_provider := pu_provider p; ps_call_count := pu_call_count p; ps_input_tokens := pu_total_input_tokens p;
     ps_output_tokens := pu_total_output_tokens p; ps_estimated_cost := pu_total_estimated_cost_usd p;
     ps_total_duration_ms := pu_total_duration_ms p |}.

Definition tool_summary (t : ToolUsageWithStats) : ToolSummary :=
  {| tls_tool_name := ts_tool_name t; tls_call_count := ts_count t; tls_total_bytes := ts_total_bytes t;
     tls_total_duration_ms := ts_total_duration_ms t |}.

Definition mcp_tool_summary (m : McpToolUsage) : McpToolSummary :=
  {| mts_tool_name := mt_tool_name m; mts_server_name := mt_server_name m; mts_call_count := mt_count m;
     mts_total_bytes := mt_total_bytes m; mts_total_duration_ms := mt_total_duration_ms m |}.

(** The rows of the summaries, read from the session's log. *)
Definition flush_session_summary (session_id : string) (reader : Db) (i : Index) : Index :=
  let i := match session_stats sum_real usage_totals reader with
           | Ok stats =>
               (update_session_summary session_id (LogReader.total_input_tokens stats) (LogReader.total_output_tokens stats)
                  (LogReader.total_estimated_cost_usd stats) (LogReader.total_tool_calls stats)
                  (cs_total (mcp_call_stats (@group_order) reader)) (file_event_count reader) i).2
           | Err _ => i
           end in
  let i := match token_usage_by_provider sum_real (@group_order) reader with
           | Ok providers => (replace_ai_usage session_id (map provider_summary providers) i).2
           | Err _ => i
           end in
  let i := match tool_usage_with_stats (@group_order) reader 50 with
           | Ok tools => (replace_tool_usage session_id (map tool_summary tools) i).2
           | Err _ => i
           end in
  match mcp_tool_usage (@group_order) (@any_row) reader 50 with
  | Ok mcp_tools => (replace_mcp_usage session_id (map mcp_tool_summary mcp_tools) i).2
  | Err _ => i
  end.

(** The end of a session: its counts, its summary, its status. *)
Definition cleanup_session (session_id : string) (db : option Db) (i : Index) : Index :=
  let i := match db with
           | Some reader =>
               let '(total, allowed, denied) := net_event_counts reader in
               flush_session_summary session_id reader (update_request_counts session_id total allowed denied i).2
           | None => i
           end in
  (update_status session_id "stopped" (Some now_iso) i).2.

(** ** Startup *)

Definition backfill_one (fs : Fs) (i : Index) (rec : SessionRecord) : Index :=
  if negb (bool_decide (sr_status rec ∈ ["crashed"; "stopped"])) then i
  else if (0 <? sr_total_input_tokens rec) || (0 <? sr_total_tool_calls rec) then i
  else match list_find_first (named (sr_id rec)) (entries fs) ≫= e_session_db with
       | Some (Some reader) =>
           let i := flush_session_summary (sr_id rec) reader i in
           if sr_total_requests rec =? 0 then
             let '(total, allowed, denied) := net_event_counts reader in
             (update_request_counts (sr_id rec) total allowed denied i).2
           else i
       | _ => i
       end.

Definition backfill (fs : Fs) (i : Index) : Index :=
  match recent 1000 i with
  | (Ok sessions, i) => foldl (backfill_one fs) i sessions
  | (Err _, i) => i
  end.

Definition vacuum_recovery (st : Index * Fs) : Index * Fs :=
  match unvacuumed_sessions st.1 with
  | (Ok unvacuumed, i) => foldl (fun st rec => vacuum_session (sr_id rec) st) (i, st.2) unvacuumed
  | (Err _, i) => (i, st.2)
  end.

Definition setting_number (settings : list ResolvedSetting) (k : string) (dflt : Z) : Z :=
  default dflt (list_find_first (fun s => bool_decide (Settings.id s = k)) settings ≫= fun s => as_number (effective_value s)).

(** The loop of the disk-based culling: what is still used, and the state. *)
Fixpoint cull_disk (max_disk_bytes : Z) (stopped : list SessionRecord) (usage : Z) (st : Index * Fs) : Index * Fs :=
  match stopped with
  | [] => st
  | rec :: stopped =>
      if usage <=? max_disk_bytes then st
      else match list_find_first (fun e => named (sr_id rec) e && e_dir e) (entries st.2) with
           | None => cull_disk max_disk_bytes stopped usage st
           | Some e =>
               if e_stuck e then cull_disk max_disk_bytes stopped usage st
               else cull_disk max_disk_bytes stopped (saturating_sub usage (entry_bytes e))
                      ((mark_terminated (sr_id rec) st.1).2, remove_dirs (named (sr_id rec)) st.2)
           end
  end.

Definition disk_culling (max_disk_bytes : Z) (st : Index * Fs) : Index * Fs :=
  let usage := disk_usage_bytes st.2 in
  if usage <=? max_disk_bytes then st
  else match stopped_sessions_oldest_first st.1 with
       | (Ok stopped, i) => cull_disk max_disk_bytes stopped usage (i, st.2)
       | (Err _, i) => (i, st.2)
       end.

Definition delete_terminated (st : Index * Fs) : Index * Fs :=
  match sessions_by_status "terminated" st.1 with
  | (Ok terminated, i) =>
      (i, foldl (fun fs rec => remove_dirs (fun e => named (sr_id rec) e && e_dir e) fs) st.2 terminated)
  | (Err _, i) => (i, st.2)
  end.

(** [index.recent(10_000).unwrap_or_default()] *)
Definition remove_orphans (st : Index * Fs) : Index * Fs :=
  match st.2 with
  | None => st
  | Some _ =>
      let '(r, i) := recent 10000 st.1 in
      let known := match r with Ok l => map sr_id l | Err _ => [] end in
      (i, remove_dirs (fun e => e_dir e && match e_name e with
            | Some name => is_valid_session_id name && negb (bool_decide (name ∈ known))
            | None => false
            end) st.2)
  end.

Definition cleanup_stale_sessions (settings : list ResolvedSetting) (st : Index * Fs) : Index * Fs :=
  let fs := delete_scratch st.2 in
  let i := (mark_running_as_crashed st.1).2 in
  let i := backfill fs i in
  let '(i, fs) := vacuum_recovery (i, fs) in
  let retention_days := as_uN 32 (setting_number settings "vm.retention_days" 30) in
  let max_sessions := as_uN 64 (setting_number settings "vm.max_sessions" 100) in
  let max_disk_gb := as_uN 64 (setting_number settings "vm.max_disk_gb" 100) in
  let terminated_retention_days := as_uN 32 (setting_number settings "vm.terminated_retention_days" 365) in
  let i := (terminate_older_than_days now retention_days i).2 in
  let i := (terminate_excess_sessions max_sessions i).2 in
  let st := disk_culling (as_uN 64 (max_disk_gb * 1024 * 1024 * 1024)) (i, fs) in
  let '(i, fs) := delete_terminated st in
  let i := (purge_terminated_older_than_days now terminated_retention_days i).2 in
  remove_orphans (i, fs).

End Cleanup.
End Index.
