(* ===== verification/SessionCleanup.v ===== *)
(** What the cleanup of sessions guarantees: the lifecycle of every session, and what the
    index and the sessions directory hold when it is done. *)

From Stdlib Require Import ZArith Lia Ascii.
From stdpp Require Import base numbers list gmap strings.
From S2P Require Import Prelude RustStr Pricing Events EventLog LogReader SessionTime Settings SessionIndex.

(** The lifecycle of the module's documentation. *)
Inductive lifecycle : string -> string -> Prop :=
| lc_refl s : lifecycle s s
| lc_crash : lifecycle "running" "crashed"
| lc_vacuum s : s = "stopped" \/ s = "crashed" -> lifecycle s "vacuumed"
| lc_terminate s : s ∈ ["stopped"; "crashed"; "vacuumed"] -> lifecycle s "terminated"
| lc_trans s t u : lifecycle s t -> lifecycle t u -> lifecycle s u.

Definition evolves (l l' : list SessionRecord) : Prop :=
  forall r', r' ∈ l' -> exists r, r ∈ l /\ sr_id r = sr_id r' /\ sr_created_at r = sr_created_at r' /\
    lifecycle (sr_status r) (sr_status r').

Definition uniq (l : list SessionRecord) : Prop := NoDup (map sr_id l).

Lemma evolves_refl l : evolves l l.
Proof. intros r Hr. exists r. do 3 (split; [done|]). constructor. Qed.

Lemma evolves_trans l1 l2 l3 : evolves l1 l2 -> evolves l2 l3 -> evolves l1 l3.
Proof.
  intros H12 H23 r3 Hr3. destruct (H23 r3 Hr3) as (r2 & Hr2 & Hi & Hc & Hs).
  destruct (H12 r2 Hr2) as (r1 & Hr1 & Hi' & Hc' & Hs'). exists r1. split; [done|].
  split; [congruence|]. split; [congruence|]. by eapply lc_trans.
Qed.

Lemma evolves_update p (f : SessionRecord -> SessionRecord) l :
  (forall r, r ∈ l -> p r = true -> sr_id (f r) = sr_id r /\ sr_created_at (f r) = sr_created_at r /\
     lifecycle (sr_status r) (sr_status (f r))) ->
  evolves l (map (fun r => if p r then f r else r) l).
Proof.
  intros Hf r' Hr'. apply list_elem_of_fmap in Hr' as (r & -> & Hr). exists r. split; [done|].
  destruct (p r) eqn:Hp; [|do 2 (split; [done|]); constructor].
  destruct (Hf r Hr Hp) as (Hi & Hc & Hs). done.
Qed.

Lemma evolves_filter p l : evolves l (List.filter p l).
Proof.
  intros r Hr. rewrite list_elem_of_In, filter_In, <- list_elem_of_In in Hr. destruct Hr as [Hr _].
  by apply evolves_refl.
Qed.

(** What a status can come from. *)
Lemma lifecycle_to_running s t : lifecycle s t -> t = "running" -> s = "running".
Proof. induction 1 as [s| |s Hs|s Hs|s t u H1 IH1 H2 IH2]; intros E; try done. by apply IH1, IH2. Qed.

Lemma lifecycle_from_finished s t : lifecycle s t ->
  t ∈ ["stopped"; "crashed"; "vacuumed"] -> s = "running" \/ s ∈ ["stopped"; "crashed"; "vacuumed"].
Proof.
  induction 1 as [s| |s Hs|s Hs|s t u H1 IH1 H2 IH2]; intros Ht.
  - by right.
  - by left.
  - right. destruct Hs as [-> | ->]; [left|right; left].
  - rewrite !elem_of_cons in Ht. destruct Ht as [|[|[|Ht]]]; try done. by apply not_elem_of_nil in Ht.
  - destruct (IH2 Ht) as [->|Ht']; [|by apply IH1]. left. by eapply lifecycle_to_running.
Qed.

Lemma lifecycle_terminated s t : lifecycle s t -> s = "terminated" -> t = "terminated".
Proof.
  induction 1 as [s| |s Hs|s Hs|s t u H1 IH1 H2 IH2]; intros E; try done.
  - subst s. by destruct Hs.
  - by apply IH2, IH1.
Qed.

Lemma finished_spec r : finished r = true <-> sr_status r ∈ ["stopped"; "crashed"; "vacuumed"].
Proof. unfold finished. apply bool_decide_eq_true. Qed.

(** ** Sorting *)

Lemma insert_sorted_perm {A} (leb : A -> A -> bool) x l : insert_sorted leb x l ≡ₚ x :: l.
Proof.
  induction l as [|y l IH]; cbn; [done|]. destruct (leb x y); [done|]. rewrite IH. apply Permutation_swap.
Qed.

Lemma sort_rows_perm {A} (leb : A -> A -> bool) l : sort_rows leb l ≡ₚ l.
Proof. induction l as [|x l IH]; cbn; [done|]. by rewrite insert_sorted_perm, IH. Qed.

Lemma filter_length {A} (p : A -> bool) l : (length (List.filter p l) <= length l)%nat.
Proof. induction l as [|x l IH]; cbn; [lia|]. destruct (p x); cbn; lia. Qed.

Lemma filter_filter_length {A} (p q : A -> bool) l : (length (List.filter p (List.filter q l)) <= length (List.filter p l))%nat.
Proof. induction l as [|x l IH]; cbn; [lia|]. destruct (q x); cbn; destruct (p x); cbn; lia. Qed.

(** ** The index *)

Section Cleanup.
Context `{UsageJson}.
Variable fault : nat -> option string.
Variable tie : forall {A}, list A -> list A.
Hypothesis tie_perm : forall A (l : list A), tie l ≡ₚ l.
Variable sum_real : list f64 -> f64.
Variable any_row : forall {A}, A -> list A -> A.
Variable usage_totals : list string -> result (option string) string.
Variable group_order : forall {A}, list A -> list A.
Variable now : Z.

Abbreviation rows i := (sessions (ix_tables i)).
Abbreviation ord := (ordered (@tie)).
Abbreviation flush := (flush_session_summary fault sum_real (@any_row) usage_totals (@group_order)).
Abbreviation cleanup := (cleanup_stale_sessions fault (@tie) sum_real (@any_row) usage_totals (@group_order) now).

Lemma statement_rows {A} w (f : Tables -> result (A * Tables) string) i :
  (forall a t, f (ix_tables i) = Ok (a, t) -> sessions t = rows i) -> rows (statement fault w f i).2 = rows i.
Proof.
  intros Hf. unfold statement. destruct (fault _); [done|]. destruct (w && _); [done|].
  destruct (f (ix_tables i)) as [[a t]|e] eqn:E; [|done]. cbn. by eapply Hf.
Qed.

Lemma select_index {A} (f : Tables -> result A string) i :
  rows (select fault f i).2 = rows i /\
  (forall a, (select fault f i).1 = Ok a -> f (ix_tables i) = Ok a).
Proof.
  unfold select, statement. destruct (fault _); [done|]. cbn [andb].
  destruct (f (ix_tables i)) as [a|e]; cbn; [|done]. split; [done|]. by intros a' [= <-].
Qed.

Lemma update_where_rows p f i :
  rows (update_where fault p f i).2 = rows i \/
  rows (update_where fault p f i).2 = map (fun r => if p r then f r else r) (rows i).
Proof.
  unfold update_where, statement. destruct (fault _); [by left|]. destruct (true && _); [by left|]. by right.
Qed.

(** An update that keeps ids, times and the lifecycle. *)
Lemma update_evolves p f i :
  (forall r, r ∈ rows i -> p r = true -> sr_id (f r) = sr_id r /\ sr_created_at (f r) = sr_created_at r /\
     lifecycle (sr_status r) (sr_status (f r))) ->
  evolves (rows i) (rows (update_where fault p f i).2) /\ map sr_id (rows (update_where fault p f i).2) = map sr_id (rows i).
Proof.
  intros Hf. destruct (update_where_rows p f i) as [-> | ->]; [split; [apply evolves_refl|done]|].
  split; [by apply evolves_update|]. rewrite map_map. apply map_ext_in. intros r Hr. rewrite <- list_elem_of_In in Hr.
  destruct (p r) eqn:Hp; [|done]. by apply Hf.
Qed.

(** Summaries touch neither ids, nor times, nor statuses. *)
Definition row_key (r : SessionRecord) : string * string * string := (sr_id r, sr_created_at r, sr_status r).

Lemma update_keys p f i : (forall r, row_key (f r) = row_key r) ->
  map row_key (rows (update_where fault p f i).2) = map row_key (rows i).
Proof.
  intros Hf. destruct (update_where_rows p f i) as [-> | ->]; [done|]. rewrite map_map. apply map_ext.
  intros r. by destruct (p r).
Qed.

Lemma insert_usages_rows {A} get set key bind sid (usage : list A) i :
  (forall l t, sessions (set l t) = sessions t) -> rows (insert_usages fault get set key bind sid usage i).2 = rows i.
Proof.
  intros Hs. revert i. induction usage as [|u usage IH]; intros i; cbn [insert_usages]; [done|].
  pose proof (statement_rows true (fun t =>
    if existsb (fun r => bool_decide (r.1 = sid) && bool_decide (key r.2 = key u)) (get t)
    then Err "UNIQUE constraint failed" else Ok (tt, set (get t ++ [(sid, bind u)]) t)) i) as Hst.
  unfold insert_usage. destruct (statement _ _ _ i) as [[|] i1]; cbn in *.
  - rewrite IH. apply Hst. intros ? ?. destruct (existsb _ _); [done|]. intros [= _ <-]. apply Hs.
  - apply Hst. intros a t. destruct (existsb _ _); [done|]. intros [= _ <-]. apply Hs.
Qed.

Lemma replace_usage_rows {A} get set key bind sid (usage : list A) i :
  (forall l t, sessions (set l t) = sessions t) -> rows (replace_usage fault get set key bind sid usage i).2 = rows i.
Proof.
  intros Hs. unfold replace_usage.
  pose proof (statement_rows true (fun t => Ok (tt, set (List.filter (fun r => negb (bool_decide (r.1 = sid))) (get t)) t)) i) as Hst.
  destruct (statement _ _ _ i) as [[|] i1]; cbn in *.
  - rewrite insert_usages_rows by done. apply Hst. intros ? ? [= _ <-]. apply Hs.
  - apply Hst. intros ? ? [= _ <-]. apply Hs.
Qed.

Lemma flush_keys sid reader i : map row_key (rows (flush sid reader i)) = map row_key (rows i).
Proof.
  unfold flush_session_summary.
  set (i1 := match session_stats _ _ _ with Ok _ => _ | Err _ => i end).
  assert (map row_key (rows i1) = map row_key (rows i)) as <-
    by (subst i1; destruct (session_stats _ _ _); [by apply update_keys|done]).
  set (i2 := match token_usage_by_provider _ _ _ with Ok _ => _ | Err _ => i1 end).
  assert (rows i2 = rows i1) as <- by (subst i2; destruct (token_usage_by_provider _ _ _); [by apply replace_usage_rows|done]).
  set (i3 := match tool_usage_with_stats _ _ _ with Ok _ => _ | Err _ => i2 end).
  assert (rows i3 = rows i2) as <- by (subst i3; destruct (tool_usage_with_stats _ _ _); [by apply replace_usage_rows|done]).
  destruct (mcp_tool_usage _ _ _ _); [|done]. unfold replace_mcp_usage. by rewrite replace_usage_rows.
Qed.

Lemma backfill_one_keys fs i rec :
  map row_key (rows (backfill_one fault sum_real (@any_row) usage_totals (@group_order) fs i rec)) = map row_key (rows i).
Proof.
  unfold backfill_one. destruct (negb _); [done|]. destruct (_ || _); [done|].
  destruct (_ ≫= e_session_db) as [[reader|]|]; [|done|done]. cbv zeta.
  destruct (sr_total_requests rec =? 0); [|apply flush_keys].
  destruct (net_event_counts reader) as [[tot al] de]. unfold update_request_counts. rewrite update_keys by done.
  apply flush_keys.
Qed.

Lemma backfill_keys fs i :
  map row_key (rows (backfill fault (@tie) sum_real (@any_row) usage_totals (@group_order) fs i)) = map row_key (rows i).
Proof.
  unfold backfill. pose proof (select_index (fun t => Ok (map read_session_row (sql_limit 1000 (ord newest_first (sessions t))))) i)
    as [Hr _]. unfold recent. destruct (select _ _ i) as [[l|] i1]; cbn [snd] in Hr; [|by rewrite Hr].
  rewrite <- Hr. clear Hr. revert i1. induction l as [|rec l IH]; intros i1; cbn [foldl]; [done|].
  rewrite IH. apply backfill_one_keys.
Qed.

Lemma keys_evolve l l' : map row_key l' = map row_key l -> evolves l l' /\ map sr_id l' = map sr_id l.
Proof.
  intros Hk. split.
  - intros r' Hr'. assert (row_key r' ∈ map row_key l) as Hin by (rewrite <- Hk; by apply list_elem_of_fmap_2).
    apply list_elem_of_fmap in Hin as (r & Heq & Hr). exists r. injection Heq as -> -> ->.
    do 3 (split; [done|]). constructor.
  - assert (forall l, map sr_id l = map (fun k : string * string * string => k.1.1) (map row_key l)) as Hm
      by (intros l0; by rewrite map_map). by rewrite !Hm, Hk.
Qed.

(** ** Statements that are not refused *)

Definition writable (i : Index) : Prop := ix_query_only i = false.

Lemma statement_writable {A} w (f : Tables -> result (A * Tables) string) i :
  writable i -> writable (statement fault w f i).2.
Proof.
  unfold writable, statement. intros Hw. destruct (fault _); [done|]. destruct (w && _); [done|].
  by destruct (f (ix_tables i)) as [[]|].
Qed.

Lemma replace_usage_writable {A} get set key bind sid (usage : list A) i :
  writable i -> writable (replace_usage fault get set key bind sid usage i).2.
Proof.
  intros Hw. unfold replace_usage.
  pose proof (statement_writable true
    (fun t => Ok (tt, set (List.filter (fun r => negb (bool_decide (r.1 = sid))) (get t)) t)) i Hw) as Hs.
  destruct (statement _ _ _ i) as [[|] i1]; cbn [snd] in *; [|done]. revert i1 Hs.
  induction usage as [|u usage IH]; intros i1 Hs; cbn [insert_usages]; [done|]. unfold insert_usage.
  match goal with |- context [statement fault true ?f i1] => pose proof (statement_writable true f i1 Hs) as Hs1 end.
  destruct (statement _ _ _ i1) as [[|] i2]; cbn [snd] in *; [by apply IH|done].
Qed.

Lemma flush_writable sid reader i : writable i -> writable (flush sid reader i).
Proof.
  intros Hw. unfold flush_session_summary.
  destruct (session_stats _ _ _); destruct (token_usage_by_provider _ _ _); destruct (tool_usage_with_stats _ _ _);
    destruct (mcp_tool_usage _ _ _ _); unfold replace_ai_usage, replace_tool_usage, replace_mcp_usage;
    repeat first [apply replace_usage_writable | apply statement_writable]; done.
Qed.

Lemma backfill_writable fs i :
  writable i -> writable (backfill fault (@tie) sum_real (@any_row) usage_totals (@group_order) fs i).
Proof.
  intros Hw. unfold backfill, recent, select.
  match goal with |- context [statement fault false ?f i] => pose proof (statement_writable false f i Hw) as Hs end.
  destruct (statement _ _ _ i) as [[l|] i1]; cbn [snd] in Hs; [|done]. revert i1 Hs.
  induction l as [|rec l IH]; intros i1 Hs; cbn [foldl]; [done|]. apply IH.
  unfold backfill_one. destruct (negb _); [done|]. destruct (_ || _); [done|].
  destruct (_ ≫= e_session_db) as [[reader|]|]; [|done|done]. cbv zeta.
  destruct (_ =? 0); [|by apply flush_writable]. destruct (net_event_counts reader) as [[tot al] de].
  by apply statement_writable, flush_writable.
Qed.

Hypothesis no_fault : forall n, fault n = None.

Lemma update_where_ok p f i :
  writable i -> rows (update_where fault p f i).2 = map (fun r => if p r then f r else r) (rows i).
Proof. unfold writable, update_where, statement. rewrite no_fault. by intros ->. Qed.

Lemma select_ok {A} (f : Tables -> result A string) i a :
  f (ix_tables i) = Ok a ->
  exists i', select fault f i = (Ok a, i') /\ rows i' = rows i /\ (writable i -> writable i').
Proof. intros Hf. unfold select, statement. rewrite no_fault. cbn [andb]. rewrite Hf. by eexists. Qed.

(** ** Directories *)

Definition has_dir (fs : Fs) (id : string) : Prop :=
  exists e, e ∈ entries fs /\ e_name e = Some id /\ e_dir e = true.

(** What is left of the directory cannot be removed. *)
Definition gone (fs : Fs) (id : string) : Prop :=
  forall e, e ∈ entries fs -> e_name e = Some id -> e_dir e = true -> e_stuck e = true.

Definition shape (e : Entry) : option string * bool * bool := (e_name e, e_dir e, e_stuck e).

Lemma entries_fmap f fs : entries (map f <$> fs) = map f (entries fs).
Proof. by destruct fs. Qed.

Lemma shape_has_dir fs fs' id : map shape (entries fs') = map shape (entries fs) -> has_dir fs id -> has_dir fs' id.
Proof.
  intros Hs (e & He & Hn & Hd). assert (shape e ∈ map shape (entries fs')) as Hin by (rewrite Hs; by apply list_elem_of_fmap_2).
  apply list_elem_of_fmap in Hin as (e' & Heq & He'). injection Heq as E1 E2 E3. exists e'. split; [done|]. split; congruence.
Qed.

Lemma entries_remove p fs e : e ∈ entries (remove_dirs p fs) <-> e ∈ entries fs /\ (p e = false \/ e_stuck e = true).
Proof.
  destruct fs as [l|].
  - change (entries (remove_dirs p (Some l))) with (List.filter (fun e => negb (p e && negb (e_stuck e))) l).
    change (entries (Some l)) with l. rewrite !list_elem_of_In, filter_In. destruct (p e), (e_stuck e); cbn; naive_solver.
  - split; [intros Hn; by apply not_elem_of_nil in Hn|]. intros [Hn _]. by apply not_elem_of_nil in Hn.
Qed.

Lemma gone_remove p fs id : gone fs id -> gone (remove_dirs p fs) id.
Proof. intros Hg e He. apply entries_remove in He as [He _]. by apply Hg. Qed.

Lemma has_dir_remove p fs id :
  has_dir fs id -> (forall e, e_name e = Some id -> p e = true -> False) -> has_dir (remove_dirs p fs) id.
Proof.
  intros (e & He & Hn & Hd) Hp. exists e. split; [|done]. apply entries_remove. split; [done|]. left.
  destruct (p e) eqn:E; [|done]. exfalso. by eapply Hp.
Qed.

(** All rows of the session are terminated. *)
Definition all_terminated (l : list SessionRecord) (id : string) : Prop :=
  forall r, r ∈ l -> sr_id r = id -> sr_status r = "terminated".

Lemma all_terminated_evolves l l' id : evolves l l' -> all_terminated l id -> all_terminated l' id.
Proof.
  intros He Ht r' Hr' Hid. destruct (He r' Hr') as (r & Hr & Hi & _ & Hl).
  eapply lifecycle_terminated; [done|]. apply Ht; [done|congruence].
Qed.

Lemma uniq_status l r r' : uniq l -> r ∈ l -> r' ∈ l -> sr_id r = sr_id r' -> r = r'.
Proof.
  unfold uniq. induction l as [|x l IH]; intros Hu Hr Hr' Hid; [by apply not_elem_of_nil in Hr|].
  cbn [map] in Hu. apply NoDup_cons in Hu as [Hx Hu].
  apply elem_of_cons in Hr as [->|Hr]; apply elem_of_cons in Hr' as [->|Hr']; [done| | |by apply IH].
  - exfalso. apply Hx. rewrite Hid. by apply list_elem_of_fmap_2.
  - exfalso. apply Hx. rewrite <- Hid. by apply list_elem_of_fmap_2.
Qed.

(** ** Vacuuming *)

Lemma vacuum_fs id fs : map shape (entries (vacuum_and_compress_session_db id fs).2) = map shape (entries fs).
Proof.
  unfold vacuum_and_compress_session_db. destruct (list_find_first _ _) as [e|]; [|done].
  destruct (e_session_db e), (e_vacuum e) as [[c sz]|]; try done. cbn [snd]. rewrite entries_fmap, map_map.
  apply map_ext. intros e'. by destruct (named id e').
Qed.

Lemma vacuum_session_step id st :
  (forall r, r ∈ rows st.1 -> sr_id r = id -> sr_status r = "stopped" \/ sr_status r = "crashed") ->
  evolves (rows st.1) (rows (vacuum_session fault now id st).1) /\
  map sr_id (rows (vacuum_session fault now id st).1) = map sr_id (rows st.1) /\
  (forall r', r' ∈ rows (vacuum_session fault now id st).1 -> sr_id r' <> id -> r' ∈ rows st.1) /\
  map shape (entries (vacuum_session fault now id st).2) = map shape (entries st.2) /\
  (writable st.1 -> writable (vacuum_session fault now id st).1).
Proof.
  intros Hst. unfold vacuum_session. pose proof (vacuum_fs id st.2) as Hfs.
  destruct (vacuum_and_compress_session_db id st.2) as [[size|] fs]; cbn [fst snd] in *;
    [|split; [apply evolves_refl|done]].
  pose proof (update_evolves (has_id id) (set_vacuumed (as_i64 size) (now_iso now)) st.1) as Hev.
  destruct Hev as [Hev Hids].
  { intros r Hr Hp. unfold has_id in Hp. apply bool_decide_eq_true in Hp. do 2 (split; [done|]).
    apply lc_vacuum. by apply Hst. }
  split; [exact Hev|]. split; [exact Hids|]. split; [|split; [exact Hfs|apply statement_writable]].
  intros r' Hr' Hne. unfold mark_vacuumed in Hr'.
  destruct (update_where_rows (has_id id) (set_vacuumed (as_i64 size) (now_iso now)) st.1) as [E|E]; rewrite E in Hr'; [done|].
  apply list_elem_of_fmap in Hr' as (r & -> & Hr). unfold has_id in *. case_bool_decide as Hid; [|done].
  by cbn in Hne.
Qed.

Lemma vacuum_fold recs st :
  NoDup (map sr_id recs) ->
  (forall rec r, rec ∈ recs -> r ∈ rows st.1 -> sr_id r = sr_id rec -> sr_status r = "stopped" \/ sr_status r = "crashed") ->
  let st' := foldl (fun st rec => vacuum_session fault now (sr_id rec) st) st recs in
  evolves (rows st.1) (rows st'.1) /\ map sr_id (rows st'.1) = map sr_id (rows st.1) /\
  map shape (entries st'.2) = map shape (entries st.2) /\ (writable st.1 -> writable st'.1).
Proof.
  revert st. induction recs as [|rec recs IH]; intros st Hnd Hst; cbn [foldl].
  - split; [apply evolves_refl|done].
  - cbn [map] in Hnd. apply NoDup_cons in Hnd as [Hnot Hnd].
    destruct (vacuum_session_step (sr_id rec) st) as (He & Hi & Hk & Hsh & Hw).
    { intros r Hr Hid. apply (Hst rec r); [by left|done|done]. }
    destruct (IH (vacuum_session fault now (sr_id rec) st) Hnd) as (He' & Hi' & Hsh' & Hw').
    { intros rec' r Hrec' Hr Hid. apply (Hst rec' r); [by right| |done]. apply Hk; [done|].
      intros E. apply Hnot. rewrite <- E, Hid. by apply list_elem_of_fmap_2. }
    split; [by eapply evolves_trans|]. split; [congruence|]. split; [congruence|]. auto.
Qed.

(** ** Selecting sessions *)

Lemma ordered_elem leb l r : r ∈ ord leb l <-> r ∈ l.
Proof. unfold ordered. by rewrite sort_rows_perm, tie_perm. Qed.

Lemma ordered_uniq leb l : uniq l -> uniq (ord leb l).
Proof. unfold uniq, ordered. intros Hu. by rewrite sort_rows_perm, tie_perm. Qed.

Lemma uniq_filter p l : uniq l -> uniq (List.filter p l).
Proof.
  unfold uniq. induction l as [|r l IH]; cbn [List.filter map]; [done|]. intros Hu. apply NoDup_cons in Hu as [Hx Hu].
  destruct (p r); [|by apply IH]. cbn [map]. apply NoDup_cons. split; [|by apply IH]. intros Hin. apply Hx.
  apply list_elem_of_fmap in Hin as (r' & Hid & Hr'). rewrite Hid. apply list_elem_of_fmap_2.
  rewrite list_elem_of_In, filter_In, <- list_elem_of_In in Hr'. by destruct Hr'.
Qed.

Lemma read_ids l : map sr_id (map read_session_row l) = map sr_id l.
Proof. by rewrite map_map. Qed.

(** What a query for the sessions [p] holds of returns. *)
Definition selected (p : SessionRecord -> bool) (l recs : list SessionRecord) : Prop :=
  (uniq l -> NoDup (map sr_id recs)) /\
  (forall rec, rec ∈ recs -> exists r, r ∈ l /\ p r = true /\ sr_id r = sr_id rec) /\
  (forall r, r ∈ l -> p r = true -> exists rec, rec ∈ recs /\ sr_id r = sr_id rec).

Lemma select_sessions_spec p i :
  exists recs i', select_sessions fault (@tie) p i = (Ok recs, i') /\ rows i' = rows i /\ (writable i -> writable i') /\
    selected p (rows i) recs.
Proof.
  destruct (select_ok (fun t => Ok (map read_session_row (ord oldest_first (List.filter p (sessions t))))) i
    (map read_session_row (ord oldest_first (List.filter p (rows i)))) eq_refl) as (i' & Hs & Hr & Hw).
  eexists _, i'. split; [exact Hs|]. split; [done|]. split; [done|]. split; [|split].
  - intros Hu. rewrite read_ids. by apply ordered_uniq, uniq_filter.
  - intros rec Hrec. apply list_elem_of_fmap in Hrec as (r & -> & Hr'). apply ordered_elem in Hr'.
    rewrite list_elem_of_In, filter_In, <- list_elem_of_In in Hr'. destruct Hr' as [Hin Hp]. by exists r.
  - intros r Hin Hp. exists (read_session_row r). split; [|done]. apply list_elem_of_fmap_2, ordered_elem.
    by rewrite list_elem_of_In, filter_In, <- list_elem_of_In.
Qed.

(** A selected session, as it is in the table. *)
Lemma selected_status p l recs rec r : selected p l recs -> uniq l -> rec ∈ recs -> r ∈ l -> sr_id r = sr_id rec -> p r = true.
Proof.
  intros (_ & Hsel & _) Hu Hrec Hr Hid. destruct (Hsel rec Hrec) as (r0 & Hr0 & Hp & Hid0).
  by rewrite (uniq_status l r r0 Hu Hr Hr0 ltac:(congruence)).
Qed.

(** A step of the cleanup: sessions follow their lifecycle, directories only go with their
    session's termination. *)
Record step_ok (st st' : Index * Fs) : Prop := {
  so_evolves : evolves (rows st.1) (rows st'.1);
  so_ids : map sr_id (rows st'.1) = map sr_id (rows st.1);
  so_writable : writable st.1 -> writable st'.1;
  so_dirs id : has_dir st.2 id -> has_dir st'.2 id \/ all_terminated (rows st'.1) id;
  so_gone id : gone st.2 id -> gone st'.2 id;
}.

Lemma step_ok_refl st : step_ok st st.
Proof. split; [apply evolves_refl|done|done|by left|done]. Qed.

Lemma step_ok_trans st1 st2 st3 : step_ok st1 st2 -> step_ok st2 st3 -> step_ok st1 st3.
Proof.
  intros [E1 I1 W1 D1 G1] [E2 I2 W2 D2 G2]. split; [by eapply evolves_trans|congruence|auto| |auto].
  intros id Hd. destruct (D1 id Hd) as [Hd'|Ht]; [by apply D2|]. right. by eapply all_terminated_evolves.
Qed.

Lemma uniq_ids l l' : map sr_id l' = map sr_id l -> uniq l -> uniq l'.
Proof. unfold uniq. by intros ->. Qed.

(** A step that only touches the index. *)
Lemma index_step i i' fs :
  evolves (rows i) (rows i') -> map sr_id (rows i') = map sr_id (rows i) -> (writable i -> writable i') -> step_ok (i, fs) (i', fs).
Proof. intros He Hi Hw. split; cbn; [done|done|done|by left|done]. Qed.

Lemma gone_shape fs fs' id : map shape (entries fs') = map shape (entries fs) -> gone fs id -> gone fs' id.
Proof.
  intros Hs Hg e' He' Hn Hd. assert (shape e' ∈ map shape (entries fs)) as Hin by (rewrite <- Hs; by apply list_elem_of_fmap_2).
  apply list_elem_of_fmap in Hin as (e & Heq & He). injection Heq as E1 E2 E3. rewrite E3.
  apply Hg; [done|congruence|congruence].
Qed.

Lemma vacuum_recovery_step st : uniq (rows st.1) -> step_ok st (vacuum_recovery fault (@tie) now st).
Proof.
  intros Hu. unfold vacuum_recovery, unvacuumed_sessions.
  destruct (select_sessions_spec (fun r => bool_decide (sr_status r ∈ ["stopped"; "crashed"]) && bool_decide (sr_vacuumed_at r = None)) st.1)
    as (recs & i' & -> & Hr & Hw & Hsel).
  destruct (vacuum_fold recs (i', st.2)) as (He & Hi & Hsh & Hw').
  { by apply (proj1 Hsel). }
  { intros rec r Hrec Hrr Hid. cbn [fst] in Hrr. rewrite Hr in Hrr.
    pose proof (selected_status _ _ _ _ _ Hsel Hu Hrec Hrr Hid) as Hp.
    apply andb_true_iff in Hp as [Hp _]. apply bool_decide_eq_true in Hp.
    apply elem_of_cons in Hp as [Hp|Hp]; [by left|]. right. by apply list_elem_of_singleton in Hp. }
  cbn [fst snd] in *. rewrite Hr in He, Hi. split; [done|done|auto| |].
  - intros id Hd. left. by eapply shape_has_dir.
  - intros id Hg. by eapply gone_shape.
Qed.

(** ** Culling for disk space *)

Lemma mark_terminated_step id i :
  (forall r, r ∈ rows i -> sr_id r = id -> finished r = true) -> writable i ->
  evolves (rows i) (rows (mark_terminated fault id i).2) /\
  map sr_id (rows (mark_terminated fault id i).2) = map sr_id (rows i) /\
  all_terminated (rows (mark_terminated fault id i).2) id /\
  (forall r', r' ∈ rows (mark_terminated fault id i).2 -> sr_id r' <> id -> r' ∈ rows i).
Proof.
  intros Hf Hw.
  destruct (update_evolves (has_id id) (set_status "terminated") i) as [He Hi].
  { intros r Hr Hp. unfold has_id in Hp. apply bool_decide_eq_true in Hp. do 2 (split; [done|]).
    apply lc_terminate, finished_spec. by apply Hf. }
  unfold mark_terminated. split; [done|]. split; [done|]. rewrite update_where_ok by done. split.
  - intros r' Hr' Hid. apply list_elem_of_fmap in Hr' as (r & -> & Hr). unfold has_id in *.
    case_bool_decide as Hd; [done|]. congruence.
  - intros r' Hr' Hne. apply list_elem_of_fmap in Hr' as (r & -> & Hr). unfold has_id in *.
    case_bool_decide as Hd; [|done]. by cbn in Hne.
Qed.

Lemma cull_disk_step max recs usage st :
  writable st.1 -> NoDup (map sr_id recs) ->
  (forall rec r, rec ∈ recs -> r ∈ rows st.1 -> sr_id r = sr_id rec -> finished r = true) ->
  step_ok st (cull_disk fault max recs usage st).
Proof.
  revert usage st. induction recs as [|rec recs IH]; intros usage st Hw Hnd Hf; cbn [cull_disk]; [apply step_ok_refl|].
  cbn [map] in Hnd. apply NoDup_cons in Hnd as [Hnot Hnd].
  assert (forall rec' r, rec' ∈ recs -> r ∈ rows st.1 -> sr_id r = sr_id rec' -> finished r = true) as Hf'.
  { intros rec' r Hrec' Hr Hid. apply (Hf rec' r); [by right|done|done]. }
  destruct (usage <=? max); [apply step_ok_refl|].
  destruct (list_find_first _ _) as [e|]; [|by apply IH]. destruct (e_stuck e); [by apply IH|].
  destruct (mark_terminated_step (sr_id rec) st.1) as (He & Hi & Hat & Hk); [|done|].
  { intros r Hr Hid. apply (Hf rec r); [by left|done|done]. }
  eapply step_ok_trans; [|apply IH]; cbn [fst snd].
  - split; cbn [fst snd]; [done|done|intros _; by apply statement_writable| |intros id; apply gone_remove].
    intros id Hd. destruct (decide (id = sr_id rec)) as [->|Hne]; [by right|]. left.
    apply has_dir_remove; [done|]. intros e' Hn Hp. unfold named in Hp. apply bool_decide_eq_true in Hp. congruence.
  - by apply statement_writable.
  - done.
  - intros rec' r Hrec' Hr Hid. apply (Hf' rec' r); [done| |done]. apply Hk; [done|]. intros E. apply Hnot.
    rewrite <- E, Hid. by apply list_elem_of_fmap_2.
Qed.

Lemma disk_culling_step max st :
  writable st.1 -> uniq (rows st.1) -> step_ok st (disk_culling fault (@tie) max st).
Proof.
  intros Hw Hu. unfold disk_culling. destruct (_ <=? max); [apply step_ok_refl|].
  unfold stopped_sessions_oldest_first.
  destruct (select_sessions_spec finished st.1) as (recs & i' & -> & Hr & Hw' & Hsel).
  eapply step_ok_trans; [|apply cull_disk_step]; cbn [fst snd].
  - destruct st as [i fs]. apply index_step; cbn [fst] in *; [rewrite Hr; apply evolves_refl|by rewrite Hr|done].
  - auto.
  - by apply (proj1 Hsel).
  - intros rec r Hrec Hrr Hid. rewrite Hr in Hrr. by eapply selected_status.
Qed.

(** ** Removing directories *)

Lemma fold_remove_elem recs fs e :
  e ∈ entries (foldl (fun fs rec => remove_dirs (fun e => named (sr_id rec) e && e_dir e) fs) fs recs) <->
  e ∈ entries fs /\ forall rec, rec ∈ recs -> (named (sr_id rec) e && e_dir e) = false \/ e_stuck e = true.
Proof.
  revert fs. induction recs as [|rec recs IH]; intros fs; cbn [foldl].
  - split; [intros He; split; [done|]|by intros []]. intros rec Hrec. by apply not_elem_of_nil in Hrec.
  - rewrite IH, entries_remove. split.
    + intros [[He Hp] Hall]. split; [done|]. intros rec' [->|Hrec']%elem_of_cons; [done|by apply Hall].
    + intros [He Hall]. split; [split; [done|]; apply Hall; by left|]. intros rec' Hrec'. apply Hall. by right.
Qed.

Lemma delete_terminated_step st : uniq (rows st.1) ->
  step_ok st (delete_terminated fault (@tie) st) /\ rows (delete_terminated fault (@tie) st).1 = rows st.1 /\
  forall r, r ∈ rows st.1 -> sr_status r = "terminated" -> gone (delete_terminated fault (@tie) st).2 (sr_id r).
Proof.
  intros Hu. unfold delete_terminated, sessions_by_status.
  destruct (select_sessions_spec (fun r => bool_decide (sr_status r = "terminated")) st.1) as (recs & i' & -> & Hr & Hw & Hsel).
  cbn [fst snd]. split; [|split; [done|]].
  - split; cbn [fst snd]; [rewrite Hr; apply evolves_refl|by rewrite Hr|done| |].
    + intros id (e & He & Hn & Hd). rewrite Hr.
      destruct (existsb (fun rec => bool_decide (sr_id rec = id)) recs) eqn:Ex.
      * right. apply existsb_elem in Ex as (rec & Hrec & Hid). apply bool_decide_eq_true in Hid. intros r Hrr Hrid.
        pose proof (selected_status _ _ _ _ _ Hsel Hu Hrec Hrr ltac:(congruence)) as Hp. by apply bool_decide_eq_true in Hp.
      * left. exists e. split; [|done]. apply fold_remove_elem. split; [done|]. intros rec Hrec. left.
        rewrite existsb_elem_false in Ex. specialize (Ex rec Hrec). apply bool_decide_eq_false in Ex.
        unfold named. rewrite bool_decide_false by congruence. done.
    + intros id Hg e He. apply fold_remove_elem in He as [He _]. by apply Hg.
  - intros r Hrr Hst e He Hn Hd. apply fold_remove_elem in He as [_ Hall].
    destruct Hsel as (_ & _ & Hsel). destruct (Hsel r Hrr) as (rec & Hrec & Hid); [by apply bool_decide_eq_true|].
    destruct (Hall rec Hrec) as [Hf|]; [|done]. unfold named in Hf. rewrite Hd, bool_decide_true in Hf by congruence. done.
Qed.

Definition orphan (known : list string) (e : Entry) : bool :=
  e_dir e && match e_name e with
             | Some name => is_valid_session_id name && negb (bool_decide (name ∈ known))
             | None => false
             end.

Lemma remove_orphans_spec st :
  exists known, (forall id, id ∈ known -> id ∈ map sr_id (rows st.1)) /\
    (Z.of_nat (length (rows st.1)) <= 10000 -> forall r, r ∈ rows st.1 -> sr_id r ∈ known) /\
    rows (remove_orphans fault (@tie) st).1 = rows st.1 /\
    (remove_orphans fault (@tie) st).2 = remove_dirs (orphan known) st.2.
Proof.
  destruct st as [i [l|]]; cbn [fst snd].
  - destruct (select_ok (fun t => Ok (map read_session_row (sql_limit 10000 (ord newest_first (sessions t))))) i _ eq_refl)
      as (i' & Hs & Hr & _). unfold remove_orphans, recent. cbn [fst snd]. rewrite Hs.
    eexists. split; [|split; [|split; [done|reflexivity]]].
    + intros id Hid. rewrite read_ids in Hid. apply list_elem_of_fmap in Hid as (r & -> & Hin). apply list_elem_of_fmap_2.
      unfold sql_limit in Hin. change (as_i64 10000 <? 0) with false in Hin. cbv iota in Hin.
      apply elem_of_take in Hin as (k & Hk & _). apply list_elem_of_lookup_2 in Hk. by apply ordered_elem in Hk.
    + intros Hlen r Hin. rewrite read_ids. apply list_elem_of_fmap_2. unfold sql_limit.
      change (as_i64 10000 <? 0) with false. cbv iota. rewrite take_ge; [by apply ordered_elem|].
      assert (length (ord newest_first (rows i)) = length (rows i)) as -> by (unfold ordered; by rewrite sort_rows_perm, tie_perm).
      change (as_i64 10000) with 10000. lia.
  - exists (map sr_id (rows i)). unfold remove_orphans. cbn [fst snd]. split; [done|]. split; [|done].
    intros _ r Hr. by apply list_elem_of_fmap_2.
Qed.

(** ** The index after each step of the startup *)

Lemma terminate_older_step days i fs : writable i ->
  step_ok (i, fs) ((terminate_older_than_days fault now days i).2, fs) /\
  forall r, r ∈ rows (terminate_older_than_days fault now days i).2 -> finished r = true ->
    String.ltb (sr_created_at r) (cutoff now days) = false.
Proof.
  intros Hw. unfold terminate_older_than_days. split.
  - apply index_step; [| |apply statement_writable]; apply update_evolves; intros r _ Hp; apply andb_true_iff in Hp as [_ Hp];
      (do 2 (split; [done|])); by apply lc_terminate, finished_spec.
  - rewrite update_where_ok by done. intros r Hr Hf. apply list_elem_of_fmap in Hr as (r0 & -> & _).
    destruct (String.ltb (sr_created_at r0) (cutoff now days)) eqn:Ht; cbn [andb] in *; [|done].
    destruct (finished r0) eqn:Hf0; [by cbn in Hf|congruence].
Qed.

Lemma terminate_excess_step max i fs : writable i -> uniq (rows i) ->
  step_ok (i, fs) ((terminate_excess_sessions fault (@tie) max i).2, fs) /\
  exists keep, (0 <= as_i64 max -> Z.of_nat (length keep) <= as_i64 max) /\
    forall r, r ∈ rows (terminate_excess_sessions fault (@tie) max i).2 -> finished r = true -> sr_id r ∈ keep.
Proof.
  intros Hw Hu. unfold terminate_excess_sessions. split.
  - apply index_step; [| |apply statement_writable]; apply update_evolves; intros r _ Hp; apply andb_true_iff in Hp as [Hp _];
      (do 2 (split; [done|])); by apply lc_terminate, finished_spec.
  - exists (newest_ids (@tie) max (ix_tables i)). split.
    + intros Hm. unfold newest_ids, sql_limit. rewrite length_map. destruct (Z.ltb_spec (as_i64 max) 0); [lia|].
      rewrite length_take. lia.
    + rewrite update_where_ok by done. intros r Hr Hf. apply list_elem_of_fmap in Hr as (r0 & -> & _).
      destruct (finished r0) eqn:Hf0; cbn [andb] in *; [|congruence].
      case_bool_decide as Hin; cbn [negb] in *; [done|]. by cbn in Hf.
Qed.

Lemma purge_rows days i : writable i ->
  rows (purge_terminated_older_than_days fault now days i).2 =
    List.filter (fun r => negb (bool_decide (sr_status r = "terminated") && String.ltb (sr_created_at r) (cutoff now days))) (rows i).
Proof. unfold writable, purge_terminated_older_than_days, statement. rewrite no_fault. by intros ->. Qed.

Lemma finished_evolves l l' r' : evolves l l' -> (forall r, r ∈ l -> sr_status r <> "running") -> r' ∈ l' -> finished r' = true ->
  exists r, r ∈ l /\ finished r = true /\ sr_id r = sr_id r' /\ sr_created_at r = sr_created_at r'.
Proof.
  intros He Hn Hr' Hf. destruct (He r' Hr') as (r & Hr & Hi & Hc & Hl). exists r. split; [done|]. split; [|done].
  apply finished_spec. apply finished_spec in Hf. destruct (lifecycle_from_finished _ _ Hl Hf) as [Hrun|]; [|done].
  by destruct (Hn r Hr).
Qed.

Lemma uniq_length (p : SessionRecord -> bool) l keep : uniq l -> (forall r, r ∈ l -> p r = true -> sr_id r ∈ keep) ->
  (length (List.filter p l) <= length keep)%nat.
Proof.
  intros Hu Hk. rewrite <- (length_map sr_id). apply submseteq_length, NoDup_submseteq; [by apply uniq_filter|].
  intros id Hid. apply list_elem_of_fmap in Hid as (r & -> & Hr). rewrite list_elem_of_In, filter_In, <- list_elem_of_In in Hr.
  destruct Hr as [Hr Hp]. by apply Hk.
Qed.

(** ** The startup as a whole *)

Lemma scratch_shape fs : map shape (entries (delete_scratch fs)) = map shape (entries fs).
Proof. unfold delete_scratch. rewrite entries_fmap, map_map. apply map_ext. intros e. by destruct (e_dir e && negb (e_stuck e)). Qed.

Lemma crash_step i fs : writable i ->
  step_ok (i, fs) ((mark_running_as_crashed fault i).2, fs) /\
  forall r, r ∈ rows (mark_running_as_crashed fault i).2 -> sr_status r <> "running".
Proof.
  intros Hw. unfold mark_running_as_crashed. split.
  - apply index_step; [| |apply statement_writable]; apply update_evolves; intros r _ Hp; apply bool_decide_eq_true in Hp;
      (do 2 (split; [done|])); rewrite Hp; constructor.
  - rewrite update_where_ok by done. intros r Hr. apply list_elem_of_fmap in Hr as (r0 & -> & _).
    by case_bool_decide.
Qed.

Section Startup.
Variable settings : list ResolvedSetting.

(** The configured bounds. *)
Definition retention_days : Z := as_uN 32 (setting_number settings "vm.retention_days" 30).
Definition max_sessions : Z := as_uN 64 (setting_number settings "vm.max_sessions" 100).

(** The index and the directories after the culling for disk space. *)
Lemma culled_step i fs : writable i -> uniq (rows i) ->
  exists st1, step_ok (i, fs) st1 /\ writable st1.1 /\
    (forall r, r ∈ rows st1.1 -> sr_status r <> "running") /\
    (forall r, r ∈ rows st1.1 -> finished r = true -> String.ltb (sr_created_at r) (cutoff now retention_days) = false) /\
    (0 <= as_i64 max_sessions -> Z.of_nat (length (List.filter finished (rows st1.1))) <= as_i64 max_sessions) /\
    cleanup settings (i, fs) =
      (let '(i, fs) := delete_terminated fault (@tie) st1 in
       let i := (purge_terminated_older_than_days fault now
         (as_uN 32 (setting_number settings "vm.terminated_retention_days" 365)) i).2 in
       remove_orphans fault (@tie) (i, fs)).
Proof.
  intros Hw Hu. unfold cleanup_stale_sessions. cbn [fst snd].
  destruct (crash_step i (delete_scratch fs) Hw) as [S1 R1]. set (i1 := (mark_running_as_crashed fault i).2) in *.
  assert (step_ok (i, fs) (i, delete_scratch fs)) as S0.
  { split; cbn [fst snd]; [apply evolves_refl|done|done| |]; intros id Hd.
    - left. by apply (shape_has_dir _ _ _ (scratch_shape fs)).
    - by apply (gone_shape _ _ _ (scratch_shape fs)). }
  pose proof (step_ok_trans _ _ _ S0 S1) as S01. clear S0 S1.
  set (i2 := backfill fault (@tie) sum_real (@any_row) usage_totals (@group_order) (delete_scratch fs) i1).
  destruct (keys_evolve (rows i1) (rows i2) (backfill_keys _ _)) as [E2 K2].
  assert (step_ok (i1, delete_scratch fs) (i2, delete_scratch fs)) as S2 by (apply index_step; [done|done|apply backfill_writable]).
  pose proof (step_ok_trans _ _ _ S01 S2) as S02.
  assert (uniq (rows i2)) as U2 by exact (uniq_ids _ _ (so_ids _ _ S02) Hu).
  pose proof (vacuum_recovery_step (i2, delete_scratch fs) U2) as S3.
  pose proof (step_ok_trans _ _ _ S02 S3) as S03.
  assert (forall r, r ∈ rows (vacuum_recovery fault (@tie) now (i2, delete_scratch fs)).1 -> sr_status r <> "running") as R3.
  { intros r Hr Hrun. destruct (evolves_trans _ _ _ E2 (so_evolves _ _ S3) r Hr) as (r1 & Hr1 & _ & _ & Hl).
    by apply (R1 r1 Hr1), (lifecycle_to_running _ _ Hl). }
  destruct (vacuum_recovery fault (@tie) now (i2, delete_scratch fs)) as [i3 fs3]. cbn [fst snd] in *.
  pose proof (so_writable _ _ S03 Hw) as W3. cbn [fst] in W3.
  destruct (terminate_older_step retention_days i3 fs3 W3) as [S4 R4]. fold retention_days max_sessions.
  set (i4 := (terminate_older_than_days fault now retention_days i3).2) in *.
  pose proof (step_ok_trans _ _ _ S03 S4) as S04. pose proof (so_writable _ _ S4 W3) as W4. cbn [fst] in W4.
  assert (uniq (rows i4)) as U4 by exact (uniq_ids _ _ (so_ids _ _ S04) Hu).
  destruct (terminate_excess_step max_sessions i4 fs3 W4 U4) as [S5 (keep & Hkeep & R5)].
  set (i5 := (terminate_excess_sessions fault (@tie) max_sessions i4).2) in *.
  pose proof (step_ok_trans _ _ _ S04 S5) as S05. pose proof (so_writable _ _ S5 W4) as W5. cbn [fst] in W5.
  assert (uniq (rows i5)) as U5 by exact (uniq_ids _ _ (so_ids _ _ S05) Hu).
  match goal with |- context [disk_culling fault (@tie) ?m (i5, fs3)] =>
    pose proof (disk_culling_step m (i5, fs3) W5 U5) as S6; set (st1 := disk_culling fault (@tie) m (i5, fs3)) in * end.
  assert (forall j l, rows j = l -> (forall r, r ∈ l -> sr_status r <> "running") -> forall j', evolves l (rows j') ->
    forall r, r ∈ rows j' -> sr_status r <> "running") as Hrun.
  { intros j l <- Hn j' He r Hr Hs. destruct (He r Hr) as (r0 & Hr0 & _ & _ & Hl). by apply (Hn r0 Hr0), (lifecycle_to_running _ _ Hl). }
  assert (forall r, r ∈ rows i4 -> sr_status r <> "running") as N4 by exact (Hrun i3 _ eq_refl R3 i4 (so_evolves _ _ S4)).
  assert (forall r, r ∈ rows i5 -> sr_status r <> "running") as N5 by exact (Hrun i4 _ eq_refl N4 i5 (so_evolves _ _ S5)).
  exists st1. split; [by eapply step_ok_trans|]. split; [by apply (so_writable _ _ S6)|].
  split; [exact (Hrun i5 _ eq_refl N5 st1.1 (so_evolves _ _ S6))|]. split; [|split; [|done]].
  - intros r Hr Hf. destruct (finished_evolves _ _ r (so_evolves _ _ S6) N5 Hr Hf) as (r5 & Hr5 & Hf5 & _ & <-).
    destruct (finished_evolves _ _ r5 (so_evolves _ _ S5) N4 Hr5 Hf5) as (r4 & Hr4 & Hf4 & _ & <-). by apply R4.
  - intros Hm. specialize (Hkeep Hm). enough (length (List.filter finished (rows st1.1)) <= length keep)%nat by lia.
    apply uniq_length; [by apply (uniq_ids _ _ (so_ids _ _ S6))|]. intros r Hr Hf.
    destruct (finished_evolves _ _ r (so_evolves _ _ S6) N5 Hr Hf) as (r5 & Hr5 & Hf5 & <- & _). by apply R5.
Qed.

(** C21: What the cleanup at startup leaves, when no statement of the index fails: every
    session has moved along its lifecycle and none is running; no finished session is older
    than the retention, and there are at most as many as configured; what is left of a
    terminated session's directory cannot be removed; every removable directory with the
    name of a session belongs to a session of the index; and, with at most ten thousand
    sessions, a session that is not terminated keeps its directory. *)
Theorem cleanup_postcondition i fs : writable i -> uniq (rows i) ->
  let '(i', fs') := cleanup settings (i, fs) in
  evolves (rows i) (rows i') /\
  (forall r, r ∈ rows i' -> sr_status r <> "running") /\
  (forall r, r ∈ rows i' -> finished r = true -> String.ltb (sr_created_at r) (cutoff now retention_days) = false) /\
  (0 <= as_i64 max_sessions -> Z.of_nat (length (List.filter finished (rows i'))) <= as_i64 max_sessions) /\
  (forall r, r ∈ rows i' -> sr_status r = "terminated" -> gone fs' (sr_id r)) /\
  (forall e name, e ∈ entries fs' -> e_dir e = true -> e_stuck e = false -> e_name e = Some name ->
    is_valid_session_id name = true -> exists r, r ∈ rows i' /\ sr_id r = name) /\
  (Z.of_nat (length (rows i)) <= 10000 ->
    forall r, r ∈ rows i' -> sr_status r <> "terminated" -> has_dir fs (sr_id r) -> has_dir fs' (sr_id r)).
Proof.
  intros Hw Hu. destruct (culled_step i fs Hw Hu) as (st1 & S1 & W1 & N1 & C1 & L1 & ->).
  assert (uniq (rows st1.1)) as U1 by exact (uniq_ids _ _ (so_ids _ _ S1) Hu).
  destruct (delete_terminated_step st1 U1) as (S2 & R2 & G2). pose proof (so_writable _ _ S2 W1) as W2.
  destruct (delete_terminated fault (@tie) st1) as [i2 fs2]. cbn [fst snd] in *.
  pose proof (purge_rows (as_uN 32 (setting_number settings "vm.terminated_retention_days" 365)) i2 W2) as R3.
  set (i3 := (purge_terminated_older_than_days _ _ _ i2).2) in *.
  destruct (remove_orphans_spec (i3, fs2)) as (known & K1 & K2 & R4 & F4).
  destruct (remove_orphans fault (@tie) (i3, fs2)) as [i4 fs4]. cbn [fst snd] in *. subst fs4. rewrite R4.
  assert (forall r, r ∈ rows i3 -> r ∈ rows st1.1) as Hsub.
  { intros r. rewrite R3, R2, !list_elem_of_In, filter_In. by intros []. }
  split; [|split; [|split; [|split; [|split; [|split]]]]].
  - eapply evolves_trans; [apply (so_evolves _ _ S1)|]. cbn [fst]. intros r Hr. by apply evolves_refl, Hsub.
  - intros r Hr. by apply N1, Hsub.
  - intros r Hr. by apply C1, Hsub.
  - intros Hm. specialize (L1 Hm). rewrite R3, R2. pose proof (filter_filter_length finished
      (fun r => negb (bool_decide (sr_status r = "terminated") && String.ltb (sr_created_at r)
        (cutoff now (as_uN 32 (setting_number settings "vm.terminated_retention_days" 365))))) (rows st1.1)). lia.
  - intros r Hr Ht. by apply gone_remove, G2, Ht; apply Hsub.
  - intros e name He Hd Hs Hn Hv. apply entries_remove in He as [_ [He|]]; [|congruence].
    unfold orphan in He. rewrite Hd, Hn, Hv in He. cbn [andb] in He.
    apply negb_false_iff, bool_decide_eq_true in He. apply K1, list_elem_of_fmap in He as (r & -> & Hr). by exists r.
  - intros Hlen r Hr Ht Hd. destruct (so_dirs _ _ S1 (sr_id r) Hd) as [Hd1|Hall]; cbn [fst snd] in *.
    + destruct (so_dirs _ _ S2 (sr_id r) Hd1) as [Hd2|Hall]; cbn [fst snd] in *.
      * apply has_dir_remove; [done|]. intros e Hn Ho. unfold orphan in Ho. rewrite Hn in Ho.
        rewrite (bool_decide_true (sr_id r ∈ known)), andb_false_r, andb_false_r in Ho; [done|].
        apply K2; [|done]. rewrite R3, R2. pose proof (f_equal length (so_ids _ _ S1)) as Hl. rewrite !length_map in Hl.
        cbn [fst] in Hl. etransitivity; [|exact Hlen]. apply inj_le. etransitivity; [apply filter_length|lia].
      * rewrite R2 in Hall. destruct Ht. apply Hall; [by apply Hsub|done].
    + destruct Ht. apply Hall; [by apply Hsub|done].
Qed.
End Startup.
End Cleanup.

(** ** When the index fails *)

(** When the statement that lists the sessions fails, the removal of orphans takes every
    session for unknown: no removable directory with the name of a session is left,
    whatever the index holds. *)
Theorem index_error_removes_sessions fault (tie : forall A, list A -> list A) i l err :
  fault (ix_statements i) = Some err ->
  let st' := remove_orphans fault tie (i, Some l) in
  sessions (ix_tables st'.1) = sessions (ix_tables i) /\
  forall e name, e ∈ l -> e_name e = Some name -> is_valid_session_id name = true -> e_dir e = true -> e_stuck e = false ->
    e ∉ entries st'.2.
Proof.
  intros Hf. unfold remove_orphans, recent, select, statement. cbn [fst snd]. rewrite Hf. cbn [fst snd ix_tables].
  split; [done|]. intros e name He Hn Hv Hd Hs Hin. apply entries_remove in Hin as [_ [Hp|]]; [|congruence].
  by rewrite Hd, Hn, Hv in Hp.
Qed.

(** ** A concrete startup *)

Module Demo.
Definition session (id status created : string) : SessionRecord := {|
  sr_id := id; sr_mode := "gui"; sr_command := None; sr_status := status; sr_created_at := created;
  sr_stopped_at := None; sr_scratch_disk_size_gb := 8; sr_ram_bytes := 4294967296; sr_total_requests := 0;
  sr_allowed_requests := 0; sr_denied_requests := 0; sr_total_input_tokens := 0; sr_total_output_tokens := 0;
  sr_total_estimated_cost := f64_zero; sr_total_tool_calls := 0; sr_total_mcp_calls := 0; sr_total_file_events := 0;
  sr_compressed_size_bytes := None; sr_vacuumed_at := None |}.

Definition directory (id : string) : Entry := {|
  e_name := Some id; e_dir := true; e_scratch := Some 1000; e_session_db := None; e_vacuum := None;
  e_size := 50; e_stuck := false |}.

Definition old : string := "20251201-000000-00aa".
Definition crashed : string := "20260225-000000-00ab".
Definition unknown : string := "20260226-000000-00ac".

Definition index : Index := {|
  ix_tables := {| sessions := [session old "stopped" "2025-12-01T00:00:00Z"; session crashed "running" "2026-02-25T00:00:00Z"];
                  ai_usage := []; tool_usage := []; mcp_usage := [] |};
  ix_query_only := false; ix_statements := 0 |}.

Definition directories : Fs := Some [directory old; directory crashed; directory unknown; directory "notes"].

(** 2026-03-01 *)
Definition today : Z := 1772323200.

Definition no_usage : UsageJson := {| usage_to_string := fun _ => ""; usage_from_string := fun _ => None |}.

Definition startup (fault : nat -> option string) : Index * Fs :=
  @cleanup_stale_sessions fault (fun _ l => l) (fun _ => f64_zero) (fun _ a _ => a) no_usage
    (fun _ => Ok None) (fun _ l => l) today [] (index, directories).

Definition view (st : Index * Fs) : list (string * string) * list (option string) :=
  (map (fun r => (sr_id r, sr_status r)) (sessions (ix_tables st.1)), map e_name (entries st.2)).

Example startup_result : view (startup (fun _ => None)) =
  ([(old, "terminated"); (crashed, "crashed")], [Some crashed; Some "notes"]).
Proof. vm_compute. reflexivity. Qed.

(** The last statement fails, and the directory of the crashed session goes too. *)
Example startup_failing : view (startup (fun n => if Nat.eqb n 7 then Some "disk I/O error" else None)) =
  ([(old, "terminated"); (crashed, "crashed")], [Some "notes"]).
Proof. vm_compute. reflexivity. Qed.
End Demo.

Lemma cleanup_postcondition_witness :
  exists i' fs', Demo.startup (fun _ => None) = (i', fs') /\
  (forall r, r ∈ sessions (ix_tables i') -> sr_status r <> "running") /\ has_dir fs' Demo.crashed.
Proof.
  pose proof (@cleanup_postcondition Demo.no_usage (fun _ => None) (fun _ l => l)
    (fun _ l => reflexivity l) (fun _ => f64_zero) (fun _ a _ => a) (fun _ => Ok None) (fun _ l => l) Demo.today
    (fun _ => eq_refl) [] Demo.index Demo.directories eq_refl ltac:(repeat constructor; set_solver)) as H.
  assert (Demo.session Demo.crashed "crashed" "2026-02-25T00:00:00Z" ∈ sessions (ix_tables (Demo.startup (fun _ => None)).1))
    as Hin by (vm_compute; right; left).
  destruct (cleanup_stale_sessions _ _ _ _ _ _ _ _ _) as [i' fs'] eqn:E in H.
  change (Demo.startup (fun _ => None) = (i', fs')) in E.
  apply (eq_ind _ (fun l => _ ∈ l)) with (2 := f_equal (fun st => sessions (ix_tables st.1)) E) in Hin.
  exists i', fs'. split; [exact E|].
  destruct H as (_ & Hrun & _ & _ & _ & _ & Hdir). split; [exact Hrun|].
  apply (Hdir ltac:(cbn; lia) _ Hin); [discriminate|].
  exists (Demo.directory Demo.crashed). split; [|split; reflexivity].
  apply list_elem_of_lookup_2 with 1%nat. reflexivity.
Defined.

Lemma index_error_removes_sessions_witness :
  Demo.directory Demo.crashed ∉ entries
    (remove_orphans (fun _ => Some "disk I/O error") (fun _ l => l) (Demo.index, Demo.directories)).2.
Proof.
  destruct (index_error_removes_sessions (fun _ => Some "disk I/O error") (fun _ l => l) Demo.index
    (entries Demo.directories) "disk I/O error" eq_refl) as [_ H].
  apply (H (Demo.directory Demo.crashed) Demo.crashed); [|reflexivity|vm_compute; reflexivity|reflexivity|reflexivity].
  apply list_elem_of_lookup_2 with 1%nat. reflexivity.
Defined.
