(* ===== verification/VenvStore.v ===== *)
(** The table of venvs, crates/clawcage-app/src/venvs.rs: venvs.json, its commands, and the
    files of a venv's directory they read and write.

    The disk is a finite map from paths to bytes; which calls fail is data ([Io]). JSON is
    the class [VenvJson]. Each command is a change of the list that is stored
    ([venv_commands_refine]), an icon is shown as it was given ([icon_shown]), and the
    status shown is the live one ([listed_status_live]). *)

From Stdlib Require Import ZArith Lia Strings.Byte Ascii.
From stdpp Require Import base numbers list gmap strings.
From S2P Require Import Prelude RustStr RustText Utf8 Paths SessionTime Base64.

(** ** Files *)

Abbreviation Disk := (gmap string (list byte)).

Record Io := {
  home : option string;
  read_error : string -> option string;
  mkdir_error : string -> option string;
  write_error : string -> option (string * option (list byte));
  cannot_remove : string -> bool;
}.

(** [std::fs::write]: a failed write leaves the file as it was or with some other content. *)
Definition write_file (io : Io) (path : string) (content : list byte) (d : Disk) : result unit string * Disk :=
  match write_error io path with
  | Some (e, rest) => (Err e, match rest with Some c => <[path := c]> d | None => d end)
  | None => (Ok tt, <[path := content]> d)
  end.

Definition read_file (io : Io) (path : string) (d : Disk) : result (list byte) string :=
  match read_error io path, d !! path with
  | Some e, _ => Err e
  | None, None => Err "No such file or directory"
  | None, Some c => Ok c
  end.

Definition read_to_string (io : Io) (path : string) (d : Disk) : result string string :=
  let? c := read_file io path d in
  match from_utf8 c with Some s => Ok s | None => Err "stream did not contain valid UTF-8" end.

Definition remove_file (io : Io) (path : string) (d : Disk) : Disk := if cannot_remove io path then d else delete path d.

(** [remove_dir_all] *)
Definition remove_dir_all (io : Io) (dir : string) (d : Disk) : Disk :=
  filter (fun kv => starts_with kv.1 (dir +:+ "/") = false \/ cannot_remove io kv.1 = true) d.

Definition context {A} (what : string) (r : result A string) : result A string :=
  match r with Ok a => Ok a | Err e => Err (what +:+ ": " +:+ e) end.

(** ** Data *)

Record VenvInfo := {
  vn_id : string;
  vn_name : string;
  vn_status : string;
  vn_created_at : string;
  vn_last_used : option string;
  vn_ephemeral : bool;
  vn_template : string;
  vn_icon : option string;
}.

Definition default_template : string := "blank".

Record VenvInfoResponse := {
  vr_info : VenvInfo;
  vr_disk_used_bytes : Z;
  vr_disk_allocated_bytes : Z;
  vr_icon_url : option string;
}.

Class VenvJson := {
  venvs_from_str : string -> result (list VenvInfo) string;
  venvs_to_string_pretty : list VenvInfo -> result string string;
}.

Class VenvJsonRoundtrip `{VenvJson} := {
  venvs_roundtrip vs text : venvs_to_string_pretty vs = Ok text -> venvs_from_str text = Ok vs /\ utf8 text;
}.

Definition set_status (status : string) (last_used : option string) (v : VenvInfo) : VenvInfo :=
  {| vn_id := vn_id v; vn_name := vn_name v; vn_status := status; vn_created_at := vn_created_at v;
     vn_last_used := last_used; vn_ephemeral := vn_ephemeral v; vn_template := vn_template v; vn_icon := vn_icon v |}.
Definition set_name (name : string) (v : VenvInfo) : VenvInfo :=
  {| vn_id := vn_id v; vn_name := name; vn_status := vn_status v; vn_created_at := vn_created_at v;
     vn_last_used := vn_last_used v; vn_ephemeral := vn_ephemeral v; vn_template := vn_template v; vn_icon := vn_icon v |}.
Definition set_icon (icon : option string) (v : VenvInfo) : VenvInfo :=
  {| vn_id := vn_id v; vn_name := vn_name v; vn_status := vn_status v; vn_created_at := vn_created_at v;
     vn_last_used := vn_last_used v; vn_ephemeral := vn_ephemeral v; vn_template := vn_template v; vn_icon := icon |}.

Definition has_id (id : string) (v : VenvInfo) : bool := bool_decide (vn_id v = id).

(** [iter_mut().find(..)] and a change of what it finds. *)
Fixpoint update_first (id : string) (f : VenvInfo -> VenvInfo) (vs : list VenvInfo) : option (list VenvInfo) :=
  match vs with
  | [] => None
  | v :: vs => if has_id id v then Some (f v :: vs) else (fun vs => v :: vs) <$> update_first id f vs
  end.

(** [{:x}] *)
Definition show_hex (z : Z) : string := fixed_digits 16 (Z.to_nat (Z.log2 z / 4 + 1)) z.

(** The id of a venv created at a time in milliseconds. *)
Definition gen_id (ts : Z) : string := "venv-" +:+ show_hex ts.

Section Venvs.
Context `{VenvJson} (io : Io).

Definition clawcage_dir (h : string) : string := path_join h ".clawcage".
Definition venv_dir (h id : string) : string := path_join (path_join (clawcage_dir h) "venvs") id.

Definition venvs_path : result string string :=
  match home io with
  | None => Err "HOME not set"
  | Some h =>
      let dir := clawcage_dir h in
      match mkdir_error io dir with Some e => Err ("create dir: " +:+ e) | None => Ok (path_join dir "venvs.json") end
  end.

Definition load_venvs (d : Disk) : result (list VenvInfo) string :=
  let? path := venvs_path in
  match d !! path with
  | None => Ok []
  | Some _ => let? data := context "read venvs" (read_to_string io path d) in context "parse venvs" (venvs_from_str data)
  end.

Definition save_venvs (vs : list VenvInfo) (d : Disk) : result unit string * Disk :=
  match venvs_path with
  | Err e => (Err e, d)
  | Ok path =>
      match venvs_to_string_pretty vs with
      | Err e => (Err ("serialize venvs: " +:+ e), d)
      | Ok data => let '(r, d) := write_file io path (bytes_of_string data) d in (context "write venvs" r, d)
      end
  end.

(** Load, change and save; the change itself may fail. *)
Definition change_venvs (f : list VenvInfo -> result (list VenvInfo) string) (d : Disk) : result unit string * Disk :=
  match (let? vs := load_venvs d in f vs) with
  | Err e => (Err e, d)
  | Ok vs => save_venvs vs d
  end.

Definition change_first (id : string) (f : VenvInfo -> VenvInfo) (vs : list VenvInfo) : result (list VenvInfo) string :=
  match update_first id f vs with Some vs => Ok vs | None => Err ("venv not found: " +:+ id) end.

Definition update_venv_status (now id status : string) : Disk -> result unit string * Disk :=
  change_venvs (change_first id (fun v => set_status status
    (if bool_decide (status = "running") || bool_decide (status = "booting") then Some now else vn_last_used v) v)).

(** *** What the UI is shown *)

Definition venv_disk_used (id : string) (d : Disk) : Z :=
  match home io with
  | None => 0
  | Some h =>
      match read_to_string io (path_join (venv_dir h id) "disk_used_kb") d with
      | Ok s => as_uN 64 (default 0 (parse_uint 64 (trim s)) * 1024)
      | Err _ => 0
      end
  end.

Definition venv_disk_allocated (id : string) (d : Disk) : Z :=
  match home io with
  | None => 0
  | Some h => match d !! path_join (venv_dir h id) "scratch.img" with Some c => Z.of_nat (length c) | None => 0 end
  end.

Definition starts_with_bytes (l p : list byte) : bool := bool_decide (take (length p) l = p).

Definition mime_of (bytes : list byte) : string :=
  if starts_with_bytes bytes [x89; x50; x4e; x47] then "image/png"
  else if starts_with_bytes bytes [xff; xd8; xff] then "image/jpeg"
  else if starts_with_bytes bytes (bytes_of_string "GIF8") then "image/gif"
  else if starts_with_bytes bytes (bytes_of_string "RIFF") && (12 <? length bytes)%nat
          && bool_decide (take 4 (drop 8 bytes) = bytes_of_string "WEBP") then "image/webp"
  else "image/png".

Definition icon_url (info : VenvInfo) (d : Disk) : option string :=
  filename ← vn_icon info;
  h ← home io;
  bytes ← result_ok (read_file io (path_join (venv_dir h (vn_id info)) filename) d);
  Some (data_url (mime_of bytes) bytes).

(** The stored status, corrected by what runs. *)
Definition live_status (running : gset string) (v : VenvInfo) : VenvInfo :=
  if bool_decide (vn_id v ∈ running) then set_status "running" (vn_last_used v) v
  else if bool_decide (vn_status v = "running") || bool_decide (vn_status v = "booting") then set_status "stopped" (vn_last_used v) v
  else v.

Definition venv_response (running : gset string) (d : Disk) (v : VenvInfo) : VenvInfoResponse :=
  let info := live_status running v in
  {| vr_info := info; vr_disk_used_bytes := venv_disk_used (vn_id v) d; vr_disk_allocated_bytes := venv_disk_allocated (vn_id v) d;
     vr_icon_url := icon_url info d |}.

Definition list_venvs (running : gset string) (d : Disk) : result (list VenvInfoResponse) string :=
  let? venvs := load_venvs d in Ok (map (venv_response running d) venvs).

(** *** Commands *)

Definition new_venv (ts : Z) (now name : string) (ephemeral : bool) (template : option string) : VenvInfo :=
  {| vn_id := gen_id ts; vn_name := name; vn_status := "stopped"; vn_created_at := now; vn_last_used := None;
     vn_ephemeral := ephemeral; vn_template := default default_template template; vn_icon := None |}.

Definition create_venv (ts : Z) (now name : string) (ephemeral : bool) (template : option string) (d : Disk) : result VenvInfo string * Disk :=
  let venv := new_venv ts now name ephemeral template in
  let '(r, d) := change_venvs (fun vs => Ok (vs ++ [venv])) d in
  ((let? _ := r in Ok venv), d).

Definition save_venv_file (id filename content : string) (d : Disk) : result unit string * Disk :=
  match home io with
  | None => (Err "HOME not set", d)
  | Some h =>
      let dir := venv_dir h id in
      match mkdir_error io dir with
      | Some e => (Err ("create dir: " +:+ e), d)
      | None => let '(r, d) := write_file io (path_join dir filename) (bytes_of_string content) d in (context "write file" r, d)
      end
  end.

Definition rename_venv (id name : string) : Disk -> result unit string * Disk := change_venvs (change_first id (set_name name)).

(** The icon file, before the table is saved. *)
Definition write_icon (id : string) (icon_data : option string) (d : Disk) : result unit string * Disk :=
  match icon_data with
  | Some data =>
      match base64_decode data with
      | Err e => (Err e, d)
      | Ok bytes =>
          match home io with
          | None => (Err "HOME not set", d)
          | Some h =>
              let dir := venv_dir h id in
              match mkdir_error io dir with
              | Some e => (Err ("create dir: " +:+ e), d)
              | None => let '(r, d) := write_file io (path_join dir "icon.png") bytes d in (context "write icon" r, d)
              end
          end
      end
  | None => (Ok tt, remove_file io (path_join (venv_dir (default "" (home io)) id) "icon.png") d)
  end.

Definition set_venv_icon (id : string) (icon_data : option string) (d : Disk) : result unit string * Disk :=
  match (let? vs := load_venvs d in change_first id (set_icon (match icon_data with Some _ => Some "icon.png" | None => None end)) vs) with
  | Err e => (Err e, d)
  | Ok vs =>
      match write_icon id icon_data d with
      | (Err e, d) => (Err e, d)
      | (Ok _, d) => save_venvs vs d
      end
  end.

(** The part of [delete_venv] on the disk. *)
Definition delete_venv_files (id : string) (d : Disk) : result unit string * Disk :=
  match load_venvs d with
  | Err e => (Err e, d)
  | Ok vs =>
      let rest := List.filter (fun v => negb (has_id id v)) vs in
      if (length rest =? length vs)%nat then (Err ("venv not found: " +:+ id), d)
      else
        match save_venvs rest d with
        | (Err e, d) => (Err e, d)
        | (Ok _, d) => (Ok tt, match home io with Some h => remove_dir_all io (venv_dir h id) d | None => d end)
        end
  end.

End Venvs.

(** ** Text *)

Lemma utf8_ascii s : is_ascii_str s = true -> utf8 s.
Proof.
  unfold utf8. induction s as [|c s IH]; [done|]. cbn [is_ascii_str]. intros [Hc Hs]%andb_true_iff. cbn [bytes_of_string from_utf8_lossy].
  assert (in_range 0 127 (byte_of_ascii c) = true /\ byte_char (byte_of_ascii c) = c) as [-> ->];
    [|by rewrite IH].
  split; [by destruct c as [[] [] [] [] [] [] [] []]|]. unfold byte_char. by rewrite ascii_of_byte_of_ascii.
Qed.

(** ** Paths of a venv *)

Lemma join_relative a b : a <> "" -> ends_with a "/" = false -> starts_with b "/" = false -> path_join a b = a +:+ "/" +:+ b.
Proof. intros Ha He Hb. unfold path_join. rewrite Hb, He. by destruct a. Qed.

Lemma clawcage_dir_tail h : exists x, clawcage_dir h = x +:+ ".clawcage".
Proof.
  pose proof (path_join_ends h ".clawcage" eq_refl) as He. apply ends_with_spec in He as [x Hx]. by exists x.
Qed.

Lemma join_clawcage h b : starts_with b "/" = false -> path_join (clawcage_dir h) b = clawcage_dir h +:+ "/" +:+ b.
Proof.
  destruct (clawcage_dir_tail h) as [x ->]. intros Hb. apply join_relative; [|by rewrite ends_with_char|done]. by destruct x.
Qed.

Lemma venv_dir_split h id : plain_name id = true -> venv_dir h id = clawcage_dir h +:+ "/venvs/" +:+ id.
Proof.
  intros Hid%plain_not_absolute. unfold venv_dir. rewrite join_clawcage by done.
  rewrite join_relative; [by rewrite <- !sapp_assoc| | |done].
  - destruct (clawcage_dir_tail h) as [x ->]. by destruct x.
  - rewrite sapp_assoc. by rewrite ends_with_char.
Qed.

Definition table_path (h : string) : string := path_join (clawcage_dir h) "venvs.json".

Lemma table_outside h id : plain_name id = true -> starts_with (table_path h) (venv_dir h id +:+ "/") = false.
Proof.
  intros Hid. unfold table_path. rewrite join_clawcage, venv_dir_split by done.
  destruct (starts_with _ _) eqn:E; [|done]. apply starts_with_spec in E as [r E].
  rewrite <- !sapp_assoc in E. apply sapp_inv_l in E. cbn in E. by injection E.
Qed.

(** A file of another name is not the table. *)
Lemma table_not_file h dir f : starts_with f "/" = false -> f <> "" -> ends_with f "n" = false -> table_path h <> path_join dir f.
Proof.
  intros Hs Hne Hf E. pose proof (path_join_ends (clawcage_dir h) "venvs.json" eq_refl) as H1.
  pose proof (path_join_ends dir f Hs) as H2. fold (table_path h) in H1. rewrite <- E in H2.
  apply ends_with_spec in H1 as [x Hx], H2 as [y Hy]. rewrite Hx in Hy.
  apply (f_equal (fun s => ends_with s "n")) in Hy. by rewrite !ends_with_char, Hf in Hy.
Qed.

Lemma table_not_icon h id : table_path h <> path_join (venv_dir h id) "icon.png".
Proof. by apply table_not_file. Qed.

(** ** Commands as changes of the list *)

Inductive VenvOp :=
| OpCreate (ts : Z) (now name : string) (ephemeral : bool) (template : option string)
| OpRename (id name : string)
| OpIcon (id : string) (icon_data : option string)
| OpStatus (now id status : string)
| OpDelete (id : string).

(** The first venv with the id changes; its place is where [list_find] finds it. *)
Definition changed (id : string) (f : VenvInfo -> VenvInfo) (vs : list VenvInfo) : list VenvInfo :=
  match list_find (fun v => vn_id v = id) vs with Some (i, v) => <[i := f v]> vs | None => vs end.

Definition spec_op (vs : list VenvInfo) (op : VenvOp) : list VenvInfo :=
  match op with
  | OpCreate ts now name ephemeral template => vs ++ [new_venv ts now name ephemeral template]
  | OpRename id name => changed id (set_name name) vs
  | OpIcon id (Some data) =>
      match base64_decode data with
      | Ok _ => changed id (set_icon (Some "icon.png")) vs
      | Err _ => vs
      end
  | OpIcon id None => changed id (set_icon None) vs
  | OpStatus now id status =>
      changed id (fun v => set_status status
        (if bool_decide (status = "running") || bool_decide (status = "booting") then Some now else vn_last_used v) v) vs
  | OpDelete id => List.filter (fun v => negb (has_id id v)) vs
  end.

Lemma update_first_changed id f vs : default vs (update_first id f vs) = changed id f vs.
Proof.
  unfold changed. induction vs as [|v vs IH]; [done|]. cbn [update_first list_find]. unfold has_id. case_decide as Hv.
  - by rewrite bool_decide_true.
  - rewrite bool_decide_false by done. destruct (update_first id f vs) as [vs'|], (list_find _ vs) as [[i w]|]; exact (f_equal (cons v) IH).
Qed.

Section Refinement.
Context `{VenvJsonRoundtrip} (io : Io) (h : string).

Definition venv_op (d : Disk) (op : VenvOp) : Disk :=
  match op with
  | OpCreate ts now name ephemeral template => (create_venv io ts now name ephemeral template d).2
  | OpRename id name => (rename_venv io id name d).2
  | OpIcon id icon_data => (set_venv_icon io id icon_data d).2
  | OpStatus now id status => (update_venv_status io now id status d).2
  | OpDelete id => (delete_venv_files io id d).2
  end.

(** No call fails, and the table can be printed. *)
Record works : Prop := {
  wk_home : home io = Some h;
  wk_read : forall p, read_error io p = None;
  wk_mkdir : forall p, mkdir_error io p = None;
  wk_write : forall p, write_error io p = None;
  wk_json : forall vs, exists text, venvs_to_string_pretty vs = Ok text;
}.
Hypothesis (Hio : works).

Lemma works_path : venvs_path io = Ok (table_path h).
Proof. unfold venvs_path. by rewrite (wk_home Hio), (wk_mkdir Hio). Qed.

Lemma load_after text vs d : venvs_to_string_pretty vs = Ok text -> d !! table_path h = Some (bytes_of_string text) -> load_venvs io d = Ok vs.
Proof.
  intros Ht Hd. destruct (venvs_roundtrip vs text Ht) as [Hf Hu]. unfold load_venvs. rewrite works_path, Hd.
  unfold read_to_string, read_file. rewrite (wk_read Hio), Hd. unfold context.
  assert (from_utf8 (bytes_of_string text) = Some text) as ->; [|by rewrite Hf].
  rewrite <- (string_of_bytes_of_string text) at 2. apply from_utf8_string_of_bytes. by rewrite string_of_bytes_of_string.
Qed.

Lemma save_load vs d : exists d', save_venvs io vs d = (Ok tt, d') /\ load_venvs io d' = Ok vs /\
  forall p, p <> table_path h -> d' !! p = d !! p.
Proof.
  destruct (wk_json Hio vs) as [text Ht]. unfold save_venvs, write_file. rewrite works_path, Ht, (wk_write Hio).
  eexists. split; [done|]. split; [by apply (load_after text), lookup_insert_eq|]. intros p Hp. by rewrite lookup_insert_ne.
Qed.

Lemma load_same_table d d' : d' !! table_path h = d !! table_path h -> load_venvs io d' = load_venvs io d.
Proof. intros E. unfold load_venvs, read_to_string, read_file. rewrite works_path, E. done. Qed.

Lemma change_load f vs d : load_venvs io d = Ok vs ->
  load_venvs io (change_venvs io f d).2 = Ok (match f vs with Ok vs' => vs' | Err _ => vs end).
Proof.
  intros Hl. unfold change_venvs. rewrite Hl. destruct (f vs) as [vs'|e]; [|done].
  by destruct (save_load vs' d) as (d' & -> & Hl' & _).
Qed.

Lemma change_first_same id f vs : match change_first id f vs with Ok vs' => vs' | Err _ => vs end = changed id f vs.
Proof. rewrite <- update_first_changed. unfold change_first. by destruct (update_first id f vs). Qed.

Lemma write_icon_table id data d r d' : write_icon io id data d = (r, d') -> d' !! table_path h = d !! table_path h.
Proof.
  pose proof (table_not_icon h id) as Hne. unfold write_icon, write_file, remove_file. rewrite (wk_home Hio).
  destruct data as [data|].
  - destruct (base64_decode data); [|by intros [= <- <-]]. rewrite (wk_mkdir Hio), (wk_write Hio). intros [= <- <-].
    by rewrite lookup_insert_ne.
  - intros [= <- <-]. cbn [default]. destruct (cannot_remove io _); [done|]. by rewrite lookup_delete_ne.
Qed.

Lemma icon_load id data vs d : load_venvs io d = Ok vs ->
  load_venvs io (set_venv_icon io id data d).2 = Ok (spec_op vs (OpIcon id data)).
Proof.
  intros Hl. unfold set_venv_icon. rewrite Hl. unfold change_first, spec_op. rewrite <- !update_first_changed.
  destruct (update_first id _ vs) as [vs'|] eqn:Hf.
  2: { destruct data as [data|]; [|by rewrite Hf]. destruct (base64_decode data); [by rewrite Hf|done]. }
  destruct (write_icon io id data d) as [r d'] eqn:Hw. pose proof (write_icon_table _ _ _ _ _ Hw) as Ht.
  assert (load_venvs io d' = Ok vs) as Hl' by (by rewrite (load_same_table d d' Ht)).
  destruct r as [[]|e].
  - destruct (save_load vs' d') as (d'' & -> & Hl'' & _). cbn [snd]. rewrite Hl''. destruct data as [data|]; [|by rewrite Hf].
    unfold write_icon in Hw. destruct (base64_decode data); [by rewrite Hf|done].
  - cbn [snd]. rewrite Hl'. unfold write_icon in Hw. destruct data as [data|]; [|done]. destruct (base64_decode data); [|done].
    by rewrite (wk_home Hio), (wk_mkdir Hio) in Hw; unfold write_file in Hw; rewrite (wk_write Hio) in Hw.
Qed.

Lemma delete_load id vs d : plain_name id = true -> load_venvs io d = Ok vs ->
  load_venvs io (delete_venv_files io id d).2 = Ok (spec_op vs (OpDelete id)).
Proof.
  intros Hid Hl. unfold delete_venv_files. rewrite Hl. cbn [spec_op]. destruct (Nat.eqb_spec (length (List.filter (fun v => negb (has_id id v)) vs)) (length vs)) as [E|E].
  - cbn. rewrite Hl. f_equal. symmetry. clear -E. induction vs as [|v vs IH]; [done|]. cbn in *.
    destruct (negb (has_id id v)); [f_equal; apply IH; cbn in E; lia|].
    pose proof (List.filter_length_le (fun v => negb (has_id id v)) vs). cbn in E. lia.
  - destruct (save_load (List.filter (fun v => negb (has_id id v)) vs) d) as (d' & -> & Hl' & _). rewrite (wk_home Hio). cbn [snd].
    rewrite <- Hl'. apply load_same_table. unfold remove_dir_all. apply option_eq. intros c. rewrite map_lookup_filter_Some. cbn.
    rewrite table_outside by done. naive_solver.
Qed.

Lemma op_load op vs d : (forall id, op = OpDelete id -> plain_name id = true) -> load_venvs io d = Ok vs ->
  load_venvs io (venv_op d op) = Ok (spec_op vs op).
Proof.
  intros Hp Hl. destruct op as [ts now name e t|id name|id data|now id status|id]; cbn [venv_op].
  - unfold create_venv. pose proof (change_load (fun vs => Ok (vs ++ [new_venv ts now name e t])) vs d Hl) as Hc.
    destruct (change_venvs io _ d) as [r d']. exact Hc.
  - unfold rename_venv. rewrite (change_load _ vs) by done. by rewrite change_first_same.
  - by apply icon_load.
  - unfold update_venv_status. rewrite (change_load _ vs) by done. by rewrite change_first_same.
  - apply delete_load; [by apply Hp|done].
Qed.

(** C22: The commands on venvs.json implement a list of venvs: after any sequence of creating,
    renaming, setting or removing an icon, changing a status and deleting, the file loads
    as what the same sequence makes of the list. Only a delete whose id is not a plain
    name, and could leave the directory of the venvs, is excluded. *)
Theorem venv_commands_refine (ops : list VenvOp) (vs : list VenvInfo) (d : Disk)
    (Hplain : forall id, OpDelete id ∈ ops -> plain_name id = true) (Hload : load_venvs io d = Ok vs) :
  load_venvs io (foldl venv_op d ops) = Ok (foldl spec_op vs ops).
Proof.
  revert vs d Hload. induction ops as [|op ops IH]; intros vs d Hload; [done|]. cbn [foldl].
  apply IH; [intros id Hid; apply Hplain; by right|]. apply op_load; [|done]. intros id ->. apply Hplain. left.
Qed.

End Refinement.

(** ** What is listed *)

Theorem listed_status_live `{VenvJson} (io : Io) (running : gset string) (d : Disk) (vs : list VenvInfo) (Hload : load_venvs io d = Ok vs) :
  exists rs, list_venvs io running d = Ok rs /\ map (fun r => vn_id (vr_info r)) rs = map vn_id vs /\
    forall r, r ∈ rs -> (vn_status (vr_info r) = "running" <-> vn_id (vr_info r) ∈ running) /\ vn_status (vr_info r) <> "booting".
Proof.
  unfold list_venvs. rewrite Hload. eexists. split; [done|]. split.
  - rewrite map_map. apply map_ext. intros v. unfold venv_response, live_status. cbn. by repeat case_match.
  - intros r Hr. apply list_elem_of_In, in_map_iff in Hr as (v & <- & _). unfold venv_response, live_status. cbn [vr_info].
    case_bool_decide as Hin; cbn; [by split|]. destruct (bool_decide (vn_status v = "running")) eqn:E1; cbn; [by split; [split|]|].
    apply bool_decide_eq_false in E1. case_bool_decide as E2; cbn; [by split; [split|]|]. by split; [split|].
Qed.

Theorem icon_shown `{VenvJsonRoundtrip} (io : Io) (h id mime : string) (bytes : list byte) (d d' : Disk) (v : VenvInfo)
    (Hhome : home io = Some h) (Hmime : contains_char mime "," = false)
    (Hread : read_error io (path_join (venv_dir h id) "icon.png") = None)
    (Hset : set_venv_icon io id (Some (data_url mime bytes)) d = (Ok tt, d'))
    (Hid : vn_id v = id) (Hicon : vn_icon v = Some "icon.png") :
  icon_url io v d' = Some (data_url (mime_of bytes) bytes).
Proof.
  unfold set_venv_icon in Hset. destruct (let? vs := load_venvs io d in _) as [vs|]; [|done].
  unfold write_icon in Hset. rewrite base64_roundtrip, Hhome in Hset by done.
  destruct (mkdir_error io _); [done|]. unfold write_file in Hset. destruct (write_error io _) as [[? ?]|]; [done|].
  cbn [context] in Hset. unfold icon_url. rewrite Hicon, Hhome, Hid. cbn [mbind option_bind]. unfold read_file. rewrite Hread.
  assert (d' !! path_join (venv_dir h id) "icon.png" = Some bytes) as ->; [|done].
  unfold save_venvs, venvs_path in Hset. rewrite Hhome in Hset. destruct (mkdir_error io (clawcage_dir h)); [done|].
  destruct (venvs_to_string_pretty vs) as [text|]; [|done]. unfold write_file in Hset.
  destruct (write_error io _) as [[? ?]|]; [done|]. cbn in Hset. injection Hset as <-.
  rewrite lookup_insert_ne by (apply (table_not_icon h id)). apply lookup_insert_eq.
Qed.

(** ** Ids *)

Lemma gen_id_inj a b : 0 <= a -> 0 <= b -> gen_id a = gen_id b -> a = b.
Proof.
  intros Ha Hb E. apply sapp_inv_l in E. unfold show_hex in E.
  assert (forall z, 0 <= z -> 0 <= z < 16 ^ Z.of_nat (Z.to_nat (Z.log2 z / 4 + 1))) as Hfit.
  { intros z Hz. split; [done|]. rewrite Z2Nat.id by (pose proof (Z.log2_nonneg z); Z.div_mod_to_equations; lia).
    change 16 with (2 ^ 4). rewrite <- Z.pow_mul_r by (pose proof (Z.log2_nonneg z); Z.div_mod_to_equations; lia).
    destruct (decide (z = 0)) as [->|]; [done|]. eapply Z.lt_le_trans; [apply Z.log2_spec; lia|].
    apply Z.pow_le_mono_r; [lia|]. pose proof (Z.log2_nonneg z). Z.div_mod_to_equations; lia. }
  pose proof (f_equal String.length E) as El. rewrite !fixed_digits_length in El.
  pose proof (Hfit a Ha) as Hfa. pose proof (Hfit b Hb) as Hfb. rewrite El in E, Hfa.
  set (n := Z.to_nat (Z.log2 b / 4 + 1)) in *.
  pose proof (fixed_digits_compare 16 n a b ltac:(lia) Hfa Hfb) as Hc. rewrite E, fixed_digits_compare, Z.compare_refl in Hc by (done || lia).
  by apply Z.compare_eq.
Qed.

Lemma changed_ids id f vs : (forall v, vn_id (f v) = vn_id v) -> map vn_id (changed id f vs) = map vn_id vs.
Proof.
  intros Hf. rewrite <- update_first_changed. induction vs as [|v vs IH]; [done|]. cbn [update_first].
  destruct (has_id id v); [cbn; by rewrite Hf|]. destruct (update_first id f vs); [|done]. cbn in *. by rewrite IH.
Qed.

Lemma filter_ids (p : VenvInfo -> bool) vs id : id ∈ map vn_id (List.filter p vs) -> id ∈ map vn_id vs.
Proof.
  rewrite !list_elem_of_In, !in_map_iff. intros (v & E & Hin). apply filter_In in Hin as [Hin _]. eauto.
Qed.

(** Only a creation adds an id. *)
Lemma spec_ids op vs : match op with
  | OpCreate ts _ _ _ _ => map vn_id (spec_op vs op) = map vn_id vs ++ [gen_id ts]
  | OpDelete _ => map vn_id (spec_op vs op) `sublist_of` map vn_id vs
  | _ => map vn_id (spec_op vs op) = map vn_id vs
  end.
Proof.
  destruct op as [ts now name e t|id name|id data|now id status|id]; cbn [spec_op].
  - by rewrite map_app.
  - by apply changed_ids.
  - destruct data as [data|]; [destruct (base64_decode data); [by apply changed_ids|done]|by apply changed_ids].
  - by apply changed_ids.
  - induction vs as [|v vs IH]; [done|]. cbn. destruct (negb _); cbn; [by apply sublist_skip|by apply sublist_cons].
Qed.

Definition created (ops : list VenvOp) : list Z := omap (fun op => match op with OpCreate ts _ _ _ _ => Some ts | _ => None end) ops.

Theorem venv_ids_distinct (ops : list VenvOp) (vs : list VenvInfo) (Hts : NoDup (created ops)) (Hpos : Forall (fun ts => 0 <= ts) (created ops))
    (Hids : NoDup (map vn_id vs)) (Hnew : forall ts, ts ∈ created ops -> gen_id ts ∉ map vn_id vs) :
  NoDup (map vn_id (foldl spec_op vs ops)).
Proof.
  revert vs Hids Hnew. induction ops as [|op ops IH]; intros vs Hids Hnew; [done|]. cbn [foldl].
  pose proof (spec_ids op vs) as Hop. unfold created in *. cbn [omap list_omap] in Hts, Hpos, Hnew. destruct op as [ts now name e t|id name|id data|now id status|id].
  - apply NoDup_cons in Hts as [Hn Hts]. apply Forall_cons in Hpos as [Hp Hpos]. apply IH; [done|done| |].
    + rewrite Hop. apply NoDup_app. split; [done|]. split; [|apply NoDup_singleton].
      intros x Hx ->%list_elem_of_singleton. apply (Hnew ts); [left|done].
    + intros ts' Hts' Hin. rewrite Hop in Hin. apply elem_of_app in Hin as [Hin|Hin]; [apply (Hnew ts'); [by right|done]|].
      apply list_elem_of_singleton in Hin. apply Hn. rewrite (gen_id_inj ts ts'); [done|done|by eapply Forall_forall in Hpos|done].
  - apply IH; [done|done|by rewrite Hop|intros ts Ht; rewrite Hop; by apply Hnew].
  - apply IH; [done|done|by rewrite Hop|intros ts Ht; rewrite Hop; by apply Hnew].
  - apply IH; [done|done|by rewrite Hop|intros ts Ht; rewrite Hop; by apply Hnew].
  - apply IH; [done|done|by eapply sublist_NoDup|]. intros ts Ht Hin. apply (Hnew ts Ht). by eapply elem_of_sublist.
Qed.

(** ** A disk to run on: JSON stood in for by a binary code of the list *)

Module Demo.

Definition fields (v : VenvInfo) :=
  (vn_id v, vn_name v, vn_status v, vn_created_at v, vn_last_used v, vn_ephemeral v, vn_template v, vn_icon v).

Definition of_fields (f : string * string * string * string * option string * bool * string * option string) : VenvInfo :=
  let '(i, n, s, c, l, e, t, ic) := f in
  {| vn_id := i; vn_name := n; vn_status := s; vn_created_at := c; vn_last_used := l; vn_ephemeral := e; vn_template := t; vn_icon := ic |}.

#[global] Instance VenvInfo_eq_dec : EqDecision VenvInfo.
Proof. solve_decision. Defined.

#[global] Instance VenvInfo_countable : Countable VenvInfo.
Proof. apply (inj_countable' fields of_fields). by intros []. Defined.

Fixpoint bits_text (p : positive) : string :=
  match p with xH => "" | xO p => String "0" (bits_text p) | xI p => String "1" (bits_text p) end.

Fixpoint text_bits (s : string) : positive :=
  match s with EmptyString => xH | String c s => if bool_decide (c = "0"%char) then xO (text_bits s) else xI (text_bits s) end.

Lemma text_bits_text p : text_bits (bits_text p) = p.
Proof. induction p as [p IH|p IH|]; cbn; by rewrite ?IH. Qed.

Lemma bits_text_ascii p : is_ascii_str (bits_text p) = true.
Proof. by induction p. Qed.

#[global] Instance json : VenvJson := {|
  venvs_from_str text := match decode (text_bits text) with Some vs => Ok vs | None => Err "expected value" end;
  venvs_to_string_pretty vs := Ok (bits_text (encode vs));
|}.

#[global] Instance json_ok : VenvJsonRoundtrip.
Proof.
  constructor. intros vs text [= <-]. unfold venvs_from_str, json. rewrite text_bits_text, decode_encode. split; [done|].
  by apply utf8_ascii, bits_text_ascii.
Qed.

Definition io : Io := {| home := Some "/h"; read_error _ := None; mkdir_error _ := None; write_error _ := None; cannot_remove _ := false |}.

Lemma io_works : works io "/h".
Proof. constructor; try done. intros vs. by eexists. Qed.

Definition ops : list VenvOp := [OpCreate 4095 "t0" "dev" false None; OpCreate 4096 "t1" "tmp" true (Some "node"); OpRename "venv-fff" "work"; OpDelete "venv-1000"].
Definition png : list byte := [x89; x50; x4e; x47; x0d].
Definition disk : Disk := foldl (venv_op io) ∅ ops.

(** Two venvs created in the same millisecond have the same id: a rename changes one of
    them, and a deletion takes both with their files. *)
Example same_millisecond :
  let vs := foldl spec_op [] [OpCreate 7 "t" "a" false None; OpCreate 7 "t" "b" false None; OpRename "venv-7" "c"] in
  map (fun v => (vn_id v, vn_name v)) vs = [("venv-7", "c"); ("venv-7", "b")] /\ spec_op vs (OpDelete "venv-7") = [].
Proof. vm_compute. split; reflexivity. Qed.

End Demo.

Lemma venv_commands_refine_witness : load_venvs Demo.io Demo.disk = Ok (foldl spec_op [] Demo.ops).
Proof.
  unfold Demo.disk. refine (venv_commands_refine Demo.io "/h" Demo.io_works Demo.ops [] ∅ _ _); [|vm_compute; reflexivity].
  intros id Hid. repeat (apply elem_of_cons in Hid as [Hid|Hid]; [try discriminate; injection Hid as ->; reflexivity|]). by apply elem_of_nil in Hid.
Defined.

Lemma venv_ids_distinct_witness : NoDup (map vn_id (foldl spec_op [] Demo.ops)).
Proof.
  apply (venv_ids_distinct Demo.ops []).
  - apply (bool_decide_eq_true (NoDup _)). vm_compute. reflexivity.
  - repeat constructor; discriminate.
  - constructor.
  - intros ts _ Hin. by apply elem_of_nil in Hin.
Defined.

Lemma listed_status_live_witness :
  exists rs, list_venvs Demo.io {["venv-fff"]} Demo.disk = Ok rs /\ map (fun r => vn_id (vr_info r)) rs = ["venv-fff"].
Proof.
  destruct (listed_status_live Demo.io {["venv-fff"]} Demo.disk (foldl spec_op [] Demo.ops)) as (rs & Hl & Hm & _); [vm_compute; reflexivity|].
  exists rs. split; [exact Hl|exact Hm].
Defined.

Lemma icon_shown_witness :
  icon_url Demo.io (set_icon (Some "icon.png") (new_venv 4095 "t0" "dev" false None))
    (set_venv_icon Demo.io "venv-fff" (Some (data_url "image/png" Demo.png)) Demo.disk).2 = Some (data_url "image/png" Demo.png).
Proof.
  destruct (set_venv_icon _ _ _ _) as [r d'] eqn:E. assert (r = Ok tt) as -> by (change r with (r, d').1; rewrite <- E; vm_compute; reflexivity).
  exact (icon_shown Demo.io "/h" "venv-fff" "image/png" Demo.png Demo.disk d'
    (set_icon (Some "icon.png") (new_venv 4095 "t0" "dev" false None)) eq_refl eq_refl eq_refl E eq_refl eq_refl).
Defined.
