(* ===== verification/Storage.v ===== *)
(** The storage commands of crates/clawcage-app/src/commands.rs: [list_storage],
    [delete_storage] and [host_disk_free].

    The file system is a tree of files and directories without links. Every entry of the
    listing can be deleted through its path, and nothing else goes ([listed_entry_deleted]);
    a path without .. deletes nothing outside ~/.clawcage ([delete_confined]), one with ..
    does (example [parent_escapes]). *)

From Stdlib Require Import ZArith Lia Strings.Byte Ascii.
From stdpp Require Import base numbers list strings sorting.
From S2P Require Import Prelude RustStr RustText Utf8 Paths VenvStore.

(** ** The tree *)

(** A file with its length and its blocks; a directory with its own length, whether it can
    be listed, and its entries. *)
Inductive Node :=
| File (len blocks : Z)
| Dir (len : Z) (listed : bool) (entries : list (string * Node)).

Definition is_dir (n : Node) : bool := match n with Dir _ _ _ => true | File _ _ => false end.
Definition node_len (n : Node) : Z := match n with File len _ | Dir len _ _ => len end.
Definition child (c : string) (es : list (string * Node)) : option Node := snd <$> list_find_first (fun kv => bool_decide (kv.1 = c)) es.

(** [read_dir]: nothing when it fails. *)
Definition read_dir (n : Node) : list (string * Node) := match n with Dir _ true es => es | _ => [] end.

Fixpoint find_node (n : Node) (path : list string) : option Node :=
  match path with
  | [] => Some n
  | c :: path => match n with Dir _ _ es => m ← child c es; find_node m path | File _ _ => None end
  end.

(** Replacing or removing what is at a path. *)
Definition put_child (c : string) (new : option Node) (es : list (string * Node)) : list (string * Node) :=
  match new with
  | None => List.filter (fun kv => negb (bool_decide (kv.1 = c))) es
  | Some m => map (fun kv => if bool_decide (kv.1 = c) then (c, m) else kv) es
  end.

Fixpoint put_node (n : Node) (path : list string) (new : option Node) : Node :=
  match n, path with
  | Dir len listed es, [c] => Dir len listed (put_child c new es)
  | Dir len listed es, c :: path => match child c es with Some m => Dir len listed (put_child c (Some (put_node m path new)) es) | None => n end
  | _, _ => n
  end.

(** [Path::components]: the root is "/"; empty components and later dots are dropped. *)
Definition keep_component (c : string) : bool := negb (is_empty c || bool_decide (c = ".")).
Definition components (p : string) : list string :=
  match split_char "/" p with
  | [] => []
  | first :: rest => (if starts_with p "/" then ["/"] else if is_empty first then [] else [first]) ++ List.filter keep_component rest
  end.

(** [Path::starts_with] *)
Definition path_starts_with (p base : string) : bool := bool_decide (components base `prefix_of` components p).

(** The kernel's walk along a path: [cur] is where it is, from the end. *)
Fixpoint walk (root : Node) (cur path : list string) : option (list string) :=
  match path with
  | [] => Some (rev cur)
  | c :: path =>
      match find_node root (rev cur) with
      | Some (Dir _ _ es) =>
          if bool_decide (c = "..") then walk root (tail cur) path
          else match child c es with Some _ => walk root (c :: cur) path | None => None end
      | _ => None
      end
  end.

Definition resolve (root : Node) (p : string) : option (list string) :=
  match components p with "/" :: path => walk root [] path | _ => None end.

(** ** list_storage *)

Record StorageEntry := {
  se_path : string;
  se_name : string;
  se_size_bytes : Z;
  se_actual_bytes : Z;
  se_kind : string;
  se_deletable : bool;
}.

Fixpoint dir_size (n : Node) : Z :=
  match n with
  | Dir _ true es =>
      (fix go (es : list (string * Node)) : Z :=
         match es with
         | [] => 0
         | (_, File _ blocks) :: es => blocks * 512 + go es
         | (_, (Dir _ _ _ as d)) :: es => dir_size d + go es
         end) es
  | _ => 0
  end.

Section Listing.

(** The table of venvs, when it can be loaded. *)
Variable (venvs : option (list VenvInfo)).

Definition venv_name (vid : string) : string :=
  default vid (vs ← venvs; vn_name <$> list_find_first (VenvStore.has_id vid) vs).

Definition subdir (n : Node) (name : string) : option Node :=
  match n with Dir _ _ es => match child name es with Some (Dir _ _ _ as d) => Some d | _ => None end | _ => None end.

Definition venv_entries (base : string) (n : Node) : list StorageEntry :=
  match subdir n "venvs" with
  | None => []
  | Some d =>
      omap (fun '(id, m) =>
        if is_dir m then Some {| se_path := path_join (path_join base "venvs") id; se_name := "Env: " +:+ venv_name id;
                                 se_size_bytes := default 0 (node_len <$> find_node m ["scratch.img"]); se_actual_bytes := dir_size m; se_kind := "venv"; se_deletable := true |}
        else None) (read_dir d)
  end.

Definition snapshot_entries (base : string) (n : Node) : list StorageEntry :=
  match subdir n "snapshots" with
  | None => []
  | Some d =>
      flat_map (fun '(vid, m) =>
        if is_dir m then
          omap (fun '(fname, s) =>
            match strip_suffix ".tar.zst" fname with
            | Some sname => Some {| se_path := path_join (path_join (path_join base "snapshots") vid) fname; se_name := "Snapshot: " +:+ venv_name vid +:+ " / " +:+ sname;
                                    se_size_bytes := node_len s; se_actual_bytes := node_len s; se_kind := "snapshot"; se_deletable := true |}
            | None => None
            end) (read_dir m)
        else []) (read_dir d)
  end.

Definition dir_entry (base : string) (n : Node) (name label kind : string) (deletable : bool) : list StorageEntry :=
  match subdir n name with
  | None => []
  | Some d => [{| se_path := path_join base name; se_name := label; se_size_bytes := dir_size d; se_actual_bytes := dir_size d; se_kind := kind; se_deletable := deletable |}]
  end.

Definition config_entries (base : string) (n : Node) : list StorageEntry :=
  omap (fun name => m ← find_node n [name];
    Some {| se_path := path_join base name; se_name := name; se_size_bytes := node_len m; se_actual_bytes := node_len m; se_kind := "config"; se_deletable := false |})
    ["main.db"; "venvs.json"; "user.toml"].

Definition all_entries (base : string) (n : Node) : list StorageEntry :=
  venv_entries base n ++ snapshot_entries base n ++ dir_entry base n "assets" "VM Assets (rootfs, kernel, initrd)" "rootfs" false
  ++ dir_entry base n "sessions" "Session Logs" "other" true ++ config_entries base n.

(** The entries by decreasing size. *)
Definition list_storage (home : option string) (root : Node) : result (list StorageEntry) string :=
  match home with
  | None => Err "HOME not set"
  | Some h =>
      let base := clawcage_dir h in
      match (p ← resolve root base; find_node root p) with
      | None => Ok []
      | Some n => Ok (sort_by_key (fun e => - se_size_bytes e) (all_entries base n))
      end
  end.

End Listing.

(** ** delete_storage *)

(** The removal of a file or a directory can fail: the error, and what is left there. *)
Definition delete_storage (rm_error : list string -> option (string * option Node)) (home : option string) (path : string) (root : Node) : result unit string * Node :=
  match home with
  | None => (Err "HOME not set", root)
  | Some h =>
      if negb (path_starts_with path (clawcage_dir h)) then (Err "cannot delete files outside ~/.clawcage", root)
      else
        match resolve root path with
        | None => (Err "delete failed: No such file or directory", root)
        | Some p =>
            match rm_error p with
            | Some (e, rest) => (Err ("delete failed: " +:+ e), put_node root p rest)
            | None => (Ok tt, put_node root p None)
            end
        end
  end.

(** ** host_disk_free *)

(** [df] is the output of df -k for a directory, or why it did not run. *)
Definition host_disk_free (df : string -> result (list byte) string) (parse_error : string -> string) (home : option string) : result Z string :=
  match df (default "/" home) with
  | Err e => Err ("df failed: " +:+ e)
  | Ok stdout =>
      match lines (from_utf8_lossy stdout) !! 1%nat with
      | None => Err "df: no output"
      | Some line =>
          match split_whitespace line !! 3%nat with
          | None => Err "df: missing available field"
          | Some field => match parse_uint 64 field with Some kb => Ok (as_uN 64 (kb * 1024)) | None => Err ("df: parse error: " +:+ parse_error field) end
          end
      end
  end.

(** ** Paths and the tree *)

Lemma split_char_app_r c a b : split_char c (a +:+ String c b) = split_char c a ++ split_char c b.
Proof.
  induction a as [|d a IH]; [rewrite sapp_nil_l; cbn [split_char]; by rewrite bool_decide_true|]. rewrite sapp_cons. cbn [split_char]. rewrite IH. case_bool_decide; [done|].
  pose proof (split_char_nonempty c a). by destruct (split_char c a).
Qed.

Definition name_ok (n : string) : bool := file_name_ok n && negb (bool_decide (n = ".")).

Lemma name_ok_spec n : name_ok n = true -> plain_name n = true /\ keep_component n = true /\ n <> "..".
Proof.
  unfold name_ok, file_name_ok, keep_component. rewrite !andb_true_iff, !negb_true_iff, bool_decide_eq_false. intros [[[Hp He] Hd] Hdot].
  rewrite He, Hdot. by repeat split.
Qed.

Lemma filter_ne (l : list string) : List.filter keep_component (l ++ [""]) = List.filter keep_component l.
Proof. rewrite List.filter_app. apply app_nil_r. Qed.

Lemma components_slash y : starts_with y "/" = true -> components (y +:+ "/") = components y.
Proof.
  intros Hy. unfold components. assert (starts_with (y +:+ "/") "/" = true) as -> by (destruct y as [|c y]; [done|]; by destruct c as [[] [] [] [] [] [] [] []]).
  rewrite Hy. assert (split_char "/" (y +:+ "/") = split_char "/" y ++ [""]) as -> by exact (split_char_app_r "/" y "").
  pose proof (split_char_nonempty "/" y). destruct (split_char "/" y) as [|f r]; [done|]. cbn [app]. by rewrite filter_ne.
Qed.

(** The components of a joined path. *)
Lemma components_join a n : starts_with a "/" = true -> name_ok n = true -> components (path_join a n) = components a ++ [n] /\ starts_with (path_join a n) "/" = true.
Proof.
  intros Ha Hn. apply name_ok_spec in Hn as (Hp & Hk & _). pose proof (plain_not_absolute n Hp) as Hna.
  assert (split_char "/" n = [n]) as Hsn by (apply split_char_none; unfold plain_name in Hp; by apply negb_true_iff in Hp).
  assert (forall x, x <> "" -> starts_with (x +:+ "/" +:+ n) "/" = starts_with x "/") as Hst by (intros [|c x] Hx; [done|]; by destruct c as [[] [] [] [] [] [] [] []]).
  assert (forall x, starts_with x "/" = true -> components (x +:+ "/" +:+ n) = components x ++ [n]) as Hc.
  { intros x Hx. unfold components. change ("/" +:+ n) with (String "/" n). rewrite split_char_app_r, Hsn.
    change (x +:+ String "/" n) with (x +:+ "/" +:+ n). rewrite Hst by (by intros ->). rewrite Hx. pose proof (split_char_nonempty "/" x).
    destruct (split_char "/" x) as [|f r]; [done|]. cbn [app]. rewrite List.filter_app. cbn [List.filter]. by rewrite Hk. }
  unfold path_join. rewrite Hna. assert (is_empty a = false) as -> by (by destruct a). cbn [orb]. destruct (ends_with a "/") eqn:E.
  - apply ends_with_spec in E as [x ->]. destruct x as [|c x].
    + change ("" +:+ "/") with "/". split; [|done]. unfold components. change ("/" +:+ n) with (String "/" n). cbn [split_char]. rewrite bool_decide_true, Hsn by done. cbn. by rewrite Hk.
    + assert (starts_with (String c x) "/" = true) as Hx by (by destruct c as [[] [] [] [] [] [] [] []]).
      rewrite <- sapp_assoc. split; [|by rewrite Hst]. by rewrite Hc, components_slash.
  - split; [by apply Hc|]. rewrite Hst; [done|by intros ->].
Qed.

Lemma child_cons c k n es : child c ((k, n) :: es) = if bool_decide (k = c) then Some n else child c es.
Proof. unfold child. cbn. by case_bool_decide. Qed.

Lemma child_put_ne c d new es : d <> c -> child d (put_child c new es) = child d es.
Proof.
  intros Hd. destruct new as [m|]; cbn [put_child]; induction es as [|[k n] es IH]; try done; cbn [map List.filter fst]; rewrite child_cons.
  - case_bool_decide; rewrite child_cons, IH; [|done]. by subst; rewrite !bool_decide_false by done.
  - case_bool_decide as Hk; cbn [negb]; [subst; rewrite IH; by rewrite bool_decide_false by done|]. by rewrite child_cons, IH.
Qed.

Lemma child_removed c es : child c (put_child c None es) = None.
Proof.
  cbn [put_child]. induction es as [|[k n] es IH]; [done|]. cbn [List.filter fst]. case_bool_decide; cbn [negb]; [done|]. rewrite child_cons. by rewrite bool_decide_false.
Qed.

Lemma child_put c m es n : child c es = Some n -> child c (put_child c (Some m) es) = Some m.
Proof.
  cbn [put_child]. induction es as [|[k x] es IH]; [done|]. rewrite child_cons. cbn [map fst]. case_bool_decide as Hk.
  - intros _. rewrite child_cons. by rewrite bool_decide_true.
  - intros Hc. rewrite child_cons, bool_decide_false by done. by apply IH.
Qed.

Lemma find_node_app p : forall n q, find_node n (p ++ q) = find_node n p ≫= fun m => find_node m q.
Proof.
  induction p as [|c p IH]; intros n q; [done|]. cbn [app find_node]. destruct n as [|len listed es]; [done|]. destruct (child c es); [cbn; apply IH|done].
Qed.

Lemma put_elsewhere p : forall n new q, ~ p `prefix_of` q -> ~ q `prefix_of` p -> find_node (put_node n p new) q = find_node n q.
Proof.
  induction p as [|c p IH]; intros n new q Hpq Hqp; [destruct Hpq; apply prefix_nil|]. destruct q as [|d q]; [destruct Hqp; apply prefix_nil|].
  destruct n as [|len listed es]; [done|]. destruct (decide (d = c)) as [->|Hd].
  - destruct p as [|c' p']; [destruct Hpq; apply prefix_cons, prefix_nil|]. cbn [put_node]. destruct (child c es) as [m|] eqn:Hc; [|done].
    cbn [find_node]. rewrite (child_put c _ es m Hc), Hc. cbn [mbind option_bind]. apply IH; intros Hx; [apply Hpq|apply Hqp]; by apply prefix_cons.
  - destruct p as [|c' p']; cbn [put_node]; [cbn [find_node]; by rewrite child_put_ne|]. destruct (child c es); [|done]. cbn [find_node]. by rewrite child_put_ne.
Qed.

Lemma put_removed p : forall n, p <> [] -> find_node (put_node n p None) p = None.
Proof.
  induction p as [|c p IH]; intros n Hp; [done|]. destruct n as [|len listed es]; [done|]. destruct p as [|c' p'].
  - cbn [put_node find_node]. by rewrite child_removed.
  - cbn [put_node]. destruct (child c es) as [m|] eqn:Hc; [|cbn [find_node]; by rewrite Hc]. cbn [find_node]. rewrite (child_put c _ es m Hc). cbn [mbind option_bind]. by apply IH.
Qed.

(** Without .. the kernel's walk ends at the names of the path. *)
Lemma walk_names root path : forall cur q, ".." ∉ path -> walk root cur path = Some q -> q = rev cur ++ path.
Proof.
  induction path as [|c path IH]; intros cur q Hd; cbn [walk]; [intros [= <-]; by rewrite app_nil_r|]. apply not_elem_of_cons in Hd as [Hc Hd].
  destruct (find_node root (rev cur)) as [[|len listed es]|]; [done| |done]. rewrite bool_decide_false by done. destruct (child c es); [|done].
  intros E. apply IH in E; [|done]. rewrite E. cbn [rev]. by rewrite <- app_assoc.
Qed.

Lemma walk_found root path n : forall cur, ".." ∉ path -> find_node root (rev cur ++ path) = Some n -> walk root cur path = Some (rev cur ++ path).
Proof.
  induction path as [|c path IH]; intros cur Hd Hn; cbn [walk]; [by rewrite app_nil_r|]. apply not_elem_of_cons in Hd as [Hc Hd].
  pose proof Hn as Hn'. rewrite find_node_app in Hn. destruct (find_node root (rev cur)) as [[|len listed es]|]; [done| |done]. cbn [mbind option_bind find_node] in Hn.
  rewrite bool_decide_false by done. destruct (child c es); [|done]. rewrite (IH (c :: cur)); [|done|]; cbn [rev]; by rewrite <- app_assoc.
Qed.

(** ** Deleting *)

Lemma resolve_names root p q : ".." ∉ components p -> resolve root p = Some q -> components p = "/" :: q.
Proof.
  unfold resolve. destruct (components p) as [|r names] eqn:E; [done|]. intros Hd. apply not_elem_of_cons in Hd as [_ Hd].
  destruct (decide (r = "/")) as [->|Hr].
  - intros Hw. apply walk_names in Hw; [|done]. cbn in Hw. by subst.
  - intros Hw. exfalso. revert Hw. clear -Hr. destruct r as [|[[] [] [] [] [] [] [] []] r]; try done. destruct r; done.
Qed.

Definition base_names (h : string) : list string := tail (components (clawcage_dir h)).

Lemma clawcage_components h : starts_with h "/" = true -> components (clawcage_dir h) = components h ++ [".clawcage"] /\ starts_with (clawcage_dir h) "/" = true.
Proof. intros Hh. by apply components_join. Qed.

Lemma components_root p : starts_with p "/" = true -> components p = "/" :: tail (components p).
Proof. intros Hp. unfold components. rewrite Hp. pose proof (split_char_nonempty "/" p). by destruct (split_char "/" p). Qed.

(** Deleting a path without .. changes nothing outside ~/.clawcage, whether it succeeds or
    not; when it succeeds the path was inside, and nothing is left there. *)
Theorem delete_confined (rm_error : list string -> option (string * option Node)) (h path : string) (root root' : Node) (r : result unit string)
    (Hh : starts_with h "/" = true) (Hdots : ".." ∉ components path) (Hrun : delete_storage rm_error (Some h) path root = (r, root')) :
  (forall q, ~ base_names h `prefix_of` q -> ~ q `prefix_of` base_names h -> find_node root' q = find_node root q) /\
  (r = Ok tt -> base_names h `prefix_of` tail (components path) /\ find_node root' (tail (components path)) = None).
Proof.
  unfold delete_storage, path_starts_with in Hrun. destruct (clawcage_components h Hh) as [Hbc Hba].
  case_bool_decide as Hpre; [|by injection Hrun as <- <-]. cbn [negb] in Hrun. destruct (resolve root path) as [p|] eqn:Hres; [|by injection Hrun as <- <-].
  pose proof (resolve_names root path p Hdots Hres) as Hp. rewrite Hp in Hpre |- *. cbn [tail].
  assert (base_names h `prefix_of` p) as Hin by (unfold base_names; rewrite (components_root _ Hba) in Hpre; by apply prefix_cons_inv_2 in Hpre).
  assert (forall new q, ~ base_names h `prefix_of` q -> ~ q `prefix_of` base_names h -> find_node (put_node root p new) q = find_node root q) as Hout.
  { intros new q H1 H2. apply put_elsewhere; intros Hx; [apply H1; by etrans|].
    destruct (prefix_weak_total (base_names h) q p) as [|]; [done..|]. by apply H1. }
  destruct (rm_error p) as [[e rest]|]; injection Hrun as <- <-; (split; [by apply Hout|]); [done|]. intros _. split; [done|]. apply put_removed.
  intros ->. apply prefix_nil_inv in Hin. unfold base_names in Hin. rewrite Hbc, (components_root h Hh) in Hin. cbn [app tail] in Hin. by destruct (tail (components h)).
Qed.

(** ** Listing *)

(** The names the system gives: all different, none empty, dotted or with a slash. *)
Definition names_ok (n : Node) : Prop := forall p len listed es, find_node n p = Some (Dir len listed es) -> Forall (fun kv => name_ok kv.1 = true) es /\ NoDup es.*1.

Lemma child_in c m es : NoDup es.*1 -> (c, m) ∈ es -> child c es = Some m.
Proof.
  induction es as [|[k n] es IH]; intros Hnd Hin; [by apply elem_of_nil in Hin|]. rewrite child_cons. apply NoDup_cons in Hnd as [Hk Hnd].
  apply elem_of_cons in Hin as [[= <- <-]|Hin]; [by rewrite bool_decide_true|]. rewrite bool_decide_false; [by apply IH|].
  intros ->. apply Hk. by apply (list_elem_of_fmap_2 fst _ (c, m)).
Qed.

Lemma names_ok_below p n m : names_ok n -> find_node n p = Some m -> names_ok m.
Proof. intros Hok Hp q len listed es Hq. apply (Hok (p ++ q) len listed es). by rewrite find_node_app, Hp. Qed.

(** [p] is the path of the node [m] at [names] below the directory [base], which is [n]. *)
Definition located (base : string) (n : Node) (p : string) (names : list string) (m : Node) : Prop :=
  starts_with p "/" = true /\ components p = components base ++ names /\ Forall (fun c => name_ok c = true) names /\ find_node n names = Some m.

Lemma located_base base n : starts_with base "/" = true -> located base n base [] n.
Proof. intros Hb. split; [done|]. by rewrite app_nil_r. Qed.

Lemma located_child base n p names len listed es c m : located base n p names (Dir len listed es) -> child c es = Some m -> name_ok c = true ->
  located base n (path_join p c) (names ++ [c]) m.
Proof.
  intros (Hs & Hc & Hn & Hf) Hm Hok. destruct (components_join p c Hs Hok) as [Hj Ha]. split; [done|]. split; [by rewrite Hj, Hc, app_assoc|].
  split; [apply Forall_app; by repeat constructor|]. rewrite find_node_app, Hf. cbn. by rewrite Hm.
Qed.

(** An entry of the listing is at a path below the base. *)
Definition sound (base : string) (n : Node) (e : StorageEntry) : Prop := exists names m, names <> [] /\ located base n (se_path e) names m.

Lemma sound_at base n e names m : names <> [] -> located base n (se_path e) names m -> sound base n e.
Proof. intros Hne Hl. by exists names, m. Qed.

Lemma subdir_located base n name d : starts_with base "/" = true -> name_ok name = true -> subdir n name = Some d -> located base n (path_join base name) [name] d.
Proof.
  intros Hb Hn Hd. unfold subdir in Hd. destruct n as [|len listed es]; [done|]. destruct (child name es) as [[|l b es']|] eqn:Hc; try done. injection Hd as <-.
  apply (located_child base _ base [] len listed es); [by apply located_base|done|done].
Qed.

Lemma listed_located base n p names d c m : names_ok n -> located base n p names d -> (c, m) ∈ read_dir d -> located base n (path_join p c) (names ++ [c]) m.
Proof.
  intros Hok Hl Hin. destruct d as [|len [] es]; [by apply elem_of_nil in Hin| |by apply elem_of_nil in Hin]. cbn in Hin.
  pose proof Hl as (_ & _ & _ & Hf). destruct (Hok _ _ _ _ Hf) as [Hnames Hnd]. rewrite Forall_forall in Hnames.
  eapply located_child; [done|by apply child_in|exact (Hnames _ Hin)].
Qed.

Lemma venv_sound venvs base n e : names_ok n -> starts_with base "/" = true -> e ∈ venv_entries venvs base n -> sound base n e.
Proof.
  intros Hok Hb He. unfold venv_entries in He. destruct (subdir n "venvs") as [d|] eqn:Hd; [|by apply elem_of_nil in He]. pose proof (subdir_located base n "venvs" d Hb eq_refl Hd) as Hl.
  apply list_elem_of_omap in He as ([id m] & Hin & He). destruct (is_dir m); [|done]. injection He as <-. by apply (sound_at _ _ _ (["venvs"] ++ [id]) m), (listed_located _ _ _ _ _ _ _ Hok Hl).
Qed.

Lemma snapshot_sound venvs base n e : names_ok n -> starts_with base "/" = true -> e ∈ snapshot_entries venvs base n -> sound base n e.
Proof.
  intros Hok Hb He. unfold snapshot_entries in He. destruct (subdir n "snapshots") as [d|] eqn:Hd; [|by apply elem_of_nil in He]. pose proof (subdir_located base n "snapshots" d Hb eq_refl Hd) as Hl.
  apply list_elem_of_In, in_flat_map in He as ([vid m] & Hin%list_elem_of_In & He%list_elem_of_In). destruct (is_dir m) eqn:Hm; [|by apply elem_of_nil in He].
  apply list_elem_of_omap in He as ([fname s] & Hs & He). destruct (strip_suffix ".tar.zst" fname); [|done]. injection He as <-.
  pose proof (listed_located _ _ _ _ _ _ _ Hok Hl Hin) as Hv. by apply (sound_at _ _ _ ((["snapshots"] ++ [vid]) ++ [fname]) s), (listed_located _ _ _ _ _ _ _ Hok Hv).
Qed.

Lemma dir_entry_sound base n name label kind deletable e : name_ok name = true -> starts_with base "/" = true -> e ∈ dir_entry base n name label kind deletable -> sound base n e.
Proof.
  intros Hn Hb He. unfold dir_entry in He. destruct (subdir n name) as [d|] eqn:Hd; [|by apply elem_of_nil in He].
  apply list_elem_of_singleton in He as ->. by apply (sound_at _ _ _ [name] d), subdir_located.
Qed.

Lemma config_sound base n e : starts_with base "/" = true -> e ∈ config_entries base n -> sound base n e.
Proof.
  intros Hb He. apply list_elem_of_omap in He as (name & Hin & He). destruct (find_node n [name]) as [m|] eqn:Hf; [|done]. injection He as <-.
  cbn [find_node] in Hf. destruct n as [|len listed es]; [done|]. destruct (child name es) as [m'|] eqn:Hc; [|done]. injection Hf as <-.
  apply (sound_at _ _ _ ([] ++ [name]) m'); [done|]. eapply located_child; [by apply located_base|done|]. rewrite !elem_of_cons, elem_of_nil in Hin. by destruct Hin as [->|[->|[->|[]]]].
Qed.

Lemma entries_sound venvs base n e : names_ok n -> starts_with base "/" = true -> e ∈ all_entries venvs base n -> sound base n e.
Proof.
  intros Hok Hb. unfold all_entries. rewrite !elem_of_app. intros [He|[He|[He|[He|He]]]].
  - by eapply venv_sound.
  - by eapply snapshot_sound.
  - eapply dir_entry_sound; [| |exact He]; done.
  - eapply dir_entry_sound; [| |exact He]; done.
  - by apply config_sound.
Qed.

Lemma sorted_down l : StronglySorted (fun a b => - se_size_bytes a <= - se_size_bytes b) l -> StronglySorted (fun a b => se_size_bytes b <= se_size_bytes a) l.
Proof. induction 1 as [|a l Hl IH Ha]; constructor; [done|]. eapply Forall_impl; [exact Ha|]. cbn. lia. Qed.

(** The entry at a path below the base is removed, and nothing else. *)
Lemma located_deleted h root n base_path p names m : base_path = base_names h -> starts_with h "/" = true -> ".." ∉ components h -> find_node root base_path = Some n ->
  names <> [] -> located (clawcage_dir h) n p names m ->
  delete_storage (fun _ => None) (Some h) p root = (Ok tt, put_node root (base_path ++ names) None) /\ find_node root (base_path ++ names) = Some m.
Proof.
  intros -> Hh Hd Hn Hne (Hs & Hc & Hok & Hf). destruct (clawcage_components h Hh) as [Hbc Hba]. pose proof (components_root _ Hba) as Hroot. fold (base_names h) in Hroot.
  assert (find_node root (base_names h ++ names) = Some m) as Hm by (by rewrite find_node_app, Hn). split; [|done].
  unfold delete_storage, path_starts_with. rewrite bool_decide_true by (rewrite Hc; by apply prefix_app_r). cbn [negb]. unfold resolve. rewrite Hc, Hroot. cbn [app].
  rewrite (walk_found root (base_names h ++ names) m []); [done| |done]. rewrite elem_of_app. intros [Hx|Hx].
  - assert (".." ∈ components (clawcage_dir h)) as Hx' by (rewrite Hroot; by right). rewrite Hbc, elem_of_app in Hx'. destruct Hx' as [Hx'|Hx']; [done|]. by apply list_elem_of_singleton in Hx'.
  - rewrite Forall_forall in Hok. by destruct (name_ok_spec _ (Hok _ Hx)) as (_ & _ & ?).
Qed.

(** The listing is by decreasing size, and every entry of it can be deleted through its
    path: the deletion succeeds, the file is gone, and nothing else has changed. *)
Theorem listed_entry_deleted (venvs : option (list VenvInfo)) (h : string) (root : Node) (es : list StorageEntry) (e : StorageEntry)
    (Hh : starts_with h "/" = true) (Hdots : ".." ∉ components h) (Hnames : names_ok root) (Hrun : list_storage venvs (Some h) root = Ok es) (He : e ∈ es) :
  StronglySorted (fun a b => se_size_bytes b <= se_size_bytes a) es /\
  exists p root', components (se_path e) = "/" :: p /\ is_Some (find_node root p) /\
    delete_storage (fun _ => None) (Some h) (se_path e) root = (Ok tt, root') /\ find_node root' p = None /\
    (forall q, ~ p `prefix_of` q -> ~ q `prefix_of` p -> find_node root' q = find_node root q).
Proof.
  unfold list_storage in Hrun. destruct (clawcage_components h Hh) as [Hbc Hba]. assert (".." ∉ components (clawcage_dir h)) as Hbd.
  { rewrite Hbc, elem_of_app. intros [Hx|Hx]; [done|]. by apply list_elem_of_singleton in Hx. }
  destruct (resolve root (clawcage_dir h)) as [p0|] eqn:Hres; cbn [mbind option_bind] in Hrun; [|injection Hrun as <-; by apply elem_of_nil in He].
  pose proof (resolve_names _ _ _ Hbd Hres) as Hp0. assert (p0 = base_names h) as -> by (unfold base_names; by rewrite Hp0).
  destruct (find_node root (base_names h)) as [n|] eqn:Hn; [|injection Hrun as <-; by apply elem_of_nil in He]. injection Hrun as <-. split.
  - apply sorted_down, sort_by_key_Sorted.
  - rewrite sort_by_key_Permutation in He. destruct (entries_sound venvs _ n e (names_ok_below _ _ _ Hnames Hn) Hba He) as (names & m & Hne & Hl).
    destruct (located_deleted h root n _ _ names m eq_refl Hh Hdots Hn Hne Hl) as [Hdel Hm]. exists (base_names h ++ names), (put_node root (base_names h ++ names) None).
    destruct Hl as (_ & Hc & _). rewrite Hc, (components_root _ Hba). fold (base_names h). repeat split; [by eexists|done| |].
    + apply put_removed. by destruct (base_names h), names.
    + intros q. apply put_elsewhere.
Qed.

(** ** A host *)

Module Demo.

Definition scratch := File 8589934592 2048.
Definition root : Node :=
  Dir 0 true [("home", Dir 0 true [("u", Dir 0 true [
    ("notes", File 5 8);
    (".clawcage", Dir 0 true [
      ("main.db", File 4096 8);
      ("venvs", Dir 0 true [("a1", Dir 0 true [("scratch.img", scratch)])]);
      ("snapshots", Dir 0 true [("a1", Dir 0 true [("one.tar.zst", File 700 8); ("one.tmp", File 9 8)])]);
      ("sessions", Dir 0 true [("s", Dir 0 true [("session.db", File 300 8)])])])])])].

Definition rm : list string -> option (string * option Node) := fun _ => None.
Definition entry (path name : string) (size actual : Z) (kind : string) (deletable : bool) : StorageEntry :=
  {| se_path := path; se_name := name; se_size_bytes := size; se_actual_bytes := actual; se_kind := kind; se_deletable := deletable |}.
Definition listing : list StorageEntry :=
  [entry "/home/u/.clawcage/venvs/a1" "Env: a1" 8589934592 1048576 "venv" true;
   entry "/home/u/.clawcage/sessions" "Session Logs" 4096 4096 "other" true;
   entry "/home/u/.clawcage/main.db" "main.db" 4096 4096 "config" false;
   entry "/home/u/.clawcage/snapshots/a1/one.tar.zst" "Snapshot: a1 / one" 700 700 "snapshot" true].

Example listed : list_storage None (Some "/home/u") root = Ok listing.
Proof. vm_compute. reflexivity. Qed.

(** A path with .. passes the guard and deletes outside ~/.clawcage. *)
Example parent_escapes : let '(r, root') := delete_storage rm (Some "/home/u") "/home/u/.clawcage/../notes" root in
  r = Ok tt /\ is_Some (find_node root ["home"; "u"; "notes"]) /\ find_node root' ["home"; "u"; "notes"] = None.
Proof. vm_compute. split; [done|split; [by eexists|done]]. Qed.

(** [deletable] is for the display: the database can be deleted, and ~/.clawcage itself. *)
Example not_deletable_deleted : let '(r, root') := delete_storage rm (Some "/home/u") "/home/u/.clawcage/main.db" root in r = Ok tt /\ find_node root' ["home"; "u"; ".clawcage"; "main.db"] = None.
Proof. vm_compute. done. Qed.
Example base_deleted : let '(r, root') := delete_storage rm (Some "/home/u") "/home/u/.clawcage" root in r = Ok tt /\ find_node root' ["home"; "u"; ".clawcage"] = None.
Proof. vm_compute. done. Qed.

Example sibling_kept : delete_storage rm (Some "/home/u") "/home/u/.clawcage2" root = (Err "cannot delete files outside ~/.clawcage", root).
Proof. vm_compute. reflexivity. Qed.

Definition newline : string := String "010" "".
Definition df (_ : string) : result (list byte) string :=
  Ok (bytes_of_string ("Filesystem 1K-blocks Used Available Use% Mounted on" +:+ newline +:+ "/dev/sda1 1000 400 600 40% /" +:+ newline)).
Example space_left : host_disk_free df (fun _ => "") (Some "/home/u") = Ok 614400.
Proof. vm_compute. reflexivity. Qed.

Fixpoint names_check (n : Node) : bool :=
  match n with
  | File _ _ => true
  | Dir _ _ es =>
      forallb (fun kv => name_ok kv.1) es && bool_decide (NoDup es.*1) &&
      (fix go (es : list (string * Node)) : bool := match es with [] => true | (_, m) :: es => names_check m && go es end) es
  end.

Lemma checked n : names_check n = true -> names_ok n.
Proof.
  intros Hn p. revert n Hn. induction p as [|c p IH]; intros [|l b es0] Hn k ls es E; cbn in E; [done| |done|]; cbn [names_check] in Hn.
  - injection E as <- <- <-. apply andb_true_iff in Hn as [[Ha Hnd]%andb_true_iff _]. apply bool_decide_eq_true in Hnd. split; [|done].
    rewrite Forall_forall. rewrite List.forallb_forall in Ha. intros kv Hin. by apply Ha, list_elem_of_In.
  - apply andb_true_iff in Hn as [_ Hn]. destruct (child c es0) as [m|] eqn:Hc; [|done]. apply (IH m) with (2 := E). clear -Hn Hc.
    induction es0 as [|[k x] es0 IH]; [done|]. rewrite child_cons in Hc. apply andb_true_iff in Hn as [Hx Hn]. case_bool_decide; [by injection Hc as <-|by apply IH].
Qed.

End Demo.

Lemma delete_confined_witness : find_node Demo.root ["home"; "u"; "notes"] = find_node (delete_storage Demo.rm (Some "/home/u") "/home/u/.clawcage/sessions" Demo.root).2 ["home"; "u"; "notes"].
Proof.
  symmetry. assert (".." ∉ components "/home/u/.clawcage/sessions") as Hd by (vm_compute; intros Hx; repeat (apply elem_of_cons in Hx as [?|Hx]; [done|]); by apply elem_of_nil in Hx).
  refine (proj1 (delete_confined Demo.rm "/home/u" "/home/u/.clawcage/sessions" Demo.root _ _ eq_refl Hd (surjective_pairing _)) _ _ _);
    intros Hx; apply (bool_decide_pack _) in Hx; vm_compute in Hx; exact Hx.
Defined.

Lemma listed_entry_deleted_witness : is_Some (find_node Demo.root ["home"; "u"; ".clawcage"; "snapshots"; "a1"; "one.tar.zst"]).
Proof.
  assert (".." ∉ components "/home/u") as Hd by (vm_compute; intros Hx; repeat (apply elem_of_cons in Hx as [?|Hx]; [done|]); by apply elem_of_nil in Hx).
  assert (Demo.entry "/home/u/.clawcage/snapshots/a1/one.tar.zst" "Snapshot: a1 / one" 700 700 "snapshot" true ∈ Demo.listing) as He by (do 3 right; left).
  destruct (listed_entry_deleted None "/home/u" Demo.root Demo.listing _ eq_refl Hd (Demo.checked Demo.root eq_refl) Demo.listed He) as [_ (p & root' & Hp & Hs & _)].
  injection Hp as <-. exact Hs.
Defined.
