(* ===== verification/Archives.v ===== *)
(** The archives of venvs, crates/clawcage-app/src/snapshots.rs: sparse and
    copy-on-write copies, [create_archive] and [extract_archive].

    Tar with zstd is the class [TarZst], and the programs dd and cp the class [Tools]. A
    sparse copy is a copy when its target is new ([sparsify_exact]) and mixes old and new
    bytes when it is not (example [stale_blocks]); what an archive was made of is what is
    extracted ([archive_extracted]). *)

From Stdlib Require Import ZArith Lia Strings.Byte Ascii.
From stdpp Require Import base numbers list gmap strings.
From S2P Require Import Prelude RustStr RustText Utf8 Paths VenvStore.

(** ** Outside the sources *)

Inductive ToolEnd :=
| SpawnError (e : string)
| Exited (success : bool).

(** dd if=/dev/null of=[path] bs=1 count=0 seek=[n], and cp -c [src] [dst]. *)
Class Tools := {
  dd : string -> Z -> Disk -> ToolEnd * Disk;
  cp_c : string -> string -> Disk -> ToolEnd * Disk;
}.

(** dd keeps the first [n] bytes of what is there and makes the file [n] bytes long. *)
Class ToolsLaws `{Tools} := {
  dd_resizes path n d d' : dd path n d = (Exited true, d') -> d' = <[path := resize (Z.to_nat n) x00 (default [] (d !! path))]> d;
  dd_local path n d r d' p : dd path n d = (r, d') -> p <> path -> d' !! p = d !! p;
  cp_copies src dst d d' : cp_c src dst d = (Exited true, d') -> exists c, d !! src = Some c /\ d' = <[dst := c]> d;
  cp_local src dst d r d' p : cp_c src dst d = (r, d') -> p <> dst -> d' !! p = d !! p;
}.

(** An entry as it is read: its path, the size in its header, and what reading it gives. *)
Record TarEntry := {
  te_path : result string string;
  te_size : Z;
  te_reads : list (result (list byte) string);
}.

Class TarZst := {
  ar_pack : list (string * list byte) -> list byte;
  zstd_open_error : list byte -> option string;
  ar_entries : list byte -> result (list (result TarEntry string)) string;
}.

(** Reads that deliver some bytes, in any chunks. *)
Definition reads_of (rs : list (result (list byte) string)) (data : list byte) : Prop :=
  exists chunks, rs = map Ok chunks /\ concat chunks = data /\ Forall (fun c => c <> []) chunks.

Definition tar_name_ok (n : string) : bool := file_name_ok n && (String.length n <=? 100)%nat.

Definition entry_of (e : string * list byte) (t : TarEntry) : Prop :=
  te_path t = Ok e.1 /\ te_size t = Z.of_nat (length e.2) /\ reads_of (te_reads t) e.2.

Class TarZstLaws `{TarZst} := {
  ar_roundtrip es : Forall (fun e => tar_name_ok e.1 = true) es ->
    zstd_open_error (ar_pack es) = None /\
    exists ts, ar_entries (ar_pack es) = Ok (map Ok ts) /\ Forall2 entry_of es ts;
}.

(** ** Data *)

Record SnapshotManifest := {
  sm_version : Z;
  sm_name : string;
  sm_template : string;
  sm_ephemeral : bool;
  sm_created_at : string;
  sm_snapshot_at : string;
  sm_scratch_disk_logical_size_gb : Z;
  sm_disk_used_kb : Z;
  sm_icon : option string;
  sm_clawcage_version : string;
}.

Class ManifestJson := {
  manifest_to_vec_pretty : SnapshotManifest -> result (list byte) string;
  manifest_from_slice : list byte -> result SnapshotManifest string;
}.

Definition manifest_fits (m : SnapshotManifest) : Prop :=
  in_uN 32 (sm_version m) /\ in_uN 32 (sm_scratch_disk_logical_size_gb m) /\ in_uN 64 (sm_disk_used_kb m).

Class ManifestJsonRoundtrip `{ManifestJson} := {
  manifest_json_roundtrip m data : manifest_fits m -> manifest_to_vec_pretty m = Ok data -> manifest_from_slice data = Ok m;
}.

(** What the calls meet: the files, permissions, how a file is read in chunks, and the
    stages of an archive that fail, with what the temporary file then holds. *)
Record SnapIo := {
  files :> Io;
  create_error : string -> option string;
  chmod_error : string -> option string;
  file_reads : string -> list byte -> list (result (list byte) string);
  stage_error : string -> option (string * list byte);
  rename_error : string -> option string;
}.

Section Archives.
Context `{Tools, TarZst, ManifestJson} (io : SnapIo).

(** ** Copies *)

(** Reading to the end: what was read, and the error that ended it. *)
Fixpoint drain (rs : list (result (list byte) string)) : list byte * option string :=
  match rs with
  | [] | Ok [] :: _ => ([], None)
  | Err e :: _ => ([], Some e)
  | Ok c :: rs => let '(data, e) := drain rs in (c ++ data, e)
  end.

Definition open_file (path : string) (d : Disk) : result (list byte) string := read_file io path d.

(** [std::fs::copy] *)
Definition copy_file (src dst : string) (d : Disk) : result unit string * Disk :=
  match open_file src d with
  | Err e => (Err e, d)
  | Ok c => write_file io dst c d
  end.

Definition set_permissions (path : string) : result unit string :=
  match chmod_error io path with Some e => Err e | None => Ok tt end.

Definition all_zero (c : list byte) : bool := forallb (fun b => bool_decide (b = x00)) c.

(** A seek and [write_all]; a file that ends before the offset gets a hole. *)
Definition write_block (offset : nat) (c content : list byte) : list byte :=
  resize offset x00 content ++ c ++ drop (offset + length c) content.

(** The loop of [sparsify_file], over what the target holds. *)
Fixpoint sparse_loop (dst : string) (rs : list (result (list byte) string)) (offset : nat) (content : list byte) : list byte * option string :=
  match rs with
  | [] | Ok [] :: _ => (content, None)
  | Err e :: _ => (content, Some e)
  | Ok c :: rs =>
      if all_zero c then sparse_loop dst rs (offset + length c) content
      else
        match write_error io dst with
        | Some (e, rest) => (default content rest, Some e)
        | None => sparse_loop dst rs (offset + length c) (write_block offset c content)
        end
  end.

Definition sparsify_file (src dst : string) (d : Disk) : result unit string * Disk :=
  match open_file src d with
  | Err e => (Err e, d)
  | Ok content =>
      match dd dst (Z.of_nat (length content)) d with
      | (SpawnError e, d) => (Err e, d)
      | (Exited false, d) => copy_file src dst d
      | (Exited true, d) =>
          match open_file dst d with
          | Err e => (Err e, d)
          | Ok target =>
              let '(written, e) := sparse_loop dst (file_reads io src content) 0 target in
              let d := <[dst := written]> d in
              match e with Some e => (Err e, d) | None => (set_permissions dst, d) end
          end
      end
  end.

Definition cow_copy (src dst : string) (d : Disk) : result unit string * Disk :=
  match cp_c src dst d with
  | (SpawnError e, d) => (Err e, d)
  | (Exited true, d) => (set_permissions dst, d)
  | (Exited false, d) =>
      match copy_file src dst d with
      | (Err e, d) => (Err e, d)
      | (Ok _, d) => (set_permissions dst, d)
      end
  end.

(** ** Creating *)

Definition MB : Z := 1024 * 1024.

(** [ProgressReader::read] with a buffer of [buf] bytes that gets [n]. *)
Definition progress_read (buf total read_so_far n : Z) : Z * list (Z * Z) :=
  let read_so_far := read_so_far + n in
  (read_so_far, if read_so_far mod (4 * MB) <? buf then [(read_so_far, total)] else []).

(** The events of a copy from it, until a read gets nothing. *)
Fixpoint progress_reads (buf total read_so_far : Z) (rs : list (result (list byte) string)) : list (Z * Z) :=
  match rs with
  | [] | Ok [] :: _ => (progress_read buf total read_so_far 0).2
  | Err _ :: _ => []
  | Ok c :: rs => let '(r, ev) := progress_read buf total read_so_far (Z.of_nat (length c)) in ev ++ progress_reads buf total r rs
  end.

Definition CONFIG_FILES : list string := ["settings.toml"; "setup.sh"; "setup.env"; "icon.png"; "disk_used_kb"].

(** The files of a venv's directory that are there, in the order of the archive. *)
Definition present (dir : string) (names : list string) (d : Disk) : list (string * list byte) :=
  omap (fun n => (fun c => (n, c)) <$> d !! path_join dir n) names.

(** The stages between the creation of the temporary file and its renaming. *)
Definition stages (entries : list (string * list byte)) : list string :=
  concat (map (fun e => if bool_decide (e.1 = "scratch.img") then ["scratch metadata"; "open scratch"; "add scratch.img"] else ["add " +:+ e.1]) entries)
  ++ ["finalize tar"; "finalize zstd"].

Fixpoint first_error (stages : list string) : option (string * list byte) :=
  match stages with
  | [] => None
  | s :: stages => match stage_error io s with Some (e, rest) => Some (s +:+ ": " +:+ e, rest) | None => first_error stages end
  end.

Definition create_archive (venv_dir : string) (manifest : SnapshotManifest) (output : string) (d : Disk) : result unit string * Disk :=
  let tmp := with_extension output "tar.zst.tmp" in
  match create_error io tmp with
  | Some e => (Err ("create archive: " +:+ e), d)
  | None =>
      let d := <[tmp := []]> d in
      match first_error ["zstd encoder"] with
      | Some (e, rest) => (Err e, <[tmp := rest]> d)
      | None =>
          match manifest_to_vec_pretty manifest with
          | Err e => (Err ("serialize manifest: " +:+ e), d)
          | Ok manifest_json =>
              let contents := present venv_dir ("scratch.img" :: CONFIG_FILES) d in
              match first_error ("add manifest" :: stages contents) with
              | Some (e, rest) => (Err e, <[tmp := rest]> d)
              | None =>
                  let archive := ar_pack (("manifest.json", manifest_json) :: contents) in
                  match rename_error io output with
                  | Some e => (Err ("rename archive: " +:+ e), <[tmp := archive]> d)
                  | None => (Ok tt, <[output := archive]> (delete tmp d))
                  end
              end
          end
      end
  end.

(** The progress of the scratch disk, when it is reached; [buf] is the buffer of the
    archiver's copy. *)
Definition create_progress (buf : Z) (venv_dir : string) (manifest : SnapshotManifest) (output : string) (d : Disk) : list (Z * Z) :=
  let scratch := path_join venv_dir "scratch.img" in
  match create_error io (with_extension output "tar.zst.tmp"), manifest_to_vec_pretty manifest,
        first_error ["zstd encoder"; "add manifest"; "scratch metadata"; "open scratch"], d !! scratch with
  | None, Ok _, None, Some c => progress_reads buf (Z.of_nat (length c)) 0 (file_reads io scratch c)
  | _, _, _, _ => []
  end.

(** ** Extracting *)

Record Extract := {
  x_disk : Disk;
  x_manifest : option SnapshotManifest;
  x_bytes : Z;
  x_total : Z;
  x_events : list (Z * Z);
}.

Definition set_disk (d : Disk) (x : Extract) : Extract :=
  {| x_disk := d; x_manifest := x_manifest x; x_bytes := x_bytes x; x_total := x_total x; x_events := x_events x |}.
Definition add_bytes (n : Z) (x : Extract) : Extract :=
  {| x_disk := x_disk x; x_manifest := x_manifest x; x_bytes := x_bytes x + n; x_total := x_total x; x_events := x_events x |}.
Definition report (x : Extract) : Extract :=
  {| x_disk := x_disk x; x_manifest := x_manifest x; x_bytes := x_bytes x; x_total := x_total x;
     x_events := if 0 <? x_total x then x_events x ++ [(x_bytes x, x_total x)] else x_events x |}.
Definition with_manifest (m : SnapshotManifest) (x : Extract) : Extract :=
  {| x_disk := x_disk x; x_manifest := Some m; x_bytes := x_bytes x;
     x_total := sm_scratch_disk_logical_size_gb m * 1024 * 1024 * 1024; x_events := x_events x |}.

(** The loop that writes a large entry to its temporary file. *)
Fixpoint copy_large (name tmp : string) (rs : list (result (list byte) string)) (x : Extract) : option string * Extract :=
  match rs with
  | [] | Ok [] :: _ => (None, x)
  | Err e :: _ => (Some ("read " +:+ name +:+ ": " +:+ e), x)
  | Ok c :: rs =>
      match write_error io tmp with
      | Some (e, rest) => (Some ("write tmp " +:+ name +:+ ": " +:+ e), match rest with Some r => set_disk (<[tmp := r]> (x_disk x)) x | None => x end)
      | None =>
          let x := set_disk (<[tmp := default [] (x_disk x !! tmp) ++ c]> (x_disk x)) x in
          copy_large name tmp rs (report (add_bytes (Z.of_nat (length c)) x))
      end
  end.

Definition extract_large (name dest : string) (t : TarEntry) (x : Extract) : option string * Extract :=
  let tmp := with_extension dest "img.tmp" in
  match create_error io tmp with
  | Some e => (Some ("create tmp " +:+ name +:+ ": " +:+ e), x)
  | None =>
      match copy_large name tmp (te_reads t) (set_disk (<[tmp := []]> (x_disk x)) x) with
      | (Some e, x) => (Some e, x)
      | (None, x) =>
          match sparsify_file tmp dest (x_disk x) with
          | (Err e, d) => (Some ("sparsify " +:+ name +:+ ": " +:+ e), set_disk d x)
          | (Ok _, d) => (None, set_disk (remove_file io tmp d) x)
          end
      end
  end.

Definition extract_small (name dest : string) (t : TarEntry) (x : Extract) : option string * Extract :=
  match create_error io dest with
  | Some e => (Some ("create " +:+ name +:+ ": " +:+ e), x)
  | None =>
      let '(data, e) := drain (te_reads t) in
      match write_error io dest, data with
      | Some (e, rest), _ :: _ => (Some ("extract " +:+ name +:+ ": " +:+ e), set_disk (<[dest := default [] rest]> (x_disk x)) x)
      | _, _ =>
          let x := set_disk (<[dest := data]> (x_disk x)) x in
          match e with
          | Some e => (Some ("extract " +:+ name +:+ ": " +:+ e), x)
          | None => (None, add_bytes (te_size t) x)
          end
      end
  end.

Definition extract_entry (dest_dir : string) (t : TarEntry) (x : Extract) : option string * Extract :=
  match te_path t with
  | Err e => (Some ("entry path: " +:+ e), x)
  | Ok name =>
      if bool_decide (name = "manifest.json") then
        match drain (te_reads t) with
        | (_, Some e) => (Some ("read manifest: " +:+ e), x)
        | (data, None) =>
            match manifest_from_slice data with
            | Err e => (Some ("parse manifest: " +:+ e), x)
            | Ok m => (None, with_manifest m x)
            end
        end
      else
        let dest := path_join dest_dir name in
        if 10 * MB <? te_size t then extract_large name dest t x else extract_small name dest t x
  end.

Fixpoint extract_entries (dest_dir : string) (ts : list (result TarEntry string)) (x : Extract) : option string * Extract :=
  match ts with
  | [] => (None, x)
  | Err e :: _ => (Some ("tar entry: " +:+ e), x)
  | Ok t :: ts =>
      match extract_entry dest_dir t x with
      | (Some e, x) => (Some e, x)
      | (None, x) => extract_entries dest_dir ts x
      end
  end.

(** The manifest, the disk and the events of the progress. *)
Definition extract_archive (archive_path dest_dir : string) (d : Disk) : result SnapshotManifest string * Disk * list (Z * Z) :=
  let events := [(0, 1)] in
  match open_file archive_path d with
  | Err e => (Err ("open archive: " +:+ e), d, events)
  | Ok archive =>
      match zstd_open_error archive, mkdir_error io dest_dir, ar_entries archive with
      | Some e, _, _ => (Err ("zstd decoder: " +:+ e), d, events)
      | None, Some e, _ => (Err ("create dir: " +:+ e), d, events)
      | None, None, Err e => (Err ("tar entries: " +:+ e), d, events)
      | None, None, Ok ts =>
          let '(e, x) := extract_entries dest_dir ts {| x_disk := d; x_manifest := None; x_bytes := 0; x_total := 0; x_events := events |} in
          (match e, x_manifest x with
           | Some e, _ => Err e
           | None, Some m => Ok m
           | None, None => Err "archive missing manifest.json"
           end, x_disk x, x_events x)
      end
  end.

End Archives.

(** ** Progress *)

(** The events stay within the total, and a disk of whole 4 MB blocks is reported done. *)
Lemma scratch_progress buf total chunks : 0 < buf -> Forall (fun c => c <> []) chunks -> total = Z.of_nat (length (concat chunks)) ->
  Forall (fun e => 0 <= e.1 <= total /\ e.2 = total) (progress_reads buf total 0 (map Ok chunks)) /\
  (total mod (4 * MB) = 0 -> last (progress_reads buf total 0 (map Ok chunks)) = Some (total, total)).
Proof.
  intros Hbuf Hne Htot.
  assert (forall r, 0 <= r -> r + Z.of_nat (length (concat chunks)) = total ->
    Forall (fun e => 0 <= e.1 <= total /\ e.2 = total) (progress_reads buf total r (map Ok chunks)) /\
    (total mod (4 * MB) = 0 -> last (progress_reads buf total r (map Ok chunks)) = Some (total, total))) as Hg; [|by apply Hg; lia].
  clear Htot. induction Hne as [|c chunks Hc _ IH]; intros r Hr Ht; cbn [map progress_reads concat] in *.
  - cbn in Ht. unfold progress_read. cbn [snd]. replace (r + 0) with total by lia. split.
    + destruct (_ <? _); repeat constructor; cbn; lia.
    + intros ->. by destruct (Z.ltb_spec 0 buf); [|lia].
  - rewrite length_app, Nat2Z.inj_add in Ht. destruct c as [|b c]; [done|]. set (n := Z.of_nat (length (b :: c))) in *.
    unfold progress_read. destruct (IH (r + n)) as [H1 H2]; [lia|lia|]. split.
    + apply Forall_app. split; [|done]. destruct (_ <? _); repeat constructor; cbn; lia.
    + intros Hm. rewrite last_app, H2 by done. done.
Qed.

(** ** Copies are exact *)

Lemma drain_reads rs data : reads_of rs data -> drain rs = (data, None).
Proof.
  intros (chunks & -> & <- & Hne). induction Hne as [|c chunks Hc _ IH]; [done|]. cbn [map drain concat]. rewrite IH. by destruct c.
Qed.

Lemma all_zero_replicate c : all_zero c = true -> c = replicate (length c) x00.
Proof.
  induction c as [|b c IH]; [done|]. cbn. intros [Hb Hc]%andb_true_iff. apply bool_decide_eq_true in Hb as ->. by rewrite <- IH.
Qed.

Lemma write_block_zeros pre c n : write_block (length pre) c (pre ++ replicate (length c + n) x00) = pre ++ c ++ replicate n x00.
Proof.
  unfold write_block. rewrite resize_app_le, resize_all by lia. do 2 f_equal. rewrite <- drop_drop, drop_app_length, drop_replicate. f_equal. lia.
Qed.

Lemma sparse_loop_zeros (io : SnapIo) dst chunks pre : write_error io dst = None -> Forall (fun c => c <> []) chunks ->
  sparse_loop io dst (map Ok chunks) (length pre) (pre ++ replicate (length (concat chunks)) x00) = (pre ++ concat chunks, None).
Proof.
  intros Hw Hne. revert pre. induction Hne as [|c chunks Hc _ IH]; intros pre; [done|]. cbn [map sparse_loop concat].
  destruct c as [|b c]; [done|]. set (w := b :: c) in *. specialize (IH (pre ++ w)). rewrite <- !app_assoc, (length_app pre) in IH.
  rewrite Hw, (length_app w). destruct (all_zero w) eqn:Hz; rewrite <- IH; f_equal.
  - apply all_zero_replicate in Hz. by rewrite replicate_add, <- Hz.
  - by rewrite write_block_zeros.
Qed.

(** No call fails, and files are read to their end. *)
Record quiet (io : SnapIo) : Prop := {
  q_read : forall p, read_error io p = None;
  q_mkdir : forall p, mkdir_error io p = None;
  q_write : forall p, write_error io p = None;
  q_create : forall p, create_error io p = None;
  q_chmod : forall p, chmod_error io p = None;
  q_reads : forall p c, reads_of (file_reads io p c) c;
}.

Lemma quiet_open io path d c : quiet io -> d !! path = Some c -> open_file io path d = Ok c.
Proof. intros Hq Hd. unfold open_file, read_file. by rewrite (q_read io Hq), Hd. Qed.

Lemma quiet_copy io src dst d c : quiet io -> d !! src = Some c -> copy_file io src dst d = (Ok tt, <[dst := c]> d).
Proof. intros Hq Hd. unfold copy_file, write_file. by rewrite (quiet_open _ _ d c Hq Hd), (q_write io Hq). Qed.

Section Laws.
Context `{ToolsLaws, TarZstLaws, ManifestJsonRoundtrip} (io : SnapIo) (Hq : quiet io).

Theorem sparsify_exact (src dst : string) (d : Disk) (c : list byte) (Hne : src <> dst) (Hsrc : d !! src = Some c) (Hnew : d !! dst = None) :
  let '(r, d') := sparsify_file io src dst d in
  (forall p, p <> dst -> d' !! p = d !! p) /\
  ((forall e d', dd dst (Z.of_nat (length c)) d <> (SpawnError e, d')) -> r = Ok tt /\ d' !! dst = Some c).
Proof.
  unfold sparsify_file. rewrite (quiet_open io src d c Hq Hsrc). destruct (dd dst _ d) as [end_ d1] eqn:Hdd.
  assert (forall p, p <> dst -> d1 !! p = d !! p) as Ho by (intros p Hp; by eapply dd_local).
  destruct end_ as [e|[]].
  - split; [done|]. intros Hs. by destruct (Hs e d1).
  - apply dd_resizes in Hdd as ->. rewrite Hnew, Nat2Z.id. cbn [default from_option]. rewrite resize_nil.
    erewrite quiet_open by (done || apply lookup_insert_eq). destruct (q_reads io Hq src c) as (chunks & -> & <- & Hchunks).
    pose proof (sparse_loop_zeros io dst chunks [] (q_write io Hq dst) Hchunks) as Hl. rewrite !app_nil_l in Hl. cbn [length] in Hl. rewrite Hl.
    unfold set_permissions. rewrite (q_chmod io Hq). split; [intros p Hp; by rewrite !lookup_insert_ne|]. intros _. by rewrite lookup_insert_eq.
  - rewrite (quiet_copy io src dst d1 c Hq) by (by rewrite Ho). split; [intros p Hp; rewrite lookup_insert_ne by done; by apply Ho|].
    intros _. by rewrite lookup_insert_eq.
Qed.

Lemma cow_copy_exact src dst d c : src <> dst -> d !! src = Some c ->
  let '(r, d') := cow_copy io src dst d in
  (forall p, p <> dst -> d' !! p = d !! p) /\ ((forall e d', cp_c src dst d <> (SpawnError e, d')) -> r = Ok tt /\ d' !! dst = Some c).
Proof.
  intros Hne Hsrc. unfold cow_copy, set_permissions. rewrite (q_chmod io Hq). destruct (cp_c src dst d) as [end_ d1] eqn:Hcp.
  assert (forall p, p <> dst -> d1 !! p = d !! p) as Ho by (intros p Hp; by eapply cp_local). destruct end_ as [e|[]].
  - split; [done|]. intros Hs. by destruct (Hs e d1).
  - split; [done|]. intros _. apply cp_copies in Hcp as (c' & Hc & ->). rewrite lookup_insert_eq. split; congruence.
  - rewrite (quiet_copy io src dst d1 c Hq) by (by rewrite Ho). split; [intros p Hp; rewrite lookup_insert_ne by done; by apply Ho|].
    intros _. by rewrite lookup_insert_eq.
Qed.

(** ** What an archive was made of is what is extracted *)

Hypothesis (Hdd : forall p n d e d', dd p n d <> (SpawnError e, d')).

Lemma copy_large_exact name tmp rs data x cur : reads_of rs data -> x_disk x !! tmp = Some cur ->
  exists x', copy_large io name tmp rs x = (None, x') /\ x_disk x' !! tmp = Some (cur ++ data) /\
    (forall p, p <> tmp -> x_disk x' !! p = x_disk x !! p) /\ x_manifest x' = x_manifest x.
Proof.
  intros (chunks & -> & <- & Hne). revert x cur. induction Hne as [|c chunks Hc _ IH]; intros x cur Hx.
  - exists x. cbn. by rewrite app_nil_r.
  - cbn [map copy_large concat]. destruct c as [|b c]; [done|]. rewrite (q_write io Hq), Hx. cbn [default from_option].
    set (x1 := report _). edestruct (IH x1) as (x' & -> & Ht & Ho & Hm); [apply lookup_insert_eq|]. exists x'. split; [done|]. rewrite app_assoc. split; [exact Ht|]. split; [|exact Hm].
    intros p Hp. rewrite Ho by done. by apply lookup_insert_ne.
Qed.

Definition tmp_name (n : string) : string := file_stem n +:+ ".img.tmp".

(** What extracting one file changes. *)
Definition extracted (dest : string) (e : string * list byte) (x x' : Extract) : Prop :=
  x_disk x' !! path_join dest e.1 = Some e.2 /\ x_manifest x' = x_manifest x /\
  forall p, p <> path_join dest e.1 -> p <> path_join dest (tmp_name e.1) -> x_disk x' !! p = x_disk x !! p.

Lemma extract_file dest e t x : entry_of e t -> file_name_ok e.1 = true -> e.1 <> "manifest.json" -> tmp_name e.1 <> e.1 ->
  plain_name (tmp_name e.1) = true -> x_disk x !! path_join dest e.1 = None ->
  exists x', extract_entry io dest t x = (None, x') /\ extracted dest e x x'.
Proof.
  intros (Hp & Hs & Hr) Hok Hm Htmp Hplain Hnew. unfold extract_entry. rewrite Hp, bool_decide_false by done.
  assert (plain_name e.1 = true) as Hpe by (unfold file_name_ok in Hok; by destruct (plain_name e.1)).
  destruct (10 * MB <? te_size t).
  - unfold extract_large. cbv zeta. rewrite with_extension_join, (q_create io Hq) by done. change ("." +:+ "img.tmp") with ".img.tmp". fold (tmp_name e.1).
    set (tmp := path_join dest (tmp_name e.1)). assert (tmp <> path_join dest e.1) as Hne by (intros E; by apply Htmp, (path_join_inj dest)).
    edestruct (copy_large_exact e.1 tmp (te_reads t) e.2 (set_disk (<[tmp := []]> (x_disk x)) x)) as (x1 & -> & Ht & Ho & Hm1); [done|apply lookup_insert_eq|].
    pose proof (sparsify_exact tmp (path_join dest e.1) (x_disk x1) e.2 Hne Ht) as Hx.
    destruct (sparsify_file io tmp _ _) as [r d'] eqn:E. destruct Hx as [Hother Hx].
    { rewrite Ho by done. cbn [set_disk x_disk]. by rewrite lookup_insert_ne. }
    destruct Hx as [-> Hd]; [intros; apply Hdd|]. eexists. split; [done|]. split; [|split; [exact Hm1|]].
    + cbn. unfold remove_file. destruct (cannot_remove io tmp); [done|]. by rewrite lookup_delete_ne.
    + intros p Hp1 Hp2. cbn. unfold remove_file. fold tmp in Hp2.
      assert (d' !! p = x_disk x !! p) as <- by (rewrite Hother, Ho by done; cbn [set_disk x_disk]; by rewrite lookup_insert_ne).
      destruct (cannot_remove io tmp); [done|]. by rewrite lookup_delete_ne.
  - unfold extract_small. cbv zeta. rewrite (q_create io Hq), (drain_reads _ e.2 Hr), (q_write io Hq). eexists. split; [done|]. split; [|split; [done|]].
    + cbn. apply lookup_insert_eq.
    + intros p Hp1 _. cbn. by rewrite lookup_insert_ne.
Qed.

Definition names_ok (names : list string) : Prop :=
  NoDup names /\ forall n, n ∈ names -> file_name_ok n = true /\ n <> "manifest.json" /\ plain_name (tmp_name n) = true /\
    forall m, m ∈ names -> tmp_name m <> n.

Lemma extract_files dest es ts x : Forall2 entry_of es ts -> names_ok (map fst es) ->
  (forall n, n ∈ map fst es -> x_disk x !! path_join dest n = None) ->
  exists x', extract_entries io dest (map Ok ts) x = (None, x') /\ x_manifest x' = x_manifest x /\
    (forall n data, (n, data) ∈ es -> x_disk x' !! path_join dest n = Some data) /\
    (forall p, (forall n, n ∈ map fst es -> p <> path_join dest n /\ p <> path_join dest (tmp_name n)) -> x_disk x' !! p = x_disk x !! p).
Proof.
  intros Hes. revert x. induction Hes as [|e t es ts He _ IH]; intros x [Hnd Hok] Hnew.
  - exists x. split; [done|]. split; [done|]. split; [|done]. intros n data Hin. by apply elem_of_nil in Hin.
  - cbn [map] in *. apply NoDup_cons in Hnd as [Hnin Hnd]. destruct (Hok e.1) as (Hf & Hm & Hpl & Ht); [left|].
    destruct (extract_file dest e t x) as (x1 & Hx1 & Hd1 & Hm1 & Ho1); [done|done|done|apply Ht; left|done|apply Hnew; left|].
    assert (forall n, n ∈ map fst es -> path_join dest n <> path_join dest e.1 /\ path_join dest n <> path_join dest (tmp_name e.1)) as Hsep.
    { intros n Hn. destruct (Hok n) as (Hfn & _ & _ & Htn); [by right|].
      assert (plain_name n = true) as Hpn by (unfold file_name_ok in Hfn; by destruct (plain_name n)).
      assert (plain_name e.1 = true) as Hpe by (unfold file_name_ok in Hf; by destruct (plain_name e.1)).
      split; intros E; apply (path_join_inj dest) in E; try done; [by subst|]. by apply (Htn e.1); [left|]. }
    destruct (IH x1) as (x' & Hx' & Hm' & Hd' & Ho').
    + split; [done|]. intros n Hn. destruct (Hok n) as (Hn1 & Hn2 & Hn3 & Hn4); [by right|]. split_and!; [done..|]. intros m Hm2. apply Hn4. by right.
    + intros n Hn. destruct (Hsep n Hn). rewrite Ho1 by done. apply Hnew. by right.
    + exists x'. cbn [extract_entries]. rewrite Hx1. split; [done|]. split; [congruence|]. split.
      * intros n data [<-|Hin]%elem_of_cons; [|by apply Hd']. cbn [fst snd] in *. rewrite Ho'; [done|]. intros m Hm2. destruct (Hsep m Hm2) as [Hs1 Hs2].
        split; [done|]. intros E. destruct (Hok n) as (Hfn & _ & _ & Htn); [left|]. destruct (Hok m) as (_ & _ & Hpm & _); [by right|].
        apply (path_join_inj dest) in E; [|unfold file_name_ok in Hfn; by destruct (plain_name n)|done]. apply (Htn m); [by right|done].
      * intros p Hp. rewrite Ho', Ho1; [done|apply Hp; left|apply Hp; left|]. intros n Hn. apply Hp. by right.
Qed.

(** *** Whole archives *)

Definition snapshot_files : list string := "scratch.img" :: CONFIG_FILES.

Lemma snapshot_names_ok names : NoDup names -> names ⊆ snapshot_files -> names_ok names.
Proof.
  intros Hnd Hsub. assert (forall n, n ∈ snapshot_files -> file_name_ok n = true /\ n <> "manifest.json" /\ plain_name (tmp_name n) = true /\
    Forall (fun m => tmp_name m <> n) snapshot_files) as Hall.
  { apply Forall_forall. repeat constructor; by vm_compute. }
  split; [done|]. intros n Hn. destruct (Hall n (Hsub n Hn)) as (Hn1 & Hn2 & Hn3 & Hn4). split_and!; [done..|].
  intros m Hm. rewrite Forall_forall in Hn4. by apply Hn4, Hsub.
Qed.

Lemma present_spec dir names d n data : (n, data) ∈ present dir names d <-> n ∈ names /\ d !! path_join dir n = Some data.
Proof.
  unfold present. rewrite list_elem_of_omap. split.
  - intros (m & Hm & E). apply fmap_Some in E as (c & Hc & [= -> ->]). done.
  - intros [Hn Hd]. exists n. split; [done|]. by rewrite Hd.
Qed.

Lemma present_names dir names d : map fst (present dir names d) `sublist_of` names.
Proof.
  unfold present. induction names as [|n names IH]; [done|]. cbn [omap list_omap].
  destruct (d !! path_join dir n); cbn; [by apply sublist_skip|by apply sublist_cons].
Qed.

Lemma present_ext dir names d d' : (forall n, n ∈ names -> d !! path_join dir n = d' !! path_join dir n) -> present dir names d = present dir names d'.
Proof.
  intros He. unfold present. induction names as [|n names IH]; [done|]. cbn [omap list_omap]. rewrite He by left.
  rewrite IH; [done|]. intros m Hm. apply He. by right.
Qed.

Lemma archive_tmp_other output dir n : path_file_name output <> None -> n ∈ snapshot_files ->
  with_extension output "tar.zst.tmp" <> path_join dir n.
Proof.
  intros Ho Hn E. unfold with_extension in E. destruct (path_file_name output) as [o|]; [|done].
  assert (forall m, m ∈ snapshot_files -> starts_with m "/" = false /\ ends_with m "p" = false /\ is_empty m = false) as Hall.
  { apply Forall_forall. repeat constructor. }
  destruct (Hall n Hn) as (Hs & He & Hne). apply (f_equal (fun s => ends_with s "p")) in E. destruct (path_join_split dir) as (pre & _ & Hj).
  cbn beta in E. rewrite Hj, !sapp_assoc in E by done. rewrite (ends_with_char pre n) in E by (by intros ->).
  rewrite He, ends_with_char in E by done. done.
Qed.

(** [create_archive] writes its output whole or not at all. *)
Lemma create_archive_atomic (ioA : SnapIo) venv_dir m output d : path_file_name output <> None ->
  let '(r, d') := create_archive ioA venv_dir m output d in
  (forall p, p <> output -> p <> with_extension output "tar.zst.tmp" -> d' !! p = d !! p) /\
  match r with
  | Ok _ => exists json, manifest_to_vec_pretty m = Ok json /\
              d' !! output = Some (ar_pack (("manifest.json", json) :: present venv_dir snapshot_files d))
  | Err _ => output <> with_extension output "tar.zst.tmp" -> d' !! output = d !! output
  end.
Proof.
  intros Ho. unfold create_archive. set (tmp := with_extension output _). set (d1 := <[tmp := []]> d).
  assert (present venv_dir snapshot_files d1 = present venv_dir snapshot_files d) as Hp.
  { apply present_ext. intros n Hn. apply lookup_insert_ne, archive_tmp_other; done. }
  assert (forall c p, p <> tmp -> <[tmp := c]> d1 !! p = d !! p) as Hd by (intros c p Hpt; unfold d1; by rewrite insert_insert_eq, lookup_insert_ne).
  destruct (create_error ioA tmp); [done|]. destruct (first_error ioA ["zstd encoder"]) as [[e rest]|]; [by split; auto|].
  destruct (manifest_to_vec_pretty m) as [json|e] eqn:Hjson; [|split; [intros p _ Hpt|intros Hpt]; by apply lookup_insert_ne].
  destruct (first_error ioA _) as [[e rest]|]; [by split; auto|]. destruct (rename_error ioA output); [by split; auto|].
  split.
  - intros p Hpo Hpt. rewrite lookup_insert_ne, lookup_delete_ne by done. by apply lookup_insert_ne.
  - exists json. split; [done|]. rewrite lookup_insert_eq. by rewrite <- Hp.
Qed.

Theorem archive_extracted (ioA : SnapIo) (venv_dir output source dest : string) (m : SnapshotManifest) (dA dA' dB : Disk)
    (Ho : path_file_name output <> None) (Hm : manifest_fits m) (Hcreate : create_archive ioA venv_dir m output dA = (Ok tt, dA'))
    (Hsource : dB !! source = dA' !! output) (Hnew : forall n, n ∈ snapshot_files -> dB !! path_join dest n = None) :
  exists dB' events, extract_archive io source dest dB = (Ok m, dB', events) /\
    (forall n, n ∈ snapshot_files -> dB' !! path_join dest n = dA !! path_join venv_dir n) /\
    (forall p, (forall n, n ∈ snapshot_files -> p <> path_join dest n /\ p <> path_join dest (tmp_name n)) -> dB' !! p = dB !! p).
Proof.
  pose proof (create_archive_atomic ioA venv_dir m output dA Ho) as Hc. rewrite Hcreate in Hc. destruct Hc as (_ & json & Hjson & Hout).
  set (es := present venv_dir snapshot_files dA) in *. assert (map fst es `sublist_of` snapshot_files) as Hsub by apply present_names.
  assert (NoDup (map fst es)) as Hnd by (eapply sublist_NoDup; [apply (bool_decide_eq_true (NoDup snapshot_files)); by vm_compute|done]).
  assert (map fst es ⊆ snapshot_files) as Hin by (intros n Hn; by eapply elem_of_sublist).
  destruct (ar_roundtrip (("manifest.json", json) :: es)) as (Hz & ts & Hts & Hes).
  { constructor; [done|]. apply Forall_forall. intros [n c] He. apply present_spec in He as [Hn _]. cbn. clear -Hn. revert n Hn. apply Forall_forall. by repeat constructor. }
  unfold extract_archive. rewrite (quiet_open io source dB _ Hq) by (by rewrite Hsource). rewrite Hz, (q_mkdir io Hq), Hts.
  inversion Hes as [|? t ? ts' (Htp & _ & Htr) Hes']; subst. cbn [map extract_entries]. unfold extract_entry at 1. rewrite Htp, bool_decide_true by done.
  rewrite (drain_reads _ json Htr), (manifest_json_roundtrip m json Hm Hjson).
  match goal with |- context [extract_entries io dest (map Ok ts') ?x] =>
    destruct (extract_files dest es ts' x) as (x' & -> & Hxm & Hxd & Hxo); [done|by apply snapshot_names_ok|intros n Hn; by apply Hnew, Hin|] end.
  rewrite Hxm. cbn [with_manifest x_manifest]. eexists _, _. split; [done|]. split.
  - intros n Hn. destruct (dA !! path_join venv_dir n) as [c|] eqn:Hc; [by apply Hxd, present_spec|].
    rewrite Hxo; [by apply Hnew|]. intros k Hk. apply Hin in Hk as Hk'.
    destruct (snapshot_names_ok snapshot_files) as [_ Hall]; [apply (bool_decide_eq_true (NoDup snapshot_files)); by vm_compute|done|].
    destruct (Hall n Hn) as (Hn1 & _ & _ & Hn4). destruct (Hall k Hk') as (Hk1 & _ & Hk3 & _).
    assert (forall m, file_name_ok m = true -> plain_name m = true) as Hpl by (intros k' Hk''; unfold file_name_ok in Hk''; by destruct (plain_name k')).
    split; intros E; apply (path_join_inj dest) in E; try by auto.
    + subst k. apply list_elem_of_fmap in Hk as ([n' c] & -> & He). apply present_spec in He as [_ He]. cbn in *. congruence.
    + by apply (Hn4 k).
  - intros p Hp. rewrite Hxo; [done|]. intros n Hn. by apply Hp, Hin.
Qed.

End Laws.

(** ** Programs and archives to run on *)

Module Demo.

#[global] Instance byte_countable : Countable byte.
Proof.
  apply (inj_countable (fun b => Byte.to_N b) Byte.of_N). intros b. apply Byte.of_to_N.
Defined.

#[global] Instance tools : Tools := {|
  dd path n d := (Exited true, <[path := resize (Z.to_nat n) x00 (default [] (d !! path))]> d);
  cp_c src dst d := match d !! src with Some c => (Exited true, <[dst := c]> d) | None => (Exited false, d) end;
|}.

#[global] Instance tools_ok : ToolsLaws.
Proof.
  constructor; cbn.
  - by intros path n d d' [= <-].
  - intros path n d r d' p [= _ <-] Hp. by rewrite lookup_insert_ne.
  - intros src dst d d'. destruct (d !! src) as [c|]; [|done]. intros [= <-]. eauto.
  - intros src dst d r d' p. destruct (d !! src); intros [= _ <-] Hp; by rewrite ?lookup_insert_ne.
Qed.

Lemma dd_runs p n d e d' : dd p n d <> (SpawnError e, d').
Proof. unfold dd, tools. discriminate. Qed.

Definition as_bytes {A} `{Countable A} (a : A) : list byte := bytes_of_string (VenvStore.Demo.bits_text (encode a)).
Definition of_bytes {A} `{Countable A} (l : list byte) : option A := decode (VenvStore.Demo.text_bits (string_of_bytes l)).

Lemma of_as_bytes {A} `{Countable A} (a : A) : of_bytes (as_bytes a) = Some a.
Proof. unfold of_bytes, as_bytes. by rewrite string_of_bytes_of_string, VenvStore.Demo.text_bits_text, decode_encode. Qed.

Definition reads (c : list byte) : list (result (list byte) string) := match c with [] => [] | _ => [Ok c] end.

Lemma reads_ok c : reads_of (reads c) c.
Proof. destruct c as [|b c]; [by exists []|]. exists [b :: c]. split; [done|]. cbn. rewrite app_nil_r. split; [done|]. by repeat constructor. Qed.

(** An archive in which each byte is announced and each text and list is ended. *)
Fixpoint esc (l : list byte) : list byte := match l with [] => [x00] | b :: l => x01 :: b :: esc l end.

Fixpoint unesc (l : list byte) : option (list byte * list byte) :=
  match l with
  | x00 :: r => Some ([], r)
  | x01 :: b :: r => match unesc r with Some (a, r) => Some (b :: a, r) | None => None end
  | _ => None
  end.

Definition pack (es : list (string * list byte)) : list byte :=
  foldr (fun e l => x01 :: esc (bytes_of_string e.1) ++ esc e.2 ++ l) [x00] es.

Fixpoint unpack (fuel : nat) (l : list byte) : option (list (string * list byte)) :=
  match fuel, l with
  | S fuel, x01 :: l =>
      '(name, l) ← unesc l;
      '(data, l) ← unesc l;
      es ← unpack fuel l;
      Some ((string_of_bytes name, data) :: es)
  | S _, x00 :: _ => Some []
  | _, _ => None
  end.

Lemma unesc_esc l r : unesc (esc l ++ r) = Some (l, r).
Proof. induction l as [|b l IH]; [done|]. cbn. by rewrite IH. Qed.

Lemma unpack_pack es n : (length es < n)%nat -> unpack n (pack es) = Some es.
Proof.
  revert n. induction es as [|[name data] es IH]; intros [|n] Hn; cbn in Hn; [lia|done|lia|]. cbn [pack foldr unpack fst snd].
  rewrite unesc_esc. cbn. rewrite unesc_esc. cbn. fold (pack es). rewrite IH by lia. cbn. by rewrite string_of_bytes_of_string.
Qed.

Lemma pack_length es : (length es < length (pack es))%nat.
Proof. induction es as [|e es IH]; cbn; [lia|]. rewrite !length_app. fold (pack es). lia. Qed.

#[global] Instance tar : TarZst := {|
  ar_pack := pack;
  zstd_open_error _ := None;
  ar_entries l := match unpack (length l) l with
    | Some es => Ok (map (fun e => Ok {| te_path := Ok e.1; te_size := Z.of_nat (length e.2); te_reads := reads e.2 |}) es)
    | None => Err "no archive"
    end;
|}.

#[global] Instance tar_ok : TarZstLaws.
Proof.
  constructor. intros es _. split; [done|]. exists (map (fun e => {| te_path := Ok e.1; te_size := Z.of_nat (length e.2); te_reads := reads e.2 |}) es).
  cbn [ar_entries tar ar_pack]. rewrite unpack_pack by apply pack_length. rewrite map_map. split; [done|]. induction es as [|e es IH]; constructor; [|done].
  split; [done|]. split; [done|]. apply reads_ok.
Qed.

Definition fields (m : SnapshotManifest) :=
  (sm_version m, sm_name m, sm_template m, sm_ephemeral m, sm_created_at m, (sm_snapshot_at m, sm_scratch_disk_logical_size_gb m, sm_disk_used_kb m, sm_icon m, sm_clawcage_version m)).

#[global] Instance manifest_eq_dec : EqDecision SnapshotManifest.
Proof. solve_decision. Defined.

#[global] Instance manifest_countable : Countable SnapshotManifest.
Proof.
  apply (inj_countable' fields (fun f => let '(a, b, c, d, e, (f, g, h, i, j)) := f in
    {| sm_version := a; sm_name := b; sm_template := c; sm_ephemeral := d; sm_created_at := e; sm_snapshot_at := f;
       sm_scratch_disk_logical_size_gb := g; sm_disk_used_kb := h; sm_icon := i; sm_clawcage_version := j |})). by intros [].
Defined.

#[global] Instance json : ManifestJson := {|
  manifest_to_vec_pretty m := Ok (as_bytes m);
  manifest_from_slice l := match of_bytes l with Some m => Ok m | None => Err "expected value" end;
|}.

#[global] Instance json_ok : ManifestJsonRoundtrip.
Proof. constructor. intros m data _ [= <-]. cbn. by rewrite of_as_bytes. Qed.

Definition io : SnapIo := {| files := VenvStore.Demo.io; create_error _ := None; chmod_error _ := None; file_reads _ c := reads c;
  stage_error _ := None; rename_error _ := None |}.

Lemma io_quiet : quiet io.
Proof. constructor; try done. intros p c. apply reads_ok. Qed.

(** A sparse copy skips the blocks of zeros: onto a file that is there it keeps the old
    bytes in their place. *)
Definition block (b : byte) : list byte := replicate 4 b.
Definition chunked : SnapIo := {| files := VenvStore.Demo.io; create_error _ := None; chmod_error _ := None;
  file_reads _ c := [Ok (take 4 c); Ok (drop 4 c)]; stage_error _ := None; rename_error _ := None |}.

Example stale_blocks :
  let d : Disk := <["dst" := block x41 ++ block x41]> {["src" := block x00 ++ block x42]} in
  (sparsify_file chunked "src" "dst" d).1 = Ok tt /\ (sparsify_file chunked "src" "dst" d).2 !! "dst" = Some (block x41 ++ block x42).
Proof. vm_compute. split; reflexivity. Qed.

(** An entry with an absolute name is written there. *)
Example entry_escapes :
  let d : Disk := {["/t.clawcage" := ar_pack [("/etc/clawcage/corp.toml", [x41])]]} in
  let '(r, d', _) := extract_archive io "/t.clawcage" "/h/.clawcage/venvs/venv-1" d in
  r = Err "archive missing manifest.json" /\ d' !! "/etc/clawcage/corp.toml" = Some [x41].
Proof. vm_compute. split; reflexivity. Qed.

End Demo.

Lemma sparsify_exact_witness :
  exists d', sparsify_file Demo.io "src" "dst" {["src" := Demo.block x00 ++ Demo.block x42]} = (Ok tt, d') /\
    d' !! "dst" = Some (Demo.block x00 ++ Demo.block x42).
Proof.
  pose proof (sparsify_exact Demo.io Demo.io_quiet "src" "dst" {["src" := Demo.block x00 ++ Demo.block x42]} (Demo.block x00 ++ Demo.block x42)
    ltac:(discriminate) (lookup_singleton_eq _ _) (lookup_singleton_ne "src" "dst" _ ltac:(discriminate))) as Hx.
  destruct (sparsify_file _ _ _ _) as [r d']. destruct Hx as [_ Hx]. destruct Hx as [-> Hd]; [intros e d1; apply Demo.dd_runs|]. exists d'. split; [done|exact Hd].
Defined.
