(* ===== verification/Snapshots.v ===== *)
(** Cloning, exporting and importing venvs, crates/clawcage-app/src/snapshots.rs.

    A venv that is exported and imported again has the same files and the same settings
    ([exported_venv_imported]), a clone is a copy ([clone_exact]), and an import whose
    names are plain stays inside the new venv's directory ([import_confined]). *)

From Stdlib Require Import ZArith Lia Strings.Byte Ascii.
From stdpp Require Import base numbers list gmap strings.
From S2P Require Import Prelude RustStr RustText Utf8 Paths SessionTime VenvStore Archives.

Record SnapshotProgress := {
  sp_operation : string;
  sp_venv_id : string;
  sp_phase : string;
  sp_bytes_processed : Z;
  sp_total_bytes : Z;
}.

Definition progress (operation venv_id phase : string) (e : Z * Z) : SnapshotProgress :=
  {| sp_operation := operation; sp_venv_id := venv_id; sp_phase := phase; sp_bytes_processed := e.1; sp_total_bytes := e.2 |}.

Definition venv_record (id name created_at : string) (ephemeral : bool) (template : string) (icon : option string) : VenvInfo :=
  {| vn_id := id; vn_name := name; vn_status := "stopped"; vn_created_at := created_at; vn_last_used := None; vn_ephemeral := ephemeral;
     vn_template := template; vn_icon := icon |}.

Section Commands.
Context `{VenvJson, Tools, TarZst, ManifestJson} (io : SnapIo).

Definition venv_data_dir (venv_id : string) : result string string :=
  match home io with Some h => Ok (venv_dir h venv_id) | None => Err "HOME not set" end.

Definition ensure_stopped (running : gset string) (venv_id : string) : result unit string :=
  if bool_decide (venv_id ∈ running) then Err "stop the environment before this operation" else Ok tt.

Definition get_venv_info (venv_id : string) (d : Disk) : result VenvInfo string :=
  let? venvs := load_venvs io d in
  match list_find_first (VenvStore.has_id venv_id) venvs with Some v => Ok v | None => Err ("environment not found: " +:+ venv_id) end.

Definition read_disk_used_kb (dir : string) (d : Disk) : Z :=
  match read_to_string io (path_join dir "disk_used_kb") d with
  | Ok s => default 0 (parse_uint 64 (trim s))
  | Err _ => 0
  end.

(** The entry of the new venv is added to the table. *)
Definition add_venv (v : VenvInfo) : Disk -> result unit string * Disk := change_venvs io (fun vs => Ok (vs ++ [v])).

(** [std::fs::copy] of each file that is there; a failure is ignored. *)
Definition copy_configs (src dst : string) (d : Disk) : Disk :=
  foldl (fun d n => match d !! path_join src n with Some _ => (copy_file io (path_join src n) (path_join dst n) d).2 | None => d end) d CONFIG_FILES.

Definition copy_scratch (src dst : string) (d : Disk) : result unit string * Disk :=
  match d !! path_join src "scratch.img" with
  | Some _ => cow_copy io (path_join src "scratch.img") (path_join dst "scratch.img") d
  | None => (Ok tt, d)
  end.

Definition clone_venv (ts : Z) (now source_venv_id new_name : string) (running : gset string) (d : Disk)
    : result VenvInfoResponse string * Disk * list SnapshotProgress :=
  match (let? _ := ensure_stopped running source_venv_id in
         let? source := get_venv_info source_venv_id d in
         let? source_dir := venv_data_dir source_venv_id in
         let? new_dir := venv_data_dir (gen_id ts) in
         match mkdir_error io new_dir with Some e => Err ("create dir: " +:+ e) | None => Ok (source, source_dir, new_dir) end) with
  | Err e => (Err e, d, [])
  | Ok (source, source_dir, new_dir) =>
      let new_id := gen_id ts in
      let started := [progress "clone" new_id "copying" (0, 1)] in
      match copy_scratch source_dir new_dir d with
      | (Err e, d) => (Err ("copy scratch: " +:+ e), d, started)
      | (Ok _, d) =>
          let d := copy_configs source_dir new_dir d in
          let new_venv := venv_record new_id new_name now (vn_ephemeral source) (vn_template source) (vn_icon source) in
          match add_venv new_venv d with
          | (Err e, d) => (Err e, d, started)
          | (Ok _, d) =>
              (Ok {| vr_info := new_venv; vr_disk_used_bytes := venv_disk_used io new_id d; vr_disk_allocated_bytes := venv_disk_allocated io new_id d;
                     vr_icon_url := None |}, d, started ++ [progress "clone" new_id "done" (0, 0)])
          end
      end
  end.

Definition export_manifest (version now : string) (venv : VenvInfo) (disk_used : Z) : SnapshotManifest :=
  {| sm_version := 1; sm_name := vn_name venv; sm_template := vn_template venv; sm_ephemeral := vn_ephemeral venv; sm_created_at := vn_created_at venv;
     sm_snapshot_at := now; sm_scratch_disk_logical_size_gb := 16; sm_disk_used_kb := disk_used; sm_icon := vn_icon venv; sm_clawcage_version := version |}.

Definition export_venv (version now venv_id dest_path : string) (buf : Z) (running : gset string) (d : Disk)
    : result unit string * Disk * list SnapshotProgress :=
  match (let? _ := ensure_stopped running venv_id in
         let? venv := get_venv_info venv_id d in
         let? dir := venv_data_dir venv_id in Ok (venv, dir)) with
  | Err e => (Err e, d, [])
  | Ok (venv, dir) =>
      let manifest := export_manifest version now venv (read_disk_used_kb dir d) in
      let events := map (progress "export" venv_id "compressing") (create_progress io buf dir manifest dest_path d) in
      match create_archive io dir manifest dest_path d with
      | (Err e, d) => (Err e, d, events)
      | (Ok _, d) => (Ok tt, d, events ++ [progress "export" venv_id "done" (0, 0)])
      end
  end.

Definition import_venv (ts : Z) (now source_path : string) (new_name : option string) (d : Disk)
    : result VenvInfoResponse string * Disk * list SnapshotProgress :=
  let new_id := gen_id ts in
  match venv_data_dir new_id with
  | Err e => (Err e, d, [])
  | Ok new_dir =>
      let '(r, d, events) := extract_archive io source_path new_dir d in
      let events := map (progress "import" new_id "decompressing") events in
      match r with
      | Err e => (Err e, d, events)
      | Ok manifest =>
          let new_venv := venv_record new_id (default (sm_name manifest) new_name) now (sm_ephemeral manifest) (sm_template manifest) (sm_icon manifest) in
          match add_venv new_venv d with
          | (Err e, d) => (Err e, d, events)
          | (Ok _, d) =>
              (Ok {| vr_info := new_venv; vr_disk_used_bytes := as_uN 64 (sm_disk_used_kb manifest * 1024);
                     vr_disk_allocated_bytes := sm_scratch_disk_logical_size_gb manifest * 1024 * 1024 * 1024; vr_icon_url := None |},
               d, events ++ [progress "import" new_id "done" (0, 0)])
          end
      end
  end.

End Commands.

(** ** Paths *)

Lemma all_chars_contains p s c : all_chars p s = true -> p c = false -> contains_char s c = false.
Proof.
  intros Hs Hc. induction s as [|d s IH]; [done|]. unfold all_chars in *. cbn in Hs. apply andb_true_iff in Hs as [Hd Hs].
  rewrite contains_char_cons, IH, orb_false_r by done. apply bool_decide_eq_false. intros ->. congruence.
Qed.

Lemma gen_id_plain ts : plain_name (gen_id ts) = true.
Proof.
  unfold plain_name, gen_id. by rewrite contains_char_app, (all_chars_contains is_ascii_hexdigit (show_hex ts)) by (done || apply digits_hex).
Qed.

Lemma slash_inj a b x y : contains_char a "/" = false -> contains_char b "/" = false ->
  a +:+ "/" +:+ x = b +:+ "/" +:+ y -> a = b /\ x = y.
Proof.
  revert b. induction a as [|c a IH]; intros [|d b] Ha Hb E; rewrite ?sapp_cons, ?sapp_nil_l in E.
  - by injection E as ->.
  - injection E as <- _. by rewrite contains_char_cons in Hb.
  - injection E as -> _. by rewrite contains_char_cons in Ha.
  - injection E as -> E. rewrite contains_char_cons in Ha, Hb. apply orb_false_iff in Ha as [_ Ha], Hb as [_ Hb].
    by destruct (IH b Ha Hb E) as [-> ->].
Qed.

Lemma venv_file h id n : plain_name id = true -> id <> "" -> plain_name n = true ->
  path_join (venv_dir h id) n = clawcage_dir h +:+ "/venvs/" +:+ id +:+ "/" +:+ n.
Proof.
  intros Hid Hne Hn%plain_not_absolute. rewrite venv_dir_split by done. rewrite join_relative; [by rewrite !sapp_assoc| | |done].
  - destruct (clawcage_dir_tail h) as [x ->]. by destruct x.
  - rewrite !sapp_assoc. rewrite ends_with_char by done. unfold plain_name in Hid. apply negb_true_iff in Hid.
    destruct (ends_with id "/") eqn:E; [|done]. apply ends_with_spec in E as [r ->]. by rewrite contains_char_app, orb_true_r in Hid.
Qed.

(** Files of two venvs are different files. *)
Lemma venv_files_ne h a b n m : plain_name a = true -> plain_name b = true -> a <> "" -> b <> "" -> a <> b -> plain_name n = true -> plain_name m = true ->
  path_join (venv_dir h a) n <> path_join (venv_dir h b) m.
Proof.
  intros Ha Hb Hae Hbe Hab Hn Hm E. rewrite !venv_file in E by done. do 2 apply sapp_inv_l in E.
  unfold plain_name in Ha, Hb. apply negb_true_iff in Ha, Hb. by apply slash_inj in E as [? _].
Qed.

Lemma plain_file n : file_name_ok n = true -> plain_name n = true.
Proof. unfold file_name_ok. by destruct (plain_name n). Qed.

Lemma tmp_name_plain n : plain_name n = true -> plain_name (tmp_name n) = true.
Proof.
  unfold plain_name, tmp_name, file_stem. intros Hn%negb_true_iff. apply negb_true_iff. rewrite contains_char_app, orb_false_r.
  destruct (rfind_char "." n) as [[|i]|]; [done| |done]. rewrite <- (stake_sdrop (S i) n), contains_char_app in Hn.
  by apply orb_false_iff in Hn as [? _].
Qed.

Lemma table_not_snapshot h dir n : n ∈ snapshot_files -> table_path h <> path_join dir n /\ table_path h <> path_join dir (tmp_name n).
Proof.
  intros Hn. assert (forall m, m ∈ snapshot_files -> (starts_with m "/" = false /\ is_empty m = false /\ ends_with m "n" = false) /\
    starts_with (tmp_name m) "/" = false /\ is_empty (tmp_name m) = false /\ ends_with (tmp_name m) "n" = false) as Hall.
  { apply Forall_forall. by repeat constructor. }
  destruct (Hall n Hn) as [(? & ? & ?) (? & ? & ?)]. split; apply table_not_file; try done; by intros E; rewrite E in *.
Qed.

(** ** The table *)

Section Machine.
Context `{VenvJsonRoundtrip} (io : SnapIo) (h : string) (Hio : works io h).

Lemma add_venv_table v vs d : load_venvs io d = Ok vs ->
  exists d', add_venv io v d = (Ok tt, d') /\ load_venvs io d' = Ok (vs ++ [v]) /\ forall p, p <> table_path h -> d' !! p = d !! p.
Proof. intros Hl. unfold add_venv, change_venvs. rewrite Hl. by apply (save_load io h). Qed.

Lemma data_dir id : venv_data_dir io id = Ok (venv_dir h id).
Proof. unfold venv_data_dir. by rewrite (wk_home _ _ Hio). Qed.

Lemma kept_table d d' dir vs : load_venvs io d = Ok vs ->
  (forall p, (forall n, n ∈ snapshot_files -> p <> path_join dir n /\ p <> path_join dir (tmp_name n)) -> d' !! p = d !! p) -> load_venvs io d' = Ok vs.
Proof. intros Hl Hd. rewrite <- Hl. apply (load_same_table io h Hio). apply Hd. intros n Hn. by apply table_not_snapshot. Qed.

Lemma find_venv id d vs v : load_venvs io d = Ok vs -> list_find_first (VenvStore.has_id id) vs = Some v -> get_venv_info io id d = Ok v.
Proof. intros Hl Hv. unfold get_venv_info. by rewrite Hl, Hv. Qed.

Lemma disk_used_in_range dir d : in_uN 64 (read_disk_used_kb io dir d).
Proof.
  unfold read_disk_used_kb. destruct (read_to_string io _ d) as [s|]; [|by split].
  destruct (parse_uint 64 (trim s)) as [n|] eqn:E; [|by split]. cbn. by apply parse_uint_radix_range in E.
Qed.

End Machine.

(** Importing an archive that [create_archive] made, of whatever manifest. *)
Lemma archive_imported `{VenvJsonRoundtrip, ToolsLaws, TarZstLaws, ManifestJsonRoundtrip} (ioA ioB : SnapIo) (hB dirA : string)
    (nowB dest source : string) (ts : Z) (new_name : option string) (m : SnapshotManifest) (dA dA' dB : Disk) (vsB : list VenvInfo)
    (HioB : works ioB hB) (HqB : quiet ioB) (Hdd : forall p n d e d', dd p n d <> (SpawnError e, d'))
    (Hdest : path_file_name dest <> None) (Hm : manifest_fits m) (Hcreate : create_archive ioA dirA m dest dA = (Ok tt, dA'))
    (Hsource : dB !! source = dA' !! dest) (HloadB : load_venvs ioB dB = Ok vsB)
    (Hnew : forall n, n ∈ snapshot_files -> dB !! path_join (venv_dir hB (gen_id ts)) n = None) :
  exists resp dB' eventsB, import_venv ioB ts nowB source new_name dB = (Ok resp, dB', eventsB) /\
    vr_info resp = venv_record (gen_id ts) (default (sm_name m) new_name) nowB (sm_ephemeral m) (sm_template m) (sm_icon m) /\
    load_venvs ioB dB' = Ok (vsB ++ [vr_info resp]) /\
    forall n, n ∈ snapshot_files -> dB' !! path_join (venv_dir hB (gen_id ts)) n = dA !! path_join dirA n.
Proof.
  destruct (archive_extracted ioB HqB Hdd ioA dirA dest source (venv_dir hB (gen_id ts)) m dA dA' dB Hdest Hm Hcreate Hsource Hnew)
    as (d2 & ev & Hx & Hfiles & Hothers).
  unfold import_venv. rewrite (data_dir ioB hB HioB), Hx.
  edestruct (add_venv_table ioB hB HioB) as (d3 & Hadd & Hl3 & Ho3); [by eapply (kept_table ioB hB HioB dB d2)|].
  rewrite Hadd. eexists _, d3, _. split; [done|]. split; [done|]. split; [exact Hl3|]. intros n Hn. rewrite Ho3; [by apply Hfiles|].
  apply not_eq_sym. by apply table_not_snapshot.
Qed.

(** A venv that was exported can be imported on any machine whose directory of the new
    id is unused: the import succeeds, adds one venv with the exported settings to the
    table, and every file of the archive has the bytes it had when it was exported. *)
Theorem exported_venv_imported `{VenvJsonRoundtrip, ToolsLaws, TarZstLaws, ManifestJsonRoundtrip} (ioA ioB : SnapIo) (hA hB : string)
    (version nowA nowB id dest source : string) (buf ts : Z) (new_name : option string) (running : gset string)
    (dA dA' dB : Disk) (vsA vsB : list VenvInfo) (v : VenvInfo) (events : list SnapshotProgress)
    (HioA : works ioA hA) (HioB : works ioB hB) (HqB : quiet ioB) (Hdd : forall p n d e d', dd p n d <> (SpawnError e, d'))
    (Hload : load_venvs ioA dA = Ok vsA) (Hv : list_find_first (VenvStore.has_id id) vsA = Some v) (Hdest : path_file_name dest <> None)
    (Hexport : export_venv ioA version nowA id dest buf running dA = (Ok tt, dA', events))
    (Hsource : dB !! source = dA' !! dest) (HloadB : load_venvs ioB dB = Ok vsB)
    (Hnew : forall n, n ∈ snapshot_files -> dB !! path_join (venv_dir hB (gen_id ts)) n = None) :
  exists resp dB' eventsB, import_venv ioB ts nowB source new_name dB = (Ok resp, dB', eventsB) /\
    vr_info resp = venv_record (gen_id ts) (default (vn_name v) new_name) nowB (vn_ephemeral v) (vn_template v) (vn_icon v) /\
    load_venvs ioB dB' = Ok (vsB ++ [vr_info resp]) /\
    forall n, n ∈ snapshot_files -> dB' !! path_join (venv_dir hB (gen_id ts)) n = dA !! path_join (venv_dir hA id) n.
Proof.
  unfold export_venv in Hexport. rewrite (find_venv ioA id dA vsA v), (data_dir ioA hA HioA) in Hexport by done.
  destruct (ensure_stopped running id); [|done]. set (m := export_manifest _ _ _ _) in Hexport.
  destruct (create_archive ioA _ m dest dA) as [[[]|e] d1] eqn:Hcreate; [|done]. injection Hexport as -> _.
  assert (manifest_fits m) as Hm by (split; [done|]; split; [done|]; apply disk_used_in_range).
  by apply (archive_imported ioA ioB hB (venv_dir hA id) nowB dest source ts new_name m dA dA' dB vsB).
Qed.

(** ** A clone is a copy *)

Section Clone.
Context `{VenvJsonRoundtrip, ToolsLaws} (io : SnapIo) (h : string) (Hio : works io h) (Hq : quiet io).

Lemma copy_configs_exact src dst names d : NoDup names -> (forall n, n ∈ names -> plain_name n = true) ->
  (forall n m, n ∈ names -> m ∈ names -> path_join src n <> path_join dst m) -> (forall n, n ∈ names -> d !! path_join dst n = None) ->
  let d' := foldl (fun d n => match d !! path_join src n with Some _ => (copy_file io (path_join src n) (path_join dst n) d).2 | None => d end) d names in
  (forall n, n ∈ names -> d' !! path_join dst n = d !! path_join src n) /\
  (forall p, (forall n, n ∈ names -> p <> path_join dst n) -> d' !! p = d !! p).
Proof.
  intros Hnd. revert d. induction Hnd as [|n names Hn Hnd IH]; intros d Hpl Hne Hnew; cbn [foldl].
  - split; [|done]. intros n Hn. by apply elem_of_nil in Hn.
  - set (d1 := match d !! path_join src n with Some _ => _ | None => d end).
    assert (d1 !! path_join dst n = d !! path_join src n /\ forall p, p <> path_join dst n -> d1 !! p = d !! p) as [Hd1 Ho1].
    { subst d1. destruct (d !! path_join src n) as [c|] eqn:Hc; [|split; [apply Hnew; left|done]].
      rewrite (quiet_copy io _ _ d c Hq Hc). cbn [snd]. split; [apply lookup_insert_eq|]. intros p Hp. by rewrite lookup_insert_ne. }
    assert (forall m, m ∈ names -> path_join dst m <> path_join dst n) as Hm.
    { intros m Hin E. apply path_join_inj in E; [by subst|by apply Hpl; right|by apply Hpl; left]. }
    clearbody d1. destruct (IH d1) as [Hd Ho].
    + intros m Hin. apply Hpl. by right.
    + intros k m Hk Hin. apply Hne; by right.
    + intros m Hin. rewrite Ho1 by auto. apply Hnew. by right.
    + split.
      * intros m [->|Hin]%elem_of_cons; [rewrite Ho; [done|]; intros k Hk E; by apply (Hm k)|].
        rewrite Hd, Ho1; [done| |done]. apply Hne; [by right|left].
      * intros p Hp. rewrite Ho, Ho1; [done|apply Hp; left|]. intros m Hin. apply Hp. by right.
Qed.

Theorem clone_exact (ts : Z) (now id name : string) (running : gset string) (d : Disk) (vs : list VenvInfo) (v : VenvInfo)
    (Hcp : forall src dst d e d', cp_c src dst d <> (SpawnError e, d')) (Hstopped : id ∉ running) (Hplain : plain_name id = true) (Hid : id <> "")
    (Hfresh : id <> gen_id ts) (Hload : load_venvs io d = Ok vs) (Hv : list_find_first (VenvStore.has_id id) vs = Some v)
    (Hnew : forall n, n ∈ snapshot_files -> d !! path_join (venv_dir h (gen_id ts)) n = None) :
  exists resp d' events, clone_venv io ts now id name running d = (Ok resp, d', events) /\
    vr_info resp = venv_record (gen_id ts) name now (vn_ephemeral v) (vn_template v) (vn_icon v) /\
    load_venvs io d' = Ok (vs ++ [vr_info resp]) /\
    (forall n, n ∈ snapshot_files -> d' !! path_join (venv_dir h (gen_id ts)) n = d !! path_join (venv_dir h id) n) /\
    (forall p, p <> table_path h -> (forall n, n ∈ snapshot_files -> p <> path_join (venv_dir h (gen_id ts)) n) -> d' !! p = d !! p).
Proof.
  unfold clone_venv, ensure_stopped. rewrite bool_decide_false, (find_venv io id d vs v), !(data_dir io h Hio), (q_mkdir io Hq) by done.
  set (src := venv_dir h id). set (dst := venv_dir h (gen_id ts)) in *.
  assert (forall n, n ∈ snapshot_files -> plain_name n = true) as Hpl by (apply Forall_forall; by repeat constructor).
  assert (forall n m, n ∈ snapshot_files -> m ∈ snapshot_files -> path_join src n <> path_join dst m) as Hne.
  { intros n m Hn Hm. apply venv_files_ne; auto using gen_id_plain. }
  assert (exists d1, copy_scratch io src dst d = (Ok tt, d1) /\ d1 !! path_join dst "scratch.img" = d !! path_join src "scratch.img" /\
    forall p, p <> path_join dst "scratch.img" -> d1 !! p = d !! p) as (d1 & -> & Hs1 & Ho1).
  { unfold copy_scratch. destruct (d !! path_join src "scratch.img") as [c|] eqn:Hc; [|exists d; split; [done|]; split; [apply Hnew; left|done]].
    pose proof (cow_copy_exact io Hq _ (path_join dst "scratch.img") d c (Hne _ _ ltac:(left) ltac:(left)) Hc) as Hx.
    destruct (cow_copy io _ _ d) as [r d1]. destruct Hx as [Ho Hx]. destruct Hx as [-> Hd1]; [apply Hcp|]. by exists d1. }
  destruct (copy_configs_exact src dst CONFIG_FILES d1) as [Hd2 Ho2].
  - apply (bool_decide_eq_true (NoDup CONFIG_FILES)). by vm_compute.
  - intros n Hn. apply Hpl. by right.
  - intros n m Hn Hm. apply Hne; by right.
  - intros n Hn. rewrite Ho1; [apply Hnew; by right|]. intros E. apply path_join_inj in E; [|apply Hpl; by right|done].
    subst n. revert Hn. by apply (bool_decide_eq_false ("scratch.img" ∈ CONFIG_FILES)).
  - fold (copy_configs io src dst d1) in Hd2, Ho2. set (d2 := copy_configs io src dst d1) in *.
    assert (forall n, n ∈ snapshot_files -> d2 !! path_join dst n = d !! path_join src n) as Hfiles.
    { intros n [->|Hn]%elem_of_cons.
      - rewrite Ho2; [done|]. intros m Hm E. apply path_join_inj in E; [|done|apply Hpl; by right]. subst m.
        revert Hm. by apply (bool_decide_eq_false ("scratch.img" ∈ CONFIG_FILES)).
      - rewrite Hd2, Ho1; [done| |done]. apply Hne; [by right|left]. }
    assert (forall p, (forall n, n ∈ snapshot_files -> p <> path_join dst n) -> d2 !! p = d !! p) as Hothers.
    { intros p Hp. rewrite Ho2, Ho1; [done|apply Hp; left|]. intros n Hn. apply Hp. by right. }
    clearbody d2. edestruct (add_venv_table io h Hio) as (d3 & Hadd & Hl3 & Ho3).
    { apply (kept_table io h Hio d d2 dst vs Hload). intros p Hp. apply Hothers. intros n Hn. by apply Hp. }
    rewrite Hadd. eexists _, d3, _. split; [done|]. split; [done|]. split; [exact Hl3|]. split.
    + intros n Hn. rewrite Ho3; [by apply Hfiles|]. apply not_eq_sym. by apply table_not_snapshot.
    + intros p Hp1 Hp2. rewrite Ho3 by done. by apply Hothers.
Qed.

End Clone.

(** ** What an import may write *)

Section Confined.
Context `{VenvJson, ToolsLaws, TarZst, ManifestJson} (io : SnapIo).

Lemma write_file_local path c d r d' p : write_file io path c d = (r, d') -> p <> path -> d' !! p = d !! p.
Proof.
  unfold write_file. destruct (write_error io path) as [[e [rest|]]|]; intros [= _ <-] Hp; by rewrite ?lookup_insert_ne.
Qed.

Lemma sparsify_local src dst d r d' p : sparsify_file io src dst d = (r, d') -> p <> dst -> d' !! p = d !! p.
Proof.
  unfold sparsify_file. destruct (open_file io src d) as [c|e]; [|by intros [= _ <-]].
  destruct (dd dst _ d) as [end_ d1] eqn:Hdd. intros E Hp. rewrite <- (dd_local _ _ _ _ _ p Hdd Hp). destruct end_ as [e|[]].
  - by injection E as _ <-.
  - destruct (open_file io dst d1); [|by injection E as _ <-]. destruct (sparse_loop _ _ _ _ _) as [w [e|]]; injection E as _ <-; by rewrite lookup_insert_ne.
  - unfold copy_file in E. destruct (open_file io src d1); [|by injection E as _ <-]. by eapply write_file_local.
Qed.

Lemma copy_large_local name tmp rs x r x' p : copy_large io name tmp rs x = (r, x') -> p <> tmp -> x_disk x' !! p = x_disk x !! p.
Proof.
  intros E Hp. revert x E. induction rs as [|[[|b c]|e] rs IH]; intros x; cbn [copy_large]; try by intros [= _ <-].
  destruct (write_error io tmp) as [[e [rest|]]|]; [intros [= _ <-]; by apply lookup_insert_ne|by intros [= _ <-]|].
  intros E. rewrite (IH _ E). by apply lookup_insert_ne.
Qed.

Lemma extract_entry_local dest t x r x' p : extract_entry io dest t x = (r, x') ->
  (forall n, te_path t = Ok n -> file_name_ok n = true) -> (forall n, plain_name n = true -> p <> path_join dest n) -> x_disk x' !! p = x_disk x !! p.
Proof.
  intros E Hok Hp. unfold extract_entry in E. destruct (te_path t) as [n|e]; [|by injection E as _ <-].
  pose proof (Hok n eq_refl) as Hn. pose proof (plain_file n Hn) as Hpl. case_bool_decide.
  { destruct (drain (te_reads t)) as [data [e|]]; [by injection E as _ <-|]. destruct (manifest_from_slice data); by injection E as _ <-. }
  pose proof (Hp n Hpl) as Hd. destruct (10 * MB <? te_size t).
  - unfold extract_large in E. cbv zeta in E. rewrite with_extension_join in E by done. change ("." +:+ "img.tmp") with ".img.tmp" in E. fold (tmp_name n) in E.
    pose proof (Hp (tmp_name n) (tmp_name_plain n Hpl)) as Ht. set (tmp := path_join dest (tmp_name n)) in *.
    destruct (create_error io tmp); [by injection E as _ <-|]. destruct (copy_large io n tmp (te_reads t) _) as [[e|] x1] eqn:Hc;
      pose proof (copy_large_local _ _ _ _ _ _ p Hc Ht) as Hl; cbn [set_disk x_disk] in Hl; rewrite lookup_insert_ne in Hl by done.
    + by injection E as _ <-.
    + destruct (sparsify_file io tmp _ _) as [[|e] d1] eqn:Hs; pose proof (sparsify_local _ _ _ _ _ p Hs Hd) as Hl2; injection E as _ <-; cbn; [|congruence].
      unfold remove_file. destruct (cannot_remove io tmp); [congruence|]. rewrite lookup_delete_ne by done. congruence.
  - unfold extract_small in E. destruct (create_error io _); [by injection E as _ <-|]. destruct (drain (te_reads t)) as [data [e|]];
      destruct (write_error io _) as [[e' rest]|], data; injection E as _ <-; cbn; by rewrite lookup_insert_ne.
Qed.

Lemma extract_entries_local dest ts x r x' p : extract_entries io dest ts x = (r, x') ->
  (forall t n, Ok t ∈ ts -> te_path t = Ok n -> file_name_ok n = true) -> (forall n, plain_name n = true -> p <> path_join dest n) ->
  x_disk x' !! p = x_disk x !! p.
Proof.
  intros E Hok Hp. revert x E. induction ts as [|[t|e] ts IH]; intros x; cbn [extract_entries]; [by intros [= _ <-]| |by intros [= _ <-]].
  destruct (extract_entry io dest t x) as [r1 x1] eqn:He.
  pose proof (extract_entry_local _ _ _ _ _ p He ltac:(intros n; apply Hok; left) Hp) as H1'. destruct r1 as [e|].
  - by intros [= _ <-].
  - intros E. rewrite <- H1'. apply IH; [|done]. intros t' n Hin. apply Hok. by right.
Qed.

Theorem import_confined (ts : Z) (now source h : string) (new_name : option string) (d : Disk) (Hhome : home io = Some h)
    (Hnames : forall archive entries t n, d !! source = Some archive -> ar_entries archive = Ok entries -> Ok t ∈ entries -> te_path t = Ok n ->
                file_name_ok n = true) :
  let '(r, d', _) := import_venv io ts now source new_name d in
  forall p, p <> table_path h -> (forall n, plain_name n = true -> p <> path_join (venv_dir h (gen_id ts)) n) -> d' !! p = d !! p.
Proof.
  unfold import_venv, venv_data_dir. rewrite Hhome. set (dest := venv_dir h (gen_id ts)).
  assert (forall p, (forall n, plain_name n = true -> p <> path_join dest n) -> (extract_archive io source dest d).1.2 !! p = d !! p) as Hx.
  { intros p Hp. unfold extract_archive, open_file, read_file. destruct (read_error io source); [done|]. destruct (d !! source) as [archive|] eqn:Ha; [|done].
    destruct (zstd_open_error archive); [done|]. destruct (mkdir_error io dest); [done|]. destruct (ar_entries archive) as [es|] eqn:He; [|done].
    destruct (extract_entries io dest es _) as [e x] eqn:E. cbn. rewrite (extract_entries_local _ _ _ _ _ p E); [done| |done].
    intros t n. by apply (Hnames archive es t n). }
  destruct (extract_archive io source dest d) as [[r d1] ev]. cbn [fst snd] in Hx. destruct r as [m|e]; [|intros p _; by apply Hx].
  destruct (add_venv io _ d1) as [r d2] eqn:Hadd.
  assert (forall p, p <> table_path h -> d2 !! p = d1 !! p) as Ht.
  { intros p Hp. unfold add_venv, change_venvs in Hadd. destruct (load_venvs io d1); [|by injection Hadd as _ <-].
    unfold save_venvs, venvs_path in Hadd. rewrite Hhome in Hadd. destruct (mkdir_error io _); [by injection Hadd as _ <-|].
    destruct (venvs_to_string_pretty _); [|by injection Hadd as _ <-]. destruct (write_file io _ _ d1) as [r' d'] eqn:Hw. injection Hadd as _ <-.
    by eapply write_file_local. }
  destruct r as [[]|e]; intros p Hp1 Hp2; by rewrite Ht, Hx.
Qed.

End Confined.

(** ** A venv exported on one machine and imported on another, and cloned *)

Module Demo.

Definition venv : VenvInfo := new_venv 4095 "t0" "dev" false None.
Definition disk : Disk :=
  <[path_join (venv_dir "/h" "venv-fff") "scratch.img" := [x41; x42]]> (<[path_join (venv_dir "/h" "venv-fff") "disk_used_kb" := bytes_of_string "42"]>
    (venv_op VenvStore.Demo.io ∅ (OpCreate 4095 "t0" "dev" false None))).

Definition exported := export_venv Archives.Demo.io "0.8" "t1" "venv-fff" "/x.clawcage" 8192 ∅ disk.
Definition other : Disk := <["/x.clawcage" := default [] (exported.1.2 !! "/x.clawcage")]> ∅.

Lemma export_ok : exported.1.1 = Ok tt.
Proof. vm_compute. reflexivity. Qed.

Lemma snap_stored : load_venvs Archives.Demo.io disk = Ok [venv].
Proof. vm_compute. reflexivity. Qed.

Lemma stored_other : load_venvs Archives.Demo.io other = Ok [].
Proof. vm_compute. reflexivity. Qed.

Lemma snap_found : list_find_first (VenvStore.has_id "venv-fff") [venv] = Some venv.
Proof. vm_compute. reflexivity. Qed.

Lemma snap_fresh (d : Disk) ts : forallb (fun n => bool_decide (d !! path_join (venv_dir "/h" (gen_id ts)) n = None)) snapshot_files = true ->
  forall n, n ∈ snapshot_files -> d !! path_join (venv_dir "/h" (gen_id ts)) n = None.
Proof. intros Hf n Hn. apply list_elem_of_In in Hn. by apply (proj1 (forallb_forall _ _) Hf) in Hn as Hd%bool_decide_eq_true. Qed.

Lemma fresh_disk n : n ∈ snapshot_files -> disk !! path_join (venv_dir "/h" (gen_id 5000)) n = None.
Proof. apply snap_fresh. vm_compute. reflexivity. Qed.

Lemma fresh_other n : n ∈ snapshot_files -> other !! path_join (venv_dir "/h" (gen_id 5000)) n = None.
Proof. apply snap_fresh. vm_compute. reflexivity. Qed.

Lemma same_archive : other !! "/x.clawcage" = exported.1.2 !! "/x.clawcage".
Proof. vm_compute. reflexivity. Qed.

Lemma snap_scratch : disk !! path_join (venv_dir "/h" "venv-fff") "scratch.img" = Some [x41; x42].
Proof. vm_compute. reflexivity. Qed.

(** The archive of another tool is confined too; one with an absolute name is not
    ([Archives.Demo.entry_escapes]). *)
Definition foreign : Disk := {["/y.clawcage" := ar_pack [("note.txt", [x41])]]}.

Lemma foreign_names archive entries t n : foreign !! "/y.clawcage" = Some archive -> ar_entries archive = Ok entries -> Ok t ∈ entries -> te_path t = Ok n ->
  file_name_ok n = true.
Proof.
  unfold foreign. rewrite lookup_singleton_eq. intros [= <-] He Hin Hn. vm_compute in He. injection He as <-. apply list_elem_of_singleton in Hin. injection Hin as ->. by injection Hn as <-.
Qed.

End Demo.

Lemma exported_venv_imported_witness :
  exists resp d' events, import_venv Archives.Demo.io 5000 "t2" "/x.clawcage" None Demo.other = (Ok resp, d', events) /\
    d' !! path_join (venv_dir "/h" (gen_id 5000)) "scratch.img" = Some [x41; x42].
Proof.
  destruct (exported_venv_imported Archives.Demo.io Archives.Demo.io "/h" "/h" "0.8" "t1" "t2" "venv-fff" "/x.clawcage" "/x.clawcage" 8192 5000 None ∅
    Demo.disk Demo.exported.1.2 Demo.other [Demo.venv] [] Demo.venv Demo.exported.2 VenvStore.Demo.io_works VenvStore.Demo.io_works Archives.Demo.io_quiet
    Archives.Demo.dd_runs Demo.snap_stored Demo.snap_found ltac:(discriminate)
    ltac:(rewrite <- Demo.export_ok; unfold Demo.exported; destruct (export_venv _ _ _ _ _ _ _ _) as [[r d'] ev]; reflexivity)
    Demo.same_archive Demo.stored_other Demo.fresh_other) as (resp & d' & ev & Hi & _ & _ & Hf).
  exists resp, d', ev. split; [exact Hi|]. rewrite (Hf "scratch.img"); [exact Demo.snap_scratch|left].
Defined.

Lemma clone_exact_witness :
  exists resp d' events, clone_venv Archives.Demo.io 5000 "t2" "venv-fff" "copy" ∅ Demo.disk = (Ok resp, d', events) /\
    d' !! path_join (venv_dir "/h" (gen_id 5000)) "scratch.img" = Some [x41; x42].
Proof.
  destruct (clone_exact Archives.Demo.io "/h" VenvStore.Demo.io_works Archives.Demo.io_quiet 5000 "t2" "venv-fff" "copy" ∅ Demo.disk [Demo.venv] Demo.venv)
    as (resp & d' & ev & Hi & _ & _ & Hf & _).
  - intros src dst d e d'. cbn. destruct (d !! src); discriminate.
  - apply not_elem_of_empty.
  - reflexivity.
  - discriminate.
  - vm_compute. discriminate.
  - exact Demo.snap_stored.
  - exact Demo.snap_found.
  - exact Demo.fresh_disk.
  - exists resp, d', ev. split; [exact Hi|]. rewrite (Hf "scratch.img"); [exact Demo.snap_scratch|left].
Defined.

Lemma import_confined_witness :
  let '(r, d', _) := import_venv Archives.Demo.io 5000 "t2" "/y.clawcage" None Demo.foreign in
  forall p, p <> table_path "/h" -> (forall n, plain_name n = true -> p <> path_join (venv_dir "/h" (gen_id 5000)) n) -> d' !! p = Demo.foreign !! p.
Proof. exact (import_confined Archives.Demo.io 5000 "t2" "/y.clawcage" "/h" None Demo.foreign eq_refl Demo.foreign_names). Defined.
