(* ===== verification/Cloud.v ===== *)
(** The cloud client, crates/clawcage-app/src/cloud.rs: its configuration in cloud.json and
    the keychain, the access token, the encryption key and the commands around them.

    The commands run on a [CloudHost]: the disk, the keychain, the state of the network
    and the requests sent so far. The key that encrypts the snapshots stays the same through
    every sequence of commands as long as the keychain works ([key_kept]); when its backup
    fails a disconnect loses it (example [key_lost]). *)

From Stdlib Require Import ZArith Lia Strings.Byte Ascii.
From stdpp Require Import base numbers list gmap strings.
From S2P Require Import Prelude RustStr RustText Utf8 Paths VenvStore Events CloudTime.

(** ** Outside the sources *)

(** Base64 of the base64 crate: the standard alphabet, and the one of tokens. *)
Class Base64Crate := {
  b64_encode : list byte -> string;
  b64_decode : string -> result (list byte) string;
  b64_url_decode : string -> option (list byte);
}.

Class Base64Laws `{Base64Crate} := {
  b64_roundtrip bytes : b64_decode (b64_encode bytes) = Ok bytes;
  b64_tidy bytes : bytes <> [] -> tidy (b64_encode bytes);
}.

(** AES-256-GCM with a key, a nonce and a text. *)
Class Aead := {
  aes_encrypt : list byte -> list byte -> list byte -> result (list byte) string;
  aes_decrypt : list byte -> list byte -> list byte -> result (list byte) string;
}.

Class AeadLaws `{Aead} := {
  aes_roundtrip key nonce plain c : aes_encrypt key nonce plain = Ok c -> aes_decrypt key nonce c = Ok plain;
}.

Class UrlEncoding := {
  url_encode : string -> string;
  url_decode : string -> option string;
}.

(** [Value::as_i64] *)
Class JsonI64 `{SerdeJson} := as_i64 : Value -> option Z.

Inductive Body `{SerdeJson} :=
| NoBody
| JsonBody (v : Value)
| BytesBody (data : list byte).

Inductive Method := GET | POST | PUT | DELETE | PATCH.

Record Request `{SerdeJson} := {
  rq_method : Method;
  rq_url : string;
  rq_bearer : option string;
  rq_body : Body;
  rq_timeout : Z;
}.

Record Response := { rs_status : Z; rs_body : result (list byte) string }.

(** Sending a request: the response, or the error of the connection or its timeout. *)
Class Http `{SerdeJson} := {
  Net : Type;
  http : Request -> Net -> result Response string * Net;
}.

(** ** Data *)

Record CloudConfig := {
  cc_token : option string;
  cc_refresh_token : option string;
  cc_email : option string;
  cc_cloud_url : option string;
  cc_encryption_key : option string;
  cc_auto_sync : bool;
  cc_last_auto_sync : option string;
}.

Definition CloudConfig_default : CloudConfig :=
  {| cc_token := None; cc_refresh_token := None; cc_email := None; cc_cloud_url := None; cc_encryption_key := None;
     cc_auto_sync := false; cc_last_auto_sync := None |}.

Class CloudJson := {
  cloud_from_str : string -> option CloudConfig;
  cloud_to_string_pretty : CloudConfig -> result string string;
}.

Class CloudJsonRoundtrip `{CloudJson} := {
  cloud_roundtrip c text : cloud_to_string_pretty c = Ok text -> cloud_from_str text = Some c /\ utf8 text;
}.

Record CloudStatus := { cs_connected : bool; cs_email : option string; cs_plan : string }.

Definition set_tokens (token refresh : option string) (c : CloudConfig) : CloudConfig :=
  {| cc_token := token; cc_refresh_token := refresh; cc_email := cc_email c; cc_cloud_url := cc_cloud_url c;
     cc_encryption_key := cc_encryption_key c; cc_auto_sync := cc_auto_sync c; cc_last_auto_sync := cc_last_auto_sync c |}.
Definition set_account (email cloud_url : option string) (c : CloudConfig) : CloudConfig :=
  {| cc_token := cc_token c; cc_refresh_token := cc_refresh_token c; cc_email := email; cc_cloud_url := cloud_url;
     cc_encryption_key := cc_encryption_key c; cc_auto_sync := cc_auto_sync c; cc_last_auto_sync := cc_last_auto_sync c |}.
Definition set_key (key : option string) (c : CloudConfig) : CloudConfig :=
  {| cc_token := cc_token c; cc_refresh_token := cc_refresh_token c; cc_email := cc_email c; cc_cloud_url := cc_cloud_url c;
     cc_encryption_key := key; cc_auto_sync := cc_auto_sync c; cc_last_auto_sync := cc_last_auto_sync c |}.
Definition set_sync (enabled : bool) (last : option string) (c : CloudConfig) : CloudConfig :=
  {| cc_token := cc_token c; cc_refresh_token := cc_refresh_token c; cc_email := cc_email c; cc_cloud_url := cc_cloud_url c;
     cc_encryption_key := cc_encryption_key c; cc_auto_sync := enabled; cc_last_auto_sync := last |}.

(** How the program security ends: it cannot be started, it fails, or it does what it is
    asked to. *)
Inductive Security := NotStarted (e : string) | Failed (stderr : string) | Done.

Record CloudIo := {
  ci_files : Io;
  kc_add : string -> Security;
  kc_delete : string -> Security;
  kc_find : string -> Security;
  json_error : list byte -> string;
}.

Record CloudHost `{Http} := {
  h_disk : Disk;
  h_keychain : gmap string string;
  h_net : Net;
  h_sent : list Request;
}.

Section Cloud.
Context `{SerdeJson, !Http, !JsonI64, Base64Crate, CloudJson} (io : CloudIo).

Definition set_disk (d : Disk) (w : CloudHost) : CloudHost := {| h_disk := d; h_keychain := h_keychain w; h_net := h_net w; h_sent := h_sent w |}.
Definition set_keychain (k : gmap string string) (w : CloudHost) : CloudHost := {| h_disk := h_disk w; h_keychain := k; h_net := h_net w; h_sent := h_sent w |}.

Definition send_request (r : Request) (w : CloudHost) : result Response string * CloudHost :=
  let '(resp, net) := http r (h_net w) in
  (resp, {| h_disk := h_disk w; h_keychain := h_keychain w; h_net := net; h_sent := h_sent w ++ [r] |}).

Definition is_success (r : Response) : bool := (200 <=? rs_status r) && (rs_status r <? 300).

(** [resp.json()] and [resp.text().await.unwrap_or_default()] *)
Definition response_json (r : Response) : result Value string :=
  match rs_body r with
  | Err e => Err e
  | Ok b => match value_from_slice b with Some v => Ok v | None => Err (json_error io b) end
  end.
Definition response_text (r : Response) : string := match rs_body r with Ok b => from_utf8_lossy b | Err _ => "" end.

(** [v[key].as_str()] *)
Definition str_at (v : Value) (key : string) : option string := get v key ≫= as_str.

(** ** The keychain *)

Definition keychain_delete (account : string) (w : CloudHost) : CloudHost :=
  match kc_delete io account with Done => set_keychain (delete account (h_keychain w)) w | _ => w end.

Definition keychain_set (account value : string) (w : CloudHost) : result unit string * CloudHost :=
  let w := keychain_delete account w in
  match kc_add io account with
  | NotStarted e => (Err ("keychain write: " +:+ e), w)
  | Failed stderr => (Err ("keychain save failed: " +:+ stderr), w)
  | Done => (Ok tt, set_keychain (<[account := value]> (h_keychain w)) w)
  end.

Definition keychain_get (account : string) (w : CloudHost) : option string :=
  match kc_find io account with Done => trim <$> h_keychain w !! account | _ => None end.

(** ** The configuration *)

Definition config_path : result string string :=
  match home (ci_files io) with Some h => Ok (path_join (path_join h ".clawcage") "cloud.json") | None => Err "HOME not set" end.

Definition load_config (w : CloudHost) : CloudConfig :=
  let config := default CloudConfig_default (
    p ← result_ok config_path;
    s ← result_ok (read_to_string (ci_files io) p (h_disk w));
    cloud_from_str s) in
  let config := match cc_token config with None => set_tokens (keychain_get "access-token" w) (cc_refresh_token config) config | Some _ => config end in
  match cc_refresh_token config with None => set_tokens (cc_token config) (keychain_get "refresh-token" w) config | Some _ => config end.

Definition save_config (config : CloudConfig) (w : CloudHost) : result unit string * CloudHost :=
  let w := match cc_token config with Some t => (keychain_set "access-token" t w).2 | None => w end in
  let w := match cc_refresh_token config with Some rt => (keychain_set "refresh-token" rt w).2 | None => w end in
  let safe := set_tokens None None config in
  match config_path with
  | Err e => (Err e, w)
  | Ok path =>
      match cloud_to_string_pretty safe with
      | Err e => (Err ("serialize: " +:+ e), w)
      | Ok data => let '(r, d) := write_file (ci_files io) path (bytes_of_string data) (h_disk w) in (context "write cloud config" r, set_disk d w)
      end
  end.

(** ** The access token *)

Definition as_i64_wrap (z : Z) : Z := as_uN 64 (z + 2 ^ 63) - 2 ^ 63.

Definition is_token_expired (now : Z) (token : string) : bool :=
  match split_char "." token with
  | [_; payload; _] =>
      match b64_url_decode payload with
      | None => true
      | Some bytes =>
          match value_from_slice bytes with
          | None => true
          | Some json => as_i64_wrap (default 0 (get json "exp" ≫= as_i64) - 60) <=? now
          end
      end
  | _ => true
  end.

Definition DEFAULT_CLOUD_URL : string := "https://clawcage-cloud.vercel.app".
Definition url_of (config : CloudConfig) : string := default DEFAULT_CLOUD_URL (cc_cloud_url config).

Definition refresh_request (url refresh_token : string) : Request :=
  {| rq_method := POST; rq_url := url +:+ "/api/token"; rq_bearer := None; rq_body := JsonBody (json_obj [("refresh_token", json_str refresh_token)]);
     rq_timeout := 10 |}.

(** The token, and the configuration as the call leaves it. *)
Definition get_valid_token (now : Z) (config : CloudConfig) (w : CloudHost) : result string string * CloudConfig * CloudHost :=
  match cc_token config with
  | None => (Err "not connected to cloud", config, w)
  | Some token =>
      if negb (is_token_expired now token) then (Ok token, config, w)
      else
        match cc_refresh_token config with
        | None => (Err "session expired — please sign in again", config, w)
        | Some refresh_token =>
            match send_request (refresh_request (url_of config) refresh_token) w with
            | (Err e, w) => (Err ("refresh request failed: " +:+ e), config, w)
            | (Ok resp, w) =>
                if negb (is_success resp) then (Err "session expired — please sign in again", config, w)
                else
                  match response_json resp with
                  | Err e => (Err ("parse refresh response: " +:+ e), config, w)
                  | Ok body =>
                      match str_at body "access_token" with
                      | None => (Err "missing access_token in refresh response", config, w)
                      | Some new_token =>
                          let config := set_tokens (Some new_token) (match str_at body "refresh_token" with Some rt => Some rt | None => cc_refresh_token config end) config in
                          match save_config config w with
                          | (Err e, w) => (Err e, config, w)
                          | (Ok _, w) => (Ok new_token, config, w)
                          end
                      end
                  end
            end
        end
  end.

(** ** The encryption key *)

(** A stored key that decodes to 32 bytes. *)
Definition key_of (b64 : string) : option (list byte) :=
  match b64_decode b64 with Ok bytes => if (length bytes =? 32)%nat then Some bytes else None | Err _ => None end.

Definition generate_key (fresh : list byte) (config : CloudConfig) (w : CloudHost) : result (list byte) string * CloudConfig * CloudHost :=
  let b64 := b64_encode fresh in
  let config := set_key (Some b64) config in
  match save_config config w with
  | (Err e, w) => (Err e, config, w)
  | (Ok _, w) => (Ok fresh, config, (keychain_set "encryption-key" b64 w).2)
  end.

(** [fresh] are the bytes of the random generator. *)
Definition get_or_create_key (fresh : list byte) (config : CloudConfig) (w : CloudHost) : result (list byte) string * CloudConfig * CloudHost :=
  match (b64 ← cc_encryption_key config; Some (b64_decode b64)) with
  | Some (Err e) => (Err ("decode key: " +:+ e), config, w)
  | stored =>
      match (b64 ← cc_encryption_key config; key_of b64) with
      | Some key => (Ok key, config, w)
      | None =>
          match (b64 ← keychain_get "encryption-key" w; key ← key_of b64; Some (b64, key)) with
          | Some (b64, key) =>
              let config := set_key (Some b64) config in
              match save_config config w with
              | (Err e, w) => (Err e, config, w)
              | (Ok _, w) => (Ok key, config, w)
              end
          | None => generate_key fresh config w
          end
      end
  end.

Context `{Aead}.

(** The nonce comes from the random generator. *)
Definition encrypt_bytes (nonce plaintext key : list byte) : result (list byte) string :=
  match aes_encrypt key nonce plaintext with Ok c => Ok (nonce ++ c) | Err e => Err ("encrypt: " +:+ e) end.

Definition decrypt_bytes (data key : list byte) : result (list byte) string :=
  if (length data <? 12)%nat then Err "encrypted data too short"
  else match aes_decrypt key (take 12 data) (drop 12 data) with Ok p => Ok p | Err e => Err ("decrypt: " +:+ e) end.

(** ** Commands *)

Definition cloud_connect (token : string) (email cloud_url : option string) (w : CloudHost) : result unit string * CloudHost :=
  let existing := load_config w in
  save_config (set_account email cloud_url (set_tokens (Some token) (cc_refresh_token existing) existing)) w.

Definition cloud_disconnect (w : CloudHost) : result unit string * CloudHost :=
  save_config CloudConfig_default (keychain_delete "refresh-token" (keychain_delete "access-token" w)).

Definition cloud_backup_key (w : CloudHost) : result unit string * CloudHost :=
  match cc_encryption_key (load_config w) with
  | None => (Err "no encryption key — sync an environment first", w)
  | Some key => keychain_set "encryption-key" key w
  end.

Definition cloud_export_key (w : CloudHost) : result string string :=
  match cc_encryption_key (load_config w) with Some k => Ok k | None => Err "no encryption key — sync an environment first" end.

Definition cloud_set_auto_sync (enabled : bool) (w : CloudHost) : result unit string * CloudHost :=
  let config := load_config w in save_config (set_sync enabled (cc_last_auto_sync config) config) w.

Definition cloud_get_auto_sync (w : CloudHost) : bool * option string := (cc_auto_sync (load_config w), cc_last_auto_sync (load_config w)).

Definition authorized (m : Method) (url token : string) (timeout : Z) (body : Body) : Request :=
  {| rq_method := m; rq_url := url; rq_bearer := Some token; rq_body := body; rq_timeout := timeout |}.

(** The commands that start with a valid token run [k] with it and the service's URL. *)
Definition with_token {A} (now : Z) (w : CloudHost) (k : string -> string -> CloudHost -> result A string * CloudHost) : result A string * CloudHost :=
  match get_valid_token now (load_config w) w with
  | (Err e, _, w) => (Err e, w)
  | (Ok token, config, w) => k token (url_of config) w
  end.

Definition check_plan (cloud_url token : string) (w : CloudHost) : string * CloudHost :=
  match send_request (authorized GET (cloud_url +:+ "/api/subscription") token 5 NoBody) w with
  | (Err _, w) => ("free", w)
  | (Ok r, w) =>
      if negb (is_success r) then ("free", w)
      else (default "free" (v ← result_ok (response_json r); str_at v "status"), w)
  end.

Definition cloud_list_snapshots (now : Z) (w : CloudHost) : result (list Value) string * CloudHost :=
  with_token now w (fun token url w =>
    match send_request (authorized GET (url +:+ "/api/snapshots") token 10 NoBody) w with
    | (Err e, w) => (Err ("fetch snapshots: " +:+ e), w)
    | (Ok r, w) =>
        if negb (is_success r) then (Ok [], w)
        else
          match response_json r with
          | Err e => (Err ("parse snapshots: " +:+ e), w)
          | Ok body => (Ok (default [] (get body "snapshots" ≫= as_array)), w)
          end
    end).

(** The URL to open, and the browser's answer as [open_error]. *)
Definition open_external (open_error : string -> option string) (what url : string) : result unit string :=
  match open_error url with Some e => Err (what +:+ ": " +:+ e) | None => Ok tt end.

Definition cloud_open_portal (open_error : string -> option string) (now : Z) (w : CloudHost) : result unit string * CloudHost :=
  with_token now w (fun token url w =>
    match send_request (authorized GET (url +:+ "/api/portal") token 10 NoBody) w with
    | (Err e, w) => (Err ("portal request: " +:+ e), w)
    | (Ok r, w) =>
        if negb (is_success r) then (Err "failed to get portal URL", w)
        else
          match response_json r with
          | Err e => (Err ("parse portal response: " +:+ e), w)
          | Ok body =>
              match str_at body "url" with
              | None => (Err "missing portal URL", w)
              | Some u => (open_external open_error "failed to open browser" u, w)
              end
          end
    end).

Definition cloud_status (now : Z) (w : CloudHost) : CloudStatus * CloudHost :=
  let config := load_config w in
  if match cc_token config with None => true | Some t => is_empty t end then ({| cs_connected := false; cs_email := None; cs_plan := "free" |}, w)
  else
    match get_valid_token now config w with
    | (Err _, config, w) => ({| cs_connected := false; cs_email := cc_email config; cs_plan := "free" |}, w)
    | (Ok token, config, w) =>
        let '(plan, w) := check_plan (url_of config) token w in
        ({| cs_connected := true; cs_email := cc_email config; cs_plan := plan |}, w)
    end.

(** *** Logging in *)

Context `{UrlEncoding}.

(** The loop over the pairs of a query: the first pair with the key decides. *)
Fixpoint find_param (key : string) (pairs : list string) : option string :=
  match pairs with
  | [] => None
  | kv :: pairs =>
      match split_once "=" kv with
      | None => if bool_decide (kv = key) then None else find_param key pairs
      | Some (k, v) => if bool_decide (k = key) then Some (default "" (url_decode v)) else find_param key pairs
      end
  end.

Definition extract_param (path key : string) : option string :=
  query ← split_char "?" path !! 1%nat;
  find_param key (split_char "&" query).

(** What the first connection to the callback sends. *)
Definition wait_for_callback (request : list byte) : result (string * string * string) string :=
  let first_line := default "" (lines (from_utf8_lossy request) !! 0%nat) in
  let path := default "" (split_whitespace first_line !! 1%nat) in
  match extract_param path "token" with
  | None => Err "missing token"
  | Some token => Ok (token, default "" (extract_param path "refresh_token"), default "" (extract_param path "email"))
  end.

(** How the wait for the callback ends. *)
Inductive Callback :=
| TimedOut
| AcceptFailed (e : string)
| Received (request : list byte).

Definition callback_result (c : Callback) : result (string * string * string) string :=
  match c with
  | TimedOut => Err "login timed out — try again"
  | AcceptFailed e => Err ("auth callback failed: " +:+ e)
  | Received request => match wait_for_callback request with Ok r => Ok r | Err e => Err ("auth callback failed: " +:+ e) end
  end.

Definition login_url (base_url : string) (port : Z) : string :=
  base_url +:+ "/connect?callback=" +:+ url_encode ("http://localhost:" +:+ show_Z port +:+ "/callback").

Definition cloud_login (cloud_url : option string) (listener : result Z string) (open_error : string -> option string) (c : Callback) (w : CloudHost)
    : result CloudStatus string * CloudHost :=
  let base_url := default DEFAULT_CLOUD_URL cloud_url in
  match (let? port := listener in
         let? _ := open_external open_error "failed to open browser" (login_url base_url port) in
         callback_result c) with
  | Err e => (Err e, w)
  | Ok (token, refresh_token, email) =>
      let config := load_config w in
      let config := set_tokens (Some token) (if is_empty refresh_token then cc_refresh_token config else Some refresh_token) config in
      match save_config (set_account (Some email) (Some base_url) config) w with
      | (Err e, w) => (Err ("save config: " +:+ e), w)
      | (Ok _, w) =>
          let '(plan, w) := check_plan base_url token w in
          (Ok {| cs_connected := true; cs_email := Some email; cs_plan := plan |}, w)
      end
  end.

End Cloud.

(** ** The key through sequences of commands *)

Inductive CloudOp :=
| Connect (token : string) (email cloud_url : option string)
| Login (cloud_url : option string) (listener : result Z string) (open_error : string -> option string) (c : Callback)
| Disconnect
| BackupKey
| SetAutoSync (enabled : bool)
| Status (now : Z)
| ListSnapshots (now : Z)
| GetKey (fresh : list byte).

Section Keys.
Context `{SerdeJson, !Http, !JsonI64, Base64Laws, CloudJsonRoundtrip, UrlEncoding} (io : CloudIo) (h : string).

Definition cloud_op (w : CloudHost) (op : CloudOp) : CloudHost :=
  match op with
  | Connect token email cloud_url => (cloud_connect io token email cloud_url w).2
  | Login cloud_url listener open_error c => (cloud_login io cloud_url listener open_error c w).2
  | Disconnect => (cloud_disconnect io w).2
  | BackupKey => (cloud_backup_key io w).2
  | SetAutoSync enabled => (cloud_set_auto_sync io enabled w).2
  | Status now => (cloud_status io now w).2
  | ListSnapshots now => (cloud_list_snapshots io now w).2
  | GetKey fresh => (get_or_create_key io fresh (load_config io w) w).2
  end.

(** The files and the keychain work. *)
Record cloud_works : Prop := {
  cw_home : home (ci_files io) = Some h;
  cw_read : forall p, read_error (ci_files io) p = None;
  cw_write : forall p, write_error (ci_files io) p = None;
  cw_add : forall a, kc_add io a = Done;
  cw_delete : forall a, kc_delete io a = Done;
  cw_find : forall a, kc_find io a = Done;
  cw_json : forall c, exists text, cloud_to_string_pretty c = Ok text;
}.
Hypothesis (Hio : cloud_works).

Notation stored w := (cc_encryption_key (load_config io w)).
Notation backup w := (h_keychain w !! "encryption-key").

Lemma keychain_set_works a v w : exists w', keychain_set io a v w = (Ok tt, w') /\ h_disk w' = h_disk w /\ h_keychain w' = <[a := v]> (delete a (h_keychain w)).
Proof. unfold keychain_set, keychain_delete. rewrite (cw_delete Hio), (cw_add Hio). by eexists. Qed.

Lemma load_key_disk w w' : h_disk w' = h_disk w -> stored w' = stored w.
Proof. intros Hd. unfold load_config. rewrite Hd. repeat case_match; cbn; by simplify_eq/=. Qed.

Lemma save_config_works c w : exists w', save_config io c w = (Ok tt, w') /\ stored w' = cc_encryption_key c /\ backup w' = backup w.
Proof.
  unfold save_config. set (w1 := match cc_token c with Some t => _ | None => w end).
  assert (backup w1 = backup w) as H1'.
  { subst w1. destruct (cc_token c) as [t|]; [|done]. destruct (keychain_set_works "access-token" t w) as (w' & -> & _ & Hk). cbn. by rewrite Hk, lookup_insert_ne, lookup_delete_ne. }
  set (w2 := match cc_refresh_token c with Some t => _ | None => w1 end).
  assert (backup w2 = backup w1) as H2'.
  { subst w2. destruct (cc_refresh_token c) as [t|]; [|done]. destruct (keychain_set_works "refresh-token" t w1) as (w' & -> & _ & Hk). cbn. by rewrite Hk, lookup_insert_ne, lookup_delete_ne. }
  clearbody w2. unfold config_path. rewrite (cw_home Hio). destruct (cw_json Hio (set_tokens None None c)) as [text Ht]. rewrite Ht.
  unfold write_file. rewrite (cw_write Hio). eexists. split; [done|]. split; [|cbn; congruence].
  unfold load_config, config_path. rewrite (cw_home Hio). cbn [result_ok mbind option_bind]. unfold read_to_string, read_file. rewrite (cw_read Hio).
  cbn [set_disk h_disk]. rewrite lookup_insert_eq. destruct (cloud_roundtrip _ text Ht) as [Hf Hu].
  assert (from_utf8 (bytes_of_string text) = Some text) as ->.
  { rewrite <- (string_of_bytes_of_string text) at 2. apply from_utf8_string_of_bytes. by rewrite string_of_bytes_of_string. }
  cbn [result_ok mbind option_bind]. rewrite Hf. cbn. by repeat case_match.
Qed.

Lemma send_disk r w : h_disk (send_request r w).2 = h_disk w /\ h_keychain (send_request r w).2 = h_keychain w.
Proof. unfold send_request. by destruct (http r (h_net w)). Qed.

(** A command keeps the backup, and the stored key or none. *)
Definition keeps (w w' : CloudHost) : Prop := backup w' = backup w /\ (stored w' = stored w \/ stored w' = None).

Lemma keeps_same w w' : h_disk w' = h_disk w -> h_keychain w' = h_keychain w -> keeps w w'.
Proof. intros Hd Hk. split; [by rewrite Hk|left; by apply load_key_disk]. Qed.

Lemma keeps_send r w : keeps w (send_request r w).2.
Proof. destruct (send_disk r w). by apply keeps_same. Qed.

Lemma keeps_trans a b c : keeps a b -> keeps b c -> keeps a c.
Proof. intros [H1' H2'] [H3' H4']. split; [congruence|]. destruct H4' as [->| ->]; [done|by right]. Qed.

Lemma keeps_save c w : cc_encryption_key c = stored w \/ cc_encryption_key c = None -> keeps w (save_config io c w).2.
Proof. intros Hc. destruct (save_config_works c w) as (w' & -> & Hs & Hb). split; [done|]. cbn. by rewrite Hs. Qed.

Lemma keeps_token now w : let '(_, config, w') := get_valid_token io now (load_config io w) w in keeps w w' /\ cc_encryption_key config = stored w.
Proof.
  unfold get_valid_token. set (config := load_config io w). assert (keeps w w) as Hrefl by (by apply keeps_same).
  destruct (cc_token config); [|done]. destruct (negb _); [done|]. destruct (cc_refresh_token config); [|done].
  pose proof (keeps_send (refresh_request (url_of config) s0) w) as Hs. destruct (send_request _ w) as [[resp|e] w1]; [|done]. cbn in Hs.
  destruct (negb _); [done|]. destruct (response_json io resp); [|done]. destruct (str_at a "access_token"); [|done].
  set (c := set_tokens _ _ config). destruct (save_config_works c w1) as (w2 & E & Hst & Hb). rewrite E. split; [|done].
  destruct Hs as [Hs _]. split; [by rewrite Hb|]. left. by rewrite Hst.
Qed.

Lemma keeps_plan url token w : keeps w (check_plan io url token w).2.
Proof.
  unfold check_plan. pose proof (keeps_send (authorized GET (url +:+ "/api/subscription") token 5 NoBody) w) as Hs.
  destruct (send_request _ w) as [[r|e] w1]; [|done]. by destruct (negb _).
Qed.

Lemma keeps_op w op : match op with GetKey _ => True | _ => match backup w with Some b => stored w = None \/ stored w = Some b | None => stored w = None end -> keeps w (cloud_op w op) end.
Proof.
  destruct op as [token email url|url listener oe c| | |b|now|now|fresh]; [..|done]; intros Hinv; cbn [cloud_op].
  - apply keeps_save. by left.
  - unfold cloud_login. destruct (let? port := listener in _) as [[[token rt] email]|e]; [|by apply keeps_same].
    match goal with |- context [save_config io ?c w] => pose proof (keeps_save c w ltac:(by left)) as Hs; destruct (save_config io c w) as [[[]|e] w1] end; [|done].
    pose proof (keeps_plan (default DEFAULT_CLOUD_URL url) token w1) as Hp. destruct (check_plan _ _ _ w1) as [plan w2]. by eapply keeps_trans.
  - unfold cloud_disconnect. set (w1 := keychain_delete _ _ _). destruct (save_config_works CloudConfig_default w1) as (w2 & -> & Hs & Hb).
    split; [|by right]. cbn [snd]. rewrite Hb. subst w1. unfold keychain_delete. rewrite !(cw_delete Hio). cbn. by rewrite !lookup_delete_ne.
  - unfold cloud_backup_key. destruct (stored w) as [k|] eqn:Hk; [|by apply keeps_same].
    destruct (keychain_set_works "encryption-key" k w) as (w' & -> & Hd & Hkc). split; cbn [snd].
    + rewrite Hkc, lookup_insert_eq. destruct (backup w); [destruct Hinv as [|Hinv]; congruence|done].
    + left. by apply load_key_disk.
  - apply keeps_save. by left.
  - unfold cloud_status. destruct (match cc_token _ with None => true | Some t => is_empty t end); [by apply keeps_same|].
    pose proof (keeps_token now w) as Ht. destruct (get_valid_token io now _ w) as [[[token|e] config] w1]; [|by destruct Ht].
    destruct Ht as [Ht _]. pose proof (keeps_plan (url_of config) token w1) as Hp. destruct (check_plan _ _ _ w1) as [plan w2]. by eapply keeps_trans.
  - unfold cloud_list_snapshots, with_token. pose proof (keeps_token now w) as Ht. destruct (get_valid_token io now _ w) as [[[token|e] config] w1]; [|by destruct Ht].
    destruct Ht as [Ht _]. eapply keeps_trans; [exact Ht|]. pose proof (keeps_send (authorized GET (url_of config +:+ "/api/snapshots") token 10 NoBody) w1) as Hs.
    destruct (send_request _ w1) as [[r|e] w2]; [|done]. destruct (negb _); [done|]. by destruct (response_json io r).
Qed.

(** The key in cloud.json, if there is one, is the one that was backed up. *)
Definition backed_up (w : CloudHost) : Prop :=
  match backup w with
  | Some b64 => tidy b64 /\ is_Some (key_of b64) /\ (stored w = None \/ stored w = Some b64)
  | None => stored w = None
  end.

Lemma keeps_backed_up w w' : backed_up w -> keeps w w' -> backed_up w'.
Proof.
  unfold backed_up. intros Hb [-> Hs]. destruct (backup w) as [b64|].
  - destruct Hb as (Ht & Hk & Hst). split; [done|]. split; [done|]. destruct Hs as [->| ->]; [done|by left].
  - destruct Hs as [->| ->]; done.
Qed.

Lemma get_key fresh w : backed_up w -> length fresh = 32%nat ->
  exists key c w' b64, get_or_create_key io fresh (load_config io w) w = (Ok key, c, w') /\ backed_up w' /\ backup w' = Some b64 /\ key_of b64 = Some key /\
    (forall b, backup w = Some b -> b = b64).
Proof.
  intros Hb Hf. unfold get_or_create_key. set (config := load_config io w) in *.
  assert (keychain_get io "encryption-key" w = trim <$> backup w) as -> by (unfold keychain_get; by rewrite (cw_find Hio)).
  unfold backed_up in Hb. fold config in Hb. destruct (backup w) as [b64|] eqn:Hbk.
  - destruct Hb as (Ht & [key Hk] & Hs). pose proof Hk as Hk'. unfold key_of in Hk'. destruct (b64_decode b64) as [bytes|] eqn:Hd; [|done].
    destruct Hs as [Hs|Hs]; rewrite Hs; cbn [mbind option_bind].
    + cbn [fmap option_fmap option_map mbind option_bind]. rewrite trim_tidy, Hk by done. cbn [mbind option_bind].
      destruct (save_config_works (set_key (Some b64) config) w) as (w' & -> & Hst & Hbw). eexists key, _, w', b64. split; [done|].
      rewrite Hbk in Hbw. split; [|split; [done|split; [done|congruence]]]. unfold backed_up. rewrite Hbw. split; [done|]. split; [by exists key|]. by right.
    + rewrite Hd, Hk. eexists key, _, w, b64. split; [done|]. split; [|split; [done|split; [done|congruence]]].
      unfold backed_up. rewrite Hbk. split; [done|]. split; [by exists key|]. by right.
  - rewrite Hb. cbn [mbind option_bind fmap option_fmap option_map]. unfold generate_key.
    destruct (save_config_works (set_key (Some (b64_encode fresh)) config) w) as (w1 & -> & Hst & Hbw).
    destruct (keychain_set_works "encryption-key" (b64_encode fresh) w1) as (w2 & -> & Hd2 & Hk2).
    assert (backup w2 = Some (b64_encode fresh)) as Hb2 by (by rewrite Hk2, lookup_insert_eq).
    assert (key_of (b64_encode fresh) = Some fresh) as Hkey by (unfold key_of; by rewrite b64_roundtrip, Hf).
    exists fresh. eexists _, w2, (b64_encode fresh). split; [done|]. split; [|by split].
    unfold backed_up. rewrite Hb2. split; [apply b64_tidy; by intros ->|]. split; [by exists fresh|]. right. by rewrite (load_key_disk w1 w2 Hd2).
Qed.

Lemma op_keeps_key w op : (forall fresh, op = GetKey fresh -> length fresh = 32%nat) -> backed_up w ->
  backed_up (cloud_op w op) /\ (forall b, backup w = Some b -> backup (cloud_op w op) = Some b).
Proof.
  intros Hf Hb. destruct (match op with GetKey f => Some f | _ => None end) as [fresh|] eqn:Hop.
  - destruct op; try done. injection Hop as ->. destruct (get_key fresh w Hb (Hf _ eq_refl)) as (key & c & w' & b64 & E & Hb' & Hbk & _ & Hsame).
    cbn [cloud_op]. rewrite E. split; [done|]. intros b Hbw. cbn [snd]. rewrite Hbk. f_equal. symmetry. by apply Hsame.
  - assert (keeps w (cloud_op w op)) as Hk.
    { pose proof (keeps_op w op) as Hk. destruct op; try done; (apply Hk; unfold backed_up in Hb; destruct (backup w); [by destruct Hb as (_ & _ & ?)|done]). }
    split; [by eapply keeps_backed_up|]. intros b Hbw. destruct Hk as [-> _]. done.
Qed.

(** C29: As long as the keychain works the encryption key never changes: after any sequence of
    connecting, logging in, disconnecting and the other commands, the key of the next
    synchronisation is the key of the first one. *)
Theorem key_kept (fresh fresh' : list byte) (w : CloudHost) (ops : list CloudOp) (Hb : backed_up w) (Hf : length fresh = 32%nat) (Hf' : length fresh' = 32%nat)
    (Hops : forall f, GetKey f ∈ ops -> length f = 32%nat) :
  exists key c1 w1 c2 w2, get_or_create_key io fresh (load_config io w) w = (Ok key, c1, w1) /\
    let w1' := foldl cloud_op w1 ops in get_or_create_key io fresh' (load_config io w1') w1' = (Ok key, c2, w2).
Proof.
  destruct (get_key fresh w Hb Hf) as (key & c1 & w1 & b64 & E1 & Hb1 & Hbk & Hkey & _).
  assert (backed_up (foldl cloud_op w1 ops) /\ backup (foldl cloud_op w1 ops) = Some b64) as [Hb2 Hbk2].
  { clear E1 Hb. revert w1 Hb1 Hbk. induction ops as [|op ops IH]; intros w1 Hb1 Hbk; [done|]. cbn [foldl].
    destruct (op_keeps_key w1 op) as [Hb' Hbk']; [intros f ->; apply Hops; left|done|]. apply IH; [intros f Hin; apply Hops; by right|done|by apply Hbk']. }
  destruct (get_key fresh' _ Hb2 Hf') as (key2 & c2 & w2 & b2 & E2 & _ & _ & Hkey2 & Hsame). specialize (Hsame b64 Hbk2). subst b2.
  exists key, c1, w1, c2, w2. split; [done|]. cbv zeta. rewrite E2. congruence.
Qed.

End Keys.

(** ** A host to run on *)

Module Demo.

Definition hex (b : byte) : string :=
  String (SessionTime.digit_char (byte_to_Z b / 16)) (String (SessionTime.digit_char (byte_to_Z b mod 16)) "").

Fixpoint unhex (s : string) : result (list byte) string :=
  match s with
  | EmptyString => Ok []
  | String a (String b s) =>
      match digit_val 16 a, digit_val 16 b with
      | Some x, Some y => let? l := unhex s in Ok (byte_of_Z (x * 16 + y) :: l)
      | _, _ => Err "invalid digit"
      end
  | _ => Err "odd length"
  end.

#[global] Instance crate : Base64Crate := {| b64_encode l := sconcat (map hex l); b64_decode := unhex; b64_url_decode s := result_ok (unhex s) |}.

Lemma hex_graphic b : all_chars graphic (hex b) = true.
Proof. by destruct b. Qed.

Lemma unhex_hex b s : unhex (hex b +:+ s) = let? l := unhex s in Ok (b :: l).
Proof. by destruct b. Qed.

#[global] Instance crate_ok : Base64Laws.
Proof.
  constructor.
  - intros bytes. cbn. induction bytes as [|b bytes IH]; [done|]. cbn [map sconcat]. rewrite unhex_hex, IH. done.
  - intros [|b bytes] Hb; [done|]. cbn. apply tidy_graphic; [|by destruct b]. change (all_chars graphic (sconcat (map hex (b :: bytes))) = true).
    clear Hb. induction (b :: bytes) as [|x l IH]; [done|]. cbn [map sconcat]. by rewrite all_chars_app, hex_graphic.
Qed.

Definition fields (c : CloudConfig) :=
  (cc_token c, cc_refresh_token c, cc_email c, cc_cloud_url c, cc_encryption_key c, cc_auto_sync c, cc_last_auto_sync c).

#[global] Instance config_eq_dec : EqDecision CloudConfig.
Proof. solve_decision. Defined.

#[global] Instance config_countable : Countable CloudConfig.
Proof.
  apply (inj_countable' fields (fun f => let '(a, b, c, d, e, f, g) := f in
    {| cc_token := a; cc_refresh_token := b; cc_email := c; cc_cloud_url := d; cc_encryption_key := e; cc_auto_sync := f; cc_last_auto_sync := g |})).
  by intros [].
Defined.

#[global] Instance json : CloudJson := {|
  cloud_from_str s := decode (VenvStore.Demo.text_bits s);
  cloud_to_string_pretty c := Ok (VenvStore.Demo.bits_text (encode c));
|}.

#[global] Instance json_ok : CloudJsonRoundtrip.
Proof.
  constructor. intros c text [= <-]. cbn. rewrite VenvStore.Demo.text_bits_text, decode_encode. split; [done|].
  apply utf8_ascii, VenvStore.Demo.bits_text_ascii.
Qed.

#[local] Existing Instance tree_json.
#[local] Instance i64 : JsonI64 := fun v => match v with JNum z => Some z | _ => None end.
#[global] Instance url : UrlEncoding := {| url_encode s := s; url_decode s := Some s |}.

(** A network that answers with a list of responses. *)
#[local] Instance scripted : Http := {|
  Net := list (result Response string);
  http _ net := match net with [] => (Err "connection refused", []) | r :: net => (r, net) end;
|}.

Definition io (add : string -> Security) : CloudIo :=
  {| ci_files := VenvStore.Demo.io; kc_add := add; kc_delete _ := Done; kc_find _ := Done; json_error _ := "expected value" |}.

Definition working : CloudIo := io (fun _ => Done).

Lemma working_works : cloud_works working "/h".
Proof. constructor; try done. intros c. by eexists. Qed.

Definition empty : CloudHost := {| h_disk := ∅; h_keychain := ∅; h_net := ([] : Net); h_sent := [] |}.

Definition key1 : list byte := replicate 32 x41.
Definition key2 : list byte := replicate 32 x42.

(** The keychain refuses the backup of the first key, which is ignored; a disconnect clears
    cloud.json, and the next synchronisation makes another key. *)
Definition refusing : CloudIo := io (fun a => if bool_decide (a = "encryption-key") then Failed "denied" else Done).

Example key_lost :
  let '(k1, _, w) := get_or_create_key refusing key1 (load_config refusing empty) empty in
  let w := (cloud_disconnect refusing w).2 in
  let '(k2, _, _) := get_or_create_key refusing key2 (load_config refusing w) w in
  k1 = Ok key1 /\ k2 = Ok key2.
Proof. vm_compute. split; reflexivity. Qed.

(** Signing in again without a refresh token keeps the one of the previous account. *)
Example stale_refresh_token :
  let w := (cloud_connect working "a" (Some "ann") None (set_keychain {["refresh-token" := "bob's"]} empty)).2 in
  (cc_token (load_config working w), cc_email (load_config working w), cc_refresh_token (load_config working w)) = (Some "a", Some "ann", Some "bob's").
Proof. vm_compute. reflexivity. Qed.

(** A parameter without a value hides a later one with a value. *)
Example parameter_order :
  extract_param "/callback?token&token=t" "token" = None /\ extract_param "/callback?email=e&token=t" "token" = Some "t".
Proof. vm_compute. split; reflexivity. Qed.

End Demo.

#[local] Existing Instance tree_json.
#[local] Existing Instance Demo.i64.
#[local] Existing Instance Demo.scripted.

Lemma key_kept_witness :
  exists key c1 w1 c2 w2, get_or_create_key Demo.working Demo.key1 (load_config Demo.working Demo.empty) Demo.empty = (Ok key, c1, w1) /\
    let w := cloud_op Demo.working w1 Disconnect in get_or_create_key Demo.working Demo.key2 (load_config Demo.working w) w = (Ok key, c2, w2).
Proof.
  apply (key_kept Demo.working "/h" Demo.working_works Demo.key1 Demo.key2 Demo.empty [Disconnect]); try reflexivity.
  intros f Hin. apply list_elem_of_singleton in Hin. discriminate.
Defined.
