(* ===== verification/CloudSync.v ===== *)
(** Synchronising venvs with the cloud, crates/clawcage-app/src/cloud.rs: [cloud_sync_venv],
    [cloud_restore_snapshot] and the automatic synchronisation.

    What leaves the machine is encrypted with the local key ([uploads_encrypted]), and a
    restored venv has the files and the settings it had when it was synchronised
    ([synced_venv_restored]). *)

From Stdlib Require Import ZArith Lia Strings.Byte Ascii.
From stdpp Require Import base numbers list gmap strings.
From S2P Require Import Prelude RustStr RustText Utf8 Paths VenvStore Archives Snapshots Events CloudTime Cloud.

Record SyncIo := {
  sy_cloud : CloudIo;
  sy_snap : SnapIo;
  temp_dir : string;
  status_text : Z -> string;
}.

(** What a call meets: the time in seconds and as text, and the random bytes. *)
Record SyncInput := {
  si_now : Z;
  si_now_iso : string;
  si_fresh_key : list byte;
  si_nonce : list byte;
}.

Section Sync.
Context `{SerdeJson, !Http, !JsonI64, Base64Crate, CloudJson, Aead, VenvJson, Tools, TarZst, ManifestJson} (io : SyncIo) (version : string).

(** The token, the URL of the service and the key every transfer starts with. *)
Definition open_session (i : SyncInput) (w : CloudHost) : result (string * string * list byte) string * CloudHost :=
  match get_valid_token (sy_cloud io) (si_now i) (load_config (sy_cloud io) w) w with
  | (Err e, _, w) => (Err e, w)
  | (Ok token, config, w) =>
      match get_or_create_key (sy_cloud io) (si_fresh_key i) config w with
      | (Err e, _, w) => (Err e, w)
      | (Ok key, config, w) => (Ok (token, url_of config, key), w)
      end
  end.

(** *** Compressing *)

Definition sync_manifest (now : string) (venv : VenvInfo) : SnapshotManifest :=
  {| sm_version := 1; sm_name := vn_name venv; sm_template := vn_template venv; sm_ephemeral := vn_ephemeral venv; sm_created_at := vn_created_at venv;
     sm_snapshot_at := now; sm_scratch_disk_logical_size_gb := 16; sm_disk_used_kb := 0; sm_icon := vn_icon venv; sm_clawcage_version := version |}.

Definition sync_tmp (venv_id : string) : string := path_join (temp_dir io) ("clawcage-sync-" +:+ venv_id +:+ ".clawcage").

Definition compress (venv_id : string) (i : SyncInput) (d : Disk) : result VenvInfo string * Disk :=
  match (let? venvs := load_venvs (sy_snap io) d in
         let? venv := match list_find_first (VenvStore.has_id venv_id) venvs with Some v => Ok v | None => Err "venv not found" end in
         let? dir := venv_data_dir (sy_snap io) venv_id in Ok (venv, dir)) with
  | Err e => (Err e, d)
  | Ok (venv, dir) =>
      let '(r, d) := create_archive (sy_snap io) dir (sync_manifest (si_now_iso i) venv) (sync_tmp venv_id) d in
      ((let? _ := r in Ok venv), d)
  end.

(** *** Uploading *)

Definition CHUNK_SIZE : nat := 256 * 1024.

(** The stream of the upload, from an offset on. *)
Fixpoint upload_chunks (fuel offset : nat) (data : list byte) : list (list byte) :=
  match fuel with
  | O => []
  | S fuel =>
      if (length data <=? offset)%nat then []
      else
        let end_ := Nat.min (offset + CHUNK_SIZE) (length data) in
        take (end_ - offset) (drop offset data) :: upload_chunks fuel end_ data
  end.

Definition upload_stream (data : list byte) : list (list byte) := upload_chunks (length data) 0 data.

Definition prepare_json (v : VenvInfo) (size : Z) : Value :=
  json_obj [("action", json_str "prepare"); ("venv_name", json_str (vn_name v)); ("venv_template", json_str (vn_template v));
            ("file_size_bytes", json_num size); ("encrypted", json_bool true)].

Definition confirm_json (v : VenvInfo) (size : Z) (path : string) : Value :=
  json_obj [("action", json_str "confirm"); ("venv_name", json_str (vn_name v)); ("venv_template", json_str (vn_template v));
            ("file_size_bytes", json_num size); ("encrypted", json_bool true); ("path", json_str path)].

(** A request whose failure is reported with the body of the response. *)
Definition checked (what_send what_status : string) (r : Request) (w : CloudHost) : result Response string * CloudHost :=
  match send_request r w with
  | (Err e, w) => (Err (what_send +:+ ": " +:+ e), w)
  | (Ok resp, w) => if is_success resp then (Ok resp, w) else (Err (what_status +:+ ": " +:+ response_text resp), w)
  end.

(** The URL to upload to, and the path in the store. *)
Definition prepare_upload (url token : string) (v : VenvInfo) (size : Z) (w : CloudHost) : result (string * string) string * CloudHost :=
  match checked "cloud API error" "cloud API error" (authorized POST (url +:+ "/api/snapshots") token 30 (JsonBody (prepare_json v size))) w with
  | (Err e, w) => (Err e, w)
  | (Ok resp, w) =>
      match response_json (sy_cloud io) resp with
      | Err e => (Err ("parse response: " +:+ e), w)
      | Ok info =>
          match str_at info "upload_url" with
          | None => (Err "missing upload_url in response", w)
          | Some upload_url => (Ok (upload_url, default "" (str_at info "path")), w)
          end
      end
  end.

Definition upload_request (upload_url : string) (data : list byte) : Request :=
  {| rq_method := PUT; rq_url := upload_url; rq_bearer := None; rq_body := BytesBody (concat (upload_stream data)); rq_timeout := 600 |}.

Definition upload (url token : string) (v : VenvInfo) (data : list byte) (w : CloudHost) : result unit string * CloudHost :=
  let size := Z.of_nat (length data) in
  match prepare_upload url token v size w with
  | (Err e, w) => (Err e, w)
  | (Ok (upload_url, path), w) =>
      match checked "upload error" "upload failed" (upload_request upload_url data) w with
      | (Err e, w) => (Err e, w)
      | (Ok _, w) =>
          match checked "confirm error" "confirm failed" (authorized POST (url +:+ "/api/snapshots") token 30 (JsonBody (confirm_json v size path))) w with
          | (Err e, w) => (Err e, w)
          | (Ok _, w) => (Ok tt, w)
          end
      end
  end.

Definition cloud_sync_venv (venv_id : string) (i : SyncInput) (running : gset string) (w : CloudHost) : result unit string * CloudHost :=
  if bool_decide (venv_id ∈ running) then (Err "stop the environment before syncing to cloud", w)
  else
    match open_session i w with
    | (Err e, w) => (Err e, w)
    | (Ok (token, url, key), w) =>
        match compress venv_id i (h_disk w) with
        | (Err e, d) => (Err e, set_disk d w)
        | (Ok venv, d) =>
            match read_file (sy_snap io) (sync_tmp venv_id) d with
            | Err e => (Err ("read archive: " +:+ e), set_disk d w)
            | Ok plaintext =>
                let w := set_disk (remove_file (sy_snap io) (sync_tmp venv_id) d) w in
                match encrypt_bytes (si_nonce i) plaintext key with
                | Err e => (Err e, w)
                | Ok encrypted => upload url token venv encrypted w
                end
            end
        end
    end.

(** *** Restoring *)

(** The key, the name of the snapshot, whether it is encrypted, and its bytes. *)
Definition fetch_snapshot (snapshot_id : string) (i : SyncInput) (w : CloudHost) : result (list byte * string * bool * list byte) string * CloudHost :=
  match open_session i w with
  | (Err e, w) => (Err e, w)
  | (Ok (token, url, key), w) =>
      match checked "get download URL" "cloud API error" (authorized GET (url +:+ "/api/snapshots/" +:+ snapshot_id) token 10 NoBody) w with
      | (Err e, w) => (Err e, w)
      | (Ok resp, w) =>
          match response_json (sy_cloud io) resp with
          | Err e => (Err ("parse response: " +:+ e), w)
          | Ok info =>
              match str_at info "download_url" with
              | None => (Err "missing download_url", w)
              | Some download_url =>
                  let snapshot := get info "snapshot" in
                  let venv_name := default "restored" (snapshot ≫= fun s => str_at s "venv_name") in
                  let encrypted := default false (snapshot ≫= fun s => get s "encrypted" ≫= as_bool) in
                  match send_request {| rq_method := GET; rq_url := download_url; rq_bearer := None; rq_body := NoBody; rq_timeout := 600 |} w with
                  | (Err e, w) => (Err ("download error: " +:+ e), w)
                  | (Ok dl, w) =>
                      if negb (is_success dl) then (Err ("download failed: " +:+ status_text io (rs_status dl)), w)
                      else
                        match rs_body dl with
                        | Err e => (Err ("read download: " +:+ e), w)
                        | Ok data => (Ok (key, venv_name, encrypted, data), w)
                        end
                  end
              end
          end
      end
  end.

Definition restore_tmp (snapshot_id : string) : string := path_join (temp_dir io) ("clawcage-restore-" +:+ snapshot_id +:+ ".clawcage").

(** [ts] is the time in milliseconds the new venv gets its id from. *)
Definition cloud_restore_snapshot (snapshot_id : string) (ts : Z) (i : SyncInput) (w : CloudHost) : result VenvInfoResponse string * CloudHost :=
  match fetch_snapshot snapshot_id i w with
  | (Err e, w) => (Err e, w)
  | (Ok (key, venv_name, encrypted, data), w) =>
      match (if encrypted then decrypt_bytes data key else Ok data) with
      | Err e => (Err e, w)
      | Ok archive_bytes =>
          let tmp := restore_tmp snapshot_id in
          match write_file (sy_snap io) tmp archive_bytes (h_disk w) with
          | (Err e, d) => (Err ("write temp file: " +:+ e), set_disk d w)
          | (Ok _, d) =>
              match import_venv (sy_snap io) ts (si_now_iso i) tmp (Some venv_name) d with
              | (Err e, d, _) => (Err e, set_disk d w)
              | (Ok resp, d, _) => (Ok resp, set_disk (remove_file (sy_snap io) tmp d) w)
              end
          end
      end
  end.

(** *** Automatic synchronisation *)

(** The stopped venvs, each with what its call meets. *)
Fixpoint sync_all (vs : list (VenvInfo * (SyncInput * gset string))) (w : CloudHost) : nat * CloudHost :=
  match vs with
  | [] => (0%nat, w)
  | (v, (i, running)) :: vs =>
      let '(r, w) := cloud_sync_venv (vn_id v) i running w in
      let '(synced, w) := sync_all vs w in
      (if is_ok r then S synced else synced, w)
  end.

(** One round of the loop of [start_auto_sync], 300 seconds after the last one. [inputs] has
    what the call for each venv meets, [finished] is the time when the last one returned. *)
Definition auto_sync_round (now : Z) (running : gset string) (inputs : VenvInfo -> SyncInput * gset string) (finished : string) (w : CloudHost) : CloudHost :=
  let config := load_config (sy_cloud io) w in
  if negb (cc_auto_sync config) || negb (bool_decide (is_Some (cc_token config))) then w
  else if negb (should_sync now (cc_last_auto_sync config)) then w
  else
    match load_venvs (sy_snap io) (h_disk w) with
    | Err _ => w
    | Ok venvs =>
        let stopped := List.filter (fun v => negb (bool_decide (vn_id v ∈ running))) venvs in
        let '(synced, w) := sync_all (map (fun v => (v, inputs v)) stopped) w in
        if (0 <? synced)%nat then
          let config := load_config (sy_cloud io) w in
          (save_config (sy_cloud io) (set_sync (cc_auto_sync config) (Some finished) config) w).2
        else w
    end.

End Sync.

(** ** The upload is the data, in chunks *)

Lemma chunk_size_pos : (0 < CHUNK_SIZE)%nat.
Proof. unfold CHUNK_SIZE. lia. Qed.

Lemma upload_chunks_concat data fuel offset : (length data - offset <= fuel)%nat -> concat (upload_chunks fuel offset data) = drop offset data.
Proof.
  pose proof chunk_size_pos as Hc. revert offset. induction fuel as [|fuel IH]; intros offset Hf; cbn [upload_chunks].
  - rewrite drop_ge by lia. done.
  - destruct (Nat.leb_spec (length data) offset); [by rewrite drop_ge by lia|]. cbn [concat]. rewrite IH by lia.
    set (n := (Nat.min (offset + CHUNK_SIZE) (length data) - offset)%nat).
    replace (Nat.min (offset + CHUNK_SIZE) (length data)) with (offset + n)%nat by (unfold n; lia). rewrite <- drop_drop. apply take_drop.
Qed.

Lemma upload_stream_exact data : concat (upload_stream data) = data.
Proof. unfold upload_stream. by rewrite upload_chunks_concat by lia. Qed.

Lemma upload_chunks_bound data fuel offset : Forall (fun c => (0 < length c <= CHUNK_SIZE)%nat) (upload_chunks fuel offset data).
Proof.
  pose proof chunk_size_pos as Hc. revert offset. induction fuel as [|fuel IH]; intros offset; cbn [upload_chunks]; [done|].
  destruct (Nat.leb_spec (length data) offset); [done|]. constructor; [|apply IH]. rewrite length_take, length_drop. lia.
Qed.

(** ** What is sent *)

Section Sent.
Context `{SerdeJson, !Http, !JsonI64, Base64Crate, CloudJson, Aead, VenvJson, Tools, TarZst, ManifestJson} (io : SyncIo) (version : string).

(** The requests sent from one state to another. *)
Definition sends (new : list Request) (w w' : CloudHost) : Prop := h_sent w' = h_sent w ++ new.

Lemma sends_nil w : sends [] w w.
Proof. unfold sends. by rewrite app_nil_r. Qed.

Lemma sends_app a b w1 w2 w3 : sends a w1 w2 -> sends b w2 w3 -> sends (a ++ b) w1 w3.
Proof. unfold sends. intros E1 ->. by rewrite E1, app_assoc. Qed.

Lemma send_sends r w : sends [r] w (send_request r w).2.
Proof. unfold send_request. destruct (http r (h_net w)). done. Qed.

Lemma checked_sends a b r w : sends [r] w (checked a b r w).2.
Proof. unfold checked. pose proof (send_sends r w) as Hs. destruct (send_request r w) as [[resp|e] w']; [|done]. by destruct (is_success resp). Qed.

Lemma keychain_set_sends cio a v w : h_sent (keychain_set cio a v w).2 = h_sent w.
Proof. unfold keychain_set, keychain_delete. destruct (kc_delete cio a), (kc_add cio a); done. Qed.

Lemma save_config_sends cio c w : h_sent (save_config cio c w).2 = h_sent w.
Proof.
  unfold save_config. set (w1 := match cc_token c with Some t => _ | None => w end).
  assert (h_sent w1 = h_sent w) as E1 by (subst w1; destruct (cc_token c); [apply keychain_set_sends|done]).
  set (w2 := match cc_refresh_token c with Some t => _ | None => w1 end).
  assert (h_sent w2 = h_sent w1) as E2 by (subst w2; destruct (cc_refresh_token c); [apply keychain_set_sends|done]).
  destruct (config_path cio); [|cbn; congruence]. destruct (cloud_to_string_pretty _); [|cbn; congruence].
  destruct (write_file _ _ _ _). cbn. congruence.
Qed.

(** A session sends at most the request that renews the token [refresh] of [c]. *)
Definition renews (c : CloudConfig) (new : list Request) : Prop :=
  new = [] \/ exists rt, cc_refresh_token c = Some rt /\
    new = [{| rq_method := POST; rq_url := url_of c +:+ "/api/token"; rq_bearer := None;
              rq_body := JsonBody (json_obj [("refresh_token", json_str rt)]); rq_timeout := 10 |}].

Lemma keychain_set_other cio a v b w : a <> b -> keychain_get cio b (keychain_set cio a v w).2 = keychain_get cio b w.
Proof.
  intros Hab. unfold keychain_get. destruct (kc_find cio b); [done..|]. f_equal. unfold keychain_set, keychain_delete.
  destruct (kc_delete cio a), (kc_add cio a); cbn; by rewrite ?lookup_insert_ne, ?lookup_delete_ne by done.
Qed.

Lemma save_config_backup cio c w : keychain_get cio "encryption-key" (save_config cio c w).2 = keychain_get cio "encryption-key" w.
Proof.
  unfold save_config. set (w1 := match cc_token c with Some t => _ | None => w end).
  assert (keychain_get cio "encryption-key" w1 = keychain_get cio "encryption-key" w) as E1
    by (subst w1; destruct (cc_token c); [by apply keychain_set_other|done]).
  set (w2 := match cc_refresh_token c with Some t => _ | None => w1 end).
  assert (keychain_get cio "encryption-key" w2 = keychain_get cio "encryption-key" w1) as E2
    by (subst w2; destruct (cc_refresh_token c); [by apply keychain_set_other|done]).
  destruct (config_path cio); [|cbn; congruence]. destruct (cloud_to_string_pretty _); [|cbn; congruence].
  destruct (write_file _ _ _ _). cbn. unfold keychain_get in *. cbn [set_disk h_keychain]. congruence.
Qed.

(** The token comes from the configuration or from the request; the service's URL and the
    key, in the configuration and in the keychain, stay. *)
Lemma token_result cio now c w : let '(r, c', w') := get_valid_token cio now c w in
  exists new, renews c new /\ sends new w w' /\ url_of c' = url_of c /\ cc_encryption_key c' = cc_encryption_key c /\
    keychain_get cio "encryption-key" w' = keychain_get cio "encryption-key" w /\
    forall t, r = Ok t -> new = [] -> cc_token c = Some t.
Proof.
  unfold get_valid_token. destruct (cc_token c) as [t|]; [|exists []; repeat split; try done; [by left|apply sends_nil]].
  destruct (negb _); [exists []; repeat split; try done; [by left|apply sends_nil|congruence]|].
  destruct (cc_refresh_token c) as [rt|] eqn:Hrt; [|exists []; repeat split; try done; [by left|apply sends_nil]].
  set (r := refresh_request (url_of c) rt). pose proof (send_sends r w) as Hs.
  assert (keychain_get cio "encryption-key" (send_request r w).2 = keychain_get cio "encryption-key" w) as Hk
    by (unfold send_request; by destruct (http r (h_net w))).
  assert (renews c [r]) as Hr by (right; by exists rt).
  destruct (send_request r w) as [[resp|e] w1]; cbn [snd] in *; [|by exists [r]]. destruct (negb _); [by exists [r]|].
  destruct (response_json cio resp); [|by exists [r]]. destruct (str_at a "access_token"); [|by exists [r]].
  match goal with |- context [save_config cio ?c ?w] =>
    pose proof (save_config_sends cio c w) as E; pose proof (save_config_backup cio c w) as B; destruct (save_config cio c w) as [[[]|e] w2] end;
    cbn in E, B |- *; exists [r]; unfold sends in *; rewrite E, B; done.
Qed.

Lemma generate_key_sends cio fresh c w : h_sent (generate_key cio fresh c w).2 = h_sent w.
Proof.
  unfold generate_key. pose proof (save_config_sends cio (set_key (Some (b64_encode fresh)) c) w) as E.
  destruct (save_config cio _ w) as [[[]|e] w2]; cbn in *; [|done]. by rewrite keychain_set_sends.
Qed.

(** The key: the one of the configuration, else the one of the keychain, else a new one. *)
Definition local_key (cio : CloudIo) (fresh : list byte) (c : CloudConfig) (w : CloudHost) : list byte :=
  match cc_encryption_key c ≫= key_of, keychain_get cio "encryption-key" w ≫= key_of with
  | Some key, _ => key
  | None, Some key => key
  | None, None => fresh
  end.

Lemma key_result cio fresh c w : let '(r, c', w') := get_or_create_key cio fresh c w in
  h_sent w' = h_sent w /\ url_of c' = url_of c /\ forall key, r = Ok key -> key = local_key cio fresh c w.
Proof.
  unfold get_or_create_key, local_key.
  assert (forall c0, url_of c0 = url_of c -> let '(r, c', w') :=
    match keychain_get cio "encryption-key" w ≫= (fun b64 => key ← key_of b64; Some (b64, key)) with
    | Some (b64, key) => match save_config cio (set_key (Some b64) c0) w with (Err e, w) => (Err e, set_key (Some b64) c0, w) | (Ok _, w) => (Ok key, set_key (Some b64) c0, w) end
    | None => generate_key cio fresh c0 w end in
    h_sent w' = h_sent w /\ url_of c' = url_of c /\
    forall key, r = Ok key -> key = match keychain_get cio "encryption-key" w ≫= key_of with Some key => key | None => fresh end) as Hrest.
  { intros c0 Hc0. destruct (keychain_get cio _ w) as [b64|]; cbn [mbind option_bind]; [destruct (key_of b64) as [key|]; cbn [mbind option_bind]|].
    - pose proof (save_config_sends cio (set_key (Some b64) c0) w) as E. destruct (save_config cio _ w) as [[[]|e] w2]; repeat split; try done; congruence.
    - pose proof (generate_key_sends cio fresh c0 w) as E. unfold generate_key in *. destruct (save_config cio _ w) as [[[]|e] w2]; repeat split; try done; congruence.
    - pose proof (generate_key_sends cio fresh c0 w) as E. unfold generate_key in *. destruct (save_config cio _ w) as [[[]|e] w2]; repeat split; try done; congruence. }
  destruct (cc_encryption_key c) as [b64|] eqn:Hk; cbn [mbind option_bind]; [|by apply Hrest].
  destruct (b64_decode b64) as [bytes|e]; [|done].
  destruct (key_of b64) as [key|]; [|by apply Hrest]. repeat split; congruence.
Qed.

(** A session: what it sends, and the URL and the key it ends with. *)
Lemma session_sends i w : let '(r, w') := open_session io i w in
  let config := load_config (sy_cloud io) w in
  exists new, renews config new /\ sends new w w' /\ forall token url key, r = Ok (token, url, key) ->
    url = url_of config /\ key = local_key (sy_cloud io) (si_fresh_key i) config w /\ (new = [] -> cc_token config = Some token).
Proof.
  unfold open_session. pose proof (token_result (sy_cloud io) (si_now i) (load_config (sy_cloud io) w) w) as Ht.
  destruct (get_valid_token _ _ _ w) as [[[t|e] c] w1]; destruct Ht as (new & Hn & Hs & Hu & Hk & Hb & Htok); [|by exists new].
  pose proof (key_result (sy_cloud io) (si_fresh_key i) c w1) as Hkey.
  destruct (get_or_create_key _ _ c w1) as [[[k|e] c'] w2]; destruct Hkey as (E & Hu' & Hkey); exists new;
    (split; [done|]); (split; [unfold sends in *; congruence|]); [|done]. intros token url key [= <- <- <-].
  split; [congruence|]. split; [rewrite (Hkey k eq_refl); unfold local_key; by rewrite Hk, Hb|]. intros Hnil. by apply Htok.
Qed.

(** The three requests of an upload: two calls with the name and the template of the venv
    and the size of the data, the data in between. *)
Definition snapshot_call (url token : string) (body : Value) : Request :=
  {| rq_method := POST; rq_url := url +:+ "/api/snapshots"; rq_bearer := Some token; rq_body := JsonBody body; rq_timeout := 30 |}.

Definition snapshot_fields (action : string) (v : VenvInfo) (data : list byte) : list (string * Value) :=
  [("action", json_str action); ("venv_name", json_str (vn_name v)); ("venv_template", json_str (vn_template v));
   ("file_size_bytes", json_num (Z.of_nat (length data))); ("encrypted", json_bool true)].

Definition put_data (upload_url : string) (data : list byte) : Request :=
  {| rq_method := PUT; rq_url := upload_url; rq_bearer := None; rq_body := BytesBody data; rq_timeout := 600 |}.

(** An upload as far as it came; the URL of the data and the path are the service's. *)
Inductive upload_sent (url token : string) (v : VenvInfo) (data : list byte) : bool -> list Request -> Prop :=
| SentPrepare : upload_sent url token v data false [snapshot_call url token (json_obj (snapshot_fields "prepare" v data))]
| SentData (w1 w2 : CloudHost) resp info upload_url :
    send_request (snapshot_call url token (json_obj (snapshot_fields "prepare" v data))) w1 = (Ok resp, w2) -> is_success resp = true ->
    response_json (sy_cloud io) resp = Ok info -> str_at info "upload_url" = Some upload_url ->
    upload_sent url token v data false [snapshot_call url token (json_obj (snapshot_fields "prepare" v data)); put_data upload_url data]
| SentConfirm (w1 w2 : CloudHost) resp info upload_url (ok : bool) :
    send_request (snapshot_call url token (json_obj (snapshot_fields "prepare" v data))) w1 = (Ok resp, w2) -> is_success resp = true ->
    response_json (sy_cloud io) resp = Ok info -> str_at info "upload_url" = Some upload_url ->
    upload_sent url token v data ok [snapshot_call url token (json_obj (snapshot_fields "prepare" v data)); put_data upload_url data;
      snapshot_call url token (json_obj (snapshot_fields "confirm" v data ++ [("path", json_str (default "" (str_at info "path")))]))].

Definition bodies (rs : list Request) : list (list byte) := omap (fun r => match rq_body r with BytesBody d => Some d | _ => None end) rs.

Lemma checked_ok a b r w resp w' : checked a b r w = (Ok resp, w') -> send_request r w = (Ok resp, w') /\ is_success resp = true.
Proof. unfold checked. destruct (send_request r w) as [[x|e] w1]; [|done]. destruct (is_success x) eqn:Hx; [|done]. by intros [= <- <-]. Qed.

Lemma upload_sends url token v data w : exists new, sends new w (upload io url token v data w).2 /\
  upload_sent url token v data (is_ok (upload io url token v data w).1) new.
Proof.
  unfold upload, prepare_upload. set (r1 := authorized POST _ _ _ _).
  pose proof (checked_sends "cloud API error" "cloud API error" r1 w) as S1.
  destruct (checked _ _ r1 w) as [[resp|e] w1] eqn:E1; [|by exists [r1]; split; [done|constructor]].
  apply checked_ok in E1 as [Hsend Hok].
  destruct (response_json _ resp) as [info|e] eqn:Hj; [|by exists [r1]; split; [done|constructor]].
  destruct (str_at info "upload_url") as [u|] eqn:Hu; [|by exists [r1]; split; [done|constructor]].
  set (r2 := upload_request u data). assert (r2 = put_data u data) as P2
    by (unfold r2, upload_request, put_data; by rewrite upload_stream_exact).
  pose proof (checked_sends "upload error" "upload failed" r2 w1) as S2. destruct (checked _ _ r2 w1) as [[resp2|e] w2]; cbn [snd] in S2.
  2:{ exists [r1; r2]. split; [exact (sends_app [r1] [r2] w w1 _ S1 S2)|]. rewrite P2. by eapply SentData. }
  match goal with |- context [JsonBody (confirm_json v ?n ?p)] => set (r3 := authorized POST _ _ _ (JsonBody (confirm_json v n p))) end.
  pose proof (checked_sends "confirm error" "confirm failed" r3 w2) as S3.
  exists [r1; r2; r3]. pose proof (sends_app [r1] [r2; r3] w w1 _ S1 (sends_app [r2] [r3] w1 w2 _ S2 S3)) as Hs.
  rewrite P2 in *. destruct (checked _ _ r3 w2) as [[resp3|e] w3]; (split; [exact Hs|]); by eapply SentConfirm.
Qed.

Lemma upload_bodies url token v data new : upload_sent url token v data true new -> bodies new = [data].
Proof. by inversion 1. Qed.

Lemma renews_bodies c new : renews c new -> bodies new = [].
Proof. by intros [->|(rt & _ & ->)]. Qed.

(** What a synchronisation that succeeds did. *)
Lemma sync_ok id i running w w' : cloud_sync_venv io version id i running w = (Ok tt, w') ->
  exists token url key w1 v d plaintext c, open_session io i w = (Ok (token, url, key), w1) /\ compress io version id i (h_disk w1) = (Ok v, d) /\
    d !! sync_tmp io id = Some plaintext /\ aes_encrypt key (si_nonce i) plaintext = Ok c /\
    bodies (drop (length (h_sent w)) (h_sent w')) = [si_nonce i ++ c].
Proof.
  unfold cloud_sync_venv. case_bool_decide; [done|]. pose proof (session_sends i w) as Hsession.
  destruct (open_session io i w) as [[[[token url] key]|e] w1] eqn:Ho; [|done]. destruct Hsession as (new & Hn & Hs & _).
  destruct (compress io version id i (h_disk w1)) as [[v|e] d] eqn:Hc; [|done].
  unfold read_file. destruct (read_error (sy_snap io) _); [done|]. destruct (d !! sync_tmp io id) as [plaintext|] eqn:Hd; [|done].
  unfold encrypt_bytes. destruct (aes_encrypt key (si_nonce i) plaintext) as [c|] eqn:He; [|done].
  set (w2 := set_disk _ w1). intros E. destruct (upload_sends url token v (si_nonce i ++ c) w2) as (new2 & Hs2 & Hb). rewrite E in Hs2, Hb.
  exists token, url, key, w1, v, d, plaintext, c. do 4 (split; [done|]). assert (h_sent w' = h_sent w ++ new ++ new2) as ->.
  { rewrite app_assoc. unfold sends in Hs, Hs2. cbn in Hs2. by rewrite Hs2, Hs. }
  rewrite drop_app_length. apply upload_bodies in Hb. unfold bodies in *. rewrite omap_app, Hb.
  pose proof (renews_bodies _ _ Hn) as Hnb. unfold bodies in Hnb. by rewrite Hnb.
Qed.

Lemma compress_ok id i d v d' : compress io version id i d = (Ok v, d') ->
  exists venvs dir, load_venvs (sy_snap io) d = Ok venvs /\ v ∈ venvs /\ vn_id v = id /\ venv_data_dir (sy_snap io) id = Ok dir /\
    create_archive (sy_snap io) dir (sync_manifest version (si_now_iso i) v) (sync_tmp io id) d = (Ok tt, d').
Proof.
  unfold compress. destruct (load_venvs _ _) as [vs|]; [|done]. destruct (list_find_first _ vs) as [v'|] eqn:Hf; [|done].
  destruct (venv_data_dir _ id) as [dir|]; [|done]. destruct (create_archive _ _ _ _ _) as [[[]|] d1] eqn:Hc; [|done]. intros [= -> ->].
  apply list_find_first_Some in Hf as [Hin Hf]. unfold VenvStore.has_id in Hf. apply bool_decide_eq_true in Hf. by exists vs, dir.
Qed.

(** C12: No file of a venv leaves the machine in clear. Whatever a synchronisation sends,
    with any answers of the service and also when it fails half way, is at most one request
    to the configured service for a new token, which carries the refresh token of the
    configuration, and then a start of the three requests of an upload: two calls of the
    configured service with the name and the template the venv has in the table and the
    size of what is uploaded (the second with the path the service answered), and between
    them, to the URL the service answered, a nonce and the archive of the venv's directory,
    encrypted with the local key (the one of the configuration, else of the keychain, else
    a new one). *)
Theorem uploads_encrypted (id : string) (i : SyncInput) (running : gset string) (w : CloudHost) :
  let config := load_config (sy_cloud io) w in
  let '(r, w') := cloud_sync_venv io version id i running w in
  exists refresh transfer, h_sent w' = h_sent w ++ refresh ++ transfer /\ renews config refresh /\
    (transfer = [] /\ is_ok r = false \/
     exists token venvs v dir d d' plaintext c,
       (refresh = [] -> cc_token config = Some token) /\
       d = h_disk (open_session io i w).2 /\ load_venvs (sy_snap io) d = Ok venvs /\ v ∈ venvs /\ vn_id v = id /\
       venv_data_dir (sy_snap io) id = Ok dir /\
       create_archive (sy_snap io) dir (sync_manifest version (si_now_iso i) v) (sync_tmp io id) d = (Ok tt, d') /\
       read_file (sy_snap io) (sync_tmp io id) d' = Ok plaintext /\
       aes_encrypt (local_key (sy_cloud io) (si_fresh_key i) config w) (si_nonce i) plaintext = Ok c /\
       upload_sent (url_of config) token v (si_nonce i ++ c) (is_ok r) transfer).
Proof.
  cbv zeta. unfold cloud_sync_venv. case_bool_decide.
  { exists [], []. split; [by rewrite !app_nil_r|]. split; [by left|]. by left. }
  pose proof (session_sends i w) as Hsession.
  destruct (open_session io i w) as [[[[token url] key]|e] w1] eqn:Ho; destruct Hsession as (new & Hn & Hs & Hkey); unfold sends in Hs.
  2:{ exists new, []. rewrite app_nil_r. split; [done|]. split; [done|]. by left. }
  destruct (Hkey token url key eq_refl) as (-> & -> & Htok). clear Hkey.
  assert (forall d, h_sent (set_disk d w1) = h_sent w ++ new ++ []) as Hstop by (intros d; by rewrite app_nil_r).
  destruct (compress io version id i (h_disk w1)) as [[v|e] d] eqn:Hc; [|exists new, []; by split; [|split; [|left]]].
  destruct (compress_ok _ _ _ _ _ Hc) as (venvs & dir & Hl & Hin & Hid & Hdir & Har).
  destruct (read_file _ _ d) as [plaintext|e] eqn:Hp; [|exists new, []; by split; [|split; [|left]]].
  unfold encrypt_bytes. destruct (aes_encrypt _ _ plaintext) as [c|e] eqn:He; [|exists new, []; by split; [|split; [|left]]].
  set (w2 := set_disk _ w1). destruct (upload_sends (url_of (load_config (sy_cloud io) w)) token v (si_nonce i ++ c) w2) as (new2 & Hs2 & Hu).
  destruct (upload io _ token v _ w2) as [r w']. cbn [fst snd] in *. exists new, new2. unfold sends in Hs2.
  split; [rewrite Hs2; cbn; by rewrite Hs, app_assoc|]. split; [done|]. right.
  by exists token, venvs, v, dir, (h_disk w1), d, plaintext, c.
Qed.

End Sent.

(** ** A venv comes back as it was *)

Lemma decrypt_encrypted `{AeadLaws} key nonce plain c : length nonce = 12%nat -> aes_encrypt key nonce plain = Ok c ->
  decrypt_bytes (nonce ++ c) key = Ok plain.
Proof.
  intros Hn He. unfold decrypt_bytes. rewrite length_app, Hn. destruct (Nat.ltb_spec (12 + length c) 12); [lia|].
  rewrite take_app_le, take_ge, drop_app_ge, Hn by lia. rewrite Nat.sub_diag, drop_0. by rewrite (aes_roundtrip key nonce plain c He).
Qed.

(** A temporary file of the cloud client is no file of a venv and not the table. *)
Lemma tmp_not_venv_file dir name : plain_name name = true ->
  (forall h, path_join dir (name +:+ ".clawcage") <> table_path h) /\
  (forall dir' n, n ∈ snapshot_files -> path_join dir (name +:+ ".clawcage") <> path_join dir' n /\ path_join dir (name +:+ ".clawcage") <> path_join dir' (tmp_name n)).
Proof.
  intros Hp. assert (plain_name (name +:+ ".clawcage") = true) as Hpl.
  { unfold plain_name in *. apply negb_true_iff in Hp. apply negb_true_iff. by rewrite contains_char_app, Hp. }
  assert (ends_with (path_join dir (name +:+ ".clawcage")) "e" = true) as He.
  { destruct (path_join_split dir) as (pre & _ & Hj). rewrite Hj by (by apply plain_not_absolute).
    by rewrite !ends_with_char by (by destruct name). }
  assert (forall dir' m, starts_with m "/" = false -> is_empty m = false -> ends_with m "e" = false -> path_join dir (name +:+ ".clawcage") <> path_join dir' m) as Hne.
  { intros dir' m Hs Hem Hm E. rewrite E in He. destruct (path_join_split dir') as (pre & _ & Hj). rewrite Hj in He by done.
    rewrite ends_with_char in He by (by intros ->). congruence. }
  split; [intros h; by apply Hne|]. intros dir' n Hn.
  assert (forall m, m ∈ snapshot_files -> (starts_with m "/" = false /\ is_empty m = false /\ ends_with m "e" = false) /\
    starts_with (tmp_name m) "/" = false /\ is_empty (tmp_name m) = false /\ ends_with (tmp_name m) "e" = false) as Hall.
  { apply Forall_forall. by repeat constructor. }
  destruct (Hall n Hn) as [(? & ? & ?) (? & ? & ?)]. split; by apply Hne.
Qed.

Section EndToEnd.
Context `{SerdeJson, !Http, !JsonI64, Base64Crate, CloudJson, AeadLaws, VenvJsonRoundtrip, ToolsLaws, TarZstLaws, ManifestJsonRoundtrip}.

(** C16: The archive a successful synchronisation uploaded, downloaded by a machine that has
    the same key, is restored as a new venv with the settings and the very files the venv
    had when it was synchronised. *)
Theorem synced_venv_restored (ioA ioB : SyncIo) (hA hB version id snapshot_id name : string) (iA iB : SyncInput) (running : gset string) (ts : Z)
    (key keyA : list byte) (tokenA urlA : string) (data : list byte) (wA wA1 wA' wB wB1 : CloudHost) (vsA vsB : list VenvInfo) (v : VenvInfo)
    (HioA : works (sy_snap ioA) hA) (HioB : works (sy_snap ioB) hB) (HqB : quiet (sy_snap ioB)) (Hdd : forall p n d e d', dd p n d <> (SpawnError e, d'))
    (Hid : plain_name id = true) (Hsid : plain_name snapshot_id = true) (Hnonce : length (si_nonce iA) = 12%nat)
    (Hsession : open_session ioA iA wA = (Ok (tokenA, urlA, keyA), wA1)) (Hload : load_venvs (sy_snap ioA) (h_disk wA1) = Ok vsA)
    (Hv : list_find_first (VenvStore.has_id id) vsA = Some v)
    (Hsync : cloud_sync_venv ioA version id iA running wA = (Ok tt, wA'))
    (Hdata : bodies (drop (length (h_sent wA)) (h_sent wA')) = [data])
    (Hfetch : fetch_snapshot ioB snapshot_id iB wB = (Ok (key, name, true, data), wB1)) (Hkey : key = keyA)
    (HloadB : load_venvs (sy_snap ioB) (h_disk wB1) = Ok vsB)
    (Hnew : forall n, n ∈ snapshot_files -> h_disk wB1 !! path_join (venv_dir hB (gen_id ts)) n = None) :
  exists resp wB', cloud_restore_snapshot ioB snapshot_id ts iB wB = (Ok resp, wB') /\
    vr_info resp = venv_record (gen_id ts) name (si_now_iso iB) (vn_ephemeral v) (vn_template v) (vn_icon v) /\
    load_venvs (sy_snap ioB) (h_disk wB') = Ok (vsB ++ [vr_info resp]) /\
    forall n, n ∈ snapshot_files -> h_disk wB' !! path_join (venv_dir hB (gen_id ts)) n = h_disk wA1 !! path_join (venv_dir hA id) n.
Proof.
  destruct (sync_ok ioA version id iA running wA wA' Hsync) as (t' & u' & k' & w1' & v' & d & plaintext & c & Ho & Hc & Hp & He & Hb).
  rewrite Hsession in Ho. injection Ho as <- <- <- <-. rewrite Hdata in Hb. injection Hb as ->. subst key.
  unfold compress in Hc. rewrite Hload, Hv, (data_dir (sy_snap ioA) hA HioA) in Hc. set (m := sync_manifest version (si_now_iso iA) v) in *.
  destruct (create_archive (sy_snap ioA) _ m (sync_tmp ioA id) (h_disk wA1)) as [[[]|e] d1] eqn:Hcreate; [|done]. injection Hc as <- <-.
  unfold cloud_restore_snapshot. rewrite Hfetch, (decrypt_encrypted keyA (si_nonce iA) plaintext c Hnonce He).
  unfold write_file. rewrite (q_write _ HqB). set (tmp := restore_tmp ioB snapshot_id). set (dB := <[tmp := plaintext]> (h_disk wB1)).
  assert (plain_name ("clawcage-restore-" +:+ snapshot_id) = true) as Hpr.
  { unfold plain_name in *. apply negb_true_iff in Hsid. apply negb_true_iff. by rewrite contains_char_app, Hsid. }
  destruct (tmp_not_venv_file (temp_dir ioB) ("clawcage-restore-" +:+ snapshot_id) Hpr) as [Htab Hfile].
  assert (tmp = path_join (temp_dir ioB) (("clawcage-restore-" +:+ snapshot_id) +:+ ".clawcage")) as Htmp by (unfold tmp, restore_tmp; by rewrite sapp_assoc).
  rewrite <- Htmp in Htab, Hfile.
  assert (path_file_name (sync_tmp ioA id) <> None) as Hname.
  { unfold sync_tmp. rewrite path_file_name_join; [done|]. unfold file_name_ok, plain_name in *. apply negb_true_iff in Hid.
    rewrite !contains_char_app, Hid. by rewrite bool_decide_false. }
  destruct (archive_imported (sy_snap ioA) (sy_snap ioB) hB (venv_dir hA id) (si_now_iso iB) (sync_tmp ioA id) tmp ts (Some name) m (h_disk wA1) d1 dB vsB)
    as (resp & d2 & ev & Hi & Hr & Hl & Hf); try done.
  - unfold dB. by rewrite lookup_insert_eq.
  - rewrite <- HloadB. apply (load_same_table (sy_snap ioB) hB HioB). unfold dB. apply lookup_insert_ne, Htab.
  - intros n Hn. unfold dB. rewrite lookup_insert_ne by (by apply Hfile). by apply Hnew.
  - rewrite Hi. eexists resp, _. split; [done|]. split; [exact Hr|]. cbn [set_disk h_disk].
    assert (forall p, p <> tmp -> remove_file (sy_snap ioB) tmp d2 !! p = d2 !! p) as Hrm.
    { intros p Hpt. unfold remove_file. destruct (cannot_remove _ tmp); [done|]. by rewrite lookup_delete_ne. }
    split.
    + rewrite <- Hl. apply (load_same_table (sy_snap ioB) hB HioB), Hrm, not_eq_sym, Htab.
    + intros n Hn. rewrite Hrm by (by apply not_eq_sym, Hfile). by apply Hf.
Qed.

End EndToEnd.

(** ** A venv synchronised on one machine and restored on another *)

Module Demo.

Definition responses : list (string * Json) :=
  [("exp", JObj [("exp", JNum 10000)]); ("prepare", JObj [("upload_url", JStr "https://store/1"); ("path", JStr "p")]);
   ("info", JObj [("download_url", JStr "https://store/1"); ("snapshot", JObj [("venv_name", JStr "dev"); ("encrypted", JBool true)])])].

#[local] Instance answers : SerdeJson := {|
  Value := Json;
  value_from_slice b := snd <$> list_find_first (fun kv => bool_decide (bytes_of_string kv.1 = b)) responses;
  get := @get tree_json; as_str := @as_str tree_json; as_u64 := @as_u64 tree_json; as_bool := @as_bool tree_json; as_array := @as_array tree_json;
  as_object := @as_object tree_json; json_to_string := @json_to_string tree_json; json_obj := JObj; json_arr := JArr; json_str := JStr;
  json_num := JNum; json_bool := JBool; json_null := JNull;
|}.

#[local] Instance i64 : JsonI64 := fun v => match v with JNum z => Some z | _ => None end.

#[local] Instance scripted : Http := {|
  Net := list (result Response string);
  http _ net := match net with [] => (Err "connection refused", []) | r :: net => (r, net) end;
|}.

(** A cipher that puts the key before the text, and checks it. *)
#[global] Instance cipher : Aead := {|
  aes_encrypt key nonce plain := Ok (key ++ plain);
  aes_decrypt key nonce c := if bool_decide (take (length key) c = key) then Ok (drop (length key) c) else Err "aead::Error";
|}.

#[global] Instance cipher_ok : AeadLaws.
Proof. constructor. intros key nonce plain c [= <-]. cbn. rewrite take_app_length, bool_decide_true by done. by rewrite drop_app_length. Qed.

Definition io : SyncIo := {| sy_cloud := Cloud.Demo.working; sy_snap := Archives.Demo.io; temp_dir := "/tmp"; status_text _ := "" |}.

Definition input (key : list byte) : SyncInput := {| si_now := 0; si_now_iso := "t9"; si_fresh_key := key; si_nonce := replicate 12 x07 |}.

Definition ok (body : string) : result Response string := Ok {| rs_status := 200; rs_body := Ok (bytes_of_string body) |}.

(** The token's payload is the text exp. *)
Definition first : CloudHost :=
  {| h_disk := Snapshots.Demo.disk; h_keychain := {["access-token" := "h.657870.s"]}; h_net := ([ok "prepare"; ok ""; ok ""] : Net); h_sent := [] |}.

Definition iA : SyncInput := input Cloud.Demo.key1.
Definition iB : SyncInput := input Cloud.Demo.key2.

Definition opened := open_session io iA first.
Definition synced := cloud_sync_venv io "0.8" "venv-fff" iA ∅ first.
Definition data : list byte := default [] (head (bodies (h_sent synced.2))).

(** The other machine has the keychain, but neither cloud.json nor the venv. *)
Definition second : CloudHost :=
  {| h_disk := ∅; h_keychain := h_keychain synced.2; h_net := ([ok "info"; Ok {| rs_status := 200; rs_body := Ok data |}] : Net); h_sent := [] |}.

Definition fetched := fetch_snapshot io "s1" iB second.

Lemma done_ok {A B} `{EqDecision A} (r : A * B) a : bool_decide (r.1 = a) = true -> r = (a, r.2).
Proof. intros E%bool_decide_eq_true. destruct r. cbn in *. by subst. Qed.
Lemma session_ok : opened = (Ok ("h.657870.s", DEFAULT_CLOUD_URL, Cloud.Demo.key1), opened.2).
Proof. apply done_ok. vm_compute. reflexivity. Qed.
Lemma sync_stored : load_venvs (sy_snap io) (h_disk opened.2) = Ok [Snapshots.Demo.venv].
Proof. vm_compute. reflexivity. Qed.
Lemma sync_done : synced = (Ok tt, synced.2).
Proof. apply done_ok. vm_compute. reflexivity. Qed.
Lemma one_body (l : list (list byte)) : length l = 1%nat -> l = [default [] (head l)].
Proof. by destruct l as [|x [|y l]]. Qed.
Lemma sent_data : bodies (drop (length (h_sent first)) (h_sent synced.2)) = [data].
Proof. change (drop _ _) with (h_sent synced.2). apply one_body. vm_compute. reflexivity. Qed.
Lemma fetch_ok : fetched = (Ok (Cloud.Demo.key1, "dev", true, data), fetched.2).
Proof. apply done_ok. vm_compute. reflexivity. Qed.
Lemma no_venvs : load_venvs (sy_snap io) (h_disk fetched.2) = Ok [].
Proof. vm_compute. reflexivity. Qed.
Lemma sync_fresh n : n ∈ snapshot_files -> h_disk fetched.2 !! path_join (venv_dir "/h" (gen_id 5000)) n = None.
Proof. apply Snapshots.Demo.snap_fresh. vm_compute. reflexivity. Qed.
Lemma sync_scratch : h_disk opened.2 !! path_join (venv_dir "/h" "venv-fff") "scratch.img" = Some [x41; x42].
Proof. vm_compute. reflexivity. Qed.

(** The service says that a snapshot is not encrypted: it is imported unchecked, and its
    names are not confined. *)
Definition forged_answers : list (string * Json) :=
  [("exp", JObj [("exp", JNum 10000)]); ("forged", JObj [("download_url", JStr "https://store/1"); ("snapshot", JObj [("encrypted", JBool false)])])].

#[local] Instance forger : SerdeJson := {|
  Value := Json;
  value_from_slice b := snd <$> list_find_first (fun kv => bool_decide (bytes_of_string kv.1 = b)) forged_answers;
  get := @get tree_json; as_str := @as_str tree_json; as_u64 := @as_u64 tree_json; as_bool := @as_bool tree_json; as_array := @as_array tree_json;
  as_object := @as_object tree_json; json_to_string := @json_to_string tree_json; json_obj := JObj; json_arr := JArr; json_str := JStr;
  json_num := JNum; json_bool := JBool; json_null := JNull;
|}.

#[local] Instance forger_i64 : JsonI64 := fun v => match v with JNum z => Some z | _ => None end.

#[local] Instance forger_net : Http := {|
  Net := list (result Response string);
  http _ net := match net with [] => (Err "connection refused", []) | r :: net => (r, net) end;
|}.

Example unencrypted_snapshot_imported :
  let w : CloudHost := {| h_disk := ∅; h_keychain := {["access-token" := "h.657870.s"]};
    h_net := ([ok "forged"; Ok {| rs_status := 200; rs_body := Ok (ar_pack [("/h/.bashrc", [x41])]) |}] : Net); h_sent := [] |} in
  h_disk (cloud_restore_snapshot io "s1" 5000 iB w).2 !! "/h/.bashrc" = Some [x41].
Proof. vm_compute. reflexivity. Qed.

End Demo.

Lemma synced_venv_restored_witness :
  exists resp w', @cloud_restore_snapshot Demo.answers Demo.scripted Demo.i64 _ _ _ _ _ _ _ Demo.io "s1" 5000 Demo.iB Demo.second = (Ok resp, w') /\
    vn_name (vr_info resp) = "dev" /\ h_disk w' !! path_join (venv_dir "/h" (gen_id 5000)) "scratch.img" = Some [x41; x42].
Proof.
  destruct (@synced_venv_restored Demo.answers Demo.scripted Demo.i64 _ _ _ _ _ _ _ _ _ _ _ _ Demo.io Demo.io "/h" "/h" "0.8" "venv-fff" "s1" "dev" Demo.iA Demo.iB ∅ 5000
    Cloud.Demo.key1 Cloud.Demo.key1 _ _ Demo.data Demo.first Demo.opened.2 Demo.synced.2 Demo.second Demo.fetched.2 [Snapshots.Demo.venv] [] Snapshots.Demo.venv
    VenvStore.Demo.io_works VenvStore.Demo.io_works Archives.Demo.io_quiet Archives.Demo.dd_runs eq_refl eq_refl eq_refl Demo.session_ok Demo.sync_stored Snapshots.Demo.snap_found
    Demo.sync_done Demo.sent_data Demo.fetch_ok eq_refl Demo.no_venvs Demo.sync_fresh) as (resp & w' & Hr & Hi & _ & Hf).
  exists resp, w'. split; [exact Hr|]. split; [rewrite Hi; reflexivity|]. rewrite (Hf "scratch.img"); [exact Demo.sync_scratch|left].
Defined.
