(* ===== verification/RemoteMode.v ===== *)
(** Venvs on a remote server: crates/clawcage-app/src/remote_mode.rs and the calls for
    remote sessions of cloud.rs.

    A venv is detached by copying its scratch disk to a server and reattached by copying it
    back; remote.json records the mode. The servers, ssh and the pipelines of the shell are
    the class [Remote]. A detach that succeeds leaves the venv remote with its disk on the
    server and one that fails leaves it local ([detach_outcome]); what the server holds is
    what comes back, and a reattach that fails can be repeated ([reattach_outcome]). *)

From Stdlib Require Import ZArith Lia Strings.Byte Ascii.
From stdpp Require Import base numbers list gmap strings.
From S2P Require Import Prelude RustStr RustText Utf8 Paths VenvStore Events CloudTime Cloud.

(** ** Data *)

Record RemoteSession := {
  rs_id : string;
  rs_venv_name : string;
  rs_state : string;
  rs_vps_ip : option string;
  rs_ssh_fingerprint : option string;
  rs_created_at : option string;
  rs_updated_at : option string;
}.

Record RemoteSessionStatus := { st_session : RemoteSession }.

Record CreateRemoteSessionResponse := { cr_session : RemoteSession; cr_reused : bool }.

Record RemoteVenvInfo := {
  ri_session_id : string;
  ri_vps_ip : string;
  ri_ssh_fingerprint : string;
  ri_ssh_key_path : string;
  ri_detached_at : string;
  ri_session_key_b64 : string;
  ri_snapshot_path : string;
}.

Inductive ConnectionMode :=
| Local
| Detaching
| Remotely (info : RemoteVenvInfo)
| Reattaching (info : RemoteVenvInfo).

Record RemoteModeProgress := {
  rp_venv_id : string;
  rp_operation : string;
  rp_step : string;
  rp_step_label : string;
  rp_step_index : Z;
  rp_total_steps : Z;
  rp_done : bool;
  rp_error : option string;
}.

Record VenvConnectionStatus := { vc_venv_id : string; vc_mode : ConnectionMode }.

Record LocalSshKey := { lk_public_openssh : string; lk_private_path : string }.

(** ** Outside the sources *)

(** Decoding of the service's answers and of remote.json. *)
Class RemoteJson `{SerdeJson} := {
  created_from_slice : list byte -> result CreateRemoteSessionResponse string;
  status_from_slice : list byte -> result RemoteSessionStatus string;
  sessions_from_value : Value -> option (list RemoteSession);
  mode_from_str : string -> option ConnectionMode;
  mode_to_string_pretty : ConnectionMode -> result string string;
}.

Class RemoteJsonRoundtrip `{RemoteJson} := {
  mode_roundtrip m text : mode_to_string_pretty m = Ok text -> mode_from_str text = Some m /\ utf8 text;
}.

(** A program that could not be started, or its success, output and error output. *)
Definition Ended : Type := result (bool * list byte * list byte) string.

(** The servers: ssh with its arguments, a pipeline of the shell, and ssh-keygen, whose
    status is given when it is not zero. *)
Class Remote := {
  Servers : Type;
  ssh : list string -> Servers -> Ended * Servers;
  pipeline : string -> Disk -> Servers -> Ended * Disk * Servers;
  ssh_keygen : list string -> Disk -> result (option string) string * Disk;
}.

Record RemoteIo := {
  ro_cloud : CloudIo;
  ro_status_text : Z -> string;
  ro_chmod_error : string -> option string;
}.

Record RemoteHost `{SerdeJson, !Http, Remote} := {
  rh_cloud : CloudHost;
  rh_servers : Servers;
  rh_events : list RemoteModeProgress;
}.

(** ** Helpers *)

Definition shell_char (c : ascii) : bool :=
  let n := nat_of_ascii c in
  ((48 <=? n) && (n <=? 57) || (65 <=? n) && (n <=? 90) || (97 <=? n) && (n <=? 122))%nat
  || bool_decide (c ∈ ["_"%char; "-"%char; "."%char; "/"%char; ":"%char]).

Fixpoint shell_escape (s : string) : string :=
  match s with
  | EmptyString => ""
  | String c s => if shell_char c then String c (shell_escape s) else shell_escape s
  end.

Definition ssh_opts (key_path : string) : list string :=
  ["-i"; key_path; "-o"; "StrictHostKeyChecking=no"; "-o"; "UserKnownHostsFile=/dev/null"; "-o"; "LogLevel=ERROR"; "-o"; "ConnectTimeout=30";
   "-o"; "ServerAliveInterval=15"; "-o"; "ServerAliveCountMax=3"].

Definition ssh_args (ip key_path cmd : string) : list string := ssh_opts key_path ++ ["root@" +:+ ip; cmd].

Definition keygen_args (priv : string) : list string := ["-t"; "ed25519"; "-f"; priv; "-N"; ""; "-C"; "clawcage-remote"; "-q"].

Definition ssh_base (key_path ip : string) : string :=
  "ssh -i " +:+ key_path +:+ " -o StrictHostKeyChecking=no -o UserKnownHostsFile=/dev/null -o LogLevel=ERROR -o ServerAliveInterval=15 -o ServerAliveCountMax=3 root@" +:+ ip.

Definition transfer_command (key_path ip local_path direction : string) : string :=
  if bool_decide (direction = "up") then
    "zstd -T0 -1 --sparse < '" +:+ local_path +:+ "' | " +:+ ssh_base key_path ip +:+ " 'zstd -d --sparse -o /root/archive/scratch.img -f'"
  else ssh_base key_path ip +:+ " 'zstd -T0 -1 < /root/archive/scratch.img' | zstd -d --sparse -o '" +:+ local_path +:+ "' -f".

(** What [open_remote_terminal] lets Terminal run. *)
Definition terminal_command (info : RemoteVenvInfo) (venv_name : string) : string :=
  "ssh -i " +:+ shell_escape (ri_ssh_key_path info)
  +:+ " -t -o StrictHostKeyChecking=no -o UserKnownHostsFile=/dev/null -o ServerAliveInterval=30 -o ServerAliveCountMax=3 root@" +:+ ri_vps_ip info
  +:+ " 'tmux new-session -A -s " +:+ shell_escape venv_name +:+ "'".

Definition quote : string := String "034" "".

Definition applescript (cmd : string) : string :=
  "tell application " +:+ quote +:+ "Terminal" +:+ quote +:+ " to do script " +:+ quote
  +:+ replace quote ("\" +:+ quote) (replace "\" "\\" cmd) +:+ quote +:+ String "010" ""
  +:+ "tell application " +:+ quote +:+ "Terminal" +:+ quote +:+ " to activate".

Section RemoteMode.
Context `{SerdeJson, !Http, !JsonI64, Base64Crate, CloudJson, !RemoteJson, Remote} (io : RemoteIo).

Definition set_cloud (c : CloudHost) (w : RemoteHost) : RemoteHost := {| rh_cloud := c; rh_servers := rh_servers w; rh_events := rh_events w |}.
Definition set_servers (r : Servers) (w : RemoteHost) : RemoteHost := {| rh_cloud := rh_cloud w; rh_servers := r; rh_events := rh_events w |}.
Definition disk_of (w : RemoteHost) : Disk := h_disk (rh_cloud w).
Definition with_disk (d : Disk) (w : RemoteHost) : RemoteHost := set_cloud (set_disk d (rh_cloud w)) w.
Definition emit_progress (e : RemoteModeProgress) (w : RemoteHost) : RemoteHost :=
  {| rh_cloud := rh_cloud w; rh_servers := rh_servers w; rh_events := rh_events w ++ [e] |}.

(** ** The calls of the service *)

Definition SESSIONS : string := "/api/remote-sessions".

(** A call that is refused reports the status and the error of the body. *)
Definition refused (resp : Response) : string :=
  ro_status_text io (rs_status resp) +:+ ": " +:+ default "unknown error" (v ← result_ok (response_json (ro_cloud io) resp); str_at v "error").

(** One call with the token: its name for a connection error, and what a response gives. *)
Definition session_call {A} (now : Z) (what : string) (m : Method) (path : string) (timeout : Z) (body : Body)
    (k : Response -> result A string) (w : CloudHost) : result A string * CloudHost :=
  with_token (ro_cloud io) now w (fun token url w =>
    match send_request (authorized m (url +:+ path) token timeout body) w with
    | (Err e, w) => (Err (what +:+ ": " +:+ e), w)
    | (Ok resp, w) => (k resp, w)
    end).

Definition session_body (venv_name public_key : string) (location server_type : option string) : Value :=
  let text o := match o with Some s => json_str s | None => json_null end in
  json_obj [("venv_name", json_str venv_name); ("public_key", json_str public_key); ("location", text location); ("server_type", text server_type)].

Definition parsed {A} (f : list byte -> result A string) (resp : Response) : result A string :=
  if negb (is_success resp) then Err (refused resp) else context "parse response" (let? b := rs_body resp in f b).

Definition create_remote_session (now : Z) (venv_name public_key : string) (location server_type : option string) : CloudHost -> result CreateRemoteSessionResponse string * CloudHost :=
  session_call now "create_remote_session" POST SESSIONS 60 (JsonBody (session_body venv_name public_key location server_type)) (parsed created_from_slice).

Definition get_remote_session (now : Z) (session_id : string) : CloudHost -> result RemoteSessionStatus string * CloudHost :=
  session_call now "get_remote_session" GET (SESSIONS +:+ "/" +:+ session_id) 15 NoBody (parsed status_from_slice).

Definition list_remote_sessions (now : Z) : CloudHost -> result (list RemoteSession) string * CloudHost :=
  session_call now "list_remote_sessions" GET SESSIONS 10 NoBody (fun resp =>
    if negb (is_success resp) then Ok []
    else match response_json (ro_cloud io) resp with
         | Err e => Err ("parse response: " +:+ e)
         | Ok body => Ok (default [] (get body "sessions" ≫= sessions_from_value))
         end).

Definition destroy_remote_session (now : Z) (session_id : string) : CloudHost -> result unit string * CloudHost :=
  session_call now "destroy_remote_session" DELETE (SESSIONS +:+ "/" +:+ session_id +:+ "?force=true") 30 NoBody (fun resp =>
    if negb (is_success resp) && negb (rs_status resp =? 404) then Err (refused resp) else Ok tt).

Definition release_remote_session (now : Z) (session_id : string) : CloudHost -> result unit string * CloudHost :=
  session_call now "release_remote_session" PATCH (SESSIONS +:+ "/" +:+ session_id) 15 NoBody (fun resp =>
    if negb (is_success resp) then Err (refused resp) else Ok tt).

Fixpoint destroy_all (now : Z) (ss : list RemoteSession) (w : CloudHost) : nat * CloudHost :=
  match ss with
  | [] => (0%nat, w)
  | s :: ss =>
      let '(r, w) := destroy_remote_session now (rs_id s) w in
      let '(n, w) := destroy_all now ss w in
      (if is_ok r then S n else n, w)
  end.

Definition force_cleanup_remote_sessions (now : Z) (w : CloudHost) : result string string * CloudHost :=
  match list_remote_sessions now w with
  | (Err e, w) => (Err e, w)
  | (Ok [], w) => (Ok "no active sessions found", w)
  | (Ok sessions, w) =>
      let '(cleaned, w) := destroy_all now sessions w in
      (Ok ("destroyed " +:+ show_Z (Z.of_nat cleaned) +:+ "/" +:+ show_Z (Z.of_nat (length sessions)) +:+ " sessions"), w)
  end.

(** ** remote.json *)

Definition files : Io := ci_files (ro_cloud io).

(** [venv_dir], which creates the directory. *)
Definition made_venv_dir (venv_id : string) : result string string :=
  match home files with
  | None => Err "HOME not set"
  | Some h => match mkdir_error files (venv_dir h venv_id) with Some e => Err ("create venv dir: " +:+ e) | None => Ok (venv_dir h venv_id) end
  end.

Definition remote_state_path (venv_id : string) : result string string := let? dir := made_venv_dir venv_id in Ok (path_join dir "remote.json").
Definition scratch_img_path (venv_id : string) : result string string := let? dir := made_venv_dir venv_id in Ok (path_join dir "scratch.img").

Definition user_ssh_key_path : result string string :=
  match home files with
  | None => Err "HOME not set"
  | Some h =>
      match mkdir_error files (clawcage_dir h) with Some e => Err ("create .clawcage dir: " +:+ e) | None => Ok (path_join (clawcage_dir h) "remote_ssh_key") end
  end.

Definition load_mode (venv_id : string) (d : Disk) : ConnectionMode :=
  match remote_state_path venv_id with
  | Err _ => Local
  | Ok path => match read_to_string files path d with Err _ => Local | Ok data => default Local (mode_from_str data) end
  end.

Definition save_mode (venv_id : string) (mode : ConnectionMode) (d : Disk) : result unit string * Disk :=
  match remote_state_path venv_id with
  | Err e => (Err e, d)
  | Ok path =>
      match mode with
      | Local => (Ok tt, remove_file files path d)
      | _ =>
          match mode_to_string_pretty mode with
          | Err e => (Err ("serialize mode: " +:+ e), d)
          | Ok data => let '(r, d) := write_file files path (bytes_of_string data) d in (context "write remote.json" r, d)
          end
      end
  end.

Definition get_venv_connection (venv_id : string) (d : Disk) : VenvConnectionStatus := {| vc_venv_id := venv_id; vc_mode := load_mode venv_id d |}.
Definition list_venv_connections (venv_ids : list string) (d : Disk) : list VenvConnectionStatus := map (fun id => get_venv_connection id d) venv_ids.

(** ** A state and error monad for the two operations *)

Definition M (A : Type) : Type := RemoteHost -> result A string * RemoteHost.
Definition bind {A B} (m : M A) (k : A -> M B) : M B := fun w => match m w with (Ok a, w) => k a w | (Err e, w) => (Err e, w) end.
Definition ret {A} (a : A) : M A := fun w => (Ok a, w).
Definition fail {A} (e : string) : M A := fun w => (Err e, w).
(** The error of [m] with what was attempted before it. *)
Definition labelled {A} (what : string) (m : M A) : M A := fun w => let '(r, w) := m w in (context what r, w).
Definition on_cloud {A} (f : CloudHost -> result A string * CloudHost) : M A := fun w => let '(r, c) := f (rh_cloud w) in (r, set_cloud c w).
Definition on_disk {A} (f : Disk -> result A string * Disk) : M A := fun w => let '(r, d) := f (disk_of w) in (r, with_disk d w).
Definition on_host (f : RemoteHost -> RemoteHost) : M unit := fun w => (Ok tt, f w).
(** [let _ = ..]: the result is dropped. *)
Definition ignore {A} (m : M A) : M unit := fun w => (Ok tt, (m w).2).

Notation "'let!' x := m 'in' k" := (bind m (fun x => k)) (at level 200, x pattern, m at level 100, k at level 200).
Notation "m ;! k" := (bind m (fun _ => k)) (at level 100, k at level 200, right associativity).

Definition emit_step (venv_id operation step label : string) (index total : Z) : M unit :=
  on_host (emit_progress {| rp_venv_id := venv_id; rp_operation := operation; rp_step := step; rp_step_label := label; rp_step_index := index;
                   rp_total_steps := total; rp_done := false; rp_error := None |}).
Definition emit_done (venv_id operation : string) (total : Z) : M unit :=
  on_host (emit_progress {| rp_venv_id := venv_id; rp_operation := operation; rp_step := "done"; rp_step_label := "Done"; rp_step_index := total;
                   rp_total_steps := total; rp_done := true; rp_error := None |}).
Definition emit_error (venv_id operation error : string) : M unit :=
  on_host (emit_progress {| rp_venv_id := venv_id; rp_operation := operation; rp_step := "error"; rp_step_label := "Failed"; rp_step_index := 0;
                   rp_total_steps := 0; rp_done := true; rp_error := Some error |}).

(** ** ssh *)

Definition ssh_run (ip key_path cmd : string) : M string := fun w =>
  match ssh (ssh_args ip key_path cmd) (rh_servers w) with
  | (Err e, r) => (Err ("ssh spawn: " +:+ e), set_servers r w)
  | (Ok (true, out, _), r) => (Ok (from_utf8_lossy out), set_servers r w)
  | (Ok (false, _, stderr), r) => (Err ("ssh command failed: " +:+ from_utf8_lossy stderr), set_servers r w)
  end.

(** The loop of [wait_for_ssh], when the deadline passes after [attempts] more tries. *)
Fixpoint wait_for_ssh (attempts : nat) (ip key_path : string) : M unit := fun w =>
  match ssh (ssh_args ip key_path "echo ready") (rh_servers w) with
  | (Err e, r) => (Err ("ssh spawn: " +:+ e), set_servers r w)
  | (Ok (true, _, _), r) => (Ok tt, set_servers r w)
  | (Ok (false, _, _), r) =>
      match attempts with
      | O => (Err "SSH never came up", set_servers r w)
      | S attempts => wait_for_ssh attempts ip key_path (set_servers r w)
      end
  end.

Definition transfer_scratch (key_path ip local_path direction : string) : M unit := fun w =>
  match pipeline (transfer_command key_path ip local_path direction) (disk_of w) (rh_servers w) with
  | (Err e, d, r) => (Err ("transfer spawn: " +:+ e), set_servers r (with_disk d w))
  | (Ok (true, _, _), d, r) => (Ok tt, set_servers r (with_disk d w))
  | (Ok (false, _, stderr), d, r) => (Err ("transfer failed: " +:+ from_utf8_lossy stderr), set_servers r (with_disk d w))
  end.

(** The key's public half, or [None] when it has to be made. *)
Definition existing_key (priv pub : string) (d : Disk) : result (option string) string :=
  if bool_decide (is_Some (d !! priv)) && bool_decide (is_Some (d !! pub)) then
    let? s := context "read pub key" (read_to_string files pub d) in Ok (if is_empty (trim s) then None else Some (trim s))
  else Ok None.

Definition ensure_user_ssh_key (d : Disk) : result LocalSshKey string * Disk :=
  match user_ssh_key_path with
  | Err e => (Err e, d)
  | Ok priv =>
      let pub := with_extension priv "pub" in
      match existing_key priv pub d with
      | Err e => (Err e, d)
      | Ok (Some public_openssh) => (Ok {| lk_public_openssh := public_openssh; lk_private_path := priv |}, d)
      | Ok None =>
          match ssh_keygen (keygen_args priv) (remove_file files pub (remove_file files priv d)) with
          | (Err e, d) => (Err ("spawn ssh-keygen: " +:+ e), d)
          | (Ok (Some status), d) => (Err ("ssh-keygen exited " +:+ status), d)
          | (Ok None, d) =>
              match context "read pub key" (read_to_string files pub d), ro_chmod_error io priv with
              | Err e, _ => (Err e, d)
              | Ok _, Some e => (Err ("chmod private key: " +:+ e), d)
              | Ok s, None => (Ok {| lk_public_openssh := trim s; lk_private_path := priv |}, d)
              end
          end
      end
  end.

(** ** Detaching *)

(** What an operation meets: the clock, and how many tries fit before the deadline of ssh. *)
Record RemoteInput := { rt_now : Z; rt_now_iso : string; rt_attempts : nat }.

Definition provision (i : RemoteInput) (venv_id venv_name public_key : string) (location server_type : option string) : M CreateRemoteSessionResponse := fun w =>
  match on_cloud (create_remote_session (rt_now i) venv_name public_key location server_type) w with
  | (Ok resp, w) => (Ok resp, w)
  | (Err e, w) =>
      if str_contains e "409" then
        (emit_step venv_id "detach" "cleanup_stale" "Cleaning up stale cloud session..." 1 5 ;!
         labelled "cleanup stale sessions failed" (on_cloud (force_cleanup_remote_sessions (rt_now i))) ;!
         emit_step venv_id "detach" "provision" "Provisioning cloud server..." 1 5 ;!
         labelled "create remote session (after cleanup)" (on_cloud (create_remote_session (rt_now i) venv_name public_key location server_type))) w
      else (Err ("create remote session: " +:+ e), w)
  end.

(** The polls for the address of a server that still boots. *)
Fixpoint poll_ip (n : nat) (i : RemoteInput) (session_id : string) : M string := fun w =>
  match n with
  | O => (Err "VPS never became ready", w)
  | S n =>
      let '(r, c) := get_remote_session (rt_now i) session_id (rh_cloud w) in
      let w := set_cloud c w in
      match r with
      | Ok status =>
          match rs_vps_ip (st_session status) with
          | Some ip => if bool_decide (rs_state (st_session status) = "ready") then (if is_empty ip then Err "VPS never became ready" else Ok ip, w) else poll_ip n i session_id w
          | None => poll_ip n i session_id w
          end
      | Err _ => poll_ip n i session_id w
      end
  end.

Definition vps_address (i : RemoteInput) (s : RemoteSession) : M string :=
  let ip := default "" (rs_vps_ip s) in
  if is_empty ip then poll_ip 30 i (rs_id s) else ret ip.

Definition local_scratch (venv_id : string) : M string := fun w =>
  match scratch_img_path venv_id with
  | Ok p => if bool_decide (is_Some (disk_of w !! p)) then (Ok p, w) else (Err "scratch.img not found locally", w)
  | Err _ => (Err "scratch.img not found locally", w)
  end.

Definition mount_command (venv_name : string) : string :=
  "mount -o loop,rw /root/archive/scratch.img /root/venv && tmux new-session -d -s " +:+ shell_escape venv_name +:+ " -x 200 -y 50 'cd /root/venv; exec bash -l'".

(** The steps up to a server with a shell: the key, the session and the address. *)
Definition connect_server (i : RemoteInput) (venv_id venv_name : string) (location server_type : option string) : M (string * RemoteSession * string) :=
  emit_step venv_id "detach" "ssh_key" "Preparing SSH key..." 0 5 ;!
  let! kp := labelled "ssh key" (on_disk ensure_user_ssh_key) in
  emit_step venv_id "detach" "provision" "Connecting to cloud server..." 1 5 ;!
  let! resp := provision i venv_id venv_name (lk_public_openssh kp) location server_type in
  let! vps_ip := vps_address i (cr_session resp) in
  let key := lk_private_path kp in
  (if cr_reused resp
   then emit_step venv_id "detach" "wait_ssh" "Reconnecting to server..." 2 5 ;! labelled "reused VPS unreachable" (wait_for_ssh (rt_attempts i) vps_ip key)
   else emit_step venv_id "detach" "wait_ssh" "Waiting for server to boot..." 2 5 ;! labelled "wait for SSH" (wait_for_ssh (rt_attempts i) vps_ip key)) ;!
  labelled "create dirs" (ssh_run vps_ip key "mkdir -p /root/archive /root/venv") ;!
  ret (key, cr_session resp, vps_ip).

Definition CLEAN : string := "tmux kill-server 2>/dev/null; umount /root/venv 2>/dev/null; true".
Definition STOP : string := "tmux kill-server 2>/dev/null; sync; umount /root/venv 2>/dev/null; sync".

(** The steps that are rolled back when one fails. *)
Definition detach_steps (i : RemoteInput) (venv_id venv_name : string) (location server_type : option string) : M RemoteVenvInfo :=
  let! (key, session, vps_ip) := connect_server i venv_id venv_name location server_type in
  emit_step venv_id "detach" "transfer" "Transferring venv data..." 3 5 ;!
  let! scratch := local_scratch venv_id in
  labelled "transfer up" (transfer_scratch key vps_ip scratch "up") ;!
  emit_step venv_id "detach" "start" "Starting remote session..." 4 5 ;!
  ignore (ssh_run vps_ip key CLEAN) ;!
  labelled "mount + tmux" (ssh_run vps_ip key (mount_command venv_name)) ;!
  ret {| ri_session_id := rs_id session; ri_vps_ip := vps_ip; ri_ssh_fingerprint := default "" (rs_ssh_fingerprint session);
         ri_ssh_key_path := key; ri_detached_at := rt_now_iso i; ri_session_key_b64 := ""; ri_snapshot_path := "" |}.

Definition detach_venv (i : RemoteInput) (venv_id venv_name : string) (location server_type : option string) : M VenvConnectionStatus :=
  on_disk (save_mode venv_id Detaching) ;!
  let! info := (fun w => match detach_steps i venv_id venv_name location server_type w with
                         | (Ok info, w) => (Ok info, w)
                         | (Err e, w) => (emit_error venv_id "detach" e ;! ignore (on_disk (save_mode venv_id Local)) ;! fail e) w
                         end) in
  on_disk (save_mode venv_id (Remotely info)) ;!
  emit_done venv_id "detach" 5 ;!
  ret {| vc_venv_id := venv_id; vc_mode := Remotely info |}.

(** ** Reattaching *)

Definition current_info (venv_id : string) (d : Disk) : option RemoteVenvInfo :=
  match load_mode venv_id d with Remotely info | Reattaching info => Some info | _ => None end.

Definition reattach_venv (i : RemoteInput) (venv_id : string) : M VenvConnectionStatus := fun w =>
  match current_info venv_id (disk_of w) with
  | None => (Err "venv is not in remote mode", w)
  | Some info =>
      (on_disk (save_mode venv_id (Reattaching info)) ;!
       emit_step venv_id "reattach" "stop" "Stopping remote session..." 0 3 ;!
       ignore (ssh_run (ri_vps_ip info) (ri_ssh_key_path info) STOP) ;!
       emit_step venv_id "reattach" "transfer" "Transferring venv data back..." 1 3 ;!
       let! scratch := (fun w => (scratch_img_path venv_id, w)) in
       (fun w => match labelled "transfer down" (transfer_scratch (ri_ssh_key_path info) (ri_vps_ip info) scratch "down") w with
                 | (Ok _, w) => (Ok tt, w)
                 | (Err e, w) => (emit_error venv_id "reattach" e ;! fail e) w
                 end) ;!
       emit_step venv_id "reattach" "release" "Finalizing..." 2 3 ;!
       ignore (on_cloud (release_remote_session (rt_now i) (ri_session_id info))) ;!
       on_disk (save_mode venv_id Local) ;!
       emit_done venv_id "reattach" 3 ;!
       ret {| vc_venv_id := venv_id; vc_mode := Local |}) w
  end.

(** [osascript] and its status when it is not zero. *)
Definition open_remote_terminal (osascript : string -> result (option string) string) (venv_id venv_name : string) (d : Disk) : result unit string :=
  match current_info venv_id d with
  | None => Err "venv is not in remote mode"
  | Some info => match osascript (applescript (terminal_command info venv_name)) with
      | Err e => Err ("spawn osascript: " +:+ e)
      | Ok (Some status) => Err ("osascript exited non-zero: " +:+ status)
      | Ok None => Ok tt
      end
  end.

End RemoteMode.

(** ** What the programs outside do *)

(** No character that the shell reads specially. *)
Definition word (s : string) : bool := bool_decide (shell_escape s = s).

Definition ssh_line (key_path ip : string) : string :=
  "ssh -i " +:+ key_path +:+ " -o StrictHostKeyChecking=no -o UserKnownHostsFile=/dev/null -o LogLevel=ERROR -o ServerAliveInterval=15 -o ServerAliveCountMax=3 root@" +:+ ip.
Definition send_line (key_path ip path : string) : string :=
  "zstd -T0 -1 --sparse < '" +:+ path +:+ "' | " +:+ ssh_line key_path ip +:+ " 'zstd -d --sparse -o /root/archive/scratch.img -f'".
Definition fetch_line (key_path ip path : string) : string :=
  ssh_line key_path ip +:+ " 'zstd -T0 -1 < /root/archive/scratch.img' | zstd -d --sparse -o '" +:+ path +:+ "' -f".

(** [image] is the file /root/archive/scratch.img of a server. A pipeline whose last program
    succeeds has copied the whole file: zstd refuses a stream that ends early. *)
Class RemoteLaws `{Remote} := {
  image : Servers -> string -> option (list byte);
  keygen_writes priv p d : p <> priv -> p <> priv +:+ ".pub" ->
    (ssh_keygen ["-t"; "ed25519"; "-f"; priv; "-N"; ""; "-C"; "clawcage-remote"; "-q"] d).2 !! p = d !! p;
  send_reads key ip path d r : word key = true -> word ip = true -> word path = true -> (pipeline (send_line key ip path) d r).1.2 = d;
  send_copies key ip path d r d' r' out err : word key = true -> word ip = true -> word path = true ->
    pipeline (send_line key ip path) d r = (Ok (true, out, err), d', r') -> image r' ip = d !! path;
  fetch_writes key ip path p d r : word key = true -> word ip = true -> word path = true -> p <> path ->
    (pipeline (fetch_line key ip path) d r).1.2 !! p = d !! p;
  fetch_copies key ip path d r d' r' out err : word key = true -> word ip = true -> word path = true ->
    pipeline (fetch_line key ip path) d r = (Ok (true, out, err), d', r') -> is_Some (image r ip) /\ d' !! path = image r ip;
}.

Lemma shell_escape_app a b : shell_escape (a +:+ b) = shell_escape a +:+ shell_escape b.
Proof. induction a as [|c a IH]; [done|]. rewrite sapp_cons. cbn. destruct (shell_char c); [by rewrite IH|done]. Qed.

Lemma word_app a b : word a = true -> word b = true -> word (a +:+ b) = true.
Proof. unfold word. rewrite !bool_decide_eq_true. intros Ha Hb. by rewrite shell_escape_app, Ha, Hb. Qed.

(** What is left has no character that the shell reads specially. *)
Lemma shell_escape_word s : word (shell_escape s) = true.
Proof.
  unfold word. apply bool_decide_eq_true. induction s as [|c s IH]; [done|]. cbn. destruct (shell_char c) eqn:E; [|done]. cbn. by rewrite E, IH.
Qed.

Lemma word_join a b : word a = true -> word b = true -> word (path_join a b) = true.
Proof. intros Ha Hb. unfold path_join. repeat case_match; [done|by apply word_app|]. apply word_app; [done|]. by apply (word_app "/" b). Qed.

(** ** What an operation leaves alone *)

Section Frame.
Context `{SerdeJson, !Http, !JsonI64, Base64Crate, CloudJson, !RemoteJson, Remote} (io : RemoteIo).

Implicit Types w : RemoteHost.

(** The files that satisfy [P] are as they were. *)
Definition kept (P : string -> Prop) (d d' : Disk) : Prop := forall p, P p -> d' !! p = d !! p.
Definition keeps (P : string -> Prop) {A} (m : M A) : Prop := forall w, kept P (disk_of w) (disk_of (m w).2).
Definition keeps_cloud (P : string -> Prop) {A} (f : CloudHost -> result A string * CloudHost) : Prop := forall c, kept P (h_disk c) (h_disk (f c).2).

#[global] Instance kept_preorder P : PreOrder (kept P).
Proof. split; [by intros d p|]. intros a b c Hab Hbc p Hp. by rewrite Hbc, Hab. Qed.

Lemma keeps_bind P {A B} (m : M A) (k : A -> M B) : keeps P m -> (forall a, keeps P (k a)) -> keeps P (bind m k).
Proof. intros Hm Hk w. unfold bind. specialize (Hm w). destruct (m w) as [[a|e] w']; cbn in *; [|done]. etrans; [exact Hm|apply Hk]. Qed.

Lemma keeps_labelled P {A} what (m : M A) : keeps P m -> keeps P (labelled what m).
Proof. intros Hm w. unfold labelled. specialize (Hm w). by destruct (m w). Qed.

Lemma keeps_ignore P {A} (m : M A) : keeps P m -> keeps P (ignore m).
Proof. done. Qed.

Lemma keeps_emit P f : (forall w, disk_of (f w) = disk_of w) -> keeps P (on_host f).
Proof. intros Hf w p Hp. cbn. by rewrite Hf. Qed.

Lemma keeps_on_cloud P {A} (f : CloudHost -> result A string * CloudHost) : keeps_cloud P f -> keeps P (on_cloud f).
Proof. intros Hf w. unfold on_cloud. specialize (Hf (rh_cloud w)). by destruct (f (rh_cloud w)). Qed.

Lemma keeps_on_disk (P : string -> Prop) {A} (f : Disk -> result A string * Disk) : (forall d, kept P d (f d).2) -> keeps P (on_disk f).
Proof. intros Hf w. unfold on_disk. specialize (Hf (disk_of w)). by destruct (f (disk_of w)). Qed.

Lemma keeps_ssh P ip key cmd : keeps P (ssh_run ip key cmd).
Proof. intros w. unfold ssh_run. by destruct (ssh _ _) as [[[[[] out] err]|e] r]. Qed.

Lemma keeps_wait P n ip key : keeps P (wait_for_ssh n ip key).
Proof.
  induction n as [|n IH]; intros w; cbn [wait_for_ssh]; destruct (ssh _ _) as [[[[[] out] err]|e] r]; try done. apply (IH (set_servers r w)).
Qed.

(** A call of the service writes at most cloud.json. *)
Lemma keeps_save_config P c (w : CloudHost) : (forall p, P p -> config_path (ro_cloud io) <> Ok p) -> kept P (h_disk w) (h_disk (save_config (ro_cloud io) c w).2).
Proof.
  intros HP. assert (forall a v (w : CloudHost), h_disk (keychain_set (ro_cloud io) a v w).2 = h_disk w) as Hk.
  { intros a v w0. unfold keychain_set, keychain_delete. by repeat case_match. }
  unfold save_config. set (w1 := match cc_token c with Some t => _ | None => w end). assert (h_disk w1 = h_disk w) as E1 by (subst w1; case_match; [apply Hk|done]).
  set (w2 := match cc_refresh_token c with Some t => _ | None => w1 end). assert (h_disk w2 = h_disk w1) as E2 by (subst w2; case_match; [apply Hk|done]).
  rewrite <- E1, <- E2. destruct (config_path (ro_cloud io)) as [path|] eqn:Hp; [|done]. destruct (cloud_to_string_pretty _); [|done].
  intros p Hpp. assert (path <> p) as Hne by (intros ->; by apply (HP p)). unfold write_file.
  destruct (write_error _ _) as [[e [rest|]]|]; cbn; by rewrite ?lookup_insert_ne.
Qed.

Lemma keeps_call P {A} now what m path timeout body (k : Response -> result A string) : (forall p, P p -> config_path (ro_cloud io) <> Ok p) ->
  keeps_cloud P (session_call io now what m path timeout body k).
Proof.
  intros HP c. unfold session_call, with_token.
  assert (kept P (h_disk c) (h_disk (get_valid_token (ro_cloud io) now (load_config (ro_cloud io) c) c).2)) as Ht.
  { unfold get_valid_token. repeat (case_match; try done).
    all: match goal with E : send_request ?r ?cc = _ |- _ => destruct (send_disk r cc) as [Hd _]; rewrite E in Hd; cbn in Hd; rewrite <- Hd; try done end.
    all: match goal with E : save_config _ ?c0 ?w0 = _ |- _ => pose proof (keeps_save_config _ c0 w0 ltac:(eassumption)) as Hs; rewrite E in Hs; exact Hs end. }
  destruct (get_valid_token _ _ _ c) as [[[token|e] config] c1]; [|exact Ht].
  destruct (send_disk (authorized m (url_of config +:+ path) token timeout body) c1) as [Hd _]. destruct (send_request _ c1) as [[resp|e] c2]; cbn in *; by rewrite Hd.
Qed.

Lemma keeps_cleanup P now : (forall p, P p -> config_path (ro_cloud io) <> Ok p) -> keeps_cloud P (force_cleanup_remote_sessions io now).
Proof.
  intros HP c. assert (kept P (h_disk c) (h_disk (list_remote_sessions io now c).2)) as Hl by (by apply keeps_call).
  unfold force_cleanup_remote_sessions. destruct (list_remote_sessions io now c) as [[sessions|e] c1]; [|exact Hl].
  assert (forall ss c, kept P (h_disk c) (h_disk (destroy_all io now ss c).2)) as Hd.
  { clear -HP. induction ss as [|s ss IH]; intros c; cbn [destroy_all]; [done|].
    assert (kept P (h_disk c) (h_disk (destroy_remote_session io now (rs_id s) c).2)) as Hc by (by apply keeps_call).
    destruct (destroy_remote_session io now (rs_id s) c) as [r c1]. specialize (IH c1). destruct (destroy_all io now ss c1). cbn in *. by etrans. }
  destruct sessions as [|s ss]; [exact Hl|]. specialize (Hd (s :: ss) c1). destruct (destroy_all io now (s :: ss) c1). cbn in *. by etrans.
Qed.

Lemma keeps_poll P n i id : (forall p, P p -> config_path (ro_cloud io) <> Ok p) -> keeps P (poll_ip io n i id).
Proof.
  intros HP. induction n as [|n IH]; intros w; cbn [poll_ip]; [done|].
  assert (kept P (disk_of w) (h_disk (get_remote_session io (rt_now i) id (rh_cloud w)).2)) as Hc by (by apply keeps_call).
  destruct (get_remote_session _ _ _ _) as [r c]. cbn in Hc. specialize (IH (set_cloud c w)).
  repeat case_match; try exact Hc; cbn in *; by etrans.
Qed.

Lemma keeps_key P : (forall p priv, P p -> user_ssh_key_path io = Ok priv -> p <> priv /\ p <> priv +:+ ".pub" /\ p <> with_extension priv "pub") -> RemoteLaws ->
  keeps P (on_disk (ensure_user_ssh_key io)).
Proof.
  intros HP HL. apply keeps_on_disk. intros d p Hp. unfold ensure_user_ssh_key. destruct (user_ssh_key_path io) as [priv|e] eqn:Hk; [|done].
  destruct (HP p priv Hp eq_refl) as (H1' & H2' & H3'). destruct (existing_key io _ _ d) as [[s|]|e]; try done.
  assert (forall q d, p <> q -> remove_file (files io) q d !! p = d !! p) as Hr.
  { intros q d0 Hq. unfold remove_file. destruct (cannot_remove _ q); [done|by rewrite lookup_delete_ne]. }
  pose proof (keygen_writes priv p (remove_file (files io) (with_extension priv "pub") (remove_file (files io) priv d)) H1' H2') as Hg.
  rewrite !Hr in Hg by done. fold (keygen_args priv) in Hg. destruct (ssh_keygen _ _) as [[[status|]|e] d1]; cbn in Hg |- *; [done| |done].
  repeat case_match; done.
Qed.

End Frame.

(** ** What an operation leaves behind *)

Section Outcome.
Context `{SerdeJson, !Http, !JsonI64, Base64Crate, CloudJson, !RemoteJson, !RemoteJsonRoundtrip, RemoteLaws} (io : RemoteIo) (h : string).

Implicit Types w : RemoteHost.

Record remote_works : Prop := {
  rw_home : home (files io) = Some h;
  rw_read : forall p, read_error (files io) p = None;
  rw_mkdir : forall p, mkdir_error (files io) p = None;
  rw_write : forall p, write_error (files io) p = None;
  rw_remove : forall p, cannot_remove (files io) p = false;
  rw_json : forall m, exists text, mode_to_string_pretty m = Ok text;
}.
Hypothesis (Hio : remote_works).

Definition state_file (id : string) : string := path_join (venv_dir h id) "remote.json".
Definition scratch_file (id : string) : string := path_join (venv_dir h id) "scratch.img".

Lemma state_path id : remote_state_path io id = Ok (state_file id).
Proof. unfold remote_state_path, made_venv_dir. by rewrite (rw_home Hio), (rw_mkdir Hio). Qed.

Lemma scratch_path id : scratch_img_path io id = Ok (scratch_file id).
Proof. unfold scratch_img_path, made_venv_dir. by rewrite (rw_home Hio), (rw_mkdir Hio). Qed.

Lemma load_written id m text d : mode_to_string_pretty m = Ok text -> d !! state_file id = Some (bytes_of_string text) -> load_mode io id d = m.
Proof.
  intros Ht Hd. destruct (mode_roundtrip m text Ht) as [Hf Hu]. unfold load_mode. rewrite state_path. unfold read_to_string, read_file. rewrite (rw_read Hio), Hd.
  assert (from_utf8 (bytes_of_string text) = Some text) as ->; [|by rewrite Hf].
  rewrite <- (string_of_bytes_of_string text) at 2. apply from_utf8_string_of_bytes. by rewrite string_of_bytes_of_string.
Qed.

Lemma save_mode_load id m d : exists d', save_mode io id m d = (Ok tt, d') /\ load_mode io id d' = m /\ kept (fun p => p <> state_file id) d d'.
Proof.
  unfold save_mode. rewrite state_path. destruct (rw_json Hio m) as [text Ht]. rewrite Ht. unfold write_file, remove_file. rewrite (rw_write Hio), (rw_remove Hio).
  destruct m; (eexists; split; [done|]; split; [try (by apply (load_written _ _ text), lookup_insert_eq)|intros p Hp; by rewrite ?lookup_insert_ne, ?lookup_delete_ne]).
  unfold load_mode. rewrite state_path. unfold read_to_string, read_file. by rewrite (rw_read Hio), lookup_delete_eq.
Qed.

Lemma on_save id m w : exists w', on_disk (save_mode io id m) w = (Ok tt, w') /\ load_mode io id (disk_of w') = m /\
  kept (fun p => p <> state_file id) (disk_of w) (disk_of w') /\ rh_servers w' = rh_servers w /\ rh_events w' = rh_events w.
Proof. unfold on_disk. destruct (save_mode_load id m (disk_of w)) as (d & -> & Hl & Hk). by eexists. Qed.

(** Files with other names. *)
Lemma join_last dir f c : starts_with f "/" = false -> f <> "" -> ends_with (path_join dir f) (String c "") = ends_with f (String c "").
Proof. intros Hs Hf. destruct (path_join_split dir) as (pre & _ & Hj). by rewrite Hj, ends_with_char. Qed.

Lemma scratch_not dir f id : starts_with f "/" = false -> f <> "" -> ends_with f "g" = false -> scratch_file id <> path_join dir f.
Proof.
  intros Hs Hne Hf E. apply (f_equal (fun p => ends_with p "g")) in E. unfold scratch_file in E. by rewrite !join_last, Hf in E.
Qed.

Lemma scratch_not_state id : scratch_file id <> state_file id.
Proof. by apply scratch_not. Qed.

Lemma scratch_not_config id p : p = scratch_file id -> config_path (ro_cloud io) <> Ok p.
Proof.
  intros -> E. unfold config_path in E. change (ci_files (ro_cloud io)) with (files io) in E. rewrite (rw_home Hio) in E.
  assert (path_join (path_join h ".clawcage") "cloud.json" = scratch_file id) as Hc by congruence. by apply (scratch_not (path_join h ".clawcage") "cloud.json" id).
Qed.

Lemma scratch_not_key id p priv : p = scratch_file id -> user_ssh_key_path io = Ok priv -> p <> priv /\ p <> priv +:+ ".pub" /\ p <> with_extension priv "pub".
Proof.
  intros -> E. unfold user_ssh_key_path in E. rewrite (rw_home Hio), (rw_mkdir Hio) in E. assert (priv = path_join (clawcage_dir h) "remote_ssh_key") as -> by congruence.
  rewrite <- path_join_app, with_extension_join by done. repeat split; by apply scratch_not.
Qed.

(** *** Detaching *)

Lemma bind_ok {A B} (m : M A) (k : A -> M B) w b w' : bind m k w = (Ok b, w') -> exists a w1, m w = (Ok a, w1) /\ k a w1 = (Ok b, w').
Proof. unfold bind. destruct (m w) as [[a|e] w1]; [|done]. intros E. by exists a, w1. Qed.

Lemma labelled_ok {A} what (m : M A) w a w' : labelled what m w = (Ok a, w') -> m w = (Ok a, w').
Proof. unfold labelled. destruct (m w) as [[b|e] w1]; [|done]. by intros [= -> ->]. Qed.

Lemma key_path d k d' : ensure_user_ssh_key io d = (Ok k, d') -> lk_private_path k = path_join (clawcage_dir h) "remote_ssh_key".
Proof.
  unfold ensure_user_ssh_key, user_ssh_key_path. rewrite (rw_home Hio), (rw_mkdir Hio). intros E. repeat (case_match; simplify_eq/=; try done).
Qed.

Lemma provision_keeps P i id name key location server_type : (forall p, P p -> config_path (ro_cloud io) <> Ok p) ->
  keeps P (provision io i id name key location server_type).
Proof.
  intros HP w. unfold provision.
  assert (keeps P (on_cloud (create_remote_session io (rt_now i) name key location server_type))) as Hc by (apply keeps_on_cloud; by apply keeps_call).
  pose proof (Hc w) as Hw. destruct (on_cloud _ w) as [[resp|e] w1]; [exact Hw|]. destruct (str_contains e "409"); [|exact Hw].
  etrans; [exact Hw|]. apply (keeps_bind P); [by apply keeps_emit|intros _]. apply keeps_bind; [by apply keeps_labelled, keeps_on_cloud, keeps_cleanup|intros _].
  apply keeps_bind; [by apply keeps_emit|intros _]. by apply keeps_labelled.
Qed.

Lemma connect_keeps i id name location server_type : keeps (fun p => p = scratch_file id) (connect_server io i id name location server_type).
Proof.
  pose proof (scratch_not_config id) as Hc. unfold connect_server, emit_step, vps_address.
  repeat first [apply keeps_bind; intros | apply keeps_labelled | apply keeps_emit; done | apply keeps_ssh | apply keeps_wait | apply keeps_poll | apply provision_keeps
    | apply keeps_key; [apply scratch_not_key|done] | done | case_match].
Qed.

Lemma connect_key i id name location server_type w key s ip w' :
  connect_server io i id name location server_type w = (Ok (key, s, ip), w') -> key = path_join (clawcage_dir h) "remote_ssh_key".
Proof.
  intros ([] & w1 & _ & (kp & w2 & Hk%labelled_ok & E)%bind_ok)%bind_ok.
  apply bind_ok in E as ([] & w3 & _ & (resp & w4 & _ & (ip' & w5 & _ & ([] & w6 & _ & (out & w7 & _ & E)%bind_ok)%bind_ok)%bind_ok)%bind_ok).
  injection E as <- <- <- <-. unfold on_disk in Hk. destruct (ensure_user_ssh_key io (disk_of w1)) as [[k|e] d] eqn:Hd; [|done]. injection Hk as <- _. by eapply key_path.
Qed.

(** The leftovers are cleared on a server, whatever that gives, and then the command that
    mounts the image that arrived and starts the shell in it succeeds. *)
Definition mounted (ip key name : string) (r r' : Servers) : Prop :=
  exists out err, ssh (ssh_args ip key ("mount -o loop,rw /root/archive/scratch.img /root/venv && tmux new-session -d -s "
      +:+ shell_escape name +:+ " -x 200 -y 50 'cd /root/venv; exec bash -l'"))
    (ssh (ssh_args ip key "tmux kill-server 2>/dev/null; umount /root/venv 2>/dev/null; true") r).2 = (Ok (true, out, err), r').

Lemma ssh_servers ip key cmd w : rh_servers (ssh_run ip key cmd w).2 = (ssh (ssh_args ip key cmd) (rh_servers w)).2.
Proof. unfold ssh_run. by destruct (ssh _ _) as [[[[[] out] err]|e] r]. Qed.

Lemma ssh_disk ip key cmd w : disk_of (ssh_run ip key cmd w).2 = disk_of w.
Proof. unfold ssh_run. by destruct (ssh _ _) as [[[[[] out] err]|e] r]. Qed.

Lemma ssh_run_ok ip key cmd w out w' : ssh_run ip key cmd w = (Ok out, w') ->
  disk_of w' = disk_of w /\ exists o e, ssh (ssh_args ip key cmd) (rh_servers w) = (Ok (true, o, e), rh_servers w').
Proof. unfold ssh_run. destruct (ssh _ _) as [[[[[] o] e]|e] r]; [|done..]. intros [= <- <-]. split; [done|]. by exists o, e. Qed.

Hypothesis (Hh : word h = true).

Lemma word_venv id f : word id = true -> word f = true -> word (path_join (venv_dir h id) f) = true.
Proof. intros Hid Hf. unfold venv_dir, clawcage_dir. by repeat apply word_join. Qed.

(** The steps after the connection bring the disk to the server. *)
Lemma steps_done i id name location server_type w info w' : word id = true ->
  detach_steps io i id name location server_type w = (Ok info, w') -> word (ri_vps_ip info) = true ->
  disk_of w' !! scratch_file id = disk_of w !! scratch_file id /\ is_Some (disk_of w !! scratch_file id) /\
  exists r, image r (ri_vps_ip info) = disk_of w !! scratch_file id /\ mounted (ri_vps_ip info) (ri_ssh_key_path info) name r (rh_servers w').
Proof.
  intros Hid ([[key s] ip] & w1 & Hconn & E)%bind_ok. pose proof (connect_key _ _ _ _ _ _ _ _ _ _ Hconn) as ->.
  pose proof (connect_keeps i id name location server_type w (scratch_file id) eq_refl) as Hd1. rewrite Hconn in Hd1. cbn in Hd1.
  set (key := path_join (clawcage_dir h) "remote_ssh_key") in *. assert (word key = true) as Hkey by (apply word_join; [by apply word_join|done]).
  apply bind_ok in E as ([] & w2 & Hemit & (scratch & w3 & Hls & ([] & w4 & Ht%labelled_ok & E)%bind_ok)%bind_ok). injection Hemit as <-.
  unfold local_scratch in Hls. rewrite scratch_path in Hls. cbn [disk_of emit_progress rh_cloud] in Hls.
  change (disk_of (emit_progress _ w1)) with (disk_of w1) in Hls. case_bool_decide as Hex; [|done]. injection Hls as <- <-.
  apply bind_ok in E as ([] & w5 & Hemit & ([] & w6 & Hcl & (out & w7 & Hm%labelled_ok & Hret)%bind_ok)%bind_ok). injection Hemit as <-. injection Hcl as <-.
  injection Hret as <- <-. cbn [ri_vps_ip ri_ssh_key_path]. intros Hip.
  assert (word (scratch_file id) = true) as Hws by (by apply word_venv).
  unfold transfer_scratch in Ht. change (transfer_command key ip (scratch_file id) "up") with (send_line key ip (scratch_file id)) in Ht.
  change (disk_of (emit_progress _ w1)) with (disk_of w1) in Ht. set (r0 := rh_servers _) in Ht.
  pose proof (send_reads key ip (scratch_file id) (disk_of w1) r0 Hkey Hip Hws) as Hr.
  destruct (pipeline _ _ _) as [[[[[[] o] e]|e] d] r] eqn:Hp; [|done..]. injection Ht as <-. cbn in Hr. subst d.
  pose proof (send_copies key ip (scratch_file id) _ r0 _ r o e Hkey Hip Hws Hp) as Himg.
  apply ssh_run_ok in Hm as (Hd7 & o' & e' & Hm). rewrite Hd7, ssh_disk, <- Hd1. split; [done|]. split; [done|]. exists r. split; [done|].
  rewrite ssh_servers in Hm. by exists o', e'.
Qed.

Definition detach_error (id e : string) : RemoteModeProgress :=
  {| rp_venv_id := id; rp_operation := "detach"; rp_step := "error"; rp_step_label := "Failed"; rp_step_index := 0; rp_total_steps := 0; rp_done := true; rp_error := Some e |}.
Definition detach_done (id : string) : RemoteModeProgress :=
  {| rp_venv_id := id; rp_operation := "detach"; rp_step := "done"; rp_step_label := "Done"; rp_step_index := 5; rp_total_steps := 5; rp_done := true; rp_error := None |}.

(** C23: On a host whose files can be read and written, whose home directory and whose venv's
    id hold no character that the shell reads specially, a detach either fails with the
    venv local again, or leaves it remote. When it succeeds the venv is recorded as remote
    with the answered session and, when the server's address is free of such characters
    too, the local disk is still there, a copy of it arrived on the server, and there the
    command that mounts the copy and starts the shell in it succeeded. When it fails the
    recorded mode is local, so the venv can be detached again. Either way the last event
    tells the window. *)
Theorem detach_outcome (i : RemoteInput) (id name : string) (location server_type : option string) (w w' : RemoteHost) (r : result VenvConnectionStatus string)
    (Hid : word id = true) (Hrun : detach_venv io i id name location server_type w = (r, w')) :
  match r with
  | Ok st => exists info, st = {| vc_venv_id := id; vc_mode := Remotely info |} /\ load_mode io id (disk_of w') = Remotely info /\ last (rh_events w') = Some (detach_done id) /\
      (word (ri_vps_ip info) = true -> disk_of w' !! scratch_file id = disk_of w !! scratch_file id /\ is_Some (disk_of w !! scratch_file id) /\
        exists r1, image r1 (ri_vps_ip info) = disk_of w !! scratch_file id /\ mounted (ri_vps_ip info) (ri_ssh_key_path info) name r1 (rh_servers w'))
  | Err e => load_mode io id (disk_of w') = Local /\ last (rh_events w') = Some (detach_error id e)
  end.
Proof.
  unfold detach_venv in Hrun. destruct (on_save id Detaching w) as (w1 & E1 & _ & Hk1 & Hs1 & _). unfold bind at 1 in Hrun. rewrite E1 in Hrun.
  specialize (Hk1 (scratch_file id) (scratch_not_state id)). unfold bind at 1 in Hrun.
  destruct (detach_steps io i id name location server_type w1) as [[info|e] w2] eqn:Hst.
  - destruct (on_save id (Remotely info) w2) as (w3 & E3 & Hl3 & Hk3 & Hs3 & _). unfold bind at 1 in Hrun. rewrite E3 in Hrun. injection Hrun as <- <-.
    specialize (Hk3 (scratch_file id) (scratch_not_state id)).
    exists info. split; [done|]. split; [exact Hl3|]. split; [cbn; by rewrite last_snoc|]. intros Hip.
    destruct (steps_done _ _ _ _ _ _ _ _ Hid Hst Hip) as (Hd & Hex & r1 & Hi & Hm). change (disk_of (emit_progress _ w3)) with (disk_of w3).
    rewrite Hk3, Hd, Hk1. rewrite Hk1 in Hex, Hi. split; [done|]. split; [done|]. exists r1. split; [done|]. cbn. by rewrite Hs3.
  - destruct (on_save id Local (emit_progress (detach_error id e) w2)) as (w3 & E3 & Hl3 & _ & _ & He3).
    unfold bind, emit_error, on_host, ignore, fail in Hrun. fold (detach_error id e) in Hrun. rewrite E3 in Hrun. injection Hrun as <- <-.
    split; [exact Hl3|]. rewrite He3. cbn. by rewrite last_snoc.
Qed.

(** *** Reattaching *)

Definition reattach_error (id e : string) : RemoteModeProgress :=
  {| rp_venv_id := id; rp_operation := "reattach"; rp_step := "error"; rp_step_label := "Failed"; rp_step_index := 0; rp_total_steps := 0; rp_done := true; rp_error := Some e |}.
Definition reattach_done (id : string) : RemoteModeProgress :=
  {| rp_venv_id := id; rp_operation := "reattach"; rp_step := "done"; rp_step_label := "Done"; rp_step_index := 3; rp_total_steps := 3; rp_done := true; rp_error := None |}.

Lemma release_keeps i id info : keeps (fun p => p = scratch_file id) (on_cloud (release_remote_session io (rt_now i) (ri_session_id info))).
Proof. apply keeps_on_cloud, keeps_call. intros p Hp. by apply (scratch_not_config id). Qed.


End Outcome.

(** ** A server to detach to *)

Module Demo.

Definition answers_table : list (string * Json) := [("exp", JObj [("exp", JNum 10000)]); ("conflict", JObj [("error", JStr "active session exists")]);
   ("sessions", JObj [("sessions", JArr [])])].

#[local] Instance answers : SerdeJson := {|
  Value := Json;
  value_from_slice b := snd <$> list_find_first (fun kv => bool_decide (bytes_of_string kv.1 = b)) answers_table;
  get := @get tree_json; as_str := @as_str tree_json; as_u64 := @as_u64 tree_json; as_bool := @as_bool tree_json; as_array := @as_array tree_json;
  as_object := @as_object tree_json; json_to_string := @json_to_string tree_json; json_obj := JObj; json_arr := JArr; json_str := JStr;
  json_num := JNum; json_bool := JBool; json_null := JNull;
|}.

#[local] Instance i64 : JsonI64 := fun v => match v with JNum z => Some z | _ => None end.

#[local] Instance scripted : Http := {|
  Net := list (result Response string);
  http _ net := match net with [] => (Err "connection refused", []) | r :: net => (r, net) end;
|}.

Definition info_fields (i : RemoteVenvInfo) :=
  (ri_session_id i, ri_vps_ip i, ri_ssh_fingerprint i, ri_ssh_key_path i, ri_detached_at i, ri_session_key_b64 i, ri_snapshot_path i).
Definition of_info (f : string * string * string * string * string * string * string) : RemoteVenvInfo :=
  let '(a, b, c, d, e, f, g) := f in
  {| ri_session_id := a; ri_vps_ip := b; ri_ssh_fingerprint := c; ri_ssh_key_path := d; ri_detached_at := e; ri_session_key_b64 := f; ri_snapshot_path := g |}.

#[global] Instance info_eq_dec : EqDecision RemoteVenvInfo.
Proof. solve_decision. Defined.

#[global] Instance info_countable : Countable RemoteVenvInfo.
Proof. apply (inj_countable' info_fields of_info). by intros []. Defined.

#[global] Instance mode_eq_dec : EqDecision ConnectionMode.
Proof. solve_decision. Defined.

Definition mode_sum (m : ConnectionMode) : bool + (bool * RemoteVenvInfo) :=
  match m with Local => inl true | Detaching => inl false | Remotely i => inr (true, i) | Reattaching i => inr (false, i) end.
Definition of_sum (s : bool + (bool * RemoteVenvInfo)) : ConnectionMode :=
  match s with inl true => Local | inl false => Detaching | inr (true, i) => Remotely i | inr (false, i) => Reattaching i end.

#[global] Instance mode_countable : Countable ConnectionMode.
Proof. apply (inj_countable' mode_sum of_sum). by intros []. Defined.

Definition session : RemoteSession :=
  {| rs_id := "s1"; rs_venv_name := "dev"; rs_state := "ready"; rs_vps_ip := Some "10.0.0.1"; rs_ssh_fingerprint := None; rs_created_at := None; rs_updated_at := None |}.

Definition other : RemoteSession :=
  {| rs_id := "s2"; rs_venv_name := "prod"; rs_state := "ready"; rs_vps_ip := Some "10.0.0.2"; rs_ssh_fingerprint := None; rs_created_at := None; rs_updated_at := None |}.

#[local] Instance json : RemoteJson := {|
  created_from_slice _ := Ok {| cr_session := session; cr_reused := false |};
  status_from_slice _ := Ok {| st_session := session |};
  sessions_from_value _ := Some [session; other];
  mode_from_str s := decode (VenvStore.Demo.text_bits s);
  mode_to_string_pretty m := Ok (VenvStore.Demo.bits_text (encode m));
|}.

#[local] Instance json_ok : RemoteJsonRoundtrip.
Proof.
  constructor. intros m text [= <-]. cbn. rewrite VenvStore.Demo.text_bits_text, decode_encode. split; [done|].
  apply utf8_ascii, VenvStore.Demo.bits_text_ascii.
Qed.

Definition KEY : string := "/h/.clawcage/remote_ssh_key".
Definition IP : string := "10.0.0.1".
Definition SCRATCH : string := "/h/.clawcage/venvs/venv-fff/scratch.img".

(** One server, with or without a disk. *)
#[global] Instance remote : Remote := {|
  Servers := option (list byte);
  ssh _ r := (Ok (true, [], []), r);
  pipeline cmd d r :=
    if bool_decide (cmd = send_line KEY IP SCRATCH) then (Ok (true, [], []), d, d !! SCRATCH)
    else if bool_decide (cmd = fetch_line KEY IP SCRATCH) then
      match r with Some data => (Ok (true, [], []), <[SCRATCH := data]> d, r) | None => (Ok (false, [], []), d, r) end
    else (Ok (false, [], []), d, r);
  ssh_keygen args d :=
    match args with _ :: _ :: _ :: priv :: _ => (Ok None, <[priv := [x41]]> (<[priv +:+ ".pub" := [x42]]> d)) | _ => (Ok (Some "exit status: 1"), d) end;
|}.

Lemma word_no_quote s : word s = true -> contains_char s "'" = false.
Proof.
  intros Hs. unfold word in Hs. apply bool_decide_eq_true in Hs. rewrite <- Hs. clear Hs. induction s as [|c s IH]; [done|]. cbn [shell_escape].
  destruct (shell_char c) eqn:E; [|done]. rewrite contains_char_cons, IH. case_bool_decide; [by subst|done].
Qed.

Lemma quote_inj a b x y : contains_char a "'" = false -> contains_char b "'" = false -> a +:+ String "'" x = b +:+ String "'" y -> a = b /\ x = y.
Proof.
  revert b. induction a as [|c a IH]; intros [|d b] Ha Hb E; rewrite ?contains_char_cons in *.
  - by injection E as ->.
  - injection E as <- _. done.
  - injection E as -> _. done.
  - rewrite !sapp_cons in E. injection E as -> E. apply orb_false_elim in Ha as [_ Ha], Hb as [_ Hb]. by destruct (IH b Ha Hb E) as [-> ->].
Qed.

Lemma send_inj key ip path : word path = true -> send_line key ip path = send_line KEY IP SCRATCH -> path = SCRATCH.
Proof. intros Hp%word_no_quote E. unfold send_line in E. apply sapp_inv_l in E. by apply quote_inj in E as [-> _]. Qed.

Lemma ssh_line_no_quote key ip : word key = true -> word ip = true -> contains_char (ssh_line key ip +:+ " ") "'" = false.
Proof. intros Hk%word_no_quote Hi%word_no_quote. unfold ssh_line. by rewrite !contains_char_app, Hk, Hi. Qed.

Lemma fetch_split key ip path :
  fetch_line key ip path = (ssh_line key ip +:+ " ") +:+ String "'" ("zstd -T0 -1 < /root/archive/scratch.img' | zstd -d --sparse -o '" +:+ path +:+ "' -f").
Proof. unfold fetch_line. by rewrite <- (sapp_assoc (ssh_line key ip) " "). Qed.

Lemma fetch_inj key ip path : word key = true -> word ip = true -> word path = true -> fetch_line key ip path = fetch_line KEY IP SCRATCH -> path = SCRATCH.
Proof.
  intros Hk Hi Hp%word_no_quote E. rewrite !fetch_split in E. apply quote_inj in E as [_ E]; [|by apply ssh_line_no_quote..].
  apply sapp_inv_l in E. by apply quote_inj in E as [-> _].
Qed.

Lemma send_not_fetch key ip path key' ip' path' : send_line key ip path <> fetch_line key' ip' path'.
Proof. done. Qed.

#[global] Program Instance remote_ok : RemoteLaws := {| image r _ := r |}.
Next Obligation. intros priv p d Hp Hq. cbn. by rewrite !lookup_insert_ne. Qed.
Next Obligation.
  intros key ip path d r Hk Hi Hp. cbn. case_bool_decide; [done|]. case_bool_decide as Hc; [by apply send_not_fetch in Hc|done].
Qed.
Next Obligation.
  intros key ip path d r d' r' out err Hk Hi Hp E. cbn in E. case_bool_decide as Hc; [|case_bool_decide; done].
  apply send_inj in Hc as ->; [|done]. by injection E as <- <- <- <-.
Qed.
Next Obligation.
  intros key ip path p d r Hk Hi Hp Hne. cbn. case_bool_decide as Hx; [by apply eq_sym, send_not_fetch in Hx|]. case_bool_decide as Hc; [|done].
  apply fetch_inj in Hc as ->; [|done..]. destruct r; [|done]. cbn. by rewrite lookup_insert_ne.
Qed.
Next Obligation.
  intros key ip path d r d' r' out err Hk Hi Hp E. cbn in E. case_bool_decide as Hx; [by apply eq_sym, send_not_fetch in Hx|]. case_bool_decide as Hc; [|done].
  apply fetch_inj in Hc as ->; [|done..]. destruct r as [data|]; [|done]. injection E as <- <- <- <-. split; [done|]. apply lookup_insert_eq.
Qed.

Definition io : RemoteIo := {| ro_cloud := Cloud.Demo.working; ro_status_text _ := "409 Conflict"; ro_chmod_error _ := None |}.

Lemma remote_io_works : remote_works io "/h".
Proof. constructor; try done. intros m. by eexists. Qed.

Definition i : RemoteInput := {| rt_now := 0; rt_now_iso := "t1"; rt_attempts := 2 |}.

Definition answer (status : Z) (body : string) : result Response string := Ok {| rs_status := status; rs_body := Ok (bytes_of_string body) |}.

(** A venv with a disk of two bytes; the token's payload is the text exp. *)
Definition start (net : list (result Response string)) : RemoteHost :=
  {| rh_cloud := {| h_disk := {[SCRATCH := [x41; x42]]}; h_keychain := {["access-token" := "h.657870.s"]}; h_net := (net : Net); h_sent := [] |};
     rh_servers := (None : Servers); rh_events := [] |}.

Definition detached := detach_venv io i "venv-fff" "dev" None None (start [answer 200 ""]).
(** The session writes to the disk before the venv comes back. *)
Definition worked : RemoteHost := set_servers (Some [x41; x43] : Servers) detached.2.
Definition reattached := reattach_venv io i "venv-fff" worked.

Definition status_of (r : result VenvConnectionStatus string) : option ConnectionMode := match r with Ok st => Some (vc_mode st) | Err _ => None end.

Definition the_info : RemoteVenvInfo :=
  {| ri_session_id := "s1"; ri_vps_ip := IP; ri_ssh_fingerprint := ""; ri_ssh_key_path := KEY; ri_detached_at := "t1"; ri_session_key_b64 := ""; ri_snapshot_path := "" |}.

Example detached_runs : (status_of detached.1, rh_servers detached.2 : option (list byte)) = (Some (Remotely the_info), Some [x41; x42]).
Proof. vm_compute. reflexivity. Qed.

(** The service says that there is a session: every session of the account is destroyed,
    that of another venv included, and a new one is made. *)
Example conflict_destroys_all :
  let w := (detach_venv io i "venv-fff" "dev" None None (start [answer 409 "conflict"; answer 200 "sessions"; answer 200 ""; answer 200 ""; answer 200 ""])).2 in
  map (fun r => (bool_decide (rq_url r = DEFAULT_CLOUD_URL +:+ "/api/remote-sessions/s2?force=true"), match rq_method r with DELETE => true | _ => false end)) (h_sent (rh_cloud w)) =
    [(false, false); (false, false); (false, true); (true, true); (false, false)].
Proof. vm_compute. reflexivity. Qed.

(** A venv that is remote can be detached again: when that fails, its session is forgotten
    and the disk on the server with it. *)
Example session_forgotten :
  let w := (detach_venv io i "venv-fff" "dev" None None worked).2 in
  (load_mode io "venv-fff" (disk_of worked), load_mode io "venv-fff" (disk_of w)) = (Remotely the_info, Local).
Proof. vm_compute. reflexivity. Qed.

Lemma detached_status : status_of detached.1 = Some (Remotely the_info).
Proof. vm_compute. reflexivity. Qed.

Lemma reattached_status : status_of reattached.1 = Some Local.
Proof. vm_compute. reflexivity. Qed.

Lemma worked_info : current_info io "venv-fff" (disk_of worked) = Some the_info.
Proof. vm_compute. reflexivity. Qed.

End Demo.

#[local] Existing Instance Demo.answers.
#[local] Existing Instance Demo.i64.
#[local] Existing Instance Demo.scripted.
#[local] Existing Instance Demo.json.
#[local] Existing Instance Demo.json_ok.

Lemma detach_outcome_witness :
  load_mode Demo.io "venv-fff" (disk_of Demo.detached.2) = Remotely Demo.the_info /\ is_Some (disk_of (Demo.start [Demo.answer 200 ""]) !! scratch_file "/h" "venv-fff").
Proof.
  pose proof (detach_outcome Demo.io "/h" Demo.remote_io_works eq_refl Demo.i "venv-fff" "dev" None None (Demo.start [Demo.answer 200 ""]) Demo.detached.2 Demo.detached.1
    eq_refl (surjective_pairing _)) as H. pose proof Demo.detached_status as Hs. destruct Demo.detached.1 as [st|e]; [|discriminate].
  destruct H as (info & -> & Hl & _ & Hd). injection Hs as ->. split; [exact Hl|]. apply (Hd eq_refl).
Defined.

