(* ===== verification/Assets.v ===== *)
(** Assets: clawcage-core/src/asset_manager.rs, the manifest of hashes, the check of the
    files on disk and the download with its verification, and the functions of
    clawcage-app/src/main.rs that find the VM's files and start a download.

    The disk has inodes: a download writes through its handle while other tasks create,
    rename and remove names. A download is a step machine from one system call to the
    next; [download_asset] runs it alone, and a list of steps of several downloads is an
    interleaving. Alone, a file is installed only if it was verified
    ([downloaded_asset_verified]); two downloads of one file can both fail or leave a
    truncated file installed ([concurrent_downloads_fail], [verified_asset_truncated]). *)

From Stdlib Require Import ZArith Lia Ascii.
From stdpp Require Import base numbers list gmap strings.
From S2P Require Import Prelude RustStr RustText SessionTime Paths.

(** ** Files *)

Record Disk := {
  names : gmap string nat;
  inodes : gmap nat (list byte);
  dirs : gset string;
  next_inode : nat;
}.

Definition set_names x d := {| names := x; inodes := inodes d; dirs := dirs d; next_inode := next_inode d |}.
Definition set_inodes x d := {| names := names d; inodes := x; dirs := dirs d; next_inode := next_inode d |}.

Definition path_exists (p : string) (d : Disk) : bool := bool_decide (p ∈ dirs d) || bool_decide (is_Some (names d !! p)).

(** The bytes of a file. *)
Definition content (p : string) (d : Disk) : option (list byte) := names d !! p ≫= fun i => inodes d !! i.

(** [File::create] truncates the file a name already has. *)
Definition create_file (p : string) (d : Disk) : nat * Disk :=
  match names d !! p with
  | Some i => (i, set_inodes (<[i := []]> (inodes d)) d)
  | None =>
      let i := next_inode d in
      (i, {| names := <[p := i]> (names d); inodes := <[i := []]> (inodes d); dirs := dirs d; next_inode := S i |})
  end.

(** A write at an offset; a gap before it reads as zeros. *)
Definition write_at (i offset : nat) (chunk : list byte) (d : Disk) : Disk :=
  let old := default [] (inodes d !! i) in
  set_inodes (<[i := take offset (old ++ replicate (offset - length old) Byte.x00) ++ chunk ++ drop (offset + length chunk) old]> (inodes d)) d.

Definition rename_file (a b : string) (d : Disk) : Disk :=
  match names d !! a with Some i => set_names (<[b := i]> (delete a (names d))) d | None => d end.

Definition remove_name (p : string) (d : Disk) : Disk := set_names (delete p (names d)) d.

(** A directory and its ancestors. *)
Fixpoint ancestors (fuel : nat) (p : string) : list string :=
  match fuel with
  | O => []
  | S fuel => p :: match path_parent p with Some q => ancestors fuel q | None => [] end
  end.

Definition create_dir_all (p : string) (d : Disk) : Disk :=
  {| names := names d; inodes := inodes d; dirs := list_to_set (ancestors (S (String.length p)) p) ∪ dirs d; next_inode := next_inode d |}.

(** ** The manifest *)

Record ManifestEntry := { hash : string; filename : string }.

(** [line.splitn(2, char::is_whitespace)] on the characters of a line. *)
Fixpoint splitn_ws (cs : list string) : string * option string :=
  match cs with
  | [] => ("", None)
  | c :: cs => if is_whitespace c then ("", Some (sconcat cs)) else let '(a, b) := splitn_ws cs in (c +:+ a, b)
  end.

Definition parse_b3sums_line (line : string) : result (option ManifestEntry) string :=
  let line := trim line in
  if is_empty line || starts_with line "#" then Ok None
  else
    match splitn_ws (chars line) with
    | (_, None) => Err ("invalid B3SUMS line: " +:+ line)
    | (a, Some b) =>
        let hash := trim a in
        let filename := trim b in
        if negb (slen hash =? 64) || negb (all_chars is_ascii_hexdigit hash) then Err ("invalid blake3 hash in B3SUMS: " +:+ hash)
        else Ok (Some {| hash := hash; filename := filename |})
    end.

Fixpoint parse_b3sums_lines (ls : list string) (entries : list ManifestEntry) : result (list ManifestEntry) string :=
  match ls with
  | [] => Ok entries
  | l :: ls =>
      let? e := parse_b3sums_line l in
      parse_b3sums_lines ls (match e with Some e => entries ++ [e] | None => entries end)
  end.

Definition parse_b3sums (content : string) : result (list ManifestEntry) string := parse_b3sums_lines (lines content) [].

(** ** Hashes *)

Class Blake3 := {
  Hasher : Type;
  hasher_new : Hasher;
  hasher_update : Hasher -> list byte -> Hasher;
  to_hex : Hasher -> string;
}.

Class Blake3Laws `{Blake3} := {
  update_nil h : hasher_update h [] = h;
  update_app h a b : hasher_update (hasher_update h a) b = hasher_update h (a ++ b);
  to_hex_lower h : slen (to_hex h) = 64 /\ all_chars (fun c => is_ascii_hexdigit c && bool_decide (ascii_lower_char c = c)) (to_hex h) = true;
}.

Definition blake3 `{Blake3} (l : list byte) : string := to_hex (hasher_update hasher_new l).

Definition HASH_BUF : Z := 256 * 1024.

(** Which system calls fail, with their errors. *)
Record Io := {
  getenv : string -> option string;
  current_exe : option string;
  open_error : string -> option string;
  read_error : string -> option string;
  cannot_remove : string -> bool;
  statvfs : string -> option (Z * Z);
  read_dir : Disk -> string -> result (list (result string string)) string;
}.

Section Hash.
Context `{Blake3} (io : Io).

(** A read fills the buffer unless the file ends. *)
Fixpoint hash_loop (fuel : nat) (rest : list byte) (h : Hasher) : option Hasher :=
  match fuel with
  | O => None
  | S fuel =>
      let n := Z.to_nat (Z.min HASH_BUF (Z.of_nat (length rest))) in
      if (n =? 0)%nat then Some h else hash_loop fuel (drop n rest) (hasher_update h (take n rest))
  end.

(** [None] is a loop that did not end. *)
Definition hash_file (p : string) (d : Disk) : option (result string string) :=
  match open_error io p with
  | Some e => Some (Err e)
  | None =>
      if bool_decide (p ∈ dirs d) then Some (Err "Is a directory")
      else match content p d with
           | None => Some (Err ("cannot open " +:+ p))
           | Some c =>
               match read_error io p with
               | Some e => Some (Err e)
               | None => h ← hash_loop (S (length c)) c hasher_new; Some (Ok (to_hex h))
               end
           end
  end.

(** What [hash_file] is. *)
Definition hash_of (p : string) (d : Disk) : result string string :=
  match open_error io p with
  | Some e => Err e
  | None =>
      if bool_decide (p ∈ dirs d) then Err "Is a directory"
      else match content p d with
           | None => Err ("cannot open " +:+ p)
           | Some c => match read_error io p with Some e => Err e | None => Ok (blake3 c) end
           end
  end.

End Hash.

(** ** The manager *)

Inductive AssetStatus :=
| AssetReady (path : string)
| NeedsDownload (url expected_hash dest : string).

Record DownloadProgress := { dp_asset : string; dp_bytes_downloaded : Z; dp_total_bytes : Z; dp_phase : string }.

Record AssetManager := { assets_dir : string; base_url : string; manifest : list ManifestEntry }.

Definition AssetManager_new (assets_dir base_url b3sums_content : string) : result AssetManager string :=
  let? manifest := parse_b3sums b3sums_content in
  match manifest with
  | [] => Err "B3SUMS manifest is empty"
  | _ => Ok {| assets_dir := assets_dir; base_url := base_url; manifest := manifest |}
  end.

Definition find_entry (m : AssetManager) (name : string) : option ManifestEntry :=
  list_find_first (fun e => bool_decide (filename e = name)) (manifest m).

Definition expected_hash (m : AssetManager) (name : string) : option string := hash <$> find_entry m name.

Definition manifest_filenames (m : AssetManager) : list string := map filename (manifest m).

Definition not_in_manifest (name : string) : string := name +:+ " not found in B3SUMS manifest".

(** A response as its status, how the status is printed, the announced length and what
    arrives of the body; [rs_stalls]: after it the server keeps the connection open without
    ending the body (of an endless body, what has come so far). *)
Record Response := {
  rs_status : Z; rs_status_text : string; rs_content_length : option Z; rs_body : list (result (list byte) string);
  rs_stalls : bool;
}.

(** The calls of one download that can fail. The client has no timeout: [dl_send] is [None]
    when the server never answers. *)
Record DownloadIo := {
  dl_mkdir_error : option string;
  dl_send : option (result Response string);
  dl_create_error : option string;
  dl_write_error : nat -> option (string * nat);
  dl_flush_error : option string;
  dl_rename_error : option string;
}.

Inductive DownloadPhase :=
| PConnect
| PCreate (r : Response)
| PStream (r : Response) (inode offset index : nat) (body : list (result (list byte) string))
| PVerify (r : Response) (offset : nat)
| PRename (r : Response) (offset : nat) (actual : string)
| PWait
| PDone (r : result string string).

Section Manager.
Context `{Blake3} (io : Io) (m : AssetManager).

Definition asset_path (name : string) : string := path_join (assets_dir m) name.
Definition tmp_path (name : string) : string := path_join (assets_dir m) (name +:+ ".tmp").
Definition asset_url (name : string) : string := base_url m +:+ "/" +:+ name.

Definition check_asset (name : string) (d : Disk) : option (result AssetStatus string) :=
  match find_entry m name with
  | None => Some (Err (not_in_manifest name))
  | Some entry =>
      let local_path := asset_path name in
      let needed := NeedsDownload (asset_url name) (hash entry) local_path in
      if path_exists local_path d then
        r ← hash_file io local_path d;
        Some (let? actual_hash := r in Ok (if bool_decide (actual_hash = hash entry) then AssetReady local_path else needed))
      else Some (Ok needed)
  end.

Fixpoint check_entries (entries : list ManifestEntry) (d : Disk) (results : list (string * AssetStatus))
  : option (result (list (string * AssetStatus)) string) :=
  match entries with
  | [] => Some (Ok results)
  | e :: entries =>
      r ← check_asset (filename e) d;
      match r with Err e => Some (Err e) | Ok status => check_entries entries d (results ++ [(filename e, status)]) end
  end.

Definition check_all (d : Disk) : option (result (list (string * AssetStatus)) string) := check_entries (manifest m) d [].

(** *** Download *)

Record Task := { tk_name : string; tk_io : DownloadIo; tk_phase : DownloadPhase; tk_progress : list DownloadProgress }.

Definition task_new (name : string) (dio : DownloadIo) : Task :=
  {| tk_name := name; tk_io := dio; tk_phase := PConnect; tk_progress := [] |}.

Definition total_bytes (r : Response) : Z := default 0 (rs_content_length r).

Definition at_phase (t : Task) (ph : DownloadPhase) (news : list (Z * Z * string)) : Task :=
  {| tk_name := tk_name t; tk_io := tk_io t; tk_phase := ph;
     tk_progress := tk_progress t ++ map (fun '(bytes, total, phase) =>
       {| dp_asset := tk_name t; dp_bytes_downloaded := bytes; dp_total_bytes := total; dp_phase := phase |}) news |}.

Definition failed (t : Task) (e : string) : Task := at_phase t (PDone (Err e)) [].

(** The part of [download_asset] before the temporary file: entry, directory, request. *)
Definition connect_step (t : Task) (d : Disk) : Task * Disk :=
  match find_entry m (tk_name t) with
  | None => (failed t (not_in_manifest (tk_name t)), d)
  | Some _ =>
      match dl_mkdir_error (tk_io t) with
      | Some _ => (failed t "failed to create assets directory", d)
      | None =>
          let d := create_dir_all (assets_dir m) d in
          let t := at_phase t PConnect [(0, 0, "connecting")] in
          match dl_send (tk_io t) with
          | None => (at_phase t PWait [], d)
          | Some (Err _) => (failed t "download request failed", d)
          | Some (Ok r) =>
              if (200 <=? rs_status r) && (rs_status r <=? 299) then (at_phase t (PCreate r) [], d)
              else (failed t ("download failed: HTTP " +:+ rs_status_text r +:+ " for " +:+ asset_url (tk_name t)), d)
          end
      end
  end.

(** One chunk of the body, its end, or the wait for what never comes. *)
Definition stream_step (t : Task) (r : Response) (i offset index : nat) (body : list (result (list byte) string)) (d : Disk) : Task * Disk :=
  match body with
  | [] =>
      if rs_stalls r then (at_phase t PWait [], d)
      else match dl_flush_error (tk_io t) with
      | Some e => (failed t e, d)
      | None => (at_phase t (PVerify r offset) [(Z.of_nat offset, total_bytes r, "verifying")], d)
      end
  | Err _ :: _ => (failed t "error reading download stream", d)
  | Ok chunk :: body =>
      match dl_write_error (tk_io t) index with
      | Some (_, written) => (failed t "failed to write chunk", write_at i offset (take written chunk) d)
      | None =>
          let offset' := (offset + length chunk)%nat in
          (at_phase t (PStream r i offset' (S index) body) [(Z.of_nat offset', total_bytes r, "downloading")], write_at i offset chunk d)
      end
  end.

Definition verify_step (t : Task) (r : Response) (offset : nat) (d : Disk) : option (Task * Disk) :=
  let tmp := tmp_path (tk_name t) in
  actual ← hash_file io tmp d;
  match actual, find_entry m (tk_name t) with
  | Err e, _ => Some (failed t e, d)
  | Ok actual_hash, Some entry =>
      if bool_decide (actual_hash = hash entry) then Some (at_phase t (PRename r offset actual_hash) [], d)
      else
        let d := if cannot_remove io tmp then d else remove_name tmp d in
        Some (failed t ("hash verification failed for " +:+ tk_name t +:+ ": expected " +:+ hash entry +:+ ", got " +:+ actual_hash), d)
  | Ok _, None => Some (failed t (not_in_manifest (tk_name t)), d)
  end.

Definition rename_step (t : Task) (r : Response) (offset : nat) (d : Disk) : Task * Disk :=
  let tmp := tmp_path (tk_name t) in
  let dest := asset_path (tk_name t) in
  match dl_rename_error (tk_io t), names d !! tmp with
  | None, Some _ =>
      (at_phase t (PDone (Ok dest)) [(Z.of_nat offset, total_bytes r, "complete")], rename_file tmp dest d)
  | _, _ => (failed t "failed to move verified asset into place", d)
  end.

Definition download_step (t : Task) (d : Disk) : option (Task * Disk) :=
  match tk_phase t with
  | PConnect => Some (connect_step t d)
  | PCreate r =>
      match dl_create_error (tk_io t) with
      | Some _ => Some (failed t "failed to create temp file", d)
      | None => let '(i, d) := create_file (tmp_path (tk_name t)) d in Some (at_phase t (PStream r i 0 0 (rs_body r)) [], d)
      end
  | PStream r i offset index body => Some (stream_step t r i offset index body d)
  | PVerify r offset => verify_step t r offset d
  | PRename r offset _ => Some (rename_step t r offset d)
  | PWait | PDone _ => Some (t, d)
  end.

Fixpoint run_download (fuel : nat) (t : Task) (d : Disk) : option (Task * Disk) :=
  match tk_phase t with
  | PWait | PDone _ => Some (t, d)
  | _ => match fuel with O => None | S fuel => '(t, d) ← download_step t d; run_download fuel t d end
  end.

Definition body_length (dio : DownloadIo) : nat := match dl_send dio with Some (Ok r) => length (rs_body r) | _ => 0 end.

(** A result of [None]: the future stays pending on the server. *)
Definition download_asset (name : string) (dio : DownloadIo) (d : Disk)
  : option (option (result string string) * Disk * list DownloadProgress) :=
  '(t, d) ← run_download (body_length dio + 5) (task_new name dio) d;
  match tk_phase t with
  | PDone r => Some (Some r, d, tk_progress t)
  | PWait => Some (None, d, tk_progress t)
  | _ => None
  end.

(** *** Cleaning up *)

Fixpoint cleanup_entries (entries : list (result string string)) (removed : list string) (d : Disk) : result (list string) string * Disk :=
  match entries with
  | [] => (Ok removed, d)
  | Err e :: _ => (Err e, d)
  | Ok name :: entries =>
      let p := path_join (assets_dir m) name in
      let gone := if cannot_remove io p then d else remove_name p d in
      if ends_with name ".tmp" then cleanup_entries entries (removed ++ [p]) gone
      else if bool_decide (name ∈ manifest_filenames m) then cleanup_entries entries removed d
      else cleanup_entries entries (removed ++ [p]) gone
  end.

Definition cleanup_unrecognized (d : Disk) : result (list string) string * Disk :=
  if path_exists (assets_dir m) d then
    match read_dir io d (assets_dir m) with
    | Err e => (Err e, d)
    | Ok entries => cleanup_entries entries [] d
    end
  else (Ok [], d).

(** *** Space *)

(** [None] is a walk up that did not end. *)
Fixpoint existing_ancestor (fuel : nat) (path check_path : string) (d : Disk) : option (result string string) :=
  match fuel with
  | O => None
  | S fuel =>
      if path_exists check_path d then Some (Ok check_path)
      else match path_parent check_path with
           | Some p => existing_ancestor fuel path p d
           | None => Some (Err ("cannot find existing ancestor of " +:+ path))
           end
  end.

Definition check_available_space (path : string) (needed : Z) (d : Disk) : option (result bool string) :=
  r ← existing_ancestor (S (String.length path)) path path d;
  match r with
  | Err e => Some (Err e)
  | Ok check_path =>
      match statvfs io check_path with
      | None => Some (Err ("statvfs failed for " +:+ check_path))
      | Some (f_bavail, f_frsize) => Some (Ok (needed <=? as_uN 64 (f_bavail * f_frsize)))
      end
  end.

Definition check_disk_space (needed_bytes : Z) (d : Disk) : option (result bool string) :=
  check_available_space (assets_dir m) needed_bytes d.

End Manager.

(** *** Downloads that overlap *)

(** The tasks take steps in the order of the list. *)
Fixpoint interleave `{Blake3} (io : Io) (m : AssetManager) (order : list nat) (ts : list Task) (d : Disk) : option (list Task * Disk) :=
  match order with
  | [] => Some (ts, d)
  | k :: order => t ← ts !! k; '(t, d) ← download_step io m t d; interleave io m order (<[k := t]> ts) d
  end.

(** ** Finding the files (clawcage-app/src/main.rs) *)

Section App.
Context `{Blake3} (io : Io) (version : string).

Definition default_assets_dir : option string := (fun h => path_join (path_join h ".clawcage") "assets") <$> getenv io "HOME".

Definition release_url : string := "https://github.com/google/clawcage/releases/download/v" +:+ version.

Definition has_kernel (d : Disk) (p : string) : bool := path_exists (path_join p "vmlinuz") d.

Definition resolve_assets_dir (d : Disk) : result string string :=
  let bundled :=
    contents ← (current_exe io ≫= path_parent) ≫= path_parent;
    let resources := path_join contents "Resources" in
    list_find_first (has_kernel d) [resources; path_join resources "assets"; path_join resources "_up_/_up_/assets"] in
  match getenv io "CLAWCAGE_ASSETS_DIR" ≫= fun p => if has_kernel d p then Some p else None with
  | Some p => Ok p
  | None =>
      match bundled with
      | Some p => Ok p
      | None =>
          if has_kernel d "assets" then Ok "assets"
          else if has_kernel d "../../assets" then Ok "../../assets"
          else Err "VM assets not found. Set CLAWCAGE_ASSETS_DIR or run from workspace root."
      end
  end.

Definition resolve_rootfs (bundled_assets : string) (d : Disk) : option string :=
  let bundled := path_join bundled_assets "rootfs.squashfs" in
  if path_exists bundled d then Some bundled
  else
    download_dir ← default_assets_dir;
    let downloaded := path_join download_dir "rootfs.squashfs" in
    if path_exists downloaded d then Some downloaded else None.

(** The B3SUMS file is read as text by [read_text]. *)
Definition create_asset_manager (read_text : string -> Disk -> option string) (bundled_assets : string) (d : Disk) : result AssetManager string :=
  match read_text (path_join bundled_assets "B3SUMS") d with
  | None => Err "B3SUMS not found in app bundle"
  | Some b3sums_content =>
      match default_assets_dir with
      | None => Err "cannot determine home directory"
      | Some download_dir => AssetManager_new download_dir release_url b3sums_content
      end
  end.

Definition rootfs_manifest_name (m : AssetManager) : result string string :=
  match list_find_first (fun f => starts_with f "rootfs") (manifest_filenames m) with
  | Some f => Ok f
  | None => Err "no rootfs entry in B3SUMS manifest"
  end.

(** The root file system of a command line run: found, or downloaded; [None] inside: the
    run waits for the server. *)
Definition ensure_rootfs (read_text : string -> Disk -> option string) (assets : string) (dio : DownloadIo) (d : Disk)
  : option (option (result string string) * Disk) :=
  match resolve_rootfs assets d with
  | Some path => Some (Some (Ok path), d)
  | None =>
      match create_asset_manager read_text assets d with
      | Err e => Some (Some (Err e), d)
      | Ok mgr =>
          match rootfs_manifest_name mgr with
          | Err e => Some (Some (Err e), d)
          | Ok name =>
              let d := (cleanup_unrecognized io mgr d).2 in
              '(r, d, _) ← download_asset io mgr name dio d;
              Some (r, d)
          end
      end
  end.

End App.

(** ** Hashing reads the whole file *)

Section Hashes.
Context `{Blake3Laws}.

Lemma hash_loop_ok fuel rest h : (length rest < fuel)%nat -> hash_loop fuel rest h = Some (hasher_update h rest).
Proof.
  revert rest h. induction fuel as [|fuel IH]; intros rest h Hf; [lia|]. cbn [hash_loop].
  set (n := Z.to_nat _). destruct (n =? 0)%nat eqn:Hn.
  - apply Nat.eqb_eq in Hn. destruct rest; [by rewrite update_nil|]. unfold n, HASH_BUF in Hn. cbn [length] in Hn. lia.
  - apply Nat.eqb_neq in Hn. rewrite IH; [by rewrite update_app, take_drop|]. rewrite length_drop. lia.
Qed.

Lemma hash_file_total io p d : hash_file io p d = Some (hash_of io p d).
Proof.
  unfold hash_file, hash_of. destruct (open_error io p); [done|]. case_bool_decide; [done|].
  destruct (content p d) as [c|]; [|done]. destruct (read_error io p); [done|].
  rewrite hash_loop_ok by lia. done.
Qed.

Lemma check_asset_ready io m name d e c :
  find_entry m name = Some e -> content (asset_path m name) d = Some c -> asset_path m name ∉ dirs d ->
  open_error io (asset_path m name) = None -> read_error io (asset_path m name) = None ->
  check_asset io m name d =
    Some (Ok (if bool_decide (blake3 c = hash e) then AssetReady (asset_path m name)
              else NeedsDownload (asset_url m name) (hash e) (asset_path m name))).
Proof.
  intros He Hc Hd Ho Hr. unfold check_asset. rewrite He.
  assert (path_exists (asset_path m name) d = true) as ->.
  { unfold path_exists. apply orb_true_iff. right. apply bool_decide_eq_true. unfold content in Hc.
    destruct (names d !! _); [eauto|done]. }
  rewrite hash_file_total. unfold hash_of. rewrite Ho, bool_decide_false, Hc, Hr by done. done.
Qed.

End Hashes.

Lemma tmp_not_dest m name : tmp_path m name <> asset_path m name.
Proof. unfold tmp_path, asset_path. rewrite path_join_app by done. by apply sapp_ne. Qed.

(** ** A download on its own *)

(** No two names share an inode, and inodes are numbered below the counter. *)
Definition disk_wf (d : Disk) : Prop :=
  (forall p q i, names d !! p = Some i -> names d !! q = Some i -> p = q) /\
  (forall p i, names d !! p = Some i -> (i < next_inode d)%nat /\ is_Some (inodes d !! i)).

Lemma content_other p i d d' :
  names d' !! p = names d !! p -> names d !! p <> Some i -> (forall j, j <> i -> inodes d' !! j = inodes d !! j) ->
  content p d' = content p d.
Proof.
  intros Hn Hi Hj. unfold content. rewrite Hn. destruct (names d !! p) as [j|]; [|done]. cbn. apply Hj. congruence.
Qed.

Lemma write_at_end i l chunk d : inodes d !! i = Some l ->
  write_at i (length l) chunk d = set_inodes (<[i := l ++ chunk]> (inodes d)) d.
Proof.
  intros Hi. unfold write_at. rewrite Hi. cbn [default]. rewrite Nat.sub_diag. cbn [replicate]. rewrite app_nil_r, firstn_all.
  by rewrite (drop_ge l) by lia; rewrite app_nil_r.
Qed.


Section Alone.
Context `{Blake3Laws} (io : Io) (m : AssetManager) (name : string) (dio : DownloadIo) (d0 : Disk).
Hypothesis (Hwf : disk_wf d0).

Abbreviation tmp := (tmp_path m name).
Abbreviation dest := (asset_path m name).

(** The disk while the bytes [l] are in the temporary file, inode [i]. *)
Record writing (i : nat) (l : list byte) (d : Disk) : Prop := {
  wr_names : names d = <[tmp := i]> (names d0);
  wr_inode : inodes d !! i = Some l;
  wr_others : forall j, j <> i -> inodes d !! j = inodes d0 !! j;
  wr_fresh : forall p, p <> tmp -> names d0 !! p <> Some i;
}.

(** Where no name but the temporary one changed. *)
Definition untouched (d : Disk) : Prop := forall p, p <> tmp -> content p d = content p d0.

Definition received (r : Response) (l : list byte) (body : list (result (list byte) string)) : Prop :=
  dl_send dio = Some (Ok r) /\ exists chunks, rs_body r = map Ok chunks ++ body /\ l = concat chunks.

(** The server never answers, or leaves the body open. *)
Definition server_stalls : Prop := dl_send dio = None \/ exists r, dl_send dio = Some (Ok r) /\ rs_stalls r = true.

Definition task_ok (t : Task) (d : Disk) : Prop :=
  tk_name t = name /\ tk_io t = dio /\
  match tk_phase t with
  | PConnect => names d = names d0 /\ inodes d = inodes d0 /\ next_inode d = next_inode d0
  | PCreate r => names d = names d0 /\ inodes d = inodes d0 /\ next_inode d = next_inode d0 /\ dl_send dio = Some (Ok r)
  | PStream r i offset _ body => exists l, writing i l d /\ offset = length l /\ received r l body
  | PVerify r _ => exists i l, writing i l d /\ received r l [] /\ rs_stalls r = false
  | PRename r _ actual => exists i l e, writing i l d /\ (received r l [] /\ rs_stalls r = false) /\ find_entry m name = Some e /\ blake3 l = hash e
  | PWait => untouched d /\ server_stalls
  | PDone (Err _) => untouched d
  | PDone (Ok p) =>
      exists r l e, p = dest /\ (received r l [] /\ rs_stalls r = false) /\ find_entry m name = Some e /\ blake3 l = hash e /\ content dest d = Some l /\ names d !! tmp = None /\ forall q, q <> tmp -> q <> dest -> content q d = content q d0
  end.

Lemma same_untouched d : names d = names d0 -> inodes d = inodes d0 -> untouched d.
Proof. intros Hn Hi p _. unfold content. by rewrite Hn, Hi. Qed.

Lemma writing_untouched i l d : writing i l d -> untouched d.
Proof.
  intros [Hn _ Ho Hf] p Hp. apply (content_other p i); [by rewrite Hn, lookup_insert_ne|by apply Hf|done].
Qed.

Lemma writing_removed i l d : writing i l d -> untouched (remove_name tmp d).
Proof.
  intros Hw p Hp. rewrite <- (writing_untouched i l d Hw p Hp). unfold content. cbn. by rewrite lookup_delete_ne.
Qed.

Lemma create_writing d i d' : names d = names d0 -> inodes d = inodes d0 -> next_inode d = next_inode d0 ->
  create_file tmp d = (i, d') -> writing i [] d'.
Proof.
  intros Hn Hi Hx. unfold create_file. rewrite Hn, Hi, Hx. destruct Hwf as [Hinj Hlt].
  destruct (names d0 !! tmp) as [j|] eqn:Hj; intros [= <- <-]; constructor; cbn.
  - rewrite Hn. symmetry. by apply insert_id.
  - apply lookup_insert_eq.
  - intros k Hk. by rewrite lookup_insert_ne.
  - intros p Hp Hpj. apply Hp. by apply (Hinj p tmp j).
  - done.
  - apply lookup_insert_eq.
  - intros k Hk. by rewrite lookup_insert_ne.
  - intros p Hp Hpj. apply Hlt in Hpj. lia.
Qed.

Lemma writing_write i l chunk d : writing i l d -> writing i (l ++ chunk) (write_at i (length l) chunk d).
Proof.
  intros [Hn Hi Ho Hf]. rewrite (write_at_end i l) by done. constructor; cbn; [done|apply lookup_insert_eq| |done].
  intros j Hj. rewrite lookup_insert_ne by done. by apply Ho.
Qed.

Lemma write_untouched i l offset chunk d : writing i l d -> untouched (write_at i offset chunk d).
Proof.
  intros [Hn Hi Ho Hf] p Hp. apply (content_other p i); cbn; [by rewrite Hn, lookup_insert_ne|by apply Hf|].
  intros j Hj. rewrite lookup_insert_ne by done. by apply Ho.
Qed.

(** Steps left: every step comes closer to the end. *)
Definition steps_left (t : Task) : nat :=
  match tk_phase t with
  | PConnect => body_length dio + 5
  | PCreate _ => body_length dio + 4
  | PStream _ _ _ _ body => length body + 3
  | PVerify _ _ => 2
  | PRename _ _ _ => 1
  | PWait | PDone _ => 0
  end.

Definition good (t : Task) (r : option (Task * Disk)) : Prop :=
  match r with Some (t', d') => task_ok t' d' /\ (steps_left t' < steps_left t)%nat | None => False end.

Lemma failed_ok t e d : task_ok t d -> untouched d -> task_ok (failed t e) d.
Proof. by intros (Hn & Hio & _) Hu. Qed.

Lemma connect_good t d : task_ok t d -> tk_phase t = PConnect -> good t (Some (connect_step m t d)).
Proof.
  intros Hok Hph. pose proof Hok as (Hn & Hio & Hst). rewrite Hph in Hst. destruct Hst as (Hns & Hin & Hnx).
  assert (forall d', names d' = names d0 -> inodes d' = inodes d0 -> forall t' e, tk_name t' = name -> tk_io t' = dio ->
    task_ok (failed t' e) d') as Hf by (intros d' H1 H2 t' e H3 H4; repeat split; try done; by apply same_untouched).
  unfold good, connect_step, steps_left. rewrite Hph, Hn, Hio. destruct (find_entry m name) as [e|]; [|split; [by apply Hf|cbn; lia]].
  destruct (dl_mkdir_error dio); [split; [by apply Hf|cbn; lia]|]. cbn [at_phase tk_io]. rewrite Hio.
  destruct (dl_send dio) as [[r|e']|] eqn:Hs; [|split; [by apply Hf|cbn; lia]|].
  2:{ cbn. split; [|lia]. repeat split; try done; [by apply same_untouched|by left]. }
  destruct (_ && _); [|split; [by apply Hf|cbn; lia]]. cbn. split; [|lia]. by repeat split.
Qed.

Lemma stream_good t d r i offset index body :
  task_ok t d -> tk_phase t = PStream r i offset index body -> good t (Some (stream_step t r i offset index body d)).
Proof.
  intros Hok Hph. pose proof Hok as (Hn & Hio & Hst). rewrite Hph in Hst. destruct Hst as (l & Hw & -> & Hs & chunks & Hb & Hl).
  unfold good, stream_step, steps_left. rewrite Hph, Hio. destruct body as [|[chunk|e] body].
  - destruct (rs_stalls r) eqn:Hstall.
    { cbn. split; [|lia]. repeat split; try done; [by eapply writing_untouched|]. right. by exists r. }
    destruct (dl_flush_error dio); cbn; (split; [|lia]); repeat split; try done; [by eapply writing_untouched|].
    exists i, l. split; [done|]. split; [|done]. split; [done|]. by exists chunks.
  - destruct (dl_write_error dio index) as [[e w]|]; cbn; (split; [|lia]); repeat split; try done.
    + by eapply write_untouched.
    + exists (l ++ chunk). split; [by apply writing_write|]. split; [by rewrite length_app|]. split; [done|].
      exists (chunks ++ [chunk]). rewrite map_app, <- app_assoc, concat_app. cbn. by rewrite app_nil_r, Hl.
  - cbn; (split; [|lia]); repeat split; try done; by eapply writing_untouched.
Qed.

Lemma verify_good t d r offset : task_ok t d -> tk_phase t = PVerify r offset -> good t (verify_step io m t r offset d).
Proof.
  intros Hok Hph. pose proof Hok as (Hn & Hio & Hst). rewrite Hph in Hst. destruct Hst as (i & l & Hw & Hr).
  assert (forall d', untouched d' -> forall e, task_ok (failed t e) d') as Hf by (intros d' Hu' e'; split; [done|split; [done|exact Hu']]).
  unfold good, verify_step, steps_left. rewrite Hph, Hn, hash_file_total. cbn [mbind option_bind]. unfold hash_of.
  pose proof (writing_untouched _ _ _ Hw) as Hu. assert (content tmp d = Some l) as ->.
  { unfold content. rewrite (wr_names _ _ _ Hw), lookup_insert_eq. apply (wr_inode _ _ _ Hw). }
  destruct (open_error io tmp); [split; [by apply Hf|cbn; lia]|]. case_bool_decide; [split; [by apply Hf|cbn; lia]|].
  destruct (read_error io tmp); [split; [by apply Hf|cbn; lia]|].
  destruct (find_entry m name) as [e|] eqn:He; [|split; [by apply Hf|cbn; lia]]. case_bool_decide as Hh.
  - cbn. split; [|lia]. repeat split; try done. exists i, l, e. done.
  - split; [apply Hf|cbn; lia]. destruct (cannot_remove io tmp); [done|]. by eapply writing_removed.
Qed.

Lemma rename_good t d r offset actual : task_ok t d -> tk_phase t = PRename r offset actual -> good t (Some (rename_step m t r offset d)).
Proof.
  intros Hok Hph. pose proof Hok as (Hn & Hio & Hst). rewrite Hph in Hst. destruct Hst as (i & l & e & Hw & Hr & He & Hh).
  unfold good, rename_step, steps_left. rewrite Hph, Hn, Hio. pose proof (tmp_not_dest m name) as Hne.
  assert (names d !! tmp = Some i) as Ht by (rewrite (wr_names _ _ _ Hw); apply lookup_insert_eq).
  rewrite Ht. destruct (dl_rename_error dio).
  - cbn; (split; [|lia]); repeat split; try done; by eapply writing_untouched.
  - cbn. split; [|lia]. repeat split; try done. exists r, l, e. unfold rename_file. rewrite Ht.
    split; [done|]. split; [done|]. split; [done|]. split; [done|]. split; [|split].
    + unfold content. cbn. rewrite lookup_insert_eq. apply (wr_inode _ _ _ Hw).
    + cbn. by rewrite lookup_insert_ne, lookup_delete_eq by done.
    + intros q Hq Hq'. rewrite <- (writing_untouched _ _ _ Hw q Hq). unfold content. cbn.
      by rewrite lookup_insert_ne, lookup_delete_ne by done.
Qed.

Definition ended (t : Task) : bool := match tk_phase t with PWait | PDone _ => true | _ => false end.

Lemma download_good t d : task_ok t d -> ended t = false -> good t (download_step io m t d).
Proof.
  intros Hok Hnd. unfold download_step. unfold ended in Hnd.
  destruct (tk_phase t) as [|r|r i offset index body|r offset|r offset actual| |r] eqn:Hph; try done.
  - by apply connect_good.
  - pose proof Hok as (Hn & Hio & Hst). rewrite Hph in Hst. destruct Hst as (Hns & Hin & Hnx & Hs). rewrite Hn, Hio.
    destruct (dl_create_error dio).
    + unfold good, steps_left. rewrite Hph. split; [|cbn; lia]. apply failed_ok; [done|]. by apply same_untouched.
    + destruct (create_file tmp d) as [i d'] eqn:Hc. unfold good, steps_left. rewrite Hph. cbn. split.
      * repeat split; try done. exists []. split; [by eapply create_writing|]. split; [done|]. split; [done|]. by exists [].
      * unfold body_length. rewrite Hs. lia.
  - by apply stream_good.
  - by apply verify_good.
  - by apply (rename_good t d r offset actual).
Qed.

Lemma run_download_ends fuel t d : task_ok t d -> (steps_left t <= fuel)%nat ->
  exists t' d', run_download io m fuel t d = Some (t', d') /\ ended t' = true /\ task_ok t' d'.
Proof.
  revert t d. induction fuel as [|fuel IH]; intros t d Hok Hf.
  - unfold steps_left in Hf. cbn. unfold ended. destruct (tk_phase t) eqn:Hph; try lia; exists t, d; rewrite Hph; done.
  - cbn [run_download]. destruct (ended t) eqn:He.
    { exists t, d. unfold ended in *. by destruct (tk_phase t) eqn:Hph. }
    pose proof (download_good t d Hok He) as Hg.
    destruct (download_step io m t d) as [[t' d']|]; [|done]. destruct Hg as [Hok' Hlt].
    destruct (IH t' d' Hok') as (t'' & d'' & Hrun); [lia|]. exists t'', d''.
    unfold ended in He. by destruct (tk_phase t).
Qed.

(** How a download leaves the disk. *)
Lemma download_runs : exists r d' progress, download_asset io m name dio d0 = Some (r, d', progress) /\
  task_ok {| tk_name := name; tk_io := dio; tk_phase := match r with Some r => PDone r | None => PWait end; tk_progress := progress |} d'.
Proof.
  destruct (run_download_ends (body_length dio + 5) (task_new name dio) d0) as (t' & d' & Hrun & He & Hok); [by repeat split|done|].
  unfold download_asset. rewrite Hrun. cbn [mbind option_bind]. destruct Hok as (Hn & Hio & Hst). unfold ended in He.
  destruct (tk_phase t') as [| | | | | |r]; try done; eexists _, _, _; (split; [reflexivity|]);
    (split; [done|split; [done|exact Hst]]).
Qed.

End Alone.

(** C11: A download that no other download of the same asset overlaps touches only the
    asset and its temporary file, and installs exactly the bytes of a complete body, and
    only when they hash to what the manifest says. Whatever else happens (no connection, an
    error status, a broken stream, a full disk, a wrong hash), the asset that was there
    before is unchanged, and so it is while the download hangs: the client has no timeout,
    so it waits for ever on a server that does not answer or does not end the body, and
    with any other server it ends. *)
Theorem downloaded_asset_verified `{Blake3Laws} (io : Io) (m : AssetManager) (name : string) (dio : DownloadIo) (d : Disk)
    (Hwf : disk_wf d) :
  exists r d' progress, download_asset io m name dio d = Some (r, d', progress) /\
    (forall p, p <> tmp_path m name -> p <> asset_path m name -> content p d' = content p d) /\
    match r with
    | Some (Ok p) => p = asset_path m name /\ exists response chunks entry,
        dl_send dio = Some (Ok response) /\ rs_body response = map Ok chunks /\ rs_stalls response = false /\
        find_entry m name = Some entry /\ content p d' = Some (concat chunks) /\ blake3 (concat chunks) = hash entry
    | Some (Err _) => content (asset_path m name) d' = content (asset_path m name) d
    | None => content (asset_path m name) d' = content (asset_path m name) d /\
        (dl_send dio = None \/ exists response, dl_send dio = Some (Ok response) /\ rs_stalls response = true)
    end.
Proof.
  destruct (download_runs io m name dio d Hwf) as (r & d' & progress & Hd & _ & _ & Hst). exists r, d', progress. split; [done|].
  pose proof (fun E => tmp_not_dest m name (eq_sym E)) as Hne. destruct r as [[p|e]|]; cbn [tk_phase] in Hst.
  - destruct Hst as (resp & l & entry & -> & [[Hs (chunks & Hb & ->)] Hstall] & He & Hh & Hc & _ & Ho). rewrite app_nil_r in Hb.
    split; [intros q Hq Hq'; by apply Ho|]. split; [done|]. by exists resp, chunks, entry.
  - split; [intros q Hq _; by apply Hst|]. by apply Hst.
  - destruct Hst as [Hu Hw]. split; [intros q Hq _; by apply Hu|]. split; [by apply Hu|done].
Qed.

(** An installed file is ready at the next check. *)
Lemma installed_is_ready `{Blake3Laws} io m name c e d :
  find_entry m name = Some e -> content (asset_path m name) d = Some c -> blake3 c = hash e -> asset_path m name ∉ dirs d ->
  open_error io (asset_path m name) = None -> read_error io (asset_path m name) = None ->
  check_asset io m name d = Some (Ok (AssetReady (asset_path m name))).
Proof. intros He Hc Hh Hd Ho Hr. rewrite (check_asset_ready _ _ _ _ e c) by done. by rewrite bool_decide_true. Qed.

(** A manifest with an upper-case hash is accepted, but no file ever matches it. *)
Lemma uppercase_hash_never_matches `{Blake3Laws} l h :
  all_chars (fun c => is_ascii_hexdigit c && bool_decide (ascii_lower_char c = c)) h = false -> blake3 l <> h.
Proof. intros Hh <-. destruct (to_hex_lower (hasher_update hasher_new l)) as [_ Hl]. unfold blake3 in Hh. by rewrite Hl in Hh. Qed.

(** ** The manifest is read as it was written *)

Definition manifest_line (e : ManifestEntry) : string := hash e +:+ "  " +:+ filename e.

(** The output of b3sum. *)
Definition manifest_text (es : list ManifestEntry) : string := unlines (map manifest_line es).

Definition entry_ok (e : ManifestEntry) : Prop :=
  slen (hash e) = 64 /\ all_chars is_ascii_hexdigit (hash e) = true /\ tidy (filename e).

Lemma hexdigit_graphic c : is_ascii_hexdigit c = true -> graphic c = true.
Proof. destruct c as [[] [] [] [] [] [] [] []]; vm_compute; done. Qed.

Lemma splitn_ws_graphic h rest : all_chars graphic h = true -> all_chars printable rest = true ->
  splitn_ws (chars (h +:+ " " +:+ rest)) = (h, Some rest).
Proof.
  intros Hh Hr. assert (all_chars printable (h +:+ " " +:+ rest) = true) as Hp.
  { rewrite !all_chars_app, Hr, (all_chars_impl graphic) by (done || apply graphic_printable). done. }
  rewrite chars_printable by done. clear Hp. induction h as [|c h IH].
  - rewrite sapp_nil_l. change (" " +:+ rest) with (String " " rest). cbn [String.list_ascii_of_string map splitn_ws].
    assert (is_whitespace (String " " "") = true) as -> by done.
    by rewrite <- (chars_printable rest Hr), sconcat_chars.
  - rewrite sapp_cons. unfold all_chars in Hh. cbn [String.list_ascii_of_string forallb] in Hh.
    apply andb_true_iff in Hh as [Hc Hh]. cbn [String.list_ascii_of_string map splitn_ws].
    rewrite whitespace_graphic, IH by done. done.
Qed.

Lemma manifest_line_parsed e : entry_ok e -> parse_b3sums_line (manifest_line e) = Ok (Some e).
Proof.
  intros (Hl & Hh & Hf). unfold parse_b3sums_line, manifest_line.
  pose proof (all_chars_impl _ _ _ hexdigit_graphic Hh) as Hg.
  assert (hash e <> "") as Hne by (intros E; by rewrite E in Hl).
  rewrite trim_tidy by (apply tidy_around; [by apply tidy_graphic|done|done]).
  destruct Hf as (Hp & Hfne & Hs & He).
  assert (is_empty (hash e +:+ "  " +:+ filename e) || starts_with (hash e +:+ "  " +:+ filename e) "#" = false) as ->.
  { destruct (hash e) as [|c h]; [done|]. unfold all_chars in Hh. cbn in Hh. apply andb_true_iff in Hh as [Hc _].
    rewrite sapp_cons. cbn. by destruct c as [[] [] [] [] [] [] [] []]. }
  change ("  " +:+ filename e) with (" " +:+ (" " +:+ filename e)).
  rewrite splitn_ws_graphic by (done || (rewrite all_chars_app, Hp; done)).
  rewrite trim_tidy by (by apply tidy_graphic).
  assert (trim (" " +:+ filename e) = filename e) as ->.
  { rewrite <- (sapp_nil_r (filename e)) at 1. apply trim_padded; [by right|by left|done]. }
  rewrite Hl, Hh. by destruct e.
Qed.

Theorem manifest_roundtrip (es : list ManifestEntry) (Hes : Forall entry_ok es) : parse_b3sums (manifest_text es) = Ok es.
Proof.
  unfold parse_b3sums, manifest_text. rewrite lines_unlines.
  2: { apply Forall_map. eapply Forall_impl; [exact Hes|]. intros e (Hl & Hh & Hf). apply line_text_printable.
       unfold manifest_line. rewrite !all_chars_app. destruct Hf as (-> & _).
       rewrite (all_chars_impl is_ascii_hexdigit); [done| |done]. intros c Hc. by apply graphic_printable, hexdigit_graphic. }
  assert (forall acc, parse_b3sums_lines (map manifest_line es) acc = Ok (acc ++ es)) as Hgo; [|apply Hgo].
  induction Hes as [|e es He _ IH]; intros acc; cbn [map parse_b3sums_lines]; [by rewrite app_nil_r|].
  rewrite manifest_line_parsed, IH by done. by rewrite <- app_assoc.
Qed.

(** ** Cleaning up keeps what the manifest names *)

Section Cleanup.
Context (io : Io) (m : AssetManager).
Hypothesis (Hremove : forall p, cannot_remove io p = false).

Abbreviation entry_path n := (path_join (assets_dir m) n).

Definition stale (n : string) : bool := ends_with n ".tmp" || negb (bool_decide (n ∈ manifest_filenames m)).

Lemma cleanup_entries_spec ns removed d :
  exists d', cleanup_entries io m (map Ok ns) removed d = (Ok (removed ++ map (fun n => entry_path n) (List.filter stale ns)), d') /\
    inodes d' = inodes d /\
    forall p, names d' !! p = if bool_decide (p ∈ map (fun n => entry_path n) (List.filter stale ns)) then None else names d !! p.
Proof.
  revert removed d. induction ns as [|n ns IH]; intros removed d; cbn [map cleanup_entries List.filter].
  { exists d. by rewrite app_nil_r. }
  rewrite Hremove. assert (forall r, exists d', cleanup_entries io m (map Ok ns) (r ++ [entry_path n]) (remove_name (entry_path n) d) =
    (Ok (r ++ map (fun n => entry_path n) (n :: List.filter stale ns)), d') /\ inodes d' = inodes d /\
    forall p, names d' !! p = if bool_decide (p ∈ map (fun n => entry_path n) (n :: List.filter stale ns)) then None else names d !! p) as Hgone.
  { intros r. destruct (IH (r ++ [entry_path n]) (remove_name (entry_path n) d)) as (d' & -> & Hi & Hn). exists d'.
    split; [by rewrite <- app_assoc|]. split; [done|]. intros p. rewrite Hn. cbn [map].
    destruct (decide (p = entry_path n)) as [->|Hp].
    - rewrite (bool_decide_true (entry_path n ∈ _ :: _)) by left. cbn. rewrite lookup_delete_eq. by case_bool_decide.
    - cbn. rewrite lookup_delete_ne by done.
      by rewrite (bool_decide_ext (p ∈ entry_path n :: _) (p ∈ map (fun n => entry_path n) (List.filter stale ns)))
        by (rewrite elem_of_cons; intuition). }
  destruct (stale n) eqn:Hs; unfold stale in Hs; destruct (ends_with n ".tmp"); try done; cbn [orb] in Hs.
  - case_bool_decide; [done|]. apply Hgone.
  - case_bool_decide; [|done]. apply IH.
Qed.

Lemma cleanup_keeps_manifest d ns :
  path_exists (assets_dir m) d = true -> read_dir io d (assets_dir m) = Ok (map Ok ns) ->
  Forall (fun n => plain_name n = true) ns ->
  (forall n, plain_name n = true -> is_Some (names d !! entry_path n) -> n ∈ ns) ->
  exists removed d', cleanup_unrecognized io m d = (Ok removed, d') /\ forall n, plain_name n = true ->
    content (entry_path n) d' = if stale n then None else content (entry_path n) d.
Proof.
  intros He Hr Hplain Hall. unfold cleanup_unrecognized. rewrite He, Hr.
  destruct (cleanup_entries_spec ns [] d) as (d' & -> & Hi & Hn). eexists _, d'. split; [done|]. intros n Hpn.
  unfold content. rewrite Hn, Hi. assert (entry_path n ∈ map (fun n => entry_path n) (List.filter stale ns) <-> n ∈ ns /\ stale n = true) as Hin.
  { rewrite list_elem_of_In, in_map_iff. split.
    - intros (k & Hk & Hin). apply filter_In in Hin as [Hin Hs]. rewrite <- list_elem_of_In in Hin.
      apply path_join_inj in Hk as ->; [done|by eapply Forall_forall in Hplain|done].
    - intros [Hin Hs]. exists n. split; [done|]. apply filter_In. by rewrite <- list_elem_of_In. }
  case_bool_decide as Hb.
  - apply Hin in Hb as [_ ->]. done.
  - destruct (stale n); [|done]. destruct (names d !! entry_path n) as [i|] eqn:Hd; [|done].
    exfalso. apply Hb, Hin. split; [|done]. apply Hall; eauto.
Qed.

End Cleanup.

(** ** The root file system of a run *)

(** A root file system that is found is not verified; one that is downloaded was. *)
Lemma ensure_rootfs_result `{Blake3Laws} io version read_text assets dio d :
  (forall mgr, disk_wf (cleanup_unrecognized io mgr d).2) ->
  match resolve_rootfs io assets d with
  | Some p => ensure_rootfs io version read_text assets dio d = Some (Some (Ok p), d)
  | None =>
      exists r d', ensure_rootfs io version read_text assets dio d = Some (r, d') /\
        forall p, r = Some (Ok p) -> exists mgr name e l,
          create_asset_manager io version read_text assets d = Ok mgr /\ rootfs_manifest_name mgr = Ok name /\
          p = asset_path mgr name /\ find_entry mgr name = Some e /\ content p d' = Some l /\ blake3 l = hash e
  end.
Proof.
  intros Hwf. unfold ensure_rootfs. destruct (resolve_rootfs io assets d); [done|].
  destruct (create_asset_manager _ _ _ _ _) as [mgr|e]; [|by eexists _, _].
  destruct (rootfs_manifest_name mgr) as [name|e] eqn:Hn; [|by eexists _, _].
  destruct (download_runs io mgr name dio _ (Hwf mgr)) as (r & d' & progress & -> & _ & _ & Hst).
  exists r, d'. split; [done|]. intros p ->. destruct Hst as (resp & l & e & -> & _ & He & Hh & Hc & _). by exists mgr, name, e, l.
Qed.

(** ** Two boots without a root file system *)

Module Demo.

(** A stand-in for the hash: 64 digits that tell small files apart. *)
#[global] Instance digest : Blake3 := {|
  Hasher := list byte;
  hasher_new := [];
  hasher_update h l := h ++ l;
  to_hex h := fixed_digits 16 64 (from_be_bytes h * 31 + Z.of_nat (length h));
|}.

#[global] Instance digest_laws : Blake3Laws.
Proof.
  constructor; [apply app_nil_r|intros; symmetry; apply app_assoc|]. intros h. cbn [to_hex digest]. split.
  - unfold slen. by rewrite fixed_digits_length.
  - apply fixed_digits_all; [lia|]. exact (digit_char_range (fun c => is_ascii_hexdigit c && bool_decide (ascii_lower_char c = c)) 16 eq_refl).
Qed.

Definition image : list (list byte) := [[Byte.x01; Byte.x02]; [Byte.x03]].
Definition rootfs : ManifestEntry := {| hash := blake3 (concat image); filename := "rootfs.squashfs" |}.
Definition mgr : AssetManager :=
  {| assets_dir := "/h/.clawcage/assets"; base_url := "https://example.com"; manifest := [rootfs] |}.
Definition io : Io := {|
  getenv v := if bool_decide (v = "HOME") then Some "/h" else None;
  current_exe := None; open_error _ := None; read_error _ := None; cannot_remove _ := false;
  statvfs _ := None; read_dir _ _ := Ok [] |}.

Definition answer (body : list (result (list byte) string)) (stalls : bool) : DownloadIo := {|
  dl_mkdir_error := None; dl_create_error := None; dl_write_error _ := None; dl_flush_error := None; dl_rename_error := None;
  dl_send := Some (Ok {| rs_status := 200; rs_status_text := "200 OK"; rs_content_length := Some 3; rs_body := body; rs_stalls := stalls |}) |}.
Definition whole : DownloadIo := answer (map Ok image) false.
Definition cut : DownloadIo := answer [Err "connection reset"] false.
Definition hung : DownloadIo := answer (map Ok image) true.

Definition disk : Disk := {| names := ∅; inodes := ∅; dirs := ∅; next_inode := 0 |}.
Definition dest : string := asset_path mgr "rootfs.squashfs".
Definition start (second : DownloadIo) : list Task := [task_new "rootfs.squashfs" whole; task_new "rootfs.squashfs" second].

Definition outcome (r : option (list Task * Disk)) : option (list DownloadPhase * option (list byte)) :=
  '(ts, d) ← r; Some (map tk_phase ts, content dest d).

Lemma disk_ok : disk_wf disk.
Proof. split; [intros p q i H|intros p i H]; cbn in H; by rewrite lookup_empty in H. Qed.

Example one_download : (fun r => (r.1.1, content dest r.1.2)) <$> download_asset io mgr "rootfs.squashfs" whole disk = Some (Some (Ok dest), Some (concat image)).
Proof. vm_compute. reflexivity. Qed.

(** Every byte has come, but the server keeps the connection open. *)
Example hung_download : (fun r => (r.1.1, content dest r.1.2)) <$> download_asset io mgr "rootfs.squashfs" hung disk = Some (None, None).
Proof. vm_compute. reflexivity. Qed.

(** The second task truncates the shared temporary file before the first verifies it; the
    first then removes it. *)
Example concurrent_downloads_fail :
  outcome (interleave io mgr [0; 0; 0; 0; 0; 1; 1; 1; 0; 1; 1; 1]%nat (start whole) disk) =
    Some ([PDone (Err ("hash verification failed for rootfs.squashfs: expected " +:+ hash rootfs +:+ ", got " +:+ blake3 [Byte.x01; Byte.x02]));
           PDone (Err ("cannot open " +:+ tmp_path mgr "rootfs.squashfs"))], None).
Proof. vm_compute. reflexivity. Qed.

(** It truncates the file after it was verified and before it is renamed: an empty file is
    installed, and the next boot takes it. *)
Example verified_asset_truncated :
  let r := interleave io mgr [0; 0; 0; 0; 0; 0; 1; 1; 0; 1]%nat (start cut) disk in
  outcome r = Some ([PDone (Ok dest); PDone (Err "error reading download stream")], Some []) /\
  (r ≫= fun '(_, d) => resolve_rootfs io "/app" d) = Some dest.
Proof. vm_compute. split; reflexivity. Qed.

End Demo.

Lemma downloaded_asset_verified_witness :
  exists r d' progress, download_asset Demo.io Demo.mgr "rootfs.squashfs" Demo.whole Demo.disk = Some (r, d', progress) /\
    r = Some (Ok Demo.dest) /\ content Demo.dest d' = Some (concat Demo.image).
Proof.
  destruct (downloaded_asset_verified Demo.io Demo.mgr "rootfs.squashfs" Demo.whole Demo.disk Demo.disk_ok)
    as (r & d' & progress & Hd & _ & _).
  exists r, d', progress. split; [exact Hd|]. vm_compute in Hd. injection Hd as <- <- _. split; reflexivity.
Defined.

Lemma manifest_roundtrip_witness : parse_b3sums (manifest_text [Demo.rootfs]) = Ok [Demo.rootfs].
Proof.
  apply manifest_roundtrip. constructor; [|constructor]. split; [reflexivity|]. split; [reflexivity|]. by repeat split.
Defined.
