(* ===== verification/HostTerminal.v ===== *)
(** The terminal on the host: the output queues and the input thread of
    crates/clawcage-app/src/state.rs, and the reader [vsock_terminal_to_events] of
    crates/clawcage-app/src/main.rs that fills the queues. *)

From Stdlib Require Import ZArith Lia Strings.Byte.
From stdpp Require Import base numbers list gmap strings sorting.
From S2P Require Import Prelude RustStr Proto.

Abbreviation chunk := (list byte).

(** ** The queue of one session *)

Definition TERMINAL_QUEUE_CAPACITY : Z := 64.

Record TerminalOutputQueue := { q_data : list chunk; q_closed : bool }.

Definition queue_new : TerminalOutputQueue := {| q_data := []; q_closed := false |}.

(** The part of [push] under the lock. *)
Definition push_data (bytes : chunk) (data : list chunk) : list chunk :=
  (if TERMINAL_QUEUE_CAPACITY <=? Z.of_nat (length data) then tail data else data) ++ [bytes].

Definition push (bytes : chunk) (q : TerminalOutputQueue) : TerminalOutputQueue :=
  if q_closed q then q else {| q_data := push_data bytes (q_data q); q_closed := q_closed q |}.

(** One turn of the loop of [poll]. *)
Inductive PollResult := Polled (c : chunk) | PollClosed | PollWait.

Definition poll_once (q : TerminalOutputQueue) : PollResult * TerminalOutputQueue :=
  match q_data q with
  | c :: data => (Polled c, {| q_data := data; q_closed := q_closed q |})
  | [] => (if q_closed q then PollClosed else PollWait, q)
  end.

Definition close (q : TerminalOutputQueue) : TerminalOutputQueue := {| q_data := q_data q; q_closed := true |}.
Definition reset (q : TerminalOutputQueue) : TerminalOutputQueue := queue_new.

(** ** The queues of a VM *)

(** One queue per session id. *)
Abbreviation TerminalOutputMap := (gmap Z TerminalOutputQueue).

Definition map_new : TerminalOutputMap := {[DEFAULT_SHELL_SESSION_ID := queue_new]}.

Definition get_or_create (sid : Z) (m : TerminalOutputMap) : TerminalOutputQueue * TerminalOutputMap :=
  match m !! sid with
  | Some q => (q, m)
  | None => (queue_new, <[sid := queue_new]> m)
  end.

(** [get_or_create(sid).push(bytes)] *)
Definition push_to (sid : Z) (bytes : chunk) (m : TerminalOutputMap) : TerminalOutputMap :=
  let '(q, m) := get_or_create sid m in <[sid := push bytes q]> m.

(** [get_or_create(sid).poll()], up to its first wait *)
Definition poll_session (sid : Z) (m : TerminalOutputMap) : PollResult * TerminalOutputMap :=
  let '(q, m) := get_or_create sid m in
  let '(r, q) := poll_once q in (r, <[sid := q]> m).

(** [remove]: the queue leaves the map and is closed; a poll that holds it sees the close. *)
Definition remove (sid : Z) (m : TerminalOutputMap) : option TerminalOutputQueue * TerminalOutputMap :=
  (close <$> m !! sid, delete sid m).

Definition close_all (m : TerminalOutputMap) : TerminalOutputMap := close <$> m.

Definition reset_all (m : TerminalOutputMap) : TerminalOutputMap :=
  match m !! DEFAULT_SHELL_SESSION_ID with
  | Some q => {[DEFAULT_SHELL_SESSION_ID := reset q]}
  | None => ∅
  end.

Definition session_ids (m : TerminalOutputMap) : list Z := (map_to_list m).*1.

(** ** The reader of the terminal channel *)

(** The reader thread: the frames of the stream. It reads as the guest does. *)
Fixpoint terminal_reader (fuel : nat) (stream : list byte) : list (Z * chunk) :=
  match fuel with
  | O => []
  | S fuel =>
      match read_terminal_frame stream with
      | TermEnd => []
      | TermSkip rest => terminal_reader fuel rest
      | TermData sid data rest => (sid, data) :: terminal_reader fuel rest
      end
  end.

(** The chunks at the front of [pending] that belong to [sid], combined. *)
Fixpoint take_session (sid : Z) (pending : list (Z * chunk)) : chunk * list (Z * chunk) :=
  match pending with
  | (sid', data) :: rest =>
      if sid' =? sid then let '(combined, rest) := take_session sid rest in (data ++ combined, rest)
      else ([], pending)
  | [] => ([], [])
  end.

Fixpoint push_groups (fuel : nat) (pending : list (Z * chunk)) (m : TerminalOutputMap) : TerminalOutputMap :=
  match fuel, pending with
  | S fuel, (sid, _) :: _ =>
      let '(combined, rest) := take_session sid pending in push_groups fuel rest (push_to sid combined m)
  | _, _ => m
  end.

(** One batch: the frames received within the window. *)
Definition flush_batch (pending : list (Z * chunk)) (m : TerminalOutputMap) : TerminalOutputMap :=
  let pending := sort_by_key fst pending in push_groups (length pending) pending m.

(** ** The input thread *)

Definition MAX_BATCH_SIZE : Z := 65536.

(** A message of the channel; [ti_queued]: it is there when [try_recv] looks for it. *)
Record TerminalInput := { ti_fd : Z; ti_session : Z; ti_data : chunk; ti_queued : bool }.

(** The inner loop: the batch, and the messages left in the channel. *)
Fixpoint coalesce (fd sid : Z) (buf : chunk) (msgs : list TerminalInput) : chunk * list TerminalInput :=
  match msgs with
  | next :: rest =>
      if (Z.of_nat (length buf) <? MAX_BATCH_SIZE) && ti_queued next then
        if (ti_fd next =? fd) && (ti_session next =? sid) then coalesce fd sid (buf ++ ti_data next) rest
        else (buf, rest)
      else (buf, msgs)
  | [] => (buf, [])
  end.

(** The thread's loop, up to the end of the channel: what it writes to which file.
    [clone_fd n fd]: the file behind the descriptor at the [n]th batch. *)
Fixpoint input_loop {F : Type} (clone_fd : nat -> Z -> option F) (fuel n : nat) (current : option (Z * option F))
    (msgs : list TerminalInput) : list (F * list byte) :=
  match fuel, msgs with
  | S fuel, first :: rest =>
      let fd := ti_fd first in
      let '(buf, rest) := coalesce fd (ti_session first) (ti_data first) rest in
      let current_file :=
        match current with
        | Some (current_fd, file) => if current_fd =? fd then file else clone_fd n fd
        | None => clone_fd n fd
        end in
      let written := match current_file with
                     | Some file => [(file, encode_terminal_frame (ti_session first) buf)]
                     | None => []
                     end in
      written ++ input_loop clone_fd fuel (S n) (Some (fd, current_file)) rest
  | _, _ => []
  end.

Definition input_thread {F : Type} (clone_fd : nat -> Z -> option F) (msgs : list TerminalInput) : list (F * list byte) :=
  input_loop clone_fd (length msgs) 0 None msgs.

(** ** Output in order *)

Definition of_session (sid : Z) (f : Z * chunk) : bool := f.1 =? sid.

(** The bytes of one session, in order. *)
Definition session_data (sid : Z) (frames : list (Z * chunk)) : chunk :=
  concat (map snd (List.filter (of_session sid) frames)).

Lemma filter_insert sid x l :
  List.filter (of_session sid) (insert_by_key fst x l) = List.filter (of_session sid) (x :: l).
Proof.
  induction l as [|y l IH]; cbn [insert_by_key]; [done|]. destruct (Z.leb_spec x.1 y.1); [done|].
  cbn [List.filter]. rewrite IH. cbn [List.filter]. unfold of_session.
  destruct (Z.eqb_spec x.1 sid), (Z.eqb_spec y.1 sid); (done || lia).
Qed.

(** Sorting by session keeps the order within a session. *)
Lemma filter_sort sid l : List.filter (of_session sid) (sort_by_key fst l) = List.filter (of_session sid) l.
Proof.
  induction l as [|x l IH]; [done|]. change (sort_by_key fst (x :: l)) with (insert_by_key fst x (sort_by_key fst l)).
  rewrite filter_insert. cbn [List.filter]. by rewrite IH.
Qed.

Lemma session_data_app sid a b : session_data sid (a ++ b) = session_data sid a ++ session_data sid b.
Proof. unfold session_data. by rewrite List.filter_app, map_app, concat_app. Qed.

Lemma filter_cons s data sid l :
  List.filter (of_session sid) ((s, data) :: l) =
    if s =? sid then (s, data) :: List.filter (of_session sid) l else List.filter (of_session sid) l.
Proof. done. Qed.

Lemma session_data_cons sid s data l :
  session_data sid ((s, data) :: l) = if s =? sid then data ++ session_data sid l else session_data sid l.
Proof. unfold session_data. rewrite filter_cons. by destruct (s =? sid). Qed.

Lemma filter_below sid (l : list (Z * chunk)) : Forall (fun y => sid < y.1) l -> List.filter (of_session sid) l = [].
Proof.
  induction 1 as [|y l Hy _ IH]; [done|]. cbn. unfold of_session at 1. by destruct (Z.eqb_spec y.1 sid); [lia|].
Qed.

(** In a sorted batch the frames of the first session come first. *)
Lemma take_session_sorted sid l : StronglySorted (fun a b => a.1 <= b.1) l -> Forall (fun y => sid <= y.1) l ->
  exists rest, take_session sid l = (session_data sid l, rest) /\ Forall (fun y => sid < y.1) rest /\
    StronglySorted (fun a b => a.1 <= b.1) rest /\ (length rest <= length l)%nat /\
    (forall s, s <> sid -> List.filter (of_session s) rest = List.filter (of_session s) l).
Proof.
  induction 1 as [|[s data] l Hs IH Hl]; intros Hge; [exists []; by repeat constructor|]. apply Forall_cons in Hge as [Hge0 Hge]. cbn [fst] in *.
  cbn [take_session]. destruct (Z.eqb_spec s sid) as [->|Hne].
  - destruct (IH Hge) as (rest & -> & Hlt & Hsr & Hlen & Hf). exists rest. rewrite session_data_cons, Z.eqb_refl.
    split; [done|]. split; [done|]. split; [done|]. split; [cbn; lia|].
    intros s Hs'. rewrite (Hf s Hs'), filter_cons. by destruct (Z.eqb_spec sid s).
  - assert (Forall (fun y : Z * chunk => sid < y.1) ((s, data) :: l)) as Hlt.
    { constructor; [cbn; lia|]. eapply Forall_impl; [exact Hl|]. cbn. lia. }
    exists ((s, data) :: l). unfold session_data. rewrite filter_below by done. split; [done|]. split; [done|].
    split; [by constructor|]. done.
Qed.

Definition has_session (sid : Z) (frames : list (Z * chunk)) : bool := existsb (of_session sid) frames.

Lemma has_session_filter sid frames : has_session sid frames = negb (bool_decide (List.filter (of_session sid) frames = [])).
Proof.
  unfold has_session. induction frames as [|f frames IH]; [done|]. cbn. destruct (of_session sid f); cbn; [done|]. exact IH.
Qed.

Lemma push_to_lookup s c m sid :
  push_to s c m !! sid = if decide (sid = s) then Some (push c (default queue_new (m !! s))) else m !! sid.
Proof.
  unfold push_to, get_or_create. destruct (decide (sid = s)) as [->|Hne].
  - destruct (m !! s); cbv beta iota; by rewrite lookup_insert_eq.
  - destruct (m !! s); cbv beta iota; by rewrite !lookup_insert_ne by done.
Qed.

(** What a batch of frames does to one queue: a single push. *)
Lemma push_groups_lookup n l m sid : (length l <= n)%nat -> StronglySorted (fun a b => a.1 <= b.1) l ->
  push_groups n l m !! sid =
    if has_session sid l then Some (push (session_data sid l) (default queue_new (m !! sid))) else m !! sid.
Proof.
  revert l m. induction n as [|n IH]; intros l m Hn Hs; [by destruct l; [|cbn in Hn; lia]|].
  destruct l as [|[s data] l]; [done|]. cbn [push_groups].
  assert (Forall (fun y : Z * chunk => s <= y.1) l) as Hge by (apply StronglySorted_inv in Hs as [_ Hs]; exact Hs).
  assert (StronglySorted (fun a b : Z * chunk => a.1 <= b.1) l) as Hs' by (by apply StronglySorted_inv in Hs as [Hs _]).
  destruct (take_session_sorted s l Hs' Hge) as (rest & Htk & Hlt & Hsr & Hlen & Hf).
  cbn [take_session]. rewrite Z.eqb_refl, Htk. cbn in Hn. rewrite (IH rest) by (lia || done).
  rewrite push_to_lookup. destruct (decide (sid = s)) as [->|Hne].
  - by rewrite has_session_filter, (filter_below s rest Hlt), has_session_filter, session_data_cons, filter_cons, Z.eqb_refl.
  - rewrite !has_session_filter. unfold session_data. rewrite (Hf sid Hne), filter_cons.
    by destruct (Z.eqb_spec s sid); [congruence|].
Qed.

Lemma flush_batch_lookup b m sid :
  flush_batch b m !! sid =
    if has_session sid b then Some (push (session_data sid b) (default queue_new (m !! sid))) else m !! sid.
Proof.
  unfold flush_batch. rewrite push_groups_lookup by (done || apply sort_by_key_Sorted).
  rewrite !has_session_filter. unfold session_data. by rewrite filter_sort.
Qed.

(** What happens to the queues of a running VM: a batch of frames, a poll that is
    answered or sent to sleep. *)
Inductive TermEvent := Batch (frames : list (Z * chunk)) | Poll (sid : Z).

Fixpoint run_terminal (es : list TermEvent) (m : TerminalOutputMap) : list (Z * chunk) * TerminalOutputMap :=
  match es with
  | [] => ([], m)
  | Batch frames :: es => run_terminal es (flush_batch frames m)
  | Poll sid :: es =>
      let '(r, m) := poll_session sid m in
      let '(out, m) := run_terminal es m in
      (match r with Polled c => (sid, c) :: out | _ => out end, m)
  end.

Definition batches (es : list TermEvent) : list (list (Z * chunk)) :=
  omap (fun e => match e with Batch b => Some b | Poll _ => None end) es.

(** The chunks a session's queue is given. *)
Definition chunks (sid : Z) (es : list TermEvent) : list chunk :=
  map (session_data sid) (List.filter (has_session sid) (batches es)).

Definition polled (sid : Z) (out : list (Z * chunk)) : list chunk := map snd (List.filter (of_session sid) out).

Definition queue_of (sid : Z) (m : TerminalOutputMap) : TerminalOutputQueue := default queue_new (m !! sid).

(** No batch finds the queue of [sid] full. *)
Fixpoint never_full (sid : Z) (es : list TermEvent) (m : TerminalOutputMap) : Prop :=
  match es with
  | [] => True
  | Batch b :: es =>
      (has_session sid b = true -> Z.of_nat (length (q_data (queue_of sid m))) < TERMINAL_QUEUE_CAPACITY) /\
      never_full sid es (flush_batch b m)
  | Poll s :: es => never_full sid es (poll_session s m).2
  end.

Lemma push_data_bounds c data :
  Z.of_nat (length data) <= TERMINAL_QUEUE_CAPACITY ->
  Z.of_nat (length (push_data c data)) <= TERMINAL_QUEUE_CAPACITY.
Proof.
  unfold push_data, TERMINAL_QUEUE_CAPACITY. intros Hl. rewrite length_app.
  destruct (Z.leb_spec 64 (Z.of_nat (length data))); [|cbn; lia]. destruct data; cbn [length tail] in *; lia.
Qed.

Lemma push_data_sublist c data : push_data c data `sublist_of` data ++ [c].
Proof.
  unfold push_data. destruct (_ <=? _); [|done]. destruct data as [|d data]; [done|]. cbn. by apply sublist_cons.
Qed.

Lemma push_data_room c data : Z.of_nat (length data) < TERMINAL_QUEUE_CAPACITY -> push_data c data = data ++ [c].
Proof. intros Hl. unfold push_data. by destruct (Z.leb_spec TERMINAL_QUEUE_CAPACITY (Z.of_nat (length data))); [lia|]. Qed.

Lemma queue_of_flush b m sid : queue_of sid (flush_batch b m) =
  if has_session sid b then push (session_data sid b) (queue_of sid m) else queue_of sid m.
Proof. unfold queue_of. rewrite flush_batch_lookup. by destruct (has_session sid b). Qed.

Lemma poll_session_spec s m sid :
  (poll_session s m).1 = (poll_once (queue_of s m)).1 /\
  queue_of sid (poll_session s m).2 = if s =? sid then (poll_once (queue_of s m)).2 else queue_of sid m.
Proof.
  assert (exists m0, get_or_create s m = (queue_of s m, m0) /\ forall k, queue_of k m0 = queue_of k m) as (m0 & Hg & Hm0).
  { unfold get_or_create, queue_of. destruct (m !! s) eqn:Hm; [by exists m|]. eexists. split; [done|]. intros k.
    destruct (decide (k = s)) as [->|]; [by rewrite lookup_insert_eq, Hm|by rewrite lookup_insert_ne]. }
  unfold poll_session. rewrite Hg. destruct (poll_once (queue_of s m)) as [r q]. cbn [fst snd]. split; [done|].
  rewrite <- (Hm0 sid). unfold queue_of.
  destruct (Z.eqb_spec s sid) as [->|Hne]; [by rewrite lookup_insert_eq|by rewrite lookup_insert_ne].
Qed.

Lemma poll_once_data q : q_closed (poll_once q).2 = q_closed q /\
  match (poll_once q).1 with
  | Polled c => q_data q = c :: q_data (poll_once q).2
  | _ => q_data (poll_once q).2 = q_data q
  end.
Proof. unfold poll_once. destruct (q_data q) eqn:Hd; [|done]. destruct (q_closed q) eqn:Hc; cbn; by rewrite ?Hc, ?Hd. Qed.

(** One session's queue, from any open state. *)
Lemma run_terminal_spec (es : list TermEvent) (m : TerminalOutputMap) (sid : Z) :
  q_closed (queue_of sid m) = false -> Z.of_nat (length (q_data (queue_of sid m))) <= TERMINAL_QUEUE_CAPACITY ->
  let '(out, m') := run_terminal es m in
  polled sid out ++ q_data (queue_of sid m') `sublist_of` q_data (queue_of sid m) ++ chunks sid es /\
  (never_full sid es m -> polled sid out ++ q_data (queue_of sid m') = q_data (queue_of sid m) ++ chunks sid es) /\
  concat (chunks sid es) = session_data sid (concat (batches es)) /\
  Z.of_nat (length (q_data (queue_of sid m'))) <= TERMINAL_QUEUE_CAPACITY.
Proof.
  revert m. induction es as [|[b|s] es IH]; intros m Hopen Hlen; cbn [run_terminal].
  - cbn. by rewrite app_nil_r.
  - specialize (IH (flush_batch b m)). pose proof (queue_of_flush b m sid) as Hq. unfold push in Hq. rewrite Hopen in Hq.
    assert (chunks sid (Batch b :: es) = (if has_session sid b then [session_data sid b] else []) ++ chunks sid es) as ->
      by (unfold chunks; cbn; by destruct (has_session sid b)).
    assert (session_data sid (concat (batches (Batch b :: es))) =
      concat (if has_session sid b then [session_data sid b] else []) ++ session_data sid (concat (batches es))) as ->.
    { change (batches (Batch b :: es)) with (b :: batches es). cbn [concat]. rewrite session_data_app. f_equal.
      rewrite has_session_filter. unfold session_data. case_bool_decide as Hf; cbn; [by rewrite Hf|by rewrite app_nil_r]. }
    destruct (run_terminal es (flush_batch b m)) as [out m'].
    destruct (has_session sid b) eqn:Hhas; rewrite Hq in IH; cbn [q_closed q_data] in IH.
    + destruct IH as (Hsub & Heq & Hcat & Hb); [done|by apply push_data_bounds|].
      split; [|split; [|split; [cbn; by rewrite app_nil_r, Hcat|done]]].
      * etransitivity; [exact Hsub|]. rewrite app_assoc. apply sublist_app; [apply push_data_sublist|done].
      * intros [Hroom Hnf]. rewrite (Heq Hnf), push_data_room by auto. by rewrite <- app_assoc.
    + destruct IH as (Hsub & Heq & Hcat & Hb); [done|done|]. split; [done|]. split; [|done]. intros [_ Hnf]. by apply Heq.
  - destruct (poll_session_spec s m sid) as [Hr Hq]. cbn [never_full]. specialize (IH (poll_session s m).2).
    destruct (poll_session s m) as [r m1]. cbn [fst snd] in *.
    destruct (poll_once_data (queue_of s m)) as [Hc Hd]. rewrite <- Hr in Hd.
    destruct (run_terminal es m1) as [out m'].
    change (chunks sid (Poll s :: es)) with (chunks sid es). change (batches (Poll s :: es)) with (batches es).
    destruct (Z.eqb_spec s sid) as [->|Hne].
    + rewrite Hq, Hc in IH. destruct r as [c| |]; rewrite Hd in *.
      * destruct IH as (Hsub & Heq & Hcat & Hb); [done|cbn [length] in Hlen; lia|].
        assert (polled sid ((sid, c) :: out) = c :: polled sid out) as -> by (unfold polled; by rewrite filter_cons, Z.eqb_refl).
        rewrite <- !app_comm_cons. split; [by apply sublist_skip|]. split; [|done]. intros Hnf. by rewrite (Heq Hnf).
      * by apply IH.
      * by apply IH.
    + rewrite Hq in IH. assert (polled sid (match r with Polled c => (s, c) :: out | _ => out end) = polled sid out) as ->.
      { destruct r; [|done|done]. unfold polled. rewrite filter_cons. by destruct (Z.eqb_spec s sid). }
      by apply IH.
Qed.

(** The reader returns the frames the guest wrote, but for the empty ones. *)
Lemma terminal_reader_frames fuel (frames : list (Z * chunk)) : (length frames < fuel)%nat ->
  Forall (fun '(sid, data) => in_uN 32 sid /\ 4 + Z.of_nat (length data) < 2 ^ 32) frames ->
  forall sid, session_data sid (terminal_reader fuel (concat (map (fun '(sid, data) => encode_terminal_frame sid data) frames))) =
    session_data sid frames.
Proof.
  intros Hf H sid. revert fuel Hf. induction H as [|[s data] fs [Hs Hd] _ IH]; intros fuel Hf.
  - by destruct fuel.
  - destruct fuel as [|fuel]; [cbn in Hf; lia|]. cbn in Hf. cbn [map concat terminal_reader].
    rewrite read_encode_terminal_frame by done. rewrite session_data_cons.
    destruct (Z.eqb_spec (Z.of_nat (length data)) 0) as [H0|H0].
    + destruct data; [|cbn in H0; lia]. rewrite IH by lia. by destruct (s =? sid).
    + rewrite session_data_cons, IH by lia. done.
Qed.

(** C20: What the guest writes to the terminal channel is what the polls return: however the
    reader's batches and the polls interleave, the chunks polled for a session followed by
    those its queue still holds are the bytes of that session's frames, in order, unless
    some batch found the queue full; then chunks are missing, but none is reordered,
    repeated or of another session. The queue never holds more than its capacity. *)
Theorem terminal_output_delivered (frames : list (Z * chunk)) (fuel : nat) (es : list TermEvent) (sid : Z) :
  (length frames < fuel)%nat ->
  Forall (fun '(sid, data) => in_uN 32 sid /\ 4 + Z.of_nat (length data) < 2 ^ 32) frames ->
  concat (batches es) = terminal_reader fuel (concat (map (fun '(sid, data) => encode_terminal_frame sid data) frames)) ->
  let '(out, m) := run_terminal es map_new in
  let seen := polled sid out ++ q_data (queue_of sid m) in
  (exists all, seen `sublist_of` all /\ concat all = session_data sid frames /\
     (never_full sid es map_new -> seen = all)) /\
  Z.of_nat (length (q_data (queue_of sid m))) <= TERMINAL_QUEUE_CAPACITY.
Proof.
  intros Hf Hr Hb. assert (queue_of sid map_new = queue_new) as Hnew.
  { unfold queue_of, map_new. destruct (decide (sid = DEFAULT_SHELL_SESSION_ID)) as [->|];
      [by rewrite lookup_singleton_eq|by rewrite lookup_singleton_ne]. }
  pose proof (run_terminal_spec es map_new sid) as Hs. rewrite Hnew in Hs. specialize (Hs eq_refl ltac:(done)).
  destruct (run_terminal es map_new) as [out m]. destruct Hs as (Hsub & Heq & Hcat & Hlen). split; [|done].
  exists (chunks sid es). split; [done|]. split; [|done]. by rewrite Hcat, Hb, terminal_reader_frames.
Qed.

Lemma terminal_output_delivered_witness :
  concat (map snd (run_terminal [Batch [(0, [x61]); (3, [x62])]; Poll 0; Batch [(0, [x63])]; Poll 0; Poll 0] map_new).1)
  = [x61; x63].
Proof.
  destruct (terminal_output_delivered [(0, [x61]); (3, [x62]); (0, []); (0, [x63])] 5
    [Batch [(0, [x61]); (3, [x62])]; Poll 0; Batch [(0, [x63])]; Poll 0; Poll 0] 0) as [(all & _ & Hall & Heq) _];
    [cbn; lia|repeat constructor; cbn; unfold in_uN; lia|vm_compute; reflexivity|].
  rewrite <- Heq in Hall by (vm_compute; repeat split). vm_compute in Hall |- *. done.
Defined.

(** ** Waiting and waking

    [poll] looks at the queue under its lock, then waits outside it; [push] and [close]
    change the queue, then call [notify_one]. These steps interleave. *)
Section Wakeup.

(** A poll: about to look, has looked and not yet waited, waits. *)
Inductive Poller := Looking | Looked | Waiting.

Record Shared := {
  sh_queue : TerminalOutputQueue;
  sh_permit : bool;             (* what [notify_one] leaves when nobody waits *)
  sh_notifies : nat;            (* changes whose [notify_one] is still to come *)
  sh_pollers : list Poller;
  sh_out : list (option chunk); (* what the polls returned *)
}.

Definition with_queue (q : TerminalOutputQueue) (s : Shared) : Shared :=
  {| sh_queue := q; sh_permit := sh_permit s; sh_notifies := S (sh_notifies s); sh_pollers := sh_pollers s; sh_out := sh_out s |}.

Definition with_pollers (permit : bool) (ps : list Poller) (s : Shared) : Shared :=
  {| sh_queue := sh_queue s; sh_permit := permit; sh_notifies := sh_notifies s; sh_pollers := ps; sh_out := sh_out s |}.

(** [notify_one] of tokio: one waiting poll goes on; if there is none, one permit is kept. *)
Inductive notify_one : Shared -> Shared -> Prop :=
| notify_waiting s a b : sh_pollers s = a ++ Waiting :: b ->
    notify_one s (with_pollers (sh_permit s) (a ++ Looking :: b) s)
| notify_nobody s : Waiting ∉ sh_pollers s -> notify_one s (with_pollers true (sh_pollers s) s).

Inductive step : Shared -> Shared -> Prop :=
| step_push s bytes : step s (with_queue {| q_data := push_data bytes (q_data (sh_queue s)); q_closed := q_closed (sh_queue s) |} s)
| step_close s : step s (with_queue (close (sh_queue s)) s)
| step_reset s :
    step s {| sh_queue := reset (sh_queue s); sh_permit := sh_permit s; sh_notifies := sh_notifies s;
              sh_pollers := sh_pollers s; sh_out := sh_out s |}
| step_notify s s' n : sh_notifies s = S n ->
    notify_one {| sh_queue := sh_queue s; sh_permit := sh_permit s; sh_notifies := n; sh_pollers := sh_pollers s;
                  sh_out := sh_out s |} s' -> step s s'
| step_look s a b r q : sh_pollers s = a ++ Looking :: b -> poll_once (sh_queue s) = (r, q) ->
    step s match r with
           | PollWait => with_pollers (sh_permit s) (a ++ Looked :: b) s
           | Polled c => {| sh_queue := q; sh_permit := sh_permit s; sh_notifies := sh_notifies s; sh_pollers := a ++ b;
                            sh_out := sh_out s ++ [Some c] |}
           | PollClosed => {| sh_queue := q; sh_permit := sh_permit s; sh_notifies := sh_notifies s; sh_pollers := a ++ b;
                              sh_out := sh_out s ++ [None] |}
           end
| step_wait s a b : sh_pollers s = a ++ Looked :: b ->
    step s (if sh_permit s then with_pollers false (a ++ Looking :: b) s
            else with_pollers false (a ++ Waiting :: b) s)
| step_poll s : step s (with_pollers (sh_permit s) (sh_pollers s ++ [Looking]) s).

Inductive reachable : Shared -> Prop :=
| reach_new : reachable {| sh_queue := queue_new; sh_permit := false; sh_notifies := 0; sh_pollers := []; sh_out := [] |}
| reach_step s s' : reachable s -> step s s' -> reachable s'.

(** The same, with one poll at a time. *)
Inductive reachable_single : Shared -> Prop :=
| single_new : reachable_single {| sh_queue := queue_new; sh_permit := false; sh_notifies := 0; sh_pollers := []; sh_out := [] |}
| single_step s s' : reachable_single s -> step s s' -> (length (sh_pollers s') <= 1)%nat -> reachable_single s'.

Definition nothing_to_say (q : TerminalOutputQueue) : Prop := q_data q = [] /\ q_closed q = false.

Definition wakes (s : Shared) : Prop :=
  (Waiting ∈ sh_pollers s -> nothing_to_say (sh_queue s) \/ (0 < sh_notifies s)%nat) /\
  (Looked ∈ sh_pollers s -> nothing_to_say (sh_queue s) \/ (0 < sh_notifies s)%nat \/ sh_permit s = true).

Lemma single_middle {A} (a b : list A) x : (length (a ++ x :: b) <= 1)%nat -> a = [] /\ b = [].
Proof. rewrite length_app. cbn. destruct a, b; cbn; (lia || done). Qed.

Lemma wakes_step s s' : (length (sh_pollers s) <= 1)%nat -> wakes s -> step s s' -> (length (sh_pollers s') <= 1)%nat -> wakes s'.
Proof.
  intros Hone [Hw Hl] Hst Hone'. destruct Hst as [s bytes|s|s|s s' n Hn Hno|s a b r q Hp Hr|s a b Hp|s]; cbn in *.
  - split; cbn; intros _; right; [|left]; lia.
  - split; cbn; intros _; right; [|left]; lia.
  - split; cbn; intros _; by left.
  - inversion Hno as [s0 a b Hp|s0 Hnw]; subst; cbn in *.
    + rewrite Hp in Hone. apply single_middle in Hone as [-> ->]. split; cbn; intros Hin%list_elem_of_singleton; done.
    + split; cbn; [done|]. intros _. by right; right.
  - rewrite Hp in Hone. apply single_middle in Hone as [-> ->]. unfold poll_once in Hr.
    destruct (q_data (sh_queue s)) eqn:Hd; [destruct (q_closed (sh_queue s)) eqn:Hc|]; injection Hr as <- <-;
      split; cbn; intros Hin; try by apply not_elem_of_nil in Hin.
    + apply list_elem_of_singleton in Hin. done.
    + by left.
  - rewrite Hp in Hone, Hl. apply single_middle in Hone as [-> ->]. destruct (sh_permit s);
      split; cbn; intros Hin%list_elem_of_singleton; try done. destruct Hl as [|[|]]; [left| | |]; try done; auto.
  - destruct (sh_pollers s); [|cbn in Hone'; rewrite ?length_app in Hone'; cbn in Hone'; lia].
    split; cbn; intros Hin%list_elem_of_singleton; done.
Qed.

(** C30: No wake-up is lost: with one poll at a time, whatever the order in which pushes,
    closes and their notifications interleave with it, a poll that still waits once every
    notification has been given has nothing to return: the queue is empty and open. *)
Theorem single_poller_woken (s : Shared) : reachable_single s -> sh_notifies s = 0%nat -> Waiting ∈ sh_pollers s ->
  q_data (sh_queue s) = [] /\ q_closed (sh_queue s) = false.
Proof.
  intros Hr H0 Hw. assert ((length (sh_pollers s) <= 1)%nat /\ wakes s) as [_ [Hwk _]].
  { clear H0 Hw. induction Hr as [|s s' Hr [Hone IH] Hst Hone']; [|split; [done|by apply (wakes_step s s')]].
    split; [cbn; lia|]. split; intros Hin; by apply not_elem_of_nil in Hin. }
  destruct (Hwk Hw) as [|]; [done|lia].
Qed.

(** Two polls wait when the queue is closed: one of them waits for ever. *)
Lemma second_poller_stuck : exists s, reachable s /\ sh_notifies s = 0%nat /\ sh_pollers s = [Waiting] /\ q_closed (sh_queue s) = true.
Proof.
  eexists. split; [|split; [|split]].
  - eapply reach_step; [eapply reach_step; [eapply reach_step; [eapply reach_step; [eapply reach_step; [eapply reach_step;
      [eapply reach_step; [eapply reach_step; [eapply reach_step; [apply reach_new|apply step_poll]|apply step_poll]|]|]|]|]|
      apply step_close]|]|].
    + apply (step_look _ [] [Looking] PollWait queue_new); reflexivity.
    + apply (step_look _ [Looked] [] PollWait queue_new); reflexivity.
    + apply (step_wait _ [] [Looked]); reflexivity.
    + apply (step_wait _ [Waiting] []); reflexivity.
    + eapply step_notify; [reflexivity|]. apply (notify_waiting _ [] [Waiting]). reflexivity.
    + apply (step_look _ [] [Waiting] PollClosed (close queue_new)); reflexivity.
  - reflexivity.
  - reflexivity.
  - reflexivity.
Qed.

End Wakeup.

Lemma single_poller_woken_witness :
  exists s, reachable_single s /\ Waiting ∈ sh_pollers s /\ q_data (sh_queue s) = [] /\ q_closed (sh_queue s) = false.
Proof.
  set (s0 := {| sh_queue := queue_new; sh_permit := false; sh_notifies := 0; sh_pollers := []; sh_out := [] |}).
  set (s3 := with_pollers false [Waiting] s0).
  assert (reachable_single s3) as Hr.
  { eapply (single_step (with_pollers false [Looked] s0)); [|exact (step_wait (with_pollers false [Looked] s0) [] [] eq_refl)|cbn; lia].
    eapply (single_step (with_pollers false [Looking] s0));
      [|exact (step_look (with_pollers false [Looking] s0) [] [] PollWait queue_new eq_refl eq_refl)|cbn; lia].
    eapply single_step; [exact single_new|exact (step_poll s0)|cbn; lia]. }
  exists s3. assert (Waiting ∈ sh_pollers s3) as Hw by (left; reflexivity).
  split; [exact Hr|]. split; [exact Hw|]. exact (single_poller_woken s3 Hr eq_refl Hw).
Defined.

(** ** Input in order *)

Lemma coalesce_same fd sid buf msgs :
  Forall (fun t => ti_fd t = fd /\ ti_session t = sid) msgs ->
  let '(out, rest) := coalesce fd sid buf msgs in
  out ++ concat (map ti_data rest) = buf ++ concat (map ti_data msgs) /\ (length rest <= length msgs)%nat /\
  Forall (fun t => ti_fd t = fd /\ ti_session t = sid) rest /\
  (forall B, Forall (fun t => Z.of_nat (length (ti_data t)) <= B) msgs -> Z.of_nat (length buf) <= MAX_BATCH_SIZE + B -> 0 <= B ->
    Z.of_nat (length out) <= MAX_BATCH_SIZE + B /\ Forall (fun t => Z.of_nat (length (ti_data t)) <= B) rest).
Proof.
  intros Hs. revert buf. induction Hs as [|t msgs [Hf Hsid] Hs IH]; intros buf; cbn [coalesce].
  - do 3 (split; [done|]). done.
  - destruct (Z.ltb_spec (Z.of_nat (length buf)) MAX_BATCH_SIZE) as [Hlt|Hge]; cbn [andb].
    2: { split; [done|]. split; [done|]. split; [by constructor|]. done. }
    destruct (ti_queued t).
    2: { split; [done|]. split; [done|]. split; [by constructor|]. done. }
    rewrite Hf, Hsid, !Z.eqb_refl. cbn [andb]. specialize (IH (buf ++ ti_data t)).
    destruct (coalesce fd sid (buf ++ ti_data t) msgs) as [out rest]. destruct IH as (He & Hl & Hr & Hb).
    split; [by rewrite He, <- app_assoc|]. split; [cbn; lia|]. split; [done|].
    intros B HB Hbuf H0. apply Forall_cons in HB as [HB0 HB]. apply Hb; [done| |done]. rewrite length_app. lia.
Qed.

(** What the guest's shells read of what the thread wrote. *)
Definition shell_input (master : Z -> option Z) {F} (written : list (F * list byte)) : list (Z * list byte) :=
  vsock_to_pty_loop (S (length written)) master (concat (map snd written)).

Section Input.
Context {F : Type} (clone_fd : nat -> Z -> option F) (fd sid : Z) (file : F) (master : Z -> option Z) (pty : Z).
Hypothesis Hmaster : master sid = Some pty.
Hypothesis Hsid : in_uN 32 sid.

Lemma input_loop_session fuel n current msgs :
  (match current with Some (f, c) => f = fd /\ c = Some file | None => clone_fd n fd = Some file end) ->
  (length msgs <= fuel)%nat ->
  Forall (fun t => ti_fd t = fd /\ ti_session t = sid) msgs ->
  Forall (fun t => Z.of_nat (length (ti_data t)) <= 2 ^ 31) msgs ->
  let written := input_loop clone_fd fuel n current msgs in
  Forall (fun w => w.1 = file) written /\
  forall k, (length written < k)%nat ->
    Forall (fun w => w.1 = pty) (vsock_to_pty_loop k master (concat (map snd written))) /\
    concat (map snd (vsock_to_pty_loop k master (concat (map snd written)))) = concat (map ti_data msgs).
Proof.
  revert n current msgs. induction fuel as [|fuel IH]; intros n current msgs Hcur Hlen Hsame Hsmall.
  { destruct msgs; [|cbn in Hlen; lia]. cbn. split; [done|]. intros k _. by destruct k. }
  destruct msgs as [|t msgs]; [cbn; split; [done|]; intros k _; by destruct k|]. cbn [input_loop].
  apply Forall_cons in Hsame as [[Hf Hs] Hsame]. apply Forall_cons in Hsmall as [Ht Hsmall]. rewrite Hf, Hs.
  pose proof (coalesce_same fd sid (ti_data t) msgs Hsame) as Hc.
  destruct (coalesce fd sid (ti_data t) msgs) as [buf rest]. destruct Hc as (Hcat & Hlr & Hsr & Hbnd).
  destruct (Hbnd (2 ^ 31) Hsmall) as [Hbuf Hsmr]; [unfold MAX_BATCH_SIZE; lia|lia|].
  assert (match current with Some (current_fd, f) => if current_fd =? fd then f else clone_fd n fd | None => clone_fd n fd end
    = Some file) as ->.
  { destruct current as [[f c]|]; [|done]. destruct Hcur as [-> ->]. by rewrite Z.eqb_refl. }
  cbn in Hlen. destruct (IH (S n) (Some (fd, Some file)) rest ltac:(done) ltac:(lia) Hsr Hsmr) as [Hw Hread].
  cbn [app]. split; [by constructor|]. intros k Hk. destruct k as [|k]; [lia|]. cbn [length] in Hk.
  cbn [map concat]. rewrite vsock_to_pty_loop_S. cbn [snd]. unfold MAX_BATCH_SIZE in Hbuf.
  rewrite read_encode_terminal_frame by (done || lia). destruct (Hread k ltac:(lia)) as [Hp Hd].
  cbn [map concat]. destruct (Z.eqb_spec (Z.of_nat (length buf)) 0) as [H0|H0].
  - destruct buf; [|cbn in H0; lia]. split; [done|]. rewrite Hd. exact Hcat.
  - rewrite Hmaster. cbn [map concat snd]. split; [by constructor|]. rewrite Hd. exact Hcat.
Qed.
End Input.

(** Input typed for one shell reaches it unchanged: however the thread batches the
    messages, what it writes to the terminal connection the guest's reader gives to the
    pseudo-terminal of that shell, byte for byte and in order. *)
Theorem input_reaches_shell {F : Type} (clone_fd : nat -> Z -> option F) (file : F) (fd sid pty : Z)
    (master : Z -> option Z) (msgs : list TerminalInput) :
  clone_fd 0%nat fd = Some file -> master sid = Some pty -> in_uN 32 sid ->
  Forall (fun t => ti_fd t = fd /\ ti_session t = sid) msgs ->
  Forall (fun t => Z.of_nat (length (ti_data t)) <= 2 ^ 31) msgs ->
  let written := input_thread clone_fd msgs in
  Forall (fun w => w.1 = file) written /\ Forall (fun r => r.1 = pty) (shell_input master written) /\
  concat (map snd (shell_input master written)) = concat (map ti_data msgs).
Proof.
  intros Hc Hm Hs Hsame Hsmall.
  destruct (input_loop_session clone_fd fd sid file master pty Hm Hs (length msgs) 0 None msgs Hc ltac:(lia) Hsame Hsmall)
    as [Hw Hr]. split; [done|]. apply Hr. unfold input_thread. lia.
Qed.

(** A message for another shell, or another VM, that is already in the channel when a
    batch is being collected ends the batch and is thrown away: it is written nowhere. *)
Theorem other_session_input_lost {F : Type} (clone_fd : nat -> Z -> option F) (m1 m2 : TerminalInput)
    (rest : list TerminalInput) (fuel n : nat) (current : option (Z * option F)) :
  Z.of_nat (length (ti_data m1)) < MAX_BATCH_SIZE -> ti_queued m2 = true ->
  (ti_fd m2 <> ti_fd m1 \/ ti_session m2 <> ti_session m1) ->
  exists file, input_loop clone_fd (S fuel) n current (m1 :: m2 :: rest) =
    match file with Some f => [(f, encode_terminal_frame (ti_session m1) (ti_data m1))] | None => [] end ++
    input_loop clone_fd fuel (S n) (Some (ti_fd m1, file)) rest.
Proof.
  intros Hlen Hq Hne. cbn [input_loop coalesce]. destruct (Z.ltb_spec (Z.of_nat (length (ti_data m1))) MAX_BATCH_SIZE); [|lia].
  rewrite Hq. cbn [andb].
  assert ((ti_fd m2 =? ti_fd m1) && (ti_session m2 =? ti_session m1) = false) as ->
    by (apply andb_false_iff; rewrite !Z.eqb_neq; destruct Hne; auto).
  eexists. reflexivity.
Qed.

Definition typed (sid : Z) (data : chunk) : TerminalInput := {| ti_fd := 9; ti_session := sid; ti_data := data; ti_queued := true |}.

Lemma input_reaches_shell_witness :
  concat (map snd (shell_input (fun s => Some (100 + s)) (input_thread (fun _ fd => Some fd) [typed 0 [x61]; typed 0 [x62]])))
  = [x61; x62].
Proof.
  refine (proj2 (proj2 (input_reaches_shell (fun _ fd => Some fd) 9 9 0 100 (fun s => Some (100 + s))
    [typed 0 [x61]; typed 0 [x62]] eq_refl eq_refl _ _ _))).
  - unfold in_uN. lia.
  - repeat constructor.
  - repeat constructor; cbn; lia.
Defined.

Lemma other_session_input_lost_witness :
  exists file, input_loop (fun _ fd => Some fd) 3 0 None [typed 0 [x61]; typed 1 [x62]; typed 0 [x63]] =
    match file with Some f => [(f, encode_terminal_frame 0 [x61])] | None => [] end ++
    input_loop (fun _ fd => Some fd) 2 1 (Some (9, file)) [typed 0 [x63]].
Proof.
  apply (other_session_input_lost (fun _ fd => Some fd) (typed 0 [x61]) (typed 1 [x62]) [typed 0 [x63]] 2 0 None);
    [cbn; unfold MAX_BATCH_SIZE; lia|reflexivity|right; discriminate].
Defined.

(** The descriptor of a stopped VM is given to the next one: its input goes to the file of
    the first, which the thread still holds. *)
Example reused_descriptor : map fst (input_thread (fun n _ => Some n)
  [{| ti_fd := 9; ti_session := 0; ti_data := [x61]; ti_queued := false |};
   {| ti_fd := 9; ti_session := 0; ti_data := [x62]; ti_queued := false |}]) = [0; 0]%nat.
Proof. reflexivity. Qed.
