(* ===== verification/Bridge.v ===== *)
(** The agent's output bridge, multi_bridge_loop and run_multi_bridge of
    crates/clawcage-agent/src/main.rs: the terminals of all shells are polled and their
    output is written to the host in frames.

    A round of the loop takes what the other threads and the kernel gave it ([Round]): the
    shells as the control loop left them, the answers of poll, of the reads and of
    waitpid. Whatever they are, the host reads back what the shells wrote, the sentinel
    of an exec removed from the default shell's ([exec_bridged]), and the shells that ended
    are removed ([ended_shells_reaped]). An exec whose shell ends before it has reported
    never ends ([lost_shell_stalls_exec]). *)

From Stdlib Require Import ZArith Lia Strings.Byte.
From stdpp Require Import base numbers list gmap strings.
From S2P Require Import Prelude RustStr Utf8 Proto Sentinel AgentControl HostTerminal.

(** ** What a round meets *)

Inductive ReadOutcome := ReadData (data : list byte) | ReadAgain | ReadError.

(** The events of one descriptor: the outcome of the read when POLLIN is set, and whether
    POLLHUP or POLLERR is. *)
Record Revents := { rv_in : option ReadOutcome; rv_hup : bool }.

(** [None]: the bits are none that nix knows. *)
Inductive PollOutcome :=
| PollNone
| PollInterrupted
| PollFailed
| PollReady (events : list (option Revents)).

(** The wait for a notification while there are no shells. *)
Inductive IdleOutcome := Notified | TimedOut | Disconnected.

Inductive WaitStatus := Exited (code : Z) | Signaled (sig : Z) | OtherStatus | WaitError.

Record Round := {
  rd_shells : ShellManager;          (* the shells, as the control loop left them *)
  rd_exec : option bool;             (* the flag of an exec, if it was set meanwhile *)
  rd_changes : nat;                  (* the notifications that wait *)
  rd_idle : IdleOutcome;
  rd_poll : PollOutcome;
  rd_wait : Z -> WaitStatus * WaitStatus;  (* of a child: without waiting, and after SIGHUP *)
}.

(** ** The loop *)

Record Bridge := {
  br_tail : list byte;
  br_fds : list (Z * Z);
  br_shells : ShellManager;
  br_active : bool;
  br_written : list byte;
  br_writes : nat;
  br_done : list (Z * Z);
  br_reaped : list (Shell * Z);
}.

Definition set_tail (tail : list byte) (b : Bridge) : Bridge :=
  {| br_tail := tail; br_fds := br_fds b; br_shells := br_shells b; br_active := br_active b; br_written := br_written b; br_writes := br_writes b;
     br_done := br_done b; br_reaped := br_reaped b |}.
Definition set_poll_fds (fds : list (Z * Z)) (b : Bridge) : Bridge :=
  {| br_tail := br_tail b; br_fds := fds; br_shells := br_shells b; br_active := br_active b; br_written := br_written b; br_writes := br_writes b;
     br_done := br_done b; br_reaped := br_reaped b |}.
Definition set_shared (m : ShellManager) (active : bool) (b : Bridge) : Bridge :=
  {| br_tail := br_tail b; br_fds := br_fds b; br_shells := m; br_active := active; br_written := br_written b; br_writes := br_writes b;
     br_done := br_done b; br_reaped := br_reaped b |}.
Definition report_exit (r : Z * Z) (b : Bridge) : Bridge :=
  {| br_tail := br_tail b; br_fds := br_fds b; br_shells := br_shells b; br_active := br_active b; br_written := br_written b; br_writes := br_writes b;
     br_done := br_done b ++ [r]; br_reaped := br_reaped b |}.
Definition reap (s : Shell) (code : Z) (b : Bridge) : Bridge :=
  {| br_tail := br_tail b; br_fds := br_fds b; br_shells := br_shells b; br_active := br_active b; br_written := br_written b; br_writes := br_writes b;
     br_done := br_done b; br_reaped := br_reaped b ++ [(s, code)] |}.

(** [fd_snapshot], in the order of the map. *)
Definition fd_snapshot (m : ShellManager) : list (Z * Z) := map (fun '(sid, s) => (sid, master_fd s)) (map_to_list m).

Section Loop.

(** The n-th write of a frame: [None] when it succeeds, else the bytes that still went out. *)
Variable (vsock : nat -> option nat).

(** Writing a frame; [Err] is the return of the loop. *)
Definition write_frame (sid : Z) (data : list byte) (b : Bridge) : result Bridge Bridge :=
  let frame := encode_terminal_frame sid data in
  let wrote part := {| br_tail := br_tail b; br_fds := br_fds b; br_shells := br_shells b; br_active := br_active b; br_written := br_written b ++ part;
                       br_writes := S (br_writes b); br_done := br_done b; br_reaped := br_reaped b |} in
  match vsock (br_writes b) with None => Ok (wrote frame) | Some n => Err (wrote (take n frame)) end.

(** The arm for data read from a shell. *)
Definition forward_output (sid : Z) (data : list byte) (b : Bridge) : result Bridge Bridge :=
  if (sid =? DEFAULT_SHELL_SESSION_ID) && br_active b then
    let '(forward, res, tail) := scan_and_strip_sentinel (br_tail b) data in
    let b := set_tail tail b in
    let? b := match forward with [] => Ok b | _ => write_frame sid forward b end in
    match res with
    | None => Ok b
    | Some r =>
        let b := set_tail [] (set_shared (br_shells b) false b) in
        let? b := match tail with [] => Ok b | _ => write_frame sid tail b end in Ok (report_exit r b)
    end
  else write_frame sid data b.

(** One descriptor: the bridge, and the sessions that closed so far. *)
Definition serve_fd (sid : Z) (ev : option Revents) (b : Bridge) (closed : list Z) : result (Bridge * list Z) Bridge :=
  match ev with
  | None => Ok (b, closed)
  | Some ev =>
      let? (b, closed) :=
        match rv_in ev with
        | Some (ReadData []) | Some ReadError => Ok (b, closed ++ [sid])
        | Some (ReadData data) => let? b := forward_output sid data b in Ok (b, closed)
        | Some ReadAgain | None => Ok (b, closed)
        end in
      Ok (b, if rv_hup ev && negb (bool_decide (sid ∈ closed)) then closed ++ [sid] else closed)
  end.

Fixpoint serve_fds (fds : list ((Z * Z) * option Revents)) (b : Bridge) (closed : list Z) : result (Bridge * list Z) Bridge :=
  match fds with
  | [] => Ok (b, closed)
  | ((sid, _), ev) :: fds => let? (b, closed) := serve_fd sid ev b closed in serve_fds fds b closed
  end.

(** The exit code of a shell that closed; SIGHUP is sent when it has not ended yet. *)
Definition exit_code (w : WaitStatus * WaitStatus) : Z :=
  match w.1 with
  | Exited code => code
  | Signaled sig => 128 + sig
  | _ => match w.2 with Exited code => code | _ => -1 end
  end.

Definition close_ended (wait : Z -> WaitStatus * WaitStatus) (b : Bridge) (sid : Z) : Bridge :=
  let '(shell, m) := remove_shell (br_shells b) sid in
  let b := set_shared m (br_active b) b in
  let b := match shell with Some s => reap s (exit_code (wait (child_pid s))) b | None => b end in
  set_poll_fds (fd_snapshot m) b.

(** One iteration: [Err] when the loop ends. *)
Definition bridge_round (b : Bridge) (r : Round) : result Bridge Bridge :=
  let b := set_shared (rd_shells r) (default (br_active b) (rd_exec r)) b in
  let b := match rd_changes r with O => b | S _ => set_poll_fds (fd_snapshot (br_shells b)) b end in
  match br_fds b with
  | [] =>
      match rd_idle r with
      | Notified => Ok (set_poll_fds (fd_snapshot (br_shells b)) b)
      | TimedOut => Ok b
      | Disconnected => Err b
      end
  | _ =>
      match rd_poll r with
      | PollNone | PollInterrupted => Ok b
      | PollFailed => Err b
      | PollReady events =>
          let? (b, closed) := serve_fds (zip (br_fds b) events) b [] in
          Ok (fold_left (close_ended (rd_wait r)) closed b)
      end
  end.

(** The rounds until one ends the loop. *)
Fixpoint multi_bridge_loop (b : Bridge) (rounds : list Round) : result Bridge Bridge :=
  match rounds with
  | [] => Ok b
  | r :: rounds => let? b := bridge_round b r in multi_bridge_loop b rounds
  end.

Definition bridge_start (m : ShellManager) : Bridge :=
  {| br_tail := []; br_fds := fd_snapshot m; br_shells := m; br_active := false; br_written := []; br_writes := 0; br_done := []; br_reaped := [] |}.

(** [run_multi_bridge] after the loop: every shell gets SIGHUP, is waited for and closed.
    The shells that are left, and those that were killed. *)
Definition kill_shells (m : ShellManager) : ShellManager * list Shell := (∅, (map_to_list m).*2).

Definition ended_at (r : result Bridge Bridge) : Bridge := match r with Ok b | Err b => b end.

(** ** What was read *)

(** The data a round reads: per descriptor, with its session. *)
Definition data_read (x : (Z * Z) * option Revents) : option (Z * chunk) :=
  match x.2 with Some {| rv_in := Some (ReadData ((_ :: _) as data)) |} => Some (x.1.1, data) | _ => None end.

Definition reads_of (fds : list ((Z * Z) * option Revents)) : list (Z * chunk) := omap data_read fds.

(** The descriptors a round polls. *)
Definition polled_fds (b : Bridge) (r : Round) : list (Z * Z) := match rd_changes r with O => br_fds b | S _ => fd_snapshot (rd_shells r) end.

Definition round_reads (b : Bridge) (r : Round) : list (Z * chunk) :=
  match rd_poll r with PollReady events => reads_of (zip (polled_fds b r) events) | _ => [] end.

Fixpoint run_reads (b : Bridge) (rounds : list Round) : list (Z * chunk) :=
  match rounds with
  | [] => []
  | r :: rounds => round_reads b r ++ match bridge_round b r with Ok b => run_reads b rounds | Err _ => [] end
  end.

End Loop.

(** What is forwarded of the default shell's reads, the report, and the tail. *)
Definition default_output (active : bool) (tail : list byte) (chunks : list chunk) : list byte * option (Z * Z) * list byte :=
  if active then bridge_exec tail chunks else (concat chunks, None, tail).

Definition chunks_of (sid : Z) (reads : list (Z * chunk)) : list chunk := map snd (List.filter (of_session sid) reads).

Lemma chunks_of_cons sid s data l : chunks_of sid ((s, data) :: l) = if s =? sid then data :: chunks_of sid l else chunks_of sid l.
Proof. unfold chunks_of. cbn. unfold of_session at 1. cbn. by destruct (s =? sid). Qed.

Lemma concat_chunks sid reads : concat (chunks_of sid reads) = session_data sid reads.
Proof. done. Qed.

Lemma bridge_exec_app a : forall tail c,
  let '(f1, r1, t1) := bridge_exec tail a in let '(f2, r2, t2) := default_output (negb (bool_decide (is_Some r1))) t1 c in
  bridge_exec tail (a ++ c) = (f1 ++ f2, match r1 with Some r => Some r | None => r2 end, t2).
Proof.
  induction a as [|x a IH]; intros tail c; cbn [bridge_exec app].
  - rewrite bool_decide_false by (intros []; done). cbn. by destruct (bridge_exec tail c) as [[f r] t].
  - destruct (scan_and_strip_sentinel tail x) as [[fwd res] t] eqn:E. destruct res as [r|].
    + rewrite bool_decide_true by done. cbn. by rewrite concat_app, !app_assoc.
    + specialize (IH t c). destruct (bridge_exec t a) as [[f1 r1] t1]. destruct (default_output _ t1 c) as [[f2 r2] t2]. rewrite IH. by rewrite app_assoc.
Qed.

Lemma default_output_app active tail a c :
  let '(f1, r1, t1) := default_output active tail a in let '(f2, r2, t2) := default_output (active && negb (bool_decide (is_Some r1))) t1 c in
  default_output active tail (a ++ c) = (f1 ++ f2, match r1 with Some r => Some r | None => r2 end, t2).
Proof. destruct active; [apply bridge_exec_app|]. cbn. by rewrite concat_app. Qed.

(** Scanning adds nothing. *)
Lemma scan_length tail new : let '(fwd, _, t) := scan_and_strip_sentinel tail new in (length fwd + length t <= length tail + length new)%nat.
Proof.
  unfold scan_and_strip_sentinel. rewrite <- length_app. set (l := tail ++ new).
  assert (forall n, (length (take n l) + length (drop n l) <= length l)%nat) as Hs by (intros n; rewrite <- length_app, take_drop; lia).
  destruct (find_subsequence l SENTINEL_PREFIX) as [i|] eqn:E.
  - destruct (find_subsequence (drop _ l) _) as [o|]; [|apply Hs]. destruct (parse_sentinel_payload _); [|apply Hs].
    rewrite length_take, length_drop. lia.
  - destruct (keep_len l <? length l)%nat; [apply Hs|]. cbn. lia.
Qed.

(** ** What is written *)

Section Delivered.

(** The host keeps the connection open. *)
Definition open_vsock (n : nat) : option nat := None.

Definition frame_bytes (frames : list (Z * chunk)) : list byte := concat (map (fun '(sid, data) => encode_terminal_frame sid data) frames).

Lemma frame_bytes_app a c : frame_bytes (a ++ c) = frame_bytes a ++ frame_bytes c.
Proof. unfold frame_bytes. by rewrite map_app, concat_app. Qed.

(** From [b] to [b'] frames were written; they carry [reads], and of the default shell what
    the scanner forwards of its reads, with its report. *)
Record delivers (b b' : Bridge) (reads frames : list (Z * chunk)) (res : option (Z * Z)) : Prop := {
  dl_written : br_written b' = br_written b ++ frame_bytes frames;
  dl_others sid : sid <> DEFAULT_SHELL_SESSION_ID -> session_data sid frames = session_data sid reads;
  dl_default : default_output (br_active b) (br_tail b) (chunks_of DEFAULT_SHELL_SESSION_ID reads) =
    (session_data DEFAULT_SHELL_SESSION_ID frames, res, br_tail b');
  dl_done : br_done b' = br_done b ++ option_list res;
  dl_active : br_active b' = br_active b && negb (bool_decide (is_Some res));
  dl_sids : Forall (fun f => f.1 ∈ reads.*1) frames;
  dl_size : (length (concat frames.*2) + length (br_tail b') <= length (br_tail b) + length (concat reads.*2))%nat;
}.

Lemma delivers_nil b b' : br_written b' = br_written b -> br_tail b' = br_tail b -> br_done b' = br_done b -> br_active b' = br_active b -> delivers b b' [] [] None.
Proof.
  intros Hw Ht Hd Ha. constructor; rewrite ?Hw, ?Ht, ?Hd, ?Ha; cbn; rewrite ?app_nil_r, ?andb_true_r; try done; [|lia].
  unfold default_output. by destruct (br_active b).
Qed.

Lemma delivers_app b1 b2 b3 r1 r2 f1 f2 res1 res2 : delivers b1 b2 r1 f1 res1 -> delivers b2 b3 r2 f2 res2 ->
  delivers b1 b3 (r1 ++ r2) (f1 ++ f2) (match res1 with Some r => Some r | None => res2 end).
Proof.
  intros H1 H2. pose proof (default_output_app (br_active b1) (br_tail b1) (chunks_of DEFAULT_SHELL_SESSION_ID r1) (chunks_of DEFAULT_SHELL_SESSION_ID r2)) as Hd.
  rewrite (dl_default _ _ _ _ _ H1), <- (dl_active _ _ _ _ _ H1), (dl_default _ _ _ _ _ H2) in Hd.
  assert (is_Some res1 -> res2 = None) as Hone.
  { intros Hr. pose proof (dl_default _ _ _ _ _ H2) as H. rewrite (dl_active _ _ _ _ _ H1), bool_decide_true, andb_false_r in H by done. by injection H. }
  constructor.
  - by rewrite (dl_written _ _ _ _ _ H2), (dl_written _ _ _ _ _ H1), frame_bytes_app, app_assoc.
  - intros sid Hs. by rewrite !session_data_app, (dl_others _ _ _ _ _ H1), (dl_others _ _ _ _ _ H2).
  - rewrite session_data_app. unfold chunks_of in *. by rewrite List.filter_app, map_app.
  - rewrite (dl_done _ _ _ _ _ H2), (dl_done _ _ _ _ _ H1), <- app_assoc. f_equal. destruct res1; [|done]. by rewrite Hone.
  - rewrite (dl_active _ _ _ _ _ H2), (dl_active _ _ _ _ _ H1), <- andb_assoc. f_equal. destruct res1; [|done]. by rewrite Hone.
  - apply Forall_app. split; (eapply Forall_impl; [by eapply dl_sids|]; intros f Hf; rewrite fmap_app; set_solver).
  - pose proof (dl_size _ _ _ _ _ H1). pose proof (dl_size _ _ _ _ _ H2). rewrite !fmap_app, !concat_app, !length_app. lia.
Qed.

Lemma write_ok sid data b : exists b', write_frame open_vsock sid data b = Ok b' /\ br_written b' = br_written b ++ encode_terminal_frame sid data /\
  br_tail b' = br_tail b /\ br_done b' = br_done b /\ br_active b' = br_active b.
Proof. by eexists. Qed.

(** Writing what may be empty. *)
Lemma write_some sid data b : exists b', match data with [] => Ok b | _ => write_frame open_vsock sid data b end = Ok b' /\
  br_written b' = br_written b ++ frame_bytes (match data with [] => [] | _ => [(sid, data)] end) /\ br_tail b' = br_tail b /\ br_done b' = br_done b /\ br_active b' = br_active b.
Proof.
  destruct data as [|x data]; [exists b; cbn; by rewrite app_nil_r|]. destruct (write_ok sid (x :: data) b) as (b' & E & Hw & ?).
  exists b'. unfold frame_bytes. cbn [map concat]. by rewrite app_nil_r.
Qed.

Lemma session_some sid sid' data : session_data sid (match data with [] => [] | _ => [(sid', data)] end) = if sid' =? sid then data else [].
Proof. destruct data as [|x data]; [by destruct (sid' =? sid)|]. rewrite session_data_cons. unfold session_data. cbn. by rewrite app_nil_r. Qed.

Lemma forward_delivers sid data b : exists b' frames res, forward_output open_vsock sid data b = Ok b' /\ delivers b b' [(sid, data)] frames res.
Proof.
  unfold forward_output. destruct ((sid =? DEFAULT_SHELL_SESSION_ID) && br_active b) eqn:Hc.
  - apply andb_true_iff in Hc as [->%Z.eqb_eq Ha]. pose proof (scan_length (br_tail b) data) as Hl.
    destruct (scan_and_strip_sentinel (br_tail b) data) as [[fwd res] tail] eqn:Hscan.
    destruct (write_some DEFAULT_SHELL_SESSION_ID fwd (set_tail tail b)) as (b1 & E1 & Hw1 & Ht1 & Hd1 & Ha1). rewrite E1.
    set (f1 := match fwd with [] => [] | _ => [(DEFAULT_SHELL_SESSION_ID, fwd)] end) in *. destruct res as [r|].
    + destruct (write_some DEFAULT_SHELL_SESSION_ID tail (set_tail [] (set_shared (br_shells b1) false b1))) as (b2 & E2 & Hw2 & Ht2 & Hd2 & Ha2). rewrite E2.
      set (f2 := match tail with [] => [] | _ => [(DEFAULT_SHELL_SESSION_ID, tail)] end) in *.
      exists (report_exit r b2), (f1 ++ f2), (Some r). split; [done|]. constructor; cbn [report_exit set_tail set_shared br_written br_tail br_done br_active br_shells] in *.
      * rewrite Hw2. cbn. by rewrite Hw1, frame_bytes_app, app_assoc.
      * intros sid Hs. unfold f1, f2. rewrite session_data_app, !session_some, session_data_cons. destruct (Z.eqb_spec DEFAULT_SHELL_SESSION_ID sid); [by subst|done].
      * rewrite Ha. cbn [default_output chunks_of]. unfold chunks_of. cbn. rewrite Hscan, Ht2. unfold f1, f2. rewrite session_data_app, !session_some. cbn. by rewrite app_nil_r.
      * rewrite Hd2. cbn. by rewrite Hd1.
      * rewrite Ha2. by rewrite andb_false_r.
      * unfold f1, f2. apply Forall_app. split; [destruct fwd|destruct tail]; repeat constructor.
      * rewrite Ht2. cbn. rewrite fmap_app, concat_app, length_app, app_nil_r. unfold f1, f2. destruct fwd, tail; cbn in *; rewrite ?app_nil_r; cbn; lia.
    + exists b1, f1, None. split; [done|]. constructor; cbn [report_exit set_tail set_shared br_written br_tail br_done br_active br_shells] in *.
      * by rewrite Hw1.
      * intros sid Hs. unfold f1. rewrite session_some, session_data_cons. destruct (Z.eqb_spec DEFAULT_SHELL_SESSION_ID sid); [by subst|done].
      * rewrite Ha, Ht1. unfold chunks_of, f1. cbn. rewrite Hscan, session_some. cbn. by rewrite app_nil_r.
      * by rewrite Hd1, app_nil_r.
      * by rewrite Ha1, andb_true_r.
      * unfold f1. destruct fwd; repeat constructor.
      * rewrite Ht1. unfold f1. destruct fwd; cbn in *; rewrite ?app_nil_r; cbn; lia.
  - destruct (write_ok sid data b) as (b' & -> & Hw & Ht & Hd & Ha). exists b', [(sid, data)], None. split; [done|]. constructor.
    + rewrite Hw. unfold frame_bytes. cbn. by rewrite app_nil_r.
    + done.
    + rewrite Ht, chunks_of_cons, session_data_cons. destruct (Z.eqb_spec sid DEFAULT_SHELL_SESSION_ID) as [->|Hs].
      * change (br_active b = false) in Hc. by rewrite Hc.
      * unfold default_output. by destruct (br_active b).
    + by rewrite Hd, app_nil_r.
    + by rewrite Ha, andb_true_r.
    + repeat constructor.
    + rewrite Ht. cbn. lia.
Qed.

Lemma serve_fds_delivers fds : forall b closed, exists b' closed' frames res, serve_fds open_vsock fds b closed = Ok (b', closed') /\ delivers b b' (reads_of fds) frames res.
Proof.
  induction fds as [|[[sid fd] ev] fds IH]; intros b closed; cbn [serve_fds].
  - exists b, closed, [], None. split; [done|]. by apply delivers_nil.
  - assert (exists b1 closed1 f1 res1, serve_fd open_vsock sid ev b closed = Ok (b1, closed1) /\ delivers b b1 (option_list (data_read ((sid, fd), ev))) f1 res1) as (b1 & closed1 & f1 & res1 & -> & H1).
    { unfold serve_fd, data_read. cbn [snd fst]. destruct ev as [[[[[|x data]| |]|] hup]|]; cbn [rv_in rv_hup]; try (eexists b, _, [], None; split; [done|by apply delivers_nil]).
      destruct (forward_delivers sid (x :: data) b) as (b1 & f1 & res1 & -> & H1). eexists b1, _, f1, res1. split; [reflexivity|exact H1]. }
    destruct (IH b1 closed1) as (b2 & closed2 & f2 & res2 & -> & H2). exists b2, closed2, (f1 ++ f2), (match res1 with Some r => Some r | None => res2 end). split; [done|].
    assert (reads_of (((sid, fd), ev) :: fds) = option_list (data_read ((sid, fd), ev)) ++ reads_of fds) as -> by (unfold reads_of; cbn [omap list_omap]; by destruct (data_read _)).
    by eapply delivers_app.
Qed.

Lemma cleanup_keeps wait closed : forall b, let b' := fold_left (close_ended wait) closed b in
  br_written b' = br_written b /\ br_tail b' = br_tail b /\ br_done b' = br_done b /\ br_active b' = br_active b.
Proof.
  induction closed as [|sid closed IH]; intros b; [done|]. cbn [fold_left]. destruct (IH (close_ended wait b sid)) as (-> & -> & -> & ->).
  unfold close_ended, remove_shell. by destruct (br_shells b !! sid).
Qed.

Lemma round_delivers b r : rd_exec r = None -> exists frames res, delivers b (ended_at (bridge_round open_vsock b r)) (round_reads b r) frames res.
Proof.
  intros Hx. unfold bridge_round, round_reads, polled_fds. rewrite Hx. cbn [default].
  set (b0 := match rd_changes r with O => _ | S _ => _ end).
  assert (br_written b0 = br_written b /\ br_tail b0 = br_tail b /\ br_done b0 = br_done b /\ br_active b0 = br_active b /\
    br_fds b0 = match rd_changes r with O => br_fds b | S _ => fd_snapshot (rd_shells r) end) as (Hw & Ht & Hd & Ha & Hf) by (subst b0; by destruct (rd_changes r)).
  rewrite <- Hf. destruct (br_fds b0) as [|x fds] eqn:Hfds.
  - assert (match rd_poll r with PollReady events => reads_of (zip [] events) | _ => [] end = []) as -> by by destruct (rd_poll r).
    exists [], None. destruct (rd_idle r); by apply delivers_nil.
  - destruct (rd_poll r) as [| | |events]; [exists [], None; by apply delivers_nil..|].
    destruct (serve_fds_delivers (zip (x :: fds) events) b0 []) as (b1 & closed & frames & res & -> & [H1 H2 H3 H4 H5 H6 H7]). exists frames, res. cbn [ended_at].
    destruct (cleanup_keeps (rd_wait r) closed b1) as (Cw & Ct & Cd & Ca). rewrite Hw, Ht, Hd, Ha in *. by constructor; rewrite ?Cw, ?Ct, ?Cd, ?Ca.
Qed.

Lemma run_delivers rounds : forall b, Forall (fun r => rd_exec r = None) rounds ->
  exists frames res, delivers b (ended_at (multi_bridge_loop open_vsock b rounds)) (run_reads open_vsock b rounds) frames res.
Proof.
  induction rounds as [|r rounds IH]; intros b Hx; cbn [multi_bridge_loop run_reads]; [exists [], None; by apply delivers_nil|].
  apply Forall_cons in Hx as [Hr Hx]. destruct (round_delivers b r Hr) as (f1 & res1 & H1). destruct (bridge_round open_vsock b r) as [b1|b1]; cbn [ended_at] in H1 |- *.
  - destruct (IH b1 Hx) as (f2 & res2 & H2). eexists _, _. by eapply delivers_app.
  - rewrite app_nil_r. by exists f1, res1.
Qed.

(** The host takes the frames apart again. *)
Lemma host_reads b b' reads frames res fuel sid : delivers b b' reads frames res -> br_written b = [] -> Forall (in_uN 32) reads.*1 ->
  4 + Z.of_nat (length (br_tail b) + length (concat reads.*2)) < 2 ^ 32 -> (length (br_written b') < fuel)%nat ->
  session_data sid (terminal_reader fuel (br_written b')) = session_data sid frames.
Proof.
  intros H Hw Hs Hl Hf. pose proof (dl_written _ _ _ _ _ H) as E. rewrite Hw in E. rewrite E in Hf |- *. cbn [app] in *.
  assert (length frames <= length (frame_bytes frames))%nat as Hlen.
  { clear. unfold frame_bytes. induction frames as [|[s d] fs IH]; [done|]. cbn [map concat length]. rewrite length_app. unfold encode_terminal_frame at 1.
    rewrite length_app, to_be_bytes_length. lia. }
  apply terminal_reader_frames; [lia|]. pose proof (dl_sids _ _ _ _ _ H) as Hi. pose proof (dl_size _ _ _ _ _ H) as Hz. rewrite Forall_forall in Hi. rewrite Forall_forall in Hs. apply Forall_forall.
  intros [s d] Hin. split; [apply Hs; exact (Hi _ Hin)|].
  assert (length d <= length (concat frames.*2))%nat as Hd; [|lia].
  apply list_elem_of_split in Hin as (l1 & l2 & ->). rewrite fmap_app, concat_app, fmap_cons. cbn [concat snd]. rewrite !length_app. lia.
Qed.

(** C19: Take rounds of the bridge in which an exec is running and no other one starts, and
    the bytes the agent read from each shell in them (what a shell's terminal still held
    when the agent closed it after its hang-up is not among these). However they are cut
    into reads and whatever else the rounds meet, the host takes from the terminal channel
    exactly the bytes read from every other shell; and when what was read from the default
    shell holds the sentinel of the exec, with no sentinel prefix before it, the host takes
    the default shell's bytes before and after that sentinel, and its id and exit code are
    reported once. *)
Theorem exec_bridged (b : Bridge) (rounds : list Round) (out payload rest : list byte) (id code : Z) (fuel : nat)
    (Hactive : br_active b = true) (Htail : br_tail b = []) (Hnew : br_written b = []) (Hone : Forall (fun r => rd_exec r = None) rounds)
    (Hsids : Forall (in_uN 32) (run_reads open_vsock b rounds).*1) (Hlen : 4 + Z.of_nat (length (concat (run_reads open_vsock b rounds).*2)) < 2 ^ 32)
    (Hout : find_subsequence out SENTINEL_PREFIX = None) (Hpayload : parse_sentinel_payload payload = Some (id, code)) (Hesc : x1b ∉ payload)
    (Hread : session_data DEFAULT_SHELL_SESSION_ID (run_reads open_vsock b rounds) = out ++ SENTINEL_PREFIX ++ payload ++ SENTINEL_TERMINATOR ++ rest)
    (Hfuel : (length (br_written (ended_at (multi_bridge_loop open_vsock b rounds))) < fuel)%nat) :
  let b' := ended_at (multi_bridge_loop open_vsock b rounds) in
  let host := terminal_reader fuel (br_written b') in
  session_data DEFAULT_SHELL_SESSION_ID host = out ++ rest /\
  (forall sid, sid <> DEFAULT_SHELL_SESSION_ID -> session_data sid host = session_data sid (run_reads open_vsock b rounds)) /\
  br_done b' = br_done b ++ [(id, code)] /\ br_active b' = false.
Proof.
  destruct (run_delivers rounds b Hone) as (frames & res & H). cbv zeta. set (b' := ended_at _) in *.
  assert (forall sid, session_data sid (terminal_reader fuel (br_written b')) = session_data sid frames) as Hh.
  { intros sid. eapply host_reads; try done. by rewrite Htail. }
  pose proof (dl_default _ _ _ _ _ H) as Hd. rewrite Hactive, Htail in Hd. cbn [default_output] in Hd.
  rewrite (sentinel_reported out payload rest (id, code)) in Hd by done. injection Hd as Hdata <- _.
  rewrite Hh, <- Hdata. split; [done|]. split; [intros sid Hs; rewrite Hh; by apply (dl_others _ _ _ _ _ H)|].
  split; [exact (dl_done _ _ _ _ _ H)|]. rewrite (dl_active _ _ _ _ _ H). by rewrite bool_decide_true, andb_false_r.
Qed.

End Delivered.

(** ** Shells that end *)

Section Ended.
Context (vsock : nat -> option nat).

(** A descriptor at its end: end of file, an error or a hang-up. *)
Definition closes (ev : option Revents) : bool :=
  match ev with
  | None => false
  | Some ev => match rv_in ev with Some (ReadData []) | Some ReadError => true | _ => false end || rv_hup ev
  end.

Definition ended (fds : list ((Z * Z) * option Revents)) : list Z := map (fun x => x.1.1) (List.filter (fun x => closes x.2) fds).

(** What a forwarded read leaves alone. *)
Definition same_shells (b b' : Bridge) : Prop := br_shells b' = br_shells b /\ br_fds b' = br_fds b /\ br_reaped b' = br_reaped b.

Lemma write_same sid data b b' : write_frame vsock sid data b = Ok b' -> same_shells b b' /\ br_done b' = br_done b /\ br_active b' = br_active b.
Proof. unfold write_frame. destruct (vsock _); [done|]. by intros [= <-]. Qed.

Lemma write_some_same sid data b b' : match data with [] => Ok b | _ => write_frame vsock sid data b end = Ok b' -> same_shells b b'.
Proof. destruct data; [by intros [= <-]|]. intros E. by apply write_same in E as [? _]. Qed.

Lemma forward_same sid data b b' : forward_output vsock sid data b = Ok b' -> same_shells b b'.
Proof.
  unfold forward_output. destruct (_ && _); [|intros E; by apply write_same in E as [? _]]. destruct (scan_and_strip_sentinel _ _) as [[fwd res] tail].
  destruct (match fwd with [] => _ | _ => _ end) as [b1|] eqn:E1; [|done]. apply write_some_same in E1 as (H1 & H2 & H3). destruct res as [r|]; [|by intros [= <-]].
  destruct (match tail with [] => _ | _ => _ end) as [b2|] eqn:E2; [|done]. apply write_some_same in E2 as (H4 & H5 & H6). intros [= <-].
  unfold same_shells in *. cbn in *. split_and!; congruence.
Qed.

Lemma serve_fds_closed fds : forall b closed b' closed', NoDup (map (fun x => x.1.1) fds) -> (forall x, x ∈ fds -> x.1.1 ∉ closed) ->
  serve_fds vsock fds b closed = Ok (b', closed') -> closed' = closed ++ ended fds /\ same_shells b b'.
Proof.
  induction fds as [|[[sid fd] ev] fds IH]; intros b closed b' closed' Hnd Hc; cbn [serve_fds].
  - intros [= <- <-]. by rewrite app_nil_r.
  - cbn [map fst] in Hnd. apply NoDup_cons in Hnd as [Hni Hnd]. assert (sid ∉ closed) as Hs by (apply (Hc ((sid, fd), ev)); left).
    destruct (serve_fd vsock sid ev b closed) as [[b1 closed1]|] eqn:E; [|done]. intros Hrest.
    assert (closed1 = closed ++ (if closes ev then [sid] else []) /\ same_shells b b1) as [-> Hb1].
    { unfold serve_fd in E. destruct ev as [[o hup]|]; [|injection E as <- <-; by rewrite app_nil_r]. cbn [rv_in rv_hup closes] in *.
      destruct o as [[[|x data]| |]|]; cbn [orb].
      - injection E as <- <-. rewrite bool_decide_true by set_solver. by rewrite andb_false_r.
      - destruct (forward_output vsock sid (x :: data) b) as [b2|] eqn:Ef; [|done]. injection E as <- <-. apply forward_same in Ef. split; [|done].
        rewrite bool_decide_false by done. rewrite andb_true_r. destruct hup; [done|by rewrite app_nil_r].
      - injection E as <- <-. rewrite bool_decide_false, andb_true_r by done. destruct hup; [done|by rewrite app_nil_r].
      - injection E as <- <-. rewrite bool_decide_true by set_solver. by rewrite andb_false_r.
      - injection E as <- <-. rewrite bool_decide_false, andb_true_r by done. destruct hup; [done|by rewrite app_nil_r]. }
    apply IH in Hrest as [-> (H1 & H2 & H3)]; [|done|].
    + destruct Hb1 as (H4 & H5 & H6). split; [|split_and!; congruence]. rewrite <- app_assoc. f_equal. unfold ended. cbn [List.filter]. cbn [snd]. by destruct (closes ev).
    + intros x Hx Hin. apply elem_of_app in Hin as [Hin|Hin]; [by apply (Hc x); [right|]|].
      assert (x.1.1 = sid) as E' by (destruct (closes ev); set_solver). apply Hni. rewrite <- E'. apply list_elem_of_fmap. by exists x.
Qed.

(** The closed sessions, one after the other. *)
Lemma cleanup_ended wait closed : forall b, NoDup closed ->
  let b' := fold_left (close_ended wait) closed b in
  br_shells b' = filter (fun kv => kv.1 ∉ closed) (br_shells b) /\
  br_reaped b' = br_reaped b ++ omap (fun sid => s ← br_shells b !! sid; Some (s, exit_code (wait (child_pid s)))) closed /\
  br_fds b' = match closed with [] => br_fds b | _ => fd_snapshot (br_shells b') end.
Proof.
  induction closed as [|sid closed IH]; intros b Hnd; cbn [fold_left].
  - rewrite app_nil_r. split_and!; [|done..]. apply map_eq. intros k. rewrite map_lookup_filter. destruct (br_shells b !! k); [|done]. cbn. rewrite option_guard_True; [done|set_solver].
  - apply NoDup_cons in Hnd as [Hni Hnd]. destruct (IH (close_ended wait b sid) Hnd) as (Hs & Hr & Hf). cbv zeta. rewrite Hs, Hr, Hf.
    assert (br_shells (close_ended wait b sid) = delete sid (br_shells b)) as Hd by (unfold close_ended, remove_shell; by destruct (br_shells b !! sid)).
    rewrite Hd in *. split_and!.
    + apply map_eq. intros k. rewrite !map_lookup_filter. destruct (decide (k = sid)) as [->|Hk].
      * rewrite lookup_delete_eq. cbn. destruct (br_shells b !! sid); [|done]. cbn. rewrite option_guard_False; [done|set_solver].
      * rewrite lookup_delete_ne by done. destruct (br_shells b !! k); [|done]. cbn. destruct (decide (k ∈ closed)).
        -- rewrite !option_guard_False; [done|set_solver..].
        -- rewrite !option_guard_True; [done|set_solver..].
    + assert (br_reaped (close_ended wait b sid) = br_reaped b ++ option_list (s ← br_shells b !! sid; Some (s, exit_code (wait (child_pid s))))) as ->.
      { unfold close_ended, remove_shell. destruct (br_shells b !! sid); cbn; by rewrite ?app_nil_r. }
      rewrite <- app_assoc. f_equal. cbn [omap list_omap].
      assert (omap (fun sid0 => s ← delete sid (br_shells b) !! sid0; Some (s, exit_code (wait (child_pid s)))) closed =
        omap (fun sid0 => s ← br_shells b !! sid0; Some (s, exit_code (wait (child_pid s)))) closed) as ->.
      { clear -Hni. induction closed as [|x l IHl]; [done|]. cbn [omap list_omap]. rewrite lookup_delete_ne by set_solver. by rewrite IHl by set_solver. }
      by destruct (s ← br_shells b !! sid; _).
    + rewrite <- Hs. destruct closed as [|x closed']; [|done]. cbn [fold_left]. unfold close_ended, remove_shell. by destruct (br_shells b !! sid).
Qed.

Lemma snapshot_keys m : (fd_snapshot m).*1 = (map_to_list m).*1.
Proof. unfold fd_snapshot. induction (map_to_list m) as [|[sid s] l IH]; [done|]. cbn. by rewrite IH. Qed.

Lemma snapshot_nodup m : NoDup (fd_snapshot m).*1.
Proof. rewrite snapshot_keys. apply NoDup_fst_map_to_list. Qed.

Lemma elem_of_zip_sids (fds : list (Z * Z)) : forall (events : list (option Revents)) x, x ∈ map (fun x => x.1.1) (zip fds events) -> x ∈ (fds : list (Z * Z)).*1.
Proof.
  induction fds as [|[sid fd] fds IH]; intros [|ev events] x Hx; try (by apply elem_of_nil in Hx). cbn in Hx |- *.
  apply elem_of_cons in Hx as [->|Hx]; [left|right; by eapply IH].
Qed.

Lemma zip_nodup (fds : list (Z * Z)) (events : list (option Revents)) : NoDup fds.*1 -> NoDup (map (fun x => x.1.1) (zip fds events)).
Proof.
  revert events. induction fds as [|[sid fd] fds IH]; intros [|ev events] Hnd; cbn; try constructor.
  - apply NoDup_cons in Hnd as [Hni _]. intros Hx. by apply elem_of_zip_sids in Hx.
  - apply NoDup_cons in Hnd as [_ Hnd]. by apply IH.
Qed.

Lemma ended_nodup fds : NoDup (map (fun x => x.1.1) fds) -> NoDup (ended fds).
Proof.
  unfold ended. induction fds as [|x fds IH]; intros Hnd; [constructor|]. cbn [map List.filter] in *. apply NoDup_cons in Hnd as [Hni Hnd].
  destruct (closes x.2); [|by apply IH]. cbn [map]. constructor; [|by apply IH]. intros Hin. apply Hni.
  apply list_elem_of_fmap in Hin as (y & -> & Hy). apply list_elem_of_fmap. exists y. split; [done|]. apply list_elem_of_In in Hy. apply list_elem_of_In. by apply filter_In in Hy as [? _].
Qed.

(** What a round that goes on does to the shells. *)
Lemma round_shells b r b' : NoDup (br_fds b).*1 -> bridge_round vsock b r = Ok b' ->
  let dead := match rd_poll r with PollReady events => ended (zip (polled_fds b r) events) | _ => [] end in
  br_shells b' = filter (fun kv => kv.1 ∉ dead) (rd_shells r) /\
  br_reaped b' = br_reaped b ++ omap (fun sid => s ← rd_shells r !! sid; Some (s, exit_code (rd_wait r (child_pid s)))) dead /\
  (br_fds b' = polled_fds b r /\ dead = [] \/ br_fds b' = fd_snapshot (br_shells b')).
Proof.
  intros Hnd. unfold bridge_round. set (b0 := match rd_changes r with O => _ | S _ => _ end).
  assert (br_shells b0 = rd_shells r /\ br_reaped b0 = br_reaped b /\ br_fds b0 = polled_fds b r) as (Hs & Hr & Hf) by (subst b0; unfold polled_fds; by destruct (rd_changes r)).
  assert (NoDup (polled_fds b r).*1) as Hp by (unfold polled_fds; destruct (rd_changes r); [done|apply snapshot_nodup]).
  assert (filter (fun kv : Z * Shell => kv.1 ∉ []) (rd_shells r) = rd_shells r) as Hid.
  { apply map_eq. intros k. rewrite map_lookup_filter. destruct (rd_shells r !! k); [|done]. cbn. rewrite option_guard_True; [done|set_solver]. }
  rewrite <- Hf in *. destruct (br_fds b0) as [|x fds] eqn:Hfds.
  - assert (match rd_poll r with PollReady events => ended (zip [] events) | _ => [] end = []) as -> by by destruct (rd_poll r).
    cbv zeta. rewrite Hid. destruct (rd_idle r); intros [= <-]; cbn [set_poll_fds br_shells br_reaped br_fds]; rewrite app_nil_r; split_and!; try done; [by right|by left].
  - destruct (rd_poll r) as [| | |events]; try done; try (intros [= <-]; cbv zeta; rewrite Hid, app_nil_r; split_and!; try done; by left).
    destruct (serve_fds vsock _ b0 []) as [[b1 closed]|] eqn:E; [|done]. intros [= <-].
    apply serve_fds_closed in E as [-> (H1 & H2 & H3)]; [|by apply zip_nodup|intros y _; by apply not_elem_of_nil].
    cbn [app]. set (dead := ended _) in *. destruct (cleanup_ended (rd_wait r) dead b1) as (C1 & C2 & C3); [by apply ended_nodup, zip_nodup|].
    split_and!; [by rewrite C1, H1, Hs|by rewrite C2, H1, H3, Hs, Hr|]. rewrite C3. destruct dead; [left; by rewrite H2, Hfds|by right].
Qed.

Lemma loop_nodup rounds : forall b b', NoDup (br_fds b).*1 -> multi_bridge_loop vsock b rounds = Ok b' -> NoDup (br_fds b').*1.
Proof.
  induction rounds as [|r rounds IH]; intros b b' Hnd; cbn [multi_bridge_loop]; [by intros [= <-]|].
  destruct (bridge_round vsock b r) as [b1|] eqn:E; [|done]. apply IH. destruct (round_shells b r b1 Hnd E) as (_ & _ & [[-> _]| ->]); [|apply snapshot_nodup].
  unfold polled_fds. destruct (rd_changes r); [done|apply snapshot_nodup].
Qed.

(** In every round of a running bridge exactly the shells whose terminal ended (end of
    file, an error or a hang-up) leave the table; each is waited for once, with its exit
    code, and when any left, the next round polls just the terminals that remain. *)
Theorem ended_shells_reaped (m : ShellManager) (rounds : list Round) (b b' : Bridge) (r : Round) (events : list (option Revents))
    (Hrun : multi_bridge_loop vsock (bridge_start m) rounds = Ok b) (Hpoll : rd_poll r = PollReady events) (Hround : bridge_round vsock b r = Ok b') :
  let dead := ended (zip (polled_fds b r) events) in
  br_shells b' = filter (fun kv => kv.1 ∉ dead) (rd_shells r) /\
  br_reaped b' = br_reaped b ++ omap (fun sid => s ← rd_shells r !! sid; Some (s, exit_code (rd_wait r (child_pid s)))) dead /\
  (dead <> [] -> br_fds b' = fd_snapshot (br_shells b')).
Proof.
  assert (NoDup (br_fds b).*1) as Hnd by (refine (loop_nodup rounds (bridge_start m) b _ Hrun); apply snapshot_nodup).
  pose proof (round_shells b r b' Hnd Hround) as H. cbv zeta in H. rewrite Hpoll in H. destruct H as (H1 & H2 & H3).
  split_and!; [done..|]. intros Hd. by destruct H3 as [[_ ?]|].
Qed.

(** *** An exec whose shell is gone *)

Definition exec_same (b b' : Bridge) : Prop := br_done b' = br_done b /\ br_active b' = br_active b.

Lemma serve_fds_exec fds : forall b closed, DEFAULT_SHELL_SESSION_ID ∉ map (fun x => x.1.1) fds ->
  match serve_fds vsock fds b closed with Ok (b', _) | Err b' => exec_same b b' end.
Proof.
  induction fds as [|[[sid fd] ev] fds IH]; intros b closed Hni; cbn [serve_fds]; [done|]. cbn [map fst] in Hni. apply not_elem_of_cons in Hni as [Hs Hni].
  assert (match serve_fd vsock sid ev b closed with Ok (b', _) | Err b' => exec_same b b' end) as H.
  { unfold serve_fd. destruct ev as [[[[[|x data]| |]|] hup]|]; try done. cbn [rv_in rv_hup]. unfold forward_output.
    destruct (Z.eqb_spec sid DEFAULT_SHELL_SESSION_ID); [by subst|]. cbn [andb]. unfold write_frame. by destruct (vsock _). }
  destruct (serve_fd vsock sid ev b closed) as [[b1 closed1]|b1]; [|done]. specialize (IH b1 closed1 Hni). unfold exec_same in *.
  destruct (serve_fds vsock fds b1 closed1) as [[b2 closed2]|b2]; destruct H as [<- <-]; exact IH.
Qed.

Lemma no_default_snapshot m : m !! DEFAULT_SHELL_SESSION_ID = None -> DEFAULT_SHELL_SESSION_ID ∉ (fd_snapshot m).*1.
Proof.
  intros Hm Hin. rewrite snapshot_keys in Hin. apply list_elem_of_fmap in Hin as ([sid s] & E & Hin). cbn in E. subst sid.
  apply elem_of_map_to_list in Hin. congruence.
Qed.

Lemma round_exec b r : NoDup (br_fds b).*1 -> rd_exec r = None -> rd_shells r !! DEFAULT_SHELL_SESSION_ID = None -> DEFAULT_SHELL_SESSION_ID ∉ (br_fds b).*1 ->
  exec_same b (ended_at (bridge_round vsock b r)) /\
  forall b', bridge_round vsock b r = Ok b' -> NoDup (br_fds b').*1 /\ DEFAULT_SHELL_SESSION_ID ∉ (br_fds b').*1.
Proof.
  intros Hnd Hx Hm Hni. assert (DEFAULT_SHELL_SESSION_ID ∉ (polled_fds b r).*1) as Hp by (unfold polled_fds; destruct (rd_changes r); [done|by apply no_default_snapshot]).
  split.
  - unfold bridge_round. rewrite Hx. cbn [default]. set (b0 := match rd_changes r with O => _ | S _ => _ end).
    assert (exec_same b b0 /\ br_fds b0 = polled_fds b r) as [Hb Hf] by (subst b0; unfold polled_fds; by destruct (rd_changes r)).
    destruct (br_fds b0) as [|x fds] eqn:Hfds; [by destruct (rd_idle r)|]. destruct (rd_poll r) as [| | |events]; try done.
    pose proof (serve_fds_exec (zip (x :: fds) events) b0 []) as Hs. destruct Hb as [Hb1 Hb2].
    destruct (serve_fds vsock _ b0 []) as [[b1 closed]|b1]; cbn [ended_at].
    + destruct Hs as [Hs1 Hs2]; [intros Hin; apply elem_of_zip_sids in Hin; by rewrite Hf in Hin|].
      destruct (cleanup_keeps (rd_wait r) closed b1) as (_ & _ & Cd & Ca). split; congruence.
    + destruct Hs as [Hs1 Hs2]; [intros Hin; apply elem_of_zip_sids in Hin; by rewrite Hf in Hin|]. split; congruence.
  - intros b' E. destruct (round_shells b r b' Hnd E) as (H1 & _ & [[H3 _]|H3]); rewrite H3.
    + split; [|done]. unfold polled_fds. destruct (rd_changes r); [done|apply snapshot_nodup].
    + split; [apply snapshot_nodup|]. apply no_default_snapshot. rewrite H1, map_lookup_filter, Hm. done.
Qed.

(** Once the default shell has ended while an exec is running, that exec is never
    reported: whatever the other shells do, as long as no new default shell appears (the
    control loop, which alone could make one, waits for the report), the flag stays set
    and nothing is sent to the control loop. *)
Theorem lost_shell_stalls_exec (rounds : list Round) (b : Bridge) (Hnd : NoDup (br_fds b).*1) (Hgone : DEFAULT_SHELL_SESSION_ID ∉ (br_fds b).*1)
    (Hwait : Forall (fun r => rd_exec r = None /\ rd_shells r !! DEFAULT_SHELL_SESSION_ID = None) rounds) :
  let b' := ended_at (multi_bridge_loop vsock b rounds) in br_done b' = br_done b /\ br_active b' = br_active b.
Proof.
  revert b Hnd Hgone Hwait. induction rounds as [|r rounds IH]; intros b Hnd Hgone Hwait; cbn [multi_bridge_loop]; [done|].
  apply Forall_cons in Hwait as [[Hx Hm] Hwait]. destruct (round_exec b r Hnd Hx Hm Hgone) as [[H1 H2] Hnext].
  destruct (bridge_round vsock b r) as [b1|b1]; [|done]. cbn [ended_at] in H1, H2. destruct (Hnext b1 eq_refl) as [Hnd1 Hg1].
  destruct (IH b1 Hnd1 Hg1 Hwait) as [E1 E2]. cbv zeta. split; congruence.
Qed.

End Ended.

(** ** Runs, with the shells in the order of the map: 3, then 0 *)

Module Demo.

Definition shell (sid fd : Z) : Shell := {| session_id := sid; master_fd := fd; child_pid := 100 + sid |}.
Definition two : ShellManager := {[0 := shell 0 7; 3 := shell 3 9]}.

Definition bytes (s : string) : list byte := bytes_of_string s.
Definition data (l : list byte) : option Revents := Some {| rv_in := Some (ReadData l); rv_hup := false |}.

Definition round (m : ShellManager) (events : list (option Revents)) : Round :=
  {| rd_shells := m; rd_exec := None; rd_changes := 0; rd_idle := TimedOut; rd_poll := PollReady events; rd_wait _ := (Exited 3, WaitError) |}.

(** An exec is running; its sentinel is cut by the reads. *)
Definition running : Bridge := set_shared two true (bridge_start two).
Definition rounds : list Round :=
  [round two [data (bytes "x"); data (bytes "ok" ++ take 9 SENTINEL_PREFIX)]; round two [Some {| rv_in := Some ReadAgain; rv_hup := false |}; data (drop 9 SENTINEL_PREFIX ++ bytes "7:0")];
   round two [Some {| rv_in := Some (ReadData (bytes "y")); rv_hup := true |}; data (SENTINEL_TERMINATOR ++ bytes "$ ")]].

Definition final : Bridge := ended_at (multi_bridge_loop open_vsock running rounds).

Lemma reads_sids : Forall (in_uN 32) (run_reads open_vsock running rounds).*1.
Proof. assert ((run_reads open_vsock running rounds).*1 = [3; 0; 0; 3; 0]) as -> by (vm_compute; reflexivity). unfold in_uN. repeat constructor; lia. Qed.

Lemma reads_short : 4 + Z.of_nat (length (concat (run_reads open_vsock running rounds).*2)) < 2 ^ 32.
Proof. vm_compute. reflexivity. Qed.

Lemma no_escape : x1b ∉ bytes "7:0".
Proof. apply (bool_decide_eq_true (x1b ∉ _)). vm_compute. reflexivity. Qed.

Lemma reads_exec : session_data DEFAULT_SHELL_SESSION_ID (run_reads open_vsock running rounds) = bytes "ok" ++ SENTINEL_PREFIX ++ bytes "7:0" ++ SENTINEL_TERMINATOR ++ bytes "$ ".
Proof. vm_compute. reflexivity. Qed.

Lemma run_fuel : (length (br_written (ended_at (multi_bridge_loop open_vsock running rounds))) < 200)%nat.
Proof. apply Nat.ltb_lt. vm_compute. reflexivity. Qed.

(** A shell hangs up with more output than one read takes: the rest is never read. *)
Example output_lost_at_exit :
  let b := ended_at (multi_bridge_loop open_vsock (bridge_start two) [round two [Some {| rv_in := Some (ReadData (replicate 8192 x41)); rv_hup := true |}; None]]) in
  (br_fds b).*1 = [0].
Proof. vm_compute. reflexivity. Qed.

(** The command of an exec ends the default shell: the exec stays active. *)
Definition killed : Bridge :=
  ended_at (multi_bridge_loop open_vsock running [round two [None; Some {| rv_in := Some ReadError; rv_hup := true |}]]).

Example exec_kills_shell : (br_active killed, br_done killed, (br_fds killed).*1) = (true, [], [3]).
Proof. vm_compute. reflexivity. Qed.

Definition later : list Round := [round {[3 := shell 3 9]} [data (bytes "z")]; round {[3 := shell 3 9]} [data (bytes "w")]].

Lemma killed_fds : (br_fds killed).*1 = [3].
Proof. vm_compute. reflexivity. Qed.

Lemma killed_gone : DEFAULT_SHELL_SESSION_ID ∉ (br_fds killed).*1.
Proof. rewrite killed_fds. apply (bool_decide_eq_true (DEFAULT_SHELL_SESSION_ID ∉ _)). vm_compute. reflexivity. Qed.

Lemma killed_nodup : NoDup (br_fds killed).*1.
Proof. rewrite killed_fds. apply NoDup_singleton. Qed.

Lemma later_waits : Forall (fun r => rd_exec r = None /\ rd_shells r !! DEFAULT_SHELL_SESSION_ID = None) later.
Proof. repeat constructor. Qed.

Definition last_round : Round := round two [Some {| rv_in := Some (ReadData (bytes "y")); rv_hup := true |}; data (bytes "$ ")].

End Demo.

Lemma exec_bridged_witness :
  br_done Demo.final = [(7, 0)] /\ session_data DEFAULT_SHELL_SESSION_ID (terminal_reader 200 (br_written Demo.final)) = bytes_of_string "ok" ++ bytes_of_string "$ ".
Proof.
  destruct (exec_bridged Demo.running Demo.rounds (Demo.bytes "ok") (Demo.bytes "7:0") (Demo.bytes "$ ") 7 0 200) as (H1 & _ & H3 & _);
    [reflexivity..| |exact Demo.reads_sids|exact Demo.reads_short|vm_compute; reflexivity|vm_compute; reflexivity|exact Demo.no_escape|exact Demo.reads_exec|exact Demo.run_fuel|].
  - repeat constructor.
  - split; [exact H3|exact H1].
Defined.

Lemma ended_shells_reaped_witness :
  exists b', bridge_round open_vsock (bridge_start Demo.two) Demo.last_round = Ok b' /\ br_reaped b' = [(Demo.shell 3 9, 3)].
Proof.
  eexists. split; [reflexivity|].
  edestruct (ended_shells_reaped open_vsock Demo.two [] (bridge_start Demo.two) _ Demo.last_round _ eq_refl eq_refl eq_refl) as (_ & H & _). rewrite H. vm_compute. reflexivity.
Defined.

Lemma lost_shell_stalls_exec_witness : br_done (ended_at (multi_bridge_loop open_vsock Demo.killed Demo.later)) = br_done Demo.killed.
Proof. apply (lost_shell_stalls_exec open_vsock Demo.later Demo.killed Demo.killed_nodup Demo.killed_gone Demo.later_waits). Defined.
