(* ===== verification/HostApp.v ===== *)
(** The host application's state, crates/clawcage-app/src/state.rs, and what starts, sets
    up and stops a VM: [boot_venv], [gui_boot_vm], [setup_vsock] and [stop_vm] of
    crates/clawcage-app/src/main.rs. *)

From Stdlib Require Import ZArith Lia Strings.Byte.
From Corelib Require Import SpecFloat.
From stdpp Require Import base numbers list gmap strings.
From S2P Require Import Prelude RustStr Proto HostState Pricing EventLog LogReader SessionTime SessionIndex SessionCleanup HostTerminal.

(** ** State *)

Record DetectedPort := { dp_port : Z; dp_pid : Z; dp_process : string; dp_detected_at : Z }.

Record ForwardedPort := { guest_port : Z; host_port : Z }.

(** The tasks that run, by guest port. *)
Record PortState := {
  detected : list DetectedPort;
  forwarded : list ForwardedPort;
  forward_tasks : gset Z;
  browser_proxies : gmap Z Z;
}.

Definition PortState_new : PortState :=
  {| detected := []; forwarded := []; forward_tasks := ∅; browser_proxies := ∅ |}.

Record GuestProcess := {
  gp_pid : Z; gp_ppid : Z; gp_name : string; gp_cpu_percent : spec_float; gp_mem_kb : Z; gp_runtime_secs : Z;
  gp_port : option Z;
}.

Record MetricsSnapshot := {
  ms_cpu_percent : spec_float; ms_mem_total_kb : Z; ms_mem_used_kb : Z; ms_disk_total_kb : Z; ms_disk_used_kb : Z;
  ms_updated_at : Z;
}.

Definition MetricsSnapshot_default : MetricsSnapshot := {|
  ms_cpu_percent := S754_zero false; ms_mem_total_kb := 0; ms_mem_used_kb := 0; ms_disk_total_kb := 0;
  ms_disk_used_kb := 0; ms_updated_at := 0 |}.

(** [vi_log]: the session's log, when its network state could be created. *)
Record VmInstance := {
  serial_input_fd : Z;
  vsock_terminal_fd : option Z;
  vsock_control_fd : option Z;
  vi_log : option Db;
  state_machine : StateMachine HostState;
  port_state : PortState;
  processes : list GuestProcess;
  latest : MetricsSnapshot;
}.

Record PartialDownload := { pd_total_size : Z; pd_data : list byte }.

Abbreviation DownloadResult := (result (list byte) string).

(** [pending_downloads]: the requests whose sender is waiting to be used; [replies]: what
    the used ones sent. [control_sent]: the messages written to the control channels. *)
Record AppState := {
  vms : gmap string VmInstance;
  session_index : Index;
  sessions_base : Fs;
  running_venvs : gmap string string;
  focused_venv_id : option string;
  terminal_outputs : gmap string TerminalOutputMap;
  download_id_counter : Z;
  pending_downloads : gset Z;
  partial_downloads : gmap Z PartialDownload;
  replies : gmap Z DownloadResult;
  control_sent : list (Z * HostToGuest);
}.

Definition AppState_new (index : Index) (base : Fs) : AppState := {|
  vms := ∅; session_index := index; sessions_base := base; running_venvs := ∅; focused_venv_id := None;
  terminal_outputs := ∅; download_id_counter := 1; pending_downloads := ∅; partial_downloads := ∅; replies := ∅;
  control_sent := [] |}.

Definition set_vms (v : gmap string VmInstance) (s : AppState) : AppState := {|
  vms := v; session_index := session_index s; sessions_base := sessions_base s; running_venvs := running_venvs s;
  focused_venv_id := focused_venv_id s; terminal_outputs := terminal_outputs s;
  download_id_counter := download_id_counter s; pending_downloads := pending_downloads s;
  partial_downloads := partial_downloads s; replies := replies s; control_sent := control_sent s |}.

Definition set_sessions (i : Index) (base : Fs) (s : AppState) : AppState := {|
  vms := vms s; session_index := i; sessions_base := base; running_venvs := running_venvs s;
  focused_venv_id := focused_venv_id s; terminal_outputs := terminal_outputs s;
  download_id_counter := download_id_counter s; pending_downloads := pending_downloads s;
  partial_downloads := partial_downloads s; replies := replies s; control_sent := control_sent s |}.

Definition set_running (r : gmap string string) (s : AppState) : AppState := {|
  vms := vms s; session_index := session_index s; sessions_base := sessions_base s; running_venvs := r;
  focused_venv_id := focused_venv_id s; terminal_outputs := terminal_outputs s;
  download_id_counter := download_id_counter s; pending_downloads := pending_downloads s;
  partial_downloads := partial_downloads s; replies := replies s; control_sent := control_sent s |}.

(** [focus_venv] *)
Definition focus_venv (id : option string) (s : AppState) : AppState := {|
  vms := vms s; session_index := session_index s; sessions_base := sessions_base s; running_venvs := running_venvs s;
  focused_venv_id := id; terminal_outputs := terminal_outputs s;
  download_id_counter := download_id_counter s; pending_downloads := pending_downloads s;
  partial_downloads := partial_downloads s; replies := replies s; control_sent := control_sent s |}.

Definition set_outputs (o : gmap string TerminalOutputMap) (s : AppState) : AppState := {|
  vms := vms s; session_index := session_index s; sessions_base := sessions_base s; running_venvs := running_venvs s;
  focused_venv_id := focused_venv_id s; terminal_outputs := o;
  download_id_counter := download_id_counter s; pending_downloads := pending_downloads s;
  partial_downloads := partial_downloads s; replies := replies s; control_sent := control_sent s |}.

Definition resolve_session_id (venv_id : option string) (s : AppState) : result string string :=
  let vid := match venv_id with
             | Some v => Some v
             | None =>
                 match focused_venv_id s with
                 | Some v => Some v
                 | None => match map_to_list (running_venvs s) with [(v, _)] => Some v | _ => None end
                 end
             end in
  match vid with
  | None => Err "no environment selected"
  | Some vid => match running_venvs s !! vid with
                | Some sid => Ok sid
                | None => Err ("environment " +:+ vid +:+ " is not running")
                end
  end.

Definition has_running_vms (s : AppState) : bool := negb (bool_decide (running_venvs s = ∅)).

Definition terminal_output_for (venv_id : string) (s : AppState) : option TerminalOutputMap := terminal_outputs s !! venv_id.

(** The key of the map [focused_terminal_output] returns. *)
Definition focused_output_key (s : AppState) : option string :=
  match focused_venv_id s with
  | Some v => Some v
  | None => match map_to_list (terminal_outputs s) with [(v, _)] => Some v | _ => None end
  end.

Definition focused_terminal_output (s : AppState) : option TerminalOutputMap :=
  focused_output_key s ≫= fun v => terminal_outputs s !! v.

(** ** Starting a VM *)

(** The directory of a session, if it is not there. *)
Definition create_session_dir (id : string) (fs : Fs) : Fs :=
  let e := {| e_name := Some id; e_dir := true; e_scratch := None; e_session_db := None; e_vacuum := None;
              e_size := 0; e_stuck := false |} in
  if existsb (named id) (entries fs) then fs else Some (entries fs ++ [e]).

(** Its session.db, opened; [vacuum] is what compressing it at the end will give. *)
Definition open_session_db (id : string) (log : Db) (vacuum : option (Z * Z)) (fs : Fs) : Fs :=
  map (fun e => if named id e then
    {| e_name := e_name e; e_dir := e_dir e; e_scratch := e_scratch e; e_session_db := Some (Some log);
       e_vacuum := vacuum; e_size := e_size e; e_stuck := e_stuck e |} else e) <$> fs.

(** What [boot_venv] reads: the new id, the settings and whether a root file system is there. *)
Record BootRequest := { br_session_id : string; br_scratch_gb : Z; br_ram_bytes : Z; br_rootfs : bool }.

Definition session_record (r : BootRequest) (created_at : string) : SessionRecord := {|
  sr_id := br_session_id r; sr_mode := "gui"; sr_command := None; sr_status := "running"; sr_created_at := created_at;
  sr_stopped_at := None; sr_scratch_disk_size_gb := br_scratch_gb r; sr_ram_bytes := br_ram_bytes r;
  sr_total_requests := 0; sr_allowed_requests := 0; sr_denied_requests := 0; sr_total_input_tokens := 0;
  sr_total_output_tokens := 0; sr_total_estimated_cost := f64_zero; sr_total_tool_calls := 0; sr_total_mcp_calls := 0;
  sr_total_file_events := 0; sr_compressed_size_bytes := None; sr_vacuumed_at := None |}.

(** What the host's VM framework answers [boot_vm]; the times of the state machine. *)
Record Booted := { bo_input_fd : Z; bo_created : Z; bo_started : Z; bo_log : option (Db * option (Z * Z)) }.

(** The machine of a VM that was built, created and started. *)
Definition boot_machine (b : Booted) : StateMachine HostState :=
  (transition (new_host (bo_created b)) Booting "vm_started" (bo_started b)).2.

Definition gui_boot_vm (session_id venv_id : string) (outcome : option Booted) (s : AppState) : AppState :=
  match outcome with
  | None => s
  | Some b =>
      let s := match bo_log b with
               | Some (log, vacuum) => set_sessions (session_index s) (open_session_db session_id log vacuum (sessions_base s)) s
               | None => s
               end in
      let s := set_vms (<[session_id := {|
        serial_input_fd := bo_input_fd b; vsock_terminal_fd := None; vsock_control_fd := None; vi_log := fst <$> bo_log b;
        state_machine := boot_machine b; port_state := PortState_new; processes := [];
        latest := MetricsSnapshot_default |}]> (vms s)) s in
      set_outputs (match terminal_outputs s !! venv_id with
                   | Some m => <[venv_id := reset_all m]> (terminal_outputs s)
                   | None => <[venv_id := map_new]> (terminal_outputs s)
                   end) s
  end.

Section App.
Context `{UsageJson}.
Variable fault : nat -> option string.
Variable sum_real : list f64 -> f64.
Variable any_row : forall {A}, A -> list A -> A.
Variable usage_totals : list string -> result (option string) string.
Variable group_order : forall {A}, list A -> list A.

(** Whether the VM is booted at once, or when the download of the root file system is over. *)
Inductive BootNext := AlreadyRunning | BootNow | AfterDownload.

(** [boot_venv] up to the boot itself. *)
Definition boot_venv (now : Z) (venv_id : string) (r : BootRequest) (s : AppState) : BootNext * AppState :=
  match running_venvs s !! venv_id with
  | Some _ => (AlreadyRunning, s)
  | None =>
      let base := create_session_dir (br_session_id r) (sessions_base s) in
      let index := (create_session fault (session_record r (now_iso now)) (session_index s)).2 in
      let s := set_sessions index base s in
      let s := set_running (<[venv_id := br_session_id r]> (running_venvs s)) s in
      let s := focus_venv (Some venv_id) s in
      let s := set_outputs (<[venv_id := map_new]> (terminal_outputs s)) s in
      (if br_rootfs r then BootNow else AfterDownload, s)
  end.

Definition stop_vm (now : Z) (venv_id : string) (s : AppState) : AppState :=
  match running_venvs s !! venv_id with
  | None => s
  | Some session_id =>
      let s := set_running (delete venv_id (running_venvs s)) s in
      let instance := vms s !! session_id in
      let s := set_vms (delete session_id (vms s)) s in
      let s := match instance with
               | Some instance =>
                   let index := cleanup_session fault sum_real (@any_row) usage_totals (@group_order) now session_id
                                  (vi_log instance) (session_index s) in
                   let '(index, base) := vacuum_session fault now session_id (index, sessions_base s) in
                   set_sessions index base s
               | None => s
               end in
      set_outputs (delete venv_id (terminal_outputs s)) s
  end.

Definition stop_all_vms (now : Z) (s : AppState) : AppState :=
  foldl (fun s v => stop_vm now v s) s (map fst (map_to_list (running_venvs s))).

End App.

(** ** Connections of the guest *)

Definition VSOCK_PORT_CONTROL : Z := 5000.
Definition VSOCK_PORT_TERMINAL : Z := 5001.
Definition VSOCK_PORT_SNI_PROXY : Z := 5002.
Definition VSOCK_PORT_MCP_GATEWAY : Z := 5003.
Definition VSOCK_PORT_FS_WATCH : Z := 5005.
Definition VSOCK_PORT_PORT_WATCH : Z := 5006.
Definition VSOCK_PORT_PORT_FORWARD : Z := 5007.
Definition VSOCK_PORT_SYS_WATCH : Z := 5008.

Record VsockConnection := { vc_port : Z; vc_fd : Z }.

Definition deferrable (port : Z) : bool :=
  bool_decide (port ∈ [VSOCK_PORT_SNI_PROXY; VSOCK_PORT_FS_WATCH; VSOCK_PORT_MCP_GATEWAY; VSOCK_PORT_PORT_WATCH;
                       VSOCK_PORT_PORT_FORWARD; VSOCK_PORT_SYS_WATCH]).

(** The first loop of [setup_vsock]: the two connections, the deferred ones and those not
    accepted yet; [None]: the channel closed before. *)
Fixpoint accept_both (conns : list VsockConnection) (terminal control : option Z) (deferred : list VsockConnection)
  : option (Z * Z * list VsockConnection * list VsockConnection) :=
  match terminal, control with
  | Some t, Some c => Some (t, c, deferred, conns)
  | _, _ =>
      match conns with
      | [] => None
      | conn :: conns =>
          if vc_port conn =? VSOCK_PORT_TERMINAL then accept_both conns (Some (vc_fd conn)) control deferred
          else if vc_port conn =? VSOCK_PORT_CONTROL then accept_both conns terminal (Some (vc_fd conn)) deferred
          else if deferrable (vc_port conn) then accept_both conns terminal control (deferred ++ [conn])
          else accept_both conns terminal control deferred
      end
  end.

(** What a connection is given to. [ToNobody]: it is dropped. *)
Inductive Handler := ToProxy | ToFsWatch | ToMcp | ToPortWatch | ToRelay | ToSysWatch | ToNobody.

(** The handlers of a session: [mitm], [mcp] and [db] are there with its network state. *)
Definition route_connection (mitm mcp db ports metrics deferred : bool) (port : Z) : Handler :=
  if port =? VSOCK_PORT_SNI_PROXY then if mitm then ToProxy else ToNobody
  else if port =? VSOCK_PORT_FS_WATCH then if (if deferred then mitm else db) then ToFsWatch else ToNobody
  else if port =? VSOCK_PORT_MCP_GATEWAY then if mcp then ToMcp else ToNobody
  else if port =? VSOCK_PORT_PORT_WATCH then if ports then ToPortWatch else ToNobody
  else if port =? VSOCK_PORT_PORT_FORWARD then if ports then ToRelay else ToNobody
  else if port =? VSOCK_PORT_SYS_WATCH then if metrics then ToSysWatch else ToNobody
  else ToNobody.

(** [read_control_msg] *)
Definition read_control_msg `{Rmp GuestToHost} (stream : list byte) : result GuestToHost IoError * list byte :=
  match read_exact 4 stream with
  | Err e => (Err e, [])
  | Ok (len_buf, rest) =>
      let len := from_be_bytes len_buf in
      if MAX_FRAME_SIZE <? len then (Err FrameTooLarge, rest)
      else match read_exact len rest with
           | Err e => (Err e, [])
           | Ok (payload, rest) =>
               match decode_guest_msg payload with
               | Some m => (Ok m, rest)
               | None => (Err BadMessage, rest)
               end
           end
  end.

(** The wait for BootReady. [in_time n]: the deadline is not over before the [n]th read,
    which itself waits as long as it takes. *)
Fixpoint await_boot_ready `{Rmp GuestToHost} (in_time : nat -> bool) (fuel n : nat) (stream : list byte)
  : bool * list byte :=
  match fuel with
  | O => (false, stream)
  | S fuel =>
      if in_time n then
        match read_control_msg stream with
        | (Ok BootReady, rest) => (true, rest)
        | (Ok _, rest) => await_boot_ready in_time fuel (S n) rest
        | (Err _, rest) => (false, rest)
        end
      else (false, stream)
  end.

Definition set_machine (m : StateMachine HostState) (i : VmInstance) : VmInstance := {|
  serial_input_fd := serial_input_fd i; vsock_terminal_fd := vsock_terminal_fd i; vsock_control_fd := vsock_control_fd i;
  vi_log := vi_log i; state_machine := m; port_state := port_state i; processes := processes i; latest := latest i |}.

Definition set_fds (terminal control : Z) (i : VmInstance) : VmInstance := {|
  serial_input_fd := serial_input_fd i; vsock_terminal_fd := Some terminal; vsock_control_fd := Some control;
  vi_log := vi_log i; state_machine := state_machine i; port_state := port_state i; processes := processes i;
  latest := latest i |}.

(** A change of one instance, when it is there. *)
Definition with_instance (session_id : string) (f : VmInstance -> VmInstance) (s : AppState) : AppState :=
  set_vms (alter f session_id (vms s)) s.

Definition step_machine (to : HostState) (trigger : string) (now : Z) (i : VmInstance) : VmInstance :=
  set_machine (transition (state_machine i) to trigger now).2 i.

(** What the setup leaves: the connections of the session and who serves the others. *)
Record Setup := { su_terminal : Z; su_control : Z; su_ready : bool; su_routed : list (VsockConnection * Handler) }.

(** [setup_vsock]: [control] is what the guest writes to its control channel, [t1] to [t3]
    the times of the transitions. The boot configuration sent in between is [Boot]'s. *)
Definition setup_vsock `{Rmp GuestToHost} (session_id venv_id : string) (conns : list VsockConnection)
    (control : list byte) (in_time : nat -> bool) (t1 t2 t3 : Z) (s : AppState) : option Setup * AppState :=
  match accept_both conns None None [] with
  | None => (None, s)
  | Some (terminal_fd, control_fd, deferred, conns) =>
      let s := with_instance session_id (step_machine VsockConnected "vsock_ports_connected" t1) s in
      let '(first, rest) := read_control_msg control in
      let s := match first with
               | Ok (Ready _) => with_instance session_id (step_machine Handshaking "ready_received" t2) s
               | _ => s
               end in
      let '(ready, _) := await_boot_ready in_time (S (length rest)) 0 rest in
      let s := with_instance session_id (fun i => step_machine Running "boot_ready_received" t3 (set_fds terminal_fd control_fd i)) s in
      let here := bool_decide (is_Some (vms s !! session_id)) in
      let net := bool_decide (is_Some (vms s !! session_id ≫= vi_log)) in
      let s := match terminal_outputs s !! venv_id with
               | Some _ => s
               | None => set_outputs (<[venv_id := map_new]> (terminal_outputs s)) s
               end in
      (Some {| su_terminal := terminal_fd; su_control := control_fd; su_ready := ready;
               su_routed := map (fun c => (c, route_connection net net net here here true (vc_port c))) deferred ++
                            map (fun c => (c, route_connection net net net here here false (vc_port c))) conns |}, s)
  end.

(** ** Setting up *)

Lemma alter_lookup_eq (m : gmap string VmInstance) k f i : m !! k = Some i -> alter f k m !! k = Some (f i).
Proof. intros Hm. by rewrite lookup_alter_eq, Hm. Qed.

Lemma step_machine_valid to trigger now i : validate_fn (state_machine i) = valid_transitions ->
  validate_fn (state_machine (step_machine to trigger now i)) = valid_transitions /\
  current (state_machine (step_machine to trigger now i)) =
    if bool_decide (to ∈ valid_transitions (current (state_machine i))) then to else current (state_machine i).
Proof.
  intros Hv. unfold step_machine, set_machine. cbn [state_machine].
  destruct (transition_cases (state_machine i) to trigger now) as [[Hn ->]|(Hy & t & _ & _ & _ & _ & ->)];
    rewrite Hv in *; case_bool_decide; done.
Qed.

(** The setup of a booted VM whose two connections arrive leaves it running if and only
    if the first message on the control channel is Ready, whatever follows and whether or
    not BootReady comes in time; otherwise it stays connected for ever, and no message but
    Ready is accepted from it. *)
Theorem setup_runs_iff_ready `{Rmp GuestToHost} session_id venv_id conns control in_time t1 t2 t3 (s : AppState) i both :
  vms s !! session_id = Some i -> current (state_machine i) = Booting -> validate_fn (state_machine i) = valid_transitions ->
  accept_both conns None None [] = Some both ->
  exists i', vms (setup_vsock session_id venv_id conns control in_time t1 t2 t3 s).2 !! session_id = Some i' /\
    vsock_terminal_fd i' = Some both.1.1.1 /\ vsock_control_fd i' = Some both.1.1.2 /\
    ((exists v rest, read_control_msg control = (Ok (Ready v), rest)) -> current (state_machine i') = Running) /\
    ((forall v rest, read_control_msg control <> (Ok (Ready v), rest)) -> current (state_machine i') = VsockConnected /\
       forall msg, validate_guest_msg msg (current (state_machine i')) = Ok tt -> exists v, msg = Ready v).
Proof.
  intros Hi Hst Hv Hboth. unfold setup_vsock. rewrite Hboth. destruct both as [[[tfd cfd] deferred] later]. cbn [fst snd].
  set (i1 := step_machine VsockConnected "vsock_ports_connected" t1 i).
  assert (validate_fn (state_machine i1) = valid_transitions /\ current (state_machine i1) = VsockConnected) as [Hv1 Hc1].
  { destruct (step_machine_valid VsockConnected "vsock_ports_connected" t1 i Hv) as [? Hc]. split; [done|].
    unfold i1. rewrite Hc, Hst. reflexivity. }
  assert (vms (with_instance session_id (step_machine VsockConnected "vsock_ports_connected" t1) s) !! session_id = Some i1) as H1
    by (unfold with_instance; by apply alter_lookup_eq).
  set (s1 := with_instance session_id _ s) in *.
  destruct (read_control_msg control) as [first rest] eqn:Hread.
  destruct (await_boot_ready in_time (S (length rest)) 0 rest) as [ready stream'].
  set (fin := fun i => step_machine Running "boot_ready_received" t3 (set_fds tfd cfd i)).
  assert (forall s2 i2, vms s2 !! session_id = Some i2 ->
    vms (match terminal_outputs (with_instance session_id fin s2) !! venv_id with
         | Some _ => with_instance session_id fin s2
         | None => set_outputs (<[venv_id := map_new]> (terminal_outputs (with_instance session_id fin s2)))
                     (with_instance session_id fin s2)
         end) !! session_id = Some (fin i2)) as Hfin.
  { intros s2 i2 H2. destruct (terminal_outputs _ !! venv_id); cbn; by apply alter_lookup_eq. }
  assert (forall i2, vsock_terminal_fd (fin i2) = Some tfd /\ vsock_control_fd (fin i2) = Some cfd) as Hfds by done.
  assert ((exists v, first = Ok (Ready v)) \/ ~ exists v, first = Ok (Ready v)) as [[v ->]|Hno].
  { destruct first as [[]|]; try (right; by intros [? ?]). left. by eexists. }
  - eexists. cbn [snd]. split; [apply Hfin, alter_lookup_eq, H1|]. split; [done|]. split; [done|].
    destruct (step_machine_valid Handshaking "ready_received" t2 i1 Hv1) as [Hv2 Hc2]. rewrite Hc1 in Hc2.
    split; [|intros Hcon; by destruct (Hcon v rest)]. intros _.
    unfold fin. destruct (step_machine_valid Running "boot_ready_received" t3
      (set_fds tfd cfd (step_machine Handshaking "ready_received" t2 i1)) Hv2) as [_ ->]. cbn [set_fds state_machine].
    rewrite Hc2. reflexivity.
  - assert (match first with Ok (Ready _) => with_instance session_id (step_machine Handshaking "ready_received" t2) s1 | _ => s1 end = s1)
      as -> by (destruct first as [[]|]; try done; by destruct Hno; eexists).
    eexists. cbn [snd]. split; [apply Hfin, H1|]. split; [done|]. split; [done|].
    assert (current (state_machine (fin i1)) = VsockConnected) as Hcur.
    { unfold fin. destruct (step_machine_valid Running "boot_ready_received" t3 (set_fds tfd cfd i1) Hv1) as [_ ->]. cbn [set_fds state_machine].
      rewrite Hc1. reflexivity. }
    split; [intros (v & r & E); destruct Hno; exists v; congruence|]. intros _. split; [done|]. intros msg. rewrite Hcur.
    destruct msg; try done. intros _. by eexists.
Qed.

(** The part of the connections [accept_both] takes. *)
Lemma accept_both_split conns terminal control deferred t c d rest :
  accept_both conns terminal control deferred = Some (t, c, d, rest) ->
  exists taken, conns = taken ++ rest /\ d = deferred ++ List.filter (fun x => deferrable (vc_port x)) taken.
Proof.
  revert terminal control deferred. induction conns as [|x conns IH]; intros terminal control deferred Ha.
  - destruct terminal, control; cbn in Ha; try done. injection Ha as <- <- <- <-. exists []. split; [done|]. by rewrite app_nil_r.
  - assert (terminal <> None /\ control <> None \/ (terminal = None \/ control = None)) as [[Ht Hc]|Hn]
      by (destruct terminal, control; [left; split; congruence|right; auto..]).
    + destruct terminal, control; try done. injection Ha as <- <- <- <-. exists []. split; [done|]. by rewrite app_nil_r.
    + assert (accept_both (x :: conns) terminal control deferred =
        if vc_port x =? VSOCK_PORT_TERMINAL then accept_both conns (Some (vc_fd x)) control deferred
        else if vc_port x =? VSOCK_PORT_CONTROL then accept_both conns terminal (Some (vc_fd x)) deferred
        else if deferrable (vc_port x) then accept_both conns terminal control (deferred ++ [x])
        else accept_both conns terminal control deferred) as Heq by (destruct Hn as [-> | ->]; [|destruct terminal]; done).
      rewrite Heq in Ha. clear Heq Hn. destruct (Z.eqb_spec (vc_port x) VSOCK_PORT_TERMINAL) as [Hp|_];
        [|destruct (Z.eqb_spec (vc_port x) VSOCK_PORT_CONTROL) as [Hp|_]; [|destruct (deferrable (vc_port x)) eqn:Hp]];
        destruct (IH _ _ _ Ha) as (taken & -> & ->); exists (x :: taken); (split; [done|]); cbn [List.filter]; rewrite Hp.
      * done.
      * done.
      * by rewrite <- app_assoc.
      * done.
Qed.

(** The handler of each service's port. *)
Definition service (port : Z) : Handler := route_connection true true true true true true port.

Lemma route_connection_here deferred port : route_connection true true true true true deferred port = service port.
Proof. unfold service, route_connection. by destruct deferred. Qed.

Lemma deferrable_served port : deferrable port = true -> service port <> ToNobody.
Proof.
  unfold deferrable. rewrite bool_decide_eq_true, !elem_of_cons. intros Hp. repeat destruct Hp as [->|Hp]; try done.
  by apply not_elem_of_nil in Hp.
Qed.

(** No connection of a service is lost while the VM is set up: in a session with its
    network state, those that come before the terminal and control connections and those
    that come after are given to the handler of their port, each once and in order. *)
Theorem service_connections_served `{Rmp GuestToHost} session_id venv_id conns control in_time t1 t2 t3 (s : AppState) i log su :
  vms s !! session_id = Some i -> vi_log i = Some log ->
  (setup_vsock session_id venv_id conns control in_time t1 t2 t3 s).1 = Some su ->
  let is_service := fun x => deferrable (vc_port x) in
  List.filter (fun r => is_service r.1) (su_routed su) = map (fun x => (x, service (vc_port x))) (List.filter is_service conns) /\
  forall x, x ∈ conns -> is_service x = true -> service (vc_port x) <> ToNobody.
Proof.
  intros Hi Hlog Hsu is_service. split; [|intros x _; apply deferrable_served].
  unfold setup_vsock in Hsu. destruct (accept_both conns None None []) as [[[[tfd cfd] deferred] later]|] eqn:Ha; [|done].
  destruct (accept_both_split _ _ _ _ _ _ _ _ Ha) as (taken & -> & ->). cbn [app] in *.
  destruct (read_control_msg control) as [first rest]. destruct (await_boot_ready in_time (S (length rest)) 0 rest) as [ready str].
  set (s1 := with_instance session_id (step_machine VsockConnected "vsock_ports_connected" t1) s) in *.
  set (s2 := match first with Ok (Ready _) => with_instance session_id (step_machine Handshaking "ready_received" t2) s1 | _ => s1 end) in *.
  set (s3 := with_instance session_id _ s2) in *.
  assert (exists i3, vms s3 !! session_id = Some i3 /\ vi_log i3 = Some log) as (i3 & H3 & Hlog3).
  { assert (exists i2, vms s2 !! session_id = Some i2 /\ vi_log i2 = Some log) as (i2 & H2 & Hlog2).
    { assert (vms s1 !! session_id = Some (step_machine VsockConnected "vsock_ports_connected" t1 i)) as H1
        by (by apply alter_lookup_eq).
      destruct first as [[]|]; try (eexists; split; [exact H1|done]). eexists. split; [by apply alter_lookup_eq|done]. }
    eexists. split; [by apply alter_lookup_eq|done]. }
  cbn [fst] in Hsu. injection Hsu as <-. cbn [su_routed].
  unfold s3, with_instance, set_vms in H3. cbn [vms] in H3. rewrite H3. cbn. rewrite Hlog3. cbn.
  rewrite List.filter_app, List.filter_app, map_app. f_equal.
  - clear. induction taken as [|x taken IH]; cbn; [done|]. destruct (is_service x) eqn:Hx; unfold is_service in Hx |- *; rewrite Hx; [|done].
    cbn. rewrite Hx. f_equal. exact IH.
  - clear. induction later as [|x later IH]; cbn; [done|]. rewrite route_connection_here.
    destruct (is_service x) eqn:Hx; [cbn; f_equal|]; exact IH.
Qed.

(** ** Starting and stopping *)

Section Lifecycle.
Context `{UsageJson}.
Variable fault : nat -> option string.
Variable sum_real : list f64 -> f64.
Variable any_row : forall {A}, A -> list A -> A.
Variable usage_totals : list string -> result (option string) string.
Variable group_order : forall {A}, list A -> list A.
Hypothesis no_fault : forall n, fault n = None.

Abbreviation rows s := (sessions (ix_tables (session_index s))).
Abbreviation stop := (stop_vm fault sum_real (@any_row) usage_totals (@group_order)).

Lemma create_session_rows r i : writable i -> ~ sr_id r ∈ map sr_id (sessions (ix_tables i)) ->
  sessions (ix_tables (create_session fault r i).2) = sessions (ix_tables i) ++ [bind_session r] /\
  writable (create_session fault r i).2.
Proof.
  intros Hw Hfresh. split; [|by apply statement_writable]. unfold create_session, statement. rewrite no_fault, Hw. cbn [andb].
  assert (existsb (has_id (sr_id r)) (sessions (ix_tables i)) = false) as ->; [|done].
  apply existsb_elem_false. intros r' Hr'. unfold has_id. apply bool_decide_eq_false. intros E. apply Hfresh. rewrite <- E.
  by apply list_elem_of_fmap_2.
Qed.

(** The keys of the rows when those of one session get a status. *)
Lemma update_status_keys id status p f i : writable i -> p = has_id id ->
  (forall r, row_key (f r) = (sr_id r, sr_created_at r, status)) ->
  map row_key (sessions (ix_tables (update_where fault p f i).2)) =
  map (fun k => if bool_decide (k.1.1 = id) then (k.1, status) else k) (map row_key (sessions (ix_tables i))).
Proof.
  intros Hw -> Hf. rewrite (update_where_ok fault no_fault) by done. rewrite !map_map. apply map_ext. intros r. unfold has_id.
  change (row_key r).1.1 with (sr_id r). case_bool_decide; [|done]. by rewrite Hf.
Qed.

Lemma cleanup_session_keys now id log i : writable i ->
  map row_key (sessions (ix_tables (cleanup_session fault sum_real (@any_row) usage_totals (@group_order) now id log i))) =
  map (fun k => if bool_decide (k.1.1 = id) then (k.1, "stopped") else k) (map row_key (sessions (ix_tables i))) /\
  writable (cleanup_session fault sum_real (@any_row) usage_totals (@group_order) now id log i).
Proof.
  intros Hw. unfold cleanup_session. set (i1 := match log with Some _ => _ | None => i end).
  assert (map row_key (sessions (ix_tables i1)) = map row_key (sessions (ix_tables i)) /\ writable i1) as [<- Hw1].
  { subst i1. destruct log as [reader|]; [|done]. destruct (net_event_counts reader) as [[tot al] de]. split.
    - rewrite (flush_keys fault). by apply update_keys.
    - by apply (flush_writable fault), statement_writable. }
  split; [|by apply statement_writable]. unfold update_status. by apply update_status_keys.
Qed.

Lemma find_named_app id l e : existsb (named id) l = false -> named id e = true -> list_find_first (named id) (l ++ [e]) = Some e.
Proof.
  intros Hl He. rewrite list_find_first_app. assert (list_find_first (named id) l = None) as ->.
  { apply list_find_first_None. intros x Hx. rewrite existsb_elem_false in Hl. by apply Hl. }
  cbn. by rewrite He.
Qed.

(** The vacuuming of the session just booted. *)
Lemma vacuum_new_session id outcome base : existsb (named id) (entries base) = false ->
  let fs := match outcome with
            | Some (log, vacuum) => open_session_db id log vacuum (create_session_dir id base)
            | None => create_session_dir id base
            end in
  match outcome with
  | Some (_, Some (size, _)) => exists fs', vacuum_and_compress_session_db id fs = (Ok size, fs')
  | _ => exists e fs', vacuum_and_compress_session_db id fs = (Err e, fs')
  end.
Proof.
  intros Hb. unfold create_session_dir. rewrite Hb. cbv zeta.
  assert (forall log vac l, existsb (named id) l = false ->
    map (fun e => if named id e then {| e_name := e_name e; e_dir := e_dir e; e_scratch := e_scratch e;
      e_session_db := Some (Some log); e_vacuum := vac; e_size := e_size e; e_stuck := e_stuck e |} else e) l = l) as Hmap.
  { intros log vac l. induction l as [|e l IH]; cbn; [done|]. intros [-> Hl]%orb_false_iff. by rewrite IH. }
  unfold vacuum_and_compress_session_db, open_session_db.
  assert (forall e, e_name e = Some id -> named id e = true) as Hn by (intros e He; by apply bool_decide_eq_true).
  assert (forall l, entries (Some l) = l) as He by done.
  destruct outcome as [[log vacuum]|].
  - cbn [fmap option_fmap option_map]. rewrite He, map_app, Hmap by done. cbn [map].
    rewrite (Hn {| e_name := Some id; e_dir := true; e_scratch := None; e_session_db := None; e_vacuum := None;
                   e_size := 0; e_stuck := false |}) by done.
    rewrite find_named_app by (done || by apply Hn). cbn. destruct vacuum as [[c sz]|]; eauto.
  - rewrite He, find_named_app by (done || by apply Hn). cbn. eauto.
Qed.

Lemma map_fresh_keys id status (l : list SessionRecord) : id ∉ map sr_id l ->
  map (fun k => if bool_decide (k.1.1 = id) then (k.1, status) else k) (map row_key l) = map row_key l.
Proof.
  intros Hn. rewrite map_map. apply map_ext_in. intros r Hr. change (row_key r).1.1 with (sr_id r).
  rewrite bool_decide_false; [done|]. intros E. apply Hn. rewrite <- E. apply list_elem_of_fmap_2. by rewrite list_elem_of_In.
Qed.

Lemma gui_boot_fields sid venv_id b s :
  let s1 := gui_boot_vm sid venv_id (Some b) s in
  session_index s1 = session_index s /\ running_venvs s1 = running_venvs s /\ focused_venv_id s1 = focused_venv_id s /\
  sessions_base s1 = match bo_log b with
                     | Some (log, vacuum) => open_session_db sid log vacuum (sessions_base s)
                     | None => sessions_base s
                     end /\
  (exists i, vms s1 = <[sid := i]> (vms s) /\ vi_log i = fst <$> bo_log b) /\
  (exists m, terminal_outputs s1 = <[venv_id := m]> (terminal_outputs s)).
Proof.
  unfold gui_boot_vm. destruct (bo_log b) as [[log vacuum]|]; cbn;
    (do 4 (split; [done|])); (split; [by eexists|]); destruct (terminal_outputs s !! venv_id); by eexists.
Qed.

Lemma stop_vm_fields now venv_id sid s : running_venvs s !! venv_id = Some sid ->
  let s2 := stop now venv_id s in
  running_venvs s2 = delete venv_id (running_venvs s) /\ vms s2 = delete sid (vms s) /\
  terminal_outputs s2 = delete venv_id (terminal_outputs s) /\
  session_index s2 = match vms s !! sid with
                     | Some i => (vacuum_session fault now sid
                         (cleanup_session fault sum_real (@any_row) usage_totals (@group_order) now sid (vi_log i) (session_index s),
                          sessions_base s)).1
                     | None => session_index s
                     end.
Proof.
  intros Hr. unfold stop_vm. rewrite Hr. cbn [set_running set_vms vms]. destruct (vms s !! sid) as [i|]; [|done].
  cbn [set_running set_vms session_index sessions_base]. by destruct (vacuum_session _ _ _ _).
Qed.

(** The status a session ends with. *)
Definition final_status (outcome : option Booted) : string :=
  match outcome with
  | None => "running"
  | Some b => match bo_log b with Some (_, Some _) => "vacuumed" | _ => "stopped" end
  end.

(** C13: Booting a venv and stopping it: while it runs the venv is focused and resolves to
    its session; stopping it takes the VM, the venv and its output away again and leaves
    exactly one new row in the index, with the session's id, its start and its status:
    vacuumed or, when its log could not be opened or compressed, stopped. If the boot
    fails, though, the venv counts as running until it is stopped, a second boot does
    nothing, and the row stays running even then. *)
Theorem boot_then_stop now1 now2 venv_id r outcome s :
  running_venvs s !! venv_id = None -> writable (session_index s) ->
  br_session_id r ∉ map sr_id (rows s) -> vms s !! br_session_id r = None ->
  existsb (named (br_session_id r)) (entries (sessions_base s)) = false ->
  let s1 := gui_boot_vm (br_session_id r) venv_id outcome (boot_venv fault now1 venv_id r s).2 in
  let s2 := stop now2 venv_id s1 in
  resolve_session_id None s1 = Ok (br_session_id r) /\
  (forall now r', boot_venv fault now venv_id r' s1 = (AlreadyRunning, s1)) /\
  running_venvs s2 = running_venvs s /\ vms s2 = vms s /\ terminal_outputs s2 = delete venv_id (terminal_outputs s) /\
  map row_key (rows s2) = map row_key (rows s) ++ [(br_session_id r, now_iso now1, final_status outcome)].
Proof.
  intros Hfree Hw Hrow Hvm Hdir. cbv zeta. set (id := br_session_id r) in *. unfold boot_venv. rewrite Hfree. fold id. cbn [snd].
  destruct (create_session_rows (session_record r (now_iso now1)) (session_index s) Hw Hrow) as [Hc Hwc].
  set (i1 := (create_session fault (session_record r (now_iso now1)) (session_index s)).2) in *.
  assert (map row_key (sessions (ix_tables i1)) = map row_key (rows s) ++ [(id, now_iso now1, "running")]) as Hk1
    by (rewrite Hc, map_app; done).
  set (s0 := set_outputs _ _).
  assert (exists s1, s1 = gui_boot_vm id venv_id outcome s0) as (s1 & Es1) by eauto. rewrite <- Es1.
  assert (running_venvs s1 = <[venv_id := id]> (running_venvs s) /\ focused_venv_id s1 = Some venv_id) as [Hr1 Hf1].
  { rewrite Es1. destruct outcome as [b|]; [|done]. by destruct (gui_boot_fields id venv_id b s0) as (_ & -> & -> & _). }
  split; [unfold resolve_session_id; by rewrite Hf1, Hr1, lookup_insert_eq|].
  split; [intros now r'; by rewrite Hr1, lookup_insert_eq|].
  destruct (stop_vm_fields now2 venv_id id s1) as (-> & -> & -> & ->); [by rewrite Hr1, lookup_insert_eq|].
  rewrite Hr1, delete_insert_id by done. split; [done|]. unfold final_status. destruct outcome as [b|].
  - destruct (gui_boot_fields id venv_id b s0) as (Hi & _ & _ & Hb & (i & Hv & Hl) & (m & Ho)). rewrite <- Es1 in *.
    change (session_index s0) with i1 in Hi. change (vms s0) with (vms s) in Hv.
    change (sessions_base s0) with (create_session_dir id (sessions_base s)) in Hb.
    change (terminal_outputs s0) with (<[venv_id := map_new]> (terminal_outputs s)) in Ho.
    rewrite Hv, lookup_insert_eq, delete_insert_id, Ho, !delete_insert_eq, Hl, Hi, Hb by done.
    do 2 (split; [done|]). clear Hb Hl. pose proof (vacuum_new_session id (bo_log b) (sessions_base s) Hdir) as Hvac.
    destruct (cleanup_session_keys now2 id (fst <$> bo_log b) i1 Hwc) as [Hk2 Hw2].
    rewrite Hk1, map_app, (map_fresh_keys id "stopped") in Hk2 by done. cbn [map fst snd] in Hk2. rewrite bool_decide_true in Hk2 by done.
    unfold vacuum_session. cbn [fst snd]. cbv zeta in Hvac.
    destruct (bo_log b) as [[log [[size sz]|]]|]; [destruct Hvac as (fs' & ->)|destruct Hvac as (e & fs' & ->)..];
      cbn [fst snd]; try done.
    unfold mark_vacuumed. rewrite (update_status_keys id "vacuumed") by done. rewrite Hk2, map_app, map_fresh_keys by done.
    cbn [map fst snd]. by rewrite bool_decide_true.
  - rewrite Es1. cbn [gui_boot_vm]. change (vms s0) with (vms s). rewrite Hvm. split; [by apply delete_id|].
    change (terminal_outputs s0) with (<[venv_id := map_new]> (terminal_outputs s)). by rewrite delete_insert_eq.
Qed.

(** A venv stopped while its root file system is being downloaded is booted all the same
    when the download is over, and no stop of any venv ends that VM any more. *)
Theorem stopped_download_boots now1 now2 venv_id r b s :
  running_venvs s !! venv_id = None -> (forall v, running_venvs s !! v <> Some (br_session_id r)) ->
  let s2 := stop now2 venv_id (boot_venv fault now1 venv_id r s).2 in
  let s3 := gui_boot_vm (br_session_id r) venv_id (Some b) s2 in
  (forall v, running_venvs s3 !! v <> Some (br_session_id r)) /\
  forall now v, is_Some (vms (stop now v s3) !! br_session_id r).
Proof.
  intros Hfree Hfresh. cbv zeta. set (id := br_session_id r) in *.
  assert (exists s1, s1 = (boot_venv fault now1 venv_id r s).2 /\ running_venvs s1 = <[venv_id := id]> (running_venvs s))
    as (s1 & <- & Hr1) by (eexists; split; [reflexivity|]; unfold boot_venv; by rewrite Hfree).
  destruct (stop_vm_fields now2 venv_id id s1) as (Hr2 & _); [by rewrite Hr1, lookup_insert_eq|].
  rewrite Hr1, delete_insert_id in Hr2 by done. set (s2 := stop now2 venv_id s1) in *.
  destruct (gui_boot_fields id venv_id b s2) as (_ & Hr3 & _ & _ & (i & Hv & _) & _). cbv zeta in *.
  set (s3 := gui_boot_vm id venv_id (Some b) s2) in *. rewrite Hr2 in Hr3. split; [intros v; rewrite Hr3; apply Hfresh|].
  intros now v. destruct (running_venvs s3 !! v) as [sid|] eqn:E.
  - destruct (stop_vm_fields now v sid s3 E) as (_ & -> & _). rewrite lookup_delete_ne, Hv, lookup_insert_eq; [by eexists|].
    intros ->. rewrite Hr3 in E. by apply (Hfresh v).
  - unfold stop_vm. rewrite E, Hv, lookup_insert_eq. by eexists.
Qed.

End Lifecycle.

(** ** A concrete VM *)

Module Demo.
Definition no_usage : UsageJson := {| usage_to_string := fun _ => ""; usage_from_string := fun _ => None |}.

Definition initial : AppState :=
  AppState_new {| ix_tables := Tables_empty; ix_query_only := false; ix_statements := 0 |} None.

Definition boot_request : BootRequest :=
  {| br_session_id := "20260225-143052-a7f3"; br_scratch_gb := 16; br_ram_bytes := 4294967296; br_rootfs := true |}.

Definition booted : Booted :=
  {| bo_input_fd := 5; bo_created := 0; bo_started := 1000; bo_log := Some (Db_empty, Some (1000, 2000)) |}.

Definition running : AppState :=
  gui_boot_vm (br_session_id boot_request) "dev" (Some booted) (boot_venv (fun _ => None) 1772323200 "dev" boot_request initial).2.

(** Messages by their first byte. *)
Definition demo_guest_rmp : Rmp GuestToHost := {|
  to_vec_named := fun _ => None;
  from_slice := fun l => match l with [x01] => Some (Ready "1.0") | [x02] => Some BootReady | _ => None end |}.

Definition connections : list VsockConnection :=
  [{| vc_port := 5002; vc_fd := 10 |}; {| vc_port := 5001; vc_fd := 11 |}; {| vc_port := 5000; vc_fd := 12 |};
   {| vc_port := 5008; vc_fd := 13 |}].

Definition control : list byte := [x00; x00; x00; x01; x01; x00; x00; x00; x01; x02].
End Demo.

Lemma setup_runs_iff_ready_witness :
  exists i', vms (@setup_vsock Demo.demo_guest_rmp "20260225-143052-a7f3" "dev" Demo.connections Demo.control
      (fun _ => true) 1 2 3 Demo.running).2 !! "20260225-143052-a7f3" = Some i' /\
    vsock_control_fd i' = Some 12 /\ current (state_machine i') = Running.
Proof.
  destruct (vms Demo.running !! "20260225-143052-a7f3") as [i|] eqn:Ei; [|vm_compute in Ei; discriminate].
  assert (i = {| serial_input_fd := 5; vsock_terminal_fd := None; vsock_control_fd := None; vi_log := Some Db_empty;
                 state_machine := boot_machine Demo.booted; port_state := PortState_new; processes := [];
                 latest := MetricsSnapshot_default |}) as Hi by (vm_compute in Ei |- *; congruence).
  destruct (@setup_runs_iff_ready Demo.demo_guest_rmp "20260225-143052-a7f3" "dev" Demo.connections Demo.control
    (fun _ => true) 1 2 3 Demo.running i (11, 12, [{| vc_port := 5002; vc_fd := 10 |}], [{| vc_port := 5008; vc_fd := 13 |}])
    Ei ltac:(rewrite Hi; reflexivity) ltac:(rewrite Hi; reflexivity) ltac:(reflexivity)) as (i' & H1 & _ & H2 & H3 & _).
  exists i'. split; [exact H1|]. split; [exact H2|]. apply H3. eexists _, _. vm_compute. reflexivity.
Defined.

Lemma service_connections_served_witness :
  exists su, (@setup_vsock Demo.demo_guest_rmp "20260225-143052-a7f3" "dev" Demo.connections Demo.control
      (fun _ => true) 1 2 3 Demo.running).1 = Some su /\
    List.filter (fun r => deferrable (vc_port r.1)) (su_routed su) =
      [({| vc_port := 5002; vc_fd := 10 |}, ToProxy); ({| vc_port := 5008; vc_fd := 13 |}, ToSysWatch)].
Proof.
  destruct (vms Demo.running !! "20260225-143052-a7f3") as [i|] eqn:Ei; [|vm_compute in Ei; discriminate].
  assert (vi_log i = Some Db_empty) as Hl by (vm_compute in Ei; by injection Ei as <-).
  destruct (@setup_vsock Demo.demo_guest_rmp "20260225-143052-a7f3" "dev" Demo.connections Demo.control
      (fun _ => true) 1 2 3 Demo.running).1 as [su|] eqn:E; [|vm_compute in E; discriminate].
  exists su. split; [reflexivity|].
  destruct (@service_connections_served Demo.demo_guest_rmp _ _ _ _ _ _ _ _ _ i Db_empty su Ei Hl E) as [-> _]. reflexivity.
Defined.

Lemma boot_then_stop_witness :
  let s2 := @stop_vm Demo.no_usage (fun _ => None) (fun _ => f64_zero) (fun _ a _ => a) (fun _ => Ok None) (fun _ l => l)
              1772323300 "dev" Demo.running in
  running_venvs s2 = ∅ /\ map row_key (sessions (ix_tables (session_index s2))) =
    [("20260225-143052-a7f3", "2026-03-01T00:00:00Z", "vacuumed")].
Proof.
  destruct (@boot_then_stop Demo.no_usage (fun _ => None) (fun _ => f64_zero) (fun _ a _ => a) (fun _ => Ok None) (fun _ l => l)
    (fun _ => eq_refl) 1772323200 1772323300 "dev" Demo.boot_request (Some Demo.booted) Demo.initial eq_refl eq_refl
    ltac:(intros Hin; by apply not_elem_of_nil in Hin) eq_refl eq_refl) as (_ & _ & Hr & _ & _ & Hk).
  split; [exact Hr|]. etransitivity; [exact Hk|]. vm_compute. reflexivity.
Defined.

Lemma stopped_download_boots_witness :
  let stop := @stop_vm Demo.no_usage (fun _ => None) (fun _ => f64_zero) (fun _ a _ => a) (fun _ => Ok None) (fun _ l => l) in
  let s3 := gui_boot_vm (br_session_id Demo.boot_request) "dev" (Some Demo.booted)
              (stop 1772323300 "dev" (boot_venv (fun _ => None) 1772323200 "dev" Demo.boot_request Demo.initial).2) in
  is_Some (vms (stop 1772323400 "dev" s3) !! br_session_id Demo.boot_request).
Proof.
  exact (proj2 (@stopped_download_boots Demo.no_usage (fun _ => None) (fun _ => f64_zero) (fun _ a _ => a) (fun _ => Ok None)
    (fun _ l => l) 1772323200 1772323300 "dev" Demo.boot_request Demo.booted Demo.initial eq_refl
    ltac:(intros v; discriminate)) 1772323400 "dev").
Defined.
