(* ===== verification/VenvLife.v ===== *)
(** Starting, stopping and deleting a venv: the commands of crates/clawcage-app/src/venvs.rs
    around [boot_venv] and [stop_vm], and the scratch disk of a venv (boot_venv in
    clawcage-app/src/main.rs, create_scratch_disk of clawcage-core/src/lib.rs).

    The table of venvs and the application's state change together: a start records the
    venv as running whether or not its VM booted ([start_records_running]), a stop keeps the
    guest's last disk usage ([stop_saves_usage]), and the scratch disk outlives a boot
    exactly when the venv is persistent ([scratch_lifetime]). *)

From Stdlib Require Import ZArith Lia Strings.Byte Ascii.
From Corelib Require Import SpecFloat.
From stdpp Require Import base numbers list gmap strings.
From S2P Require Import Prelude RustStr RustText IpAddr VpnConfig Utf8 Paths SessionTime Base64 VenvStore.
From S2P Require Import Proto Pricing EventLog LogReader SessionIndex HostTerminal HostApp.

(** ** The scratch disk *)

Definition zeros (n : Z) : list byte := replicate (Z.to_nat n) x00.

(** How the creation of a scratch disk ends. *)
Inductive Creation := Created | OpenFailed | LengthFailed.

(** [create_scratch_disk]; a file that could be opened but not extended stays, empty. *)
Definition create_scratch_disk (path : string) (size_gb : Z) (outcome : Creation) (d : Disk) : bool * Disk :=
  match outcome with
  | Created => (true, <[path := zeros (size_gb * 1024 * 1024 * 1024)]> d)
  | OpenFailed => (false, d)
  | LengthFailed => (false, <[path := []]> d)
  end.

Section Life.
Context `{VenvJson} (io : Io).

Definition is_ephemeral (venv_id : string) (d : Disk) : bool :=
  match load_venvs io d with
  | Ok vs => default false (vn_ephemeral <$> list_find_first (VenvStore.has_id venv_id) vs)
  | Err _ => false
  end.

Definition scratch_path (h venv_id : string) : string := path_join (venv_dir h venv_id) "scratch.img".

(** The scratch disk [boot_venv] attaches. *)
Definition prepare_scratch (venv_id : string) (size_gb : Z) (outcome : Creation) (d : Disk) : option string * Disk :=
  match home io with
  | None => (None, d)
  | Some h =>
      let path := scratch_path h venv_id in
      let d := if is_ephemeral venv_id d && bool_decide (is_Some (d !! path)) then remove_file io path d else d in
      match d !! path with
      | Some _ => (Some path, d)
      | None => let '(ok, d) := create_scratch_disk path size_gb outcome d in (if ok then Some path else None, d)
      end
  end.

(** ** Commands *)

Context `{UsageJson}.
Variable fault : nat -> option string.
Variable sum_real : list f64 -> f64.
Variable any_row : forall {A}, A -> list A -> A.
Variable usage_totals : list string -> result (option string) string.
Variable group_order : forall {A}, list A -> list A.

(** What a start meets: the times, the boot and its outcome, the scratch disk's creation. *)
Record Start := {
  sa_booting : string;
  sa_now : Z;
  sa_request : BootRequest;
  sa_outcome : option Booted;
  sa_creation : Creation;
  sa_running : string;
}.

(** [boot_venv], which always returns [Ok]: the boot itself when a root file system is there. *)
Definition boot (venv_id : string) (a : Start) (d : Disk) (s : AppState) : Disk * AppState :=
  match boot_venv fault (sa_now a) venv_id (sa_request a) s with
  | (AlreadyRunning, s) => (d, s)
  | (next, s) =>
      let d := (prepare_scratch venv_id (br_scratch_gb (sa_request a)) (sa_creation a) d).2 in
      (d, match next with BootNow => gui_boot_vm (br_session_id (sa_request a)) venv_id (sa_outcome a) s | _ => s end)
  end.

Definition start_venv (id : string) (a : Start) (d : Disk) (s : AppState) : result unit string * Disk * AppState :=
  match running_venvs s !! id with
  | Some _ => (Ok tt, d, s)
  | None =>
      match update_venv_status io (sa_booting a) id "booting" d with
      | (Err e, d) => (Err e, d, s)
      | (Ok _, d) =>
          let '(d, s) := boot id a d s in
          let '(r, d) := update_venv_status io (sa_running a) id "running" d in
          (r, d, s)
      end
  end.

(** The file with the usage is written when it is known; a failure is ignored. *)
Definition save_usage (id : string) (disk_used_kb : Z) (d : Disk) : Disk :=
  if 0 <? disk_used_kb then
    match home io with
    | Some h => (write_file io (path_join (venv_dir h id) "disk_used_kb") (bytes_of_string (show_Z disk_used_kb)) d).2
    | None => d
    end
  else d.

Definition stop_venv (now : Z) (stopped : string) (id : string) (d : Disk) (s : AppState) : result unit string * Disk * AppState :=
  match running_venvs s !! id with
  | None => (Err "this venv is not running", d, s)
  | Some sid =>
      let disk_used_kb := match vms s !! sid with Some i => ms_disk_used_kb (latest i) | None => 0 end in
      let s := stop_vm fault sum_real (@any_row) usage_totals (@group_order) now id s in
      let '(r, d) := update_venv_status io stopped id "stopped" (save_usage id disk_used_kb d) in
      (r, d, s)
  end.

(** The stop of a running venv is only dispatched: it may come after the files are gone. *)
Definition delete_venv (now : Z) (id : string) (d : Disk) (s : AppState) : result unit string * Disk * AppState :=
  let s := match running_venvs s !! id with
           | Some _ => stop_vm fault sum_real (@any_row) usage_totals (@group_order) now id s
           | None => s
           end in
  let '(r, d) := delete_venv_files io id d in
  (r, d, s).

End Life.

(** ** Numbers as text *)

Lemma parse_uint_shown w n : 0 <= n < 2 ^ w -> parse_uint w (show_Z n) = Some n.
Proof.
  intros Hn. pose proof (parse_number_shown w n Hn) as H. unfold parse_number in H.
  destruct (parse_uint w (show_Z n)); [by injection H as ->|done].
Qed.

Lemma shown_text n : 0 <= n -> trim (show_Z n) = show_Z n /\ utf8 (show_Z n).
Proof.
  intros Hn. destruct (show_Z_chars n Hn) as [Hc Hne]. apply ip_word in Hc as Hw.
  assert (all_chars graphic (show_Z n) = true) as Hg.
  { eapply all_chars_impl; [|exact Hc]. intros c H. by apply ip_char_graphic in H as [? _]. }
  split; [by apply trim_tidy, tidy_graphic|]. apply utf8_ascii. clear -Hg. induction (show_Z n) as [|c s IH]; [done|].
  unfold all_chars in Hg. cbn in Hg. apply andb_true_iff in Hg as [Hc Hs]. cbn. apply andb_true_iff. split; [|by apply IH].
  by destruct c as [[] [] [] [] [] [] [] []].
Qed.

Section Properties.
Context `{VenvJsonRoundtrip, UsageJson} (io : Io) (h : string).
Variable fault : nat -> option string.
Variable sum_real : list f64 -> f64.
Variable any_row : forall {A}, A -> list A -> A.
Variable usage_totals : list string -> result (option string) string.
Variable group_order : forall {A}, list A -> list A.
Hypothesis (Hio : works io h).

Abbreviation start := (start_venv io fault).
Abbreviation stop := (stop_venv io fault sum_real (@any_row) usage_totals (@group_order)).

(** *** The scratch disk *)

Theorem scratch_lifetime (id : string) (size_gb : Z) (outcome : Creation) (d : Disk) (old : list byte)
    (Hrm : cannot_remove io (scratch_path h id) = false) (Hold : d !! scratch_path h id = Some old) :
  let '(path, d') := prepare_scratch io id size_gb outcome d in
  (forall p, p <> scratch_path h id -> d' !! p = d !! p) /\
  if is_ephemeral io id d then
    (path = Some (scratch_path h id) <-> outcome = Created) /\
    (outcome = Created -> d' !! scratch_path h id = Some (zeros (size_gb * 1024 * 1024 * 1024))) /\
    (d' !! scratch_path h id = Some old -> outcome = Created \/ old = [])
  else path = Some (scratch_path h id) /\ d' !! scratch_path h id = Some old.
Proof.
  unfold prepare_scratch. rewrite (wk_home _ _ Hio). destruct (is_ephemeral io id d).
  - rewrite bool_decide_true by eauto. cbn [andb]. unfold remove_file. rewrite Hrm, lookup_delete_eq.
    destruct outcome; cbn; (split; [intros p Hp; by rewrite ?lookup_insert_ne, ?lookup_delete_ne|]).
    + split; [done|]. split; [intros _; apply lookup_insert_eq|]. by left.
    + split; [done|]. split; [done|]. by rewrite lookup_delete_eq.
    + split; [done|]. split; [done|]. rewrite lookup_insert_eq. intros [= <-]. by right.
  - cbn [andb]. rewrite Hold. done.
Qed.

(** *** The table through a start and a stop *)

Lemma scratch_not_table id : table_path h <> scratch_path h id.
Proof. by apply table_not_file. Qed.

Lemma usage_not_table id : table_path h <> path_join (venv_dir h id) "disk_used_kb".
Proof. by apply table_not_file. Qed.

Lemma prepare_scratch_table id size_gb outcome d : (prepare_scratch io id size_gb outcome d).2 !! table_path h = d !! table_path h.
Proof.
  pose proof (scratch_not_table id) as Hne. unfold prepare_scratch. rewrite (wk_home _ _ Hio).
  set (d1 := if _ && _ then _ else d). assert (d1 !! table_path h = d !! table_path h) as E.
  { subst d1. destruct (_ && _); [|done]. unfold remove_file. destruct (cannot_remove io _); [done|]. by rewrite lookup_delete_ne. }
  clearbody d1. destruct (d1 !! scratch_path h id); [done|]. destruct outcome; cbn; by rewrite ?lookup_insert_ne.
Qed.

(** The venv with an id, as the commands find it. *)
Definition venv_of (id : string) (vs : list VenvInfo) : option VenvInfo := list_find_first (VenvStore.has_id id) vs.

Lemma update_first_found id f vs v : (forall v, vn_id (f v) = vn_id v) -> venv_of id vs = Some v ->
  exists vs', update_first id f vs = Some vs' /\ venv_of id vs' = Some (f v).
Proof.
  intros Hf. induction vs as [|x vs IH]; [done|]. unfold venv_of. cbn [list_find_first update_first].
  destruct (VenvStore.has_id id x) eqn:Hx.
  - intros [= ->]. eexists. split; [done|]. cbn. unfold VenvStore.has_id in *. by rewrite Hf, Hx.
  - intros Hv. destruct (IH Hv) as (vs' & -> & Hv'). eexists. split; [done|]. cbn. by rewrite Hx.
Qed.

Lemma status_updated now id status d vs v : load_venvs io d = Ok vs -> venv_of id vs = Some v ->
  exists vs' d', update_venv_status io now id status d = (Ok tt, d') /\ load_venvs io d' = Ok vs' /\
    venv_of id vs' = Some (VenvStore.set_status status
      (if bool_decide (status = "running") || bool_decide (status = "booting") then Some now else vn_last_used v) v) /\
    forall p, p <> table_path h -> d' !! p = d !! p.
Proof.
  intros Hl Hv. unfold update_venv_status, change_venvs. rewrite Hl. unfold change_first.
  edestruct (update_first_found id (fun v => VenvStore.set_status status
    (if bool_decide (status = "running") || bool_decide (status = "booting") then Some now else vn_last_used v) v) vs v) as (vs' & -> & Hv');
    [done|done|]. destruct (save_load io h Hio vs' d) as (d' & -> & Hl' & Ho). by exists vs', d'.
Qed.

Theorem start_records_running (id : string) (a : Start) (d : Disk) (s : AppState) (vs : list VenvInfo) (v : VenvInfo)
    (Hload : load_venvs io d = Ok vs) (Hv : venv_of id vs = Some v) (Hfree : running_venvs s !! id = None)
    (Hvm : vms s !! br_session_id (sa_request a) = None) :
  exists d' s' vs', start id a d s = (Ok tt, d', s') /\ load_venvs io d' = Ok vs' /\
    venv_of id vs' = Some (VenvStore.set_status "running" (Some (sa_running a)) v) /\
    running_venvs s' !! id = Some (br_session_id (sa_request a)) /\
    (is_Some (vms s' !! br_session_id (sa_request a)) <-> br_rootfs (sa_request a) = true /\ is_Some (sa_outcome a)).
Proof.
  unfold start_venv. rewrite Hfree.
  destruct (status_updated (sa_booting a) id "booting" d vs v Hload Hv) as (vs1 & d1 & -> & Hl1 & Hv1 & _).
  unfold boot, boot_venv. rewrite Hfree. set (s0 := set_outputs _ _).
  assert (running_venvs s0 = <[id := br_session_id (sa_request a)]> (running_venvs s) /\ vms s0 = vms s) as [Hr0 Hv0] by done.
  clearbody s0. set (d2 := (prepare_scratch _ _ _ _ _).2).
  assert (load_venvs io d2 = Ok vs1) as Hl2 by (rewrite <- Hl1; apply (load_same_table io h Hio), prepare_scratch_table).
  clearbody d2. destruct (status_updated (sa_running a) id "running" d2 vs1 _ Hl2 Hv1) as (vs3 & d3 & E3 & Hl3 & Hv3 & _).
  destruct (br_rootfs (sa_request a)); rewrite E3; eexists d3, _, vs3; (split; [done|]); (split; [done|]); (split; [exact Hv3|]).
  - destruct (sa_outcome a) as [b|].
    + destruct (gui_boot_fields (br_session_id (sa_request a)) id b s0) as (_ & -> & _ & _ & (i & -> & _) & _).
      rewrite Hr0, !lookup_insert_eq. split; [done|]. split; by eauto.
    + cbn [gui_boot_vm]. rewrite Hr0, Hv0, Hvm, lookup_insert_eq. split; [done|]. split; [by intros [? ?]|by intros [_ [? ?]]].
  - rewrite Hr0, Hv0, Hvm, lookup_insert_eq. split; [done|]. split; [by intros [? ?]|by intros [? ?]].
Qed.

Theorem stop_saves_usage (now : Z) (stopped id sid : string) (d : Disk) (s : AppState) (vs : list VenvInfo) (v : VenvInfo) (i : VmInstance)
    (Hload : load_venvs io d = Ok vs) (Hv : venv_of id vs = Some v) (Hrun : running_venvs s !! id = Some sid)
    (Hvm : vms s !! sid = Some i) (Hkb : 0 < ms_disk_used_kb (latest i) < 2 ^ 54) :
  exists d' s' vs', stop now stopped id d s = (Ok tt, d', s') /\ load_venvs io d' = Ok vs' /\
    venv_of id vs' = Some (VenvStore.set_status "stopped" (vn_last_used v) v) /\
    venv_disk_used io id d' = ms_disk_used_kb (latest i) * 1024 /\
    running_venvs s' = delete id (running_venvs s) /\ vms s' = delete sid (vms s).
Proof.
  unfold stop_venv. rewrite Hrun, Hvm. set (kb := ms_disk_used_kb (latest i)) in *.
  assert (save_usage io id kb d = <[path_join (venv_dir h id) "disk_used_kb" := bytes_of_string (show_Z kb)]> d) as ->.
  { unfold save_usage, write_file. rewrite (wk_home _ _ Hio), (wk_write _ _ Hio). destruct (Z.ltb_spec 0 kb); [done|lia]. }
  set (d1 := <[_ := _]> d). assert (load_venvs io d1 = Ok vs) as Hl1.
  { rewrite <- Hload. apply (load_same_table io h Hio). unfold d1. by rewrite lookup_insert_ne by apply not_eq_sym, usage_not_table. }
  destruct (status_updated stopped id "stopped" d1 vs v Hl1 Hv) as (vs' & d' & -> & Hl' & Hv' & Ho).
  eexists d', _, vs'. split; [done|]. split; [done|]. split; [exact Hv'|].
  destruct (stop_vm_fields fault sum_real (@any_row) usage_totals (@group_order) now id sid s Hrun) as (Hr1 & Hr2 & _). split; [|by split].
  unfold venv_disk_used. rewrite (wk_home _ _ Hio). unfold read_to_string, read_file. rewrite (wk_read _ _ Hio), Ho by apply not_eq_sym, usage_not_table.
  unfold d1. rewrite lookup_insert_eq. destruct (shown_text kb) as [Ht Hu]; [lia|].
  assert (from_utf8 (bytes_of_string (show_Z kb)) = Some (show_Z kb)) as ->.
  { rewrite <- (string_of_bytes_of_string (show_Z kb)) at 2. apply from_utf8_string_of_bytes. by rewrite string_of_bytes_of_string. }
  rewrite Ht, parse_uint_shown by lia. cbn [default from_option]. unfold as_uN. apply Z.mod_small. lia.
Qed.

End Properties.

(** ** A venv that is started, reports its disk and is stopped *)

Module Demo.

Definition venv : VenvInfo := new_venv 4095 "t0" "dev" false None.
Definition disk : Disk := <[scratch_path "/h" "venv-fff" := [x41]]> (venv_op VenvStore.Demo.io ∅ (OpCreate 4095 "t0" "dev" false None)).

Definition start (outcome : option Booted) : Start :=
  {| sa_booting := "t1"; sa_now := 1772323200; sa_request := HostApp.Demo.boot_request; sa_outcome := outcome;
     sa_creation := Created; sa_running := "t2" |}.

Definition metrics : MetricsSnapshot :=
  {| ms_cpu_percent := f64_zero; ms_mem_total_kb := 0; ms_mem_used_kb := 0; ms_disk_total_kb := 100; ms_disk_used_kb := 42; ms_updated_at := 9 |}.

Definition instance : VmInstance :=
  {| serial_input_fd := 5; vsock_terminal_fd := None; vsock_control_fd := None; vi_log := None;
     state_machine := boot_machine HostApp.Demo.booted; port_state := PortState_new; processes := []; latest := metrics |}.

Definition running : AppState := set_running {["venv-fff" := "s1"]} (set_vms {["s1" := instance]} HostApp.Demo.initial).

Lemma stored : load_venvs VenvStore.Demo.io disk = Ok [venv].
Proof. vm_compute. reflexivity. Qed.

Lemma scratch_there : disk !! scratch_path "/h" "venv-fff" = Some [x41].
Proof. vm_compute. reflexivity. Qed.

Lemma removable : cannot_remove VenvStore.Demo.io (scratch_path "/h" "venv-fff") = false.
Proof. vm_compute. reflexivity. Qed.

Lemma persistent : is_ephemeral VenvStore.Demo.io "venv-fff" disk = false.
Proof. vm_compute. reflexivity. Qed.

Lemma found : venv_of "venv-fff" [venv] = Some venv.
Proof. vm_compute. reflexivity. Qed.

Lemma free : running_venvs HostApp.Demo.initial !! "venv-fff" = None.
Proof. vm_compute. reflexivity. Qed.

Lemma no_vm : vms HostApp.Demo.initial !! br_session_id HostApp.Demo.boot_request = None.
Proof. vm_compute. reflexivity. Qed.

Lemma is_running : running_venvs running !! "venv-fff" = Some "s1".
Proof. vm_compute. reflexivity. Qed.

Lemma has_vm : vms running !! "s1" = Some instance.
Proof. vm_compute. reflexivity. Qed.

Lemma usage : 0 < ms_disk_used_kb (latest instance) < 2 ^ 54.
Proof. vm_compute. split; reflexivity. Qed.

End Demo.

Lemma scratch_lifetime_witness :
  exists path d', prepare_scratch VenvStore.Demo.io "venv-fff" 0 Created Demo.disk = (path, d') /\
    path = Some (scratch_path "/h" "venv-fff") /\ d' !! scratch_path "/h" "venv-fff" = Some [x41].
Proof.
  pose proof (scratch_lifetime VenvStore.Demo.io "/h" VenvStore.Demo.io_works "venv-fff" 0 Created Demo.disk [x41]
    Demo.removable Demo.scratch_there) as Hs.
  destruct (prepare_scratch VenvStore.Demo.io "venv-fff" 0 Created Demo.disk) as [path d']. exists path, d'. split; [reflexivity|].
  destruct Hs as [_ Hs]. rewrite Demo.persistent in Hs. exact Hs.
Defined.

(** The VM did not boot, and the venv is recorded as running all the same. *)
Lemma start_records_running_witness :
  exists d' s' vs', @start_venv _ VenvStore.Demo.io (fun _ => None) "venv-fff" (Demo.start None) Demo.disk HostApp.Demo.initial = (Ok tt, d', s') /\
    load_venvs VenvStore.Demo.io d' = Ok vs' /\ venv_of "venv-fff" vs' = Some (VenvStore.set_status "running" (Some "t2") Demo.venv) /\
    vms s' !! br_session_id HostApp.Demo.boot_request = None.
Proof.
  destruct (start_records_running VenvStore.Demo.io "/h" (fun _ => None) VenvStore.Demo.io_works "venv-fff" (Demo.start None) Demo.disk
    HostApp.Demo.initial [Demo.venv] Demo.venv Demo.stored Demo.found Demo.free Demo.no_vm) as (d' & s' & vs' & Hs & Hl & Hv & _ & Hvm).
  exists d', s', vs'. split; [exact Hs|]. split; [exact Hl|]. split; [exact Hv|].
  destruct (vms s' !! br_session_id HostApp.Demo.boot_request) as [i|] eqn:E; [|reflexivity].
  destruct (proj1 Hvm) as [_ [? [=]]]. exists i. exact E.
Defined.

Lemma stop_saves_usage_witness :
  exists d' s' vs', @stop_venv _ VenvStore.Demo.io HostApp.Demo.no_usage (fun _ => None) (fun _ => f64_zero) (fun _ a _ => a) (fun _ => Ok None)
      (fun _ l => l) 1772323300 "t3" "venv-fff" Demo.disk Demo.running = (Ok tt, d', s') /\
    load_venvs VenvStore.Demo.io d' = Ok vs' /\ venv_disk_used VenvStore.Demo.io "venv-fff" d' = 43008.
Proof.
  destruct (@stop_saves_usage _ _ HostApp.Demo.no_usage VenvStore.Demo.io "/h" (fun _ => None) (fun _ => f64_zero) (fun _ a _ => a) (fun _ => Ok None)
    (fun _ l => l) VenvStore.Demo.io_works 1772323300 "t3" "venv-fff" "s1" Demo.disk Demo.running [Demo.venv] Demo.venv Demo.instance
    Demo.stored Demo.found Demo.is_running Demo.has_vm Demo.usage) as (d' & s' & vs' & Hs & Hl & _ & Hu & _).
  exists d', s', vs'. split; [exact Hs|]. split; [exact Hl|exact Hu].
Defined.
