(* ===== verification/HostCli.v ===== *)
(** The command line mode: run_cli, parse_env_args, boot_vm and the command line part of
    main in clawcage-app/src/main.rs.

    A run waits in four loops, each of which looks at the clock, the new connections and
    the control channel once a turn; the turns are the data ([Tick]), and a loop whose
    turns are over is still waiting ([Pending]). The exit code of a run is the one the
    guest reported for its command ([cli_exit_code], with the agent's side of it), and a
    run that ends with a code leaves a finished session and one that fails a session that
    counts as running ([cli_session_recorded]). *)

From Stdlib Require Import ZArith Lia Strings.Byte Ascii.
From stdpp Require Import base numbers list gmap strings sorting.
From S2P Require Import Prelude RustStr RustText Paths Proto HostState Events SessionTime EventLog LogReader SessionIndex SessionCleanup.
From S2P Require Import Pricing Utf8 Vm Sentinel AgentControl Assets HostApp.

(** ** Arguments *)

(** A [KEY=VALUE] that is kept; what is rejected is reported on stderr. *)
Definition env_pair (arg : string) : option (string * string) :=
  match split_once "=" arg with
  | Some (key, value) => if is_ok (validate_env_key key) && is_ok (validate_env_value value) then Some (key, value) else None
  | None => None
  end.

Definition push_pair (p : option (string * string)) (r : list (string * string) * list string) : list (string * string) * list string :=
  (match p with Some kv => kv :: r.1 | None => r.1 end, r.2).

Fixpoint parse_env_args (args : list string) : list (string * string) * list string :=
  match args with
  | [] => ([], [])
  | arg :: args =>
      if bool_decide (arg = "--env") then
        match args with
        | val :: args => push_pair (env_pair val) (parse_env_args args)
        | [] => ([], [])
        end
      else match strip_prefix "--env=" arg with
           | Some rest => push_pair (env_pair rest) (parse_env_args args)
           | None => let r := parse_env_args args in (r.1, arg :: r.2)
           end
  end.

(** ** The machine *)

(** The hashes compiled into the program. *)
Record CompiledHashes := { VMLINUZ_HASH : option string; INITRD_HASH : option string; ROOTFS_HASH : option string }.

Section Boot.
Context `{Blake3} (io : Assets.Io) (hashes : CompiledHashes).

(** The configuration [boot_vm] builds. *)
Definition vm_request (assets : string) (rootfs_override : option string) (cmdline : string)
    (scratch_disk_path : option string) (cpu_count ram_bytes : Z) (d : Disk) : VmConfigBuilder :=
  let initrd := path_join assets "initrd.img" in
  let has_initrd := path_exists initrd d in
  let bundled := path_join assets "rootfs.squashfs" in
  let rootfs_path := match rootfs_override with
                     | Some p => Some p
                     | None => if path_exists bundled d then Some bundled else None
                     end in
  {| b_cpu_count := cpu_count; b_ram_bytes := ram_bytes; b_kernel_path := Some (path_join assets "vmlinuz");
     b_initrd_path := if has_initrd then Some initrd else None;
     b_disk_path := rootfs_path;
     b_scratch_disk_path := scratch_disk_path; b_kernel_cmdline := cmdline;
     b_expected_kernel_hash := VMLINUZ_HASH hashes;
     b_expected_initrd_hash := if has_initrd then INITRD_HASH hashes else None;
     b_expected_disk_hash := match rootfs_path with Some _ => ROOTFS_HASH hashes | None => None end |}.

Definition build_config (b : VmConfigBuilder) (d : Disk) : result VmConfig ConfigError :=
  build (fun p => path_exists p d) (fun p => default (Err "hash") (hash_file io p d)) b.

(** The framework's part: creating and starting the VM, and when. *)
Record VmFramework := { vf_create_error : option string; vf_start_error : option string; vf_created : Z; vf_started : Z }.

Definition boot_vm (assets : string) (rootfs_override : option string) (cmdline : string)
    (scratch_disk_path : option string) (cpu_count ram_bytes : Z) (vf : VmFramework) (d : Disk) : result (StateMachine HostState) string :=
  match build_config (vm_request assets rootfs_override cmdline scratch_disk_path cpu_count ram_bytes d) d with
  | Err _ => Err "failed to build VmConfig"
  | Ok config =>
      match vf_create_error vf, vf_start_error vf with
      | Some _, _ => Err "failed to create VM"
      | None, Some _ => Err "failed to start VM"
      | None, None =>
          match transition (new_host (vf_created vf)) Booting "vm_started" (vf_started vf) with
          | (Ok _, sm) => Ok sm
          | (Err _, _) => Err "transition"
          end
      end
  end.

End Boot.

(** ** The loops *)

Inductive Recv := Empty | Msg (m : GuestToHost) | Disconnected.

Record Tick := { tick_now : Z; tick_conns : list VsockConnection; tick_recv : Recv }.

Record Conns := { cn_kept : list VsockConnection; cn_served : list (VsockConnection * Handler) }.

Definition keep (c : VsockConnection) (cs : Conns) : Conns := {| cn_kept := cn_kept cs ++ [c]; cn_served := cn_served cs |}.
Definition serve (c : VsockConnection) (h : Handler) (cs : Conns) : Conns := {| cn_kept := cn_kept cs; cn_served := cn_served cs ++ [(c, h)] |}.

(** Whom a connection is for; [net]: the session has its network state. *)
Definition cli_service (net : bool) (port : Z) : option Handler :=
  if port =? VSOCK_PORT_SNI_PROXY then Some (if net then ToProxy else ToNobody)
  else if port =? VSOCK_PORT_FS_WATCH then Some (if net then ToFsWatch else ToNobody)
  else if port =? VSOCK_PORT_MCP_GATEWAY then Some (if net then ToMcp else ToNobody)
  else if port =? VSOCK_PORT_PORT_WATCH then Some ToPortWatch
  else if port =? VSOCK_PORT_PORT_FORWARD then Some ToRelay
  else None.

(** A connection during the setup: one nobody serves is kept open. *)
Definition setup_conn (net : bool) (st : option Z * option Z * Conns) (c : VsockConnection) : option Z * option Z * Conns :=
  let '(terminal, control, cs) := st in
  if vc_port c =? VSOCK_PORT_TERMINAL then (Some (vc_fd c), control, keep c cs)
  else if vc_port c =? VSOCK_PORT_CONTROL then (terminal, Some (vc_fd c), keep c cs)
  else match cli_service net (vc_port c) with
       | Some ToNobody | None => (terminal, control, keep c cs)
       | Some h => (terminal, control, serve c h cs)
       end.

(** A connection while the command runs: one nobody serves is closed. *)
Definition exec_conn (net : bool) (cs : Conns) (c : VsockConnection) : Conns :=
  match cli_service net (vc_port c) with
  | Some ToNobody => cs
  | Some h => serve c h cs
  | None => keep c cs
  end.

Inductive Wait (A : Type) := Done (r : result A string) | Waiting.
Arguments Done {A} r.
Arguments Waiting {A}.

Fixpoint setup_loop (net : bool) (deadline : Z) (ticks : list Tick) (st : option Z * option Z * Conns) : Wait (Z * Z) * Conns :=
  match st.1 with
  | (Some terminal_fd, Some control_fd) => (Done (Ok (terminal_fd, control_fd)), st.2)
  | _ =>
      match ticks with
      | [] => (Waiting, st.2)
      | t :: ticks =>
          if deadline <=? tick_now t then (Done (Err "timed out waiting for vsock connections from guest agent"), st.2)
          else setup_loop net deadline ticks (foldl (setup_conn net) st (tick_conns t))
      end
  end.

Fixpoint await_ready (deadline : Z) (ticks : list Tick) : Wait unit :=
  match ticks with
  | [] => Waiting
  | t :: ticks =>
      if deadline <=? tick_now t then Done (Err "timed out waiting for guest agent Ready")
      else match tick_recv t with
           | Msg (Ready _) => Done (Ok tt)
           | Msg _ | Empty => await_ready deadline ticks
           | Disconnected => Done (Err "control channel closed before Ready")
           end
  end.

(** At the deadline the run goes on without BootReady. *)
Fixpoint await_cli_boot_ready (deadline : Z) (ticks : list Tick) : Wait unit :=
  match ticks with
  | [] => Waiting
  | t :: ticks =>
      if deadline <=? tick_now t then Done (Ok tt)
      else match tick_recv t with
           | Msg BootReady => Done (Ok tt)
           | Msg _ | Empty => await_cli_boot_ready deadline ticks
           | Disconnected => Done (Err "guest agent disconnected during boot handshake")
           end
  end.

(** The exit code; a timeout is 124 and a closed channel 1. *)
Fixpoint exec_loop (net : bool) (exec_id deadline : Z) (ticks : list Tick) (cs : Conns) : option Z * Conns :=
  match ticks with
  | [] => (None, cs)
  | t :: ticks =>
      if deadline <=? tick_now t then (Some 124, cs)
      else
        let cs := foldl (exec_conn net) cs (tick_conns t) in
        match tick_recv t with
        | Msg (ExecDone id code) => if id =? exec_id then (Some code, cs) else exec_loop net exec_id deadline ticks cs
        | Msg _ | Empty => exec_loop net exec_id deadline ticks cs
        | Disconnected => (Some 1, cs)
        end
  end.

(** The thread that copies the terminal connection to stdout, and what ends the output so
    that the prompt starts on a line of its own. *)
Fixpoint cli_stdout (reads : list (list byte)) (last_was_newline : bool) : list byte * bool :=
  match reads with
  | [] => ([], last_was_newline)
  | [] :: _ => ([], last_was_newline)
  | buf :: reads =>
      let '(out, nl) := cli_stdout reads (bool_decide (last buf = Some x0a)) in (buf ++ out, nl)
  end.

Definition cli_output (reads : list (list byte)) : list byte :=
  let '(out, nl) := cli_stdout reads true in if nl then out else out ++ [x0a].

(** ** A run *)

Definition CLI_TIMEOUT : Z := 120.
Definition BOOT_READY_TIMEOUT : Z := 5.

(** What a run meets, in seconds where it is a time. *)
Record CliRun := {
  cr_runtime_error : option string;
  cr_download : DownloadIo;
  cr_session_id : string;
  cr_created : Z;
  cr_scratch_gb : Z; cr_cpu_count : Z; cr_ram_gb : Z;
  cr_scratch : option Z;
  cr_framework : VmFramework;
  cr_vsock_error : option string;
  cr_log : option (Db * option (Z * Z));
  cr_started : Z; cr_setup : list Tick;
  cr_reader_error : option string; cr_ready : list Tick;
  cr_config_error : option string; cr_configured : Z; cr_boot : list Tick;
  cr_exec_id : Z; cr_exec_error : option string; cr_exec : list Tick;
  cr_stopped : Z;
}.

Inductive CliEnd := Exit (code : Z) | Failed (e : string) | Pending.

Record Host := { ho_index : Index; ho_sessions : Fs; ho_disk : Disk }.

Definition set_index x h := {| ho_index := x; ho_sessions := ho_sessions h; ho_disk := ho_disk h |}.
Definition set_sessions_dir x h := {| ho_index := ho_index h; ho_sessions := x; ho_disk := ho_disk h |}.
Definition set_disk x h := {| ho_index := ho_index h; ho_sessions := ho_sessions h; ho_disk := x |}.

(** The scratch disk of a session, or none. *)
Definition set_scratch (id : string) (scratch : option Z) (fs : Fs) : Fs :=
  map (fun e => if named id e then
    {| e_name := e_name e; e_dir := e_dir e; e_scratch := scratch; e_session_db := e_session_db e;
       e_vacuum := e_vacuum e; e_size := e_size e; e_stuck := e_stuck e |} else e) <$> fs.

Definition scratch_file (home id : string) : string :=
  path_join (path_join (path_join (path_join home ".clawcage") "sessions") id) "scratch.img".

Definition cli_record (r : CliRun) (command : string) : SessionRecord := {|
  sr_id := cr_session_id r; sr_mode := "cli"; sr_command := Some command; sr_status := "running";
  sr_created_at := now_iso (cr_created r);
  sr_stopped_at := None; sr_scratch_disk_size_gb := cr_scratch_gb r; sr_ram_bytes := cr_ram_gb r * 1024 * 1024 * 1024;
  sr_total_requests := 0; sr_allowed_requests := 0; sr_denied_requests := 0; sr_total_input_tokens := 0;
  sr_total_output_tokens := 0; sr_total_estimated_cost := f64_zero; sr_total_tool_calls := 0; sr_total_mcp_calls := 0;
  sr_total_file_events := 0; sr_compressed_size_bytes := None; sr_vacuumed_at := None |}.

(** The session's directory, scratch disk and row; the path of the disk. *)
Definition create_cli_session (fault : nat -> option string) (home command : string) (r : CliRun) (h : Host) : option string * Host :=
  let id := cr_session_id r in
  let sessions := create_session_dir id (ho_sessions h) in
  let scratch := scratch_file home id in
  let '(scratch_path, sessions, disk) :=
    match cr_scratch r with
    | Some size => (Some scratch, set_scratch id (Some size) sessions, (create_file scratch (ho_disk h)).2)
    | None => (None, sessions, ho_disk h)
    end in
  (scratch_path, {| ho_index := (create_session fault (cli_record r command) (ho_index h)).2; ho_sessions := sessions; ho_disk := disk |}).

(** From the accepted connections to the end of the command. *)
Definition run_command (r : CliRun) (cs : Conns) : CliEnd * Conns :=
  match cr_reader_error r with
  | Some e => (Failed ("failed to clone control fd: " +:+ e), cs)
  | None =>
      match await_ready (cr_started r + CLI_TIMEOUT) (cr_ready r) with
      | Waiting => (Pending, cs)
      | Done (Err e) => (Failed e, cs)
      | Done (Ok _) =>
          match cr_config_error r with
          | Some e => (Failed e, cs)
          | None =>
              match await_cli_boot_ready (cr_configured r + BOOT_READY_TIMEOUT) (cr_boot r) with
              | Waiting => (Pending, cs)
              | Done (Err e) => (Failed e, cs)
              | Done (Ok _) =>
                  match cr_exec_error r with
                  | Some e => (Failed e, cs)
                  | None =>
                      match exec_loop (bool_decide (is_Some (cr_log r))) (cr_exec_id r) (cr_started r + CLI_TIMEOUT) (cr_exec r) cs with
                      | (Some code, cs) => (Exit code, cs)
                      | (None, cs) => (Pending, cs)
                      end
                  end
              end
          end
      end
  end.

(** From the listeners to the end of the command. *)
Definition run_guest (r : CliRun) : CliEnd * Conns :=
  let none := {| cn_kept := []; cn_served := [] |} in
  match cr_vsock_error r with
  | Some _ => (Failed "failed to set up vsock", none)
  | None =>
      match setup_loop (bool_decide (is_Some (cr_log r))) (cr_started r + CLI_TIMEOUT) (cr_setup r) (None, None, none) with
      | (Waiting, cs) => (Pending, cs)
      | (Done (Err e), cs) => (Failed e, cs)
      | (Done (Ok _), cs) => run_command r cs
      end
  end.

Section Run.
Context `{Blake3, UsageJson}.
Context (io : Assets.Io) (hashes : CompiledHashes) (version : string) (read_text : string -> Disk -> option string).
Variable fault : nat -> option string.
Variable tie : forall {A}, list A -> list A.
Variable sum_real : list f64 -> f64.
Variable any_row : forall {A}, A -> list A -> A.
Variable usage_totals : list string -> result (option string) string.
Variable group_order : forall {A}, list A -> list A.

(** The end of a run whose command ended. *)
Definition finish_session (r : CliRun) (h : Host) : Host :=
  let id := cr_session_id r in
  let sessions := set_scratch id None (ho_sessions h) in
  let index := cleanup_session fault sum_real (@any_row) usage_totals (@group_order) (cr_stopped r) id (fst <$> cr_log r) (ho_index h) in
  let '(index, sessions) := vacuum_session fault (cr_stopped r) id (index, sessions) in
  {| ho_index := index; ho_sessions := sessions; ho_disk := ho_disk h |}.

Definition run_cli (home command : string) (r : CliRun) (h : Host) : CliEnd * Host :=
  match cr_runtime_error r with
  | Some _ => (Failed "failed to create tokio runtime", h)
  | None =>
      match resolve_assets_dir io (ho_disk h) with
      | Err e => (Failed e, h)
      | Ok assets =>
          match ensure_rootfs io version read_text assets (cr_download r) (ho_disk h) with
          | None => (Pending, h)
          | Some (None, d) => (Pending, set_disk d h)
          | Some (Some (Err e), d) => (Failed e, set_disk d h)
          | Some (Some (Ok rootfs), d) =>
              let '(scratch_path, h) := create_cli_session fault home command r (set_disk d h) in
              match boot_vm io hashes assets (Some rootfs) "console=hvc0 ro loglevel=1" scratch_path (cr_cpu_count r)
                      (cr_ram_gb r * 1024 * 1024 * 1024) (cr_framework r) (ho_disk h) with
              | Err e => (Failed e, h)
              | Ok _ =>
                  let h := match cr_vsock_error r, cr_log r with
                           | None, Some (log, vacuum) => set_sessions_dir (open_session_db (cr_session_id r) log vacuum (ho_sessions h)) h
                           | _, _ => h
                           end in
                  match (run_guest r).1 with
                  | Exit code => (Exit code, finish_session r h)
                  | other => (other, h)
                  end
              end
          end
      end
  end.

(** [main] with arguments: the exit code. *)
Definition main_cli (home : string) (now : Z) (settings : list Settings.ResolvedSetting) (args : list string) (r : CliRun) (h : Host)
  : CliEnd * list (string * string) * Host :=
  let '(index, sessions) := cleanup_stale_sessions fault (@tie) sum_real (@any_row) usage_totals (@group_order) now settings (ho_index h, ho_sessions h) in
  let h := set_sessions_dir sessions (set_index index h) in
  let '(cli_env, remaining) := parse_env_args args in
  match remaining with
  | [] => (Exit 1, cli_env, h)
  | _ =>
      match run_cli home (join " " remaining) r h with
      | (Failed _, h) => (Exit 1, cli_env, h)
      | (other, h) => (other, cli_env, h)
      end
  end.

End Run.

(** ** Arguments are read as they were written *)

Inductive CliItem := EnvNext (key value : string) | EnvHere (key value : string) | Word (w : string).

Definition item_args (i : CliItem) : list string :=
  match i with
  | EnvNext key value => ["--env"; key +:+ "=" +:+ value]
  | EnvHere key value => ["--env=" +:+ key +:+ "=" +:+ value]
  | Word w => [w]
  end.

Definition item_ok (i : CliItem) : Prop :=
  match i with
  | EnvNext key value | EnvHere key value => validate_env_key key = Ok tt /\ validate_env_value value = Ok tt
  | Word w => w <> "--env" /\ strip_prefix "--env=" w = None
  end.

Definition item_pair (i : CliItem) : option (string * string) :=
  match i with EnvNext key value | EnvHere key value => Some (key, value) | Word _ => None end.

Definition item_word (i : CliItem) : option string := match i with Word w => Some w | _ => None end.

Lemma valid_key_no_equals key : validate_env_key key = Ok tt -> contains_char key "=" = false.
Proof. unfold validate_env_key. destruct (is_empty key); [done|]. by destruct (contains_char key "="). Qed.

Lemma env_pair_valid key value : validate_env_key key = Ok tt -> validate_env_value value = Ok tt ->
  env_pair (key +:+ "=" +:+ value) = Some (key, value).
Proof.
  intros Hk Hv. unfold env_pair. change ("=" +:+ value) with (String "=" value).
  rewrite split_once_app by (by apply valid_key_no_equals). by rewrite Hk, Hv.
Qed.

Theorem cli_args_roundtrip (items : list CliItem) (Hitems : Forall item_ok items) :
  parse_env_args (concat (map item_args items)) = (omap item_pair items, omap item_word items).
Proof.
  induction Hitems as [|i items Hi _ IH]; [done|]. cbn [map concat]. destruct i as [k v|k v|w]; cbn [item_args app].
  - destruct Hi as [Hk Hv]. cbn [parse_env_args]. rewrite bool_decide_true by done. by rewrite IH, env_pair_valid.
  - destruct Hi as [Hk Hv]. cbn [parse_env_args]. rewrite bool_decide_false by done.
    rewrite strip_prefix_app. by rewrite IH, env_pair_valid.
  - destruct Hi as [Hw Hs]. cbn [parse_env_args]. rewrite bool_decide_false, Hs by done. by rewrite IH.
Qed.

(** What the program passes on was checked, whatever the arguments. *)
Lemma cli_env_checked args : Forall (fun kv => validate_env_key kv.1 = Ok tt /\ validate_env_value kv.2 = Ok tt) (parse_env_args args).1.
Proof.
  assert (forall a r, Forall (fun kv => validate_env_key kv.1 = Ok tt /\ validate_env_value kv.2 = Ok tt) r.1 ->
    Forall (fun kv => validate_env_key kv.1 = Ok tt /\ validate_env_value kv.2 = Ok tt) (push_pair (env_pair a) r).1) as Hpush.
  { intros a r Hr. unfold env_pair, push_pair. destruct (split_once "=" a) as [[k v]|]; [|done].
    destruct (validate_env_key k) as [[]|] eqn:Hk; [|done]. destruct (validate_env_value v) as [[]|] eqn:Hv; [|done]. by constructor. }
  remember (length args) as n eqn:Hn. assert (length args <= n)%nat as Hle by lia. clear Hn. revert args Hle.
  induction n as [|n IH]; intros args Hle; destruct args as [|arg args]; try (by constructor); cbn [length] in Hle; [lia|].
  cbn [parse_env_args]. case_bool_decide.
  - destruct args as [|val args]; [constructor|]. apply Hpush, IH. cbn [length] in Hle. lia.
  - destruct (strip_prefix "--env=" arg); [apply Hpush, IH; lia|]. cbn. apply IH. lia.
Qed.

(** ** What boots was verified *)

Lemma booted_disk_verified `{Blake3Laws} io hashes assets rootfs cmdline scratch cpus ram vf d sm h :
  boot_vm io hashes assets (Some rootfs) cmdline scratch cpus ram vf d = Ok sm -> ROOTFS_HASH hashes = Some h ->
  path_exists rootfs d = true /\ hash_of io rootfs d = Ok h.
Proof.
  intros Hb Hh. unfold boot_vm in Hb. set (b := vm_request _ _ _ _ _ _ _ _) in *.
  destruct (build_config io b d) as [c|] eqn:Hc; [|done]. unfold build_config in Hc.
  destruct (config_built_iff_valid (fun p => path_exists p d) (fun p => default (Err "hash") (hash_file io p d)) b) as [[Hv _] _].
  rewrite Hc in Hv. destruct (Hv eq_refl) as (_ & _ & _ & _ & Hd & _). destruct (Hd rootfs eq_refl) as [He Hx].
  split; [done|]. specialize (Hx h). cbn in Hx. rewrite hash_file_total in Hx. cbn in Hx. auto.
Qed.

(** ** The exit code *)

Definition messages (ticks : list Tick) : list GuestToHost :=
  omap (fun t => match tick_recv t with Msg m => Some m | _ => None end) ticks.

Definition is_done (exec_id : Z) (m : GuestToHost) : bool := match m with ExecDone id _ => id =? exec_id | _ => false end.

Lemma exec_loop_code net exec_id deadline ticks cs before code after :
  (forall t, t ∈ ticks -> tick_now t < deadline /\ tick_recv t <> Disconnected) ->
  messages ticks = before ++ ExecDone exec_id code :: after ->
  Forall (fun m => is_done exec_id m = false) before ->
  exists cs', exec_loop net exec_id deadline ticks cs = (Some code, cs').
Proof.
  intros Ht Hm Hb. revert cs before Hm Hb. induction ticks as [|t ticks IH]; intros cs before Hm Hb; [by destruct before|].
  destruct (Ht t) as [Hnow Hrecv]; [left|]. assert (forall t, t ∈ ticks -> tick_now t < deadline /\ tick_recv t <> Disconnected) as Hts
    by (intros t' Ht'; apply Ht; by right).
  cbn [exec_loop]. destruct (Z.leb_spec deadline (tick_now t)); [lia|]. unfold messages in Hm. cbn [omap list_omap] in Hm.
  destruct (tick_recv t) as [|m|]; [by eapply IH| |done].
  destruct before as [|m' before].
  - injection Hm as -> _. rewrite Z.eqb_refl. eauto.
  - injection Hm as -> Hm. apply Forall_cons in Hb as [Hd Hb]. destruct m'; try (by eapply IH).
    cbn in Hd. rewrite Hd. by eapply IH.
Qed.

(** Every wait ends at the deadline. *)
Lemma exec_loop_ends net exec_id deadline ticks cs :
  (exists t, t ∈ ticks /\ deadline <= tick_now t) -> is_Some (exec_loop net exec_id deadline ticks cs).1.
Proof.
  intros (t & Ht & Hd). revert cs. induction ticks as [|x ticks IH]; intros cs; [by apply elem_of_nil in Ht|].
  cbn [exec_loop]. destruct (Z.leb_spec deadline (tick_now x)); [by eexists|].
  assert (t ∈ ticks) as Hin by (apply elem_of_cons in Ht as [->|]; [lia|done]). specialize (IH Hin).
  destruct (tick_recv x) as [|m|]; [apply IH| |by eexists]. destruct m; try apply IH. case_match; [by eexists|apply IH].
Qed.

(** The host's part of a run went well up to the command. *)
Record command_sent (r : CliRun) : Prop := {
  cs_reader : cr_reader_error r = None;
  cs_ready : await_ready (cr_started r + CLI_TIMEOUT) (cr_ready r) = Done (Ok tt);
  cs_config : cr_config_error r = None;
  cs_boot : await_cli_boot_ready (cr_configured r + BOOT_READY_TIMEOUT) (cr_boot r) = Done (Ok tt);
  cs_exec : cr_exec_error r = None;
}.

Lemma run_command_exec r cs : command_sent r ->
  (run_command r cs).1 =
  match (exec_loop (bool_decide (is_Some (cr_log r))) (cr_exec_id r) (cr_started r + CLI_TIMEOUT) (cr_exec r) cs).1 with
  | Some code => Exit code
  | None => Pending
  end.
Proof.
  intros [H1 H2 H3 H4 H5]. unfold run_command. rewrite H1, H2, H3, H4, H5. by destruct (exec_loop _ _ _ _ _) as [[code|] cs'].
Qed.

(** The agent's side of an exec: the sentinel that its bridge finds is what it reports. *)
Lemma agent_reports_exec `{Kernel} (a : Agent) (fd exec_id code : Z) (command : string) (chunks : list (list byte)) (out payload rest : list byte) :
  get_master_fd (shells a) DEFAULT_SHELL_SESSION_ID = Some fd ->
  (forall k line, (os_write_fd k fd line).1 = true) -> (forall k m, (os_send k m).1 = true) ->
  (forall k, (os_exec_done k).1 = (bridge_exec [] chunks).1.2) ->
  find_subsequence out SENTINEL_PREFIX = None -> parse_sentinel_payload payload = Some (exec_id, code) -> x1b ∉ payload ->
  concat chunks = out ++ SENTINEL_PREFIX ++ payload ++ SENTINEL_TERMINATOR ++ rest ->
  exists a', control_step a (Exec exec_id command) = (a', true) /\ sent (world a') = sent (world a) ++ [ExecDone exec_id code] /\
    (bridge_exec [] chunks).1.1 = out ++ rest.
Proof.
  intros Hfd Hwrite Hsend Hdone Hout Hpay Hesc Hcat.
  assert (bridge_exec [] chunks = (out ++ rest, Some (exec_id, code), [])) as Hb.
  { apply (bridge_reports _ _ _ payload); try done; [by apply find_prefix_after|by apply find_terminator_after|cbn; lia]. }
  rewrite Hb in Hdone |- *. cbn [fst snd] in Hdone. unfold control_step, exec. rewrite Hfd.
  match goal with |- context [os_write_fd ?k fd ?l] => specialize (Hwrite k l); destruct (os_write_fd k fd l) as [ok k1] end.
  cbn in Hwrite. subst ok. cbn [negb].
  match goal with |- context [os_exec_done ?k] => specialize (Hdone k); destruct (os_exec_done k) as [done_ k2] end.
  cbn in Hdone. subst done_.
  match goal with |- context [send ?w ?m] => destruct (send_ok w m (fun k => Hsend k m)) as (w' & -> & Hw') end.
  eexists. split; [done|]. split; [|done]. cbn. by rewrite Hw'.
Qed.

(** C15: A command run from the command line that the guest reports before the deadline of
    120 seconds (CLI_TIMEOUT; past it the run ends with 124 instead) and that does not
    itself print the sentinel's prefix ends with the exit code it had in the guest: the
    sentinel its shell prints, however the output is cut into reads, becomes the agent's
    report, and the host's loop, whatever messages come before it, returns the code of the
    report with its own id; the output around the sentinel is kept. The run was sent to the
    guest, the writes to the shell and on the control channel succeed, and the channel
    stays connected. *)
Theorem cli_exit_code `{Kernel} (a : Agent) (fd code : Z) (command : string) (chunks : list (list byte))
    (out payload rest : list byte) (r : CliRun) (cs : Conns) (before after : list GuestToHost)
    (Hfd : get_master_fd (shells a) DEFAULT_SHELL_SESSION_ID = Some fd)
    (Hwrite : forall k line, (os_write_fd k fd line).1 = true) (Hsend : forall k m, (os_send k m).1 = true)
    (Hdone : forall k, (os_exec_done k).1 = (bridge_exec [] chunks).1.2)
    (Hout : find_subsequence out SENTINEL_PREFIX = None)
    (Hpay : parse_sentinel_payload payload = Some (cr_exec_id r, code)) (Hesc : x1b ∉ payload)
    (Hcat : concat chunks = out ++ SENTINEL_PREFIX ++ payload ++ SENTINEL_TERMINATOR ++ rest)
    (Hrun : command_sent r)
    (Htime : forall t, t ∈ cr_exec r -> tick_now t < cr_started r + CLI_TIMEOUT /\ tick_recv t <> Disconnected)
    (Hbefore : Forall (fun m => is_done (cr_exec_id r) m = false) before) :
  let '(a', go) := control_step a (Exec (cr_exec_id r) command) in
  messages (cr_exec r) = before ++ drop (length (sent (world a))) (sent (world a')) ++ after ->
  go = true /\ (run_command r cs).1 = Exit code /\ (bridge_exec [] chunks).1.1 = out ++ rest.
Proof.
  destruct (agent_reports_exec a fd (cr_exec_id r) code command chunks out payload rest) as (a' & -> & Hs & Hf); try done.
  rewrite Hs, drop_app_length. intros Hm. split; [done|]. split; [|done]. rewrite run_command_exec by done.
  by destruct (exec_loop_code (bool_decide (is_Some (cr_log r))) (cr_exec_id r) (cr_started r + CLI_TIMEOUT) (cr_exec r) cs
    before code after Htime Hm Hbefore) as (cs' & ->).
Qed.

(** ** The session of a run *)

Lemma find_named_map id f l : (forall e, e_name (f e) = e_name e) ->
  list_find_first (named id) (map f l) = f <$> list_find_first (named id) l.
Proof.
  intros Hf. induction l as [|e l IH]; [done|]. cbn [map list_find_first]. assert (named id (f e) = named id e) as -> by (unfold named; by rewrite Hf).
  destruct (named id e); [done|]. exact IH.
Qed.

Lemma created_entry id fs : existsb (named id) (entries fs) = false ->
  exists e, list_find_first (named id) (entries (create_session_dir id fs)) = Some e /\ e_session_db e = None.
Proof.
  intros Hb. unfold create_session_dir. rewrite Hb. match goal with |- context [entries (Some ?l)] => change (entries (Some l)) with l end.
  rewrite find_named_app; [|done|by apply bool_decide_eq_true]. eauto.
Qed.

Lemma entries_map (f : Entry -> Entry) (fs : Fs) : entries (map f <$> fs) = map f (entries fs).
Proof. by destruct fs. Qed.

Lemma scratch_found id scratch fs e : list_find_first (named id) (entries fs) = Some e ->
  exists e', list_find_first (named id) (entries (set_scratch id scratch fs)) = Some e' /\ e_session_db e' = e_session_db e /\ e_vacuum e' = e_vacuum e.
Proof.
  intros He. unfold set_scratch. rewrite entries_map, find_named_map by (intros x; by destruct (named id x)).
  rewrite He. cbn. eexists. split; [reflexivity|]. by destruct (named id e).
Qed.

Lemma open_found id log vacuum fs e : list_find_first (named id) (entries fs) = Some e ->
  exists e', list_find_first (named id) (entries (open_session_db id log vacuum fs)) = Some e' /\ e_session_db e' = Some (Some log) /\ e_vacuum e' = vacuum.
Proof.
  intros He. unfold open_session_db. rewrite entries_map, find_named_map by (intros x; by destruct (named id x)).
  rewrite He. cbn. eexists. split; [reflexivity|]. apply list_find_first_Some in He as [_ ->]. done.
Qed.

Lemma set_scratch_gone id fs : Forall (fun e => named id e = true -> e_scratch e = None) (entries (set_scratch id None fs)).
Proof.
  unfold set_scratch. rewrite entries_map. apply Forall_map, Forall_true. intros e. destruct (named id e) eqn:Hn; [done|].
  intros H. congruence.
Qed.

Section Recorded.
Context `{Blake3, UsageJson}.
Context (io : Assets.Io) (hashes : CompiledHashes) (version : string) (read_text : string -> Disk -> option string).
Variable fault : nat -> option string.
Variable sum_real : list f64 -> f64.
Variable any_row : forall {A}, A -> list A -> A.
Variable usage_totals : list string -> result (option string) string.
Variable group_order : forall {A}, list A -> list A.
Hypothesis no_fault : forall n, fault n = None.

Abbreviation run := (run_cli io hashes version read_text fault sum_real (@any_row) usage_totals (@group_order)).
Abbreviation rows h := (sessions (ix_tables (ho_index h))).

(** The run came as far as its session. *)
Definition prepared (r : CliRun) (h : Host) : bool :=
  negb (bool_decide (is_Some (cr_runtime_error r))) &&
  match resolve_assets_dir io (ho_disk h) with
  | Ok assets => match ensure_rootfs io version read_text assets (cr_download r) (ho_disk h) with Some (Some (Ok _), _) => true | _ => false end
  | Err _ => false
  end.

Definition cli_status (r : CliRun) : string := match cr_log r with Some (_, Some _) => "vacuumed" | _ => "stopped" end.

Lemma finish_session_rows r h e : writable (ho_index h) -> list_find_first (named (cr_session_id r)) (entries (ho_sessions h)) = Some e ->
  (cr_log r = None -> e_session_db e = None) ->
  (forall log vacuum, cr_log r = Some (log, vacuum) -> e_session_db e = Some (Some log) /\ e_vacuum e = vacuum) ->
  let h' := finish_session fault sum_real (@any_row) usage_totals (@group_order) r h in
  map row_key (rows h') = map (fun k => if bool_decide (k.1.1 = cr_session_id r) then (k.1, cli_status r) else k) (map row_key (rows h)) /\
  Forall (fun e => named (cr_session_id r) e = true -> e_scratch e = None) (entries (ho_sessions h')).
Proof.
  intros Hw He Hnone Hlog. cbv zeta. unfold finish_session. set (id := cr_session_id r) in *.
  destruct (scratch_found id None _ _ He) as (e' & He' & Hdb & Hv). pose proof (set_scratch_gone id (ho_sessions h)) as Hgone.
  set (i := cleanup_session _ _ _ _ _ _ _ _ _).
  destruct (cleanup_session_keys fault sum_real (@any_row) usage_totals (@group_order) no_fault (cr_stopped r) id (fst <$> cr_log r) (ho_index h) Hw) as [Hk Hwi].
  fold i in Hk, Hwi. unfold vacuum_session, vacuum_and_compress_session_db. cbn [fst snd]. rewrite He', Hdb, Hv. unfold cli_status.
  destruct (cr_log r) as [[log vacuum]|] eqn:El.
  - destruct (Hlog log vacuum eq_refl) as [-> ->]. destruct vacuum as [[c size]|]; cbn [fst snd ho_index ho_sessions].
    + unfold mark_vacuumed. rewrite (update_status_keys fault no_fault id "vacuumed") by done. rewrite Hk, map_map. split.
      * apply map_ext. intros k. destruct k as [[k1 k2] st]. cbn. by case_bool_decide; cbn; case_bool_decide.
      * rewrite entries_map. apply Forall_map. eapply Forall_impl; [exact Hgone|]. intros x Hx. cbn.
        destruct (named id x) eqn:Hn; [|congruence]. intros _. by apply Hx.
    + by split.
  - rewrite (Hnone eq_refl). by split.
Qed.

(** A run of the command line adds exactly one row to the index when its command ends,
    with the status its exit code and vacuuming give, and leaves no scratch disk; a run
    that fails or waits for ever adds none before the session was created, and leaves it
    running afterwards. No other session changes. *)
Theorem cli_session_recorded (home command : string) (r : CliRun) (h : Host)
    (Hw : writable (ho_index h)) (Hfresh : cr_session_id r ∉ map sr_id (rows h))
    (Hdir : existsb (named (cr_session_id r)) (entries (ho_sessions h)) = false) :
  let '(e, h') := run home command r h in
  let created := (cr_session_id r, now_iso (cr_created r)) in
  match e with
  | Exit _ => map row_key (rows h') = map row_key (rows h) ++ [(created, cli_status r)] /\
              Forall (fun e => named (cr_session_id r) e = true -> e_scratch e = None) (entries (ho_sessions h'))
  | Failed _ | Pending => map row_key (rows h') = map row_key (rows h) ++ if prepared r h then [(created, "running")] else []
  end.
Proof.
  unfold run_cli, prepared. destruct (cr_runtime_error r); [rewrite bool_decide_true by eauto; by rewrite app_nil_r|].
  rewrite bool_decide_false by (by intros [? ?]). cbn [negb andb].
  destruct (resolve_assets_dir io (ho_disk h)) as [assets|]; [|by rewrite app_nil_r].
  destruct (ensure_rootfs io version read_text assets (cr_download r) (ho_disk h)) as [[[[rootfs|e]|] d]|];
    [|by rewrite app_nil_r|by rewrite app_nil_r|by rewrite app_nil_r].
  destruct (create_session_rows fault no_fault (cli_record r command) (ho_index h) Hw Hfresh) as [Hrows Hwc].
  destruct (created_entry _ _ Hdir) as (e & He & Hdb).
  destruct (create_cli_session fault home command r (set_disk d h)) as [scratch_path h1] eqn:Hc.
  assert (ho_index h1 = (create_session fault (cli_record r command) (ho_index h)).2 /\
    exists e1, list_find_first (named (cr_session_id r)) (entries (ho_sessions h1)) = Some e1 /\ e_session_db e1 = e_session_db e) as (Hi & e1 & He1 & Hdb1).
  { unfold create_cli_session in Hc. cbn [set_disk ho_sessions ho_index ho_disk] in Hc. destruct (cr_scratch r) as [size|]; injection Hc as <- <-.
    - split; [done|]. destruct (scratch_found (cr_session_id r) (Some size) _ _ He) as (e1 & H1 & H2 & _). eauto.
    - split; [done|]. eauto. }
  assert (map row_key (rows h1) = map row_key (rows h) ++ [((cr_session_id r, now_iso (cr_created r)), "running")]) as Hk1
    by (rewrite Hi, Hrows, map_app; done).
  destruct (boot_vm _ _ _ _ _ _ _ _ _ _); [|done].
  set (h2 := match cr_vsock_error r, cr_log r with None, Some _ => _ | _, _ => h1 end).
  assert (ho_index h2 = ho_index h1) as Hi2 by (unfold h2; destruct (cr_vsock_error r), (cr_log r) as [[? ?]|]; done).
  destruct (run_guest r) as [[code|f|] cs] eqn:Hg; cbn [fst]; [|by rewrite Hi2|by rewrite Hi2].
  assert (cr_vsock_error r = None) as Hvs by (unfold run_guest in Hg; by destruct (cr_vsock_error r)).
  assert (exists e2, list_find_first (named (cr_session_id r)) (entries (ho_sessions h2)) = Some e2 /\
    (cr_log r = None -> e_session_db e2 = None) /\
    (forall log vacuum, cr_log r = Some (log, vacuum) -> e_session_db e2 = Some (Some log) /\ e_vacuum e2 = vacuum)) as (e2 & He2 & Hn2 & Hl2).
  { unfold h2. rewrite Hvs. destruct (cr_log r) as [[log vacuum]|].
    - destruct (open_found (cr_session_id r) log vacuum _ _ He1) as (e2 & H1 & H2 & H3). exists e2. split; [done|]. split; [done|].
      intros ? ? [= <- <-]. done.
    - exists e1. split; [done|]. split; [by rewrite Hdb1|done]. }
  destruct (finish_session_rows r h2 e2) as [Hk Hs]; [by rewrite Hi2, Hi|done|done|done|].
  split; [|done]. rewrite Hk, Hi2, Hk1, map_app, map_fresh_keys by done. cbn. by rewrite bool_decide_true.
Qed.

End Recorded.

(** ** A run of [true] that exits with 3 *)

Module Demo.

Definition output : list (list byte) := map bytes_of_string ["hi"; String "027" "_CLAWCAGE_EXIT:42:3" +:+ String "027" "\"].

Definition kernel : Kernel := {|
  os := unit; show_proto_error _ := ""; os_send k _ := (true, k); os_resize k _ _ _ := k;
  os_spawn k sid := (inl (100 + sid, 200 + sid), k); os_hangup k _ := (0, k);
  os_metadata k _ := (inr "", k); os_read_file k _ := (inr "", k); os_open k _ := (inr "", k);
  os_mkdir_parent k _ := k; os_write_file k _ _ := (None, k); os_read_dir k _ := (inr "", k); os_set_echo k _ _ := k;
  os_write_fd k _ _ := (true, k);
  os_exec_done k := ((bridge_exec [] output).1.2, k) |}.

Definition agent : @Agent kernel := @Build_Agent kernel (@Build_World kernel tt [])
  {[0 := {| session_id := 0; master_fd := 7; child_pid := 100 |}]} {| active := false; current_id := None |}.

Definition tick (now : Z) (conns : list VsockConnection) (recv : Recv) : Tick := {| tick_now := now; tick_conns := conns; tick_recv := recv |}.

Definition cli_run : CliRun := {|
  cr_runtime_error := None; cr_download := Assets.Demo.whole; cr_session_id := "20260301-000000-0001"; cr_created := 1772323200;
  cr_scratch_gb := 16; cr_cpu_count := 4; cr_ram_gb := 4; cr_scratch := Some 4096;
  cr_framework := {| vf_create_error := None; vf_start_error := None; vf_created := 0; vf_started := 1 |};
  cr_vsock_error := None; cr_log := Some (Db_empty, Some (1000, 2000)); cr_started := 0;
  cr_setup := [tick 1 [{| vc_port := 5000; vc_fd := 12 |}] Empty; tick 2 [{| vc_port := 5001; vc_fd := 11 |}] Empty; tick 3 [] Empty];
  cr_reader_error := None; cr_ready := [tick 3 [] Empty; tick 4 [] (Msg (Ready "1.0"))];
  cr_config_error := None; cr_configured := 4; cr_boot := [tick 5 [] (Msg BootReady)];
  cr_exec_id := 42; cr_exec_error := None;
  cr_exec := [tick 6 [{| vc_port := 5002; vc_fd := 13 |}] Empty; tick 7 [] (Msg Pong); tick 8 [] (Msg (ExecDone 42 3))];
  cr_stopped := 1772323300 |}.

Definition host_disk : Disk :=
  {| names := {["/a/vmlinuz" := 0%nat; "/a/rootfs.squashfs" := 1%nat]}; inodes := {[0%nat := []; 1%nat := concat Assets.Demo.image]};
     dirs := ∅; next_inode := 2 |}.
Definition io : Assets.Io := {|
  getenv v := if bool_decide (v = "HOME") then Some "/h" else if bool_decide (v = "CLAWCAGE_ASSETS_DIR") then Some "/a" else None;
  current_exe := None; open_error _ := None; read_error _ := None; cannot_remove _ := false; statvfs _ := None; read_dir _ _ := Ok [] |}.
Definition hashes (rootfs : string) : CompiledHashes := {| VMLINUZ_HASH := None; INITRD_HASH := None; ROOTFS_HASH := Some rootfs |}.

Definition index : Index := {| ix_tables := Tables_empty; ix_query_only := false; ix_statements := 0 |}.
Definition host : Host := {| ho_index := index; ho_sessions := None; ho_disk := host_disk |}.

Definition run (rootfs_hash : string) :=
  @run_cli Assets.Demo.digest HostApp.Demo.no_usage io (hashes rootfs_hash) "0.8" (fun _ _ => None)
    (fun _ => None) (fun _ => f64_zero) (fun _ a _ => a) (fun _ => Ok None) (fun _ l => l) "/h" "true" cli_run.

(** The terminal connection carries frames, whose headers are printed too. *)
Example frame_headers_printed :
  cli_output [encode_terminal_frame DEFAULT_SHELL_SESSION_ID (bytes_of_string "hi")] =
    [x00; x00; x00; x06; x00; x00; x00; x00] ++ bytes_of_string "hi" ++ [x0a].
Proof. vm_compute. reflexivity. Qed.

(** A root file system that is not the compiled-in one is found again by every run, and
    refused by every run. *)
Example wrong_rootfs_refused : (run "00" host).1 = Failed "failed to build VmConfig".
Proof. vm_compute. reflexivity. Qed.

(** Starting the program with arguments while the application runs a VM: the live session
    is taken for a crashed one, vacuumed, and loses its log. *)
Definition live : Host :=
  {| ho_index := HostApp.session_index HostApp.Demo.running; ho_sessions := sessions_base HostApp.Demo.running; ho_disk := host_disk |}.

Definition summary (h : Host) : list (string * string * string) * list bool :=
  (map row_key (sessions (ix_tables (ho_index h))), map (fun e => bool_decide (is_Some (e_session_db e))) (entries (ho_sessions h))).

Definition second_instance : Host :=
  (@main_cli Assets.Demo.digest HostApp.Demo.no_usage io (hashes "00") "0.8" (fun _ _ => None)
    (fun _ => None) (fun _ l => l) (fun _ => f64_zero) (fun _ a _ => a) (fun _ => Ok None) (fun _ l => l)
    "/h" 1772323260 [] ["--env"] cli_run live).2.

Example live_session_vacuumed :
  summary live = ([("20260225-143052-a7f3", "2026-03-01T00:00:00Z", "running")], [true]) /\
  summary second_instance = ([("20260225-143052-a7f3", "2026-03-01T00:00:00Z", "vacuumed")], [false]).
Proof. vm_compute. split; reflexivity. Qed.

End Demo.

Lemma cli_args_roundtrip_witness :
  parse_env_args ["--env"; "A=1"; "make"; "--env=B=x=y"; "test"] = ([("A", "1"); ("B", "x=y")], ["make"; "test"]).
Proof.
  apply (cli_args_roundtrip [EnvNext "A" "1"; Word "make"; EnvHere "B" "x=y"; Word "test"]).
  repeat constructor; discriminate.
Defined.

Lemma cli_exit_code_witness :
  (run_command Demo.cli_run {| cn_kept := []; cn_served := [] |}).1 = Exit 3 /\ (bridge_exec [] Demo.output).1.1 = bytes_of_string "hi".
Proof.
  refine (proj2 (@cli_exit_code Demo.kernel Demo.agent 7 3 "true" Demo.output (bytes_of_string "hi") (bytes_of_string "42:3") []
    Demo.cli_run {| cn_kept := []; cn_served := [] |} [Pong] [] _ _ _ _ _ _ _ _ _ _ _ _)); try reflexivity.
  - apply (bool_decide_eq_true (x1b ∉ _)). vm_compute. reflexivity.
  - constructor; reflexivity.
  - intros t Ht. repeat (apply elem_of_cons in Ht as [->|Ht]; [split; [reflexivity|discriminate]|]). by apply elem_of_nil in Ht.
  - repeat constructor.
Defined.

Lemma cli_session_recorded_witness :
  let h := (Demo.run (blake3 (concat Assets.Demo.image)) Demo.host).2 in
  map row_key (sessions (ix_tables (ho_index h))) = [("20260301-000000-0001", "2026-03-01T00:00:00Z", "vacuumed")].
Proof.
  cbv zeta. pose proof (@cli_session_recorded Assets.Demo.digest HostApp.Demo.no_usage Demo.io
    (Demo.hashes (blake3 (concat Assets.Demo.image))) "0.8" (fun _ _ => None) (fun _ => None) (fun _ => f64_zero) (fun _ a _ => a)
    (fun _ => Ok None) (fun _ l => l) (fun _ => eq_refl) "/h" "true" Demo.cli_run Demo.host eq_refl
    ltac:(intros Hin; by apply not_elem_of_nil in Hin) eq_refl) as Hr.
  change (@run_cli _ _ _ _ _ _ _ _ _ _ _ _ _ _ _) with (Demo.run (blake3 (concat Assets.Demo.image)) Demo.host) in Hr.
  destruct (Demo.run _ _) as [e h] eqn:E. cbn [snd]. assert (e = Exit 3) as -> by (vm_compute in E; congruence).
  etransitivity; [exact (proj1 Hr)|]. vm_compute. reflexivity.
Defined.
