(* ===== verification/HostControl.v ===== *)
(** The control channel on the host: the handler of what the guest reports
    ([vsock_control_handler] of crates/clawcage-app/src/main.rs) and the commands of
    crates/clawcage-app/src/commands.rs that ask the guest for something. *)

From Stdlib Require Import ZArith Lia Strings.Byte.
From stdpp Require Import base numbers list gmap strings.
From S2P Require Import Prelude RustStr Utf8 Paths Proto HostState SessionIndex HostTerminal HostApp AgentControl.

(** ** The handler *)

(** What the handler tells the window. *)
Inductive UiEvent :=
| UiShellReady (session_id : Z)
| UiShellClosed (session_id exit_code : Z)
| UiDownloadProgress (id received total : Z).

Definition set_downloads (pending : gset Z) (partials : gmap Z PartialDownload) (rs : gmap Z DownloadResult) (s : AppState)
  : AppState := {|
  vms := vms s; session_index := session_index s; sessions_base := sessions_base s; running_venvs := running_venvs s;
  focused_venv_id := focused_venv_id s; terminal_outputs := terminal_outputs s;
  download_id_counter := download_id_counter s; pending_downloads := pending;
  partial_downloads := partials; replies := rs; control_sent := control_sent s |}.

(** [pending_downloads.remove(&id)] and the use of the sender. *)
Definition reply (id : Z) (r : DownloadResult) (s : AppState) : AppState :=
  if bool_decide (id ∈ pending_downloads s)
  then set_downloads (pending_downloads s ∖ {[id]}) (partial_downloads s) (<[id := r]> (replies s)) s
  else s.

Definition remove_partial (id : Z) (s : AppState) : AppState :=
  set_downloads (pending_downloads s) (delete id (partial_downloads s)) (replies s) s.

Definition with_output (venv_id : string) (f : TerminalOutputMap -> TerminalOutputMap) (s : AppState) : AppState :=
  set_outputs (alter f venv_id (terminal_outputs s)) s.

Section Handler.
(** [serde_json::to_vec] of a listing; whether a vector of that capacity can be had. *)
Variable entries_json : list DirEntry -> list byte.
Variable can_allocate : Z -> bool.

(** A chunk of a download; [None]: the allocation of its buffer panics. *)
Definition file_chunk (id offset : Z) (data : list byte) (total_size : Z) (s : AppState) : option (AppState * UiEvent) :=
  match match partial_downloads s !! id with
        | Some p => Some p
        | None => if can_allocate total_size then Some {| pd_total_size := total_size; pd_data := [] |} else None
        end with
  | None => None
  | Some p =>
      let p := {| pd_total_size := pd_total_size p; pd_data := pd_data p ++ data |} in
      let s := set_downloads (pending_downloads s) (<[id := p]> (partial_downloads s)) (replies s) s in
      let received := as_uN 64 (offset + Z.of_nat (length data)) in
      let s := if total_size <=? received then reply id (Ok (pd_data p)) (remove_partial id s) else s in
      Some (s, UiDownloadProgress id received total_size)
  end.

(** One message of the guest of [session_id]. *)
Definition control_msg (session_id venv_id : string) (msg : GuestToHost) (s : AppState) : option (AppState * list UiEvent) :=
  let rejected := match vms s !! session_id with
                  | Some instance => match validate_guest_msg msg (current (state_machine instance)) with
                                     | Ok _ => false
                                     | Err _ => true
                                     end
                  | None => false
                  end in
  if rejected then Some (s, [])
  else match msg with
       | ShellReady sid => Some (with_output venv_id (fun m => (get_or_create sid m).2) s, [UiShellReady sid])
       | ShellClosed sid exit_code => Some (with_output venv_id (fun m => (HostTerminal.remove sid m).2) s, [UiShellClosed sid exit_code])
       | FileContent id _ data => Some (reply id (Ok data) s, [])
       | DirListing id _ entries => Some (reply id (Ok (entries_json entries)) s, [])
       | FileError id error => Some (reply id (Err error) (remove_partial id s), [])
       | FileSaved id => Some (reply id (Ok []) s, [])
       | FileChunk id offset data total_size =>
           match file_chunk id offset data total_size s with Some (s, e) => Some (s, [e]) | None => None end
       | _ => Some (s, [])
       end.

(** The messages in order; [None] once the handler has panicked. *)
Fixpoint control_msgs (session_id venv_id : string) (msgs : list GuestToHost) (s : AppState) : option (AppState * list UiEvent) :=
  match msgs with
  | [] => Some (s, [])
  | msg :: msgs =>
      match control_msg session_id venv_id msg s with
      | None => None
      | Some (s, e) => match control_msgs session_id venv_id msgs s with
                       | None => None
                       | Some (s, es) => Some (s, e ++ es)
                       end
      end
  end.

(** The reader thread: the messages of the stream. A message that does not decode is
    skipped; a frame over the limit or the end of the stream ends the thread. *)
Fixpoint control_reader `{Rmp GuestToHost} (fuel : nat) (stream : list byte) : list GuestToHost :=
  match fuel with
  | O => []
  | S fuel =>
      match read_control_msg stream with
      | (Ok msg, rest) => msg :: control_reader fuel rest
      | (Err BadMessage, rest) => control_reader fuel rest
      | (Err _, _) => []
      end
  end.

Definition vsock_control_handler `{Rmp GuestToHost} (session_id venv_id : string) (stream : list byte) (s : AppState)
  : option (AppState * list UiEvent) :=
  control_msgs session_id venv_id (control_reader (S (length stream)) stream) s.

End Handler.

(** ** The commands *)

Section Commands.
Context `{Rmp HostToGuest}.
(** Whether a frame can be written to a descriptor; a listing read back. *)
Variable writable : Z -> bool.
Variable entries_from_json : list byte -> option (list DirEntry).

Definition active_vm_id (s : AppState) : result string string := resolve_session_id None s.

Definition find_vm (missing : string) (s : AppState) : result VmInstance string :=
  let? vm_id := active_vm_id s in
  match vms s !! vm_id with Some i => Ok i | None => Err missing end.

Definition vm_status (show : HostState -> string) (s : AppState) : string :=
  match find_vm "not created" s with Ok i => show (current (state_machine i)) | Err _ => "not created" end.

(** What is given to the input thread. *)
Definition serial_input (input : list byte) (session_id : option Z) (s : AppState) : result (Z * Z * list byte) string :=
  let? i := find_vm "no VM running" s in
  Ok (default (serial_input_fd i) (vsock_terminal_fd i), default DEFAULT_SHELL_SESSION_ID session_id, input).

(** Up to its first wait. *)
Definition terminal_poll (session_id : option Z) (s : AppState) : result PollResult string * AppState :=
  let sid := default DEFAULT_SHELL_SESSION_ID session_id in
  match focused_output_key s ≫= fun v => pair v <$> terminal_outputs s !! v with
  | None => (Err "no environment selected", s)
  | Some (v, m) => let '(r, m) := poll_session sid m in (Ok r, set_outputs (<[v := m]> (terminal_outputs s)) s)
  end.

Definition list_shells (s : AppState) : result (list Z) string :=
  match focused_terminal_output s with
  | None => Err "no environment selected"
  | Some m => Ok (session_ids m)
  end.

Definition set_sent (l : list (Z * HostToGuest)) (s : AppState) : AppState := {|
  vms := vms s; session_index := session_index s; sessions_base := sessions_base s; running_venvs := running_venvs s;
  focused_venv_id := focused_venv_id s; terminal_outputs := terminal_outputs s;
  download_id_counter := download_id_counter s; pending_downloads := pending_downloads s;
  partial_downloads := partial_downloads s; replies := replies s; control_sent := l |}.

(** The descriptor of the control channel and the state of the VM. *)
Definition control_channel (s : AppState) : result (Z * HostState) string :=
  let? i := find_vm "no VM running" s in
  match vsock_control_fd i with
  | Some fd => Ok (fd, current (state_machine i))
  | None => Err "vsock control not connected"
  end.

(** Validate, encode, write. *)
Definition send_msg (fd : Z) (st : HostState) (msg : HostToGuest) (s : AppState) : result unit string * AppState :=
  match validate_host_msg msg st with
  | Err _ => (Err "message not allowed", s)
  | Ok _ =>
      match encode_host_msg msg with
      | None => (Err "encode", s)
      | Some _ => if writable fd then (Ok tt, set_sent (control_sent s ++ [(fd, msg)]) s) else (Err "write failed", s)
      end
  end.

Definition terminal_resize (cols rows : Z) (session_id : option Z) (s : AppState) : result unit string * AppState :=
  let sid := default DEFAULT_SHELL_SESSION_ID session_id in
  match control_channel s with
  | Err e => (Err e, s)
  | Ok (fd, st) =>
      send_msg fd st (if sid =? DEFAULT_SHELL_SESSION_ID then Resize cols rows else ShellResize sid cols rows) s
  end.

Definition spawn_shell (session_id : Z) (s : AppState) : result unit string * AppState :=
  match control_channel s with
  | Err e => (Err e, s)
  | Ok (fd, st) =>
      let s := match focused_output_key s with
               | Some v => with_output v (fun m => (get_or_create session_id m).2) s
               | None => s
               end in
      send_msg fd st (SpawnShell session_id) s
  end.

Definition close_shell (session_id : Z) (s : AppState) : result unit string * AppState :=
  match control_channel s with
  | Err e => (Err e, s)
  | Ok (fd, st) => send_msg fd st (CloseShell session_id) s
  end.

(** [kill_process] does not look at the state of the VM. *)
Definition kill_process (pid : Z) (s : AppState) : result unit string * AppState :=
  match find_vm "VM not found" s with
  | Err e => (Err e, s)
  | Ok i =>
      match vsock_control_fd i with
      | None => (Err "no control channel", s)
      | Some fd =>
          match encode_host_msg (KillProcess pid) with
          | None => (Err "encode KillProcess", s)
          | Some _ => if writable fd then (Ok tt, set_sent (control_sent s ++ [(fd, KillProcess pid)]) s)
                      else (Err "write KillProcess", s)
          end
      end
  end.

(** *** Requests that wait for the guest's answer *)

Definition register_request (s : AppState) : Z * AppState :=
  let id := download_id_counter s in
  (id, {| vms := vms s; session_index := session_index s; sessions_base := sessions_base s; running_venvs := running_venvs s;
          focused_venv_id := focused_venv_id s; terminal_outputs := terminal_outputs s;
          download_id_counter := as_uN 64 (id + 1); pending_downloads := {[id]} ∪ pending_downloads s;
          partial_downloads := partial_downloads s; replies := replies s; control_sent := control_sent s |}).

(** Up to the wait: the id of the request. *)
Definition request (msg : Z -> HostToGuest) (s : AppState) : result Z string * AppState :=
  match control_channel s with
  | Err e => (Err e, s)
  | Ok (fd, st) =>
      let '(id, s) := register_request s in
      match send_msg fd st (msg id) s with
      | (Err e, s) => (Err e, s)
      | (Ok _, s) => (Ok id, s)
      end
  end.

(** The wait: the answer, or the end of the time. *)
Definition await_reply (timed_out : string) (id : Z) (s : AppState) : DownloadResult * AppState :=
  match replies s !! id with
  | Some r => (r, s)
  | None => (Err timed_out, set_downloads (pending_downloads s ∖ {[id]}) (partial_downloads s) (replies s) s)
  end.

(** [guest]: what happens while the command waits. *)
Definition ask (msg : Z -> HostToGuest) (timed_out : string) (guest : AppState -> AppState) (s : AppState)
  : DownloadResult * AppState :=
  match request msg s with
  | (Err e, s) => (Err e, s)
  | (Ok id, s) => await_reply timed_out id (guest s)
  end.

(** *** Files of the host *)

Record HostDisk := { hd_dirs : gset string; hd_files : gmap string (list byte) }.

(** What a directory answers to [mkdir]; what a file answers to [fs::write]: an error, with
    what the file then holds when it was opened. *)
Variable mkdir_error : string -> HostDisk -> option string.
Variable write_error : string -> list byte -> HostDisk -> option (string * option (list byte)).

Definition host_mkdir (p : string) (d : HostDisk) : result unit string * HostDisk :=
  match mkdir_error p d with
  | Some e => (Err e, d)
  | None => (Ok tt, {| hd_dirs := {[p]} ∪ hd_dirs d; hd_files := hd_files d |})
  end.

(** [std::fs::create_dir_all]: the parents first; a directory that exists is kept. *)
Fixpoint host_create_dir_all (fuel : nat) (p : string) (d : HostDisk) : result unit string * HostDisk :=
  match fuel with
  | O => (Ok tt, d)
  | S fuel =>
      if is_empty p || bool_decide (p ∈ hd_dirs d) then (Ok tt, d)
      else match (match path_parent p with Some q => host_create_dir_all fuel q d | None => (Ok tt, d) end) with
           | (Err e, d) => (Err e, d)
           | (Ok _, d) => host_mkdir p d
           end
  end.

(** [std::fs::write]. *)
Definition host_write (p : string) (data : list byte) (d : HostDisk) : result unit string * HostDisk :=
  match write_error p data d with
  | Some (e, None) => (Err e, d)
  | Some (e, Some part) => (Err e, {| hd_dirs := hd_dirs d; hd_files := <[p := part]> (hd_files d) |})
  | None => (Ok tt, {| hd_dirs := hd_dirs d; hd_files := <[p := data]> (hd_files d) |})
  end.

(** The directory of the file, then the file. *)
Definition save_to_host (host_path : string) (data : list byte) (d : HostDisk) : result unit string * HostDisk :=
  match (match path_parent host_path with
         | Some parent => host_create_dir_all (S (String.length parent)) parent d
         | None => (Ok tt, d)
         end) with
  | (Err e, d) => (Err ("create dir failed: " +:+ e), d)
  | (Ok _, d) => match host_write host_path data d with
                 | (Err e, d) => (Err ("write file failed: " +:+ e), d)
                 | (Ok _, d) => (Ok tt, d)
                 end
  end.

(** [d]: the disk of the host when the answer is there. *)
Definition download_file (guest_path host_path : string) (guest : AppState -> AppState) (d : HostDisk) (s : AppState)
  : result unit string * HostDisk * AppState :=
  match ask (fun id => FileRead id guest_path) "file download timed out" guest s with
  | (Err e, s) => (Err e, d, s)
  | (Ok data, s) => (save_to_host host_path data d, s)
  end.

Definition list_dir (guest_path : string) (guest : AppState -> AppState) (s : AppState) : result (list DirEntry) string * AppState :=
  match ask (fun id => ListDir id guest_path) "directory listing timed out" guest s with
  | (Err e, s) => (Err e, s)
  | (Ok data, s) => match entries_from_json data with
                    | Some l => (Ok l, s)
                    | None => (Err "failed to parse dir listing", s)
                    end
  end.

Definition MAX_EDIT_SIZE : Z := 1048576.

Definition read_file (guest_path : string) (guest : AppState -> AppState) (s : AppState) : result string string * AppState :=
  match ask (fun id => FileRead id guest_path) "file read timed out" guest s with
  | (Err e, s) => (Err e, s)
  | (Ok data, s) =>
      if MAX_EDIT_SIZE <? Z.of_nat (length data) then (Err "file too large to edit", s)
      else match from_utf8 data with
           | Some text => (Ok text, s)
           | None => (Err "file contains binary content and cannot be edited as text", s)
           end
  end.

Definition save_file (guest_path : string) (content : list byte) (guest : AppState -> AppState) (s : AppState)
  : result unit string * AppState :=
  match ask (fun id => FileSave id guest_path content) "file save timed out" guest s with
  | (Err e, s) => (Err e, s)
  | (Ok _, s) => (Ok tt, s)
  end.

End Commands.

(** ** Writing *)

Section Saving.
Variable mkdir_error : string -> HostDisk -> option string.
Variable write_error : string -> list byte -> HostDisk -> option (string * option (list byte)).

Lemma create_dir_all_files fuel : forall p d, hd_files (host_create_dir_all mkdir_error fuel p d).2 = hd_files d.
Proof.
  induction fuel as [|fuel IH]; intros p d; [done|]. cbn [host_create_dir_all]. destruct (_ || _); [done|].
  assert (forall d', hd_files d' = hd_files d -> hd_files (host_mkdir mkdir_error p d').2 = hd_files d) as Hm.
  { intros d' Hd. unfold host_mkdir. by destruct (mkdir_error p d'). }
  destruct (path_parent p) as [q|]; [|by apply Hm]. pose proof (IH q d) as Hq.
  destruct (host_create_dir_all _ fuel q d) as [[[]|e] d']; [by apply Hm|done].
Qed.

Lemma create_dir_all_ok fuel : (forall p d, mkdir_error p d = None) ->
  forall p d, (host_create_dir_all mkdir_error fuel p d).1 = Ok tt.
Proof.
  intros Hm. assert (forall p d, (host_mkdir mkdir_error p d).1 = Ok tt) as Hk by (intros p d; unfold host_mkdir; by rewrite Hm).
  induction fuel as [|fuel IH]; intros p d; [done|]. cbn [host_create_dir_all]. destruct (_ || _); [done|].
  destruct (path_parent p) as [q|]; [|apply Hk]. specialize (IH q d).
  destruct (host_create_dir_all _ fuel q d) as [[[]|e] d']; [apply Hk|done].
Qed.

(** A parent is shorter than its path, so the length of the path is fuel enough. *)
Lemma create_dir_all_fuel f1 : forall f2 p d, (String.length p < f1)%nat -> (String.length p < f2)%nat ->
  host_create_dir_all mkdir_error f1 p d = host_create_dir_all mkdir_error f2 p d.
Proof.
  induction f1 as [|f1 IH]; intros [|f2] p d H1 H2; [lia..|]. cbn [host_create_dir_all].
  destruct (_ || _); [done|]. destruct (path_parent p) as [q|] eqn:Hq; [|done].
  apply path_parent_shorter in Hq. by rewrite (IH f2) by lia.
Qed.

(** Every file but the one written is kept; a success leaves the bytes in it, and an
    error says which of the two steps failed. *)
Lemma save_to_host_outcome host_path data d :
  let '(r, d') := save_to_host mkdir_error write_error host_path data d in
  (forall q, q <> host_path -> hd_files d' !! q = hd_files d !! q) /\
  match r with
  | Ok _ => hd_files d' !! host_path = Some data
  | Err e => (exists m, e = "create dir failed: " +:+ m /\ hd_files d' = hd_files d) \/
             (exists m, e = "write file failed: " +:+ m)
  end /\
  ((forall p d, mkdir_error p d = None) -> (forall d, write_error host_path data d = None) -> r = Ok tt).
Proof.
  unfold save_to_host. destruct (match path_parent host_path with Some p => _ | None => _ end) as [r0 d0] eqn:E0.
  assert (hd_files d0 = hd_files d /\ ((forall p d, mkdir_error p d = None) -> r0 = Ok tt)) as [Hd0 Hr0].
  { destruct (path_parent host_path) as [p|]; [|by injection E0 as <- <-].
    pose proof (create_dir_all_files (S (String.length p)) p d) as Hf.
    pose proof (fun H => create_dir_all_ok (S (String.length p)) H p d) as Hk. rewrite E0 in Hf, Hk. done. }
  destruct r0 as [[]|e].
  - unfold host_write. destruct (write_error host_path data d0) as [[e [part|]]|] eqn:Ew; cbn.
    + split; [intros q Hq; by rewrite lookup_insert_ne, Hd0|]. split; [right; by eexists|]. intros _ Hw. by rewrite Hw in Ew.
    + split; [intros q Hq; by rewrite Hd0|]. split; [right; by eexists|]. intros _ Hw. by rewrite Hw in Ew.
    + split; [intros q Hq; by rewrite lookup_insert_ne, Hd0|]. split; [by rewrite lookup_insert_eq|]. done.
  - split; [intros q Hq; by rewrite Hd0|]. split; [left; by eexists|]. intros Hm _. by specialize (Hr0 Hm).
Qed.

End Saving.

(** ** Receiving *)

Lemma read_control_frame `{Rmp GuestToHost} payload rest :
  Z.of_nat (length payload) <= MAX_FRAME_SIZE ->
  read_control_msg (frame_of payload ++ rest) =
  (match decode_guest_msg payload with Some m => Ok m | None => Err BadMessage end, rest).
Proof.
  intros Hlen. unfold MAX_FRAME_SIZE in Hlen.
  assert (in_uN 32 (Z.of_nat (length payload))) as Hu by (unfold in_uN; lia).
  unfold read_control_msg, frame_of. rewrite <- app_assoc, read_exact_be4.
  rewrite as_uN_small, from_be_bytes_u32 by done. unfold MAX_FRAME_SIZE.
  destruct (Z.ltb_spec 262144 (Z.of_nat (length payload))); [lia|].
  rewrite read_exact_app. by destruct (decode_guest_msg payload).
Qed.

Lemma read_control_too_large `{Rmp GuestToHost} payload rest :
  MAX_FRAME_SIZE < Z.of_nat (length payload) < 2 ^ 32 ->
  read_control_msg (frame_of payload ++ rest) = (Err FrameTooLarge, payload ++ rest).
Proof.
  intros Hlen. unfold MAX_FRAME_SIZE in Hlen.
  assert (in_uN 32 (Z.of_nat (length payload))) as Hu by (unfold in_uN; lia).
  unfold read_control_msg, frame_of. rewrite <- app_assoc, read_exact_be4.
  rewrite as_uN_small, from_be_bytes_u32 by done. unfold MAX_FRAME_SIZE.
  destruct (Z.ltb_spec 262144 (Z.of_nat (length payload))); [done|lia].
Qed.

(** Messages and their encodings. *)
Definition encodings `{Rmp GuestToHost} (msgs : list GuestToHost) (payloads : list (list byte)) : Prop :=
  Forall2 (fun m p => to_vec_named m = Some p /\ Z.of_nat (length p) <= MAX_FRAME_SIZE) msgs payloads.

Lemma control_reader_frames `{RmpRoundtrip GuestToHost} fuel msgs payloads : encodings msgs payloads ->
  (length (concat (map frame_of payloads)) < fuel)%nat ->
  control_reader fuel (concat (map frame_of payloads)) = msgs.
Proof.
  intros He. revert fuel. induction He as [|m p msgs payloads [Hm Hp] He IH]; intros fuel Hf.
  - by destruct fuel.
  - destruct fuel as [|fuel]; [lia|]. cbn [map concat control_reader]. rewrite read_control_frame by done.
    unfold decode_guest_msg. rewrite (rmp_roundtrip m p Hm). f_equal. apply IH.
    cbn [map concat] in Hf. rewrite length_app, frame_of_length in Hf. lia.
Qed.

(** ** Downloads from end to end *)

Section Download.
Context `{Kernel} `{RmpRoundtrip GuestToHost} `{Rmp HostToGuest}.
Variable entries_json : list DirEntry -> list byte.
Variable can_allocate : Z -> bool.
Variable writable : Z -> bool.
Variable mkdir_error : string -> HostDisk -> option string.
Variable write_error : string -> list byte -> HostDisk -> option (string * option (list byte)).

(** What the agent's kernel gives for the content of a file. *)
Definition guest_reads (w : World) (path : string) (content : list byte) : Prop :=
  let size := Z.of_nat (length content) in
  validate_file_path path = Ok tt /\ size <= MAX_DOWNLOAD_SIZE /\
  exists k1 k2, os_metadata (kernel w) (resolve_guest_path path) = (inl {| is_file := true; file_len := size |}, k1) /\
    if size <=? FILE_CHUNK_SIZE then os_read_file k1 (resolve_guest_path path) = (inl content, k2)
    else exists chunks, os_open k1 (resolve_guest_path path) = (inl (chunks, None), k2) /\ concat chunks = content /\
           Forall (fun c => c <> []) chunks.

(** The agent's answer to the request. *)
Definition agent_answer (w : World) (id : Z) (path : string) : list GuestToHost :=
  drop (length (sent w)) (sent (file_read w id path)).

Lemma agent_answer_content w id path content :
  (forall k msg, (os_send k msg).1 = true) -> guest_reads w path content ->
  (agent_answer w id path = [FileContent id (resolve_guest_path path) content]) \/
  (exists chunks, concat chunks = content /\ chunks <> [] /\ Forall (fun c => c <> []) chunks /\
     agent_answer w id path = chunk_msgs id 0 (Z.of_nat (length content)) chunks).
Proof.
  intros Hs (Hv & Hmax & k1 & k2 & Hm & Hr). unfold agent_answer.
  destruct (Z.leb_spec (Z.of_nat (length content)) FILE_CHUNK_SIZE) as [Hle|Hgt].
  - left. unfold file_read. rewrite Hv, Hm. cbn [is_file file_len negb].
    destruct (Z.ltb_spec MAX_DOWNLOAD_SIZE (Z.of_nat (length content))); [lia|].
    destruct (Z.leb_spec (Z.of_nat (length content)) FILE_CHUNK_SIZE); [|lia].
    cbn [set_kernel kernel]. rewrite Hr, send_sent. cbn [set_kernel sent]. by rewrite drop_app_length.
  - right. destruct Hr as (chunks & Ho & Hc & Hne). exists chunks. split; [done|].
    unfold FILE_CHUNK_SIZE, MAX_DOWNLOAD_SIZE in *.
    split; [intros ->; cbn in Hc; rewrite <- Hc in Hgt; cbn in Hgt; lia|]. split; [done|].
    rewrite (large_file_download w id path (Z.of_nat (length content)) k1 k2 chunks None Hs Hv Hm); rewrite ?Hc;
      [|unfold FILE_CHUNK_SIZE, MAX_DOWNLOAD_SIZE; lia|done|lia].
    rewrite Z.eqb_refl, app_nil_r. by rewrite drop_app_length.
Qed.

(** The state when a download is answered. *)
Definition answered (id : Z) (r : DownloadResult) (s : AppState) : AppState :=
  set_downloads (pending_downloads s ∖ {[id]}) (delete id (partial_downloads s)) (<[id := r]> (replies s)) s.

(** The handler accepts the messages of a running VM. *)
Definition accepting (session_id : string) (s : AppState) : Prop :=
  exists i, vms s !! session_id = Some i /\ current (state_machine i) = Running.

Lemma chunk_accepted session_id venv_id id offset data total s : accepting session_id s ->
  control_msg entries_json can_allocate session_id venv_id (FileChunk id offset data total) s =
    match file_chunk can_allocate id offset data total s with Some (s, e) => Some (s, [e]) | None => None end.
Proof. intros (i & Hi & Hr). unfold control_msg. by rewrite Hi, Hr. Qed.

Lemma chunks_accumulate session_id venv_id id total chunks : forall offset acc s,
  accepting session_id s -> id ∈ pending_downloads s -> chunks <> [] -> Forall (fun c => c <> []) chunks ->
  partial_downloads s !! id = (if offset =? 0 then None else Some {| pd_total_size := total; pd_data := acc |}) ->
  (offset = 0 -> acc = []) -> 0 <= offset ->
  can_allocate total = true -> offset + Z.of_nat (length (concat chunks)) = total -> total < 2 ^ 64 ->
  exists evs, control_msgs entries_json can_allocate session_id venv_id (chunk_msgs id offset total chunks) s =
    Some (answered id (Ok (acc ++ concat chunks)) s, evs).
Proof.
  induction chunks as [|c chunks IH]; intros offset acc s Hacc Hpend Hne Hall Hpart Hz Hpos Hcan Htot Hmax; [done|].
  apply Forall_cons in Hall as [Hc Hall]. cbn [chunk_msgs control_msgs]. rewrite chunk_accepted by done. unfold file_chunk.
  assert (0 < Z.of_nat (length c)) as Hlc by (destruct c; [done|cbn; lia]).
  cbn [concat] in *. rewrite length_app, Nat2Z.inj_add in Htot.
  assert (match match partial_downloads s !! id with
                | Some p => Some p
                | None => if can_allocate total then Some {| pd_total_size := total; pd_data := [] |} else None
                end with Some p => p = {| pd_total_size := total; pd_data := acc |} | None => False end) as Hp.
  { rewrite Hpart. destruct (Z.eqb_spec offset 0); [by rewrite Hcan, Hz|done]. }
  destruct (match partial_downloads s !! id with Some p => Some p | None => _ end) as [p|]; [|done]. subst p. clear Hpart.
  cbn [pd_data pd_total_size]. rewrite as_uN_small by (unfold in_uN; lia).
  destruct (decide (chunks = [])) as [->|Hne'].
  - cbn [concat length] in *. destruct (Z.leb_spec total (offset + Z.of_nat (length c))); [|cbn in Htot; lia].
    cbn [chunk_msgs control_msgs]. eexists. unfold reply, remove_partial. cbn [set_downloads pending_downloads].
    rewrite bool_decide_true by done. unfold answered. cbn [set_downloads partial_downloads replies].
    rewrite delete_insert_eq, (app_nil_r c). reflexivity.
  - assert (0 < Z.of_nat (length (concat chunks))) as Hlr.
    { destruct chunks as [|c' chunks]; [done|]. apply Forall_cons in Hall as [Hc' _]. cbn. rewrite length_app. destruct c'; [done|cbn; lia]. }
    destruct (Z.leb_spec total (offset + Z.of_nat (length c))); [lia|].
    match goal with |- context [control_msgs _ _ _ _ _ ?x] => set (s1 := x) end.
    destruct (IH (offset + Z.of_nat (length c)) (acc ++ c) s1) as (evs & ->); try done; try lia.
    { cbn. rewrite lookup_insert_eq. by destruct (Z.eqb_spec (offset + Z.of_nat (length c)) 0); [lia|]. }
    eexists. unfold answered. cbn. rewrite delete_insert_eq, <- app_assoc. reflexivity.
Qed.


End Download.

(** ** A chunk that does not fit its frame *)

(** What MessagePack needs for a vector of bytes, which serde gives it as a sequence of
    integers: one byte for each below 128, two for the others. *)
Definition sequence_size (data : list byte) : Z :=
  foldr (fun b n => (if byte_to_Z b <? 128 then 1 else 2) + n) 0 data.

(** [rmp_serde] without serde_bytes, on chunks and on saved files. *)
Class RmpSequences `{Rmp GuestToHost} `{Rmp HostToGuest} : Prop := {
  chunk_size id offset data total p :
    to_vec_named (FileChunk id offset data total) = Some p -> sequence_size data <= Z.of_nat (length p);
  save_size id path data p :
    to_vec_named (FileSave id path data) = Some p -> sequence_size data <= Z.of_nat (length p);
}.

Lemma control_reader_stops `{Rmp GuestToHost} fuel payload rest :
  MAX_FRAME_SIZE < Z.of_nat (length payload) < 2 ^ 32 -> control_reader fuel (frame_of payload ++ rest) = [].
Proof. intros Hp. destruct fuel; [done|]. cbn [control_reader]. by rewrite read_control_too_large. Qed.

Section Oversized.
Context `{Rmp GuestToHost} `{Rmp HostToGuest} `{!RmpSequences}.
Variable entries_json : list DirEntry -> list byte.
Variable can_allocate : Z -> bool.
Variable writable : Z -> bool.
Variable mkdir_error : string -> HostDisk -> option string.
Variable write_error : string -> list byte -> HostDisk -> option (string * option (list byte)).

(** The chunks of a download are limited by their bytes, not by their encoding: the
    first chunk of a binary file can be within FILE_CHUNK_SIZE and still need a frame over
    the limit. The host's reader ends there: the download times out, and nothing the guest
    sends on the control channel afterwards is handled any more. *)
Theorem binary_chunk_ends_control (path host_path session_id venv_id : string) (data p rest : list byte) (total : Z)
    (d : HostDisk) (s : AppState) (i : VmInstance) (fd : Z) :
  let id := download_id_counter s in
  Z.of_nat (length data) <= FILE_CHUNK_SIZE -> MAX_FRAME_SIZE < sequence_size data ->
  to_vec_named (FileChunk id 0 data total) = Some p -> Z.of_nat (length p) < 2 ^ 32 ->
  active_vm_id s = Ok session_id -> vms s !! session_id = Some i -> vsock_control_fd i = Some fd ->
  current (state_machine i) = Running -> writable fd = true -> is_Some (encode_host_msg (FileRead id path)) ->
  replies s !! id = None ->
  let guest := fun s => match vsock_control_handler entries_json can_allocate session_id venv_id (frame_of p ++ rest) s with
                        | Some (s, _) => s
                        | None => s
                        end in
  (forall s, guest s = s) /\ (download_file writable mkdir_error write_error path host_path guest d s).1 =
    (Err "file download timed out", d).
Proof.
  intros id _ Hbig Hp Hlen Hact Hvm Hfd Hrun Hw [frame Henc] Hrep guest.
  assert (forall s, guest s = s) as Hguest.
  { intros s0. unfold guest, vsock_control_handler. rewrite control_reader_stops; [done|].
    pose proof (chunk_size _ _ _ _ _ Hp). lia. }
  split; [done|]. unfold download_file, ask, request, control_channel, find_vm. rewrite Hact, Hvm, Hfd, Hrun.
  cbn [register_request]. unfold send_msg. cbn [validate_host_msg]. fold id. rewrite Henc, Hw, Hguest.
  unfold await_reply. cbn [set_sent replies]. by rewrite Hrep.
Qed.

(** Files up to MAX_EDIT_SIZE can be opened in the editor, but saving one over the frame
    limit ends the guest's control loop: the request is written, the guest's receiver
    refuses its frame. *)
Theorem large_save_refused (path : string) (content rest p : list byte) (id fd : Z) (s : AppState) :
  MAX_FRAME_SIZE < Z.of_nat (length content) <= MAX_EDIT_SIZE ->
  to_vec_named (FileSave id path content) = Some p -> Z.of_nat (length p) < 2 ^ 32 -> writable fd = true ->
  exists frame, send_msg writable fd Running (FileSave id path content) s =
    (Ok tt, set_sent (control_sent s ++ [(fd, FileSave id path content)]) s) /\
  encode_host_msg (FileSave id path content) = Some frame /\ (recv_host_msg (frame ++ rest)).1 = Err FrameTooLarge.
Proof.
  intros [Hbig _] Hp Hlen Hw. assert (forall l, Z.of_nat (length l) <= sequence_size l) as Hseq.
  { induction l as [|b l IH]; [done|]. cbn [length sequence_size foldr]. unfold sequence_size in IH. destruct (_ <? 128); lia. }
  pose proof (save_size _ _ _ _ Hp). pose proof (Hseq content).
  exists (frame_of p). assert (encode_host_msg (FileSave id path content) = Some (frame_of p)) as He
    by (unfold encode_host_msg; by rewrite Hp).
  split; [|split; [done|]].
  - unfold send_msg. cbn [validate_host_msg]. by rewrite He, Hw.
  - rewrite recv_frame_too_large by lia. done.
Qed.

End Oversized.

(** ** Answers *)

Definition requests_ok (s : AppState) : Prop := forall id, id ∈ pending_downloads s -> replies s !! id = None.

(** What a step may do to the requests: answer waiting ones, and nothing else. *)
Record answers (s s' : AppState) : Prop := {
  an_pending : pending_downloads s' ⊆ pending_downloads s;
  an_replies id : replies s' !! id = replies s !! id \/ (id ∈ pending_downloads s /\ id ∉ pending_downloads s');
  an_counter : download_id_counter s' = download_id_counter s;
}.

Lemma answers_same s s' : pending_downloads s' = pending_downloads s -> replies s' = replies s ->
  download_id_counter s' = download_id_counter s -> answers s s'.
Proof. intros Hp Hr Hc. split; [by rewrite Hp|by left; rewrite Hr|done]. Qed.

Lemma answers_trans s1 s2 s3 : answers s1 s2 -> answers s2 s3 -> answers s1 s3.
Proof.
  intros [P1 R1 C1] [P2 R2 C2]. split; [set_solver| |congruence]. intros id.
  destruct (R2 id) as [->|[Hin Hout]]; [|right; set_solver]. destruct (R1 id) as [|[Hin Hout]]; [by left|]. right. set_solver.
Qed.

Lemma answers_reply id r s : answers s (reply id r s).
Proof.
  unfold reply. case_bool_decide as Hin; [|by apply answers_same]. split; cbn; [set_solver| |done]. intros id'.
  destruct (decide (id' = id)) as [->|Hne]; [right; set_solver|left; by rewrite lookup_insert_ne].
Qed.

Lemma control_msg_answers entries_json can_allocate session_id venv_id msg s s' evs :
  control_msg entries_json can_allocate session_id venv_id msg s = Some (s', evs) -> answers s s'.
Proof.
  unfold control_msg. destruct (match vms s !! session_id with Some _ => _ | None => false end);
    [intros [= <- <-]; by apply answers_same|].
  destruct msg; intros Hm; try (injection Hm as <- <-); try (by apply answers_same); try apply answers_reply.
  - eapply answers_trans; [|apply answers_reply]. by apply answers_same.
  - unfold file_chunk in Hm. destruct (match partial_downloads s !! id with Some p => Some p | None => _ end) as [p|]; [|done].
    injection Hm as <- <-. destruct (_ <=? _); [|by apply answers_same].
    eapply answers_trans; [|apply answers_reply]. by apply answers_same.
Qed.

(** Whatever a guest sends, it only answers requests that wait: an answer already given
    never changes, an id nobody waits for gets none, and a request is answered once. *)
Theorem answers_final entries_json can_allocate session_id venv_id (msgs : list GuestToHost) (s s' : AppState) evs :
  requests_ok s -> control_msgs entries_json can_allocate session_id venv_id msgs s = Some (s', evs) ->
  requests_ok s' /\ pending_downloads s' ⊆ pending_downloads s /\
  (forall id r, replies s !! id = Some r -> replies s' !! id = Some r) /\
  (forall id, id ∉ pending_downloads s -> replies s' !! id = replies s !! id).
Proof.
  intros Hok Hc. assert (answers s s') as [Hp Hr _].
  { clear Hok. revert s evs Hc. induction msgs as [|msg msgs IH]; intros s evs Hc; cbn [control_msgs] in Hc.
    - injection Hc as <- _. by apply answers_same.
    - destruct (control_msg _ _ _ _ msg s) as [[s1 e]|] eqn:Hm; [|done].
      destruct (control_msgs _ _ _ _ msgs s1) as [[s2 es]|] eqn:Hms; [|done]. injection Hc as <- _.
      eapply answers_trans; [by eapply control_msg_answers|by eapply IH]. }
  split; [|split; [done|split]].
  - intros id Hin. destruct (Hr id) as [->|[_ Hout]]; [apply Hok; set_solver|done].
  - intros id r Hid. destruct (Hr id) as [->|[Hin _]]; [done|]. apply Hok in Hin. congruence.
  - intros id Hid. by destruct (Hr id) as [->|[Hin _]].
Qed.

(** A guest that announces a download too big to allocate panics the handler. *)
Example announced_size_panics session_id venv_id id :
  control_msg (fun _ => []) (fun n => n <? 2 ^ 63) session_id venv_id (FileChunk id 0 [] (2 ^ 63)) (AppState_new
    {| ix_tables := Tables_empty; ix_query_only := false; ix_statements := 0 |} None) = None.
Proof. reflexivity. Qed.

(** ** Concrete runs *)

Module Demo.
(** An agent whose kernel holds one file of two bytes. *)
Definition kernel : Kernel := {|
  os := unit; show_proto_error := fun _ => ""; os_send := fun k _ => (true, k); os_resize := fun k _ _ _ => k;
  os_spawn := fun k _ => (inr "", k); os_hangup := fun k _ => (0, k);
  os_metadata := fun k _ => (inl {| is_file := true; file_len := 2 |}, k);
  os_read_file := fun k _ => (inl [x68; x69], k); os_open := fun k _ => (inr "", k); os_mkdir_parent := fun k _ => k;
  os_write_file := fun k _ _ => (None, k); os_read_dir := fun k _ => (inr "", k); os_set_echo := fun k _ _ => k;
  os_write_fd := fun k _ _ => (true, k); os_exec_done := fun k => (None, k) |}.

Definition world : @World kernel := @Build_World kernel tt [].

(** The one answer it gives, and the chunk below. *)
Definition answer : GuestToHost := FileContent 1 "/root/notes" [x68; x69].
Definition binary : list byte := replicate (Z.to_nat 140000) xff.
Definition chunk_payload : list byte := replicate (Z.to_nat 280000) x00.

Definition guest_rmp : Rmp GuestToHost := {|
  to_vec_named := fun m => match m with
                           | FileContent id path data =>
                               if bool_decide (id = 1 /\ path = "/root/notes" /\ data = [x68; x69]) then Some [x07] else None
                           | _ => None
                           end;
  from_slice := fun l => if bool_decide (l = [x07]) then Some answer else None |}.

Lemma guest_rmp_roundtrip : @RmpRoundtrip GuestToHost guest_rmp.
Proof.
  intros m p. cbn. destruct m; try done. case_bool_decide as Hm; [|done]. destruct Hm as (-> & -> & ->). by intros [= <-].
Qed.

Definition host_rmp : Rmp HostToGuest := {| to_vec_named := fun _ => Some []; from_slice := fun _ => None |}.

Definition connected : AppState :=
  set_vms (alter (fun i => set_machine (StateMachine_new Running valid_transitions 0) (set_fds 11 12 i))
                 "20260225-143052-a7f3" (vms HostApp.Demo.running)) HostApp.Demo.running.

Definition disk : HostDisk := {| hd_dirs := {["/"]}; hd_files := {["/Users/me/todo" := [x61]]} |}.

Definition instance : VmInstance :=
  {| serial_input_fd := 5; vsock_terminal_fd := Some 11; vsock_control_fd := Some 12; vi_log := Some EventLog.Db_empty;
     state_machine := StateMachine_new Running valid_transitions 0; port_state := PortState_new; processes := [];
     latest := MetricsSnapshot_default |}.

(** A chunk whose encoding has the size of its sequence, and no saved file. *)
Definition chunk_rmp : Rmp GuestToHost := {|
  to_vec_named := fun m => match m with
                           | FileChunk _ _ data _ => Some (replicate (Z.to_nat (sequence_size data)) x00)
                           | _ => None
                           end;
  from_slice := fun _ => None |}.

Definition read_rmp : Rmp HostToGuest := {|
  to_vec_named := fun m => match m with FileSave _ _ _ => None | _ => Some [] end; from_slice := fun _ => None |}.

Lemma sequence_size_nonneg l : 0 <= sequence_size l.
Proof. induction l as [|b l IH]; [done|]. cbn. unfold sequence_size in IH. destruct (_ <? 128); lia. Qed.

Lemma chunk_rmp_sequences : @RmpSequences chunk_rmp read_rmp.
Proof.
  split; [|done]. intros id offset data total p [= <-]. rewrite length_replicate.
  pose proof (sequence_size_nonneg data). lia.
Qed.

Lemma binary_size : sequence_size binary = 280000.
Proof. vm_compute. reflexivity. Qed.
End Demo.


Lemma binary_chunk_ends_control_witness :
  let guest := fun s => match @vsock_control_handler (fun _ => []) (fun _ => true) Demo.chunk_rmp "20260225-143052-a7f3" "dev"
                          (frame_of (replicate (Z.to_nat (sequence_size Demo.binary)) x00) ++ [x01]) s with
                        | Some (s, _) => s | None => s end in
  (@download_file Demo.read_rmp (fun _ => true) (fun _ _ => None) (fun _ _ _ => None) "image.png" "/Users/me/image.png" guest
     Demo.disk Demo.connected).1 = (Err "file download timed out", Demo.disk).
Proof.
  exact (proj2 (@binary_chunk_ends_control Demo.chunk_rmp Demo.read_rmp Demo.chunk_rmp_sequences (fun _ => []) (fun _ => true)
    (fun _ => true) (fun _ _ => None) (fun _ _ _ => None) "image.png" "/Users/me/image.png" "20260225-143052-a7f3" "dev" Demo.binary
    (replicate (Z.to_nat (sequence_size Demo.binary)) x00) [x01] 400000 Demo.disk Demo.connected Demo.instance 12
    ltac:(vm_compute; discriminate) ltac:(rewrite Demo.binary_size; reflexivity) eq_refl
    ltac:(rewrite Demo.binary_size, length_replicate; reflexivity)
    ltac:(vm_compute; reflexivity) ltac:(vm_compute; reflexivity) eq_refl eq_refl eq_refl ltac:(by eexists) eq_refl)).
Defined.

Lemma answers_final_witness :
  replies (fst (default (Demo.connected, []) (control_msgs (fun _ => []) (fun _ => true) "20260225-143052-a7f3" "dev"
    [FileSaved 9; Pong] Demo.connected))) !! 9 = None.
Proof.
  destruct (control_msgs (fun _ => []) (fun _ => true) "20260225-143052-a7f3" "dev" [FileSaved 9; Pong] Demo.connected)
    as [[s' evs]|] eqn:E; [|reflexivity].
  destruct (answers_final (fun _ => []) (fun _ => true) "20260225-143052-a7f3" "dev" [FileSaved 9; Pong] Demo.connected s' evs
    (fun id Hin => False_ind _ (not_elem_of_empty (C:=gset Z) id Hin)) E) as (_ & _ & _ & H).
  cbn [default fst]. rewrite H; [reflexivity|]. exact (not_elem_of_empty (C:=gset Z) 9).
Defined.
