(* ===== verification/HostWatch.v ===== *)
(** What the host does with the reports of the guest's watchers: [handle_fs_watch],
    [handle_port_watch] and [handle_sys_watch] of crates/clawcage-app/src/main.rs, and the
    port commands of crates/clawcage-app/src/commands.rs. *)

From Corelib Require Import SpecFloat.
From Stdlib Require Import ZArith Lia Strings.Byte Ascii.
From stdpp Require Import base numbers list gmap sets strings.
From S2P Require Import Prelude RustStr RustText Proto HostState EventLog LogReader LogReadback SessionIndex HostTerminal HostApp.
From S2P Require Import HostControl PortWatch.

(** ** Files *)

Section Files.
Context `{Humantime, UsageJson}.

(** The event of one message; [None]: an unexpected message. *)
Definition file_event (now : SystemTime) (msg : GuestToHost) : option (FileEventOf SystemTime EventLog.FileAction) :=
  match msg with
  | Proto.FileCreated path size =>
      Some {| fe_timestamp := now; fe_action := EventLog.FileCreated; fe_path := path; fe_size := Some size |}
  | Proto.FileModified path size =>
      Some {| fe_timestamp := now; fe_action := EventLog.FileModified; fe_path := path; fe_size := Some size |}
  | Proto.FileDeleted path =>
      Some {| fe_timestamp := now; fe_action := EventLog.FileDeleted; fe_path := path; fe_size := None |}
  | _ => None
  end.

(** [clock n]: the time at the [n]th message. *)
Fixpoint file_events (clock : nat -> SystemTime) (n : nat) (msgs : list GuestToHost)
  : list (FileEventOf SystemTime EventLog.FileAction) :=
  match msgs with
  | [] => []
  | msg :: msgs => match file_event (clock n) msg with
                   | Some e => e :: file_events clock (S n) msgs
                   | None => file_events clock (S n) msgs
                   end
  end.

(** What is sent to the writer of the log. *)
Definition handle_fs_watch `{Rmp GuestToHost} (clock : nat -> SystemTime) (stream : list byte) : list WriteOp :=
  map WriteFileEvent (file_events clock 0 (control_reader (S (length stream)) stream)).

End Files.

(** ** Ports and processes *)

Definition set_detected (l : list DetectedPort) (ps : PortState) : PortState :=
  {| detected := l; forwarded := forwarded ps; forward_tasks := forward_tasks ps; browser_proxies := browser_proxies ps |}.

Definition guest_process (p : ProcessEntry) : GuestProcess := {|
  gp_pid := pe_pid p; gp_ppid := pe_ppid p; gp_name := pe_name p; gp_cpu_percent := pe_cpu_percent p;
  gp_mem_kb := pe_mem_kb p; gp_runtime_secs := pe_runtime_secs p; gp_port := pe_port p |}.

(** What [handle_port_watch] shares with the rest of the application. *)
Record Watched := { w_ports : PortState; w_processes : list GuestProcess }.

Definition port_msg (now_ms : Z) (msg : GuestToHost) (w : Watched) : Watched :=
  let ps := w_ports w in
  match msg with
  | PortOpened port pid process =>
      if existsb (fun d => dp_port d =? port) (detected ps) then w
      else {| w_ports := set_detected (detected ps ++ [{| dp_port := port; dp_pid := pid; dp_process := process;
                                                          dp_detected_at := now_ms |}]) ps;
              w_processes := w_processes w |}
  | PortClosed port =>
      {| w_ports := {| detected := List.filter (fun d => negb (dp_port d =? port)) (detected ps);
                       forwarded := List.filter (fun f => negb (guest_port f =? port)) (forwarded ps);
                       forward_tasks := forward_tasks ps ∖ {[port]};
                       browser_proxies := browser_proxies ps |};
         w_processes := w_processes w |}
  | ProcessSnapshot ps' => {| w_ports := ps; w_processes := map guest_process ps' |}
  | _ => w
  end.

Fixpoint port_msgs (clock : nat -> Z) (n : nat) (msgs : list GuestToHost) (w : Watched) : Watched :=
  match msgs with
  | [] => w
  | msg :: msgs => port_msgs clock (S n) msgs (port_msg (clock n) msg w)
  end.

Definition handle_port_watch `{Rmp GuestToHost} (clock : nat -> Z) (stream : list byte) (w : Watched) : Watched :=
  port_msgs clock 0 (control_reader (S (length stream)) stream) w.

(** ** Metrics *)

Definition metrics_msg (now_ms : Z) (msg : GuestToHost) : option MetricsSnapshot :=
  match msg with
  | SystemMetrics cpu mem_total mem_used disk_total disk_used =>
      Some {| ms_cpu_percent := cpu; ms_mem_total_kb := mem_total; ms_mem_used_kb := mem_used;
              ms_disk_total_kb := disk_total; ms_disk_used_kb := disk_used; ms_updated_at := now_ms |}
  | _ => None
  end.

(** The snapshots shown, the last of which stays. *)
Fixpoint metrics_msgs (clock : nat -> Z) (n : nat) (msgs : list GuestToHost) : list MetricsSnapshot :=
  match msgs with
  | [] => []
  | msg :: msgs => match metrics_msg (clock n) msg with
                   | Some m => m :: metrics_msgs clock (S n) msgs
                   | None => metrics_msgs clock (S n) msgs
                   end
  end.

Definition handle_sys_watch `{Rmp GuestToHost} (clock : nat -> Z) (stream : list byte) (latest : MetricsSnapshot)
  : MetricsSnapshot * list MetricsSnapshot :=
  let shown := metrics_msgs clock 0 (control_reader (S (length stream)) stream) in
  (List.last shown latest, shown).

(** ** The port commands *)

(** [bound]: the port the host's listener got. *)
Definition forward_port (port : Z) (bound : option Z) (ps : PortState) : result Z string * PortState :=
  if existsb (fun f => guest_port f =? port) (forwarded ps)
  then (Err ("port " +:+ show_Z port +:+ " is already forwarded"), ps)
  else match bound with
       | None => (Err "failed to bind", ps)
       | Some actual =>
           (Ok actual, {| detected := detected ps;
                          forwarded := forwarded ps ++ [{| guest_port := port; host_port := actual |}];
                          forward_tasks := {[port]} ∪ forward_tasks ps; browser_proxies := browser_proxies ps |})
       end.

Definition stop_forward (port : Z) (ps : PortState) : PortState :=
  {| detected := detected ps; forwarded := List.filter (fun f => negb (guest_port f =? port)) (forwarded ps);
     forward_tasks := forward_tasks ps ∖ {[port]}; browser_proxies := browser_proxies ps |}.

Definition start_browser_proxy (port : Z) (bound : option Z) (ps : PortState) : result Z string * PortState :=
  match browser_proxies ps !! port with
  | Some hp => (Ok hp, ps)
  | None =>
      match bound with
      | None => (Err "bind failed", ps)
      | Some actual => (Ok actual, {| detected := detected ps; forwarded := forwarded ps; forward_tasks := forward_tasks ps;
                                      browser_proxies := <[port := actual]> (browser_proxies ps) |})
      end
  end.

Definition stop_browser_proxy (port : Z) (ps : PortState) : PortState :=
  {| detected := detected ps; forwarded := forwarded ps; forward_tasks := forward_tasks ps;
     browser_proxies := delete port (browser_proxies ps) |}.

Definition with_ports (f : PortState -> PortState) (i : VmInstance) : VmInstance := {|
  serial_input_fd := serial_input_fd i; vsock_terminal_fd := vsock_terminal_fd i; vsock_control_fd := vsock_control_fd i;
  vi_log := vi_log i; state_machine := state_machine i; port_state := f (port_state i); processes := processes i;
  latest := latest i |}.

Definition get_ports (s : AppState) : result (list DetectedPort * list ForwardedPort) string :=
  let? i := find_vm "VM not found" s in Ok (detected (port_state i), forwarded (port_state i)).

Definition get_processes (s : AppState) : result (list GuestProcess * list ForwardedPort) string :=
  let? i := find_vm "VM not found" s in Ok (processes i, forwarded (port_state i)).

Definition system_metrics (s : AppState) : result MetricsSnapshot string :=
  let? i := find_vm "VM not found" s in Ok (latest i).

Definition venv_metrics (venv_id : string) (s : AppState) : result MetricsSnapshot string :=
  let? vm_id := resolve_session_id (Some venv_id) s in
  match vms s !! vm_id with Some i => Ok (latest i) | None => Err "VM not found" end.

(** ** Properties *)

Lemma dp_filter_in p l d : d ∈ List.filter (fun d => negb (dp_port d =? p)) l <-> d ∈ l /\ dp_port d <> p.
Proof. by rewrite !list_elem_of_In, filter_In, negb_true_iff, Z.eqb_neq. Qed.

(** The ports the host shows. *)
Definition shown (w : Watched) : list Z := map dp_port (detected (w_ports w)).

Lemma port_msg_follow now msg w view : NoDup (shown w) ->
  (forall p, p ∈ shown w <-> p ∈ view) ->
  match follow view [msg] with
  | Some view' => NoDup (shown (port_msg now msg w)) /\ forall p, p ∈ shown (port_msg now msg w) <-> p ∈ view'
  | None => True
  end.
Proof.
  intros Hnd Hv. unfold shown in *. destruct msg; try done; cbn [follow]; destruct (decide (port ∈ view)) as [Hp|Hp]; try done.
  - assert (existsb (fun d => dp_port d =? port) (detected (w_ports w)) = false) as Hex.
    { apply existsb_elem_false. intros d Hd. apply Z.eqb_neq. intros E. apply Hp, Hv. rewrite <- E. by apply list_elem_of_fmap_2. }
    cbn [port_msg]. rewrite Hex. cbn [w_ports set_detected detected]. rewrite map_app. cbn [map dp_port]. split.
    + apply NoDup_app. split; [done|]. split; [|apply NoDup_singleton]. intros p Hin ->%list_elem_of_singleton. by apply Hp, Hv.
    + intros p. rewrite elem_of_app, list_elem_of_singleton, Hv. set_solver.
  - cbn [port_msg w_ports detected]. split.
    + clear -Hnd. induction (detected (w_ports w)) as [|d l IH]; cbn; [done|]. cbn in Hnd. apply NoDup_cons in Hnd as [Hd Hnd].
      destruct (dp_port d =? port); cbn; [by apply IH|]. apply NoDup_cons. split; [|by apply IH].
      intros Hin. apply Hd. apply list_elem_of_fmap in Hin as (d' & E & Hd'). apply dp_filter_in in Hd' as [Hd' _].
      rewrite E. by apply list_elem_of_fmap_2.
    + intros p. rewrite elem_of_difference, elem_of_singleton, <- Hv. split.
      * intros (d & -> & Hd)%list_elem_of_fmap. apply dp_filter_in in Hd as [Hd Hne]. split; [by apply list_elem_of_fmap_2|done].
      * intros [(d & -> & Hd)%list_elem_of_fmap Hne]. apply list_elem_of_fmap_2. by apply dp_filter_in.
Qed.

Lemma port_msgs_follow clock n msgs w view view' : NoDup (shown w) -> (forall p, p ∈ shown w <-> p ∈ view) ->
  follow view msgs = Some view' ->
  NoDup (shown (port_msgs clock n msgs w)) /\ forall p, p ∈ shown (port_msgs clock n msgs w) <-> p ∈ view'.
Proof.
  revert n w view. induction msgs as [|msg msgs IH]; intros n w view Hnd Hv Hf; [by injection Hf as <-|].
  change (msg :: msgs) with ([msg] ++ msgs) in Hf. rewrite follow_app in Hf.
  pose proof (port_msg_follow (clock n) msg w view Hnd Hv) as Hs. destruct (follow view [msg]) as [view1|]; [|done].
  destruct Hs as [Hnd1 Hv1]. cbn [port_msgs]. by apply (IH _ _ view1).
Qed.

(** The processes of a snapshot. *)
Definition snapshot_of (msg : GuestToHost) : option (list ProcessEntry) := match msg with ProcessSnapshot ps => Some ps | _ => None end.

Lemma port_msgs_processes clock n msgs w :
  w_processes (port_msgs clock n msgs w) =
    match last (omap snapshot_of msgs) with Some ps => map guest_process ps | None => w_processes w end.
Proof.
  revert n w. induction msgs as [|msg msgs IH]; intros n w; [done|]. cbn [port_msgs]. rewrite IH.
  change (omap snapshot_of (msg :: msgs)) with (match snapshot_of msg with Some ps => ps :: omap snapshot_of msgs | None => omap snapshot_of msgs end).
  destruct msg; try done; cbn [snapshot_of port_msg w_processes].
  - by destruct (existsb _ _).
  - rewrite last_cons. by destruct (last _).
Qed.

(** C25: What the host shows as listening ports is what listens in the guest: take any
    number of rounds of the guest's watcher, process snapshots on the same connection
    included, in none of which but the last the scan of the processes panicked, whose
    messages all fit a frame and arrive. After them the ports detected are exactly those
    of the sockets that listen in the tables the kernel gave to the last round, the
    product's own port 10443 apart, none twice, and the processes shown are those of the
    last snapshot sent. *)
Theorem host_ports_exact `{RmpRoundtrip GuestToHost} (resolve : Z -> option (Z * string)) (start_ms : Z)
    (rounds : list Round) (rd : Round) (titles titles6 : string) (sockets sockets6 : list Socket)
    (payloads : list (list byte)) (clock : nat -> Z) :
  rd_tcp rd = socket_table titles sockets -> rd_tcp6 rd = socket_table titles6 sockets6 ->
  line_text titles -> line_text titles6 -> Forall socket_ok (sockets ++ sockets6) ->
  is_Some (watch_rounds resolve (Watcher_new start_ms) rounds).2 ->
  let messages := (watch_rounds resolve (Watcher_new start_ms) (rounds ++ [rd])).1 in
  encodings messages payloads ->
  let w := handle_port_watch clock (concat (map frame_of payloads)) {| w_ports := PortState_new; w_processes := [] |} in
  NoDup (shown w) /\
  (forall p, p ∈ shown w <-> p <> 10443 /\ exists s, (s ∈ sockets ++ sockets6) /\ so_state s = Listening /\ so_port s = p) /\
  w_processes w = map guest_process (default [] (last (omap snapshot_of messages))).
Proof.
  intros Ht Ht6 Htitles Htitles6 Hok Hsome messages He. cbv zeta. unfold handle_port_watch.
  rewrite (control_reader_frames _ _ _ He) by lia.
  pose proof (host_view_exact resolve rounds rd (Watcher_new start_ms) Hsome) as Hf. cbn [wt_known Watcher_new] in Hf.
  rewrite dom_empty_L in Hf. fold messages in Hf.
  destruct (port_msgs_follow clock 0 messages {| w_ports := PortState_new; w_processes := [] |} ∅ _ ltac:(apply NoDup_nil_2) ltac:(set_solver) Hf)
    as [Hnd Hin].
  split; [done|]. split; [|by rewrite port_msgs_processes; destruct (last (omap snapshot_of messages))].
  intros p. rewrite Hin, Ht, Ht6. by apply scanned_sockets.
Qed.

(** *** Forwarded ports *)

(** What happens to the ports of a VM. *)
Inductive PortAction :=
| Report (now_ms : Z) (msg : GuestToHost)
| Forward (port : Z) (bound : option Z)
| StopForward (port : Z)
| Browse (port : Z) (bound : option Z)
| StopBrowse (port : Z).

Definition port_action (a : PortAction) (w : Watched) : Watched :=
  let on ps := {| w_ports := ps; w_processes := w_processes w |} in
  match a with
  | Report now msg => port_msg now msg w
  | Forward port bound => on (forward_port port bound (w_ports w)).2
  | StopForward port => on (stop_forward port (w_ports w))
  | Browse port bound => on (start_browser_proxy port bound (w_ports w)).2
  | StopBrowse port => on (stop_browser_proxy port (w_ports w))
  end.

Definition forwards_ok (ps : PortState) : Prop :=
  NoDup (map guest_port (forwarded ps)) /\ forall p, p ∈ forward_tasks ps <-> p ∈ map guest_port (forwarded ps).

Lemma forwards_remove port ps : forwards_ok ps ->
  let l := List.filter (fun f => negb (guest_port f =? port)) (forwarded ps) in
  NoDup (map guest_port l) /\ forall p, p ∈ forward_tasks ps ∖ {[port]} <-> p ∈ map guest_port l.
Proof.
  intros [Hnd Hin]. cbv zeta. assert (forall f l, f ∈ List.filter (fun f => negb (guest_port f =? port)) l <-> f ∈ l /\ guest_port f <> port)
    as Hf by (intros f l; by rewrite !list_elem_of_In, filter_In, negb_true_iff, Z.eqb_neq). split.
  - clear Hin. induction (forwarded ps) as [|f l IH]; cbn; [done|]. cbn in Hnd. apply NoDup_cons in Hnd as [Hx Hnd].
    destruct (guest_port f =? port); cbn; [by apply IH|]. apply NoDup_cons. split; [|by apply IH].
    intros (f' & E & Hf')%list_elem_of_fmap. apply Hx. apply Hf in Hf' as [Hf' _]. rewrite E. by apply list_elem_of_fmap_2.
  - intros p. rewrite elem_of_difference, elem_of_singleton, Hin. split.
    + intros [(f & -> & Hfl)%list_elem_of_fmap Hne]. apply list_elem_of_fmap_2. by apply Hf.
    + intros (f & -> & Hfl)%list_elem_of_fmap. apply Hf in Hfl as [Hfl Hne]. split; [by apply list_elem_of_fmap_2|done].
Qed.

Lemma port_action_ok a w : forwards_ok (w_ports w) -> forwards_ok (w_ports (port_action a w)).
Proof.
  intros Hok. destruct a as [now msg|port bound|port|port bound|port]; cbn [port_action w_ports].
  - destruct msg; try done; cbn [port_msg].
    + by destruct (existsb _ _).
    + by apply (forwards_remove port).
  - unfold forward_port. destruct (existsb _ _) eqn:Hex; [done|]. destruct bound as [actual|]; [|done]. cbn.
    destruct Hok as [Hnd Hin]. unfold forwards_ok. cbn. rewrite map_app. cbn. rewrite existsb_elem_false in Hex. split.
    + apply NoDup_app. split; [done|]. split; [|apply NoDup_singleton].
      intros p (f & -> & Hf)%list_elem_of_fmap Hp%list_elem_of_singleton. specialize (Hex f Hf). by apply Z.eqb_neq in Hex.
    + intros p. rewrite elem_of_app, list_elem_of_singleton, elem_of_union, elem_of_singleton, Hin. tauto.
  - by apply (forwards_remove port).
  - unfold start_browser_proxy. destruct (browser_proxies (w_ports w) !! port); [done|]. by destruct bound.
  - done.
Qed.

(** Forwarding stays consistent whatever the guest reports and the user asks for, in any
    order: each guest port is forwarded at most once, an accept loop runs for exactly the
    forwarded ports, and a port the guest has closed, and nobody forwarded since, is not
    forwarded any more. *)
Theorem forwards_consistent (before after : list PortAction) (now port : Z) :
  let w := foldl (fun w a => port_action a w) {| w_ports := PortState_new; w_processes := [] |}
             (before ++ Report now (PortClosed port) :: after) in
  forwards_ok (w_ports w) /\
  ((forall bound, Forward port bound ∉ after) -> port ∉ map guest_port (forwarded (w_ports w)) /\ port ∉ forward_tasks (w_ports w)).
Proof.
  cbv zeta. assert (forall l w, forwards_ok (w_ports w) -> forwards_ok (w_ports (foldl (fun w a => port_action a w) w l))) as Hall.
  { induction l as [|a l IH]; intros w Hw; [done|]. cbn. by apply IH, port_action_ok. }
  assert (forwards_ok PortState_new) as Hnew by (split; [apply NoDup_nil_2|set_solver]).
  split; [by apply Hall|]. intros Hno. rewrite foldl_app. cbn [foldl].
  set (w0 := foldl _ _ before). assert (forwards_ok (w_ports w0)) as H0 by (by apply Hall).
  pose proof (port_action_ok (Report now (PortClosed port)) w0 H0) as H1.
  assert (port ∉ map guest_port (forwarded (w_ports (port_action (Report now (PortClosed port)) w0)))) as Hn1.
  { cbn. intros (f & -> & Hf)%list_elem_of_fmap. rewrite list_elem_of_In, filter_In, Z.eqb_refl in Hf. by destruct Hf. }
  revert H1 Hn1. generalize (port_action (Report now (PortClosed port)) w0) as w. induction after as [|a after IH]; intros w Hw Hn.
  - cbn. split; [done|]. intros Hin. by apply Hn, (proj2 Hw).
  - cbn [foldl]. apply IH; [intros bound Hin; apply (Hno bound); by right|by apply port_action_ok|].
    destruct a as [now' msg|p bound|p|p bound|p]; cbn [port_action w_ports].
    + destruct msg; try done; cbn [port_msg]; [by destruct (existsb _ _)|]. cbn. intros (f & -> & Hf)%list_elem_of_fmap. apply Hn.
      rewrite list_elem_of_In, filter_In, <- list_elem_of_In in Hf. destruct Hf as [Hf _]. by apply list_elem_of_fmap_2.
    + unfold forward_port. destruct (existsb _ _); [done|]. destruct bound as [actual|] eqn:Hb; [|done]. cbn. rewrite map_app, elem_of_app.
      intros [Hin|Hin%list_elem_of_singleton]; [done|]. cbn in Hin. subst p. apply (Hno (Some actual)). left.
    + cbn. intros (f & -> & Hf)%list_elem_of_fmap. apply Hn.
      rewrite list_elem_of_In, filter_In, <- list_elem_of_In in Hf. destruct Hf as [Hf _]. by apply list_elem_of_fmap_2.
    + unfold start_browser_proxy. destruct (browser_proxies (w_ports w) !! p); [done|]. by destruct bound.
    + done.
Qed.

(** *** File events *)

(** The file messages among those received, with their times. *)
Definition file_messages {T} (clock : nat -> T) (msgs : list GuestToHost) : list (T * GuestToHost) :=
  List.filter (fun m => match m.2 with
    | Proto.FileCreated _ _ | Proto.FileModified _ _ | Proto.FileDeleted _ => true | _ => false end)
    (imap (fun i m => (clock i, m)) msgs).

Section Readback.
Context `{HumantimeRoundtrip, UsageJson}.

Definition event_of_message (m : SystemTime * GuestToHost) : FileEventOf SystemTime EventLog.FileAction :=
  let '(action, path, size) := match m.2 with
    | Proto.FileCreated path size => (EventLog.FileCreated, path, Some size)
    | Proto.FileModified path size => (EventLog.FileModified, path, Some size)
    | Proto.FileDeleted path => (EventLog.FileDeleted, path, None)
    | _ => (EventLog.FileDeleted, "", None)
    end in
  {| fe_timestamp := m.1; fe_action := action; fe_path := path; fe_size := size |}.

Lemma file_events_messages clock n msgs :
  file_events clock n msgs = map event_of_message (file_messages (fun i => clock (n + i)%nat) msgs).
Proof.
  revert n. induction msgs as [|msg msgs IH]; intros n; [done|]. cbn [file_events]. rewrite IH.
  assert (forall c, file_messages c (msg :: msgs) =
    match msg with Proto.FileCreated _ _ | Proto.FileModified _ _ | Proto.FileDeleted _ => [(c 0%nat, msg)] | _ => [] end ++
    file_messages (fun i => c (S i)) msgs) as -> by (intros c; unfold file_messages; cbn [imap List.filter]; by destruct msg).
  assert (file_messages (fun i => clock (S n + i)%nat) msgs = file_messages (fun i => clock (n + S i)%nat) msgs) as ->
    by (unfold file_messages; f_equal; apply imap_ext; intros; by rewrite Nat.add_succ_r).
  destruct msg; cbn; rewrite ?Nat.add_0_r; done.
Qed.

(** The file activity of the guest is in the log of its session: of the messages
    received, in their frames, over the file watcher's connection, the log holds one event
    for each that reports a file, with its path, size and action and the time of its
    arrival, newest first, and nothing for the others. *)
Theorem file_activity_logged `{RmpRoundtrip GuestToHost} (msgs : list GuestToHost) (payloads : list (list byte))
    (clock : nat -> SystemTime) (ready : nat -> nat) (limit : Z) (d : Db) :
  encodings msgs payloads -> Forall (fun m => opt_uN 64 (fe_size (event_of_message m))) (file_messages clock msgs) ->
  written ready (handle_fs_watch clock (concat (map frame_of payloads))) = Some d ->
  recent_file_events d limit = newest limit (map event_of_message (file_messages clock msgs)).
Proof.
  intros He Hok Hd. rewrite written_apply in Hd. injection Hd as <-. unfold handle_fs_watch.
  rewrite (control_reader_frames _ _ _ He), file_events_messages by lia.
  assert (forall l, omap file_of (map WriteFileEvent l) = l) as Ho by (induction l as [|e l IH]; cbn; [done|by f_equal]).
  rewrite file_events_readback, Ho; [done|]. apply Forall_forall. intros op (e & -> & Hin)%list_elem_of_fmap.
  apply list_elem_of_fmap in Hin as (m & -> & Hm). rewrite Forall_forall in Hok. by apply Hok.
Qed.

End Readback.

(** ** Concrete runs *)

Module Demo.
(** Two messages, by their first byte. *)
Definition opened : GuestToHost := PortOpened 8080 0 "unknown".
Definition created : GuestToHost := Proto.FileCreated "/root/a" 3.

Definition rmp : Rmp GuestToHost := {|
  to_vec_named := fun m => match m with
    | PortOpened port pid process => if bool_decide (port = 8080 /\ pid = 0 /\ process = "unknown") then Some [x01] else None
    | Proto.FileCreated path size => if bool_decide (path = "/root/a" /\ size = 3) then Some [x02] else None
    | ProcessSnapshot [] => Some [x03]
    | _ => None end;
  from_slice := fun l => match l with [x01] => Some opened | [x02] => Some created | [x03] => Some (ProcessSnapshot []) | _ => None end |}.

Lemma rmp_ok : @RmpRoundtrip GuestToHost rmp.
Proof.
  intros m p Hp. destruct m; cbn in Hp; try done.
  all: first [case_bool_decide; [|done]; destruct_and!; simplify_eq; done|by repeat case_match; simplify_eq].
Qed.

(** A table with a listener on port 8080 and a connection to it, in the first round. *)
Definition socket (slot : string) (state : TcpState) : Socket := {|
  so_lead := 3; so_slot := slot; so_address := "0100007F"; so_port := 8080; so_remote := (O, "00000000:0000"); so_state := state;
  so_queues := (O, "00000000:00000000"); so_timer := (O, "00:00000000"); so_retransmits := (O, "00000000"); so_uid := (4%nat, "0");
  so_timeout := (7%nat, "0"); so_inode := 12345; so_more := [(O, "1")]; so_trail := 20 |}.
Definition sockets : list Socket := [socket "0:" Established; socket "1:" Listening].
Definition round : Round := {|
  rd_tcp := socket_table "sl local_address" sockets; rd_tcp6 := socket_table "sl local_address" [];
  rd_now_ms := 5000; rd_now_secs := 0; rd_proc_stat := None; rd_procs := [] |}.

Lemma socket_fine slot state : plain_word slot -> socket_ok (socket slot state).
Proof. intros Hs. split; try done; [|cbn; lia..]. repeat constructor; done. Qed.
End Demo.

Lemma host_ports_exact_witness :
  let w := @handle_port_watch Demo.rmp (fun _ => 0) (frame_of [x01] ++ frame_of [x03]) {| w_ports := PortState_new; w_processes := [] |} in
  (8080 ∈ shown w) /\ w_processes w = [].
Proof.
  assert ((watch_rounds (fun _ => None) (Watcher_new 5000) ([] ++ [Demo.round])).1 = [Demo.opened; ProcessSnapshot []]) as Hm
    by (vm_compute; reflexivity).
  assert (@encodings Demo.rmp (watch_rounds (fun _ => None) (Watcher_new 5000) ([] ++ [Demo.round])).1 [[x01]; [x03]]) as He.
  { rewrite Hm. repeat (constructor; [split; [reflexivity|vm_compute; discriminate]|]). constructor. }
  destruct (@host_ports_exact Demo.rmp Demo.rmp_ok (fun _ => None) 5000 [] Demo.round "sl local_address" "sl local_address"
    Demo.sockets [] [[x01]; [x03]] (fun _ => 0) eq_refl eq_refl ltac:(by split) ltac:(by split)) as (_ & Hp & Hs).
  - apply Forall_cons; split; [by apply Demo.socket_fine|]. apply Forall_cons; split; [by apply Demo.socket_fine|apply Forall_nil_2].
  - by eexists.
  - exact He.
  - change (concat (map frame_of [[x01]; [x03]])) with (frame_of [x01] ++ frame_of [x03] ++ []) in Hp, Hs. rewrite app_nil_r in Hp, Hs.
    split; [|rewrite Hs, Hm; reflexivity]. apply Hp. split; [discriminate|].
    exists (Demo.socket "1:" Listening). split; [right; left|]. split; reflexivity.
Defined.

Lemma file_activity_logged_witness :
  exists d, @written text_time countable_usage (fun _ => 5%nat)
      (@handle_fs_watch text_time Demo.rmp (fun _ => "2026-03-01T00:00:00Z") (frame_of [x02])) = Some d /\
    map fe_path (@recent_file_events text_time d 10) = ["/root/a"].
Proof.
  assert (@encodings Demo.rmp [Demo.created] [[x02]]) as He by (constructor; [split; [reflexivity|vm_compute; discriminate]|constructor]).
  destruct (@written text_time countable_usage (fun _ => 5%nat)
      (@handle_fs_watch text_time Demo.rmp (fun _ => "2026-03-01T00:00:00Z") (frame_of [x02]))) as [d|] eqn:E;
    [|vm_compute in E; discriminate].
  exists d. split; [reflexivity|].
  rewrite (@file_activity_logged text_time text_time_roundtrip countable_usage Demo.rmp Demo.rmp_ok [Demo.created] [[x02]]
    (fun _ => "2026-03-01T00:00:00Z") (fun _ => 5%nat) 10 d He); [reflexivity| |exact E].
  constructor; [|constructor]. intros z Hz. injection Hz as <-. unfold in_uN. lia.
Defined.

Lemma forwards_consistent_witness :
  let w := foldl (fun w a => port_action a w) {| w_ports := PortState_new; w_processes := [] |}
             ([Forward 8080 (Some 9000); Forward 3000 (Some 3000)] ++ [Report 0 (PortClosed 8080)]) in
  8080 ∉ map guest_port (forwarded (w_ports w)).
Proof.
  exact (proj1 (proj2 (forwards_consistent [Forward 8080 (Some 9000); Forward 3000 (Some 3000)] [] 0 8080)
    (fun bound Hin => not_elem_of_nil _ Hin))).
Defined.
