(* ===== verification/ProxyConfig.v ===== *)
(** The proxy's configuration from the settings: build_credentials and build_mitm_config of
    crates/clawcage-app/src/main.rs.

    The three providers' keys become credentials of their own hosts, so that a request
    carries a key of the host only to the provider it belongs to ([host_keys_go_home]);
    without isolation there are none ([no_isolation_no_keys]). The numbers of the settings
    are read as unsigned: a negative number of connections is more than the semaphore takes
    ([config_built_iff]). *)

From Stdlib Require Import ZArith Lia Ascii.
From stdpp Require Import base numbers list gmap strings.
From S2P Require Import Prelude RustStr Utf8 Pricing Events Trace EventLog NetPolicy AnthropicStream OpenAiStream GoogleStream AiBody RequestParser MitmParts ProxyConn ProxyRequest ModelTelemetry Settings.

Section Config.
(** The resolved settings of the venv, load_merged_settings_for_venv. *)
Variable settings : list ResolvedSetting.

Definition effective (k : string) : option SettingValue := effective_value <$> list_find_first (fun s => bool_decide (id s = k)) settings.

Definition proxy_text (k : string) : string := default "" (effective k ≫= as_text).
Definition proxy_bool (k : string) (d : bool) : bool := default d (effective k ≫= as_bool).

(** [*n as u64] *)
Definition proxy_number (k : string) (d : Z) : Z := default d (n ← effective k ≫= as_number; Some (as_uN 64 n)).

(** The HashMap's entries, by insertion: their names are different. *)
Definition build_credentials : Credentials :=
  let anthropic_key := proxy_text "ai.anthropic.api_key" in
  let openai_key := proxy_text "ai.openai.api_key" in
  let google_key := proxy_text "ai.google.api_key" in
  (if is_empty anthropic_key then [] else [("api.anthropic.com", CredHeader "x-api-key" anthropic_key)])
  ++ (if is_empty openai_key then [] else [("api.openai.com", CredHeader "authorization" ("Bearer " +:+ openai_key))])
  ++ (if is_empty google_key then [] else [("generativelanguage.googleapis.com", CredQueryParam "key" google_key)]).

(** tokio's limit, [usize::MAX >> 3]: [Semaphore::new] panics above it. *)
Definition MAX_PERMITS : Z := 2 ^ 61 - 1.

Definition mitm_limits : ProxyLimits :=
  {| max_concurrent_connections := proxy_number "network.proxy_max_connections" 100;
     per_domain_rate_limit := f64_of_u64 (proxy_number "network.proxy_rate_limit" 50);
     max_response_body_bytes := as_uN 64 (proxy_number "network.proxy_max_body_mb" 100 * 1024 * 1024);
     connection_idle_timeout := proxy_number "network.proxy_idle_timeout" 60;
     connect_timeout := 10 |}.

(** The configuration with the semaphore's permits and the rate limiter; [None] is the panic.
    The multiplication wraps, as in a release build. *)
Definition build_mitm_config (policy : NetworkPolicy) : option (MitmProxyConfig * Z * RateLimiterMap) :=
  let enabled := proxy_bool "network.proxy_enabled" true in
  let credential_isolation := proxy_bool "network.credential_isolation" true in
  let limits := mitm_limits in
  if MAX_PERMITS <? max_concurrent_connections limits then None
  else
    let rate_limiter := RateLimiterMap_new (per_domain_rate_limit limits) in
    let credentials := if credential_isolation then build_credentials else [] in
    Some ({| ProxyConn.policy := policy; ProxyConn.tunnel_non_ai := true; ProxyConn.limits := limits; ProxyConn.enabled := enabled; ProxyConn.credentials := credentials |},
          max_concurrent_connections limits, rate_limiter).

(** ** Credentials *)

(** The credential of a domain, of the three. *)
Definition own_credential (domain : string) (c : CredentialKind) : Prop :=
  (domain = "api.anthropic.com" /\ c = CredHeader "x-api-key" (proxy_text "ai.anthropic.api_key") /\ proxy_text "ai.anthropic.api_key" <> "") \/
  (domain = "api.openai.com" /\ c = CredHeader "authorization" ("Bearer " +:+ proxy_text "ai.openai.api_key") /\ proxy_text "ai.openai.api_key" <> "") \/
  (domain = "generativelanguage.googleapis.com" /\ c = CredQueryParam "key" (proxy_text "ai.google.api_key") /\ proxy_text "ai.google.api_key" <> "").

Lemma credentials_own p c : (p, c) ∈ build_credentials -> own_credential p c.
Proof.
  assert (forall k (e : string * CredentialKind), e ∈ (if is_empty k then [] else [e]) -> k <> "") as Hne by (intros k e He ->; by apply elem_of_nil in He).
  unfold build_credentials, own_credential. rewrite !elem_of_app. intros [H|[H|H]].
  - left. destruct (is_empty (proxy_text "ai.anthropic.api_key")) eqn:E; [by apply elem_of_nil in H|]. apply list_elem_of_singleton in H as [= -> ->]. repeat split. by intros Hk; rewrite Hk in E.
  - right; left. destruct (is_empty (proxy_text "ai.openai.api_key")) eqn:E; [by apply elem_of_nil in H|]. apply list_elem_of_singleton in H as [= -> ->]. repeat split. by intros Hk; rewrite Hk in E.
  - right; right. destruct (is_empty (proxy_text "ai.google.api_key")) eqn:E; [by apply elem_of_nil in H|]. apply list_elem_of_singleton in H as [= -> ->]. repeat split. by intros Hk; rewrite Hk in E.
Qed.

(** The patterns are exact: a domain gets the credential that is stored for it, and a
    configured one does. *)
Lemma credential_own domain c : credential_for domain build_credentials = Some c -> own_credential domain c.
Proof.
  intros Hc. apply credential_for_Some in Hc as (p & Hin & Hcov). pose proof (credentials_own p c Hin) as Ho. assert (p = domain) as <-; [|done].
  destruct Hcov as [Hp|(suffix & x & Hp & _)]; [done|]. by destruct Ho as [[-> _]|[[-> _]|[-> _]]].
Qed.

(** ** What leaves the host *)

Section Requests.
Context `{UnicodeCase, Humantime, SerdeJson, !Gzip, !AnthropicWire, !OpenAiWire, !FromJson StreamChunk, !RequestWire}.

Lemma forwarded_origin domain ai own hs name v : (name, v) ∈ forwarded_headers domain ai own hs -> (name, v) ∈ hs \/ name = "host" \/ name = "accept-encoding".
Proof.
  unfold forwarded_headers. rewrite !elem_of_app. intros [Hin|[Hin|Hin]].
  - left. rewrite list_elem_of_In, filter_In in Hin. destruct Hin as [Hin _]. by apply list_elem_of_In.
  - apply list_elem_of_singleton in Hin as [= -> _]. auto.
  - destruct ai; [|by apply elem_of_nil in Hin]. apply list_elem_of_singleton in Hin as [= -> _]. auto.
Qed.

Definition full_path (req : Request) : string := match rq_query req with Some q => rq_path req +:+ "?" +:+ q | None => rq_path req end.

(** C6: Whatever the guest asks for and wherever, a request goes out with the guest's headers,
    those that the proxy sets, and at most one key of the host: the key that the settings
    hold for the provider whose host it goes to, in that provider's header or query. *)
Theorem host_keys_go_home (policy : NetworkPolicy) (config : MitmProxyConfig) (permits : Z) (limiter : RateLimiterMap)
    (blake3_hex : list byte -> string) (net : Network) (domain : string) (process_name : option string) (ai : option ProviderKind) (cached : bool) (up : Upstream) (req : Request) (u : UpRequest)
    (Hbuild : build_mitm_config policy = Some (config, permits, limiter))
    (Hsent : hd_sent (handle_request blake3_hex config net domain process_name ai cached up req) = Some u) :
  (forall name v, (name, v) ∈ ur_headers u ->
     (name, v) ∈ rq_headers req \/ name = "host" \/ name = "accept-encoding" \/
     (domain = "api.anthropic.com" /\ name = "x-api-key" /\ v = bytes_of_string (proxy_text "ai.anthropic.api_key")) \/
     (domain = "api.openai.com" /\ name = "authorization" /\ v = bytes_of_string ("Bearer " +:+ proxy_text "ai.openai.api_key"))) /\
  (ur_uri u = full_path req \/
   domain = "generativelanguage.googleapis.com" /\ exists sep, ur_uri u = full_path req +:+ sep +:+ "key=" +:+ proxy_text "ai.google.api_key").
Proof.
  apply handle_request_sent in Hsent as [-> _]. assert (credentials config = [] \/ credentials config = build_credentials) as Hc.
  { unfold build_mitm_config in Hbuild. destruct (_ <? _); [done|]. injection Hbuild as <- _ _. cbn. destruct (proxy_bool _ _); [by right|by left]. }
  unfold upstream_request, inject_credentials. fold (full_path req). set (own := match credentials config with [] => false | _ => true end).
  assert (forall name v, (name, v) ∈ forwarded_headers domain ai own (rq_headers req) -> (name, v) ∈ rq_headers req \/ name = "host" \/ name = "accept-encoding") as Hf by apply forwarded_origin.
  destruct (credential_for domain (credentials config)) as [c|] eqn:Ec; [|by cbn; split; [intros name v Hin; destruct (Hf _ _ Hin) as [?|[?|?]]; auto|left]].
  assert (own_credential domain c) as Ho by (destruct Hc as [Hc|Hc]; rewrite Hc in Ec; [done|by apply credential_own]).
  destruct c as [cn cv|ck cv]; cbn [ur_headers ur_uri].
  - split; [|by left]. intros name v [Hin|Hin]%elem_of_app; [destruct (Hf _ _ Hin) as [?|[?|?]]; auto|]. apply list_elem_of_singleton in Hin as [= -> ->].
    destruct Ho as [(-> & [= -> ->] & _)|[(-> & [= -> ->] & _)|(_ & [=] & _)]]; do 3 right; [by left|by right].
  - split; [intros name v Hin; destruct (Hf _ _ Hin) as [?|[?|?]]; auto|]. destruct Ho as [(_ & [=] & _)|[(_ & [=] & _)|(-> & [= -> ->] & _)]]. right. split; [done|]. eauto.
Qed.

(** Without isolation no key of the host leaves it: the guest has its own. *)
Theorem no_isolation_no_keys (policy : NetworkPolicy) (config : MitmProxyConfig) (permits : Z) (limiter : RateLimiterMap)
    (Hoff : proxy_bool "network.credential_isolation" true = false) (Hbuild : build_mitm_config policy = Some (config, permits, limiter)) :
  credentials config = [] /\ forall domain ai req, ur_uri (upstream_request config domain ai req) = full_path req /\
    forall name v, (name, v) ∈ ur_headers (upstream_request config domain ai req) -> (name, v) ∈ rq_headers req \/ name = "host" \/ name = "accept-encoding".
Proof.
  unfold build_mitm_config in Hbuild. destruct (_ <? _); [done|]. injection Hbuild as <- _ _. rewrite Hoff. cbn [credentials]. split; [done|].
  intros domain ai req. split; [done|]. apply forwarded_origin.
Qed.

End Requests.

(** ** The numbers *)

(** The configuration is built unless the number of connections, read as unsigned, is more
    than a semaphore takes; its limits are those of the settings, or the defaults. *)
Theorem config_built_iff (policy : NetworkPolicy) :
  (is_Some (build_mitm_config policy) <-> proxy_number "network.proxy_max_connections" 100 <= MAX_PERMITS) /\
  (forall config permits limiter, build_mitm_config policy = Some (config, permits, limiter) ->
     ProxyConn.policy config = policy /\ ProxyConn.enabled config = proxy_bool "network.proxy_enabled" true /\
     permits = max_concurrent_connections (limits config) /\ rl_rate limiter = per_domain_rate_limit (limits config) /\ buckets limiter = ∅ /\
     (Forall (fun k => effective k = None) ["network.proxy_max_connections"; "network.proxy_rate_limit"; "network.proxy_max_body_mb"; "network.proxy_idle_timeout"] ->
      limits config = ProxyLimits_default)).
Proof.
  unfold build_mitm_config, mitm_limits. cbn [max_concurrent_connections per_domain_rate_limit]. split.
  - destruct (Z.ltb_spec MAX_PERMITS (proxy_number "network.proxy_max_connections" 100)); split; [by intros [? [=]]|lia|done|by eexists].
  - intros config permits limiter. destruct (_ <? _); [done|]. intros [= <- <- <-]. repeat split. intros Hd. repeat (apply Forall_cons in Hd as [? Hd]).
    cbn [limits]. unfold proxy_number. by repeat match goal with H : effective _ = None |- _ => rewrite H; clear H end.
Qed.

End Config.

(** ** A venv's settings *)

Module Demo.

Definition setting (k : string) (v : SettingValue) : ResolvedSetting :=
  {| id := k; category := ""; name := ""; description := ""; setting_type := TText; default_value := v; effective_value := v; source := SrcUser; modified := None; corp_locked := false;
     enabled_by := None; Settings.enabled := true; metadata := SettingMetadata_default; venv_overridden := false; collapsed := false |}.

Definition keys : list ResolvedSetting :=
  [setting "ai.anthropic.api_key" (VText "real"); setting "ai.openai.api_key" (VText ""); setting "ai.google.api_key" (VText "g")].

Definition config : MitmProxyConfig := ai_config [("api.anthropic.com", CredHeader "x-api-key" "real"); ("generativelanguage.googleapis.com", CredQueryParam "key" "g")].

Example built : build_mitm_config keys (ProxyConn.policy config) =
  Some ({| ProxyConn.policy := ProxyConn.policy config; tunnel_non_ai := true; limits := ProxyLimits_default; ProxyConn.enabled := true; credentials := credentials config |}, 100, RateLimiterMap_new (f64_of_u64 50)).
Proof. vm_compute. reflexivity. Qed.

(** A negative number of connections is a panic of the semaphore, and a large number of
    megabytes wraps to no limit at all, or none left. *)
Example negative_connections policy : build_mitm_config [setting "network.proxy_max_connections" (VNumber (-1))] policy = None.
Proof. reflexivity. Qed.
Example megabytes_wrap : max_response_body_bytes (mitm_limits [setting "network.proxy_max_body_mb" (VNumber (2 ^ 44))]) = 0.
Proof. vm_compute. reflexivity. Qed.

Definition req : Request := demo_request "POST" [("x-api-key", bytes_of_string "placeholder")].

End Demo.

Lemma host_keys_go_home_witness :
  let config := {| ProxyConn.policy := ProxyConn.policy Demo.config; tunnel_non_ai := true; limits := ProxyLimits_default; ProxyConn.enabled := true; credentials := credentials Demo.config |} in
  exists u, hd_sent (handle_request (H := ascii_case) (fun _ => "digest") config demo_conn_net "api.anthropic.com" None (Some Anthropic) false (demo_upstream []) Demo.req) = Some u /\
    ("x-api-key", bytes_of_string "real") ∈ ur_headers u /\ ur_uri u = full_path Demo.req.
Proof.
  intros config. exists (upstream_request config "api.anthropic.com" (Some Anthropic) Demo.req). split; [reflexivity|].
  destruct (@host_keys_go_home Demo.keys ascii_case (ProxyConn.policy Demo.config) config 100 (RateLimiterMap_new (f64_of_u64 50)) (fun _ => "digest") demo_conn_net "api.anthropic.com" None (Some Anthropic) false
    (demo_upstream []) Demo.req (upstream_request config "api.anthropic.com" (Some Anthropic) Demo.req) Demo.built eq_refl) as [_ [Hu|[Hd _]]]; [|discriminate Hd].
  split; [|exact Hu]. vm_compute. do 2 right. left.
Defined.
