(* ===== verification/Desktop.v ===== *)
(** The desktop shell of crates/clawcage-app/src/main.rs: the tray menu and its events, the
    end of the application, and the update check.

    The entries of the tray are the five most recently used venvs; choosing one starts or
    stops it ([tray_entry_acts]). The application only exits once no venv is running
    ([exit_stops_all]). An update that was found is installed once: a download that fails
    forgets it (example [failed_install_forgets]). Windows and icons are left out. *)

From Stdlib Require Import ZArith Lia Ascii.
From stdpp Require Import base numbers list gmap strings sorting.
From S2P Require Import Prelude RustStr Pricing HostTerminal EventLog LogReader SessionTime SessionIndex VenvStore HostApp.

(** ** The tray *)

(** [a.cmp(b)] of two Option<String>: None first. *)
Definition opt_leb (a b : option string) : bool :=
  match a, b with None, _ => true | Some _, None => false | Some a, Some b => String.leb a b end.

Fixpoint insert_recent (v : VenvInfo) (l : list VenvInfo) : list VenvInfo :=
  match l with
  | [] => [v]
  | w :: l => if opt_leb (vn_last_used w) (vn_last_used v) then v :: w :: l else w :: insert_recent v l
  end.

(** [sort_by(|a, b| b.last_used.cmp(&a.last_used))], which is stable. *)
Definition sort_recent (l : list VenvInfo) : list VenvInfo := foldr insert_recent [] l.

Inductive MenuItem :=
| Item (id label : string) (is_enabled : bool)
| VenvItem (id label : string) (active : bool)
| Separator.

(** The menu that [update_tray_status] builds. *)
Definition tray_menu (version : option string) (venvs : list VenvInfo) (running : gmap string string) : list MenuItem :=
  let recent := sort_recent venvs in
  let show_more := (5 <? length recent)%nat in
  let recent := take 5 recent in
  [Item "header" ("Clawcage v" +:+ default "" version) false; Separator]
  ++ match recent with
     | [] => [Item "no-envs" "No environments" false]
     | _ => map (fun v =>
              let is_running := bool_decide (is_Some (running !! vn_id v)) in
              VenvItem ((if is_running then "stop:" else "start:") +:+ vn_id v) (vn_name v) is_running) recent
     end
  ++ (if show_more then [Item "show-more" "View all..." true] else [])
  ++ [Separator; Item "show" "Open Dashboard" true; Separator; Item "quit" "Quit Clawcage" true].

Inductive TrayAction := ShowWindow | QuitApp | BootVenv (venv_id : string) | StopVenv (venv_id : string) | NoAction.

Definition on_menu_event (id : string) : TrayAction :=
  if bool_decide (id = "show") || bool_decide (id = "show-more") then ShowWindow
  else if bool_decide (id = "quit") then QuitApp
  else match strip_prefix "start:" id with
       | Some venv_id => BootVenv venv_id
       | None => match strip_prefix "stop:" id with Some venv_id => StopVenv venv_id | None => NoAction end
       end.

(** ** The end of the application *)

Section Exit.
Context `{UsageJson}.
Variable fault : nat -> option string.
Variable sum_real : list f64 -> f64.
Variable any_row : forall {A}, A -> list A -> A.
Variable usage_totals : list string -> result (option string) string.
Variable group_order : forall {A}, list A -> list A.

Abbreviation stop := (stop_vm fault sum_real (@any_row) usage_totals (@group_order)).
Abbreviation stop_all := (stop_all_vms fault sum_real (@any_row) usage_totals (@group_order)).

(** Closing the window: hidden instead while a VM is running. *)
Definition close_requested (s : AppState) : bool := negb (has_running_vms s).

Definition stop_active_vm (now : Z) (s : AppState) : AppState := stop_all now s.

(** RunEvent::ExitRequested: whether the exit goes on, else another one is requested. *)
Definition exit_requested (now : Z) (s : AppState) : bool * AppState :=
  if has_running_vms s then (false, stop_all now s) else (true, s).

Fixpoint exit_app (fuel : nat) (now : Z) (s : AppState) : option AppState :=
  match fuel with
  | O => None
  | S fuel => match exit_requested now s with (true, s) => Some s | (false, s) => exit_app fuel now s end
  end.

Definition quit (fuel : nat) (now : Z) (s : AppState) : option AppState := exit_app fuel now (stop_active_vm now s).

Lemma stop_running now v s : running_venvs (stop now v s) = delete v (running_venvs s).
Proof.
  unfold stop_vm. destruct (running_venvs s !! v) as [sid|] eqn:E; [|by rewrite delete_id].
  cbn [running_venvs set_outputs]. destruct (vms (set_running _ _) !! sid); [|done]. by destruct (vacuum_session _ _ _ _).
Qed.

Lemma stop_vms now v s : vms (stop now v s) = match running_venvs s !! v with Some sid => delete sid (vms s) | None => vms s end.
Proof.
  unfold stop_vm. destruct (running_venvs s !! v) as [sid|] eqn:E; [|done].
  cbn [vms set_outputs]. destruct (vms (set_running _ _) !! sid); [|done]. by destruct (vacuum_session _ _ _ _).
Qed.

Lemma stop_list now vs : forall s, let s' := foldl (fun s v => stop now v s) s vs in
  (forall v, running_venvs s' !! v = if decide (v ∈ vs) then None else running_venvs s !! v) /\
  (forall sid, vms s !! sid = None -> vms s' !! sid = None) /\
  (forall v sid, v ∈ vs -> running_venvs s !! v = Some sid -> vms s' !! sid = None).
Proof.
  induction vs as [|w vs IH]; intros s; cbn [foldl]; [by repeat split; [..|intros v sid Hv; by apply elem_of_nil in Hv]|].
  destruct (IH (stop now w s)) as (Hr & Hn & Hd). split; [|split].
  - intros v. rewrite Hr, stop_running. destruct (decide (v ∈ vs)) as [Hv|Hv].
    + by rewrite decide_True by (by right).
    + destruct (decide (v = w)) as [->|Hw]; [rewrite lookup_delete_eq, decide_True; [done|left]|]. rewrite lookup_delete_ne by done.
      rewrite decide_False; [done|]. by intros [->|Hx]%elem_of_cons.
  - intros sid Hs. apply Hn. rewrite stop_vms. destruct (running_venvs s !! w); [|done]. by apply lookup_delete_None; right.
  - intros v sid Hv Hsid. destruct (decide (v = w)) as [->|Hw].
    + apply Hn. rewrite stop_vms, Hsid. apply lookup_delete_eq.
    + apply elem_of_cons in Hv as [->|Hv]; [done|]. apply (Hd v); [done|]. by rewrite stop_running, lookup_delete_ne by done.
Qed.

Lemma stop_all_none now s : running_venvs (stop_all now s) = ∅ /\ (forall v sid, running_venvs s !! v = Some sid -> vms (stop_all now s) !! sid = None).
Proof.
  unfold stop_all_vms. destruct (stop_list now (map fst (map_to_list (running_venvs s))) s) as (Hr & _ & Hd).
  assert (forall v sid, running_venvs s !! v = Some sid -> v ∈ map fst (map_to_list (running_venvs s))) as Hin.
  { intros v sid Hv. apply (list_elem_of_fmap_2 fst _ (v, sid)). by apply elem_of_map_to_list. }
  split.
  - apply map_eq. intros v. rewrite Hr, lookup_empty. destruct (decide _) as [|Hv]; [done|]. destruct (running_venvs s !! v) as [sid|] eqn:E; [|done]. by destruct Hv; eapply Hin.
  - intros v sid Hv. apply (Hd v); [by eapply Hin|done].
Qed.

(** An exit that is requested goes through at the second time at the latest, with every venv
    stopped and its VM gone, whatever the session index answers. *)
Theorem exit_stops_all (fuel : nat) (now : Z) (s : AppState) (Hfuel : (2 <= fuel)%nat) :
  exists s', exit_app fuel now s = Some s' /\ has_running_vms s' = false /\ (forall v sid, running_venvs s !! v = Some sid -> vms s' !! sid = None).
Proof.
  destruct fuel as [|[|fuel]]; [lia..|]. destruct (stop_all_none now s) as [Hn Hd]. cbn [exit_app exit_requested]. unfold exit_requested at 1. destruct (has_running_vms s) eqn:E.
  - exists (stop_all now s). unfold exit_requested, has_running_vms. rewrite Hn. rewrite bool_decide_true by done. by repeat split.
  - exists s. split; [done|]. split; [done|]. unfold has_running_vms in E. apply negb_false_iff, bool_decide_eq_true in E. intros v sid Hv. by rewrite E, lookup_empty in Hv.
Qed.

End Exit.

(** ** The tray's entries *)

Lemma insert_recent_Permutation v l : insert_recent v l ≡ₚ v :: l.
Proof. induction l as [|w l IH]; [done|]. cbn. destruct (opt_leb _ _); [done|]. rewrite IH. apply Permutation_swap. Qed.

Lemma sort_recent_Permutation l : sort_recent l ≡ₚ l.
Proof. induction l as [|v l IH]; [done|]. cbn. by rewrite insert_recent_Permutation, IH. Qed.

Lemma opt_leb_total a b : opt_leb a b = true \/ opt_leb b a = true.
Proof. destruct a as [a|], b as [b|]; cbn; auto. destruct (total String.le a b) as [H|H]; [left|right]; by apply Is_true_true. Qed.

Lemma opt_leb_trans a b c : opt_leb a b = true -> opt_leb b c = true -> opt_leb a c = true.
Proof.
  destruct a as [a|], b as [b|], c as [c|]; cbn; try done. rewrite <- !Is_true_true. apply (transitivity (R := String.le)).
Qed.

Definition recent_first (v w : VenvInfo) : Prop := opt_leb (vn_last_used w) (vn_last_used v) = true.

Lemma insert_recent_Sorted v l : StronglySorted recent_first l -> StronglySorted recent_first (insert_recent v l).
Proof.
  induction 1 as [|w l Hl IH Hw]; cbn [insert_recent]; [by repeat constructor|]. destruct (opt_leb _ _) eqn:E.
  - constructor; [by constructor|]. constructor; [done|]. eapply Forall_impl; [exact Hw|]. intros x Hx. by eapply opt_leb_trans.
  - constructor; [done|]. rewrite insert_recent_Permutation. constructor; [|done]. unfold recent_first. destruct (opt_leb_total (vn_last_used v) (vn_last_used w)); [done|congruence].
Qed.

Lemma sort_recent_Sorted l : StronglySorted recent_first (sort_recent l).
Proof. induction l as [|v l IH]; [constructor|]. by apply insert_recent_Sorted. Qed.

Lemma sorted_split n l v w : StronglySorted recent_first l -> v ∈ take n l -> w ∈ drop n l -> recent_first v w.
Proof.
  intros Hs. revert n. induction Hs as [|x l Hl IH Hx]; intros [|n] Hv Hw; cbn in *; try (by apply elem_of_nil in Hv).
  apply elem_of_cons in Hv as [->|Hv]; [|by eapply IH]. rewrite Forall_forall in Hx. apply Hx. apply list_elem_of_lookup in Hw as [i Hi]. rewrite lookup_drop in Hi. by apply list_elem_of_lookup_2 in Hi.
Qed.

Lemma venv_item_in version venvs running id label active : VenvItem id label active ∈ tray_menu version venvs running ->
  exists v, v ∈ take 5 (sort_recent venvs) /\ label = vn_name v /\ active = bool_decide (is_Some (running !! vn_id v)) /\ id = (if active then "stop:" else "start:") +:+ vn_id v.
Proof.
  unfold tray_menu. rewrite !elem_of_app. intros [Hin|[Hin|[Hin|Hin]]].
  - repeat (apply elem_of_cons in Hin as [[=]|Hin]). by apply elem_of_nil in Hin.
  - destruct (take 5 (sort_recent venvs)) as [|v l]; [by apply list_elem_of_singleton in Hin|]. apply list_elem_of_fmap in Hin as (w & [= -> -> ->] & Hw). by exists w.
  - destruct (_ <? _)%nat; [by apply list_elem_of_singleton in Hin|by apply elem_of_nil in Hin].
  - repeat (apply elem_of_cons in Hin as [[=]|Hin]). by apply elem_of_nil in Hin.
Qed.

(** Every venv of the menu is one of the table, with its name and whether it runs; no venv
    that is left out was used more recently; and choosing the entry starts that venv, or
    stops it when it runs. *)
Theorem tray_entry_acts (version : option string) (venvs : list VenvInfo) (running : gmap string string) (id label : string) (active : bool)
    (Hitem : VenvItem id label active ∈ tray_menu version venvs running) :
  exists v, v ∈ venvs /\ label = vn_name v /\ active = bool_decide (is_Some (running !! vn_id v)) /\
    on_menu_event id = (if active then StopVenv (vn_id v) else BootVenv (vn_id v)) /\
    (forall w, w ∈ drop 5 (sort_recent venvs) -> opt_leb (vn_last_used w) (vn_last_used v) = true).
Proof.
  apply venv_item_in in Hitem as (v & Hv & -> & Ha & ->). exists v. repeat split; [|done| |].
  - rewrite <- (sort_recent_Permutation venvs). apply elem_of_take in Hv as (i & Hi & _). by apply list_elem_of_lookup_2 in Hi.
  - by destruct active.
  - intros w Hw. by apply (sorted_split 5 (sort_recent venvs) v w (sort_recent_Sorted venvs)).
Qed.

(** ** Updates *)

Record Update := { up_version : string; up_body : option string }.

Inductive Check := UpdateFound (u : Update) | NoUpdate | CheckFailed (e : string).

(** The attempts from number [attempt] on: what they find and the seconds waited. *)
Fixpoint check_attempts (attempts : nat) (attempt : Z) (checks : list Check) : option Update * list Z :=
  match attempts, checks with
  | S attempts, c :: checks =>
      let waits := if 0 <? attempt then [2 ^ attempt] else [] in
      match c with
      | UpdateFound u => (Some u, waits)
      | NoUpdate => (None, waits)
      | CheckFailed _ => let '(u, w) := check_attempts attempts (attempt + 1) checks in (u, waits ++ w)
      end
  | _, _ => (None, [])
  end.

(** The update that is pending, and the version and notes the frontend is told. *)
Definition check_for_update (updater : bool) (checks : list Check) (pending : option Update) : option Update * option (string * string) :=
  if negb updater then (pending, None)
  else match (check_attempts 3 0 checks).1 with
       | Some update => (Some update, Some (up_version update, default "" (up_body update)))
       | None => (pending, None)
       end.

(** The progress events: what is downloaded so far, of the total. *)
Fixpoint update_progress (downloaded : Z) (chunks : list (Z * option Z)) : list (Z * option Z) :=
  match chunks with
  | [] => []
  | (chunk_len, total) :: chunks => (downloaded + chunk_len, total) :: update_progress (downloaded + chunk_len) chunks
  end.

(** [download] is the outcome of the download and the installation; a success restarts. *)
Definition install_update (pending : option Update) (chunks : list (Z * option Z)) (download : result unit string) : result unit string * option Update * list (Z * option Z) :=
  match pending with
  | None => (Err "no pending update", None, [])
  | Some _ => (download, None, update_progress 0 chunks)
  end.

(** An update is found exactly when one of the first three checks finds it and those before
    it failed; it is waited two seconds before the second and four before the third. *)
Theorem update_check (checks : list Check) (u : Update) :
  (check_attempts 3 0 checks).1 = Some u <->
  exists n, (n < 3)%nat /\ checks !! n = Some (UpdateFound u) /\ forall k, (k < n)%nat -> exists e, checks !! k = Some (CheckFailed e).
Proof.
  assert (forall m a cs, (check_attempts m a cs).1 = Some u <-> exists n, (n < m)%nat /\ cs !! n = Some (UpdateFound u) /\ forall k, (k < n)%nat -> exists e, cs !! k = Some (CheckFailed e)) as H; [|apply H].
  induction m as [|m IH]; intros a cs; [split; [done|intros (n & Hn & _); lia]|]. destruct cs as [|c cs]; [split; [done|by intros (n & _ & Hn & _)]|]. cbn [check_attempts]. destruct c as [v| |e].
  - split; [intros [= ->]; exists 0%nat; split; [lia|]; split; [done|lia]|]. intros ([|n] & _ & Hn & Hk); [by injection Hn as ->|]. by destruct (Hk 0%nat ltac:(lia)) as [e [=]].
  - split; [done|]. intros ([|n] & _ & Hn & Hk); [done|]. by destruct (Hk 0%nat ltac:(lia)) as [e [=]].
  - specialize (IH (a + 1) cs). destruct (check_attempts m (a + 1) cs) as [v w]. cbn [fst] in *. rewrite IH. split.
    + intros (n & Hn & Hl & Hk). exists (S n). split; [lia|]. split; [done|]. intros [|k] Hlt; [by exists e|]. apply Hk. lia.
    + intros ([|n] & Hn & Hl & Hk); [done|]. exists n. split; [lia|]. split; [done|]. intros k Hlt. apply (Hk (S k)). lia.
Qed.

(** ** A menu *)

Module Demo.

Definition venv (i name : string) (used : option string) : VenvInfo :=
  {| vn_id := i; vn_name := name; vn_status := "stopped"; vn_created_at := ""; vn_last_used := used; vn_ephemeral := false; vn_template := "blank"; vn_icon := None |}.
Definition venvs : list VenvInfo :=
  [venv "a" "A" None; venv "b" "B" (Some "2026-01-02"); venv "c" "C" (Some "2026-01-01"); venv "d" "D" (Some "2026-03-01"); venv "e" "E" (Some "2026-01-02"); venv "f" "F" (Some "2025-01-01")].
Definition running : gmap string string := {["d" := "s1"]}.

Example menu : tray_menu (Some "1.0") venvs running =
  [Item "header" "Clawcage v1.0" false; Separator; VenvItem "stop:d" "D" true; VenvItem "start:b" "B" false; VenvItem "start:e" "E" false; VenvItem "start:c" "C" false; VenvItem "start:f" "F" false;
   Item "show-more" "View all..." true; Separator; Item "show" "Open Dashboard" true; Separator; Item "quit" "Quit Clawcage" true].
Proof. vm_compute. reflexivity. Qed.

Definition v2 : Update := {| up_version := "2"; up_body := None |}.

Example found_at_third : check_attempts 3 0 [CheckFailed "dns"; CheckFailed "dns"; UpdateFound v2] = (Some v2, [2; 4]).
Proof. reflexivity. Qed.

(** The update is taken before it is downloaded: after a failed download there is none to try
    again until the application is started anew. *)
Example failed_install_forgets : let '(r, pending, _) := install_update (Some v2) [(10, Some 20)] (Err "timeout") in
  r = Err "timeout" /\ (install_update pending [] (Ok tt)).1.1 = Err "no pending update".
Proof. vm_compute. done. Qed.

End Demo.

Lemma tray_entry_acts_witness : on_menu_event "stop:d" = StopVenv "d".
Proof.
  destruct (tray_entry_acts (Some "1.0") Demo.venvs Demo.running "stop:d" "D" true) as (v & _ & _ & _ & Hm & _); [vm_compute; do 2 right; left|]. rewrite Hm. injection Hm as ->. reflexivity.
Defined.
