(* ===== verification/VmMachine.v ===== *)
(** The virtual machine over its framework: crates/clawcage-core/src/vm/machine.rs, boot.rs,
    serial.rs and the listener of vsock.rs, with [serial_to_events] of
    crates/clawcage-app/src/main.rs.

    The framework is the class [Virtualization]: attaching a disk image, the validation of a
    configuration, and the outcome of a start or a stop. What is configured says what it is
    told ([created_configuration]), but a creation that fails late leaks the two descriptors
    of the console ([create_descriptors]). The console's output is broadcast to a receiver
    that may lag: it gets a part of the messages, in order ([console_sublist]), and all of
    them while it is not more than 256 behind ([console_delivered]). *)

From Stdlib Require Import ZArith Lia Strings.Byte Ascii.
From stdpp Require Import base numbers list gmap sets strings.
From S2P Require Import Prelude RustStr Utf8 Proto Vm HostTerminal.

Inductive CachingMode := Cached.
Inductive SyncMode := SyncNone | SyncFull.

Class Virtualization := {
  Attachment : Type;
  disk_attachment : string -> bool -> CachingMode -> SyncMode -> result Attachment string;
}.

Section Machine.
Context `{Virtualization}.

(** ** The configuration *)

Record BootLoader := { bl_kernel : string; bl_command_line : string; bl_initrd : option string }.
Record StorageDevice := { sd_attachment : Attachment; sd_identifier : option string }.

Record VzConfig := {
  vz_cpu_count : Z;
  vz_memory_size : Z;
  vz_boot_loader : BootLoader;
  vz_entropy_devices : nat;
  vz_serial_ports : list (Z * Z);  (* the pipes read from and written to by the machine *)
  vz_socket_devices : nat;
  vz_storage_devices : list StorageDevice;
}.

(** [Context::context]: the text of the error chain, as [{:#}] prints it. *)
Definition context {A} (c : string) (r : result A string) : result A string :=
  match r with Ok a => Ok a | Err e => Err (c +:+ ": " +:+ e) end.

(** [Path::to_str] *)
Definition to_str (path : string) : option string := from_utf8 (bytes_of_string path).

Definition nsurl_from_path (path : string) : result string string :=
  match to_str path with Some s => Ok s | None => Err "path is not valid UTF-8" end.

Definition create_boot_loader (config : VmConfig) : result BootLoader string :=
  let? kernel_url := context "failed to create kernel URL" (nsurl_from_path (kernel_path config)) in
  match initrd_path config with
  | None => Ok {| bl_kernel := kernel_url; bl_command_line := kernel_cmdline config; bl_initrd := None |}
  | Some initrd_path =>
      let? initrd_url := context "failed to create initrd URL" (nsurl_from_path initrd_path) in
      Ok {| bl_kernel := kernel_url; bl_command_line := kernel_cmdline config; bl_initrd := Some initrd_url |}
  end.

Record SerialConsole := { sc_read_fd : Z }.

(** The two pipes, and what [dup] answers for the ends that the host keeps. *)
Record Pipes := { input_pipe : Z; output_pipe : Z; dup_read : Z; dup_write : Z; dup_error : string }.

Definition create_serial_port (p : Pipes) (fds : gset Z) : result ((Z * Z) * SerialConsole * Z) string * gset Z :=
  if dup_read p <? 0 then (Err ("dup() failed: " +:+ dup_error p), fds)
  else
    let fds := {[dup_read p]} ∪ fds in
    if dup_write p <? 0 then (Err ("dup() failed: " +:+ dup_error p), fds ∖ {[dup_read p]})
    else (Ok ((input_pipe p, output_pipe p), {| sc_read_fd := dup_read p |}, dup_write p), {[dup_write p]} ∪ fds).

Definition attach_disk (path : string) (read_only : bool) (identifier : option string) : result StorageDevice string :=
  match to_str path with
  | None => Err "disk path not valid UTF-8"
  | Some path_str =>
      let sync_mode := if read_only then SyncNone else SyncFull in
      match disk_attachment path_str read_only Cached sync_mode with
      | Err e => Err ("disk attach failed for " +:+ path +:+ ": " +:+ e)
      | Ok a => Ok {| sd_attachment := a; sd_identifier := identifier |}
      end
  end.

(** [if let Some(ref path) = .. { storage_devices.push(attach_disk(..)?) }] *)
Definition attach_opt (path : option string) (read_only : bool) (identifier : string) : result (list StorageDevice) string :=
  match path with
  | None => Ok []
  | Some p => let? device := attach_disk p read_only (Some identifier) in Ok [device]
  end.

Record VirtualMachine := { vm_config : VzConfig; serial_console : option SerialConsole }.

Variable validate : VzConfig -> option string.

Definition create (config : VmConfig) (p : Pipes) (fds : gset Z) : result (VirtualMachine * Z) string * gset Z :=
  match create_boot_loader config with
  | Err e => (Err e, fds)
  | Ok boot_loader =>
      match create_serial_port p fds with
      | (Err e, fds) => (Err e, fds)
      | (Ok (serial_port, console, input_fd), fds) =>
          ((let? rootfs := attach_opt (disk_path config) true "rootfs" in
            let? scratch := attach_opt (scratch_disk_path config) false "scratch" in
            let vz_config := {| vz_cpu_count := cpu_count config; vz_memory_size := ram_bytes config; vz_boot_loader := boot_loader; vz_entropy_devices := 1;
                                vz_serial_ports := [serial_port]; vz_socket_devices := 1; vz_storage_devices := rootfs ++ scratch |} in
            match validate vz_config with
            | Some e => Err ("VM config validation failed: " +:+ e)
            | None => Ok ({| vm_config := vz_config; serial_console := Some console |}, input_fd)
            end), fds)
      end
  end.

(** ** Starting and stopping *)

(** One turn of the run loop: no answer yet, the answer of the completion handler (nothing
    when the error is null), or the channel closed. *)
Inductive Recv := Empty | Completed (error : option string) | Disconnected.

Fixpoint spin_runloop_until (what : string) (turns : list Recv) : option (result unit string) :=
  match turns with
  | [] => None
  | Completed None :: _ => Some (Ok tt)
  | Completed (Some desc) :: _ => Some (Err (what +:+ " failed: " +:+ desc))
  | Disconnected :: _ => Some (Err "completion handler channel closed")
  | Empty :: turns => spin_runloop_until what turns
  end.

(** The outcome, the machine, and the console whose reader was spawned. *)
Definition start (vm : VirtualMachine) (turns : list Recv) : option (result unit string) * VirtualMachine * option SerialConsole :=
  (context "VM start" <$> spin_runloop_until "VM start" turns, {| vm_config := vm_config vm; serial_console := None |}, serial_console vm).

Definition stop (turns : list Recv) : option (result unit string) := context "VM stop" <$> spin_runloop_until "VM stop" turns.

Inductive VZState := Stopped | Running | Paused | VZError | Starting | Stopping | Pausing | Resuming | Saving | Restoring | Other.

Definition vm_state (s : VZState) : string :=
  match s with
  | Stopped => "stopped" | Running => "running" | Paused => "paused" | VZError => "error" | Starting => "starting" | Stopping => "stopping"
  | Pausing => "pausing" | Resuming => "resuming" | Saving => "saving" | Restoring => "restoring" | Other => "unknown"
  end.

(** *** What is created *)

Lemma to_str_Some s t : to_str s = Some t -> t = s.
Proof. intros ->%from_utf8_Some. apply string_of_bytes_of_string. Qed.

Lemma boot_loader_spec config bl : create_boot_loader config = Ok bl -> bl = {| bl_kernel := kernel_path config; bl_command_line := kernel_cmdline config; bl_initrd := initrd_path config |}.
Proof.
  unfold create_boot_loader, nsurl_from_path. destruct (to_str (kernel_path config)) as [k|] eqn:Hk; cbn; [|done]. apply to_str_Some in Hk as ->. destruct (initrd_path config) as [i|]; [|by intros [= <-]].
  destruct (to_str i) as [t|] eqn:Hi; [|done]. apply to_str_Some in Hi as ->. by intros [= <-].
Qed.

Lemma attach_opt_spec path b i :
  match attach_opt path b i with
  | Ok l => match path with
            | None => l = []
            | Some s => exists a, l = [{| sd_attachment := a; sd_identifier := Some i |}] /\ disk_attachment s b Cached (if b then SyncNone else SyncFull) = Ok a
            end
  | Err _ => True
  end.
Proof.
  destruct path as [s|]; cbn [attach_opt]; [|done]. unfold attach_disk. destruct (to_str s) as [t|] eqn:Et; [|done]. apply to_str_Some in Et as ->.
  destruct (disk_attachment s b Cached _) as [a|]; [|done]. by exists a.
Qed.

(** A machine that is created has the processors, the memory, the kernel and the command line
    of the configuration, the root file system first, which it cannot write, then the scratch
    disk, whose writes reach the file. *)
Theorem created_configuration (config : VmConfig) (p : Pipes) (fds fds' : gset Z) (vm : VirtualMachine) (input_fd : Z)
    (Hrun : create config p fds = (Ok (vm, input_fd), fds')) :
  let vz := vm_config vm in
  vz_cpu_count vz = cpu_count config /\ vz_memory_size vz = ram_bytes config /\
  vz_boot_loader vz = {| bl_kernel := kernel_path config; bl_command_line := kernel_cmdline config; bl_initrd := initrd_path config |} /\
  vz_serial_ports vz = [(input_pipe p, output_pipe p)] /\ input_fd = dup_write p /\ serial_console vm = Some {| sc_read_fd := dup_read p |} /\
  exists rootfs scratch, vz_storage_devices vz = rootfs ++ scratch /\
    match disk_path config with
    | None => rootfs = []
    | Some path => exists a, rootfs = [{| sd_attachment := a; sd_identifier := Some "rootfs" |}] /\ disk_attachment path true Cached SyncNone = Ok a
    end /\
    match scratch_disk_path config with
    | None => scratch = []
    | Some path => exists a, scratch = [{| sd_attachment := a; sd_identifier := Some "scratch" |}] /\ disk_attachment path false Cached SyncFull = Ok a
    end.
Proof.
  unfold create in Hrun. destruct (create_boot_loader config) as [bl|] eqn:Hbl; [|done]. unfold create_serial_port in Hrun.
  destruct (dup_read p <? 0); [done|]. destruct (dup_write p <? 0); [done|]. pose proof (attach_opt_spec (disk_path config) true "rootfs") as Hr. pose proof (attach_opt_spec (scratch_disk_path config) false "scratch") as Hs.
  destruct (attach_opt (disk_path config) true "rootfs") as [rootfs|]; [|done]. destruct (attach_opt (scratch_disk_path config) false "scratch") as [scratch|]; [|done].
  destruct (validate _); [done|]. injection Hrun as <- <- _. cbn. apply boot_loader_spec in Hbl as ->. repeat split. by exists rootfs, scratch.
Qed.

(** A creation that succeeds keeps the two descriptors it returns. One that fails before the
    console leaves the descriptors as they were; one that fails after it, on a disk or in the
    validation, has both open and returns neither. *)
Theorem create_descriptors (config : VmConfig) (p : Pipes) (fds : gset Z) (Hpipes : 0 <= dup_read p /\ 0 <= dup_write p) :
  let '(r, fds') := create config p fds in
  match create_boot_loader config with
  | Err e => r = Err e /\ fds' = fds
  | Ok _ => fds' = {[dup_write p; dup_read p]} ∪ fds
  end.
Proof.
  unfold create, create_serial_port. destruct (create_boot_loader config); [|done]. destruct (Z.ltb_spec (dup_read p) 0), (Z.ltb_spec (dup_write p) 0); [lia..|].
  by rewrite union_assoc_L.
Qed.

(** Starting and stopping wait for the completion handler: they return once it has answered
    or its channel is closed, and not before. *)
Theorem spin_outcome (what : string) (turns : list Recv) :
  match spin_runloop_until what turns with
  | None => Forall (fun t => t = Empty) turns
  | Some r => exists n t, turns !! n = Some t /\ (forall k, (k < n)%nat -> turns !! k = Some Empty) /\
      match t with Empty => False | Completed None => r = Ok tt | Completed (Some desc) => r = Err (what +:+ " failed: " +:+ desc) | Disconnected => r = Err "completion handler channel closed" end
  end.
Proof.
  induction turns as [|t turns IH]; cbn [spin_runloop_until]; [by constructor|]. destruct t as [|[desc|]|]; [|exists 0%nat; eexists; (split; [done|]); (split; [lia|done])..].
  destruct (spin_runloop_until what turns) as [r|]; [|by constructor]. destruct IH as (n & t & Hn & Hk & Ht). exists (S n), t. split; [done|]. split; [|done].
  intros [|k] Hlt; [done|]. apply Hk. lia.
Qed.

End Machine.

(** ** The serial console *)

(** The reads of the pipe into a buffer of 4096 bytes: what is broadcast, up to the end or an
    error. *)
Fixpoint read_loop (reads : list (result (list byte) string)) : list (list byte) :=
  match reads with
  | Ok (b :: bytes) :: reads => (b :: bytes) :: read_loop reads
  | _ => []
  end.

Definition BROADCAST_CAPACITY : nat := Z.to_nat 256.

(** tokio's broadcast channel for one receiver: the messages sent since it subscribed, the
    number of the next one it gets, and whether the sender is gone. *)
Record Broadcast := { bc_sent : list (list byte); bc_next : nat; bc_closed : bool }.

Definition broadcast_new : Broadcast := {| bc_sent := []; bc_next := 0; bc_closed := false |}.

Inductive RecvResult := Received (m : list byte) | Lagged (n : nat) | RecvClosed | RecvWait.

(** A receiver that is more than the capacity behind loses the oldest messages. *)
Definition broadcast_recv (c : Broadcast) : RecvResult * Broadcast :=
  let oldest := (length (bc_sent c) - BROADCAST_CAPACITY)%nat in
  if (bc_next c <? oldest)%nat then (Lagged (oldest - bc_next c), {| bc_sent := bc_sent c; bc_next := oldest; bc_closed := bc_closed c |})
  else match bc_sent c !! bc_next c with
       | Some m => (Received m, {| bc_sent := bc_sent c; bc_next := S (bc_next c); bc_closed := bc_closed c |})
       | None => (if bc_closed c then RecvClosed else RecvWait, c)
       end.

Definition broadcast_send (m : list byte) (c : Broadcast) : Broadcast := {| bc_sent := bc_sent c ++ [m]; bc_next := bc_next c; bc_closed := bc_closed c |}.
Definition broadcast_close (c : Broadcast) : Broadcast := {| bc_sent := bc_sent c; bc_next := bc_next c; bc_closed := true |}.

(** A turn of the loop of [serial_to_events]: the queue, and whether the loop goes on. *)
Definition serial_turn (c : Broadcast) (q : TerminalOutputQueue) : bool * Broadcast * TerminalOutputQueue :=
  match broadcast_recv c with
  | (Received bytes, c) => (true, c, push bytes q)
  | (RecvClosed, c) => (false, c, q)
  | (_, c) => (true, c, q)
  end.

(** The reader sends, the pipe ends, and the task takes its turns, in any order. *)
Inductive SerialEvent := Sends (bytes : list byte) | Ends | Turn.

(** The messages taken by the task so far go with the state. *)
Definition serial_event (s : Broadcast * list (list byte)) (e : SerialEvent) : Broadcast * list (list byte) :=
  let '(c, out) := s in
  match e with
  | Sends bytes => (broadcast_send bytes c, out)
  | Ends => (broadcast_close c, out)
  | Turn => match broadcast_recv c with (Received bytes, c) => (c, out ++ [bytes]) | (_, c) => (c, out) end
  end.

Definition serial_run (es : list SerialEvent) : Broadcast * list (list byte) := foldl serial_event (broadcast_new, []) es.

Definition sends (es : list SerialEvent) : list (list byte) := omap (fun e => match e with Sends b => Some b | _ => None end) es.

(** What the pipe delivers is broadcast whole and in order. *)
Theorem console_broadcast (reads : list (list byte)) (rest : list (result (list byte) string)) (Hne : Forall (fun r => r <> []) reads) :
  read_loop (map Ok reads ++ Ok [] :: rest) = reads.
Proof. induction Hne as [|r reads Hr _ IH]; [done|]. destruct r as [|b r]; [done|]. cbn. by rewrite IH. Qed.

(** A receive takes the next message, skips those that are lost, or changes nothing. *)
Lemma recv_cases c : let '(r, c') := broadcast_recv c in
  bc_sent c' = bc_sent c /\
  match r with
  | Received m => (length (bc_sent c) <= bc_next c + BROADCAST_CAPACITY)%nat /\ bc_sent c !! bc_next c = Some m /\ bc_next c' = S (bc_next c)
  | Lagged n => (bc_next c + BROADCAST_CAPACITY < length (bc_sent c))%nat /\ bc_next c' = (bc_next c + n)%nat
  | _ => bc_next c' = bc_next c
  end.
Proof.
  unfold broadcast_recv. generalize BROADCAST_CAPACITY as cap. intros cap. destruct (Nat.ltb_spec (bc_next c) (length (bc_sent c) - cap)); cbn [bc_sent bc_next]; [split; [done|lia]|].
  destruct (bc_sent c !! bc_next c) as [m|] eqn:E; cbn [bc_sent bc_next]; [|by destruct (bc_closed c)]. split; [done|]. split; [lia|done].
Qed.

Lemma serial_snoc es e : serial_run (es ++ [e]) = serial_event (serial_run es) e.
Proof. unfold serial_run. by rewrite foldl_app. Qed.

Lemma sends_snoc es e : sends (es ++ [e]) = sends es ++ match e with Sends b => [b] | _ => [] end.
Proof. unfold sends. rewrite omap_app. by destruct e. Qed.

Lemma serial_sent es : bc_sent (serial_run es).1 = sends es.
Proof.
  induction es as [|e es IH] using rev_ind; [done|]. rewrite serial_snoc, sends_snoc. destruct (serial_run es) as [c out]. cbn [fst] in IH.
  destruct e as [b| |]; cbn [serial_event]; [cbn; by rewrite IH|cbn; by rewrite IH, app_nil_r|]. rewrite app_nil_r. pose proof (recv_cases c) as Hr.
  destruct (broadcast_recv c) as [r c']. destruct Hr as [Hs _]. by destruct r; cbn [fst]; rewrite Hs.
Qed.

Lemma serial_next es : (bc_next (serial_run es).1 <= length (sends es))%nat.
Proof.
  induction es as [|e es IH] using rev_ind; [done|]. rewrite serial_snoc, sends_snoc, length_app. pose proof (serial_sent es) as Hsent. destruct (serial_run es) as [c out]. cbn [fst] in *.
  destruct e as [b| |]; cbn [serial_event]; [cbn; lia|cbn; lia|]. unfold broadcast_recv. rewrite Hsent. generalize BROADCAST_CAPACITY as cap. intros cap.
  destruct (Nat.ltb_spec (bc_next c) (length (sends es) - cap)); cbn; [lia|]. destruct (sends es !! bc_next c) as [m|] eqn:E; cbn; [apply lookup_lt_Some in E; lia|]. destruct (bc_closed c); cbn; lia.
Qed.

Lemma take_sublist {A} n m (l : list A) : (n <= m)%nat -> take n l `sublist_of` take m l.
Proof. intros H. replace (take n l) with (take n (take m l)) by (rewrite take_take; by rewrite Nat.min_l). apply sublist_take. Qed.

(** The terminal gets a part of the messages, whole and in order. *)
Theorem console_sublist (es : list SerialEvent) : (serial_run es).2 `sublist_of` sends es.
Proof.
  cut ((serial_run es).2 `sublist_of` take (bc_next (serial_run es).1) (sends es)).
  { intros H. etrans; [exact H|]. apply sublist_take. }
  induction es as [|e es IH] using rev_ind; [done|]. rewrite serial_snoc, sends_snoc. pose proof (serial_sent es) as Hsent. destruct (serial_run es) as [c out]. cbn [fst snd] in *.
  destruct e as [b| |]; cbn [serial_event].
  - cbn. etrans; [exact IH|]. rewrite take_app. by apply sublist_inserts_r.
  - by rewrite app_nil_r.
  - rewrite app_nil_r. pose proof (recv_cases c) as Hr. destruct (broadcast_recv c) as [r c']. destruct Hr as [_ Hr]. destruct r as [m|n| |]; cbn [fst snd].
    + destruct Hr as (_ & Hm & ->). rewrite Hsent in Hm. rewrite (take_S_r _ _ m) by done. by apply sublist_app.
    + destruct Hr as [_ ->]. etrans; [exact IH|]. apply take_sublist. lia.
    + by rewrite Hr.
    + by rewrite Hr.
Qed.

(** As long as the task is at most 256 messages behind, it gets them all: what it has taken is
    what was sent up to where it is. *)
Theorem console_delivered (es : list SerialEvent) (Hkeeps : forall es', es' `prefix_of` es -> let c := (serial_run es').1 in (length (bc_sent c) <= bc_next c + BROADCAST_CAPACITY)%nat) :
  (serial_run es).2 = take (bc_next (serial_run es).1) (sends es).
Proof.
  induction es as [|e es IH] using rev_ind; [done|]. pose proof (Hkeeps es ltac:(by apply prefix_app_r)) as Hk. specialize (IH (fun es' He => Hkeeps es' ltac:(by apply prefix_app_r))).
  rewrite serial_snoc, sends_snoc. pose proof (serial_sent es) as Hsent. pose proof (serial_next es) as Hle. destruct (serial_run es) as [c out]. cbn [fst snd] in *. destruct e as [b| |]; cbn [serial_event].
  - cbn. by rewrite take_app_le.
  - by rewrite app_nil_r.
  - rewrite app_nil_r. pose proof (recv_cases c) as Hr. destruct (broadcast_recv c) as [r c']. destruct Hr as [_ Hr]. destruct r as [m|n| |]; cbn [fst snd].
    + destruct Hr as (_ & Hm & ->). rewrite Hsent in Hm. by rewrite (take_S_r _ _ m), IH.
    + lia.
    + by rewrite Hr.
    + by rewrite Hr.
Qed.

(** ** The vsock listener *)

Record GuestConnection := { vc_fd : Z; vc_port : Z }.

(** The manager: the ports with a listener, and the queue that the delegate fills. *)
Record VsockManager := { vsock_listeners : list Z; vsock_rx : list GuestConnection }.

Definition vsock_new (device_count : Z) (ports : list Z) : result VsockManager string :=
  if device_count =? 0 then Err "no socket devices configured on VM" else Ok {| vsock_listeners := ports; vsock_rx := [] |}.

(** The answer to the framework, and the queue; [None] for a manager that is gone. *)
Definition listener_should_accept (m : option VsockManager) (c : GuestConnection) : bool * option VsockManager :=
  if vc_fd c <? 0 then (false, m)
  else match m with
       | None => (false, None)
       | Some m => (true, Some {| vsock_listeners := vsock_listeners m; vsock_rx := vsock_rx m ++ [c] |})
       end.

(** [try_accept]: the connection, or nothing while the queue is empty. *)
Definition try_accept (m : VsockManager) : option GuestConnection * VsockManager :=
  match vsock_rx m with
  | [] => (None, m)
  | c :: rx => (Some c, {| vsock_listeners := vsock_listeners m; vsock_rx := rx |})
  end.

(** The framework's calls and the host's, in any order, with what was accepted and what was
    taken. *)
Definition vsock_event (s : VsockManager * (list GuestConnection * list GuestConnection)) (e : option GuestConnection) : VsockManager * (list GuestConnection * list GuestConnection) :=
  let '(m, (accepted, taken)) := s in
  match e with
  | Some c => match listener_should_accept (Some m) c with (true, Some m) => (m, (accepted ++ [c], taken)) | _ => s end
  | None => match try_accept m with (Some c, m) => (m, (accepted, taken ++ [c])) | _ => s end
  end.

(** The host gets the connections that the framework was told are accepted, each once and in
    order; all have a descriptor. *)
Theorem vsock_accepted (ports : list Z) (es : list (option GuestConnection)) :
  let '(m, (accepted, taken)) := foldl vsock_event ({| vsock_listeners := ports; vsock_rx := [] |}, ([], [])) es in
  accepted = taken ++ vsock_rx m /\ vsock_listeners m = ports /\ accepted = filter (fun c => 0 <= vc_fd c) (omap id es).
Proof.
  induction es as [|e es IH] using rev_ind; [done|]. rewrite foldl_app, omap_app, filter_app. cbn [foldl]. destruct (foldl vsock_event _ es) as [m [accepted taken]]. destruct IH as (Ha & Hl & Hf).
  destruct e as [c|]; cbn [vsock_event].
  - unfold listener_should_accept. change (omap id [Some c]) with [c]. destruct (Z.ltb_spec (vc_fd c) 0).
    + rewrite filter_cons_False by lia. by rewrite app_nil_r.
    + rewrite filter_cons_True by lia. cbn. by rewrite Ha, <- Hf, app_assoc, Ha.
  - unfold try_accept. change (omap id [None : option GuestConnection]) with ([] : list GuestConnection). rewrite app_nil_r. destruct (vsock_rx m) as [|c rx] eqn:Hrx; [by rewrite Hrx|]. cbn. by rewrite <- app_assoc.
Qed.

(** ** A machine *)

Module Demo.

(** Images are attached when their path does not start with [/missing]. *)
#[local] Instance demo_vz : Virtualization :=
  {| Attachment := string; disk_attachment path ro _ _ := if starts_with path "/missing" then Err "no such file" else Ok path |}.

Definition config (rootfs scratch : option string) : VmConfig :=
  {| cpu_count := 4; ram_bytes := 4294967296; kernel_path := "/vm/vmlinuz"; initrd_path := Some "/vm/initrd.img"; disk_path := rootfs; scratch_disk_path := scratch;
     kernel_cmdline := "console=hvc0 root=/dev/vda ro";
     expected_kernel_hash := None; expected_initrd_hash := None; expected_disk_hash := None |}.
Definition pipes : Pipes := {| input_pipe := 10; output_pipe := 11; dup_read := 12; dup_write := 13; dup_error := "" |}.
Definition made := create (fun _ => None) (config (Some "/vm/rootfs.img") (Some "/vm/scratch.img")) pipes {[0; 1; 2]}.

Example disks : exists vm fds, made = (Ok (vm, 13), fds) /\ map sd_identifier (vz_storage_devices (vm_config vm)) = [Some "rootfs"; Some "scratch"] /\ map sd_attachment (vz_storage_devices (vm_config vm)) = ["/vm/rootfs.img"; "/vm/scratch.img"].
Proof. do 2 eexists. by vm_compute. Qed.

(** A scratch disk that cannot be attached leaves the console's descriptors open. *)
Example descriptors_leaked : create (fun _ => None) (config (Some "/vm/rootfs.img") (Some "/missing.img")) pipes {[0; 1; 2]} =
  (Err "disk attach failed for /missing.img: no such file", {[12; 13; 0; 1; 2]}).
Proof. by vm_compute. Qed.

(** Without a root file system the scratch disk is the first one, which the command line names
    as the root. *)
Example scratch_first : exists vm fds, create (fun _ => None) (config None (Some "/vm/scratch.img")) pipes {[0; 1; 2]} = (Ok (vm, 13), fds) /\
  map sd_identifier (vz_storage_devices (vm_config vm)) = [Some "scratch"] /\ bl_command_line (vz_boot_loader (vm_config vm)) = "console=hvc0 root=/dev/vda ro".
Proof. do 2 eexists. by vm_compute. Qed.

(** A receiver that falls behind loses the oldest messages and goes on with the rest. *)
Example oldest_lost : let es := replicate 258 (Sends [x61]) ++ Sends [x62] :: replicate 300 Turn in
  length (serial_run es).2 = 256%nat /\ last (serial_run es).2 = Some [x62].
Proof. by vm_compute. Qed.

End Demo.

Lemma created_configuration_witness : exists vm fds, Demo.made = (Ok (vm, 13), fds) /\ vz_memory_size (vm_config vm) = 4294967296.
Proof.
  destruct Demo.disks as (vm & fds & Hm & _). exists vm, fds. split; [exact Hm|]. destruct (created_configuration _ _ _ _ _ _ _ Hm) as (_ & H & _). exact H.
Defined.

Lemma create_descriptors_witness : let '(_, fds) := Demo.made in fds = {[13; 12]} ∪ ({[0; 1; 2]} : gset Z).
Proof. exact (@create_descriptors Demo.demo_vz (fun _ => None) (Demo.config (Some "/vm/rootfs.img") (Some "/vm/scratch.img")) Demo.pipes {[0; 1; 2]} ltac:(vm_compute; split; discriminate)). Defined.

Lemma sends_length es : (length (sends es) <= length es)%nat.
Proof. induction es as [|e es IH] using rev_ind; [done|]. rewrite sends_snoc, !length_app. destruct e; cbn [length]; lia. Qed.

Lemma console_delivered_witness : (serial_run [Sends [x61]; Turn; Sends [x62]; Ends; Turn]).2 = [[x61]; [x62]].
Proof.
  rewrite console_delivered; [reflexivity|]. intros es' Hp%prefix_length. cbv zeta. rewrite serial_sent. pose proof (sends_length es').
  cbn [length] in Hp. assert (5 <= BROADCAST_CAPACITY)%nat by (apply Nat.leb_le; vm_compute; reflexivity). lia.
Defined.
