(* ===== verification/AgentStart.v ===== *)
(** The start of the guest agent: main and spawn_shell of crates/clawcage-agent/src/main.rs,
    with the template setup that images/clawcage-bashrc runs in the first shell.

    The agent reports that it is ready once its default shell runs, with variables that the
    shell's process can set ([ready_means_started]). The setup script that the host delivers
    is put where a shell finds it ([setup_delivered]) and is not started again after it has
    succeeded ([setup_not_repeated]); two shells that start together both run it (example
    [setup_runs_twice]). *)

From Stdlib Require Import ZArith Lia Strings.Byte Ascii.
From stdpp Require Import base numbers list gmap strings.
From S2P Require Import Prelude RustStr Utf8 Proto Boot AgentControl.

(** Regular files: their content and mode. *)
Abbreviation Files := (gmap string (list byte * Z)).

(** ** The environment of a shell *)

Abbreviation Env := (gmap string string).

(** [std::env::set_var]; [None] is its panic. *)
Definition set_var (key value : string) (env : Env) : option Env :=
  if is_empty key || contains_char key "="%char || contains_char key NUL || contains_char value NUL then None
  else Some (<[key := value]> env).

Fixpoint set_vars (kvs : list (string * string)) (env : Env) : option Env :=
  match kvs with
  | [] => Some env
  | (k, v) :: kvs => env ← set_var k v env; set_vars kvs env
  end.

Definition shell_vars : list (string * string) := [("TERM", "xterm-256color"); ("HOME", "/root"); ("LANG", "C")].

Inductive Child := ChildExecs (path : string) (argv : list string) (env : Env) | ChildExits (code : Z) | ChildPanics.

(** The child's side of [spawn_shell]: [setup_ok] for setsid and the three dup2, [exec_ok]
    for execvp. *)
Definition spawn_shell_child (setup_ok exec_ok : bool) (inherited : Env) (boot_env : list (string * string)) : Child :=
  if negb setup_ok then ChildPanics
  else match set_vars (shell_vars ++ boot_env) inherited with
       | None => ChildPanics
       | Some env => if exec_ok then ChildExecs "/bin/bash" ["/bin/bash"; "--rcfile"; "/etc/clawcage-bashrc"; "-i"] env else ChildExits 1
       end.

(** ** The template's setup script *)

Definition SETUP_SCRIPT : string := "/tmp/.clawcage-template-setup.sh".
Definition SETUP_DONE : string := "/root/.clawcage-setup-done".
Definition SETUP_ENV : string := "/tmp/.clawcage-template-setup.env".
Definition rc_path : string := "/root/.clawcage-setup-rc".

(** Step 4b; [copy_ok]: [std::fs::copy] succeeds. *)
Definition setup_step (copy_ok : bool) (fs : Files) : Files :=
  match fs !! SETUP_SCRIPT with
  | None => fs
  | Some script =>
      let fs := if bool_decide (is_Some (fs !! SETUP_DONE)) then fs
                else alter (fun f => (f.1, 493)) rc_path (if copy_ok then <[rc_path := script]> fs else fs) in
      delete SETUP_ENV (delete SETUP_SCRIPT fs)
  end.

(** ** The agent *)

Definition write_boot_files (written : list (string * list byte * Z)) (fs : Files) : Files :=
  foldl (fun fs (w : string * list byte * Z) => <[w.1.1 := (w.1.2, w.2)]> fs) fs written.

Record Started := { st_shells : ShellManager; st_env : list (string * string); st_files : Files; st_clock : option Z; st_rest : list byte }.

Inductive Outcome := Exits (code : Z) | Panics | Bridges (s : Started).

Section Main.
Context `{Rmp HostToGuest}.
Variable version : string.
Variable send_ok : GuestToHost -> bool.
Variable write_ok : string -> bool.
Variable copy_ok : bool.
(** The parent's side of [spawn_shell]: the descriptor and the process. *)
Variable spawn : Z -> result (Z * Z) string.

(** [main] after the two connections, on the files there are and what the host sends on the
    control channel: the messages sent, and how it ends. *)
Definition agent_main (files : Files) (stream : list byte) : list GuestToHost * Outcome :=
  if negb (send_ok (Ready version)) then ([], Exits 1)
  else
    match boot_handshake write_ok stream with
    | (clock, Booted st rest) =>
        let files := setup_step copy_ok (write_boot_files (boot_files st) files) in
        match spawn DEFAULT_SHELL_SESSION_ID with
        | Err _ => ([Ready version], Exits 1)
        | Ok (fd, pid) =>
            (Ready version :: (if send_ok BootReady then [BootReady] else []),
             Bridges {| st_shells := insert_shell ∅ {| session_id := DEFAULT_SHELL_SESSION_ID; master_fd := fd; child_pid := pid |};
                        st_env := boot_env st; st_files := files; st_clock := clock; st_rest := rest |})
        end
    | (_, _) => ([Ready version], Panics)
    end.

(** *** Variables *)

Lemma boot_msg_env st msg st' : boot_msg write_ok st msg = BootContinue st' \/ boot_msg write_ok st msg = BootDone st' ->
  env_valid (boot_env st) /\ Z.of_nat (length (boot_env st)) <= MAX_BOOT_ENV_VARS ->
  env_valid (boot_env st') /\ Z.of_nat (length (boot_env st')) <= MAX_BOOT_ENV_VARS.
Proof.
  intros Hm [Hv Hl]. destruct msg as [|k v| | | | |p d m| | | | | | | | |]; cbn [boot_msg] in Hm; try (by destruct Hm as [[= <-]|[=]]); try (by destruct Hm as [[=]|[= <-]]).
  - destruct (validate_env_key k) as [[]|] eqn:Ek; [|by destruct Hm as [[= <-]|[=]]]. destruct (validate_env_value v) as [[]|] eqn:Ev; [|by destruct Hm as [[= <-]|[=]]].
    cbn [is_ok negb] in Hm. destruct (Z.leb_spec MAX_BOOT_ENV_VARS (Z.of_nat (length (boot_env st)))); [by destruct Hm as [[= <-]|[=]]|]. destruct (env_preview v); [|by destruct Hm].
    destruct Hm as [[= <-]|[=]]. cbn [boot_env]. rewrite length_app. cbn [length]. split; [|lia]. apply Forall_app. split; [done|]. by repeat constructor.
  - destruct (negb _); [by destruct Hm as [[= <-]|[=]]|]. destruct (_ <=? _); [by destruct Hm as [[= <-]|[=]]|]. destruct (_ <? _); [by destruct Hm as [[= <-]|[=]]|].
    destruct (negb _); by destruct Hm as [[= <-]|[=]].
Qed.

Lemma boot_loop_env fuel : forall st stream st' rest, boot_loop write_ok fuel st stream = Booted st' rest ->
  env_valid (boot_env st) /\ Z.of_nat (length (boot_env st)) <= MAX_BOOT_ENV_VARS ->
  env_valid (boot_env st') /\ Z.of_nat (length (boot_env st')) <= MAX_BOOT_ENV_VARS.
Proof.
  induction fuel as [|fuel IH]; intros st stream st' rest; [done|]. cbn [boot_loop]. destruct (recv_host_msg stream) as [[m|] r]; [|by intros [= <- _]].
  destruct (boot_msg write_ok st m) as [st1|st1|] eqn:Em; [|intros [= <- _] Hst|done].
  - intros Hb Hst. apply (IH st1 r st' rest Hb). apply (boot_msg_env st m); auto.
  - apply (boot_msg_env st m); auto.
Qed.

Lemma set_var_valid k v env : validate_env_key k = Ok tt -> validate_env_value v = Ok tt -> set_var k v env = Some (<[k := v]> env).
Proof.
  unfold validate_env_key, validate_env_value, set_var. destruct (is_empty k); [done|]. destruct (contains_char k "="%char); [done|]. destruct (contains_char k NUL); [done|].
  destruct (contains_char v NUL); [done|]. done.
Qed.

Lemma set_vars_valid kvs : forall env, env_valid kvs -> set_vars kvs env = Some (foldl (fun e (kv : string * string) => <[kv.1 := kv.2]> e) env kvs).
Proof.
  induction kvs as [|[k v] kvs IH]; intros env Hv; [done|]. inversion_clear Hv as [|? ? [Hk Hval] Hv']. cbn [set_vars]. rewrite set_var_valid by done. cbn. by apply IH.
Qed.

Lemma shell_vars_valid : env_valid shell_vars.
Proof. by repeat constructor. Qed.

Lemma setup_step_script fs : setup_step copy_ok fs !! SETUP_SCRIPT = None.
Proof.
  unfold setup_step. destruct (fs !! SETUP_SCRIPT) as [f|] eqn:Hf; [|done]. rewrite lookup_delete_ne by done. apply lookup_delete_eq.
Qed.

(** Nothing but [Ready] is sent before the default shell runs. When the agent enters its
    bridge it has one shell, the setup script is gone from where the host put it, and every
    shell can set the variables it was given, which then have the last value sent for them,
    so none of its children panics there. *)
Theorem ready_means_started (files : Files) (stream : list byte) :
  match agent_main files stream with
  | (sent, Exits _) | (sent, Panics) => BootReady ∉ sent
  | (sent, Bridges s) =>
      sent = Ready version :: (if send_ok BootReady then [BootReady] else []) /\
      (exists fd pid, spawn DEFAULT_SHELL_SESSION_ID = Ok (fd, pid) /\ st_shells s = {[DEFAULT_SHELL_SESSION_ID := {| session_id := DEFAULT_SHELL_SESSION_ID; master_fd := fd; child_pid := pid |}]}) /\
      st_files s !! SETUP_SCRIPT = None /\
      (forall exec_ok inherited, spawn_shell_child true exec_ok inherited (st_env s) =
         if exec_ok then ChildExecs "/bin/bash" ["/bin/bash"; "--rcfile"; "/etc/clawcage-bashrc"; "-i"] (foldl (fun e (kv : string * string) => <[kv.1 := kv.2]> e) inherited (shell_vars ++ st_env s))
         else ChildExits 1)
  end.
Proof.
  unfold agent_main. destruct (send_ok (Ready version)); cbn [negb]; [|by apply not_elem_of_nil]. destruct (boot_handshake write_ok stream) as [clock r] eqn:Hb.
  destruct r as [st rest| |]; [|by intros [[=]|Hn%not_elem_of_nil]%elem_of_cons..]. destruct (spawn DEFAULT_SHELL_SESSION_ID) as [[fd pid]|] eqn:Hs; [|by intros [[=]|Hn%not_elem_of_nil]%elem_of_cons].
  cbn [st_shells st_files st_env]. split; [done|]. split; [by exists fd, pid|]. split.
  - apply setup_step_script.
  - intros exec_ok inherited. unfold spawn_shell_child. cbn [negb]. rewrite set_vars_valid; [done|]. apply Forall_app. split; [apply shell_vars_valid|].
    unfold boot_handshake in Hb. destruct (recv_host_msg stream) as [first rest0]. apply (f_equal snd) in Hb. cbn [snd] in Hb.
    by destruct (boot_loop_env _ _ _ _ _ Hb) as [? _]; [split; [constructor|done]|].
Qed.

End Main.

(** ** The first shells *)

(** A guest: its files, the setup scripts that run, those started since it was made, and how
    many succeeded. *)
Record Guest := { g_files : Files; g_running : list (list byte); g_started : list (list byte); g_succeeded : nat }.

Definition guest_new : Guest := {| g_files := ∅; g_running := []; g_started := []; g_succeeded := 0 |}.

(** The writable directories: /tmp is a tmpfs; /root is one unless there is a scratch disk. *)
Definition survives (persistent : bool) (path : string) : bool := negb (starts_with path "/tmp/") && (persistent || negb (starts_with path "/root/")).

Inductive GuestEvent :=
| Boots (written : list (string * list byte * Z)) (copy_ok : bool)
| ShellStarts
| SetupEnds (n : nat) (success : bool)
| Writes (path : string) (file : option (list byte * Z)).

Definition guest_event (persistent : bool) (g : Guest) (e : GuestEvent) : Guest :=
  match e with
  | Boots written copy_ok =>
      {| g_files := setup_step copy_ok (write_boot_files written (filter (fun f => survives persistent f.1 = true) (g_files g)));
         g_running := []; g_started := g_started g; g_succeeded := g_succeeded g |}
  | ShellStarts =>
      match g_files g !! rc_path, g_files g !! SETUP_DONE with
      | Some (script, _), None => {| g_files := g_files g; g_running := g_running g ++ [script]; g_started := g_started g ++ [script]; g_succeeded := g_succeeded g |}
      | _, _ => g
      end
  | SetupEnds n success =>
      match g_running g !! n with
      | None => g
      | Some _ =>
          let fs := if success then match g_files g !! SETUP_DONE with Some _ => g_files g | None => <[SETUP_DONE := ([], 420)]> (g_files g) end else g_files g in
          {| g_files := delete rc_path fs; g_running := delete n (g_running g); g_started := g_started g; g_succeeded := if success then S (g_succeeded g) else g_succeeded g |}
      end
  | Writes path file => {| g_files := partial_alter (fun _ => file) path (g_files g); g_running := g_running g; g_started := g_started g; g_succeeded := g_succeeded g |}
  end.

Definition guest_run (persistent : bool) (g : Guest) (es : list GuestEvent) : Guest := foldl (guest_event persistent) g es.

(** Nothing in the guest removes the marker. *)
Definition keeps_marker (e : GuestEvent) : Prop := match e with Writes path None => path <> SETUP_DONE | _ => True end.

Definition marked (g : Guest) : Prop := is_Some (g_files g !! SETUP_DONE).

Lemma write_boot_files_app ws ws' fs : write_boot_files (ws ++ ws') fs = write_boot_files ws' (write_boot_files ws fs).
Proof. apply foldl_app. Qed.

Lemma write_boot_files_keep written path : forall fs, is_Some (fs !! path) -> is_Some (write_boot_files written fs !! path).
Proof.
  induction written as [|w written IH]; intros fs Hf; [done|]. apply IH. destruct (decide (w.1.1 = path)) as [->|Hn]; [rewrite lookup_insert_eq|by rewrite lookup_insert_ne]. by eexists.
Qed.

Lemma setup_step_marker copy_ok fs : setup_step copy_ok fs !! SETUP_DONE = fs !! SETUP_DONE.
Proof.
  unfold setup_step. destruct (fs !! SETUP_SCRIPT); [|done]. rewrite !lookup_delete_ne by done. destruct (bool_decide _); [done|].
  rewrite lookup_alter_ne by done. destruct copy_ok; [by rewrite lookup_insert_ne|done].
Qed.

Lemma guest_event_marked g e : keeps_marker e -> marked g -> marked (guest_event true g e) /\ g_started (guest_event true g e) = g_started g.
Proof.
  intros Hk Hm. unfold marked in *. destruct e as [written copy_ok| |n success|path file]; cbn [guest_event].
  - cbn [g_files g_started]. split; [|done]. rewrite setup_step_marker. apply write_boot_files_keep. destruct Hm as [f Hf]. exists f. by apply map_lookup_filter_Some.
  - destruct Hm as [f Hf]. rewrite Hf. destruct (g_files g !! rc_path) as [[script mode]|]; rewrite ?Hf; split; try done; by exists f.
  - destruct (g_running g !! n); [|done]. cbn [g_files g_started]. split; [|done]. rewrite lookup_delete_ne by done. destruct success; [|done]. destruct Hm as [f Hf]. rewrite Hf. by exists f.
  - cbn [g_files g_started]. split; [|done]. destruct (decide (path = SETUP_DONE)) as [->|Hn]; [|by rewrite lookup_partial_alter_ne]. rewrite lookup_partial_alter_eq. by destruct file.
Qed.

Lemma guest_run_marked es : forall g, Forall keeps_marker es -> marked g -> g_started (guest_run true g es) = g_started g.
Proof.
  induction es as [|e es IH]; intros g Hk Hm; [done|]. inversion_clear Hk as [|? ? He Hk']. destruct (guest_event_marked g e He Hm) as [Hm' Hs]. unfold guest_run in *. cbn [foldl]. by rewrite IH.
Qed.

Lemma succeeded_marked es : forall g, Forall keeps_marker es -> (0 < g_succeeded g -> marked g)%nat -> (0 < g_succeeded (guest_run true g es) -> marked (guest_run true g es))%nat.
Proof.
  induction es as [|e es IH]; intros g Hk Hg; [done|]. inversion_clear Hk as [|? ? He Hk']. apply (IH _ Hk'). intros Hs.
  destruct (decide (0 < g_succeeded g)%nat) as [Hp|Hp]; [by apply guest_event_marked; auto|]. unfold marked. destruct e as [written copy_ok| |n success|path file]; cbn [guest_event] in *.
  - cbn in Hs. lia.
  - destruct (g_files g !! rc_path) as [[? ?]|], (g_files g !! SETUP_DONE); cbn in Hs; lia.
  - destruct (g_running g !! n); [|lia]. destruct success; cbn in *; [|lia]. rewrite lookup_delete_ne by done. destruct (g_files g !! SETUP_DONE) eqn:E; [by rewrite E; eexists|]. rewrite lookup_insert_eq. by eexists.
  - cbn in Hs. lia.
Qed.

(** On a scratch disk, once a setup script has succeeded none is started again, whatever the
    host delivers, however often the guest boots and whatever shells are opened, unless
    somebody in the guest removes the marker. *)
Theorem setup_not_repeated (es1 es2 : list GuestEvent) (Hkeep : Forall keeps_marker (es1 ++ es2)) (Hdone : (0 < g_succeeded (guest_run true guest_new es1))%nat) :
  g_started (guest_run true guest_new (es1 ++ es2)) = g_started (guest_run true guest_new es1).
Proof.
  apply Forall_app in Hkeep as [H1 H2]. unfold guest_run. rewrite foldl_app. fold (guest_run true guest_new es1). apply guest_run_marked; [done|]. apply succeeded_marked; [done|cbn; lia|done].
Qed.

(** ** Delivery *)

(** What [send_setup] sends is written by a guest that has room for it, whatever it wrote
    before. *)
Lemma boot_file_written write_ok st path data mode :
  validate_file_path path = Ok tt -> write_ok path = true -> file_count st < MAX_BOOT_FILES -> total_file_bytes st + Z.of_nat (length data) <= MAX_BOOT_FILE_BYTES ->
  apply_msg write_ok st (FileWrite path data mode) = {| boot_env := boot_env st; boot_files := boot_files st ++ [(path, data, mode)]; file_count := file_count st + 1; total_file_bytes := total_file_bytes st + Z.of_nat (length data) |}.
Proof.
  intros Hp Hw Hc Hb. unfold apply_msg. cbn [boot_msg]. rewrite Hp, Hw. cbn [is_ok negb]. destruct (Z.leb_spec MAX_BOOT_FILES (file_count st)); [lia|]. by destruct (Z.ltb_spec MAX_BOOT_FILE_BYTES (total_file_bytes st + Z.of_nat (length data))); [lia|].
Qed.

(** The script of the host is the one that the next shell runs, unless one has succeeded; the
    form values that come with it are removed before. *)
Theorem setup_delivered (write_ok : string -> bool) (st : BootState) (script : string) (setup_env : option string) (g : Guest)
    (Hwrite : write_ok SETUP_SCRIPT = true /\ write_ok SETUP_ENV = true)
    (Hroom : file_count st + 2 <= MAX_BOOT_FILES /\ total_file_bytes st + Z.of_nat (length (bytes_of_string script)) + Z.of_nat (length (bytes_of_string (default "" setup_env))) <= MAX_BOOT_FILE_BYTES)
    (Hboot : Forall (fun w => w.1.1 <> SETUP_DONE) (boot_files st)) (Hfresh : g_files g !! SETUP_DONE = None) :
  let st' := fold_left (apply_msg write_ok) (send_setup (Some script) setup_env) st in
  let g' := guest_event true g (Boots (boot_files st') true) in
  g_files g' !! rc_path = Some (bytes_of_string script, 493) /\ g_files g' !! SETUP_SCRIPT = None /\ g_files g' !! SETUP_ENV = None /\
  g_started (guest_event true g' ShellStarts) = g_started g ++ [bytes_of_string script].
Proof.
  intros st' g'.
  assert (exists more, boot_files st' = boot_files st ++ [(SETUP_SCRIPT, bytes_of_string script, 493)] ++ more /\ Forall (fun w => w.1.1 = SETUP_ENV) more) as (more & Hfiles & Hmore).
  { subst st'. unfold send_setup. cbn [app]. destruct Hroom as [Hr1 Hr2]. destruct setup_env as [e|]; cbn [fold_left default] in *.
    - rewrite (boot_file_written write_ok st) by first [done | lia | apply Hwrite]. rewrite boot_file_written by first [done | apply Hwrite | cbn [file_count total_file_bytes]; lia].
      exists [(SETUP_ENV, bytes_of_string e, 384)]. cbn [boot_files]. rewrite <- app_assoc. split; [done|]. by repeat constructor.
    - cbn in Hr2. rewrite (boot_file_written write_ok st) by first [done | lia | apply Hwrite]. exists []. cbn [boot_files app]. split; [done|constructor]. }
  assert (forall ws fs path, Forall (fun w : string * list byte * Z => w.1.1 <> path) ws -> write_boot_files ws fs !! path = fs !! path) as Hother.
  { induction ws as [|w ws IH]; intros fs path Hw; [done|]. inversion_clear Hw as [|? ? Hw1 Hw2]. unfold write_boot_files in *. cbn [foldl]. rewrite IH by done. by rewrite lookup_insert_ne. }
  set (fs := write_boot_files (boot_files st') (filter (fun f => survives true f.1 = true) (g_files g))).
  assert (fs !! SETUP_SCRIPT = Some (bytes_of_string script, 493) /\ fs !! SETUP_DONE = None) as [Hs Hd].
  { assert (Forall (fun w : string * list byte * Z => w.1.1 <> SETUP_SCRIPT /\ w.1.1 <> SETUP_DONE) more) as Hm by (eapply Forall_impl; [exact Hmore|]; intros w ->; done).
    unfold fs. rewrite Hfiles, !write_boot_files_app. split; (rewrite (Hother more); [|by eapply Forall_impl; [exact Hm|]; intros w [? ?]]); unfold write_boot_files at 1; cbn [foldl fst snd].
    - by rewrite lookup_insert_eq.
    - rewrite lookup_insert_ne by done. rewrite (Hother (boot_files st)) by done. apply map_lookup_filter_None. by left. }
  assert (g_files g' = delete SETUP_ENV (delete SETUP_SCRIPT (<[rc_path := (bytes_of_string script, 493)]> fs))) as Hg.
  { subst g'. cbn [guest_event g_files]. fold fs. unfold setup_step. rewrite Hs, Hd. cbn. by rewrite alter_insert_eq. }
  rewrite Hg. split; [by rewrite !lookup_delete_ne, lookup_insert_eq by done|]. split; [rewrite lookup_delete_ne by done; apply lookup_delete_eq|]. split; [apply lookup_delete_eq|].
  cbn [guest_event]. rewrite Hg, !lookup_delete_ne, lookup_insert_eq, lookup_insert_ne, Hd by done. reflexivity.
Qed.

(** ** A template *)

Module Demo.

Definition install : list byte := bytes_of_string "echo install".
Definition boots : GuestEvent := Boots [(SETUP_SCRIPT, install, 493); (SETUP_ENV, bytes_of_string "CLAWCAGE_FORM_name=x", 384)] true.

(** The script is started again after a failure, and not after a success. *)
Definition retried : list GuestEvent := [boots; ShellStarts; SetupEnds 0 false; ShellStarts; boots; ShellStarts; SetupEnds 0 true].
Definition later : list GuestEvent := [ShellStarts; boots; ShellStarts; Writes "/root/a" None].

Example retried_once : g_started (guest_run true guest_new retried) = [install; install] /\ g_succeeded (guest_run true guest_new retried) = 1%nat.
Proof. by vm_compute. Qed.

(** Two shells opened before the script has ended both run it. *)
Example setup_runs_twice : g_succeeded (guest_run true guest_new [boots; ShellStarts; ShellStarts; SetupEnds 0 true; SetupEnds 0 true]) = 2%nat.
Proof. by vm_compute. Qed.

(** Without a scratch disk the marker is lost, and every boot runs the script. *)
Example ephemeral_setup_repeated : g_succeeded (guest_run false guest_new [boots; ShellStarts; SetupEnds 0 true; boots; ShellStarts; SetupEnds 0 true]) = 2%nat.
Proof. by vm_compute. Qed.

(** The form values are gone when the script starts. *)
Example form_values_lost : let g := guest_run true guest_new [boots; ShellStarts] in g_running g = [install] /\ g_files g !! SETUP_ENV = None.
Proof. by vm_compute. Qed.

(** The boot of Boot's example, down to the bridge. *)
Example starts : let '(sent, r) := agent_main (H := demo_boot_rmp) "0.16" (fun _ => true) (fun _ => true) true (fun _ => Ok (7, 100)) ∅ (concat demo_frames) in
  sent = [Ready "0.16"; BootReady] /\ match r with Bridges s => st_env s = [("OPENAI_API_KEY", "clawcage-proxy-managed"); ("FOO", "bar")] /\ st_files s !! "/root/.bashrc" = Some (bytes_of_string "x=1", 384) | _ => False end.
Proof. vm_compute. repeat split. Qed.

End Demo.

Lemma setup_not_repeated_witness : g_started (guest_run true guest_new (Demo.retried ++ Demo.later)) = [Demo.install; Demo.install].
Proof. rewrite setup_not_repeated; [vm_compute; reflexivity|by repeat constructor|vm_compute; lia]. Defined.

Lemma setup_delivered_witness :
  let st := fold_left (apply_msg (fun _ => true)) (send_setup (Some "echo install") (Some "CLAWCAGE_FORM_name=x")) BootState_new in
  g_started (guest_event true (guest_event true guest_new (Boots (boot_files st) true)) ShellStarts) = [Demo.install].
Proof.
  intros st. destruct (setup_delivered (fun _ => true) BootState_new "echo install" (Some "CLAWCAGE_FORM_name=x") guest_new) as (_ & _ & _ & H);
    [by split|vm_compute; split; discriminate|by constructor|reflexivity|exact H].
Defined.
