(* ===== verification/Queries.v ===== *)
(** What the frontend asks about a running VM: get_vm_state, get_session_info and query_db of
    crates/clawcage-app/src/commands.rs, over the application's state, the index of sessions
    and the event log.

    The history that is shown is a path of the lifecycle ([shown_history]); the numbers are
    those of the log, and the mode and sizes those of the session's record while fewer than
    fifty sessions are newer ([session_info_shown]); no query changes a record, whatever its
    text ([queries_read_only]). *)

From Stdlib Require Import ZArith Lia Ascii.
From stdpp Require Import base numbers list gmap strings sorting.
From S2P Require Import Prelude RustStr Utf8 Pricing Events EventLog LogReader SessionTime SessionIndex SessionCleanup HostState HostTerminal HostApp HostControl.

(** ** The lifecycle *)

(** The derived Debug, which Display calls. *)
Definition HostState_debug (s : HostState) : string :=
  match s with
  | Created => "Created" | Booting => "Booting" | VsockConnected => "VsockConnected" | Handshaking => "Handshaking"
  | Running => "Running" | ShuttingDown => "ShuttingDown" | Stopped => "Stopped" | Error => "Error"
  end.

Record TransitionEntry := { te_from : string; te_to : string; te_trigger : string; te_duration_ms : f64 }.
Record VmStateResponse := { vs_state : string; vs_elapsed_ms : Z; vs_history : list TransitionEntry }.

Definition NANOS_PER_SEC : Z := 1000000000.

(** [Duration::as_secs_f64] and [as_millis() as u64] of a number of nanoseconds. *)
Definition as_secs_f64 (nanos : Z) : f64 := f64_add (f64_of_u64 (nanos / NANOS_PER_SEC)) (f64_div (f64_of_u64 (nanos mod NANOS_PER_SEC)) (f64_of_u64 NANOS_PER_SEC)).
Definition as_millis (nanos : Z) : Z := as_uN 64 (nanos / 1000000).

Definition transition_entry (t : Transition HostState) : TransitionEntry :=
  {| te_from := HostState_debug (tr_from t); te_to := HostState_debug (tr_to t); te_trigger := tr_trigger t;
     te_duration_ms := f64_mul (as_secs_f64 (tr_duration_in_from t)) (f64_of_u64 1000) |}.

Definition get_vm_state (now : Z) (s : AppState) : result VmStateResponse string :=
  let? instance := find_vm "no VM running" s in
  let sm := state_machine instance in
  Ok {| vs_state := HostState_debug (HostState.state sm); vs_elapsed_ms := as_millis (elapsed sm now); vs_history := map transition_entry (history sm) |}.

(** A path of entries from a state to a state. *)
Fixpoint entries_path (from : string) (es : list TransitionEntry) (to : string) : Prop :=
  match es with [] => from = to | e :: es => te_from e = from /\ entries_path (te_to e) es to end.

(** The history of a machine that the application made leads from Created to the state that is
    shown, step by step, and has at most seven. *)
Theorem shown_history (now : Z) (s : AppState) (r : VmStateResponse) (Hmachines : forall sid i, vms s !! sid = Some i -> host_reachable (state_machine i))
    (Hshown : get_vm_state now s = Ok r) : entries_path "Created" (vs_history r) (vs_state r) /\ (length (vs_history r) <= 7)%nat.
Proof.
  unfold get_vm_state, find_vm in Hshown. destruct (active_vm_id s) as [sid|]; [|done]. destruct (vms s !! sid) as [i|] eqn:Ei; [|done]. injection Hshown as <-. cbn [vs_history vs_state].
  destruct (lifecycle_terminates _ (Hmachines sid i Ei)) as (Hc & Hl & _). rewrite length_map. split; [|lia]. clear Hl. unfold HostState.state.
  change "Created" with (HostState_debug Created). revert Hc. generalize Created as from. induction (history (state_machine i)) as [|t h IH]; intros from Hc; cbn [chain map entries_path] in *; [by rewrite Hc|].
  destruct Hc as (<- & _ & _ & Hc). split; [done|]. by apply IH.
Qed.

(** ** The session *)

Record SessionInfoResponse := {
  si_session_id : string; si_mode : string; si_uptime_ms : Z; si_scratch_disk_size_gb : Z; si_ram_bytes : Z;
  si_total_requests : Z; si_allowed_requests : Z; si_denied_requests : Z; si_error_requests : Z; si_bytes_sent : Z; si_bytes_received : Z;
  si_model_call_count : Z; si_total_input_tokens : Z; si_total_output_tokens : Z; si_total_usage_details : gmap string Z;
  si_total_tool_calls : Z; si_total_estimated_cost_usd : f64;
}.

Section Info.
Context `{UsageJson}.
Variable fault : nat -> option string.
Variable tie : forall {A}, list A -> list A.
Variable sum_real : list f64 -> f64.
Variable usage_totals : list string -> result (option string) string.
(** [db.reader()] *)
Variable opens : Db -> bool.

Definition session_info (sid : string) (uptime : Z) (record : option SessionRecord) (stats : option SessionStats) : SessionInfoResponse :=
  let stat f := default 0 (f <$> stats) in
  {| si_session_id := sid; si_mode := default "gui" (sr_mode <$> record); si_uptime_ms := uptime;
     si_scratch_disk_size_gb := default 16 (sr_scratch_disk_size_gb <$> record); si_ram_bytes := default (4 * 1024 * 1024 * 1024) (sr_ram_bytes <$> record);
     si_total_requests := stat net_total; si_allowed_requests := stat net_allowed; si_denied_requests := stat net_denied; si_error_requests := stat net_error;
     si_bytes_sent := stat net_bytes_sent; si_bytes_received := stat net_bytes_received; si_model_call_count := stat st_model_call_count;
     si_total_input_tokens := stat total_input_tokens; si_total_output_tokens := stat total_output_tokens;
     si_total_usage_details := default ∅ (total_usage_details <$> stats); si_total_tool_calls := stat total_tool_calls;
     si_total_estimated_cost_usd := default f64_zero (total_estimated_cost_usd <$> stats) |}.

Definition live_stats (instance : option VmInstance) : option SessionStats :=
  db ← instance ≫= vi_log; if opens db then result_ok (session_stats sum_real usage_totals db) else None.

Definition get_session_info (now : Z) (s : AppState) : result SessionInfoResponse string * AppState :=
  match active_vm_id s with
  | Err e => (Err e, s)
  | Ok vm_id =>
      let instance := vms s !! vm_id in
      let uptime_ms := match instance with Some i => as_millis (elapsed (state_machine i) now) | None => 0 end in
      let '(records, idx) := recent fault (@tie) 50 (session_index s) in
      (let? records := match records with Ok r => Ok r | Err e => Err ("session index query: " +:+ e) end in
       Ok (session_info vm_id uptime_ms (list_find_first (has_id vm_id) records) (live_stats instance)),
       set_sessions idx (sessions_base s) s)
  end.

End Info.

(** *** The fifty newest *)

Lemma count_if_perm {A} (p : A -> bool) l l' : l ≡ₚ l' -> count_if p l = count_if p l'.
Proof. unfold count_if. induction 1 as [|x l l' _ IH|x y l|l1 l2 l3 _ IH1 _ IH2]; cbn [List.filter]; [done| | |congruence]; [destruct (p x); cbn [length]; lia|destruct (p x), (p y); done]. Qed.

Section Rank.
Context {A : Type} (leb : A -> A -> bool).
Hypothesis leb_total : forall x y, leb x y = true \/ leb y x = true.
Hypothesis leb_trans : forall x y z, leb x y = true -> leb y z = true -> leb x z = true.

Lemma sort_rows_sorted l : StronglySorted (fun x y => leb x y = true) (sort_rows leb l).
Proof.
  induction l as [|x l IH]; cbn [sort_rows]; [constructor|]. induction IH as [|y l' Hs IHs Hy]; cbn [insert_sorted]; [by repeat constructor|]. destruct (leb x y) eqn:E.
  - constructor; [by constructor|]. constructor; [done|]. eapply Forall_impl; [exact Hy|]. intros z Hz. by eapply leb_trans.
  - constructor; [done|]. rewrite insert_sorted_perm. constructor; [|done]. destruct (leb_total x y); [congruence|done].
Qed.

(** An element is among the first [n] of the sorted list if at most [n] come before it or are
    the like. *)
Lemma rank_take l r n : r ∈ l -> count_if (fun x => leb x r) l <= Z.of_nat n -> r ∈ take n (sort_rows leb l).
Proof.
  intros Hr Hc. rewrite <- (count_if_perm _ _ _ (sort_rows_perm leb l)) in Hc. pose proof (sort_rows_sorted l) as Hs. rewrite <- (sort_rows_perm leb l) in Hr.
  apply list_elem_of_split in Hr as (a & b & Hl). rewrite Hl in Hc, Hs |- *.
  assert (forall x, x ∈ a -> leb x r = true) as Ha.
  { clear -Hs. induction a as [|y a IH]; intros x Hx; [by apply elem_of_nil in Hx|]. cbn [app] in Hs. apply StronglySorted_inv in Hs as [Hs Hy]. apply elem_of_cons in Hx as [->|Hx]; [|by apply IH].
    rewrite Forall_forall in Hy. apply Hy. apply elem_of_app. right. left. }
  assert (length a < n)%nat as Hn.
  { unfold count_if in Hc. rewrite List.filter_app, length_app in Hc. cbn [List.filter] in Hc. assert (leb r r = true) as Hrr by (by destruct (leb_total r r)). rewrite Hrr in Hc. cbn [length] in Hc.
    assert (List.filter (fun x => leb x r) a = a) as Hfa.
    { clear -Ha. induction a as [|x a IH]; [done|]. cbn [List.filter]. rewrite Ha by left. f_equal. apply IH. intros y Hy. apply Ha. by right. }
    rewrite Hfa in Hc. lia. }
  rewrite take_app_ge by lia. apply elem_of_app. right. destruct (n - length a)%nat eqn:E; [lia|]. left.
Qed.

End Rank.

Lemma newest_first_total a b : newest_first a b = true \/ newest_first b a = true.
Proof. unfold newest_first. destruct (total String.le (sr_created_at b) (sr_created_at a)) as [H|H]; [left|right]; by apply Is_true_true. Qed.

Lemma newest_first_trans a b c : newest_first a b = true -> newest_first b c = true -> newest_first a c = true.
Proof. unfold newest_first. rewrite <- !Is_true_true. intros H1 H2. by apply (transitivity (R := String.le) H2 H1). Qed.

Section Shown.
Context `{UsageJson}.
Variable fault : nat -> option string.
Variable tie : forall {A}, list A -> list A.
Variable sum_real : list f64 -> f64.
Variable usage_totals : list string -> result (option string) string.
Variable opens : Db -> bool.
Hypothesis tie_perm : forall A (l : list A), tie l ≡ₚ l.
Hypothesis no_fault : forall n, fault n = None.

Abbreviation info := (get_session_info fault (@tie) sum_real usage_totals opens).

Lemma recent_finds r i : r ∈ sessions (ix_tables i) -> uniq (sessions (ix_tables i)) -> count_if (fun r' => newest_first r' r) (sessions (ix_tables i)) <= 50 ->
  exists records i', recent fault (@tie) 50 i = (Ok records, i') /\ list_find_first (has_id (sr_id r)) records = Some (read_session_row r).
Proof.
  intros Hr Hu Hc. unfold recent, select, statement. rewrite no_fault. cbn [andb]. do 2 eexists. split; [reflexivity|]. unfold sql_limit. change (as_i64 50 <? 0) with false. cbv iota. change (Z.to_nat (as_i64 50)) with 50%nat.
  assert (r ∈ take 50 (ordered (@tie) newest_first (sessions (ix_tables i)))) as Hin.
  { unfold ordered. apply rank_take; [apply newest_first_total|apply newest_first_trans|by rewrite tie_perm|]. rewrite (count_if_perm _ _ _ (tie_perm _ _)). done. }
  assert (NoDup (map sr_id (take 50 (ordered (@tie) newest_first (sessions (ix_tables i)))))) as Hnd.
  { rewrite <- firstn_map. eapply (sublist_NoDup _ (map sr_id (ordered (@tie) newest_first (sessions (ix_tables i))))); [|apply sublist_take]. unfold ordered. by rewrite sort_rows_perm, tie_perm. }
  revert Hin Hnd. generalize (take 50 (ordered (@tie) newest_first (sessions (ix_tables i)))). intros l. induction l as [|x l IH]; intros Hin Hnd; [by apply elem_of_nil in Hin|].
  cbn [map list_find_first] in *. apply NoDup_cons in Hnd as [Hx Hnd]. unfold has_id at 1. cbn [read_session_row sr_id]. apply elem_of_cons in Hin as [->|Hin]; [by rewrite bool_decide_true|].
  rewrite bool_decide_false; [by apply IH|]. intros E. apply Hx. rewrite E. by apply list_elem_of_fmap_2.
Qed.

(** For a VM that runs with a log that can be read, the numbers shown are those of the log,
    and the mode and the sizes are the ones recorded for its session, as long as no fifty
    other sessions are as new. *)
Theorem session_info_shown (now : Z) (s : AppState) (sid : string) (i : VmInstance) (d : Db) (st : SessionStats) (r : SessionRecord)
    (Hactive : active_vm_id s = Ok sid) (Hvm : vms s !! sid = Some i) (Hlog : vi_log i = Some d) (Hopens : opens d = true) (Hstats : session_stats sum_real usage_totals d = Ok st)
    (Hrow : r ∈ sessions (ix_tables (session_index s))) (Hid : sr_id r = sid) (Huniq : uniq (sessions (ix_tables (session_index s))))
    (Hnew : count_if (fun r' => newest_first r' r) (sessions (ix_tables (session_index s))) <= 50) :
  exists shown, (info now s).1 = Ok shown /\ si_session_id shown = sid /\ si_uptime_ms shown = as_millis (elapsed (state_machine i) now) /\
    si_mode shown = sr_mode r /\ si_scratch_disk_size_gb shown = as_uN 32 (sr_scratch_disk_size_gb r) /\ si_ram_bytes shown = as_uN 64 (sr_ram_bytes r) /\
    si_total_requests shown = Z.of_nat (length (net_events d)) /\ si_allowed_requests shown = count_if (decision_is "allowed") (net_events d) /\
    si_denied_requests shown = count_if (decision_is "denied") (net_events d) /\ si_error_requests shown = count_if (decision_is "error") (net_events d) /\
    si_model_call_count shown = Z.of_nat (length (model_calls d)) /\ si_total_tool_calls shown = Z.of_nat (length (tool_calls d)) /\
    si_total_input_tokens shown = total_input_tokens st /\ si_total_output_tokens shown = total_output_tokens st /\ si_total_estimated_cost_usd shown = total_estimated_cost_usd st.
Proof.
  destruct (recent_finds r (session_index s) Hrow Huniq Hnew) as (records & idx & Hrec & Hfind). rewrite Hid in Hfind.
  unfold get_session_info. rewrite Hactive, Hvm, Hrec. cbn [fst]. eexists. split; [reflexivity|]. rewrite Hfind. unfold live_stats. cbn [mbind option_bind]. rewrite Hlog. cbn [mbind option_bind]. rewrite Hopens, Hstats. cbn [result_ok].
  unfold session_stats in Hstats. repeat match type of Hstats with (match ?x with Ok _ => _ | Err _ => _ end) = _ => destruct x; [|done] end. injection Hstats as <-. by repeat split.
Qed.

(** Without a running VM there is no answer and nothing is asked of the index. *)
Theorem no_session_no_info (now : Z) (s : AppState) (e : string) (Hnone : active_vm_id s = Err e) : info now s = (Err e, s).
Proof. unfold get_session_info. by rewrite Hnone. Qed.

End Shown.

(** ** Queries *)

Section QueryDb.
Context `{SerdeJson}.
Variable fault : nat -> option string.
Variable json_f64 : f64 -> Value.
Variable as_i64_num : Value -> option Z.
Variable as_f64_num : Value -> option f64.
(** SQLite on the index, told whether writes are refused, and on the log of a session, which
    the reader opens read-only; [reader_error]: why it does not open. *)
Variable run_sql : bool -> string -> list Value -> Tables -> result string string * Tables.
Variable run_query : Db -> string -> list SqlValue -> result (list string * list (result (list SqlValue) string)) string.
Variable reader_error : Db -> option string.

Definition query_db (sql : string) (db : option string) (params : option (list Value)) (s : AppState) : result string string * AppState :=
  let params := default [] params in
  if bool_decide (default "session" db = "main") then
    match validate_select_only sql with
    | Err e => (Err e, s)
    | Ok _ => let '(r, idx) := SessionIndex.query_raw fault run_sql sql params (session_index s) in (r, set_sessions idx (sessions_base s) s)
    end
  else
    (let? vm_id := active_vm_id s in
     match vms s !! vm_id with
     | None => Err "no VM running"
     | Some instance =>
         match vi_log instance with
         | None => Err "network not initialized"
         | Some db_writer =>
             let? _ := validate_select_only sql in
             match reader_error db_writer with
             | Some e => Err ("db reader: " +:+ e)
             | None => match params with
                       | [] => LogReader.query_raw json_f64 as_i64_num as_f64_num (run_query db_writer) sql
                       | _ => query_raw_with_params json_f64 as_i64_num as_f64_num (run_query db_writer) sql params
                       end
             end
         end
     end, s).

(** SQLite refuses writes while it is told to. *)
Hypothesis query_only_keeps : forall sql params t, (run_sql true sql params t).2 = t.

(** Whatever the text of a query, no record of the index and nothing of the application's
    state changes, and the index takes writes afterwards unless SQLite refuses the pragma. A
    text that does not begin with SELECT, WITH or EXPLAIN does not reach a database. *)
Theorem queries_read_only (sql : string) (db : option string) (params : option (list Value)) (s : AppState) :
  let '(r, s') := query_db sql db params s in
  ix_tables (session_index s') = ix_tables (session_index s) /\ vms s' = vms s /\ running_venvs s' = running_venvs s /\ control_sent s' = control_sent s /\
  (forall e, validate_select_only sql = Err e -> is_ok r = false /\ s' = s) /\
  ((forall n, fault n = None) -> ix_query_only (session_index s) = false -> ix_query_only (session_index s') = false).
Proof.
  unfold query_db. destruct (bool_decide _).
  - destruct (validate_select_only sql) as [[]|e] eqn:Ev; [|by repeat split]. unfold SessionIndex.query_raw, pragma_query_only at 1. destruct (fault _) as [e|] eqn:Ef.
    + repeat split; try done.
    + cbn [ix_query_only ix_tables ix_statements]. pose proof (query_only_keeps sql (default [] params) (ix_tables (session_index s))) as Hq. destruct (run_sql true sql (default [] params) (ix_tables (session_index s))) as [r t]. cbn [snd] in Hq. subst t.
      unfold pragma_query_only. cbn [ix_statements ix_tables]. destruct (fault (S _)) as [e|] eqn:Ef2; (repeat split; try done). intros Hf. by rewrite Hf in Ef2.
  - split; [done|]. split; [done|]. split; [done|]. split; [done|]. split; [|done]. intros e He. split; [|done].
    destruct (active_vm_id s); [|done]. destruct (vms s !! _) as [i|]; [|done]. destruct (vi_log i); [|done]. by rewrite He.
Qed.

End QueryDb.

(** ** The VM of HostApp's example *)

Module Demo.

Definition info (s : AppState) : result SessionInfoResponse string * AppState :=
  @get_session_info HostApp.Demo.no_usage (fun _ => None) (fun _ l => l) (fun _ => f64_zero) (fun _ => Ok None) (fun _ => true) 2500000000 s.

Definition row (id : string) (scratch_gb : Z) (created_at : string) : SessionRecord :=
  session_record {| br_session_id := id; br_scratch_gb := scratch_gb; br_ram_bytes := 4294967296; br_rootfs := true |} created_at.

Definition small : SessionRecord := row "20260225-143052-a7f3" 8 "2026-02-25T14:30:52Z".

(** A session with a disk of 8 GB and [n] newer ones. *)
Definition crowded (n : nat) : AppState :=
  set_sessions {| ix_tables := SessionIndex.set_sessions (map (fun k => row (show_Z (Z.of_nat k)) 16 "2026-02-26T00:00:00Z") (seq 0 n) ++ [small]) Tables_empty; ix_query_only := false; ix_statements := 0 |}
    None HostApp.Demo.running.

Example shown : exists r, (info (crowded 49)).1 = Ok r /\ si_mode r = "gui" /\ si_scratch_disk_size_gb r = 8.
Proof. eexists. by vm_compute. Qed.

(** After fifty newer sessions the sizes shown are the defaults. *)
Example defaults_shown : exists r, (info (crowded 50)).1 = Ok r /\ si_scratch_disk_size_gb r = 16.
Proof. eexists. by vm_compute. Qed.

End Demo.

Lemma shown_history_witness : exists r, get_vm_state 5000 HostApp.Demo.running = Ok r /\ entries_path "Created" (vs_history r) "Booting".
Proof.
  destruct (get_vm_state 5000 HostApp.Demo.running) as [r|e] eqn:Er; [|vm_compute in Er; discriminate]. exists r. split; [reflexivity|].
  assert (vs_state r = "Booting") as <- by (vm_compute in Er; by injection Er as <-).
  apply (shown_history 5000 HostApp.Demo.running r); [|exact Er]. intros sid i Hi. exists 0.
  assert (state_machine i = (transition (new_host 0) Booting "vm_started" 1000).2) as ->.
  { destruct (decide (sid = "20260225-143052-a7f3")) as [->|Hn].
    - vm_compute in Hi. by injection Hi as <-.
    - assert (vms HostApp.Demo.running = <["20260225-143052-a7f3" := default i (vms HostApp.Demo.running !! "20260225-143052-a7f3")]> ∅) as Hv by (vm_compute; reflexivity).
      rewrite Hv, lookup_insert_ne in Hi by done. by rewrite lookup_empty in Hi. }
  apply runs_step, runs_refl.
Defined.

Lemma session_info_shown_witness : exists r, (Demo.info (Demo.crowded 49)).1 = Ok r /\ si_scratch_disk_size_gb r = 8.
Proof.
  destruct (vms (Demo.crowded 49) !! "20260225-143052-a7f3") as [i|] eqn:Ei; [|vm_compute in Ei; discriminate].
  destruct (@session_stats HostApp.Demo.no_usage (fun _ => f64_zero) (fun _ => Ok None) Db_empty) as [st|] eqn:Es; [|vm_compute in Es; discriminate].
  destruct (@session_info_shown HostApp.Demo.no_usage (fun _ => None) (fun _ l => l) (fun _ => f64_zero) (fun _ => Ok None) (fun _ => true) (fun A l => Permutation_refl l) (fun _ => eq_refl)
    2500000000 (Demo.crowded 49) "20260225-143052-a7f3" i Db_empty st Demo.small) as (r & Hr & _ & _ & _ & Hd & _).
  - vm_compute. reflexivity.
  - exact Ei.
  - vm_compute in Ei. by injection Ei as <-.
  - reflexivity.
  - exact Es.
  - apply elem_of_app. right. left.
  - reflexivity.
  - apply (bool_decide_unpack (NoDup _)). vm_compute. exact I.
  - apply Z.leb_le. vm_compute. reflexivity.
  - exists r. split; [exact Hr|]. rewrite Hd. reflexivity.
Defined.

Lemma no_session_no_info_witness : Demo.info HostApp.Demo.initial = (Err "no environment selected", HostApp.Demo.initial).
Proof. apply no_session_no_info. vm_compute. reflexivity. Defined.
